(* ===== verification/_CoqProject ===== *)
-Q . S2P
Prelude.v
StateMachine.v
StateMachineInv.v
StateMachineProps.v
SingleHeightConsensus.v
ShcProps.v
RunHeight.v
ConsensusTheorems.v
StorageTables.v
StarknetTypes.v
StorageTxn.v
Header.v
Body.v
BodyProps.v
EventsProps.v
State.v
StateProps.v
StateTheorems.v
StorageVersion.v
Serde.v
SerdeLaws.v
Mdbx.v
SimpleTable.v
CommonPrefixProps.v
SerdeTypes.v
SerdeTypesLaws.v
ClientObjects.v
P2pServer.v
P2pClient.v
P2pDiffProps.v
P2pProps.v
P2pHonest.v
P2pTheorems.v
ClientProps.v
PendingSync.v
Sync.v
SyncProps.v
SyncTheorems.v
CentralSource.v
CentralTheorems.v
ProtoCommon.v
ProtoSync.v
ProtoTransaction.v
ProtoLaws.v
ProtoProps.v
ProtoTxnProps.v
ProtoClassProps.v
ProtoTheorems.v
RpcConvert.v
Rpc.v
RpcProps.v
RpcEvents.v
RpcTheorems.v
Hashes.v
HashProps.v
BlockHashProps.v
PeerManager.v
PeerManagerProps.v
Sqmr.v
SqmrProps.v
SqmrRuns.v
NetworkManager.v
NetworkProps.v
NetworkTheorems.v
MmapFile.v
TableTheorems.v
StorageWitnesses.v
TableWitnesses.v
P2pWitnesses.v
SyncWitnesses.v
ProtoWitnesses.v
NetworkWitnesses.v
RpcWitnesses.v
HashWitnesses.v
Config.v
ConfigProps.v
NodeConfig.v
GatewayClient.v
Execution.v
ExecutionProps.v
