(* ===== verification/Prelude.v ===== *)
(** * Papyrus: a verification development

    Papyrus is a Starknet full node written in Rust. This development models
    its consensus, its storage, its synchronisation, its network, the messages on
    the wire, the hashes of blocks and transactions, the JSON-RPC server, the
    execution behind it and the configuration as Rocq functions, translated from the sources under [src/], and
    proves what makes them correct. The file this comment opens is the prelude: the
    monad of the handlers, machine integers, indexing by an integer, the iteration
    order of hash maps and the lemmas and tactics the other files share.

    ** The program and the files that model it

    Consensus ([src/crates/sequencing/papyrus_consensus/src/]) decides one block
    per height. From the inside out:
    - [StateMachine.v] is [state_machine.rs]: a [StateMachine] per height, with
      [handle_event], its buffer of events that come before the proposal, its
      internal queue and every handler the queue calls. [StateMachineInv.v] has
      its invariants and [StateMachineProps.v] its theorems.
    - [SingleHeightConsensus.v] is [single_height_consensus.rs] with [types.rs]:
      the object that owns the state machine, checks proposals and votes, signs
      its own votes and returns the decision. The node behind it is the class
      [ConsensusContext], as the trait of the same name in the source.
      [ShcProps.v] has the invariant of the object.
    - [RunHeight.v] is [papyrus_consensus_context.rs], the instance of that class
      the node uses, which answers from the blocks already synced; and [lib.rs]:
      [run_height] and [run_consensus] over the items the network delivers.
      [ConsensusTheorems.v] states what consensus promises.

    The storage ([src/crates/papyrus_storage/src/]) keeps the blocks:
    - [StorageTables.v] is the contract of the tables ([db/table_types/mod.rs]): a
      table is a finite map with ordered keys, with the operations of the traits
      [Table] and [DbCursorTrait]; cursors are related to the sorted list of the
      entries.
    - [StarknetTypes.v] has the stored types; [StorageTxn.v] the transaction
      ([lib.rs]): a record of the tables, the files, the scope, and the errors.
      The class [StorageFiles] is what the components need of the files.
    - [Header.v] is [header.rs] with its theorems, [Body.v] is [body/mod.rs] with [body/events.rs],
      [State.v] is [state/mod.rs] with [class.rs], [compiled_class.rs] and
      [base_layer.rs]: one definition per reader, writer and loop. [StorageVersion.v] is [version.rs] and the part of [open_storage]
      that checks the versions.
    - [BodyProps.v], [EventsProps.v], [StateProps.v] and [StateTheorems.v] relate the
      components to abstract states: the list of the headers, of the bodies, of the
      state diffs.
    - [Serde.v] and [SerdeTypes.v] are [db/serialization.rs], [compression_utils.rs]
      and [serialization/serializers.rs]: a reader and a writer of bytes per type;
      [SerdeLaws.v] and [SerdeTypesLaws.v] prove them lawful. [MmapFile.v] is
      [mmap_file/mod.rs].
    - [Mdbx.v] is what the code relies on of libmdbx; [SimpleTable.v] is
      [db/table_types/simple_table.rs] with [dup_sort_tables.rs]. [CommonPrefixProps.v] and [TableTheorems.v] show that
      they implement [StorageTables.v]; the latter also states what the
      serialization guarantees and builds the instance of [StorageFiles] from the
      memory-mapped files.
    - [StorageWitnesses.v] and [TableWitnesses.v] have concrete instances of the
      interfaces, apply each theorem to them, and run the examples of unexpected
      behaviour.

    The peer-to-peer synchronisation ([src/crates/papyrus_p2p_sync/src/]) copies
    the chain of another node:
    - [P2pServer.v] has the messages ([papyrus_protobuf/src/sync.rs]) and is
      [server/]: the answer to a query from a read transaction.
    - [P2pClient.v] is [client/]: the two streams as state machines and the loop
      that writes what they yield; [client_step] interleaves them in any order.
    - [P2pDiffProps.v] is about state diffs in parts, [P2pProps.v] about the
      answers of a server and the invariant of the client, and [P2pHonest.v]
      composes the two. [P2pTheorems.v] states
      what they guarantee, [P2pWitnesses.v] runs them.

    The feeder synchronisation ([src/crates/papyrus_sync/src/]) downloads the chain
    from the gateway of the sequencer:
    - [ClientObjects.v] is [starknet_client/src/reader/objects/], the gateway's
      blocks, receipts and state updates with their conversion to the node's types,
      and [papyrus_common/src/pending_classes.rs]; [ClientProps.v] characterises the
      blocks that are converted.
    - [Sync.v] is [lib.rs]: the handlers of the events, the
      reverts, the five streams, and [sync_step], the loop with its restarts, in
      which the streams interleave in any order. [PendingSync.v] has the
      types both share and is [pending_sync.rs]: the tasks that download the pending
      block.
    - A write transaction that is dropped leaves the tables as before while the files
      keep what was appended ([Sync.v]). [SyncProps.v] relates each handler to the
      chain the storage holds, [SyncTheorems.v] and [PendingSync.v] have the
      theorems.
    - [CentralSource.v] is [sources/central.rs] with [state_update_stream.rs].
      [CentralTheorems.v] shows that it keeps the promises under which
      [SyncTheorems.v] is stated. [SyncWitnesses.v] runs all of them.

    The messages of both protocols ([src/crates/papyrus_protobuf/src/converters/]) are
    protobuf messages:
    - [ProtoCommon.v] has the generated types; it, [ProtoSync.v] and
      [ProtoTransaction.v] are the converters ([mod.rs] with [common.rs];
      [header.rs], [event.rs], [state_diff.rs] and [receipt.rs]; [transaction.rs],
      [class.rs] and [consensus.rs]), one definition per [From] and [TryFrom].
    - [ProtoLaws.v], [ProtoProps.v], [ProtoTxnProps.v] and [ProtoClassProps.v] have a
      round trip and a typing lemma per converter; [ProtoTheorems.v] states what
      arrives of what is sent, [ProtoWitnesses.v] runs the converters.

    The network ([src/crates/papyrus_network/src/]) carries queries and answers
    between the nodes:
    - [PeerManager.v] has the events of the swarm and of the behaviours, and is
      [peer_manager/]: the peers, their reputation, and the assignment of peers to
      sessions, with a class [PeerTrait] as the source has.
    - [Sqmr.v] is [sqmr/messages.rs] and [sqmr/protocol.rs], messages with a length
      in front, read byte by byte; and [sqmr/handler.rs],
      [sqmr/handler/inbound_session.rs] and [sqmr/behaviour.rs]: the sessions of a
      connection and the protocol of single query and multiple responses.
    - [NetworkManager.v] is [network_manager/], [discovery/], [gossipsub_impl.rs],
      [mixed_behaviour.rs] and [utils.rs]: registration, the branches of the main
      loop and the forwarding of events between the behaviours.
    - [PeerManagerProps.v], [SqmrProps.v], [SqmrRuns.v] and [NetworkProps.v] have the
      invariants and the runs; [NetworkTheorems.v] states what the network
      guarantees, [NetworkWitnesses.v] runs it.

    The JSON-RPC server ([src/crates/papyrus_rpc/src/]) answers from the storage and
    the pending block, in version 0.7 of the API ([v0_7/]):
    - [RpcConvert.v] has the types of the answers and their conversions
      ([transaction.rs], [block.rs], [state.rs], [broadcasted_transaction.rs],
      [deprecated_contract_class.rs], [write_api_result.rs], [write_api_error.rs],
      [error.rs]), and the objects of the gateway a transaction is forwarded to
      ([starknet_client/src/writer/objects/]).
    - [Rpc.v] is [api/api_impl.rs] with [api/mod.rs], [lib.rs], [syncing_state.rs],
      [compression_utils.rs] and the readers of the pending state in
      [papyrus_execution/src/execution_utils.rs]: one definition per method.
    - [RpcProps.v] and [RpcEvents.v] have the lemmas on the readers and on the pages
      of events; [RpcTheorems.v] states what the methods answer, [RpcWitnesses.v]
      runs them. The crates it calls are [RpcCrates] with [RpcCratesSpec].

    The hashes ([src/crates/papyrus_common/src/]):
    - [Hashes.v] is [transaction_hash.rs], [block_hash.rs],
      [state_diff_commitment.rs] and [class_hash.rs]. The hash functions are
      parameters ([HashCrates]); a calculation records what it hashes, so that the
      theorems can speak of collisions among the inputs that occurred and need no
      injective hash function.
    - [HashProps.v] and [BlockHashProps.v] have the theorems, [HashWitnesses.v]
      runs them with a hash function that has no collision on the examples.

    The configuration ([src/crates/papyrus_config/src/]) and the node that reads it:
    - [Config.v] is the crate: [dumping.rs], [loading.rs], [command.rs],
      [presentation.rs], [validators.rs] and [converters.rs]. A [BTreeMap] is the
      list of its entries in order; serde_json, clap and the files are the classes
      [SerdeJsonApi], [ClapApi] and [ConfigIo]. [ConfigProps.v] has its theorems.
    - [NodeConfig.v] has the configuration structures of all crates with their
      deserializers, the pointers and the version of [papyrus_node/src/], and the
      start of the node in [main.rs] with the construction of its network
      ([bin_utils/mod.rs], [NetworkManager::new]; libp2p is the class [Libp2pApi]);
      it shows that the configuration of the node is loaded back from its file, and
      runs the theorems on configurations.

    The clients of the gateways:
    - [GatewayClient.v] is [starknet_client/src/lib.rs], [retry.rs],
      [reader/mod.rs], [writer/mod.rs] and the codes of [starknet_error.rs]: the
      requests with their retries and errors, against a network whose answers are an
      input; and the latest proved block of [papyrus_base_layer/src/]. The crates
      are [ClientCrates] (laws [ClientCratesSpec]), [UrlApi], [ReaderJson],
      [WriterJson] and [EthereumApi].

    The execution ([src/crates/papyrus_execution/src/]) and the methods that use it:
    - [Execution.v] is the crate ([lib.rs], [objects.rs], [execution_utils.rs],
      [state_reader.rs]) and the methods of [papyrus_rpc/src/v0_7/api/api_impl.rs]
      that call, estimate, simulate and trace, with [v0_7/execution.rs],
      [pending.rs] and [api/mod.rs]. The blockifier is the class [Blockifier]: each
      of its operations is a program of state reads ([StateProg]), which the reader
      of the node answers. Every read opens a transaction of its own; the storage
      that the [k]-th transaction of a request sees is a function of [k] ([World]),
      so that the synchronisation may write between any two reads.
    - [ExecutionProps.v] has the theorems and runs them with a blockifier that reads
      and writes the storage of a contract.

    ** How the code is represented

    A method on [&mut self], or one that consumes and returns a transaction, is a
    function from the state to [Done] with the new state and the value, [Fail] with
    an error, or [Panic] ([assert!], [expect], [unimplemented!], an index out of
    range). Integers are [Z]; where the source computes at a width the wrap-around
    of the release build is written out ([u32_add], [u64_add]). Hashes, addresses
    and field elements are integers. A [HashMap] or [HashSet] whose iteration order
    matters is iterated in an order given by a parameter, of which only that it is
    a permutation is known.

    Code outside the repository is a parameter: the block number arithmetic and
    [StateNumber] of [starknet_api], the crates the serializers call (class
    [SerdeCrates], laws [SerdeCratesSpec]), the length and the thin form of a state
    diff, the times of chrono, the cache of the crate lru, the key-value store
    libmdbx ([Mdbx.v]), the field elements and the programs of the messages
    ([FeltApi], [TransactionApi], [ProgramApi]) and the lengths of unsigned-varint
    ([VarintApi]). Each has a concrete instance, so that the theorems are not
    vacuous. What prost encodes is where the messages stop: a message is a record
    whose fields are as the generated types have them. libp2p is the environment of
    the network: the events it delivers, the bytes of its streams, the readings of
    the clock and the results of the channels are inputs, the calls to it are
    recorded.

    ** Fuel

    Loops that are not structural have fuel, and running out of it is [Panic], so
    that a theorem which states a result also states termination.
    - The queue of the state machine ([handle_enqueued_events_loop]) and the event
      loop of a height have fuel from the number of events; [queue_loop_terminates]
      and [shc_events_terminate] show that it suffices.
    - [collect_objects], [find_next_loop], [advance_loop] and
      [update_casm_marker_loop] visit each entry of a table at most once; their fuel
      is the number of entries plus a constant, and the theorems on the functions
      that call them state their results.
    - [deserialize_NestedIntList] reads at least a byte per level; its fuel is the
      number of bytes plus one.
    - [revert_blocks], [skip_blocks_without_classes] and [schedule_updates] step
      through block numbers; their fuel is the distance to go.
    - [run_consensus] never returns in the source; its fuel bounds the heights.
    - The fuel of [get_events] bounds the events the iterator of the storage yields;
      [events_paged] states its result for any fuel beyond their number.
    - [replace_loop] consumes a character per step; its fuel is the length of the
      text.

    ** What the theorems show

    Consensus: agreement unless more than a third of the validators sign two
    blocks; every decision carries a quorum of precommits by distinct validators;
    the machine votes at most once; given a proposal and two quorums it decides, in
    every order of arrival, and a height in which all events speak of one block
    never panics; votes are counted once and conflicting ones refused; messages of
    later heights are kept; the loops terminate; the quorum arithmetic is exact
    below [2^31] validators.

    Storage: every writer refines an operation on an abstract list (append, revert
    the last, leave alone), every reader returns what the list says, with the
    errors of each branch; a read of an old state is not changed by new blocks; a
    revert restores the relation of the block before; the iterators of the events
    return exactly the events asked for; opening checks and updates the versions.
    Bytes: every value of a table or a file reads back from what was written, keys are
    ordered as their bytes, narrow encodings are exact modulo their width, appended
    objects are read back from the file, which grows by whole steps. The tables on the byte store
    implement the contract the components are written against.

    Synchronisation: a client keeps its storage consistent whatever its peers
    answer, as long as the storage is not full; the server answers with the blocks
    asked for, in order, and always ends its answer; a state diff survives its split
    into parts; a client of an honest peer follows it in every interleaving and can
    always reach its end, with the state of the peer but for the nonces of contracts
    whose class was replaced. The feeder synchronisation keeps a linked chain with
    bodies and a prefix of the state diffs in every run, with failures,
    reorganisations and restarts, and panics only on a timestamp that chrono does not
    have; a revert leaves the longest chain shared with the gateway; the downloads of
    the gateway arrive in order with their own classes, for updates without the
    repetitions that make the code panic; the pending block gets all its classes; a block of
    the gateway is accepted exactly when its receipts and fields fit.

    Messages: headers, transactions and consensus messages that are converted and
    sent arrive as they were; no conversion of regular bytes panics but that of a
    receipt, whose panics are characterised.

    Network: every query is handed to one connection, under every interleaving of
    the behaviours, the swarm and the peers; the responses of a server arrive in
    order and success means that all of them did; the peer manager loses no session,
    takes the unblocked peers in turn, leaves a reported peer alone for its time and
    serves the sessions that waited; the manager forwards every response.

    Server: the pages of events that follow a token are together the events of the
    filter, in order, without a gap or a repetition; the methods on state, blocks,
    receipts and state updates answer what the chain and the pending block say, with
    the error of each branch; a transaction survives the conversion to the gateway.

    Hashes: two transactions with one hash agree in every field the hash covers,
    unless the hash function collides on inputs that occurred; the validation of
    transactions and headers accepts exactly the forms that were ever used, and its
    errors and panics are characterised; a commitment determines a state diff, a
    class, and of a body the hashes, the signatures its version covers and the events.

    Configuration: the command line wins over the custom files and those over the
    default file, pointers take the value of their target and an optional parameter
    that is none is null, if no parameter lies below another and no path starts with
    the text of one that is none without lying below it; what is private does not
    appear in the public presentation; the configuration of the node satisfies these
    conditions and is loaded back from its file, field by field; and the node starts
    exactly the tasks it is configured to, or panics for the configurations and the
    network failures that are named.

    Gateway clients: a request is repeated only after an answer that may change and
    within the configured number and delays; the readers return the object, nothing
    exactly for the error of a missing object, and an error otherwise.

    Execution: for every blockifier, an execution at a state of the chain ends as if
    the storage had not changed, whatever blocks are appended between its reads; the
    trace of a transaction is the entry of the trace of its block; an estimate has a
    fee for each transaction or names the first that reverts.

    Examples show the panics a peer can cause in consensus, a revert that leaves
    an entry behind, offsets that skip events, a reopened file that is too small,
    versions lost or written again when a storage is opened, a nonce that is
    reset on the client when the class of a contract is replaced, and in the feeder
    synchronisation a watchdog that fires while headers advance, a stream that spins
    behind the gateway and classes of the pending block that are never downloaded;
    in the network a timer that is forgotten, sessions that are assigned twice or
    reported after they were dropped, and a count that never decreases; and in the
    execution gas that is counted three times, a pending block without its old block
    hash and a simulated declaration of class 0.

    ** What is not modelled

    The interleaving of the tasks of a node and the polling inside the consensus
    context; the threads that share a storage, its locks, the asynchronous flush and
    the metrics; failures of the operating system. What the
    blockifier computes, whose sources are not in the repository; version 0.6 of the API has the methods of version 0.7
    with types of its own; the middleware and the monitoring gateway wrap HTTP
    libraries. The migrations of the storage
    are empty files. Procedural macros, test utilities, the load test and the
    command line tools have no behaviour of the node. *)
From stdpp Require Import base gmap list strings fin_maps.
From Stdlib Require Import ZArith Lia.

#[global] Open Scope Z_scope.

(** ** Effects

    Every handler of the program that takes [&mut self] (or consumes and
    returns a transaction) is a function from a state to one of three results:
    it returns a value, it returns a Rust [Err] (the state mutated so far is
    kept, since the caller still owns the object), or it panics ([assert!],
    [expect], [unimplemented!], [unreachable!]). *)
Inductive res (S E A : Type) : Type :=
| Done (s : S) (a : A)
| Fail (s : S) (e : E)
| Panic.

Arguments Done {S E A} s a.
Arguments Fail {S E A} s e.
Arguments Panic {S E A}.

(** The state/error/panic monad. *)
Definition M (S E A : Type) : Type := S -> res S E A.

Definition ret {S E A} (a : A) : M S E A := fun s => Done s a.

Definition bind {S E A B} (m : M S E A) (k : A -> M S E B) : M S E B :=
  fun s =>
    match m s with
    | Done s' a => k a s'
    | Fail s' e => Fail s' e
    | Panic => Panic
    end.

(** Reading and replacing the state, returning an [Err], panicking. *)
Definition get {S E} : M S E S := fun s => Done s s.
Definition put {S E} (s' : S) : M S E unit := fun _ => Done s' tt.
Definition modify {S E} (f : S -> S) : M S E unit := fun s => Done (f s) tt.
Definition raise {S E A} (e : E) : M S E A := fun s => Fail s e.
Definition panic {S E A} : M S E A := fun _ => Panic.

(** Rust's [assert!]. *)
Definition assert_ {S E} (b : bool) : M S E unit := if b then ret tt else panic.

(** Rust's [Option::expect] and [Option::unwrap]. *)
Definition expect {S E A} (o : option A) : M S E A :=
  match o with Some a => ret a | None => panic end.

(** [map_err] by [?]: the same computation with its error wrapped. *)
Definition map_err {S E E' A} (f : E -> E') (m : M S E A) : M S E' A :=
  fun s => match m s with Done s' a => Done s' a | Fail s' e => Fail s' (f e) | Panic => Panic end.

(** [ok_or(e)?]. *)
Definition ok_or_raise {S E A} (e : E) (o : option A) : M S E A :=
  match o with Some a => ret a | None => raise e end.

Declare Scope papyrus_scope.
Delimit Scope papyrus_scope with papyrus.
Notation "'let!' x ':=' c 'in' k" := (bind c (fun x => k))
  (at level 10, x pattern, c at level 100, k at level 200,
   format "'[v' 'let!'  x  ':='  c  'in' '/' k ']'") : papyrus_scope.
Notation "c ';!' k" := (bind c (fun _ => k))
  (at level 199, right associativity, format "'[v' c  ';!' '/' k ']'") : papyrus_scope.
#[global] Open Scope papyrus_scope.

(** [for x in l { body }] with a body that can fail. *)
Fixpoint for_each {S E A} (l : list A) (body : A -> M S E unit) : M S E unit :=
  match l with
  | [] => ret tt
  | x :: l' => bind (body x) (fun _ => for_each l' body)
  end.

Lemma bind_Done {S E A B} (m : M S E A) (k : A -> M S E B) s s2 b :
  bind m k s = Done s2 b <-> exists s1 a, m s = Done s1 a /\ k a s1 = Done s2 b.
Proof.
  unfold bind; split.
  - destruct (m s) as [s1 a|s1 e|]; naive_solver.
  - intros (s1 & a & -> & H); exact H.
Qed.

Lemma bind_Fail {S E A B} (m : M S E A) (k : A -> M S E B) s s2 e :
  bind m k s = Fail s2 e <->
  m s = Fail s2 e \/ exists s1 a, m s = Done s1 a /\ k a s1 = Fail s2 e.
Proof.
  unfold bind; split.
  - destruct (m s) as [s1 a|s1 e'|]; naive_solver.
  - intros [->|(s1 & a & -> & H)]; [reflexivity|exact H].
Qed.

Lemma bind_Panic {S E A B} (m : M S E A) (k : A -> M S E B) s :
  bind m k s = Panic <-> m s = Panic \/ exists s1 a, m s = Done s1 a /\ k a s1 = Panic.
Proof.
  unfold bind; split.
  - destruct (m s) as [s1 a|s1 e'|]; naive_solver.
  - intros [->|(s1 & a & -> & H)]; [reflexivity|exact H].
Qed.

Lemma bind_step {S E A B} (m : M S E A) (k : A -> M S E B) s s1 a :
  m s = Done s1 a -> bind m k s = k a s1.
Proof. unfold bind; intros ->; reflexivity. Qed.

Lemma bind_assoc {S E A B C} (m : M S E A) (k : A -> M S E B) (h : B -> M S E C) s :
  bind (bind m k) h s = bind m (fun a => bind (k a) h) s.
Proof. unfold bind; destruct (m s); reflexivity. Qed.

Lemma bind_ext {S E A B} (m m' : M S E A) (k k' : A -> M S E B) s :
  (forall s, m s = m' s) -> (forall a s, k a s = k' a s) -> bind m k s = bind m' k' s.
Proof. intros Hm Hk. unfold bind. rewrite Hm. destruct (m' s); auto. Qed.

Lemma for_each_app {S E A} (l1 l2 : list A) (body : A -> M S E unit) s :
  for_each (l1 ++ l2) body s = bind (for_each l1 body) (fun _ => for_each l2 body) s.
Proof.
  revert s; induction l1 as [|x l1 IH]; intros s; cbn [for_each app]; [done|].
  rewrite bind_assoc. unfold bind at 1 2. destruct (body x s); auto.
Qed.

Lemma for_each_fmap {S E A B} (l : list A) (f : A -> B) (h : A -> M S E unit) (body : B -> M S E unit) s :
  (forall a, body (f a) = h a) -> for_each (f <$> l) body s = for_each l h s.
Proof.
  intros Hf. revert s; induction l as [|x l IH]; intros s; cbn [for_each fmap list_fmap]; [done|].
  rewrite Hf. unfold bind. destruct (h x s); auto.
Qed.

(** Running one primitive step. *)
Lemma bind_ret {S E A B} (a : A) (k : A -> M S E B) s : bind (ret a) k s = k a s.
Proof. reflexivity. Qed.
Lemma bind_get {S E B} (k : S -> M S E B) s : bind get k s = k s s.
Proof. reflexivity. Qed.
Lemma bind_modify {S E B} (f : S -> S) (k : unit -> M S E B) s : bind (modify f) k s = k tt (f s).
Proof. reflexivity. Qed.
Lemma bind_raise {S E A B} (e : E) (k : A -> M S E B) s : bind (raise e) k s = Fail s e.
Proof. reflexivity. Qed.
Lemma bind_panic {S E A B} (k : A -> M S E B) s : bind panic k s = Panic.
Proof. reflexivity. Qed.
Lemma bind_expect {S E A B} (a : A) (k : A -> M S E B) s : bind (expect (Some a)) k s = k a s.
Proof. reflexivity. Qed.

(** Run the primitive steps at the head of a goal. *)
Ltac run_steps :=
  repeat first [rewrite bind_assoc | rewrite bind_ret | rewrite bind_get | rewrite bind_modify
    | rewrite bind_raise | rewrite bind_panic | rewrite bind_expect].

(** The automation of the development: break a run that ended well into its
    steps, and discharge runs that cannot end so. *)
Ltac inv_run :=
  repeat match goal with
  | H : bind _ _ _ = Done _ _ |- _ =>
      let s := fresh "s" in let a := fresh "a" in let H1 := fresh "H" in
      apply bind_Done in H as (s & a & H1 & H)
  | H : ret _ _ = Done _ _ |- _ => unfold ret in H; simplify_eq
  | H : get _ = Done _ _ |- _ => unfold get in H; simplify_eq
  | H : put _ _ = Done _ _ |- _ => unfold put in H; simplify_eq
  | H : modify _ _ = Done _ _ |- _ => unfold modify in H; simplify_eq
  | H : raise _ _ = Done _ _ |- _ => discriminate H
  | H : panic _ = Done _ _ |- _ => discriminate H
  | H : assert_ ?b _ = Done _ _ |- _ =>
      let E := fresh "Hassert" in destruct b eqn:E; [unfold assert_, ret in H; simplify_eq | discriminate H]
  | H : expect ?o _ = Done _ _ |- _ =>
      let E := fresh "Hexpect" in let x := fresh "x" in
      destruct o as [x|] eqn:E; [unfold expect, ret in H; simplify_eq | discriminate H]
  end.

(** Open the existentials and conjunctions of the context. *)
Ltac destruct_ex_and :=
  repeat match goal with
  | H : exists x, _ |- _ => destruct H as [? H]
  | H : _ /\ _ |- _ => destruct H
  end.

(** Case on an integer comparison the code makes. *)
Ltac case_cmp :=
  match goal with
  | H : context [?a <? ?b] |- _ => destruct (Z.ltb_spec a b)
  | |- context [?a <? ?b] => destruct (Z.ltb_spec a b)
  | H : context [?a <=? ?b] |- _ => destruct (Z.leb_spec a b)
  | |- context [?a <=? ?b] => destruct (Z.leb_spec a b)
  | H : context [?a =? ?b] |- _ => destruct (Z.eqb_spec a b)
  | |- context [?a =? ?b] => destruct (Z.eqb_spec a b)
  end.

(** ** Machine integers

    Unsigned integers are [Z]; arithmetic of the release build wraps. *)
Definition wrap (w z : Z) : Z := z mod 2 ^ w.
Definition in_range (w z : Z) : Prop := 0 <= z < 2 ^ w.

Definition u32_add (a b : Z) : Z := wrap 32 (a + b).
Definition u32_mul (a b : Z) : Z := wrap 32 (a * b).
Definition u64_add (a b : Z) : Z := wrap 64 (a + b).

Lemma wrap_range w z : 0 <= w -> in_range w (wrap w z).
Proof. intros Hw; unfold in_range, wrap; apply Z.mod_pos_bound, Z.pow_pos_nonneg; lia. Qed.

Lemma wrap_id w z : in_range w z -> wrap w z = z.
Proof. unfold in_range, wrap; intros H; apply Z.mod_small; lia. Qed.

Lemma u32_add_small a b : 0 <= a + b < 2 ^ 32 -> u32_add a b = a + b.
Proof. apply wrap_id. Qed.

Lemma u64_add_small a b : 0 <= a + b < 2 ^ 64 -> u64_add a b = a + b.
Proof. apply wrap_id. Qed.

(** ** Block numbers

    [BlockNumber] is a type of the crate [starknet_api]; its successor
    functions are known on the numbers the storage can hold, which serializes
    block numbers into 32 bits. *)
Class BlockNumberApi : Type := {
  bn_next : Z -> option Z;
  bn_unchecked_next : Z -> Z;
  bn_prev : Z -> option Z;
  bn_next_small : forall n, 0 <= n < 2 ^ 32 -> bn_next n = Some (n + 1);
  bn_unchecked_next_small : forall n, 0 <= n < 2 ^ 32 -> bn_unchecked_next n = n + 1;
  bn_prev_small : forall n, 0 <= n < 2 ^ 32 -> bn_prev n = if n =? 0 then None else Some (n - 1)
}.

(** Its implementation on [u64]. *)
Lemma u64_next_small n : 0 <= n < 2 ^ 32 -> (if n =? 2 ^ 64 - 1 then None else Some (n + 1)) = Some (n + 1).
Proof. intros Hn. case_cmp; [lia|done]. Qed.

Definition block_number_u64 : BlockNumberApi := {|
  bn_next := fun n => if n =? 2 ^ 64 - 1 then None else Some (n + 1);
  bn_unchecked_next := fun n => wrap 64 (n + 1);
  bn_prev := fun n => if n =? 0 then None else Some (n - 1);
  bn_next_small := u64_next_small;
  bn_unchecked_next_small := fun n Hn => wrap_id 64 (n + 1) ltac:(unfold in_range; lia);
  bn_prev_small := fun n _ => eq_refl
|}.

(** ** Lists indexed by integers *)

Definition zlength {A} (l : list A) : Z := Z.of_nat (length l).

Definition lookup_z {A} (l : list A) (i : Z) : option A :=
  if 0 <=? i then l !! Z.to_nat i else None.

Lemma zlength_nonneg {A} (l : list A) : 0 <= zlength l.
Proof. unfold zlength; lia. Qed.

Lemma zlength_app {A} (l1 l2 : list A) : zlength (l1 ++ l2) = zlength l1 + zlength l2.
Proof. unfold zlength. rewrite length_app. lia. Qed.

Lemma zlength_snoc {A} (l : list A) x : zlength (l ++ [x]) = zlength l + 1.
Proof. by rewrite zlength_app. Qed.

Lemma lookup_z_is_Some {A} (l : list A) i : is_Some (lookup_z l i) <-> 0 <= i < zlength l.
Proof.
  unfold lookup_z, zlength. case_cmp; [rewrite lookup_lt_is_Some; lia|].
  split; [by intros [? [=]]|lia].
Qed.

Lemma lookup_z_Some {A} (l : list A) i x : lookup_z l i = Some x -> 0 <= i < zlength l.
Proof. intros Hl. apply lookup_z_is_Some. eauto. Qed.

Lemma lookup_z_None {A} (l : list A) i : lookup_z l i = None <-> ~ 0 <= i < zlength l.
Proof. rewrite <-lookup_z_is_Some. destruct (lookup_z l i); split; try done; naive_solver. Qed.

Lemma lookup_z_snoc {A} (l : list A) x i :
  lookup_z (l ++ [x]) i = if i =? zlength l then Some x else lookup_z l i.
Proof.
  unfold lookup_z, zlength. repeat case_cmp; try lia; try done.
  - subst. rewrite Nat2Z.id. apply list_lookup_middle. done.
  - destruct (decide (Z.to_nat i < length l)%nat) as [Hlt|Hge].
    + by rewrite lookup_app_l by done.
    + rewrite lookup_app_r by lia. rewrite !lookup_ge_None_2; cbn; [done|lia|lia].
Qed.

Lemma lookup_z_of_nat {A} (l : list A) (i : nat) : lookup_z l (Z.of_nat i) = l !! i.
Proof. unfold lookup_z. case_cmp; [by rewrite Nat2Z.id|lia]. Qed.

Lemma elem_of_lookup_z {A} (l : list A) x : x ∈ l <-> exists i, lookup_z l i = Some x.
Proof.
  split.
  - intros [i Hi]%list_elem_of_lookup. exists (Z.of_nat i). by rewrite lookup_z_of_nat.
  - intros [i Hi]. unfold lookup_z in Hi. case_cmp; [|done]. by eapply list_elem_of_lookup_2.
Qed.

Lemma lookup_z_fmap {A B} (f : A -> B) l i : lookup_z (f <$> l) i = f <$> lookup_z l i.
Proof. unfold lookup_z. case_cmp; [apply list_lookup_fmap|done]. Qed.

Lemma filter_ext_in {A} (P Q : A -> Prop) `{forall x, Decision (P x), forall x, Decision (Q x)} (l : list A) :
  (forall x, x ∈ l -> P x <-> Q x) -> filter P l = filter Q l.
Proof.
  induction l as [|x l IH]; intros Hpq; [done|]. rewrite !filter_cons, IH by (intros y Hy; apply Hpq; by right).
  assert (Hx : P x <-> Q x) by (apply Hpq; by left). repeat case_decide; tauto.
Qed.

(** ** Index maps *)

(** [IndexMap::insert]: the map and the value it replaced. *)
Fixpoint indexmap_insert {V} (l : list (Z * V)) (k : Z) (v : V) : list (Z * V) * option V :=
  match l with
  | [] => ([(k, v)], None)
  | (k', v') :: l' =>
      if k' =? k then ((k', v) :: l', Some v')
      else let '(l'', old) := indexmap_insert l' k v in ((k', v') :: l'', old)
  end.

(** [collect] into an [IndexMap]: a repeated key keeps its place and takes the last value. *)
Definition indexmap_of {V} (entries : list (Z * V)) : list (Z * V) :=
  foldl (fun m e => (indexmap_insert m e.1 e.2).1) [] entries.

Lemma indexmap_insert_new {V} (l : list (Z * V)) k v : k ∉ l.*1 -> indexmap_insert l k v = (l ++ [(k, v)], None).
Proof.
  induction l as [|[k1 v1] l IH]; [done|]. cbn. intros Hk. apply not_elem_of_cons in Hk as [Hne Hk].
  destruct (Z.eqb_spec k1 k); [congruence|]. by rewrite IH.
Qed.

Lemma indexmap_insert_old {V} (l : list (Z * V)) k v : k ∈ l.*1 -> is_Some (indexmap_insert l k v).2.
Proof.
  induction l as [|[k1 v1] l IH]; cbn; [by intros ?%elem_of_nil|]. intros Hk.
  destruct (Z.eqb_spec k1 k); [by eexists|]. apply elem_of_cons in Hk as [?|Hk]; [congruence|].
  destruct (indexmap_insert l k v) as [l' old]. by apply IH.
Qed.

(** Replacing the value of a key that is there. *)
Lemma indexmap_insert_keys {V} (l : list (Z * V)) k v : k ∈ l.*1 -> (indexmap_insert l k v).1.*1 = l.*1.
Proof.
  induction l as [|[k1 v1] l IH]; cbn; [by intros ?%elem_of_nil|]. intros Hk.
  destruct (Z.eqb_spec k1 k); [done|]. apply elem_of_cons in Hk as [?|Hk]; [congruence|].
  specialize (IH Hk). destruct (indexmap_insert l k v) as [l' old]. cbn in *. by rewrite IH.
Qed.

Lemma indexmap_insert_in {V} (l : list (Z * V)) k v k' v' :
  (k', v') ∈ (indexmap_insert l k v).1 -> (k', v') = (k, v) \/ (k', v') ∈ l.
Proof.
  induction l as [|[k1 v1] l IH]; cbn; [rewrite list_elem_of_singleton; by left|].
  destruct (Z.eqb_spec k1 k) as [->|Hne]; cbn.
  - rewrite !elem_of_cons. naive_solver.
  - destruct (indexmap_insert l k v) as [l' old]. cbn in *. rewrite !elem_of_cons. naive_solver.
Qed.

Lemma indexmap_of_NoDup {V} (entries : list (Z * V)) : NoDup (indexmap_of entries).*1.
Proof.
  unfold indexmap_of. assert (H0 : NoDup ([] : list (Z * V)).*1) by constructor. revert H0.
  generalize ([] : list (Z * V)) as m. induction entries as [|[k v] entries IH]; intros m Hm; [done|]. cbn [foldl fst snd]. apply IH.
  destruct (decide (k ∈ m.*1)) as [Hk|Hk]; [by rewrite indexmap_insert_keys|]. rewrite indexmap_insert_new by done. cbn.
  rewrite fmap_app. apply NoDup_app. split; [done|]. split; [|apply NoDup_singleton].
  intros x Hx Hx'. apply list_elem_of_singleton in Hx'. by subst.
Qed.

(** Without repeated keys the entries are the map. *)
Lemma indexmap_of_id {V} (entries : list (Z * V)) : NoDup entries.*1 -> indexmap_of entries = entries.
Proof.
  unfold indexmap_of. change entries with ([] ++ entries) at 1 3. generalize ([] : list (Z * V)) as m.
  induction entries as [|[k v] entries IH]; intros m Hnd; cbn [foldl]; [by rewrite app_nil_r|]. cbn [fst snd].
  rewrite fmap_app, fmap_cons in Hnd. cbn in Hnd. apply NoDup_app in Hnd as (H1 & H2 & H3).
  rewrite indexmap_insert_new by (intros Hk; by eapply H2; [exact Hk|left]). cbn [fst].
  rewrite IH; [by rewrite <-app_assoc|]. rewrite <-app_assoc. cbn. rewrite fmap_app, fmap_cons. apply NoDup_app. done.
Qed.

(** ** Hash maps and sets *)

(** The order in which a [HashSet] is iterated is not specified. *)
Class HashSetIter : Type := {
  hs_iter : gset Z -> list Z;
  hs_iter_perm : forall s, hs_iter s ≡ₚ elements s
}.

(** The order in which a [HashMap] is iterated is not specified. *)
Class HashMapIter : Type := {
  hm_iter : forall {K V : Type} `{Countable K}, gmap K V -> list (K * V);
  hm_iter_perm : forall {K V : Type} `{Countable K} (m : gmap K V), hm_iter m ≡ₚ map_to_list m
}.

Section HashMapIter.
Context {HM : HashMapIter} {K V : Type} `{Countable K}.

Lemma elem_of_hm_iter (m : gmap K V) k v : (k, v) ∈ hm_iter m <-> m !! k = Some v.
Proof. by rewrite hm_iter_perm, elem_of_map_to_list. Qed.

Lemma length_hm_iter (m : gmap K V) : length (hm_iter m) = size m.
Proof. by rewrite hm_iter_perm, length_map_to_list. Qed.

Lemma hm_iter_NoDup (m : gmap K V) : NoDup (hm_iter m).*1.
Proof. rewrite hm_iter_perm. apply NoDup_fst_map_to_list. Qed.

End HashMapIter.

Create HintDb papyrus.
#[export] Hint Resolve wrap_range u32_add_small u64_add_small : papyrus.
