(* ===== verification/StateMachine.v ===== *)
(** * The Tendermint state machine of one height

    Models [crates/sequencing/papyrus_consensus/src/state_machine.rs]: the
    events, the state, [start], [handle_event] with its buffering and its
    internal queue, and every handler it dispatches to. *)

From stdpp Require Import base gmap list strings fin_maps.
From Stdlib Require Import ZArith Lia.
From S2P Require Import Prelude.

(** ** Data *)

Abbreviation BlockHash := Z (only parsing).
Abbreviation Round := Z (only parsing).

(** Events which the state machine sends and receives. *)
Inductive StateMachineEvent : Type :=
| Event_StartRound (block_hash : option BlockHash) (round : Round)
| Event_Proposal (block_hash : BlockHash) (round : Round)
| Event_Prevote (block_hash : BlockHash) (round : Round)
| Event_Precommit (block_hash : BlockHash) (round : Round)
| Event_Decision (block_hash : BlockHash) (round : Round).

Inductive Step : Type := Step_Propose | Step_Prevote | Step_Precommit.

#[global] Instance StateMachineEvent_eq_dec : EqDecision StateMachineEvent.
Proof. solve_decision. Defined.
#[global] Instance Step_eq_dec : EqDecision Step.
Proof. solve_decision. Defined.

(** [HashMap<Round, HashMap<BlockHash, u32>>]: the vote counts. *)
Abbreviation VoteCounts := (gmap Z (gmap Z Z)) (only parsing).

Record StateMachine : Type := mkStateMachine {
  sm_round : Round;
  sm_step : Step;
  sm_quorum : Z;
  sm_proposals : gmap Z Z;
  sm_prevotes : VoteCounts;
  sm_precommits : VoteCounts;
  sm_starting_round : bool;
  sm_events_queue : list StateMachineEvent
}.

Definition set_step (s : Step) (m : StateMachine) : StateMachine :=
  mkStateMachine (sm_round m) s (sm_quorum m) (sm_proposals m) (sm_prevotes m)
    (sm_precommits m) (sm_starting_round m) (sm_events_queue m).
Definition set_proposals (p : gmap Z Z) (m : StateMachine) : StateMachine :=
  mkStateMachine (sm_round m) (sm_step m) (sm_quorum m) p (sm_prevotes m)
    (sm_precommits m) (sm_starting_round m) (sm_events_queue m).
Definition set_prevotes (v : VoteCounts) (m : StateMachine) : StateMachine :=
  mkStateMachine (sm_round m) (sm_step m) (sm_quorum m) (sm_proposals m) v
    (sm_precommits m) (sm_starting_round m) (sm_events_queue m).
Definition set_precommits (v : VoteCounts) (m : StateMachine) : StateMachine :=
  mkStateMachine (sm_round m) (sm_step m) (sm_quorum m) (sm_proposals m) (sm_prevotes m)
    v (sm_starting_round m) (sm_events_queue m).
Definition set_starting_round (b : bool) (m : StateMachine) : StateMachine :=
  mkStateMachine (sm_round m) (sm_step m) (sm_quorum m) (sm_proposals m) (sm_prevotes m)
    (sm_precommits m) b (sm_events_queue m).
Definition set_events_queue (q : list StateMachineEvent) (m : StateMachine) : StateMachine :=
  mkStateMachine (sm_round m) (sm_step m) (sm_quorum m) (sm_proposals m) (sm_prevotes m)
    (sm_precommits m) (sm_starting_round m) q.

(** Reduce the projections of an updated machine, and nothing else. *)
Ltac sm_simpl :=
  cbn [sm_round sm_step sm_quorum sm_proposals sm_prevotes sm_precommits
       sm_starting_round sm_events_queue set_step set_proposals set_prevotes
       set_precommits set_starting_round set_events_queue] in *.

(** Rust leaves the iteration order of a [HashMap] unspecified: the order is a
    parameter of the model, and all that is known of it is that it visits each
    entry once. *)
Class HashIter : Type := {
  votes_iter : gmap Z Z -> list (Z * Z);
  votes_iter_perm : forall m, votes_iter m ≡ₚ map_to_list m
}.

(** ** Operations *)

(** [StateMachine::quorum_size] of a fresh machine: [(2 * total_weight / 3) + 1]
    on [u32]. *)
Definition quorum_of (total_weight : Z) : Z :=
  u32_add (u32_mul 2 total_weight / 3) 1.

Definition new (total_weight : Z) : StateMachine :=
  {| sm_round := 0;
     sm_step := Step_Propose;
     sm_quorum := quorum_of total_weight;
     sm_proposals := ∅;
     sm_prevotes := ∅;
     sm_precommits := ∅;
     sm_starting_round := false;
     sm_events_queue := [] |}.

Definition quorum_size (m : StateMachine) : Z := sm_quorum m.

(** [Iterator::max_by] on the counts: of several maximal entries, the last. *)
Definition max_by_count (l : list (Z * Z)) : option (Z * Z) :=
  match l with
  | [] => None
  | x :: l' => Some (foldl (fun acc y => if acc.2 >? y.2 then acc else y) x l')
  end.

(** [entry(round).or_default().entry(block_hash).or_insert(0)], then [+= 1]:
    the new count and the updated table. *)
Definition bump (votes : VoteCounts) (round : Round) (h : BlockHash) : Z * VoteCounts :=
  let per_round := default ∅ (votes !! round) in
  let count := u32_add (default 0 (per_round !! h)) 1 in
  (count, <[round := <[h := count]> per_round]> votes).

Section Machine.
Context {HI : HashIter} {E : Type}.

Definition leading_vote (votes : VoteCounts) (round : Round) : option (BlockHash * Z) :=
  match votes !! round with
  | None => None
  | Some per_round => max_by_count (votes_iter per_round)
  end.

Definition start : M StateMachine E (list StateMachineEvent) :=
  modify (set_starting_round true) ;!
  let! self := get in
  ret [Event_StartRound None (sm_round self)].

Definition check_precommit_quorum (round : Round) : M StateMachine E (list StateMachineEvent) :=
  let! self := get in
  match leading_vote (sm_precommits self) round with
  | None => ret []
  | Some (block_hash, count) =>
      if count <? sm_quorum self then ret [] else ret [Event_Decision block_hash round]
  end.

(** [send_precommit], with its call [advance_to_step(Step::Precommit)] written
    out; [send_precommit_calls_advance_to_step] shows it is that call. *)
Definition send_precommit (block_hash : BlockHash) (round : Round) :
    M StateMachine E (list StateMachineEvent) :=
  modify (set_step Step_Precommit) ;!
  let! self := get in
  let! more := check_precommit_quorum (sm_round self) in
  ret (Event_Precommit block_hash round :: more).

Definition check_prevote_quorum (round : Round) : M StateMachine E (list StateMachineEvent) :=
  let! self := get in
  match leading_vote (sm_prevotes self) round with
  | None => ret []
  | Some (block_hash, count) =>
      if count <? sm_quorum self then ret [] else send_precommit block_hash round
  end.

Definition advance_to_step (step : Step) : M StateMachine E (list StateMachineEvent) :=
  modify (set_step step) ;!
  let! self := get in
  match step with
  | Step_Propose => panic
  | Step_Prevote => check_prevote_quorum (sm_round self)
  | Step_Precommit => check_precommit_quorum (sm_round self)
  end.

Definition handle_start_round (block_hash : option BlockHash) (round : Round) :
    M StateMachine E (list StateMachineEvent) :=
  let! self := get in
  assert_ (sm_starting_round self) ;!
  assert_ (round =? sm_round self) ;!
  modify (set_starting_round false) ;!
  match block_hash with
  | None => ret []
  | Some hash => ret [Event_Proposal hash round]
  end.

Definition handle_proposal (block_hash : BlockHash) (round : Round) :
    M StateMachine E (list StateMachineEvent) :=
  let! self := get in
  let old := sm_proposals self !! round in
  modify (set_proposals (<[round := block_hash]> (sm_proposals self))) ;!
  assert_ (bool_decide (old = None)) ;!
  let! self := get in
  if decide (sm_step self = Step_Propose) then
    let! more := advance_to_step Step_Prevote in
    ret (Event_Prevote block_hash round :: more)
  else ret [].

Definition handle_prevote (block_hash : BlockHash) (round : Round) :
    M StateMachine E (list StateMachineEvent) :=
  assert_ (round =? 0) ;!
  let! self := get in
  let '(prevote_count, prevotes) := bump (sm_prevotes self) round block_hash in
  modify (set_prevotes prevotes) ;!
  if prevote_count <? sm_quorum self then ret []
  else if decide (sm_step self = Step_Prevote) then send_precommit block_hash round
  else ret [].

Definition handle_precommit (block_hash : BlockHash) (round : Round) :
    M StateMachine E (list StateMachineEvent) :=
  assert_ (round =? 0) ;!
  let! self := get in
  let '(precommit_count, precommits) := bump (sm_precommits self) round block_hash in
  modify (set_precommits precommits) ;!
  if precommit_count <? sm_quorum self then ret []
  else
    match sm_proposals self !! round with
    | None => ret []
    | Some proposed_value =>
        assert_ (proposed_value =? block_hash) ;!
        ret [Event_Decision block_hash round]
    end.

Definition handle_event_internal (event : StateMachineEvent) :
    M StateMachine E (list StateMachineEvent) :=
  match event with
  | Event_StartRound block_hash round => handle_start_round block_hash round
  | Event_Proposal block_hash round => handle_proposal block_hash round
  | Event_Prevote block_hash round => handle_prevote block_hash round
  | Event_Precommit block_hash round => handle_precommit block_hash round
  | Event_Decision _ _ => panic
  end.

(** The [for e in ...] loop over the outputs of one event: what is queued for
    the machine itself, what is returned, and whether a decision ends the
    handling. *)
Fixpoint dispatch_outputs (outs queue output_events : list StateMachineEvent) :
    list StateMachineEvent * list StateMachineEvent * bool :=
  match outs with
  | [] => (queue, output_events, false)
  | e :: outs' =>
      match e with
      | Event_Proposal _ _ | Event_Prevote _ _ | Event_Precommit _ _ =>
          dispatch_outputs outs' (queue ++ [e]) (output_events ++ [e])
      | Event_Decision _ _ => (queue, output_events ++ [e], true)
      | Event_StartRound _ _ => dispatch_outputs outs' queue (output_events ++ [e])
      end
  end.

(** The [while let Some(event) = events_queue.pop_front()] loop, with fuel;
    [None] stands for fuel that ran out. *)
Fixpoint handle_enqueued_events_loop (fuel : nat)
    (events_queue output_events : list StateMachineEvent) (self : StateMachine) :
    option (res StateMachine E (list StateMachineEvent)) :=
  match fuel with
  | O => None
  | S fuel' =>
      match events_queue with
      | [] => Some (Done self output_events)
      | event :: rest =>
          match handle_event_internal event self with
          | Panic => Some Panic
          | Fail self' e => Some (Fail self' e)
          | Done self' outs =>
              let '(queue, output, decided) := dispatch_outputs outs rest output_events in
              if decided then Some (Done self' output)
              else handle_enqueued_events_loop fuel' queue output self'
          end
      end
  end.

(** How many more times the machine can still enqueue an event for itself. *)
Definition step_budget (m : StateMachine) : nat :=
  (match sm_step m with Step_Propose => 2 | Step_Prevote => 1 | Step_Precommit => 0 end +
   if sm_starting_round m then 1 else 0)%nat.

Definition loop_fuel (events_queue : list StateMachineEvent) (m : StateMachine) : nat :=
  S (length events_queue + step_budget m).

Definition handle_enqueued_events (events_queue : list StateMachineEvent) :
    M StateMachine E (list StateMachineEvent) :=
  fun self =>
    match handle_enqueued_events_loop (loop_fuel events_queue self) events_queue [] self with
    | Some r => r
    | None => Panic
    end.

Definition handle_event (event : StateMachineEvent) : M StateMachine E (list StateMachineEvent) :=
  let! self := get in
  let run (queue : list StateMachineEvent) :=
    modify (set_events_queue []) ;! handle_enqueued_events queue in
  if sm_starting_round self then
    match event with
    | Event_StartRound _ round =>
        if round =? sm_round self then run (event :: sm_events_queue self)
        else modify (set_events_queue (sm_events_queue self ++ [event])) ;! ret []
    | _ => modify (set_events_queue (sm_events_queue self ++ [event])) ;! ret []
    end
  else run (sm_events_queue self ++ [event]).

Lemma send_precommit_calls_advance_to_step block_hash round m :
  send_precommit block_hash round m =
  (let! more := advance_to_step Step_Precommit in ret (Event_Precommit block_hash round :: more)) m.
Proof. reflexivity. Qed.

End Machine.

(** ** Vote counts *)

(** The count the tables hold for a hash; an absent entry counts zero. *)
Definition count (votes : VoteCounts) (round : Round) (h : BlockHash) : Z :=
  default 0 (default ∅ (votes !! round) !! h).

Lemma count_bump votes r h r' h' :
  count (bump votes r h).2 r' h' =
  if decide (r = r' /\ h = h') then u32_add (count votes r h) 1 else count votes r' h'.
Proof.
  unfold count, bump; cbn. rewrite lookup_insert.
  repeat case_decide; destruct_and?; simplify_eq; cbn;
    rewrite ?lookup_insert; repeat case_decide; naive_solver.
Qed.

Lemma bump_fst votes r h : (bump votes r h).1 = u32_add (count votes r h) 1.
Proof. reflexivity. Qed.

(** [max_by] returns an entry whose count no other entry exceeds. *)
Lemma max_fold_spec (l : list (Z * Z)) (x : Z * Z) :
  let r := foldl (fun acc y => if acc.2 >? y.2 then acc else y) x l in
  r ∈ x :: l /\ forall y, y ∈ x :: l -> y.2 <= r.2.
Proof.
  revert x; induction l as [|y l IH]; intros x; cbn.
  - split; [set_solver|]. intros z Hz. assert (z = x) as -> by set_solver. lia.
  - destruct (Z.gtb_spec x.2 y.2) as [Hgt|Hle].
    + destruct (IH x) as [Hin Hmax]. split; [set_solver|].
      intros z Hz. apply elem_of_cons in Hz as [->|Hz]; [apply Hmax; set_solver|].
      apply elem_of_cons in Hz as [->|Hz]; [|apply Hmax; set_solver].
      specialize (Hmax x ltac:(set_solver)). lia.
    + destruct (IH y) as [Hin Hmax]. split; [set_solver|].
      intros z Hz. apply elem_of_cons in Hz as [->|Hz]; [|apply Hmax; set_solver].
      specialize (Hmax y ltac:(set_solver)). lia.
Qed.

Lemma max_by_count_spec (l : list (Z * Z)) r :
  max_by_count l = Some r -> r ∈ l /\ forall y, y ∈ l -> y.2 <= r.2.
Proof. destruct l as [|x l]; [done|]. cbn. intros [= <-]. apply max_fold_spec. Qed.

Section CountLemmas.
Context {HI : HashIter}.

Lemma elem_of_votes_iter (m : gmap Z Z) h c : (h, c) ∈ votes_iter m <-> m !! h = Some c.
Proof. rewrite votes_iter_perm. apply elem_of_map_to_list. Qed.

Lemma leading_vote_Some votes r h c :
  leading_vote votes r = Some (h, c) ->
  count votes r h = c /\ forall h', count votes r h' <= Z.max 0 c.
Proof.
  unfold leading_vote, count. destruct (votes !! r) as [m|]; [|done].
  intros [Hin Hmax]%max_by_count_spec. apply elem_of_votes_iter in Hin. cbn.
  rewrite Hin; split; [done|]. intros h'.
  destruct (m !! h') as [c'|] eqn:Hc; cbn; [|lia].
  apply elem_of_votes_iter in Hc. specialize (Hmax _ Hc). cbn in Hmax. lia.
Qed.

Lemma leading_vote_None votes r :
  leading_vote votes r = None -> forall h, count votes r h = 0.
Proof.
  unfold leading_vote, count. destruct (votes !! r) as [m|] eqn:Hm; cbn; [|done].
  unfold max_by_count. destruct (votes_iter m) as [|x l] eqn:Hl; [|done]. intros _ h.
  destruct (m !! h) as [c|] eqn:Hc; [|done].
  apply elem_of_votes_iter in Hc. rewrite Hl in Hc. set_solver.
Qed.

(** Below quorum for the leader is below quorum for every hash. *)
Lemma leading_below votes r q h :
  0 < q ->
  match leading_vote votes r with Some (_, c) => c < q | None => True end ->
  count votes r h < q.
Proof.
  intros Hq. destruct (leading_vote votes r) as [[h0 c]|] eqn:Hl; intros Hc.
  - apply leading_vote_Some in Hl as [_ Hmax]. specialize (Hmax h). lia.
  - rewrite (leading_vote_None _ _ Hl). lia.
Qed.
End CountLemmas.

(** ** One event as a transition rule

    The rules are those of the algorithm: what a single event does to the
    machine and which events it emits. [handle_event_internal_step] shows that
    the handlers implement exactly these rules. *)
Section Rules.
Context {HI : HashIter}.

Definition below (votes : VoteCounts) (r q : Z) : Prop :=
  match leading_vote votes r with Some (_, c) => c < q | None => True end.
Definition reached (votes : VoteCounts) (r q : Z) (h : BlockHash) : Prop :=
  exists c, leading_vote votes r = Some (h, c) /\ q <= c.

Inductive internal_step (m : StateMachine) :
    StateMachineEvent -> StateMachine -> list StateMachineEvent -> Prop :=
| step_start_validator r :
    sm_starting_round m = true -> r = sm_round m ->
    internal_step m (Event_StartRound None r) (set_starting_round false m) []
| step_start_proposer h r :
    sm_starting_round m = true -> r = sm_round m ->
    internal_step m (Event_StartRound (Some h) r) (set_starting_round false m)
      [Event_Proposal h r]
| step_proposal_late h r :
    sm_proposals m !! r = None -> sm_step m <> Step_Propose ->
    internal_step m (Event_Proposal h r)
      (set_proposals (<[r := h]> (sm_proposals m)) m) []
| step_proposal_prevote h r :
    sm_proposals m !! r = None -> sm_step m = Step_Propose ->
    below (sm_prevotes m) (sm_round m) (sm_quorum m) ->
    internal_step m (Event_Proposal h r)
      (set_step Step_Prevote (set_proposals (<[r := h]> (sm_proposals m)) m))
      [Event_Prevote h r]
| step_proposal_precommit h r h1 :
    sm_proposals m !! r = None -> sm_step m = Step_Propose ->
    reached (sm_prevotes m) (sm_round m) (sm_quorum m) h1 ->
    below (sm_precommits m) (sm_round m) (sm_quorum m) ->
    internal_step m (Event_Proposal h r)
      (set_step Step_Precommit (set_proposals (<[r := h]> (sm_proposals m)) m))
      [Event_Prevote h r; Event_Precommit h1 (sm_round m)]
| step_proposal_decide h r h1 h2 :
    sm_proposals m !! r = None -> sm_step m = Step_Propose ->
    reached (sm_prevotes m) (sm_round m) (sm_quorum m) h1 ->
    reached (sm_precommits m) (sm_round m) (sm_quorum m) h2 ->
    internal_step m (Event_Proposal h r)
      (set_step Step_Precommit (set_proposals (<[r := h]> (sm_proposals m)) m))
      [Event_Prevote h r; Event_Precommit h1 (sm_round m); Event_Decision h2 (sm_round m)]
| step_prevote_count h :
    (u32_add (count (sm_prevotes m) 0 h) 1 < sm_quorum m \/ sm_step m <> Step_Prevote) ->
    internal_step m (Event_Prevote h 0) (set_prevotes (bump (sm_prevotes m) 0 h).2 m) []
| step_prevote_precommit h :
    sm_quorum m <= u32_add (count (sm_prevotes m) 0 h) 1 -> sm_step m = Step_Prevote ->
    below (sm_precommits m) (sm_round m) (sm_quorum m) ->
    internal_step m (Event_Prevote h 0)
      (set_step Step_Precommit (set_prevotes (bump (sm_prevotes m) 0 h).2 m))
      [Event_Precommit h 0]
| step_prevote_decide h h2 :
    sm_quorum m <= u32_add (count (sm_prevotes m) 0 h) 1 -> sm_step m = Step_Prevote ->
    reached (sm_precommits m) (sm_round m) (sm_quorum m) h2 ->
    internal_step m (Event_Prevote h 0)
      (set_step Step_Precommit (set_prevotes (bump (sm_prevotes m) 0 h).2 m))
      [Event_Precommit h 0; Event_Decision h2 (sm_round m)]
| step_precommit_count h :
    (u32_add (count (sm_precommits m) 0 h) 1 < sm_quorum m \/ sm_proposals m !! 0 = None) ->
    internal_step m (Event_Precommit h 0) (set_precommits (bump (sm_precommits m) 0 h).2 m) []
| step_precommit_decide h :
    sm_quorum m <= u32_add (count (sm_precommits m) 0 h) 1 -> sm_proposals m !! 0 = Some h ->
    internal_step m (Event_Precommit h 0) (set_precommits (bump (sm_precommits m) 0 h).2 m)
      [Event_Decision h 0].

(** The step at which an inner quorum check ends. *)
Lemma check_precommit_quorum_spec {E} r m m' outs :
  @check_precommit_quorum HI E r m = Done m' outs ->
  m' = m /\ (outs = [] /\ below (sm_precommits m) r (sm_quorum m) \/
    exists h, outs = [Event_Decision h r] /\ reached (sm_precommits m) r (sm_quorum m) h).
Proof.
  unfold check_precommit_quorum, below, reached, bind, get, ret.
  destruct (leading_vote _ r) as [[h c]|]; [destruct (Z.ltb_spec c (sm_quorum m))|];
    naive_solver.
Qed.

Lemma send_precommit_spec {E} h r m m' outs :
  @send_precommit HI E h r m = Done m' outs ->
  m' = set_step Step_Precommit m /\
  (outs = [Event_Precommit h r] /\ below (sm_precommits m) (sm_round m) (sm_quorum m) \/
   exists h2, outs = [Event_Precommit h r; Event_Decision h2 (sm_round m)] /\
     reached (sm_precommits m) (sm_round m) (sm_quorum m) h2).
Proof.
  unfold send_precommit. intros H; inv_run.
  match goal with H : check_precommit_quorum _ _ = _ |- _ =>
    apply check_precommit_quorum_spec in H as [-> [[-> ?]|(h2 & -> & ?)]] end;
    split; auto; right; eauto.
Qed.

Lemma check_prevote_quorum_spec {E} r m m' outs :
  @check_prevote_quorum HI E r m = Done m' outs ->
  below (sm_prevotes m) r (sm_quorum m) /\ m' = m /\ outs = [] \/
  exists h, reached (sm_prevotes m) r (sm_quorum m) h /\ @send_precommit HI E h r m = Done m' outs.
Proof.
  unfold check_prevote_quorum, below, reached. intros H; inv_run.
  destruct (leading_vote _ r) as [[h c]|]; [case_cmp|]; inv_run; eauto 10.
Qed.

(** Soundness of the rules: what a handler returned is a rule's conclusion. *)
Lemma handle_event_internal_sound {E} e m m' outs :
  @handle_event_internal HI E e m = Done m' outs -> internal_step m e m' outs.
Proof.
  destruct e as [[h|] r|h r|h r|h r|h r]; cbn [handle_event_internal].
  - unfold handle_start_round; intros H; inv_run. constructor; auto. lia.
  - unfold handle_start_round; intros H; inv_run. constructor; auto. lia.
  - unfold handle_proposal; intros H; inv_run. apply bool_decide_eq_true in Hassert.
    case_decide as Hs; inv_run; [|constructor; auto].
    match goal with H : advance_to_step _ _ = _ |- _ => unfold advance_to_step in H end.
    inv_run.
    match goal with H : check_prevote_quorum _ _ = _ |- _ =>
      apply check_prevote_quorum_spec in H as [(? & -> & ->)|(h1 & Hreach & Hsend)] end.
    + by constructor.
    + apply send_precommit_spec in Hsend as [-> [[-> ?]|(h2 & -> & ?)]]; sm_simpl.
      * by apply (step_proposal_precommit a).
      * by apply (step_proposal_decide a).
  - unfold handle_prevote; intros H; inv_run. apply Z.eqb_eq in Hassert as ->.
    rewrite (surjective_pairing (bump _ _ _)), bump_fst in H. inv_run. case_cmp; inv_run.
    { apply step_prevote_count; auto. }
    case_decide; inv_run; [|apply step_prevote_count; auto].
    apply send_precommit_spec in H as [-> [[-> ?]|(h2 & -> & ?)]]; sm_simpl.
    + by apply step_prevote_precommit.
    + by apply step_prevote_decide.
  - unfold handle_precommit; intros H; inv_run. apply Z.eqb_eq in Hassert as ->.
    rewrite (surjective_pairing (bump _ _ _)), bump_fst in H. inv_run. case_cmp; inv_run.
    { apply step_precommit_count; auto. }
    destruct (sm_proposals _ !! 0) as [p|] eqn:Hp; inv_run; [|apply step_precommit_count; auto].
    apply Z.eqb_eq in Hassert as ->. by apply step_precommit_decide.
  - discriminate.
Qed.

(** Completeness of the rules: every rule is what the handler does. *)
Lemma check_precommit_quorum_below {E} r m :
  below (sm_precommits m) r (sm_quorum m) -> @check_precommit_quorum HI E r m = Done m [].
Proof.
  unfold below, check_precommit_quorum, bind, get, ret.
  destruct (leading_vote _ r) as [[h c]|]; [|done]. case_cmp; [done|lia].
Qed.

Lemma check_precommit_quorum_reached {E} r m h :
  reached (sm_precommits m) r (sm_quorum m) h ->
  @check_precommit_quorum HI E r m = Done m [Event_Decision h r].
Proof.
  intros (c & Hl & Hc). unfold check_precommit_quorum, bind, get, ret. rewrite Hl.
  case_cmp; [lia|done].
Qed.

Lemma send_precommit_run {E} h r m outs :
  @check_precommit_quorum HI E (sm_round m) (set_step Step_Precommit m) =
    Done (set_step Step_Precommit m) outs ->
  @send_precommit HI E h r m = Done (set_step Step_Precommit m) (Event_Precommit h r :: outs).
Proof. intros H. unfold send_precommit, bind, modify, get, ret. sm_simpl. by rewrite H. Qed.

Lemma handle_proposal_run {E} h r m m' outs :
  sm_proposals m !! r = None -> sm_step m = Step_Propose ->
  @check_prevote_quorum HI E (sm_round m)
    (set_step Step_Prevote (set_proposals (<[r := h]> (sm_proposals m)) m)) = Done m' outs ->
  @handle_proposal HI E h r m = Done m' (Event_Prevote h r :: outs).
Proof.
  intros Hp Hs Hc. unfold handle_proposal, advance_to_step, bind, modify, get, assert_, ret.
  rewrite Hp, bool_decide_true by done. sm_simpl. rewrite decide_True by done. sm_simpl. by rewrite Hc. 
Qed.

Lemma check_prevote_quorum_reached {E} r m h :
  reached (sm_prevotes m) r (sm_quorum m) h ->
  @check_prevote_quorum HI E r m = @send_precommit HI E h r m.
Proof.
  intros (c & Hl & Hc). unfold check_prevote_quorum, bind, get. rewrite Hl.
  case_cmp; [lia|done].
Qed.

Lemma handle_prevote_run {E} h m :
  @handle_prevote HI E h 0 m =
  (if u32_add (count (sm_prevotes m) 0 h) 1 <? sm_quorum m then ret []
   else if decide (sm_step m = Step_Prevote) then send_precommit h 0 else ret [])
    (set_prevotes (bump (sm_prevotes m) 0 h).2 m).
Proof. reflexivity. Qed.

Lemma handle_precommit_run {E} h m :
  @handle_precommit E h 0 m =
  (if u32_add (count (sm_precommits m) 0 h) 1 <? sm_quorum m then ret []
   else match sm_proposals m !! 0 with
        | None => ret []
        | Some p => assert_ (p =? h) ;! ret [Event_Decision h 0]
        end) (set_precommits (bump (sm_precommits m) 0 h).2 m).
Proof. reflexivity. Qed.

Lemma handle_event_internal_complete {E} e m m' outs :
  internal_step m e m' outs -> @handle_event_internal HI E e m = Done m' outs.
Proof.
  destruct 1 as [r Hs ->|h r Hs ->|h r Hp Hs|h r Hp Hs Hb|h r h1 Hp Hs Hr Hb|h r h1 h2 Hp Hs Hr Hr2
    |h Hc|h Hc Hs Hb|h h2 Hc Hs Hr|h Hc|h Hc Hp]; cbn [handle_event_internal].
  - unfold handle_start_round, bind, get, assert_, modify, ret. by rewrite Hs, Z.eqb_refl.
  - unfold handle_start_round, bind, get, assert_, modify, ret. by rewrite Hs, Z.eqb_refl.
  - unfold handle_proposal, bind, get, assert_, modify, ret.
    rewrite Hp, bool_decide_true by done. sm_simpl. by rewrite decide_False.
  - apply handle_proposal_run; [done|done|]. unfold check_prevote_quorum, bind, get, ret.
    unfold below in Hb. sm_simpl. destruct (leading_vote _ _) as [[h1 c]|]; [|done].
    case_cmp; [done|lia].
  - apply handle_proposal_run; [done|done|]. rewrite (check_prevote_quorum_reached _ _ h1) by done.
    erewrite send_precommit_run by (by apply check_precommit_quorum_below). done.
  - apply handle_proposal_run; [done|done|]. rewrite (check_prevote_quorum_reached _ _ h1) by done.
    erewrite send_precommit_run by (by apply check_precommit_quorum_reached). done.
  - rewrite handle_prevote_run. case_cmp; [done|]. destruct Hc; [lia|]. by rewrite decide_False.
  - rewrite handle_prevote_run. case_cmp; [lia|]. rewrite decide_True by done.
    erewrite send_precommit_run by (by apply check_precommit_quorum_below). done.
  - rewrite handle_prevote_run. case_cmp; [lia|]. rewrite decide_True by done.
    erewrite send_precommit_run by (by apply check_precommit_quorum_reached). done.
  - rewrite handle_precommit_run. case_cmp; [done|]. destruct Hc as [?|Hp]; [lia|]. by rewrite Hp.
  - rewrite handle_precommit_run. case_cmp; [lia|]. rewrite Hp.
    unfold bind, assert_, ret. by rewrite Z.eqb_refl.
Qed.

(** The handlers of one event are exactly the rules. *)
Lemma handle_event_internal_iff {E} e m m' outs :
  @handle_event_internal HI E e m = Done m' outs <-> internal_step m e m' outs.
Proof.
  split; [apply handle_event_internal_sound | apply handle_event_internal_complete].
Qed.
End Rules.

(** ** The internal queue *)

(** The events the machine also sends to itself. *)
Definition is_own (e : StateMachineEvent) : bool :=
  match e with
  | Event_Proposal _ _ | Event_Prevote _ _ | Event_Precommit _ _ => true
  | _ => false
  end.
Definition is_decision (e : StateMachineEvent) : bool :=
  match e with Event_Decision _ _ => true | _ => false end.
Definition own (l : list StateMachineEvent) : list StateMachineEvent :=
  List.filter is_own l.
Definition decided (l : list StateMachineEvent) : bool := existsb is_decision l.

Section Loop.
Context {HI : HashIter} {E : Type}.

Lemma dispatch_internal_step m e m' outs queue output :
  internal_step m e m' outs ->
  dispatch_outputs outs queue output = (queue ++ own outs, output ++ outs, decided outs).
Proof. destruct 1; cbn; rewrite ?app_nil_r, <-?app_assoc; reflexivity. Qed.

Lemma internal_step_budget m e m' outs :
  internal_step m e m' outs ->
  (length (own outs) + step_budget m' <= step_budget m)%nat.
Proof.
  unfold step_budget; destruct 1; cbn; repeat match goal with H : ?x = _ |- _ => rewrite ?H; clear H end;
    cbn; repeat case_match; lia.
Qed.

(** The loop never runs out of the fuel it is given. *)
Lemma loop_terminates fuel queue output m :
  (length queue + step_budget m < fuel)%nat ->
  @handle_enqueued_events_loop HI E fuel queue output m <> None.
Proof.
  revert queue output m; induction fuel as [|fuel IH]; intros queue output m Hf; [lia|].
  destruct queue as [|e rest]; cbn; [done|].
  destruct (handle_event_internal e m) as [m' outs|m' er|] eqn:He; try done.
  apply handle_event_internal_iff in He as Hstep.
  rewrite (dispatch_internal_step _ _ _ _ _ _ Hstep).
  destruct (decided outs); [done|]. apply IH.
  apply internal_step_budget in Hstep. cbn in Hf. rewrite length_app. lia.
Qed.

(** More fuel does not change a result that was reached. *)
Lemma loop_fuel_mono fuel fuel' queue output m r :
  (fuel <= fuel')%nat ->
  @handle_enqueued_events_loop HI E fuel queue output m = Some r ->
  @handle_enqueued_events_loop HI E fuel' queue output m = Some r.
Proof.
  revert fuel' queue output m; induction fuel as [|fuel IH];
    intros fuel' queue output m Hle H; [done|].
  destruct fuel' as [|fuel']; [lia|]. cbn in *.
  destruct queue as [|e rest]; [done|].
  destruct (handle_event_internal e m) as [m' outs|m' er|]; try done.
  destruct (dispatch_outputs outs rest output) as [[q o] d]. destruct d; [done|].
  apply IH; [lia|done].
Qed.

(** Rule induction for the loop: an invariant of the undecided states, which
    every rule keeps, holds at the end, or the end is a decision taken from a
    state where it held. *)
Lemma loop_invariant (P : StateMachine -> list StateMachineEvent -> list StateMachineEvent -> Prop) :
  (forall m e rest output m' outs,
     P m (e :: rest) output -> internal_step m e m' outs -> decided outs = false ->
     P m' (rest ++ own outs) (output ++ outs)) ->
  forall fuel queue output m m' output',
    P m queue output ->
    @handle_enqueued_events_loop HI E fuel queue output m = Some (Done m' output') ->
    P m' [] output' \/
    exists m0 e rest output0 outs,
      P m0 (e :: rest) output0 /\ internal_step m0 e m' outs /\ decided outs = true /\
      output' = output0 ++ outs.
Proof.
  intros HP; induction fuel as [|fuel IH]; intros queue output m m' output' H0 H; [done|].
  destruct queue as [|e rest]; cbn in H; [left; naive_solver|].
  destruct (handle_event_internal e m) as [m1 outs|m1 er|] eqn:He; try done.
  apply handle_event_internal_iff in He as Hstep.
  rewrite (dispatch_internal_step _ _ _ _ _ _ Hstep) in H.
  destruct (decided outs) eqn:Hd.
  - right. simplify_eq. exists m, e, rest, output, outs. auto.
  - eapply IH; [|exact H]. eauto.
Qed.

(** The loop never returns an [Err]: the machine has none. *)
Lemma handle_event_internal_no_fail e m m' er : @handle_event_internal HI E e m <> Fail m' er.
Proof.
  assert (Hcp : forall r m m' er, @check_precommit_quorum HI E r m <> Fail m' er).
  { intros r m1 m1' er1. unfold check_precommit_quorum, bind, get, ret.
    destruct (leading_vote _ _) as [[? ?]|]; [case_cmp|]; done. }
  assert (Hsp : forall h r m m' er, @send_precommit HI E h r m <> Fail m' er).
  { intros h r m1 m1' er1 [?|(? & ? & ? & H)]%bind_Fail; [done|].
    apply bind_Fail in H as [?|(? & ? & ? & H)]; [done|].
    apply bind_Fail in H as [?|(? & ? & ? & ?)]; [by eapply Hcp|done]. }
  destruct e as [[h|] r|h r|h r|h r|h r]; cbn [handle_event_internal];
    unfold handle_start_round, handle_proposal, handle_prevote, handle_precommit, advance_to_step,
      check_prevote_quorum; intros H;
    repeat match goal with
    | H : bind _ _ _ = Fail _ _ |- _ => apply bind_Fail in H as [H|(? & ? & ? & H)]
    | H : send_precommit _ _ _ = Fail _ _ |- _ => by eapply Hsp
    | H : check_precommit_quorum _ _ = Fail _ _ |- _ => by eapply Hcp
    | H : assert_ ?b _ = Fail _ _ |- _ => destruct b; discriminate
    | H : (match ?x with _ => _ end) _ = Fail _ _ |- _ => destruct x
    | H : (let '(_, _) := ?x in _) _ = Fail _ _ |- _ => destruct x
    end; try discriminate.
Qed.
End Loop.

(** ** Runs *)

Definition is_prevote (e : StateMachineEvent) : bool :=
  match e with Event_Prevote _ _ => true | _ => false end.
Definition is_precommit (e : StateMachineEvent) : bool :=
  match e with Event_Precommit _ _ => true | _ => false end.
Definition n_of (p : StateMachineEvent -> bool) (l : list StateMachineEvent) : nat :=
  length (List.filter p l).

Lemma n_of_app p l1 l2 : n_of p (l1 ++ l2) = (n_of p l1 + n_of p l2)%nat.
Proof. unfold n_of. by rewrite List.filter_app, length_app. Qed.

(** How many prevotes and precommits the machine may still send. *)
Definition prevotes_left (m : StateMachine) : nat :=
  match sm_step m with Step_Propose => 1 | _ => 0 end.
Definition precommits_left (m : StateMachine) : nat :=
  match sm_step m with Step_Precommit => 0 | _ => 1 end.

Section Runs.
Context {HI : HashIter} {E : Type}.

(** A caller feeds the machine one event after the other. *)
Fixpoint run_events (evs : list StateMachineEvent) : M StateMachine E (list StateMachineEvent) :=
  match evs with
  | [] => ret []
  | e :: evs' =>
      let! outs := handle_event e in
      let! more := run_events evs' in
      ret (outs ++ more)
  end.

(** What a call of [handle_event] did: it buffered the event, or it ran the
    loop on the buffered events and this one. *)
Lemma handle_event_no_fail e m m' er : @handle_event HI E e m <> Fail m' er.
Proof.
  assert (Hl : forall fuel queue out m m' er,
    @handle_enqueued_events_loop HI E fuel queue out m <> Some (Fail m' er)).
  { induction fuel as [|fuel IH]; intros queue out m1 m1' er1; [done|].
    destruct queue as [|e1 queue]; cbn [handle_enqueued_events_loop]; [done|].
    destruct (handle_event_internal e1 m1) eqn:He; [|by apply handle_event_internal_no_fail in He|done].
    destruct (dispatch_outputs _ _ _) as [[? ?] []]; [done|apply IH]. }
  unfold handle_event. rewrite (bind_step _ _ _ m m) by done.
  repeat case_match; try done; rewrite (bind_step _ _ _ (set_events_queue [] m) tt) by done;
    unfold handle_enqueued_events; case_match eqn:Hq; try done; intros ->; by eapply Hl.
Qed.

Lemma handle_event_cases e m m' outs :
  @handle_event HI E e m = Done m' outs ->
  (sm_starting_round m = true /\ (forall b, e <> Event_StartRound b (sm_round m)) /\
   m' = set_events_queue (sm_events_queue m ++ [e]) m /\ outs = []) \/
  exists queue,
    (sm_starting_round m = true /\ (exists b, e = Event_StartRound b (sm_round m)) /\
       queue = e :: sm_events_queue m \/
     sm_starting_round m = false /\ queue = sm_events_queue m ++ [e]) /\
    @handle_enqueued_events_loop HI E (loop_fuel queue m) queue [] (set_events_queue [] m) =
      Some (Done m' outs).
Proof.
  unfold handle_event; intros H; inv_run.
  match type of H with (if sm_starting_round ?x then _ else _) _ = _ => rename x into m0 end.
  assert (Hrun : forall queue, (modify (set_events_queue []) ;! @handle_enqueued_events HI E queue) m0 =
      Done m' outs -> @handle_enqueued_events_loop HI E (loop_fuel queue m0) queue []
        (set_events_queue [] m0) = Some (Done m' outs)).
  { intros queue Hq; inv_run. unfold handle_enqueued_events in Hq.
    change (loop_fuel queue (set_events_queue [] m0)) with (loop_fuel queue m0) in Hq.
    case_match; naive_solver. }
  destruct (sm_starting_round m0) eqn:Hs.
  - destruct e as [b r|h r|h r|h r|h r]; [case_cmp; [subst|]|..]; inv_run;
      first [right; eexists; split; [left; eauto|]; by apply Hrun
            |left; repeat split; try done; intros ? [=]; congruence].
  - right. eexists. split; [right; eauto|]. by apply Hrun.
Qed.

(** An invariant that every call of [handle_event] keeps, of the machine, of
    the events it was fed and of what it returned, holds of every run. *)
Lemma run_events_invariant
    (P : StateMachine -> list StateMachineEvent -> list StateMachineEvent -> Prop) :
  forall evs m m' fed pre outs,
    (forall e m m' fed pre outs, e ∈ evs -> P m fed pre -> @handle_event HI E e m = Done m' outs ->
       P m' (fed ++ [e]) (pre ++ outs)) ->
    P m fed pre -> run_events evs m = Done m' outs -> P m' (fed ++ evs) (pre ++ outs).
Proof.
  intros evs; induction evs as [|e evs IH]; intros m m' fed pre outs HP H0 H; cbn [run_events] in H; inv_run.
  - by rewrite !app_nil_r.
  - rewrite app_assoc, cons_middle, app_assoc. eapply IH; [|..|eassumption].
    + intros; eapply HP; eauto. by right.
    + eapply HP; eauto. by left.
Qed.

Lemma internal_step_votes m e m' outs :
  internal_step m e m' outs ->
  (n_of is_prevote outs + prevotes_left m' <= prevotes_left m)%nat /\
  (n_of is_precommit outs + precommits_left m' <= precommits_left m)%nat.
Proof.
  unfold prevotes_left, precommits_left, n_of. destruct 1; cbn;
    repeat match goal with H : sm_step _ = _ |- _ => rewrite ?H; clear H end;
    cbn; repeat case_match; lia.
Qed.

(** The voting allowance bounds what is sent. *)
Definition votes_within (a b : nat) (m : StateMachine) (output : list StateMachineEvent) : Prop :=
  (n_of is_prevote output + prevotes_left m <= a)%nat /\
  (n_of is_precommit output + precommits_left m <= b)%nat.

Lemma handle_event_votes a b e m m' pre outs :
  votes_within a b m pre -> @handle_event HI E e m = Done m' outs ->
  votes_within a b m' (pre ++ outs).
Proof.
  intros H0 [(_ & _ & -> & ->)|(queue & _ & Hl)]%handle_event_cases.
  { by rewrite app_nil_r. }
  set (P := fun m (_ output : list StateMachineEvent) => votes_within a b m (pre ++ output)).
  assert (HP : forall m e m' output outs, P m [] output -> internal_step m e m' outs ->
    P m' [] (output ++ outs)).
  { unfold P, votes_within. intros m1 e1 m1' o1 outs1 [? ?] [? ?]%internal_step_votes.
    rewrite app_assoc, !n_of_app in *. lia. }
  eapply (loop_invariant P) in Hl; [| unfold P in *; eauto | unfold P; by rewrite app_nil_r].
  destruct Hl as [Hl|(m0 & e0 & rest & o0 & outs0 & H1 & Hs & _ & ->)]; [exact Hl|].
  eapply HP in Hs; [exact Hs|exact H1].
Qed.
End Runs.
