(* ===== verification/StateMachineInv.v ===== *)
(** * Invariants of the consensus state machine

    Tallies of the votes counted and still queued, the invariant of a machine
    that has not decided, and the invariant of a height in which every event
    speaks of one block. *)

From stdpp Require Import base gmap list strings fin_maps.
From Stdlib Require Import ZArith Lia.
From S2P Require Import Prelude StateMachine.

(** ** Tallies: votes counted plus votes still queued *)

Definition prevote_for (h : Z) (e : StateMachineEvent) : bool := bool_decide (e = Event_Prevote h 0).
Definition precommit_for (h : Z) (e : StateMachineEvent) : bool :=
  bool_decide (e = Event_Precommit h 0).

Definition prevote_tally (h : Z) (m : StateMachine) (queue : list StateMachineEvent) : Z :=
  count (sm_prevotes m) 0 h + Z.of_nat (n_of (prevote_for h) queue).
Definition precommit_tally (h : Z) (m : StateMachine) (queue : list StateMachineEvent) : Z :=
  count (sm_precommits m) 0 h + Z.of_nat (n_of (precommit_for h) queue).

Lemma n_of_cons p e l : n_of p (e :: l) = ((if p e then 1 else 0) + n_of p l)%nat.
Proof. unfold n_of; cbn; destruct (p e); reflexivity. Qed.

Lemma n_of_nil p : n_of p [] = 0%nat.
Proof. reflexivity. Qed.

Lemma own_cons e l : own (e :: l) = if is_own e then e :: own l else own l.
Proof. reflexivity. Qed.

Create HintDb tally.
#[export] Hint Rewrite n_of_cons n_of_app n_of_nil own_cons : tally.

Definition counts_nonneg (m : StateMachine) : Prop :=
  forall h, 0 <= count (sm_prevotes m) 0 h /\ 0 <= count (sm_precommits m) 0 h.

Section Tally.
Context {HI : HashIter} {E : Type}.

Lemma internal_step_nonneg m e m' outs :
  internal_step m e m' outs -> counts_nonneg m -> counts_nonneg m'.
Proof.
  unfold counts_nonneg; destruct 1; intros Hc h'; sm_simpl; try apply Hc;
    rewrite ?count_bump; split; try apply Hc; case_decide; try apply Hc;
    apply (wrap_range 32); lia.
Qed.

(** A step takes nothing off a tally and adds at most what the machine may
    still send, as long as the counter does not wrap around. *)
Lemma internal_step_prevote_tally h m e m' outs rest :
  internal_step m e m' outs -> counts_nonneg m ->
  prevote_tally h m (e :: rest) + Z.of_nat (prevotes_left m) < 2 ^ 32 ->
  prevote_tally h m (e :: rest) <= prevote_tally h m' (rest ++ own outs) /\
  prevote_tally h m' (rest ++ own outs) + Z.of_nat (prevotes_left m') <=
    prevote_tally h m (e :: rest) + Z.of_nat (prevotes_left m).
Proof.
  intros Hs Hn. unfold prevote_tally, prevotes_left, prevote_for. specialize (Hn h).
  destruct Hs; sm_simpl; rewrite ?count_bump;
    repeat match goal with H : sm_step _ = _ |- _ => rewrite ?H; clear H end;
    autorewrite with tally; cbn [is_own];
    autorewrite with tally; repeat case_bool_decide; repeat case_decide;
    destruct_and?; simplify_eq; intros Hb; rewrite ?u32_add_small by lia;
    repeat case_match; try naive_solver lia.
Qed.

Lemma internal_step_precommit_tally h m e m' outs rest :
  internal_step m e m' outs -> counts_nonneg m ->
  precommit_tally h m (e :: rest) + Z.of_nat (precommits_left m) < 2 ^ 32 ->
  precommit_tally h m (e :: rest) <= precommit_tally h m' (rest ++ own outs) /\
  precommit_tally h m' (rest ++ own outs) + Z.of_nat (precommits_left m') <=
    precommit_tally h m (e :: rest) + Z.of_nat (precommits_left m).
Proof.
  intros Hs Hn. unfold precommit_tally, precommits_left, precommit_for. specialize (Hn h).
  destruct Hs; sm_simpl; rewrite ?count_bump;
    repeat match goal with H : sm_step _ = _ |- _ => rewrite ?H; clear H end;
    autorewrite with tally; cbn [is_own];
    autorewrite with tally; repeat case_bool_decide; repeat case_decide;
    destruct_and?; simplify_eq; intros Hb; rewrite ?u32_add_small by lia;
    repeat case_match; try naive_solver lia.
Qed.
End Tally.

(** ** The invariant of an undecided machine *)

(** The caller only speaks of round zero, as the single-height consensus does. *)
Definition proposal_round0 (e : StateMachineEvent) : Prop :=
  match e with Event_Proposal _ r => r = 0 | _ => True end.

Definition undecided_inv (m : StateMachine) : Prop :=
  sm_round m = 0 /\ 0 < sm_quorum m /\
  (sm_step m = Step_Propose <-> sm_proposals m !! 0 = None) /\
  (sm_step m = Step_Prevote -> forall h, count (sm_prevotes m) 0 h < sm_quorum m) /\
  (sm_step m = Step_Precommit -> forall h, count (sm_precommits m) 0 h < sm_quorum m).

(** The proposal was received or is still queued. *)
Definition proposal_pending (m : StateMachine) (queue : list StateMachineEvent) : Prop :=
  sm_proposals m !! 0 <> None \/ (exists h, Event_Proposal h 0 ∈ queue) \/
  (exists h, Event_StartRound (Some h) 0 ∈ queue).

(** The answer to [StartRound] was processed or is still queued. *)
Definition start_pending (m : StateMachine) (queue : list StateMachineEvent) : Prop :=
  sm_starting_round m = false \/ exists b r, Event_StartRound b r ∈ queue.

Lemma quorum_of_pos n : 0 < quorum_of n.
Proof.
  unfold quorum_of. pose proof (wrap_range 32 (2 * n) ltac:(lia)) as [H1 H2].
  unfold u32_add, u32_mul. pose proof (Z.div_pos _ 3 H1 ltac:(lia)).
  pose proof (Z.div_lt_upper_bound (wrap 32 (2 * n)) 3 (2 ^ 31) ltac:(lia) ltac:(lia)).
  rewrite wrap_id; unfold in_range; lia.
Qed.

Section Undecided.
Context {HI : HashIter} {E : Type}.

Lemma internal_step_undecided m e m' outs :
  internal_step m e m' outs -> decided outs = false -> proposal_round0 e ->
  undecided_inv m -> undecided_inv m'.
Proof.
  unfold undecided_inv. intros Hs Hd Hr (H0 & Hq & Hp & Hv & Hc).
  destruct Hs; sm_simpl;
    repeat match goal with H : below _ (sm_round _) _ |- _ => rewrite H0 in H end; try discriminate Hd; cbn in Hr; subst; repeat split; try done;
    try congruence; try (by apply Hp); intros;
    rewrite ?lookup_insert_eq in *; try done; try naive_solver;
    rewrite ?count_bump; try case_decide; destruct_and?; subst;
    try (by eapply leading_below); try (naive_solver lia);
    destruct Hp as [_ Hp]; destruct_or?; try done;
    try (specialize (Hp ltac:(assumption)); congruence).
Qed.

Lemma internal_step_round0 m e m' outs :
  internal_step m e m' outs -> sm_round m = 0 -> proposal_round0 e ->
  Forall proposal_round0 (own outs).
Proof. destruct 1; intros; subst; cbn in *; repeat constructor; cbn; congruence. Qed.

Lemma internal_step_pending m e m' outs rest :
  internal_step m e m' outs -> sm_round m = 0 -> proposal_round0 e ->
  proposal_pending m (e :: rest) -> proposal_pending m' (rest ++ own outs).
Proof.
  unfold proposal_pending. intros Hs H0 Hr [Hp|[[h Hp]|[h Hp]]].
  - left. destruct Hs; sm_simpl; try done. all: rewrite lookup_insert; case_decide; done.
  - apply elem_of_cons in Hp as [<-|Hp]; [left|right; left; set_solver].
    inversion Hs; subst; sm_simpl; by rewrite lookup_insert_eq.
  - apply elem_of_cons in Hp as [<-|Hp]; [right; left|right; right; set_solver].
    inversion Hs; subst; cbn. exists h. set_solver.
Qed.

Lemma internal_step_start m e m' outs rest :
  internal_step m e m' outs -> start_pending m (e :: rest) -> start_pending m' (rest ++ own outs).
Proof.
  unfold start_pending. intros Hs [Hp|(b & r & Hp)].
  - left. by destruct Hs.
  - apply elem_of_cons in Hp as [<-|Hp]; [left; by inversion Hs|right; set_solver].
Qed.

Lemma internal_step_frame m e m' outs :
  internal_step m e m' outs ->
  sm_events_queue m' = sm_events_queue m /\ sm_quorum m' = sm_quorum m /\ sm_round m' = sm_round m.
Proof. by destruct 1. Qed.

(** The invariant the loop keeps while no decision is taken: [kv] and [kc]
    votes are accounted for, [bv] and [bc] bound the counters. *)
Record loop_inv (h kv kc bv bc q : Z) (pp : Prop) (m : StateMachine) (queue output : list StateMachineEvent) :
    Prop := {
  li_undecided : undecided_inv m;
  li_nonneg : counts_nonneg m;
  li_round0 : Forall proposal_round0 queue;
  li_queue : sm_events_queue m = [];
  li_quorum : sm_quorum m = q;
  li_start : start_pending m queue;
  li_output : decided output = false;
  li_proposal : pp -> proposal_pending m queue;
  li_prevotes : kv <= prevote_tally h m queue /\
    prevote_tally h m queue + Z.of_nat (prevotes_left m) <= bv;
  li_precommits : kc <= precommit_tally h m queue /\
    precommit_tally h m queue + Z.of_nat (precommits_left m) <= bc
}.

Lemma decided_app l1 l2 : decided (l1 ++ l2) = decided l1 || decided l2.
Proof. apply existsb_app. Qed.

Lemma loop_inv_step h kv kc bv bc q pp m e rest output m' outs :
  bv < 2 ^ 32 -> bc < 2 ^ 32 ->
  loop_inv h kv kc bv bc q pp m (e :: rest) output -> internal_step m e m' outs ->
  decided outs = false -> loop_inv h kv kc bv bc q pp m' (rest ++ own outs) (output ++ outs).
Proof.
  intros Hbv Hbc [Hu Hn Hr Hq Hqu Hst Ho Hpp [Hv1 Hv2] [Hc1 Hc2]] Hs Hd.
  apply Forall_cons in Hr as [Hr0 Hr]. destruct Hu as [Hround Hu].
  pose proof (internal_step_frame _ _ _ _ Hs) as (Hq1 & Hq2 & _).
  destruct (internal_step_prevote_tally h _ _ _ _ rest Hs Hn ltac:(lia)).
  destruct (internal_step_precommit_tally h _ _ _ _ rest Hs Hn ltac:(lia)).
  constructor; try lia; try congruence.
  - eapply internal_step_undecided; eauto. by split.
  - by eapply internal_step_nonneg.
  - apply Forall_app; split; [done|]. by eapply internal_step_round0.
  - by eapply internal_step_start.
  - by rewrite decided_app, Ho, Hd.
  - intros ?. eapply internal_step_pending; eauto.
Qed.

(** What is known of an undecided machine that was fed [fed]: every vote fed
    is counted or buffered, nothing else is but one vote of its own. *)
Definition proposed (fed : list StateMachineEvent) : Prop :=
  (exists h, Event_Proposal h 0 ∈ fed) \/ (exists h, Event_StartRound (Some h) 0 ∈ fed).

Record run_inv (h q : Z) (m : StateMachine) (fed output : list StateMachineEvent) : Prop := {
  ri_undecided : undecided_inv m;
  ri_nonneg : counts_nonneg m;
  ri_round0 : Forall proposal_round0 (sm_events_queue m);
  ri_idle : sm_starting_round m = false -> sm_events_queue m = [];
  ri_quorum : sm_quorum m = q;
  ri_start : (exists b, Event_StartRound b 0 ∈ fed) -> sm_starting_round m = false;
  ri_output : decided output = false;
  ri_proposal : proposed fed -> proposal_pending m (sm_events_queue m);
  ri_prevotes : Z.of_nat (n_of (prevote_for h) fed) <= prevote_tally h m (sm_events_queue m) /\
    prevote_tally h m (sm_events_queue m) + Z.of_nat (prevotes_left m) <=
      Z.of_nat (n_of (prevote_for h) fed) + 1;
  ri_precommits : Z.of_nat (n_of (precommit_for h) fed) <= precommit_tally h m (sm_events_queue m) /\
    precommit_tally h m (sm_events_queue m) + Z.of_nat (precommits_left m) <=
      Z.of_nat (n_of (precommit_for h) fed) + 1
}.

(** Buffering keeps the invariant. *)
Lemma run_inv_buffer h q m fed output e :
  run_inv h q m fed output -> sm_starting_round m = true ->
  (forall b, e <> Event_StartRound b (sm_round m)) -> proposal_round0 e ->
  run_inv h q (set_events_queue (sm_events_queue m ++ [e]) m) (fed ++ [e]) output.
Proof.
  intros [Hu Hn Hr Hi Hq Hs Ho Hp Hv Hc] Hst He Hre. destruct Hu as [Hround Hu].
  constructor; sm_simpl; try done.
  - apply Forall_app; auto using Forall_cons, Forall_nil.
  - congruence.
  - intros [b [Hb|Hb%list_elem_of_singleton]%elem_of_app]; [apply Hs; eauto|].
    rewrite Hround in He. by destruct (He b).
  - intros Hprop. assert (Hcase : proposed fed \/ proposed [e]).
    { unfold proposed in *. set_solver. }
    destruct Hcase as [Hf|Hf].
    + destruct (Hp Hf) as [?|[[h0 ?]|[h0 ?]]]; unfold proposal_pending; sm_simpl; set_solver.
    + unfold proposal_pending; right. destruct Hf as [[h0 Hf]|[h0 Hf]]; set_solver.
  - unfold prevote_tally in *; sm_simpl. rewrite !n_of_app. unfold prevotes_left in *; sm_simpl. lia.
  - unfold precommit_tally in *; sm_simpl. rewrite !n_of_app.
    unfold precommits_left in *; sm_simpl. lia.
Qed.

(** The queue the loop starts from satisfies the loop's invariant. *)
Lemma run_inv_loop h q m fed output e queue :
  run_inv h q m fed output -> proposal_round0 e ->
  (sm_starting_round m = true /\ (exists b, e = Event_StartRound b (sm_round m)) /\
     queue = e :: sm_events_queue m \/
   sm_starting_round m = false /\ queue = sm_events_queue m ++ [e]) ->
  let nv := Z.of_nat (n_of (prevote_for h) (fed ++ [e])) in
  let nc := Z.of_nat (n_of (precommit_for h) (fed ++ [e])) in
  loop_inv h nv nc (nv + 1) (nc + 1) q (proposed (fed ++ [e])) (set_events_queue [] m) queue [].
Proof.
  intros [Hu Hn Hr Hi Hq Hs Ho Hp Hv Hc] Hre Hqueue nv nc. subst nv nc.
  assert (Hmem : forall x, x ∈ queue <-> x = e \/ x ∈ sm_events_queue m).
  { intros x. destruct Hqueue as [(_ & _ & ->)|(_ & ->)]; set_solver. }
  assert (Hcount : forall p, n_of p queue = n_of p (sm_events_queue m ++ [e])).
  { intros p. destruct Hqueue as [(_ & _ & ->)|(_ & ->)]; [|done].
    rewrite n_of_app, !n_of_cons, n_of_nil. lia. }
  constructor; sm_simpl; try done.
  - apply Forall_forall. intros x [->|Hx]%Hmem; [done|]. rewrite Forall_forall in Hr. auto.
  - unfold start_pending; sm_simpl. destruct Hqueue as [(_ & [b ->] & ->)|(-> & _)]; [|by left].
    right. exists b, (sm_round m). set_solver.
  - intros Hprop. assert (Hcase : proposed fed \/ proposed [e]).
    { unfold proposed in *. set_solver. }
    unfold proposal_pending in *; sm_simpl. destruct Hcase as [Hf|Hf].
    + destruct (Hp Hf) as [?|[[h0 ?]|[h0 ?]]]; set_solver.
    + right. destruct Hf as [[h0 Hf]|[h0 Hf]]; set_solver.
  - unfold prevote_tally in *; sm_simpl. rewrite Hcount, !n_of_app.
    unfold prevotes_left in *; sm_simpl. lia.
  - unfold precommit_tally in *; sm_simpl. rewrite Hcount, !n_of_app.
    unfold precommits_left in *; sm_simpl. lia.
Qed.

(** [handle_event] keeps the invariant or decides. *)
Lemma handle_event_run_inv h q e m m' fed pre outs :
  Z.of_nat (length (fed ++ [e])) + 1 < 2 ^ 32 -> proposal_round0 e ->
  run_inv h q m fed pre -> @handle_event HI E e m = Done m' outs ->
  decided outs = true \/ run_inv h q m' (fed ++ [e]) (pre ++ outs).
Proof.
  intros Hlen Hre Hinv Hev. apply handle_event_cases in Hev
    as [(Hst & Hne & -> & ->)|(queue & Hqueue & Hl)].
  { right. rewrite app_nil_r. by apply run_inv_buffer. }
  pose proof (run_inv_loop _ _ _ _ _ _ _ Hinv Hre Hqueue) as Hli.
  assert (Hb : forall p, Z.of_nat (n_of p (fed ++ [e])) + 1 < 2 ^ 32).
  { intros p. unfold n_of. pose proof (List.filter_length_le p (fed ++ [e])). lia. }
  eapply loop_invariant in Hl; [|intros *; apply loop_inv_step; apply Hb|exact Hli].
  destruct Hl as [[Hu Hn Hr Hq Hqu Hst Ho Hpp Hv Hc]|(? & ? & ? & ? & ? & _ & _ & Hd & ->)].
  - right. rewrite <-Hq in *. destruct Hst as [Hst|(? & ? & Hst)]; [|rewrite Hq in Hst; set_solver].
    constructor; try done. rewrite decided_app, Ho. by destruct Hinv as [? ? ? ? ? ? ->].
  - left. by rewrite decided_app, Hd, orb_true_r.
Qed.
End Undecided.

(** ** Runs that decide *)

Section Decide.
Context {HI : HashIter} {E : Type}.

Lemma not_decided_elem l h r : decided l = false -> Event_Decision h r ∈ l -> False.
Proof.
  intros Hl Hin%list_elem_of_In. assert (Hd : decided l = true); [|congruence].
  apply existsb_exists. eauto.
Qed.

(** A rule that decides emits the decision last and holds its quorum. *)
Lemma internal_step_decision m e m' outs :
  internal_step m e m' outs -> decided outs = true ->
  exists pre h r, outs = pre ++ [Event_Decision h r] /\ decided pre = false /\
    sm_quorum m' <= count (sm_precommits m') r h.
Proof.
  assert (Hreach : forall votes r q h, reached votes r q h -> q <= count votes r h).
  { intros votes r q h (c & Hl & Hc). apply leading_vote_Some in Hl as [-> _]. done. }
  destruct 1 as [| | | | |h r h1 h2| | |h h2| |h]; try done; intros _; sm_simpl.
  - exists [Event_Prevote h r; Event_Precommit h1 (sm_round m)], h2, (sm_round m). auto.
  - exists [Event_Precommit h 0], h2, (sm_round m). auto.
  - exists [], h, 0. rewrite count_bump, decide_True by done. auto.
Qed.

Lemma count_empty r h : count ∅ r h = 0.
Proof. unfold count. by rewrite lookup_empty. Qed.

Lemma run_inv_start h n : run_inv h (quorum_of n) (set_starting_round true (new n)) [] [].
Proof.
  constructor; unfold undecided_inv, counts_nonneg, prevote_tally, precommit_tally, proposed;
    cbn -[quorum_of Z.of_nat count]; rewrite ?count_empty; try done; try lia.
  - repeat split; try done; try lia; apply quorum_of_pos.
  - intros [b Hb]. by apply not_elem_of_nil in Hb.
  - intros [[x Hx]|[x Hx]]; by apply not_elem_of_nil in Hx.
Qed.

(** A run that did not decide is still in the invariant. *)
Lemma run_events_run_inv h q evs m m' fed pre outs :
  Z.of_nat (length (fed ++ evs)) + 1 < 2 ^ 32 -> Forall proposal_round0 evs ->
  run_inv h q m fed pre -> @run_events HI E evs m = Done m' outs ->
  decided outs = true \/ run_inv h q m' (fed ++ evs) (pre ++ outs).
Proof.
  revert m fed pre outs; induction evs as [|e evs IH]; intros m fed pre outs Hlen Hr Hinv Hrun;
    cbn [run_events] in Hrun; inv_run.
  - right. by rewrite !app_nil_r.
  - apply Forall_cons in Hr as [Hre Hr]. rewrite !length_app in Hlen. cbn in Hlen.
    destruct (handle_event_run_inv (E:=E) h q e m s fed pre a) as [Hd|Hinv']; try done.
    + rewrite length_app; cbn; lia.
    + left. by rewrite decided_app, Hd.
    + destruct (IH s (fed ++ [e]) (pre ++ a) a0) as [Hd|Hinv'']; try done.
      * rewrite !length_app. cbn. lia.
      * left. by rewrite decided_app, Hd, orb_true_r.
      * right. by rewrite <-!app_assoc in Hinv''.
Qed.

(** An undecided machine cannot have been fed the proposal and both quorums. *)
Lemma run_inv_quorums h q m fed output :
  run_inv h q m fed output -> (exists b, Event_StartRound b 0 ∈ fed) -> proposed fed ->
  q <= Z.of_nat (n_of (prevote_for h) fed) -> q <= Z.of_nat (n_of (precommit_for h) fed) -> False.
Proof.
  intros [Hu Hn Hr Hi Hq Hs Ho Hp [Hv _] [Hc _]] Hstart Hprop Hqv Hqc.
  specialize (Hs Hstart). rewrite (Hi Hs) in *. specialize (Hp Hprop).
  destruct Hp as [Hp|[[? ?]|[? ?]]]; [|set_solver..].
  unfold prevote_tally, precommit_tally in *. rewrite n_of_nil in *.
  destruct Hu as (_ & _ & Hpr & Hsv & Hsc). destruct (sm_step m) eqn:Hstep.
  - by apply Hp, Hpr.
  - specialize (Hsv eq_refl h). lia.
  - specialize (Hsc eq_refl h). lia.
Qed.

Lemma run_decides h n evs m outs :
  Z.of_nat (length evs) + 1 < 2 ^ 32 -> Forall proposal_round0 evs ->
  (exists b, Event_StartRound b 0 ∈ evs) -> proposed evs ->
  quorum_of n <= Z.of_nat (n_of (prevote_for h) evs) ->
  quorum_of n <= Z.of_nat (n_of (precommit_for h) evs) ->
  @run_events HI E evs (set_starting_round true (new n)) = Done m outs ->
  decided outs = true.
Proof.
  intros Hlen Hr Hstart Hprop Hqv Hqc Hrun.
  eapply (run_events_run_inv h _ _ _ _ [] []) in Hrun as [?|Hinv];
    [done| |done|done|apply run_inv_start].
  exfalso. by eapply run_inv_quorums.
Qed.
End Decide.

(** ** Runs of an honest height

    Every proposal and every vote fed to the machine is for one block [h], and
    there is one proposal: the caller's answer to [StartRound] or a peer's. *)

Definition honest_event (h : Z) (e : StateMachineEvent) : Prop :=
  e = Event_Proposal h 0 \/ e = Event_Prevote h 0 \/ e = Event_Precommit h 0.
Definition honest_input (h : Z) (e : StateMachineEvent) : Prop :=
  honest_event h e \/ e = Event_StartRound None 0 \/ e = Event_StartRound (Some h) 0.
Definition is_start (e : StateMachineEvent) : bool :=
  match e with Event_StartRound _ _ => true | _ => false end.
Definition brings_proposal (e : StateMachineEvent) : bool :=
  match e with Event_Proposal _ _ | Event_StartRound (Some _) _ => true | _ => false end.

Record honest_inv (h : Z) (m : StateMachine) (todo : list StateMachineEvent) : Prop := {
  hi_round : sm_round m = 0;
  hi_quorum : 0 < sm_quorum m;
  hi_prevotes : forall h', h' <> h -> count (sm_prevotes m) 0 h' = 0;
  hi_precommits : forall h', h' <> h -> count (sm_precommits m) 0 h' = 0;
  hi_todo : Forall (honest_input h) todo;
  hi_proposal : sm_proposals m !! 0 = None /\ (n_of brings_proposal todo <= 1)%nat \/
    sm_proposals m !! 0 = Some h /\ n_of brings_proposal todo = 0%nat;
  hi_start : (n_of is_start todo <= if sm_starting_round m then 1 else 0)%nat
}.

Section Honest.
Context {HI : HashIter} {E : Type}.

Lemma n_of_perm p l1 l2 : l1 ≡ₚ l2 -> n_of p l1 = n_of p l2.
Proof.
  unfold n_of. induction 1; cbn; repeat (case_match; cbn); congruence.
Qed.

Lemma honest_inv_perm h m l1 l2 : l1 ≡ₚ l2 -> honest_inv h m l1 -> honest_inv h m l2.
Proof.
  intros Hp [Hr Hq Hv Hc Ht Hpr Hs].
  constructor; rewrite <-?(n_of_perm _ _ _ Hp), <-?Hp; done.
Qed.

Lemma reached_honest votes q h h1 :
  0 < q -> (forall h', h' <> h -> count votes 0 h' = 0) -> reached votes 0 q h1 -> h1 = h.
Proof.
  intros Hq Hc (c & Hl & Hqc). apply leading_vote_Some in Hl as [Hl _].
  destruct (decide (h1 = h)) as [|Hne]; [done|]. rewrite (Hc _ Hne) in Hl. lia.
Qed.

Lemma below_or_reached votes r q : below votes r q \/ exists h, reached votes r q h.
Proof.
  unfold below, reached. destruct (leading_vote votes r) as [[h c]|]; [|auto].
  destruct (Z.lt_ge_cases c q); eauto.
Qed.

(** An honest event is never refused. *)
Lemma honest_progress h m e todo :
  honest_inv h m (e :: todo) -> exists m' outs, internal_step m e m' outs.
Proof.
  intros [Hr Hq Hv Hc Ht Hp Hs]. apply Forall_cons in Ht as [He _].
  rewrite !n_of_cons in *. destruct He as [[->|[->| ->]]|[->| ->]]; cbn in Hp, Hs.
  - destruct Hp as [(Hp & _)|(_ & Hp)]; [|lia].
    destruct (decide (sm_step m = Step_Propose)); [|eauto using step_proposal_late].
    destruct (below_or_reached (sm_prevotes m) (sm_round m) (sm_quorum m)) as [Hb|(h1 & Hb)];
      [eauto using step_proposal_prevote|].
    destruct (below_or_reached (sm_precommits m) (sm_round m) (sm_quorum m)) as [Hb2|(h2 & Hb2)];
      eauto using step_proposal_precommit, step_proposal_decide.
  - destruct (Z.lt_ge_cases (u32_add (count (sm_prevotes m) 0 h) 1) (sm_quorum m));
      [eauto using step_prevote_count|].
    destruct (decide (sm_step m = Step_Prevote)); [|eauto using step_prevote_count].
    destruct (below_or_reached (sm_precommits m) (sm_round m) (sm_quorum m)) as [Hb2|(h2 & Hb2)];
      eauto using step_prevote_precommit, step_prevote_decide.
  - destruct (Z.lt_ge_cases (u32_add (count (sm_precommits m) 0 h) 1) (sm_quorum m));
      [eauto using step_precommit_count|].
    destruct Hp as [[Hp _]|[Hp _]]; eauto using step_precommit_count, step_precommit_decide.
  - destruct (sm_starting_round m) eqn:?; [|lia].
    do 2 eexists; eapply step_start_validator; [done|by rewrite Hr].
  - destruct (sm_starting_round m) eqn:?; [|lia].
    do 2 eexists; eapply step_start_proposer; [done|by rewrite Hr].
Qed.

(** It only emits events for the block. *)
Lemma honest_outputs h m e todo m' outs :
  honest_inv h m (e :: todo) -> internal_step m e m' outs ->
  Forall (honest_event h) (own outs) /\ forall h' r, Event_Decision h' r ∈ outs -> h' = h /\ r = 0.
Proof.
  intros [Hr Hq Hv Hc Ht _ _] Hstep. apply Forall_cons in Ht as [He _].
  assert (Hrv : forall h1, reached (sm_prevotes m) (sm_round m) (sm_quorum m) h1 -> h1 = h)
    by (rewrite Hr; intros h1; by apply (reached_honest (sm_prevotes m))).
  assert (Hrc : forall h1, reached (sm_precommits m) (sm_round m) (sm_quorum m) h1 -> h1 = h)
    by (rewrite Hr; intros h1; by apply (reached_honest (sm_precommits m))).
  unfold honest_input, honest_event in *.
  destruct Hstep; cbn [own is_own List.filter]; rewrite ?Forall_cons, ?Forall_nil;
    try apply Hrv in H1; try apply Hrc in H1; try apply Hrc in H2; rewrite ?Hr in *;
    (split; [|intros h' r'; rewrite ?elem_of_cons, ?elem_of_nil]);
    try (naive_solver congruence).
Qed.

Lemma honest_counts h m e m' outs :
  honest_input h e -> internal_step m e m' outs -> forall h', h' <> h ->
  count (sm_prevotes m') 0 h' = count (sm_prevotes m) 0 h' /\
  count (sm_precommits m') 0 h' = count (sm_precommits m) 0 h'.
Proof.
  unfold honest_input, honest_event. intros He Hstep h' Hne.
  destruct Hstep; sm_simpl; rewrite ?count_bump; try done;
    rewrite decide_False; try done; intros [_ ->]; naive_solver.
Qed.

Lemma honest_proposals h m e m' outs todo :
  honest_input h e -> internal_step m e m' outs ->
  (sm_proposals m !! 0 = None /\ (n_of brings_proposal (e :: todo) <= 1)%nat \/
   sm_proposals m !! 0 = Some h /\ n_of brings_proposal (e :: todo) = 0%nat) ->
  (sm_proposals m' !! 0 = None /\ (n_of brings_proposal (todo ++ own outs) <= 1)%nat \/
   sm_proposals m' !! 0 = Some h /\ n_of brings_proposal (todo ++ own outs) = 0%nat).
Proof.
  unfold honest_input, honest_event. intros He Hstep. rewrite n_of_cons, n_of_app.
  destruct Hstep; cbn [own is_own List.filter]; autorewrite with tally; cbn; sm_simpl; intros Hp;
    try (destruct Hp as [[? ?]|[? ?]]; [left|right]; (split; [done|lia])).
  all: right; (assert (h0 = h /\ r = 0) as [-> ->] by naive_solver);
    rewrite lookup_insert_eq; (split; [done|lia]).
Qed.

Lemma honest_starts m e m' outs todo :
  internal_step m e m' outs ->
  (n_of is_start (e :: todo) <= if sm_starting_round m then 1 else 0)%nat ->
  (n_of is_start (todo ++ own outs) <= if sm_starting_round m' then 1 else 0)%nat.
Proof.
  intros Hstep. rewrite n_of_cons, n_of_app.
  destruct Hstep; cbn [own is_own List.filter]; autorewrite with tally; cbn; sm_simpl;
    repeat case_match; lia.
Qed.

Lemma honest_step h m e todo m' outs :
  honest_inv h m (e :: todo) -> internal_step m e m' outs -> honest_inv h m' (todo ++ own outs).
Proof.
  intros Hi Hs. destruct (honest_outputs _ _ _ _ _ _ Hi Hs) as [Ho _].
  destruct Hi as [Hr Hq Hv Hc Ht Hp Hst]. apply Forall_cons in Ht as [He Ht].
  destruct (internal_step_frame _ _ _ _ Hs) as (_ & Hqu & Hrd).
  constructor; try congruence.
  - intros h' Hne. rewrite (proj1 (honest_counts _ _ _ _ _ He Hs _ Hne)). auto.
  - intros h' Hne. rewrite (proj2 (honest_counts _ _ _ _ _ He Hs _ Hne)). auto.
  - apply Forall_app; split; [done|]. eapply Forall_impl; [exact Ho|]. by left.
  - by eapply honest_proposals.
  - by eapply honest_starts.
Qed.

Definition decides_only (h : Z) (l : list StateMachineEvent) : Prop :=
  forall h' r, Event_Decision h' r ∈ l -> h' = h /\ r = 0.

Lemma decides_only_app h l1 l2 : decides_only h (l1 ++ l2) <-> decides_only h l1 /\ decides_only h l2.
Proof. unfold decides_only. setoid_rewrite elem_of_app. naive_solver. Qed.

Lemma honest_inv_drop h m l1 l2 : honest_inv h m (l1 ++ l2) -> honest_inv h m l2.
Proof.
  intros [Hr Hq Hv Hc Ht Hp Hs]. rewrite n_of_app in Hp, Hs.
  apply Forall_app in Ht as [_ Ht]. constructor; try done; [|lia].
  destruct Hp as [[? ?]|[? ?]]; [left|right]; (split; [done|lia]).
Qed.

(** The loop on honest events does not panic. *)
Lemma honest_loop h rest fuel queue output m :
  honest_inv h m (queue ++ rest) -> decides_only h output -> sm_events_queue m = [] ->
  @handle_enqueued_events_loop HI E fuel queue output m = None \/
  exists m' output',
    @handle_enqueued_events_loop HI E fuel queue output m = Some (Done m' output') /\
    honest_inv h m' rest /\ decides_only h output' /\ sm_events_queue m' = [].
Proof.
  revert queue output m; induction fuel as [|fuel IH]; intros queue output m Hi Ho Hq; [by left|].
  destruct queue as [|e queue]; cbn; [right; eauto 6|].
  destruct (honest_progress _ _ _ _ Hi) as (m' & outs & Hs).
  rewrite (handle_event_internal_complete _ _ _ _ Hs), (dispatch_internal_step _ _ _ _ _ _ Hs).
  destruct (honest_outputs _ _ _ _ _ _ Hi Hs) as [_ Hd].
  pose proof (honest_step _ _ _ _ _ _ Hi Hs) as Hi'.
  destruct (internal_step_frame _ _ _ _ Hs) as (Hq' & _ & _).
  assert (Ho' : decides_only h (output ++ outs)) by (apply decides_only_app; auto).
  destruct (decided outs).
  - right. do 2 eexists. split; [done|]. split; [|split; [done|congruence]].
    apply (honest_inv_drop _ _ (queue ++ own outs)). eapply honest_inv_perm; [|exact Hi'].
    solve_Permutation.
  - apply IH; [|done|congruence]. eapply honest_inv_perm; [|exact Hi']. solve_Permutation.
Qed.

Lemma handle_enqueued_events_honest h rest queue m :
  honest_inv h m (queue ++ rest) -> sm_events_queue m = [] ->
  exists m' outs, @handle_enqueued_events HI E queue m = Done m' outs /\
    honest_inv h m' rest /\ decides_only h outs /\ sm_events_queue m' = [].
Proof.
  intros Hi Hq. unfold handle_enqueued_events.
  destruct (honest_loop h rest (loop_fuel queue m) queue [] m) as [Hl|(m' & outs & Hl & ?)]; auto.
  - unfold decides_only. set_solver.
  - exfalso. eapply loop_terminates; [|exact Hl]. unfold loop_fuel. lia.
  - rewrite Hl. eauto.
Qed.

Lemma honest_inv_queue h m l q : honest_inv h m l -> honest_inv h (set_events_queue q m) l.
Proof. intros []; constructor; done. Qed.

Lemma handle_event_honest h e rest m :
  honest_inv h m (sm_events_queue m ++ e :: rest) ->
  exists m' outs, @handle_event HI E e m = Done m' outs /\
    honest_inv h m' (sm_events_queue m' ++ rest) /\ decides_only h outs.
Proof.
  intros Hi.
  assert (Hrun : forall queue, queue ≡ₚ sm_events_queue m ++ [e] ->
    exists m' outs, (modify (set_events_queue []) ;! @handle_enqueued_events HI E queue) m = Done m' outs /\
      honest_inv h m' (sm_events_queue m' ++ rest) /\ decides_only h outs).
  { intros queue Hq. rewrite (bind_step _ _ _ (set_events_queue [] m) tt) by done.
    destruct (handle_enqueued_events_honest h rest queue (set_events_queue [] m))
      as (m' & outs & Hr & Hi' & Hd & Hq'); [|done|].
    - apply honest_inv_queue. eapply honest_inv_perm; [|exact Hi]. rewrite Hq. solve_Permutation.
    - exists m', outs. by rewrite Hq'. }
  assert (Hbuf : exists m' outs, (modify (set_events_queue (sm_events_queue m ++ [e])) ;! @ret _ E _ []) m
      = Done m' outs /\ honest_inv h m' (sm_events_queue m' ++ rest) /\ decides_only h outs).
  { do 2 eexists. split; [reflexivity|]. sm_simpl. split; [|unfold decides_only; set_solver].
    apply honest_inv_queue. by rewrite <-app_assoc. }
  unfold handle_event. rewrite (bind_step _ _ _ m m) by done.
  destruct (sm_starting_round m); [|by apply Hrun].
  destruct e as [b r| | | |]; try exact Hbuf. case_cmp; [|exact Hbuf]. apply Hrun. solve_Permutation.
Qed.

Lemma run_events_honest h evs m :
  honest_inv h m (sm_events_queue m ++ evs) ->
  exists m' outs, @run_events HI E evs m = Done m' outs /\ decides_only h outs.
Proof.
  revert m; induction evs as [|e evs IH]; intros m Hi; cbn [run_events].
  - do 2 eexists; split; [done|]. unfold decides_only; set_solver.
  - destruct (handle_event_honest _ _ _ _ Hi) as (m1 & outs & H1 & Hi1 & Hd1).
    destruct (IH _ Hi1) as (m2 & more & H2 & Hd2).
    exists m2, (outs ++ more). rewrite (bind_step _ _ _ _ _ H1), (bind_step _ _ _ _ _ H2).
    split; [done|]. by apply decides_only_app.
Qed.

Lemma honest_inv_start h n evs :
  Forall (honest_input h) evs -> (n_of brings_proposal evs <= 1)%nat -> (n_of is_start evs <= 1)%nat ->
  honest_inv h (set_starting_round true (new n)) evs.
Proof.
  intros Hi Hp Hs. constructor; cbn -[quorum_of count]; try done.
  - apply quorum_of_pos.
  - left; split; [apply lookup_empty|done].
Qed.

(** Honest inputs with one start and one proposal have what a decision needs. *)
Lemma honest_inputs_complete h evs :
  Forall (honest_input h) evs -> n_of is_start evs = 1%nat -> n_of brings_proposal evs = 1%nat ->
  Forall proposal_round0 evs /\ (exists b, Event_StartRound b 0 ∈ evs) /\ proposed evs.
Proof.
  intros Hi Hs Hp. unfold honest_input, honest_event in Hi. split; [|split].
  - eapply Forall_impl; [exact Hi|]. intros e [[->|[->| ->]]|[->| ->]]; done.
  - assert (Hex : exists e, e ∈ evs /\ is_start e = true).
    { unfold n_of in Hs. destruct (List.filter is_start evs) as [|e l] eqn:Hf; [done|].
      exists e. rewrite list_elem_of_In, <-List.filter_In, Hf. by left. }
    destruct Hex as (e & He & Hst). rewrite Forall_forall in Hi.
    destruct (Hi _ He) as [[->|[->| ->]]|[->| ->]]; try discriminate Hst; eauto.
  - assert (Hex : exists e, e ∈ evs /\ brings_proposal e = true).
    { unfold n_of in Hp. destruct (List.filter brings_proposal evs) as [|e l] eqn:Hf; [done|].
      exists e. rewrite list_elem_of_In, <-List.filter_In, Hf. by left. }
    destruct Hex as (e & He & Hst). rewrite Forall_forall in Hi. unfold proposed.
    destruct (Hi _ He) as [[->|[->| ->]]|[->| ->]]; try discriminate Hst; eauto.
Qed.
End Honest.

(** ** What one call of [handle_event] returns *)

Section Calls.
Context {HI : HashIter} {E : Type}.

Lemma internal_step_no_start m e m' outs :
  internal_step m e m' outs -> n_of is_start outs = 0%nat.
Proof. by destruct 1. Qed.

Lemma internal_step_length m e m' outs :
  internal_step m e m' outs ->
  length outs = (length (own outs) + if decided outs then 1 else 0)%nat.
Proof. by destruct 1. Qed.

(** At most four events, no [StartRound] among them. *)
Lemma handle_event_outputs e m m' outs :
  @handle_event HI E e m = Done m' outs -> (length outs <= 4)%nat /\ n_of is_start outs = 0%nat.
Proof.
  intros [(_ & _ & _ & ->)|(queue & _ & Hl)]%handle_event_cases; [cbn; auto with lia|].
  assert (Hb : (step_budget m <= 3)%nat) by (unfold step_budget; repeat case_match; lia).
  eapply (loop_invariant (fun m _ output => (length output + step_budget m <= 3)%nat /\
    n_of is_start output = 0%nat)) in Hl; [| |split; [exact Hb|done]].
  - destruct Hl as [[? ?]|(m0 & e0 & rest & o0 & outs0 & [Ho Hs0] & Hs & Hd & ->)]; [lia|].
    rewrite n_of_app, length_app, (internal_step_no_start _ _ _ _ Hs), (internal_step_length _ _ _ _ Hs), Hd.
    apply internal_step_budget in Hs. lia.
  - intros m0 e0 rest o0 m1 outs0 [Ho Hs0] Hs Hd.
    rewrite n_of_app, length_app, (internal_step_no_start _ _ _ _ Hs), (internal_step_length _ _ _ _ Hs), Hd.
    apply internal_step_budget in Hs. lia.
Qed.

(** A decision is the last event returned and holds its quorum. *)
Lemma handle_event_decision e m m' outs :
  @handle_event HI E e m = Done m' outs ->
  decided outs = false \/
  exists pre h r, outs = pre ++ [Event_Decision h r] /\ decided pre = false /\
    sm_quorum m' <= count (sm_precommits m') r h.
Proof.
  intros [(_ & _ & _ & ->)|(queue & _ & Hl)]%handle_event_cases; [by left|].
  eapply (loop_invariant (fun _ _ output => decided output = false)) in Hl;
    [|intros; by rewrite decided_app; apply orb_false_iff|done].
  destruct Hl as [Hd|(m0 & e0 & rest & o0 & outs0 & Ho0 & Hs & Hd & ->)]; [by left|right].
  apply internal_step_decision in Hs as (pre & h1 & r1 & -> & Hpre & Hq); [|done].
  exists (o0 ++ pre), h1, r1. by rewrite <-app_assoc, decided_app, Ho0.
Qed.

(** No vote is counted that was not fed or sent by the machine itself. *)
Lemma internal_step_precommit_upper h m e m' outs rest :
  internal_step m e m' outs -> counts_nonneg m -> sm_round m = 0 ->
  precommit_tally h m' (rest ++ own outs) <=
    precommit_tally h m (e :: rest) + Z.of_nat (n_of (precommit_for h) outs).
Proof.
  intros Hs Hn Hr. specialize (Hn h). unfold precommit_tally, precommit_for.
  assert (Hadd : u32_add (count (sm_precommits m) 0 h) 1 <= count (sm_precommits m) 0 h + 1).
  { unfold u32_add, wrap. apply Z.mod_le; lia. }
  destruct Hs; sm_simpl; rewrite ?count_bump, ?Hr; autorewrite with tally; cbn [is_own];
    autorewrite with tally; repeat case_bool_decide; repeat case_decide;
    destruct_and?; simplify_eq; try lia; naive_solver lia.
Qed.

Lemma handle_event_precommit_upper h e m m' outs :
  @handle_event HI E e m = Done m' outs -> counts_nonneg m -> sm_round m = 0 ->
  counts_nonneg m' /\ sm_round m' = 0 /\ sm_quorum m' = sm_quorum m /\
  precommit_tally h m' (sm_events_queue m') <=
    precommit_tally h m (e :: sm_events_queue m) + Z.of_nat (n_of (precommit_for h) outs).
Proof.
  intros [(_ & _ & -> & ->)|(queue & Hq & Hl)]%handle_event_cases Hn Hr.
  { split; [exact Hn|]. split; [exact Hr|]. split; [done|]. unfold precommit_tally; sm_simpl.
    autorewrite with tally. lia. }
  set (K := precommit_tally h m (e :: sm_events_queue m)).
  set (P := fun (m1 : StateMachine) (queue output : list StateMachineEvent) =>
    counts_nonneg m1 /\ sm_round m1 = 0 /\ sm_quorum m1 = sm_quorum m /\ sm_events_queue m1 = [] /\
    precommit_tally h m1 queue <= K + Z.of_nat (n_of (precommit_for h) output)).
  assert (HP : forall m1 e1 rest o1 m2 outs1, P m1 (e1 :: rest) o1 -> internal_step m1 e1 m2 outs1 ->
      P m2 (rest ++ own outs1) (o1 ++ outs1)).
  { intros m1 e1 rest o1 m2 outs1 (H1 & H2 & H3 & H4 & H5) Hs.
    destruct (internal_step_frame _ _ _ _ Hs) as (? & ? & ?).
    split; [by eapply internal_step_nonneg|]. do 3 (split; [congruence|]).
    apply (internal_step_precommit_upper h _ _ _ _ rest) in Hs; [|done..].
    rewrite n_of_app. lia. }
  assert (HP0 : P (set_events_queue [] m) queue []).
  { split; [exact Hn|]. split; [exact Hr|]. do 2 (split; [done|]).
    unfold K, precommit_tally; sm_simpl.
    destruct Hq as [(_ & _ & ->)|(_ & ->)]; autorewrite with tally; lia. }
  eapply (loop_invariant P) in Hl; [|intros; by eapply HP|exact HP0].
  assert (Hend : exists rest, P m' rest outs).
  { destruct Hl as [Hl|(m0 & e0 & rest & o0 & outs0 & Ho & Hs & _ & ->)]; eauto. }
  destruct Hend as (rest & H1 & H2 & H3 & H4 & H5). do 3 (split; [done|]).
  rewrite H4. unfold precommit_tally in *. rewrite n_of_nil. lia.
Qed.
End Calls.
