(* ===== verification/StateMachineProps.v ===== *)
(** * Properties of the consensus state machine

    Termination of the queue loop, uniqueness of the votes the machine sends,
    what a decision certifies, the quorum arithmetic, and that a machine which
    receives a proposal and two quorums decides, in whatever order the events
    arrive. *)

From stdpp Require Import base gmap list strings fin_maps.
From Stdlib Require Import ZArith Lia.
From S2P Require Import Prelude StateMachine StateMachineInv.

(** The iteration order used by the witnesses. *)
Definition map_order : HashIter := {| votes_iter := map_to_list; votes_iter_perm := fun m => reflexivity _ |}.

Section Properties.
Context {HI : HashIter} {E : Type}.

(** The events handled in a whole height: [start] and what the caller feeds. *)
Definition run_from_start (n : Z) (evs : list StateMachineEvent) :
    res StateMachine E (list StateMachineEvent) :=
  (let! first := start in let! more := run_events evs in ret (first ++ more)) (new n).

Lemma run_from_start_eq n evs :
  run_from_start n evs =
  (let! more := run_events evs in ret (Event_StartRound None 0 :: more))
    (set_starting_round true (new n)).
Proof. reflexivity. Qed.

(** The loop over the internal event queue terminates: the fuel the model
    gives it is enough, and any larger amount gives the same result. *)
Theorem queue_loop_terminates (queue : list StateMachineEvent) (m : StateMachine) (extra : nat) :
  @handle_enqueued_events_loop HI E (loop_fuel queue m + extra) queue [] m =
  Some (handle_enqueued_events queue m).
Proof.
  unfold handle_enqueued_events.
  destruct (@handle_enqueued_events_loop HI E (loop_fuel queue m) queue [] m) as [r|] eqn:Hl.
  - eapply loop_fuel_mono; [|exact Hl]. lia.
  - exfalso. eapply loop_terminates; [|exact Hl]. unfold loop_fuel. lia.
Qed.

(** C22: over a whole height, whatever events it is fed in whatever order, the
    machine sends at most one prevote and at most one precommit: it never
    votes twice, which is what its owner's "should not send repeat votes"
    panic relies on. *)
Theorem votes_at_most_once (n : Z) (evs : list StateMachineEvent) m outs :
  run_from_start n evs = Done m outs ->
  (n_of is_prevote outs <= 1)%nat /\ (n_of is_precommit outs <= 1)%nat.
Proof.
  rewrite run_from_start_eq. intros H; inv_run. rewrite !n_of_cons.
  match goal with H : run_events _ _ = Done _ ?o |- _ =>
    apply (run_events_invariant (fun m _ pre => votes_within 1 1 m pre) _ _ _ [] [] o) in H as [? ?] end.
  - cbn [app is_prevote is_precommit] in *. lia.
  - intros e m1 m1' fed pre outs1 _ Hw Hev. by eapply handle_event_votes.
  - split; cbn; lia.
Qed.

(** a decision is certified: when [handle_event] returns a decision for a
    hash, the machine holds at least a quorum of precommits for that hash in
    that round, and the decision is the last event returned. *)
Theorem decision_has_quorum (e : StateMachineEvent) (m m' : StateMachine) outs h r :
  @handle_event HI E e m = Done m' outs -> Event_Decision h r ∈ outs ->
  sm_quorum m' <= count (sm_precommits m') r h /\
  exists pre, outs = pre ++ [Event_Decision h r] /\ decided pre = false.
Proof.
  intros Hev Hin. apply handle_event_decision in Hev as [Hd|(pre & h1 & r1 & -> & Hpre & Hq)];
    [by apply not_decided_elem with (h := h) (r := r) in Hd|].
  assert (h = h1 /\ r = r1) as [-> ->].
  { apply elem_of_app in Hin as [Hin|Hin]; [by apply not_decided_elem in Hin|]. set_solver. }
  eauto.
Qed.

(** liveness of a height: once the answer to [StartRound], a proposal, a
    quorum of prevotes and a quorum of precommits for one hash have arrived,
    in whatever order, a run that did not panic has emitted a decision. *)
Theorem quorums_decide (h n : Z) (evs : list StateMachineEvent) m outs :
  Z.of_nat (length evs) + 1 < 2 ^ 32 -> Forall proposal_round0 evs ->
  (exists b, Event_StartRound b 0 ∈ evs) -> proposed evs ->
  quorum_of n <= Z.of_nat (n_of (prevote_for h) evs) ->
  quorum_of n <= Z.of_nat (n_of (precommit_for h) evs) ->
  run_from_start n evs = Done m outs ->
  exists h' r', Event_Decision h' r' ∈ outs.
Proof.
  intros Hlen Hr Hst Hp Hqv Hqc. rewrite run_from_start_eq. intros H; inv_run.
  match goal with H : run_events _ _ = _ |- _ => eapply (run_decides h) in H; try done end.
  match goal with H : decided _ = true |- _ =>
    apply existsb_exists in H as (e & Hin & He) end.
  destruct e as [| | | |h' r']; try discriminate He. exists h', r'.
  right. by apply list_elem_of_In.
Qed.

(** C7: a height in which every proposal and vote is for one block runs
    without a panic, decides that block once the quorums arrived, in whatever
    order the events came, and decides nothing else. *)
Theorem honest_height (h n : Z) (evs : list StateMachineEvent) :
  Z.of_nat (length evs) + 1 < 2 ^ 32 -> Forall (honest_input h) evs ->
  n_of is_start evs = 1%nat -> n_of brings_proposal evs = 1%nat ->
  quorum_of n <= Z.of_nat (n_of (prevote_for h) evs) ->
  quorum_of n <= Z.of_nat (n_of (precommit_for h) evs) ->
  exists m outs, run_from_start n evs = Done m outs /\
    Event_Decision h 0 ∈ outs /\ decides_only h outs.
Proof.
  intros Hlen Hi Hst Hp Hqv Hqc. rewrite run_from_start_eq.
  destruct (run_events_honest (E:=E) h evs (set_starting_round true (new n))) as (m & outs & Hrun & Hd).
  { apply (honest_inv_start h n evs); [done|lia|lia]. }
  exists m, (Event_StartRound None 0 :: outs). rewrite (bind_step _ _ _ _ _ Hrun).
  split; [done|]. split; [|intros h' r' [|Hin]%elem_of_cons; [done|by apply Hd]].
  destruct (honest_inputs_complete h evs) as (Hr & Hs & Hpr); try done.
  eapply (run_decides h) in Hrun; try done.
  apply existsb_exists in Hrun as (e & Hin & He). destruct e as [| | | |h' r']; try discriminate He.
  apply list_elem_of_In in Hin. destruct (Hd _ _ Hin) as [-> ->]. by right.
Qed.

End Properties.

(** ** Quorums *)

(** The counts of one round, added up. *)
Fixpoint sum_counts (l : list (Z * Z)) : Z :=
  match l with [] => 0 | kv :: l' => kv.2 + sum_counts l' end.
Definition total_votes (m : gmap Z Z) : Z := sum_counts (map_to_list m).

Lemma sum_pair (l : list (Z * Z)) x y :
  Forall (fun kv : Z * Z => 0 <= kv.2) l -> x ∈ l -> y ∈ l -> x <> y ->
  x.2 + y.2 <= sum_counts l.
Proof.
  assert (Hone : forall (l : list (Z * Z)) z, Forall (fun kv : Z * Z => 0 <= kv.2) l -> z ∈ l ->
    0 <= z.2 <= sum_counts l).
  { clear. intros l z. induction l as [|a l IH]; [set_solver|].
    rewrite Forall_cons, elem_of_cons. cbn. intros [Ha Hl] Hz.
    assert (0 <= sum_counts l).
    { clear -Hl. induction Hl; cbn in *; lia. }
    destruct Hz as [->|Hz]; [lia|]. specialize (IH Hl Hz). lia. }
  induction l as [|a l IH]; [set_solver|]. rewrite Forall_cons, !elem_of_cons. cbn.
  intros [Ha Hl] Hx Hy Hne. destruct Hx as [->|Hx], Hy as [->|Hy]; try done.
  - specialize (Hone _ _ Hl Hy). lia.
  - specialize (Hone _ _ Hl Hx). lia.
  - specialize (IH Hl Hx Hy Hne). lia.
Qed.

Lemma quorum_of_exact n : 0 <= n < 2 ^ 31 -> quorum_of n = 2 * n / 3 + 1.
Proof.
  intros Hn. unfold quorum_of, u32_mul, u32_add. rewrite (wrap_id 32 (2 * n)) by (unfold in_range; lia).
  rewrite wrap_id; [done|]. unfold in_range.
  pose proof (Z.div_pos (2 * n) 3). pose proof (Z.div_lt_upper_bound (2 * n) 3 (2 ^ 31)). lia.
Qed.

(** For every weight below 2^31 the quorum is more than two thirds of the
    total, it can be met by the honest validators when fewer than a third are
    faulty, and two quorums share more than a third of the weight. *)
Theorem quorum_arithmetic (n : Z) :
  0 < n < 2 ^ 31 ->
  quorum_of n = 2 * n / 3 + 1 /\ 3 * quorum_of n > 2 * n /\
  (forall f, 3 * f < n -> quorum_of n <= n - f) /\
  (forall a b, quorum_of n <= a -> quorum_of n <= b -> 3 * (a + b - n) > n).
Proof.
  intros Hn. rewrite quorum_of_exact by lia.
  pose proof (Z.div_mod (2 * n) 3 ltac:(lia)). pose proof (Z.mod_pos_bound (2 * n) 3 ltac:(lia)).
  repeat split; intros; lia.
Qed.

(** The bound is sharp: at 2^31 validators [2 * total_weight] wraps around in
    the release build and a single vote is a quorum. *)
Example quorum_wraps : quorum_of (2 ^ 31) = 1.
Proof. reflexivity. Qed.

(** "we don't care which value is chosen in the case of a tie": whatever
    the iteration order of the hash map, the leading vote is the same one
    whenever it reaches the quorum and no more votes than validators were
    counted. *)
Theorem leading_vote_order_irrelevant (HI1 HI2 : HashIter) (votes : gmap Z (gmap Z Z)) r n h c :
  0 <= n < 2 ^ 31 ->
  (forall m, votes !! r = Some m -> map_Forall (fun _ k => 0 <= k) m /\ total_votes m <= n) ->
  @leading_vote HI1 votes r = Some (h, c) -> quorum_of n <= c ->
  @leading_vote HI2 votes r = Some (h, c).
Proof.
  intros Hn Htot Hl1 Hc. unfold leading_vote in *.
  destruct (votes !! r) as [m|] eqn:Hm; [|done]. destruct (Htot _ eq_refl) as [Hnn Ht].
  apply max_by_count_spec in Hl1 as [Hin1 Hmax1]. rewrite @elem_of_votes_iter in Hin1.
  destruct (max_by_count (@votes_iter HI2 m)) as [[h2 c2]|] eqn:Hl2.
  - apply max_by_count_spec in Hl2 as [Hin2 Hmax2]. rewrite @elem_of_votes_iter in Hin2.
    specialize (Hmax1 (h2, c2) (proj2 (elem_of_votes_iter _ _ _) Hin2)).
    specialize (Hmax2 (h, c) (proj2 (elem_of_votes_iter _ _ _) Hin1)). cbn in *.
    assert (c2 = c) as -> by lia.
    destruct (decide (h2 = h)) as [->|Hne]; [done|exfalso].
    assert (Hs : c + c <= total_votes m).
    { apply (sum_pair _ (h, c) (h2, c)); [|by rewrite elem_of_map_to_list..|congruence].
      apply map_Forall_to_list in Hnn. eapply Forall_impl; [exact Hnn|]. by intros [? ?]. }
    rewrite quorum_of_exact in Hc by done.
    pose proof (Z.div_mod (2 * n) 3 ltac:(lia)). pose proof (Z.mod_pos_bound (2 * n) 3 ltac:(lia)). lia.
  - assert (Hin : (h, c) ∈ @votes_iter HI2 m) by by rewrite elem_of_votes_iter.
    destruct (@votes_iter HI2 m); [set_solver|done].
Qed.

(** ** Witnesses *)

Definition demo_height : list StateMachineEvent :=
  [Event_Precommit 7 0; Event_Precommit 7 0; Event_Precommit 7 0;
   Event_StartRound None 0; Event_Prevote 7 0; Event_Prevote 7 0; Event_Proposal 7 0;
   Event_Prevote 7 0].

Lemma votes_at_most_once_witness :
  exists m outs, @run_from_start map_order unit 4 demo_height = Done m outs /\
    (n_of is_prevote outs <= 1)%nat /\ (n_of is_precommit outs <= 1)%nat.
Proof.
  eexists _, _. split; [vm_compute; reflexivity|].
  eapply (@votes_at_most_once map_order unit 4 demo_height). vm_compute; reflexivity.
Defined.

Lemma decision_has_quorum_witness :
  exists m m' outs, @handle_event map_order unit (Event_Precommit 7 0) m = Done m' outs /\
    Event_Decision 7 0 ∈ outs /\ sm_quorum m' <= count (sm_precommits m') 0 7.
Proof.
  pose (m0 := match @run_from_start map_order unit 4
      [Event_StartRound None 0; Event_Proposal 7 0; Event_Precommit 7 0; Event_Precommit 7 0]
      with Done m _ => m | _ => new 4 end).
  eexists m0, _, _. split; [vm_compute; reflexivity|]. split; [left|].
  eapply (@decision_has_quorum map_order unit (Event_Precommit 7 0) m0).
  - vm_compute; reflexivity.
  - left.
Defined.

Lemma demo_height_length : Z.of_nat (length demo_height) + 1 < 2 ^ 32.
Proof. vm_compute; reflexivity. Qed.

Lemma demo_height_honest : Forall (honest_input 7) demo_height.
Proof. unfold honest_input, honest_event. repeat (apply Forall_cons; split; [tauto|]). done. Qed.

Lemma quorums_decide_witness :
  exists m outs h' r', @run_from_start map_order unit 4 demo_height = Done m outs /\
    Event_Decision h' r' ∈ outs.
Proof.
  assert (Hrun : @run_from_start map_order unit 4 demo_height = 
    ltac:(let r := eval vm_compute in (@run_from_start map_order unit 4 demo_height) in exact r))
    by (vm_compute; reflexivity).
  eexists _, _. 
  refine (match @quorums_decide map_order unit 7 4 demo_height _ _ demo_height_length _ _ _ _ _ Hrun with
          | ex_intro _ h' (ex_intro _ r' H) => ex_intro _ h' (ex_intro _ r' (conj Hrun H)) end).
  - repeat constructor.
  - exists None. do 3 right. left.
  - left. exists 7. do 6 right. left.
  - vm_compute; discriminate.
  - vm_compute; discriminate.
Defined.

Lemma honest_height_witness :
  exists m outs, @run_from_start map_order unit 4 demo_height = Done m outs /\
    Event_Decision 7 0 ∈ outs /\ decides_only 7 outs.
Proof.
  apply (@honest_height map_order unit 7 4 demo_height demo_height_length demo_height_honest);
    [reflexivity | reflexivity | vm_compute; discriminate | vm_compute; discriminate].
Defined.

Lemma quorum_arithmetic_witness : 0 < 4 < 2 ^ 31 /\ quorum_of 4 = 3.
Proof.
  split; [lia|]. exact (proj1 (quorum_arithmetic 4 ltac:(lia))).
Defined.

Lemma leading_vote_order_irrelevant_witness :
  exists HI2 : HashIter, @leading_vote HI2 {[0 := {[7 := 3; 8 := 1]}]} 0 = Some (7, 3).
Proof.
  exists {| votes_iter := fun m => reverse (map_to_list m); votes_iter_perm := fun m => reverse_Permutation _ |}.
  apply (leading_vote_order_irrelevant map_order _ _ 0 4 7 3); try (vm_compute; done).
  intros m Hm. vm_compute in Hm. injection Hm as <-. split; [|vm_compute; done].
  apply map_Forall_to_list. vm_compute. repeat constructor; done.
Defined.
