(* ===== verification/SingleHeightConsensus.v ===== *)
(** * Consensus on a single height

    Models [crates/sequencing/papyrus_consensus/src/single_height_consensus.rs]
    with the types of [types.rs] and of [papyrus_protobuf/src/consensus.rs]: the
    object that owns a [StateMachine], answers its events, keeps the votes of
    the validators and returns the decision. The node behind it is the trait
    [ConsensusContext], an interface here as it is in the source. *)

From stdpp Require Import base gmap list strings fin_maps.
From Stdlib Require Import ZArith Lia.
From S2P Require Import Prelude StateMachine.

Abbreviation ValidatorId := Z (only parsing).
Abbreviation BlockNumber := Z (only parsing).

(** ** Data *)

Inductive VoteType : Type := VoteType_Prevote | VoteType_Precommit.

#[global] Instance VoteType_eq_dec : EqDecision VoteType.
Proof. solve_decision. Defined.

Record Vote : Type := mkVote {
  vote_type : VoteType;
  vote_height : Z;
  vote_block_hash : BlockHash;
  vote_voter : ValidatorId
}.

#[global] Instance Vote_eq_dec : EqDecision Vote.
Proof. solve_decision. Defined.

Record Proposal (Tx : Type) : Type := mkProposal {
  proposal_height : Z;
  proposal_proposer : ValidatorId;
  proposal_transactions : list Tx;
  proposal_block_hash : BlockHash
}.
Arguments mkProposal {Tx}.
Arguments proposal_height {Tx}.
Arguments proposal_proposer {Tx}.
Arguments proposal_transactions {Tx}.
Arguments proposal_block_hash {Tx}.

Inductive ConsensusMessage (Tx : Type) : Type :=
| ConsensusMessage_Proposal (p : Proposal Tx)
| ConsensusMessage_Vote (v : Vote).
Arguments ConsensusMessage_Proposal {Tx}.
Arguments ConsensusMessage_Vote {Tx}.

(** [ConsensusMessage::height]. *)
Definition message_height {Tx} (m : ConsensusMessage Tx) : Z :=
  match m with
  | ConsensusMessage_Proposal p => proposal_height p
  | ConsensusMessage_Vote v => vote_height v
  end.

Record ProposalInit : Type := mkProposalInit {
  init_height : BlockNumber;
  init_proposer : ValidatorId
}.

(** The message of an [InvalidProposal] error is its reason. *)
Inductive InvalidReason : Type :=
| InvalidHeight (expected got : BlockNumber)
| InvalidProposer (expected got : ValidatorId)
| ValidationFailed
| FinNeverReceived
| SignatureMismatch.

Inductive ConsensusError (Tx : Type) : Type :=
| ConsensusError_Canceled
| ConsensusError_InvalidProposal (proposer : ValidatorId) (height : BlockNumber) (msg : InvalidReason)
| ConsensusError_SendError
| ConsensusError_Equivocation (height : BlockNumber) (old new : ConsensusMessage Tx).
Arguments ConsensusError_Canceled {Tx}.
Arguments ConsensusError_InvalidProposal {Tx}.
Arguments ConsensusError_SendError {Tx}.
Arguments ConsensusError_Equivocation {Tx}.

(** The trait [ConsensusBlock]: what consensus needs of a block is its id. *)
Class ConsensusBlock (BlockT : Type) : Type := { block_id : BlockT -> BlockHash }.

(** The trait [ConsensusContext]. The context is passed along, since its
    methods send messages; a [oneshot] receiver is the value it resolves to,
    [None] when the sender was dropped. [cx_send_fin] is the send on the
    channel whose receiving end [propose] took: it fails when that end is
    gone. [cx_proposer] is [None] when the method panics. *)
Class ConsensusContext (Ctx BlockT Tx : Type) : Type := {
  cx_build_proposal : Ctx -> BlockNumber -> Ctx * (list Tx * option BlockT);
  cx_validate_proposal : Ctx -> BlockNumber -> list Tx -> Ctx * option BlockT;
  cx_validators : Ctx -> BlockNumber -> list ValidatorId;
  cx_proposer : Ctx -> list ValidatorId -> BlockNumber -> option ValidatorId;
  cx_broadcast : Ctx -> ConsensusMessage Tx -> Ctx * option (ConsensusError Tx);
  cx_propose : Ctx -> ProposalInit -> list Tx -> Ctx * option (ConsensusError Tx);
  cx_send_fin : Ctx -> BlockHash -> Ctx * bool
}.

Record ConsensusDecision (BlockT : Type) : Type := mkDecision {
  decision_precommits : list Vote;
  decision_block : BlockT
}.
Arguments mkDecision {BlockT}.
Arguments decision_precommits {BlockT}.
Arguments decision_block {BlockT}.

Record SingleHeightConsensus (BlockT : Type) : Type := mkSHC {
  shc_height : BlockNumber;
  shc_validators : list ValidatorId;
  shc_id : ValidatorId;
  shc_state_machine : StateMachine;
  shc_proposals : gmap Z BlockT;
  shc_prevotes : gmap (Z * Z) Vote;
  shc_precommits : gmap (Z * Z) Vote
}.
Arguments mkSHC {BlockT}.
Arguments shc_height {BlockT}.
Arguments shc_validators {BlockT}.
Arguments shc_id {BlockT}.
Arguments shc_state_machine {BlockT}.
Arguments shc_proposals {BlockT}.
Arguments shc_prevotes {BlockT}.
Arguments shc_precommits {BlockT}.

Section Updates.
Context {BlockT : Type}.
Implicit Types s : SingleHeightConsensus BlockT.

Definition set_state_machine (m : StateMachine) s : SingleHeightConsensus BlockT :=
  mkSHC (shc_height s) (shc_validators s) (shc_id s) m (shc_proposals s) (shc_prevotes s)
    (shc_precommits s).
Definition set_shc_proposals (p : gmap Z BlockT) s : SingleHeightConsensus BlockT :=
  mkSHC (shc_height s) (shc_validators s) (shc_id s) (shc_state_machine s) p (shc_prevotes s)
    (shc_precommits s).

(** The map a vote type selects, and its replacement: [&mut self.prevotes] or
    [&mut self.precommits]. *)
Definition shc_votes (t : VoteType) s : gmap (Z * Z) Vote :=
  match t with VoteType_Prevote => shc_prevotes s | VoteType_Precommit => shc_precommits s end.
Definition set_votes (t : VoteType) (v : gmap (Z * Z) Vote) s : SingleHeightConsensus BlockT :=
  match t with
  | VoteType_Prevote =>
      mkSHC (shc_height s) (shc_validators s) (shc_id s) (shc_state_machine s) (shc_proposals s) v
        (shc_precommits s)
  | VoteType_Precommit =>
      mkSHC (shc_height s) (shc_validators s) (shc_id s) (shc_state_machine s) (shc_proposals s)
        (shc_prevotes s) v
  end.
End Updates.

Ltac shc_simpl :=
  cbn [shc_height shc_validators shc_id shc_state_machine shc_proposals shc_prevotes shc_precommits
       set_state_machine set_shc_proposals shc_votes set_votes fst snd] in *.

Definition ROUND_ZERO : Round := 0.

Definition new_shc {BlockT} (height : BlockNumber) (id : ValidatorId) (validators : list ValidatorId) :
    SingleHeightConsensus BlockT :=
  {| shc_height := height;
     shc_validators := validators;
     shc_id := id;
     shc_state_machine := StateMachine.new (wrap 32 (Z.of_nat (length validators)));
     shc_proposals := ∅;
     shc_prevotes := ∅;
     shc_precommits := ∅ |}.

(** ** Operations *)

Section Shc.
Context {HI : HashIter} {Ctx BlockT Tx : Type}
        {CB : ConsensusBlock BlockT} {CC : ConsensusContext Ctx BlockT Tx}.

(** A handler works on the object and the context it was given. *)
Definition ShcHandler (A : Type) : Type := M (SingleHeightConsensus BlockT * Ctx) (ConsensusError Tx) A.

Definition self : ShcHandler (SingleHeightConsensus BlockT) := fun s => Done s s.1.
Definition get_context : ShcHandler Ctx := fun s => Done s s.2.
Definition update_self (f : SingleHeightConsensus BlockT -> SingleHeightConsensus BlockT) : ShcHandler unit :=
  fun s => Done (f s.1, s.2) tt.

(** A call of a method of the context. *)
Definition call {A} (f : Ctx -> Ctx * A) : ShcHandler A :=
  fun s => let '(c, a) := f s.2 in Done (s.1, c) a.

(** A call of a method of the owned state machine. *)
Definition machine {A} (m : M StateMachine (ConsensusError Tx) A) : ShcHandler A :=
  fun s =>
    match m (shc_state_machine s.1) with
    | Done sm a => Done (set_state_machine sm s.1, s.2) a
    | Fail sm e => Fail (set_state_machine sm s.1, s.2) e
    | Panic => Panic
    end.

(** [handle_state_machine_vote]: record and broadcast the node's own vote. *)
Definition handle_state_machine_vote (block_hash : BlockHash) (round : Round) (t : VoteType) : ShcHandler unit :=
  let! shc := self in
  let vote := mkVote t (shc_height shc) block_hash (shc_id shc) in
  let old := shc_votes t shc !! (round, shc_id shc) in
  update_self (fun s => set_votes t (<[(round, shc_id s) := vote]> (shc_votes t s)) s) ;!
  match old with
  | Some _ => panic
  | None =>
      let! sent := call (fun c => cx_broadcast c (ConsensusMessage_Vote vote)) in
      match sent with
      | Some e => raise e
      | None => ret tt
      end
  end.

(** The precommits of the validators, in their order, that support a hash. *)
Definition supporting_precommits (shc : SingleHeightConsensus BlockT) (round : Round)
    (block_hash : BlockHash) : list Vote :=
  omap (fun v =>
    match shc_precommits shc !! (round, v) with
    | Some vote => if vote_block_hash vote =? block_hash then Some vote else None
    | None => None
    end) (shc_validators shc).

Definition handle_state_machine_decision (block_hash : BlockHash) (round : Round) :
    ShcHandler (option (ConsensusDecision BlockT)) :=
  let! shc := self in
  let removed := shc_proposals shc !! round in
  update_self (set_shc_proposals (delete round (shc_proposals shc))) ;!
  let! block := expect removed in
  assert_ (block_id block =? block_hash) ;!
  let! shc := self in
  let precommits := supporting_precommits shc round block_hash in
  assert_ (quorum_size (shc_state_machine shc) <=? Z.of_nat (length precommits)) ;!
  ret (Some (mkDecision precommits block)).

Definition handle_state_machine_start_round (block_hash : option BlockHash) (round : Round) :
    ShcHandler (list StateMachineEvent) :=
  assert_ (bool_decide (block_hash = None)) ;!
  let! shc := self in
  let! ctx := get_context in
  let! proposer_id := expect (cx_proposer ctx (shc_validators shc) (shc_height shc)) in
  if negb (proposer_id =? shc_id shc) then machine (handle_event (Event_StartRound None round))
  else
    let! built := call (fun c => cx_build_proposal c (shc_height shc)) in
    let '(content, block_receiver) := built in
    let init := mkProposalInit (shc_height shc) (shc_id shc) in
    let! proposed := call (fun c => cx_propose c init content) in
    assert_ (bool_decide (proposed = None)) ;!
    let! block := expect block_receiver in
    let id := block_id block in
    let! sent := call (fun c => cx_send_fin c id) in
    assert_ sent ;!
    let! shc := self in
    let old := shc_proposals shc !! round in
    update_self (set_shc_proposals (<[round := block]> (shc_proposals shc))) ;!
    assert_ (match old with None => true | Some _ => false end) ;!
    machine (handle_event (Event_StartRound (Some id) round)).

(** The [while let Some(event) = events.pop_front()] loop, with fuel. *)
Fixpoint handle_state_machine_events_loop (fuel : nat) (events : list StateMachineEvent)
    (s : SingleHeightConsensus BlockT * Ctx) :
    option (res (SingleHeightConsensus BlockT * Ctx) (ConsensusError Tx) (option (ConsensusDecision BlockT))) :=
  match fuel with
  | O => None
  | S fuel' =>
      match events with
      | [] => Some (Done s None)
      | event :: rest =>
          match event with
          | Event_StartRound block_hash round =>
              match handle_state_machine_start_round block_hash round s with
              | Done s' more => handle_state_machine_events_loop fuel' (rest ++ more) s'
              | Fail s' e => Some (Fail s' e)
              | Panic => Some Panic
              end
          | Event_Proposal _ _ => handle_state_machine_events_loop fuel' rest s
          | Event_Decision block_hash round => Some (handle_state_machine_decision block_hash round s)
          | Event_Prevote block_hash round =>
              match handle_state_machine_vote block_hash round VoteType_Prevote s with
              | Done s' _ => handle_state_machine_events_loop fuel' rest s'
              | Fail s' e => Some (Fail s' e)
              | Panic => Some Panic
              end
          | Event_Precommit block_hash round =>
              match handle_state_machine_vote block_hash round VoteType_Precommit s with
              | Done s' _ => handle_state_machine_events_loop fuel' rest s'
              | Fail s' e => Some (Fail s' e)
              | Panic => Some Panic
              end
          end
      end
  end.

(** One [StartRound] is answered by at most four events of the machine. *)
Definition events_fuel (events : list StateMachineEvent) : nat := S (5 * length events).

Definition handle_state_machine_events (events : list StateMachineEvent) : ShcHandler (option (ConsensusDecision BlockT)) :=
  fun s =>
    match handle_state_machine_events_loop (events_fuel events) events s with
    | Some r => r
    | None => Panic
    end.

Definition start_shc : ShcHandler (option (ConsensusDecision BlockT)) :=
  let! events := machine StateMachine.start in
  handle_state_machine_events events.

(** [handle_proposal]; [fin] is what the fin receiver resolves to. *)
Definition handle_proposal (init : ProposalInit) (content : list Tx) (fin : option BlockHash) :
    ShcHandler (option (ConsensusDecision BlockT)) :=
  let! shc := self in
  let! ctx := get_context in
  let! proposer_id := expect (cx_proposer ctx (shc_validators shc) (shc_height shc)) in
  let invalid msg := ConsensusError_InvalidProposal proposer_id (shc_height shc) msg in
  if negb (init_height init =? shc_height shc) then
    raise (invalid (InvalidHeight (shc_height shc) (init_height init)))
  else if negb (init_proposer init =? proposer_id) then
    raise (invalid (InvalidProposer proposer_id (init_proposer init)))
  else
    let! block_receiver := call (fun c => cx_validate_proposal c (shc_height shc) content) in
    match block_receiver with
    | None => raise (invalid ValidationFailed)
    | Some block =>
        match fin with
        | None => raise (invalid FinNeverReceived)
        | Some fin_hash =>
            if negb (block_id block =? fin_hash) then raise (invalid SignatureMismatch)
            else
              update_self (fun s => set_shc_proposals (<[ROUND_ZERO := block]> (shc_proposals s)) s) ;!
              let! sm_events := machine (handle_event (Event_Proposal (block_id block) ROUND_ZERO)) in
              handle_state_machine_events sm_events
        end
    end.

Definition vote_event (vote : Vote) : StateMachineEvent :=
  match vote_type vote with
  | VoteType_Prevote => Event_Prevote (vote_block_hash vote) ROUND_ZERO
  | VoteType_Precommit => Event_Precommit (vote_block_hash vote) ROUND_ZERO
  end.

Definition handle_vote (vote : Vote) : ShcHandler (option (ConsensusDecision BlockT)) :=
  let! shc := self in
  let votes := shc_votes (vote_type vote) shc in
  match votes !! (ROUND_ZERO, vote_voter vote) with
  | Some old =>
      if negb (vote_block_hash old =? vote_block_hash vote) then
        raise (ConsensusError_Equivocation (shc_height shc)
                 (ConsensusMessage_Vote old) (ConsensusMessage_Vote vote))
      else ret None
  | None =>
      update_self (set_votes (vote_type vote) (<[(ROUND_ZERO, vote_voter vote) := vote]> votes)) ;!
      let! sm_events := machine (handle_event (vote_event vote)) in
      handle_state_machine_events sm_events
  end.

Definition handle_message (message : ConsensusMessage Tx) : ShcHandler (option (ConsensusDecision BlockT)) :=
  match message with
  | ConsensusMessage_Proposal _ => panic
  | ConsensusMessage_Vote vote => handle_vote vote
  end.

End Shc.
