(* ===== verification/RunHeight.v ===== *)
(** * The node's consensus context

    Models [crates/sequencing/papyrus_consensus/src/papyrus_consensus_context.rs]:
    the implementation of the interface [ConsensusContext] that the papyrus node
    gives to consensus. It answers from the blocks the node has synced: the
    model holds the transactions and the hash of each height, as they are once
    [wait_for_block] has returned. *)

From stdpp Require Import base gmap list strings fin_maps.
From Stdlib Require Import ZArith Lia.
From S2P Require Import Prelude StateMachine SingleHeightConsensus.

Record PapyrusConsensusBlock (Tx : Type) : Type := mkPapyrusConsensusBlock {
  pcb_content : list Tx;
  pcb_id : BlockHash
}.
Arguments mkPapyrusConsensusBlock {Tx}.
Arguments pcb_content {Tx}.
Arguments pcb_id {Tx}.

(** [impl ConsensusBlock for PapyrusConsensusBlock]. *)
#[global] Instance PapyrusConsensusBlock_block Tx : ConsensusBlock (PapyrusConsensusBlock Tx) :=
  {| block_id := pcb_id |}.

Record PapyrusConsensusContext (Tx : Type) : Type := mkPapyrusConsensusContext {
  (** [get_block_transactions] and the [block_hash] of [get_block_header]. *)
  pcc_storage : BlockNumber -> list Tx * BlockHash;
  (** what was handed to [broadcast_sender], oldest first. *)
  pcc_sent : list (ConsensusMessage Tx);
  (** the proposal whose fin is still awaited by the task [propose] spawned. *)
  pcc_proposing : option (ProposalInit * list Tx);
  pcc_validators : list ValidatorId;
  (** whether the network end of [broadcast_sender] is still there. *)
  pcc_connected : bool;
  (** how many transactions the channel between the task of [build_proposal] and
      the task of [propose] takes in the schedule at hand: at least
      [CHANNEL_SIZE], more when the second task drains it in time. *)
  pcc_capacity : nat
}.
Arguments mkPapyrusConsensusContext {Tx}.
Arguments pcc_storage {Tx}.
Arguments pcc_sent {Tx}.
Arguments pcc_proposing {Tx}.
Arguments pcc_validators {Tx}.
Arguments pcc_connected {Tx}.
Arguments pcc_capacity {Tx}.

Definition CHANNEL_SIZE : nat := Z.to_nat 5000.

Section Context.
Context {Tx : Type} `{EqDecision Tx}.
Abbreviation context := (PapyrusConsensusContext Tx).

(** [(0..num_validators).map(ContractAddress::from).collect()]; [drained] is
    how far the reader of the channel of [build_proposal] gets while it fills. *)
Definition new_context (storage : BlockNumber -> list Tx * BlockHash) (num_validators : nat)
    (drained : nat) : context :=
  mkPapyrusConsensusContext storage [] None (Z.of_nat <$> seq 0 num_validators) true
    (CHANNEL_SIZE + drained).

(** The task fills the bounded channel before it sends the block; a block that
    does not fit makes [try_send] fail and the task panic, which drops the
    channel of the block. *)
Definition build_proposal (c : context) (height : BlockNumber) :
    context * (list Tx * option (PapyrusConsensusBlock Tx)) :=
  let '(transactions, block_hash) := pcc_storage c height in
  if (length transactions <=? pcc_capacity c)%nat
  then (c, (transactions, Some (mkPapyrusConsensusBlock transactions block_hash)))
  else (c, (take (pcc_capacity c) transactions, None)).

(** The loop that compares the stored transactions with the received ones. *)
Fixpoint content_matches (transactions content : list Tx) : bool :=
  match transactions with
  | [] => match content with [] => true | _ :: _ => false end
  | tx :: transactions' =>
      match content with
      | [] => false
      | received_tx :: content' =>
          if decide (tx = received_tx) then content_matches transactions' content' else false
      end
  end.

Definition validate_proposal (c : context) (height : BlockNumber) (content : list Tx) :
    context * option (PapyrusConsensusBlock Tx) :=
  let '(transactions, block_hash) := pcc_storage c height in
  if content_matches transactions content
  then (c, Some (mkPapyrusConsensusBlock transactions block_hash))
  else (c, None).

Definition validators (c : context) (_ : BlockNumber) : list ValidatorId := pcc_validators c.

(** [*self.validators.first().expect(..)]: [None] is the panic of [expect]. *)
Definition proposer (c : context) (_ : list ValidatorId) (_ : BlockNumber) : option ValidatorId :=
  head (pcc_validators c).

Definition send (m : ConsensusMessage Tx) (c : context) : context :=
  mkPapyrusConsensusContext (pcc_storage c) (pcc_sent c ++ [m]) (pcc_proposing c) (pcc_validators c)
    (pcc_connected c) (pcc_capacity c).

Definition broadcast (c : context) (message : ConsensusMessage Tx) :
    context * option (ConsensusError Tx) :=
  if pcc_connected c then (send message c, None) else (c, Some ConsensusError_SendError).

(** [propose] spawns a task that collects the content and waits for the fin. *)
Definition propose (c : context) (init : ProposalInit) (content : list Tx) :
    context * option (ConsensusError Tx) :=
  (mkPapyrusConsensusContext (pcc_storage c) (pcc_sent c) (Some (init, content)) (pcc_validators c)
     (pcc_connected c) (pcc_capacity c), None).

(** The fin arrives: the task broadcasts the proposal; when the network end is
    gone the task panics, which its spawner does not see. Without such a task
    the receiving end of the fin channel is gone and the send fails. *)
Definition send_fin (c : context) (block_hash : BlockHash) : context * bool :=
  match pcc_proposing c with
  | None => (c, false)
  | Some (init, transactions) =>
      let proposal := mkProposal (init_height init) (init_proposer init) transactions block_hash in
      let sent := if pcc_connected c then pcc_sent c ++ [ConsensusMessage_Proposal proposal] else pcc_sent c in
      (mkPapyrusConsensusContext (pcc_storage c) sent None (pcc_validators c) (pcc_connected c)
         (pcc_capacity c), true)
  end.

#[global] Instance PapyrusConsensusContext_context :
    ConsensusContext context (PapyrusConsensusBlock Tx) Tx := {|
  cx_build_proposal := build_proposal;
  cx_validate_proposal := validate_proposal;
  cx_validators := validators;
  cx_proposer := proposer;
  cx_broadcast := broadcast;
  cx_propose := propose;
  cx_send_fin := send_fin
|}.

Lemma content_matches_eq transactions content :
  content_matches transactions content = bool_decide (transactions = content).
Proof.
  revert content; induction transactions as [|tx txs IH]; intros [|r content]; cbn; try done.
  case_decide as Ht; [rewrite IH; subst|]; repeat case_bool_decide; naive_solver.
Qed.
End Context.

(** * The consensus main loop

    Models [crates/sequencing/papyrus_consensus/src/lib.rs]: [run_height], which
    feeds one [SingleHeightConsensus] with the cached and the received messages
    of its height, and [run_consensus], which runs one height after the other.
    The network is the sequence of items the subscription yields; a run that
    used all of them is [Pending], waiting for the next one. *)

(** What [network_receiver.next().await] yields. *)
Inductive NetItem (Tx : Type) : Type :=
| Net_Message (m : ConsensusMessage Tx)
| Net_ParseFailure
| Net_Closed.
Arguments Net_Message {Tx}.
Arguments Net_ParseFailure {Tx}.
Arguments Net_Closed {Tx}.

Section RunHeight.
Context {BN : BlockNumberApi} {HI : HashIter} {Ctx BlockT Tx : Type}
        {CB : ConsensusBlock BlockT} {CC : ConsensusContext Ctx BlockT Tx}.

(** How a height ends, or that it is still waiting. *)
Inductive HeightResult : Type :=
| HeightDecided (d : ConsensusDecision BlockT) (ctx : Ctx) (network : list (NetItem Tx))
    (cached : list (ConsensusMessage Tx))
| HeightPending (s : SingleHeightConsensus BlockT * Ctx) (cached : list (ConsensusMessage Tx))
| HeightError (e : ConsensusError Tx)
| HeightPanic.

(** [impl From<ProposalWrapper>]: the proposal's init, content and fin. *)
Definition unwrap_proposal (p : Proposal Tx) : ProposalInit * list Tx * option BlockHash :=
  (mkProposalInit (proposal_height p) (proposal_proposer p), proposal_transactions p,
   Some (proposal_block_hash p)).

(** The body of the loop after a message was obtained. *)
Definition on_message (height : BlockNumber) (message : ConsensusMessage Tx) :
    @ShcHandler Ctx BlockT Tx (option (ConsensusDecision BlockT)) :=
  match message with
  | ConsensusMessage_Proposal proposal =>
      let '(proposal_init, content, fin) := unwrap_proposal proposal in
      handle_proposal proposal_init content fin
  | ConsensusMessage_Vote _ => handle_message message
  end.

(** A message of a later height is cached, one of an earlier height dropped. *)
Definition cache (height : BlockNumber) (cached : list (ConsensusMessage Tx))
    (message : ConsensusMessage Tx) : list (ConsensusMessage Tx) :=
  if height <? message_height message then cached ++ [message] else cached.

(** The loop over the network. *)
Fixpoint receive (height : BlockNumber) (network : list (NetItem Tx))
    (cached : list (ConsensusMessage Tx)) (s : SingleHeightConsensus BlockT * Ctx) : HeightResult :=
  match network with
  | [] => HeightPending s cached
  | Net_Closed :: _ => HeightPanic
  | Net_ParseFailure :: _ => HeightPanic
  | Net_Message message :: network' =>
      if negb (message_height message =? height) then
        receive height network' (cache height cached message) s
      else
        match on_message height message s with
        | Done s' (Some d) => HeightDecided d s'.2 network' cached
        | Done s' None => receive height network' cached s'
        | Fail _ e => HeightError e
        | Panic => HeightPanic
        end
  end.

(** The messages cached for this height are popped from the back first. *)
Fixpoint drain (height : BlockNumber) (messages : list (ConsensusMessage Tx))
    (network : list (NetItem Tx)) (cached : list (ConsensusMessage Tx))
    (s : SingleHeightConsensus BlockT * Ctx) : HeightResult :=
  match messages with
  | [] => receive height network cached s
  | message :: messages' =>
      if negb (message_height message =? height) then
        drain height messages' network (cache height cached message) s
      else
        match on_message height message s with
        | Done s' (Some d) => HeightDecided d s'.2 network cached
        | Done s' None => drain height messages' network cached s'
        | Fail _ e => HeightError e
        | Panic => HeightPanic
        end
  end.

(** The [for msg in std::mem::take(cached_messages)] loop: what stays cached and
    what belongs to this height. *)
Fixpoint split_cached (height : BlockNumber) (messages : list (ConsensusMessage Tx)) :
    list (ConsensusMessage Tx) * list (ConsensusMessage Tx) :=
  match messages with
  | [] => ([], [])
  | msg :: messages' =>
      let '(cached, current) := split_cached height messages' in
      match height ?= message_height msg with
      | Lt => (msg :: cached, current)
      | Eq => (cached, msg :: current)
      | Gt => (cached, current)
      end
  end.

Definition run_height (ctx : Ctx) (height : BlockNumber) (validator_id : ValidatorId)
    (network : list (NetItem Tx)) (cached_messages : list (ConsensusMessage Tx)) : HeightResult :=
  let validators := cx_validators ctx height in
  let shc := new_shc height validator_id validators in
  match start_shc (shc, ctx) with
  | Done s (Some decision) => HeightDecided decision s.2 network cached_messages
  | Done s None =>
      let '(cached, current) := split_cached height cached_messages in
      drain height (reverse current) network cached s
  | Fail _ e => HeightError e
  | Panic => HeightPanic
  end.

(** The decisions of the successive heights, with what happened in the end;
    [fuel] bounds the number of heights. *)
Fixpoint run_consensus (fuel : nat) (ctx : Ctx) (current_height : BlockNumber)
    (validator_id : ValidatorId) (network : list (NetItem Tx))
    (future_messages : list (ConsensusMessage Tx)) :
    list (BlockNumber * ConsensusDecision BlockT) * option HeightResult :=
  match fuel with
  | O => ([], None)
  | S fuel' =>
      match run_height ctx current_height validator_id network future_messages with
      | HeightDecided d ctx' network' cached =>
          let '(ds, r) :=
            run_consensus fuel' ctx' (bn_unchecked_next current_height) validator_id network' cached in
          ((current_height, d) :: ds, r)
      | r => ([], Some r)
      end
  end.

(** ** What happens to the messages of other heights *)

Definition messages_of (network : list (NetItem Tx)) : list (ConsensusMessage Tx) :=
  omap (fun i => match i with Net_Message m => Some m | _ => None end) network.

Definition future (height : BlockNumber) (messages : list (ConsensusMessage Tx)) :
    list (ConsensusMessage Tx) := List.filter (fun m => height <? message_height m) messages.

Lemma split_cached_spec height messages :
  split_cached height messages =
  (future height messages, List.filter (fun m => message_height m =? height) messages).
Proof.
  unfold future. induction messages as [|m ms IH]; cbn; [done|]. rewrite IH.
  destruct (Z.compare_spec height (message_height m)); repeat case_cmp; try lia; done.
Qed.

Lemma cache_future height cached m : cache height cached m = cached ++ future height [m].
Proof. unfold cache, future; cbn. case_cmp; [done|]. by rewrite app_nil_r. Qed.

Lemma future_equal height m : message_height m = height -> future height [m] = [].
Proof. unfold future; cbn. intros ->. by rewrite Z.ltb_irrefl. Qed.

Lemma future_app height l1 l2 : future height (l1 ++ l2) = future height l1 ++ future height l2.
Proof. apply List.filter_app. Qed.

Lemma future_message height m used :
  future height (messages_of (Net_Message m :: used)) =
  future height [m] ++ future height (messages_of used).
Proof. by rewrite <-future_app. Qed.

Lemma receive_cached height network cached s d ctx network' cached' :
  receive height network cached s = HeightDecided d ctx network' cached' ->
  exists used, network = used ++ network' /\ cached' = cached ++ future height (messages_of used).
Proof.
  revert cached s; induction network as [|i network IH]; intros cached s Hr; cbn in Hr; [done|].
  destruct i as [m| |]; try done.
  destruct (Z.eqb_spec (message_height m) height) as [He|Hne]; cbn in Hr.
  - destruct (on_message height m s) as [s1 [d1|]|s1 e|]; try done.
    + simplify_eq. exists [Net_Message m]. split; [done|].
      by rewrite future_message, future_equal, app_nil_r by done.
    + apply IH in Hr as (used & -> & ->). exists (Net_Message m :: used). split; [done|].
      by rewrite future_message, future_equal by done.
  - apply IH in Hr as (used & -> & ->). exists (Net_Message m :: used). split; [done|].
    by rewrite cache_future, future_message, app_assoc.
Qed.

Lemma drain_cached height messages network cached s d ctx network' cached' :
  Forall (fun m => message_height m = height) messages ->
  drain height messages network cached s = HeightDecided d ctx network' cached' ->
  exists used, network = used ++ network' /\ cached' = cached ++ future height (messages_of used).
Proof.
  revert s; induction messages as [|m ms IH]; intros s Hm Hr; cbn in Hr;
    [by eapply receive_cached|].
  apply Forall_cons in Hm as [He Hm]. rewrite He, Z.eqb_refl in Hr. cbn in Hr.
  destruct (on_message height m s) as [s1 [d1|]|s1 e|]; try done; [|eauto].
  simplify_eq. exists []. cbn. by rewrite app_nil_r.
Qed.
End RunHeight.
