(* ===== verification/ConsensusTheorems.v ===== *)
(** * The consensus theorems

    What single-height consensus promises to its caller: its event loop
    terminates, every decision is certified, two nodes agree unless more than a
    third of the validators equivocate, votes are counted once, and what
    happens to repeated, conflicting and forged messages. *)

From stdpp Require Import base gmap list strings fin_maps.
From Stdlib Require Import ZArith Lia.
From S2P Require Import Prelude StateMachine StateMachineInv StateMachineProps SingleHeightConsensus ShcProps RunHeight.

Section Theorems.
Context {BN : BlockNumberApi} {HI : HashIter} {Ctx BlockT Tx : Type}
        {CB : ConsensusBlock BlockT} {CC : ConsensusContext Ctx BlockT Tx}.

Abbreviation state := (SingleHeightConsensus BlockT * Ctx)%type.

(** the loop that handles the machine's events terminates: the fuel of the
    model is enough, and any larger amount gives the same result. *)
Theorem shc_events_terminate (events : list StateMachineEvent) (s : state) (extra : nat) :
  handle_state_machine_events_loop (Tx := Tx) (events_fuel events + extra) events s =
  Some (handle_state_machine_events events s).
Proof.
  unfold handle_state_machine_events.
  destruct (handle_state_machine_events_loop (events_fuel events) events s) as [r|] eqn:Hl.
  - eapply shc_loop_mono; [|exact Hl]. lia.
  - exfalso. eapply shc_loop_terminates; [|exact Hl]. unfold loop_measure, events_fuel, n_of.
    pose proof (List.filter_length_le is_start events). lia.
Qed.

(** C5: whatever a node is handed, a decision it returns carries a quorum of
    precommits for the decided block, each by a validator, in the validators'
    order (hence by distinct validators when those are distinct). *)
Theorem decision_certified height id validators ctx inputs (s' : state) d :
  run_inputs (Tx := Tx) inputs (new_shc height id validators, ctx) = Done s' (Some d) ->
  certificate validators (quorum_of (wrap 32 (Z.of_nat (length validators)))) d.
Proof. intros Hr. apply inputs_handled in Hr; [exact Hr|]. apply shc_inv_new. Qed.

(** The voters of a certificate. *)
Definition cert_voter_list (d : ConsensusDecision BlockT) : list Z := vote_voter <$> decision_precommits d.

Lemma sublist_inter (l a b : list Z) :
  NoDup l -> a `sublist_of` l -> b `sublist_of` l ->
  (length a + length b <= length l + length (filter (fun x => x ∈ a /\ x ∈ b) l))%nat.
Proof.
  intros Hl Ha Hb.
  assert (Hcount : forall k : list Z, k `sublist_of` l -> length k = length (filter (fun x => x ∈ k) l)).
  { intros k Hk. apply Permutation_length, NoDup_Permutation.
    - by eapply sublist_NoDup.
    - by apply NoDup_filter.
    - intros x. rewrite list_elem_of_filter. split; [|tauto].
      intros Hx. split; [done|]. eapply elem_of_submseteq; [done|by apply sublist_submseteq]. }
  rewrite (Hcount a Ha), (Hcount b Hb). clear. induction l as [|x l IH]; [done|].
  rewrite !filter_cons. repeat case_decide; cbn; try lia; tauto.
Qed.

(** C1: agreement: two nodes of the same height with the same, distinct
    validators that decide different blocks both hold precommits of more than
    a third of the validators, who therefore signed two blocks. With fewer
    than a third of the validators faulty, all decisions are equal. *)
Theorem agreement height validators id1 ctx1 inputs1 (s1 : state) d1 id2 ctx2 inputs2 (s2 : state) d2 :
  NoDup validators -> 0 < Z.of_nat (length validators) < 2 ^ 31 ->
  run_inputs (Tx := Tx) inputs1 (new_shc height id1 validators, ctx1) = Done s1 (Some d1) ->
  run_inputs (Tx := Tx) inputs2 (new_shc height id2 validators, ctx2) = Done s2 (Some d2) ->
  block_id (decision_block d1) = block_id (decision_block d2) \/
  exists equivocators : list Z,
    NoDup equivocators /\ equivocators ⊆ validators /\
    Z.of_nat (length validators) < 3 * Z.of_nat (length equivocators) /\
    forall v, v ∈ equivocators -> exists v1 v2,
      v1 ∈ decision_precommits d1 /\ v2 ∈ decision_precommits d2 /\
      vote_voter v1 = v /\ vote_voter v2 = v /\ vote_block_hash v1 <> vote_block_hash v2.
Proof.
  intros Hnd Hn H1 H2.
  apply inputs_handled in H1; [|apply shc_inv_new]. apply inputs_handled in H2; [|apply shc_inv_new].
  destruct H1 as [Hq1 Hv1 Hs1], H2 as [Hq2 Hv2 Hs2]. cbn [fst shc_validators new_shc] in *.
  destruct (decide (block_id (decision_block d1) = block_id (decision_block d2))) as [|Hne]; [by left|right].
  exists (filter (fun x => x ∈ cert_voter_list d1 /\ x ∈ cert_voter_list d2) validators).
  split; [by apply NoDup_filter|]. split; [intros x Hx; apply list_elem_of_filter in Hx as [_ Hx]; exact Hx|]. split.
  - pose proof (sublist_inter _ _ _ Hnd Hs1 Hs2) as Hi. rewrite !length_fmap in Hi.
    cbn in Hq1, Hq2. rewrite wrap_id in Hq1, Hq2 by (unfold in_range; lia).
    rewrite quorum_of_exact in Hq1, Hq2 by lia.
    pose proof (Z.div_mod (2 * Z.of_nat (length validators)) 3 ltac:(lia)).
    pose proof (Z.mod_pos_bound (2 * Z.of_nat (length validators)) 3 ltac:(lia)).
    unfold cert_voter_list. lia.
  - intros v [[Ha Hb] _]%list_elem_of_filter. unfold cert_voter_list in Ha, Hb.
    apply list_elem_of_fmap in Ha as (v1 & -> & Hin1). apply list_elem_of_fmap in Hb as (v2 & Heq & Hin2).
    exists v1, v2. rewrite Forall_forall in Hv1, Hv2.
    destruct (Hv1 _ Hin1) as [_ ?], (Hv2 _ Hin2) as [_ ?]. repeat split; auto; congruence.
Qed.

(** ** Votes are recorded once *)

Lemma own_vote_kept h r t (s s' : state) u t' k v :
  handle_state_machine_vote (Tx := Tx) h r t s = Done s' u ->
  shc_votes t' s.1 !! k = Some v -> shc_votes t' s'.1 !! k = Some v.
Proof.
  intros [Hn ->]%handle_state_machine_vote_Done Hk.
  destruct t, t'; cbn in *; rewrite ?lookup_insert_ne; congruence.
Qed.

Lemma decision_none h r (s s' : state) :
  handle_state_machine_decision (Tx := Tx) h r s <> Done s' None.
Proof. unfold handle_state_machine_decision. intros Hd. inv_shc. Qed.

Lemma shc_loop_votes_kept fuel events (s s' : state) t k v :
  handle_state_machine_events_loop (Tx := Tx) fuel events s = Some (Done s' None) ->
  shc_votes t s.1 !! k = Some v -> shc_votes t s'.1 !! k = Some v.
Proof.
  revert events s; induction fuel as [|fuel IH]; intros events s Hl Hk; [done|].
  destruct events as [|e rest]; cbn [handle_state_machine_events_loop] in Hl; [by simplify_eq|].
  destruct e as [b r|h r|h r|h r|h r]; [| |destruct (handle_state_machine_vote _ _ _ _) eqn:Hv..|];
    simplify_eq.
  - destruct (handle_state_machine_start_round b r s) eqn:Hs; simplify_eq.
    apply start_round_Done in Hs as (? & ? & _ & ? & Hs).
    eapply IH; [eassumption|]. rewrite Hs. by destruct t.
  - by eapply IH.
  - eapply IH; [eassumption|]. by eapply own_vote_kept.
  - eapply IH; [eassumption|]. by eapply own_vote_kept.
  - exfalso. by eapply decision_none.
Qed.

Lemma events_votes_kept events (s s' : state) t k v :
  handle_state_machine_events (Tx := Tx) events s = Done s' None ->
  shc_votes t s.1 !! k = Some v -> shc_votes t s'.1 !! k = Some v.
Proof.
  unfold handle_state_machine_events. case_match eqn:Hl; [|done]. intros ->. by eapply shc_loop_votes_kept.
Qed.

Lemma vote_recorded vote (s s' : state) :
  handle_vote (Tx := Tx) vote s = Done s' None ->
  exists old, shc_votes (vote_type vote) s'.1 !! (ROUND_ZERO, vote_voter vote) = Some old /\
    vote_block_hash old = vote_block_hash vote.
Proof.
  unfold handle_vote. intros Hd. inv_shc. case_match.
  - case_cmp; cbn in Hd; inv_shc. eauto.
  - inv_shc. match goal with H : machine _ _ = _ |- _ => apply machine_Done in H as (sm & _ & Hs & _) end.
    exists vote. split; [|done]. eapply events_votes_kept; [exact Hd|]. rewrite Hs.
    cbn [fst]. destruct (vote_type vote); cbn; apply lookup_insert_eq.
Qed.

Lemma input_votes_kept i (s s' : state) t k v :
  handle_input i s = Done s' None ->
  shc_votes t s.1 !! k = Some v -> shc_votes t s'.1 !! k = Some v.
Proof.
  destruct i as [|init content fin|vote]; cbn [handle_input].
  - unfold start_shc. intros Hd Hk. inv_shc.
    match goal with H : machine _ _ = _ |- _ => apply machine_Done in H as (sm & _ & Hs & _) end.
    eapply events_votes_kept; [exact Hd|]. rewrite Hs. by destruct t.
  - unfold handle_proposal. intros Hd Hk. inv_shc. do 5 (case_match; inv_shc).
    match goal with H : machine _ _ = _ |- _ => apply machine_Done in H as (sm & _ & Hs & _) end.
    eapply events_votes_kept; [exact Hd|]. rewrite Hs. cbn [fst]. destruct t; cbn in *; congruence.
  - unfold handle_vote. intros Hd Hk. inv_shc. case_match; [case_match; inv_shc; done|]. inv_shc.
    match goal with H : machine _ _ = _ |- _ => apply machine_Done in H as (sm & _ & Hs & _) end.
    eapply events_votes_kept; [exact Hd|]. rewrite Hs. cbn [fst].
    destruct t, (vote_type vote); cbn in *; rewrite ?lookup_insert_ne; congruence.
Qed.

Lemma inputs_votes_kept inputs (s s' : state) t k v :
  run_inputs inputs s = Done s' None ->
  shc_votes t s.1 !! k = Some v -> shc_votes t s'.1 !! k = Some v.
Proof.
  revert s; induction inputs as [|i inputs IH]; intros s Hr Hk; cbn [run_inputs] in Hr; inv_run; [done|].
  case_match; inv_run. eauto using input_votes_kept.
Qed.

(** A validator's vote of each type is counted once: after a vote was
    handled, whatever came since, the same vote again changes nothing, and a
    vote of that voter for another block is an [Equivocation] error that
    carries both votes and leaves the state as it was. *)
Theorem vote_counted_once vote inputs (s s1 s2 : state) vote' :
  handle_vote (Tx := Tx) vote s = Done s1 None ->
  run_inputs inputs s1 = Done s2 None ->
  vote_type vote' = vote_type vote -> vote_voter vote' = vote_voter vote ->
  exists old, vote_block_hash old = vote_block_hash vote /\
    handle_vote vote' s2 =
    if decide (vote_block_hash vote' = vote_block_hash vote) then Done s2 None
    else Fail s2 (ConsensusError_Equivocation (shc_height s2.1)
                    (ConsensusMessage_Vote old) (ConsensusMessage_Vote vote')).
Proof.
  intros Hv Hr Ht Hw. apply vote_recorded in Hv as (old & Hold & Hh).
  eapply inputs_votes_kept in Hold; [|exact Hr]. exists old. split; [done|].
  unfold handle_vote. rewrite (bind_step _ _ _ s2 s2.1) by done. cbn zeta. rewrite Ht, Hw, Hold.
  rewrite Hh. case_cmp; case_decide; congruence || done.
Qed.

(** ** The assertion at a decision *)

Lemma voters_supporting (s : SingleHeightConsensus BlockT) h :
  map_Forall (fun k _ => k.2 ∈ shc_validators s) (shc_precommits s) ->
  (voters (shc_precommits s) h <= length (supporting_precommits s 0 h))%nat.
Proof.
  intros Hin. unfold voters. rewrite <-length_map_to_list.
  set (l := map_to_list (filter (vote_for h) (shc_precommits s))).
  assert (Hl : forall kv, kv ∈ l -> kv.1.1 = 0 /\ vote_block_hash kv.2 = h /\
            shc_precommits s !! (0, kv.1.2) = Some kv.2).
  { intros [[r v] vote] Hkv. apply elem_of_map_to_list, map_lookup_filter_Some in Hkv as [Hk [Hr Hh]].
    cbn in *. by subst r. }
  transitivity (length (filter (fun v => (0, v) ∈ (fst <$> l)) (shc_validators s))).
  - transitivity (length ((fun kv => kv.1.2) <$> l)); [by rewrite length_fmap|].
    apply submseteq_length, NoDup_submseteq.
    + apply (NoDup_fmap_2_strong).
      * intros [[r1 v1] x1] [[r2 v2] x2] H1 H2 Heq. destruct (Hl _ H1) as (? & _ & L1), (Hl _ H2) as (? & _ & L2).
        cbn in *. subst. congruence.
      * apply NoDup_map_to_list.
    + intros v (kv & -> & Hkv)%list_elem_of_fmap. destruct (Hl _ Hkv) as (Hr & _ & Hlk).
      apply list_elem_of_filter. split; [|exact (Hin _ _ Hlk)].
      apply list_elem_of_fmap. exists kv. split; [|done]. destruct kv as [[r1 v1] x1]. cbn in *. by subst.
  - unfold supporting_precommits. clear Hin. induction (shc_validators s) as [|v vs IH]; [done|].
    rewrite filter_cons. cbn [omap list_omap]. case_decide as Hv.
    + apply list_elem_of_fmap in Hv as (kv & Hkv & Hm). destruct (Hl _ Hm) as (_ & Hh & Hlk).
      rewrite <-Hkv in Hlk. cbn in Hlk. rewrite Hlk, (proj2 (Z.eqb_eq _ _) Hh). exact (le_n_S _ _ IH).
    + etrans; [exact IH|]. destruct (_ !! (0, v)) as [x|]; [|done]. case_cmp; [apply le_S|]; reflexivity.
Qed.

(** no precommit is counted that is not backed: after any inputs, when
    only validators' precommits were recorded, the machine's count for a block
    is at most the number of recorded precommits of distinct validators for
    it, which is what the assertion at a decision compares with the quorum. *)
Theorem counted_precommits_backed height id validators ctx inputs (s' : state) h :
  run_inputs (Tx := Tx) inputs (new_shc height id validators, ctx) = Done s' None ->
  map_Forall (fun k _ => k.2 ∈ validators) (shc_precommits s'.1) ->
  count (sm_precommits (shc_state_machine s'.1)) 0 h <=
  Z.of_nat (length (supporting_precommits s'.1 0 h)).
Proof.
  intros Hr Hv. apply inputs_handled in Hr as [[_ _ _ Hc] (Hval & _)]; [|apply shc_inv_new].
  cbn in Hval. specialize (Hc h). unfold precommit_tally in Hc. cbn -[count] in Hc.
  rewrite <-Hval in Hv. pose proof (voters_supporting s'.1 h Hv). lia.
Qed.

(** ** The main loop *)

(** A height that decided did so on inputs it was fed one by one. *)
Lemma on_message_input height m (s : state) :
  exists i, on_message (Tx := Tx) height m s = handle_input i s.
Proof.
  destruct m as [p|v]; cbn.
  - by exists (ShcInput_Proposal (mkProposalInit (proposal_height p) (proposal_proposer p))
                 (proposal_transactions p) (Some (proposal_block_hash p))).
  - by exists (ShcInput_Vote v).
Qed.

Lemma run_inputs_cons i inputs (s s1 : state) r :
  handle_input i s = Done s1 None -> run_inputs inputs s1 = r -> run_inputs (i :: inputs) s = r.
Proof. intros Hi Hr. cbn [run_inputs]. by rewrite (bind_step _ _ _ _ _ Hi). Qed.

Lemma run_inputs_one i (s s1 : state) d :
  handle_input i s = Done s1 (Some d) -> run_inputs [i] s = Done s1 (Some d).
Proof. intros Hi. cbn [run_inputs]. by rewrite (bind_step _ _ _ _ _ Hi). Qed.

Lemma receive_inputs height network cached (s : state) d ctx network' cached' :
  receive (Tx := Tx) height network cached s = HeightDecided d ctx network' cached' ->
  exists inputs s', run_inputs inputs s = Done s' (Some d).
Proof.
  revert cached s; induction network as [|i network IH]; intros cached s Hr; cbn [receive] in Hr; [done|].
  destruct i as [m| |]; try done. case_match; [eauto|].
  destruct (on_message_input height m s) as [i Hi]. rewrite Hi in Hr.
  destruct (handle_input i s) as [s1 [d1|]|s1 e|] eqn:Hh; simplify_eq.
  - eauto using run_inputs_one.
  - destruct (IH _ _ Hr) as (inputs & s2 & Hin). eauto using run_inputs_cons.
Qed.

Lemma drain_inputs height messages network cached (s : state) d ctx network' cached' :
  drain (Tx := Tx) height messages network cached s = HeightDecided d ctx network' cached' ->
  exists inputs s', run_inputs inputs s = Done s' (Some d).
Proof.
  revert cached s; induction messages as [|m messages IH]; intros cached s Hr; cbn [drain] in Hr;
    [eauto using receive_inputs|].
  case_match; [eauto|]. destruct (on_message_input height m s) as [i Hi]. rewrite Hi in Hr.
  destruct (handle_input i s) as [s1 [d1|]|s1 e|] eqn:Hh; simplify_eq.
  - eauto using run_inputs_one.
  - destruct (IH _ _ Hr) as (inputs & s2 & Hin). eauto using run_inputs_cons.
Qed.

Lemma run_height_inputs ctx height id network cached d ctx' network' cached' :
  run_height (Tx := Tx) ctx height id network cached = HeightDecided d ctx' network' cached' ->
  exists inputs s', run_inputs inputs (new_shc height id (cx_validators ctx height), ctx) = Done s' (Some d).
Proof.
  unfold run_height. destruct (start_shc _) as [s1 [d1|]|s1 e|] eqn:Hs; intros Hr; simplify_eq.
  - exists [ShcInput_Start], s1. by apply run_inputs_one.
  - case_match. apply drain_inputs in Hr as (inputs & s' & Hin).
    exists (ShcInput_Start :: inputs), s'. eapply run_inputs_cons; [exact Hs|done].
Qed.

Lemma run_height_certified ctx height id network cached d ctx' network' cached' :
  run_height (Tx := Tx) ctx height id network cached = HeightDecided d ctx' network' cached' ->
  certificate (cx_validators ctx height)
    (quorum_of (wrap 32 (Z.of_nat (length (cx_validators ctx height))))) d.
Proof.
  intros (inputs & s' & Hr)%run_height_inputs. apply inputs_handled in Hr; [exact Hr|]. apply shc_inv_new.
Qed.

(** Every height of a run, with what it was run on, decided with a certificate
    of its validators, and the next height continues from where it stopped. *)
Inductive heights_chain : Ctx -> Z -> list (Z * ConsensusDecision BlockT) -> Prop :=
| chain_nil ctx height : heights_chain ctx height []
| chain_cons ctx ctx' height d ds :
    certificate (cx_validators ctx height)
      (quorum_of (wrap 32 (Z.of_nat (length (cx_validators ctx height))))) d ->
    heights_chain ctx' (bn_unchecked_next height) ds ->
    heights_chain ctx height ((height, d) :: ds).

(** The main loop decides the heights in sequence, none skipped and none
    repeated, each with the certificate of its own validators. *)
Theorem run_consensus_chain fuel ctx height id network future_messages :
  heights_chain ctx height
    (run_consensus (Tx := Tx) fuel ctx height id network future_messages).1.
Proof.
  revert ctx height network future_messages; induction fuel as [|fuel IH];
    intros ctx height network future_messages; cbn [run_consensus]; [constructor|].
  destruct (run_height _ _ _ _ _) as [d ctx' network' cached| | |] eqn:Hh; try by constructor.
  specialize (IH ctx' (bn_unchecked_next height) network' cached).
  destruct (run_consensus fuel ctx' (bn_unchecked_next height) id network' cached) as [ds r]. cbn in *.
  econstructor; [by eapply run_height_certified|exact IH].
Qed.

Lemma future_future height l : future (Tx := Tx) height (future height l) = future height l.
Proof.
  unfold future. induction l as [|m l IH]; cbn; [done|].
  destruct (height <? message_height m) eqn:Hm; cbn; rewrite ?Hm; congruence.
Qed.

(** a height that decides loses no message of a later height: those that
    were cached and those it received are cached for the next height, in
    order, and the rest of the network is left unread. *)
Theorem future_messages_kept ctx height id network cached d ctx' network' cached' :
  run_height (Tx := Tx) ctx height id network cached = HeightDecided d ctx' network' cached' ->
  exists used, network = used ++ network' /\
    future height cached' = future height (cached ++ messages_of used).
Proof.
  unfold run_height. destruct (start_shc _) as [s1 [d1|]|s1 e|]; intros Hr; simplify_eq.
  - exists []. split; [done|]. by rewrite app_nil_r.
  - rewrite split_cached_spec in Hr. apply drain_cached in Hr as (used & -> & ->).
    + exists used. split; [done|]. by rewrite !future_app, !future_future.
    + apply Forall_reverse, Forall_forall. intros m Hm%list_elem_of_In%List.filter_In. lia.
Qed.
End Theorems.

(** ** With the node's own context *)

Section Papyrus.
Context {HI : HashIter} {Tx : Type} `{EqDecision Tx}.
Abbreviation papyrus_state := (SingleHeightConsensus (PapyrusConsensusBlock Tx) * PapyrusConsensusContext Tx)%type.

Lemma call_no_fail {A} (f : PapyrusConsensusContext Tx -> PapyrusConsensusContext Tx * A)
    (s s' : papyrus_state) (e : ConsensusError Tx) : call f s <> Fail s' e.
Proof. unfold call. by destruct (f s.2). Qed.

Lemma machine_no_fail ev (s s' : papyrus_state) (e : ConsensusError Tx) :
  machine (handle_event ev) s <> Fail s' e.
Proof.
  unfold machine. destruct (handle_event ev _) eqn:Hh; try done.
  intros _. by eapply handle_event_no_fail.
Qed.

Ltac no_fail :=
  repeat match goal with
  | H : bind _ _ _ = Fail _ _ |- _ => apply bind_Fail in H as [H|(? & ? & ? & H)]
  | H : call _ _ = Fail _ _ |- _ => by apply call_no_fail in H
  | H : machine _ _ = Fail _ _ |- _ => by apply machine_no_fail in H
  | H : (match ?x with _ => _ end) _ = Fail _ _ |- _ => destruct x; try discriminate H
  | H : assert_ ?b _ = Fail _ _ |- _ => destruct b; discriminate H
  | H : expect ?b _ = Fail _ _ |- _ => destruct b; discriminate H
  | H : _ = Fail _ _ |- _ => discriminate H
  end.

Lemma start_round_no_fail b r (s s' : papyrus_state) (e : ConsensusError Tx) :
  handle_state_machine_start_round b r s <> Fail s' e.
Proof. unfold handle_state_machine_start_round. intros H. no_fail. Qed.

Lemma decision_no_fail h r (s s' : papyrus_state) (e : ConsensusError Tx) :
  handle_state_machine_decision h r s <> Fail s' e.
Proof. unfold handle_state_machine_decision. intros H. no_fail. Qed.

Lemma own_vote_fail h r t (s s' : papyrus_state) (e : ConsensusError Tx) :
  handle_state_machine_vote h r t s = Fail s' e -> e = ConsensusError_SendError.
Proof.
  unfold handle_state_machine_vote. intros H. rewrite (bind_step _ _ _ s s.1) in H by done.
  rewrite (bind_step (update_self _) _ _ (_, s.2) tt) in H by reflexivity. case_match; [done|].
  apply bind_Fail in H as [H|(s1 & sent & Hc & H)]; [by apply call_no_fail in H|].
  unfold call in Hc. cbn [snd fst cx_broadcast PapyrusConsensusContext_context] in Hc.
  unfold broadcast in Hc. destruct (pcc_connected s.2); simplify_eq; unfold raise, ret in H; by simplify_eq.
Qed.

Lemma events_fail events (s s' : papyrus_state) (e : ConsensusError Tx) :
  handle_state_machine_events events s = Fail s' e -> e = ConsensusError_SendError.
Proof.
  unfold handle_state_machine_events. generalize (events_fuel events) as fuel.
  intros fuel. case_match eqn:Hl; [intros ->|done]. revert events s Hl.
  induction fuel as [|fuel IH]; intros events s Hl; [done|].
  destruct events as [|ev rest]; cbn [handle_state_machine_events_loop] in Hl; [done|].
  destruct ev as [b r|h r|h r|h r|h r]; [|eauto|destruct (handle_state_machine_vote _ _ _ _) eqn:Hv..|];
    simplify_eq; eauto using own_vote_fail.
  - destruct (handle_state_machine_start_round b r s) eqn:Hs; simplify_eq; [eauto|].
    by apply start_round_no_fail in Hs.
  - by apply decision_no_fail in Hl.
Qed.

(** a proposal the node accepts, whatever comes of it, is by the
    configured proposer and carries exactly the transactions and the hash of
    the block the node has synced for its height. A proposal it refuses leaves
    the consensus state as it was. *)
Theorem accepted_proposal init content fin (s : papyrus_state) :
  match handle_proposal init content fin s with
  | Done _ _ =>
      init_height init = shc_height s.1 /\
      head (pcc_validators s.2) = Some (init_proposer init) /\
      content = (pcc_storage s.2 (shc_height s.1)).1 /\
      fin = Some (pcc_storage s.2 (shc_height s.1)).2
  | Fail s' (ConsensusError_InvalidProposal p h _) =>
      s' = s /\ head (pcc_validators s.2) = Some p /\ h = shc_height s.1 /\
      (init_height init <> shc_height s.1 \/ init_proposer init <> p \/
       (content, fin) <> ((pcc_storage s.2 (shc_height s.1)).1, Some (pcc_storage s.2 (shc_height s.1)).2))
  | _ => True
  end.
Proof.
  destruct s as [shc ctx]. unfold handle_proposal.
  rewrite (bind_step _ _ _ (shc, ctx) shc), (bind_step _ _ _ (shc, ctx) ctx) by done.
  cbn [cx_proposer PapyrusConsensusContext_context]. unfold proposer. cbn [fst snd].
  destruct (head (pcc_validators ctx)) as [p|] eqn:Hp; [|done].
  rewrite (bind_step _ _ _ (shc, ctx) p) by done.
  destruct (Z.eqb_spec (init_height init) (shc_height shc)) as [Hh|Hh]; [|cbn; eauto 6].
  destruct (Z.eqb_spec (init_proposer init) p) as [Hpr|Hpr]; [|cbn; eauto 6]. cbn [negb].
  unfold call, bind at 1. cbn [cx_validate_proposal PapyrusConsensusContext_context snd fst].
  unfold validate_proposal. destruct (pcc_storage ctx (shc_height shc)) as [txs hash] eqn:Hst.
  rewrite content_matches_eq. case_bool_decide as Hc; cbn [fst snd].
  2: { cbn. repeat split; try done. right. right. congruence. }
  destruct fin as [f|]; [|cbn; repeat split; try done; right; right; congruence].
  cbn [block_id PapyrusConsensusBlock_block pcb_id].
  destruct (Z.eqb_spec hash f) as [Hf|Hf]; cbn [negb].
  2: { cbn. repeat split; try done. right. right. congruence. }
  destruct (bind _ _ _) as [s1 od|s1 e|] eqn:Hrun; [|  |done].
  - repeat split; congruence.
  - rewrite (bind_step (update_self _) _ _ (_, ctx) tt) in Hrun by reflexivity.
    apply bind_Fail in Hrun as [Hrun|(s2 & evs & _ & Hrun)]; [by apply machine_no_fail in Hrun|].
    apply events_fail in Hrun. by subst e.
Qed.
End Papyrus.

(** ** Concrete heights

    Four validators 0..3, of which the node is 1; the synced block of height 5
    has the transactions 10 and 11 and the hash 77. *)
Definition demo_context : PapyrusConsensusContext Z := new_context (fun _ => ([10; 11], 77)) 4 0.
Abbreviation demo_state := (SingleHeightConsensus (PapyrusConsensusBlock Z) * PapyrusConsensusContext Z)%type.
Definition demo_node : demo_state := (new_shc 5 1 (cx_validators demo_context 5), demo_context).

Definition demo_proposal : @ShcInput Z := ShcInput_Proposal (mkProposalInit 5 0) [10; 11] (Some 77).
Definition demo_prevote (h v : Z) : @ShcInput Z := ShcInput_Vote (mkVote VoteType_Prevote 5 h v).
Definition demo_precommit (h v : Z) : @ShcInput Z := ShcInput_Vote (mkVote VoteType_Precommit 5 h v).

#[local] Existing Instance map_order.

(** The run of an honest height: the node decides when the last quorum is there. *)
Definition demo_run : list (@ShcInput Z) :=
  [ShcInput_Start; demo_proposal; demo_prevote 77 0; demo_prevote 77 2; demo_precommit 77 0; demo_precommit 77 3].

Definition demo_decision : ConsensusDecision (PapyrusConsensusBlock Z) :=
  mkDecision (mkVote VoteType_Precommit 5 77 <$> [0; 1; 3]) (mkPapyrusConsensusBlock [10; 11] 77).

Lemma demo_decides : exists s, run_inputs demo_run demo_node = Done s (Some demo_decision).
Proof. eexists. vm_compute. reflexivity. Qed.

(** The second proposal of a height is not an error but a panic, also when it
    repeats the first one. *)
Example repeated_proposal_panics :
  run_inputs [ShcInput_Start; demo_proposal; demo_proposal] demo_node = Panic.
Proof. vm_compute. reflexivity. Qed.

(** Votes are counted whoever sends them: three votes by strangers reach the
    quorum, and the assertion on the certificate panics. *)
Example strangers_votes_panic :
  run_inputs ([ShcInput_Start; demo_proposal] ++ (demo_prevote 77 <$> [100; 101]) ++
              (demo_precommit 77 <$> [100; 101])) demo_node = Panic.
Proof. vm_compute. reflexivity. Qed.

(** A peer's vote under the node's own id makes the node's own vote a repeat. *)
Example own_id_vote_panics :
  run_inputs [ShcInput_Start; demo_prevote 78 1; demo_proposal] demo_node = Panic.
Proof. vm_compute. reflexivity. Qed.

(** ** Witnesses *)

Lemma decision_certified_witness : certificate [0; 1; 2; 3] 3 demo_decision.
Proof.
  destruct demo_decides as [s Hs].
  exact (decision_certified 5 1 [0; 1; 2; 3] demo_context demo_run s demo_decision Hs).
Defined.

Lemma agreement_witness :
  block_id (decision_block demo_decision) = block_id (decision_block demo_decision) \/
  exists equivocators : list Z,
    NoDup equivocators /\ equivocators ⊆ [0; 1; 2; 3] /\
    4 < 3 * Z.of_nat (length equivocators) /\
    forall v, v ∈ equivocators -> exists v1 v2,
      v1 ∈ decision_precommits demo_decision /\ v2 ∈ decision_precommits demo_decision /\
      vote_voter v1 = v /\ vote_voter v2 = v /\ vote_block_hash v1 <> vote_block_hash v2.
Proof.
  destruct demo_decides as [s Hs].
  apply (agreement 5 [0; 1; 2; 3] 1 demo_context demo_run s demo_decision
           1 demo_context demo_run s demo_decision); [|cbn; lia|exact Hs|exact Hs].
  refine (bool_decide_unpack _ _). vm_compute. exact I.
Defined.

Lemma vote_counted_once_witness :
  exists s : demo_state, exists old, vote_block_hash old = 77 /\
    handle_vote (mkVote VoteType_Prevote 5 78 0) s =
    Fail s (ConsensusError_Equivocation 5 (ConsensusMessage_Vote old)
              (ConsensusMessage_Vote (mkVote VoteType_Prevote 5 78 0))).
Proof.
  destruct (handle_vote (Tx := Z) (mkVote VoteType_Prevote 5 77 0) demo_node) as [s1 [d|]|s1 e|] eqn:H1;
    [vm_compute in H1; discriminate| |vm_compute in H1; discriminate..].
  assert (Hh : shc_height s1.1 = 5) by (vm_compute in H1; injection H1 as <-; reflexivity).
  destruct (vote_counted_once (mkVote VoteType_Prevote 5 77 0) [] demo_node s1 s1
              (mkVote VoteType_Prevote 5 78 0) H1 eq_refl eq_refl eq_refl) as (old & Ho & He).
  exists s1, old. split; [exact Ho|]. rewrite Hh in He. exact He.
Defined.

Lemma counted_precommits_backed_witness :
  exists s : demo_state, 2 <= Z.of_nat (length (supporting_precommits s.1 0 77)).
Proof.
  destruct (run_inputs (take 5 demo_run) demo_node) as [s1 [d|]|s1 e|] eqn:H1;
    [vm_compute in H1; discriminate| |vm_compute in H1; discriminate..].
  exists s1. etransitivity;
    [|apply (counted_precommits_backed 5 1 [0; 1; 2; 3] demo_context (take 5 demo_run) s1 77 H1)];
    vm_compute in H1; injection H1 as <-; [vm_compute; discriminate|].
  apply map_Forall_to_list. vm_compute. repeat constructor.
Defined.

Lemma future_messages_kept_witness :
  exists d ctx network cached,
    run_height demo_context 5 1
      ([Net_Message (ConsensusMessage_Proposal (mkProposal 5 0 [10; 11] 77));
        Net_Message (ConsensusMessage_Vote (mkVote VoteType_Prevote 6 1 1))] ++
       (Net_Message ∘ ConsensusMessage_Vote <$>
          (mkVote VoteType_Prevote 5 77 <$> [0; 2]) ++ (mkVote VoteType_Precommit 5 77 <$> [0; 2; 3]))) []
    = HeightDecided (BlockT := PapyrusConsensusBlock Z) d ctx network cached /\
    future 5 cached = [ConsensusMessage_Vote (mkVote VoteType_Prevote 6 1 1)].
Proof.
  destruct (run_height _ _ _ _ _) as [d ctx network cached| | |] eqn:H1; try (vm_compute in H1; discriminate).
  exists d, ctx, network, cached. split; [reflexivity|].
  destruct (future_messages_kept _ _ _ _ _ _ _ _ _ H1) as (used & Hu & ->).
  vm_compute in H1. injection H1 as _ _ <- _.
  destruct used as [|u1 [|u2 [|u3 [|u4 [|u5 [|u6 [|u7 [|]]]]]]]]; cbn in Hu; try discriminate Hu;
    injection Hu as; subst; reflexivity.
Defined.
