(* ===== verification/StorageTables.v ===== *)
(** * The tables of the storage

    What [crates/papyrus_storage/src/db/table_types/mod.rs] promises with the
    traits [Table] and [DbCursorTrait]: a table is a finite map whose keys are
    ordered, with the operations of the traits and their errors. The storage
    components are written against this file; [SimpleTable.v] and
    [TableTheorems.v] show that the
    code over the key-value store keeps the promise.

    Errors of the key-value store itself (a full disk, a failed page read) are
    not modelled: a transaction that met one is not committed. *)

From stdpp Require Import base gmap list strings fin_maps sorting.
From Stdlib Require Import ZArith Lia.
From S2P Require Import Prelude.

(** ** Ordered keys *)

(** The trait [Key] asks for [Ord]: a strict total order. *)
Class KeyOrd (K : Type) : Type := {
  key_lt : K -> K -> Prop;
  #[global] key_lt_dec :: RelDecision key_lt;
  #[global] key_lt_strict :: StrictOrder key_lt;
  key_lt_total : forall a b, key_lt a b \/ a = b \/ key_lt b a
}.

#[global] Instance Z_key_ord : KeyOrd Z := {|
  key_lt := Z.lt;
  key_lt_dec := Z.lt_dec;
  key_lt_strict := Z.lt_strorder;
  key_lt_total := Z.lt_total
|}.

(** Tuples and tuple structs derive the lexicographic order. *)
Section Lexicographic.
Context {A B : Type} `{KeyOrd A, KeyOrd B}.

Definition pair_lt (x y : A * B) : Prop :=
  key_lt x.1 y.1 \/ x.1 = y.1 /\ key_lt x.2 y.2.

#[local] Instance pair_lt_dec `{EqDecision A} : RelDecision pair_lt.
Proof. intros x y. unfold pair_lt. apply _. Defined.

Lemma pair_lt_strict : StrictOrder pair_lt.
Proof.
  split.
  - intros [a b] [Hl|[_ Hl]]; by apply (irreflexivity key_lt) in Hl.
  - intros [a1 b1] [a2 b2] [a3 b3] [H1|[H1 H1']] [H2|[H2 H2']]; cbn in *; subst.
    + left. by transitivity a2.
    + by left.
    + by left.
    + right. split; [done|]. by transitivity b2.
Qed.

Lemma pair_lt_total x y : pair_lt x y \/ x = y \/ pair_lt y x.
Proof.
  destruct x as [a1 b1], y as [a2 b2]. unfold pair_lt; cbn.
  destruct (key_lt_total a1 a2) as [|[->|]]; [tauto| |tauto].
  destruct (key_lt_total b1 b2) as [|[->|]]; tauto.
Qed.

#[global] Instance pair_key_ord `{EqDecision A} : KeyOrd (A * B) := {|
  key_lt := pair_lt;
  key_lt_dec := pair_lt_dec;
  key_lt_strict := pair_lt_strict;
  key_lt_total := pair_lt_total
|}.
End Lexicographic.

Lemma key_lt_irrefl `{KeyOrd K} (a : K) : ~ key_lt a a.
Proof. apply irreflexivity, _. Qed.

Lemma key_lt_asym `{KeyOrd K} (a b : K) : key_lt a b -> ~ key_lt b a.
Proof. intros H1 H2. apply (key_lt_irrefl a). by transitivity b. Qed.

Lemma key_not_lt `{KeyOrd K} (a b : K) : ~ key_lt a b <-> b = a \/ key_lt b a.
Proof.
  split.
  - destruct (key_lt_total a b) as [|[->|]]; tauto.
  - intros [->|Hlt]; [apply key_lt_irrefl|by apply key_lt_asym].
Qed.

(** ** Errors of the tables *)

Inductive DbError : Type :=
| DbError_Inner
| DbError_KeyAlreadyExists
| DbError_InnerDeserialization
| DbError_Serialization
| DbError_FileDoesNotExist
| DbError_Append.

(** The result of an operation that can fail: Rust's [DbResult]. *)
Inductive DbResult (A : Type) : Type :=
| DbOk (a : A)
| DbErr (e : DbError).
Arguments DbOk {A}.
Arguments DbErr {A}.

Section Table.
Context {K V : Type} `{Countable K} {KO : KeyOrd K}.
Abbreviation table := (gmap K V).
Implicit Types (m : table) (k : K) (v : V).

(** The entry whose key satisfies [p] and is best for [better]. *)
Definition pick (better : K -> K -> Prop) `{RelDecision K K better} (p : K -> bool)
    (l : list (K * V)) : option (K * V) :=
  foldr (fun kv acc =>
    if p kv.1 then
      match acc with
      | None => Some kv
      | Some best => if decide (better kv.1 best.1) then Some kv else Some best
      end
    else acc) None l.

Definition first_entry (p : K -> bool) m : option (K * V) := pick key_lt p (map_to_list m).
Definition last_entry (p : K -> bool) m : option (K * V) := pick (flip key_lt) p (map_to_list m).

(** ** The trait [Table] *)

Definition tbl_get m k : option V := m !! k.

(** Insert or update. *)
Definition tbl_upsert m k v : table := <[k := v]> m.

(** An existing key is an error. *)
Definition tbl_insert m k v : DbResult table :=
  match m !! k with
  | Some _ => DbErr DbError_KeyAlreadyExists
  | None => DbOk (<[k := v]> m)
  end.

(** The key must be at least the last key of the table. *)
Definition tbl_append m k v : DbResult table :=
  match last_entry (fun _ => true) m with
  | Some (last_key, _) =>
      if decide (key_lt k last_key) then DbErr DbError_Append else DbOk (<[k := v]> m)
  | None => DbOk (<[k := v]> m)
  end.

Definition tbl_delete m k : table := delete k m.

(** ** The trait [DbCursorTrait]

    A cursor stands at an entry or past the last one. *)
Inductive Cursor : Type := Cursor_At (k : K) | Cursor_End.

Definition cursor_result (found : option (K * V)) (otherwise : Cursor) : Cursor * option (K * V) :=
  match found with
  | Some (k, v) => (Cursor_At k, Some (k, v))
  | None => (otherwise, None)
  end.

(** Position at the first key greater than or equal to the given one. *)
Definition cursor_lower_bound m k : Cursor * option (K * V) :=
  cursor_result (first_entry (fun k' => negb (bool_decide (key_lt k' k))) m) Cursor_End.

(** Position at the previous key; before the first key the cursor stays. *)
Definition cursor_prev m (c : Cursor) : Cursor * option (K * V) :=
  match c with
  | Cursor_At k => cursor_result (last_entry (fun k' => bool_decide (key_lt k' k)) m) c
  | Cursor_End => cursor_result (last_entry (fun _ => true) m) c
  end.

(** Position at the next key. *)
Definition cursor_next m (c : Cursor) : Cursor * option (K * V) :=
  match c with
  | Cursor_At k => cursor_result (first_entry (fun k' => bool_decide (key_lt k k')) m) Cursor_End
  | Cursor_End => (Cursor_End, None)
  end.

(** ** What the operations return *)

Lemma pick_spec better `{RelDecision K K better} `{!StrictOrder better} p l :
  (forall a b, better a b \/ a = b \/ better b a) ->
  match pick better p l with
  | Some kv => kv ∈ l /\ p kv.1 = true /\ forall kv', kv' ∈ l -> p kv'.1 = true -> ~ better kv'.1 kv.1
  | None => forall kv, kv ∈ l -> p kv.1 = false
  end.
Proof.
  intros Htot. induction l as [|kv l IH]; cbn; [set_solver|].
  destruct (p kv.1) eqn:Hp; fold (pick better p l).
  - destruct (pick better p l) as [best|].
    + destruct IH as (Hin & Hb & Hmin). case_decide as Hlt.
      * split; [set_solver|]. split; [done|]. intros kv' [->|Hin']%elem_of_cons Hp' Hbad.
        -- by apply (irreflexivity better) in Hbad.
        -- apply (Hmin kv' Hin' Hp'). by transitivity kv.1.
      * split; [set_solver|]. split; [done|]. intros kv' [->|Hin']%elem_of_cons Hp'; [done|eauto].
    + split; [set_solver|]. split; [done|]. intros kv' [->|Hin']%elem_of_cons Hp' Hbad.
      * by apply (irreflexivity better) in Hbad.
      * by rewrite (IH _ Hin') in Hp'.
  - destruct (pick better p l) as [best|].
    + destruct IH as (Hin & Hb & Hmin). split; [set_solver|]. split; [done|].
      intros kv' [->|Hin']%elem_of_cons Hp'; [congruence|eauto].
    + intros kv' [->|Hin']%elem_of_cons; eauto.
Qed.

Lemma flip_strict : StrictOrder (flip (key_lt (K := K))).
Proof.
  split; [intros a; apply key_lt_irrefl|]. intros a b c H1 H2. unfold flip in *. by transitivity b.
Qed.

Lemma first_entry_Some p m k v :
  first_entry p m = Some (k, v) ->
  m !! k = Some v /\ p k = true /\ forall k' v', m !! k' = Some v' -> p k' = true -> ~ key_lt k' k.
Proof.
  unfold first_entry. intros Hf. pose proof (pick_spec key_lt p (map_to_list m) key_lt_total) as Hs.
  rewrite Hf in Hs. destruct Hs as (Hin & Hp & Hmin). apply elem_of_map_to_list in Hin.
  split; [done|]. split; [done|]. intros k' v' Hk' Hp'.
  apply (Hmin (k', v')); [by apply elem_of_map_to_list|done].
Qed.

Lemma first_entry_None p m : first_entry p m = None -> forall k v, m !! k = Some v -> p k = false.
Proof.
  unfold first_entry. intros Hf k v Hk. pose proof (pick_spec key_lt p (map_to_list m) key_lt_total) as Hs.
  rewrite Hf in Hs. apply (Hs (k, v)). by apply elem_of_map_to_list.
Qed.

Lemma last_entry_Some p m k v :
  last_entry p m = Some (k, v) ->
  m !! k = Some v /\ p k = true /\ forall k' v', m !! k' = Some v' -> p k' = true -> ~ key_lt k k'.
Proof.
  unfold last_entry. intros Hf. pose proof flip_strict.
  pose proof (pick_spec (flip key_lt) p (map_to_list m)) as Hs.
  rewrite Hf in Hs. destruct Hs as (Hin & Hp & Hmin).
  { intros a b. unfold flip. destruct (key_lt_total a b) as [|[|]]; auto. }
  apply elem_of_map_to_list in Hin. split; [done|]. split; [done|]. intros k' v' Hk' Hp'.
  apply (Hmin (k', v')); [by apply elem_of_map_to_list|done].
Qed.

Lemma last_entry_None p m : last_entry p m = None -> forall k v, m !! k = Some v -> p k = false.
Proof.
  unfold last_entry. intros Hf k v Hk. pose proof flip_strict.
  pose proof (pick_spec (flip key_lt) p (map_to_list m)) as Hs. rewrite Hf in Hs.
  apply (Hs ltac:(intros a b; unfold flip; destruct (key_lt_total a b) as [|[|]]; auto) (k, v)).
  by apply elem_of_map_to_list.
Qed.

(** The pair [cursor.lower_bound(k); cursor.prev()] finds the greatest key below [k]. *)
Definition entry_below m k : option (K * V) := last_entry (fun k' => bool_decide (key_lt k' k)) m.

Lemma last_entry_ext p q m :
  (forall k v, m !! k = Some v -> p k = q k) -> last_entry p m = last_entry q m.
Proof.
  intros Hpq. unfold last_entry, pick.
  assert (Hl : Forall (fun kv => p kv.1 = q kv.1) (map_to_list m)).
  { apply Forall_forall. intros [k v] Hin%elem_of_map_to_list. by apply (Hpq k v). }
  induction Hl as [|kv l Hkv _ IH]; [done|]. cbn [foldr]. by rewrite Hkv, IH.
Qed.

Lemma lower_bound_prev m k : (cursor_prev m (cursor_lower_bound m k).1).2 = entry_below m k.
Proof.
  unfold cursor_lower_bound, entry_below.
  destruct (first_entry _ m) as [[k1 v1]|] eqn:Hf; cbn.
  - apply first_entry_Some in Hf as (Hk1 & Hp1 & Hmin).
    rewrite (last_entry_ext _ (fun k' => bool_decide (key_lt k' k))).
    + destruct (last_entry _ m) as [[? ?]|]; done.
    + intros k' v' Hk'. apply bool_decide_ext. specialize (Hmin _ _ Hk').
      rewrite negb_true_iff, bool_decide_eq_false in Hp1, Hmin. split.
      * intros Hlt. destruct (decide (key_lt k' k)); [done|]. by apply Hmin in Hlt.
      * intros Hlt. destruct (key_lt_total k' k1) as [|[->|Hlt']]; [done|done|].
        exfalso. apply Hp1. by transitivity k'.
  - rewrite (last_entry_ext _ (fun k' => bool_decide (key_lt k' k))).
    + destruct (last_entry _ m) as [[? ?]|]; done.
    + intros k' v' Hk'. apply (first_entry_None _ _ Hf) in Hk'.
      by rewrite negb_false_iff in Hk'.
Qed.

Lemma entry_below_Some m k k' v' :
  entry_below m k = Some (k', v') <->
  m !! k' = Some v' /\ key_lt k' k /\ forall k'' v'', m !! k'' = Some v'' -> key_lt k'' k -> ~ key_lt k' k''.
Proof.
  split.
  - intros (Hk & Hp & Hmax)%last_entry_Some. apply bool_decide_eq_true in Hp.
    split; [done|]. split; [done|]. intros k'' v'' Hk'' Hlt. eapply Hmax; [done|by apply bool_decide_eq_true].
  - intros (Hk & Hlt & Hmax). unfold entry_below.
    destruct (last_entry _ m) as [[k1 v1]|] eqn:Hl.
    + apply last_entry_Some in Hl as (Hk1 & Hp1 & Hmax1). apply bool_decide_eq_true in Hp1.
      destruct (key_lt_total k' k1) as [Hlt1|[->|Hlt1]].
      * exfalso. by eapply Hmax.
      * by rewrite Hk in Hk1; simplify_eq.
      * exfalso. eapply Hmax1; [exact Hk| |done]. by apply bool_decide_eq_true.
    + apply (last_entry_None _ _ Hl) in Hk. by apply bool_decide_eq_false in Hk.
Qed.

Lemma entry_below_None m k :
  entry_below m k = None <-> forall k' v', m !! k' = Some v' -> ~ key_lt k' k.
Proof.
  split.
  - intros Hl k' v' Hk'. unfold entry_below in Hl. apply (last_entry_None _ _ Hl) in Hk'.
    by apply bool_decide_eq_false in Hk'.
  - intros Hn. destruct (entry_below m k) as [[k1 v1]|] eqn:Hl; [|done].
    apply entry_below_Some in Hl as (Hk & Hlt & _). by apply Hn in Hk.
Qed.

Lemma tbl_append_ok m k v :
  (forall k' v', m !! k' = Some v' -> ~ key_lt k k') <-> tbl_append m k v = DbOk (<[k := v]> m).
Proof.
  unfold tbl_append. destruct (last_entry _ m) as [[k1 v1]|] eqn:Hl.
  - apply last_entry_Some in Hl as (Hk1 & _ & Hmax). split.
    + intros Hn. rewrite decide_False; [done|]. by eapply Hn.
    + case_decide as Hlt; [done|]. intros _ k' v' Hk' Hlt'.
      destruct (key_lt_total k' k1) as [Hl1|[->|Hl1]]; [| |by eapply Hmax].
      * apply Hlt. by transitivity k'.
      * done.
  - split; [done|]. intros _ k' v' Hk'. by apply (last_entry_None _ _ Hl) in Hk'.
Qed.

Lemma tbl_insert_ok m k v : m !! k = None <-> tbl_insert m k v = DbOk (<[k := v]> m).
Proof. unfold tbl_insert. destruct (m !! k); naive_solver. Qed.
End Table.

Arguments Cursor : clear implicits.

(** ** Tables with a common prefix *)

Section CommonPrefix.
Context {A B V : Type} `{Countable A, Countable B} {OA : KeyOrd A} {OB : KeyOrd B}.
Implicit Types (m : gmap (A * B) V).

(** [append_greater_sub_key]: the sub-key must be greater than the last sub-key of
    its main key. *)
Definition tbl_append_greater_sub_key m (k : A * B) (v : V) : DbResult (gmap (A * B) V) :=
  match last_entry (fun k' => bool_decide (k'.1 = k.1)) m with
  | Some (last_key, _) =>
      if decide (key_lt last_key.2 k.2) then DbOk (<[k := v]> m) else DbErr DbError_Append
  | None => DbOk (<[k := v]> m)
  end.

Lemma append_greater_sub_key_ok m a b v :
  (forall b' v', m !! (a, b') = Some v' -> key_lt b' b) <->
  tbl_append_greater_sub_key m (a, b) v = DbOk (<[(a, b) := v]> m).
Proof.
  unfold tbl_append_greater_sub_key. destruct (last_entry _ m) as [[[a1 b1] v1]|] eqn:Hl; cbn.
  - apply last_entry_Some in Hl as (Hk1 & Hp & Hmax). apply bool_decide_eq_true in Hp. cbn in Hp. subst a1.
    split.
    + intros Hlt. by rewrite decide_True by by eapply Hlt.
    + case_decide as Hlt; [|done]. intros _ b' v' Hk'.
      destruct (key_lt_total b' b1) as [Hl|[->|Hl]]; [by transitivity b1|done|].
      exfalso. eapply Hmax; [exact Hk'|by apply bool_decide_eq_true|]. right. by split.
  - split; [done|]. intros _ b' v' Hk'. apply (last_entry_None _ _ Hl) in Hk'.
    by apply bool_decide_eq_false in Hk'.
Qed.
End CommonPrefix.

(** * Cursors walk the sorted entries of a table

    A table's entries in the order of their keys, and what the cursor
    operations do on that list: the lower bound finds the first entry not below
    a key, and [next] moves to the following entry. *)

Section CursorOrder.
Context {K V : Type} `{Countable K} {KO : KeyOrd K}.
Implicit Types (m : gmap K V) (l : list (K * V)).

(** The entries of [m], sorted by key. *)
Definition sorted_entries m l : Prop :=
  StronglySorted (fun a b => key_lt a.1 b.1) l /\ forall k v, (k, v) ∈ l <-> m !! k = Some v.

(** The first entry that satisfies a predicate that only a suffix satisfies. *)
Lemma first_entry_suffix m l1 l2 p :
  sorted_entries m (l1 ++ l2) -> Forall (fun kv => p kv.1 = false) l1 ->
  match head l2 with Some kv => p kv.1 = true | None => True end ->
  first_entry p m = head l2.
Proof.
  intros [Hs Hm] Hl1 Hhd. destruct (first_entry p m) as [[k v]|] eqn:Hf.
  - apply first_entry_Some in Hf as (Hk & Hp & Hmin). apply Hm, elem_of_app in Hk as [Hk|Hk].
    { rewrite Forall_forall in Hl1. apply Hl1 in Hk. cbn in Hk. congruence. }
    destruct l2 as [|[k2 v2] l2]; [by apply not_elem_of_nil in Hk|]. cbn in Hhd |- *.
    apply elem_of_cons in Hk as [->|Hk]; [done|]. exfalso.
    assert (Hlt : key_lt k2 k).
    { apply StronglySorted_app_1_r in Hs. apply StronglySorted_inv in Hs as [_ Hs].
      rewrite Forall_forall in Hs. exact (Hs (k, v) Hk). }
    apply (Hmin k2 v2); [apply Hm, elem_of_app; right; by left|done|done].
  - destruct l2 as [|[k2 v2] l2]; [done|]. cbn in Hhd.
    assert (Hk2 : m !! k2 = Some v2) by (apply Hm, elem_of_app; right; by left).
    apply (first_entry_None _ _ Hf) in Hk2. congruence.
Qed.

Lemma lower_bound_sorted m l1 l2 k :
  sorted_entries m (l1 ++ l2) -> Forall (fun kv => key_lt kv.1 k) l1 ->
  match head l2 with Some kv => ~ key_lt kv.1 k | None => True end ->
  cursor_lower_bound m k = cursor_result (head l2) Cursor_End.
Proof.
  intros Hs Hl1 Hhd. unfold cursor_lower_bound. rewrite (first_entry_suffix m l1 l2); [done|done| |].
  - eapply Forall_impl; [exact Hl1|]. intros kv Hkv. cbn. by rewrite bool_decide_true.
  - destruct (head l2); [|done]. by rewrite bool_decide_false.
Qed.

Lemma next_sorted m l1 k v l2 :
  sorted_entries m (l1 ++ (k, v) :: l2) -> cursor_next m (Cursor_At k) = cursor_result (head l2) Cursor_End.
Proof.
  intros Hs. unfold cursor_next.
  replace (l1 ++ (k, v) :: l2) with ((l1 ++ [(k, v)]) ++ l2) in Hs by (by rewrite <-app_assoc).
  rewrite (first_entry_suffix m (l1 ++ [(k, v)]) l2); [done|done| |].
  - destruct Hs as [Hs _]. apply Forall_app. split.
    + apply Forall_forall. intros [k1 v1] Hin. apply bool_decide_false. cbn. apply key_lt_asym.
      rewrite <-app_assoc in Hs. cbn in Hs.
      exact (StronglySorted_app_1_elem_of _ l1 ((k, v) :: l2) (k1, v1) (k, v) Hs Hin ltac:(by left)).
    + constructor; [|constructor]. apply bool_decide_false. cbn. apply key_lt_irrefl.
  - destruct l2 as [|[k2 v2] l2]; [done|]. cbn. apply bool_decide_true. destruct Hs as [Hs _].
    exact (StronglySorted_app_1_elem_of _ (l1 ++ [(k, v)]) ((k2, v2) :: l2) (k, v) (k2, v2) Hs
      ltac:(apply elem_of_app; right; by left) ltac:(by left)).
Qed.

(** Every table has such a list. *)
Lemma sorted_entries_exists m : exists l, sorted_entries m l.
Proof.
  set (R := fun a b : K * V => a.1 = b.1 \/ key_lt a.1 b.1). exists (merge_sort R (map_to_list m)).
  assert (Htot : Total R).
  { intros a b. unfold R. destruct (key_lt_total a.1 b.1) as [|[|]]; auto. }
  assert (Htrans : Transitive R).
  { intros [ka va] [kb vb] [kc vc] [H1|H1] [H2|H2]; unfold R; cbn in *; subst; auto. right. by transitivity kb. }
  pose proof (StronglySorted_merge_sort R (map_to_list m)) as Hs.
  pose proof (merge_sort_Permutation R (map_to_list m)) as Hp.
  assert (Hnd : NoDup (merge_sort R (map_to_list m)).*1) by (rewrite Hp; apply NoDup_fst_map_to_list).
  split.
  - clear Hp. induction Hs as [|kv l Hs IH Hall]; [constructor|]. cbn in Hnd. apply NoDup_cons in Hnd as [Hk Hnd].
    constructor; [by apply IH|]. apply Forall_forall. intros kv' Hin. rewrite Forall_forall in Hall.
    destruct (Hall _ Hin) as [He|]; [|done]. exfalso. apply Hk. rewrite He. by apply list_elem_of_fmap_2.
  - intros k v. rewrite Hp. apply elem_of_map_to_list.
Qed.
End CursorOrder.
