(* ===== verification/StarknetTypes.v ===== *)
(** * The data the storage keeps

    The types that [crates/papyrus_storage/src/serialization/serializers.rs]
    lists with their fields (structs and enums of the Starknet API and of the
    storage itself). A tuple struct of one field is its field; an enum variant
    [Enum::Variant] is [Enum_Variant], a field [Struct.field] is
    [Struct_field]. Field elements, hashes, addresses and machine integers are
    integers, strings are their UTF-8 bytes. *)

From stdpp Require Import base gmap list strings fin_maps.
From Stdlib Require Import ZArith Lia.
From S2P Require Import Prelude.

(** A [String]: the bytes of its UTF-8 encoding. *)
Abbreviation rstring := (list Z) (only parsing).

(** ** Storage bookkeeping *)

(** [mmap_file::LocationInFile]. *)
Record LocationInFile : Type := mkLocationInFile {
  LocationInFile_offset : Z;
  LocationInFile_len : Z
}.

#[global] Instance LocationInFile_eq_dec : EqDecision LocationInFile.
Proof. solve_decision. Defined.

Inductive MarkerKind : Type :=
| MarkerKind_Header
| MarkerKind_Body
| MarkerKind_Event
| MarkerKind_State
| MarkerKind_Class
| MarkerKind_CompiledClass
| MarkerKind_BaseLayerBlock.

#[global] Instance MarkerKind_eq_dec : EqDecision MarkerKind.
Proof. solve_decision. Defined.
#[global] Instance MarkerKind_countable : Countable MarkerKind.
Proof.
  refine (inj_countable' (fun x => match x with | MarkerKind_Header => 0%nat | MarkerKind_Body => 1%nat | MarkerKind_Event => 2%nat | MarkerKind_State => 3%nat | MarkerKind_Class => 4%nat | MarkerKind_CompiledClass => 5%nat | MarkerKind_BaseLayerBlock => 6%nat end)
            (fun n => match n with | 0%nat => MarkerKind_Header | 1%nat => MarkerKind_Body | 2%nat => MarkerKind_Event | 3%nat => MarkerKind_State | 4%nat => MarkerKind_Class | 5%nat => MarkerKind_CompiledClass | _ => MarkerKind_BaseLayerBlock end) _); by intros [].
Defined.

Inductive OffsetKind : Type :=
| OffsetKind_ThinStateDiff
| OffsetKind_ContractClass
| OffsetKind_Casm
| OffsetKind_DeprecatedContractClass
| OffsetKind_TransactionOutput
| OffsetKind_Transaction.

#[global] Instance OffsetKind_eq_dec : EqDecision OffsetKind.
Proof. solve_decision. Defined.
#[global] Instance OffsetKind_countable : Countable OffsetKind.
Proof.
  refine (inj_countable' (fun x => match x with | OffsetKind_ThinStateDiff => 0%nat | OffsetKind_ContractClass => 1%nat | OffsetKind_Casm => 2%nat | OffsetKind_DeprecatedContractClass => 3%nat | OffsetKind_TransactionOutput => 4%nat | OffsetKind_Transaction => 5%nat end)
            (fun n => match n with | 0%nat => OffsetKind_ThinStateDiff | 1%nat => OffsetKind_ContractClass | 2%nat => OffsetKind_Casm | 3%nat => OffsetKind_DeprecatedContractClass | 4%nat => OffsetKind_TransactionOutput | _ => OffsetKind_Transaction end) _); by intros [].
Defined.

(** ** Blocks, transactions and their outputs *)

Abbreviation AccountDeploymentData := (list Z) (only parsing).
Abbreviation BlockHash := Z (only parsing).
Abbreviation BlockTimestamp := Z (only parsing).
Abbreviation EventCommitment := Z (only parsing).
Abbreviation GasPrice := Z (only parsing).

Record GasPricePerToken : Type := mkGasPricePerToken {
  GasPricePerToken_price_in_fri : GasPrice;
  GasPricePerToken_price_in_wei : GasPrice
}.
Abbreviation GlobalRoot := Z (only parsing).

Inductive L1DataAvailabilityMode : Type :=
| L1DataAvailabilityMode_Calldata
| L1DataAvailabilityMode_Blob.
Abbreviation ReceiptCommitment := Z (only parsing).
Abbreviation SequencerContractAddress := Z (only parsing).
Abbreviation PoseidonHash := Z (only parsing).
Abbreviation StateDiffCommitment := Z (only parsing).
Abbreviation TransactionCommitment := Z (only parsing).

Record StorageBlockHeader : Type := mkStorageBlockHeader {
  StorageBlockHeader_block_hash : BlockHash;
  StorageBlockHeader_parent_hash : BlockHash;
  StorageBlockHeader_block_number : Z;
  StorageBlockHeader_l1_gas_price : GasPricePerToken;
  StorageBlockHeader_l1_data_gas_price : GasPricePerToken;
  StorageBlockHeader_state_root : GlobalRoot;
  StorageBlockHeader_sequencer : SequencerContractAddress;
  StorageBlockHeader_timestamp : BlockTimestamp;
  StorageBlockHeader_l1_da_mode : L1DataAvailabilityMode;
  StorageBlockHeader_state_diff_commitment : option StateDiffCommitment;
  StorageBlockHeader_transaction_commitment : option TransactionCommitment;
  StorageBlockHeader_event_commitment : option EventCommitment;
  StorageBlockHeader_receipt_commitment : option ReceiptCommitment;
  StorageBlockHeader_state_diff_length : option Z;
  StorageBlockHeader_n_transactions : Z;
  StorageBlockHeader_n_events : Z
}.

Record Signature : Type := mkSignature {
  Signature_r : Z;
  Signature_s : Z
}.
Abbreviation BlockSignature := Signature (only parsing).

Inductive BlockStatus : Type :=
| BlockStatus_Pending
| BlockStatus_AcceptedOnL2
| BlockStatus_AcceptedOnL1
| BlockStatus_Rejected.
Abbreviation Calldata := (list Z) (only parsing).
Abbreviation CompiledClassHash := Z (only parsing).
Abbreviation ClassHash := Z (only parsing).
Abbreviation ContractAddressSalt := Z (only parsing).

Inductive DataAvailabilityMode : Type :=
| DataAvailabilityMode_L1
| DataAvailabilityMode_L2.
Abbreviation Fee := Z (only parsing).
Abbreviation Nonce := Z (only parsing).
Abbreviation TransactionSignature := (list Z) (only parsing).

Record DeclareTransactionV0V1 : Type := mkDeclareTransactionV0V1 {
  DeclareTransactionV0V1_max_fee : Fee;
  DeclareTransactionV0V1_signature : TransactionSignature;
  DeclareTransactionV0V1_nonce : Nonce;
  DeclareTransactionV0V1_class_hash : ClassHash;
  DeclareTransactionV0V1_sender_address : Z
}.

Record DeclareTransactionV2 : Type := mkDeclareTransactionV2 {
  DeclareTransactionV2_max_fee : Fee;
  DeclareTransactionV2_signature : TransactionSignature;
  DeclareTransactionV2_nonce : Nonce;
  DeclareTransactionV2_class_hash : ClassHash;
  DeclareTransactionV2_compiled_class_hash : CompiledClassHash;
  DeclareTransactionV2_sender_address : Z
}.
Abbreviation PaymasterData := (list Z) (only parsing).

Inductive Resource : Type :=
| Resource_L1Gas
| Resource_L2Gas.

#[global] Instance Resource_eq_dec : EqDecision Resource.
Proof. solve_decision. Defined.
#[global] Instance Resource_countable : Countable Resource.
Proof.
  refine (inj_countable' (fun x => match x with | Resource_L1Gas => 0%nat | Resource_L2Gas => 1%nat end)
            (fun n => match n with | 0%nat => Resource_L1Gas | _ => Resource_L2Gas end) _); by intros [].
Defined.


Record ResourceBounds : Type := mkResourceBounds {
  ResourceBounds_max_amount : Z;
  ResourceBounds_max_price_per_unit : Z
}.
Abbreviation ResourceBoundsMapping := (gmap Resource ResourceBounds) (only parsing).
Abbreviation Tip := Z (only parsing).

Record DeclareTransactionV3 : Type := mkDeclareTransactionV3 {
  DeclareTransactionV3_resource_bounds : ResourceBoundsMapping;
  DeclareTransactionV3_tip : Tip;
  DeclareTransactionV3_signature : TransactionSignature;
  DeclareTransactionV3_nonce : Nonce;
  DeclareTransactionV3_class_hash : ClassHash;
  DeclareTransactionV3_compiled_class_hash : CompiledClassHash;
  DeclareTransactionV3_sender_address : Z;
  DeclareTransactionV3_nonce_data_availability_mode : DataAvailabilityMode;
  DeclareTransactionV3_fee_data_availability_mode : DataAvailabilityMode;
  DeclareTransactionV3_paymaster_data : PaymasterData;
  DeclareTransactionV3_account_deployment_data : AccountDeploymentData
}.

Inductive DeclareTransaction : Type :=
| DeclareTransaction_V0 (value : DeclareTransactionV0V1)
| DeclareTransaction_V1 (value : DeclareTransactionV0V1)
| DeclareTransaction_V2 (value : DeclareTransactionV2)
| DeclareTransaction_V3 (value : DeclareTransactionV3).

Record DeployAccountTransactionV1 : Type := mkDeployAccountTransactionV1 {
  DeployAccountTransactionV1_max_fee : Fee;
  DeployAccountTransactionV1_signature : TransactionSignature;
  DeployAccountTransactionV1_nonce : Nonce;
  DeployAccountTransactionV1_class_hash : ClassHash;
  DeployAccountTransactionV1_contract_address_salt : ContractAddressSalt;
  DeployAccountTransactionV1_constructor_calldata : Calldata
}.

Record DeployAccountTransactionV3 : Type := mkDeployAccountTransactionV3 {
  DeployAccountTransactionV3_resource_bounds : ResourceBoundsMapping;
  DeployAccountTransactionV3_tip : Tip;
  DeployAccountTransactionV3_signature : TransactionSignature;
  DeployAccountTransactionV3_nonce : Nonce;
  DeployAccountTransactionV3_class_hash : ClassHash;
  DeployAccountTransactionV3_contract_address_salt : ContractAddressSalt;
  DeployAccountTransactionV3_constructor_calldata : Calldata;
  DeployAccountTransactionV3_nonce_data_availability_mode : DataAvailabilityMode;
  DeployAccountTransactionV3_fee_data_availability_mode : DataAvailabilityMode;
  DeployAccountTransactionV3_paymaster_data : PaymasterData
}.

Inductive DeployAccountTransaction : Type :=
| DeployAccountTransaction_V1 (value : DeployAccountTransactionV1)
| DeployAccountTransaction_V3 (value : DeployAccountTransactionV3).
Abbreviation EntryPointOffset := Z (only parsing).
Abbreviation EntryPointSelector := Z (only parsing).

Record DeprecatedEntryPoint : Type := mkDeprecatedEntryPoint {
  DeprecatedEntryPoint_selector : EntryPointSelector;
  DeprecatedEntryPoint_offset : EntryPointOffset
}.

Inductive DeprecatedEntryPointType : Type :=
| DeprecatedEntryPointType_Constructor
| DeprecatedEntryPointType_External
| DeprecatedEntryPointType_L1Handler.

#[global] Instance DeprecatedEntryPointType_eq_dec : EqDecision DeprecatedEntryPointType.
Proof. solve_decision. Defined.
#[global] Instance DeprecatedEntryPointType_countable : Countable DeprecatedEntryPointType.
Proof.
  refine (inj_countable' (fun x => match x with | DeprecatedEntryPointType_Constructor => 0%nat | DeprecatedEntryPointType_External => 1%nat | DeprecatedEntryPointType_L1Handler => 2%nat end)
            (fun n => match n with | 0%nat => DeprecatedEntryPointType_Constructor | 1%nat => DeprecatedEntryPointType_External | _ => DeprecatedEntryPointType_L1Handler end) _); by intros [].
Defined.

Abbreviation FunctionIndex := Z (only parsing).

Record EntryPoint : Type := mkEntryPoint {
  EntryPoint_function_idx : FunctionIndex;
  EntryPoint_selector : EntryPointSelector
}.

Inductive EntryPointType : Type :=
| EntryPointType_Constructor
| EntryPointType_External
| EntryPointType_L1Handler.

#[global] Instance EntryPointType_eq_dec : EqDecision EntryPointType.
Proof. solve_decision. Defined.
#[global] Instance EntryPointType_countable : Countable EntryPointType.
Proof.
  refine (inj_countable' (fun x => match x with | EntryPointType_Constructor => 0%nat | EntryPointType_External => 1%nat | EntryPointType_L1Handler => 2%nat end)
            (fun n => match n with | 0%nat => EntryPointType_Constructor | 1%nat => EntryPointType_External | _ => EntryPointType_L1Handler end) _); by intros [].
Defined.

Abbreviation EthAddress := (list Z) (only parsing).
Abbreviation EventData := (list Z) (only parsing).
Abbreviation EventKey := Z (only parsing).

Record EventContent : Type := mkEventContent {
  EventContent_keys : list EventKey;
  EventContent_data : EventData
}.

Record Event : Type := mkEvent {
  Event_from_address : Z;
  Event_content : EventContent
}.
Abbreviation EventIndexInTransactionOutput := Z (only parsing).
Abbreviation TransactionIndex := (Z * Z)%type (only parsing).
Abbreviation EventIndex := (TransactionIndex * EventIndexInTransactionOutput)%type (only parsing).

Record GasVector : Type := mkGasVector {
  GasVector_l1_gas : Z;
  GasVector_l1_data_gas : Z
}.

Record InvokeTransactionV0 : Type := mkInvokeTransactionV0 {
  InvokeTransactionV0_max_fee : Fee;
  InvokeTransactionV0_signature : TransactionSignature;
  InvokeTransactionV0_contract_address : Z;
  InvokeTransactionV0_entry_point_selector : EntryPointSelector;
  InvokeTransactionV0_calldata : Calldata
}.

Record InvokeTransactionV1 : Type := mkInvokeTransactionV1 {
  InvokeTransactionV1_max_fee : Fee;
  InvokeTransactionV1_signature : TransactionSignature;
  InvokeTransactionV1_nonce : Nonce;
  InvokeTransactionV1_sender_address : Z;
  InvokeTransactionV1_calldata : Calldata
}.

Record InvokeTransactionV3 : Type := mkInvokeTransactionV3 {
  InvokeTransactionV3_resource_bounds : ResourceBoundsMapping;
  InvokeTransactionV3_tip : Tip;
  InvokeTransactionV3_signature : TransactionSignature;
  InvokeTransactionV3_nonce : Nonce;
  InvokeTransactionV3_sender_address : Z;
  InvokeTransactionV3_calldata : Calldata;
  InvokeTransactionV3_nonce_data_availability_mode : DataAvailabilityMode;
  InvokeTransactionV3_fee_data_availability_mode : DataAvailabilityMode;
  InvokeTransactionV3_paymaster_data : PaymasterData;
  InvokeTransactionV3_account_deployment_data : AccountDeploymentData
}.

Inductive InvokeTransaction : Type :=
| InvokeTransaction_V0 (value : InvokeTransactionV0)
| InvokeTransaction_V1 (value : InvokeTransactionV1)
| InvokeTransaction_V3 (value : InvokeTransactionV3).

Inductive IsCompressed : Type :=
| IsCompressed_No
| IsCompressed_Yes.
Abbreviation L1ToL2Payload := (list Z) (only parsing).
Abbreviation L2ToL1Payload := (list Z) (only parsing).

Record MessageToL1 : Type := mkMessageToL1 {
  MessageToL1_to_address : EthAddress;
  MessageToL1_payload : L2ToL1Payload;
  MessageToL1_from_address : Z
}.

Record MessageToL2 : Type := mkMessageToL2 {
  MessageToL2_from_address : EthAddress;
  MessageToL2_payload : L1ToL2Payload
}.
Abbreviation StarknetVersion := rstring (only parsing).
Abbreviation TransactionHash := Z (only parsing).
Abbreviation TransactionVersion := Z (only parsing).

Record DeployTransaction : Type := mkDeployTransaction {
  DeployTransaction_version : TransactionVersion;
  DeployTransaction_class_hash : ClassHash;
  DeployTransaction_contract_address_salt : ContractAddressSalt;
  DeployTransaction_constructor_calldata : Calldata
}.

Record L1HandlerTransaction : Type := mkL1HandlerTransaction {
  L1HandlerTransaction_version : TransactionVersion;
  L1HandlerTransaction_nonce : Nonce;
  L1HandlerTransaction_contract_address : Z;
  L1HandlerTransaction_entry_point_selector : EntryPointSelector;
  L1HandlerTransaction_calldata : Calldata
}.

Inductive Transaction : Type :=
| Transaction_Declare (value : DeclareTransaction)
| Transaction_Deploy (value : DeployTransaction)
| Transaction_DeployAccount (value : DeployAccountTransaction)
| Transaction_Invoke (value : InvokeTransaction)
| Transaction_L1Handler (value : L1HandlerTransaction).

Record RevertedTransactionExecutionStatus : Type := mkRevertedTransactionExecutionStatus {
  RevertedTransactionExecutionStatus_revert_reason : rstring
}.

Inductive TransactionExecutionStatus : Type :=
| TransactionExecutionStatus_Succeeded
| TransactionExecutionStatus_Reverted (value : RevertedTransactionExecutionStatus).

Inductive Builtin : Type :=
| Builtin_RangeCheck
| Builtin_Pedersen
| Builtin_Poseidon
| Builtin_EcOp
| Builtin_Ecdsa
| Builtin_Bitwise
| Builtin_Keccak
| Builtin_SegmentArena
| Builtin_AddMod
| Builtin_MulMod
| Builtin_RangeCheck96.

#[global] Instance Builtin_eq_dec : EqDecision Builtin.
Proof. solve_decision. Defined.
#[global] Instance Builtin_countable : Countable Builtin.
Proof.
  refine (inj_countable' (fun x => match x with | Builtin_RangeCheck => 0%nat | Builtin_Pedersen => 1%nat | Builtin_Poseidon => 2%nat | Builtin_EcOp => 3%nat | Builtin_Ecdsa => 4%nat | Builtin_Bitwise => 5%nat | Builtin_Keccak => 6%nat | Builtin_SegmentArena => 7%nat | Builtin_AddMod => 8%nat | Builtin_MulMod => 9%nat | Builtin_RangeCheck96 => 10%nat end)
            (fun n => match n with | 0%nat => Builtin_RangeCheck | 1%nat => Builtin_Pedersen | 2%nat => Builtin_Poseidon | 3%nat => Builtin_EcOp | 4%nat => Builtin_Ecdsa | 5%nat => Builtin_Bitwise | 6%nat => Builtin_Keccak | 7%nat => Builtin_SegmentArena | 8%nat => Builtin_AddMod | 9%nat => Builtin_MulMod | _ => Builtin_RangeCheck96 end) _); by intros [].
Defined.


Record ExecutionResources : Type := mkExecutionResources {
  ExecutionResources_steps : Z;
  ExecutionResources_builtin_instance_counter : gmap Builtin Z;
  ExecutionResources_memory_holes : Z;
  ExecutionResources_da_gas_consumed : GasVector;
  ExecutionResources_gas_consumed : GasVector
}.

Record DeclareTransactionOutput : Type := mkDeclareTransactionOutput {
  DeclareTransactionOutput_actual_fee : Fee;
  DeclareTransactionOutput_messages_sent : list MessageToL1;
  DeclareTransactionOutput_events : list Event;
  DeclareTransactionOutput_execution_status : TransactionExecutionStatus;
  DeclareTransactionOutput_execution_resources : ExecutionResources
}.

Record DeployAccountTransactionOutput : Type := mkDeployAccountTransactionOutput {
  DeployAccountTransactionOutput_actual_fee : Fee;
  DeployAccountTransactionOutput_messages_sent : list MessageToL1;
  DeployAccountTransactionOutput_events : list Event;
  DeployAccountTransactionOutput_contract_address : Z;
  DeployAccountTransactionOutput_execution_status : TransactionExecutionStatus;
  DeployAccountTransactionOutput_execution_resources : ExecutionResources
}.

Record DeployTransactionOutput : Type := mkDeployTransactionOutput {
  DeployTransactionOutput_actual_fee : Fee;
  DeployTransactionOutput_messages_sent : list MessageToL1;
  DeployTransactionOutput_events : list Event;
  DeployTransactionOutput_contract_address : Z;
  DeployTransactionOutput_execution_status : TransactionExecutionStatus;
  DeployTransactionOutput_execution_resources : ExecutionResources
}.

Record InvokeTransactionOutput : Type := mkInvokeTransactionOutput {
  InvokeTransactionOutput_actual_fee : Fee;
  InvokeTransactionOutput_messages_sent : list MessageToL1;
  InvokeTransactionOutput_events : list Event;
  InvokeTransactionOutput_execution_status : TransactionExecutionStatus;
  InvokeTransactionOutput_execution_resources : ExecutionResources
}.

Record L1HandlerTransactionOutput : Type := mkL1HandlerTransactionOutput {
  L1HandlerTransactionOutput_actual_fee : Fee;
  L1HandlerTransactionOutput_messages_sent : list MessageToL1;
  L1HandlerTransactionOutput_events : list Event;
  L1HandlerTransactionOutput_execution_status : TransactionExecutionStatus;
  L1HandlerTransactionOutput_execution_resources : ExecutionResources
}.

Inductive TransactionOutput : Type :=
| TransactionOutput_Declare (value : DeclareTransactionOutput)
| TransactionOutput_Deploy (value : DeployTransactionOutput)
| TransactionOutput_DeployAccount (value : DeployAccountTransactionOutput)
| TransactionOutput_Invoke (value : InvokeTransactionOutput)
| TransactionOutput_L1Handler (value : L1HandlerTransactionOutput).

Record Version : Type := mkVersion {
  Version_major : Z;
  Version_minor : Z
}.

(** ** Classes *)

(** Types of other crates whose values the storage only passes on. *)
Class ExternalTypes : Type := {
  Json : Type;
  Hint : Type
}.

Record TypedParameter : Type := mkTypedParameter {
  TypedParameter_name : rstring;
  TypedParameter_type : rstring
}.

Inductive EventType : Type :=
| EventType_Event.

Record EventAbiEntry : Type := mkEventAbiEntry {
  EventAbiEntry_data : list TypedParameter;
  EventAbiEntry_keys : list TypedParameter;
  EventAbiEntry_name : rstring;
  EventAbiEntry_type : EventType
}.

Inductive FunctionStateMutability : Type :=
| FunctionStateMutability_View.

(** [FunctionAbiEntry<TYPE>]: the marker field [r#type] has one value, its default,
    for each of the three instances. *)
Record FunctionAbiEntry : Type := mkFunctionAbiEntry {
  FunctionAbiEntry_name : rstring;
  FunctionAbiEntry_inputs : list TypedParameter;
  FunctionAbiEntry_outputs : list TypedParameter;
  FunctionAbiEntry_state_mutability : option FunctionStateMutability
}.

Record StructMember : Type := mkStructMember {
  StructMember_name : rstring;
  StructMember_offset : Z;
  StructMember_type : rstring
}.

Inductive StructType : Type :=
| StructType_Struct.

Record StructAbiEntry : Type := mkStructAbiEntry {
  StructAbiEntry_members : list StructMember;
  StructAbiEntry_name : rstring;
  StructAbiEntry_size : Z;
  StructAbiEntry_type : StructType
}.

Inductive ContractClassAbiEntry : Type :=
| ContractClassAbiEntry_Event (value : EventAbiEntry)
| ContractClassAbiEntry_Function (value : FunctionAbiEntry)
| ContractClassAbiEntry_Constructor (value : FunctionAbiEntry)
| ContractClassAbiEntry_L1Handler (value : FunctionAbiEntry)
| ContractClassAbiEntry_Struct (value : StructAbiEntry).

Record CasmContractEntryPoint : Type := mkCasmContractEntryPoint {
  CasmContractEntryPoint_selector : Z;
  CasmContractEntryPoint_offset : Z;
  CasmContractEntryPoint_builtins : list rstring
}.

Record CasmContractEntryPoints : Type := mkCasmContractEntryPoints {
  CasmContractEntryPoints_external : list CasmContractEntryPoint;
  CasmContractEntryPoints_l1_handler : list CasmContractEntryPoint;
  CasmContractEntryPoints_constructor : list CasmContractEntryPoint
}.

Record BigUintAsHex : Type := mkBigUintAsHex {
  BigUintAsHex_value : Z
}.

Inductive NestedIntList : Type :=
| NestedIntList_Leaf (value : Z)
| NestedIntList_Node (value : (list NestedIntList)).

Record TransactionMetadata : Type := mkTransactionMetadata {
  TransactionMetadata_tx_hash : TransactionHash;
  TransactionMetadata_tx_location : LocationInFile;
  TransactionMetadata_tx_output_location : LocationInFile
}.

Record IndexedDeprecatedContractClass : Type := mkIndexedDeprecatedContractClass {
  IndexedDeprecatedContractClass_block_number : Z;
  IndexedDeprecatedContractClass_location_in_file : LocationInFile
}.

Section External.
Context {X : ExternalTypes}.

Record Program : Type := mkProgram {
  Program_attributes : Json;
  Program_builtins : Json;
  Program_compiler_version : Json;
  Program_data : Json;
  Program_debug_info : Json;
  Program_hints : Json;
  Program_identifiers : Json;
  Program_main_scope : Json;
  Program_prime : Json;
  Program_reference_manager : Json
}.

Record DeprecatedContractClass : Type := mkDeprecatedContractClass {
  DeprecatedContractClass_abi : option (list ContractClassAbiEntry);
  DeprecatedContractClass_program : Program;
  DeprecatedContractClass_entry_points_by_type : gmap DeprecatedEntryPointType (list DeprecatedEntryPoint)
}.

Record ContractClass : Type := mkContractClass {
  ContractClass_sierra_program : list Z;
  ContractClass_entry_points_by_type : gmap EntryPointType (list EntryPoint);
  ContractClass_abi : rstring
}.

Record CasmContractClass : Type := mkCasmContractClass {
  CasmContractClass_prime : Z;
  CasmContractClass_compiler_version : rstring;
  CasmContractClass_bytecode : list BigUintAsHex;
  CasmContractClass_bytecode_segment_lengths : option NestedIntList;
  CasmContractClass_hints : list (Z * list Hint);
  CasmContractClass_pythonic_hints : option (list (Z * list rstring));
  CasmContractClass_entry_points_by_type : CasmContractEntryPoints
}.
End External.

(** ** State diffs

    An [IndexMap] keeps its entries in insertion order: an association list
    without repeated keys. *)
Record ThinStateDiff : Type := mkThinStateDiff {
  ThinStateDiff_deployed_contracts : list (Z * ClassHash);
  ThinStateDiff_storage_diffs : list (Z * list (Z * Z));
  ThinStateDiff_declared_classes : list (ClassHash * CompiledClassHash);
  ThinStateDiff_deprecated_declared_classes : list ClassHash;
  ThinStateDiff_nonces : list (Z * Nonce);
  ThinStateDiff_replaced_classes : list (Z * ClassHash)
}.
