(* ===== verification/StorageTxn.v ===== *)
(** * A storage transaction

    Models the types of [crates/papyrus_storage/src/lib.rs] that every storage
    component works on: the tables and files of a [StorageTxn], its scope and
    its errors. A component's writer consumes the transaction and returns it on
    success; a transaction whose operation failed is never committed. *)

From stdpp Require Import base gmap list strings fin_maps.
From Stdlib Require Import ZArith Lia.
From S2P Require Import Prelude StorageTables StarknetTypes.

(** ** Data *)

Inductive StorageScope : Type := StorageScope_FullArchive | StorageScope_StateOnly.

#[global] Instance StorageScope_eq_dec : EqDecision StorageScope.
Proof. solve_decision. Defined.

#[global] Instance Version_eq_dec : EqDecision Version.
Proof. solve_decision. Defined.

(** The names of the tables that a state-only storage does not use, and all others. *)
Inductive TableName : Type :=
| Table_events
| Table_transaction_hash_to_idx
| Table_transaction_metadata
| Table_other.

Inductive StorageVersionError : Type :=
| InconsistentStorageVersion (crate_version storage_version : Version)
| InconsistentStorageScope
| SetLowerVersion (crate_version storage_version : Version)
| SetMajorVersion (crate_version storage_version : Version).

Inductive StorageError : Type :=
| StorageError_InnerError (e : DbError)
| StorageError_MarkerMismatch (expected found : Z)
| StorageError_NonceReWrite (nonce block_number contract_address : Z)
| StorageError_EventNotFound
| StorageError_DBInconsistency
| StorageError_MMapFileError
| StorageError_StorageVersionInconsistency (e : StorageVersionError)
| StorageError_ScopeError (table_name : TableName) (scope : StorageScope)
| StorageError_IOError
| StorageError_SerdeError
| StorageError_InvalidBlockNumber (block compiled_class_marker : Z)
| StorageError_BlockSignatureForNonExistingBlock (block_number : Z) (block_signature : Signature).

(** [TransactionOutput::events]. *)
Definition TransactionOutput_events (o : TransactionOutput) : list Event :=
  match o with
  | TransactionOutput_Declare x => DeclareTransactionOutput_events x
  | TransactionOutput_Deploy x => DeployTransactionOutput_events x
  | TransactionOutput_DeployAccount x => DeployAccountTransactionOutput_events x
  | TransactionOutput_Invoke x => InvokeTransactionOutput_events x
  | TransactionOutput_L1Handler x => L1HandlerTransactionOutput_events x
  end.

(** ** The interface of the append-only files

    What a [FileHandler] promises to the components: an appended value is read
    back from the location that [append] returned, and later appends leave
    what was written alone. [None] is a panic of [append]. [MmapFile.v] shows
    that the memory-mapped files keep the promise. *)
Definition next_offset (l : LocationInFile) : Z := LocationInFile_offset l + LocationInFile_len l.

Class FileHandler (F V : Type) : Type := {
  file_offset : F -> Z;
  file_append : F -> V -> option (F * LocationInFile);
  file_get : F -> LocationInFile -> option V;
  storable : V -> Prop;
  file_append_location : forall f v f' loc,
    file_append f v = Some (f', loc) ->
    LocationInFile_offset loc = file_offset f /\ next_offset loc = file_offset f' /\
    0 <= LocationInFile_len loc;
  file_append_get : forall f v f' loc,
    storable v -> file_append f v = Some (f', loc) -> file_get f' loc = Some v;
  file_append_other : forall f v f' loc loc',
    file_append f v = Some (f', loc) -> 0 <= LocationInFile_offset loc' ->
    next_offset loc' <= file_offset f ->
    file_get f' loc' = file_get f loc'
}.

(** The six files of [FileHandlers]. *)
Class StorageFiles {X : ExternalTypes} : Type := {
  ThinStateDiffFile : Type;
  ContractClassFile : Type;
  CasmFile : Type;
  DeprecatedContractClassFile : Type;
  TransactionOutputFile : Type;
  TransactionFile : Type;
  #[global] thin_state_diff_handler :: FileHandler ThinStateDiffFile ThinStateDiff;
  #[global] contract_class_handler :: FileHandler ContractClassFile ContractClass;
  #[global] casm_handler :: FileHandler CasmFile CasmContractClass;
  #[global] deprecated_contract_class_handler :: FileHandler DeprecatedContractClassFile DeprecatedContractClass;
  #[global] transaction_output_handler :: FileHandler TransactionOutputFile TransactionOutput;
  #[global] transaction_handler :: FileHandler TransactionFile Transaction
}.

Section Txn.
Context {X : ExternalTypes} {SF : StorageFiles}.

(** ** The transaction *)

Record StorageTxn : Type := mkStorageTxn {
  t_scope : StorageScope;
  t_markers : gmap MarkerKind Z;
  t_headers : gmap Z StorageBlockHeader;
  t_block_hash_to_number : gmap Z Z;
  t_block_signatures : gmap Z Signature;
  t_starknet_version : gmap Z rstring;
  t_transaction_metadata : gmap (Z * Z) TransactionMetadata;
  t_transaction_hash_to_idx : gmap Z (Z * Z);
  t_events : gmap (Z * (Z * Z)) unit;
  t_state_diffs : gmap Z LocationInFile;
  t_contract_storage : gmap ((Z * Z) * Z) Z;
  t_nonces : gmap (Z * Z) Z;
  t_deployed_contracts : gmap (Z * Z) Z;
  t_declared_classes : gmap Z LocationInFile;
  t_declared_classes_block : gmap Z Z;
  t_deprecated_declared_classes : gmap Z IndexedDeprecatedContractClass;
  t_casms : gmap Z LocationInFile;
  t_file_offsets : gmap OffsetKind Z;
  t_storage_version : gmap (list Z) Version;
  t_thin_state_diff_file : ThinStateDiffFile;
  t_contract_class_file : ContractClassFile;
  t_casm_file : CasmFile;
  t_deprecated_contract_class_file : DeprecatedContractClassFile;
  t_transaction_output_file : TransactionOutputFile;
  t_transaction_file : TransactionFile
}.

Definition set_markers (x : gmap MarkerKind Z) (t : StorageTxn) : StorageTxn :=
  mkStorageTxn (t_scope t) x (t_headers t) (t_block_hash_to_number t) (t_block_signatures t)
    (t_starknet_version t) (t_transaction_metadata t) (t_transaction_hash_to_idx t) (t_events t)
    (t_state_diffs t) (t_contract_storage t) (t_nonces t) (t_deployed_contracts t)
    (t_declared_classes t) (t_declared_classes_block t) (t_deprecated_declared_classes t)
    (t_casms t) (t_file_offsets t) (t_storage_version t) (t_thin_state_diff_file t)
    (t_contract_class_file t) (t_casm_file t) (t_deprecated_contract_class_file t)
    (t_transaction_output_file t) (t_transaction_file t).
Definition set_headers (x : gmap Z StorageBlockHeader) (t : StorageTxn) : StorageTxn :=
  mkStorageTxn (t_scope t) (t_markers t) x (t_block_hash_to_number t) (t_block_signatures t)
    (t_starknet_version t) (t_transaction_metadata t) (t_transaction_hash_to_idx t) (t_events t)
    (t_state_diffs t) (t_contract_storage t) (t_nonces t) (t_deployed_contracts t)
    (t_declared_classes t) (t_declared_classes_block t) (t_deprecated_declared_classes t)
    (t_casms t) (t_file_offsets t) (t_storage_version t) (t_thin_state_diff_file t)
    (t_contract_class_file t) (t_casm_file t) (t_deprecated_contract_class_file t)
    (t_transaction_output_file t) (t_transaction_file t).
Definition set_block_hash_to_number (x : gmap Z Z) (t : StorageTxn) : StorageTxn :=
  mkStorageTxn (t_scope t) (t_markers t) (t_headers t) x (t_block_signatures t)
    (t_starknet_version t) (t_transaction_metadata t) (t_transaction_hash_to_idx t) (t_events t)
    (t_state_diffs t) (t_contract_storage t) (t_nonces t) (t_deployed_contracts t)
    (t_declared_classes t) (t_declared_classes_block t) (t_deprecated_declared_classes t)
    (t_casms t) (t_file_offsets t) (t_storage_version t) (t_thin_state_diff_file t)
    (t_contract_class_file t) (t_casm_file t) (t_deprecated_contract_class_file t)
    (t_transaction_output_file t) (t_transaction_file t).
Definition set_block_signatures (x : gmap Z Signature) (t : StorageTxn) : StorageTxn :=
  mkStorageTxn (t_scope t) (t_markers t) (t_headers t) (t_block_hash_to_number t) x
    (t_starknet_version t) (t_transaction_metadata t) (t_transaction_hash_to_idx t) (t_events t)
    (t_state_diffs t) (t_contract_storage t) (t_nonces t) (t_deployed_contracts t)
    (t_declared_classes t) (t_declared_classes_block t) (t_deprecated_declared_classes t)
    (t_casms t) (t_file_offsets t) (t_storage_version t) (t_thin_state_diff_file t)
    (t_contract_class_file t) (t_casm_file t) (t_deprecated_contract_class_file t)
    (t_transaction_output_file t) (t_transaction_file t).
Definition set_starknet_version (x : gmap Z rstring) (t : StorageTxn) : StorageTxn :=
  mkStorageTxn (t_scope t) (t_markers t) (t_headers t) (t_block_hash_to_number t)
    (t_block_signatures t) x (t_transaction_metadata t) (t_transaction_hash_to_idx t) (t_events
    t) (t_state_diffs t) (t_contract_storage t) (t_nonces t) (t_deployed_contracts t)
    (t_declared_classes t) (t_declared_classes_block t) (t_deprecated_declared_classes t)
    (t_casms t) (t_file_offsets t) (t_storage_version t) (t_thin_state_diff_file t)
    (t_contract_class_file t) (t_casm_file t) (t_deprecated_contract_class_file t)
    (t_transaction_output_file t) (t_transaction_file t).
Definition set_transaction_metadata (x : gmap (Z * Z) TransactionMetadata) (t : StorageTxn) : StorageTxn :=
  mkStorageTxn (t_scope t) (t_markers t) (t_headers t) (t_block_hash_to_number t)
    (t_block_signatures t) (t_starknet_version t) x (t_transaction_hash_to_idx t) (t_events t)
    (t_state_diffs t) (t_contract_storage t) (t_nonces t) (t_deployed_contracts t)
    (t_declared_classes t) (t_declared_classes_block t) (t_deprecated_declared_classes t)
    (t_casms t) (t_file_offsets t) (t_storage_version t) (t_thin_state_diff_file t)
    (t_contract_class_file t) (t_casm_file t) (t_deprecated_contract_class_file t)
    (t_transaction_output_file t) (t_transaction_file t).
Definition set_transaction_hash_to_idx (x : gmap Z (Z * Z)) (t : StorageTxn) : StorageTxn :=
  mkStorageTxn (t_scope t) (t_markers t) (t_headers t) (t_block_hash_to_number t)
    (t_block_signatures t) (t_starknet_version t) (t_transaction_metadata t) x (t_events t)
    (t_state_diffs t) (t_contract_storage t) (t_nonces t) (t_deployed_contracts t)
    (t_declared_classes t) (t_declared_classes_block t) (t_deprecated_declared_classes t)
    (t_casms t) (t_file_offsets t) (t_storage_version t) (t_thin_state_diff_file t)
    (t_contract_class_file t) (t_casm_file t) (t_deprecated_contract_class_file t)
    (t_transaction_output_file t) (t_transaction_file t).
Definition set_events (x : gmap (Z * (Z * Z)) unit) (t : StorageTxn) : StorageTxn :=
  mkStorageTxn (t_scope t) (t_markers t) (t_headers t) (t_block_hash_to_number t)
    (t_block_signatures t) (t_starknet_version t) (t_transaction_metadata t)
    (t_transaction_hash_to_idx t) x (t_state_diffs t) (t_contract_storage t) (t_nonces t)
    (t_deployed_contracts t) (t_declared_classes t) (t_declared_classes_block t)
    (t_deprecated_declared_classes t) (t_casms t) (t_file_offsets t) (t_storage_version t)
    (t_thin_state_diff_file t) (t_contract_class_file t) (t_casm_file t)
    (t_deprecated_contract_class_file t) (t_transaction_output_file t) (t_transaction_file t).
Definition set_state_diffs (x : gmap Z LocationInFile) (t : StorageTxn) : StorageTxn :=
  mkStorageTxn (t_scope t) (t_markers t) (t_headers t) (t_block_hash_to_number t)
    (t_block_signatures t) (t_starknet_version t) (t_transaction_metadata t)
    (t_transaction_hash_to_idx t) (t_events t) x (t_contract_storage t) (t_nonces t)
    (t_deployed_contracts t) (t_declared_classes t) (t_declared_classes_block t)
    (t_deprecated_declared_classes t) (t_casms t) (t_file_offsets t) (t_storage_version t)
    (t_thin_state_diff_file t) (t_contract_class_file t) (t_casm_file t)
    (t_deprecated_contract_class_file t) (t_transaction_output_file t) (t_transaction_file t).
Definition set_contract_storage (x : gmap ((Z * Z) * Z) Z) (t : StorageTxn) : StorageTxn :=
  mkStorageTxn (t_scope t) (t_markers t) (t_headers t) (t_block_hash_to_number t)
    (t_block_signatures t) (t_starknet_version t) (t_transaction_metadata t)
    (t_transaction_hash_to_idx t) (t_events t) (t_state_diffs t) x (t_nonces t)
    (t_deployed_contracts t) (t_declared_classes t) (t_declared_classes_block t)
    (t_deprecated_declared_classes t) (t_casms t) (t_file_offsets t) (t_storage_version t)
    (t_thin_state_diff_file t) (t_contract_class_file t) (t_casm_file t)
    (t_deprecated_contract_class_file t) (t_transaction_output_file t) (t_transaction_file t).
Definition set_nonces (x : gmap (Z * Z) Z) (t : StorageTxn) : StorageTxn :=
  mkStorageTxn (t_scope t) (t_markers t) (t_headers t) (t_block_hash_to_number t)
    (t_block_signatures t) (t_starknet_version t) (t_transaction_metadata t)
    (t_transaction_hash_to_idx t) (t_events t) (t_state_diffs t) (t_contract_storage t) x
    (t_deployed_contracts t) (t_declared_classes t) (t_declared_classes_block t)
    (t_deprecated_declared_classes t) (t_casms t) (t_file_offsets t) (t_storage_version t)
    (t_thin_state_diff_file t) (t_contract_class_file t) (t_casm_file t)
    (t_deprecated_contract_class_file t) (t_transaction_output_file t) (t_transaction_file t).
Definition set_deployed_contracts (x : gmap (Z * Z) Z) (t : StorageTxn) : StorageTxn :=
  mkStorageTxn (t_scope t) (t_markers t) (t_headers t) (t_block_hash_to_number t)
    (t_block_signatures t) (t_starknet_version t) (t_transaction_metadata t)
    (t_transaction_hash_to_idx t) (t_events t) (t_state_diffs t) (t_contract_storage t)
    (t_nonces t) x (t_declared_classes t) (t_declared_classes_block t)
    (t_deprecated_declared_classes t) (t_casms t) (t_file_offsets t) (t_storage_version t)
    (t_thin_state_diff_file t) (t_contract_class_file t) (t_casm_file t)
    (t_deprecated_contract_class_file t) (t_transaction_output_file t) (t_transaction_file t).
Definition set_declared_classes (x : gmap Z LocationInFile) (t : StorageTxn) : StorageTxn :=
  mkStorageTxn (t_scope t) (t_markers t) (t_headers t) (t_block_hash_to_number t)
    (t_block_signatures t) (t_starknet_version t) (t_transaction_metadata t)
    (t_transaction_hash_to_idx t) (t_events t) (t_state_diffs t) (t_contract_storage t)
    (t_nonces t) (t_deployed_contracts t) x (t_declared_classes_block t)
    (t_deprecated_declared_classes t) (t_casms t) (t_file_offsets t) (t_storage_version t)
    (t_thin_state_diff_file t) (t_contract_class_file t) (t_casm_file t)
    (t_deprecated_contract_class_file t) (t_transaction_output_file t) (t_transaction_file t).
Definition set_declared_classes_block (x : gmap Z Z) (t : StorageTxn) : StorageTxn :=
  mkStorageTxn (t_scope t) (t_markers t) (t_headers t) (t_block_hash_to_number t)
    (t_block_signatures t) (t_starknet_version t) (t_transaction_metadata t)
    (t_transaction_hash_to_idx t) (t_events t) (t_state_diffs t) (t_contract_storage t)
    (t_nonces t) (t_deployed_contracts t) (t_declared_classes t) x
    (t_deprecated_declared_classes t) (t_casms t) (t_file_offsets t) (t_storage_version t)
    (t_thin_state_diff_file t) (t_contract_class_file t) (t_casm_file t)
    (t_deprecated_contract_class_file t) (t_transaction_output_file t) (t_transaction_file t).
Definition set_deprecated_declared_classes (x : gmap Z IndexedDeprecatedContractClass) (t : StorageTxn) : StorageTxn :=
  mkStorageTxn (t_scope t) (t_markers t) (t_headers t) (t_block_hash_to_number t)
    (t_block_signatures t) (t_starknet_version t) (t_transaction_metadata t)
    (t_transaction_hash_to_idx t) (t_events t) (t_state_diffs t) (t_contract_storage t)
    (t_nonces t) (t_deployed_contracts t) (t_declared_classes t) (t_declared_classes_block t) x
    (t_casms t) (t_file_offsets t) (t_storage_version t) (t_thin_state_diff_file t)
    (t_contract_class_file t) (t_casm_file t) (t_deprecated_contract_class_file t)
    (t_transaction_output_file t) (t_transaction_file t).
Definition set_casms (x : gmap Z LocationInFile) (t : StorageTxn) : StorageTxn :=
  mkStorageTxn (t_scope t) (t_markers t) (t_headers t) (t_block_hash_to_number t)
    (t_block_signatures t) (t_starknet_version t) (t_transaction_metadata t)
    (t_transaction_hash_to_idx t) (t_events t) (t_state_diffs t) (t_contract_storage t)
    (t_nonces t) (t_deployed_contracts t) (t_declared_classes t) (t_declared_classes_block t)
    (t_deprecated_declared_classes t) x (t_file_offsets t) (t_storage_version t)
    (t_thin_state_diff_file t) (t_contract_class_file t) (t_casm_file t)
    (t_deprecated_contract_class_file t) (t_transaction_output_file t) (t_transaction_file t).
Definition set_file_offsets (x : gmap OffsetKind Z) (t : StorageTxn) : StorageTxn :=
  mkStorageTxn (t_scope t) (t_markers t) (t_headers t) (t_block_hash_to_number t)
    (t_block_signatures t) (t_starknet_version t) (t_transaction_metadata t)
    (t_transaction_hash_to_idx t) (t_events t) (t_state_diffs t) (t_contract_storage t)
    (t_nonces t) (t_deployed_contracts t) (t_declared_classes t) (t_declared_classes_block t)
    (t_deprecated_declared_classes t) (t_casms t) x (t_storage_version t)
    (t_thin_state_diff_file t) (t_contract_class_file t) (t_casm_file t)
    (t_deprecated_contract_class_file t) (t_transaction_output_file t) (t_transaction_file t).
Definition set_storage_version (x : gmap (list Z) Version) (t : StorageTxn) : StorageTxn :=
  mkStorageTxn (t_scope t) (t_markers t) (t_headers t) (t_block_hash_to_number t)
    (t_block_signatures t) (t_starknet_version t) (t_transaction_metadata t)
    (t_transaction_hash_to_idx t) (t_events t) (t_state_diffs t) (t_contract_storage t)
    (t_nonces t) (t_deployed_contracts t) (t_declared_classes t) (t_declared_classes_block t)
    (t_deprecated_declared_classes t) (t_casms t) (t_file_offsets t) x (t_thin_state_diff_file
    t) (t_contract_class_file t) (t_casm_file t) (t_deprecated_contract_class_file t)
    (t_transaction_output_file t) (t_transaction_file t).
Definition set_thin_state_diff_file (x : ThinStateDiffFile) (t : StorageTxn) : StorageTxn :=
  mkStorageTxn (t_scope t) (t_markers t) (t_headers t) (t_block_hash_to_number t)
    (t_block_signatures t) (t_starknet_version t) (t_transaction_metadata t)
    (t_transaction_hash_to_idx t) (t_events t) (t_state_diffs t) (t_contract_storage t)
    (t_nonces t) (t_deployed_contracts t) (t_declared_classes t) (t_declared_classes_block t)
    (t_deprecated_declared_classes t) (t_casms t) (t_file_offsets t) (t_storage_version t) x
    (t_contract_class_file t) (t_casm_file t) (t_deprecated_contract_class_file t)
    (t_transaction_output_file t) (t_transaction_file t).
Definition set_contract_class_file (x : ContractClassFile) (t : StorageTxn) : StorageTxn :=
  mkStorageTxn (t_scope t) (t_markers t) (t_headers t) (t_block_hash_to_number t)
    (t_block_signatures t) (t_starknet_version t) (t_transaction_metadata t)
    (t_transaction_hash_to_idx t) (t_events t) (t_state_diffs t) (t_contract_storage t)
    (t_nonces t) (t_deployed_contracts t) (t_declared_classes t) (t_declared_classes_block t)
    (t_deprecated_declared_classes t) (t_casms t) (t_file_offsets t) (t_storage_version t)
    (t_thin_state_diff_file t) x (t_casm_file t) (t_deprecated_contract_class_file t)
    (t_transaction_output_file t) (t_transaction_file t).
Definition set_casm_file (x : CasmFile) (t : StorageTxn) : StorageTxn :=
  mkStorageTxn (t_scope t) (t_markers t) (t_headers t) (t_block_hash_to_number t)
    (t_block_signatures t) (t_starknet_version t) (t_transaction_metadata t)
    (t_transaction_hash_to_idx t) (t_events t) (t_state_diffs t) (t_contract_storage t)
    (t_nonces t) (t_deployed_contracts t) (t_declared_classes t) (t_declared_classes_block t)
    (t_deprecated_declared_classes t) (t_casms t) (t_file_offsets t) (t_storage_version t)
    (t_thin_state_diff_file t) (t_contract_class_file t) x (t_deprecated_contract_class_file t)
    (t_transaction_output_file t) (t_transaction_file t).
Definition set_deprecated_contract_class_file (x : DeprecatedContractClassFile) (t : StorageTxn) : StorageTxn :=
  mkStorageTxn (t_scope t) (t_markers t) (t_headers t) (t_block_hash_to_number t)
    (t_block_signatures t) (t_starknet_version t) (t_transaction_metadata t)
    (t_transaction_hash_to_idx t) (t_events t) (t_state_diffs t) (t_contract_storage t)
    (t_nonces t) (t_deployed_contracts t) (t_declared_classes t) (t_declared_classes_block t)
    (t_deprecated_declared_classes t) (t_casms t) (t_file_offsets t) (t_storage_version t)
    (t_thin_state_diff_file t) (t_contract_class_file t) (t_casm_file t) x
    (t_transaction_output_file t) (t_transaction_file t).
Definition set_transaction_output_file (x : TransactionOutputFile) (t : StorageTxn) : StorageTxn :=
  mkStorageTxn (t_scope t) (t_markers t) (t_headers t) (t_block_hash_to_number t)
    (t_block_signatures t) (t_starknet_version t) (t_transaction_metadata t)
    (t_transaction_hash_to_idx t) (t_events t) (t_state_diffs t) (t_contract_storage t)
    (t_nonces t) (t_deployed_contracts t) (t_declared_classes t) (t_declared_classes_block t)
    (t_deprecated_declared_classes t) (t_casms t) (t_file_offsets t) (t_storage_version t)
    (t_thin_state_diff_file t) (t_contract_class_file t) (t_casm_file t)
    (t_deprecated_contract_class_file t) x (t_transaction_file t).
Definition set_transaction_file (x : TransactionFile) (t : StorageTxn) : StorageTxn :=
  mkStorageTxn (t_scope t) (t_markers t) (t_headers t) (t_block_hash_to_number t)
    (t_block_signatures t) (t_starknet_version t) (t_transaction_metadata t)
    (t_transaction_hash_to_idx t) (t_events t) (t_state_diffs t) (t_contract_storage t)
    (t_nonces t) (t_deployed_contracts t) (t_declared_classes t) (t_declared_classes_block t)
    (t_deprecated_declared_classes t) (t_casms t) (t_file_offsets t) (t_storage_version t)
    (t_thin_state_diff_file t) (t_contract_class_file t) (t_casm_file t)
    (t_deprecated_contract_class_file t) (t_transaction_output_file t) x.

(** ** Access to the tables *)

Definition Txn (A : Type) : Type := M StorageTxn StorageError A.

(** [StorageTxn::open_table]: a state-only storage does not open the tables of
    the bodies; the other tables always open. *)
Definition open_table (name : TableName) : Txn unit :=
  let! self := get in
  match t_scope self with
  | StorageScope_StateOnly =>
      match name with
      | Table_events | Table_transaction_hash_to_idx | Table_transaction_metadata =>
          raise (StorageError_ScopeError name StorageScope_StateOnly)
      | Table_other => ret tt
      end
  | StorageScope_FullArchive => ret tt
  end.

(** The [?] on a [DbResult]. *)
Definition db {A} (r : DbResult A) : Txn A :=
  match r with
  | DbOk a => ret a
  | DbErr e => raise (StorageError_InnerError e)
  end.

(** [markers_table.get(..)?.unwrap_or_default()]. *)
Definition get_marker (kind : MarkerKind) : Txn Z :=
  let! self := get in
  ret (default 0 (tbl_get (t_markers self) kind)).

Definition upsert_marker (kind : MarkerKind) (block_number : Z) : Txn unit :=
  modify (fun t => set_markers (tbl_upsert (t_markers t) kind block_number) t).

(** [FileHandlers::get_*_unchecked]: a missing object is a [DBInconsistency]. *)
Definition get_unchecked {F V} {H : FileHandler F V} (file : StorageTxn -> F) (location : LocationInFile) : Txn V :=
  let! self := get in
  match file_get (file self) location with
  | Some v => ret v
  | None => raise StorageError_DBInconsistency
  end.

(** [FileHandlers::append_*]. *)
Definition append_to {F V} {H : FileHandler F V} (file : StorageTxn -> F)
    (set_file : F -> StorageTxn -> StorageTxn) (v : V) : Txn LocationInFile :=
  let! self := get in
  let! appended := expect (file_append (file self) v) in
  let '(f, location) := appended in
  modify (set_file f) ;!
  ret location.

Lemma bind_db_ok {A B} (a : A) (k : A -> Txn B) t : bind (db (DbOk a)) k t = k a t.
Proof. reflexivity. Qed.

Definition marker (kind : MarkerKind) (t : StorageTxn) : Z := default 0 (t_markers t !! kind).

Lemma marker_upsert kind kind' n t :
  marker kind' (set_markers (tbl_upsert (t_markers t) kind n) t) =
  if decide (kind = kind') then n else marker kind' t.
Proof.
  unfold marker, tbl_upsert; cbn. rewrite lookup_insert. by case_decide.
Qed.
End Txn.

(** Reduce the projections of an updated transaction, and nothing else. *)
Ltac txn_simpl :=
  cbn [t_scope t_markers t_headers t_block_hash_to_number t_block_signatures t_starknet_version
       t_transaction_metadata t_transaction_hash_to_idx t_events t_state_diffs
       t_contract_storage t_nonces t_deployed_contracts t_declared_classes
       t_declared_classes_block t_deprecated_declared_classes t_casms t_file_offsets
       t_storage_version t_thin_state_diff_file t_contract_class_file t_casm_file
       t_deprecated_contract_class_file t_transaction_output_file t_transaction_file set_markers
       set_headers set_block_hash_to_number set_block_signatures set_starknet_version
       set_transaction_metadata set_transaction_hash_to_idx set_events set_state_diffs
       set_contract_storage set_nonces set_deployed_contracts set_declared_classes
       set_declared_classes_block set_deprecated_declared_classes set_casms set_file_offsets
       set_storage_version set_thin_state_diff_file set_contract_class_file set_casm_file
       set_deprecated_contract_class_file set_transaction_output_file set_transaction_file fst
       snd] in *.

(** Run the primitive steps of a storage operation. *)
Ltac run_txn := repeat first [progress run_steps | rewrite bind_db_ok | progress txn_simpl].
