(* ===== verification/Header.v ===== *)
(** * Block headers in the storage

    Models [crates/papyrus_storage/src/header.rs]: the readers and writers of the
    block headers, of the hash index, of the block signatures and of the
    starknet versions, which are kept only for the blocks that change them.
    The abstract specification is the list of the headers with their
    signatures; the refinement lemmas relate every operation to it. *)

From stdpp Require Import base gmap list strings fin_maps.
From Stdlib Require Import ZArith Lia.
From S2P Require Import Prelude StorageTables StarknetTypes StorageTxn.

(** [starknet_api::block::BlockHeader]: the stored header and its version. *)
Record BlockHeader : Type := mkBlockHeader {
  BlockHeader_block_hash : Z;
  BlockHeader_parent_hash : Z;
  BlockHeader_block_number : Z;
  BlockHeader_l1_gas_price : GasPricePerToken;
  BlockHeader_l1_data_gas_price : GasPricePerToken;
  BlockHeader_state_root : Z;
  BlockHeader_sequencer : Z;
  BlockHeader_timestamp : Z;
  BlockHeader_l1_da_mode : L1DataAvailabilityMode;
  BlockHeader_state_diff_commitment : option Z;
  BlockHeader_transaction_commitment : option Z;
  BlockHeader_event_commitment : option Z;
  BlockHeader_receipt_commitment : option Z;
  BlockHeader_state_diff_length : option Z;
  BlockHeader_n_transactions : Z;
  BlockHeader_n_events : Z;
  BlockHeader_starknet_version : rstring
}.

(** The conversions written out in [append_header], and in [get_block_header] and
    [revert_header]. *)
Definition to_storage_header (h : BlockHeader) : StorageBlockHeader := {|
  StorageBlockHeader_block_hash := BlockHeader_block_hash h;
  StorageBlockHeader_parent_hash := BlockHeader_parent_hash h;
  StorageBlockHeader_block_number := BlockHeader_block_number h;
  StorageBlockHeader_l1_gas_price := BlockHeader_l1_gas_price h;
  StorageBlockHeader_l1_data_gas_price := BlockHeader_l1_data_gas_price h;
  StorageBlockHeader_state_root := BlockHeader_state_root h;
  StorageBlockHeader_sequencer := BlockHeader_sequencer h;
  StorageBlockHeader_timestamp := BlockHeader_timestamp h;
  StorageBlockHeader_l1_da_mode := BlockHeader_l1_da_mode h;
  StorageBlockHeader_state_diff_commitment := BlockHeader_state_diff_commitment h;
  StorageBlockHeader_transaction_commitment := BlockHeader_transaction_commitment h;
  StorageBlockHeader_event_commitment := BlockHeader_event_commitment h;
  StorageBlockHeader_receipt_commitment := BlockHeader_receipt_commitment h;
  StorageBlockHeader_state_diff_length := BlockHeader_state_diff_length h;
  StorageBlockHeader_n_transactions := BlockHeader_n_transactions h;
  StorageBlockHeader_n_events := BlockHeader_n_events h
|}.

Definition from_storage_header (h : StorageBlockHeader) (starknet_version : rstring) : BlockHeader := {|
  BlockHeader_block_hash := StorageBlockHeader_block_hash h;
  BlockHeader_parent_hash := StorageBlockHeader_parent_hash h;
  BlockHeader_block_number := StorageBlockHeader_block_number h;
  BlockHeader_l1_gas_price := StorageBlockHeader_l1_gas_price h;
  BlockHeader_l1_data_gas_price := StorageBlockHeader_l1_data_gas_price h;
  BlockHeader_state_root := StorageBlockHeader_state_root h;
  BlockHeader_sequencer := StorageBlockHeader_sequencer h;
  BlockHeader_timestamp := StorageBlockHeader_timestamp h;
  BlockHeader_l1_da_mode := StorageBlockHeader_l1_da_mode h;
  BlockHeader_state_diff_commitment := StorageBlockHeader_state_diff_commitment h;
  BlockHeader_transaction_commitment := StorageBlockHeader_transaction_commitment h;
  BlockHeader_event_commitment := StorageBlockHeader_event_commitment h;
  BlockHeader_receipt_commitment := StorageBlockHeader_receipt_commitment h;
  BlockHeader_state_diff_length := StorageBlockHeader_state_diff_length h;
  BlockHeader_n_transactions := StorageBlockHeader_n_transactions h;
  BlockHeader_n_events := StorageBlockHeader_n_events h;
  BlockHeader_starknet_version := starknet_version
|}.

Section Header.
Context {BN : BlockNumberApi} {X : ExternalTypes} {SF : StorageFiles}.

(** ** Readers *)

Definition get_header_marker : Txn Z := get_marker MarkerKind_Header.

Definition get_block_signature (block_number : Z) : Txn (option Signature) :=
  let! self := get in ret (tbl_get (t_block_signatures self) block_number).

Definition get_block_number_by_hash (block_hash : Z) : Txn (option Z) :=
  let! self := get in ret (tbl_get (t_block_hash_to_number self) block_hash).

(** The cursor is placed past the block and moved back; that nothing is found
    is [unreachable!]. *)
Definition version_before (next_block_number : Z) : Txn rstring :=
  let! self := get in
  let cursor := (cursor_lower_bound (t_starknet_version self) next_block_number).1 in
  match (cursor_prev (t_starknet_version self) cursor).2 with
  | Some (_, starknet_version) => ret starknet_version
  | None => panic
  end.

Definition get_starknet_version (block_number : Z) : Txn (option rstring) :=
  let! header_marker := get_header_marker in
  if header_marker <=? block_number then ret None
  else
    match bn_next block_number with
    | None => ret None
    | Some next_block_number =>
        let! starknet_version := version_before next_block_number in
        ret (Some starknet_version)
    end.

Definition get_block_header (block_number : Z) : Txn (option BlockHeader) :=
  let! self := get in
  match tbl_get (t_headers self) block_number with
  | None => ret None
  | Some block_header =>
      let! starknet_version := get_starknet_version block_number in
      match starknet_version with
      | None => ret None
      | Some starknet_version => ret (Some (from_storage_header block_header starknet_version))
      end
  end.

(** ** Writers *)

(** [header.rs]'s [update_marker]. *)
Definition update_header_marker (block_number : Z) : Txn unit :=
  let! header_marker := get_marker MarkerKind_Header in
  if negb (header_marker =? block_number) then
    raise (StorageError_MarkerMismatch header_marker block_number)
  else upsert_marker MarkerKind_Header (bn_unchecked_next block_number).

Definition update_hash_mapping (block_header : StorageBlockHeader) (block_number : Z) : Txn unit :=
  let! self := get in
  let! table := db (tbl_insert (t_block_hash_to_number self)
                      (StorageBlockHeader_block_hash block_header) block_number) in
  modify (set_block_hash_to_number table).

(** A version equal to the one before it is not stored again. *)
Definition update_starknet_version (block_number : Z) (starknet_version : rstring) : Txn unit :=
  let! self := get in
  let cursor := (cursor_lower_bound (t_starknet_version self) block_number).1 in
  let insert :=
    let! table := db (tbl_insert (t_starknet_version self) block_number starknet_version) in
    modify (set_starknet_version table) in
  match (cursor_prev (t_starknet_version self) cursor).2 with
  | Some (_, last_starknet_version) =>
      if bool_decide (last_starknet_version = starknet_version) then ret tt else insert
  | None => insert
  end.

Definition append_header (block_number : Z) (block_header : BlockHeader) : Txn unit :=
  update_header_marker block_number ;!
  let storage_block_header := to_storage_header block_header in
  let! self := get in
  let! headers := db (tbl_append (t_headers self) block_number storage_block_header) in
  modify (set_headers headers) ;!
  update_hash_mapping storage_block_header block_number ;!
  update_starknet_version block_number (BlockHeader_starknet_version block_header).

Definition revert_header (block_number : Z) : Txn (option BlockHeader * option Signature) :=
  let! current_header_marker := get_header_marker in
  match bn_next block_number with
  | Some next_block_number =>
      if negb (next_block_number =? current_header_marker) then ret (None, None)
      else
        let! self := get in
        let! reverted_header := expect (tbl_get (t_headers self) block_number) in
        upsert_marker MarkerKind_Header block_number ;!
        modify (fun t => set_headers (tbl_delete (t_headers t) block_number) t) ;!
        modify (fun t => set_block_hash_to_number
          (tbl_delete (t_block_hash_to_number t) (StorageBlockHeader_block_hash reverted_header)) t) ;!
        let! starknet_version := version_before next_block_number in
        modify (fun t => set_starknet_version (tbl_delete (t_starknet_version t) block_number) t) ;!
        let! reverted_block_signature := get_block_signature block_number in
        (if bool_decide (is_Some reverted_block_signature)
         then modify (fun t => set_block_signatures (tbl_delete (t_block_signatures t) block_number) t)
         else ret tt) ;!
        ret (Some (from_storage_header reverted_header starknet_version), reverted_block_signature)
  | None => ret (None, None)
  end.

Definition append_block_signature (block_number : Z) (block_signature : Signature) : Txn unit :=
  let! current_header_marker := get_header_marker in
  if current_header_marker <=? block_number then
    raise (StorageError_BlockSignatureForNonExistingBlock block_number block_signature)
  else
    let! self := get in
    let! table := db (tbl_insert (t_block_signatures self) block_number block_signature) in
    modify (set_block_signatures table).

End Header.

(** * The header storage refines a list of headers

    The abstract state is the list of the headers, each with its signature.
    [header_rel] relates a transaction to it; every operation of [Header.v] is
    related to the corresponding operation on the list, on every branch. *)

(** The abstract state and the version of an abstract block. *)
Abbreviation HeaderChain := (list (BlockHeader * option Signature)).

Definition version_of (x : BlockHeader * option Signature) : rstring := BlockHeader_starknet_version x.1.
Definition hash_of (x : BlockHeader * option Signature) : Z := BlockHeader_block_hash x.1.

(** A version is stored for the first block and for the blocks that change it. *)
Definition version_change (l : HeaderChain) (b : Z) (v : rstring) : Prop :=
  (version_of <$> lookup_z l b) = Some v /\
  (b = 0 \/ (version_of <$> lookup_z l (b - 1)) <> Some v).

Section Rel.
Context {BN : BlockNumberApi} {X : ExternalTypes} {SF : StorageFiles}.

Record header_rel (t : StorageTxn) (l : HeaderChain) : Prop := {
  hr_marker : marker MarkerKind_Header t = zlength l;
  hr_headers : forall b, t_headers t !! b = (to_storage_header ∘ fst) <$> lookup_z l b;
  hr_hashes : forall h b, t_block_hash_to_number t !! h = Some b <->
    (hash_of <$> lookup_z l b) = Some h;
  hr_versions : forall b v, t_starknet_version t !! b = Some v <-> version_change l b v;
  hr_signatures : forall b, t_block_signatures t !! b = lookup_z l b ≫= snd
}.

(** ** Versions *)

(** The greatest stored version at or before a block is the block's version. *)
Lemma version_below t l b x :
  header_rel t l -> lookup_z l b = Some x ->
  exists k, entry_below (t_starknet_version t) (b + 1) = Some (k, version_of x).
Proof.
  intros Hr Hx. pose proof (lookup_z_Some _ _ _ Hx) as Hb.
  assert (Hind : forall n : nat, Z.of_nat n = b -> exists k, entry_below (t_starknet_version t) (b + 1) = Some (k, version_of x)).
  { clear Hb. intros n. revert b x Hx. induction n as [|n IH]; intros b x Hx Hn.
    - exists 0. apply entry_below_Some. rewrite (hr_versions _ _ Hr). split; [|split; [cbn; lia|]].
      + split; [|by left]. replace 0 with b by lia. by rewrite Hx.
      + intros k'' v'' _ Hlt. cbn in *. lia.
    - destruct (lookup_z l (b - 1)) as [y|] eqn:Hy.
      2: { apply lookup_z_None in Hy. apply lookup_z_Some in Hx. lia. }
      destruct (IH (b - 1) y Hy ltac:(lia)) as (k & Hk). replace (b - 1 + 1) with b in Hk by lia.
      destruct (decide (version_of y = version_of x)) as [Heq|Hne].
      + exists k. apply entry_below_Some in Hk as (Hk & Hlt & Hmax). apply entry_below_Some.
        rewrite <-Heq. split; [done|]. cbn in *. split; [lia|]. intros k'' v'' Hk'' Hlt''.
        destruct (decide (k'' = b)) as [->|]; [|apply (Hmax _ _ Hk''); lia].
        exfalso. apply (hr_versions _ _ Hr) in Hk'' as [Hv [?|Hv']]; [lia|].
        rewrite Hx in Hv. rewrite Hy in Hv'. cbn in *. congruence.
      + exists b. apply entry_below_Some. cbn. split; [|split; [lia|intros; lia]].
        apply (hr_versions _ _ Hr). split; [by rewrite Hx|]. right. rewrite Hy. cbn. congruence. }
  apply (Hind (Z.to_nat b)). lia.
Qed.

Lemma version_below_none t :
  header_rel t [] -> forall b, entry_below (t_starknet_version t) b = None.
Proof.
  intros Hr b. apply entry_below_None. intros k v Hk. apply (hr_versions _ _ Hr) in Hk as [Hv _].
  destruct (lookup_z [] k) eqn:Hl; [|done]. apply lookup_z_Some in Hl. cbn in Hl. unfold zlength in *. cbn in *. lia.
Qed.

Lemma header_nonneg t l b h : header_rel t l -> t_headers t !! b = Some h -> 0 <= b < zlength l.
Proof.
  intros Hr Hb. rewrite (hr_headers _ _ Hr) in Hb. destruct (lookup_z l b) eqn:Hl; [|done].
  by apply lookup_z_Some in Hl.
Qed.

(** ** Readers *)

Lemma get_header_marker_rel t l : header_rel t l -> get_header_marker t = Done t (zlength l).
Proof. intros Hr. by rewrite <-(hr_marker _ _ Hr). Qed.

Lemma version_before_rel t l b x :
  header_rel t l -> lookup_z l b = Some x -> version_before (b + 1) t = Done t (version_of x).
Proof.
  intros Hr Hx. unfold version_before. rewrite (bind_step _ _ _ t t) by done. cbn zeta.
  rewrite lower_bound_prev. by destruct (version_below _ _ _ _ Hr Hx) as [k ->].
Qed.

Lemma get_starknet_version_rel t l b :
  header_rel t l -> 0 <= b < 2 ^ 32 ->
  get_starknet_version b t = Done t (version_of <$> lookup_z l b).
Proof.
  intros Hr Hb. unfold get_starknet_version. rewrite (bind_step _ _ _ _ _ (get_header_marker_rel _ _ Hr)).
  destruct (lookup_z l b) as [x|] eqn:Hx.
  - pose proof (lookup_z_Some _ _ _ Hx). case_cmp; [lia|]. rewrite bn_next_small by done.
    by rewrite (bind_step _ _ _ _ _ (version_before_rel _ _ _ _ Hr Hx)).
  - apply lookup_z_None in Hx. case_cmp; [done|lia].
Qed.

Lemma from_to_storage_header h : from_storage_header (to_storage_header h) (BlockHeader_starknet_version h) = h.
Proof. by destruct h. Qed.

Lemma get_block_header_rel t l b :
  header_rel t l -> 0 <= b < 2 ^ 32 -> get_block_header b t = Done t (fst <$> lookup_z l b).
Proof.
  intros Hr Hb. unfold get_block_header. rewrite (bind_step _ _ _ t t) by done.
  unfold tbl_get. rewrite (hr_headers _ _ Hr).
  pose proof (get_starknet_version_rel _ _ _ Hr Hb) as Hv.
  destruct (lookup_z l b) as [x|]; cbn [fmap option_fmap option_map]; [|done].
  rewrite (bind_step _ _ _ _ _ Hv). cbn. unfold ret, version_of. by rewrite from_to_storage_header.
Qed.

(** ** The writers *)

Lemma hash_index t l h :
  header_rel t l -> t_block_hash_to_number t !! h = None <-> h ∉ (hash_of <$> l).
Proof.
  intros Hr. rewrite eq_None_not_Some. apply not_iff_compat. split.
  - intros [b Hb]. apply (hr_hashes _ _ Hr) in Hb. destruct (lookup_z l b) as [x|] eqn:Hl; [|done].
    unfold lookup_z in Hl. case_cmp; [|done]. apply list_elem_of_fmap. exists x. cbn in Hb.
    split; [congruence|]. by eapply list_elem_of_lookup_2.
  - intros (x & -> & (i & Hi)%list_elem_of_lookup)%list_elem_of_fmap. exists (Z.of_nat i).
    apply (hr_hashes _ _ Hr). unfold lookup_z. case_cmp; [|lia]. by rewrite Nat2Z.id, Hi.
Qed.

(** The four tables after [append_header]. *)
Definition appended (t : StorageTxn) (l : HeaderChain) (h : BlockHeader) (versions : gmap Z rstring) : StorageTxn :=
  set_starknet_version versions
    (set_block_hash_to_number (<[BlockHeader_block_hash h := zlength l]> (t_block_hash_to_number t))
      (set_headers (<[zlength l := to_storage_header h]> (t_headers t))
        (set_markers (<[MarkerKind_Header := zlength l + 1]> (t_markers t)) t))).

Lemma appended_rel t l h versions :
  header_rel t l -> BlockHeader_block_hash h ∉ (hash_of <$> l) ->
  (forall b v, versions !! b = Some v <-> version_change (l ++ [(h, None)]) b v) ->
  header_rel (appended t l h versions) (l ++ [(h, None)]).
Proof.
  intros Hr Hh Hv. constructor; unfold appended; txn_simpl; [|intros b|intros hh b|exact Hv|intros b].
  - unfold marker. txn_simpl. rewrite lookup_insert_eq, zlength_snoc. done.
  - rewrite lookup_z_snoc, lookup_insert, (hr_headers _ _ Hr). repeat (case_decide || case_cmp); congruence || done.
  - rewrite lookup_z_snoc, lookup_insert. pose proof (proj2 (hash_index _ _ _ Hr) Hh) as Hn.
    pose proof (hr_hashes _ _ Hr hh b) as Hhash.
    case_decide as He; case_cmp; subst; cbn.
    + tauto.
    + split; [congruence|]. intros Hb%(hr_hashes _ _ Hr). congruence.
    + rewrite Hhash. destruct (lookup_z l (zlength l)) eqn:Hl; [apply lookup_z_Some in Hl; lia|].
      cbn. unfold hash_of; cbn. split; congruence.
    + done.
  - rewrite lookup_z_snoc, (hr_signatures _ _ Hr). case_cmp; [|done]. subst.
    destruct (lookup_z l (zlength l)) eqn:Hl; [apply lookup_z_Some in Hl; lia|done].
Qed.

Lemma version_change_snoc_old l x b v :
  b <> zlength l -> version_change (l ++ [x]) b v <-> version_change l b v.
Proof.
  intros Hb. unfold version_change. rewrite !lookup_z_snoc. repeat case_cmp; try lia; [|done].
  destruct (lookup_z l b) eqn:Hl; [|naive_solver]. apply lookup_z_Some in Hl. lia.
Qed.

Lemma no_version_at t l b : header_rel t l -> zlength l <= b -> t_starknet_version t !! b = None.
Proof.
  intros Hr Hb. apply eq_None_not_Some. intros [v [Hv _]%(hr_versions _ _ Hr)].
  destruct (lookup_z l b) eqn:Hl; [|done]. apply lookup_z_Some in Hl. lia.
Qed.

Lemma update_starknet_version_rel t t0 l h sig :
  header_rel t0 l -> t_starknet_version t = t_starknet_version t0 ->
  exists versions, update_starknet_version (zlength l) (BlockHeader_starknet_version h) t =
    Done (set_starknet_version versions t) tt /\
    forall b v, versions !! b = Some v <-> version_change (l ++ [(h, sig)]) b v.
Proof.
  intros Hr Ht. unfold update_starknet_version. rewrite (bind_step _ _ _ t t) by done. cbn zeta.
  rewrite lower_bound_prev, Ht.
  pose proof (no_version_at _ _ (zlength l) Hr ltac:(lia)) as Hno.
  assert (Hold : forall b v, b <> zlength l ->
    t_starknet_version t0 !! b = Some v <-> version_change (l ++ [(h, sig)]) b v).
  { intros b v Hb. by rewrite (hr_versions _ _ Hr), version_change_snoc_old. }
  set (v := BlockHeader_starknet_version h).
  assert (Hins : (zlength l = 0 \/ (version_of <$> lookup_z l (zlength l - 1)) <> Some v) ->
    exists versions, (let! table := db (tbl_insert (t_starknet_version t0) (zlength l) v) in
      modify (set_starknet_version table)) t = Done (set_starknet_version versions t) tt /\
    forall b v0, versions !! b = Some v0 <-> version_change (l ++ [(h, sig)]) b v0).
  { intros Hch. exists (<[zlength l := v]> (t_starknet_version t0)).
    rewrite (proj1 (tbl_insert_ok _ _ _) Hno). split; [done|]. intros b v0.
    destruct (decide (b = zlength l)) as [->|Hb]; [|rewrite lookup_insert_ne by done; auto].
    rewrite lookup_insert_eq. unfold version_change.
    rewrite !lookup_z_snoc, Z.eqb_refl. replace (zlength l - 1 =? zlength l) with false by lia.
    cbn [fmap option_fmap option_map]. change (version_of (h, sig)) with v.
    split; [intros [= <-]; tauto|naive_solver]. }
  destruct (decide (zlength l = 0)) as [Hz|Hz].
  { assert (l = []) as -> by (destruct l; [done|unfold zlength in Hz; cbn in Hz; lia]).
    rewrite (version_below_none _ Hr). apply Hins. by left. }
  destruct (lookup_z l (zlength l - 1)) as [y|] eqn:Hy.
  2: { apply lookup_z_None in Hy. pose proof (zlength_nonneg l). lia. }
  destruct (version_below _ _ _ _ Hr Hy) as [k Hk].
  replace (zlength l - 1 + 1) with (zlength l) in Hk by lia. rewrite Hk.
  case_bool_decide as Heq; [|apply Hins; right; cbn; congruence].
  exists (t_starknet_version t0). split; [rewrite <-Ht; by destruct t|].
  intros b v0. destruct (decide (b = zlength l)) as [->|Hb]; [|auto].
  rewrite Hno. split; [done|]. intros [Hv [?|Hv']]; [lia|].
  rewrite lookup_z_snoc, Z.eqb_refl in Hv. rewrite lookup_z_snoc in Hv'.
  replace (zlength l - 1 =? zlength l) with false in Hv' by lia. rewrite Hy in Hv'.
  cbn [fmap option_fmap option_map] in Hv, Hv'. change (version_of (h, sig)) with v in Hv. congruence.
Qed.

Lemma append_header_rel t l h :
  header_rel t l -> zlength l < 2 ^ 32 -> BlockHeader_block_hash h ∉ (hash_of <$> l) ->
  exists versions, append_header (zlength l) h t = Done (appended t l h versions) tt /\
    header_rel (appended t l h versions) (l ++ [(h, None)]).
Proof.
  intros Hr Hlen Hh. unfold append_header, update_header_marker.
  rewrite bind_assoc, (bind_step _ _ _ _ _ (get_header_marker_rel _ _ Hr)), Z.eqb_refl. cbn [negb].
  rewrite (bind_step _ _ _ (set_markers (<[MarkerKind_Header := zlength l + 1]> (t_markers t)) t) tt)
    by (rewrite bn_unchecked_next_small; [done|pose proof (zlength_nonneg l); lia]).
  run_txn. rewrite (proj1 (tbl_append_ok _ _ _)).
  2: { intros k' v' Hk' Hlt. apply (header_nonneg _ _ _ _ Hr) in Hk'. cbn in Hlt. lia. }
  unfold update_hash_mapping. run_txn.
  rewrite (proj1 (tbl_insert_ok _ _ _)) by by apply (hash_index _ _ _ Hr).
  run_txn.
  match goal with |- context [update_starknet_version _ _ ?t1] =>
    destruct (update_starknet_version_rel t1 t l h None Hr eq_refl) as (versions & -> & Hv) end.
  exists versions. split; [done|]. by apply appended_rel.
Qed.

(** ** Reverting the last header *)

Definition reverted (t : StorageTxn) (b : Z) (h : BlockHeader) : StorageTxn :=
  set_block_signatures (delete b (t_block_signatures t))
    (set_starknet_version (delete b (t_starknet_version t))
      (set_block_hash_to_number (delete (BlockHeader_block_hash h) (t_block_hash_to_number t))
        (set_headers (delete b (t_headers t))
          (set_markers (<[MarkerKind_Header := b]> (t_markers t)) t)))).

Lemma reverted_rel t l h sig :
  header_rel t (l ++ [(h, sig)]) -> NoDup (hash_of <$> (l ++ [(h, sig)])) ->
  header_rel (reverted t (zlength l) h) l.
Proof.
  intros Hr Hnd. constructor; unfold reverted; txn_simpl; [|intros b|intros hh b|intros b v|intros b].
  - unfold marker. txn_simpl. by rewrite lookup_insert_eq.
  - rewrite lookup_delete, (hr_headers _ _ Hr), lookup_z_snoc.
    repeat (case_decide || case_cmp); try congruence; try done. subst.
    destruct (lookup_z l (zlength l)) eqn:Hl; [apply lookup_z_Some in Hl; lia|done].
  - rewrite fmap_app, NoDup_app in Hnd. destruct Hnd as (_ & Hnd & _).
    rewrite lookup_delete. case_decide as He.
    + split; [done|]. subst hh. destruct (lookup_z l b) as [x|] eqn:Hl; [|done]. intros [= Hx].
      exfalso. apply (Hnd (hash_of x)); [|rewrite Hx; by left].
      apply list_elem_of_fmap. exists x. split; [done|]. unfold lookup_z in Hl. case_cmp; [|done].
      by eapply list_elem_of_lookup_2.
    + rewrite (hr_hashes _ _ Hr), lookup_z_snoc. case_cmp; [|done]. subst.
      destruct (lookup_z l (zlength l)) eqn:Hl; [apply lookup_z_Some in Hl; lia|].
      cbn. unfold hash_of; cbn. split; congruence.
  - rewrite lookup_delete. case_decide as He.
    + subst b. split; [done|]. intros [Hv _].
      destruct (lookup_z l (zlength l)) eqn:Hl; [apply lookup_z_Some in Hl; lia|done].
    + rewrite (hr_versions _ _ Hr). apply version_change_snoc_old. done.
  - rewrite lookup_delete, (hr_signatures _ _ Hr), lookup_z_snoc.
    repeat (case_decide || case_cmp); try congruence; try done. subst.
    destruct (lookup_z l (zlength l)) eqn:Hl; [apply lookup_z_Some in Hl; lia|done].
Qed.

Lemma delete_absent {A} (m : gmap Z A) k : ~ is_Some (m !! k) -> delete k m = m.
Proof. intros Hn. apply delete_id. by apply eq_None_not_Some. Qed.

Lemma revert_header_rel t l h sig :
  header_rel t (l ++ [(h, sig)]) -> zlength l < 2 ^ 32 ->
  revert_header (zlength l) t = Done (reverted t (zlength l) h) (Some h, sig).
Proof.
  intros Hr Hlen. unfold revert_header.
  rewrite (bind_step _ _ _ _ _ (get_header_marker_rel _ _ Hr)), zlength_snoc.
  pose proof (zlength_nonneg l). rewrite bn_next_small by lia. rewrite Z.eqb_refl. cbn [negb].
  assert (Hlast : lookup_z (l ++ [(h, sig)]) (zlength l) = Some (h, sig))
    by by rewrite lookup_z_snoc, Z.eqb_refl.
  run_txn. unfold tbl_get. rewrite (hr_headers _ _ Hr), Hlast. cbn [fmap option_fmap option_map].
  unfold upsert_marker. run_txn.
  assert (Hver : forall t', t_starknet_version t' = t_starknet_version t ->
    version_before (zlength l + 1) t' = Done t' (version_of (h, sig))).
  { intros t' Ht'. pose proof (version_before_rel _ _ _ _ Hr Hlast) as Hv.
    unfold version_before in *. rewrite bind_get in *. rewrite Ht'.
    destruct (cursor_prev _ _).2 as [[? ?]|]; [|done]. unfold ret in *. congruence. }
  match goal with |- context [bind (version_before _) _ ?t1] =>
    rewrite (bind_step _ _ _ _ _ (Hver t1 eq_refl)) end. run_txn.
  unfold get_block_signature. run_txn. unfold tbl_get. txn_simpl.
  rewrite (hr_signatures _ _ Hr), Hlast. cbn [mbind option_bind snd].
  change (version_of (h, sig)) with (BlockHeader_starknet_version h).
  unfold compose. cbn [fst]. rewrite from_to_storage_header. case_bool_decide as Hs.
  - run_txn. done.
  - run_txn. unfold ret, reverted. rewrite (delete_absent (t_block_signatures t)); [done|].
    by rewrite (hr_signatures _ _ Hr), Hlast.
Qed.

(** ** Signatures *)

Definition sign (s : Signature) (x : BlockHeader * option Signature) : BlockHeader * option Signature :=
  (x.1, Some s).

Lemma lookup_z_alter {A} (f : A -> A) l b i :
  0 <= b -> lookup_z (alter f (Z.to_nat b) l) i = if i =? b then f <$> lookup_z l i else lookup_z l i.
Proof.
  intros Hb. unfold lookup_z. repeat case_cmp; try done.
  - subst. apply list_lookup_alter_eq.
  - apply list_lookup_alter_ne. lia.
Qed.

Lemma hashes_signed s (i : nat) (l : HeaderChain) : hash_of <$> alter (sign s) i l = hash_of <$> l.
Proof. revert i; induction l as [|x l IH]; intros [|i]; cbn; f_equal; auto. Qed.

Lemma signed_rel t l b s :
  header_rel t l -> 0 <= b < zlength l ->
  header_rel (set_block_signatures (<[b := s]> (t_block_signatures t)) t) (alter (sign s) (Z.to_nat b) l).
Proof.
  intros Hr Hb.
  assert (Hf : forall {B} (f : BlockHeader * option Signature -> B), (forall x, f (sign s x) = f x) ->
    forall i, f <$> lookup_z (alter (sign s) (Z.to_nat b) l) i = f <$> lookup_z l i).
  { intros B f Hf i. rewrite lookup_z_alter by lia. case_cmp; [|done].
    destruct (lookup_z l i); cbn; by rewrite ?Hf. }
  constructor; txn_simpl.
  - unfold zlength. rewrite length_alter. apply (hr_marker _ _ Hr).
  - intros i. rewrite (hr_headers _ _ Hr). by rewrite Hf.
  - intros h i. rewrite (hr_hashes _ _ Hr). by rewrite Hf.
  - intros i v. rewrite (hr_versions _ _ Hr). unfold version_change. by rewrite !Hf.
  - intros i. rewrite lookup_z_alter, lookup_insert, (hr_signatures _ _ Hr) by lia.
    repeat (case_decide || case_cmp); try congruence; try done. subst.
    apply lookup_z_is_Some in Hb as [x Hx]. by rewrite Hx.
Qed.

(** ** The specification of the writers *)

Inductive HeaderOp : Type :=
| HeaderOp_Append (block_number : Z) (h : BlockHeader)
| HeaderOp_Revert (block_number : Z)
| HeaderOp_Sign (block_number : Z) (s : Signature).

Definition run_header_op (op : HeaderOp) : Txn (option BlockHeader * option Signature) :=
  match op with
  | HeaderOp_Append b h => append_header b h ;! ret (None, None)
  | HeaderOp_Revert b => revert_header b
  | HeaderOp_Sign b s => append_block_signature b s ;! ret (None, None)
  end.

Definition op_block (op : HeaderOp) : Z :=
  match op with HeaderOp_Append b _ | HeaderOp_Revert b | HeaderOp_Sign b _ => b end.

(** What each operation does to the list of headers: a new list and the removed
    header, or an error. *)
Definition header_spec (op : HeaderOp) (l : HeaderChain) :
    (HeaderChain * (option BlockHeader * option Signature)) + StorageError :=
  match op with
  | HeaderOp_Append b h =>
      if negb (b =? zlength l) then inr (StorageError_MarkerMismatch (zlength l) b)
      else if bool_decide (BlockHeader_block_hash h ∈ (hash_of <$> l))
      then inr (StorageError_InnerError DbError_KeyAlreadyExists)
      else inl (l ++ [(h, None)], (None, None))
  | HeaderOp_Revert b =>
      match last l with
      | Some (h, s) => if b + 1 =? zlength l then inl (removelast l, (Some h, s)) else inl (l, (None, None))
      | None => inl (l, (None, None))
      end
  | HeaderOp_Sign b s =>
      match lookup_z l b with
      | None => inr (StorageError_BlockSignatureForNonExistingBlock b s)
      | Some (_, Some _) => inr (StorageError_InnerError DbError_KeyAlreadyExists)
      | Some (_, None) => inl (alter (sign s) (Z.to_nat b) l, (None, None))
      end
  end.

(** What a header operation leaves alone: every other table and marker. *)
Definition header_frame (t t' : StorageTxn) : Prop :=
  (forall kind, kind <> MarkerKind_Header -> t_markers t' !! kind = t_markers t !! kind) /\
  exists markers headers hashes versions signatures,
    t' = set_markers markers (set_headers headers (set_block_hash_to_number hashes
           (set_starknet_version versions (set_block_signatures signatures t)))).

Lemma header_frame_refl t : header_frame t t.
Proof. split; [done|]. exists (t_markers t), (t_headers t), (t_block_hash_to_number t), (t_starknet_version t), (t_block_signatures t). by destruct t. Qed.

Definition refines_header (op : HeaderOp) (t : StorageTxn) (l : HeaderChain) : Prop :=
  match header_spec op l with
  | inl (l', r) => exists t', run_header_op op t = Done t' r /\ header_rel t' l' /\
      NoDup (hash_of <$> l') /\ header_frame t t'
  | inr e => exists t', run_header_op op t = Fail t' e
  end.

Lemma append_refines t l b h :
  header_rel t l -> NoDup (hash_of <$> l) -> zlength l < 2 ^ 32 -> refines_header (HeaderOp_Append b h) t l.
Proof.
  intros Hr Hnd Hlen. unfold refines_header, header_spec, run_header_op.
  destruct (Z.eqb_spec b (zlength l)) as [->|Hb]; cbn [negb].
  - case_bool_decide as Hh.
    + unfold append_header, update_header_marker, update_hash_mapping. run_txn.
      rewrite (bind_step _ _ _ _ _ (get_header_marker_rel _ _ Hr)), Z.eqb_refl. cbn [negb].
      unfold upsert_marker. run_txn. rewrite (proj1 (tbl_append_ok _ _ _)).
      2: { intros k' v' Hk' Hlt. apply (header_nonneg _ _ _ _ Hr) in Hk'. cbn in Hlt. lia. }
      run_txn. unfold tbl_insert.
      destruct (t_block_hash_to_number t !! _) eqn:Hn; [by eexists|].
      apply (hash_index _ _ _ Hr) in Hn. done.
    + destruct (append_header_rel t l h Hr Hlen Hh) as (vs & Ha & Hr').
      exists (appended t l h vs). rewrite (bind_step _ _ _ _ _ Ha). split; [done|]. split; [done|]. split.
      * rewrite fmap_app. apply NoDup_app. split; [done|]. split; [|apply NoDup_singleton].
        intros x Hx Hx'%list_elem_of_singleton. by subst.
      * split; [|by unfold appended; repeat eexists].
        intros kind Hk. unfold appended. txn_simpl. by rewrite lookup_insert_ne by congruence.
  - unfold append_header, update_header_marker. run_txn.
    rewrite (bind_step _ _ _ _ _ (get_header_marker_rel _ _ Hr)).
    case_cmp; [congruence|]. by eexists.
Qed.

Lemma revert_refines t l b :
  header_rel t l -> NoDup (hash_of <$> l) -> zlength l <= 2 ^ 32 -> 0 <= b < 2 ^ 32 ->
  refines_header (HeaderOp_Revert b) t l.
Proof.
  intros Hr Hnd Hlen Hb. unfold refines_header, header_spec, run_header_op.
  assert (Hno : b + 1 <> zlength l -> revert_header b t = Done t (None, None)).
  { intros Hne. unfold revert_header. rewrite (bind_step _ _ _ _ _ (get_header_marker_rel _ _ Hr)).
    rewrite bn_next_small by done. case_cmp; [lia|done]. }
  assert (Hskip : b + 1 <> zlength l -> exists t', revert_header b t = Done t' (None, None) /\
    header_rel t' l /\ NoDup (hash_of <$> l) /\ header_frame t t').
  { intros Hne. exists t. rewrite Hno by done. auto using header_frame_refl. }
  destruct l as [|[h s] l0 _] using rev_ind.
  - cbn [last]. apply Hskip. unfold zlength; cbn; lia.
  - rewrite last_snoc. destruct (Z.eqb_spec (b + 1) (zlength (l0 ++ [(h, s)]))) as [Hb1|]; [|by apply Hskip].
    rewrite zlength_snoc in Hb1, Hlen. replace b with (zlength l0) by lia. rewrite removelast_last.
    exists (reverted t (zlength l0) h). rewrite (revert_header_rel _ _ _ _ Hr) by lia.
    split; [done|]. split; [by eapply reverted_rel|]. split.
    + rewrite fmap_app in Hnd. by apply NoDup_app in Hnd as [? _].
    + split; [|by unfold reverted; repeat eexists].
      intros kind Hk. unfold reverted. txn_simpl. by rewrite lookup_insert_ne by congruence.
Qed.

Lemma sign_refines t l b s :
  header_rel t l -> NoDup (hash_of <$> l) -> 0 <= b -> refines_header (HeaderOp_Sign b s) t l.
Proof.
  intros Hr Hnd Hb. unfold refines_header, header_spec, run_header_op, append_block_signature.
  run_txn. rewrite (bind_step _ _ _ _ _ (get_header_marker_rel _ _ Hr)).
  destruct (lookup_z l b) as [[h [s0|]]|] eqn:Hl.
  - pose proof (lookup_z_Some _ _ _ Hl). case_cmp; [lia|]. run_txn. unfold tbl_insert.
    rewrite (hr_signatures _ _ Hr), Hl. by eexists.
  - pose proof (lookup_z_Some _ _ _ Hl). case_cmp; [lia|]. run_txn. unfold tbl_insert.
    rewrite (hr_signatures _ _ Hr), Hl. cbn [mbind option_bind snd]. run_txn.
    exists (set_block_signatures (<[b := s]> (t_block_signatures t)) t). split; [done|].
    split; [by apply signed_rel|]. split.
    + by rewrite hashes_signed.
    + split; [done|]. exists (t_markers t), (t_headers t), (t_block_hash_to_number t), (t_starknet_version t).
      exists (<[b := s]> (t_block_signatures t)). reflexivity.
  - apply lookup_z_None in Hl. case_cmp; [by eexists|lia].
Qed.

(** C12: the writers of the header storage implement a list of headers: each
    operation does what [header_spec] says of the list, on every branch: a
    header is appended at the marker only and with a new hash, the last header
    only is reverted and handed back with its signature, a signature is added
    once to an existing block; errors are those of the specification, and the
    other tables and markers are left alone. *)
Theorem header_writers_refine (op : HeaderOp) (t : StorageTxn) (l : HeaderChain) :
  header_rel t l -> NoDup (hash_of <$> l) -> zlength l < 2 ^ 32 -> 0 <= op_block op < 2 ^ 32 ->
  refines_header op t l.
Proof.
  intros Hr Hnd Hlen Hb. destruct op; cbn in Hb.
  - by apply append_refines.
  - apply revert_refines; auto; lia.
  - apply sign_refines; auto; lia.
Qed.

(** the readers of the header storage answer from that list: the header of
    a block is the one that was appended, with its version although versions
    are stored only where they change, the number of a hash is its position,
    and nothing is found past the marker. No read panics. *)
Theorem header_readers_refine (t : StorageTxn) (l : HeaderChain) (b : Z) :
  header_rel t l -> NoDup (hash_of <$> l) -> 0 <= b < 2 ^ 32 ->
  get_header_marker t = Done t (zlength l) /\
  get_block_header b t = Done t (fst <$> lookup_z l b) /\
  get_starknet_version b t = Done t (version_of <$> lookup_z l b) /\
  get_block_signature b t = Done t (lookup_z l b ≫= snd) /\
  forall h n, get_block_number_by_hash h t = Done t (Some n) <-> (hash_of <$> lookup_z l n) = Some h.
Proof.
  intros Hr Hnd Hb. split; [by apply get_header_marker_rel|]. split; [by apply get_block_header_rel|].
  split; [by apply get_starknet_version_rel|]. split.
  - unfold get_block_signature, tbl_get. run_txn. by rewrite (hr_signatures _ _ Hr).
  - intros h n. unfold get_block_number_by_hash, tbl_get. run_txn. rewrite <-(hr_hashes _ _ Hr).
    unfold ret. split; congruence.
Qed.

Lemma header_rel_empty t :
  t_markers t = ∅ -> t_headers t = ∅ -> t_block_hash_to_number t = ∅ -> t_starknet_version t = ∅ ->
  t_block_signatures t = ∅ -> header_rel t [].
Proof.
  intros Hm Hh Hn Hv Hs.
  assert (Hl : forall b, lookup_z ([] : HeaderChain) b = None) by (intros b; unfold lookup_z; by case_cmp).
  constructor.
  - unfold marker. by rewrite Hm.
  - intros b. by rewrite Hh, Hl.
  - intros h b. by rewrite Hn, Hl.
  - intros b v. rewrite Hv. unfold version_change. rewrite Hl. split; [done|]. by intros [? _].
  - intros b. by rewrite Hs, Hl.
Qed.
End Rel.
