(* ===== verification/Body.v ===== *)
(** * Block bodies in the storage

    Models [crates/papyrus_storage/src/body/mod.rs]: the transactions and their
    outputs are appended to files, the tables keep their locations, the index
    of the transaction hashes and the index of the events by contract. *)

From stdpp Require Import base gmap list strings fin_maps.
From Stdlib Require Import ZArith Lia.
From S2P Require Import Prelude StorageTables StarknetTypes StorageTxn.

(** [starknet_api::block::BlockBody]. *)
Record BlockBody : Type := mkBlockBody {
  BlockBody_transactions : list Transaction;
  BlockBody_transaction_outputs : list TransactionOutput;
  BlockBody_transaction_hashes : list Z
}.

Section Body.
Context {BN : BlockNumberApi} {X : ExternalTypes} {SF : StorageFiles} {HS : HashSetIter}.

(** ** Readers *)

Definition get_body_marker : Txn Z := get_marker MarkerKind_Body.

Definition get_metadata (transaction_index : Z * Z) : Txn (option TransactionMetadata) :=
  let! self := get in ret (tbl_get (t_transaction_metadata self) transaction_index).

Definition get_transaction (transaction_index : Z * Z) : Txn (option Transaction) :=
  open_table Table_transaction_metadata ;!
  let! found := get_metadata transaction_index in
  match found with
  | None => ret None
  | Some tx_metadata =>
      let! transaction := get_unchecked t_transaction_file (TransactionMetadata_tx_location tx_metadata) in
      ret (Some transaction)
  end.

Definition get_transaction_output (transaction_index : Z * Z) : Txn (option TransactionOutput) :=
  open_table Table_transaction_metadata ;!
  let! found := get_metadata transaction_index in
  match found with
  | None => ret None
  | Some tx_metadata =>
      let! transaction_output :=
        get_unchecked t_transaction_output_file (TransactionMetadata_tx_output_location tx_metadata) in
      ret (Some transaction_output)
  end.

Definition get_transaction_idx_by_hash (tx_hash : Z) : Txn (option (Z * Z)) :=
  open_table Table_transaction_hash_to_idx ;!
  let! self := get in ret (tbl_get (t_transaction_hash_to_idx self) tx_hash).

Definition get_transaction_hash_by_idx (tx_index : Z * Z) : Txn (option Z) :=
  open_table Table_transaction_metadata ;!
  let! found := get_metadata tx_index in
  ret (TransactionMetadata_tx_hash <$> found).

(** The loop of [get_vector_of_transaction_objects]; out of fuel is a panic. *)
Fixpoint collect_objects {T : Type} (fuel : nat) (block_number : Z)
    (tx_metadata_to_tx_object : TransactionMetadata -> Txn T)
    (cursor : Cursor (Z * Z)) (current : option ((Z * Z) * TransactionMetadata)) : Txn (list T) :=
  match fuel with
  | O => panic
  | S fuel' =>
      match current with
      | None => ret []
      | Some ((current_block_number, _), tx_metadata) =>
          if negb (current_block_number =? block_number) then ret []
          else
            let! object := tx_metadata_to_tx_object tx_metadata in
            let! self := get in
            let '(cursor', current') := cursor_next (t_transaction_metadata self) cursor in
            let! rest := collect_objects fuel' block_number tx_metadata_to_tx_object cursor' current' in
            ret (object :: rest)
      end
  end.

Definition get_vector_of_transaction_objects {T : Type} (block_number : Z)
    (tx_metadata_to_tx_object : TransactionMetadata -> Txn T) : Txn (option (list T)) :=
  let! body_marker := get_body_marker in
  if body_marker <=? block_number then ret None
  else
    let! self := get in
    let table := t_transaction_metadata self in
    let '(cursor, current) := cursor_lower_bound table (block_number, 0) in
    let! res := collect_objects (S (size table)) block_number tx_metadata_to_tx_object cursor current in
    ret (Some res).

Definition get_transactions_in_block (block_number : Z) : Txn (option (list Transaction)) :=
  get_vector_of_transaction_objects block_number
    (fun tx_metadata => get_unchecked t_transaction_file (TransactionMetadata_tx_location tx_metadata)).

Definition get_transaction_outputs_in_block (block_number : Z) : Txn (option (list TransactionOutput)) :=
  get_vector_of_transaction_objects block_number
    (fun tx_metadata =>
       get_unchecked t_transaction_output_file (TransactionMetadata_tx_output_location tx_metadata)).

Definition get_transaction_hashes_in_block (block_number : Z) : Txn (option (list Z)) :=
  get_vector_of_transaction_objects block_number
    (fun tx_metadata => ret (TransactionMetadata_tx_hash tx_metadata)).

Definition get_block_transactions (block_number : Z) : Txn (option (list Transaction)) :=
  open_table Table_transaction_metadata ;! get_transactions_in_block block_number.

Definition get_block_transaction_outputs (block_number : Z) : Txn (option (list TransactionOutput)) :=
  open_table Table_transaction_metadata ;! get_transaction_outputs_in_block block_number.

Definition get_block_transaction_hashes (block_number : Z) : Txn (option (list Z)) :=
  open_table Table_transaction_metadata ;! get_transaction_hashes_in_block block_number.

Definition get_block_transactions_count (block_number : Z) : Txn (option Z) :=
  let! body_marker := get_body_marker in
  if body_marker <=? block_number then ret None
  else
    open_table Table_transaction_metadata ;!
    match bn_next block_number with
    | None => ret None
    | Some next_block_number =>
        let! self := get in
        let table := t_transaction_metadata self in
        let cursor := (cursor_lower_bound table (next_block_number, 0)).1 in
        match (cursor_prev table cursor).2 with
        | None => ret (Some 0)
        | Some ((received_block_number, last_tx_index), _) =>
            if negb (received_block_number =? block_number) then ret (Some 0)
            else ret (Some (u64_add last_tx_index 1))
        end
    end.

(** ** Writers *)

(** [body/mod.rs]'s [update_marker]: bodies and events advance together. *)
Definition update_body_marker (block_number : Z) : Txn unit :=
  let! body_marker := get_marker MarkerKind_Body in
  if negb (body_marker =? block_number) then
    raise (StorageError_MarkerMismatch body_marker block_number)
  else
    let! event_marker := get_marker MarkerKind_Event in
    if negb (event_marker =? block_number) then
      raise (StorageError_MarkerMismatch event_marker block_number)
    else
      upsert_marker MarkerKind_Body (bn_unchecked_next block_number) ;!
      upsert_marker MarkerKind_Event (bn_unchecked_next block_number).

(** The [for contract_address in contract_addresses_set] loop. *)
Fixpoint write_events_loop (transaction_index : Z * Z) (contract_addresses : list Z) : Txn unit :=
  match contract_addresses with
  | [] => ret tt
  | contract_address :: rest =>
      let! self := get in
      let! events := db (tbl_append_greater_sub_key (t_events self)
                           (contract_address, transaction_index) tt) in
      modify (set_events events) ;!
      write_events_loop transaction_index rest
  end.

Definition write_events (tx_output : TransactionOutput) (transaction_index : Z * Z) : Txn unit :=
  let contract_addresses_set : gset Z :=
    list_to_set (Event_from_address <$> TransactionOutput_events tx_output) in
  write_events_loop transaction_index (hs_iter contract_addresses_set).

(** The loop of [write_transactions]; [last_index] is
    [block_body.transactions.len() - 1]. *)
Fixpoint write_transactions_loop (block_number last_index index : Z)
    (items : list ((Transaction * TransactionOutput) * Z)) : Txn unit :=
  match items with
  | [] => ret tt
  | ((tx, tx_output), tx_hash) :: rest =>
      let transaction_index := (block_number, index) in
      let! tx_location := append_to t_transaction_file set_transaction_file tx in
      let! tx_output_location := append_to t_transaction_output_file set_transaction_output_file tx_output in
      write_events tx_output transaction_index ;!
      let! self := get in
      let! hash_to_idx := db (tbl_insert (t_transaction_hash_to_idx self) tx_hash transaction_index) in
      modify (set_transaction_hash_to_idx hash_to_idx) ;!
      let! self := get in
      let! metadata := db (tbl_append (t_transaction_metadata self) transaction_index
        {| TransactionMetadata_tx_hash := tx_hash;
           TransactionMetadata_tx_location := tx_location;
           TransactionMetadata_tx_output_location := tx_output_location |}) in
      modify (set_transaction_metadata metadata) ;!
      (if index =? last_index then
         modify (fun t => set_file_offsets
           (tbl_upsert (t_file_offsets t) OffsetKind_Transaction (next_offset tx_location)) t) ;!
         modify (fun t => set_file_offsets
           (tbl_upsert (t_file_offsets t) OffsetKind_TransactionOutput (next_offset tx_output_location)) t)
       else ret tt) ;!
      write_transactions_loop block_number last_index (index + 1) rest
  end.

(** The three lists are zipped: the shortest one decides. *)
Definition body_items (block_body : BlockBody) : list ((Transaction * TransactionOutput) * Z) :=
  zip (zip (BlockBody_transactions block_body) (BlockBody_transaction_outputs block_body))
    (BlockBody_transaction_hashes block_body).

Definition write_transactions (block_body : BlockBody) (block_number : Z) : Txn unit :=
  write_transactions_loop block_number (zlength (BlockBody_transactions block_body) - 1) 0
    (body_items block_body).

Definition append_body (block_number : Z) (block_body : BlockBody) : Txn unit :=
  update_body_marker block_number ;!
  let! self := get in
  if decide (t_scope self = StorageScope_StateOnly) then ret tt
  else
    open_table Table_events ;!
    open_table Table_transaction_hash_to_idx ;!
    open_table Table_transaction_metadata ;!
    write_transactions block_body block_number.

(** The loop of [revert_body] over the hashes and outputs of the block. *)
Fixpoint delete_transactions_loop (block_number offset : Z) (items : list (Z * TransactionOutput)) : Txn unit :=
  match items with
  | [] => ret tt
  | (tx_hash, tx_output) :: rest =>
      let tx_index := (block_number, offset) in
      modify (fun t => set_events
        (foldl (fun events event => tbl_delete events (Event_from_address event, tx_index)) (t_events t)
           (TransactionOutput_events tx_output)) t) ;!
      modify (fun t => set_transaction_hash_to_idx (tbl_delete (t_transaction_hash_to_idx t) tx_hash) t) ;!
      modify (fun t => set_transaction_metadata (tbl_delete (t_transaction_metadata t) tx_index) t) ;!
      delete_transactions_loop block_number (offset + 1) rest
  end.

Definition RevertedBlockBody : Type := list Transaction * list TransactionOutput * list Z.

(** The labelled block of [revert_body]. *)
Definition reverted_block_body (block_number : Z) : Txn (option RevertedBlockBody) :=
  let! self := get in
  if decide (t_scope self = StorageScope_StateOnly) then ret None
  else
    open_table Table_transaction_metadata ;!
    open_table Table_transaction_hash_to_idx ;!
    open_table Table_events ;!
    let! found := get_block_transactions block_number in
    let! transactions := expect found in
    let! found := get_block_transaction_outputs block_number in
    let! transaction_outputs := expect found in
    let! found := get_block_transaction_hashes block_number in
    let! transaction_hashes := expect found in
    delete_transactions_loop block_number 0 (zip transaction_hashes transaction_outputs) ;!
    ret (Some (transactions, transaction_outputs, transaction_hashes)).

Definition revert_body (block_number : Z) : Txn (option RevertedBlockBody) :=
  let! current_body_marker := get_body_marker in
  match bn_next block_number with
  | Some next_block_number =>
      if negb (current_body_marker =? next_block_number) then ret None
      else
        let! reverted := reverted_block_body block_number in
        upsert_marker MarkerKind_Body block_number ;!
        upsert_marker MarkerKind_Event block_number ;!
        ret reverted
  | None => ret None
  end.
End Body.

(** * Iterating the events

    Models [crates/papyrus_storage/src/body/events.rs]: the iterator by event
    index walks the transactions in order and their events, the iterator by
    contract address walks the table of the events. Each [next] returns the
    iterator it leaves behind; the wrapper [EventIter] ends at an error. *)

(** [(ContractAddress, EventIndex)] and the content of the event. *)
Abbreviation EventItem := ((Z * ((Z * Z) * Z)) * EventContent)%type.

Section Events.
Context {X : ExternalTypes} {SF : StorageFiles}.

(** The output of a transaction, by its entry in the metadata table. *)
Definition read_tx_output (tx_metadata : TransactionMetadata) : Txn TransactionOutput :=
  get_unchecked t_transaction_output_file (TransactionMetadata_tx_output_location tx_metadata).

(** The loop of [get_events_from_tx], from the [i]-th event on. *)
Fixpoint events_from (i : Z) (events_list : list Event) (tx_index : Z * Z) (contract_address start_index : Z) :
    list EventItem :=
  match events_list with
  | [] => []
  | event :: rest =>
      let later := events_from (i + 1) rest tx_index contract_address start_index in
      if (start_index <=? i) && (Event_from_address event =? contract_address)
      then ((contract_address, (tx_index, i)), Event_content event) :: later
      else later
  end.

Definition get_events_from_tx (events_list : list Event) (tx_index : Z * Z)
    (contract_address start_index : Z) : list EventItem :=
  events_from 0 events_list tx_index contract_address start_index.

(** ** By contract address *)

Record EventIterByContractAddress : Type := mkEventIterByContractAddress {
  next_entry_in_event_table : option (Z * (Z * Z));
  events_queue : list EventItem;
  ca_cursor : Cursor (Z * (Z * Z))
}.

(** The metadata of a transaction of the events table; it must exist. *)
Definition expect_metadata (tx_index : Z * Z) : Txn TransactionMetadata :=
  let! self := get in expect (tbl_get (t_transaction_metadata self) tx_index).

Definition by_contract_address_next (it : EventIterByContractAddress) :
    Txn (EventIterByContractAddress * option EventItem) :=
  let pop (next_entry : option (Z * (Z * Z))) (queue : list EventItem) (cursor : Cursor (Z * (Z * Z))) :=
    match queue with
    | [] => panic
    | item :: queue' => ret (mkEventIterByContractAddress next_entry queue' cursor, Some item)
    end in
  match events_queue it with
  | [] =>
      match next_entry_in_event_table it with
      | None => ret (it, None)
      | Some (contract_address, tx_index) =>
          let! tx_metadata := expect_metadata tx_index in
          let! tx_output := read_tx_output tx_metadata in
          let queue := get_events_from_tx (TransactionOutput_events tx_output) tx_index contract_address 0 in
          let! self := get in
          let '(cursor, found) := cursor_next (t_events self) (ca_cursor it) in
          pop (fst <$> found) queue cursor
      end
  | queue => pop (next_entry_in_event_table it) queue (ca_cursor it)
  end.

Definition iter_events_by_contract_address (key : Z * ((Z * Z) * Z)) : Txn EventIterByContractAddress :=
  open_table Table_transaction_metadata ;!
  open_table Table_events ;!
  let! self := get in
  let '(cursor, found) := cursor_lower_bound (t_events self) (key.1, key.2.1) in
  let! queue :=
    match found with
    | Some ((contract_address, tx_index), _) =>
        let! tx_metadata := expect_metadata tx_index in
        let! tx_output := read_tx_output tx_metadata in
        let start_event_index := if bool_decide (tx_index = key.2.1) then key.2.2 else 0 in
        ret (get_events_from_tx (TransactionOutput_events tx_output) tx_index contract_address start_event_index)
    | None => ret []
    end in
  let! self := get in
  let '(cursor, found) := cursor_next (t_events self) cursor in
  ret (mkEventIterByContractAddress (fst <$> found) queue cursor).

(** ** By event index *)

Record EventIterByEventIndex : Type := mkEventIterByEventIndex {
  tx_current : option ((Z * Z) * TransactionOutput);
  tx_cursor : Cursor (Z * Z);
  event_index_in_tx_current : Z;
  to_block_number : Z
}.

(** The [while] loop; each turn moves the cursor to another transaction. *)
Fixpoint find_next_loop (fuel : nat) (it : EventIterByEventIndex) : Txn EventIterByEventIndex :=
  match fuel with
  | O => panic
  | S fuel' =>
      match tx_current it with
      | None => ret it
      | Some (tx_index, tx_output) =>
          if to_block_number it <? tx_index.1 then
            ret (mkEventIterByEventIndex None (tx_cursor it) (event_index_in_tx_current it) (to_block_number it))
          else if event_index_in_tx_current it <? zlength (TransactionOutput_events tx_output) then ret it
          else
            let! self := get in
            let '(cursor, found) := cursor_next (t_transaction_metadata self) (tx_cursor it) in
            match found with
            | None => ret (mkEventIterByEventIndex None cursor (event_index_in_tx_current it) (to_block_number it))
            | Some (tx_index, tx_metadata) =>
                let! tx_output := read_tx_output tx_metadata in
                find_next_loop fuel' (mkEventIterByEventIndex (Some (tx_index, tx_output)) cursor 0 (to_block_number it))
            end
      end
  end.

Definition find_next_event_by_event_index (it : EventIterByEventIndex) : Txn EventIterByEventIndex :=
  let! self := get in
  find_next_loop (2 + size (t_transaction_metadata self)) it.

Definition by_event_index_next (it : EventIterByEventIndex) : Txn (EventIterByEventIndex * option EventItem) :=
  match tx_current it with
  | None => ret (it, None)
  | Some (tx_index, tx_output) =>
      match lookup_z (TransactionOutput_events tx_output) (event_index_in_tx_current it) with
      | None => ret (it, None)
      | Some event =>
          let key := (Event_from_address event, (tx_index, event_index_in_tx_current it)) in
          let content := Event_content event in
          let! it := find_next_event_by_event_index
            (mkEventIterByEventIndex (tx_current it) (tx_cursor it) (event_index_in_tx_current it + 1)
               (to_block_number it)) in
          ret (it, Some (key, content))
      end
  end.

Definition iter_events_by_event_index (event_index : (Z * Z) * Z) (to_block_number : Z) :
    Txn EventIterByEventIndex :=
  open_table Table_transaction_metadata ;!
  let! self := get in
  let '(cursor, found) := cursor_lower_bound (t_transaction_metadata self) event_index.1 in
  let! first_relevant_transaction :=
    match found with
    | None => ret None
    | Some (tx_index, tx_metadata) =>
        let! tx_output := read_tx_output tx_metadata in ret (Some (tx_index, tx_output))
    end in
  find_next_event_by_event_index
    (mkEventIterByEventIndex first_relevant_transaction cursor event_index.2 to_block_number).

(** ** The wrapper *)

Inductive EventIter : Type :=
| EventIter_ByContractAddress (it : EventIterByContractAddress)
| EventIter_ByEventIndex (it : EventIterByEventIndex).

Definition iter_events (optional_address : option Z) (event_index : (Z * Z) * Z) (to_block_number : Z) :
    Txn EventIter :=
  match optional_address with
  | Some address =>
      let! it := iter_events_by_contract_address (address, event_index) in
      ret (EventIter_ByContractAddress it)
  | None =>
      let! it := iter_events_by_event_index event_index to_block_number in
      ret (EventIter_ByEventIndex it)
  end.

(** [Iterator::next]: an error ends the iteration ([unwrap_or(None)]). *)
Definition event_iter_next (it : EventIter) : Txn (EventIter * option EventItem) :=
  fun t =>
    match (match it with
           | EventIter_ByContractAddress it =>
               let! r := by_contract_address_next it in ret (EventIter_ByContractAddress r.1, r.2)
           | EventIter_ByEventIndex it =>
               let! r := by_event_index_next it in ret (EventIter_ByEventIndex r.1, r.2)
           end) t with
    | Done t' r => Done t' r
    | Fail t' _ => Done t' (it, None)
    | Panic => Panic
    end.

(** [Iterator::collect] of at most [n] items. *)
Fixpoint take_events (n : nat) (it : EventIter) : Txn (list EventItem) :=
  match n with
  | O => ret []
  | S n' =>
      let! r := event_iter_next it in
      match r.2 with
      | None => ret []
      | Some item => let! rest := take_events n' r.1 in ret (item :: rest)
      end
  end.
End Events.
