(* ===== verification/BodyProps.v ===== *)
(** * The body storage refines a list of bodies

    The abstract state is the list of the bodies, a body the list of its
    transactions with output and hash. The tables and files of a transaction
    are related to it by [body_rel]; the readers return what the list holds and
    the writers do to it what [body_spec] says. *)

From stdpp Require Import base gmap list strings fin_maps.
From Stdlib Require Import ZArith Lia.
From S2P Require Import Prelude StorageTables StarknetTypes StorageTxn Body.

Abbreviation BodyItem := ((Transaction * TransactionOutput) * Z)%type.
Abbreviation BodyChain := (list (list BodyItem)).

(** The transaction at an index of the chain. *)
Definition item (bs : BodyChain) (k : Z * Z) : option BodyItem :=
  lookup_z bs k.1 ≫= fun body => lookup_z body k.2.

Definition item_addresses (x : BodyItem) : list Z :=
  Event_from_address <$> TransactionOutput_events x.1.2.

Lemma item_snoc bs body k :
  item (bs ++ [body]) k = if k.1 =? zlength bs then lookup_z body k.2 else item bs k.
Proof. unfold item. rewrite lookup_z_snoc. by case_cmp. Qed.

Lemma item_range bs k x : item bs k = Some x -> 0 <= k.1 < zlength bs /\ 0 <= k.2.
Proof.
  unfold item. destruct (lookup_z bs k.1) as [body|] eqn:Hb; [|done]. cbn. intros Hi.
  apply lookup_z_Some in Hb. apply lookup_z_Some in Hi. lia.
Qed.

Lemma item_snoc_nil bs k : item (bs ++ [[]]) k = item bs k.
Proof.
  rewrite item_snoc. case_cmp; [|done]. destruct (item bs k) eqn:Hi.
  - apply item_range in Hi. lia.
  - unfold lookup_z. by case_cmp.
Qed.

Lemma item_snoc_snoc bs body x k :
  item (bs ++ [body ++ [x]]) k =
  if decide (k = (zlength bs, zlength body)) then Some x else item (bs ++ [body]) k.
Proof.
  rewrite !item_snoc. destruct k as [b i]; cbn. case_cmp.
  - rewrite lookup_z_snoc. case_cmp; case_decide; congruence || done.
  - case_decide; congruence || done.
Qed.

(** The hashes of all transactions of a chain. *)
Definition chain_hashes (bs : BodyChain) : list Z := snd <$> concat bs.

Lemma elem_of_chain_hashes bs h : h ∈ chain_hashes bs <-> exists k x, item bs k = Some x /\ x.2 = h.
Proof.
  unfold chain_hashes. rewrite list_elem_of_fmap. split.
  - intros (x & -> & Hx). apply list_elem_of_In, in_concat in Hx as (body & Hb & Hx).
    apply list_elem_of_In, elem_of_lookup_z in Hb as [b Hb].
    apply list_elem_of_In, elem_of_lookup_z in Hx as [i Hi].
    exists (b, i), x. split; [|done]. unfold item; cbn. by rewrite Hb.
  - intros (k & x & Hk & <-). exists x. split; [done|]. unfold item in Hk.
    destruct (lookup_z bs k.1) as [body|] eqn:Hb; [|done]. cbn in Hk.
    apply list_elem_of_In, in_concat. exists body.
    split; apply list_elem_of_In, elem_of_lookup_z; eauto.
Qed.

Section Rel.
Context {BN : BlockNumberApi} {X : ExternalTypes} {SF : StorageFiles} {HS : HashSetIter}.

(** A location of a file that was written and holds [v]. *)
Definition located {F V} {H : FileHandler F V} (f : F) (loc : LocationInFile) (v : V) : Prop :=
  0 <= LocationInFile_offset loc /\ next_offset loc <= file_offset f /\ file_get f loc = Some v.

Lemma located_append {F V} {H : FileHandler F V} (f f' : F) v loc loc' w :
  file_append f v = Some (f', loc) -> located f loc' w -> located f' loc' w.
Proof.
  intros Ha (H0 & Hn & Hg). pose proof (file_append_location _ _ _ _ Ha) as (Ho & Hn' & Hl).
  split; [done|]. split; [unfold next_offset in *; lia|]. by rewrite (file_append_other _ _ _ _ _ Ha).
Qed.

Lemma located_new {F V} {H : FileHandler F V} (f f' : F) v loc :
  storable v -> 0 <= file_offset f -> file_append f v = Some (f', loc) -> located f' loc v.
Proof.
  intros Hs Hp Ha. pose proof (file_append_location _ _ _ _ Ha) as (Ho & Hn' & Hl).
  split; [lia|]. split; [lia|]. by apply (file_append_get _ _ _ _ Hs Ha).
Qed.

(** ** The relation *)

Definition metadata_of (t : StorageTxn) (md : TransactionMetadata) (x : BodyItem) : Prop :=
  TransactionMetadata_tx_hash md = x.2 /\
  located (t_transaction_file t) (TransactionMetadata_tx_location md) x.1.1 /\
  located (t_transaction_output_file t) (TransactionMetadata_tx_output_location md) x.1.2.

Record tables_rel_on (t : StorageTxn) (it : Z * Z -> option BodyItem) : Prop := {
  tr_scope : t_scope t = StorageScope_FullArchive;
  tr_files : 0 <= file_offset (t_transaction_file t) /\ 0 <= file_offset (t_transaction_output_file t);
  tr_metadata : forall k,
    match t_transaction_metadata t !! k, it k with
    | Some md, Some x => metadata_of t md x
    | None, None => True
    | _, _ => False
    end;
  tr_hashes : forall h k, t_transaction_hash_to_idx t !! h = Some k <->
    exists x, it k = Some x /\ x.2 = h;
  tr_events : forall a k, is_Some (t_events t !! (a, k)) <->
    exists x, it k = Some x /\ a ∈ item_addresses x
}.

Abbreviation tables_rel t bs := (tables_rel_on t (item bs)).

(** The offsets kept for the next start are those of the files. *)
Definition offsets_ok (t : StorageTxn) : Prop :=
  default 0 (t_file_offsets t !! OffsetKind_Transaction) = file_offset (t_transaction_file t) /\
  default 0 (t_file_offsets t !! OffsetKind_TransactionOutput) = file_offset (t_transaction_output_file t).

Record body_rel (t : StorageTxn) (bs : BodyChain) : Prop := {
  br_tables : tables_rel t bs;
  br_marker : marker MarkerKind_Body t = zlength bs;
  br_event_marker : marker MarkerKind_Event t = zlength bs
}.

Lemma open_table_full name t : t_scope t = StorageScope_FullArchive -> open_table name t = Done t tt.
Proof. intros Hs. unfold open_table. run_txn. by rewrite Hs. Qed.

Lemma metadata_item t bs k x :
  tables_rel t bs -> item bs k = Some x ->
  exists md, t_transaction_metadata t !! k = Some md /\ metadata_of t md x.
Proof.
  intros Hr Hx. pose proof (tr_metadata _ _ Hr k) as Hm. rewrite Hx in Hm.
  destruct (t_transaction_metadata t !! k) as [md|]; [eauto|done].
Qed.

Lemma metadata_none t bs k :
  tables_rel t bs -> item bs k = None -> t_transaction_metadata t !! k = None.
Proof.
  intros Hr Hx. pose proof (tr_metadata _ _ Hr k) as Hm. rewrite Hx in Hm.
  by destruct (t_transaction_metadata t !! k).
Qed.

Lemma metadata_some t bs k md :
  tables_rel t bs -> t_transaction_metadata t !! k = Some md ->
  exists x, item bs k = Some x /\ metadata_of t md x.
Proof.
  intros Hr Hx. pose proof (tr_metadata _ _ Hr k) as Hm. rewrite Hx in Hm.
  destruct (item bs k) as [x|]; [eauto|done].
Qed.

(** ** Reading one transaction *)

Lemma get_unchecked_located {F V} {H : FileHandler F V} (file : StorageTxn -> F) t loc v :
  located (file t) loc v -> get_unchecked file loc t = Done t v.
Proof. intros (_ & _ & Hg). unfold get_unchecked. run_txn. by rewrite Hg. Qed.

Lemma get_transaction_rel t bs k :
  tables_rel t bs -> get_transaction k t = Done t ((fun x => x.1.1) <$> item bs k).
Proof.
  intros Hr. unfold get_transaction, get_metadata. rewrite (bind_step _ _ _ _ _ (open_table_full _ _ (tr_scope _ _ Hr))).
  run_txn. unfold tbl_get. destruct (item bs k) as [x|] eqn:Hx.
  - destruct (metadata_item _ _ _ _ Hr Hx) as (md & -> & _ & Hloc & _).
    by rewrite (bind_step _ _ _ _ _ (get_unchecked_located t_transaction_file _ _ _ Hloc)).
  - by rewrite (metadata_none _ _ _ Hr Hx).
Qed.

Lemma get_transaction_output_rel t bs k :
  tables_rel t bs -> get_transaction_output k t = Done t ((fun x => x.1.2) <$> item bs k).
Proof.
  intros Hr. unfold get_transaction_output, get_metadata.
  rewrite (bind_step _ _ _ _ _ (open_table_full _ _ (tr_scope _ _ Hr))).
  run_txn. unfold tbl_get. destruct (item bs k) as [x|] eqn:Hx.
  - destruct (metadata_item _ _ _ _ Hr Hx) as (md & -> & _ & _ & Hloc).
    by rewrite (bind_step _ _ _ _ _ (get_unchecked_located t_transaction_output_file _ _ _ Hloc)).
  - by rewrite (metadata_none _ _ _ Hr Hx).
Qed.

Lemma get_transaction_hash_rel t bs k :
  tables_rel t bs -> get_transaction_hash_by_idx k t = Done t (snd <$> item bs k).
Proof.
  intros Hr. unfold get_transaction_hash_by_idx, get_metadata.
  rewrite (bind_step _ _ _ _ _ (open_table_full _ _ (tr_scope _ _ Hr))).
  run_txn. unfold tbl_get. destruct (item bs k) as [x|] eqn:Hx.
  - destruct (metadata_item _ _ _ _ Hr Hx) as (md & -> & Hh & _). cbn. unfold ret. by rewrite Hh.
  - by rewrite (metadata_none _ _ _ Hr Hx).
Qed.

(** ** Reading a block *)

(** The entry a cursor finds when [i] transactions of block [b] are behind it. *)
Definition at_position (m : gmap (Z * Z) TransactionMetadata) (b n i : Z)
    (found : option ((Z * Z) * TransactionMetadata)) : Prop :=
  match found with
  | Some (k, md) => m !! k = Some md /\ if i <? n then k = (b, i) else k.1 <> b
  | None => n <= i
  end.

Lemma first_entry_position m b n i p :
  (forall j, is_Some (m !! (b, j)) <-> 0 <= j < n) -> 0 <= i ->
  (forall k, is_Some (m !! k) -> p k = true <-> b < k.1 \/ k.1 = b /\ i <= k.2) ->
  at_position m b n i (first_entry p m).
Proof.
  intros Hn Hi Hp. unfold at_position. destruct (first_entry p m) as [[[b1 i1] md]|] eqn:Hf.
  - apply first_entry_Some in Hf as (Hk & Hpk & Hmin). split; [done|].
    apply Hp in Hpk; [|eauto]. cbn in Hpk. destruct (Z.ltb_spec i n) as [Hlt|Hlt].
    + destruct (proj2 (Hn i) ltac:(lia)) as [mdi Hmdi].
      pose proof (Hmin _ _ Hmdi (proj2 (Hp (b, i) ltac:(eauto)) ltac:(cbn; lia))) as Hle.
      unfold key_lt in Hle; cbn in Hle. unfold pair_lt in Hle; cbn in Hle.
      destruct Hpk as [Hgt|[-> Hge]]; [lia|]. f_equal. lia.
    + cbn. intros ->. destruct (proj1 (Hn i1) ltac:(eauto)). lia.
  - destruct (Z_le_gt_dec n i); [done|]. destruct (proj2 (Hn i) ltac:(lia)) as [md Hmd].
    pose proof (first_entry_None _ _ Hf _ _ Hmd) as Hpf.
    rewrite (proj2 (Hp (b, i) ltac:(eauto))) in Hpf; [done|cbn; lia].
Qed.

Lemma cursor_result_inv {K V} (found current : option (K * V)) c cursor :
  cursor_result found c = (cursor, current) ->
  current = found /\ forall k v, current = Some (k, v) -> cursor = Cursor_At k.
Proof. destruct found as [[k v]|]; cbn; naive_solver. Qed.

(** A block has at most as many transactions as the table has entries. *)
Lemma block_size_bound (m : gmap (Z * Z) TransactionMetadata) b n :
  (forall j, is_Some (m !! (b, j)) <-> 0 <= j < n) -> (Z.to_nat n <= size m)%nat.
Proof.
  intros Hn. set (l := (fun j => (b, Z.of_nat j)) <$> seq 0 (Z.to_nat n)).
  assert (Hl : NoDup l).
  { apply NoDup_fmap_2; [|apply NoDup_seq]. intros i j [= Hij]. lia. }
  assert (Hsub : (list_to_set l : gset (Z * Z)) ⊆ dom m).
  { intros k Hk. apply elem_of_list_to_set, list_elem_of_fmap in Hk as (j & -> & Hj).
    apply elem_of_dom, Hn. apply elem_of_seq in Hj. lia. }
  apply subseteq_size in Hsub. rewrite size_list_to_set in Hsub by done.
  unfold l in Hsub. rewrite length_fmap, length_seq in Hsub. by rewrite size_dom in Hsub.
Qed.

Lemma collect_objects_spec {T} (f : TransactionMetadata -> Txn T) t b (objects : list T) fuel i cursor current :
  (forall j, is_Some (t_transaction_metadata t !! (b, j)) <-> 0 <= j < zlength objects) ->
  (forall j md, t_transaction_metadata t !! (b, j) = Some md ->
     exists o, lookup_z objects j = Some o /\ f md t = Done t o) ->
  0 <= i -> (Z.to_nat (zlength objects - i) < fuel)%nat ->
  at_position (t_transaction_metadata t) b (zlength objects) i current ->
  (forall k md, current = Some (k, md) -> cursor = Cursor_At k) ->
  collect_objects fuel b f cursor current t = Done t (drop (Z.to_nat i) objects).
Proof.
  intros Hn Hf. revert i cursor current; induction fuel as [|fuel IH]; intros i cursor current Hi Hfuel Hpos Hc; [lia|].
  cbn [collect_objects]. destruct current as [[[b1 i1] md]|].
  - destruct Hpos as [Hmd Hpos]. destruct (Z.ltb_spec i (zlength objects)) as [Hlt|Hge].
    + simplify_eq. rewrite Z.eqb_refl. cbn [negb]. destruct (Hf _ _ Hmd) as (o & Ho & Hfo).
      rewrite (bind_step _ _ _ _ _ Hfo). run_txn.
      rewrite (Hc _ _ eq_refl). destruct (cursor_next _ _) as [cursor' current'] eqn:Hnext.
      cbn [cursor_next] in Hnext.
      apply cursor_result_inv in Hnext as [Hcur Hat].
      rewrite (bind_step _ _ _ t (drop (Z.to_nat (i + 1)) objects)).
      2: { apply IH; [lia|lia| |].
        - rewrite Hcur. apply first_entry_position; [done|lia|]. intros [b2 i2] _.
          rewrite bool_decide_eq_true. unfold key_lt; cbn. unfold pair_lt; cbn. lia.
        - exact Hat. }
      unfold ret. f_equal. replace (Z.to_nat (i + 1)) with (S (Z.to_nat i)) by lia.
      unfold lookup_z in Ho. case_cmp; [|lia]. symmetry. by apply drop_S.
    + cbn in Hpos. case_cmp; [done|]. cbn [negb]. unfold ret. f_equal.
      symmetry. apply drop_ge. unfold zlength in Hge. lia.
  - cbn in Hpos. unfold ret. f_equal. symmetry. apply drop_ge. unfold zlength in Hpos. lia.
Qed.

Lemma get_vector_rel {T} (f : TransactionMetadata -> Txn T) (g : BodyItem -> T) t bs b :
  tables_rel t bs -> marker MarkerKind_Body t = zlength bs -> 0 <= b ->
  (forall md x, metadata_of t md x -> f md t = Done t (g x)) ->
  get_vector_of_transaction_objects b f t = Done t (map g <$> lookup_z bs b).
Proof.
  intros Hr Hm Hb Hf. unfold get_vector_of_transaction_objects, get_body_marker, get_marker. run_txn.
  change (default 0 (tbl_get (t_markers t) MarkerKind_Body)) with (marker MarkerKind_Body t). rewrite Hm.
  destruct (lookup_z bs b) as [body|] eqn:Hbody.
  - pose proof (lookup_z_Some _ _ _ Hbody) as Hrange. case_cmp; [lia|]. run_txn.
    assert (Hitem : forall j, item bs (b, j) = lookup_z body j) by (intros j; unfold item; cbn; by rewrite Hbody).
    assert (Hn : forall j, is_Some (t_transaction_metadata t !! (b, j)) <-> 0 <= j < zlength (g <$> body)).
    { intros j. unfold zlength. rewrite length_fmap. fold (zlength body). rewrite <-lookup_z_is_Some, <-Hitem.
      pose proof (tr_metadata _ _ Hr (b, j)). repeat case_match; split; intros [? ?]; done || eauto. }
    destruct (cursor_lower_bound _ _) as [cursor current] eqn:Hlb. unfold cursor_lower_bound in Hlb.
    apply cursor_result_inv in Hlb as [Hcur Hat].
    rewrite (bind_step _ _ _ t (g <$> body)); [done|].
    rewrite <-(drop_0 (g <$> body)). apply (collect_objects_spec f t b (g <$> body) _ 0); [done| |lia| | |].
    + intros j md Hmd. destruct (metadata_some _ _ _ _ Hr Hmd) as (x & Hx & Hmx).
      exists (g x). split; [|auto]. by rewrite lookup_z_fmap, <-Hitem, Hx.
    + pose proof (block_size_bound _ _ _ Hn). lia.
    + rewrite Hcur. apply first_entry_position; [done|lia|]. intros [b2 i2] [md2 Hmd2].
      destruct (metadata_some _ _ _ _ Hr Hmd2) as (x & Hx & _). apply item_range in Hx. cbn in Hx.
      rewrite negb_true_iff, bool_decide_eq_false. unfold key_lt; cbn. unfold pair_lt; cbn. lia.
    + exact Hat.
  - apply lookup_z_None in Hbody. case_cmp; [done|lia].
Qed.

Lemma get_block_transactions_rel t bs b :
  body_rel t bs -> 0 <= b ->
  get_block_transactions b t = Done t (map (fun x => x.1.1) <$> lookup_z bs b).
Proof.
  intros [Hr Hm _] Hb. unfold get_block_transactions.
  rewrite (bind_step _ _ _ _ _ (open_table_full _ _ (tr_scope _ _ Hr))).
  apply (get_vector_rel _ (fun x => x.1.1)); auto. intros md x (_ & Hl & _).
  by apply get_unchecked_located.
Qed.

Lemma get_block_transaction_outputs_rel t bs b :
  body_rel t bs -> 0 <= b ->
  get_block_transaction_outputs b t = Done t (map (fun x => x.1.2) <$> lookup_z bs b).
Proof.
  intros [Hr Hm _] Hb. unfold get_block_transaction_outputs.
  rewrite (bind_step _ _ _ _ _ (open_table_full _ _ (tr_scope _ _ Hr))).
  apply (get_vector_rel _ (fun x => x.1.2)); auto. intros md x (_ & _ & Hl).
  by apply get_unchecked_located.
Qed.

Lemma get_block_transaction_hashes_rel t bs b :
  body_rel t bs -> 0 <= b ->
  get_block_transaction_hashes b t = Done t (map snd <$> lookup_z bs b).
Proof.
  intros [Hr Hm _] Hb. unfold get_block_transaction_hashes.
  rewrite (bind_step _ _ _ _ _ (open_table_full _ _ (tr_scope _ _ Hr))).
  apply (get_vector_rel _ snd); auto. intros md x (Hh & _). unfold ret. by rewrite Hh.
Qed.

Lemma get_block_transactions_count_rel t bs b :
  body_rel t bs -> 0 <= b < 2 ^ 32 -> (forall body, body ∈ bs -> zlength body < 2 ^ 64) ->
  get_block_transactions_count b t = Done t (zlength <$> lookup_z bs b).
Proof.
  intros [Hr Hm _] Hb Hlen. unfold get_block_transactions_count, get_body_marker, get_marker. run_txn.
  change (default 0 (tbl_get (t_markers t) MarkerKind_Body)) with (marker MarkerKind_Body t). rewrite Hm.
  destruct (lookup_z bs b) as [body|] eqn:Hbody.
  2: { apply lookup_z_None in Hbody. case_cmp; [done|lia]. }
  pose proof (lookup_z_Some _ _ _ Hbody) as Hrange. case_cmp; [lia|].
  rewrite (bind_step _ _ _ _ _ (open_table_full _ _ (tr_scope _ _ Hr))).
  rewrite bn_next_small by done. run_txn. rewrite lower_bound_prev.
  assert (Hitem : forall j, item bs (b, j) = lookup_z body j) by (intros j; unfold item; cbn; by rewrite Hbody).
  assert (Hbl : zlength body < 2 ^ 64) by (apply Hlen, elem_of_lookup_z; eauto).
  destruct (entry_below _ _) as [[[b1 i1] md]|] eqn:He.
  - apply entry_below_Some in He as (Hmd & Hlt & Hmax). destruct (metadata_some _ _ _ _ Hr Hmd) as (x & Hx & _).
    unfold key_lt in Hlt, Hmax; cbn in Hlt, Hmax. unfold pair_lt in Hlt, Hmax; cbn in Hlt, Hmax.
    pose proof (item_range _ _ _ Hx) as Hrg. cbn in Hrg.
    assert (Hall : forall j, 0 <= j < zlength body -> ~ (b1 < b \/ b1 = b /\ i1 < j)).
    { intros j Hj. rewrite <-lookup_z_is_Some, <-Hitem in Hj. destruct Hj as [y Hy].
      destruct (metadata_item _ _ _ _ Hr Hy) as (mdj & Hmdj & _). apply (Hmax _ _ Hmdj). cbn. lia. }
    case_cmp; cbn [negb].
    + subst b1. rewrite Hitem in Hx. pose proof (lookup_z_Some _ _ _ Hx) as Hi1.
      unfold ret. cbn [fmap option_fmap option_map]. do 2 f_equal. rewrite u64_add_small by lia.
      destruct (decide (i1 + 1 = zlength body)) as [|Hne]; [done|].
      exfalso. apply (Hall (i1 + 1)); lia.
    + cbn [fmap option_fmap option_map]. pose proof (zlength_nonneg body).
      destruct (decide (zlength body = 0)) as [->|Hne]; [done|]. exfalso. apply (Hall 0); lia.
  - cbn [fmap option_fmap option_map]. pose proof (zlength_nonneg body).
    destruct (decide (zlength body = 0)) as [->|Hne]; [done|].
    destruct (proj2 (lookup_z_is_Some body 0) ltac:(lia)) as [y Hy]. rewrite <-Hitem in Hy.
    destruct (metadata_item _ _ _ _ Hr Hy) as (mdj & Hmdj & _).
    exfalso. apply (proj1 (entry_below_None _ _) He _ _ Hmdj). left. cbn. lia.
Qed.

(** ** Writing a block *)

Lemma write_events_loop_spec idx addresses t :
  NoDup addresses ->
  (forall a k v, a ∈ addresses -> t_events t !! (a, k) = Some v -> key_lt k idx) ->
  exists events, write_events_loop idx addresses t = Done (set_events events t) tt /\
    forall a k, is_Some (events !! (a, k)) <-> is_Some (t_events t !! (a, k)) \/ k = idx /\ a ∈ addresses.
Proof.
  revert t; induction addresses as [|a0 rest IH]; intros t Hnd Hlt.
  - exists (t_events t). split; [by destruct t|]. set_solver.
  - apply NoDup_cons in Hnd as [Hna Hnd]. cbn [write_events_loop]. run_txn.
    rewrite (proj1 (append_greater_sub_key_ok _ _ _ _)) by (intros b' v'; apply Hlt; by left). run_txn.
    destruct (IH (set_events (<[(a0, idx) := tt]> (t_events t)) t) Hnd) as (events & -> & Hev).
    { intros a k v Ha Hk. txn_simpl. rewrite lookup_insert_ne in Hk by (intros [= -> _]; done).
      eapply Hlt; [|exact Hk]. by right. }
    exists events. split; [done|]. intros a k. rewrite Hev. txn_simpl. rewrite lookup_insert, elem_of_cons.
    case_decide as He; [simplify_eq; naive_solver|]. split; [naive_solver|].
    intros [?|[-> [->|?]]]; naive_solver.
Qed.

Lemma hs_iter_NoDup s : NoDup (hs_iter s).
Proof. rewrite hs_iter_perm. apply NoDup_elements. Qed.

Lemma elem_of_hs_iter s a : a ∈ hs_iter s <-> a ∈ s.
Proof. rewrite hs_iter_perm. apply elem_of_elements. Qed.

(** The tables and files after one transaction was written. *)
Definition with_item (t : StorageTxn) (k : Z * Z) (h : Z) (ft : TransactionFile) (fo : TransactionOutputFile)
    (loc oloc : LocationInFile) (events : gmap (Z * (Z * Z)) unit) : StorageTxn :=
  set_transaction_metadata (<[k := mkTransactionMetadata h loc oloc]> (t_transaction_metadata t))
    (set_transaction_hash_to_idx (<[h := k]> (t_transaction_hash_to_idx t))
      (set_events events (set_transaction_output_file fo (set_transaction_file ft t)))).

Lemma with_item_rel t bs body tx out h ft fo loc oloc events :
  tables_rel t (bs ++ [body]) -> h ∉ chain_hashes (bs ++ [body]) ->
  storable tx -> storable out ->
  file_append (t_transaction_file t) tx = Some (ft, loc) ->
  file_append (t_transaction_output_file t) out = Some (fo, oloc) ->
  (forall a k, is_Some (events !! (a, k)) <->
    is_Some (t_events t !! (a, k)) \/ k = (zlength bs, zlength body) /\ a ∈ item_addresses (tx, out, h)) ->
  tables_rel (with_item t (zlength bs, zlength body) h ft fo loc oloc events) (bs ++ [body ++ [(tx, out, h)]]).
Proof.
  intros Hr Hh Hst Hso Ha Hao Hev. destruct (tr_files _ _ Hr) as [Hf1 Hf2].
  assert (Hnew : item (bs ++ [body]) (zlength bs, zlength body) = None).
  { rewrite item_snoc. cbn. rewrite Z.eqb_refl. apply lookup_z_None. lia. }
  constructor; unfold with_item; txn_simpl.
  - apply (tr_scope _ _ Hr).
  - pose proof (file_append_location _ _ _ _ Ha) as (? & ? & ?).
    pose proof (file_append_location _ _ _ _ Hao) as (? & ? & ?). unfold next_offset in *. lia.
  - intros k. rewrite item_snoc_snoc, lookup_insert. pose proof (tr_metadata _ _ Hr k) as Hk.
    case_decide as He; (rewrite decide_True by congruence) || (rewrite decide_False by congruence).
    + unfold metadata_of; cbn. split; [done|]. split; by eapply located_new.
    + destruct (t_transaction_metadata t !! k) as [md|], (item (bs ++ [body]) k) as [x|]; try done.
      destruct Hk as (Hx & Hl & Ho). unfold metadata_of; txn_simpl. split; [done|].
      split; by eapply located_append.
  - intros h' k. rewrite lookup_insert, item_snoc_snoc. case_decide as He.
    + subst h'. case_decide as Hk; [subst; naive_solver|]. split; [congruence|].
      intros (x & Hx & Hxh). exfalso. apply Hh, elem_of_chain_hashes. eauto.
    + rewrite (tr_hashes _ _ Hr). case_decide as Hk; [subst|done].
      rewrite Hnew. split; [naive_solver|]. intros (x & [= <-] & Hx). cbn in Hx. congruence.
  - intros a k. rewrite Hev, item_snoc_snoc, (tr_events _ _ Hr).
    case_decide as Hk; [subst|naive_solver]. rewrite Hnew. naive_solver.
Qed.

Lemma items_before t bs body a k v :
  tables_rel t (bs ++ [body]) -> t_events t !! (a, k) = Some v -> key_lt k (zlength bs, zlength body).
Proof.
  intros Hr Hk. destruct (proj1 (tr_events _ _ Hr a k) ltac:(eauto)) as (x & Hx & _).
  rewrite item_snoc in Hx. destruct k as [b i]; cbn in Hx. unfold key_lt; cbn. unfold pair_lt; cbn.
  case_cmp; [apply lookup_z_Some in Hx; lia|]. apply item_range in Hx. cbn in Hx. lia.
Qed.

Definition step_offsets (last : bool) (loc oloc : LocationInFile) (t : StorageTxn) : StorageTxn :=
  if last then
    set_file_offsets (<[OffsetKind_TransactionOutput := next_offset oloc]>
      (<[OffsetKind_Transaction := next_offset loc]> (t_file_offsets t))) t
  else t.

(** One iteration of the loop. *)
Lemma write_transaction_step t bs body tx out h rest last_index ft fo loc oloc :
  tables_rel t (bs ++ [body]) ->
  file_append (t_transaction_file t) tx = Some (ft, loc) ->
  file_append (t_transaction_output_file t) out = Some (fo, oloc) ->
  (h ∈ chain_hashes (bs ++ [body]) /\ exists t',
     write_transactions_loop (zlength bs) last_index (zlength body) ((tx, out, h) :: rest) t =
     Fail t' (StorageError_InnerError DbError_KeyAlreadyExists)) \/
  (h ∉ chain_hashes (bs ++ [body]) /\ exists events,
     (forall a k, is_Some (events !! (a, k)) <->
       is_Some (t_events t !! (a, k)) \/ k = (zlength bs, zlength body) /\ a ∈ item_addresses (tx, out, h)) /\
     write_transactions_loop (zlength bs) last_index (zlength body) ((tx, out, h) :: rest) t =
     write_transactions_loop (zlength bs) last_index (zlength body + 1) rest
       (step_offsets (zlength body =? last_index) loc oloc
         (with_item t (zlength bs, zlength body) h ft fo loc oloc events))).
Proof.
  intros Hr Ha Hao. cbn [write_transactions_loop]. unfold append_to. run_txn. rewrite Ha. run_txn.
  rewrite Hao. run_txn. unfold write_events.
  match goal with |- context [bind (write_events_loop ?idx ?l) _ ?t1] =>
    destruct (write_events_loop_spec idx l t1) as (events & Hw & Hev) end.
  { apply hs_iter_NoDup. }
  { intros a k v _ Hk. txn_simpl. by eapply items_before. }
  rewrite (bind_step _ _ _ _ _ Hw). run_txn. txn_simpl.
  assert (Hev' : forall a k, is_Some (events !! (a, k)) <->
    is_Some (t_events t !! (a, k)) \/ k = (zlength bs, zlength body) /\ a ∈ item_addresses (tx, out, h)).
  { intros a k. rewrite Hev, elem_of_hs_iter, elem_of_list_to_set. done. }
  unfold tbl_insert. destruct (t_transaction_hash_to_idx t !! h) as [k|] eqn:Hk.
  - left. split; [|by eexists]. apply elem_of_chain_hashes. exists k. by apply (tr_hashes _ _ Hr).
  - right. split.
    { intros (k & x & Hx)%elem_of_chain_hashes.
      assert (t_transaction_hash_to_idx t !! h = Some k) by (apply (tr_hashes _ _ Hr); eauto). congruence. }
    exists events. split; [done|]. run_txn. rewrite (proj1 (tbl_append_ok _ _ _)).
    2: { intros [b i] md Hmd Hlt. destruct (metadata_some _ _ _ _ Hr Hmd) as (x & Hx & _).
      rewrite item_snoc in Hx. unfold key_lt in Hlt; cbn in Hlt, Hx. unfold pair_lt in Hlt; cbn in Hlt.
      case_cmp; [apply lookup_z_Some in Hx; lia|]. apply item_range in Hx. cbn in Hx. lia. }
    run_txn. unfold step_offsets, with_item. case_cmp; run_txn; done.
Qed.

(** Appending several values to a file. *)
Fixpoint append_all {F V} {H : FileHandler F V} (f : F) (vs : list V) : option F :=
  match vs with
  | [] => Some f
  | v :: vs' => match file_append f v with Some (f', _) => append_all f' vs' | None => None end
  end.

(** What a body operation leaves alone: every other table, file and marker. *)
Definition body_frame (t t' : StorageTxn) : Prop :=
  (forall kind, kind <> MarkerKind_Body -> kind <> MarkerKind_Event ->
     t_markers t' !! kind = t_markers t !! kind) /\
  exists markers metadata hash_to_idx events offsets fo ft,
    t' = set_markers markers (set_transaction_metadata metadata (set_transaction_hash_to_idx hash_to_idx
      (set_events events (set_file_offsets offsets (set_transaction_output_file fo (set_transaction_file ft t)))))).

Lemma body_frame_refl t : body_frame t t.
Proof.
  split; [done|]. exists (t_markers t), (t_transaction_metadata t), (t_transaction_hash_to_idx t), (t_events t),
    (t_file_offsets t), (t_transaction_output_file t), (t_transaction_file t). by destruct t.
Qed.

Lemma body_frame_trans t1 t2 t3 : body_frame t1 t2 -> body_frame t2 t3 -> body_frame t1 t3.
Proof.
  intros [H1 (m & md & h & e & o & fo & ft & E1)] [H2 (m2 & md2 & h2 & e2 & o2 & fo2 & ft2 & E2)].
  split; [intros kind Hb He; by rewrite H2, H1|]. exists m2, md2, h2, e2, o2, fo2, ft2. by rewrite E2, E1.
Qed.

Lemma chain_hashes_snoc bs body x : chain_hashes (bs ++ [body ++ [x]]) = chain_hashes (bs ++ [body]) ++ [x.2].
Proof. unfold chain_hashes. rewrite !concat_app. cbn. by rewrite !app_nil_r, app_assoc, fmap_app. Qed.

Lemma step_offsets_rel last loc oloc t it :
  tables_rel_on t it -> tables_rel_on (step_offsets last loc oloc t) it.
Proof. unfold step_offsets. destruct last; [|done]. by intros []. Qed.

Lemma step_frame last loc oloc t k h ft fo events :
  body_frame t (step_offsets last loc oloc (with_item t k h ft fo loc oloc events)).
Proof.
  split; [by destruct last|].
  exists (t_markers t), (<[k := mkTransactionMetadata h loc oloc]> (t_transaction_metadata t)),
    (<[h := k]> (t_transaction_hash_to_idx t)), events.
  eexists (t_file_offsets (step_offsets last loc oloc t)), fo, ft.
  unfold step_offsets, with_item. destruct last; reflexivity.
Qed.

Lemma write_transactions_loop_spec items : forall bs body t last_index,
  tables_rel t (bs ++ [body]) -> NoDup (chain_hashes (bs ++ [body])) ->
  Forall (fun x => storable x.1.1 /\ storable x.1.2) items ->
  is_Some (append_all (t_transaction_file t) ((fun x => x.1.1) <$> items)) ->
  is_Some (append_all (t_transaction_output_file t) ((fun x => x.1.2) <$> items)) ->
  if decide (NoDup (chain_hashes (bs ++ [body]) ++ (snd <$> items))) then
    exists t', write_transactions_loop (zlength bs) last_index (zlength body) items t = Done t' tt /\
      tables_rel t' (bs ++ [body ++ items]) /\ body_frame t t' /\ t_markers t' = t_markers t /\
      (items = [] -> t' = t) /\
      (items <> [] -> last_index = zlength body + zlength items - 1 -> offsets_ok t')
  else exists t', write_transactions_loop (zlength bs) last_index (zlength body) items t =
      Fail t' (StorageError_InnerError DbError_KeyAlreadyExists).
Proof.
  induction items as [|[[tx out] h] rest IH]; intros bs body t last_index Hr Hnd Hst Hft Hfo.
  - rewrite decide_True by by rewrite app_nil_r. exists t. rewrite app_nil_r.
    split; [done|]. split; [done|]. split; [apply body_frame_refl|]. done.
  - apply Forall_cons in Hst as [[Hs1 Hs2] Hst]. cbn in Hft, Hfo, Hs1, Hs2.
    destruct (file_append (t_transaction_file t) tx) as [[ft loc]|] eqn:Ha; [|by destruct Hft].
    destruct (file_append (t_transaction_output_file t) out) as [[fo oloc]|] eqn:Hao; [|by destruct Hfo].
    destruct (write_transaction_step t bs body tx out h rest last_index ft fo loc oloc Hr Ha Hao)
      as [[Hh [t' Ht']]|[Hh (events & Hev & Hrun)]].
    + rewrite decide_False; [eauto|]. cbn. intros Hn%NoDup_app. destruct Hn as (_ & Hn & _).
      apply (Hn h Hh). by left.
    + rewrite Hrun. pose proof (with_item_rel t bs body tx out h ft fo loc oloc events Hr Hh Hs1 Hs2 Ha Hao Hev) as Hr'.
      apply (step_offsets_rel (zlength body =? last_index) loc oloc) in Hr'.
      set (t1 := step_offsets _ _ _ _) in *.
      assert (Hnd' : NoDup (chain_hashes (bs ++ [body ++ [(tx, out, h)]]))).
      { rewrite chain_hashes_snoc. apply NoDup_app. split; [done|]. split; [|apply NoDup_singleton].
        intros h' Hh' ->%list_elem_of_singleton. done. }
      specialize (IH bs (body ++ [(tx, out, h)]) t1 last_index Hr' Hnd' Hst).
      rewrite chain_hashes_snoc, zlength_snoc, <-!app_assoc in IH. cbn [app] in IH.
      assert (Htf : t_transaction_file t1 = ft) by (unfold t1, step_offsets; by destruct (_ =? _)).
      assert (Hof : t_transaction_output_file t1 = fo) by (unfold t1, step_offsets; by destruct (_ =? _)).
      rewrite Htf, Hof in IH. specialize (IH Hft Hfo).
      cbn [fmap list_fmap]. change (((tx, out, h) : BodyItem).2) with h in IH |- *.
      match goal with |- if decide ?P then _ else _ => destruct (decide P) as [Hd|Hd] end; [|done].
      destruct IH as (t' & Hrun' & Hr2 & Hfr & Hmk & Hnil & Hoff). exists t'.
      split; [done|]. split; [done|]. split; [|split; [|split; [done|]]].
      * eapply body_frame_trans; [|exact Hfr]. apply step_frame.
      * rewrite Hmk. unfold t1, step_offsets, with_item. by destruct (_ =? _).
      * intros _ Hlast. destruct rest as [|y rest]; [|apply Hoff; [done|]].
        -- rewrite (Hnil eq_refl). unfold zlength in Hlast at 2; cbn in Hlast.
           pose proof (file_append_location _ _ _ _ Ha) as (_ & Hn1 & _).
           pose proof (file_append_location _ _ _ _ Hao) as (_ & Hn2 & _).
           unfold offsets_ok. rewrite Htf, Hof. unfold t1, step_offsets.
           replace (zlength body =? last_index) with true by lia. txn_simpl.
           by rewrite lookup_insert_eq, lookup_insert_ne, lookup_insert_eq by done.
        -- unfold zlength in *. cbn in *. lia.
Qed.

(** ** Appending a body *)

Definition well_formed_body (body : BlockBody) : Prop :=
  length (BlockBody_transaction_outputs body) = length (BlockBody_transactions body) /\
  length (BlockBody_transaction_hashes body) = length (BlockBody_transactions body).

Lemma body_items_length body : well_formed_body body -> length (body_items body) = length (BlockBody_transactions body).
Proof.
  intros [H1 H2]. unfold body_items. rewrite !length_zip_with. lia.
Qed.

(** The specification: at the marker, with new hashes, the body is appended. *)
Definition append_body_spec (b : Z) (body : BlockBody) (bs : BodyChain) : BodyChain + StorageError :=
  if negb (b =? zlength bs) then inr (StorageError_MarkerMismatch (zlength bs) b)
  else if decide (NoDup (chain_hashes bs ++ (snd <$> body_items body))) then inl (bs ++ [body_items body])
  else inr (StorageError_InnerError DbError_KeyAlreadyExists).

Definition has_room (t : StorageTxn) (body : BlockBody) : Prop :=
  Forall (fun x => storable x.1.1 /\ storable x.1.2) (body_items body) /\
  is_Some (append_all (t_transaction_file t) ((fun x => x.1.1) <$> body_items body)) /\
  is_Some (append_all (t_transaction_output_file t) ((fun x => x.1.2) <$> body_items body)).

Lemma append_body_rel t bs b body :
  body_rel t bs -> NoDup (chain_hashes bs) -> zlength bs < 2 ^ 32 -> well_formed_body body -> has_room t body ->
  match append_body_spec b body bs with
  | inl bs' => exists t', append_body b body t = Done t' tt /\ body_rel t' bs' /\ NoDup (chain_hashes bs') /\
      body_frame t t' /\ (offsets_ok t -> offsets_ok t')
  | inr e => exists t', append_body b body t = Fail t' e
  end.
Proof.
  intros [Hr Hm He] Hnd Hlen Hwf (Hst & Hft & Hfo). unfold append_body_spec, append_body, update_body_marker, get_marker.
  run_txn. change (default 0 (tbl_get (t_markers t) MarkerKind_Body)) with (marker MarkerKind_Body t). rewrite Hm.
  rewrite (Z.eqb_sym (zlength bs) b). destruct (Z.eqb_spec b (zlength bs)) as [->|Hb]; cbn [negb]; [|by eexists].
  run_txn. change (default 0 (tbl_get (t_markers t) MarkerKind_Event)) with (marker MarkerKind_Event t).
  rewrite He, Z.eqb_refl. cbn [negb]. pose proof (zlength_nonneg bs).
  unfold upsert_marker. run_txn. rewrite bn_unchecked_next_small by lia.
  set (t1 := set_markers _ _).
  assert (Hr1 : tables_rel t1 (bs ++ [[]])).
  { destruct Hr as [H1 H2 H3 H4 H5]. constructor; try done.
    - intros k. rewrite item_snoc_nil. apply H3.
    - intros h k. rewrite item_snoc_nil. apply H4.
    - intros a k. rewrite item_snoc_nil. apply H5. }
  destruct (decide (t_scope t = StorageScope_StateOnly)) as [Hs|_];
    [pose proof (tr_scope _ _ Hr) as Hs1; by rewrite Hs in Hs1|].
  rewrite !(bind_step _ _ _ _ _ (open_table_full _ _ (tr_scope _ _ Hr1))).
  assert (Hch : chain_hashes (bs ++ [[]]) = chain_hashes bs)
    by (unfold chain_hashes; by rewrite concat_app, app_nil_r).
  pose proof (write_transactions_loop_spec (body_items body) bs [] t1
    (zlength (BlockBody_transactions body) - 1) Hr1) as Hw. rewrite Hch in Hw.
  specialize (Hw Hnd Hst Hft Hfo). change (zlength (@nil BodyItem)) with 0 in Hw. cbn [app] in Hw.
  unfold write_transactions.
  match goal with |- context [if decide ?P then _ else _] => destruct (decide P) as [Hd|Hd] end; [|done].
  destruct Hw as (t' & Hrun & Hr' & Hfr & Hmk & Hnil & Hoff). exists t'. split; [done|].
  assert (Hmarks : forall kind, t_markers t' !! kind = t_markers t1 !! kind) by (intros; by rewrite Hmk).
  split; [constructor|split; [|split]].
  - done.
  - unfold marker. rewrite Hmarks. unfold t1. txn_simpl. unfold tbl_upsert.
    by rewrite lookup_insert_ne, lookup_insert_eq, zlength_snoc by done.
  - unfold marker. rewrite Hmarks. unfold t1. txn_simpl. unfold tbl_upsert. by rewrite lookup_insert_eq, zlength_snoc.
  - unfold chain_hashes in *. rewrite concat_app, fmap_app. cbn. by rewrite app_nil_r.
  - eapply body_frame_trans; [|exact Hfr]. split.
    + intros kind H1 H2. unfold t1. txn_simpl. unfold tbl_upsert. by rewrite !lookup_insert_ne by congruence.
    + eexists. exists (t_transaction_metadata t), (t_transaction_hash_to_idx t), (t_events t),
      (t_file_offsets t), (t_transaction_output_file t), (t_transaction_file t). unfold t1. reflexivity.
  - intros Ho. destruct (body_items body) as [|x items] eqn:Hi.
    + rewrite (Hnil eq_refl). apply Ho.
    + apply Hoff; [done|]. pose proof (body_items_length body Hwf) as Hbl. rewrite Hi in Hbl. unfold zlength. lia.
Qed.

(** ** Reverting a body *)

Lemma delete_events_spec (idx : Z * Z) (evs : list Event) (m : gmap (Z * (Z * Z)) unit) (a : Z) (k : Z * Z) :
  is_Some (foldl (fun events event => tbl_delete events (Event_from_address event, idx)) m evs !! (a, k)) <->
  is_Some (m !! (a, k)) /\ ~ (k = idx /\ a ∈ (Event_from_address <$> evs)).
Proof.
  revert m; induction evs as [|ev evs IH]; intros m; cbn [foldl fmap list_fmap].
  - set_solver.
  - rewrite IH. unfold tbl_delete. rewrite lookup_delete, elem_of_cons. case_decide as He.
    + simplify_eq. split; [by intros [[? ?] _]|]. naive_solver.
    + naive_solver.
Qed.

(** The chain without the transaction at an index. *)
Definition without (k0 : Z * Z) (it : Z * Z -> option BodyItem) (k : Z * Z) : option BodyItem :=
  if decide (k = k0) then None else it k.

Definition deleted (t : StorageTxn) (k : Z * Z) (x : BodyItem) : StorageTxn :=
  set_transaction_metadata (delete k (t_transaction_metadata t))
    (set_transaction_hash_to_idx (delete x.2 (t_transaction_hash_to_idx t))
      (set_events (foldl (fun events event => tbl_delete events (Event_from_address event, k)) (t_events t)
        (TransactionOutput_events x.1.2)) t)).

Lemma deleted_rel t it k0 x :
  tables_rel_on t it -> it k0 = Some x -> tables_rel_on (deleted t k0 x) (without k0 it).
Proof.
  intros Hr Hx. constructor; unfold deleted, without; txn_simpl.
  - apply (tr_scope _ _ Hr).
  - apply (tr_files _ _ Hr).
  - intros k. rewrite lookup_delete. pose proof (tr_metadata _ _ Hr k) as Hk.
    case_decide as He; [by rewrite decide_True|]. rewrite decide_False by done. exact Hk.
  - intros h k. rewrite lookup_delete. case_decide as He.
    + subst h. split; [done|]. case_decide as Hk; [naive_solver|]. intros (y & Hy & Hh). exfalso. apply Hk.
      assert (H1 : t_transaction_hash_to_idx t !! x.2 = Some k) by (apply (tr_hashes _ _ Hr); eauto).
      assert (H2 : t_transaction_hash_to_idx t !! x.2 = Some k0) by (apply (tr_hashes _ _ Hr); eauto).
      congruence.
    + rewrite (tr_hashes _ _ Hr). case_decide as Hk; [|done]. subst. naive_solver.
  - intros a k. rewrite delete_events_spec, (tr_events _ _ Hr). case_decide as Hk.
    + subst. rewrite Hx. unfold item_addresses. naive_solver.
    + naive_solver.
Qed.

Lemma tables_rel_on_ext t it it' : (forall k, it k = it' k) -> tables_rel_on t it -> tables_rel_on t it'.
Proof.
  intros He [H1 H2 H3 H4 H5]. constructor; try done.
  - intros k. rewrite <-He. apply H3.
  - intros h k. rewrite <-He. apply H4.
  - intros a k. rewrite <-He. apply H5.
Qed.

Lemma deleted_frame t k x : body_frame t (deleted t k x) /\ t_markers (deleted t k x) = t_markers t /\
  (offsets_ok t -> offsets_ok (deleted t k x)).
Proof.
  split; [|done]. split; [done|].
  exists (t_markers t), (t_transaction_metadata (deleted t k x)), (t_transaction_hash_to_idx (deleted t k x)),
    (t_events (deleted t k x)), (t_file_offsets t), (t_transaction_output_file t), (t_transaction_file t).
  reflexivity.
Qed.

(** The chain whose block [b] has lost its first [i] transactions. *)
Definition dropped (b i : Z) (it : Z * Z -> option BodyItem) (k : Z * Z) : option BodyItem :=
  if decide (k.1 = b /\ k.2 < i) then None else it k.

Lemma delete_loop_spec b it : forall (items : list BodyItem) i t,
  tables_rel_on t (dropped b i it) ->
  (forall j, i <= j -> it (b, j) = lookup_z items (j - i)) ->
  exists t', delete_transactions_loop b i (zip (snd <$> items) ((fun x => x.1.2) <$> items)) t = Done t' tt /\
    tables_rel_on t' (dropped b (i + zlength items) it) /\ body_frame t t' /\ t_markers t' = t_markers t /\
    (offsets_ok t -> offsets_ok t').
Proof.
  induction items as [|x items IH]; intros i t Hr Hit.
  - exists t. unfold zlength; cbn. rewrite Z.add_0_r. eauto using body_frame_refl.
  - assert (Hx : it (b, i) = Some x).
    { rewrite Hit, Z.sub_diag by lia. done. }
    assert (Hx' : dropped b i it (b, i) = Some x).
    { unfold dropped. rewrite decide_False by (cbn; lia). done. }
    assert (Hr' : tables_rel_on (deleted t (b, i) x) (dropped b (i + 1) it)).
    { eapply tables_rel_on_ext; [|by apply deleted_rel]. intros [b' i']. unfold without, dropped; cbn.
      repeat case_decide; try done; destruct_and?; simplify_eq; try lia.
      exfalso. match goal with H : ~ (_ /\ _) |- _ => apply H end. split; [done|].
      assert (i' <> i) by congruence. lia. }
    destruct (IH (i + 1) _ Hr') as (t' & Hrun & Hrel & Hfr & Hm & Ho).
    { intros j Hj. rewrite Hit by lia. unfold lookup_z. repeat case_cmp; try lia.
      replace (Z.to_nat (j - i)) with (S (Z.to_nat (j - (i + 1)))) by lia. done. }
    destruct (deleted_frame t (b, i) x) as (Hf1 & Hf2 & Hf3).
    exists t'. split; [|split; [|split; [|split]]].
    + cbn [fmap list_fmap zip zip_with delete_transactions_loop]. run_txn. exact Hrun.
    + replace (i + zlength (x :: items)) with (i + 1 + zlength items); [done|]. unfold zlength; cbn; lia.
    + by eapply body_frame_trans.
    + congruence.
    + auto.
Qed.

Lemma dropped_all bs body k :
  dropped (zlength bs) (zlength body) (item (bs ++ [body])) k = item bs k.
Proof.
  unfold dropped. rewrite item_snoc. destruct k as [b i]; cbn. case_decide as Hd.
  - destruct Hd as [-> _]. symmetry. destruct (item bs (zlength bs, i)) eqn:Hi; [|done].
    apply item_range in Hi. cbn in Hi. lia.
  - case_cmp; [|done]. subst. destruct (lookup_z body i) eqn:Hl; [apply lookup_z_Some in Hl; lia|].
    symmetry. destruct (item bs (zlength bs, i)) eqn:Hi; [|done]. apply item_range in Hi. cbn in Hi. lia.
Qed.

Definition revert_body_spec (b : Z) (bs : BodyChain) : BodyChain * option RevertedBlockBody :=
  match last bs with
  | Some body =>
      if b + 1 =? zlength bs
      then (removelast bs, Some (map (fun x => x.1.1) body, map (fun x => x.1.2) body, map snd body))
      else (bs, None)
  | None => (bs, None)
  end.

Lemma reverted_block_body_rel t bs body :
  body_rel t (bs ++ [body]) ->
  exists t', reverted_block_body (zlength bs) t =
      Done t' (Some (map (fun x => x.1.1) body, map (fun x => x.1.2) body, map snd body)) /\
    tables_rel t' bs /\ body_frame t t' /\ t_markers t' = t_markers t /\ (offsets_ok t -> offsets_ok t').
Proof.
  intros Hr. pose proof (br_tables _ _ Hr) as Ht. unfold reverted_block_body. run_txn.
  destruct (decide (t_scope t = StorageScope_StateOnly)) as [Hs|_];
    [by rewrite (tr_scope _ _ Ht) in Hs|].
  rewrite !(bind_step _ _ _ _ _ (open_table_full _ _ (tr_scope _ _ Ht))).
  pose proof (zlength_nonneg bs) as Hnn.
  assert (Hl : lookup_z (bs ++ [body]) (zlength bs) = Some body) by by rewrite lookup_z_snoc, Z.eqb_refl.
  rewrite (bind_step _ _ _ _ _ (get_block_transactions_rel _ _ _ Hr Hnn)), Hl. cbn [fmap option_fmap option_map].
  run_txn. rewrite (bind_step _ _ _ _ _ (get_block_transaction_outputs_rel _ _ _ Hr Hnn)), Hl.
  cbn [fmap option_fmap option_map]. run_txn.
  rewrite (bind_step _ _ _ _ _ (get_block_transaction_hashes_rel _ _ _ Hr Hnn)), Hl.
  cbn [fmap option_fmap option_map]. run_txn.
  destruct (delete_loop_spec (zlength bs) (item (bs ++ [body])) body 0 t) as (t' & Hrun & Hrel & Hfr & Hm & Ho).
  { eapply tables_rel_on_ext; [|exact Ht]. intros [b i]. unfold dropped. cbn. case_decide; [|done].
    destruct (item _ (b, i)) eqn:Hi; [|done]. apply item_range in Hi. cbn in Hi. lia. }
  { intros j Hj. rewrite item_snoc. cbn. by rewrite Z.eqb_refl, Z.sub_0_r. }
  exists t'. rewrite (bind_step _ _ _ _ _ Hrun). split; [done|]. split; [|split; [done|split; [done|]]].
  - eapply tables_rel_on_ext; [|exact Hrel]. intros k. apply dropped_all.
  - exact Ho.
Qed.

Lemma revert_body_rel t bs b :
  body_rel t bs -> NoDup (chain_hashes bs) -> zlength bs < 2 ^ 32 -> 0 <= b < 2 ^ 32 ->
  exists t', revert_body b t = Done t' (revert_body_spec b bs).2 /\ body_rel t' (revert_body_spec b bs).1 /\
    NoDup (chain_hashes (revert_body_spec b bs).1) /\ body_frame t t' /\ (offsets_ok t -> offsets_ok t').
Proof.
  intros Hr Hnd Hlen Hb. unfold revert_body, get_body_marker, get_marker. run_txn.
  change (default 0 (tbl_get (t_markers t) MarkerKind_Body)) with (marker MarkerKind_Body t).
  rewrite (br_marker _ _ Hr), bn_next_small by done. unfold revert_body_spec. rewrite (Z.eqb_sym (zlength bs)).
  destruct bs as [|body bs _] using rev_ind.
  { cbn [last]. destruct (Z.eqb_spec (b + 1) (zlength (@nil (list BodyItem)))) as [Hz|_]; [unfold zlength in Hz; cbn in Hz; lia|]. cbn [negb]. exists t. eauto 6 using body_frame_refl. }
  rewrite last_snoc. destruct (Z.eqb_spec (b + 1) (zlength (bs ++ [body]))) as [Hb1|Hb1]; cbn [negb fst snd].
  2: { exists t. eauto 6 using body_frame_refl. }
  rewrite zlength_snoc in Hb1. replace b with (zlength bs) by lia. rewrite removelast_last.
  destruct (reverted_block_body_rel _ _ _ Hr) as (t' & Hrun & Hrel & Hfr & Hm & Ho).
  rewrite (bind_step _ _ _ _ _ Hrun). unfold upsert_marker. run_txn. eexists. split; [reflexivity|].
  split; [constructor|split; [|split]].
  - by destruct Hrel.
  - unfold marker; txn_simpl. unfold tbl_upsert. by rewrite lookup_insert_ne, lookup_insert_eq.
  - unfold marker; txn_simpl. unfold tbl_upsert. by rewrite lookup_insert_eq.
  - unfold chain_hashes in *. rewrite concat_app, fmap_app in Hnd. by apply NoDup_app in Hnd as [? _].
  - eapply body_frame_trans; [exact Hfr|]. split.
    + intros kind H1 H2. txn_simpl. unfold tbl_upsert. by rewrite !lookup_insert_ne by congruence.
    + eexists. exists (t_transaction_metadata t'), (t_transaction_hash_to_idx t'), (t_events t'),
      (t_file_offsets t'), (t_transaction_output_file t'), (t_transaction_file t'). reflexivity.
  - exact Ho.
Qed.

(** C11: appending a body does to the list of bodies what [append_body_spec] says:
    at the marker and with transaction hashes that are all new, the body is
    appended, its events indexed once per contract, and the file offsets kept
    for the next start stay those of the files; any other block number is a
    marker mismatch and a repeated hash an error. Nothing else changes. *)
Theorem append_body_refines (t : StorageTxn) (bs : BodyChain) (b : Z) (body : BlockBody) :
  body_rel t bs -> NoDup (chain_hashes bs) -> zlength bs < 2 ^ 32 ->
  well_formed_body body -> has_room t body ->
  match append_body_spec b body bs with
  | inl bs' => exists t', append_body b body t = Done t' tt /\ body_rel t' bs' /\
      NoDup (chain_hashes bs') /\ body_frame t t' /\ (offsets_ok t -> offsets_ok t')
  | inr e => exists t', append_body b body t = Fail t' e
  end.
Proof. apply append_body_rel. Qed.

(** reverting a body removes the last block only, hands back its
    transactions, outputs and hashes, and leaves no trace of it in the tables:
    no metadata, no hash and no event of it; any other block number changes
    nothing. *)
Theorem revert_body_refines (t : StorageTxn) (bs : BodyChain) (b : Z) :
  body_rel t bs -> NoDup (chain_hashes bs) -> zlength bs < 2 ^ 32 -> 0 <= b < 2 ^ 32 ->
  exists t', revert_body b t = Done t' (revert_body_spec b bs).2 /\ body_rel t' (revert_body_spec b bs).1 /\
    NoDup (chain_hashes (revert_body_spec b bs).1) /\ body_frame t t' /\ (offsets_ok t -> offsets_ok t').
Proof. apply revert_body_rel. Qed.

(** the readers of the body storage answer from the list of bodies: the
    transactions, outputs, hashes and their number of a block in order and
    complete, a transaction by its index, and the index of a hash; nothing is
    found past the marker. *)
Theorem body_readers_refine (t : StorageTxn) (bs : BodyChain) (b i h : Z) :
  body_rel t bs -> 0 <= b < 2 ^ 32 -> (forall body, body ∈ bs -> zlength body < 2 ^ 64) ->
  get_block_transactions b t = Done t (map (fun x => x.1.1) <$> lookup_z bs b) /\
  get_block_transaction_outputs b t = Done t (map (fun x => x.1.2) <$> lookup_z bs b) /\
  get_block_transaction_hashes b t = Done t (map snd <$> lookup_z bs b) /\
  get_block_transactions_count b t = Done t (zlength <$> lookup_z bs b) /\
  get_transaction (b, i) t = Done t ((fun x => x.1.1) <$> item bs (b, i)) /\
  get_transaction_output (b, i) t = Done t ((fun x => x.1.2) <$> item bs (b, i)) /\
  get_transaction_hash_by_idx (b, i) t = Done t (snd <$> item bs (b, i)) /\
  (get_transaction_idx_by_hash h t = Done t (Some (b, i)) <-> (snd <$> item bs (b, i)) = Some h).
Proof.
  intros Hr Hb Hlen. pose proof (br_tables _ _ Hr) as Ht.
  split; [apply get_block_transactions_rel; auto; lia|].
  split; [apply get_block_transaction_outputs_rel; auto; lia|].
  split; [apply get_block_transaction_hashes_rel; auto; lia|].
  split; [by apply get_block_transactions_count_rel|].
  split; [by apply get_transaction_rel|]. split; [by apply get_transaction_output_rel|].
  split; [by apply get_transaction_hash_rel|].
  unfold get_transaction_idx_by_hash. rewrite (bind_step _ _ _ _ _ (open_table_full _ _ (tr_scope _ _ Ht))).
  run_txn. unfold tbl_get, ret. pose proof (tr_hashes _ _ Ht h (b, i)) as Hh.
  destruct (item bs (b, i)) as [x|]; cbn; split.
  - intros [= Hs]. apply Hh in Hs as (y & [= <-] & <-). done.
  - intros [= <-]. do 2 f_equal. apply Hh. eauto.
  - intros [= Hs]. apply Hh in Hs as (y & ? & _). done.
  - done.
Qed.

Lemma body_rel_empty t :
  t_scope t = StorageScope_FullArchive -> t_markers t = ∅ -> t_transaction_metadata t = ∅ ->
  t_transaction_hash_to_idx t = ∅ -> t_events t = ∅ -> t_file_offsets t = ∅ ->
  file_offset (t_transaction_file t) = 0 -> file_offset (t_transaction_output_file t) = 0 -> body_rel t [].
Proof.
  intros Hs Hm Hmd Hh He Ho Hf1 Hf2.
  assert (Hi : forall k, item [] k = None) 
    by (intros k; unfold item; rewrite (proj2 (lookup_z_None _ _)); [done|unfold zlength; cbn; lia]).
  constructor; [constructor| |].
  - done.
  - lia.
  - intros k. by rewrite Hmd, Hi.
  - intros h k. rewrite Hh. split; [done|]. intros (x & Hx & _). by rewrite Hi in Hx.
  - intros a k. rewrite He. split; [by intros [? ?]|]. intros (x & Hx & _). by rewrite Hi in Hx.
  - unfold marker. by rewrite Hm.
  - unfold marker. by rewrite Hm.
Qed.
End Rel.
