(* ===== verification/EventsProps.v ===== *)
(** * The iterators return the events

    The iterator by event index returns exactly the events of the stored blocks
    from an index on, in order, up to a block. *)

From stdpp Require Import base gmap list strings fin_maps sorting.
From Stdlib Require Import ZArith Lia.
From S2P Require Import Prelude StorageTables StarknetTypes StorageTxn Body BodyProps.

(** ** The transactions in order *)

Abbreviation Indexed := (list ((Z * Z) * BodyItem)).

Definition index_body (b : Z) (body : list BodyItem) : Indexed :=
  imap (fun i x => ((b, Z.of_nat i), x)) body.

Definition indexed (bs : BodyChain) : Indexed := mjoin (imap (fun b body => index_body (Z.of_nat b) body) bs).

Lemma index_body_elem b body k x :
  (k, x) ∈ index_body b body <-> k.1 = b /\ lookup_z body k.2 = Some x.
Proof.
  unfold index_body. rewrite elem_of_lookup_imap. split.
  - intros (i & y & [= -> ->] & Hi). cbn. by rewrite lookup_z_of_nat.
  - destruct k as [b' i]. cbn. intros [-> Hl]. pose proof (lookup_z_Some _ _ _ Hl) as Hi.
    exists (Z.to_nat i), x. rewrite Z2Nat.id by lia. split; [done|].
    by rewrite <-lookup_z_of_nat, Z2Nat.id by lia.
Qed.

Lemma indexed_elem bs k x : (k, x) ∈ indexed bs <-> item bs k = Some x.
Proof.
  unfold indexed. rewrite list_elem_of_join. unfold item. split.
  - intros (l & Hl & (b & body & -> & Hb)%elem_of_lookup_imap).
    apply index_body_elem in Hl as [-> Hl]. by rewrite lookup_z_of_nat, Hb.
  - destruct (lookup_z bs k.1) as [body|] eqn:Hb; [|done]. cbn. intros Hl.
    pose proof (lookup_z_Some _ _ _ Hb) as Hk. exists (index_body k.1 body). split; [by apply index_body_elem|].
    apply elem_of_lookup_imap. exists (Z.to_nat k.1), body. rewrite Z2Nat.id by lia. split; [done|].
    by rewrite <-lookup_z_of_nat, Z2Nat.id by lia.
Qed.

Abbreviation by_key := (fun a b : (Z * Z) * BodyItem => key_lt a.1 b.1).

Lemma index_body_sorted b body : StronglySorted by_key (index_body b body).
Proof.
  unfold index_body. assert (Hgen : forall n, StronglySorted by_key
    (imap (fun i x => ((b, Z.of_nat (n + i)), x)) body)); [|apply (Hgen 0%nat)].
  induction body as [|x body IH]; intros n; cbn [imap]; [constructor|]. constructor.
  - erewrite imap_ext; [apply (IH (S n))|]. intros i y _. cbn. do 3 f_equal. lia.
  - apply Forall_forall. intros [k y] (i & z & [= -> ->] & _)%elem_of_lookup_imap. right. split; [done|]. cbn. lia.
Qed.

Lemma indexed_sorted bs : StronglySorted by_key (indexed bs).
Proof.
  unfold indexed. assert (Hgen : forall n, StronglySorted by_key
    (mjoin (imap (fun b body => index_body (Z.of_nat (n + b)) body) bs))); [|apply (Hgen 0%nat)].
  induction bs as [|body bs IH]; intros n; cbn [imap mjoin list_join]; [constructor|]. apply StronglySorted_app_2.
  - intros [k1 x1] [k2 x2] [H1 _]%index_body_elem (l & Hl & (b & body' & -> & _)%elem_of_lookup_imap)%list_elem_of_join.
    apply index_body_elem in Hl as [H2 _]. left. cbn in *. lia.
  - apply index_body_sorted.
  - erewrite imap_ext; [apply (IH (S n))|]. intros i y _. cbn. f_equal. lia.
Qed.

(** The events of one transaction, with their indices. *)
Definition tx_events (y : (Z * Z) * BodyItem) : list EventItem :=
  imap (fun j e => ((Event_from_address e, (y.1, Z.of_nat j)), Event_content e)) (TransactionOutput_events y.2.1.2).

(** All events of the stored blocks. *)
Definition all_events (bs : BodyChain) : list EventItem := indexed bs ≫= tx_events.

Section Iter.
Context {BN : BlockNumberApi} {X : ExternalTypes} {SF : StorageFiles} {HS : HashSetIter}.

Abbreviation tables_rel t bs := (tables_rel_on t (item bs)).

(** The metadata table lists the transactions in order. *)
Lemma metadata_entries t bs :
  tables_rel t bs ->
  exists l, sorted_entries (t_transaction_metadata t) l /\
    Forall2 (fun e y => e.1 = y.1 /\ metadata_of t e.2 y.2) l (indexed bs).
Proof.
  intros Hr.
  assert (Hl : exists l, Forall2 (fun e y => e.1 = y.1 /\ metadata_of t e.2 y.2 /\
      t_transaction_metadata t !! e.1 = Some e.2) l (indexed bs)).
  { assert (Hall : forall y, y ∈ indexed bs -> item bs y.1 = Some y.2) by (intros [k x]; apply indexed_elem).
    induction (indexed bs) as [|y L IH]; [by exists []|].
    destruct IH as [l Hl]; [intros z Hz; apply Hall; by right|].
    destruct (metadata_item t bs y.1 y.2 Hr) as (md & Hmd & Hof); [apply Hall; by left|].
    exists ((y.1, md) :: l). by constructor. }
  destruct Hl as [l Hl]. exists l. split; [|eapply Forall2_impl; [exact Hl|naive_solver]]. split.
  - pose proof (indexed_sorted bs) as Hs. clear Hr. revert Hs.
    induction Hl as [|e y l L (He & _) Hl IH]; intros Hs; [constructor|].
    apply StronglySorted_inv in Hs as [Hs Hall]. constructor; [by apply IH|].
    apply Forall_forall. intros e' Hin. apply list_elem_of_lookup in Hin as [i Hi].
    destruct (Forall2_lookup_l _ _ _ _ _ Hl Hi) as (y' & Hy' & He' & _). rewrite He, He'.
    rewrite Forall_forall in Hall. apply Hall. by eapply list_elem_of_lookup_2.
  - intros k md. split.
    + intros [i Hi]%list_elem_of_lookup. by destruct (Forall2_lookup_l _ _ _ _ _ Hl Hi) as (y & _ & _ & _ & Hm).
    + intros Hm. destruct (metadata_some t bs k md Hr Hm) as (x & Hx & _).
      apply indexed_elem, list_elem_of_lookup in Hx as [i Hi].
      destruct (Forall2_lookup_r _ _ _ _ _ Hl Hi) as ([k' md'] & He & Hk & _ & Hm'). cbn in *. subst k'.
      rewrite Hm in Hm'. injection Hm' as ->. by eapply list_elem_of_lookup_2.
Qed.

Lemma read_tx_output_rel t md x : metadata_of t md x -> read_tx_output md t = Done t x.1.2.
Proof. intros (_ & _ & Hloc). by apply get_unchecked_located. Qed.

(** ** Positions of the iterator by event index *)

(** The events from the [j]-th of the first transaction on, up to block [B]. *)
Definition remaining (B : Z) (L : Indexed) (j : Z) : list EventItem :=
  match L with
  | [] => []
  | y :: L' =>
      if B <? y.1.1 then []
      else drop (Z.to_nat j) (tx_events y) ++ (filter (fun z => z.1.1 <= B) L' ≫= tx_events)
  end.

Record iter_at (bs : BodyChain) (B : Z) (it : EventIterByEventIndex) (L : Indexed) (j : Z) : Prop := {
  ia_current : tx_current it = (fun y => (y.1, y.2.1.2)) <$> head L;
  ia_cursor : match L with [] => True | y :: _ => tx_cursor it = Cursor_At y.1 end;
  ia_index : event_index_in_tx_current it = j;
  ia_to : to_block_number it = B;
  ia_suffix : exists L1, indexed bs = L1 ++ L
}.

(** The iterator stands at an event, or at the end. *)
Definition ready (B : Z) (L : Indexed) (j : Z) : Prop :=
  match L with
  | [] => True
  | y :: _ => y.1.1 <= B /\ 0 <= j < zlength (TransactionOutput_events y.2.1.2)
  end.

Lemma tx_events_length y : length (tx_events y) = length (TransactionOutput_events y.2.1.2).
Proof. unfold tx_events. apply length_imap. Qed.

Lemma sorted_blocks_above B y L :
  StronglySorted by_key (y :: L) -> B < y.1.1 -> filter (fun z => z.1.1 <= B) L = [].
Proof.
  intros [_ Hs]%StronglySorted_inv Hlt. induction L as [|z L IH]; [done|].
  apply Forall_cons in Hs as [Hz Hs]. rewrite filter_cons_False; [by apply IH|]. destruct Hz as [Hz|[Hz _]]; cbn in *; lia.
Qed.

(** Skipping a transaction without events left. *)
Lemma remaining_skip B y L j :
  StronglySorted by_key (y :: L) -> y.1.1 <= B -> zlength (TransactionOutput_events y.2.1.2) <= j ->
  remaining B (y :: L) j = remaining B L 0.
Proof.
  intros Hs Hy Hj. cbn [remaining]. destruct (Z.ltb_spec B y.1.1); [lia|].
  rewrite drop_ge by (rewrite tx_events_length; unfold zlength in Hj; lia). cbn [app].
  destruct L as [|z L]; [done|]. cbn [remaining]. apply StronglySorted_inv in Hs as [Hs _].
  destruct (Z.ltb_spec B z.1.1).
  - rewrite filter_cons_False by lia. by rewrite (sorted_blocks_above B z L Hs).
  - rewrite filter_cons_True by lia. cbn [mbind list_bind]. by rewrite drop_0.
Qed.

Lemma suffix_sorted bs L1 L : indexed bs = L1 ++ L -> StronglySorted by_key L.
Proof. intros He. pose proof (indexed_sorted bs) as Hs. rewrite He in Hs. by apply StronglySorted_app_1_r in Hs. Qed.

(** The cursor moves to the next transaction of the list. *)
Lemma cursor_next_tx t bs L1 y L :
  tables_rel t bs -> indexed bs = L1 ++ y :: L ->
  match L with
  | [] => cursor_next (t_transaction_metadata t) (Cursor_At y.1) = (Cursor_End, None)
  | z :: _ => exists md, metadata_of t md z.2 /\
      cursor_next (t_transaction_metadata t) (Cursor_At y.1) = (Cursor_At z.1, Some (z.1, md))
  end.
Proof.
  intros Hr He. destruct (metadata_entries t bs Hr) as (l & Hl & Hf). rewrite He in Hf.
  apply Forall2_app_inv_r in Hf as (l1 & l2 & Hf1 & Hf2 & ->).
  inversion Hf2 as [|[k md] ? l3 ? [Hk Hmd] Hf3]; subst. cbn in Hk. subst k.
  rewrite (next_sorted _ l1 y.1 md l3 Hl). destruct Hf3 as [|[k' md'] z l4 L4 [Hk' Hmd'] _]; [done|].
  cbn in *. subst k'. by exists md'.
Qed.

Lemma find_next_loop_done t bs B fuel it L j :
  tables_rel t bs -> iter_at bs B it L j -> 0 <= j -> (length L < fuel)%nat ->
  exists it' L' j', find_next_loop fuel it t = Done t it' /\ iter_at bs B it' L' j' /\ ready B L' j' /\
    remaining B L' j' = remaining B L j.
Proof.
  intros Hr. revert it L j; induction fuel as [|fuel IH]; intros it L j Hat Hj Hf; [lia|].
  cbn [find_next_loop]. destruct Hat as [Hc Hcur Hi Hto (L1 & HL)]. rewrite Hc.
  destruct L as [|y L]; cbn [head fmap option_fmap option_map].
  { exists it, [], j. split; [done|]. split; [|done]. split; [done|done|done|done|by exists L1]. }
  rewrite Hto, Hi. destruct (Z.ltb_spec B y.1.1) as [Hlt|Hle].
  { eexists. exists [], j. split; [done|]. split; [|split; [done|]].
    - split; [done|done|done|done|]. exists (indexed bs). by rewrite app_nil_r.
    - cbn [remaining]. by rewrite (proj2 (Z.ltb_lt _ _)). }
  destruct (Z.ltb_spec j (zlength (TransactionOutput_events y.2.1.2))) as [Hlt|Hge].
  { exists it, (y :: L), j. split; [done|]. split; [|done]. split; [done|done|done|done|by exists L1]. }
  run_txn. rewrite Hcur. pose proof (cursor_next_tx t bs L1 y L Hr HL) as Hn.
  pose proof (suffix_sorted _ _ _ HL) as Hs. rewrite (remaining_skip B y L j Hs Hle Hge).
  destruct L as [|z L].
  - rewrite Hn. eexists. exists [], j. split; [done|]. split; [|done]. split; [done|done|done|done|].
    exists (indexed bs). by rewrite app_nil_r.
  - destruct Hn as (md & Hmd & ->). rewrite (bind_step _ _ _ _ _ (read_tx_output_rel _ _ _ Hmd)).
    cbn in Hf. apply IH; [|lia|cbn; lia]. split; [done|done|done|done|]. exists (L1 ++ [y]). by rewrite <-app_assoc.
Qed.

Lemma indexed_size t bs : tables_rel t bs -> length (indexed bs) = size (t_transaction_metadata t).
Proof.
  intros Hr. destruct (metadata_entries t bs Hr) as (l & [Hs Hl] & Hf). rewrite <-(Forall2_length _ _ _ Hf).
  rewrite <-length_map_to_list. apply Permutation_length, NoDup_Permutation.
  - apply (NoDup_fmap_1 fst). clear Hl Hf. induction Hs as [|e l Hs IH Hall]; cbn; constructor; [|done].
    intros (e' & He & Hin)%list_elem_of_fmap. rewrite Forall_forall in Hall. apply Hall in Hin.
    rewrite He in Hin. by apply key_lt_irrefl in Hin.
  - apply NoDup_map_to_list.
  - intros [k md]. by rewrite elem_of_map_to_list, Hl.
Qed.

Lemma find_next_done t bs B it L j :
  tables_rel t bs -> iter_at bs B it L j -> 0 <= j ->
  exists it' L' j', find_next_event_by_event_index it t = Done t it' /\ iter_at bs B it' L' j' /\ ready B L' j' /\
    remaining B L' j' = remaining B L j.
Proof.
  intros Hr Hat Hj. unfold find_next_event_by_event_index. run_txn. apply find_next_loop_done; [done|done|done|].
  rewrite <-(indexed_size t bs Hr). destruct (ia_suffix _ _ _ _ _ Hat) as [L1 ->]. rewrite length_app. lia.
Qed.

Lemma tx_events_lookup y j e :
  lookup_z (TransactionOutput_events y.2.1.2) j = Some e ->
  drop (Z.to_nat j) (tx_events y) =
  ((Event_from_address e, (y.1, j)), Event_content e) :: drop (Z.to_nat (j + 1)) (tx_events y).
Proof.
  intros Hl. pose proof (lookup_z_Some _ _ _ Hl) as Hj. unfold lookup_z in Hl.
  rewrite (proj2 (Z.leb_le _ _)) in Hl by lia. rewrite (drop_S _ ((Event_from_address e, (y.1, j)), Event_content e)).
  - do 2 f_equal. lia.
  - unfold tx_events. rewrite list_lookup_imap, Hl. cbn. by rewrite Z2Nat.id by lia.
Qed.

(** One step: the first of the remaining events. *)
Lemma by_event_index_next_done t bs B it L j :
  tables_rel t bs -> iter_at bs B it L j -> ready B L j ->
  match remaining B L j with
  | [] => by_event_index_next it t = Done t (it, None)
  | e :: rest => exists it' L' j', by_event_index_next it t = Done t (it', Some e) /\
      iter_at bs B it' L' j' /\ ready B L' j' /\ remaining B L' j' = rest
  end.
Proof.
  intros Hr Hat Hrd. pose proof Hat as [Hc Hcur Hi Hto HL]. unfold by_event_index_next. rewrite Hc, Hi.
  destruct L as [|y L]; cbn [head fmap option_fmap option_map]; [done|]. destruct Hrd as [Hy Hj].
  destruct (proj2 (lookup_z_is_Some (TransactionOutput_events y.2.1.2) j) Hj) as [e He]. rewrite He.
  cbn [remaining]. destruct (Z.ltb_spec B y.1.1); [lia|]. rewrite (tx_events_lookup _ _ _ He). cbn [app].
  rewrite Hto.
  destruct (find_next_done t bs B (mkEventIterByEventIndex (Some (y.1, y.2.1.2)) (tx_cursor it) (j + 1) B) (y :: L) (j + 1))
    as (it' & L' & j' & Hrun & Hat' & Hrd' & Hrem); [done|by split|lia|].
  rewrite (bind_step _ _ _ _ _ Hrun). exists it', L', j'. split; [done|]. split; [done|]. split; [done|].
  rewrite Hrem. cbn [remaining]. by rewrite (proj2 (Z.ltb_ge _ _)) by lia.
Qed.

Lemma take_events_by_index t bs B n it L j :
  tables_rel t bs -> iter_at bs B it L j -> ready B L j ->
  take_events n (EventIter_ByEventIndex it) t = Done t (take n (remaining B L j)).
Proof.
  intros Hr. revert it L j; induction n as [|n IH]; intros it L j Hat Hrd; [done|]. cbn [take_events].
  pose proof (by_event_index_next_done t bs B it L j Hr Hat Hrd) as Hn. unfold event_iter_next.
  destruct (remaining B L j) as [|e rest].
  - unfold bind at 1 2. by rewrite Hn.
  - destruct Hn as (it' & L' & j' & Hrun & Hat' & Hrd' & <-). unfold bind at 1 2. rewrite Hrun. cbn.
    by rewrite (bind_step _ _ _ _ _ (IH _ _ _ Hat' Hrd')).
Qed.

(** ** Starting the iterator *)

(** The transactions from [k] on. *)
Lemma split_indexed bs k :
  exists L1 L2, indexed bs = L1 ++ L2 /\ Forall (fun y => key_lt y.1 k) L1 /\ Forall (fun y => ~ key_lt y.1 k) L2.
Proof.
  pose proof (indexed_sorted bs) as Hs. induction (indexed bs) as [|y L IH]; [by exists [], []|].
  apply StronglySorted_inv in Hs as [Hs Hall]. destruct (decide (key_lt y.1 k)) as [Hlt|Hge].
  - destruct (IH Hs) as (L1 & L2 & -> & H1 & H2). exists (y :: L1), L2. split; [done|]. split; [by constructor|done].
  - exists [], (y :: L). split; [done|]. split; [done|]. constructor; [done|].
    eapply Forall_impl; [exact Hall|]. intros z Hz Hlt. apply Hge. cbn in Hz. by transitivity z.1.
Qed.

Lemma lower_bound_tx t bs k L1 L2 :
  tables_rel t bs -> indexed bs = L1 ++ L2 -> Forall (fun y => key_lt y.1 k) L1 -> Forall (fun y => ~ key_lt y.1 k) L2 ->
  match L2 with
  | [] => cursor_lower_bound (t_transaction_metadata t) k = (Cursor_End, None)
  | y :: _ => exists md, metadata_of t md y.2 /\
      cursor_lower_bound (t_transaction_metadata t) k = (Cursor_At y.1, Some (y.1, md))
  end.
Proof.
  intros Hr He H1 H2. destruct (metadata_entries t bs Hr) as (l & Hl & Hf). rewrite He in Hf.
  apply Forall2_app_inv_r in Hf as (l1 & l2 & Hf1 & Hf2 & ->).
  rewrite (lower_bound_sorted _ l1 l2 k Hl).
  - destruct Hf2 as [|[k' md] y l4 L4 [Hk Hmd] _]; [done|]. cbn in *. subst. by exists md.
  - apply Forall_forall. intros e [i Hi]%list_elem_of_lookup.
    destruct (Forall2_lookup_l _ _ _ _ _ Hf1 Hi) as (y & Hy & -> & _). rewrite Forall_lookup in H1. by eapply H1.
  - destruct Hf2 as [|e y l4 L4 [Hk Hmd] _]; [done|]. cbn. rewrite Hk. by apply Forall_cons in H2 as [? _].
Qed.

Lemma iter_start t bs k j B L1 L2 :
  tables_rel t bs -> 0 <= j -> indexed bs = L1 ++ L2 -> Forall (fun y => key_lt y.1 k) L1 ->
  Forall (fun y => ~ key_lt y.1 k) L2 ->
  exists it L' j', iter_events None (k, j) B t = Done t (EventIter_ByEventIndex it) /\
    iter_at bs B it L' j' /\ ready B L' j' /\ remaining B L' j' = remaining B L2 j.
Proof.
  intros Hr Hj He H1 H2. unfold iter_events, iter_events_by_event_index. run_txn.
  rewrite (bind_step _ _ _ _ _ (open_table_full _ _ (tr_scope _ _ Hr))). run_txn.
  pose proof (lower_bound_tx t bs k L1 L2 Hr He H1 H2) as Hlb.
  assert (Hgo : forall it, iter_at bs B it L2 j -> exists it' L' j',
    (let! it := find_next_event_by_event_index it in ret (EventIter_ByEventIndex it)) t = Done t (EventIter_ByEventIndex it') /\
    iter_at bs B it' L' j' /\ ready B L' j' /\ remaining B L' j' = remaining B L2 j).
  { intros it Hat. destruct (find_next_done t bs B it L2 j Hr Hat Hj) as (it' & L' & j' & Hrun & H).
    exists it', L', j'. by rewrite (bind_step _ _ _ _ _ Hrun). }
  destruct L2 as [|y L2].
  - rewrite Hlb. run_txn. apply Hgo. split; [done|done|done|done|by exists L1].
  - destruct Hlb as (md & Hmd & ->). run_txn. rewrite (bind_step _ _ _ _ _ (read_tx_output_rel _ _ _ Hmd)). run_txn.
    apply Hgo. split; [done|done|done|done|by exists L1].
Qed.

(** ** The specification *)

Definition event_key (e : EventItem) : (Z * Z) * Z := e.1.2.

(** The events from an index on, up to a block. *)
Definition events_between (start : (Z * Z) * Z) (B : Z) (bs : BodyChain) : list EventItem :=
  filter (fun e => ~ key_lt (event_key e) start /\ (event_key e).1.1 <= B) (all_events bs).

Lemma filter_bind {A C} (P : C -> Prop) `{forall c, Decision (P c)} (L : list A) (f : A -> list C) :
  filter P (L ≫= f) = L ≫= fun y => filter P (f y).
Proof. induction L as [|y L IH]; [done|]. cbn [mbind list_bind]. by rewrite filter_app, IH. Qed.

Lemma tx_events_key y e : e ∈ tx_events y -> exists i, event_key e = (y.1, Z.of_nat i).
Proof. intros (i & ev & -> & _)%elem_of_lookup_imap. by exists i. Qed.

Lemma filter_none {A} (P : A -> Prop) `{forall a, Decision (P a)} (l : list A) :
  (forall a, a ∈ l -> ~ P a) -> filter P l = [].
Proof. intros Hn. induction l as [|a l IH]; [done|]. rewrite filter_cons_False; [|apply Hn; by left]. apply IH. intros b Hb. apply Hn. by right. Qed.

Lemma filter_all {A} (P : A -> Prop) `{forall a, Decision (P a)} (l : list A) :
  (forall a, a ∈ l -> P a) -> filter P l = l.
Proof. intros Hn. induction l as [|a l IH]; [done|]. rewrite filter_cons_True by (apply Hn; by left). f_equal. apply IH. intros b Hb. apply Hn. by right. Qed.

Section Between.
Context (k : Z * Z) (j B : Z) (Hj : 0 <= j).
Abbreviation keep := (fun e : EventItem => ~ key_lt (event_key e) (k, j) /\ (event_key e).1.1 <= B).

Lemma keep_before y : key_lt y.1 k -> filter keep (tx_events y) = [].
Proof.
  intros Hy. apply filter_none. intros e (i & He)%tx_events_key [Hn _]. rewrite He in Hn. apply Hn. by left.
Qed.

Lemma keep_after y : key_lt k y.1 -> filter keep (tx_events y) = if decide (y.1.1 <= B) then tx_events y else [].
Proof.
  intros Hy. case_decide as Hb.
  - apply filter_all. intros e (i & He)%tx_events_key. rewrite He. split; [|done].
    intros [Hlt|[Heq _]]; cbn in *; [by apply (key_lt_asym k y.1)|]. rewrite Heq in Hy. by apply (key_lt_irrefl k).
  - apply filter_none. intros e (i & He)%tx_events_key [_ Hle]. rewrite He in Hle. by cbn in Hle.
Qed.

Lemma keep_at y : y.1 = k -> y.1.1 <= B -> filter keep (tx_events y) = drop (Z.to_nat j) (tx_events y).
Proof.
  intros Hk Hb. rewrite <-(take_drop (Z.to_nat j) (tx_events y)) at 1. rewrite filter_app, filter_none, filter_all; [done| |].
  - intros e [i Hi]%list_elem_of_lookup. rewrite lookup_drop in Hi. unfold tx_events in Hi. rewrite list_lookup_imap in Hi.
    apply fmap_Some in Hi as (ev & _ & ->). unfold event_key; cbn. split; [|done].
    intros [Hlt|[_ Hlt]]; cbn in *; [rewrite Hk in Hlt; by apply (key_lt_irrefl k)|lia].
  - intros e [i Hi]%list_elem_of_lookup [Hn _]. apply lookup_take_Some in Hi as [Hi Hlt]. unfold tx_events in Hi.
    rewrite list_lookup_imap in Hi. apply fmap_Some in Hi as (ev & _ & ->). apply Hn. right. split; [done|]. cbn. lia.
Qed.

Lemma bind_filtered (L : Indexed) :
  Forall (fun y => key_lt k y.1) L ->
  (L ≫= fun y => filter keep (tx_events y)) = filter (fun z => z.1.1 <= B) L ≫= tx_events.
Proof.
  induction 1 as [|y L Hy HL IH]; [done|]. cbn [mbind list_bind]. rewrite (keep_after y Hy). rewrite filter_cons.
  case_decide; cbn [app mbind list_bind]; by rewrite IH.
Qed.

Lemma remaining_between bs L1 L2 :
  indexed bs = L1 ++ L2 -> Forall (fun y => key_lt y.1 k) L1 -> Forall (fun y => ~ key_lt y.1 k) L2 ->
  is_Some (item bs k) \/ j = 0 -> remaining B L2 j = events_between (k, j) B bs.
Proof.
  intros He H1 H2 Hk. unfold events_between, all_events. rewrite He, bind_app, filter_app, !filter_bind.
  assert (Hn : (L1 ≫= fun y => filter keep (tx_events y)) = []).
  { clear He. induction H1 as [|y L Hy HL IH]; [done|]. cbn [mbind list_bind]. by rewrite (keep_before y Hy). }
  rewrite Hn. cbn [app]. destruct L2 as [|y L]; [done|]. pose proof (suffix_sorted _ _ _ He) as Hs.
  apply Forall_cons in H2 as [Hy H2]. apply key_not_lt in Hy.
  assert (HL : Forall (fun z => key_lt k z.1) L).
  { apply StronglySorted_inv in Hs as [_ Hs]. eapply Forall_impl; [exact Hs|]. intros z Hz. cbn in Hz.
    destruct Hy as [->|Hy]; [done|by transitivity y.1]. }
  cbn [mbind list_bind remaining]. rewrite (bind_filtered L HL). destruct (Z.ltb_spec B y.1.1) as [Hb|Hb].
  { rewrite (sorted_blocks_above B y L Hs Hb). cbn. rewrite app_nil_r, filter_none; [done|].
    intros e (i & Hi)%tx_events_key [_ Hle]. rewrite Hi in Hle. cbn in Hle. lia. }
  f_equal. destruct Hy as [Hy|Hy]; [by rewrite (keep_at y (eq_sym Hy) Hb)|].
  rewrite (keep_after y Hy), decide_True by done. destruct Hk as [[x Hx] | ->]; [|by rewrite drop_0].
  exfalso. assert (Hin : (k, x) ∈ L1 ++ y :: L) by (rewrite <-He; by apply indexed_elem).
  apply elem_of_app in Hin as [Hin|[Heq|Hin]%elem_of_cons].
  - rewrite Forall_forall in H1. apply H1 in Hin. by apply (key_lt_irrefl k).
  - rewrite <-Heq in Hy. by apply (key_lt_irrefl k).
  - rewrite Forall_forall in HL. apply HL in Hin. by apply (key_lt_irrefl k).
Qed.
End Between.

(** Iterating the events from an index up to a block returns exactly the
    events of the stored blocks in that range, in the order of their indices
    (block, transaction, event), without an error or a panic: any number of
    calls to [next] returns as many of them. The start must be the index of a
    stored transaction, or its event offset zero. *)
Theorem iter_events_by_index_complete (t : StorageTxn) (bs : BodyChain) (k : Z * Z) (j B : Z) (n : nat) :
  body_rel t bs -> 0 <= j -> is_Some (item bs k) \/ j = 0 ->
  exists it, iter_events None (k, j) B t = Done t it /\
    take_events n it t = Done t (take n (events_between (k, j) B bs)).
Proof.
  intros Hb Hj Hk. pose proof (br_tables _ _ Hb) as Hr. destruct (split_indexed bs k) as (L1 & L2 & He & H1 & H2).
  destruct (iter_start t bs k j B L1 L2 Hr Hj He H1 H2) as (it & L' & j' & Hrun & Hat & Hrd & Hrem).
  exists (EventIter_ByEventIndex it). split; [done|].
  rewrite (take_events_by_index t bs B n it L' j' Hr Hat Hrd), Hrem.
  by rewrite (remaining_between k j B Hj bs L1 L2 He H1 H2 Hk).
Qed.
End Iter.

(** * Iterating the events of a contract

    The iterator by contract address returns first exactly the events of the
    contract from an index on, in order, and then only events of contracts with
    greater addresses. *)

Section ByAddress.
Context {BN : BlockNumberApi} {X : ExternalTypes} {SF : StorageFiles} {HS : HashSetIter}.

Abbreviation tables_rel t bs := (tables_rel_on t (item bs)).

(** ** Sorted lists *)

(** A sorted list splits at a predicate that is closed downwards. *)
Lemma sorted_split {A} (R : relation A) (P : A -> Prop) `{forall x, Decision (P x)} (l : list A) :
  StronglySorted R l -> (forall x y, R x y -> P y -> P x) ->
  exists l1 l2, l = l1 ++ l2 /\ Forall P l1 /\ Forall (fun x => ~ P x) l2.
Proof.
  intros Hs Hdown. induction Hs as [|x l Hs IH Hall]; [by exists [], []|]. destruct (decide (P x)) as [Hx|Hx].
  - destruct IH as (l1 & l2 & -> & H1 & H2). exists (x :: l1), l2. split; [done|]. split; [by constructor|done].
  - exists [], (x :: l). split; [done|]. split; [done|]. constructor; [done|].
    eapply Forall_impl; [exact Hall|]. intros y Hy Hpy. eauto.
Qed.

(** Sorted lists with the same elements are equal. *)
Lemma sorted_ext {A} (R : relation A) (l1 l2 : list A) :
  (forall x, ~ R x x) -> Transitive R -> StronglySorted R l1 -> StronglySorted R l2 ->
  (forall x, x ∈ l1 <-> x ∈ l2) -> l1 = l2.
Proof.
  intros Hirr Htr H1. revert l2; induction H1 as [|x l1 H1 IH Hall1]; intros l2 H2 Hel.
  - destruct l2 as [|y l2]; [done|]. exfalso. apply (not_elem_of_nil y), Hel. by left.
  - destruct H2 as [|y l2 H2 Hall2]; [exfalso; apply (not_elem_of_nil x), Hel; by left|].
    rewrite Forall_forall in Hall1, Hall2.
    assert (x = y) as <-.
    { assert (Hx : x ∈ y :: l2) by (apply Hel; by left). assert (Hy : y ∈ x :: l1) by (apply Hel; by left).
      apply elem_of_cons in Hx as [|Hx]; [done|]. apply elem_of_cons in Hy as [|Hy]; [done|].
      exfalso. apply (Hirr x). transitivity y; auto. }
    f_equal. apply IH; [done|]. intros z. specialize (Hel z). rewrite !elem_of_cons in Hel. split; intros Hz.
    + destruct (proj1 Hel (or_intror Hz)) as [->|]; [|done]. exfalso. apply (Hirr x). auto.
    + destruct (proj2 Hel (or_intror Hz)) as [->|]; [|done]. exfalso. apply (Hirr x). auto.
Qed.

Lemma filter_sorted {A} (R : relation A) (P : A -> Prop) `{forall x, Decision (P x)} (l : list A) :
  StronglySorted R l -> StronglySorted R (filter P l).
Proof.
  induction 1 as [|x l Hs IH Hall]; [constructor|]. rewrite filter_cons. case_decide; [|done]. constructor; [done|].
  rewrite Forall_forall in *. intros y [_ Hy]%list_elem_of_filter. auto.
Qed.

Lemma fmap_sorted {A B} (f : A -> B) (R : relation B) (l : list A) :
  StronglySorted (fun x y => R (f x) (f y)) l -> StronglySorted R (f <$> l).
Proof. induction 1; cbn; constructor; [done|]. by apply Forall_fmap. Qed.

Definition event_address (e : EventItem) : Z := e.1.1.

(** The events of one contract in a transaction. *)
Definition address_events (bs : BodyChain) (ak : Z * (Z * Z)) (start : Z) : list EventItem :=
  match item bs ak.2 with
  | Some x => get_events_from_tx (TransactionOutput_events x.1.2) ak.2 ak.1 start
  | None => []
  end.

Lemma events_from_filter i l k a s :
  0 <= i ->
  events_from i l k a s =
  filter (fun e => event_address e = a /\ s <= (event_key e).2)
    (imap (fun j e => ((Event_from_address e, (k, i + Z.of_nat j)), Event_content e)) l).
Proof.
  revert i; induction l as [|e l IH]; intros i Hi; cbn [events_from imap]; [done|].
  rewrite IH by lia. rewrite filter_cons.
  rewrite (imap_ext (fun j e0 => ((Event_from_address e0, (k, i + 1 + Z.of_nat j)), Event_content e0))
    ((fun j e0 => ((Event_from_address e0, (k, i + Z.of_nat j)), Event_content e0)) ∘ S) l).
  2:{ intros j e' _. cbn [compose]. by replace (i + 1 + Z.of_nat j) with (i + Z.of_nat (S j)) by lia. }
  destruct (Z.leb_spec s i), (Z.eqb_spec (Event_from_address e) a) as [Ha|Ha]; cbn [andb].
  - rewrite decide_True by (unfold event_address, event_key; cbn; split; [done|lia]). by rewrite Z.add_0_r, Ha.
  - by rewrite decide_False by (unfold event_address, event_key; cbn; intros []; lia).
  - by rewrite decide_False by (unfold event_address, event_key; cbn; intros []; lia).
  - by rewrite decide_False by (unfold event_address, event_key; cbn; intros []; lia).
Qed.

Lemma get_events_filter (y : (Z * Z) * BodyItem) a s :
  get_events_from_tx (TransactionOutput_events y.2.1.2) y.1 a s =
  filter (fun e => event_address e = a /\ s <= (event_key e).2) (tx_events y).
Proof. unfold get_events_from_tx. rewrite events_from_filter by lia. done. Qed.

(** A contract of the events table has events in the transaction. *)
Lemma address_events_nonempty bs a k x :
  item bs k = Some x -> a ∈ item_addresses x -> address_events bs (a, k) 0 <> [].
Proof.
  intros Hx (ev & -> & Hev)%list_elem_of_fmap He. unfold address_events in He. cbn in He. rewrite Hx in He.
  rewrite (get_events_filter (k, x)) in He. apply list_elem_of_lookup in Hev as [i Hi].
  assert (Hin : ((Event_from_address ev, (k, Z.of_nat i)), Event_content ev) ∈ tx_events (k, x)).
  { unfold tx_events. apply elem_of_lookup_imap. by exists i, ev. }
  apply (not_elem_of_nil ((Event_from_address ev, (k, Z.of_nat i)), Event_content ev)). rewrite <-He.
  apply list_elem_of_filter. split; [|done]. split; [done|]. cbn. lia.
Qed.

(** ** Positions of the iterator *)

Abbreviation Entries := (list ((Z * (Z * Z)) * unit)).

Record address_iter_at (t : StorageTxn) (it : EventIterByContractAddress) (E : Entries) : Prop := {
  aa_next : next_entry_in_event_table it = fst <$> head E;
  aa_cursor : match E with [] => True | e :: _ => ca_cursor it = Cursor_At e.1 end;
  aa_suffix : exists E1, sorted_entries (t_events t) (E1 ++ E)
}.

Definition later_events (bs : BodyChain) (E : Entries) : list EventItem := E ≫= fun e => address_events bs e.1 0.

Lemma entry_item t bs E1 e E :
  tables_rel t bs -> sorted_entries (t_events t) (E1 ++ e :: E) ->
  exists x, item bs e.1.2 = Some x /\ e.1.1 ∈ item_addresses x.
Proof.
  intros Hr [_ Hm]. destruct e as [[a k] u]. apply (tr_events _ _ Hr). exists u. apply Hm, elem_of_app. right. by left.
Qed.

Lemma read_entry t bs k x :
  tables_rel t bs -> item bs k = Some x ->
  exists md, expect_metadata k t = Done t md /\ read_tx_output md t = Done t x.1.2.
Proof.
  intros Hr Hx. destruct (metadata_item t bs k x Hr Hx) as (md & Hmd & Hof). exists md.
  split; [unfold expect_metadata, tbl_get; run_txn; by rewrite Hmd|by apply read_tx_output_rel].
Qed.

Lemma next_entry t E1 (e : (Z * (Z * Z)) * unit) E :
  sorted_entries (t_events t) (E1 ++ e :: E) ->
  cursor_next (t_events t) (Cursor_At e.1) = cursor_result (head E) Cursor_End.
Proof. destruct e as [k u]. apply next_sorted. Qed.

(** The iterator after the cursor moved. *)
Lemma address_iter_moved t E1 E queue :
  sorted_entries (t_events t) (E1 ++ E) ->
  address_iter_at t (mkEventIterByContractAddress (fst <$> (cursor_result (head E) Cursor_End).2) queue
    (cursor_result (head E) Cursor_End).1) E.
Proof. intros Hs. destruct E as [|[k u] E]; split; try done; by exists E1. Qed.

Lemma by_contract_address_next_done t bs it E :
  tables_rel t bs -> address_iter_at t it E ->
  match events_queue it ++ later_events bs E with
  | [] => by_contract_address_next it t = Done t (it, None)
  | item :: rest => exists it' E', by_contract_address_next it t = Done t (it', Some item) /\
      address_iter_at t it' E' /\ events_queue it' ++ later_events bs E' = rest
  end.
Proof.
  intros Hr [Hn Hc (E1 & Hs)]. unfold by_contract_address_next.
  destruct (events_queue it) as [|i q] eqn:Hq; cbn [app].
  - rewrite Hn. destruct E as [|e E]; [done|]. cbn [head fmap option_fmap option_map later_events mbind list_bind].
    destruct (entry_item t bs E1 e E Hr Hs) as (x & Hx & Ha). destruct e as [[a k] u]. cbn [fst snd] in *.
    destruct (read_entry t bs k x Hr Hx) as (md & Hmd & Hout).
    rewrite (bind_step _ _ _ _ _ Hmd), (bind_step _ _ _ _ _ Hout). run_txn. rewrite Hc.
    pose proof (next_entry t E1 ((a, k), u) E Hs) as Hnx. cbn [fst] in Hnx. rewrite Hnx.
    pose proof (address_events_nonempty bs a k x Hx Ha) as Hne. unfold address_events in Hne |- *. cbn [fst snd] in *.
    rewrite Hx in *. destruct (get_events_from_tx _ _ _ _) as [|i q]; [done|]. cbn [app].
    rewrite (surjective_pairing (cursor_result (head E) Cursor_End)).
    eexists. exists E. split; [done|]. split; [|done]. apply (address_iter_moved t (E1 ++ [((a, k), u)])).
    by rewrite <-app_assoc.
  - eexists. exists E. split; [done|]. split; [|done]. split; [done|done|by exists E1].
Qed.

Lemma take_events_by_address t bs n it E :
  tables_rel t bs -> address_iter_at t it E ->
  take_events n (EventIter_ByContractAddress it) t = Done t (take n (events_queue it ++ later_events bs E)).
Proof.
  intros Hr. revert it E; induction n as [|n IH]; intros it E Hat; [done|]. cbn [take_events].
  pose proof (by_contract_address_next_done t bs it E Hr Hat) as Hn. unfold event_iter_next.
  destruct (events_queue it ++ later_events bs E) as [|e rest].
  - unfold bind at 1 2. by rewrite Hn.
  - destruct Hn as (it' & E' & Hrun & Hat' & <-). unfold bind at 1 2. rewrite Hrun. cbn.
    by rewrite (bind_step _ _ _ _ _ (IH _ _ Hat')).
Qed.

(** ** Starting the iterator *)

Definition start_index (k : Z * Z) (j : Z) (k' : Z * Z) : Z := if bool_decide (k' = k) then j else 0.

(** All events the iterator returns, for the entries from the start on. *)
Definition events_from_entries (bs : BodyChain) (k : Z * Z) (j : Z) (E : Entries) : list EventItem :=
  match E with
  | [] => []
  | e :: E' => address_events bs e.1 (start_index k j e.1.2) ++ later_events bs E'
  end.

Lemma address_iter_start t bs a k j E1 E2 :
  tables_rel t bs -> sorted_entries (t_events t) (E1 ++ E2) -> Forall (fun e => key_lt e.1 (a, k)) E1 ->
  Forall (fun e => ~ key_lt e.1 (a, k)) E2 ->
  exists it E', (forall B, iter_events (Some a) (k, j) B t = Done t (EventIter_ByContractAddress it)) /\
    address_iter_at t it E' /\ events_queue it ++ later_events bs E' = events_from_entries bs k j E2.
Proof.
  intros Hr Hs H1 H2.
  assert (Hlb : cursor_lower_bound (t_events t) (a, k) = cursor_result (head E2) Cursor_End).
  { apply (lower_bound_sorted _ E1 E2); [done|done|]. destruct E2; [done|]. by apply Forall_cons in H2 as [? _]. }
  assert (Hgo : exists it E', iter_events_by_contract_address (a, (k, j)) t = Done t it /\
    address_iter_at t it E' /\ events_queue it ++ later_events bs E' = events_from_entries bs k j E2).
  { unfold iter_events_by_contract_address.
    rewrite (bind_step _ _ _ _ _ (open_table_full _ _ (tr_scope _ _ Hr))).
    rewrite (bind_step _ _ _ _ _ (open_table_full _ _ (tr_scope _ _ Hr))). run_txn. cbn [fst snd]. rewrite Hlb.
    destruct E2 as [|e E2]; cbn [head cursor_result].
    - run_txn. eexists. exists []. split; [done|]. split; [|done]. split; [done|done|by exists E1].
    - destruct (entry_item t bs E1 e E2 Hr Hs) as (x & Hx & Ha). destruct e as [[a' k'] u]. cbn [fst snd] in *.
      destruct (read_entry t bs k' x Hr Hx) as (md & Hmd & Hout).
      rewrite bind_assoc, (bind_step _ _ _ _ _ Hmd), bind_assoc, (bind_step _ _ _ _ _ Hout). run_txn.
      pose proof (next_entry t E1 ((a', k'), u) E2 Hs) as Hnx. cbn [fst] in Hnx. rewrite Hnx.
      rewrite (surjective_pairing (cursor_result (head E2) Cursor_End)).
      eexists. exists E2. split; [done|]. split.
      + apply (address_iter_moved t (E1 ++ [((a', k'), u)])). by rewrite <-app_assoc.
      + cbn [events_queue events_from_entries fst snd]. unfold address_events at 1. cbn [fst snd]. by rewrite Hx. }
  destruct Hgo as (it & E' & Hrun & Hat & He). exists it, E'. split; [|done]. intros B. cbn [iter_events].
  by rewrite (bind_step _ _ _ _ _ Hrun).
Qed.

(** ** The entries of the contract *)

(** The entries from [(a, k)] on: the contract's own, then those of greater addresses. *)
Lemma split_entries t a k :
  exists E1 Ea Er, sorted_entries (t_events t) (E1 ++ (Ea ++ Er)) /\ Forall (fun e => key_lt e.1 (a, k)) E1 /\
    Forall (fun e => ~ key_lt e.1 (a, k)) (Ea ++ Er) /\ Forall (fun e => e.1.1 = a) Ea /\ Forall (fun e => a < e.1.1) Er.
Proof.
  destruct (sorted_entries_exists (t_events t)) as (E & Hs & Hm).
  destruct (sorted_split _ (fun e => key_lt e.1 (a, k)) E Hs) as (E1 & E2 & -> & H1 & H2).
  { intros e e' Hlt He'. by transitivity e'.1. }
  pose proof (StronglySorted_app_1_r _ _ _ Hs) as Hs2.
  destruct (sorted_split _ (fun e => e.1.1 <= a) E2 Hs2) as (Ea & Er & -> & Ha & Hr).
  { intros e e' Hlt He'. cbn in Hlt, He' |- *. destruct Hlt as [Hlt|[Heq _]]; cbn in *; lia. }
  exists E1, Ea, Er. split; [done|]. split; [done|]. split; [done|]. split.
  - apply Forall_app in H2 as [H2 _]. rewrite Forall_forall in Ha, H2 |- *. intros e He.
    specialize (Ha e He). specialize (H2 e He). destruct (Z.lt_total e.1.1 a) as [|[|]]; [|done|lia]. exfalso. apply H2. by left.
  - eapply Forall_impl; [exact Hr|]. cbn. lia.
Qed.

Lemma contract_transactions t bs a k E1 Ea Er L1 L2 :
  tables_rel t bs -> sorted_entries (t_events t) (E1 ++ (Ea ++ Er)) -> Forall (fun e => key_lt e.1 (a, k)) E1 ->
  Forall (fun e => ~ key_lt e.1 (a, k)) (Ea ++ Er) -> Forall (fun e => e.1.1 = a) Ea -> Forall (fun e => a < e.1.1) Er ->
  indexed bs = L1 ++ L2 -> Forall (fun y => key_lt y.1 k) L1 -> Forall (fun y => ~ key_lt y.1 k) L2 ->
  (fun e => e.1.2) <$> Ea = fst <$> filter (fun y => a ∈ item_addresses y.2) L2.
Proof.
  intros Hr [Hs Hm] HE1 HE2 Ha Hgt He H1 H2. apply (sorted_ext key_lt).
  - apply key_lt_irrefl.
  - apply _.
  - apply StronglySorted_app_1_r, StronglySorted_app_1_l in Hs. clear -Hs Ha.
    induction Hs as [|e E Hs IH Hall]; [constructor|]. apply Forall_cons in Ha as [Hea Ha]. cbn. constructor; [by apply IH|].
    apply Forall_fmap. rewrite Forall_forall in *. intros e' Hin. specialize (Hall e' Hin). specialize (Ha e' Hin).
    cbn in *. destruct Hall as [Hlt|[_ Hlt]]; [cbn in Hlt; lia|done].
  - apply fmap_sorted, filter_sorted. exact (suffix_sorted _ _ _ He).
  - intros k'. rewrite !list_elem_of_fmap. split.
    + intros ([[a' k2] u] & -> & Hin). rewrite Forall_forall in Ha. pose proof (Ha _ Hin) as Haa. cbn in Haa |- *. subst a'.
      destruct (proj1 (tr_events _ _ Hr a k2)) as (x & Hx & Hax).
      { exists u. apply Hm. rewrite !elem_of_app. tauto. }
      exists (k2, x). split; [done|]. apply list_elem_of_filter. split; [done|].
      assert (Hin2 : (k2, x) ∈ L1 ++ L2) by (rewrite <-He; by apply indexed_elem).
      apply elem_of_app in Hin2 as [Hin2|]; [|done]. exfalso. rewrite Forall_forall in H1. specialize (H1 _ Hin2).
      rewrite Forall_forall in HE2. apply (HE2 ((a, k2), u)); [apply elem_of_app; by left|]. by right.
    + intros ([k2 x] & -> & [Hax Hin]%list_elem_of_filter). cbn in *.
      assert (Hit : item bs k2 = Some x) by (apply indexed_elem; rewrite He; apply elem_of_app; by right).
      destruct (proj2 (tr_events _ _ Hr a k2)) as (u & Hu); [by exists x|].
      exists ((a, k2), u). split; [done|]. apply Hm in Hu. rewrite !elem_of_app in Hu. destruct Hu as [Hu|[|Hu]]; [|done|].
      * exfalso. rewrite Forall_forall in HE1. specialize (HE1 _ Hu). destruct HE1 as [|[_ Hlt]]; cbn in *; [lia|].
        rewrite Forall_forall in H2. by apply (H2 _ Hin).
      * exfalso. rewrite Forall_forall in Hgt. specialize (Hgt _ Hu). cbn in Hgt. lia.
Qed.

(** ** The specification *)

(** The events of contract [a] from an index on. *)
Definition events_of (a : Z) (start : (Z * Z) * Z) (bs : BodyChain) : list EventItem :=
  filter (fun e => event_address e = a /\ ~ key_lt (event_key e) start) (all_events bs).

Section EventsOf.
Context (a : Z) (k : Z * Z) (j : Z).
Abbreviation keep := (fun e : EventItem => event_address e = a /\ ~ key_lt (event_key e) (k, j)).

Lemma keep_indexed (y : (Z * Z) * BodyItem) :
  ~ key_lt y.1 k -> 
  filter keep (tx_events y) = get_events_from_tx (TransactionOutput_events y.2.1.2) y.1 a (start_index k j y.1).
Proof.
  intros Hy. rewrite get_events_filter. apply filter_ext_in. intros e Hin.
  destruct (tx_events_key _ _ Hin) as [i Hi]. rewrite Hi. cbn [fst snd]. unfold start_index.
  apply and_iff_compat_l. apply key_not_lt in Hy as [Hy|Hy].
  - rewrite bool_decide_true by done. rewrite Hy. split.
    + intros Hn. destruct (Z.le_gt_cases j (Z.of_nat i)); [done|]. exfalso. apply Hn. right. split; [done|]. cbn. lia.
    + intros Hle [Hlt|[_ Hlt]]; cbn in *; [by apply (key_lt_irrefl y.1)|lia].
  - rewrite bool_decide_false by (intros Heq; rewrite Heq in Hy; by apply (key_lt_irrefl k)). split; [lia|].
    intros _ [Hlt|[Heq _]]; cbn in *; [by apply (key_lt_asym k y.1)|]. rewrite Heq in Hy. by apply (key_lt_irrefl k).
Qed.

Lemma keep_without (y : (Z * Z) * BodyItem) : a ∉ item_addresses y.2 -> filter keep (tx_events y) = [].
Proof.
  intros Hn. apply filter_none. intros e (i & ev & -> & Hev)%elem_of_lookup_imap [Ha _]. apply Hn. rewrite <-Ha.
  apply list_elem_of_fmap. exists ev. split; [done|]. by eapply list_elem_of_lookup_2.
Qed.

Lemma keep_earlier (y : (Z * Z) * BodyItem) : key_lt y.1 k -> filter keep (tx_events y) = [].
Proof.
  intros Hy. apply filter_none. intros e (i & He)%tx_events_key [_ Hn]. rewrite He in Hn. apply Hn. by left.
Qed.

Lemma keep_transactions bs (L : Indexed) :
  (forall y, y ∈ L -> item bs y.1 = Some y.2) -> Forall (fun y => ~ key_lt y.1 k) L ->
  (L ≫= fun y => filter keep (tx_events y)) =
  (fst <$> filter (fun y => a ∈ item_addresses y.2) L) ≫= fun k' => address_events bs (a, k') (start_index k j k').
Proof.
  induction L as [|y L IH]; intros Hi Hk; [done|]. apply Forall_cons in Hk as [Hy Hk]. cbn [mbind list_bind].
  assert (Hrest : forall z, z ∈ L -> item bs z.1 = Some z.2) by (intros z Hz; apply Hi; by right).
  rewrite (IH Hrest Hk). rewrite filter_cons. destruct (decide (a ∈ item_addresses y.2)) as [Ha|Ha].
  - cbn [fmap list_fmap mbind list_bind]. rewrite (keep_indexed y Hy). unfold address_events at 2. cbn [fst snd].
    by rewrite (Hi y) by (by left).
  - by rewrite (keep_without y Ha).
Qed.
End EventsOf.

(** Only the first entry of the contract can be at the start transaction. *)
Lemma own_entries bs a k j (Ea : Entries) :
  StronglySorted (fun e e' => key_lt e.1 e'.1) Ea -> Forall (fun e => e.1.1 = a /\ ~ key_lt e.1.2 k) Ea ->
  events_from_entries bs k j Ea = ((fun e => e.1.2) <$> Ea) ≫= fun k' => address_events bs (a, k') (start_index k j k').
Proof.
  intros Hs Ha. destruct Hs as [|[[a1 k1] u] Ea Hs Hall]; [done|]. apply Forall_cons in Ha as [[Ha1 Hk1] Ha]. cbn in Ha1, Hk1. subst a1.
  cbn [events_from_entries fmap list_fmap mbind list_bind fst snd]. f_equal. unfold later_events. clear Hs.
  induction Ea as [|[[a2 k2] u2] Ea IH]; [done|]. apply Forall_cons in Ha as [[Ha2 Hk2] Ha]. apply Forall_cons in Hall as [Hlt Hall].
  cbn in Ha2, Hk2. subst a2. cbn [fmap list_fmap mbind list_bind fst snd]. f_equal; [|by apply IH]. f_equal.
  unfold start_index. rewrite bool_decide_false; [done|]. intros ->. destruct Hlt as [Hlt|[_ Hlt]]; cbn in Hlt; [lia|done].
Qed.

Lemma events_from_entries_app bs k j Ea Er :
  events_from_entries bs k j (Ea ++ Er) =
  events_from_entries bs k j Ea ++ match Ea with [] => events_from_entries bs k j Er | _ => later_events bs Er end.
Proof.
  destruct Ea as [|e Ea]; [done|]. cbn [events_from_entries app]. unfold later_events. by rewrite bind_app, app_assoc.
Qed.

Lemma address_events_at bs ak s e : e ∈ address_events bs ak s -> event_address e = ak.1.
Proof.
  unfold address_events. destruct (item bs ak.2) as [x|]; [|by intros ?%not_elem_of_nil].
  rewrite (get_events_filter (ak.2, x)). by intros [[? _] _]%list_elem_of_filter.
Qed.

Lemma later_events_above bs (a : Z) (E : Entries) :
  Forall (fun e => a < e.1.1) E -> Forall (fun e => a < event_address e) (later_events bs E).
Proof.
  rewrite !Forall_forall. intros HE e (en & He & Hin)%list_elem_of_bind. rewrite (address_events_at _ _ _ _ He). by apply HE.
Qed.

Lemma entries_above bs k j (a : Z) (E : Entries) :
  Forall (fun e => a < e.1.1) E -> Forall (fun e => a < event_address e) (events_from_entries bs k j E).
Proof.
  intros HE. destruct HE as [|en E Hen HE]; [constructor|]. apply Forall_app. split; [|by apply later_events_above].
  apply Forall_forall. intros e He. by rewrite (address_events_at _ _ _ _ He).
Qed.

Lemma events_of_entries t bs a k j E1 Ea Er :
  tables_rel t bs -> sorted_entries (t_events t) (E1 ++ (Ea ++ Er)) -> Forall (fun e => key_lt e.1 (a, k)) E1 ->
  Forall (fun e => ~ key_lt e.1 (a, k)) (Ea ++ Er) -> Forall (fun e => e.1.1 = a) Ea -> Forall (fun e => a < e.1.1) Er ->
  events_from_entries bs k j Ea = events_of a (k, j) bs.
Proof.
  intros Hr Hs HE1 HE2 Ha Hgt. destruct (split_indexed bs k) as (L1 & L2 & He & H1 & H2).
  rewrite (own_entries bs a).
  - rewrite (contract_transactions t bs a k E1 Ea Er L1 L2) by done.
    unfold events_of, all_events. rewrite He, bind_app, filter_app, !filter_bind.
    rewrite <-(keep_transactions a k j bs L2); [|intros [k' x] Hin; apply indexed_elem; rewrite He; apply elem_of_app; by right|done].
    assert (Hn : (L1 ≫= fun y => filter (fun e => event_address e = a /\ ~ key_lt (event_key e) (k, j)) (tx_events y)) = []).
    { clear He. induction H1 as [|y L Hy HL IH]; [done|]. cbn [mbind list_bind]. by rewrite (keep_earlier a k j y Hy). }
    by rewrite Hn.
  - destruct Hs as [Hs _]. by apply StronglySorted_app_1_r, StronglySorted_app_1_l in Hs.
  - apply Forall_app in HE2 as [HE2 _]. rewrite Forall_forall in *. intros e Hin. split; [auto|]. intros Hlt.
    apply (HE2 e Hin). right. split; [by apply Ha|done].
Qed.

(** Iterating the events of a contract from an index on returns first
    exactly that contract's events of the stored blocks from the index on, in
    the order of their indices, and after them only events of contracts with
    greater addresses; no error and no panic: any number of calls to [next]
    returns as many of them. *)
Theorem iter_events_by_address_complete (t : StorageTxn) (bs : BodyChain) (a : Z) (k : Z * Z) (j B : Z) :
  body_rel t bs ->
  exists it others, iter_events (Some a) (k, j) B t = Done t it /\ Forall (fun e => a < event_address e) others /\
    forall n, take_events n it t = Done t (take n (events_of a (k, j) bs ++ others)).
Proof.
  intros Hb. pose proof (br_tables _ _ Hb) as Hr.
  destruct (split_entries t a k) as (E1 & Ea & Er & Hs & HE1 & HE2 & Ha & Hgt).
  destruct (address_iter_start t bs a k j E1 (Ea ++ Er) Hr Hs HE1 HE2) as (it & E' & Hrun & Hat & He).
  exists (EventIter_ByContractAddress it). eexists. split; [apply Hrun|].
  rewrite <-(events_of_entries t bs a k j E1 Ea Er) by done.
  split; [|intros n; rewrite (take_events_by_address t bs n it E' Hr Hat), He; by rewrite events_from_entries_app].
  destruct Ea; [by apply entries_above|by apply later_events_above].
Qed.
End ByAddress.
