(* ===== verification/State.v ===== *)
(** * State diffs and the historical state in the storage

    Models [crates/papyrus_storage/src/state/mod.rs]: a state diff per block is
    appended to a file; the tables keep, for each contract, nonce and storage
    key, the blocks that changed it, so that the state after any block is read
    by searching the last change before it. *)

From stdpp Require Import base gmap list strings fin_maps.
From Stdlib Require Import ZArith Lia.
From S2P Require Import Prelude StorageTables StarknetTypes StorageTxn.

(** [starknet_api::state::StateNumber]: the states between the blocks. *)
Class StateNumberApi : Type := {
  StateNumber : Type;
  block_after : StateNumber -> Z;
  is_before : StateNumber -> Z -> bool;
  is_after : StateNumber -> Z -> bool;
  is_before_spec : forall s b, is_before s b = (block_after s <=? b);
  is_after_spec : forall s b, is_after s b = (b <? block_after s)
}.

Section State.
Context {BN : BlockNumberApi} {SN : StateNumberApi} {X : ExternalTypes} {SF : StorageFiles} {HS : HashSetIter}.

(** ** Readers *)

Definition get_state_marker : Txn Z := get_marker MarkerKind_State.

Definition get_state_diff (block_number : Z) : Txn (option ThinStateDiff) :=
  let! self := get in
  match tbl_get (t_state_diffs self) block_number with
  | None => ret None
  | Some state_diff_location =>
      let! state_diff := get_unchecked t_thin_state_diff_file state_diff_location in
      ret (Some state_diff)
  end.

(** The last entry strictly before a key: [cursor.lower_bound(..); cursor.prev()]. *)
Definition last_before {K V} `{Countable K} {KO : KeyOrd K} (table : gmap K V) (key : K) : option (K * V) :=
  (cursor_prev table (cursor_lower_bound table key).1).2.

Definition get_class_hash_at (state_number : StateNumber) (address : Z) : Txn (option Z) :=
  let! self := get in
  match last_before (t_deployed_contracts self) (address, block_after state_number) with
  | None => ret None
  | Some ((got_address, _), class_hash) =>
      if negb (got_address =? address) then ret None else ret (Some class_hash)
  end.

Definition get_nonce_at (state_number : StateNumber) (address : Z) : Txn (option Z) :=
  let! self := get in
  match last_before (t_nonces self) (address, block_after state_number) with
  | None => ret None
  | Some ((got_address, _), value) =>
      if negb (got_address =? address) then ret None else ret (Some value)
  end.

Definition get_storage_at (state_number : StateNumber) (address key : Z) : Txn Z :=
  let! self := get in
  match last_before (t_contract_storage self) ((address, key), block_after state_number) with
  | None => ret 0
  | Some (((got_address, got_key), _), value) =>
      if negb (got_address =? address) || negb (got_key =? key) then ret 0 else ret value
  end.

Definition get_class_definition_at (state_number : StateNumber) (class_hash : Z) : Txn (option ContractClass) :=
  let! self := get in
  match tbl_get (t_declared_classes_block self) class_hash with
  | None => ret None
  | Some block_number =>
      if is_before state_number block_number then ret None
      else
        match tbl_get (t_declared_classes self) class_hash with
        | None =>
            let! class_marker := get_marker MarkerKind_Class in
            if is_after state_number class_marker then ret None else raise StorageError_DBInconsistency
        | Some contract_class_location =>
            let! class := get_unchecked t_contract_class_file contract_class_location in
            ret (Some class)
        end
  end.

Definition get_class_definition_block_number (class_hash : Z) : Txn (option Z) :=
  let! self := get in ret (tbl_get (t_declared_classes_block self) class_hash).

Definition get_deprecated_class_definition_at (state_number : StateNumber) (class_hash : Z) :
    Txn (option DeprecatedContractClass) :=
  let! self := get in
  match tbl_get (t_deprecated_declared_classes self) class_hash with
  | None => ret None
  | Some value =>
      if is_before state_number (IndexedDeprecatedContractClass_block_number value) then ret None
      else
        let! class := get_unchecked t_deprecated_contract_class_file
                        (IndexedDeprecatedContractClass_location_in_file value) in
        ret (Some class)
  end.

(** ** Writing a state diff *)

Definition update_marker_to_next_block (marker_kind : MarkerKind) (block_number : Z) : Txn unit :=
  let! marker := get_marker marker_kind in
  if negb (marker =? block_number) then raise (StorageError_MarkerMismatch marker block_number)
  else upsert_marker marker_kind (bn_unchecked_next block_number).

(** The [while] loop; out of fuel is a panic. *)
Fixpoint advance_loop (fuel : nat) (state_marker compiled_class_marker : Z) : Txn unit :=
  match fuel with
  | O => panic
  | S fuel' =>
      if compiled_class_marker <? state_marker then
        let! self := get in
        let! state_diff_location := expect (tbl_get (t_state_diffs self) compiled_class_marker) in
        let! state_diff := get_unchecked t_thin_state_diff_file state_diff_location in
        match ThinStateDiff_declared_classes state_diff with
        | _ :: _ => ret tt
        | [] =>
            let compiled_class_marker := bn_unchecked_next compiled_class_marker in
            upsert_marker MarkerKind_CompiledClass compiled_class_marker ;!
            advance_loop fuel' state_marker compiled_class_marker
        end
      else ret tt
  end.

Definition advance_compiled_class_marker_over_blocks_without_classes : Txn unit :=
  let! state_marker := get_marker MarkerKind_State in
  let! compiled_class_marker := get_marker MarkerKind_CompiledClass in
  advance_loop (S (Z.to_nat (state_marker - compiled_class_marker))) state_marker compiled_class_marker.

(** [IndexMap::contains_key] and [IndexMap::keys]. *)
Definition contains_key {V} (map : list (Z * V)) (key : Z) : bool := bool_decide (key ∈ map.*1).

Definition write_deployed_contracts (deployed_contracts : list (Z * Z)) (block_number : Z)
    (nonces_diffs : list (Z * Z)) : Txn unit :=
  for_each deployed_contracts (fun '(address, class_hash) =>
    let! self := get in
    let! table := db (tbl_insert (t_deployed_contracts self) (address, block_number) class_hash) in
    modify (set_deployed_contracts table) ;!
    if contains_key nonces_diffs address then ret tt
    else
      let! self := get in
      let! table := db (tbl_append_greater_sub_key (t_nonces self) (address, block_number) 0) in
      modify (set_nonces table)).

Definition write_nonces (nonces : list (Z * Z)) (block_number : Z) : Txn unit :=
  for_each nonces (fun '(contract_address, nonce) =>
    modify (fun t => set_nonces (tbl_upsert (t_nonces t) (contract_address, block_number) nonce) t)).

Definition write_replaced_classes (replaced_classes : list (Z * Z)) (block_number : Z) : Txn unit :=
  for_each replaced_classes (fun '(contract_address, class_hash) =>
    let! self := get in
    let! table := db (tbl_insert (t_deployed_contracts self) (contract_address, block_number) class_hash) in
    modify (set_deployed_contracts table)).

Definition write_storage_diffs (storage_diffs : list (Z * list (Z * Z))) (block_number : Z) : Txn unit :=
  for_each storage_diffs (fun '(address, storage_entries) =>
    for_each storage_entries (fun '(key, value) =>
      let! self := get in
      let! table := db (tbl_append_greater_sub_key (t_contract_storage self)
                          ((address, key), block_number) value) in
      modify (set_contract_storage table))).

(** The loop of [append_state_diff] over the declared classes. *)
Definition write_declared_classes_block (declared_classes : list (Z * Z)) (block_number : Z) : Txn unit :=
  for_each declared_classes (fun '(class_hash, _) =>
    let! self := get in
    let! table := db (tbl_insert (t_declared_classes_block self) class_hash block_number) in
    modify (set_declared_classes_block table)).

Definition append_state_diff (block_number : Z) (thin_state_diff : ThinStateDiff) : Txn unit :=
  write_deployed_contracts (ThinStateDiff_deployed_contracts thin_state_diff) block_number
    (ThinStateDiff_nonces thin_state_diff) ;!
  write_storage_diffs (ThinStateDiff_storage_diffs thin_state_diff) block_number ;!
  write_nonces (ThinStateDiff_nonces thin_state_diff) block_number ;!
  write_replaced_classes (ThinStateDiff_replaced_classes thin_state_diff) block_number ;!
  write_declared_classes_block (ThinStateDiff_declared_classes thin_state_diff) block_number ;!
  let! location := append_to t_thin_state_diff_file set_thin_state_diff_file thin_state_diff in
  let! self := get in
  let! table := db (tbl_append (t_state_diffs self) block_number location) in
  modify (set_state_diffs table) ;!
  modify (fun t => set_file_offsets
    (tbl_upsert (t_file_offsets t) OffsetKind_ThinStateDiff (next_offset location)) t) ;!
  update_marker_to_next_block MarkerKind_State block_number ;!
  advance_compiled_class_marker_over_blocks_without_classes.

(** ** Reverting a state diff *)

(** The three loops return the deleted classes in an [IndexMap]. *)
Fixpoint delete_declared_classes (class_hashes : list Z) : Txn (list (Z * ContractClass)) :=
  match class_hashes with
  | [] => ret []
  | class_hash :: rest =>
      let! self := get in
      match tbl_get (t_declared_classes self) class_hash with
      | None => delete_declared_classes rest
      | Some contract_class_location =>
          let! class := get_unchecked t_contract_class_file contract_class_location in
          modify (fun t => set_declared_classes (tbl_delete (t_declared_classes t) class_hash) t) ;!
          modify (fun t => set_declared_classes_block (tbl_delete (t_declared_classes_block t) class_hash) t) ;!
          let! deleted_data := delete_declared_classes rest in
          ret ((class_hash, class) :: deleted_data)
      end
  end.

Fixpoint delete_deprecated_loop (block_number : Z) (class_hashes : list Z) :
    Txn (list (Z * DeprecatedContractClass)) :=
  match class_hashes with
  | [] => ret []
  | class_hash :: rest =>
      let! self := get in
      match tbl_get (t_deprecated_declared_classes self) class_hash with
      | None => delete_deprecated_loop block_number rest
      | Some value =>
          if block_number =? IndexedDeprecatedContractClass_block_number value then
            let! class := get_unchecked t_deprecated_contract_class_file
                            (IndexedDeprecatedContractClass_location_in_file value) in
            modify (fun t => set_deprecated_declared_classes
              (tbl_delete (t_deprecated_declared_classes t) class_hash) t) ;!
            let! deleted_data := delete_deprecated_loop block_number rest in
            ret ((class_hash, class) :: deleted_data)
          else delete_deprecated_loop block_number rest
      end
  end.

Definition delete_deprecated_declared_classes (block_number : Z) (thin_state_diff : ThinStateDiff) :
    Txn (list (Z * DeprecatedContractClass)) :=
  let class_hashes : gset Z :=
    list_to_set (ThinStateDiff_deprecated_declared_classes thin_state_diff ++
                 (ThinStateDiff_deployed_contracts thin_state_diff).*2) in
  delete_deprecated_loop block_number (hs_iter class_hashes).

(** The loop stops at the first class without a compiled class. *)
Fixpoint delete_compiled_classes (class_hashes : list Z) : Txn (list (Z * CasmContractClass)) :=
  match class_hashes with
  | [] => ret []
  | class_hash :: rest =>
      let! self := get in
      match tbl_get (t_casms self) class_hash with
      | None => ret []
      | Some compiled_class_location =>
          modify (fun t => set_casms (tbl_delete (t_casms t) class_hash) t) ;!
          let! casm := get_unchecked t_casm_file compiled_class_location in
          let! deleted_data := delete_compiled_classes rest in
          ret ((class_hash, casm) :: deleted_data)
      end
  end.

Definition delete_deployed_contracts (block_number : Z) (thin_state_diff : ThinStateDiff) : Txn unit :=
  for_each (ThinStateDiff_deployed_contracts thin_state_diff).*1 (fun contract_address =>
    modify (fun t => set_deployed_contracts
      (tbl_delete (t_deployed_contracts t) (contract_address, block_number)) t) ;!
    modify (fun t => set_nonces (tbl_delete (t_nonces t) (contract_address, block_number)) t)).

Definition delete_storage_diffs (block_number : Z) (thin_state_diff : ThinStateDiff) : Txn unit :=
  for_each (ThinStateDiff_storage_diffs thin_state_diff) (fun '(address, storage_entries) =>
    for_each storage_entries (fun '(key, _) =>
      modify (fun t => set_contract_storage
        (tbl_delete (t_contract_storage t) ((address, key), block_number)) t))).

Definition delete_nonces (block_number : Z) (thin_state_diff : ThinStateDiff) : Txn unit :=
  for_each (ThinStateDiff_nonces thin_state_diff).*1 (fun contract_address =>
    modify (fun t => set_nonces (tbl_delete (t_nonces t) (contract_address, block_number)) t)).

Definition delete_replaced_classes (block_number : Z) (thin_state_diff : ThinStateDiff) : Txn unit :=
  for_each (ThinStateDiff_replaced_classes thin_state_diff).*1 (fun contract_address =>
    modify (fun t => set_deployed_contracts
      (tbl_delete (t_deployed_contracts t) (contract_address, block_number)) t)).

Definition RevertedStateDiff : Type :=
  ThinStateDiff * list (Z * ContractClass) * list (Z * DeprecatedContractClass) * list (Z * CasmContractClass).

(** A marker that stood right after the reverted block goes back. *)
Definition revert_marker (kind : MarkerKind) (block_number next_block_number : Z) : Txn unit :=
  let! marker := get_marker kind in
  if marker =? next_block_number then upsert_marker kind block_number else ret tt.

Definition revert_state_diff (block_number : Z) : Txn (option RevertedStateDiff) :=
  let! current_state_marker := get_state_marker in
  match bn_next block_number with
  | Some next_block_number =>
      if negb (next_block_number =? current_state_marker) then ret None
      else
        let! found := get_state_diff block_number in
        let! thin_state_diff := expect found in
        upsert_marker MarkerKind_State block_number ;!
        revert_marker MarkerKind_Class block_number next_block_number ;!
        revert_marker MarkerKind_CompiledClass block_number next_block_number ;!
        let! deleted_classes :=
          delete_declared_classes (ThinStateDiff_declared_classes thin_state_diff).*1 in
        let! deleted_deprecated_classes :=
          delete_deprecated_declared_classes block_number thin_state_diff in
        let! deleted_compiled_classes :=
          delete_compiled_classes (ThinStateDiff_declared_classes thin_state_diff).*1 in
        delete_deployed_contracts block_number thin_state_diff ;!
        delete_storage_diffs block_number thin_state_diff ;!
        delete_nonces block_number thin_state_diff ;!
        modify (fun t => set_state_diffs (tbl_delete (t_state_diffs t) block_number) t) ;!
        delete_replaced_classes block_number thin_state_diff ;!
        ret (Some (thin_state_diff, deleted_classes, deleted_deprecated_classes, deleted_compiled_classes))
  | None => ret None
  end.
End State.

(** * Classes and compiled classes in the storage

    Models [crates/papyrus_storage/src/class.rs], [compiled_class.rs] and
    [base_layer.rs]: the class definitions and the compiled classes are
    appended to files, the tables keep their locations; the compiled class
    marker follows the state diffs, the base layer marker the L1. *)

Section Class.
Context {BN : BlockNumberApi} {X : ExternalTypes} {SF : StorageFiles}.

(** ** Classes *)

Definition get_class (class_hash : Z) : Txn (option ContractClass) :=
  let! self := get in
  match tbl_get (t_declared_classes self) class_hash with
  | None => ret None
  | Some location => let! class := get_unchecked t_contract_class_file location in ret (Some class)
  end.

Definition get_deprecated_class (class_hash : Z) : Txn (option DeprecatedContractClass) :=
  let! self := get in
  match tbl_get (t_deprecated_declared_classes self) class_hash with
  | None => ret None
  | Some value =>
      let! class := get_unchecked t_deprecated_contract_class_file
                      (IndexedDeprecatedContractClass_location_in_file value) in
      ret (Some class)
  end.

Definition get_class_marker : Txn Z := get_marker MarkerKind_Class.

Definition write_classes (classes : list (Z * ContractClass)) : Txn unit :=
  for_each classes (fun '(class_hash, contract_class) =>
    let! location := append_to t_contract_class_file set_contract_class_file contract_class in
    let! self := get in
    let! table := db (tbl_insert (t_declared_classes self) class_hash location) in
    modify (set_declared_classes table) ;!
    modify (fun t => set_file_offsets
      (tbl_upsert (t_file_offsets t) OffsetKind_ContractClass (next_offset location)) t)).

(** A deprecated class that is already stored is skipped. *)
Definition write_deprecated_classes (deprecated_classes : list (Z * DeprecatedContractClass))
    (block_number : Z) : Txn unit :=
  for_each deprecated_classes (fun '(class_hash, deprecated_contract_class) =>
    let! self := get in
    match tbl_get (t_deprecated_declared_classes self) class_hash with
    | Some _ => ret tt
    | None =>
        let! location := append_to t_deprecated_contract_class_file set_deprecated_contract_class_file
                           deprecated_contract_class in
        let value := mkIndexedDeprecatedContractClass block_number location in
        modify (fun t => set_file_offsets
          (tbl_upsert (t_file_offsets t) OffsetKind_DeprecatedContractClass (next_offset location)) t) ;!
        let! self := get in
        let! table := db (tbl_insert (t_deprecated_declared_classes self) class_hash value) in
        modify (set_deprecated_declared_classes table)
    end).

Definition append_classes (block_number : Z) (classes : list (Z * ContractClass))
    (deprecated_classes : list (Z * DeprecatedContractClass)) : Txn unit :=
  let! marker_block_number := get_marker MarkerKind_Class in
  if negb (block_number =? marker_block_number) then
    raise (StorageError_MarkerMismatch marker_block_number block_number)
  else
    write_classes classes ;!
    write_deprecated_classes deprecated_classes block_number ;!
    upsert_marker MarkerKind_Class (bn_unchecked_next block_number).

(** ** Compiled classes *)

Definition get_casm (class_hash : Z) : Txn (option CasmContractClass) :=
  let! self := get in
  match tbl_get (t_casms self) class_hash with
  | None => ret None
  | Some location => let! casm := get_unchecked t_casm_file location in ret (Some casm)
  end.

Definition get_compiled_class_marker : Txn Z := get_marker MarkerKind_CompiledClass.

(** The [loop] of [compiled_class.rs]'s [update_marker]; out of fuel is a panic. *)
Fixpoint update_casm_marker_loop (fuel : nat) (class_hash block_number : Z) : Txn unit :=
  match fuel with
  | O => panic
  | S fuel' =>
      let! self := get in
      match tbl_get (t_state_diffs self) block_number with
      | None => ret tt
      | Some state_diff_location =>
          let! state_diff := get_unchecked t_thin_state_diff_file state_diff_location in
          let advance :=
            let block_number := bn_unchecked_next block_number in
            upsert_marker MarkerKind_CompiledClass block_number ;!
            update_casm_marker_loop fuel' class_hash block_number in
          match last (ThinStateDiff_declared_classes state_diff) with
          | Some (last_class_hash, _) => if negb (last_class_hash =? class_hash) then ret tt else advance
          | None => advance
          end
      end
  end.

(** Each iteration but the last reads another entry of the table. *)
Definition update_casm_marker (class_hash : Z) : Txn unit :=
  let! block_number := get_marker MarkerKind_CompiledClass in
  let! self := get in
  update_casm_marker_loop (S (size (t_state_diffs self))) class_hash block_number.

Definition append_casm (class_hash : Z) (casm : CasmContractClass) : Txn unit :=
  let! location := append_to t_casm_file set_casm_file casm in
  let! self := get in
  let! table := db (tbl_insert (t_casms self) class_hash location) in
  modify (set_casms table) ;!
  modify (fun t => set_file_offsets
    (tbl_upsert (t_file_offsets t) OffsetKind_Casm (next_offset location)) t) ;!
  update_casm_marker class_hash.

(** ** The base layer marker *)

Definition get_base_layer_block_marker : Txn Z := get_marker MarkerKind_BaseLayerBlock.

Definition update_base_layer_block_marker (block_number : Z) : Txn unit :=
  upsert_marker MarkerKind_BaseLayerBlock block_number.

Definition try_revert_base_layer_marker (reverted_block_number : Z) : Txn unit :=
  let! cur_marker := get_base_layer_block_marker in
  if cur_marker =? bn_unchecked_next reverted_block_number
  then update_base_layer_block_marker reverted_block_number
  else ret tt.
End Class.
