(* ===== verification/StateProps.v ===== *)
(** * The state storage refines a list of state diffs

    The abstract state is the list of the state diffs, one per block. The
    readers of the historical state return the last change of a contract, nonce
    or storage key before a block of that list; the writers append to it and
    remove its last element. *)

From stdpp Require Import base gmap list strings fin_maps.
From Stdlib Require Import ZArith Lia.
From S2P Require Import Prelude StorageTables StarknetTypes StorageTxn BodyProps State.

(** ** What a state diff says *)

Definition lookup_list {V} (l : list (Z * V)) (k : Z) : option V := (list_to_map l : gmap Z V) !! k.

Definition diff_storage (d : ThinStateDiff) (ak : Z * Z) : option Z :=
  lookup_list (ThinStateDiff_storage_diffs d) ak.1 ≫= fun entries => lookup_list entries ak.2.

(** A deployed contract without a nonce in the diff gets nonce zero. *)
Definition diff_nonce (d : ThinStateDiff) (a : Z) : option Z :=
  match lookup_list (ThinStateDiff_nonces d) a with
  | Some nonce => Some nonce
  | None => if bool_decide (a ∈ (ThinStateDiff_deployed_contracts d).*1) then Some 0 else None
  end.

Definition diff_class (d : ThinStateDiff) (a : Z) : option Z :=
  match lookup_list (ThinStateDiff_deployed_contracts d) a with
  | Some class_hash => Some class_hash
  | None => lookup_list (ThinStateDiff_replaced_classes d) a
  end.

(** Its maps have no repeated keys, and no contract is both deployed and replaced. *)
Record diff_ok (d : ThinStateDiff) : Prop := {
  ok_deployed : NoDup (ThinStateDiff_deployed_contracts d).*1;
  ok_storage : NoDup (ThinStateDiff_storage_diffs d).*1;
  ok_entries : Forall (fun ae => NoDup ae.2.*1) (ThinStateDiff_storage_diffs d);
  ok_nonces : NoDup (ThinStateDiff_nonces d).*1;
  ok_replaced : NoDup (ThinStateDiff_replaced_classes d).*1;
  ok_disjoint : forall a, a ∈ (ThinStateDiff_deployed_contracts d).*1 ->
    a ∉ (ThinStateDiff_replaced_classes d).*1;
  ok_declared : NoDup (ThinStateDiff_declared_classes d).*1
}.

(** ** The last change before a block *)

Definition last_change {V} (f : ThinStateDiff -> option V) (ds : list ThinStateDiff) (n : Z) : option V :=
  foldl (fun acc d => match f d with Some v => Some v | None => acc end) None (take (Z.to_nat n) ds).

Lemma last_change_snoc {V} (f : ThinStateDiff -> option V) ds d n :
  last_change f (ds ++ [d]) n =
  if n <=? zlength ds then last_change f ds n
  else match f d with Some v => Some v | None => last_change f ds (zlength ds) end.
Proof.
  unfold last_change, zlength. case_cmp.
  - by rewrite take_app_le by lia.
  - rewrite (take_ge (ds ++ [d])) by (rewrite length_app; cbn; lia).
    rewrite foldl_app. cbn. by rewrite Nat2Z.id, take_ge by lia.
Qed.

Lemma last_change_Some {V} (f : ThinStateDiff -> option V) ds n v :
  last_change f ds n = Some v ->
  exists b, b < n /\ (lookup_z ds b ≫= f) = Some v /\
    forall b', b < b' < n -> (lookup_z ds b' ≫= f) = None.
Proof.
  revert n; induction ds as [|d ds IH] using rev_ind; intros n.
  - unfold last_change. by rewrite take_nil.
  - rewrite last_change_snoc. destruct (Z.leb_spec n (zlength ds)) as [Hn|Hn].
    + intros (b & Hb & Hv & Hno)%IH. exists b. split; [done|].
      split; [|intros b' Hb'; rewrite lookup_z_snoc; case_cmp; [lia|apply Hno; lia]].
      rewrite lookup_z_snoc. case_cmp; [lia|done].
    + destruct (f d) as [w|] eqn:Hf.
      * intros [= <-]. exists (zlength ds). split; [lia|]. split.
        -- rewrite lookup_z_snoc, Z.eqb_refl. done.
        -- intros b' Hb'. rewrite (proj2 (lookup_z_None _ _)); [done|]. rewrite zlength_snoc. lia.
      * intros (b & Hb & Hv & Hno)%IH. exists b. split; [lia|].
        split; [rewrite lookup_z_snoc; case_cmp; [lia|done]|].
        intros b' Hb'. rewrite lookup_z_snoc. case_cmp; [done|].
        destruct (Z_lt_ge_dec b' (zlength ds)); [apply Hno; lia|].
        rewrite (proj2 (lookup_z_None _ _)); [done|lia].
Qed.

Lemma last_change_None {V} (f : ThinStateDiff -> option V) ds n :
  last_change f ds n = None -> forall b, b < n -> (lookup_z ds b ≫= f) = None.
Proof.
  revert n; induction ds as [|d ds IH] using rev_ind; intros n Hl b Hb.
  - rewrite (proj2 (lookup_z_None _ _)); [done|]. unfold zlength; cbn; lia.
  - rewrite last_change_snoc in Hl. rewrite lookup_z_snoc. destruct (Z.leb_spec n (zlength ds)).
    + case_cmp; [lia|]. by apply (IH n).
    + destruct (f d) as [w|] eqn:Hf; [done|]. case_cmp; [done|].
      destruct (Z_lt_ge_dec b (zlength ds)); [by apply (IH (zlength ds))|].
      rewrite (proj2 (lookup_z_None _ _)); [done|lia].
Qed.

(** Searching a table of changes backwards from a block finds the last change. *)
Lemma last_before_spec {K V} `{Countable K} {KO : KeyOrd K}
    (m : gmap (K * Z) V) (f : K -> ThinStateDiff -> option V) ds k n :
  (forall k b, m !! (k, b) = lookup_z ds b ≫= f k) ->
  match last_before m (k, n) with
  | Some ((k', _), v) => if decide (k' = k) then Some v else None
  | None => None
  end = last_change (f k) ds n.
Proof.
  intros Hm. unfold last_before. rewrite lower_bound_prev.
  destruct (last_change (f k) ds n) as [v|] eqn:Hl.
  - apply last_change_Some in Hl as (b & Hb & Hv & Hno). rewrite <-Hm in Hv.
    assert (entry_below m (k, n) = Some ((k, b), v)) as ->; [|by rewrite decide_True].
    apply entry_below_Some. split; [done|]. split; [right; split; [done|exact Hb]|].
    intros [k'' b''] v'' Hk'' [Hlt|[Hk Hlt]] [Hlt2|[Hk2 Hlt2]]; cbn in *.
    + by apply (key_lt_asym k k'').
    + subst. by apply key_lt_irrefl in Hlt.
    + subst. by apply key_lt_irrefl in Hlt2.
    + subst. rewrite Hm, Hno in Hk'' by lia. done.
  - destruct (entry_below m (k, n)) as [[[k' b'] v']|] eqn:He; [|done].
    apply entry_below_Some in He as (Hk' & Hlt & _). case_decide as Hk; [subst k'|done].
    destruct Hlt as [Hlt|[_ Hlt]]; cbn in Hlt; [by apply key_lt_irrefl in Hlt|].
    rewrite Hm in Hk'. by rewrite (last_change_None _ _ _ Hl _ Hlt) in Hk'.
Qed.

(** ** Writing the changes of one block *)

(** The entries of one block. *)
Definition at_block {K V} `{Countable K} (b : Z) (l : list (K * V)) : gmap (K * Z) V :=
  list_to_map ((fun kv => ((kv.1, b), kv.2)) <$> l).

Lemma at_block_lookup {K V} `{Countable K} (b : Z) (l : list (K * V)) k b' :
  at_block b l !! (k, b') = if decide (b' = b) then (list_to_map l : gmap K V) !! k else None.
Proof.
  unfold at_block. induction l as [|[k1 v1] l IH]; cbn.
  - rewrite !lookup_empty. by case_decide.
  - rewrite !lookup_insert, IH. repeat case_decide; congruence || done.
Qed.

Lemma at_block_cons {K V} `{Countable K} (b : Z) (l : list (K * V)) (k : K) (v : V) (m : gmap (K * Z) V) :
  k ∉ l.*1 -> at_block b l ∪ <[(k, b) := v]> m = at_block b ((k, v) :: l) ∪ m.
Proof.
  intros Hk. rewrite <-insert_union_r.
  - rewrite insert_union_l. done.
  - rewrite at_block_lookup, decide_True by done. by apply not_elem_of_list_to_map_1.
Qed.

Lemma at_block_nil {K V} `{Countable K} (b : Z) (m : gmap (K * Z) V) : at_block b ([] : list (K * V)) ∪ m = m.
Proof. unfold at_block. apply (left_id_L ∅ (∪)). Qed.

Section Rel.
Context {BN : BlockNumberApi} {SN : StateNumberApi} {X : ExternalTypes} {SF : StorageFiles} {HS : HashSetIter}.

(** The table and the file of the state diffs hold the list. *)
Definition diffs_rel (t : StorageTxn) (ds : list ThinStateDiff) : Prop :=
  forall b,
    match t_state_diffs t !! b, lookup_z ds b with
    | Some loc, Some d => located (t_thin_state_diff_file t) loc d
    | None, None => True
    | _, _ => False
    end.

Record state_rel (t : StorageTxn) (ds : list ThinStateDiff) : Prop := {
  sr_marker : marker MarkerKind_State t = zlength ds;
  sr_casm_marker : 0 <= marker MarkerKind_CompiledClass t <= zlength ds;
  sr_file : 0 <= file_offset (t_thin_state_diff_file t);
  sr_diffs : diffs_rel t ds;
  sr_storage : forall ak b, t_contract_storage t !! (ak, b) = lookup_z ds b ≫= fun d => diff_storage d ak;
  sr_nonces : forall a b, t_nonces t !! (a, b) = lookup_z ds b ≫= fun d => diff_nonce d a;
  sr_classes : forall a b, t_deployed_contracts t !! (a, b) = lookup_z ds b ≫= fun d => diff_class d a;
  sr_declared : forall b d h, lookup_z ds b = Some d -> h ∈ (ThinStateDiff_declared_classes d).*1 ->
    t_declared_classes_block t !! h = Some b
}.

(** ** Readers *)

Lemma get_state_diff_rel t ds b :
  state_rel t ds -> get_state_diff b t = Done t (lookup_z ds b).
Proof.
  intros Hr. unfold get_state_diff, tbl_get. run_txn. pose proof (sr_diffs _ _ Hr b) as Hd.
  destruct (t_state_diffs t !! b) as [loc|], (lookup_z ds b) as [d|]; try done.
  by rewrite (bind_step _ _ _ _ _ (get_unchecked_located t_thin_state_diff_file _ _ _ Hd)).
Qed.

Lemma get_nonce_at_rel t ds n a :
  state_rel t ds -> get_nonce_at n a t = Done t (last_change (fun d => diff_nonce d a) ds (block_after n)).
Proof.
  intros Hr. unfold get_nonce_at. run_txn.
  rewrite <-(last_before_spec (t_nonces t) (fun a d => diff_nonce d a) ds a (block_after n) (sr_nonces _ _ Hr)).
  destruct (last_before _ _) as [[[a' b'] v]|]; [|done]. case_cmp; case_decide; congruence || done.
Qed.

Lemma get_class_hash_at_rel t ds n a :
  state_rel t ds -> get_class_hash_at n a t = Done t (last_change (fun d => diff_class d a) ds (block_after n)).
Proof.
  intros Hr. unfold get_class_hash_at. run_txn.
  rewrite <-(last_before_spec (t_deployed_contracts t) (fun a d => diff_class d a) ds a (block_after n) (sr_classes _ _ Hr)).
  destruct (last_before _ _) as [[[a' b'] v]|]; [|done]. case_cmp; case_decide; congruence || done.
Qed.

Lemma get_storage_at_rel t ds n a k :
  state_rel t ds ->
  get_storage_at n a k t =
  Done t (default 0 (last_change (fun d => diff_storage d (a, k)) ds (block_after n))).
Proof.
  intros Hr. unfold get_storage_at. run_txn.
  rewrite <-(last_before_spec (t_contract_storage t) (fun ak d => diff_storage d ak) ds (a, k) (block_after n)
    (sr_storage _ _ Hr)).
  destruct (last_before _ _) as [[[[a' k'] b'] v]|]; [|done].
  repeat case_cmp; case_decide; congruence || done.
Qed.

(** ** The loops of [append_state_diff] *)

Lemma write_replaced_classes_done l b t :
  NoDup l.*1 -> (forall a, a ∈ l.*1 -> t_deployed_contracts t !! (a, b) = None) ->
  write_replaced_classes l b t = Done (set_deployed_contracts (at_block b l ∪ t_deployed_contracts t) t) tt.
Proof.
  unfold write_replaced_classes. revert t; induction l as [|[a c] l IH]; intros t Hnd Hno; cbn [for_each].
  - rewrite at_block_nil. by destruct t.
  - cbn in Hnd. apply NoDup_cons in Hnd as [Hna Hnd]. run_txn.
    rewrite (proj1 (tbl_insert_ok _ _ _)) by (apply Hno; by left). run_txn. rewrite IH; [|done|].
    + txn_simpl. by rewrite at_block_cons.
    + intros a' Ha'. txn_simpl. rewrite lookup_insert_ne by congruence. apply Hno. by right.
Qed.

Lemma write_nonces_done l b t :
  NoDup l.*1 -> write_nonces l b t = Done (set_nonces (at_block b l ∪ t_nonces t) t) tt.
Proof.
  unfold write_nonces. revert t; induction l as [|[a c] l IH]; intros t Hnd; cbn [for_each].
  - rewrite at_block_nil. by destruct t.
  - cbn in Hnd. apply NoDup_cons in Hnd as [Hna Hnd]. run_txn. rewrite IH by done.
    txn_simpl. unfold tbl_upsert. by rewrite at_block_cons.
Qed.

(** The contracts that [write_deployed_contracts] gives a zero nonce. *)
Definition zero_nonces (deployed nonces : list (Z * Z)) : list (Z * Z) :=
  (fun ac => (ac.1, 0)) <$> filter (fun ac => contains_key nonces ac.1 = false) deployed.

Lemma zero_nonces_keys l nonces a : a ∈ (zero_nonces l nonces).*1 -> a ∈ l.*1.
Proof.
  unfold zero_nonces. rewrite <-list_fmap_compose. intros (ac & -> & Hin%list_elem_of_filter)%list_elem_of_fmap.
  destruct Hin as [_ Hin]. apply list_elem_of_fmap. eauto.
Qed.

Lemma write_deployed_contracts_done l b nonces t :
  NoDup l.*1 -> (forall a, a ∈ l.*1 -> t_deployed_contracts t !! (a, b) = None) ->
  (forall a b' v, t_nonces t !! (a, b') = Some v -> b' < b) ->
  write_deployed_contracts l b nonces t =
  Done (set_nonces (at_block b (zero_nonces l nonces) ∪ t_nonces t)
       (set_deployed_contracts (at_block b l ∪ t_deployed_contracts t) t)) tt.
Proof.
  intros Hnd Hno Hlt.
  assert (Hn : forall a b' v, a ∈ l.*1 -> t_nonces t !! (a, b') = Some v -> b' < b) by eauto.
  clear Hlt. unfold write_deployed_contracts.
  revert t Hno Hn; induction l as [|[a c] l IH]; intros t Hno Hn; cbn [for_each].
  - unfold zero_nonces. cbn [filter list_filter fmap list_fmap]. rewrite !at_block_nil. by destruct t.
  - cbn in Hnd. apply NoDup_cons in Hnd as [Hna Hnd]. run_txn.
    rewrite (proj1 (tbl_insert_ok _ _ _)) by (apply Hno; by left). run_txn.
    assert (Hdep : forall a', a' ∈ l.*1 -> (<[(a, b):=c]> (t_deployed_contracts t)) !! (a', b) = None).
    { intros a' Ha'. rewrite lookup_insert_ne by congruence. apply Hno. by right. }
    unfold zero_nonces. rewrite filter_cons. cbn [fst]. destruct (contains_key nonces a) eqn:Hc.
    + rewrite decide_False by done. run_txn. rewrite IH; [|done|done|].
      * txn_simpl. by rewrite at_block_cons.
      * txn_simpl. intros a' b' v Ha'. apply Hn. by right.
    + rewrite decide_True by done. run_txn.
      rewrite (proj1 (append_greater_sub_key_ok _ _ _ _)); [|intros b' v' Hv; eapply Hn; [by left|done]].
      run_txn. rewrite IH; [|done|done|].
      * txn_simpl. rewrite at_block_cons by (by intros Ha%zero_nonces_keys). by rewrite at_block_cons.
      * txn_simpl. intros a' b' v Ha'. rewrite lookup_insert_ne by congruence. apply Hn. by right.
Qed.

(** The storage diffs as one list. *)
Definition flat_storage (l : list (Z * list (Z * Z))) : list ((Z * Z) * Z) :=
  l ≫= fun ae => (fun kv => ((ae.1, kv.1), kv.2)) <$> ae.2.

Lemma write_storage_flat l b t :
  write_storage_diffs l b t =
  for_each (flat_storage l) (fun '(ak, value) =>
    let! self := get in
    let! table := db (tbl_append_greater_sub_key (t_contract_storage self) (ak, b) value) in
    modify (set_contract_storage table)) t.
Proof.
  unfold write_storage_diffs. revert t; induction l as [|[a es] l IH]; intros t; cbn [for_each]; [done|].
  change (flat_storage ((a, es) :: l)) with (((fun kv => ((a, kv.1), kv.2)) <$> es) ++ flat_storage l).
  rewrite for_each_app. apply bind_ext; [|done].
  intros t'. symmetry. apply for_each_fmap. by intros [k v].
Qed.

Lemma elem_of_flat_keys l a k :
  (a, k) ∈ (flat_storage l).*1 <-> exists es, (a, es) ∈ l /\ k ∈ es.*1.
Proof.
  unfold flat_storage. rewrite list_elem_of_fmap. setoid_rewrite list_elem_of_bind. split.
  - intros ([[a' k'] v] & [= <- <-] & [a1 es] & Hin & Hl). cbn in Hin.
    apply list_elem_of_fmap in Hin as ([k1 v1] & [= -> -> ->] & Hk). exists es. split; [done|].
    apply list_elem_of_fmap. by exists (k1, v1).
  - intros (es & Hl & ([k1 v1] & -> & Hk)%list_elem_of_fmap). exists ((a, k1), v1). split; [done|].
    exists (a, es). split; [|done]. apply list_elem_of_fmap. by exists (k1, v1).
Qed.

Lemma flat_storage_NoDup l :
  NoDup l.*1 -> Forall (fun ae => NoDup ae.2.*1) l -> NoDup (flat_storage l).*1.
Proof.
  induction l as [|[a es] l IH]; cbn [fmap list_fmap]; intros Hnd Hes; [constructor|].
  apply NoDup_cons in Hnd as [Ha Hnd]. apply Forall_cons in Hes as [He Hes].
  change (flat_storage ((a, es) :: l)) with (((fun kv => ((a, kv.1), kv.2)) <$> es) ++ flat_storage l).
  rewrite fmap_app, <-list_fmap_compose. apply NoDup_app. split; [|split; [|by apply IH]].
  - change (fst ∘ _) with (pair (B := Z) a ∘ fst (A := Z) (B := Z)).
    rewrite list_fmap_compose. apply NoDup_fmap_2; [|done]. by intros ?? [= ->].
  - intros [a' k] ([k' v] & [= -> ->] & _)%list_elem_of_fmap (es' & Hin & _)%elem_of_flat_keys.
    apply Ha. apply list_elem_of_fmap. by exists (a, es').
Qed.

Lemma lookup_flat_storage l a k :
  NoDup l.*1 ->
  (list_to_map (flat_storage l) : gmap (Z * Z) Z) !! (a, k) =
  lookup_list l a ≫= fun es => lookup_list es k.
Proof.
  unfold lookup_list. induction l as [|[a1 es] l IH]; cbn [fmap list_fmap]; intros Hnd; [done|].
  apply NoDup_cons in Hnd as [Ha Hnd].
  change (flat_storage ((a1, es) :: l)) with (((fun kv => ((a1, kv.1), kv.2)) <$> es) ++ flat_storage l).
  rewrite list_to_map_app, lookup_union, IH by done. clear IH.
  cbn [list_to_map foldr uncurry fst snd]. rewrite lookup_insert. case_decide as Ha1; [subst a1|].
  - rewrite (not_elem_of_list_to_map_1 l) by done. cbn [mbind option_bind]. rewrite (right_id_L None (∪)).
    clear Ha. induction es as [|[k1 v1] es IH]; [done|]. cbn [fmap list_fmap list_to_map foldr uncurry fst snd].
    rewrite !lookup_insert, IH. repeat case_decide; congruence || done.
  - rewrite (not_elem_of_list_to_map_1 (_ <$> es)); [by rewrite (left_id_L None (∪))|].
    rewrite <-list_fmap_compose. intros (kv & [= -> _] & _)%list_elem_of_fmap. done.
Qed.

Lemma write_storage_diffs_done l b t :
  NoDup l.*1 -> Forall (fun ae => NoDup ae.2.*1) l ->
  (forall ak b' v, t_contract_storage t !! (ak, b') = Some v -> b' < b) ->
  write_storage_diffs l b t =
  Done (set_contract_storage (at_block b (flat_storage l) ∪ t_contract_storage t) t) tt.
Proof.
  intros Hnd Hes Hlt. rewrite write_storage_flat. pose proof (flat_storage_NoDup _ Hnd Hes) as Hf.
  assert (Hn : forall ak b' v, ak ∈ (flat_storage l).*1 ->
            t_contract_storage t !! (ak, b') = Some v -> b' < b) by eauto.
  clear Hlt Hnd Hes. revert t Hn.
  induction (flat_storage l) as [|[ak v] fl IH]; intros t Hn; cbn [for_each].
  - rewrite at_block_nil. by destruct t.
  - cbn in Hf. apply NoDup_cons in Hf as [Hna Hf]. run_txn.
    rewrite (proj1 (append_greater_sub_key_ok _ _ _ _)); [|intros b' v' Hv; eapply Hn; [by left|done]].
    run_txn. rewrite IH; [|done|].
    + txn_simpl. by rewrite at_block_cons.
    + txn_simpl. intros ak' b' v' Hin. rewrite lookup_insert_ne by congruence. apply Hn. by right.
Qed.

(** The block of each declared class. *)
Definition declared_at (b : Z) (l : list (Z * Z)) : gmap Z Z := list_to_map ((fun hc => (hc.1, b)) <$> l).

Lemma declared_at_lookup b l h :
  declared_at b l !! h = if bool_decide (h ∈ l.*1) then Some b else None.
Proof.
  unfold declared_at. case_bool_decide as Hin.
  - apply elem_of_list_to_map_1'.
    + intros y (hc & [= _ ->] & _)%list_elem_of_fmap. done.
    + apply list_elem_of_fmap in Hin as (hc & -> & Hin). apply list_elem_of_fmap. by exists hc.
  - apply not_elem_of_list_to_map_1. rewrite <-list_fmap_compose. done.
Qed.

Lemma write_declared_classes_block_done l b t :
  NoDup l.*1 -> (forall h, h ∈ l.*1 -> t_declared_classes_block t !! h = None) ->
  write_declared_classes_block l b t =
  Done (set_declared_classes_block (declared_at b l ∪ t_declared_classes_block t) t) tt.
Proof.
  unfold write_declared_classes_block. revert t; induction l as [|[h c] l IH]; intros t Hnd Hno; cbn [for_each].
  - unfold declared_at. cbn. rewrite (left_id_L ∅ (∪)). by destruct t.
  - cbn in Hnd. apply NoDup_cons in Hnd as [Hna Hnd]. run_txn.
    rewrite (proj1 (tbl_insert_ok _ _ _)) by (apply Hno; by left). run_txn. rewrite IH; [|done|].
    + txn_simpl. rewrite <-insert_union_r; [by rewrite insert_union_l|].
      rewrite declared_at_lookup. by case_bool_decide.
    + intros a' Ha'. txn_simpl. rewrite lookup_insert_ne by congruence. apply Hno. by right.
Qed.

(** ** The compiled class marker *)

(** How many state diffs from the start declare no class. *)
Fixpoint leading_empty (ds : list ThinStateDiff) : Z :=
  match ds with
  | [] => 0
  | d :: ds' => match ThinStateDiff_declared_classes d with [] => 1 + leading_empty ds' | _ :: _ => 0 end
  end.

(** The first block from [m] on that declares a class, or the end. *)
Definition next_declaring (ds : list ThinStateDiff) (m : Z) : Z := m + leading_empty (drop (Z.to_nat m) ds).

Lemma drop_lookup_z {A} (ds : list A) m d :
  lookup_z ds m = Some d -> drop (Z.to_nat m) ds = d :: drop (Z.to_nat (m + 1)) ds.
Proof.
  intros Hl. pose proof (lookup_z_Some _ _ _ Hl) as Hm. unfold lookup_z in Hl. rewrite (proj2 (Z.leb_le _ _)) in Hl by lia.
  apply drop_S in Hl. rewrite Hl. do 2 f_equal. lia.
Qed.

Lemma next_declaring_step ds m d :
  lookup_z ds m = Some d -> ThinStateDiff_declared_classes d = [] ->
  next_declaring ds m = next_declaring ds (m + 1).
Proof.
  intros Hl Hd. unfold next_declaring. rewrite (drop_lookup_z _ _ _ Hl). cbn [leading_empty]. rewrite Hd. lia.
Qed.

Lemma next_declaring_stop ds m d :
  lookup_z ds m = Some d -> ThinStateDiff_declared_classes d <> [] -> next_declaring ds m = m.
Proof.
  intros Hl Hd. unfold next_declaring. rewrite (drop_lookup_z _ _ _ Hl). cbn [leading_empty].
  destruct (ThinStateDiff_declared_classes d); [done|lia].
Qed.

Lemma next_declaring_end ds : next_declaring ds (zlength ds) = zlength ds.
Proof. unfold next_declaring, zlength. rewrite Nat2Z.id, drop_all. cbn. lia. Qed.

Lemma leading_empty_bound ds : 0 <= leading_empty ds <= zlength ds.
Proof.
  unfold zlength. induction ds as [|d ds IH]; cbn [leading_empty length]; [lia|].
  destruct (ThinStateDiff_declared_classes d); lia.
Qed.

Lemma next_declaring_bound ds m : 0 <= m <= zlength ds -> m <= next_declaring ds m <= zlength ds.
Proof.
  intros Hm. unfold next_declaring. pose proof (leading_empty_bound (drop (Z.to_nat m) ds)) as Hb.
  unfold zlength in *. rewrite length_drop in Hb. lia.
Qed.

(** A block whose state diff the storage holds. *)
Lemma read_diff t ds b d :
  diffs_rel t ds -> lookup_z ds b = Some d ->
  exists loc, t_state_diffs t !! b = Some loc /\ get_unchecked t_thin_state_diff_file loc t = Done t d.
Proof.
  intros Hd Hl. specialize (Hd b). rewrite Hl in Hd. destruct (t_state_diffs t !! b) as [loc|]; [|done].
  exists loc. split; [done|]. by apply get_unchecked_located.
Qed.

(** Nothing but the compiled class marker changed, and it became [m]. *)
Definition casm_marker_moved (t t' : StorageTxn) (m : Z) : Prop :=
  exists markers, t' = set_markers markers t /\ marker MarkerKind_CompiledClass t' = m /\
    forall kind, kind <> MarkerKind_CompiledClass -> marker kind t' = marker kind t.

Lemma casm_marker_moved_refl t : casm_marker_moved t t (marker MarkerKind_CompiledClass t).
Proof. exists (t_markers t). split; [by destruct t|done]. Qed.

Lemma casm_marker_moved_upsert t t' m n :
  casm_marker_moved (set_markers (tbl_upsert (t_markers t) MarkerKind_CompiledClass n) t) t' m ->
  casm_marker_moved t t' m.
Proof.
  intros (mk & -> & Hm & Ho). exists mk. split; [done|]. split; [done|].
  intros kind Hk. rewrite (Ho kind Hk), marker_upsert. by case_decide.
Qed.

Lemma advance_loop_done ds fuel m t :
  diffs_rel t ds -> 0 <= m <= zlength ds -> zlength ds < 2 ^ 32 -> marker MarkerKind_CompiledClass t = m ->
  (Z.to_nat (zlength ds - m) < fuel)%nat ->
  exists t', advance_loop fuel (zlength ds) m t = Done t' tt /\ casm_marker_moved t t' (next_declaring ds m).
Proof.
  revert m t; induction fuel as [|fuel IH]; intros m t Hd Hm Hlt Hmk Hf; [lia|]. cbn [advance_loop].
  destruct (Z.ltb_spec m (zlength ds)).
  - destruct (proj2 (lookup_z_is_Some ds m)) as [d Hl]; [lia|].
    destruct (read_diff t ds m d) as (loc & Hloc & Hget); [done|done|].
    run_txn. unfold tbl_get. rewrite Hloc. run_txn. rewrite (bind_step _ _ _ _ _ Hget).
    destruct (ThinStateDiff_declared_classes d) as [|hc l] eqn:Hdc.
    + unfold upsert_marker. run_txn. rewrite bn_unchecked_next_small by lia.
      destruct (IH (m + 1) (set_markers (tbl_upsert (t_markers t) MarkerKind_CompiledClass (m + 1)) t))
        as (t' & Hrun & Hmv); [done|lia|done|by rewrite marker_upsert|lia|].
      exists t'. split; [done|]. rewrite (next_declaring_step _ _ _ Hl Hdc).
      by eapply casm_marker_moved_upsert.
    + exists t. split; [done|]. rewrite (next_declaring_stop _ _ _ Hl) by (by rewrite Hdc).
      rewrite <-Hmk. apply casm_marker_moved_refl.
  - exists t. split; [done|]. assert (m = zlength ds) as -> by lia.
    rewrite next_declaring_end, <-Hmk. apply casm_marker_moved_refl.
Qed.

(** ** Appending a state diff *)

(** The transaction after the tables and the file were written. *)
Definition with_changes (b : Z) (d : ThinStateDiff) (t : StorageTxn) : StorageTxn :=
  set_declared_classes_block (declared_at b (ThinStateDiff_declared_classes d) ∪ t_declared_classes_block t)
  (set_deployed_contracts (at_block b (ThinStateDiff_replaced_classes d) ∪
      (at_block b (ThinStateDiff_deployed_contracts d) ∪ t_deployed_contracts t))
  (set_nonces (at_block b (ThinStateDiff_nonces d) ∪
      (at_block b (zero_nonces (ThinStateDiff_deployed_contracts d) (ThinStateDiff_nonces d)) ∪ t_nonces t))
  (set_contract_storage (at_block b (flat_storage (ThinStateDiff_storage_diffs d)) ∪ t_contract_storage t) t))).

Definition with_diff (b : Z) (f : ThinStateDiffFile) (loc : LocationInFile) (t : StorageTxn) : StorageTxn :=
  set_markers (tbl_upsert (t_markers t) MarkerKind_State (b + 1))
  (set_file_offsets (tbl_upsert (t_file_offsets t) OffsetKind_ThinStateDiff (next_offset loc))
  (set_state_diffs (<[b := loc]> (t_state_diffs t))
  (set_thin_state_diff_file f t))).

(** The four tables of the contracts. *)
Definition with_contracts (b : Z) (d : ThinStateDiff) (t : StorageTxn) : StorageTxn :=
  set_deployed_contracts (at_block b (ThinStateDiff_replaced_classes d) ∪
      (at_block b (ThinStateDiff_deployed_contracts d) ∪ t_deployed_contracts t))
  (set_nonces (at_block b (ThinStateDiff_nonces d) ∪
      (at_block b (zero_nonces (ThinStateDiff_deployed_contracts d) (ThinStateDiff_nonces d)) ∪ t_nonces t))
  (set_contract_storage (at_block b (flat_storage (ThinStateDiff_storage_diffs d)) ∪ t_contract_storage t) t)).

Lemma write_contracts_done t ds d (k : Txn unit) :
  state_rel t ds -> diff_ok d ->
  (write_deployed_contracts (ThinStateDiff_deployed_contracts d) (zlength ds) (ThinStateDiff_nonces d) ;!
   write_storage_diffs (ThinStateDiff_storage_diffs d) (zlength ds) ;!
   write_nonces (ThinStateDiff_nonces d) (zlength ds) ;!
   write_replaced_classes (ThinStateDiff_replaced_classes d) (zlength ds) ;! k) t =
  k (with_contracts (zlength ds) d t).
Proof.
  intros Hr Hok.
  assert (Hcls : forall a, t_deployed_contracts t !! (a, zlength ds) = None).
  { intros a. rewrite (sr_classes _ _ Hr), (proj2 (lookup_z_None _ _)); [done|lia]. }
  rewrite (bind_step _ _ _ _ _ (write_deployed_contracts_done _ _ _ _ (ok_deployed _ Hok) ltac:(auto)
    ltac:(intros a b' v Hv; rewrite (sr_nonces _ _ Hr) in Hv; apply bind_Some in Hv as (? & ?%lookup_z_Some & _); lia))).
  erewrite bind_step; [|apply write_storage_diffs_done; [apply Hok|apply Hok|]].
  2:{ txn_simpl. intros ak b' v Hv. rewrite (sr_storage _ _ Hr) in Hv.
      apply bind_Some in Hv as (? & ?%lookup_z_Some & _). lia. }
  erewrite bind_step; [|apply write_nonces_done; apply Hok].
  erewrite bind_step; [|apply write_replaced_classes_done; [apply Hok|]].
  2:{ intros a Ha. txn_simpl. rewrite lookup_union, at_block_lookup, decide_True, Hcls by done.
      rewrite (not_elem_of_list_to_map_1 _ a); [done|]. intros Hin. by apply (ok_disjoint _ Hok a). }
  done.
Qed.

Lemma write_tables_done t ds d (k : Txn unit) :
  state_rel t ds -> diff_ok d ->
  (forall h, h ∈ (ThinStateDiff_declared_classes d).*1 -> t_declared_classes_block t !! h = None) ->
  (write_deployed_contracts (ThinStateDiff_deployed_contracts d) (zlength ds) (ThinStateDiff_nonces d) ;!
   write_storage_diffs (ThinStateDiff_storage_diffs d) (zlength ds) ;!
   write_nonces (ThinStateDiff_nonces d) (zlength ds) ;!
   write_replaced_classes (ThinStateDiff_replaced_classes d) (zlength ds) ;!
   write_declared_classes_block (ThinStateDiff_declared_classes d) (zlength ds) ;! k) t =
  k (with_changes (zlength ds) d t).
Proof.
  intros Hr Hok Hdec. rewrite (write_contracts_done _ _ _ _ Hr Hok).
  by erewrite bind_step; [|apply write_declared_classes_block_done; [apply Hok|unfold with_contracts; txn_simpl; done]].
Qed.

(** A class that was declared before. *)
Lemma write_declared_classes_block_conflict l b t :
  ~ (forall h, h ∈ l.*1 -> t_declared_classes_block t !! h = None) ->
  exists t', write_declared_classes_block l b t = Fail t' (StorageError_InnerError DbError_KeyAlreadyExists).
Proof.
  unfold write_declared_classes_block. revert t; induction l as [|[h c] l IH]; intros t Hno; cbn [for_each].
  - destruct Hno. intros h ?%elem_of_nil. done.
  - run_txn. unfold tbl_insert. destruct (t_declared_classes_block t !! h) eqn:Hh; run_txn; [by eexists|].
    apply IH. intros Hall. apply Hno. intros h' Hin. txn_simpl. cbn in Hin. apply elem_of_cons in Hin as [->|Hin]; [done|].
    specialize (Hall h' Hin). txn_simpl. by apply lookup_insert_None in Hall as [? _].
Qed.

Lemma append_state_diff_conflict t ds d :
  state_rel t ds -> diff_ok d ->
  ~ (forall h, h ∈ (ThinStateDiff_declared_classes d).*1 -> t_declared_classes_block t !! h = None) ->
  exists t', append_state_diff (zlength ds) d t = Fail t' (StorageError_InnerError DbError_KeyAlreadyExists).
Proof.
  intros Hr Hok Hno. unfold append_state_diff. rewrite (write_contracts_done _ _ _ _ Hr Hok).
  destruct (write_declared_classes_block_conflict (ThinStateDiff_declared_classes d) (zlength ds) (with_contracts (zlength ds) d t)) as [t' Hf];
    [done|]. exists t'. unfold bind at 1. by rewrite Hf.
Qed.

Lemma lookup_list_None {V} (l : list (Z * V)) k : lookup_list l k = None <-> k ∉ l.*1.
Proof. symmetry. apply not_elem_of_list_to_map. Qed.

Lemma lookup_zero_nonces deployed nonces a :
  (list_to_map (zero_nonces deployed nonces) : gmap Z Z) !! a =
  if contains_key nonces a then None else if bool_decide (a ∈ deployed.*1) then Some 0 else None.
Proof.
  unfold zero_nonces. induction deployed as [|[a1 c] l IH]; [by destruct (contains_key nonces a)|].
  rewrite filter_cons. cbn [fst]. destruct (decide (contains_key nonces a1 = false)) as [Hc|Hc].
  - cbn [fmap list_fmap list_to_map foldr uncurry fst snd]. rewrite lookup_insert, IH. destruct (decide (a1 = a)) as [Ha|Ha].
    + subst. rewrite Hc, bool_decide_true by (by left). done.
    + destruct (contains_key nonces a); [done|]. apply (f_equal (fun b : bool => if b then Some 0 else None)).
      apply bool_decide_ext. rewrite elem_of_cons. naive_solver.
  - rewrite IH. destruct (contains_key nonces a) eqn:Hca; [done|].
    apply (f_equal (fun b : bool => if b then Some 0 else None)).
    apply bool_decide_ext. cbn [fmap list_fmap]. rewrite elem_of_cons. cbn [fst]. naive_solver.
Qed.

(** The changes of a block are those its state diff says. *)
Lemma with_changes_lookup t d b :
  diff_ok d ->
  (forall ak b', t_contract_storage (with_changes b d t) !! (ak, b') =
     if decide (b' = b) then diff_storage d ak ∪ t_contract_storage t !! (ak, b)
     else t_contract_storage t !! (ak, b')) /\
  (forall a b', t_nonces (with_changes b d t) !! (a, b') =
     if decide (b' = b) then diff_nonce d a ∪ t_nonces t !! (a, b) else t_nonces t !! (a, b')) /\
  (forall a b', t_deployed_contracts (with_changes b d t) !! (a, b') =
     if decide (b' = b) then diff_class d a ∪ t_deployed_contracts t !! (a, b)
     else t_deployed_contracts t !! (a, b')).
Proof.
  intros Hok. unfold with_changes. txn_simpl.
  split; [|split]; intros x b'; rewrite !lookup_union, !at_block_lookup;
    (destruct (decide (b' = b)) as [->|Hb]; [|by rewrite !(left_id_L None (∪))]).
  - destruct x as [a k]. by rewrite (lookup_flat_storage _ _ _ (ok_storage _ Hok)).
  - rewrite lookup_zero_nonces. unfold diff_nonce. fold (lookup_list (ThinStateDiff_nonces d) x).
    unfold contains_key. destruct (lookup_list (ThinStateDiff_nonces d) x) as [v|] eqn:Hl.
    + rewrite bool_decide_true; [by rewrite (left_id_L None (∪))|].
      destruct (decide (x ∈ (ThinStateDiff_nonces d).*1)) as [|Hn]; [done|].
      apply lookup_list_None in Hn. congruence.
    + apply lookup_list_None in Hl. rewrite bool_decide_false by done.
      by rewrite (left_id_L None (∪)).
  - unfold diff_class. fold (lookup_list (ThinStateDiff_replaced_classes d) x).
    fold (lookup_list (ThinStateDiff_deployed_contracts d) x).
    destruct (lookup_list (ThinStateDiff_deployed_contracts d) x) as [c|] eqn:Hl.
    + assert (lookup_list (ThinStateDiff_replaced_classes d) x = None) as ->; [|by rewrite (left_id_L None (∪))].
      apply lookup_list_None, (ok_disjoint _ Hok). destruct (decide (x ∈ (ThinStateDiff_deployed_contracts d).*1)); [done|].
      apply lookup_list_None in n. congruence.
    + by rewrite (left_id_L None (∪)).
Qed.

Lemma changes_snoc {K V} `{Countable K} (m m' : gmap (K * Z) V) (f : K -> ThinStateDiff -> option V) ds d :
  (forall k b, m !! (k, b) = lookup_z ds b ≫= f k) ->
  (forall k b, m' !! (k, b) =
     if decide (b = zlength ds) then f k d ∪ m !! (k, zlength ds) else m !! (k, b)) ->
  forall k b, m' !! (k, b) = lookup_z (ds ++ [d]) b ≫= f k.
Proof.
  intros Hm Hm' k b. rewrite Hm', lookup_z_snoc. case_decide as Hb.
  - rewrite (proj2 (Z.eqb_eq _ _)) by done. rewrite Hm, (proj2 (lookup_z_None _ _)) by lia. cbn.
    by destruct (f k d).
  - rewrite (proj2 (Z.eqb_neq _ _)) by done. apply Hm.
Qed.

Lemma diffs_rel_snoc t ds d f loc :
  diffs_rel t ds -> 0 <= file_offset (t_thin_state_diff_file t) -> storable d ->
  file_append (t_thin_state_diff_file t) d = Some (f, loc) ->
  forall t', t_state_diffs t' = <[zlength ds := loc]> (t_state_diffs t) -> t_thin_state_diff_file t' = f ->
  diffs_rel t' (ds ++ [d]).
Proof.
  intros Hd Hoff Hst Happ t' Ht Hf b. rewrite Ht, lookup_insert, lookup_z_snoc, Hf.
  destruct (decide (zlength ds = b)) as [<-|Hb].
  - rewrite Z.eqb_refl. by eapply located_new.
  - rewrite (proj2 (Z.eqb_neq _ _)) by done. specialize (Hd b).
    destruct (t_state_diffs t !! b), (lookup_z ds b); try done. by eapply located_append.
Qed.

Lemma append_diff_done t ds d f loc :
  diffs_rel t ds -> marker MarkerKind_State t = zlength ds -> zlength ds < 2 ^ 32 ->
  file_append (t_thin_state_diff_file t) d = Some (f, loc) ->
  (let! location := append_to t_thin_state_diff_file set_thin_state_diff_file d in
   let! self := get in
   let! table := db (tbl_append (t_state_diffs self) (zlength ds) location) in
   modify (set_state_diffs table) ;!
   modify (fun t => set_file_offsets
     (tbl_upsert (t_file_offsets t) OffsetKind_ThinStateDiff (next_offset location)) t) ;!
   update_marker_to_next_block MarkerKind_State (zlength ds) ;!
   advance_compiled_class_marker_over_blocks_without_classes) t =
  advance_compiled_class_marker_over_blocks_without_classes (with_diff (zlength ds) f loc t).
Proof.
  intros Hd Hm Hlt Happ. unfold append_to. run_txn. rewrite Happ. run_txn.
  rewrite (proj1 (tbl_append_ok _ _ _)).
  - run_txn. unfold update_marker_to_next_block, get_marker. run_txn.
    unfold tbl_get. change (default 0 (t_markers t !! MarkerKind_State)) with (marker MarkerKind_State t).
    rewrite Hm, Z.eqb_refl. cbn [negb]. unfold upsert_marker. run_txn.
    by rewrite bn_unchecked_next_small by (pose proof (zlength_nonneg ds); lia).
  - intros b loc' Hb. change (~ (zlength ds < b)). specialize (Hd b). rewrite Hb in Hd.
    destruct (lookup_z ds b) as [d'|] eqn:Hl; [|done]. apply lookup_z_Some in Hl. lia.
Qed.

Lemma marker_with_diff kind b f loc t :
  marker kind (with_diff b f loc t) = if decide (MarkerKind_State = kind) then b + 1 else marker kind t.
Proof. unfold with_diff, marker, tbl_upsert. txn_simpl. rewrite lookup_insert. by case_decide. Qed.

Lemma append_state_diff_done t ds d f loc :
  state_rel t ds -> diff_ok d -> storable d -> zlength ds < 2 ^ 32 - 1 ->
  (forall h, h ∈ (ThinStateDiff_declared_classes d).*1 -> t_declared_classes_block t !! h = None) ->
  file_append (t_thin_state_diff_file t) d = Some (f, loc) ->
  exists t', append_state_diff (zlength ds) d t = Done t' tt /\
    casm_marker_moved (with_diff (zlength ds) f loc (with_changes (zlength ds) d t)) t'
      (next_declaring (ds ++ [d]) (marker MarkerKind_CompiledClass t)).
Proof.
  intros Hr Hok Hst Hlt Hdec Happ. unfold append_state_diff.
  rewrite (write_tables_done _ _ _ _ Hr Hok Hdec).
  rewrite (append_diff_done _ _ _ f loc); [|apply Hr|apply Hr|lia|done].
  unfold advance_compiled_class_marker_over_blocks_without_classes, get_marker. run_txn. unfold tbl_get.
  set (t1 := with_diff _ _ _ _).
  change (default 0 (t_markers t1 !! MarkerKind_State)) with (marker MarkerKind_State t1).
  change (default 0 (t_markers t1 !! MarkerKind_CompiledClass)) with (marker MarkerKind_CompiledClass t1).
  pose proof (sr_casm_marker _ _ Hr) as Hcm.
  unfold t1. rewrite !marker_with_diff. cbn [decide]. rewrite decide_True, decide_False by done.
  change (marker MarkerKind_CompiledClass (with_changes (zlength ds) d t)) with (marker MarkerKind_CompiledClass t).
  rewrite <-(zlength_snoc ds d). apply advance_loop_done; [| | |by rewrite marker_with_diff|]; rewrite ?zlength_snoc; try lia.
  eapply (diffs_rel_snoc t); [apply Hr|apply Hr|done|done|done|done].
Qed.

(** What the move of the compiled class marker leaves. *)
Lemma state_rel_casm_moved t t' ds m :
  casm_marker_moved t t' m -> 0 <= m <= zlength ds -> state_rel t ds -> state_rel t' ds.
Proof.
  intros (mk & -> & Hm & Ho) Hb [? ? ? ? ? ? ? ?]. split; txn_simpl; try done.
  - by rewrite Ho.
  - by rewrite Hm.
Qed.

Lemma state_rel_appended t ds d f loc :
  state_rel t ds -> diff_ok d -> storable d ->
  (forall h, h ∈ (ThinStateDiff_declared_classes d).*1 -> t_declared_classes_block t !! h = None) ->
  file_append (t_thin_state_diff_file t) d = Some (f, loc) ->
  state_rel (with_diff (zlength ds) f loc (with_changes (zlength ds) d t)) (ds ++ [d]).
Proof.
  intros Hr Hok Hst Hdec Happ. destruct (with_changes_lookup t d (zlength ds) Hok) as (Hs & Hn & Hc).
  pose proof (file_append_location _ _ _ _ Happ) as (Ho & Hnx & Hlen). unfold next_offset in Hnx.
  pose proof (sr_file _ _ Hr). pose proof (sr_casm_marker _ _ Hr).
  split.
  - by rewrite marker_with_diff, decide_True, zlength_snoc.
  - rewrite marker_with_diff, decide_False, zlength_snoc by done.
    change (0 <= marker MarkerKind_CompiledClass t <= zlength ds + 1). lia.
  - change (0 <= file_offset f). lia.
  - eapply (diffs_rel_snoc t); [apply Hr|apply Hr|done|done|done|done].
  - eapply (changes_snoc _ _ (fun ak d => diff_storage d ak)); [apply (sr_storage _ _ Hr)|exact Hs].
  - eapply (changes_snoc _ _ (fun a d => diff_nonce d a)); [apply (sr_nonces _ _ Hr)|exact Hn].
  - eapply (changes_snoc _ _ (fun a d => diff_class d a)); [apply (sr_classes _ _ Hr)|exact Hc].
  - intros b d' h. rewrite lookup_z_snoc. unfold with_diff, with_changes. txn_simpl.
    rewrite lookup_union, declared_at_lookup. case_cmp.
    + intros [= <-] Hh. subst b. by rewrite bool_decide_true, Hdec by done.
    + intros Hl Hh. pose proof (sr_declared _ _ Hr _ _ _ Hl Hh) as Hb.
      rewrite bool_decide_false; [by rewrite (left_id_L None (∪))|]. intros Hin.
      rewrite (Hdec _ Hin) in Hb. done.
Qed.
End Rel.
