(* ===== verification/StateTheorems.v ===== *)
(** * Reverting a state diff

    [revert_state_diff] of the last block undoes [append_state_diff]: the
    storage again holds the list of state diffs without its last element, and
    the classes of the block are handed back to the caller. *)

From stdpp Require Import base gmap list strings fin_maps.
From Stdlib Require Import ZArith Lia.
From S2P Require Import Prelude StorageTables StarknetTypes StorageTxn BodyProps State StateProps.

(** ** Deleting a list of keys *)

Definition delete_keys {K V} `{Countable K} (l : list K) (m : gmap K V) : gmap K V :=
  foldl (fun m k => tbl_delete m k) m l.

Lemma delete_keys_lookup {K V} `{Countable K} (l : list K) (m : gmap K V) k :
  delete_keys l m !! k = if decide (k ∈ l) then None else m !! k.
Proof.
  revert m; induction l as [|k1 l IH]; intros m; cbn [delete_keys foldl].
  - rewrite decide_False; [done|]. apply not_elem_of_nil.
  - fold (delete_keys l (tbl_delete m k1)). rewrite IH. unfold tbl_delete. rewrite lookup_delete.
    repeat case_decide; set_solver.
Qed.

Lemma delete_keys_app {K V} `{Countable K} (l1 l2 : list K) (m : gmap K V) :
  delete_keys (l1 ++ l2) m = delete_keys l2 (delete_keys l1 m).
Proof. apply foldl_app. Qed.

Section Revert.
Context {BN : BlockNumberApi} {SN : StateNumberApi} {X : ExternalTypes} {SF : StorageFiles} {HS : HashSetIter}.

Section DeleteLoop.
Context {K V A : Type} `{Countable K} (gt : StorageTxn -> gmap K V) (st : gmap K V -> StorageTxn -> StorageTxn).
Hypothesis st_id : forall t, st (gt t) t = t.
Hypothesis gt_st : forall m t, gt (st m t) = m.
Hypothesis st_st : forall m m' t, st m (st m' t) = st m t.

Lemma for_each_delete (key : A -> K) l t :
  for_each l (fun x => modify (fun t => st (tbl_delete (gt t) (key x)) t)) t =
  Done (E := StorageError) (st (delete_keys (key <$> l) (gt t)) t) tt.
Proof.
  revert t; induction l as [|x l IH]; intros t; cbn [for_each fmap list_fmap].
  - cbn [delete_keys foldl]. by rewrite st_id.
  - rewrite bind_modify, IH, gt_st, st_st. done.
Qed.
End DeleteLoop.

Ltac txn_laws := intros; try match goal with t : StorageTxn |- _ => by destruct t end.

Lemma delete_nonces_done b d t :
  delete_nonces b d t =
  Done (set_nonces (delete_keys ((fun a => (a, b)) <$> (ThinStateDiff_nonces d).*1) (t_nonces t)) t) tt.
Proof. apply (for_each_delete t_nonces set_nonces); txn_laws. Qed.

Lemma delete_replaced_classes_done b d t :
  delete_replaced_classes b d t =
  Done (set_deployed_contracts
    (delete_keys ((fun a => (a, b)) <$> (ThinStateDiff_replaced_classes d).*1) (t_deployed_contracts t)) t) tt.
Proof. apply (for_each_delete t_deployed_contracts set_deployed_contracts); txn_laws. Qed.

Lemma delete_deployed_contracts_done b d t :
  delete_deployed_contracts b d t =
  let keys := (fun a => (a, b)) <$> (ThinStateDiff_deployed_contracts d).*1 in
  Done (set_nonces (delete_keys keys (t_nonces t))
       (set_deployed_contracts (delete_keys keys (t_deployed_contracts t)) t)) tt.
Proof.
  unfold delete_deployed_contracts. cbn zeta.
  revert t; induction ((ThinStateDiff_deployed_contracts d).*1) as [|a l IH]; intros t; cbn [for_each fmap list_fmap].
  - by destruct t.
  - run_txn. rewrite IH. done.
Qed.

Lemma delete_storage_diffs_done b d t :
  delete_storage_diffs b d t =
  Done (set_contract_storage
    (delete_keys ((fun ak => (ak, b)) <$> (flat_storage (ThinStateDiff_storage_diffs d)).*1)
      (t_contract_storage t)) t) tt.
Proof.
  unfold delete_storage_diffs.
  revert t; induction (ThinStateDiff_storage_diffs d) as [|[a es] l IH]; intros t; cbn [for_each].
  - by destruct t.
  - assert (Hes : forall t, for_each es (fun '((key, _) : Z * Z) =>
        modify (fun t => set_contract_storage (tbl_delete (t_contract_storage t) ((a, key), b)) t)) t =
      Done (E := StorageError) (set_contract_storage (delete_keys ((fun kv => ((a, kv.1), b)) <$> es) (t_contract_storage t)) t) tt).
    { clear. intros t. rewrite <-(for_each_delete t_contract_storage set_contract_storage) by txn_laws.
      clear. revert t; induction es as [|[k v] es IH]; intros t; cbn [for_each]; [done|]. run_txn. apply IH. }
    rewrite (bind_step _ _ _ _ _ (Hes _)), IH. txn_simpl.
    change (flat_storage ((a, es) :: l)) with (((fun kv => ((a, kv.1), kv.2)) <$> es) ++ flat_storage l).
    rewrite !fmap_app, delete_keys_app, <-!list_fmap_compose. done.
Qed.

(** ** The classes of a block *)

(** Every class of the tables is in its file. *)
Record class_rel (t : StorageTxn) : Prop := {
  cr_files : 0 <= file_offset (t_contract_class_file t) /\
    0 <= file_offset (t_deprecated_contract_class_file t) /\ 0 <= file_offset (t_casm_file t);
  cr_classes : forall h loc, t_declared_classes t !! h = Some loc ->
    exists c, located (t_contract_class_file t) loc c;
  cr_deprecated : forall h v, t_deprecated_declared_classes t !! h = Some v ->
    exists c, located (t_deprecated_contract_class_file t) (IndexedDeprecatedContractClass_location_in_file v) c;
  cr_casms : forall h loc, t_casms t !! h = Some loc -> exists c, located (t_casm_file t) loc c
}.

(** The definition that [get_class] reads. *)
Definition class_of (t : StorageTxn) (h : Z) : option ContractClass :=
  t_declared_classes t !! h ≫= file_get (t_contract_class_file t).

Lemma delete_declared_classes_done hs t :
  (forall h loc, t_declared_classes t !! h = Some loc -> exists c, located (t_contract_class_file t) loc c) ->
  NoDup hs ->
  exists classes,
    delete_declared_classes hs t =
    Done (set_declared_classes_block (delete_keys (fst <$> classes) (t_declared_classes_block t))
         (set_declared_classes (delete_keys hs (t_declared_classes t)) t)) classes /\
    classes = omap (fun h => pair h <$> class_of t h) hs.
Proof.
  revert t; induction hs as [|h hs IH]; intros t Hloc Hnd; cbn [delete_declared_classes].
  - exists []. split; [by destruct t|done].
  - apply NoDup_cons in Hnd as [Hh Hnd]. run_txn. unfold tbl_get.
    destruct (t_declared_classes t !! h) as [loc|] eqn:Hl.
    + destruct (Hloc _ _ Hl) as [c Hc].
      rewrite (bind_step _ _ _ _ _ (get_unchecked_located t_contract_class_file _ _ _ Hc)). run_txn.
      set (t1 := set_declared_classes_block _ _). destruct (IH t1) as (classes & Hrun & Hcl); [|done|].
      { intros h' loc' Hl'. unfold t1, tbl_delete in Hl'. txn_simpl. apply lookup_delete_Some in Hl' as [_ Hl']. eauto. }
      exists ((h, c) :: classes). rewrite (bind_step _ _ _ _ _ Hrun). split; [done|].
      cbn [omap list_omap]. unfold class_of at 1. rewrite Hl. cbn [mbind option_bind].
      rewrite (proj2 (proj2 Hc)). cbn [fmap option_fmap option_map]. rewrite Hcl. f_equal.
      apply list_omap_ext, Forall_Forall2_diag, Forall_forall.
      intros h' Hh'. unfold class_of, t1. txn_simpl. unfold tbl_delete.
      by rewrite lookup_delete_ne by congruence.
    + destruct (IH t) as (classes & Hrun & Hcl); [done|done|]. exists classes. rewrite Hrun. split.
      * do 3 f_equal. cbn [delete_keys foldl]. unfold tbl_delete. by rewrite delete_id.
      * cbn [omap list_omap]. unfold class_of at 1. rewrite Hl. done.
Qed.

(** A deprecated class is handed back when this block declared it. *)
Definition deprecated_of (t : StorageTxn) (b h : Z) : option DeprecatedContractClass :=
  t_deprecated_declared_classes t !! h ≫= fun v =>
    if b =? IndexedDeprecatedContractClass_block_number v
    then file_get (t_deprecated_contract_class_file t) (IndexedDeprecatedContractClass_location_in_file v)
    else None.

Lemma delete_deprecated_loop_done b hs t :
  (forall h v, t_deprecated_declared_classes t !! h = Some v ->
    exists c, located (t_deprecated_contract_class_file t) (IndexedDeprecatedContractClass_location_in_file v) c) ->
  NoDup hs ->
  exists classes,
    delete_deprecated_loop b hs t =
    Done (set_deprecated_declared_classes (delete_keys (fst <$> classes) (t_deprecated_declared_classes t)) t) classes /\
    classes = omap (fun h => pair h <$> deprecated_of t b h) hs.
Proof.
  revert t; induction hs as [|h hs IH]; intros t Hloc Hnd; cbn [delete_deprecated_loop].
  - exists []. split; [by destruct t|done].
  - apply NoDup_cons in Hnd as [Hh Hnd]. run_txn. unfold tbl_get.
    destruct (t_deprecated_declared_classes t !! h) as [v|] eqn:Hl.
    + destruct (b =? IndexedDeprecatedContractClass_block_number v) eqn:Hb.
      * destruct (Hloc _ _ Hl) as [c Hc].
        rewrite (bind_step _ _ _ _ _ (get_unchecked_located t_deprecated_contract_class_file _ _ _ Hc)). run_txn.
        set (t1 := set_deprecated_declared_classes _ _). destruct (IH t1) as (classes & Hrun & Hcl); [|done|].
        { intros h' loc' Hl'. unfold t1, tbl_delete in Hl'. txn_simpl. apply lookup_delete_Some in Hl' as [_ Hl']. eauto. }
        exists ((h, c) :: classes). rewrite (bind_step _ _ _ _ _ Hrun). split; [done|].
        cbn [omap list_omap]. unfold deprecated_of at 1. rewrite Hl. cbn [mbind option_bind].
        rewrite Hb, (proj2 (proj2 Hc)). cbn [fmap option_fmap option_map]. rewrite Hcl. f_equal.
        apply list_omap_ext, Forall_Forall2_diag, Forall_forall.
        intros h' Hh'. unfold deprecated_of, t1. txn_simpl. unfold tbl_delete.
        by rewrite lookup_delete_ne by congruence.
      * destruct (IH t) as (classes & Hrun & Hcl); [done|done|]. exists classes. rewrite Hrun. split; [done|].
        cbn [omap list_omap]. unfold deprecated_of at 1. rewrite Hl. cbn [mbind option_bind]. by rewrite Hb.
    + destruct (IH t) as (classes & Hrun & Hcl); [done|done|]. exists classes. rewrite Hrun. split; [done|].
      cbn [omap list_omap]. unfold deprecated_of at 1. by rewrite Hl.
Qed.

(** The compiled class that [get_casm] reads. *)
Definition casm_of (t : StorageTxn) (h : Z) : option CasmContractClass := t_casms t !! h ≫= file_get (t_casm_file t).

Lemma delete_compiled_classes_done hs t :
  (forall h loc, t_casms t !! h = Some loc -> exists c, located (t_casm_file t) loc c) ->
  NoDup hs ->
  exists casms rest,
    delete_compiled_classes hs t = Done (set_casms (delete_keys (fst <$> casms) (t_casms t)) t) casms /\
    hs = (fst <$> casms) ++ rest /\ (match rest with [] => True | h :: _ => t_casms t !! h = None end) /\
    Forall (fun hc => casm_of t hc.1 = Some hc.2) casms.
Proof.
  revert t; induction hs as [|h hs IH]; intros t Hloc Hnd; cbn [delete_compiled_classes].
  - exists [], []. split; [by destruct t|done].
  - apply NoDup_cons in Hnd as [Hh Hnd]. run_txn. unfold tbl_get.
    destruct (t_casms t !! h) as [loc|] eqn:Hl.
    + destruct (Hloc _ _ Hl) as [c Hc]. run_txn.
      set (t1 := set_casms _ _). change (t_casm_file t) with (t_casm_file t1) in Hc.
      rewrite (bind_step _ _ _ _ _ (get_unchecked_located t_casm_file _ _ _ Hc)).
      destruct (IH t1) as (casms & rest & Hrun & Hhs & Hrest & Hall); [|done|].
      { intros h' loc' Hl'. unfold t1, tbl_delete in Hl'. txn_simpl. apply lookup_delete_Some in Hl' as [_ Hl']. eauto. }
      exists ((h, c) :: casms), rest. rewrite (bind_step _ _ _ _ _ Hrun). split; [done|].
      assert (Hne : forall h', h' ∈ hs -> t_casms t1 !! h' = t_casms t !! h').
      { intros h' Hh'. unfold t1, tbl_delete. txn_simpl. by rewrite lookup_delete_ne by congruence. }
      split; [cbn; by f_equal|]. split.
      * destruct rest as [|h1 rest]; [done|]. rewrite <-Hne; [done|]. subst hs. set_solver.
      * constructor; [unfold casm_of; cbn; rewrite Hl; exact (proj2 (proj2 Hc))|].
        apply Forall_forall. intros hc Hin. rewrite Forall_forall in Hall. unfold casm_of in *. rewrite <-Hne; [by apply Hall|].
        subst hs. apply elem_of_app. left. by apply list_elem_of_fmap_2.
    + exists [], (h :: hs). split; [by destruct t|done].
Qed.

(** ** The reverted transaction *)

(** A marker that stood right after the block stands at the block. *)
Definition marker_back (b m : Z) : Z := if m =? b + 1 then b else m.

Lemma revert_marker_done kind b t :
  exists markers, revert_marker kind b (b + 1) t = Done (set_markers markers t) tt /\
    forall k, marker k (set_markers markers t) = if decide (kind = k) then marker_back b (marker k t) else marker k t.
Proof.
  unfold revert_marker, get_marker, marker_back, upsert_marker. run_txn. unfold tbl_get.
  change (default 0 (t_markers t !! kind)) with (marker kind t).
  destruct (Z.eqb_spec (marker kind t) (b + 1)) as [Hm|Hm].
  - exists (tbl_upsert (t_markers t) kind b). split; [done|]. intros k. rewrite marker_upsert.
    case_decide; [subst|done]. by rewrite (proj2 (Z.eqb_eq _ _)).
  - exists (t_markers t). split; [by destruct t|]. intros k. case_decide; [subst|done].
    by rewrite (proj2 (Z.eqb_neq _ _)).
Qed.

Definition undo_changes (b : Z) (d : ThinStateDiff) (t : StorageTxn) : StorageTxn :=
  let at_b := fun a : Z => (a, b) in
  let deployed := at_b <$> (ThinStateDiff_deployed_contracts d).*1 in
  set_deployed_contracts
    (delete_keys (at_b <$> (ThinStateDiff_replaced_classes d).*1) (delete_keys deployed (t_deployed_contracts t)))
  (set_state_diffs (tbl_delete (t_state_diffs t) b)
  (set_nonces (delete_keys (at_b <$> (ThinStateDiff_nonces d).*1) (delete_keys deployed (t_nonces t)))
  (set_contract_storage
    (delete_keys ((fun ak => (ak, b)) <$> (flat_storage (ThinStateDiff_storage_diffs d)).*1) (t_contract_storage t)) t))).

Lemma undo_changes_done {A} b d t (a : A) :
  (delete_deployed_contracts b d ;! delete_storage_diffs b d ;! delete_nonces b d ;!
   modify (fun t => set_state_diffs (tbl_delete (t_state_diffs t) b) t) ;!
   delete_replaced_classes b d ;! ret a) t = Done (undo_changes b d t) a.
Proof.
  rewrite (bind_step _ _ _ _ _ (delete_deployed_contracts_done _ _ _)). cbn zeta.
  rewrite (bind_step _ _ _ _ _ (delete_storage_diffs_done _ _ _)).
  rewrite (bind_step _ _ _ _ _ (delete_nonces_done _ _ _)). rewrite bind_modify.
  rewrite (bind_step _ _ _ _ _ (delete_replaced_classes_done _ _ _)). done.
Qed.

Lemma changes_unsnoc {K V} `{Countable K} (m m' : gmap (K * Z) V) (keys : list (K * Z))
    (f : K -> ThinStateDiff -> option V) ds d :
  (forall k b, m !! (k, b) = lookup_z (ds ++ [d]) b ≫= f k) ->
  (forall k, m' !! k = if decide (k ∈ keys) then None else m !! k) ->
  (forall k b, (k, b) ∈ keys -> b = zlength ds) ->
  (forall k, f k d <> None -> (k, zlength ds) ∈ keys) ->
  forall k b, m' !! (k, b) = lookup_z ds b ≫= f k.
Proof.
  intros Hm Hm' Hkeys Hall k b. rewrite Hm', Hm, lookup_z_snoc. destruct (Z.eqb_spec b (zlength ds)) as [->|Hb].
  - rewrite (proj2 (lookup_z_None ds _)) by lia. cbn. case_decide as Hin; [done|].
    destruct (f k d) as [v|] eqn:Hf; [|done]. exfalso. apply Hin, Hall. by rewrite Hf.
  - rewrite decide_False; [done|]. intros Hin. by apply Hkeys in Hin.
Qed.

Lemma lookup_list_elem {V} (l : list (Z * V)) k : lookup_list l k <> None -> k ∈ l.*1.
Proof. rewrite lookup_list_None. apply dec_stable. Qed.

Lemma elem_at_block {K} (l : list K) (b : Z) k b' : (k, b') ∈ ((fun k => (k, b)) <$> l) <-> k ∈ l /\ b' = b.
Proof. rewrite list_elem_of_fmap. naive_solver. Qed.

(** The tables of the historical state lose the last block. *)
Lemma undo_changes_tables t ds d :
  state_rel t (ds ++ [d]) -> diff_ok d ->
  let t' := undo_changes (zlength ds) d t in
  diffs_rel t' ds /\
  (forall ak b, t_contract_storage t' !! (ak, b) = lookup_z ds b ≫= fun d => diff_storage d ak) /\
  (forall a b, t_nonces t' !! (a, b) = lookup_z ds b ≫= fun d => diff_nonce d a) /\
  (forall a b, t_deployed_contracts t' !! (a, b) = lookup_z ds b ≫= fun d => diff_class d a).
Proof.
  intros Hr Hok. cbn zeta. unfold undo_changes. split; [|split; [|split]].
  - intros b. txn_simpl. unfold tbl_delete. rewrite lookup_delete. pose proof (sr_diffs _ _ Hr b) as Hd.
    rewrite lookup_z_snoc in Hd. case_decide as Hb.
    + rewrite (proj2 (lookup_z_None ds b)); [done|lia].
    + by rewrite (proj2 (Z.eqb_neq _ _)) in Hd by congruence.
  - txn_simpl. eapply (changes_unsnoc _ _ _ (fun ak d => diff_storage d ak) ds d (sr_storage _ _ Hr));
      [apply delete_keys_lookup|by intros ak b [_ ?]%elem_at_block|].
    intros [a k] Hk. apply elem_at_block. split; [|done].
    unfold diff_storage in Hk. cbn [fst snd] in Hk. rewrite <-(lookup_flat_storage _ a k (ok_storage _ Hok)) in Hk.
    destruct (decide ((a, k) ∈ (flat_storage (ThinStateDiff_storage_diffs d)).*1)) as [|Hn]; [done|].
    by apply not_elem_of_list_to_map_1 in Hn.
  - txn_simpl. rewrite <-delete_keys_app.
    eapply (changes_unsnoc _ _ _ (fun a d => diff_nonce d a) ds d (sr_nonces _ _ Hr));
      [apply delete_keys_lookup|by intros a b [[_ ?]%elem_at_block|[_ ?]%elem_at_block]%elem_of_app|].
    intros a Ha. unfold diff_nonce in Ha. apply elem_of_app. rewrite !elem_at_block.
    destruct (lookup_list (ThinStateDiff_nonces d) a) as [n|] eqn:Hl.
    + right. split; [|done]. apply lookup_list_elem. by rewrite Hl.
    + left. by case_bool_decide.
  - txn_simpl. rewrite <-delete_keys_app.
    eapply (changes_unsnoc _ _ _ (fun a d => diff_class d a) ds d (sr_classes _ _ Hr));
      [apply delete_keys_lookup|by intros a b [[_ ?]%elem_at_block|[_ ?]%elem_at_block]%elem_of_app|].
    intros a Ha. unfold diff_class in Ha. apply elem_of_app. rewrite !elem_at_block.
    destruct (lookup_list (ThinStateDiff_deployed_contracts d) a) as [n|] eqn:Hl.
    + left. split; [|done]. apply lookup_list_elem. by rewrite Hl.
    + right. split; [|done]. by apply lookup_list_elem.
Qed.

(** The three loops over the classes. *)
Definition without_classes (classes : list (Z * ContractClass)) (deprecated : list (Z * DeprecatedContractClass))
    (casms : list (Z * CasmContractClass)) (hs : list Z) (t : StorageTxn) : StorageTxn :=
  set_casms (delete_keys (fst <$> casms) (t_casms t))
  (set_deprecated_declared_classes (delete_keys (fst <$> deprecated) (t_deprecated_declared_classes t))
  (set_declared_classes_block (delete_keys (fst <$> classes) (t_declared_classes_block t))
  (set_declared_classes (delete_keys hs (t_declared_classes t)) t))).

(** The deprecated classes that a state diff may have declared. *)
Definition deprecated_hashes (d : ThinStateDiff) : list Z :=
  elements (list_to_set (ThinStateDiff_deprecated_declared_classes d ++ (ThinStateDiff_deployed_contracts d).*2) : gset Z).

Lemma delete_all_classes_done t b d :
  class_rel t -> diff_ok d ->
  exists classes deprecated casms rest,
    (forall A (k : list (Z * ContractClass) -> list (Z * DeprecatedContractClass) ->
       list (Z * CasmContractClass) -> Txn A),
    (let! c := delete_declared_classes (ThinStateDiff_declared_classes d).*1 in
     let! dc := delete_deprecated_declared_classes b d in
     let! cc := delete_compiled_classes (ThinStateDiff_declared_classes d).*1 in k c dc cc) t =
    k classes deprecated casms
      (without_classes classes deprecated casms (ThinStateDiff_declared_classes d).*1 t)) /\
    classes = omap (fun h => pair h <$> class_of t h) (ThinStateDiff_declared_classes d).*1 /\
    (ThinStateDiff_declared_classes d).*1 = (fst <$> casms) ++ rest /\
    (match rest with [] => True | h :: _ => t_casms t !! h = None end) /\
    Forall (fun hc => casm_of t hc.1 = Some hc.2) casms /\
    deprecated ≡ₚ omap (fun h => pair h <$> deprecated_of t b h) (deprecated_hashes d).
Proof.
  intros Hc Hok. destruct (delete_declared_classes_done _ t (cr_classes _ Hc) (ok_declared _ Hok))
    as (classes & Hrun1 & Hcl).
  set (t1 := set_declared_classes_block _ _) in Hrun1.
  assert (Hhs : NoDup (hs_iter (list_to_set (ThinStateDiff_deprecated_declared_classes d ++
                 (ThinStateDiff_deployed_contracts d).*2)))).
  { rewrite hs_iter_perm. apply NoDup_elements. }
  destruct (delete_deprecated_loop_done b _ t1 (cr_deprecated _ Hc) Hhs) as (deprecated & Hrun2 & Hdep).
  set (t2 := set_deprecated_declared_classes _ _) in Hrun2.
  destruct (delete_compiled_classes_done _ t2 (cr_casms _ Hc) (ok_declared _ Hok))
    as (casms & rest & Hrun3 & Hcasms & Hrest & Hall).
  exists classes, deprecated, casms, rest. split; [|split_and!; [done|done|done|done|by rewrite Hdep, hs_iter_perm]]. intros A k.
  rewrite (bind_step _ _ _ _ _ Hrun1). unfold delete_deprecated_declared_classes.
  rewrite (bind_step _ _ _ _ _ Hrun2), (bind_step _ _ _ _ _ Hrun3). done.
Qed.

Lemma class_rel_deleted t markers b d classes deprecated casms hs :
  class_rel t -> class_rel (undo_changes b d (without_classes classes deprecated casms hs (set_markers markers t))).
Proof.
  intros [Hf Hc Hd Hcc]. split; [done|..]; unfold undo_changes, without_classes; txn_simpl; intros h v;
    rewrite delete_keys_lookup; case_decide; naive_solver.
Qed.

Lemma revert_state_diff_done t ds d :
  state_rel t (ds ++ [d]) -> diff_ok d -> class_rel t -> zlength ds < 2 ^ 32 ->
  exists t' classes deprecated casms rest markers,
    revert_state_diff (zlength ds) t = Done t' (Some (d, classes, deprecated, casms)) /\
    t' = undo_changes (zlength ds) d
           (without_classes classes deprecated casms (ThinStateDiff_declared_classes d).*1 (set_markers markers t)) /\
    (forall kind, marker kind t' =
       match kind with
       | MarkerKind_State => zlength ds
       | MarkerKind_Class | MarkerKind_CompiledClass => marker_back (zlength ds) (marker kind t)
       | _ => marker kind t
       end) /\
    classes = omap (fun h => pair h <$> class_of t h) (ThinStateDiff_declared_classes d).*1 /\
    (ThinStateDiff_declared_classes d).*1 = (fst <$> casms) ++ rest /\
    (match rest with [] => True | h :: _ => t_casms t !! h = None end) /\
    Forall (fun hc => casm_of t hc.1 = Some hc.2) casms /\
    deprecated ≡ₚ omap (fun h => pair h <$> deprecated_of t (zlength ds) h) (deprecated_hashes d).
Proof.
  intros Hr Hok Hc Hlt. pose proof (zlength_nonneg ds) as Hnn. unfold revert_state_diff, get_state_marker, get_marker.
  run_txn. unfold tbl_get. change (default 0 (t_markers t !! MarkerKind_State)) with (marker MarkerKind_State t).
  rewrite (sr_marker _ _ Hr), zlength_snoc, bn_next_small by lia. rewrite Z.eqb_refl. cbn [negb].
  rewrite (bind_step _ _ _ _ _ (get_state_diff_rel _ _ (zlength ds) Hr)), lookup_z_snoc, Z.eqb_refl.
  unfold upsert_marker. run_txn. set (t1 := set_markers _ t).
  destruct (revert_marker_done MarkerKind_Class (zlength ds) t1) as (mk2 & Hrun2 & Hmk2).
  rewrite (bind_step _ _ _ _ _ Hrun2).
  destruct (revert_marker_done MarkerKind_CompiledClass (zlength ds) (set_markers mk2 t1)) as (mk3 & Hrun3 & Hmk3).
  rewrite (bind_step _ _ _ _ _ Hrun3).
  change (set_markers mk3 (set_markers mk2 t1)) with (set_markers mk3 t) in *.
  destruct (delete_all_classes_done (set_markers mk3 t) (zlength ds) d) as (classes & deprecated & casms & rest & Hrun & Hrest);
    [by destruct Hc; split|done|].
  rewrite Hrun, undo_changes_done.
  do 5 eexists. exists mk3. split; [done|]. split; [done|]. split; [|done].
  intros kind. change (marker kind (undo_changes _ _ _)) with (marker kind (set_markers mk3 t)).
  rewrite Hmk3, Hmk2. unfold t1. rewrite marker_upsert. by destruct kind.
Qed.

(** The storage after [revert_state_diff] holds the list without its last state diff. *)
Lemma revert_state_rel t ds d classes deprecated casms markers :
  state_rel t (ds ++ [d]) -> diff_ok d ->
  classes = omap (fun h => pair h <$> class_of t h) (ThinStateDiff_declared_classes d).*1 ->
  let t' := undo_changes (zlength ds) d
           (without_classes classes deprecated casms (ThinStateDiff_declared_classes d).*1 (set_markers markers t)) in
  marker MarkerKind_State t' = zlength ds ->
  marker MarkerKind_CompiledClass t' = marker_back (zlength ds) (marker MarkerKind_CompiledClass t) ->
  state_rel t' ds.
Proof.
  intros Hr Hok Hcl t' Hm1 Hm2. destruct (undo_changes_tables t ds d Hr Hok) as (Hd & Hs & Hn & Hcs).
  pose proof (sr_casm_marker _ _ Hr) as Hcm. rewrite zlength_snoc in Hcm.
  split; [done| |apply Hr|exact Hd|exact Hs|exact Hn|exact Hcs|].
  - rewrite Hm2. unfold marker_back. pose proof (zlength_nonneg ds). case_cmp; lia.
  - intros b d' h Hl Hh. unfold t', undo_changes, without_classes. txn_simpl.
    pose proof (lookup_z_Some _ _ _ Hl) as Hb.
    assert (Hl' : lookup_z (ds ++ [d]) b = Some d') by (rewrite lookup_z_snoc; case_cmp; [lia|done]).
    rewrite delete_keys_lookup, decide_False; [by eapply (sr_declared _ _ Hr)|].
    rewrite Hcl, list_elem_of_fmap. intros ([h1 c] & -> & (h2 & Hh2 & Hc)%list_elem_of_omap).
    apply fmap_Some in Hc as (c' & _ & [= <- <-]).
    pose proof (sr_declared _ _ Hr (zlength ds) d h1) as Hx. rewrite lookup_z_snoc, Z.eqb_refl in Hx.
    cbn [fst] in Hh. rewrite (sr_declared _ _ Hr _ _ _ Hl' Hh) in Hx. specialize (Hx eq_refl Hh2). simplify_eq. lia.
Qed.
End Revert.

(** * Classes, compiled classes and their markers

    The class definitions written by [append_classes] and [append_casm] are
    read back, earlier ones stay, and the compiled class marker moves over the
    blocks whose classes are complete. *)

Section ClassProps.
Context {BN : BlockNumberApi} {SN : StateNumberApi} {X : ExternalTypes} {SF : StorageFiles} {HS : HashSetIter}.

(** ** Readers *)

Definition deprecated_class_of (t : StorageTxn) (h : Z) : option DeprecatedContractClass :=
  t_deprecated_declared_classes t !! h ≫= fun v =>
    file_get (t_deprecated_contract_class_file t) (IndexedDeprecatedContractClass_location_in_file v).

Lemma get_class_rel t h : class_rel t -> get_class h t = Done t (class_of t h).
Proof.
  intros Hc. unfold get_class, class_of, tbl_get. run_txn.
  destruct (t_declared_classes t !! h) as [loc|] eqn:Hl; [|done]. destruct (cr_classes _ Hc _ _ Hl) as [c Hloc].
  rewrite (bind_step _ _ _ _ _ (get_unchecked_located t_contract_class_file _ _ _ Hloc)). cbn.
  by rewrite (proj2 (proj2 Hloc)).
Qed.

Lemma get_deprecated_class_rel t h : class_rel t -> get_deprecated_class h t = Done t (deprecated_class_of t h).
Proof.
  intros Hc. unfold get_deprecated_class, deprecated_class_of, tbl_get. run_txn.
  destruct (t_deprecated_declared_classes t !! h) as [v|] eqn:Hl; [|done].
  destruct (cr_deprecated _ Hc _ _ Hl) as [c Hloc].
  rewrite (bind_step _ _ _ _ _ (get_unchecked_located t_deprecated_contract_class_file _ _ _ Hloc)). cbn.
  by rewrite (proj2 (proj2 Hloc)).
Qed.

Lemma get_casm_rel t h : class_rel t -> get_casm h t = Done t (casm_of t h).
Proof.
  intros Hc. unfold get_casm, casm_of, tbl_get. run_txn.
  destruct (t_casms t !! h) as [loc|] eqn:Hl; [|done]. destruct (cr_casms _ Hc _ _ Hl) as [c Hloc].
  rewrite (bind_step _ _ _ _ _ (get_unchecked_located t_casm_file _ _ _ Hloc)). cbn.
  by rewrite (proj2 (proj2 Hloc)).
Qed.

(** ** Writing classes *)

(** The file takes the values one after another. *)
Fixpoint fits {F V} {H : FileHandler F V} (f : F) (l : list V) : Prop :=
  match l with
  | [] => True
  | v :: l' => storable v /\ exists f' loc, file_append f v = Some (f', loc) /\ fits f' l'
  end.

(** Everything but the class table, its file and offset. *)
Definition classes_written (t t' : StorageTxn) : Prop :=
  exists f table offsets, t' = set_file_offsets offsets (set_declared_classes table (set_contract_class_file f t)).

Lemma write_classes_done cs t :
  class_rel t -> NoDup cs.*1 -> (forall h, h ∈ cs.*1 -> t_declared_classes t !! h = None) ->
  fits (t_contract_class_file t) cs.*2 ->
  exists t', write_classes cs t = Done t' tt /\ class_rel t' /\ classes_written t t' /\
    forall h, class_of t' h = match (list_to_map cs : gmap Z ContractClass) !! h with
                              | Some c => Some c | None => class_of t h end.
Proof.
  unfold write_classes. revert t; induction cs as [|[h c] cs IH]; intros t Hr Hnd Hno Hfit; cbn [for_each].
  - exists t. split; [done|]. split; [done|]. split; [|done].
    exists (t_contract_class_file t), (t_declared_classes t), (t_file_offsets t). by destruct t.
  - cbn in Hnd, Hfit. apply NoDup_cons in Hnd as [Hh Hnd]. destruct Hfit as (Hst & f' & loc & Happ & Hfit).
    unfold append_to at 1. run_txn. rewrite Happ. run_txn.
    rewrite (proj1 (tbl_insert_ok _ _ _)) by (apply Hno; by left). run_txn.
    pose proof (file_append_location _ _ _ _ Happ) as (Ho & Hn & Hlen). unfold next_offset in Hn.
    destruct (cr_files _ Hr) as (Hf1 & Hf2 & Hf3).
    set (t1 := set_file_offsets _ _).
    assert (Hr1 : class_rel t1).
    { destruct Hr as [_ Hc Hd Hcc]. split; unfold t1; txn_simpl; [split_and!; lia| |done|done].
      intros h' loc' [[<- <-]|[_ Hl]]%lookup_insert_Some; [exists c; by eapply located_new|].
      destruct (Hc _ _ Hl) as [c' Hc']. exists c'. by eapply located_append. }
    assert (Hcl1 : forall h', class_of t1 h' = if decide (h = h') then Some c else class_of t h').
    { intros h'. unfold class_of, t1. txn_simpl. rewrite lookup_insert. case_decide.
      - cbn. by apply (file_append_get _ _ _ _ Hst Happ).
      - destruct (t_declared_classes t !! h') as [loc'|] eqn:Hl; [|done]. cbn.
        destruct (cr_classes _ Hr _ _ Hl) as (c' & H0 & Hlt & _). by apply (file_append_other _ _ _ _ _ Happ). }
    destruct (IH t1) as (t' & Hrun & Hr' & (f2 & tb & offs & Ht') & Hcl).
    + done.
    + done.
    + intros h' Hin. unfold t1. txn_simpl. rewrite lookup_insert_ne by congruence. apply Hno. by right.
    + done.
    + exists t'. split; [done|]. split; [done|]. split; [exists f2, tb, offs; by rewrite Ht'|].
      intros h'. rewrite Hcl, Hcl1. cbn [list_to_map foldr uncurry fst snd]. rewrite lookup_insert.
      case_decide; [subst h'|done]. by rewrite (not_elem_of_list_to_map_1 cs h).
Qed.

(** A class that is already stored. *)
Lemma write_classes_conflict cs t :
  ~ (forall h, h ∈ cs.*1 -> t_declared_classes t !! h = None) -> fits (t_contract_class_file t) cs.*2 ->
  exists t', write_classes cs t = Fail t' (StorageError_InnerError DbError_KeyAlreadyExists).
Proof.
  unfold write_classes. revert t; induction cs as [|[h c] cs IH]; intros t Hno Hfit; cbn [for_each].
  { destruct Hno. by intros h ?%elem_of_nil. }
  cbn in Hfit. destruct Hfit as (_ & f' & loc & Happ & Hfit). unfold append_to at 1. run_txn. rewrite Happ. run_txn.
  unfold tbl_insert. destruct (t_declared_classes t !! h) eqn:Hh; [by eexists|]. run_txn. apply IH; [|done].
  intros Hno'. apply Hno. intros h' [->|Hin]%elem_of_cons; [done|]. specialize (Hno' h' Hin). txn_simpl.
  rewrite lookup_insert in Hno'. by case_decide.
Qed.

(** Everything but the deprecated class table, its file and offset. *)
Definition deprecated_written (t t' : StorageTxn) : Prop :=
  exists f table offsets, t' = set_file_offsets offsets (set_deprecated_declared_classes table
    (set_deprecated_contract_class_file f t)).

(** The file takes those of the classes that are not yet in the table. *)
Definition missing (t : StorageTxn) (dcs : list (Z * DeprecatedContractClass)) : list (Z * DeprecatedContractClass) :=
  filter (fun hc => t_deprecated_declared_classes t !! hc.1 = None) dcs.

Lemma write_deprecated_classes_done dcs b t :
  class_rel t -> NoDup dcs.*1 -> fits (t_deprecated_contract_class_file t) (missing t dcs).*2 ->
  exists t', write_deprecated_classes dcs b t = Done t' tt /\ class_rel t' /\ deprecated_written t t' /\
    forall h, deprecated_class_of t' h =
      match deprecated_class_of t h with
      | Some c => Some c
      | None => (list_to_map dcs : gmap Z DeprecatedContractClass) !! h
      end.
Proof.
  unfold write_deprecated_classes.
  revert t; induction dcs as [|[h c] dcs IH]; intros t Hr Hnd Hfit; cbn [for_each].
  - exists t. split; [done|]. split; [done|].
    split; [|intros h; by destruct (deprecated_class_of t h)].
    exists (t_deprecated_contract_class_file t), (t_deprecated_declared_classes t), (t_file_offsets t). by destruct t.
  - cbn in Hnd. apply NoDup_cons in Hnd as [Hh Hnd]. run_txn. unfold tbl_get, missing in *.
    rewrite filter_cons in Hfit. cbn [fst] in Hfit.
    destruct (t_deprecated_declared_classes t !! h) as [v|] eqn:Hl.
    + rewrite decide_False in Hfit by done. run_txn. destruct (IH t) as (t' & Hrun & Hr' & Hw & Hcl); [done..|].
      exists t'. split; [done|]. split; [done|]. split; [done|]. intros h'. rewrite Hcl.
      cbn [list_to_map foldr uncurry fst snd]. rewrite lookup_insert. case_decide; [subst h'|done].
      unfold deprecated_class_of. rewrite Hl. cbn. destruct (cr_deprecated _ Hr _ _ Hl) as [c' Hc'].
      by rewrite (proj2 (proj2 Hc')).
    + rewrite decide_True in Hfit by done. cbn in Hfit. destruct Hfit as (Hst & f' & loc & Happ & Hfit).
      unfold append_to at 1. run_txn. rewrite Happ. run_txn.
      rewrite (proj1 (tbl_insert_ok _ _ _)) by done. run_txn.
      pose proof (file_append_location _ _ _ _ Happ) as (Ho & Hn & Hlen). unfold next_offset in Hn.
      destruct (cr_files _ Hr) as (Hf1 & Hf2 & Hf3).
      set (t1 := set_deprecated_declared_classes _ _).
      assert (Hr1 : class_rel t1).
      { destruct Hr as [_ Hc Hd Hcc]. split; unfold t1; txn_simpl; [split_and!; lia|done| |done].
        intros h' v' [[<- <-]|[_ Hl']]%lookup_insert_Some; [exists c; by eapply located_new|].
        destruct (Hd _ _ Hl') as [c' Hc']. exists c'. by eapply located_append. }
      assert (Hcl1 : forall h', deprecated_class_of t1 h' = if decide (h = h') then Some c else deprecated_class_of t h').
      { intros h'. unfold deprecated_class_of, t1. txn_simpl. rewrite lookup_insert. case_decide.
        - cbn. by apply (file_append_get _ _ _ _ Hst Happ).
        - destruct (t_deprecated_declared_classes t !! h') as [v'|] eqn:Hl'; [|done]. cbn.
          destruct (cr_deprecated _ Hr _ _ Hl') as (c' & H0 & Hlt & _). by apply (file_append_other _ _ _ _ _ Happ). }
      destruct (IH t1) as (t' & Hrun & Hr' & (f2 & tb & offs & Ht') & Hcl).
      * done.
      * done.
      * unfold t1. txn_simpl.
        rewrite (filter_ext_in _ (fun hc => t_deprecated_declared_classes t !! hc.1 = None)); [exact Hfit|].
        intros [h' c'] Hin. cbn. rewrite lookup_insert_ne; [done|]. intros ->. apply Hh.
        by apply (list_elem_of_fmap_2 fst) in Hin.
      * exists t'. split; [done|]. split; [done|]. split; [exists f2, tb, offs; by rewrite Ht'|].
        intros h'. rewrite Hcl, Hcl1. cbn [list_to_map foldr uncurry fst snd]. rewrite lookup_insert.
        case_decide; [subst h'|done]. unfold deprecated_class_of. by rewrite Hl.
Qed.

(** ** The compiled class marker *)

(** Blocks from the start that declare no class or whose last class is [h]. *)
Fixpoint leading_complete (h : Z) (ds : list ThinStateDiff) : Z :=
  match ds with
  | [] => 0
  | d :: ds' =>
      match last (ThinStateDiff_declared_classes d) with
      | Some (h', _) => if h' =? h then 1 + leading_complete h ds' else 0
      | None => 1 + leading_complete h ds'
      end
  end.

Definition next_incomplete (h : Z) (ds : list ThinStateDiff) (m : Z) : Z :=
  m + leading_complete h (drop (Z.to_nat m) ds).

Lemma leading_complete_bound h ds : 0 <= leading_complete h ds <= zlength ds.
Proof.
  unfold zlength. induction ds as [|d ds IH]; cbn [leading_complete length]; [lia|].
  destruct (last _) as [[h' c]|]; [case_cmp|]; lia.
Qed.

Lemma next_incomplete_bound h ds m : 0 <= m <= zlength ds -> m <= next_incomplete h ds m <= zlength ds.
Proof.
  intros Hm. unfold next_incomplete. pose proof (leading_complete_bound h (drop (Z.to_nat m) ds)) as Hb.
  unfold zlength in *. rewrite length_drop in Hb. lia.
Qed.

Lemma diffs_rel_size t ds : diffs_rel t ds -> size (t_state_diffs t) = length ds.
Proof.
  intros Hd. rewrite <-(size_dom (D := gset Z)).
  assert (dom (t_state_diffs t) = list_to_set (C := gset Z) (seqZ 0 (zlength ds))) as ->.
  { apply set_eq. intros b. rewrite elem_of_dom, elem_of_list_to_set, elem_of_seqZ. specialize (Hd b).
    pose proof (lookup_z_is_Some ds b) as Hl. rewrite Z.add_0_l, <-Hl.
    destruct (t_state_diffs t !! b), (lookup_z ds b); split; intros [? ?]; done || eauto. }
  rewrite size_list_to_set by apply NoDup_seqZ. rewrite length_seqZ. unfold zlength. lia.
Qed.

Lemma update_casm_marker_loop_done ds h fuel m t :
  diffs_rel t ds -> 0 <= m <= zlength ds -> zlength ds < 2 ^ 32 -> marker MarkerKind_CompiledClass t = m ->
  (Z.to_nat (zlength ds - m) < fuel)%nat ->
  exists t', update_casm_marker_loop fuel h m t = Done t' tt /\ casm_marker_moved t t' (next_incomplete h ds m).
Proof.
  revert m t; induction fuel as [|fuel IH]; intros m t Hd Hm Hlt Hmk Hf; [lia|].
  cbn [update_casm_marker_loop]. run_txn. unfold tbl_get.
  destruct (lookup_z ds m) as [d|] eqn:Hl.
  - pose proof (lookup_z_Some _ _ _ Hl) as Hms.
    destruct (read_diff t ds m d) as (loc & Hloc & Hget); [done|done|].
    rewrite Hloc, (bind_step _ _ _ _ _ Hget). unfold next_incomplete.
    rewrite (drop_lookup_z _ _ _ Hl). cbn [leading_complete].
    assert (Hadv : exists t', (upsert_marker MarkerKind_CompiledClass (bn_unchecked_next m) ;!
        update_casm_marker_loop fuel h (bn_unchecked_next m)) t = Done t' tt /\
      casm_marker_moved t t' (m + (1 + leading_complete h (drop (Z.to_nat (m + 1)) ds)))).
    { unfold upsert_marker. run_txn. rewrite bn_unchecked_next_small by lia.
      destruct (IH (m + 1) (set_markers (tbl_upsert (t_markers t) MarkerKind_CompiledClass (m + 1)) t))
        as (t' & Hrun & Hmv); [done|lia|done|by rewrite marker_upsert|lia|].
      exists t'. split; [done|]. apply casm_marker_moved_upsert in Hmv.
      unfold next_incomplete in Hmv. by rewrite Z.add_assoc. }
    destruct (last _) as [[h' c]|]; [|done]. destruct (h' =? h); cbn [negb]; [done|].
    exists t. split; [done|]. rewrite Z.add_0_r, <-Hmk. apply casm_marker_moved_refl.
  - specialize (Hd m). rewrite Hl in Hd. destruct (t_state_diffs t !! m); [done|].
    exists t. split; [done|]. apply lookup_z_None in Hl. assert (m = zlength ds) as -> by lia.
    unfold next_incomplete. unfold zlength at 2. rewrite Nat2Z.id, drop_all. cbn.
    rewrite Z.add_0_r, <-Hmk. apply casm_marker_moved_refl.
Qed.

(** The block at which the marker stops is the first, from the old marker on,
    with a class that is not complete. *)
Lemma next_incomplete_spec h ds m b d :
  0 <= m -> m <= b < next_incomplete h ds m -> lookup_z ds b = Some d ->
  match last (ThinStateDiff_declared_classes d) with Some (h', _) => h' = h | None => True end.
Proof.
  unfold next_incomplete. intros Hm Hb Hl.
  assert (Hi : drop (Z.to_nat m) ds !! Z.to_nat (b - m) = Some d).
  { rewrite lookup_drop. unfold lookup_z in Hl. rewrite (proj2 (Z.leb_le _ _)) in Hl by lia.
    rewrite <-Hl. f_equal. lia. }
  assert (Hlt : Z.of_nat (Z.to_nat (b - m)) < leading_complete h (drop (Z.to_nat m) ds)) by lia.
  clear Hb Hl. revert Hi Hlt. generalize (Z.to_nat (b - m)) as i. generalize (drop (Z.to_nat m) ds) as l.
  clear. induction l as [|d0 l IH]; intros i Hi Hlt; [done|]. cbn [leading_complete] in Hlt.
  destruct i as [|i].
  - cbn in Hi. injection Hi as ->. destruct (last _) as [[h' c]|]; [|done].
    destruct (Z.eqb_spec h' h); [done|]. cbn in Hlt. lia.
  - apply (IH i Hi). destruct (last (ThinStateDiff_declared_classes d0)) as [[h' c]|]; [destruct (h' =? h)|]; lia.
Qed.

(** A compiled class that is already stored. *)
Lemma append_casm_conflict t h casm :
  t_casms t !! h <> None -> is_Some (file_append (t_casm_file t) casm) ->
  exists t', append_casm h casm t = Fail t' (StorageError_InnerError DbError_KeyAlreadyExists).
Proof.
  intros Hh [[f loc] Happ]. unfold append_casm, append_to. run_txn. rewrite Happ. run_txn. unfold tbl_insert.
  destruct (t_casms t !! h); [by eexists|done].
Qed.

Lemma append_casm_done t ds h casm f loc :
  state_rel t ds -> class_rel t -> zlength ds < 2 ^ 32 -> t_casms t !! h = None -> storable casm ->
  file_append (t_casm_file t) casm = Some (f, loc) ->
  exists t', append_casm h casm t = Done t' tt /\ state_rel t' ds /\ class_rel t' /\
    marker MarkerKind_CompiledClass t' = next_incomplete h ds (marker MarkerKind_CompiledClass t) /\
    (forall kind, kind <> MarkerKind_CompiledClass -> marker kind t' = marker kind t) /\
    (forall h', casm_of t' h' = if decide (h = h') then Some casm else casm_of t h') /\
    exists f table offsets markers, t' = set_markers markers (set_file_offsets offsets (set_casms table (set_casm_file f t))).
Proof.
  intros Hr Hc Hlt Hno Hst Happ. unfold append_casm, append_to. run_txn. rewrite Happ. run_txn.
  rewrite (proj1 (tbl_insert_ok _ _ _)) by done. run_txn. set (t1 := set_file_offsets _ _).
  assert (Hr1 : state_rel t1 ds) by (by destruct Hr; split).
  unfold update_casm_marker, get_marker. run_txn. unfold tbl_get.
  change (default 0 (t_markers t1 !! MarkerKind_CompiledClass)) with (marker MarkerKind_CompiledClass t1).
  pose proof (sr_casm_marker _ _ Hr1) as Hm. pose proof (diffs_rel_size _ _ (sr_diffs _ _ Hr1)) as Hsz.
  destruct (update_casm_marker_loop_done ds h (S (size (t_state_diffs t1))) (marker MarkerKind_CompiledClass t1) t1)
    as (t' & Hrun & Hmv); [apply Hr1|done|done|done|rewrite Hsz; unfold zlength; lia|].
  exists t'. split; [done|].
  split; [eapply state_rel_casm_moved; [exact Hmv|pose proof (next_incomplete_bound h ds _ Hm); lia|done]|].
  destruct Hmv as (mk & -> & Hmk & Ho). pose proof (file_append_location _ _ _ _ Happ) as (Ho' & Hn & Hlen).
  unfold next_offset in Hn. destruct (cr_files _ Hc) as (Hf1 & Hf2 & Hf3). split; [|split; [done|split; [done|split; [|by unfold t1; repeat eexists]]]].
  - destruct Hc as [_ Hcc Hd Hca]. split; unfold t1; txn_simpl; [split_and!; lia|done|done|].
    intros h' loc' [[<- <-]|[_ Hl]]%lookup_insert_Some; [exists casm; by eapply located_new|].
    destruct (Hca _ _ Hl) as [c' Hc']. exists c'. by eapply located_append.
  - intros h'. unfold casm_of, t1. txn_simpl. rewrite lookup_insert. case_decide.
    + cbn. by apply (file_append_get _ _ _ _ Hst Happ).
    + destruct (t_casms t !! h') as [loc'|] eqn:Hl; [|done]. cbn.
      destruct (cr_casms _ Hc _ _ Hl) as (c' & H0 & Hlt' & _). by apply (file_append_other _ _ _ _ _ Happ).
Qed.
End ClassProps.

(** * What the state storage guarantees

    The theorems on [state/mod.rs], [class.rs] and [compiled_class.rs]; their
    witnesses are in [StorageWitnesses.v]. *)

Section Theorems.
Context {BN : BlockNumberApi} {SN : StateNumberApi} {X : ExternalTypes} {SF : StorageFiles} {HS : HashSetIter}.

(** A state diff that can be appended: its maps are maps, its classes are new
    and the file takes it. *)
Record appendable (t : StorageTxn) (d : ThinStateDiff) : Prop := {
  ap_ok : diff_ok d;
  ap_storable : storable d;
  ap_fits : is_Some (file_append (t_thin_state_diff_file t) d);
  ap_fresh : forall h, h ∈ (ThinStateDiff_declared_classes d).*1 -> t_declared_classes_block t !! h = None
}.

(** The markers do not change while the tables of a block are written. *)
Lemma for_each_markers {A} (l : list A) (body : A -> Txn unit) t t' u :
  (forall x s s' u, body x s = Done s' u -> t_markers s' = t_markers s) ->
  for_each l body t = Done t' u -> t_markers t' = t_markers t.
Proof.
  intros Hb. revert t; induction l as [|x l IH]; intros t; cbn [for_each].
  - by intros [= -> _].
  - intros (t1 & [] & H1 & H2)%bind_Done. rewrite (IH _ H2). by eapply (Hb x).
Qed.

Ltac run_db := unfold db in *;
  repeat match goal with
  | H : match ?r with DbOk _ => _ | DbErr _ => _ end _ = Done _ _ |- _ => destruct r; inv_run
  end.

Ltac keep_markers := eapply for_each_markers; [|done]; intros [? ?] ?s ?s' ? ?; inv_run; run_db; txn_simpl; try done.

Lemma append_state_diff_at_marker b d t t' :
  append_state_diff b d t = Done t' tt -> b = marker MarkerKind_State t.
Proof.
  unfold append_state_diff. intros Hrun. inv_run.
  assert (H1' : t_markers s = t_markers t).
  { keep_markers. destruct (contains_key _ _); inv_run; [done|]. run_db. done. }
  assert (H2' : t_markers s0 = t_markers s) by (keep_markers; keep_markers).
  assert (H3' : t_markers s1 = t_markers s0) by keep_markers.
  assert (H4' : t_markers s2 = t_markers s1) by keep_markers.
  assert (H5' : t_markers s3 = t_markers s2) by keep_markers.
  assert (H6' : t_markers a5 = t_markers s3).
  { unfold append_to in H4. inv_run. repeat match goal with p : (_ * _)%type |- _ => destruct p end. inv_run. done. }
  run_db. unfold update_marker_to_next_block, get_marker in *. inv_run. unfold tbl_get in *.
  destruct (negb _) eqn:Hm; inv_run. apply negb_false_iff, Z.eqb_eq in Hm. txn_simpl.
  unfold marker. congruence.
Qed.

(** C4: [append_state_diff] of the next block succeeds and appends the state
    diff to the list the storage holds; the compiled class marker then stands
    at the first block that declares a class. Any other block number is
    refused. *)
Theorem append_state_diff_refines (t : StorageTxn) (ds : list ThinStateDiff) (b : Z) (d : ThinStateDiff) :
  state_rel t ds -> zlength ds < 2 ^ 32 - 1 -> appendable t d ->
  if b =? zlength ds
  then exists t', append_state_diff b d t = Done t' tt /\ state_rel t' (ds ++ [d]) /\
         marker MarkerKind_CompiledClass t' = next_declaring (ds ++ [d]) (marker MarkerKind_CompiledClass t)
  else forall t', append_state_diff b d t <> Done t' tt.
Proof.
  intros Hr Hlt [Hok Hst [[f loc] Happ] Hfr]. destruct (Z.eqb_spec b (zlength ds)) as [->|Hb].
  - destruct (append_state_diff_done t ds d f loc) as (t' & Hrun & Hmv); [done..|]. exists t'. split; [done|].
    pose proof (sr_casm_marker _ _ Hr) as Hcm.
    split; [|by destruct Hmv as (? & _ & ? & _)]. eapply state_rel_casm_moved; [exact Hmv| |by apply state_rel_appended].
    pose proof (next_declaring_bound (ds ++ [d]) (marker MarkerKind_CompiledClass t)) as Hn.
    rewrite zlength_snoc in *. lia.
  - intros t' Hrun%append_state_diff_at_marker. by rewrite (sr_marker _ _ Hr) in Hrun.
Qed.

(** The compiled classes of the hashes up to the first that has none. *)
Definition casms_until_missing (t : StorageTxn) (hs : list Z) (casms : list (Z * CasmContractClass)) : Prop :=
  exists rest, hs = casms.*1 ++ rest /\ match rest with [] => True | h :: _ => t_casms t !! h = None end /\
    Forall (fun hc => casm_of t hc.1 = Some hc.2) casms.

(** C9: Reverting the last state diff gives back the history before it and moves the
    markers back. It returns the diff, the definitions stored for the classes it
    declares, those of the deprecated classes it introduced (in any order) and the
    compiled classes up to the first declared class that has none; the classes that
    are returned, and no others, are gone from the tables. Any other block is left
    alone. *)
Theorem revert_state_diff_refines (t : StorageTxn) (ds : list ThinStateDiff) (d : ThinStateDiff) (b : Z) :
  state_rel t (ds ++ [d]) -> class_rel t -> diff_ok d -> zlength ds < 2 ^ 32 - 1 -> 0 <= b < 2 ^ 32 ->
  if b =? zlength ds
  then exists t' classes deprecated casms,
         revert_state_diff b t = Done t' (Some (d, classes, deprecated, casms)) /\
         state_rel t' ds /\ class_rel t' /\
         (forall kind, marker kind t' =
            match kind with
            | MarkerKind_State => b
            | MarkerKind_Class | MarkerKind_CompiledClass => marker_back b (marker kind t)
            | _ => marker kind t
            end) /\
         classes = omap (fun h => pair h <$> class_of t h) (ThinStateDiff_declared_classes d).*1 /\
         deprecated ≡ₚ omap (fun h => pair h <$> deprecated_of t b h) (deprecated_hashes d) /\
         casms_until_missing t (ThinStateDiff_declared_classes d).*1 casms /\
         (forall h, class_of t' h = if decide (h ∈ (ThinStateDiff_declared_classes d).*1) then None else class_of t h) /\
         (forall h, t_declared_classes_block t' !! h = if decide (h ∈ classes.*1) then None else t_declared_classes_block t !! h) /\
         (forall h, t_deprecated_declared_classes t' !! h =
            if decide (h ∈ deprecated.*1) then None else t_deprecated_declared_classes t !! h) /\
         (forall h, casm_of t' h = if decide (h ∈ casms.*1) then None else casm_of t h)
  else revert_state_diff b t = Done t None.
Proof.
  intros Hr Hc Hok Hlt Hb. destruct (Z.eqb_spec b (zlength ds)) as [->|Hne].
  - destruct (revert_state_diff_done t ds d) as (t' & classes & dep & casms & rest & mk & Hrun & Ht' & Hm & Hcl & Hcasms & Hrest & Hall & Hdep);
      [done|done|done|lia|]. exists t', classes, dep, casms. split; [done|].
    split. { rewrite Ht' in *. apply revert_state_rel; [done|done|done|apply (Hm MarkerKind_State)|apply (Hm MarkerKind_CompiledClass)]. }
    split; [rewrite Ht'; by apply class_rel_deleted|]. split_and!; [done|done|done|by exists rest|..]; intros h; rewrite Ht';
      unfold class_of, casm_of, undo_changes, without_classes; txn_simpl; rewrite delete_keys_lookup; by case_decide.
  - unfold revert_state_diff, get_state_marker, get_marker. run_txn. unfold tbl_get.
    change (default 0 (t_markers t !! MarkerKind_State)) with (marker MarkerKind_State t).
    rewrite bn_next_small, (sr_marker _ _ Hr), zlength_snoc by lia.
    by rewrite (proj2 (Z.eqb_neq _ _)) by lia.
Qed.

(** C23: the readers answer for the state before any block with the last change
    among the state diffs of the earlier blocks: a storage cell (zero when it
    was never written), a nonce (zero from the deployment on), and a class
    hash; the state diff of a block is read back as it was appended. *)
Theorem state_readers_refine (t : StorageTxn) (ds : list ThinStateDiff) (n : StateNumber) (a k b : Z) :
  state_rel t ds ->
  get_storage_at n a k t = Done t (default 0 (last_change (fun d => diff_storage d (a, k)) ds (block_after n))) /\
  get_nonce_at n a t = Done t (last_change (fun d => diff_nonce d a) ds (block_after n)) /\
  get_class_hash_at n a t = Done t (last_change (fun d => diff_class d a) ds (block_after n)) /\
  get_state_diff b t = Done t (lookup_z ds b).
Proof.
  intros Hr. split; [by apply get_storage_at_rel|]. split; [by apply get_nonce_at_rel|].
  split; [by apply get_class_hash_at_rel|by apply get_state_diff_rel].
Qed.

(** a state diff appended at block [b] leaves every read of the states up
    to [b] as it was; a read of a later state gives the value of the diff, and
    where the diff says nothing the value before. *)
Theorem append_keeps_history (t t' : StorageTxn) (ds : list ThinStateDiff) (d : ThinStateDiff) (a k : Z)
    (n old : StateNumber) :
  state_rel t ds -> zlength ds < 2 ^ 32 - 1 -> appendable t d -> block_after old = zlength ds ->
  append_state_diff (zlength ds) d t = Done t' tt ->
  exists before v,
    get_storage_at old a k t = Done t before /\ get_storage_at n a k t' = Done t' v /\
    (if block_after n <=? zlength ds then get_storage_at n a k t = Done t v
     else v = default before (diff_storage d (a, k))).
Proof.
  intros Hr Hlt [Hok Hst [[f loc] Happ] Hfr] Hold Hrun.
  destruct (append_state_diff_done t ds d f loc) as (t'' & Hrun' & Hmv); [done..|].
  rewrite Hrun in Hrun'. injection Hrun' as <-.
  assert (Hr' : state_rel t' (ds ++ [d])).
  { pose proof (sr_casm_marker _ _ Hr). pose proof (next_declaring_bound (ds ++ [d]) (marker MarkerKind_CompiledClass t)).
    eapply state_rel_casm_moved; [exact Hmv| |by apply state_rel_appended]. rewrite zlength_snoc in *. lia. }
  do 2 eexists. split; [by apply get_storage_at_rel|]. split; [by apply get_storage_at_rel|].
  rewrite last_change_snoc. destruct (block_after n <=? zlength ds).
  - by apply get_storage_at_rel.
  - rewrite Hold. by destruct (diff_storage d (a, k)).
Qed.

(** [append_casm] of a new compiled class succeeds: the class is read back
    and the others stay, the loop over the state diffs ends, and the marker
    moves, never past the state marker, exactly over the blocks that declare no
    class or whose last class is the new one. *)
Theorem append_casm_marker (t : StorageTxn) (ds : list ThinStateDiff) (h : Z) (casm : CasmContractClass) :
  state_rel t ds -> class_rel t -> zlength ds < 2 ^ 32 -> t_casms t !! h = None -> storable casm ->
  is_Some (file_append (t_casm_file t) casm) ->
  exists t', append_casm h casm t = Done t' tt /\ state_rel t' ds /\ class_rel t' /\
    (forall h', get_casm h' t' = Done t' (if decide (h = h') then Some casm else casm_of t h')) /\
    marker MarkerKind_CompiledClass t' = next_incomplete h ds (marker MarkerKind_CompiledClass t) /\
    marker MarkerKind_CompiledClass t <= marker MarkerKind_CompiledClass t' <= zlength ds /\
    forall b d, marker MarkerKind_CompiledClass t <= b < marker MarkerKind_CompiledClass t' ->
      lookup_z ds b = Some d ->
      match last (ThinStateDiff_declared_classes d) with Some (h', _) => h' = h | None => True end.
Proof.
  intros Hr Hc Hlt Hno Hst [[f loc] Happ].
  destruct (append_casm_done t ds h casm f loc) as (t' & Hrun & Hr' & Hc' & Hm & _ & Hcasm & _); [done..|].
  exists t'. split; [done|]. split; [done|]. split; [done|].
  split; [intros h'; by rewrite get_casm_rel, Hcasm by done|]. split; [done|]. rewrite Hm.
  split; [apply next_incomplete_bound, Hr|]. intros b d. apply next_incomplete_spec, Hr.
Qed.

(** [append_classes] of the block at the class marker stores every new
    class and the first definition of every deprecated class: all are read
    back, the definitions stored before stay, and the marker moves to the next
    block. Another block number is refused with a marker mismatch. *)
Theorem append_classes_reads (t : StorageTxn) (b : Z) (cs : list (Z * ContractClass))
    (dcs : list (Z * DeprecatedContractClass)) :
  class_rel t -> 0 <= b < 2 ^ 32 -> NoDup cs.*1 -> NoDup dcs.*1 ->
  (forall h, h ∈ cs.*1 -> t_declared_classes t !! h = None) ->
  fits (t_contract_class_file t) cs.*2 -> fits (t_deprecated_contract_class_file t) (missing t dcs).*2 ->
  if b =? marker MarkerKind_Class t
  then exists t', append_classes b cs dcs t = Done t' tt /\ class_rel t' /\ marker MarkerKind_Class t' = b + 1 /\
    forall h,
      get_class h t' = Done t' (match (list_to_map cs : gmap Z ContractClass) !! h with
                                | Some c => Some c | None => class_of t h end) /\
      get_deprecated_class h t' = Done t' (match deprecated_class_of t h with
                                | Some c => Some c
                                | None => (list_to_map dcs : gmap Z DeprecatedContractClass) !! h end)
  else append_classes b cs dcs t = Fail t (StorageError_MarkerMismatch (marker MarkerKind_Class t) b).
Proof.
  intros Hr Hb Hnd Hnd' Hno Hf Hf'. unfold append_classes, get_marker. run_txn. unfold tbl_get.
  change (default 0 (t_markers t !! MarkerKind_Class)) with (marker MarkerKind_Class t).
  destruct (b =? marker MarkerKind_Class t); cbn [negb]; [|done].
  destruct (write_classes_done cs t) as (t1 & Hrun1 & Hr1 & (f & tb & offs & Ht1) & Hcl); [done..|].
  rewrite (bind_step _ _ _ _ _ Hrun1).
  destruct (write_deprecated_classes_done dcs b t1) as (t2 & Hrun2 & Hr2 & (f2 & tb2 & offs2 & Ht2) & Hdcl);
    [done|done|by rewrite Ht1|].
  rewrite (bind_step _ _ _ _ _ Hrun2). unfold upsert_marker, modify. rewrite bn_unchecked_next_small by lia.
  eexists. split; [done|]. split; [by destruct Hr2; split|].
  split; [rewrite marker_upsert; by rewrite decide_True|]. intros h. split.
  - rewrite get_class_rel by (by destruct Hr2; split). rewrite <-Hcl. by rewrite Ht2.
  - rewrite get_deprecated_class_rel by (by destruct Hr2; split).
    transitivity (Done (E := StorageError) (set_markers (tbl_upsert (t_markers t2) MarkerKind_Class (b + 1)) t2)
      (deprecated_class_of t2 h)); [done|]. rewrite Hdcl. by rewrite Ht1.
Qed.
End Theorems.
