(* ===== verification/StorageVersion.v ===== *)
(** * Storage versions

    Models [crates/papyrus_storage/src/version.rs] and the part of
    [open_storage] in [lib.rs] that checks and updates the versions written in
    the storage: [set_version_if_needed], [get_storage_version] and
    [verify_storage_version]. The scope of the transaction is the scope the
    writer and the reader were opened with. *)

From stdpp Require Import base gmap list strings fin_maps.
From Stdlib Require Import ZArith Lia.
From S2P Require Import Prelude StorageTables StarknetTypes StorageTxn.

Definition STORAGE_VERSION_STATE : Version := mkVersion 1 1.
Definition STORAGE_VERSION_BLOCKS : Version := mkVersion 2 0.

(** The bytes of "storage_version_state" and "storage_version_blocks". *)
Definition VERSION_PREFIX : list Z :=
  [115; 116; 111; 114; 97; 103; 101; 95; 118; 101; 114; 115; 105; 111; 110; 95].
Definition VERSION_STATE_KEY : list Z := VERSION_PREFIX ++ [115; 116; 97; 116; 101].
Definition VERSION_BLOCKS_KEY : list Z := VERSION_PREFIX ++ [98; 108; 111; 99; 107; 115].

Inductive StorageVersion : Type :=
| StorageVersion_FullArchive (state_version blocks_version : Version)
| StorageVersion_StateOnly (state_version : Version).

Section Version.
Context {X : ExternalTypes} {SF : StorageFiles}.

(** ** Reading and writing a version *)

Definition get_version (key : list Z) : Txn (option Version) :=
  let! self := get in ret (tbl_get (t_storage_version self) key).

Definition get_state_version : Txn (option Version) := get_version VERSION_STATE_KEY.
Definition get_blocks_version : Txn (option Version) := get_version VERSION_BLOCKS_KEY.

Definition set_version (key : list Z) (version : Version) : Txn unit :=
  let! current := get_version key in
  let write := modify (fun t => set_storage_version (tbl_upsert (t_storage_version t) key version) t) in
  match current with
  | Some current_storage_version =>
      if negb (Version_major current_storage_version =? Version_major version) then
        raise (StorageError_StorageVersionInconsistency (SetMajorVersion version current_storage_version))
      else if Version_minor version <=? Version_minor current_storage_version then
        raise (StorageError_StorageVersionInconsistency (SetLowerVersion version current_storage_version))
      else write
  | None => write
  end.

Definition set_state_version (version : Version) : Txn unit := set_version VERSION_STATE_KEY version.
Definition set_blocks_version (version : Version) : Txn unit := set_version VERSION_BLOCKS_KEY version.

Definition delete_blocks_version : Txn unit :=
  modify (fun t => set_storage_version (tbl_delete (t_storage_version t) VERSION_BLOCKS_KEY) t).

(** ** Opening a storage *)

(** [begin_rw_txn()? ... .commit()?]: a transaction that fails is not committed. *)
Definition in_rw_txn {A} (m : Txn A) : Txn A :=
  fun t => match m t with Done t' a => Done t' a | Fail _ e => Fail t e | Panic => Panic end.

Definition get_storage_version : Txn (option StorageVersion) :=
  let! current_storage_version_state := get_state_version in
  let! current_storage_version_blocks := get_blocks_version in
  match current_storage_version_state with
  | None => ret None
  | Some state_version =>
      match current_storage_version_blocks with
      | Some blocks_version => ret (Some (StorageVersion_FullArchive state_version blocks_version))
      | None => ret (Some (StorageVersion_StateOnly state_version))
      end
  end.

(** The crate's version is a higher minor of the stored one. *)
Definition is_update (crate_version stored : Version) : bool :=
  (Version_major crate_version =? Version_major stored) && (Version_minor stored <? Version_minor crate_version).

Section Crate.
(** The versions of the crate. *)
Variables crate_state crate_blocks : Version.

Definition update_versions (existing : StorageVersion) : Txn unit :=
  match existing with
  | StorageVersion_FullArchive state_version blocks_version =>
      (if is_update crate_state state_version then set_state_version crate_state else ret tt) ;!
      (if is_update crate_blocks blocks_version then set_blocks_version crate_blocks else ret tt)
  | StorageVersion_StateOnly state_version =>
      if is_update crate_state state_version then set_state_version crate_state else ret tt
  end.

Definition set_version_if_needed_at : Txn unit :=
  let! self := get in
  let scope := t_scope self in
  let! existing := get_storage_version in
  match existing with
  | None =>
      in_rw_txn (set_state_version crate_state) ;!
      match scope with
      | StorageScope_FullArchive => in_rw_txn (set_blocks_version crate_blocks)
      | StorageScope_StateOnly => ret tt
      end
  | Some existing_storage_version =>
      match existing_storage_version, scope with
      | StorageVersion_FullArchive _ _, StorageScope_StateOnly => in_rw_txn delete_blocks_version
      | StorageVersion_StateOnly _, StorageScope_FullArchive =>
          raise (StorageError_StorageVersionInconsistency InconsistentStorageScope)
      | _, _ => ret tt
      end ;!
      in_rw_txn (update_versions existing_storage_version)
  end.

Definition verify_storage_version_at : Txn unit :=
  let inconsistent crate_version storage_version :=
    raise (StorageError_StorageVersionInconsistency (InconsistentStorageVersion crate_version storage_version)) in
  let! existing_storage_version := get_storage_version in
  match existing_storage_version with
  | None => panic
  | Some (StorageVersion_FullArchive state_version blocks_version) =>
      if decide (crate_state <> state_version) then inconsistent crate_state state_version
      else if decide (crate_blocks <> blocks_version) then inconsistent crate_blocks blocks_version
      else ret tt
  | Some (StorageVersion_StateOnly state_version) =>
      if decide (crate_state <> state_version) then inconsistent crate_state state_version else ret tt
  end.

Definition open_storage_version_at : Txn unit :=
  set_version_if_needed_at ;! verify_storage_version_at.
End Crate.

Definition set_version_if_needed : Txn unit :=
  set_version_if_needed_at STORAGE_VERSION_STATE STORAGE_VERSION_BLOCKS.
Definition verify_storage_version : Txn unit :=
  verify_storage_version_at STORAGE_VERSION_STATE STORAGE_VERSION_BLOCKS.

(** The versions in [open_storage]. *)
Definition open_storage_version : Txn unit := set_version_if_needed ;! verify_storage_version.

(** ** Which storages open *)

Definition state_version_of (t : StorageTxn) : option Version := t_storage_version t !! VERSION_STATE_KEY.
Definition blocks_version_of (t : StorageTxn) : option Version := t_storage_version t !! VERSION_BLOCKS_KEY.

(** Same major version and no higher minor version. *)
Definition not_newer (stored crate_version : Version) : bool :=
  (Version_major stored =? Version_major crate_version) && (Version_minor stored <=? Version_minor crate_version).

Definition opens (t : StorageTxn) : bool :=
  match state_version_of t, blocks_version_of t, t_scope t with
  | None, _, _ => true
  | Some s, Some b, StorageScope_FullArchive => not_newer s STORAGE_VERSION_STATE && not_newer b STORAGE_VERSION_BLOCKS
  | Some s, Some _, StorageScope_StateOnly => not_newer s STORAGE_VERSION_STATE
  | Some s, None, StorageScope_StateOnly => not_newer s STORAGE_VERSION_STATE
  | Some _, None, StorageScope_FullArchive => false
  end.

(** What the open storage says of itself. *)
Definition versions_current (t : StorageTxn) : Prop :=
  state_version_of t = Some STORAGE_VERSION_STATE /\
  blocks_version_of t = match t_scope t with
                        | StorageScope_FullArchive => Some STORAGE_VERSION_BLOCKS
                        | StorageScope_StateOnly => None
                        end.

(** The versions of a storage that this code wrote. *)
Definition versions_wf (t : StorageTxn) : Prop :=
  (state_version_of t = None -> blocks_version_of t = None) /\
  (forall v, state_version_of t = Some v \/ blocks_version_of t = Some v ->
     0 <= Version_major v /\ 0 <= Version_minor v).

Lemma get_storage_version_run t :
  get_storage_version t =
  Done t (match state_version_of t, blocks_version_of t with
          | None, _ => None
          | Some s, Some b => Some (StorageVersion_FullArchive s b)
          | Some s, None => Some (StorageVersion_StateOnly s)
          end).
Proof.
  unfold get_storage_version, get_state_version, get_blocks_version, get_version, tbl_get. run_txn.
  fold (state_version_of t) (blocks_version_of t).
  by destruct (state_version_of t), (blocks_version_of t).
Qed.

Lemma not_newer_cases s v :
  not_newer s v = true -> s = v \/ is_update v s = true.
Proof.
  unfold not_newer, is_update. destruct s as [sM sm], v as [vM vm]. cbn.
  intros [->%Z.eqb_eq Hm%Z.leb_le]%andb_true_iff. rewrite Z.eqb_refl.
  destruct (Z.ltb_spec sm vm); [by right|]. left. f_equal; lia.
Qed.

Lemma not_newer_false s v : not_newer s v = false -> is_update v s = false /\ v <> s.
Proof.
  unfold not_newer, is_update. destruct s as [sM sm], v as [vM vm]. cbn. intros Hn. split.
  - apply not_true_iff_false. intros [->%Z.eqb_eq Hm%Z.ltb_lt]%andb_true_iff.
    rewrite Z.eqb_refl in Hn. cbn in Hn. apply Z.leb_gt in Hn. lia.
  - intros [= -> ->]. by rewrite Z.eqb_refl, Z.leb_refl in Hn.
Qed.

Lemma is_update_irrefl v : is_update v v = false.
Proof. unfold is_update. by rewrite Z.ltb_irrefl, andb_false_r. Qed.

(** An update is written. *)
Lemma set_version_update key v s t :
  t_storage_version t !! key = Some s -> is_update v s = true ->
  set_version key v t = Done (set_storage_version (<[key := v]> (t_storage_version t)) t) tt.
Proof.
  unfold is_update, set_version, get_version, tbl_get. intros Hs Hu. run_txn. rewrite Hs.
  apply andb_true_iff in Hu as [HM%Z.eqb_eq Hm%Z.ltb_lt]. rewrite HM, Z.eqb_refl. cbn [negb].
  destruct (Z.leb_spec (Version_minor v) (Version_minor s)); [lia|done].
Qed.

Lemma set_version_new key v t :
  t_storage_version t !! key = None ->
  set_version key v t = Done (set_storage_version (<[key := v]> (t_storage_version t)) t) tt.
Proof. unfold set_version, get_version, tbl_get. intros Hs. run_txn. by rewrite Hs. Qed.

Lemma version_keys_differ : VERSION_STATE_KEY <> VERSION_BLOCKS_KEY.
Proof. done. Qed.

(** Only the table of the versions changed. *)
Definition only_versions (t t' : StorageTxn) : Prop := exists table, t' = set_storage_version table t.

(** Updating one version: afterwards it is the crate's, if it was not newer. *)
Definition updated (v s : Version) : Version := if is_update v s then v else s.

Definition maybe_update (key : list Z) (v s : Version) : Txn unit :=
  if is_update v s then set_version key v else ret tt.

Lemma maybe_update_run key v s t :
  t_storage_version t !! key = Some s ->
  maybe_update key v s t = Done (set_storage_version (<[key := updated v s]> (t_storage_version t)) t) tt.
Proof.
  unfold maybe_update, updated. intros Hs. destruct (is_update v s) eqn:Hu; [by apply set_version_update with s|].
  unfold ret. rewrite insert_id by done. by destruct t.
Qed.

Lemma updated_current v s : not_newer s v = true -> updated v s = v.
Proof. unfold updated. intros [->|Hu]%not_newer_cases; [by rewrite is_update_irrefl|by rewrite Hu]. Qed.

Lemma updated_other v s : not_newer s v = false -> v <> updated v s.
Proof. unfold updated. intros [Hu Hn]%not_newer_false. by rewrite Hu. Qed.

Lemma in_rw_txn_done {A} (m : Txn A) t t' a : m t = Done t' a -> in_rw_txn m t = Done t' a.
Proof. unfold in_rw_txn. by intros ->. Qed.

Lemma bind_in_rw_modify {A} (f : StorageTxn -> StorageTxn) (k : unit -> Txn A) t :
  bind (in_rw_txn (modify f)) k t = k tt (f t).
Proof. reflexivity. Qed.

(** What [verify_storage_version] makes of the versions. *)
Lemma verify_full t s b :
  state_version_of t = Some s -> blocks_version_of t = Some b ->
  if decide (s = STORAGE_VERSION_STATE /\ b = STORAGE_VERSION_BLOCKS) then verify_storage_version t = Done t tt
  else exists c v, verify_storage_version t =
    Fail t (StorageError_StorageVersionInconsistency (InconsistentStorageVersion c v)) /\ c <> v.
Proof.
  intros Hs Hb. unfold verify_storage_version, verify_storage_version_at.
  rewrite (bind_step _ _ _ _ _ (get_storage_version_run t)), Hs, Hb.
  repeat case_decide; try (by destruct_and?; subst); try (by eauto); try naive_solver.
Qed.

Lemma verify_state_only t s :
  state_version_of t = Some s -> blocks_version_of t = None ->
  if decide (s = STORAGE_VERSION_STATE) then verify_storage_version t = Done t tt
  else exists c v, verify_storage_version t =
    Fail t (StorageError_StorageVersionInconsistency (InconsistentStorageVersion c v)) /\ c <> v.
Proof.
  intros Hs Hb. unfold verify_storage_version, verify_storage_version_at.
  rewrite (bind_step _ _ _ _ _ (get_storage_version_run t)), Hs, Hb.
  repeat case_decide; try (by subst); eauto; naive_solver.
Qed.

Definition version_outcome (t : StorageTxn) (ok : bool) : Prop :=
  if ok
  then exists t', open_storage_version t = Done t' tt /\ versions_current t' /\ only_versions t t'
  else exists t' e, open_storage_version t = Fail t' (StorageError_StorageVersionInconsistency e) /\ only_versions t t'.

Ltac version_simpl :=
  unfold versions_current, state_version_of, blocks_version_of, tbl_delete in *; txn_simpl;
  rewrite ?lookup_insert, ?lookup_delete, ?lookup_insert; try done.

(** The first start. *)
Lemma open_new t :
  state_version_of t = None -> blocks_version_of t = None -> version_outcome t true.
Proof.
  intros Hs Hb. cbn. unfold open_storage_version, set_version_if_needed, set_version_if_needed_at. run_txn.
  rewrite (bind_step _ _ _ _ _ (get_storage_version_run t)), Hs. run_txn.
  rewrite (bind_step _ _ _ _ _ (in_rw_txn_done _ _ _ _ (set_version_new VERSION_STATE_KEY _ t Hs))).
  destruct (t_scope t) eqn:Hsc.
  - erewrite bind_step; [|apply in_rw_txn_done, set_version_new; version_simpl].
    set (t1 := set_storage_version _ _).
    pose proof (verify_full t1 STORAGE_VERSION_STATE STORAGE_VERSION_BLOCKS) as Hv.
    rewrite decide_True in Hv by done. exists t1. split; [apply Hv; unfold t1; version_simpl|].
    split; [|by eexists]. unfold t1. version_simpl. by rewrite Hsc.
  - set (t1 := set_storage_version _ _). run_txn.
    assert (Hb1 : blocks_version_of t1 = None) by (unfold t1; version_simpl).
    pose proof (verify_state_only t1 STORAGE_VERSION_STATE) as Hv.
    rewrite decide_True in Hv by done. exists t1. split; [apply Hv; [unfold t1; version_simpl|done]|].
    split; [|by eexists]. split; [unfold t1; version_simpl|]. rewrite Hb1. unfold t1; txn_simpl. by rewrite Hsc.
Qed.

(** [verify_storage_version] after the versions were updated. *)
Lemma verify_updated_state t t1 s :
  t_scope t1 = StorageScope_StateOnly -> only_versions t t1 ->
  state_version_of t1 = Some (updated STORAGE_VERSION_STATE s) -> blocks_version_of t1 = None ->
  if not_newer s STORAGE_VERSION_STATE
  then exists t', verify_storage_version t1 = Done t' tt /\ versions_current t' /\ only_versions t t'
  else exists t' e, verify_storage_version t1 = Fail t' (StorageError_StorageVersionInconsistency e) /\ only_versions t t'.
Proof.
  intros Hsc Ho Hs Hb. pose proof (verify_state_only t1 _ Hs Hb) as Hv. destruct (not_newer s _) eqn:Hn.
  - rewrite (updated_current _ _ Hn) in *. rewrite decide_True in Hv by done. exists t1. split; [done|].
    split; [|done]. split; [done|]. by rewrite Hsc.
  - rewrite decide_False in Hv by (intros He; by apply (updated_other _ _ Hn)).
    destruct Hv as (c & v & Hv & _). eauto.
Qed.

Lemma verify_updated_full t t1 s b :
  t_scope t1 = StorageScope_FullArchive -> only_versions t t1 ->
  state_version_of t1 = Some (updated STORAGE_VERSION_STATE s) ->
  blocks_version_of t1 = Some (updated STORAGE_VERSION_BLOCKS b) ->
  if not_newer s STORAGE_VERSION_STATE && not_newer b STORAGE_VERSION_BLOCKS
  then exists t', verify_storage_version t1 = Done t' tt /\ versions_current t' /\ only_versions t t'
  else exists t' e, verify_storage_version t1 = Fail t' (StorageError_StorageVersionInconsistency e) /\ only_versions t t'.
Proof.
  intros Hsc Ho Hs Hb. pose proof (verify_full t1 _ _ Hs Hb) as Hv.
  destruct (not_newer s _ && not_newer b _) eqn:Hn.
  - apply andb_true_iff in Hn as [Hn1 Hn2].
    rewrite (updated_current _ _ Hn1), (updated_current _ _ Hn2) in *. rewrite decide_True in Hv by done.
    exists t1. split; [done|]. split; [|done]. split; [done|]. by rewrite Hsc.
  - rewrite decide_False in Hv.
    + destruct Hv as (c & v & Hv & _). eauto.
    + intros [H1 H2]. apply andb_false_iff in Hn as [Hn|Hn]; by apply (updated_other _ _ Hn).
Qed.

(** A storage with versions. *)
Lemma open_existing t s :
  state_version_of t = Some s -> versions_wf t -> version_outcome t (opens t).
Proof.
  intros Hs [_ Hwf]. unfold version_outcome, opens, open_storage_version, set_version_if_needed, set_version_if_needed_at.
  run_txn. rewrite (bind_step _ _ _ _ _ (get_storage_version_run t)), Hs.
  destruct (blocks_version_of t) as [b|] eqn:Hb; destruct (t_scope t) eqn:Hsc; run_txn.
  - erewrite bind_step.
    2:{ apply in_rw_txn_done.
        change (update_versions _ _ _) with (maybe_update VERSION_STATE_KEY STORAGE_VERSION_STATE s ;!
          maybe_update VERSION_BLOCKS_KEY STORAGE_VERSION_BLOCKS b).
        rewrite (bind_step _ _ _ _ _ (maybe_update_run _ _ _ _ Hs)).
        apply maybe_update_run. version_simpl. }
    apply verify_updated_full; [done|by eexists|version_simpl..].
  - unfold delete_blocks_version. rewrite bind_in_rw_modify.
    set (t1 := set_storage_version _ t). assert (Hs1 : state_version_of t1 = Some s) by (unfold t1; version_simpl).
    assert (Hnu : is_update STORAGE_VERSION_BLOCKS b = false).
    { destruct (Hwf b ltac:(by right)) as [_ Hm]. unfold is_update. destruct (Z.ltb_spec (Version_minor b) (Version_minor STORAGE_VERSION_BLOCKS));
        [cbn in *; lia|by rewrite andb_false_r]. }
    erewrite bind_step.
    2:{ apply in_rw_txn_done.
        change (update_versions _ _ _) with (maybe_update VERSION_STATE_KEY STORAGE_VERSION_STATE s ;!
          maybe_update VERSION_BLOCKS_KEY STORAGE_VERSION_BLOCKS b).
        rewrite (bind_step _ _ _ _ _ (maybe_update_run _ _ _ _ Hs1)). unfold maybe_update. rewrite Hnu. reflexivity. }
    apply verify_updated_state; [done|by eexists|unfold t1; version_simpl..].
  - exists t. eexists. split; [done|]. exists (t_storage_version t). by destruct t.
  - erewrite bind_step.
    2:{ apply in_rw_txn_done. apply (maybe_update_run VERSION_STATE_KEY STORAGE_VERSION_STATE s t Hs). }
    apply verify_updated_state; [done|by eexists|version_simpl..].
Qed.

(** An open storage opens again, unchanged. *)
Lemma open_again t : versions_current t -> open_storage_version t = Done t tt.
Proof.
  intros [Hs Hb]. unfold open_storage_version, set_version_if_needed, set_version_if_needed_at. run_txn.
  rewrite (bind_step _ _ _ _ _ (get_storage_version_run t)), Hs, Hb. destruct (t_scope t); run_txn.
  - pose proof (verify_full t _ _ Hs Hb) as Hv. rewrite decide_True in Hv by done. exact Hv.
  - pose proof (verify_state_only t _ Hs Hb) as Hv. rewrite decide_True in Hv by done. exact Hv.
Qed.

(** Opening a storage succeeds exactly when its versions have the crate's
    major versions and no higher minor ones and it is not a state-only storage
    opened as a full archive; a new storage always opens. Afterwards the
    versions are the crate's, with a blocks version in a full archive only, so
    that it opens again without a change; nothing but the versions is touched,
    and every failure is an inconsistency error. *)
Theorem open_storage_version_correct (t : StorageTxn) :
  versions_wf t ->
  if opens t
  then exists t', open_storage_version t = Done t' tt /\ versions_current t' /\ only_versions t t' /\
         open_storage_version t' = Done t' tt
  else exists t' e, open_storage_version t = Fail t' (StorageError_StorageVersionInconsistency e) /\ only_versions t t'.
Proof.
  intros Hwf. assert (Ho : version_outcome t (opens t)).
  { destruct (state_version_of t) as [s|] eqn:Hs; [by eapply open_existing|].
    unfold opens. rewrite Hs. apply open_new; [done|]. by apply Hwf. }
  unfold version_outcome in Ho. destruct (opens t); [|done].
  destruct Ho as (t' & Hrun & Hc & Hov). exists t'. auto using open_again.
Qed.
End Version.
