(* ===== verification/Serde.v ===== *)
(** * Serialization

    Models the trait [StorageSerde] of
    [crates/papyrus_storage/src/db/serialization.rs], the value wrappers with a
    version byte, the implementations for the primitive and container types in
    [serialization/serializers.rs], the location of [mmap_file/mod.rs] and the
    helpers of [compression_utils.rs]. A writer is the list of the bytes written
    so far, a reader the list of the bytes not yet read; [deserialize_from]
    answering [None] is [Fail]. The capacity that a container reserves before
    it is filled is not modelled. *)

From stdpp Require Import base gmap list strings fin_maps sorting.
From Stdlib Require Import ZArith Lia.
From S2P Require Import Prelude StorageTables StarknetTypes.

Abbreviation bytes := (list Z).

Definition is_byte (b : Z) : Prop := 0 <= b < 256.

Inductive StorageSerdeError : Type :=
| StorageSerdeError_Io
| StorageSerdeError_Serde
| StorageSerdeError_Migration.

Definition Ser (A : Type) : Type := M bytes StorageSerdeError A.
Definition De (A : Type) : Type := M bytes unit A.

(** The trait: the operations of a type. *)
Record StorageSerde (A : Type) : Type := mkStorageSerde {
  serialize_into : A -> Ser unit;
  deserialize_from : De A
}.
Arguments mkStorageSerde {A}.
Arguments serialize_into {A}.
Arguments deserialize_from {A}.

(** ** Bytes *)

(** [usize::to_be_bytes] and [from_be_bytes], for any width. *)
Fixpoint be_bytes (n : nat) (z : Z) : bytes :=
  match n with
  | O => []
  | S n' => (z / 256 ^ Z.of_nat n') mod 256 :: be_bytes n' z
  end.

Definition be_value (bs : bytes) : Z := foldl (fun acc b => acc * 256 + b) 0 bs.

(** [Write::write_all] and [Read::read_exact]. *)
Definition write_all (bs : bytes) : Ser unit := modify (fun out => out ++ bs).

Definition read_exact (n : nat) : De bytes :=
  fun bs => if (length bs <? n)%nat then Fail bs tt else Done (drop n bs) (take n bs).

(** [x?] and [.ok()] on the value another crate returned. *)
Definition or_fail {S E A} (e : E) (o : option A) : M S E A :=
  match o with Some a => ret a | None => raise e end.

(** A reader function of another crate. *)
Definition read_with {A} (f : bytes -> option (A * bytes)) : De A :=
  fun bs => match f bs with Some (a, rest) => Done rest a | None => Fail bs tt end.

(** Serializing into a new [Vec<u8>], and deserializing from a slice. *)
Definition to_vec (m : Ser unit) : Ser bytes :=
  fun out => match m [] with Done b _ => Done out b | Fail _ e => Fail out e | Panic => Panic end.

Definition from_slice {A} (m : De A) (data : bytes) : De A :=
  fun bs => match m data with Done _ a => Done bs a | Fail _ e => Fail bs e | Panic => Panic end.

(** ** UTF-8 *)

(** The well-formed sequences that [String::from_utf8] accepts. *)
Definition continuation (b : Z) : bool := (128 <=? b) && (b <=? 191).

Definition between (lo hi b : Z) : bool := (lo <=? b) && (b <=? hi).

Fixpoint valid_utf8 (bs : bytes) : bool :=
  match bs with
  | [] => true
  | b0 :: r0 =>
      if between 0 127 b0 then valid_utf8 r0
      else match r0 with
      | [] => false
      | b1 :: r1 =>
          if between 194 223 b0 then continuation b1 && valid_utf8 r1
          else match r1 with
          | [] => false
          | b2 :: r2 =>
              if between 224 239 b0 then
                between (if b0 =? 224 then 160 else 128) (if b0 =? 237 then 159 else 191) b1 &&
                continuation b2 && valid_utf8 r2
              else match r2 with
              | [] => false
              | b3 :: r3 =>
                  between 240 244 b0 &&
                  between (if b0 =? 240 then 144 else 128) (if b0 =? 244 then 143 else 191) b1 &&
                  continuation b2 && continuation b3 && valid_utf8 r3
              end
          end
      end
  end.

(** ** The crates the serializers call

    [byteorder] (integers of a width), [integer_encoding] (varints), the field
    elements and keys of [starknet_api], [zstd], [serde_json],
    [parity_scale_codec] (hints) and [num_bigint]. *)
Class SerdeCrates {X : ExternalTypes} : Type := {
  byteorder_write : nat -> Z -> bytes;
  byteorder_read : nat -> bytes -> option (Z * bytes);
  write_varint : Z -> bytes;
  read_varint : bytes -> option (Z * bytes);
  felt_serialize : Z -> bytes;
  felt_deserialize : bytes -> option (Z * bytes);
  patricia_try_from : Z -> option Z;
  zstd_compress : bytes -> option bytes;
  zstd_decompress : Z -> bytes -> option bytes;
  json_to_vec : Json -> option bytes;
  json_from_slice : bytes -> option Json;
  hint_encode : Hint -> bytes;
  hint_decode : bytes -> option Hint;
  biguint_to_bytes_be : Z -> bytes;
  biguint_from_bytes_be : bytes -> Z
}.

Definition MAX_DECOMPRESSED_SIZE : Z := 2 ^ 28.
Definition COMPRESSION_THRESHOLD_BYTES : Z := 384.

Section Serde.
Context {X : ExternalTypes} {C : SerdeCrates} {HM : HashMapIter}.

(** ** Primitive types *)

(** [binary(u32, ..)], [binary(u64, ..)], [binary(u128, ..)] and [u8]: [n] bytes. *)
Definition serde_uint (n : nat) : StorageSerde Z := {|
  serialize_into := fun self => write_all (byteorder_write n self);
  deserialize_from := read_with (byteorder_read n)
|}.

Definition serde_u8 : StorageSerde Z := serde_uint 1.
Definition serde_u32 : StorageSerde Z := serde_uint 4.
Definition serde_u64 : StorageSerde Z := serde_uint 8.
Definition serde_u128 : StorageSerde Z := serde_uint 16.

(** [usize] has 64 bits. *)
Definition serde_usize : StorageSerde Z := {|
  serialize_into := fun self => serialize_into serde_u64 self;
  deserialize_from := deserialize_from serde_u64
|}.

Definition serde_bool : StorageSerde bool := {|
  serialize_into := fun self : bool => serialize_into serde_u8 (if self then 1 else 0);
  deserialize_from := let! b := deserialize_from serde_u8 in ret (negb (b =? 0))
|}.

Definition serde_Felt : StorageSerde Z := {|
  serialize_into := fun self => write_all (felt_serialize self);
  deserialize_from := read_with felt_deserialize
|}.

(** [ContractAddress], [PatriciaKey] and [StorageKey]. *)
Definition serde_PatriciaKey : StorageSerde Z := {|
  serialize_into := fun self => serialize_into serde_Felt self;
  deserialize_from := let! hash := read_with felt_deserialize in or_fail tt (patricia_try_from hash)
|}.

Definition serde_NoValue : StorageSerde unit := {|
  serialize_into := fun _ => ret tt;
  deserialize_from := ret tt
|}.

(** ** Containers *)

(** [for _i in 0..n { res.push(T::deserialize_from(bytes)?); }] *)
Fixpoint deserialize_n {A} (read : De A) (n : nat) : De (list A) :=
  match n with
  | O => ret []
  | S n' =>
      let! x := read in
      let! rest := deserialize_n read n' in
      ret (x :: rest)
  end.

Section Containers.
Context {A B : Type} (sa : StorageSerde A) (sb : StorageSerde B).

Definition serde_pair : StorageSerde (A * B) := {|
  serialize_into := fun self => serialize_into sa self.1 ;! serialize_into sb self.2;
  deserialize_from :=
    let! a := deserialize_from sa in
    let! b := deserialize_from sb in
    ret (a, b)
|}.

Definition serde_option : StorageSerde (option A) := {|
  serialize_into := fun self =>
    match self with
    | Some value => write_all [1] ;! serialize_into sa value
    | None => write_all [0]
    end;
  deserialize_from :=
    let! exists_ := read_exact 1 in
    match exists_ with
    | [0] => ret None
    | [1] => let! value := deserialize_from sa in ret (Some value)
    | _ => raise tt
    end
|}.

Definition serde_vec : StorageSerde (list A) := {|
  serialize_into := fun self =>
    write_all (write_varint (zlength self)) ;!
    for_each self (fun x => serialize_into sa x);
  deserialize_from :=
    let! n := read_with read_varint in
    deserialize_n (deserialize_from sa) (Z.to_nat n)
|}.

(** [[T; N]] *)
Definition serde_array (n : nat) : StorageSerde (list A) := {|
  serialize_into := fun self => for_each self (fun x => serialize_into sa x) ;! ret tt;
  deserialize_from := deserialize_n (deserialize_from sa) n
|}.
End Containers.

Section Maps.
Context {K V : Type} `{Countable K} (sk : StorageSerde K) (sv : StorageSerde V).

(** The loops of the three maps: a repeated key is an error. *)
Definition serialize_entries (entries : list (K * V)) : Ser unit :=
  write_all (write_varint (zlength entries)) ;!
  for_each entries (fun '(k, v) => serialize_into sk k ;! serialize_into sv v).

Fixpoint insert_n (n : nat) (res : gmap K V) : De (gmap K V) :=
  match n with
  | O => ret res
  | S n' =>
      let! k := deserialize_from sk in
      let! v := deserialize_from sv in
      match res !! k with
      | Some _ => raise tt
      | None => insert_n n' (<[k := v]> res)
      end
  end.

Definition serde_hashmap : StorageSerde (gmap K V) := {|
  serialize_into := fun self => serialize_entries (hm_iter self);
  deserialize_from := let! n := read_with read_varint in insert_n (Z.to_nat n) ∅
|}.

(** A [BTreeMap] is iterated in the order of its keys. *)
Definition serde_btreemap {KO : KeyOrd K} : StorageSerde (gmap K V) := {|
  serialize_into := fun self =>
    serialize_entries (merge_sort (fun a b => a.1 = b.1 \/ key_lt a.1 b.1) (map_to_list self));
  deserialize_from := let! n := read_with read_varint in insert_n (Z.to_nat n) ∅
|}.

(** An [IndexMap] keeps the order of the insertions. *)
Fixpoint append_n (n : nat) (res : list (K * V)) : De (list (K * V)) :=
  match n with
  | O => ret res
  | S n' =>
      let! k := deserialize_from sk in
      let! v := deserialize_from sv in
      if bool_decide (k ∈ res.*1) then raise tt else append_n n' (res ++ [(k, v)])
  end.

Definition serde_indexmap : StorageSerde (list (K * V)) := {|
  serialize_into := fun self => serialize_entries self;
  deserialize_from := let! n := read_with read_varint in append_n (Z.to_nat n) []
|}.
End Maps.

(** ** Types with their own encoding *)

Definition serde_bytes : StorageSerde bytes := serde_vec serde_u8.

Definition serde_String : StorageSerde (list Z) := {|
  serialize_into := fun self => serialize_into serde_bytes self;
  deserialize_from := let! b := deserialize_from serde_bytes in if valid_utf8 b then ret b else raise tt
|}.

Definition serde_Json : StorageSerde Json := {|
  serialize_into := fun self =>
    let! b := or_fail StorageSerdeError_Serde (json_to_vec self) in serialize_into serde_bytes b;
  deserialize_from := let! buf := deserialize_from serde_bytes in or_fail tt (json_from_slice buf)
|}.

Definition serde_Hint : StorageSerde Hint := {|
  serialize_into := fun self => serialize_into serde_bytes (hint_encode self);
  deserialize_from := let! b := deserialize_from serde_bytes in or_fail tt (hint_decode b)
|}.

Definition serde_BigUint : StorageSerde Z := {|
  serialize_into := fun self => serialize_into serde_bytes (biguint_to_bytes_be self);
  deserialize_from := let! b := deserialize_from serde_bytes in ret (biguint_from_bytes_be b)
|}.

(** A block number must fit into 32 bits; otherwise writing it panics. *)
Definition serde_BlockNumber : StorageSerde Z := {|
  serialize_into := fun self => assert_ (self <? 2 ^ 32) ;! serialize_into serde_u32 self;
  deserialize_from := deserialize_from serde_u32
|}.

(** The last three of the eight bytes of the offset. *)
Definition serde_TransactionOffsetInBlock : StorageSerde Z := {|
  serialize_into := fun self => write_all (drop 5 (be_bytes 8 self)) ;! ret tt;
  deserialize_from :=
    let! arr := read_exact 3 in
    ret (be_value (replicate 5 0 ++ arr))
|}.

(** The length in four bytes, the offset in six. *)
Definition serde_LocationInFile : StorageSerde LocationInFile := {|
  serialize_into := fun self =>
    write_all (drop 4 (be_bytes 8 (LocationInFile_len self))) ;!
    write_all (drop 2 (be_bytes 8 (LocationInFile_offset self))) ;!
    ret tt;
  deserialize_from :=
    let! low := read_exact 4 in
    let arr := replicate 4 0 ++ low in
    let len := be_value arr in
    let! low := read_exact 6 in
    let arr := take 2 arr ++ low in
    let offset := be_value arr in
    ret (mkLocationInFile offset len)
|}.

(** ** Compression *)

Definition compress (data : bytes) : Ser bytes := or_fail StorageSerdeError_Io (zstd_compress data).

Definition serialize_and_compress {A} (s : StorageSerde A) (object : A) : Ser bytes :=
  let! buf := to_vec (serialize_into s object) in
  compress buf.

Definition decompress (data : bytes) : option bytes := zstd_decompress MAX_DECOMPRESSED_SIZE data.

Definition decompress_from_reader : De bytes :=
  let! compressed_data := deserialize_from serde_bytes in
  or_fail tt (decompress compressed_data).

Definition serde_IsCompressed : StorageSerde IsCompressed := {|
  serialize_into := fun self =>
    match self with
    | IsCompressed_No => write_all [0] ;! ret tt
    | IsCompressed_Yes => write_all [1] ;! ret tt
    end;
  deserialize_from :=
    let! kind := read_exact 1 in
    match kind with
    | [0] => ret IsCompressed_No
    | [1] => ret IsCompressed_Yes
    | _ => raise tt
    end
|}.

(** The body of the types that are always compressed. *)
Definition serialize_compressed (fields : Ser unit) : Ser unit :=
  let! to_compress := to_vec fields in
  let! compressed := compress to_compress in
  serialize_into serde_bytes compressed ;!
  ret tt.

Definition deserialize_compressed {A} (fields : De A) : De A :=
  let! compressed_data := deserialize_from serde_bytes in
  let! data := expect (decompress compressed_data) in
  from_slice fields data.

(** The macro [auto_storage_serde_conditionally_compressed]. *)
Definition serialize_conditionally (fields : Ser unit) : Ser unit :=
  let! to_compress := to_vec fields in
  if COMPRESSION_THRESHOLD_BYTES <? zlength to_compress then
    serialize_into serde_IsCompressed IsCompressed_Yes ;!
    let! compressed := compress to_compress in
    serialize_into serde_bytes compressed ;!
    ret tt
  else
    serialize_into serde_IsCompressed IsCompressed_No ;!
    serialize_into serde_bytes to_compress ;!
    ret tt.

Definition deserialize_conditionally {A} (fields : De A) : De A :=
  let! is_compressed := deserialize_from serde_IsCompressed in
  let! maybe_compressed_data := deserialize_from serde_bytes in
  let! data := match is_compressed with
               | IsCompressed_No => ret maybe_compressed_data
               | IsCompressed_Yes => expect (decompress maybe_compressed_data)
               end in
  from_slice fields data.
End Serde.

(** ** Values of the tables and files *)

(** The trait [ValueSerde]: a whole value from and to a byte string. *)
Record ValueSerde (A : Type) : Type := mkValueSerde {
  value_serialize : A -> option bytes;
  value_deserialize : bytes -> option A
}.
Arguments mkValueSerde {A}.
Arguments value_serialize {A}.
Arguments value_deserialize {A}.

(** The written bytes; a panic and an error both end the operation. *)
Definition written {A} (m : Ser A) : option bytes := match m [] with Done b _ => Some b | _ => None end.

(** The read value, if all bytes were read ([is_all_bytes_read]). *)
Definition read_all {A} (m : De A) (bs : bytes) : option A :=
  match m bs with Done [] a => Some a | _ => None end.

(** [StorageSerdeEx], and the wrapper of values without a version. *)
Definition NoVersionValueWrapper {A} (s : StorageSerde A) : ValueSerde A := {|
  value_serialize := fun obj => written (serialize_into s obj);
  value_deserialize := fun bs => read_all (deserialize_from s) bs
|}.

Definition VERSION_ZERO : Z := 0.

Definition VersionZeroWrapper {A} (s : StorageSerde A) : ValueSerde A := {|
  value_serialize := fun obj => written (write_all [VERSION_ZERO] ;! serialize_into s obj);
  value_deserialize := fun bs =>
    read_all (let! version := read_exact 1 in
              if bool_decide (version = [VERSION_ZERO]) then deserialize_from s else raise tt) bs
|}.

(** [try_from_older_version] of the trait [Migratable]. *)
Definition VersionWrapper {A} (s : StorageSerde A) (try_from_older_version : Z -> De A) (VERSION : Z) :
    ValueSerde A := {|
  value_serialize := fun obj => written (write_all [VERSION] ;! serialize_into s obj);
  value_deserialize := fun bs =>
    read_all (let! version := read_exact 1 in
              match version with
              | [v] => if VERSION <? v then raise tt
                       else if v <? VERSION then try_from_older_version v
                       else deserialize_from s
              | _ => raise tt
              end) bs
|}.
