(* ===== verification/SerdeLaws.v ===== *)
(** * Round trips of the serializers

    A serializer is lawful on a set of values when what it writes for one of
    them reads back as the value, whatever follows. The containers keep the
    property; [SerdeTypes.v] builds on it. *)

From stdpp Require Import base gmap list strings fin_maps sorting.
From Stdlib Require Import ZArith Lia.
From S2P Require Import Prelude StorageTables StarknetTypes Serde.

Create HintDb serde.

(** ** What the other crates promise *)

Class SerdeCratesSpec {X : ExternalTypes} {C : SerdeCrates} : Type := {
  (** The values of [Felt] and of [PatriciaKey], and the JSON values and hints
      that are read back. *)
  is_felt : Z -> Prop;
  is_patricia_key : Z -> Prop;
  is_json : Json -> Prop;
  byteorder_write_spec : forall n z, 0 <= z < 256 ^ Z.of_nat n -> byteorder_write n z = be_bytes n z;
  byteorder_read_spec : forall n bs rest, length bs = n -> Forall is_byte bs ->
    byteorder_read n (bs ++ rest) = Some (be_value bs, rest);
  varint_bytes : forall n, 0 <= n < 2 ^ 64 -> Forall is_byte (write_varint n);
  varint_roundtrip : forall n rest, 0 <= n < 2 ^ 64 -> read_varint (write_varint n ++ rest) = Some (n, rest);
  felt_bytes : forall z, is_felt z -> Forall is_byte (felt_serialize z);
  felt_roundtrip : forall z rest, is_felt z -> felt_deserialize (felt_serialize z ++ rest) = Some (z, rest);
  patricia_is_felt : forall z, is_patricia_key z -> is_felt z;
  patricia_roundtrip : forall z, is_patricia_key z -> patricia_try_from z = Some z;
  zstd_total : forall data, Forall is_byte data -> zlength data < 2 ^ 60 -> exists c, zstd_compress data = Some c /\ Forall is_byte c /\
    zlength c < 2 ^ 64;
  zstd_roundtrip : forall data c size, zstd_compress data = Some c -> zlength data <= size ->
    zstd_decompress size c = Some data;
  json_roundtrip : forall v, is_json v -> exists b, json_to_vec v = Some b /\ Forall is_byte b /\
    zlength b < 2 ^ 64 /\ json_from_slice b = Some v;
  hint_bytes : forall h, Forall is_byte (hint_encode h) /\ zlength (hint_encode h) < 2 ^ 64;
  hint_roundtrip : forall h, hint_decode (hint_encode h) = Some h;
  biguint_bytes : forall n, 0 <= n < 2 ^ 512 ->
    Forall is_byte (biguint_to_bytes_be n) /\ zlength (biguint_to_bytes_be n) < 2 ^ 64;
  biguint_roundtrip : forall n, 0 <= n -> biguint_from_bytes_be (biguint_to_bytes_be n) = n
}.

(** ** Big-endian bytes *)

Lemma be_bytes_length n z : length (be_bytes n z) = n.
Proof. induction n as [|n IH]; cbn; [done|]. by rewrite IH. Qed.

Lemma be_bytes_byte n z : Forall is_byte (be_bytes n z).
Proof.
  induction n as [|n IH]; cbn; constructor; [|done]. unfold is_byte. apply Z.mod_pos_bound. lia.
Qed.

Lemma be_value_foldl acc bs :
  foldl (fun acc b => acc * 256 + b) acc bs = acc * 256 ^ zlength bs + be_value bs.
Proof.
  unfold be_value, zlength. revert acc; induction bs as [|b bs IH]; intros acc; [cbn; lia|].
  cbn [foldl length]. rewrite (IH (acc * 256 + b)), (IH (0 * 256 + b)), Nat2Z.inj_succ, Z.pow_succ_r by lia. lia.
Qed.

Lemma be_value_cons b bs : be_value (b :: bs) = b * 256 ^ zlength bs + be_value bs.
Proof. unfold be_value at 1. cbn [foldl]. rewrite be_value_foldl. lia. Qed.

Lemma be_value_bytes n z : be_value (be_bytes n z) = z mod 256 ^ Z.of_nat n.
Proof.
  induction n as [|n IH].
  - cbn. by rewrite Z.mod_1_r.
  - cbn [be_bytes]. rewrite be_value_cons, IH. unfold zlength. rewrite be_bytes_length.
    rewrite Nat2Z.inj_succ, Z.pow_succ_r by lia. set (w := 256 ^ Z.of_nat n).
    assert (0 < w) by (apply Z.pow_pos_nonneg; lia).
    rewrite (Z.mul_comm 256 w), (Z.rem_mul_r z w 256) by lia. lia.
Qed.

Lemma be_bytes_inj n a b :
  0 <= a < 256 ^ Z.of_nat n -> 0 <= b < 256 ^ Z.of_nat n -> be_bytes n a = be_bytes n b -> a = b.
Proof.
  intros Ha Hb He. apply (f_equal be_value) in He. by rewrite !be_value_bytes, !Z.mod_small in He.
Qed.

(** The low bytes of a wide integer. *)
Lemma be_bytes_drop m n z : drop m (be_bytes (m + n) z) = be_bytes n z.
Proof. induction m as [|m IH]; cbn; [done|]. exact IH. Qed.

Lemma be_value_zeros k bs : be_value (replicate k 0 ++ bs) = be_value bs.
Proof. induction k as [|k IH]; [done|]. cbn [replicate app]. rewrite be_value_cons, IH. lia. Qed.

(** ** Lawful serializers *)

Definition writes (m : Ser unit) (bs : bytes) : Prop := forall out, m out = Done (out ++ bs) tt.
Definition reads {A} (m : De A) (bs : bytes) (a : A) : Prop := forall rest, m (bs ++ rest) = Done rest a.

Definition coded {A} (m : Ser unit) (r : De A) (a : A) : Prop :=
  exists bs, Forall is_byte bs /\ writes m bs /\ reads r bs a.

Definition lawful {A} (s : StorageSerde A) (ok : A -> Prop) : Prop :=
  forall a, ok a -> coded (serialize_into s a) (deserialize_from s) a.

Lemma writes_bind m k bs1 bs2 : writes m bs1 -> writes k bs2 -> writes (m ;! k) (bs1 ++ bs2).
Proof. intros H1 H2 out. rewrite (bind_step _ _ _ _ _ (H1 out)), H2. by rewrite app_assoc. Qed.

Lemma reads_bind {A B} (m : De A) (k : A -> De B) bs1 bs2 a b :
  reads m bs1 a -> reads (k a) bs2 b -> reads (bind m k) (bs1 ++ bs2) b.
Proof. intros H1 H2 rest. rewrite <-app_assoc, (bind_step _ _ _ _ _ (H1 _)). apply H2. Qed.

Lemma writes_ret : writes (ret tt) [].
Proof. intros out. unfold ret. by rewrite app_nil_r. Qed.

Lemma reads_ret {A} (a : A) : reads (ret a) [] a.
Proof. by intros rest. Qed.

Lemma writes_all bs : writes (write_all bs) bs.
Proof. by intros out. Qed.

Lemma reads_exact n bs : length bs = n -> reads (read_exact n) bs bs.
Proof.
  intros <- rest. unfold read_exact. rewrite length_app. destruct (Nat.ltb_spec (length bs + length rest) (length bs)); [lia|].
  by rewrite drop_app_length, take_app_length.
Qed.

Lemma coded_end {A} (a : A) : coded (ret tt) (ret a) a.
Proof. exists []. auto using writes_ret, reads_ret. Qed.

(** A field, and the rest of the struct. *)
Lemma coded_field {A B} (s : StorageSerde A) ok a (m : Ser unit) (k : A -> De B) b :
  lawful s ok -> ok a -> coded m (k a) b ->
  coded (serialize_into s a ;! m) (bind (deserialize_from s) k) b.
Proof.
  intros Hl Ha (bs2 & Hb2 & Hw2 & Hr2). destruct (Hl a Ha) as (bs1 & Hb1 & Hw1 & Hr1).
  exists (bs1 ++ bs2). split; [by apply Forall_app|]. split; [by apply writes_bind|]. by eapply reads_bind.
Qed.

(** The last field. *)
Lemma coded_last {A B} (s : StorageSerde A) ok a (k : A -> De B) b :
  lawful s ok -> ok a -> (forall rest, k a rest = Done rest b) ->
  coded (serialize_into s a) (bind (deserialize_from s) k) b.
Proof.
  intros Hl Ha Hk. destruct (Hl a Ha) as (bs & Hb & Hw & Hr). exists bs. split; [done|]. split; [done|].
  intros rest. rewrite (bind_step _ _ _ _ _ (Hr rest)). apply Hk.
Qed.

(** The byte of an enum's variant. *)
Lemma coded_tag {B} n (m : Ser unit) (k : bytes -> De B) b :
  is_byte n -> coded m (k [n]) b -> coded (write_all [n] ;! m) (bind (read_exact 1) k) b.
Proof.
  intros Hn (bs & Hb & Hw & Hr). exists ([n] ++ bs). split; [by constructor|].
  split; [apply writes_bind; [apply writes_all|done]|]. eapply reads_bind; [by apply reads_exact|done].
Qed.

Lemma coded_tag_last {B} n (k : bytes -> De B) b :
  is_byte n -> (forall rest, k [n] rest = Done rest b) -> coded (write_all [n]) (bind (read_exact 1) k) b.
Proof.
  intros Hn Hk. exists [n]. split; [by constructor|]. split; [apply writes_all|].
  intros rest. rewrite (bind_step _ _ _ _ _ (reads_exact 1 [n] eq_refl rest)). apply Hk.
Qed.

(** The round trip of whole values. *)
Lemma lawful_written {A} (s : StorageSerde A) ok a :
  lawful s ok -> ok a ->
  exists bs, Forall is_byte bs /\ value_serialize (NoVersionValueWrapper s) a = Some bs /\
    value_deserialize (NoVersionValueWrapper s) bs = Some a.
Proof.
  intros Hl Ha. destruct (Hl a Ha) as (bs & Hb & Hw & Hr). exists bs. split; [done|]. cbn.
  unfold written, read_all. rewrite Hw. split; [done|]. specialize (Hr []). rewrite app_nil_r in Hr. by rewrite Hr.
Qed.

Lemma lawful_version_zero {A} (s : StorageSerde A) ok a :
  lawful s ok -> ok a ->
  exists bs, Forall is_byte bs /\ value_serialize (VersionZeroWrapper s) a = Some bs /\
    value_deserialize (VersionZeroWrapper s) bs = Some a.
Proof.
  intros Hl Ha. destruct (Hl a Ha) as (bs & Hb & Hw & Hr). exists (VERSION_ZERO :: bs).
  split; [constructor; [split; done|done]|]. cbn [value_serialize value_deserialize VersionZeroWrapper].
  unfold written, read_all.
  rewrite (writes_bind _ _ [VERSION_ZERO] bs (writes_all _) Hw). split; [done|].
  change (VERSION_ZERO :: bs) with ([VERSION_ZERO] ++ bs).
  rewrite (bind_step _ _ _ _ _ (reads_exact 1 [VERSION_ZERO] eq_refl bs)). rewrite bool_decide_true by done.
  specialize (Hr []). rewrite app_nil_r in Hr. by rewrite Hr.
Qed.

(** ** Primitive types *)

Definition ok_uint (n : nat) (z : Z) : Prop := 0 <= z < 256 ^ Z.of_nat n.
Definition ok_u8 : Z -> Prop := ok_uint 1.
Definition ok_u32 : Z -> Prop := ok_uint 4.
Definition ok_u64 : Z -> Prop := ok_uint 8.
Definition ok_u128 : Z -> Prop := ok_uint 16.
Definition ok_usize : Z -> Prop := ok_uint 8.

Section Laws.
Context {X : ExternalTypes} {C : SerdeCrates} {HM : HashMapIter} {CS : SerdeCratesSpec}.

Lemma reads_with {A} (f : bytes -> option (A * bytes)) bs a :
  (forall rest, f (bs ++ rest) = Some (a, rest)) -> reads (read_with f) bs a.
Proof. intros Hf rest. unfold read_with. by rewrite Hf. Qed.

Lemma lawful_uint n : lawful (serde_uint n) (ok_uint n).
Proof.
  intros z Hz. exists (be_bytes n z). split; [apply be_bytes_byte|]. cbn. rewrite byteorder_write_spec by done.
  split; [apply writes_all|]. apply reads_with. intros rest.
  rewrite byteorder_read_spec by (apply be_bytes_length || apply be_bytes_byte).
  by rewrite be_value_bytes, Z.mod_small.
Qed.

Lemma lawful_u8 : lawful serde_u8 ok_u8. Proof. apply lawful_uint. Qed.
Lemma lawful_u32 : lawful serde_u32 ok_u32. Proof. apply lawful_uint. Qed.
Lemma lawful_u64 : lawful serde_u64 ok_u64. Proof. apply lawful_uint. Qed.
Lemma lawful_u128 : lawful serde_u128 ok_u128. Proof. apply lawful_uint. Qed.
Lemma lawful_usize : lawful serde_usize ok_usize. Proof. apply lawful_uint. Qed.

Definition ok_bool (b : bool) : Prop := True.
Lemma lawful_bool : lawful serde_bool ok_bool.
Proof.
  intros b _. cbn. eapply (coded_last serde_u8 ok_u8); [apply lawful_u8|by destruct b|]. intros rest. by destruct b.
Qed.

Definition ok_Felt (z : Z) : Prop := is_felt z.
Lemma lawful_Felt : lawful serde_Felt ok_Felt.
Proof.
  intros z Hz. exists (felt_serialize z). split; [by apply felt_bytes|]. split; [apply writes_all|].
  apply reads_with. intros rest. by apply felt_roundtrip.
Qed.

Definition ok_PatriciaKey (z : Z) : Prop := is_patricia_key z.
Lemma lawful_PatriciaKey : lawful serde_PatriciaKey ok_PatriciaKey.
Proof.
  intros z Hz. eapply (coded_last serde_Felt ok_Felt); [apply lawful_Felt|by apply patricia_is_felt|].
  intros rest. by rewrite patricia_roundtrip.
Qed.

Definition ok_NoValue (u : unit) : Prop := True.
Lemma lawful_NoValue : lawful serde_NoValue ok_NoValue.
Proof. intros [] _. apply coded_end. Qed.

(** ** Containers *)

Section Containers.
Context {A B : Type} (sa : StorageSerde A) (sb : StorageSerde B) (oka : A -> Prop) (okb : B -> Prop).
Hypothesis Ha : lawful sa oka.
Hypothesis Hb : lawful sb okb.

Definition ok_pair (x : A * B) : Prop := oka x.1 /\ okb x.2.

Lemma lawful_pair : lawful (serde_pair sa sb) ok_pair.
Proof.
  intros [a b] [H1 H2]. eapply coded_field; [done|done|]. eapply coded_last; done.
Qed.

Definition ok_option (x : option A) : Prop := match x with Some a => oka a | None => True end.

Lemma lawful_option : lawful (serde_option sa) ok_option.
Proof.
  intros [a|] Hx; cbn.
  - apply coded_tag; [done|]. eapply coded_last; done.
  - by apply coded_tag_last.
Qed.

Lemma coded_list l :
  Forall oka l -> coded (for_each l (fun x => serialize_into sa x)) (deserialize_n (deserialize_from sa) (length l)) l.
Proof.
  induction 1 as [|a l Hx Hl IH]; cbn [for_each deserialize_n length]; [apply coded_end|].
  eapply coded_field; [done|done|]. destruct IH as (bs & Hbs & Hw & Hr). exists bs. split; [done|]. split; [done|].
  intros rest. by rewrite (bind_step _ _ _ _ _ (Hr rest)).
Qed.

Definition ok_vec (l : list A) : Prop := zlength l < 2 ^ 64 /\ Forall oka l.

Lemma coded_varint {D} n (m : Ser unit) (k : Z -> De D) d :
  0 <= n < 2 ^ 64 -> coded m (k n) d -> coded (write_all (write_varint n) ;! m) (bind (read_with read_varint) k) d.
Proof.
  intros Hn (bs & Hbs & Hw & Hr). exists (write_varint n ++ bs).
  split; [apply Forall_app; split; [by apply varint_bytes|done]|].
  split; [apply writes_bind; [apply writes_all|done]|]. eapply reads_bind; [|done].
  apply reads_with. intros rest. by apply varint_roundtrip.
Qed.

Lemma lawful_vec : lawful (serde_vec sa) ok_vec.
Proof.
  intros l [Hlen Hl]. cbn. apply coded_varint; [unfold zlength in *; lia|].
  unfold zlength. rewrite Nat2Z.id. by apply coded_list.
Qed.

Definition ok_array (n : nat) (l : list A) : Prop := length l = n /\ Forall oka l.

Lemma lawful_array n : lawful (serde_array sa n) (ok_array n).
Proof.
  intros l [<- Hl]. cbn. destruct (coded_list l Hl) as (bs & Hbs & Hw & Hr). exists bs. split; [done|].
  split; [|done]. intros out. rewrite (bind_step _ _ _ _ _ (Hw out)). done.
Qed.
End Containers.

Section Maps.
Context {K V : Type} `{Countable K} (sk : StorageSerde K) (sv : StorageSerde V) (okk : K -> Prop) (okv : V -> Prop).
Hypothesis Hk : lawful sk okk.
Hypothesis Hv : lawful sv okv.

(** One entry, for each of the map loops. *)
Lemma coded_entry {D} (kv : K * V) (m : Ser unit) (c : K -> V -> De D) d :
  okk kv.1 -> okv kv.2 -> coded m (c kv.1 kv.2) d ->
  coded ((let '(k, v) := kv in serialize_into sk k ;! serialize_into sv v) ;! m)
    (let! k := deserialize_from sk in let! v := deserialize_from sv in c k v) d.
Proof.
  destruct kv as [k v]; cbn [fst snd]. intros H1 H2 Hm.
  destruct (Hk k H1) as (b1 & Hb1 & Hw1 & Hr1), (Hv v H2) as (b2 & Hb2 & Hw2 & Hr2), Hm as (b3 & Hb3 & Hw3 & Hr3).
  exists (b1 ++ b2 ++ b3). split; [by repeat (apply Forall_app; split)|]. split.
  - rewrite app_assoc. apply writes_bind; [by apply writes_bind|done].
  - eapply reads_bind; [done|]. by eapply reads_bind.
Qed.

Lemma coded_insert_n l (m : gmap K V) :
  Forall (fun kv => okk kv.1 /\ okv kv.2) l -> NoDup l.*1 -> (forall k, k ∈ l.*1 -> m !! k = None) ->
  coded (for_each l (fun '(k, v) => serialize_into sk k ;! serialize_into sv v))
    (insert_n sk sv (length l) m) (list_to_map l ∪ m).
Proof.
  intros Hl. revert m; induction Hl as [|[k v] l [H1 H2] Hl IH]; intros m Hnd Hno; cbn [for_each insert_n length].
  - cbn. rewrite (left_id_L ∅ (∪)). apply coded_end.
  - cbn in Hnd. apply NoDup_cons in Hnd as [Hkn Hnd].
    apply (coded_entry (k, v) _ (fun k v => match m !! k with Some _ => raise tt | None => insert_n sk sv (length l) (<[k := v]> m) end));
      [done|done|]. cbn [fst snd]. rewrite (Hno k) by (by left).
    cbn [list_to_map foldr uncurry fst snd]. rewrite <-insert_union_l, insert_union_r.
    + apply IH; [done|]. intros k' Hk'. rewrite lookup_insert_ne by congruence. apply Hno. by right.
    + by apply not_elem_of_list_to_map_1.
Qed.

Lemma coded_append_n l (acc : list (K * V)) :
  Forall (fun kv => okk kv.1 /\ okv kv.2) l -> NoDup (acc ++ l).*1 ->
  coded (for_each l (fun '(k, v) => serialize_into sk k ;! serialize_into sv v))
    (append_n sk sv (length l) acc) (acc ++ l).
Proof.
  intros Hl. revert acc; induction Hl as [|[k v] l [H1 H2] Hl IH]; intros acc Hnd; cbn [for_each append_n length].
  - rewrite app_nil_r. apply coded_end.
  - apply (coded_entry (k, v) _ (fun k v => if bool_decide (k ∈ acc.*1) then raise tt else append_n sk sv (length l) (acc ++ [(k, v)])));
      [done|done|]. cbn [fst snd]. rewrite bool_decide_false.
    + change ((k, v) :: l) with ([(k, v)] ++ l). rewrite app_assoc. apply IH. by rewrite <-app_assoc.
    + rewrite fmap_app in Hnd. apply NoDup_app in Hnd as (_ & Hd & _). intros Hin. apply (Hd k Hin). by left.
Qed.

Definition ok_entries (l : list (K * V)) : Prop :=
  zlength l < 2 ^ 64 /\ Forall (fun kv => okk kv.1 /\ okv kv.2) l.

Definition ok_indexmap (l : list (K * V)) : Prop := ok_entries l /\ NoDup l.*1.

Lemma lawful_indexmap : lawful (serde_indexmap sk sv) ok_indexmap.
Proof.
  intros l [[Hlen Hl] Hnd]. cbn. unfold serialize_entries. apply coded_varint; [unfold zlength in *; lia|].
  unfold zlength. rewrite Nat2Z.id. by apply (coded_append_n l []).
Qed.

Definition ok_map (m : gmap K V) : Prop := ok_entries (map_to_list m).

Lemma coded_map (m : gmap K V) l :
  l ≡ₚ map_to_list m -> ok_map m ->
  coded (serialize_entries sk sv l) (let! n := read_with read_varint in insert_n sk sv (Z.to_nat n) ∅) m.
Proof.
  intros Hp [Hlen Hl]. unfold zlength in Hlen. rewrite <-Hp in Hlen, Hl. unfold serialize_entries.
  apply coded_varint; [unfold zlength; lia|]. unfold zlength. rewrite Nat2Z.id.
  assert (Hnd : NoDup l.*1) by (rewrite Hp; apply NoDup_fst_map_to_list).
  pose proof (coded_insert_n l ∅ Hl Hnd) as Hc. rewrite (right_id_L ∅ (∪)) in Hc.
  rewrite <-(list_to_map_to_list m), <-(list_to_map_proper l _ Hnd Hp). by apply Hc.
Qed.

Lemma lawful_hashmap : lawful (serde_hashmap sk sv) ok_map.
Proof. intros m Hm. apply coded_map; [apply hm_iter_perm|done]. Qed.

Lemma lawful_btreemap {KO : KeyOrd K} : lawful (serde_btreemap sk sv) ok_map.
Proof. intros m Hm. apply coded_map; [apply merge_sort_Permutation|done]. Qed.
End Maps.

(** ** Types with their own encoding *)

Definition ok_bytes (b : bytes) : Prop := zlength b < 2 ^ 64 /\ Forall is_byte b.

Lemma lawful_bytes : lawful serde_bytes ok_bytes.
Proof. intros b Hb. apply (lawful_vec serde_u8 ok_u8); [apply lawful_u8|exact Hb]. Qed.

Definition ok_String (b : list Z) : Prop := ok_bytes b /\ valid_utf8 b = true.

Lemma lawful_String : lawful serde_String ok_String.
Proof.
  intros b [Hb Hu]. apply (coded_last serde_bytes ok_bytes); [apply lawful_bytes|done|]. intros rest. by rewrite Hu.
Qed.

Definition ok_Json (v : Json) : Prop := is_json v.

Lemma lawful_Json : lawful serde_Json ok_Json.
Proof.
  intros v Hv. destruct (json_roundtrip v Hv) as (b & Hb & Hby & Hlen & Hf). cbn [serialize_into deserialize_from serde_Json]. rewrite Hb.
  apply (coded_last serde_bytes ok_bytes); [apply lawful_bytes|by split|]. intros rest. by rewrite Hf.
Qed.

Definition ok_Hint (h : Hint) : Prop := True.

Lemma lawful_Hint : lawful serde_Hint ok_Hint.
Proof.
  intros h _. destruct (hint_bytes h) as [Hb Hl]. apply (coded_last serde_bytes ok_bytes); [apply lawful_bytes|by split|].
  intros rest. by rewrite hint_roundtrip.
Qed.

Definition ok_BigUint (n : Z) : Prop := 0 <= n < 2 ^ 512.

Lemma lawful_BigUint : lawful serde_BigUint ok_BigUint.
Proof.
  intros n Hn. destruct (biguint_bytes n Hn) as [Hb Hl]. apply (coded_last serde_bytes ok_bytes); [apply lawful_bytes|by split|].
  intros rest. by rewrite biguint_roundtrip by apply Hn.
Qed.

Definition ok_BlockNumber (n : Z) : Prop := 0 <= n < 2 ^ 32.

Lemma lawful_BlockNumber : lawful serde_BlockNumber ok_BlockNumber.
Proof.
  intros n Hn. cbn [serialize_into deserialize_from serde_BlockNumber]. destruct (Z.ltb_spec n (2 ^ 32)); [|unfold ok_BlockNumber in Hn; lia].
  exact (lawful_u32 n Hn).
Qed.

Definition ok_TransactionOffsetInBlock (n : Z) : Prop := 0 <= n < 2 ^ 24.

Lemma lawful_TransactionOffsetInBlock : lawful serde_TransactionOffsetInBlock ok_TransactionOffsetInBlock.
Proof.
  intros n Hn. exists (be_bytes 3 n). split; [apply be_bytes_byte|]. split; [by intros out|]. intros rest. cbn [deserialize_from serde_TransactionOffsetInBlock].
  rewrite (bind_step _ _ _ _ _ (reads_exact 3 (be_bytes 3 n) eq_refl rest)).
  rewrite be_value_zeros, be_value_bytes, Z.mod_small by exact Hn. done.
Qed.

Definition ok_LocationInFile (l : LocationInFile) : Prop :=
  0 <= LocationInFile_len l < 2 ^ 32 /\ 0 <= LocationInFile_offset l < 2 ^ 48.

Lemma lawful_LocationInFile : lawful serde_LocationInFile ok_LocationInFile.
Proof.
  intros [off len] [Hl Ho]. exists (be_bytes 4 len ++ be_bytes 6 off). cbn in Hl, Ho.
  split; [apply Forall_app; split; apply be_bytes_byte|]. split.
  - apply writes_bind; [apply writes_all|]. intros out. done.
  - intros rest. cbn [deserialize_from serde_LocationInFile]. rewrite <-app_assoc.
    rewrite (bind_step _ _ _ _ _ (reads_exact 4 (be_bytes 4 len) eq_refl _)).
    rewrite (bind_step _ _ _ _ _ (reads_exact 6 (be_bytes 6 off) eq_refl _)).
    change (take 2 (replicate 4 0 ++ be_bytes 4 len)) with (replicate 2 0).
    rewrite !be_value_zeros, !be_value_bytes, !Z.mod_small by assumption. done.
Qed.

(** ** Compression *)

Definition ok_IsCompressed (c : IsCompressed) : Prop := True.

Lemma lawful_IsCompressed : lawful serde_IsCompressed ok_IsCompressed.
Proof. intros [] _; (apply coded_tag; [done|apply coded_end]). Qed.

(** What is written is small enough to be decompressed. *)
Definition small (m : Ser unit) : Prop := forall b u, m [] = Done b u -> zlength b <= MAX_DECOMPRESSED_SIZE.

Lemma small_writes m bs : small m -> writes m bs -> zlength bs <= MAX_DECOMPRESSED_SIZE.
Proof. intros Hs Hw. by apply (Hs bs tt). Qed.

Lemma to_vec_writes m bs out : writes m bs -> to_vec m out = Done out bs.
Proof. intros Hw. unfold to_vec. by rewrite Hw. Qed.

Lemma from_slice_reads {A} (r : De A) bs a rest : reads r bs a -> from_slice r bs rest = Done rest a.
Proof. intros Hr. unfold from_slice. specialize (Hr []). rewrite app_nil_r in Hr. by rewrite Hr. Qed.

(** The compressed form of what a serializer writes. *)
Lemma compress_writes m bs :
  Forall is_byte bs -> writes m bs -> small m ->
  exists c, zstd_compress bs = Some c /\ ok_bytes c /\ decompress c = Some bs.
Proof.
  intros Hb Hw Hs. pose proof (small_writes _ _ Hs Hw) as Hlen.
  destruct (zstd_total bs Hb) as (c & Hc & Hcb & Hcl); [unfold MAX_DECOMPRESSED_SIZE in Hlen; lia|].
  exists c. split; [done|]. split; [done|]. by apply zstd_roundtrip.
Qed.

Lemma coded_compressed {A} (m : Ser unit) (r : De A) a :
  coded m r a -> small m -> coded (serialize_compressed m) (deserialize_compressed r) a.
Proof.
  intros (bs & Hb & Hw & Hr) Hs. destruct (compress_writes m bs Hb Hw Hs) as (c & Hc & Hok & Hd).
  destruct (lawful_bytes c Hok) as (cb & Hcb & Hcw & Hcr). exists cb. split; [done|]. split.
  - intros out. unfold serialize_compressed. rewrite (bind_step _ _ _ _ _ (to_vec_writes _ _ out Hw)).
    unfold compress. rewrite Hc. run_steps. cbn [or_fail]. run_steps. by rewrite (bind_step _ _ _ _ _ (Hcw out)).
  - intros rest. unfold deserialize_compressed. rewrite (bind_step _ _ _ _ _ (Hcr rest)), Hd. run_steps.
    by apply from_slice_reads with (1 := Hr).
Qed.

Lemma coded_conditionally {A} (m : Ser unit) (r : De A) a :
  coded m r a -> small m -> coded (serialize_conditionally m) (deserialize_conditionally r) a.
Proof.
  intros (bs & Hb & Hw & Hr) Hs. pose proof (small_writes _ _ Hs Hw) as Hlen.
  assert (Hrun : forall out, serialize_conditionally m out =
    (if COMPRESSION_THRESHOLD_BYTES <? zlength bs then
       serialize_into serde_IsCompressed IsCompressed_Yes ;!
       let! compressed := compress bs in serialize_into serde_bytes compressed ;! ret tt
     else serialize_into serde_IsCompressed IsCompressed_No ;! serialize_into serde_bytes bs ;! ret tt) out).
  { intros out. unfold serialize_conditionally. by rewrite (bind_step _ _ _ _ _ (to_vec_writes _ _ out Hw)). }
  destruct (COMPRESSION_THRESHOLD_BYTES <? zlength bs).
  - destruct (compress_writes m bs Hb Hw Hs) as (c & Hc & Hok & Hd).
    destruct (lawful_bytes c Hok) as (cb & Hcb & Hcw & Hcr). exists (1 :: cb). split; [by constructor|]. split.
    + intros out. rewrite Hrun. unfold compress. rewrite Hc. cbn [or_fail serialize_into serde_IsCompressed]. run_steps.
      rewrite (bind_step _ _ _ _ _ (writes_all [1] out)). run_steps.
      rewrite (bind_step _ _ _ _ _ (Hcw _)). unfold ret. by rewrite <-app_assoc.
    + intros rest. unfold deserialize_conditionally. cbn [deserialize_from serde_IsCompressed]. run_steps.
      change ((1 :: cb) ++ rest) with ([1] ++ (cb ++ rest)).
      rewrite (bind_step _ _ _ _ _ (reads_exact 1 [1] eq_refl _)). run_steps.
      rewrite (bind_step _ _ _ _ _ (Hcr rest)), Hd. run_steps. by apply from_slice_reads with (1 := Hr).
  - destruct (lawful_bytes bs) as (cb & Hcb & Hcw & Hcr); [split; [unfold MAX_DECOMPRESSED_SIZE in Hlen; lia|done]|].
    exists (0 :: cb). split; [by constructor|]. split.
    + intros out. rewrite Hrun. cbn [serialize_into serde_IsCompressed]. run_steps.
      rewrite (bind_step _ _ _ _ _ (writes_all [0] out)). run_steps.
      rewrite (bind_step _ _ _ _ _ (Hcw _)). unfold ret. by rewrite <-app_assoc.
    + intros rest. unfold deserialize_conditionally. cbn [deserialize_from serde_IsCompressed]. run_steps.
      change ((0 :: cb) ++ rest) with ([0] ++ (cb ++ rest)).
      rewrite (bind_step _ _ _ _ _ (reads_exact 1 [0] eq_refl _)). run_steps.
      rewrite (bind_step _ _ _ _ _ (Hcr rest)). run_steps. by apply from_slice_reads with (1 := Hr).
Qed.
End Laws.
