(* ===== verification/Mdbx.v ===== *)
(** * The key-value store

    The tables live in libmdbx, a key-value store of another project. This file
    has the order of its keys and what the code of
    [crates/papyrus_storage/src/db/table_types] relies on of its operations: the
    class [MdbxSimple] for a table without flags, the class [MdbxDup] for one
    created with [DUP_SORT], whose keys have several values. Errors of the store
    other than [KeyExist] and [KeyMismatch] (a full disk, an oversized value) are
    not modelled. *)

From stdpp Require Import base gmap list strings fin_maps sorting.
From Stdlib Require Import ZArith Lia.
From S2P Require Import Prelude StorageTables StarknetTypes Serde SerdeLaws.

(** ** The order of byte strings *)

(** The key-value store orders its keys by their bytes. *)
Fixpoint bytes_lt (a b : bytes) : Prop :=
  match a, b with
  | _, [] => False
  | [], _ :: _ => True
  | x :: a', y :: b' => x < y \/ x = y /\ bytes_lt a' b'
  end.

Lemma bytes_lt_app a b a' b' :
  length a = length b -> bytes_lt (a ++ a') (b ++ b') <-> bytes_lt a b \/ a = b /\ bytes_lt a' b'.
Proof.
  revert b; induction a as [|x a IH]; intros [|y b] Hl; cbn in *; try lia; [naive_solver|].
  rewrite IH by lia. naive_solver.
Qed.

Lemma be_bytes_lt n a b :
  0 <= a < 256 ^ Z.of_nat n -> 0 <= b < 256 ^ Z.of_nat n -> bytes_lt (be_bytes n a) (be_bytes n b) <-> a < b.
Proof.
  intros Ha Hb. rewrite <-(Z.mod_small a _ Ha), <-(Z.mod_small b _ Hb) at 2. clear Ha Hb.
  induction n as [|n IH]; [cbn; by rewrite !Z.mod_1_r|]. cbn [be_bytes bytes_lt]. rewrite IH.
  rewrite Nat2Z.inj_succ, Z.pow_succ_r by lia. set (w := 256 ^ Z.of_nat n).
  assert (0 < w) by (apply Z.pow_pos_nonneg; lia).
  rewrite (Z.mul_comm 256 w), !(Z.rem_mul_r _ w 256) by lia.
  pose proof (Z.mod_pos_bound a w ltac:(lia)). pose proof (Z.mod_pos_bound b w ltac:(lia)).
  set (x := (a / w) mod 256). set (y := (b / w) mod 256). split; [intros [Hlt|[-> Hlt]]; nia|]. intros Hlt.
  destruct (Z.lt_trichotomy x y) as [|[->|]]; [by left|right; split; [done|nia]|nia].
Qed.

#[global] Instance bytes_lt_dec : RelDecision bytes_lt.
Proof.
  intros a. induction a as [|x a IH]; intros [|y b]; cbn.
  - right. tauto.
  - left. done.
  - right. tauto.
  - destruct (IH b), (Z.lt_dec x y), (Z.eq_dec x y); (left; tauto) || (right; tauto).
Defined.

Lemma bytes_lt_irrefl a : ~ bytes_lt a a.
Proof. induction a as [|x a IH]; cbn; [tauto|]. intros [Hlt|[_ Hlt]]; [lia|tauto]. Qed.

Lemma bytes_lt_trans a b c : bytes_lt a b -> bytes_lt b c -> bytes_lt a c.
Proof.
  revert b c; induction a as [|x a IH]; intros [|y b] [|z c]; cbn; try tauto.
  intros [H1|[-> H1]] [H2|[-> H2]]; [left; lia|by left|by left|right; split; [done|by eapply IH]].
Qed.

Lemma bytes_lt_total a b : bytes_lt a b \/ a = b \/ bytes_lt b a.
Proof.
  revert b; induction a as [|x a IH]; intros [|y b]; cbn; try tauto.
  destruct (Z.lt_total x y) as [|[->|]]; [tauto| |tauto]. destruct (IH b) as [|[->|]]; tauto.
Qed.

#[global] Instance bytes_lt_strict : StrictOrder bytes_lt.
Proof. split; [intros a; apply bytes_lt_irrefl|intros a b c; apply bytes_lt_trans]. Qed.

#[global] Instance bytes_key_ord : KeyOrd (list Z) := {|
  key_lt := bytes_lt;
  key_lt_dec := bytes_lt_dec;
  key_lt_strict := bytes_lt_strict;
  key_lt_total := bytes_lt_total
|}.

(** ** Operations of the store *)

Inductive WriteFlags : Type :=
| WriteFlags_UPSERT
| WriteFlags_NO_OVERWRITE
| WriteFlags_APPEND
| WriteFlags_NO_DUP_DATA
| WriteFlags_APPEND_DUP
| WriteFlags_APPEND_DUP_APPEND.

Inductive MdbxError : Type := MdbxError_KeyExist | MdbxError_KeyMismatch.

Inductive MdbxResult (A : Type) : Type := MdbxOk (a : A) | MdbxErr (e : MdbxError).
Arguments MdbxOk {A}.
Arguments MdbxErr {A}.

(** A step of a cursor: where it stands and what it found. *)
Abbreviation moved c := (fst c).
Abbreviation found c := (snd c).

(** A key is below the last one of a table. *)
Definition below_last {K V} `{Countable K} {KO : KeyOrd K} (k : K) (m : gmap K V) : bool :=
  match last_entry (fun _ => true) m with
  | Some (last_key, _) => bool_decide (key_lt k last_key)
  | None => false
  end.

(** A pair as an entry of the map of pairs. *)
Definition pair_of (r : option (bytes * bytes)) : option ((bytes * bytes) * unit) := (fun e => (e, tt)) <$> r.

(** A table without duplicates. *)
Class MdbxSimple : Type := {
  Store : Type;
  StoreCursor : Type;
  entries : Store -> gmap bytes bytes;
  position : StoreCursor -> Cursor bytes;
  store_get : Store -> bytes -> option bytes;
  store_put : Store -> bytes -> bytes -> WriteFlags -> MdbxResult Store;
  store_del : Store -> bytes -> Store;
  store_prev : Store -> StoreCursor -> StoreCursor * option (bytes * bytes);
  store_next : Store -> StoreCursor -> StoreCursor * option (bytes * bytes);
  store_set_range : Store -> StoreCursor -> bytes -> StoreCursor * option (bytes * bytes);
  store_get_spec : forall s k, store_get s k = entries s !! k;
  store_upsert_spec : forall s k v, exists s',
    store_put s k v WriteFlags_UPSERT = MdbxOk s' /\ entries s' = <[k := v]> (entries s);
  store_no_overwrite_spec : forall s k v,
    match entries s !! k with
    | Some _ => store_put s k v WriteFlags_NO_OVERWRITE = MdbxErr MdbxError_KeyExist
    | None => exists s', store_put s k v WriteFlags_NO_OVERWRITE = MdbxOk s' /\ entries s' = <[k := v]> (entries s)
    end;
  (** Keys must be appended in order; the last key may be written again. *)
  store_append_spec : forall s k v,
    if below_last k (entries s)
    then store_put s k v WriteFlags_APPEND = MdbxErr MdbxError_KeyMismatch
    else exists s', store_put s k v WriteFlags_APPEND = MdbxOk s' /\ entries s' = <[k := v]> (entries s);
  store_del_spec : forall s k, entries (store_del s k) = delete k (entries s);
  store_prev_spec : forall s c,
    (position (moved (store_prev s c)), found (store_prev s c)) = cursor_prev (entries s) (position c);
  store_next_spec : forall s c,
    (position (moved (store_next s c)), found (store_next s c)) = cursor_next (entries s) (position c);
  store_set_range_spec : forall s c k,
    (position (moved (store_set_range s c k)), found (store_set_range s c k)) = cursor_lower_bound (entries s) k
}.

(** A table with duplicates: its entries are pairs of a key and a value, ordered
    by the key and then by the value. *)
Class MdbxDup : Type := {
  DupStore : Type;
  DupCursor : Type;
  pairs : DupStore -> gmap (bytes * bytes) unit;
  dup_position : DupCursor -> Cursor (bytes * bytes);
  dup_cursor : DupStore -> DupCursor;
  dup_put : DupStore -> DupCursor -> bytes -> bytes -> WriteFlags -> MdbxResult DupStore * DupCursor;
  dup_del : DupStore -> DupCursor -> DupStore * DupCursor;
  dup_prev : DupStore -> DupCursor -> DupCursor * option (bytes * bytes);
  dup_next : DupStore -> DupCursor -> DupCursor * option (bytes * bytes);
  dup_last : DupStore -> DupCursor -> DupCursor * option (bytes * bytes);
  dup_prev_dup : DupStore -> DupCursor -> DupCursor * option (bytes * bytes);
  dup_next_dup : DupStore -> DupCursor -> DupCursor * option (bytes * bytes);
  dup_set_range : DupStore -> DupCursor -> bytes -> DupCursor * option (bytes * bytes);
  dup_get_both_range : DupStore -> DupCursor -> bytes -> bytes -> DupCursor * option bytes;
  (** A written pair, at which the cursor stands. *)
  dup_written := (fun (s : DupStore) (k d : bytes) (r : MdbxResult DupStore * DupCursor) =>
    exists s' c', r = (MdbxOk s', c') /\ pairs s' = <[(k, d) := tt]> (pairs s) /\ dup_position c' = Cursor_At (k, d));
  dup_upsert_spec : forall s c k d, dup_written s k d (dup_put s c k d WriteFlags_UPSERT);
  dup_no_dup_data_spec : forall s c k d,
    match pairs s !! (k, d) with
    | Some _ => fst (dup_put s c k d WriteFlags_NO_DUP_DATA) = MdbxErr MdbxError_KeyExist
    | None => dup_written s k d (dup_put s c k d WriteFlags_NO_DUP_DATA)
    end;
  (** The value must be greater than the last one of its key. *)
  dup_append_dup_spec : forall s c k d,
    match last_entry (fun e => bool_decide (e.1 = k)) (pairs s) with
    | Some ((_, last_value), _) =>
        if decide (bytes_lt last_value d) then dup_written s k d (dup_put s c k d WriteFlags_APPEND_DUP)
        else fst (dup_put s c k d WriteFlags_APPEND_DUP) = MdbxErr MdbxError_KeyMismatch
    | None => dup_written s k d (dup_put s c k d WriteFlags_APPEND_DUP)
    end;
  (** The pair must be greater than the last one of the table. *)
  dup_append_spec : forall s c k d,
    match last_entry (fun _ => true) (pairs s) with
    | Some (last_pair, _) =>
        if decide (key_lt last_pair (k, d)) then dup_written s k d (dup_put s c k d WriteFlags_APPEND_DUP_APPEND)
        else fst (dup_put s c k d WriteFlags_APPEND_DUP_APPEND) = MdbxErr MdbxError_KeyMismatch
    | None => dup_written s k d (dup_put s c k d WriteFlags_APPEND_DUP_APPEND)
    end;
  dup_del_spec : forall s c e, dup_position c = Cursor_At e -> pairs (fst (dup_del s c)) = delete e (pairs s);
  dup_prev_spec : forall s c,
    (dup_position (moved (dup_prev s c)), pair_of (found (dup_prev s c))) = cursor_prev (pairs s) (dup_position c);
  dup_next_spec : forall s c,
    (dup_position (moved (dup_next s c)), pair_of (found (dup_next s c))) = cursor_next (pairs s) (dup_position c);
  dup_last_spec : forall s c,
    pair_of (found (dup_last s c)) = last_entry (fun _ => true) (pairs s) /\
    forall e, found (dup_last s c) = Some e -> dup_position (moved (dup_last s c)) = Cursor_At e;
  (** The neighbours with the same key; without one the cursor stays. *)
  dup_prev_dup_spec : forall s c k d, dup_position c = Cursor_At (k, d) ->
    (dup_position (moved (dup_prev_dup s c)), pair_of (found (dup_prev_dup s c))) =
    cursor_result (last_entry (fun e => bool_decide (e.1 = k /\ bytes_lt e.2 d)) (pairs s)) (Cursor_At (k, d));
  dup_next_dup_spec : forall s c k d, dup_position c = Cursor_At (k, d) ->
    (dup_position (moved (dup_next_dup s c)), pair_of (found (dup_next_dup s c))) =
    cursor_result (first_entry (fun e => bool_decide (e.1 = k /\ bytes_lt d e.2)) (pairs s)) (Cursor_At (k, d));
  (** The first pair whose key is not below [k]. *)
  dup_set_range_spec : forall s c k,
    (dup_position (moved (dup_set_range s c k)), pair_of (found (dup_set_range s c k))) =
    cursor_result (first_entry (fun e => negb (bool_decide (bytes_lt e.1 k))) (pairs s)) Cursor_End;
  (** The first value of key [k] that is not below [d]. *)
  dup_get_both_range_spec : forall s c k d,
    match first_entry (fun e => bool_decide (e.1 = k /\ ~ bytes_lt e.2 d)) (pairs s) with
    | Some (e, _) => found (dup_get_both_range s c k d) = Some e.2 /\
        dup_position (moved (dup_get_both_range s c k d)) = Cursor_At e
    | None => found (dup_get_both_range s c k d) = None
    end
}.

(** * Tables as images of tables

    A table of the storage lives in the byte store as the table of its encoded
    entries. When the encoding keeps the order of the keys, searches and cursors
    on the encoded table find the encodings of what they find on the table. *)

(** ** Searches find the extreme entry *)

Section Unique.
Context {K V : Type} `{Countable K} {KO : KeyOrd K}.

Lemma first_entry_unique p (m : gmap K V) k v :
  m !! k = Some v -> p k = true -> (forall k' v', m !! k' = Some v' -> p k' = true -> ~ key_lt k' k) ->
  first_entry p m = Some (k, v).
Proof.
  intros Hk Hp Hmin. destruct (first_entry p m) as [[k1 v1]|] eqn:Hf.
  - apply first_entry_Some in Hf as (Hk1 & Hp1 & Hmin1).
    destruct (key_lt_total k k1) as [Hlt|[->|Hlt]]; [|by rewrite Hk in Hk1; simplify_eq|].
    + by destruct (Hmin1 _ _ Hk Hp).
    + by destruct (Hmin _ _ Hk1 Hp1).
  - apply (first_entry_None _ _ Hf) in Hk. congruence.
Qed.

Lemma last_entry_unique p (m : gmap K V) k v :
  m !! k = Some v -> p k = true -> (forall k' v', m !! k' = Some v' -> p k' = true -> ~ key_lt k k') ->
  last_entry p m = Some (k, v).
Proof.
  intros Hk Hp Hmax. destruct (last_entry p m) as [[k1 v1]|] eqn:Hf.
  - apply last_entry_Some in Hf as (Hk1 & Hp1 & Hmax1).
    destruct (key_lt_total k k1) as [Hlt|[->|Hlt]]; [|by rewrite Hk in Hk1; simplify_eq|].
    + by destruct (Hmax _ _ Hk1 Hp1).
    + by destruct (Hmax1 _ _ Hk Hp).
  - apply (last_entry_None _ _ Hf) in Hk. congruence.
Qed.

Lemma first_entry_none p (m : gmap K V) :
  (forall k v, m !! k = Some v -> p k = false) -> first_entry p m = None.
Proof.
  intros Hn. destruct (first_entry p m) as [[k v]|] eqn:Hf; [|done].
  apply first_entry_Some in Hf as (Hk & Hp & _). apply Hn in Hk. congruence.
Qed.

Lemma last_entry_none p (m : gmap K V) :
  (forall k v, m !! k = Some v -> p k = false) -> last_entry p m = None.
Proof.
  intros Hn. destruct (last_entry p m) as [[k v]|] eqn:Hf; [|done].
  apply last_entry_Some in Hf as (Hk & Hp & _). apply Hn in Hk. congruence.
Qed.
End Unique.

(** ** Images *)

Section Image.
Context {K V K' V' : Type} `{Countable K, Countable K'} {KO : KeyOrd K} {KO' : KeyOrd K'}.
Context (ok : K * V -> Prop) (enc : K * V -> option (K' * V')).

Record image (m : gmap K V) (m' : gmap K' V') : Prop := {
  im_ok : forall k v, m !! k = Some v -> ok (k, v);
  im_entries : forall k' v', m' !! k' = Some v' <-> exists k v, m !! k = Some v /\ enc (k, v) = Some (k', v')
}.

Definition cursor_image (m : gmap K V) (c : Cursor K) (c' : Cursor K') : Prop :=
  match c with
  | Cursor_At k => exists v k' v', m !! k = Some v /\ enc (k, v) = Some (k', v') /\ c' = Cursor_At k'
  | Cursor_End => c' = Cursor_End
  end.

(** A step of a cursor and the step of its image. *)
Definition step_image (m : gmap K V) (r : Cursor K * option (K * V)) (r' : Cursor K' * option (K' * V')) : Prop :=
  cursor_image m r.1 r'.1 /\ r'.2 = r.2 ≫= enc /\ match r.2 with Some kv => ok kv | None => True end.

(** The encoding is total and keeps the order of the keys. *)
Context (enc_total : forall kv, ok kv -> is_Some (enc kv)).
Context (enc_mono : forall k1 v1 k2 v2 e1 e2, ok (k1, v1) -> ok (k2, v2) ->
  enc (k1, v1) = Some e1 -> enc (k2, v2) = Some e2 -> key_lt k1 k2 -> key_lt e1.1 e2.1).

Lemma enc_mono_iff k1 v1 k2 v2 e1 e2 :
  ok (k1, v1) -> ok (k2, v2) -> enc (k1, v1) = Some e1 -> enc (k2, v2) = Some e2 -> k1 <> k2 ->
  key_lt k1 k2 <-> key_lt e1.1 e2.1.
Proof.
  intros H1 H2 E1 E2 Hne. split; [by eapply enc_mono|]. intros Hlt.
  destruct (key_lt_total k1 k2) as [|[|Hgt]]; [done|done|]. exfalso.
  apply (key_lt_asym e1.1 e2.1 Hlt). by eapply (enc_mono k2 v2 k1 v1).
Qed.

Lemma image_entry (m : gmap K V) (m' : gmap K' V') k v : image m m' -> m !! k = Some v ->
  exists k' v', enc (k, v) = Some (k', v') /\ m' !! k' = Some v'.
Proof.
  intros Him Hk. destruct (enc_total (k, v)) as [[k' v'] He]; [by eapply im_ok|]. exists k', v'. split; [done|].
  apply (im_entries _ _ Him). by exists k, v.
Qed.

Section Search.
Context (m : gmap K V) (m' : gmap K' V') (Him : image m m').
Context (p : K -> bool) (q : K' -> bool).
Context (Hpq : forall k v k' v', m !! k = Some v -> enc (k, v) = Some (k', v') -> p k = q k').

Lemma image_first : first_entry q m' = first_entry p m ≫= enc.
Proof.
  destruct (first_entry p m) as [[k v]|] eqn:Hf; cbn.
  - apply first_entry_Some in Hf as (Hk & Hp & Hmin). destruct (image_entry m m' k v Him Hk) as (k' & v' & He & Hk').
    rewrite He. apply first_entry_unique; [done|by rewrite <-(Hpq _ _ _ _ Hk He)|].
    intros k2' v2' Hk2' Hq. apply (im_entries _ _ Him) in Hk2' as (k2 & v2 & Hk2 & He2).
    rewrite <-(Hpq _ _ _ _ Hk2 He2) in Hq. specialize (Hmin _ _ Hk2 Hq). intros Hlt.
    destruct (key_lt_total k k2) as [Hl|[->|Hl]]; [| |done].
    + eapply enc_mono in Hl; [|by eapply (im_ok m m')..|exact He|exact He2]. by apply (key_lt_asym k' k2').
    + rewrite Hk in Hk2. injection Hk2 as <-. rewrite He in He2. injection He2 as <- <-. by apply (key_lt_irrefl k').
  - apply first_entry_none. intros k' v' Hk'. apply (im_entries _ _ Him) in Hk' as (k & v & Hk & He).
    rewrite <-(Hpq _ _ _ _ Hk He). by eapply first_entry_None.
Qed.

Lemma image_last : last_entry q m' = last_entry p m ≫= enc.
Proof.
  destruct (last_entry p m) as [[k v]|] eqn:Hf; cbn.
  - apply last_entry_Some in Hf as (Hk & Hp & Hmax). destruct (image_entry m m' k v Him Hk) as (k' & v' & He & Hk').
    rewrite He. apply last_entry_unique; [done|by rewrite <-(Hpq _ _ _ _ Hk He)|].
    intros k2' v2' Hk2' Hq. apply (im_entries _ _ Him) in Hk2' as (k2 & v2 & Hk2 & He2).
    rewrite <-(Hpq _ _ _ _ Hk2 He2) in Hq. specialize (Hmax _ _ Hk2 Hq). intros Hlt.
    destruct (key_lt_total k2 k) as [Hl|[->|Hl]]; [| |done].
    + eapply enc_mono in Hl; [|by eapply (im_ok m m')..|exact He2|exact He]. by apply (key_lt_asym k2' k').
    + rewrite Hk in Hk2. injection Hk2 as <-. rewrite He in He2. injection He2 as <- <-. by apply (key_lt_irrefl k').
  - apply last_entry_none. intros k' v' Hk'. apply (im_entries _ _ Him) in Hk' as (k & v & Hk & He).
    rewrite <-(Hpq _ _ _ _ Hk He). by eapply last_entry_None.
Qed.
End Search.

Lemma image_result (m : gmap K V) (m' : gmap K' V') (o : option (K * V)) c c' :
  image m m' -> (forall k v, o = Some (k, v) -> m !! k = Some v) -> cursor_image m c c' ->
  step_image m (cursor_result o c) (cursor_result (o ≫= enc) c').
Proof.
  intros Him Ho Hc. destruct o as [[k v]|]; cbn; [|by split].
  pose proof (Ho k v eq_refl) as Hk. destruct (image_entry m m' k v Him Hk) as (k' & v' & He & Hk'). rewrite He. cbn.
  split; [by exists v, k', v'|]. split; [cbn; by rewrite He|cbn; by eapply im_ok].
Qed.

Lemma first_entry_in p (m : gmap K V) k v : first_entry p m = Some (k, v) -> m !! k = Some v.
Proof. by intros [? _]%first_entry_Some. Qed.

Lemma last_entry_in p (m : gmap K V) k v : last_entry p m = Some (k, v) -> m !! k = Some v.
Proof. by intros [? _]%last_entry_Some. Qed.

(** Comparisons with the entry of a cursor. *)
Lemma image_compare (m : gmap K V) (m' : gmap K' V') k v k' v' k2 v2 k2' v2' :
  image m m' -> m !! k = Some v -> enc (k, v) = Some (k', v') -> m !! k2 = Some v2 -> enc (k2, v2) = Some (k2', v2') ->
  key_lt k k2 <-> key_lt k' k2'.
Proof.
  intros Him Hk He Hk2 He2. destruct (decide (k = k2)) as [<-|Hne].
  - rewrite Hk in Hk2. injection Hk2 as <-. rewrite He in He2. injection He2 as <- <-.
    split; intros Hlt; [by apply key_lt_irrefl in Hlt|by apply key_lt_irrefl in Hlt].
  - apply (enc_mono_iff k v k2 v2 (k', v') (k2', v2')); [by eapply im_ok|by eapply im_ok|done|done|done].
Qed.

Lemma image_next (m : gmap K V) (m' : gmap K' V') c c' : image m m' -> cursor_image m c c' -> step_image m (cursor_next m c) (cursor_next m' c').
Proof.
  intros Him Hc. destruct c as [k|]; cbn in Hc; [|by subst].
  destruct Hc as (v & k' & v' & Hk & He & ->). cbn [cursor_next].
  rewrite (image_first m m' Him (fun k2 => bool_decide (key_lt k k2))).
  - apply (image_result m m'); [done|intros ? ?; apply first_entry_in|done].
  - intros k2 v2 k2' v2' Hk2 He2. apply bool_decide_ext. by eapply (image_compare m m').
Qed.

Lemma image_prev (m : gmap K V) (m' : gmap K' V') c c' : image m m' -> cursor_image m c c' -> step_image m (cursor_prev m c) (cursor_prev m' c').
Proof.
  intros Him Hc. destruct c as [k|]; cbn in Hc.
  - destruct Hc as (v & k' & v' & Hk & He & ->). cbn [cursor_prev].
    rewrite (image_last m m' Him (fun k2 => bool_decide (key_lt k2 k))).
    + apply (image_result m m'); [done|intros ? ?; apply last_entry_in|by exists v, k', v'].
    + intros k2 v2 k2' v2' Hk2 He2. apply bool_decide_ext. by eapply (image_compare m m').
  - subst. cbn [cursor_prev]. rewrite (image_last m m' Him (fun _ => true)) by done.
    apply (image_result m m'); [done|intros ? ?; apply last_entry_in|done].
Qed.

Lemma image_lower_bound (m : gmap K V) (m' : gmap K' V') k k' :
  image m m' ->
  (forall k2 v2 k2' v2', m !! k2 = Some v2 -> enc (k2, v2) = Some (k2', v2') -> key_lt k2 k <-> key_lt k2' k') ->
  step_image m (cursor_lower_bound m k) (cursor_lower_bound m' k').
Proof.
  intros Him Hcmp. unfold cursor_lower_bound.
  rewrite (image_first m m' Him (fun k2 => negb (bool_decide (key_lt k2 k)))).
  - apply (image_result m m'); [done|intros ? ?; apply first_entry_in|done].
  - intros k2 v2 k2' v2' Hk2 He2. f_equal. apply bool_decide_ext. by eapply Hcmp.
Qed.
End Image.
