(* ===== verification/SimpleTable.v ===== *)
(** * Simple tables on the byte store

    Models [crates/papyrus_storage/src/db/table_types/simple_table.rs]: the
    implementation of the traits [Table] and [DbCursorTrait] for a table that
    maps the bytes of a key to the bytes of a value, and shows that it
    implements the operations of [StorageTables.v]. *)

From stdpp Require Import base gmap list strings fin_maps.
From Stdlib Require Import ZArith Lia.
From S2P Require Import Prelude StorageTables StarknetTypes Serde SerdeLaws Mdbx.

(** [?] on a [DbResult]. *)
Definition db_bind {A B} (r : DbResult A) (k : A -> DbResult B) : DbResult B :=
  match r with DbOk a => k a | DbErr e => DbErr e end.
Notation "'let?' x := m 'in' k" := (db_bind m (fun x => k)) (at level 200, x pattern, m at level 100, k at level 200).

(** [ok_or(e)]. *)
Definition ok_or {A} (e : DbError) (o : option A) : DbResult A :=
  match o with Some a => DbOk a | None => DbErr e end.

(** [StorageSerdeEx::serialize] of a key. *)
Definition serialize_key {K} (ks : StorageSerde K) (key : K) : DbResult bytes :=
  ok_or DbError_Serialization (written (serialize_into ks key)).

Section SimpleTable.
Context {K V : Type} (ks : StorageSerde K) (VS : ValueSerde V) {SM : MdbxSimple}.

Definition simple_get (txn : Store) (key : K) : DbResult (option V) :=
  let? bin_key := serialize_key ks key in
  match store_get txn bin_key with
  | None => DbOk None
  | Some bytes =>
      let? value := ok_or DbError_InnerDeserialization (value_deserialize VS bytes) in
      DbOk (Some value)
  end.

(** The bytes of a value and of a key, in the order in which they are computed. *)
Definition serialize_entry (key : K) (value : V) : DbResult (bytes * bytes) :=
  let? data := ok_or DbError_Serialization (value_serialize VS value) in
  let? bin_key := serialize_key ks key in
  DbOk (bin_key, data).

Definition simple_upsert (txn : Store) (key : K) (value : V) : DbResult Store :=
  let? (bin_key, data) := serialize_entry key value in
  match store_put txn bin_key data WriteFlags_UPSERT with
  | MdbxOk txn' => DbOk txn'
  | MdbxErr _ => DbErr DbError_Inner
  end.

Definition simple_insert (txn : Store) (key : K) (value : V) : DbResult Store :=
  let? (bin_key, data) := serialize_entry key value in
  match store_put txn bin_key data WriteFlags_NO_OVERWRITE with
  | MdbxOk txn' => DbOk txn'
  | MdbxErr MdbxError_KeyExist => DbErr DbError_KeyAlreadyExists
  | MdbxErr _ => DbErr DbError_Inner
  end.

Definition simple_append (txn : Store) (key : K) (value : V) : DbResult Store :=
  let? (bin_key, data) := serialize_entry key value in
  match store_put txn bin_key data WriteFlags_APPEND with
  | MdbxOk txn' => DbOk txn'
  | MdbxErr MdbxError_KeyMismatch => DbErr DbError_Append
  | MdbxErr _ => DbErr DbError_Inner
  end.

Definition simple_delete (txn : Store) (key : K) : DbResult Store :=
  let? bin_key := serialize_key ks key in
  DbOk (store_del txn bin_key).

(** ** Cursors *)

(** The entry a cursor found. *)
Definition deserialize_entry (res : option (bytes * bytes)) : DbResult (option (K * V)) :=
  match res with
  | None => DbOk None
  | Some (key_bytes, value_bytes) =>
      let? key := ok_or DbError_InnerDeserialization (read_all (deserialize_from ks) key_bytes) in
      let? value := ok_or DbError_InnerDeserialization (value_deserialize VS value_bytes) in
      DbOk (Some (key, value))
  end.

Definition simple_prev (txn : Store) (cursor : StoreCursor) : DbResult (StoreCursor * option (K * V)) :=
  let '(cursor', prev_cursor_res) := store_prev txn cursor in
  let? res := deserialize_entry prev_cursor_res in DbOk (cursor', res).

Definition simple_next (txn : Store) (cursor : StoreCursor) : DbResult (StoreCursor * option (K * V)) :=
  let '(cursor', prev_cursor_res) := store_next txn cursor in
  let? res := deserialize_entry prev_cursor_res in DbOk (cursor', res).

Definition simple_lower_bound (txn : Store) (cursor : StoreCursor) (key : K) :
    DbResult (StoreCursor * option (K * V)) :=
  let? key_bytes := serialize_key ks key in
  let '(cursor', prev_cursor_res) := store_set_range txn cursor key_bytes in
  let? res := deserialize_entry prev_cursor_res in DbOk (cursor', res).
End SimpleTable.

(** ** The tables implement the contract *)

(** What a key's serializer must do: the keys [ok] have bytes that read back. *)
Definition readable_key {K} (ks : StorageSerde K) (ok : K -> Prop) : Prop :=
  forall k, ok k -> exists b, serialize_key ks k = DbOk b /\ read_all (deserialize_from ks) b = Some k.

(** The bytes are ordered as the keys. *)
Definition ordered_key {K} `{KeyOrd K} (ks : StorageSerde K) (ok : K -> Prop) : Prop :=
  forall k1 k2 b1 b2, ok k1 -> ok k2 -> serialize_key ks k1 = DbOk b1 -> serialize_key ks k2 = DbOk b2 ->
    key_lt k1 k2 -> bytes_lt b1 b2.

Definition readable_value {V} (VS : ValueSerde V) (ok : V -> Prop) : Prop :=
  forall v, ok v -> exists b, value_serialize VS v = Some b /\ value_deserialize VS b = Some v.

Lemma readable_key_inj {K} (ks : StorageSerde K) ok k1 k2 b :
  readable_key ks ok -> ok k1 -> ok k2 -> serialize_key ks k1 = DbOk b -> serialize_key ks k2 = DbOk b -> k1 = k2.
Proof.
  intros Hr H1 H2 E1 E2. destruct (Hr k1 H1) as (b1 & S1 & R1). destruct (Hr k2 H2) as (b2 & S2 & R2). congruence.
Qed.

Section Refines.
Context {K V : Type} `{Countable K} {KO : KeyOrd K} {SM : MdbxSimple}.
Context (ks : StorageSerde K) (VS : ValueSerde V) (okk : K -> Prop) (okv : V -> Prop).
Context (Hkey : readable_key ks okk) (Hval : readable_value VS okv).

(** The entry of the store for an entry of the table. *)
Definition simple_encode (kv : K * V) : option (bytes * bytes) :=
  match serialize_entry ks VS kv.1 kv.2 with DbOk e => Some e | DbErr _ => None end.

Definition simple_ok (kv : K * V) : Prop := okk kv.1 /\ okv kv.2.

(** The store holds the encoded table. *)
Definition simple_rel (s : Store) (m : gmap K V) : Prop := image simple_ok simple_encode m (entries s).

(** An entry that can be written. *)
Lemma encode_ok k v :
  okk k -> okv v -> exists kb vb, serialize_key ks k = DbOk kb /\ read_all (deserialize_from ks) kb = Some k /\
    value_serialize VS v = Some vb /\ value_deserialize VS vb = Some v /\
    serialize_entry ks VS k v = DbOk (kb, vb) /\ simple_encode (k, v) = Some (kb, vb).
Proof.
  intros Hk Hv. destruct (Hkey k Hk) as (kb & Sk & Rk). destruct (Hval v Hv) as (vb & Sv & Rv). exists kb, vb.
  unfold simple_encode, serialize_entry. cbn [fst snd]. rewrite Sv, Sk. done.
Qed.

Lemma encode_inv k v kb vb :
  simple_ok (k, v) -> simple_encode (k, v) = Some (kb, vb) ->
  serialize_key ks k = DbOk kb /\ read_all (deserialize_from ks) kb = Some k /\ value_deserialize VS vb = Some v.
Proof. intros [Hk Hv] He. destruct (encode_ok k v Hk Hv) as (kb' & vb' & ? & ? & ? & ? & ? & He'). by simplify_eq. Qed.

Lemma encode_total kv : simple_ok kv -> is_Some (simple_encode kv).
Proof. destruct kv as [k v]. intros [Hk Hv]. destruct (encode_ok k v Hk Hv) as (kb & vb & ? & ? & ? & ? & ? & He). by exists (kb, vb). Qed.

Lemma stored_key s m k kb vb :
  simple_rel s m -> okk k -> serialize_key ks k = DbOk kb -> entries s !! kb = Some vb ->
  exists v, m !! k = Some v /\ value_deserialize VS vb = Some v.
Proof.
  intros Hr Hk Sk Hb. apply (im_entries _ _ _ _ Hr) in Hb as (k2 & v2 & Hk2 & He2).
  pose proof (im_ok _ _ _ _ Hr _ _ Hk2) as Hok2. destruct (encode_inv _ _ _ _ Hok2 He2) as (Sk2 & _ & Rv).
  destruct Hok2 as [Hok2 _]. assert (k = k2) as <- by (by eapply readable_key_inj). eauto.
Qed.

Lemma stored_lookup s m k kb :
  simple_rel s m -> okk k -> serialize_key ks k = DbOk kb -> is_Some (entries s !! kb) <-> is_Some (m !! k).
Proof.
  intros Hr Hk Sk. split.
  - intros [vb Hb]. destruct (stored_key s m k kb vb) as (v & Hv & _); eauto.
  - intros [v Hv]. destruct (image_entry _ _ encode_total _ _ _ _ Hr Hv) as (kb' & vb & He & Hb).
    destruct (encode_inv _ _ _ _ (im_ok _ _ _ _ Hr _ _ Hv) He) as (Sk' & _). rewrite Sk in Sk'. injection Sk' as <-. eauto.
Qed.

Lemma simple_get_rel s m k : simple_rel s m -> okk k -> simple_get ks VS s k = DbOk (tbl_get m k).
Proof.
  intros Hr Hk. destruct (Hkey k Hk) as (kb & Sk & _). unfold simple_get. rewrite Sk. cbn [db_bind].
  rewrite store_get_spec. unfold tbl_get. destruct (entries s !! kb) as [vb|] eqn:Hb.
  - destruct (stored_key s m k kb vb Hr Hk Sk Hb) as (v & -> & ->). done.
  - destruct (m !! k) eqn:Hm; [|done]. exfalso.
    destruct (proj2 (stored_lookup s m k kb Hr Hk Sk)) as [vb' Hb']; [by rewrite Hm|]. congruence.
Qed.

(** Writing and deleting an entry. *)
Lemma simple_inserted s s' m k v kb vb :
  simple_rel s m -> okk k -> okv v -> simple_encode (k, v) = Some (kb, vb) -> entries s' = <[kb := vb]> (entries s) ->
  simple_rel s' (<[k := v]> m).
Proof.
  intros Hr Hk Hv He Hs'. destruct (encode_inv k v kb vb ltac:(by split) He) as (Sk & _ & _). split.
  - intros k2 v2 [[<- <-]|[Hne Hk2]]%lookup_insert_Some; [by split|by eapply im_ok].
  - intros kb2 vb2. rewrite Hs', lookup_insert_Some. split.
    + intros [[<- <-]|[Hne Hb2]]; [exists k, v; by rewrite lookup_insert_eq|].
      apply (im_entries _ _ _ _ Hr) in Hb2 as (k2 & v2 & Hk2 & He2). exists k2, v2. split; [|done].
      rewrite lookup_insert_ne; [done|]. intros <-.
      destruct (encode_inv _ _ _ _ (im_ok _ _ _ _ Hr _ _ Hk2) He2) as (Sk2 & _). congruence.
    + intros (k2 & v2 & [[<- <-]|[Hne Hk2]]%lookup_insert_Some & He2); [left; by simplify_eq|]. right.
      split; [|apply (im_entries _ _ _ _ Hr); eauto]. intros ->. pose proof (im_ok _ _ _ _ Hr _ _ Hk2) as Hok2.
      destruct (encode_inv _ _ _ _ Hok2 He2) as (Sk2 & _). apply Hne. by eapply readable_key_inj; [..|apply Hok2| |].
Qed.

Lemma simple_upsert_rel s m k v :
  simple_rel s m -> okk k -> okv v ->
  exists s', simple_upsert ks VS s k v = DbOk s' /\ simple_rel s' (tbl_upsert m k v).
Proof.
  intros Hr Hk Hv. destruct (encode_ok k v Hk Hv) as (kb & vb & _ & _ & _ & _ & Se & He).
  destruct (store_upsert_spec s kb vb) as (s' & Hput & Hs'). exists s'. unfold simple_upsert. rewrite Se. cbn [db_bind].
  rewrite Hput. split; [done|]. by eapply simple_inserted.
Qed.

Lemma simple_insert_rel s m k v :
  simple_rel s m -> okk k -> okv v ->
  match tbl_insert m k v with
  | DbOk m' => exists s', simple_insert ks VS s k v = DbOk s' /\ simple_rel s' m'
  | DbErr e => simple_insert ks VS s k v = DbErr e
  end.
Proof.
  intros Hr Hk Hv. destruct (encode_ok k v Hk Hv) as (kb & vb & Sk & _ & _ & _ & Se & He). unfold simple_insert.
  rewrite Se. cbn [db_bind]. pose proof (store_no_overwrite_spec s kb vb) as Hput.
  pose proof (stored_lookup s m k kb Hr Hk Sk) as Hl. unfold tbl_insert.
  destruct (m !! k) eqn:Hm, (entries s !! kb) eqn:Hb; try (by destruct Hl as [[]]; eauto); try (by destruct Hl as [_ []]; eauto).
  - by rewrite Hput.
  - destruct Hput as (s' & -> & Hs'). exists s'. split; [done|]. by eapply simple_inserted.
Qed.

Lemma simple_delete_rel s m k :
  simple_rel s m -> okk k -> exists s', simple_delete ks s k = DbOk s' /\ simple_rel s' (tbl_delete m k).
Proof.
  intros Hr Hk. destruct (Hkey k Hk) as (kb & Sk & _). exists (store_del s kb). unfold simple_delete, tbl_delete. rewrite Sk.
  split; [done|]. split.
  - intros k2 v2 [_ Hk2]%lookup_delete_Some. by eapply im_ok.
  - intros kb2 vb2. rewrite store_del_spec, lookup_delete_Some. split.
    + intros [Hne Hb2]. apply (im_entries _ _ _ _ Hr) in Hb2 as (k2 & v2 & Hk2 & He2). exists k2, v2. split; [|done].
      apply lookup_delete_Some. split; [|done]. intros <-.
      destruct (encode_inv _ _ _ _ (im_ok _ _ _ _ Hr _ _ Hk2) He2) as (Sk2 & _). congruence.
    + intros (k2 & v2 & [Hne Hk2]%lookup_delete_Some & He2). split; [|apply (im_entries _ _ _ _ Hr); eauto].
      intros ->. pose proof (im_ok _ _ _ _ Hr _ _ Hk2) as Hok2.
      destruct (encode_inv _ _ _ _ Hok2 He2) as (Sk2 & _). apply Hne. by eapply readable_key_inj; [..|apply Hok2| |].
Qed.

(** ** Appending and cursors, when the bytes are ordered as the keys *)

Context (Hord : ordered_key ks okk).

Lemma encode_mono k1 v1 k2 v2 e1 e2 :
  simple_ok (k1, v1) -> simple_ok (k2, v2) -> simple_encode (k1, v1) = Some e1 -> simple_encode (k2, v2) = Some e2 ->
  key_lt k1 k2 -> key_lt e1.1 e2.1.
Proof.
  destruct e1 as [kb1 vb1], e2 as [kb2 vb2]. intros H1 H2 E1 E2 Hlt.
  destruct (encode_inv _ _ _ _ H1 E1) as (S1 & _). destruct (encode_inv _ _ _ _ H2 E2) as (S2 & _).
  destruct H1 as [H1 _], H2 as [H2 _]. exact (Hord k1 k2 kb1 kb2 H1 H2 S1 S2 Hlt).
Qed.

(** Comparing a stored key with another key. *)
Lemma key_compare k1 k2 b1 b2 :
  okk k1 -> okk k2 -> serialize_key ks k1 = DbOk b1 -> serialize_key ks k2 = DbOk b2 ->
  key_lt k1 k2 <-> bytes_lt b1 b2.
Proof.
  intros H1 H2 S1 S2. split; [by eapply Hord|]. intros Hlt.
  destruct (key_lt_total k1 k2) as [|[->|Hgt]]; [done| |].
  - rewrite S1 in S2. injection S2 as <-. by apply bytes_lt_irrefl in Hlt.
  - exfalso. apply (bytes_lt_irrefl b1). eapply bytes_lt_trans; [exact Hlt|]. exact (Hord k2 k1 b2 b1 H2 H1 S2 S1 Hgt).
Qed.

Lemma simple_append_rel s m k v :
  simple_rel s m -> okk k -> okv v ->
  match tbl_append m k v with
  | DbOk m' => exists s', simple_append ks VS s k v = DbOk s' /\ simple_rel s' m'
  | DbErr e => simple_append ks VS s k v = DbErr e
  end.
Proof.
  intros Hr Hk Hv. destruct (encode_ok k v Hk Hv) as (kb & vb & Sk & _ & _ & _ & Se & He). unfold simple_append.
  rewrite Se. cbn [db_bind]. pose proof (store_append_spec s kb vb) as Hput. unfold below_last in Hput.
  rewrite (image_last _ _ encode_total encode_mono m (entries s) Hr (fun _ => true)) in Hput by done.
  assert (Hins : forall s', entries s' = <[kb := vb]> (entries s) -> simple_rel s' (<[k := v]> m))
    by (intros s' Hs'; by eapply simple_inserted).
  unfold tbl_append. destruct (last_entry _ m) as [[lk lv]|] eqn:Hl; cbn [mbind option_bind] in Hput.
  - apply last_entry_in in Hl. destruct (image_entry _ _ encode_total _ _ _ _ Hr Hl) as (lkb & lvb & Hle & _).
    rewrite Hle in Hput. pose proof (im_ok _ _ _ _ Hr _ _ Hl) as Hlok.
    destruct (encode_inv _ _ _ _ Hlok Hle) as (Slk & _). destruct Hlok as [Hlok _].
    pose proof (key_compare k lk kb lkb Hk Hlok Sk Slk) as Hcmp. destruct (decide (key_lt k lk)) as [Hd|Hd].
    + rewrite bool_decide_true in Hput by (by apply Hcmp). by rewrite Hput.
    + rewrite bool_decide_false in Hput by (by rewrite <-Hcmp). destruct Hput as (s' & -> & Hs'). eauto.
  - destruct Hput as (s' & -> & Hs'). eauto.
Qed.

(** A cursor of the store that stands at the encoded entry. *)
Definition cursor_rel (m : gmap K V) (c : StoreCursor) (c' : Cursor K) : Prop := cursor_image simple_encode m c' (position c).

(** A step of a cursor, as the step on the table says. *)
Definition cursor_step (m : gmap K V) (r : DbResult (StoreCursor * option (K * V)))
    (step : Cursor K * option (K * V)) : Prop :=
  exists c, r = DbOk (c, step.2) /\ cursor_rel m c step.1.

Lemma step_decoded m step (r : StoreCursor * option (bytes * bytes)) :
  step_image simple_ok simple_encode m step (position r.1, r.2) ->
  cursor_step m (let '(c, res) := r in let? res := deserialize_entry ks VS res in DbOk (c, res)) step.
Proof.
  destruct r as [c res], step as [c' o]. intros (Hc & Hres & Hok). cbn [fst snd] in *. exists c. split; [|done]. subst res.
  destruct o as [[k v]|]; [|done]. cbn [mbind option_bind]. destruct (encode_total (k, v) Hok) as [[kb vb] He].
  rewrite He. destruct (encode_inv _ _ _ _ Hok He) as (_ & Rk & Rv). cbn [deserialize_entry]. by rewrite Rk, Rv.
Qed.

Lemma simple_next_rel s m c c' : simple_rel s m -> cursor_rel m c c' -> cursor_step m (simple_next ks VS s c) (cursor_next m c').
Proof.
  intros Hr Hc. apply step_decoded. rewrite store_next_spec. by apply (image_next _ _ encode_total encode_mono).
Qed.

Lemma simple_prev_rel s m c c' : simple_rel s m -> cursor_rel m c c' -> cursor_step m (simple_prev ks VS s c) (cursor_prev m c').
Proof.
  intros Hr Hc. apply step_decoded. rewrite store_prev_spec. by apply (image_prev _ _ encode_total encode_mono).
Qed.

Lemma simple_lower_bound_rel s m c k :
  simple_rel s m -> okk k -> cursor_step m (simple_lower_bound ks VS s c k) (cursor_lower_bound m k).
Proof.
  intros Hr Hk. destruct (Hkey k Hk) as (kb & Sk & _). unfold simple_lower_bound. rewrite Sk. cbn [db_bind].
  apply step_decoded. rewrite store_set_range_spec. apply (image_lower_bound _ _ encode_total encode_mono); [done|].
  intros k2 v2 kb2 vb2 Hk2 He2. pose proof (im_ok _ _ _ _ Hr _ _ Hk2) as Hok2.
  destruct (encode_inv _ _ _ _ Hok2 He2) as (Sk2 & _). destruct Hok2 as [Hok2 _]. by apply key_compare.
Qed.
End Refines.

(** A simple table on the byte store implements the contract of [Table] and
    [DbCursorTrait]: in a store that holds the encoded entries of a table every
    read, write, delete and cursor step answers as the operation on the table
    does, with its error, and leaves a store that holds the encoded result. The
    key's bytes must read back, and for appending and for cursors they must be
    ordered as the keys. *)
Theorem simple_table_refines {K V : Type} `{Countable K} {KO : KeyOrd K} {SM : MdbxSimple}
    (ks : StorageSerde K) (VS : ValueSerde V) (okk : K -> Prop) (okv : V -> Prop) (s : Store) (m : gmap K V)
    (k : K) (v : V) :
  readable_key ks okk -> readable_value VS okv -> simple_rel ks VS okk okv s m -> okk k -> okv v ->
  let rel := simple_rel ks VS okk okv in
  let agrees (r : DbResult Store) (r' : DbResult (gmap K V)) :=
    match r' with DbOk m' => exists s', r = DbOk s' /\ rel s' m' | DbErr e => r = DbErr e end in
  simple_get ks VS s k = DbOk (tbl_get m k) /\
  agrees (simple_upsert ks VS s k v) (DbOk (tbl_upsert m k v)) /\
  agrees (simple_insert ks VS s k v) (tbl_insert m k v) /\
  agrees (simple_delete ks s k) (DbOk (tbl_delete m k)) /\
  (ordered_key ks okk ->
     agrees (simple_append ks VS s k v) (tbl_append m k v) /\
     forall c, cursor_step ks VS m (simple_lower_bound ks VS s c k) (cursor_lower_bound m k) /\
       forall c', cursor_rel ks VS m c c' ->
         cursor_step ks VS m (simple_next ks VS s c) (cursor_next m c') /\
         cursor_step ks VS m (simple_prev ks VS s c) (cursor_prev m c')).
Proof.
  intros Hkey Hval Hr Hk Hv rel agrees. split; [by eapply simple_get_rel|].
  split; [by eapply simple_upsert_rel|]. split; [by eapply simple_insert_rel|]. split; [by eapply simple_delete_rel|].
  intros Hord. split; [by eapply simple_append_rel|]. intros c.
  split; [by eapply simple_lower_bound_rel|]. intros c' Hc.
  split; [by eapply simple_next_rel|by eapply simple_prev_rel].
Qed.

(** * Tables with a common prefix on the byte store

    Models [crates/papyrus_storage/src/db/table_types/dup_sort_tables.rs]: a key
    is a pair of a main key and a sub-key. The store keeps, under the bytes of
    the main key, the bytes of the sub-key followed by those of the value, one
    such string per entry, in the order of the bytes. *)

(** [slice::strip_prefix] and [slice::starts_with]. *)
Fixpoint strip_prefix (bs prefix : bytes) {struct prefix} : option bytes :=
  match prefix, bs with
  | [], _ => Some bs
  | p :: prefix', b :: bs' => if p =? b then strip_prefix bs' prefix' else None
  | _ :: _, [] => None
  end.

Definition starts_with (bs prefix : bytes) : bool := bool_decide (is_Some (strip_prefix bs prefix)).

(** The loop of [add_one] from the last byte on: the bytes and the carry. *)
Fixpoint add_one_loop (bs : bytes) : bytes * bool :=
  match bs with
  | [] => ([], true)
  | byte :: rest =>
      let '(rest', carry) := add_one_loop rest in
      if carry then (if byte =? 255 then (0 :: rest', true) else (byte + 1 :: rest', false))
      else (byte :: rest', false)
  end.

Definition add_one (bs : bytes) : bytes :=
  let '(bs', carry) := add_one_loop bs in if carry then 1 :: bs' else bs'.

Section CommonPrefix.
Context {MainKey SubKey V : Type} {DM : MdbxDup}.
Context (main : StorageSerde MainKey) (sub : StorageSerde SubKey) (value_serde : StorageSerde V) (VS : ValueSerde V).
Abbreviation Key := (MainKey * SubKey)%type.

(** ** [DupSortUtils] for [CommonPrefix] *)

Definition get_main_key (key : Key) : DbResult bytes := serialize_key main key.1.
Definition get_sub_key (key : Key) : DbResult bytes := serialize_key sub key.2.
Definition get_sub_key_lower_bound (key : Key) : DbResult bytes := serialize_key sub key.2.

Definition get_sub_key_and_value (key : Key) (value : V) : DbResult bytes :=
  ok_or DbError_Serialization (written (serialize_into sub key.2 ;! serialize_into value_serde value)).

Definition next_main_key (main_key_bytes : bytes) : bytes := add_one main_key_bytes.

Definition get_key_value_pair (main_key sub_key_and_value : bytes) : option (Key * V) :=
  match read_all (deserialize_from main) main_key with
  | None => None
  | Some main_key =>
      match deserialize_from sub sub_key_and_value with
      | Done rest sub_key =>
          match read_all (deserialize_from value_serde) rest with
          | Some value => Some ((main_key, sub_key), value)
          | None => None
          end
      | _ => None
      end
  end.

(** ** The trait [Table] *)

Definition prefix_get (txn : DupStore) (key : Key) : DbResult (option V) :=
  let? main_key := get_main_key key in
  let? first_sub_key := get_sub_key_lower_bound key in
  match (dup_get_both_range txn (dup_cursor txn) main_key first_sub_key).2 with
  | None => DbOk None
  | Some bytes =>
      let? sub_key := get_sub_key key in
      match strip_prefix bytes sub_key with
      | Some bytes =>
          let? value := ok_or DbError_InnerDeserialization (value_deserialize VS bytes) in
          DbOk (Some value)
      | None => DbOk None
      end
  end.

(** The neighbour in the same main key has the given sub-key. *)
Definition neighbour_has (found : option (bytes * bytes)) (sub_key : bytes) : bool :=
  match found with
  | Some (_, sub_key_value) => starts_with sub_key_value sub_key
  | None => false
  end.

(** A write leaves a store also when it fails. *)
Abbreviation Write := (M DupStore DbError unit).

Definition try {A} (r : DbResult A) : M DupStore DbError A :=
  match r with DbOk a => ret a | DbErr e => raise e end.

(** [cursor.put] with the error it returned, and [cursor.del]. *)
Definition cursor_put (cursor : DupCursor) (main_key data : bytes) (flags : WriteFlags) :
    M DupStore DbError (option MdbxError * DupCursor) :=
  fun txn =>
    match dup_put txn cursor main_key data flags with
    | (MdbxOk txn', cursor') => Done txn' (None, cursor')
    | (MdbxErr e, cursor') => Done txn (Some e, cursor')
    end.

Definition cursor_del (cursor : DupCursor) : M DupStore DbError DupCursor :=
  fun txn => let '(txn', cursor') := dup_del txn cursor in Done txn' cursor'.

Definition prefix_upsert (key : Key) (value : V) : Write :=
  let! main_key := try (get_main_key key) in
  let! sub_key_value := try (get_sub_key_and_value key value) in
  let! txn := get in
  let! (err, cursor) := cursor_put (dup_cursor txn) main_key sub_key_value WriteFlags_UPSERT in
  match err with
  | Some _ => raise DbError_Inner
  | None =>
      let! sub_key := try (get_sub_key key) in
      let! txn := get in
      let '(cloned_cursor, next) := dup_next_dup txn cursor in
      if neighbour_has next sub_key then let! _ := cursor_del cloned_cursor in ret tt
      else
        let '(cursor, prev) := dup_prev_dup txn cursor in
        if neighbour_has prev sub_key then let! _ := cursor_del cursor in ret tt else ret tt
  end.

Definition prefix_insert (key : Key) (value : V) : Write :=
  let! main_key := try (get_main_key key) in
  let! sub_key_value := try (get_sub_key_and_value key value) in
  let! txn := get in
  let! (err, cursor) := cursor_put (dup_cursor txn) main_key sub_key_value WriteFlags_NO_DUP_DATA in
  match err with
  | Some MdbxError_KeyExist => raise DbError_KeyAlreadyExists
  | Some _ => raise DbError_Inner
  | None =>
      let! sub_key := try (get_sub_key key) in
      let! txn := get in
      if neighbour_has (dup_next_dup txn cursor).2 sub_key then
        let! _ := cursor_del cursor in raise DbError_KeyAlreadyExists
      else if neighbour_has (dup_prev_dup txn cursor).2 sub_key then
        let! _ := cursor_del cursor in raise DbError_KeyAlreadyExists
      else ret tt
  end.

Definition prefix_append (key : Key) (value : V) : Write :=
  let! main_key := try (get_main_key key) in
  let! sub_key_and_value := try (get_sub_key_and_value key value) in
  let! txn := get in
  let! (err, cursor) := cursor_put (dup_cursor txn) main_key sub_key_and_value WriteFlags_APPEND_DUP_APPEND in
  match err with
  | Some MdbxError_KeyMismatch =>
      let! txn := get in
      let '(cursor, last) := dup_last txn cursor in
      let! (last_main_key_bytes, last_key_suffix_and_value_bytes) := expect last in
      let! sub_key := try (get_sub_key key) in
      if bool_decide (last_main_key_bytes = main_key) && starts_with last_key_suffix_and_value_bytes sub_key then
        let! cursor := cursor_del cursor in
        let! (err, _) := cursor_put cursor main_key sub_key_and_value WriteFlags_APPEND_DUP_APPEND in
        match err with None => ret tt | Some _ => raise DbError_Inner end
      else raise DbError_Append
  | Some _ => raise DbError_Inner
  | None =>
      let! txn := get in
      let '(cursor, prev) := dup_prev_dup txn cursor in
      match prev with
      | Some (_, prev_bytes) =>
          let! sub_key := try (get_sub_key key) in
          if starts_with prev_bytes sub_key then let! _ := cursor_del cursor in ret tt else ret tt
      | None => ret tt
      end
  end.

Definition prefix_delete (key : Key) : Write :=
  let! main_key := try (get_main_key key) in
  let! first_sub_key := try (get_sub_key_lower_bound key) in
  let! txn := get in
  let '(cursor, found) := dup_get_both_range txn (dup_cursor txn) main_key first_sub_key in
  match found with
  | None => ret tt
  | Some bytes =>
      let! sub_key := try (get_sub_key key) in
      if starts_with bytes sub_key then let! _ := cursor_del cursor in ret tt else ret tt
  end.

Definition prefix_append_greater_sub_key (key : Key) (value : V) : Write :=
  let! main_key := try (get_main_key key) in
  let! sub_key_and_value := try (get_sub_key_and_value key value) in
  let! txn := get in
  let! (err, cursor) := cursor_put (dup_cursor txn) main_key sub_key_and_value WriteFlags_APPEND_DUP in
  match err with
  | Some MdbxError_KeyMismatch => raise DbError_Append
  | Some _ => raise DbError_Inner
  | None =>
      let! txn := get in
      let '(cursor, prev) := dup_prev_dup txn cursor in
      match prev with
      | Some (_, prev_bytes) =>
          let! sub_key := try (get_sub_key key) in
          if starts_with prev_bytes sub_key then
            let '(cursor, _) := dup_next_dup txn cursor in
            let! _ := cursor_del cursor in raise DbError_Append
          else ret tt
      | None => ret tt
      end
  end.

(** ** The trait [DbCursorTrait] *)

Definition deserialize_pair (res : option (bytes * bytes)) : option (Key * V) :=
  match res with
  | None => None
  | Some (main_key_bytes, sub_key_value_bytes) => get_key_value_pair main_key_bytes sub_key_value_bytes
  end.

Definition prefix_prev (txn : DupStore) (cursor : DupCursor) : DbResult (DupCursor * option (Key * V)) :=
  let '(cursor, prev_cursor_res) := dup_prev txn cursor in DbOk (cursor, deserialize_pair prev_cursor_res).

Definition prefix_next (txn : DupStore) (cursor : DupCursor) : DbResult (DupCursor * option (Key * V)) :=
  let '(cursor, prev_cursor_res) := dup_next txn cursor in DbOk (cursor, deserialize_pair prev_cursor_res).

Definition prefix_lower_bound (txn : DupStore) (cursor : DupCursor) (key : Key) :
    DbResult (DupCursor * option (Key * V)) :=
  let? main_key := get_main_key key in
  let? first_sub_key := get_sub_key_lower_bound key in
  match dup_get_both_range txn cursor main_key first_sub_key with
  | (cursor, Some value_bytes) => DbOk (cursor, get_key_value_pair main_key value_bytes)
  | (cursor, None) =>
      let '(cursor, res) := dup_set_range txn cursor (next_main_key main_key) in
      DbOk (cursor, deserialize_pair res)
  end.
End CommonPrefix.
