(* ===== verification/CommonPrefixProps.v ===== *)
(** * Tables with a common prefix implement the contract of the tables

    The store holds, for each entry of a table, the pair of the bytes of its
    main key and the bytes of its sub-key and value. Every operation of
    [CommonPrefixTable.v] on it answers as the operation of [StorageTables.v]
    on the table. *)

From stdpp Require Import base gmap list strings fin_maps.
From Stdlib Require Import ZArith Lia.
From S2P Require Import Prelude StorageTables StarknetTypes Serde SerdeLaws Mdbx SimpleTable.

(** ** Prefixes *)

Lemma strip_prefix_app p r : strip_prefix (p ++ r) p = Some r.
Proof. induction p as [|b p IH]; cbn; [by destruct r|]. by rewrite Z.eqb_refl. Qed.

Lemma strip_prefix_Some bs p r : strip_prefix bs p = Some r -> bs = p ++ r.
Proof.
  revert bs; induction p as [|b p IH]; intros bs; cbn; [by intros [= ->]|].
  destruct bs as [|b' bs]; [done|]. destruct (Z.eqb_spec b b') as [->|]; [|done]. intros ->%IH. done.
Qed.

(** Of two strings of the same length only an equal one is a prefix. *)
Lemma strip_prefix_ne p q r : length p = length q -> p <> q -> strip_prefix (q ++ r) p = None.
Proof.
  intros Hl Hne. destruct (strip_prefix (q ++ r) p) as [r'|] eqn:Hs; [|done]. exfalso. apply Hne.
  apply strip_prefix_Some in Hs. apply app_inj_1 in Hs as [-> _]; [done|done].
Qed.

Lemma starts_with_app p q r : length p = length q -> starts_with (q ++ r) p = bool_decide (q = p).
Proof.
  intros Hl. unfold starts_with. destruct (decide (p = q)) as [->|Hne].
  - rewrite strip_prefix_app, !bool_decide_true; [done|done|by eexists].
  - rewrite (strip_prefix_ne p q r Hl Hne), !bool_decide_false; [done| |by intros []]. congruence.
Qed.

Lemma bytes_lt_prefix p q x : length p = length q -> bytes_lt (p ++ x) q <-> bytes_lt p q.
Proof.
  intros Hl. rewrite <-(app_nil_r q) at 1. rewrite bytes_lt_app by done. split; [|by left].
  intros [|[_ Hx]]; [done|]. by destruct x.
Qed.

Lemma bytes_lt_not p q x y : length p = length q -> bytes_lt (p ++ x) (q ++ y) -> ~ bytes_lt q p.
Proof.
  intros Hl Hlt Hqp. apply bytes_lt_app in Hlt as [Hlt|[-> _]]; [|by apply bytes_lt_irrefl in Hqp|done].
  apply (bytes_lt_irrefl p). by eapply bytes_lt_trans.
Qed.

Lemma bytes_lt_antisym p q : ~ bytes_lt p q -> ~ bytes_lt q p -> p = q.
Proof. intros H1 H2. by destruct (bytes_lt_total p q) as [|[|]]. Qed.

(** ** What the keys and values must do *)

(** [next_main_key] gives bytes above the key's and not above those of a greater key. *)
Definition next_key_bound {K} {KO : KeyOrd K} (ks : StorageSerde K) (ok : K -> Prop) : Prop :=
  forall k b, ok k -> serialize_key ks k = DbOk b -> bytes_lt b (next_main_key b) /\
    forall k' b', ok k' -> serialize_key ks k' = DbOk b' -> key_lt k k' -> ~ bytes_lt b' (next_main_key b).

(** The bytes of the sub-keys all have the same length. *)
Definition fixed_width {K} (ks : StorageSerde K) (ok : K -> Prop) (n : nat) : Prop :=
  forall k b, ok k -> serialize_key ks k = DbOk b -> length b = n.

Section Refines.
Context {MainKey SubKey V : Type} `{Countable MainKey, Countable SubKey}.
Context {KM : KeyOrd MainKey} {KS : KeyOrd SubKey} {DM : MdbxDup}.
Context (main : StorageSerde MainKey) (sub : StorageSerde SubKey) (vs : StorageSerde V).
Context (okm : MainKey -> Prop) (oks : SubKey -> Prop) (okv : V -> Prop) (n : nat).
Context (Hmain : readable_key main okm) (Hmain_ord : ordered_key main okm).
Context (Hsub : lawful sub oks) (Hsub_ord : ordered_key sub oks) (Hwidth : fixed_width sub oks n).
Context (Hvalue : lawful vs okv).
Abbreviation Key := (MainKey * SubKey)%type.

Definition prefix_ok (kv : Key * V) : Prop := okm kv.1.1 /\ oks kv.1.2 /\ okv kv.2.

(** The pair of the store for an entry of the table. *)
Definition prefix_encode (kv : Key * V) : option ((bytes * bytes) * unit) :=
  match get_main_key main kv.1, get_sub_key_and_value sub vs kv.1 kv.2 with
  | DbOk main_key, DbOk sub_key_and_value => Some ((main_key, sub_key_and_value), tt)
  | _, _ => None
  end.

Definition prefix_rel (s : DupStore) (m : gmap Key V) : Prop := image prefix_ok prefix_encode m (pairs s).

(** The bytes of an entry. *)
Record entry_bytes (k : Key) (v : V) (bm bk bv : bytes) : Prop := {
  eb_main : serialize_key main k.1 = DbOk bm;
  eb_main_read : read_all (deserialize_from main) bm = Some k.1;
  eb_sub : serialize_key sub k.2 = DbOk bk;
  eb_sub_read : reads (deserialize_from sub) bk k.2;
  eb_value_read : read_all (deserialize_from vs) bv = Some v;
  eb_data : get_sub_key_and_value sub vs k v = DbOk (bk ++ bv);
  eb_width : length bk = n;
  eb_encode : prefix_encode (k, v) = Some ((bm, bk ++ bv), tt)
}.

Lemma sub_bytes b : oks b -> exists bk, serialize_key sub b = DbOk bk /\ writes (serialize_into sub b) bk /\
  reads (deserialize_from sub) bk b /\ length bk = n.
Proof.
  intros Hb. destruct (Hsub b Hb) as (bk & _ & Hw & Hr). exists bk.
  assert (Sk : serialize_key sub b = DbOk bk) by (unfold serialize_key, written; by rewrite Hw).
  split; [done|]. split; [done|]. split; [done|]. by eapply Hwidth.
Qed.

Lemma entry_bytes_ok k v : prefix_ok (k, v) -> exists bm bk bv, entry_bytes k v bm bk bv.
Proof.
  intros (Hm & Hs & Hv). cbn in Hm, Hs, Hv. destruct (Hmain k.1 Hm) as (bm & Sm & Rm).
  destruct (sub_bytes k.2 Hs) as (bk & Sk & Wk & Rk & Hl). destruct (Hvalue v Hv) as (bv & _ & Wv & Rv).
  assert (Hd : get_sub_key_and_value sub vs k v = DbOk (bk ++ bv)).
  { unfold get_sub_key_and_value, written. by rewrite (writes_bind _ _ _ _ Wk Wv). }
  exists bm, bk, bv. split; try done.
  - unfold read_all. specialize (Rv []). rewrite app_nil_r in Rv. by rewrite Rv.
  - unfold prefix_encode, get_main_key. cbn [fst snd]. by rewrite Sm, Hd.
Qed.

Lemma entry_bytes_encode k v e : prefix_ok (k, v) -> prefix_encode (k, v) = Some e ->
  exists bm bk bv, e = ((bm, bk ++ bv), tt) /\ entry_bytes k v bm bk bv.
Proof.
  intros Hok He. destruct (entry_bytes_ok k v Hok) as (bm & bk & bv & Hb). exists bm, bk, bv. split; [|done].
  rewrite (eb_encode _ _ _ _ _ Hb) in He. by injection He as <-.
Qed.

Lemma prefix_encode_total kv : prefix_ok kv -> is_Some (prefix_encode kv).
Proof.
  destruct kv as [k v]. intros Hok. destruct (entry_bytes_ok k v Hok) as (bm & bk & bv & Hb).
  rewrite (eb_encode _ _ _ _ _ Hb). by eexists.
Qed.

(** Comparing keys by their bytes. *)
Lemma main_compare a1 a2 b1 b2 :
  okm a1 -> okm a2 -> serialize_key main a1 = DbOk b1 -> serialize_key main a2 = DbOk b2 ->
  (key_lt a1 a2 <-> bytes_lt b1 b2) /\ (a1 = a2 <-> b1 = b2).
Proof.
  intros H1 H2 S1 S2. split; [by eapply key_compare|]. split; [congruence|]. intros ->. by eapply readable_key_inj.
Qed.

Lemma sub_readable : readable_key sub oks.
Proof.
  intros k Hk. destruct (sub_bytes k Hk) as (bk & Sk & _ & Rk & _). exists bk. split; [done|]. unfold read_all.
  specialize (Rk []). rewrite app_nil_r in Rk. by rewrite Rk.
Qed.

Lemma sub_compare k1 k2 b1 b2 :
  oks k1 -> oks k2 -> serialize_key sub k1 = DbOk b1 -> serialize_key sub k2 = DbOk b2 ->
  (key_lt k1 k2 <-> bytes_lt b1 b2) /\ (k1 = k2 <-> b1 = b2).
Proof.
  intros H1 H2 S1 S2. split; [by eapply key_compare|]. split; [congruence|]. intros ->.
  by eapply (readable_key_inj sub oks); [apply sub_readable|..].
Qed.

Lemma prefix_encode_mono k1 v1 k2 v2 e1 e2 :
  prefix_ok (k1, v1) -> prefix_ok (k2, v2) -> prefix_encode (k1, v1) = Some e1 -> prefix_encode (k2, v2) = Some e2 ->
  key_lt k1 k2 -> key_lt e1.1 e2.1.
Proof.
  intros H1 H2 E1 E2 Hlt. destruct (entry_bytes_encode _ _ _ H1 E1) as (bm1 & bk1 & bv1 & -> & B1).
  destruct (entry_bytes_encode _ _ _ H2 E2) as (bm2 & bk2 & bv2 & -> & B2). destruct H1 as (M1 & S1 & _), H2 as (M2 & S2 & _).
  destruct (main_compare k1.1 k2.1 bm1 bm2 M1 M2 (eb_main _ _ _ _ _ B1) (eb_main _ _ _ _ _ B2)) as [Hm He].
  destruct (sub_compare k1.2 k2.2 bk1 bk2 S1 S2 (eb_sub _ _ _ _ _ B1) (eb_sub _ _ _ _ _ B2)) as [Hs _].
  destruct Hlt as [Hlt|[Heq Hlt]]; [left; by apply Hm|right]. split; [by apply He|]. cbn.
  apply bytes_lt_app; [by rewrite (eb_width _ _ _ _ _ B1), (eb_width _ _ _ _ _ B2)|]. left. by apply Hs.
Qed.

(** ** The pairs of a table *)

Section Related.
Context (s : DupStore) (m : gmap Key V) (Hr : prefix_rel s m).

(** A stored entry and its bytes. *)
Lemma stored_pair k v : m !! k = Some v ->
  prefix_ok (k, v) /\ exists bm bk bv, entry_bytes k v bm bk bv /\ pairs s !! (bm, bk ++ bv) = Some tt.
Proof.
  intros Hk. pose proof (im_ok _ _ _ _ Hr _ _ Hk) as Hok. split; [done|].
  destruct (entry_bytes_ok k v Hok) as (bm & bk & bv & Hb). exists bm, bk, bv. split; [done|].
  apply (im_entries _ _ _ _ Hr). exists k, v. split; [done|]. apply Hb.
Qed.

Lemma pair_stored e u : pairs s !! e = Some u ->
  exists k v bm bk bv, m !! k = Some v /\ prefix_ok (k, v) /\ entry_bytes k v bm bk bv /\ e = (bm, bk ++ bv).
Proof.
  intros He. apply (im_entries _ _ _ _ Hr) in He as (k & v & Hk & He). pose proof (im_ok _ _ _ _ Hr _ _ Hk) as Hok.
  destruct (entry_bytes_encode k v _ Hok He) as (bm & bk & bv & [= -> ->] & Hb). by exists k, v, bm, bk, bv.
Qed.

Section AtKey.
Context (k : Key) (bm bk : bytes) (Hm : okm k.1) (Hs : oks k.2).
Context (Sm : serialize_key main k.1 = DbOk bm) (Sk : serialize_key sub k.2 = DbOk bk).

Lemma key_width : length bk = n.
Proof. by eapply Hwidth. Qed.

(** The pairs of the main key whose values start with the bytes of the sub-key. *)
Lemma siblings e u : pairs s !! e = Some u -> e.1 = bm -> starts_with e.2 bk = true ->
  exists v bv, m !! k = Some v /\ entry_bytes k v bm bk bv /\ e = (bm, bk ++ bv).
Proof.
  intros He H1 H2. destruct (pair_stored e u He) as (k2 & v2 & bm2 & bk2 & bv2 & Hk2 & (Hm2 & Hs2 & _) & Hb2 & ->).
  cbn in H1, H2. rewrite starts_with_app, bool_decide_eq_true in H2 by (by rewrite key_width, (eb_width _ _ _ _ _ Hb2)).
  destruct (main_compare k.1 k2.1 bm bm2 Hm Hm2 Sm (eb_main _ _ _ _ _ Hb2)) as [_ Hme].
  destruct (sub_compare k.2 k2.2 bk bk2 Hs Hs2 Sk (eb_sub _ _ _ _ _ Hb2)) as [_ Hse].
  assert (k2 = k) as ->.
  { destruct k as [k1 k2'], k2 as [k21 k22]. cbn in *. f_equal; symmetry; [by apply Hme|by apply Hse]. }
  subst. exists v2, bv2. done.
Qed.

(** The entry of the key is the only one. *)
Lemma sibling_unique e u d v bv : pairs s !! e = Some u -> e = (bm, d) -> starts_with d bk = true ->
  m !! k = Some v -> entry_bytes k v bm bk bv -> d = bk ++ bv.
Proof.
  intros He -> Hd Hk Hb. destruct (siblings (bm, d) u He eq_refl Hd) as (v' & bv' & Hk' & Hb' & [= ->]).
  rewrite Hk in Hk'. injection Hk' as <-. pose proof (eb_encode _ _ _ _ _ Hb) as E1.
  rewrite (eb_encode _ _ _ _ _ Hb') in E1. by injection E1.
Qed.

(** ** Finding the first value from a sub-key on *)

Definition from_sub (k2 : Key) : bool := bool_decide (k2.1 = k.1 /\ ~ key_lt k2.2 k.2).

Lemma first_from_sub :
  first_entry (fun e : bytes * bytes => bool_decide (e.1 = bm /\ ~ bytes_lt e.2 bk)) (pairs s) =
  first_entry from_sub m ≫= prefix_encode.
Proof.
  apply (image_first _ _ prefix_encode_total prefix_encode_mono m (pairs s) Hr).
  intros k2 v2 e2 u2 Hk2 He2. pose proof (im_ok _ _ _ _ Hr _ _ Hk2) as Hok2.
  destruct (entry_bytes_encode _ _ _ Hok2 He2) as (bm2 & bk2 & bv2 & [= -> ->] & Hb2). destruct Hok2 as (Hm2 & Hs2 & _).
  destruct (main_compare k2.1 k.1 bm2 bm Hm2 Hm (eb_main _ _ _ _ _ Hb2) Sm) as [_ Hme].
  destruct (sub_compare k2.2 k.2 bk2 bk Hs2 Hs (eb_sub _ _ _ _ _ Hb2) Sk) as [Hse _].
  apply bool_decide_ext. cbn [fst snd]. rewrite bytes_lt_prefix by (by rewrite key_width, (eb_width _ _ _ _ _ Hb2)).
  by rewrite Hme, Hse.
Qed.

(** The first entry is the key's own, if there is one. *)
Lemma first_own v : m !! k = Some v -> first_entry from_sub m = Some (k, v).
Proof.
  intros Hk. apply first_entry_unique; [done| |].
  - apply bool_decide_eq_true. split; [done|apply key_lt_irrefl].
  - intros k' v' _ [He Hn]%bool_decide_eq_true [Hlt|[_ Hlt]]; [|done]. rewrite He in Hlt. by apply key_lt_irrefl in Hlt.
Qed.

Lemma both_range c :
  match first_entry from_sub m with
  | Some (k2, v2) => exists bk2 bv2, entry_bytes k2 v2 bm bk2 bv2 /\ m !! k2 = Some v2 /\ prefix_ok (k2, v2) /\
      starts_with (bk2 ++ bv2) bk = bool_decide (k2 = k) /\
      (dup_get_both_range s c bm bk).2 = Some (bk2 ++ bv2) /\
      dup_position (dup_get_both_range s c bm bk).1 = Cursor_At (bm, bk2 ++ bv2)
  | None => m !! k = None /\ (dup_get_both_range s c bm bk).2 = None
  end.
Proof.
  pose proof (dup_get_both_range_spec s c bm bk) as Hspec. rewrite first_from_sub in Hspec.
  destruct (first_entry from_sub m) as [[k2 v2]|] eqn:Hf; cbn [mbind option_bind] in Hspec.
  - apply first_entry_Some in Hf as (Hk2 & [He _]%bool_decide_eq_true & _).
    destruct (stored_pair k2 v2 Hk2) as (Hok2 & bm2 & bk2 & bv2 & Hb2 & _). rewrite (eb_encode _ _ _ _ _ Hb2) in Hspec.
    assert (bm2 = bm) as -> by (pose proof (eb_main _ _ _ _ _ Hb2) as H1; rewrite He, Sm in H1; by injection H1).
    exists bk2, bv2. split; [done|]. split; [done|]. split; [done|]. split; [|done].
    rewrite starts_with_app by (by rewrite key_width, (eb_width _ _ _ _ _ Hb2)). apply bool_decide_ext.
    destruct Hok2 as (_ & Hs2 & _). destruct (sub_compare k2.2 k.2 bk2 bk Hs2 Hs (eb_sub _ _ _ _ _ Hb2) Sk) as [_ Hse].
    rewrite <-Hse. destruct k as [k1 k2'], k2 as [k21 k22]. cbn in *. split; [congruence|by intros [= _ ->]].
  - split; [|done]. destruct (m !! k) as [v|] eqn:Hk; [|done]. by rewrite (first_own v Hk) in Hf.
Qed.
End AtKey.

Lemma prefix_get_rel (VS : ValueSerde V) k :
  (forall v bv, okv v -> read_all (deserialize_from vs) bv = Some v -> value_deserialize VS bv = Some v) ->
  okm k.1 -> oks k.2 -> prefix_get main sub VS s k = DbOk (tbl_get m k).
Proof.
  intros HVS Hm Hs. destruct (Hmain k.1 Hm) as (bm & Sm & _). destruct (sub_bytes k.2 Hs) as (bk & Sk & _).
  unfold prefix_get, get_main_key, get_sub_key_lower_bound, get_sub_key. rewrite Sm, Sk. cbn [db_bind].
  pose proof (both_range k bm bk Hm Hs Sm Sk (dup_cursor s)) as Hb. unfold tbl_get.
  destruct (first_entry (from_sub k) m) as [[k2 v2]|] eqn:Hf.
  - destruct Hb as (bk2 & bv2 & Hb2 & Hk2 & Hok2 & Hst & -> & _). unfold starts_with in Hst.
    destruct (decide (k2 = k)) as [->|Hne].
    + assert (bk2 = bk) as -> by (pose proof (eb_sub _ _ _ _ _ Hb2) as H1; rewrite Sk in H1; by injection H1).
      rewrite strip_prefix_app, Hk2. destruct Hok2 as (_ & _ & Hv2).
      by rewrite (HVS v2 bv2 Hv2 (eb_value_read _ _ _ _ _ Hb2)).
    + rewrite (bool_decide_false (k2 = k)) in Hst by done. destruct (strip_prefix _ _) eqn:Hp;
        [apply bool_decide_eq_false in Hst; by destruct Hst|].
      destruct (m !! k) as [v|] eqn:Hk; [|done]. rewrite (first_own k v Hk) in Hf. by simplify_eq.
  - destruct Hb as [-> ->]. done.
Qed.

(** ** Neighbours of a written pair *)

Section Written.
Context (k : Key) (v : V) (Hok : prefix_ok (k, v)) (bm bk bv : bytes) (Hb : entry_bytes k v bm bk bv).
Abbreviation d := (bk ++ bv).

Lemma ok_main : okm k.1. Proof. apply Hok. Qed.
Lemma ok_sub : oks k.2. Proof. apply Hok. Qed.
Abbreviation siblings_k := (siblings k bm bk ok_main ok_sub (eb_main _ _ _ _ _ Hb) (eb_sub _ _ _ _ _ Hb)).

Lemma own_prefix bv' : starts_with (bk ++ bv') bk = true.
Proof. rewrite starts_with_app by done. by apply bool_decide_eq_true. Qed.

(** The value stored for the key before, if any. *)
Definition old_value (bv0 : bytes) : Prop := exists v0, m !! k = Some v0 /\ entry_bytes k v0 bm bk bv0.

Lemma old_value_stored bv0 : old_value bv0 -> pairs s !! (bm, bk ++ bv0) = Some tt.
Proof.
  intros (v0 & Hk & Hb0). destruct (stored_pair k v0 Hk) as (_ & bm' & bk' & bv' & Hb' & Hp).
  pose proof (eb_encode _ _ _ _ _ Hb0) as E1. rewrite (eb_encode _ _ _ _ _ Hb') in E1. by injection E1 as <- <-.
Qed.

Lemma old_value_unique bv1 bv2 : old_value bv1 -> old_value bv2 -> bv1 = bv2.
Proof.
  intros (v1 & Hk1 & Hb1) (v2 & Hk2 & Hb2). rewrite Hk1 in Hk2. injection Hk2 as <-.
  pose proof (eb_encode _ _ _ _ _ Hb1) as E1. rewrite (eb_encode _ _ _ _ _ Hb2) in E1.
  injection E1 as E1. by apply app_inv_head in E1.
Qed.

Lemma sibling_old e u : pairs s !! e = Some u -> e.1 = bm -> starts_with e.2 bk = true ->
  exists bv0, old_value bv0 /\ e = (bm, bk ++ bv0).
Proof. intros He H1 H2. destruct (siblings_k e u He H1 H2) as (v0 & bv0 & Hk & Hb0 & ->). exists bv0. split; [by exists v0|done]. Qed.

Lemma no_old_value : m !! k = None -> forall bv0, ~ old_value bv0.
Proof. intros Hk bv0 (v0 & Hk0 & _). congruence. Qed.

Lemma old_value_ex v0 : m !! k = Some v0 -> exists bv0, old_value bv0.
Proof.
  intros Hk. destruct (stored_pair k v0 Hk) as (_ & bm' & bk' & bv0 & Hb0 & _). exists bv0, v0. split; [done|].
  pose proof (eb_main _ _ _ _ _ Hb0) as H1. rewrite (eb_main _ _ _ _ _ Hb) in H1. injection H1 as <-.
  pose proof (eb_sub _ _ _ _ _ Hb0) as H2. rewrite (eb_sub _ _ _ _ _ Hb) in H2. by injection H2 as <-.
Qed.

(** A value of the main key between two values of the sub-key has the sub-key. *)
Lemma between_sibling d' u bv1 bv2 :
  pairs s !! (bm, d') = Some u -> bytes_lt (bk ++ bv1) d' -> ~ bytes_lt (bk ++ bv2) d' -> starts_with d' bk = true.
Proof.
  intros He H1 H2. destruct (pair_stored _ u He) as (k2 & v2 & bm2 & bk2 & bv2' & _ & _ & Hb2 & [= -> ->]).
  assert (Hl : length bk = length bk2) by (by rewrite (eb_width _ _ _ _ _ Hb), (eb_width _ _ _ _ _ Hb2)).
  rewrite starts_with_app by done. apply bool_decide_eq_true. apply bytes_lt_antisym.
  - by eapply bytes_lt_not.
  - intros Hlt. apply H2. apply bytes_lt_app; [done|]. by left.
Qed.

Section After.
Context (s' : DupStore) (Hs' : pairs s' = <[(bm, d) := tt]> (pairs s)) (c : DupCursor).

Lemma written_pair e u : pairs s' !! e = Some u -> e = (bm, d) \/ pairs s !! e = Some u.
Proof. rewrite Hs', lookup_insert_Some. naive_solver. Qed.

Lemma stored_written e u : pairs s !! e = Some u -> exists u', pairs s' !! e = Some u'.
Proof. intros He. rewrite Hs'. destruct (decide ((bm, d) = e)) as [<-|]; [rewrite lookup_insert_eq; eauto|rewrite lookup_insert_ne by done; eauto]. Qed.

(** The next value of the main key has the sub-key exactly when the old value is above the new one. *)
Lemma next_dup_old bv0 :
  dup_position c = Cursor_At (bm, d) -> old_value bv0 -> bytes_lt d (bk ++ bv0) ->
  neighbour_has (dup_next_dup s' c).2 bk = true /\ dup_position (dup_next_dup s' c).1 = Cursor_At (bm, bk ++ bv0).
Proof.
  intros Hc Hold Hlt. pose proof (dup_next_dup_spec s' c bm d Hc) as Hspec.
  rewrite (first_entry_unique _ (pairs s') (bm, bk ++ bv0) tt) in Hspec.
  - destruct (dup_next_dup s' c) as [c' [e|]]; cbn in *; [|done]. injection Hspec as -> ->. split; [apply own_prefix|done].
  - rewrite Hs', lookup_insert_ne; [by apply old_value_stored|]. intros [= He]. rewrite He in Hlt. by apply bytes_lt_irrefl in Hlt.
  - by apply bool_decide_eq_true.
  - intros [b1 d'] u He [Hb1 Hlt']%bool_decide_eq_true [Hl|[_ Hl]]; cbn in *; subst b1; [by apply bytes_lt_irrefl in Hl|].
    apply written_pair in He as [[= ->]|He]; [by apply bytes_lt_irrefl in Hlt'|].
    destruct (sibling_old (bm, d') u He eq_refl) as (bv1 & Hold1 & [= ->]).
    + apply (between_sibling d' u bv bv0 He Hlt'). intros Hl2. apply (bytes_lt_irrefl d'). by eapply bytes_lt_trans.
    + rewrite (old_value_unique bv1 bv0 Hold1 Hold) in Hl. by apply bytes_lt_irrefl in Hl.
Qed.

Lemma prev_dup_old bv0 :
  dup_position c = Cursor_At (bm, d) -> old_value bv0 -> bytes_lt (bk ++ bv0) d ->
  neighbour_has (dup_prev_dup s' c).2 bk = true /\ dup_position (dup_prev_dup s' c).1 = Cursor_At (bm, bk ++ bv0).
Proof.
  intros Hc Hold Hlt. pose proof (dup_prev_dup_spec s' c bm d Hc) as Hspec.
  rewrite (last_entry_unique _ (pairs s') (bm, bk ++ bv0) tt) in Hspec.
  - destruct (dup_prev_dup s' c) as [c' [e|]]; cbn in *; [|done]. injection Hspec as -> ->. split; [apply own_prefix|done].
  - rewrite Hs', lookup_insert_ne; [by apply old_value_stored|]. intros [= He]. rewrite He in Hlt. by apply bytes_lt_irrefl in Hlt.
  - by apply bool_decide_eq_true.
  - intros [b1 d'] u He [Hb1 Hlt']%bool_decide_eq_true [Hl|[_ Hl]]; cbn in *; subst b1; [by apply bytes_lt_irrefl in Hl|].
    apply written_pair in He as [[= ->]|He]; [by apply bytes_lt_irrefl in Hlt'|].
    destruct (sibling_old (bm, d') u He eq_refl) as (bv1 & Hold1 & [= ->]).
    + apply (between_sibling d' u bv0 bv He Hl). intros Hl2. apply (bytes_lt_irrefl d'). by eapply bytes_lt_trans.
    + rewrite (old_value_unique bv1 bv0 Hold1 Hold) in Hl. by apply bytes_lt_irrefl in Hl.
Qed.

(** Without an old value on that side the neighbour has another sub-key. *)
Lemma next_dup_other :
  dup_position c = Cursor_At (bm, d) -> (forall bv0, old_value bv0 -> ~ bytes_lt d (bk ++ bv0)) ->
  neighbour_has (dup_next_dup s' c).2 bk = false.
Proof.
  intros Hc Hno. pose proof (dup_next_dup_spec s' c bm d Hc) as Hspec.
  destruct (first_entry _ (pairs s')) as [[[b1 d'] u]|] eqn:Hf; cbn in Hspec.
  - apply first_entry_Some in Hf as (He & [Hb1 Hlt]%bool_decide_eq_true & _). cbn in Hb1, Hlt. subst b1.
    destruct (dup_next_dup s' c) as [c' [e|]]; cbn in *; [|done]. injection Hspec as _ -> _.
    apply not_true_iff_false. intros Hst. apply written_pair in He as [[= ->]|He]; [by apply bytes_lt_irrefl in Hlt|].
    destruct (sibling_old (bm, d') u He eq_refl Hst) as (bv1 & Hold1 & [= ->]). by apply (Hno bv1).
  - destruct (dup_next_dup s' c) as [c' [e|]]; cbn in *; done.
Qed.

Lemma prev_dup_other :
  dup_position c = Cursor_At (bm, d) -> (forall bv0, old_value bv0 -> ~ bytes_lt (bk ++ bv0) d) ->
  neighbour_has (dup_prev_dup s' c).2 bk = false.
Proof.
  intros Hc Hno. pose proof (dup_prev_dup_spec s' c bm d Hc) as Hspec.
  destruct (last_entry _ (pairs s')) as [[[b1 d'] u]|] eqn:Hf; cbn in Hspec.
  - apply last_entry_Some in Hf as (He & [Hb1 Hlt]%bool_decide_eq_true & _). cbn in Hb1, Hlt. subst b1.
    destruct (dup_prev_dup s' c) as [c' [e|]]; cbn in *; [|done]. injection Hspec as _ -> _.
    apply not_true_iff_false. intros Hst. apply written_pair in He as [[= ->]|He]; [by apply bytes_lt_irrefl in Hlt|].
    destruct (sibling_old (bm, d') u He eq_refl Hst) as (bv1 & Hold1 & [= ->]). by apply (Hno bv1).
  - destruct (dup_prev_dup s' c) as [c' [e|]]; cbn in *; done.
Qed.
End After.

(** ** The table with the entry written *)

(** The pairs are the old ones without the old value of the key, and the new one. *)
Lemma replaced_rel s2 :
  (forall e, is_Some (pairs s2 !! e) <-> e = (bm, d) \/ is_Some (pairs s !! e) /\ ~ (e.1 = bm /\ starts_with e.2 bk = true)) ->
  prefix_rel s2 (<[k := v]> m).
Proof.
  intros Hs2. split.
  - intros k2 v2 [[<- <-]|[Hne Hk2]]%lookup_insert_Some; [done|by eapply im_ok].
  - intros e []. split.
    + intros He. assert (Hsome : is_Some (pairs s2 !! e)) by (by rewrite He).
      apply Hs2 in Hsome as [->|[[u Hp] Hns]].
      * exists k, v. rewrite lookup_insert_eq. split; [done|]. apply Hb.
      * destruct (pair_stored e u Hp) as (k2 & v2 & bm2 & bk2 & bv2 & Hk2 & _ & Hb2 & ->). exists k2, v2.
        split; [|apply Hb2]. rewrite lookup_insert_ne; [done|]. intros <-. apply Hns. cbn.
        pose proof (eb_main _ _ _ _ _ Hb2) as H1. rewrite (eb_main _ _ _ _ _ Hb) in H1. injection H1 as <-.
        pose proof (eb_sub _ _ _ _ _ Hb2) as H2. rewrite (eb_sub _ _ _ _ _ Hb) in H2. injection H2 as <-.
        split; [done|apply own_prefix].
    + intros (k2 & v2 & Hk2 & He2). assert (Hsome : is_Some (pairs s2 !! e)).
      { apply Hs2. apply lookup_insert_Some in Hk2 as [[<- <-]|[Hne Hk2]].
        - left. rewrite (eb_encode _ _ _ _ _ Hb) in He2. by injection He2.
        - right. assert (Hp : pairs s !! e = Some tt) by (apply (im_entries _ _ _ _ Hr); eauto).
          split; [by rewrite Hp|]. intros [H1 H2]. destruct (siblings_k e tt Hp H1 H2) as (v3 & bv3 & Hk3 & Hb3 & ->).
          apply Hne. destruct (decide (k = k2)) as [|Hne2]; [done|]. exfalso.
          pose proof (im_ok _ _ _ _ Hr _ _ Hk2) as Hok2. pose proof (im_ok _ _ _ _ Hr _ _ Hk3) as Hok3.
          pose proof (eb_encode _ _ _ _ _ Hb3) as He3.
          destruct (key_lt_total k k2) as [Hlt|[|Hlt]]; [|done|];
            (eapply prefix_encode_mono in Hlt; [|done..]); by apply key_lt_irrefl in Hlt. }
      destruct Hsome as [[] Hsome]. exact Hsome.
Qed.

Lemma put_rel s2 :
  pairs s2 = <[(bm, d) := tt]> (pairs s) -> (forall bv0, old_value bv0 -> bk ++ bv0 = d) -> prefix_rel s2 (<[k := v]> m).
Proof.
  intros Hs2 Hold. apply replaced_rel. intros e. rewrite Hs2, lookup_insert_is_Some'. split.
  - intros [<-|[u He]]; [by left|]. destruct (decide (e.1 = bm /\ starts_with e.2 bk = true)) as [[H1 H2]|Hn].
    + left. destruct (sibling_old e u He H1 H2) as (bv0 & Ho & ->). by rewrite (Hold bv0 Ho).
    + right. split; [by eexists|done].
  - intros [->|[He _]]; [by left|by right].
Qed.

Lemma put_del_rel s2 bv0 :
  pairs s2 = delete (bm, bk ++ bv0) (<[(bm, d) := tt]> (pairs s)) -> old_value bv0 -> bk ++ bv0 <> d ->
  prefix_rel s2 (<[k := v]> m).
Proof.
  intros Hs2 Ho Hne. apply replaced_rel. intros e. rewrite Hs2, lookup_delete_is_Some, lookup_insert_is_Some'. split.
  - intros [Hd [<-|[u He]]]; [by left|right]. split; [by eexists|]. intros [H1 H2].
    destruct (sibling_old e u He H1 H2) as (bv1 & Ho1 & ->). apply Hd. by rewrite (old_value_unique bv0 bv1 Ho Ho1).
  - intros [->|[He Hn]].
    + split; [congruence|by left].
    + split; [|by right]. intros <-. apply Hn. cbn. split; [done|apply own_prefix].
Qed.

(** Deleting the pair just written. *)
Lemma undo_rel s2 : pairs s2 = delete (bm, d) (<[(bm, d) := tt]> (pairs s)) -> pairs s !! (bm, d) = None -> prefix_rel s2 m.
Proof.
  intros Hs2 Hnone. rewrite delete_insert_eq, delete_id in Hs2 by done. unfold prefix_rel. by rewrite Hs2.
Qed.

(** ** The cases of an old value *)

Inductive old_case : Prop :=
| Old_none (Hk : m !! k = None) (Hno : forall bv0, ~ old_value bv0)
| Old_same (Hk : m !! k = Some v) (Hold : old_value bv)
| Old_above bv0 v0 (Hk : m !! k = Some v0) (Hold : old_value bv0) (Hlt : bytes_lt d (bk ++ bv0))
| Old_below bv0 v0 (Hk : m !! k = Some v0) (Hold : old_value bv0) (Hlt : bytes_lt (bk ++ bv0) d).

Lemma old_cases : old_case.
Proof.
  destruct (m !! k) as [v0|] eqn:Hk; [|apply Old_none; [done|by apply no_old_value]].
  destruct (old_value_ex v0 Hk) as (bv0 & Hold).
  destruct (bytes_lt_total d (bk ++ bv0)) as [|[He|]]; [by eapply Old_above| |by eapply Old_below].
  apply app_inv_head in He. subst bv0. assert (v0 = v) as ->; [|by apply Old_same].
  destruct Hold as (v1 & Hk1 & Hb1). rewrite Hk in Hk1. injection Hk1 as <-.
  pose proof (eb_value_read _ _ _ _ _ Hb1) as R1. rewrite (eb_value_read _ _ _ _ _ Hb) in R1. by injection R1.
Qed.

(** The pair is new when the old value is another one. *)
Lemma pair_new : (forall bv0, old_value bv0 -> bk ++ bv0 <> d) -> pairs s !! (bm, d) = None.
Proof.
  intros Hno. destruct (pairs s !! (bm, d)) as [u|] eqn:Hp; [|done]. exfalso.
  destruct (sibling_old (bm, d) u Hp eq_refl (own_prefix bv)) as (bv1 & Ho & [= He]). by apply (Hno bv1).
Qed.

Lemma old_only bv0 : old_value bv0 -> forall bv1, old_value bv1 -> bv1 = bv0.
Proof. intros Ha bv1 Hc. by apply old_value_unique. Qed.
End Written.

(** ** The writers *)

Ltac open_write Hb :=
  unfold try, get_main_key, get_sub_key_lower_bound, get_sub_key, cursor_put, cursor_del, get, bind, ret;
  rewrite ?(eb_main _ _ _ _ _ Hb), ?(eb_data _ _ _ _ _ Hb), ?(eb_sub _ _ _ _ _ Hb).

Lemma prefix_upsert_rel k v :
  prefix_ok (k, v) -> exists s2, prefix_upsert main sub vs k v s = Done s2 tt /\ prefix_rel s2 (tbl_upsert m k v).
Proof.
  intros Hok. destruct (entry_bytes_ok k v Hok) as (bm & bk & bv & Hb). unfold prefix_upsert. open_write Hb.
  destruct (dup_upsert_spec s (dup_cursor s) bm (bk ++ bv)) as (s' & c & -> & Hs' & Hc).
  pose proof (next_dup_old k v Hok bm bk bv Hb s' Hs' c) as Hnext. pose proof (prev_dup_old k v Hok bm bk bv Hb s' Hs' c) as Hprev.
  pose proof (next_dup_other k v Hok bm bk bv Hb s' Hs' c Hc) as Hnext'. pose proof (prev_dup_other k v Hok bm bk bv Hb s' Hs' c Hc) as Hprev'.
  destruct (dup_next_dup s' c) as [c1 next], (dup_prev_dup s' c) as [c2 prev]. cbn [fst snd] in *. unfold tbl_upsert.
  assert (Hdel : forall c' bv0, dup_position c' = Cursor_At (bm, bk ++ bv0) -> old_value k bm bk bv0 -> bk ++ bv0 <> bk ++ bv ->
    exists s2, (let '(txn', _) := dup_del s' c' in Done txn' tt : res DupStore DbError unit) = Done s2 tt /\ prefix_rel s2 (<[k := v]> m)).
  { intros c' bv0 Hpos Hold Hne. pose proof (dup_del_spec s' c' _ Hpos) as Hd. destruct (dup_del s' c') as [s2 c''].
    exists s2. split; [done|]. cbn in Hd. rewrite Hs' in Hd. by eapply put_del_rel. }
  destruct (old_cases k v bm bk bv Hb) as [Hk Hno|Hk Hold|bv0 v0 Hk Hold Hlt|bv0 v0 Hk Hold Hlt].
  - rewrite Hnext', Hprev' by (intros bv0 Ho; by destruct (Hno bv0)). exists s'. split; [done|]. eapply put_rel; [done..|].
    intros bv0 Ho. by destruct (Hno bv0).
  - pose proof (old_only k bm bk bv Hold) as Hu.
    rewrite Hnext', Hprev' by (intros bv0 Ho%Hu; subst; apply bytes_lt_irrefl). exists s'. split; [done|].
    eapply put_rel; [done..|]. intros bv0 Ho%Hu. by subst.
  - destruct (Hnext bv0 Hc Hold Hlt) as [-> Hpos].
    destruct (Hdel c1 bv0 Hpos Hold) as (s2 & Hrun & Hrel); [intros He; rewrite He in Hlt; by apply bytes_lt_irrefl in Hlt|].
    exists s2. split; [|done]. rewrite <-Hrun. by destruct (dup_del s' c1).
  - pose proof (old_only k bm bk bv0 Hold) as Hu.
    rewrite Hnext' by (intros bv1 Ho%Hu; subst; intros Hl; apply (bytes_lt_irrefl (bk ++ bv)); by eapply bytes_lt_trans).
    destruct (Hprev bv0 Hc Hold Hlt) as [-> Hpos].
    destruct (Hdel c2 bv0 Hpos Hold) as (s2 & Hrun & Hrel); [intros He; rewrite He in Hlt; by apply bytes_lt_irrefl in Hlt|].
    exists s2. split; [|done]. rewrite <-Hrun. by destruct (dup_del s' c2).
Qed.

Ltac neighbours Hok Hb Hs' Hc :=
  match type of Hs' with pairs ?s' = _ => match type of Hc with dup_position ?c = _ =>
    pose proof (next_dup_old _ _ Hok _ _ _ Hb s' Hs' c) as Hnext;
    pose proof (prev_dup_old _ _ Hok _ _ _ Hb s' Hs' c) as Hprev;
    pose proof (next_dup_other _ _ Hok _ _ _ Hb s' Hs' c Hc) as Hnext';
    pose proof (prev_dup_other _ _ Hok _ _ _ Hb s' Hs' c Hc) as Hprev'
  end end.

(** No old value is above the new one, or none below. *)
Ltac solve_other Hold Hlt :=
  let bv1 := fresh in let Ho := fresh in
  intros bv1 Ho; apply (old_only _ _ _ _ Hold) in Ho; subst bv1;
  let Hl := fresh in intros Hl; eapply bytes_lt_irrefl; eapply bytes_lt_trans; [exact Hl|exact Hlt].

(** What a write leaves behind: the table written, or an error and the table as it was. *)
Definition write_agrees (r : res DupStore DbError unit) (r' : DbResult (gmap Key V)) : Prop :=
  match r' with
  | DbOk m' => exists s2, r = Done s2 tt /\ prefix_rel s2 m'
  | DbErr e => exists s2, r = Fail s2 e /\ prefix_rel s2 m
  end.

Lemma prefix_insert_rel k v : prefix_ok (k, v) -> write_agrees (prefix_insert main sub vs k v s) (tbl_insert m k v).
Proof.
  intros Hok. destruct (entry_bytes_ok k v Hok) as (bm & bk & bv & Hb). unfold prefix_insert. open_write Hb.
  pose proof (dup_no_dup_data_spec s (dup_cursor s) bm (bk ++ bv)) as Hput.
  assert (Hundo : forall s' c, pairs s' = <[(bm, bk ++ bv) := tt]> (pairs s) -> dup_position c = Cursor_At (bm, bk ++ bv) ->
    pairs s !! (bm, bk ++ bv) = None ->
    exists s2 c', dup_del s' c = (s2, c') /\ prefix_rel s2 m).
  { intros s' c Hs' Hc Hnone. pose proof (dup_del_spec s' c _ Hc) as Hd. destruct (dup_del s' c) as [s2 c'].
    exists s2, c'. split; [done|]. cbn in Hd. rewrite Hs' in Hd. by eapply undo_rel. }
  unfold write_agrees, tbl_insert.
  destruct (old_cases k v bm bk bv Hb) as [Hk Hno|Hk Hold|bv0 v0 Hk Hold Hlt|bv0 v0 Hk Hold Hlt]; rewrite Hk.
  - assert (Hnone : pairs s !! (bm, bk ++ bv) = None) by (eapply pair_new; [done..|]; intros bv0 Ho; by destruct (Hno bv0)).
    rewrite Hnone in Hput. destruct Hput as (s' & c & -> & Hs' & Hc). neighbours Hok Hb Hs' Hc.
    rewrite Hnext', Hprev' by (intros bv0 Ho; by destruct (Hno bv0)). exists s'. split; [done|].
    eapply put_rel; [done..|]. intros bv0 Ho. by destruct (Hno bv0).
  - assert (Hst : pairs s !! (bm, bk ++ bv) = Some tt) by (by eapply old_value_stored). rewrite Hst in Hput. destruct (dup_put _ _ _ _ _) as [r c]. cbn in Hput. rewrite Hput.
    by exists s.
  - assert (Hne : bk ++ bv0 <> bk ++ bv) by (intros He; rewrite He in Hlt; by apply bytes_lt_irrefl in Hlt).
    assert (Hnone : pairs s !! (bm, bk ++ bv) = None)
      by (eapply pair_new; [done..|]; intros bv1 Ho%(old_only _ _ _ _ Hold); by subst).
    rewrite Hnone in Hput. destruct Hput as (s' & c & -> & Hs' & Hc). neighbours Hok Hb Hs' Hc.
    destruct (Hnext bv0 Hc Hold Hlt) as [-> _]. destruct (Hundo s' c Hs' Hc Hnone) as (s2 & c' & -> & Hrel). by exists s2.
  - assert (Hne : bk ++ bv0 <> bk ++ bv) by (intros He; rewrite He in Hlt; by apply bytes_lt_irrefl in Hlt).
    assert (Hnone : pairs s !! (bm, bk ++ bv) = None)
      by (eapply pair_new; [done..|]; intros bv1 Ho%(old_only _ _ _ _ Hold); by subst).
    rewrite Hnone in Hput. destruct Hput as (s' & c & -> & Hs' & Hc). neighbours Hok Hb Hs' Hc.
    rewrite Hnext' by solve_other Hold Hlt. destruct (Hprev bv0 Hc Hold Hlt) as [-> _].
    destruct (Hundo s' c Hs' Hc Hnone) as (s2 & c' & -> & Hrel). by exists s2.
Qed.

Lemma prefix_delete_rel k :
  okm k.1 -> oks k.2 -> exists s2, prefix_delete main sub k s = Done s2 tt /\ prefix_rel s2 (tbl_delete m k).
Proof.
  intros Hm Hs. destruct (Hmain k.1 Hm) as (bm & Sm & _). destruct (sub_bytes k.2 Hs) as (bk & Sk & _).
  unfold prefix_delete, try, get_main_key, get_sub_key_lower_bound, get_sub_key, cursor_del, get, bind, ret. rewrite Sm, Sk.
  pose proof (both_range k bm bk Hm Hs Sm Sk (dup_cursor s)) as Hb. unfold tbl_delete.
  destruct (dup_get_both_range s (dup_cursor s) bm bk) as [c found]. cbn [fst snd] in Hb.
  destruct (first_entry (from_sub k) m) as [[k2 v2]|] eqn:Hf.
  - destruct Hb as (bk2 & bv2 & Hb2 & Hk2 & Hok2 & Hst & -> & Hpos). rewrite Hst. destruct (decide (k2 = k)) as [->|Hne].
    + rewrite bool_decide_true by done. pose proof (dup_del_spec s c _ Hpos) as Hd. destruct (dup_del s c) as [s2 c'].
      exists s2. split; [done|]. cbn in Hd. split.
      * intros k3 v3 [_ Hk3]%lookup_delete_Some. by eapply im_ok.
      * intros e []. rewrite Hd, lookup_delete_Some. split.
        -- intros [Hne He]. apply (im_entries _ _ _ _ Hr) in He as (k3 & v3 & Hk3 & He3). exists k3, v3. split; [|done].
           apply lookup_delete_Some. split; [|done]. intros <-. rewrite Hk2 in Hk3. injection Hk3 as <-.
           rewrite (eb_encode _ _ _ _ _ Hb2) in He3. by injection He3.
        -- intros (k3 & v3 & [Hne Hk3]%lookup_delete_Some & He3). split; [|apply (im_entries _ _ _ _ Hr); eauto].
           intros <-. apply Hne. destruct (decide (k = k3)) as [|Hne3]; [done|]. exfalso.
           pose proof (im_ok _ _ _ _ Hr _ _ Hk3) as Hok3. pose proof (eb_encode _ _ _ _ _ Hb2) as He2.
           destruct (key_lt_total k k3) as [Hlt|[|Hlt]]; [|done|];
             (eapply prefix_encode_mono in Hlt; [|done..]); by apply key_lt_irrefl in Hlt.
    + rewrite bool_decide_false by done. exists s. split; [done|]. rewrite delete_id; [done|].
      destruct (m !! k) as [v|] eqn:Hk; [|done]. rewrite (first_own k v Hk) in Hf. by simplify_eq.
  - destruct Hb as [Hk ->]. exists s. split; [done|]. by rewrite delete_id.
Qed.

(** ** Appending *)

(** The last entry whose key satisfies a condition on the main key. *)
Lemma last_pair (p : Key -> bool) (q : bytes * bytes -> bool) :
  (forall k v bm bk bv, m !! k = Some v -> prefix_ok (k, v) -> entry_bytes k v bm bk bv -> p k = q (bm, bk ++ bv)) ->
  match last_entry p m with
  | Some (k, v) => exists bm bk bv, entry_bytes k v bm bk bv /\ m !! k = Some v /\ prefix_ok (k, v) /\
      last_entry q (pairs s) = Some ((bm, bk ++ bv), tt)
  | None => last_entry q (pairs s) = None
  end.
Proof.
  intros Hpq. rewrite (image_last _ _ prefix_encode_total prefix_encode_mono m (pairs s) Hr p).
  - destruct (last_entry p m) as [[k v]|] eqn:Hl; [|done]. apply last_entry_in in Hl. destruct (stored_pair k v Hl) as (Hok & bm & bk & bv & Hb & _).
    exists bm, bk, bv. cbn. by rewrite (eb_encode _ _ _ _ _ Hb).
  - intros k v e u Hk He. pose proof (im_ok _ _ _ _ Hr _ _ Hk) as Hok.
    destruct (entry_bytes_encode k v _ Hok He) as (bm & bk & bv & [= -> ->] & Hb). by apply (Hpq k v bm bk bv).
Qed.

(** Comparing pairs: by the keys, and by the values when the keys are equal. *)
Lemma pair_compare k v bm bk bv k2 v2 bm2 bk2 bv2 :
  prefix_ok (k, v) -> prefix_ok (k2, v2) -> entry_bytes k v bm bk bv -> entry_bytes k2 v2 bm2 bk2 bv2 ->
  key_lt k k2 -> key_lt (bm, bk ++ bv) (bm2, bk2 ++ bv2).
Proof.
  intros Hok Hok2 Hb Hb2 Hlt.
  exact (prefix_encode_mono k v k2 v2 _ _ Hok Hok2 (eb_encode _ _ _ _ _ Hb) (eb_encode _ _ _ _ _ Hb2) Hlt).
Qed.

(** The bytes of a key do not depend on the value. *)
Lemma entry_bytes_key k v v2 bm bk bv bm2 bk2 bv2 :
  entry_bytes k v bm bk bv -> entry_bytes k v2 bm2 bk2 bv2 -> bm2 = bm /\ bk2 = bk.
Proof.
  intros Hb Hb2. pose proof (eb_main _ _ _ _ _ Hb2) as E1. rewrite (eb_main _ _ _ _ _ Hb) in E1.
  pose proof (eb_sub _ _ _ _ _ Hb2) as E2. rewrite (eb_sub _ _ _ _ _ Hb) in E2. naive_solver.
Qed.

(** The key is not stored: the neighbours have other sub-keys. *)
Lemma new_key_put k v bm bk bv s' c :
  prefix_ok (k, v) -> entry_bytes k v bm bk bv -> m !! k = None -> pairs s' = <[(bm, bk ++ bv) := tt]> (pairs s) ->
  dup_position c = Cursor_At (bm, bk ++ bv) ->
  neighbour_has (dup_prev_dup s' c).2 bk = false /\ prefix_rel s' (<[k := v]> m).
Proof.
  intros Hok Hb Hk Hs' Hc. neighbours Hok Hb Hs' Hc.
  assert (Hno : forall bv0, ~ old_value k bm bk bv0) by (by eapply no_old_value). split.
  - apply Hprev'. intros bv0 Ho. by destruct (Hno bv0).
  - eapply put_rel; [done..|]. intros bv0 Ho. by destruct (Hno bv0).
Qed.

Lemma neighbour_match {A} (found : option (bytes * bytes)) bk (x y : A) :
  match found with Some (_, prev_bytes) => if starts_with prev_bytes bk then x else y | None => y end =
  if neighbour_has found bk then x else y.
Proof. by destruct found as [[? ?]|]. Qed.

Lemma above_not_stored k k2 v2 : last_entry (fun _ => true) m = Some (k2, v2) -> key_lt k2 k -> m !! k = None.
Proof.
  intros (_ & _ & Hmax)%last_entry_Some Hlt. destruct (m !! k) as [v|] eqn:Hk; [|done]. by destruct (Hmax k v Hk eq_refl).
Qed.

(** A first put that succeeds. *)
Lemma append_new k v bm bk bv s' c :
  prefix_ok (k, v) -> entry_bytes k v bm bk bv -> m !! k = None -> pairs s' = <[(bm, bk ++ bv) := tt]> (pairs s) ->
  dup_position c = Cursor_At (bm, bk ++ bv) ->
  (exists c', dup_prev_dup s' c = (c', None)) \/
  (exists c' b p, dup_prev_dup s' c = (c', Some (b, p)) /\ starts_with p bk = false).
Proof.
  intros Hok Hb Hk Hs' Hc. destruct (new_key_put k v bm bk bv s' c Hok Hb Hk Hs' Hc) as [Hn _].
  destruct (dup_prev_dup s' c) as [c' [[b p]|]]; cbn in Hn; [right|left]; eauto.
Qed.

(** The table without the last pair: the pair of the same key can be appended. *)
Lemma append_again k v v0 bm bk bv bv0 s1 c :
  prefix_ok (k, v) -> entry_bytes k v bm bk bv -> entry_bytes k v0 bm bk bv0 -> m !! k = Some v0 ->
  (forall k2 v2, m !! k2 = Some v2 -> ~ key_lt k k2) -> pairs s1 = delete (bm, bk ++ bv0) (pairs s) ->
  exists s2 c', dup_put s1 c bm (bk ++ bv) WriteFlags_APPEND_DUP_APPEND = (MdbxOk s2, c') /\ prefix_rel s2 (<[k := v]> m).
Proof.
  intros Hok Hb Hb0 Hk Hmax Hs1. pose proof (dup_append_spec s1 c bm (bk ++ bv)) as Hput.
  assert (Hold : old_value k bm bk bv0) by (by exists v0).
  assert (Hres : dup_written s1 bm (bk ++ bv) (dup_put s1 c bm (bk ++ bv) WriteFlags_APPEND_DUP_APPEND)).
  { destruct (last_entry (fun _ => true) (pairs s1)) as [[e u]|] eqn:Hl; [|done].
    rewrite decide_True in Hput; [done|]. apply last_entry_in in Hl. rewrite Hs1 in Hl.
    apply lookup_delete_Some in Hl as [Hne He].
    destruct (pair_stored e u He) as (k2 & v2 & bm2 & bk2 & bv2 & Hk2 & Hok2 & Hb2 & ->).
    apply (pair_compare k2 v2 bm2 bk2 bv2 k v bm bk bv); try done.
    destruct (key_lt_total k2 k) as [|[->|Hgt]]; [done| |by apply Hmax in Hk2].
    exfalso. apply Hne. rewrite Hk in Hk2. injection Hk2 as <-. pose proof (eb_encode _ _ _ _ _ Hb0) as E1.
    rewrite (eb_encode _ _ _ _ _ Hb2) in E1. by injection E1 as -> ->. }
  destruct Hres as (s2 & c' & -> & Hs2 & _). exists s2, c'. split; [done|]. apply (replaced_rel k v Hok bm bk bv Hb).
  intros e. rewrite Hs2, Hs1, lookup_insert_is_Some', lookup_delete_is_Some. split.
  - intros [<-|[Hne [u He]]]; [by left|right]. split; [by eexists|]. intros [E1 E2].
    destruct (sibling_old k v Hok bm bk bv Hb e u He E1 E2) as (bv1 & Ho%(old_only _ _ _ _ Hold) & ->). by subst.
  - intros [->|[He Hn]]; [by left|right]. split; [|done]. intros <-. apply Hn. split; [done|]. cbn.
    rewrite starts_with_app by done. by apply bool_decide_eq_true.
Qed.

Lemma prefix_append_rel k v : prefix_ok (k, v) -> write_agrees (prefix_append main sub vs k v s) (tbl_append m k v).
Proof.
  intros Hok. destruct (entry_bytes_ok k v Hok) as (bm & bk & bv & Hb). unfold prefix_append. open_write Hb.
  pose proof (dup_append_spec s (dup_cursor s) bm (bk ++ bv)) as Hput.
  pose proof (last_pair (fun _ => true) (fun _ => true) ltac:(done)) as Hlast. unfold write_agrees, tbl_append.
  destruct (last_entry (fun _ => true) m) as [[lk lv]|] eqn:Hl.
  - destruct Hlast as (lbm & lbk & lbv & Hlb & Hlk & Hlok & Hle). rewrite Hle in Hput.
    destruct (key_lt_total lk k) as [Hlt|[->|Hgt]].
    + rewrite decide_False by (intros Hgt; by apply (key_lt_asym k lk)).
      rewrite decide_True in Hput by exact (pair_compare lk lv lbm lbk lbv k v bm bk bv Hlok Hok Hlb Hb Hlt). pose proof (above_not_stored k lk lv Hl Hlt) as Hk.
      destruct Hput as (s' & c & -> & Hs' & Hc). destruct (new_key_put k v bm bk bv s' c Hok Hb Hk Hs' Hc) as [_ Hrel].
      exists s'. split; [|done]. by destruct (append_new k v bm bk bv s' c Hok Hb Hk Hs' Hc) as [[c' ->]|(c' & b & p & -> & ->)].
    + rewrite decide_False by apply key_lt_irrefl. destruct (entry_bytes_key k v lv _ _ _ _ _ _ Hb Hlb) as [-> ->].
      assert (Hold : old_value k bm bk lbv) by (by exists lv).
      destruct (decide (bytes_lt (bk ++ lbv) (bk ++ bv))) as [Hlt|Hnlt].
      * rewrite decide_True in Hput by (by right). destruct Hput as (s' & c & -> & Hs' & Hc). neighbours Hok Hb Hs' Hc.
        destruct (Hprev lbv Hc Hold Hlt) as [Hn Hpos]. destruct (dup_prev_dup s' c) as [c' [[b p]|]]; [|done].
        cbn in Hn, Hpos. rewrite Hn. pose proof (dup_del_spec s' c' _ Hpos) as Hd. destruct (dup_del s' c') as [s2 c2].
        exists s2. split; [done|]. cbn in Hd. rewrite Hs' in Hd. eapply put_del_rel; [done..|].
        intros He. rewrite He in Hlt. by apply bytes_lt_irrefl in Hlt.
      * rewrite decide_False in Hput by (intros [Hl1|[_ Hl1]]; [by apply bytes_lt_irrefl in Hl1|done]).
        destruct (dup_put s (dup_cursor s) _ _ _) as [r c]. cbn in Hput. subst r.
        destruct (dup_last_spec s c) as [Hl1 Hl2]. rewrite Hle in Hl1. destruct (dup_last s c) as [c1 [e|]]; [|done].
        cbn in Hl1, Hl2. injection Hl1 as ->. specialize (Hl2 _ eq_refl).
        cbn. rewrite bool_decide_true, starts_with_app, bool_decide_true by done. cbn.
        pose proof (dup_del_spec s c1 _ Hl2) as Hd. destruct (dup_del s c1) as [s1 c2]. cbn in Hd.
        destruct (append_again k v lv bm bk bv lbv s1 c2) as (s2 & c3 & -> & Hrel); try done; [|by exists s2].
        intros k2 v2 Hk2. apply last_entry_Some in Hl as (_ & _ & Hmax). by eapply Hmax.
    + rewrite decide_True by done. rewrite decide_False in Hput.
      2:{ intros Hl1. apply (key_lt_asym (lbm, lbk ++ lbv) (bm, bk ++ bv) Hl1). exact (pair_compare k v bm bk bv lk lv lbm lbk lbv Hok Hlok Hb Hlb Hgt). }
      destruct (dup_put s (dup_cursor s) _ _ _) as [r c]. cbn in Hput. subst r.
      destruct (dup_last_spec s c) as [Hl1 Hl2]. rewrite Hle in Hl1. destruct (dup_last s c) as [c1 [e|]]; [|done].
      cbn in Hl1. injection Hl1 as ->. cbn. exists s. split; [|done].
      assert (Hf : bool_decide (lbm = bm) && starts_with (lbk ++ lbv) bk = false); [|by rewrite Hf].
      apply andb_false_iff. destruct (decide (lbm = bm)) as [->|]; [right|left; by apply bool_decide_eq_false].
      apply not_true_iff_false. intros Hst. assert (Hp : pairs s !! (bm, lbk ++ lbv) = Some tt) by (by eapply last_entry_in).
      destruct (sibling_old k v Hok bm bk bv Hb _ _ Hp eq_refl Hst) as (bv0 & (v0 & Hk0 & Hb0) & [= He]).
      pose proof (pair_compare k v0 bm bk bv0 lk lv bm lbk lbv (im_ok _ _ _ _ Hr _ _ Hk0) Hlok Hb0 Hlb Hgt) as Hbad.
      rewrite He in Hbad. by apply key_lt_irrefl in Hbad.
  - rewrite Hlast in Hput. assert (Hk : m !! k = None).
    { destruct (m !! k) as [v0|] eqn:Hk; [|done]. by apply (last_entry_None _ _ Hl) in Hk. }
    destruct Hput as (s' & c & -> & Hs' & Hc). destruct (new_key_put k v bm bk bv s' c Hok Hb Hk Hs' Hc) as [_ Hrel].
    exists s'. split; [|done]. by destruct (append_new k v bm bk bv s' c Hok Hb Hk Hs' Hc) as [[c' ->]|(c' & b & p & -> & ->)].
Qed.

(** The cursor goes back from the old value to the new one. *)
Lemma next_dup_back k v bm bk bv bv0 s' c :
  prefix_ok (k, v) -> entry_bytes k v bm bk bv -> old_value k bm bk bv0 -> bytes_lt (bk ++ bv0) (bk ++ bv) ->
  pairs s' = <[(bm, bk ++ bv) := tt]> (pairs s) -> dup_position c = Cursor_At (bm, bk ++ bv0) ->
  dup_position (dup_next_dup s' c).1 = Cursor_At (bm, bk ++ bv).
Proof.
  intros Hok Hb Hold Hlt Hs' Hc. pose proof (dup_next_dup_spec s' c bm (bk ++ bv0) Hc) as Hspec.
  rewrite (first_entry_unique _ (pairs s') (bm, bk ++ bv) tt) in Hspec.
  - destruct (dup_next_dup s' c) as [c' ?]; cbn in *. by injection Hspec.
  - by rewrite Hs', lookup_insert_eq.
  - by apply bool_decide_eq_true.
  - intros [b1 d'] u He [Hb1 Hlt']%bool_decide_eq_true [Hl|[_ Hl]]; cbn in *; subst b1; [by apply bytes_lt_irrefl in Hl|].
    rewrite Hs' in He. apply lookup_insert_Some in He as [[[= <-] _]|[_ He]]; [by apply bytes_lt_irrefl in Hl|].
    destruct (sibling_old k v Hok bm bk bv Hb (bm, d') u He eq_refl) as (bv1 & Hold1%(old_only _ _ _ _ Hold) & [= ->]).
    + apply (between_sibling k v bm bk bv Hb d' u bv0 bv He Hlt'). intros Hl2. apply (bytes_lt_irrefl d'). by eapply bytes_lt_trans.
    + subst bv1. by apply bytes_lt_irrefl in Hlt'.
Qed.

Lemma last_of_main k v bm bk bv :
  prefix_ok (k, v) -> entry_bytes k v bm bk bv ->
  match last_entry (fun k' : Key => bool_decide (k'.1 = k.1)) m with
  | Some (lk, lv) => exists lbk lbv, entry_bytes lk lv bm lbk lbv /\ m !! lk = Some lv /\ prefix_ok (lk, lv) /\ lk.1 = k.1 /\
      last_entry (fun e : bytes * bytes => bool_decide (e.1 = bm)) (pairs s) = Some ((bm, lbk ++ lbv), tt)
  | None => last_entry (fun e : bytes * bytes => bool_decide (e.1 = bm)) (pairs s) = None
  end.
Proof.
  intros Hok Hb. pose proof (last_pair (fun k' => bool_decide (k'.1 = k.1)) (fun e => bool_decide (e.1 = bm))) as Hlast.
  destruct (last_entry _ m) as [[lk lv]|] eqn:Hl.
  - destruct Hlast as (lbm & lbk & lbv & Hlb & Hlk & Hlok & Hle).
    { intros k2 v2 bm2 bk2 bv2 _ (Hm2 & _) Hb2. apply bool_decide_ext. cbn.
      apply (main_compare k2.1 k.1 bm2 bm Hm2 (proj1 Hok) (eb_main _ _ _ _ _ Hb2) (eb_main _ _ _ _ _ Hb)). }
    apply last_entry_Some in Hl as (_ & He%bool_decide_eq_true & _).
    assert (lbm = bm) as -> by (pose proof (eb_main _ _ _ _ _ Hlb) as E1; rewrite He, (eb_main _ _ _ _ _ Hb) in E1; by injection E1).
    by exists lbk, lbv.
  - apply Hlast. intros k2 v2 bm2 bk2 bv2 _ (Hm2 & _) Hb2. apply bool_decide_ext. cbn.
    apply (main_compare k2.1 k.1 bm2 bm Hm2 (proj1 Hok) (eb_main _ _ _ _ _ Hb2) (eb_main _ _ _ _ _ Hb)).
Qed.

Lemma prefix_append_greater_rel k v :
  prefix_ok (k, v) -> write_agrees (prefix_append_greater_sub_key main sub vs k v s) (tbl_append_greater_sub_key m k v).
Proof.
  intros Hok. destruct (entry_bytes_ok k v Hok) as (bm & bk & bv & Hb). unfold prefix_append_greater_sub_key. open_write Hb.
  pose proof (dup_append_dup_spec s (dup_cursor s) bm (bk ++ bv)) as Hput. pose proof (last_of_main k v bm bk bv Hok Hb) as Hlast.
  unfold write_agrees, tbl_append_greater_sub_key.
  destruct (last_entry (fun k' : Key => bool_decide (k'.1 = k.1)) m) as [[lk lv]|] eqn:Hl.
  - destruct Hlast as (lbk & lbv & Hlb & Hlk & Hlok & Hm1 & Hle). rewrite Hle in Hput.
    destruct Hok as (Hokm & Hoks & Hokv). destruct Hlok as (Hlm & Hls & Hlv). cbn [fst snd] in *.
    destruct (sub_compare lk.2 k.2 lbk bk Hls Hoks (eb_sub _ _ _ _ _ Hlb) (eb_sub _ _ _ _ _ Hb)) as [Hcmp Heq].
    destruct (sub_compare k.2 lk.2 bk lbk Hoks Hls (eb_sub _ _ _ _ _ Hb) (eb_sub _ _ _ _ _ Hlb)) as [Hcmp' _].
    assert (Hwid : length lbk = length bk) by (by rewrite (eb_width _ _ _ _ _ Hb), (eb_width _ _ _ _ _ Hlb)).
    destruct (key_lt_total lk.2 k.2) as [Hlt|[He|Hgt]].
    + rewrite decide_True by done. rewrite decide_True in Hput by (apply bytes_lt_app; [done|left; by apply Hcmp]).
      assert (Hk : m !! k = None).
      { destruct (m !! k) as [v0|] eqn:Hk; [|done]. apply last_entry_Some in Hl as (_ & _ & Hmax).
        destruct (Hmax k v0 Hk); [by apply bool_decide_eq_true|]. right. by split. }
      destruct Hput as (s' & c & -> & Hs' & Hc). destruct (new_key_put k v bm bk bv s' c ltac:(done) Hb Hk Hs' Hc) as [_ Hrel].
      exists s'. split; [|done].
      by destruct (append_new k v bm bk bv s' c ltac:(done) Hb Hk Hs' Hc) as [[c' ->]|(c' & b & p & -> & ->)].
    + assert (lk = k) as -> by (destruct lk, k; cbn in *; by f_equal). rewrite decide_False by apply key_lt_irrefl.
      assert (lbk = bk) as -> by (by apply Heq). assert (Hold : old_value k bm bk lbv) by (by exists lv).
      destruct (decide (bytes_lt (bk ++ lbv) (bk ++ bv))) as [Hlt|Hnlt].
      * assert (Hok : prefix_ok (k, v)) by done.
        assert (Hnone : pairs s !! (bm, bk ++ bv) = None).
        { eapply pair_new; [done..|]. intros bv1 Ho%(old_only _ _ _ _ Hold) E1. subst bv1. rewrite E1 in Hlt. by apply bytes_lt_irrefl in Hlt. }
        destruct Hput as (s' & c & -> & Hs' & Hc). neighbours Hok Hb Hs' Hc.
        destruct (Hprev lbv Hc Hold Hlt) as [Hn Hpos]. destruct (dup_prev_dup s' c) as [c' [[b p]|]]; [|done].
        cbn in Hn, Hpos. rewrite Hn. pose proof (next_dup_back k v bm bk bv lbv s' c' Hok Hb Hold Hlt Hs' Hpos) as Hback.
        destruct (dup_next_dup s' c') as [c2 ?]. cbn in Hback. pose proof (dup_del_spec s' c2 _ Hback) as Hd.
        destruct (dup_del s' c2) as [s2 c3]. exists s2. split; [done|]. cbn in Hd. rewrite Hs' in Hd. by eapply undo_rel.
      * destruct (dup_put s (dup_cursor s) _ _ _) as [r c]. cbn in Hput. subst r. by exists s.
    + rewrite decide_False by (intros Hlt; by apply (key_lt_asym lk.2 k.2)).
      rewrite decide_False in Hput.
      * destruct (dup_put s (dup_cursor s) _ _ _) as [r c]. cbn in Hput. subst r. by exists s.
      * intros Hlt. apply (bytes_lt_not lbk bk lbv bv); [done|done|]. by apply Hcmp'.
  - rewrite Hlast in Hput. assert (Hk : m !! k = None).
    { destruct (m !! k) as [v0|] eqn:Hk; [|done]. apply (last_entry_None _ _ Hl) in Hk. by apply bool_decide_eq_false in Hk. }
    destruct Hput as (s' & c & -> & Hs' & Hc). destruct (new_key_put k v bm bk bv s' c Hok Hb Hk Hs' Hc) as [_ Hrel].
    exists s'. split; [|done]. by destruct (append_new k v bm bk bv s' c Hok Hb Hk Hs' Hc) as [[c' ->]|(c' & b & p & -> & ->)].
Qed.

(** ** Cursors *)

Definition prefix_cursor (c : DupCursor) (c' : Cursor Key) : Prop := cursor_image prefix_encode m c' (dup_position c).

Definition prefix_step (r : DbResult (DupCursor * option (Key * V))) (step : Cursor Key * option (Key * V)) : Prop :=
  exists c, r = DbOk (c, step.2) /\ prefix_cursor c step.1.

Lemma pair_decoded k v bm bk bv : entry_bytes k v bm bk bv -> get_key_value_pair main sub vs bm (bk ++ bv) = Some (k, v).
Proof.
  intros Hb. unfold get_key_value_pair. rewrite (eb_main_read _ _ _ _ _ Hb), (eb_sub_read _ _ _ _ _ Hb bv).
  rewrite (eb_value_read _ _ _ _ _ Hb). by destruct k.
Qed.

Lemma prefix_step_decoded step (r : DupCursor * option (bytes * bytes)) :
  step_image prefix_ok prefix_encode m step (dup_position r.1, pair_of r.2) ->
  prefix_step (let '(c, res) := r in DbOk (c, deserialize_pair main sub vs res)) step.
Proof.
  destruct r as [c res], step as [c' o]. intros (Hc & Hres & Hok). cbn [fst snd] in *. exists c. split; [|done]. do 2 f_equal.
  destruct o as [[k v]|]; cbn in Hres; [|by destruct res].
  destruct (entry_bytes_ok k v Hok) as (bm & bk & bv & Hb). rewrite (eb_encode _ _ _ _ _ Hb) in Hres.
  destruct res as [e|]; [|done]. injection Hres as ->. by apply pair_decoded.
Qed.

Lemma prefix_next_rel c c' : prefix_cursor c c' -> prefix_step (prefix_next main sub vs s c) (cursor_next m c').
Proof.
  intros Hc. apply prefix_step_decoded. rewrite dup_next_spec.
  by apply (image_next _ _ prefix_encode_total prefix_encode_mono).
Qed.

Lemma prefix_prev_rel c c' : prefix_cursor c c' -> prefix_step (prefix_prev main sub vs s c) (cursor_prev m c').
Proof.
  intros Hc. apply prefix_step_decoded. rewrite dup_prev_spec.
  by apply (image_prev _ _ prefix_encode_total prefix_encode_mono).
Qed.

(** The lower bound is in the main key, or else it is the first entry above the main key. *)
Lemma lower_bound_split k :
  first_entry (fun k' => negb (bool_decide (key_lt k' k))) m =
  match first_entry (from_sub k) m with
  | Some kv => Some kv
  | None => first_entry (fun k' : Key => bool_decide (key_lt k.1 k'.1)) m
  end.
Proof.
  destruct (first_entry (from_sub k) m) as [[k2 v2]|] eqn:Hf.
  - apply first_entry_Some in Hf as (Hk2 & [He Hn]%bool_decide_eq_true & Hmin). apply first_entry_unique; [done| |].
    + apply negb_true_iff, bool_decide_eq_false. intros [Hlt|[_ Hlt]]; [|done]. rewrite He in Hlt. by apply key_lt_irrefl in Hlt.
    + intros k3 v3 Hk3 Hp Hlt. apply negb_true_iff, bool_decide_eq_false in Hp.
      destruct (decide (k3.1 = k.1)) as [He3|Hne3].
      * apply (Hmin k3 v3 Hk3); [|done]. apply bool_decide_eq_true. split; [done|]. intros Hlt3. apply Hp. right. by split.
      * apply Hp. left. destruct Hlt as [Hlt|[Heq _]]; [by rewrite He in Hlt|]. congruence.
  - destruct (first_entry (fun k' : Key => bool_decide (key_lt k.1 k'.1)) m) as [[k2 v2]|] eqn:Hg.
    + apply first_entry_Some in Hg as (Hk2 & Hlt2%bool_decide_eq_true & Hmin). apply first_entry_unique; [done| |].
      * apply negb_true_iff, bool_decide_eq_false. intros [Hlt|[He _]]; [by apply (key_lt_asym k.1 k2.1)|].
        rewrite He in Hlt2. by apply key_lt_irrefl in Hlt2.
      * intros k3 v3 Hk3 Hp. apply negb_true_iff, bool_decide_eq_false in Hp. apply (Hmin k3 v3 Hk3).
        apply bool_decide_eq_true. destruct (key_lt_total k.1 k3.1) as [|[He|Hlt]]; [done| |].
        -- exfalso. apply (first_entry_None _ _ Hf) in Hk3. apply bool_decide_eq_false in Hk3. apply Hk3. split; [done|].
           intros Hlt. apply Hp. right. by split.
        -- exfalso. apply Hp. by left.
    + apply first_entry_none. intros k3 v3 Hk3. apply negb_false_iff, bool_decide_eq_true.
      pose proof (first_entry_None _ _ Hf _ _ Hk3) as H1. pose proof (first_entry_None _ _ Hg _ _ Hk3) as H2.
      apply bool_decide_eq_false in H1, H2. destruct (key_lt_total k.1 k3.1) as [|[He|Hlt]]; [done| |by left].
      right. split; [done|]. destruct (decide (key_lt k3.2 k.2)); [done|]. exfalso. by apply H1.
Qed.

Lemma prefix_lower_bound_rel c k :
  next_key_bound main okm -> okm k.1 -> oks k.2 ->
  prefix_step (prefix_lower_bound main sub vs s c k) (cursor_lower_bound m k).
Proof.
  intros Hnb Hm Hs. destruct (Hmain k.1 Hm) as (bm & Sm & _). destruct (sub_bytes k.2 Hs) as (bk & Sk & _).
  unfold prefix_lower_bound, get_main_key, get_sub_key_lower_bound. rewrite Sm, Sk. cbn [db_bind].
  pose proof (both_range k bm bk Hm Hs Sm Sk c) as Hb. unfold cursor_lower_bound. rewrite lower_bound_split.
  destruct (first_entry (from_sub k) m) as [[k2 v2]|] eqn:Hf.
  - destruct Hb as (bk2 & bv2 & Hb2 & Hk2 & Hok2 & _ & Hfd & Hpos). destruct (dup_get_both_range s c bm bk) as [c1 fd].
    cbn in Hfd, Hpos. subst fd. rewrite (pair_decoded k2 v2 bm bk2 bv2 Hb2). exists c1. split; [done|].
    exists v2, (bm, bk2 ++ bv2), tt. split; [done|]. split; [apply Hb2|done].
  - destruct Hb as [_ Hfd]. destruct (dup_get_both_range s c bm bk) as [c1 fd]. cbn in Hfd. subst fd.
    apply (prefix_step_decoded _ (dup_set_range s c1 (next_main_key bm))). rewrite dup_set_range_spec.
    rewrite (image_first _ _ prefix_encode_total prefix_encode_mono m (pairs s) Hr (fun k' => bool_decide (key_lt k.1 k'.1))).
    + apply (image_result _ _ prefix_encode_total m (pairs s)); [done|intros ? ?; apply first_entry_in|done].
    + intros k2 v2 e u Hk2 He. pose proof (im_ok _ _ _ _ Hr _ _ Hk2) as Hok2.
      destruct (entry_bytes_encode k2 v2 _ Hok2 He) as (bm2 & bk2 & bv2 & [= -> ->] & Hb2). destruct Hok2 as (Hm2 & _).
      destruct (Hnb k.1 bm Hm Sm) as [Hup Hnext]. cbn [fst]. destruct (bool_decide (key_lt k.1 k2.1)) eqn:Hlt.
      * symmetry. apply negb_true_iff, bool_decide_eq_false. apply bool_decide_eq_true in Hlt.
        exact (Hnext k2.1 bm2 Hm2 (eb_main _ _ _ _ _ Hb2) Hlt).
      * symmetry. apply negb_false_iff, bool_decide_eq_true. apply bool_decide_eq_false in Hlt.
        destruct (main_compare k2.1 k.1 bm2 bm Hm2 Hm (eb_main _ _ _ _ _ Hb2) Sm) as [Hc He1].
        destruct (key_lt_total k.1 k2.1) as [|[He2|Hgt]]; [done| |].
        -- by rewrite (proj1 He1 (eq_sym He2)).
        -- eapply bytes_lt_trans; [by apply Hc|done].
Qed.
End Related.
End Refines.
