(* ===== verification/SerdeTypes.v ===== *)
(** * The serializers of the stored types

    What the macros [auto_storage_serde!] and
    [auto_storage_serde_conditionally_compressed!] of
    [crates/papyrus_storage/src/serialization/serializers.rs] generate for each
    type they list, and the implementations written out there for the classes,
    the compiled classes and the state diffs: a struct is its fields in order,
    an enum a byte and the value of the variant. *)

From stdpp Require Import base gmap list strings fin_maps.
From Stdlib Require Import ZArith Lia.
From S2P Require Import Prelude StorageTables StarknetTypes Serde.

(** The derived order of [Resource], the key of a [BTreeMap]. *)
Definition resource_index (r : Resource) : Z :=
  match r with Resource_L1Gas => 0 | Resource_L2Gas => 1 end.

Definition resource_lt (a b : Resource) : Prop := resource_index a < resource_index b.

#[global] Instance resource_lt_dec : RelDecision resource_lt.
Proof. intros a b. unfold resource_lt. apply _. Defined.

Lemma resource_lt_strict : StrictOrder resource_lt.
Proof. split; [intros a|intros a b c]; unfold resource_lt, complement; lia. Qed.

Lemma resource_lt_total a b : resource_lt a b \/ a = b \/ resource_lt b a.
Proof. destruct a, b; unfold resource_lt; cbn; (by right; left) || lia. Qed.

#[global] Instance resource_key_ord : KeyOrd Resource := {|
  key_lt := resource_lt;
  key_lt_dec := resource_lt_dec;
  key_lt_strict := resource_lt_strict;
  key_lt_total := resource_lt_total
|}.

Section Types.
Context {X : ExternalTypes} {C : SerdeCrates} {HM : HashMapIter}.

Definition serde_H160 : StorageSerde (list Z) := {|
  serialize_into := fun self => serialize_into (serde_array serde_u8 20) self;
  deserialize_from := let! x := deserialize_from (serde_array serde_u8 20) in ret x
|}.

Definition serde_AccountDeploymentData : StorageSerde (list Z) := {|
  serialize_into := fun self => serialize_into (serde_vec serde_Felt) self;
  deserialize_from := let! x := deserialize_from (serde_vec serde_Felt) in ret x
|}.

Definition serde_BlockHash : StorageSerde Z := {|
  serialize_into := fun self => serialize_into serde_Felt self;
  deserialize_from := let! x := deserialize_from serde_Felt in ret x
|}.

Definition serde_BlockTimestamp : StorageSerde Z := {|
  serialize_into := fun self => serialize_into serde_u64 self;
  deserialize_from := let! x := deserialize_from serde_u64 in ret x
|}.

Definition serde_EventCommitment : StorageSerde Z := {|
  serialize_into := fun self => serialize_into serde_Felt self;
  deserialize_from := let! x := deserialize_from serde_Felt in ret x
|}.

Definition serde_GasPrice : StorageSerde Z := {|
  serialize_into := fun self => serialize_into serde_u128 self;
  deserialize_from := let! x := deserialize_from serde_u128 in ret x
|}.

Definition serde_GasPricePerToken : StorageSerde GasPricePerToken := {|
  serialize_into := fun self =>
    serialize_into serde_GasPrice (GasPricePerToken_price_in_fri self) ;!
    serialize_into serde_GasPrice (GasPricePerToken_price_in_wei self) ;!
    ret tt;
  deserialize_from :=
    let! price_in_fri := deserialize_from serde_GasPrice in
    let! price_in_wei := deserialize_from serde_GasPrice in
    ret (mkGasPricePerToken price_in_fri price_in_wei)
|}.

Definition serde_GlobalRoot : StorageSerde Z := {|
  serialize_into := fun self => serialize_into serde_Felt self;
  deserialize_from := let! x := deserialize_from serde_Felt in ret x
|}.

Definition serde_L1DataAvailabilityMode : StorageSerde L1DataAvailabilityMode := {|
  serialize_into := fun self =>
    match self with
    | L1DataAvailabilityMode_Calldata => write_all [0] ;! ret tt
    | L1DataAvailabilityMode_Blob => write_all [1] ;! ret tt
    end;
  deserialize_from :=
    let! kind := read_exact 1 in
    match kind with
    | [0] => ret L1DataAvailabilityMode_Calldata
    | [1] => ret L1DataAvailabilityMode_Blob
    | _ => raise tt
    end
|}.

Definition serde_ReceiptCommitment : StorageSerde Z := {|
  serialize_into := fun self => serialize_into serde_Felt self;
  deserialize_from := let! x := deserialize_from serde_Felt in ret x
|}.

Definition serde_SequencerContractAddress : StorageSerde Z := {|
  serialize_into := fun self => serialize_into serde_PatriciaKey self;
  deserialize_from := let! x := deserialize_from serde_PatriciaKey in ret x
|}.

Definition serde_PoseidonHash : StorageSerde Z := {|
  serialize_into := fun self => serialize_into serde_Felt self;
  deserialize_from := let! x := deserialize_from serde_Felt in ret x
|}.

Definition serde_StateDiffCommitment : StorageSerde Z := {|
  serialize_into := fun self => serialize_into serde_PoseidonHash self;
  deserialize_from := let! x := deserialize_from serde_PoseidonHash in ret x
|}.

Definition serde_TransactionCommitment : StorageSerde Z := {|
  serialize_into := fun self => serialize_into serde_Felt self;
  deserialize_from := let! x := deserialize_from serde_Felt in ret x
|}.

Definition serde_StorageBlockHeader : StorageSerde StorageBlockHeader := {|
  serialize_into := fun self =>
    serialize_into serde_BlockHash (StorageBlockHeader_block_hash self) ;!
    serialize_into serde_BlockHash (StorageBlockHeader_parent_hash self) ;!
    serialize_into serde_BlockNumber (StorageBlockHeader_block_number self) ;!
    serialize_into serde_GasPricePerToken (StorageBlockHeader_l1_gas_price self) ;!
    serialize_into serde_GasPricePerToken (StorageBlockHeader_l1_data_gas_price self) ;!
    serialize_into serde_GlobalRoot (StorageBlockHeader_state_root self) ;!
    serialize_into serde_SequencerContractAddress (StorageBlockHeader_sequencer self) ;!
    serialize_into serde_BlockTimestamp (StorageBlockHeader_timestamp self) ;!
    serialize_into serde_L1DataAvailabilityMode (StorageBlockHeader_l1_da_mode self) ;!
    serialize_into (serde_option serde_StateDiffCommitment) (StorageBlockHeader_state_diff_commitment self) ;!
    serialize_into (serde_option serde_TransactionCommitment) (StorageBlockHeader_transaction_commitment self) ;!
    serialize_into (serde_option serde_EventCommitment) (StorageBlockHeader_event_commitment self) ;!
    serialize_into (serde_option serde_ReceiptCommitment) (StorageBlockHeader_receipt_commitment self) ;!
    serialize_into (serde_option serde_usize) (StorageBlockHeader_state_diff_length self) ;!
    serialize_into serde_usize (StorageBlockHeader_n_transactions self) ;!
    serialize_into serde_usize (StorageBlockHeader_n_events self) ;!
    ret tt;
  deserialize_from :=
    let! block_hash := deserialize_from serde_BlockHash in
    let! parent_hash := deserialize_from serde_BlockHash in
    let! block_number := deserialize_from serde_BlockNumber in
    let! l1_gas_price := deserialize_from serde_GasPricePerToken in
    let! l1_data_gas_price := deserialize_from serde_GasPricePerToken in
    let! state_root := deserialize_from serde_GlobalRoot in
    let! sequencer := deserialize_from serde_SequencerContractAddress in
    let! timestamp := deserialize_from serde_BlockTimestamp in
    let! l1_da_mode := deserialize_from serde_L1DataAvailabilityMode in
    let! state_diff_commitment := deserialize_from (serde_option serde_StateDiffCommitment) in
    let! transaction_commitment := deserialize_from (serde_option serde_TransactionCommitment) in
    let! event_commitment := deserialize_from (serde_option serde_EventCommitment) in
    let! receipt_commitment := deserialize_from (serde_option serde_ReceiptCommitment) in
    let! state_diff_length := deserialize_from (serde_option serde_usize) in
    let! n_transactions := deserialize_from serde_usize in
    let! n_events := deserialize_from serde_usize in
    ret (mkStorageBlockHeader block_hash parent_hash block_number l1_gas_price l1_data_gas_price state_root sequencer timestamp l1_da_mode state_diff_commitment transaction_commitment event_commitment receipt_commitment state_diff_length n_transactions n_events)
|}.

Definition serde_Signature : StorageSerde Signature := {|
  serialize_into := fun self =>
    serialize_into serde_Felt (Signature_r self) ;!
    serialize_into serde_Felt (Signature_s self) ;!
    ret tt;
  deserialize_from :=
    let! r := deserialize_from serde_Felt in
    let! s := deserialize_from serde_Felt in
    ret (mkSignature r s)
|}.

Definition serde_BlockSignature : StorageSerde Signature := {|
  serialize_into := fun self => serialize_into serde_Signature self;
  deserialize_from := let! x := deserialize_from serde_Signature in ret x
|}.

Definition serde_BlockStatus : StorageSerde BlockStatus := {|
  serialize_into := fun self =>
    match self with
    | BlockStatus_Pending => write_all [0] ;! ret tt
    | BlockStatus_AcceptedOnL2 => write_all [1] ;! ret tt
    | BlockStatus_AcceptedOnL1 => write_all [2] ;! ret tt
    | BlockStatus_Rejected => write_all [3] ;! ret tt
    end;
  deserialize_from :=
    let! kind := read_exact 1 in
    match kind with
    | [0] => ret BlockStatus_Pending
    | [1] => ret BlockStatus_AcceptedOnL2
    | [2] => ret BlockStatus_AcceptedOnL1
    | [3] => ret BlockStatus_Rejected
    | _ => raise tt
    end
|}.

Definition serde_Calldata : StorageSerde (list Z) := {|
  serialize_into := fun self => serialize_into (serde_vec serde_Felt) self;
  deserialize_from := let! x := deserialize_from (serde_vec serde_Felt) in ret x
|}.

Definition serde_CompiledClassHash : StorageSerde Z := {|
  serialize_into := fun self => serialize_into serde_Felt self;
  deserialize_from := let! x := deserialize_from serde_Felt in ret x
|}.

Definition serde_ClassHash : StorageSerde Z := {|
  serialize_into := fun self => serialize_into serde_Felt self;
  deserialize_from := let! x := deserialize_from serde_Felt in ret x
|}.

Definition serde_ContractAddressSalt : StorageSerde Z := {|
  serialize_into := fun self => serialize_into serde_Felt self;
  deserialize_from := let! x := deserialize_from serde_Felt in ret x
|}.

Definition serde_EventType : StorageSerde EventType := {|
  serialize_into := fun self =>
    match self with
    | EventType_Event => write_all [0] ;! ret tt
    end;
  deserialize_from :=
    let! kind := read_exact 1 in
    match kind with
    | [0] => ret EventType_Event
    | _ => raise tt
    end
|}.

Definition serde_TypedParameter : StorageSerde TypedParameter := {|
  serialize_into := fun self =>
    serialize_into serde_String (TypedParameter_name self) ;!
    serialize_into serde_String (TypedParameter_type self) ;!
    ret tt;
  deserialize_from :=
    let! name := deserialize_from serde_String in
    let! type_ := deserialize_from serde_String in
    ret (mkTypedParameter name type_)
|}.

Definition serde_EventAbiEntry : StorageSerde EventAbiEntry := {|
  serialize_into := fun self =>
    serialize_into (serde_vec serde_TypedParameter) (EventAbiEntry_data self) ;!
    serialize_into (serde_vec serde_TypedParameter) (EventAbiEntry_keys self) ;!
    serialize_into serde_String (EventAbiEntry_name self) ;!
    serialize_into serde_EventType (EventAbiEntry_type self) ;!
    ret tt;
  deserialize_from :=
    let! data := deserialize_from (serde_vec serde_TypedParameter) in
    let! keys := deserialize_from (serde_vec serde_TypedParameter) in
    let! name := deserialize_from serde_String in
    let! type_ := deserialize_from serde_EventType in
    ret (mkEventAbiEntry data keys name type_)
|}.

Definition serde_StructMember : StorageSerde StructMember := {|
  serialize_into := fun self =>
    serialize_into serde_String (StructMember_name self) ;!
    serialize_into serde_usize (StructMember_offset self) ;!
    serialize_into serde_String (StructMember_type self) ;!
    ret tt;
  deserialize_from :=
    let! name := deserialize_from serde_String in
    let! offset := deserialize_from serde_usize in
    let! type_ := deserialize_from serde_String in
    ret (mkStructMember name offset type_)
|}.

Definition serde_StructType : StorageSerde StructType := {|
  serialize_into := fun self =>
    match self with
    | StructType_Struct => write_all [0] ;! ret tt
    end;
  deserialize_from :=
    let! kind := read_exact 1 in
    match kind with
    | [0] => ret StructType_Struct
    | _ => raise tt
    end
|}.

Definition serde_StructAbiEntry : StorageSerde StructAbiEntry := {|
  serialize_into := fun self =>
    serialize_into (serde_vec serde_StructMember) (StructAbiEntry_members self) ;!
    serialize_into serde_String (StructAbiEntry_name self) ;!
    serialize_into serde_usize (StructAbiEntry_size self) ;!
    serialize_into serde_StructType (StructAbiEntry_type self) ;!
    ret tt;
  deserialize_from :=
    let! members := deserialize_from (serde_vec serde_StructMember) in
    let! name := deserialize_from serde_String in
    let! size := deserialize_from serde_usize in
    let! type_ := deserialize_from serde_StructType in
    ret (mkStructAbiEntry members name size type_)
|}.

Definition serde_DataAvailabilityMode : StorageSerde DataAvailabilityMode := {|
  serialize_into := fun self =>
    match self with
    | DataAvailabilityMode_L1 => write_all [0] ;! ret tt
    | DataAvailabilityMode_L2 => write_all [1] ;! ret tt
    end;
  deserialize_from :=
    let! kind := read_exact 1 in
    match kind with
    | [0] => ret DataAvailabilityMode_L1
    | [1] => ret DataAvailabilityMode_L2
    | _ => raise tt
    end
|}.

Definition serde_Fee : StorageSerde Z := {|
  serialize_into := fun self => serialize_into serde_u128 self;
  deserialize_from := let! x := deserialize_from serde_u128 in ret x
|}.

Definition serde_Nonce : StorageSerde Z := {|
  serialize_into := fun self => serialize_into serde_Felt self;
  deserialize_from := let! x := deserialize_from serde_Felt in ret x
|}.

Definition serde_TransactionSignature : StorageSerde (list Z) := {|
  serialize_into := fun self => serialize_into (serde_vec serde_Felt) self;
  deserialize_from := let! x := deserialize_from (serde_vec serde_Felt) in ret x
|}.

Definition serde_DeclareTransactionV0V1 : StorageSerde DeclareTransactionV0V1 := {|
  serialize_into := fun self =>
    serialize_into serde_Fee (DeclareTransactionV0V1_max_fee self) ;!
    serialize_into serde_TransactionSignature (DeclareTransactionV0V1_signature self) ;!
    serialize_into serde_Nonce (DeclareTransactionV0V1_nonce self) ;!
    serialize_into serde_ClassHash (DeclareTransactionV0V1_class_hash self) ;!
    serialize_into serde_PatriciaKey (DeclareTransactionV0V1_sender_address self) ;!
    ret tt;
  deserialize_from :=
    let! max_fee := deserialize_from serde_Fee in
    let! signature := deserialize_from serde_TransactionSignature in
    let! nonce := deserialize_from serde_Nonce in
    let! class_hash := deserialize_from serde_ClassHash in
    let! sender_address := deserialize_from serde_PatriciaKey in
    ret (mkDeclareTransactionV0V1 max_fee signature nonce class_hash sender_address)
|}.

Definition serde_DeclareTransactionV2 : StorageSerde DeclareTransactionV2 := {|
  serialize_into := fun self =>
    serialize_into serde_Fee (DeclareTransactionV2_max_fee self) ;!
    serialize_into serde_TransactionSignature (DeclareTransactionV2_signature self) ;!
    serialize_into serde_Nonce (DeclareTransactionV2_nonce self) ;!
    serialize_into serde_ClassHash (DeclareTransactionV2_class_hash self) ;!
    serialize_into serde_CompiledClassHash (DeclareTransactionV2_compiled_class_hash self) ;!
    serialize_into serde_PatriciaKey (DeclareTransactionV2_sender_address self) ;!
    ret tt;
  deserialize_from :=
    let! max_fee := deserialize_from serde_Fee in
    let! signature := deserialize_from serde_TransactionSignature in
    let! nonce := deserialize_from serde_Nonce in
    let! class_hash := deserialize_from serde_ClassHash in
    let! compiled_class_hash := deserialize_from serde_CompiledClassHash in
    let! sender_address := deserialize_from serde_PatriciaKey in
    ret (mkDeclareTransactionV2 max_fee signature nonce class_hash compiled_class_hash sender_address)
|}.

Definition serde_PaymasterData : StorageSerde (list Z) := {|
  serialize_into := fun self => serialize_into (serde_vec serde_Felt) self;
  deserialize_from := let! x := deserialize_from (serde_vec serde_Felt) in ret x
|}.

Definition serde_Resource : StorageSerde Resource := {|
  serialize_into := fun self =>
    match self with
    | Resource_L1Gas => write_all [0] ;! ret tt
    | Resource_L2Gas => write_all [1] ;! ret tt
    end;
  deserialize_from :=
    let! kind := read_exact 1 in
    match kind with
    | [0] => ret Resource_L1Gas
    | [1] => ret Resource_L2Gas
    | _ => raise tt
    end
|}.

Definition serde_ResourceBounds : StorageSerde ResourceBounds := {|
  serialize_into := fun self =>
    serialize_into serde_u64 (ResourceBounds_max_amount self) ;!
    serialize_into serde_u128 (ResourceBounds_max_price_per_unit self) ;!
    ret tt;
  deserialize_from :=
    let! max_amount := deserialize_from serde_u64 in
    let! max_price_per_unit := deserialize_from serde_u128 in
    ret (mkResourceBounds max_amount max_price_per_unit)
|}.

Definition serde_ResourceBoundsMapping : StorageSerde (gmap Resource ResourceBounds) := {|
  serialize_into := fun self => serialize_into (serde_btreemap serde_Resource serde_ResourceBounds) self;
  deserialize_from := let! x := deserialize_from (serde_btreemap serde_Resource serde_ResourceBounds) in ret x
|}.

Definition serde_Tip : StorageSerde Z := {|
  serialize_into := fun self => serialize_into serde_u64 self;
  deserialize_from := let! x := deserialize_from serde_u64 in ret x
|}.

Definition serde_DeclareTransactionV3 : StorageSerde DeclareTransactionV3 := {|
  serialize_into := fun self =>
    serialize_into serde_ResourceBoundsMapping (DeclareTransactionV3_resource_bounds self) ;!
    serialize_into serde_Tip (DeclareTransactionV3_tip self) ;!
    serialize_into serde_TransactionSignature (DeclareTransactionV3_signature self) ;!
    serialize_into serde_Nonce (DeclareTransactionV3_nonce self) ;!
    serialize_into serde_ClassHash (DeclareTransactionV3_class_hash self) ;!
    serialize_into serde_CompiledClassHash (DeclareTransactionV3_compiled_class_hash self) ;!
    serialize_into serde_PatriciaKey (DeclareTransactionV3_sender_address self) ;!
    serialize_into serde_DataAvailabilityMode (DeclareTransactionV3_nonce_data_availability_mode self) ;!
    serialize_into serde_DataAvailabilityMode (DeclareTransactionV3_fee_data_availability_mode self) ;!
    serialize_into serde_PaymasterData (DeclareTransactionV3_paymaster_data self) ;!
    serialize_into serde_AccountDeploymentData (DeclareTransactionV3_account_deployment_data self) ;!
    ret tt;
  deserialize_from :=
    let! resource_bounds := deserialize_from serde_ResourceBoundsMapping in
    let! tip := deserialize_from serde_Tip in
    let! signature := deserialize_from serde_TransactionSignature in
    let! nonce := deserialize_from serde_Nonce in
    let! class_hash := deserialize_from serde_ClassHash in
    let! compiled_class_hash := deserialize_from serde_CompiledClassHash in
    let! sender_address := deserialize_from serde_PatriciaKey in
    let! nonce_data_availability_mode := deserialize_from serde_DataAvailabilityMode in
    let! fee_data_availability_mode := deserialize_from serde_DataAvailabilityMode in
    let! paymaster_data := deserialize_from serde_PaymasterData in
    let! account_deployment_data := deserialize_from serde_AccountDeploymentData in
    ret (mkDeclareTransactionV3 resource_bounds tip signature nonce class_hash compiled_class_hash sender_address nonce_data_availability_mode fee_data_availability_mode paymaster_data account_deployment_data)
|}.

Definition serde_DeclareTransaction : StorageSerde DeclareTransaction := {|
  serialize_into := fun self =>
    match self with
    | DeclareTransaction_V0 value => write_all [0] ;! serialize_into serde_DeclareTransactionV0V1 value ;! ret tt
    | DeclareTransaction_V1 value => write_all [1] ;! serialize_into serde_DeclareTransactionV0V1 value ;! ret tt
    | DeclareTransaction_V2 value => write_all [2] ;! serialize_into serde_DeclareTransactionV2 value ;! ret tt
    | DeclareTransaction_V3 value => write_all [3] ;! serialize_into serde_DeclareTransactionV3 value ;! ret tt
    end;
  deserialize_from :=
    let! kind := read_exact 1 in
    match kind with
    | [0] => let! value := deserialize_from serde_DeclareTransactionV0V1 in ret (DeclareTransaction_V0 value)
    | [1] => let! value := deserialize_from serde_DeclareTransactionV0V1 in ret (DeclareTransaction_V1 value)
    | [2] => let! value := deserialize_from serde_DeclareTransactionV2 in ret (DeclareTransaction_V2 value)
    | [3] => let! value := deserialize_from serde_DeclareTransactionV3 in ret (DeclareTransaction_V3 value)
    | _ => raise tt
    end
|}.

Definition write_DeployAccountTransactionV1 (self : DeployAccountTransactionV1) : Ser unit :=
    serialize_into serde_Fee (DeployAccountTransactionV1_max_fee self) ;!
    serialize_into serde_TransactionSignature (DeployAccountTransactionV1_signature self) ;!
    serialize_into serde_Nonce (DeployAccountTransactionV1_nonce self) ;!
    serialize_into serde_ClassHash (DeployAccountTransactionV1_class_hash self) ;!
    serialize_into serde_ContractAddressSalt (DeployAccountTransactionV1_contract_address_salt self) ;!
    serialize_into serde_Calldata (DeployAccountTransactionV1_constructor_calldata self) ;!
    ret tt.

Definition read_DeployAccountTransactionV1 : De DeployAccountTransactionV1 :=
    let! max_fee := deserialize_from serde_Fee in
    let! signature := deserialize_from serde_TransactionSignature in
    let! nonce := deserialize_from serde_Nonce in
    let! class_hash := deserialize_from serde_ClassHash in
    let! contract_address_salt := deserialize_from serde_ContractAddressSalt in
    let! constructor_calldata := deserialize_from serde_Calldata in
    ret (mkDeployAccountTransactionV1 max_fee signature nonce class_hash contract_address_salt constructor_calldata).

Definition serde_DeployAccountTransactionV1 : StorageSerde DeployAccountTransactionV1 := {|
  serialize_into := fun self => serialize_conditionally (write_DeployAccountTransactionV1 self);
  deserialize_from := deserialize_conditionally read_DeployAccountTransactionV1
|}.

Definition write_DeployAccountTransactionV3 (self : DeployAccountTransactionV3) : Ser unit :=
    serialize_into serde_ResourceBoundsMapping (DeployAccountTransactionV3_resource_bounds self) ;!
    serialize_into serde_Tip (DeployAccountTransactionV3_tip self) ;!
    serialize_into serde_TransactionSignature (DeployAccountTransactionV3_signature self) ;!
    serialize_into serde_Nonce (DeployAccountTransactionV3_nonce self) ;!
    serialize_into serde_ClassHash (DeployAccountTransactionV3_class_hash self) ;!
    serialize_into serde_ContractAddressSalt (DeployAccountTransactionV3_contract_address_salt self) ;!
    serialize_into serde_Calldata (DeployAccountTransactionV3_constructor_calldata self) ;!
    serialize_into serde_DataAvailabilityMode (DeployAccountTransactionV3_nonce_data_availability_mode self) ;!
    serialize_into serde_DataAvailabilityMode (DeployAccountTransactionV3_fee_data_availability_mode self) ;!
    serialize_into serde_PaymasterData (DeployAccountTransactionV3_paymaster_data self) ;!
    ret tt.

Definition read_DeployAccountTransactionV3 : De DeployAccountTransactionV3 :=
    let! resource_bounds := deserialize_from serde_ResourceBoundsMapping in
    let! tip := deserialize_from serde_Tip in
    let! signature := deserialize_from serde_TransactionSignature in
    let! nonce := deserialize_from serde_Nonce in
    let! class_hash := deserialize_from serde_ClassHash in
    let! contract_address_salt := deserialize_from serde_ContractAddressSalt in
    let! constructor_calldata := deserialize_from serde_Calldata in
    let! nonce_data_availability_mode := deserialize_from serde_DataAvailabilityMode in
    let! fee_data_availability_mode := deserialize_from serde_DataAvailabilityMode in
    let! paymaster_data := deserialize_from serde_PaymasterData in
    ret (mkDeployAccountTransactionV3 resource_bounds tip signature nonce class_hash contract_address_salt constructor_calldata nonce_data_availability_mode fee_data_availability_mode paymaster_data).

Definition serde_DeployAccountTransactionV3 : StorageSerde DeployAccountTransactionV3 := {|
  serialize_into := fun self => serialize_conditionally (write_DeployAccountTransactionV3 self);
  deserialize_from := deserialize_conditionally read_DeployAccountTransactionV3
|}.

Definition serde_DeployAccountTransaction : StorageSerde DeployAccountTransaction := {|
  serialize_into := fun self =>
    match self with
    | DeployAccountTransaction_V1 value => write_all [0] ;! serialize_into serde_DeployAccountTransactionV1 value ;! ret tt
    | DeployAccountTransaction_V3 value => write_all [1] ;! serialize_into serde_DeployAccountTransactionV3 value ;! ret tt
    end;
  deserialize_from :=
    let! kind := read_exact 1 in
    match kind with
    | [0] => let! value := deserialize_from serde_DeployAccountTransactionV1 in ret (DeployAccountTransaction_V1 value)
    | [1] => let! value := deserialize_from serde_DeployAccountTransactionV3 in ret (DeployAccountTransaction_V3 value)
    | _ => raise tt
    end
|}.

Definition serde_EntryPointOffset : StorageSerde Z := {|
  serialize_into := fun self => serialize_into serde_usize self;
  deserialize_from := let! x := deserialize_from serde_usize in ret x
|}.

Definition serde_EntryPointSelector : StorageSerde Z := {|
  serialize_into := fun self => serialize_into serde_Felt self;
  deserialize_from := let! x := deserialize_from serde_Felt in ret x
|}.

Definition serde_DeprecatedEntryPoint : StorageSerde DeprecatedEntryPoint := {|
  serialize_into := fun self =>
    serialize_into serde_EntryPointSelector (DeprecatedEntryPoint_selector self) ;!
    serialize_into serde_EntryPointOffset (DeprecatedEntryPoint_offset self) ;!
    ret tt;
  deserialize_from :=
    let! selector := deserialize_from serde_EntryPointSelector in
    let! offset := deserialize_from serde_EntryPointOffset in
    ret (mkDeprecatedEntryPoint selector offset)
|}.

Definition serde_DeprecatedEntryPointType : StorageSerde DeprecatedEntryPointType := {|
  serialize_into := fun self =>
    match self with
    | DeprecatedEntryPointType_Constructor => write_all [0] ;! ret tt
    | DeprecatedEntryPointType_External => write_all [1] ;! ret tt
    | DeprecatedEntryPointType_L1Handler => write_all [2] ;! ret tt
    end;
  deserialize_from :=
    let! kind := read_exact 1 in
    match kind with
    | [0] => ret DeprecatedEntryPointType_Constructor
    | [1] => ret DeprecatedEntryPointType_External
    | [2] => ret DeprecatedEntryPointType_L1Handler
    | _ => raise tt
    end
|}.

Definition serde_FunctionIndex : StorageSerde Z := {|
  serialize_into := fun self => serialize_into serde_usize self;
  deserialize_from := let! x := deserialize_from serde_usize in ret x
|}.

Definition serde_EntryPoint : StorageSerde EntryPoint := {|
  serialize_into := fun self =>
    serialize_into serde_FunctionIndex (EntryPoint_function_idx self) ;!
    serialize_into serde_EntryPointSelector (EntryPoint_selector self) ;!
    ret tt;
  deserialize_from :=
    let! function_idx := deserialize_from serde_FunctionIndex in
    let! selector := deserialize_from serde_EntryPointSelector in
    ret (mkEntryPoint function_idx selector)
|}.

Definition serde_EntryPointType : StorageSerde EntryPointType := {|
  serialize_into := fun self =>
    match self with
    | EntryPointType_Constructor => write_all [0] ;! ret tt
    | EntryPointType_External => write_all [1] ;! ret tt
    | EntryPointType_L1Handler => write_all [2] ;! ret tt
    end;
  deserialize_from :=
    let! kind := read_exact 1 in
    match kind with
    | [0] => ret EntryPointType_Constructor
    | [1] => ret EntryPointType_External
    | [2] => ret EntryPointType_L1Handler
    | _ => raise tt
    end
|}.

Definition serde_EthAddress : StorageSerde (list Z) := {|
  serialize_into := fun self => serialize_into serde_H160 self;
  deserialize_from := let! x := deserialize_from serde_H160 in ret x
|}.

Definition serde_EventData : StorageSerde (list Z) := {|
  serialize_into := fun self => serialize_into (serde_vec serde_Felt) self;
  deserialize_from := let! x := deserialize_from (serde_vec serde_Felt) in ret x
|}.

Definition serde_EventKey : StorageSerde Z := {|
  serialize_into := fun self => serialize_into serde_Felt self;
  deserialize_from := let! x := deserialize_from serde_Felt in ret x
|}.

Definition serde_EventContent : StorageSerde EventContent := {|
  serialize_into := fun self =>
    serialize_into (serde_vec serde_EventKey) (EventContent_keys self) ;!
    serialize_into serde_EventData (EventContent_data self) ;!
    ret tt;
  deserialize_from :=
    let! keys := deserialize_from (serde_vec serde_EventKey) in
    let! data := deserialize_from serde_EventData in
    ret (mkEventContent keys data)
|}.

Definition serde_Event : StorageSerde Event := {|
  serialize_into := fun self =>
    serialize_into serde_PatriciaKey (Event_from_address self) ;!
    serialize_into serde_EventContent (Event_content self) ;!
    ret tt;
  deserialize_from :=
    let! from_address := deserialize_from serde_PatriciaKey in
    let! content := deserialize_from serde_EventContent in
    ret (mkEvent from_address content)
|}.

Definition serde_EventIndexInTransactionOutput : StorageSerde Z := {|
  serialize_into := fun self => serialize_into serde_usize self;
  deserialize_from := let! x := deserialize_from serde_usize in ret x
|}.

Definition serde_TransactionIndex : StorageSerde (Z * Z)%type := {|
  serialize_into := fun self => serialize_into serde_BlockNumber self.1 ;! serialize_into serde_TransactionOffsetInBlock self.2;
  deserialize_from :=
    let! x0 := deserialize_from serde_BlockNumber in
    let! x1 := deserialize_from serde_TransactionOffsetInBlock in
    ret (x0, x1)
|}.

Definition serde_EventIndex : StorageSerde (TransactionIndex * EventIndexInTransactionOutput)%type := {|
  serialize_into := fun self => serialize_into serde_TransactionIndex self.1 ;! serialize_into serde_EventIndexInTransactionOutput self.2;
  deserialize_from :=
    let! x0 := deserialize_from serde_TransactionIndex in
    let! x1 := deserialize_from serde_EventIndexInTransactionOutput in
    ret (x0, x1)
|}.

Definition serde_FunctionStateMutability : StorageSerde FunctionStateMutability := {|
  serialize_into := fun self =>
    match self with
    | FunctionStateMutability_View => write_all [0] ;! ret tt
    end;
  deserialize_from :=
    let! kind := read_exact 1 in
    match kind with
    | [0] => ret FunctionStateMutability_View
    | _ => raise tt
    end
|}.

Definition serde_GasVector : StorageSerde GasVector := {|
  serialize_into := fun self =>
    serialize_into serde_u64 (GasVector_l1_gas self) ;!
    serialize_into serde_u64 (GasVector_l1_data_gas self) ;!
    ret tt;
  deserialize_from :=
    let! l1_gas := deserialize_from serde_u64 in
    let! l1_data_gas := deserialize_from serde_u64 in
    ret (mkGasVector l1_gas l1_data_gas)
|}.

Definition serde_IndexedDeprecatedContractClass : StorageSerde IndexedDeprecatedContractClass := {|
  serialize_into := fun self =>
    serialize_into serde_BlockNumber (IndexedDeprecatedContractClass_block_number self) ;!
    serialize_into serde_LocationInFile (IndexedDeprecatedContractClass_location_in_file self) ;!
    ret tt;
  deserialize_from :=
    let! block_number := deserialize_from serde_BlockNumber in
    let! location_in_file := deserialize_from serde_LocationInFile in
    ret (mkIndexedDeprecatedContractClass block_number location_in_file)
|}.

Definition write_InvokeTransactionV0 (self : InvokeTransactionV0) : Ser unit :=
    serialize_into serde_Fee (InvokeTransactionV0_max_fee self) ;!
    serialize_into serde_TransactionSignature (InvokeTransactionV0_signature self) ;!
    serialize_into serde_PatriciaKey (InvokeTransactionV0_contract_address self) ;!
    serialize_into serde_EntryPointSelector (InvokeTransactionV0_entry_point_selector self) ;!
    serialize_into serde_Calldata (InvokeTransactionV0_calldata self) ;!
    ret tt.

Definition read_InvokeTransactionV0 : De InvokeTransactionV0 :=
    let! max_fee := deserialize_from serde_Fee in
    let! signature := deserialize_from serde_TransactionSignature in
    let! contract_address := deserialize_from serde_PatriciaKey in
    let! entry_point_selector := deserialize_from serde_EntryPointSelector in
    let! calldata := deserialize_from serde_Calldata in
    ret (mkInvokeTransactionV0 max_fee signature contract_address entry_point_selector calldata).

Definition serde_InvokeTransactionV0 : StorageSerde InvokeTransactionV0 := {|
  serialize_into := fun self => serialize_conditionally (write_InvokeTransactionV0 self);
  deserialize_from := deserialize_conditionally read_InvokeTransactionV0
|}.

Definition write_InvokeTransactionV1 (self : InvokeTransactionV1) : Ser unit :=
    serialize_into serde_Fee (InvokeTransactionV1_max_fee self) ;!
    serialize_into serde_TransactionSignature (InvokeTransactionV1_signature self) ;!
    serialize_into serde_Nonce (InvokeTransactionV1_nonce self) ;!
    serialize_into serde_PatriciaKey (InvokeTransactionV1_sender_address self) ;!
    serialize_into serde_Calldata (InvokeTransactionV1_calldata self) ;!
    ret tt.

Definition read_InvokeTransactionV1 : De InvokeTransactionV1 :=
    let! max_fee := deserialize_from serde_Fee in
    let! signature := deserialize_from serde_TransactionSignature in
    let! nonce := deserialize_from serde_Nonce in
    let! sender_address := deserialize_from serde_PatriciaKey in
    let! calldata := deserialize_from serde_Calldata in
    ret (mkInvokeTransactionV1 max_fee signature nonce sender_address calldata).

Definition serde_InvokeTransactionV1 : StorageSerde InvokeTransactionV1 := {|
  serialize_into := fun self => serialize_conditionally (write_InvokeTransactionV1 self);
  deserialize_from := deserialize_conditionally read_InvokeTransactionV1
|}.

Definition write_InvokeTransactionV3 (self : InvokeTransactionV3) : Ser unit :=
    serialize_into serde_ResourceBoundsMapping (InvokeTransactionV3_resource_bounds self) ;!
    serialize_into serde_Tip (InvokeTransactionV3_tip self) ;!
    serialize_into serde_TransactionSignature (InvokeTransactionV3_signature self) ;!
    serialize_into serde_Nonce (InvokeTransactionV3_nonce self) ;!
    serialize_into serde_PatriciaKey (InvokeTransactionV3_sender_address self) ;!
    serialize_into serde_Calldata (InvokeTransactionV3_calldata self) ;!
    serialize_into serde_DataAvailabilityMode (InvokeTransactionV3_nonce_data_availability_mode self) ;!
    serialize_into serde_DataAvailabilityMode (InvokeTransactionV3_fee_data_availability_mode self) ;!
    serialize_into serde_PaymasterData (InvokeTransactionV3_paymaster_data self) ;!
    serialize_into serde_AccountDeploymentData (InvokeTransactionV3_account_deployment_data self) ;!
    ret tt.

Definition read_InvokeTransactionV3 : De InvokeTransactionV3 :=
    let! resource_bounds := deserialize_from serde_ResourceBoundsMapping in
    let! tip := deserialize_from serde_Tip in
    let! signature := deserialize_from serde_TransactionSignature in
    let! nonce := deserialize_from serde_Nonce in
    let! sender_address := deserialize_from serde_PatriciaKey in
    let! calldata := deserialize_from serde_Calldata in
    let! nonce_data_availability_mode := deserialize_from serde_DataAvailabilityMode in
    let! fee_data_availability_mode := deserialize_from serde_DataAvailabilityMode in
    let! paymaster_data := deserialize_from serde_PaymasterData in
    let! account_deployment_data := deserialize_from serde_AccountDeploymentData in
    ret (mkInvokeTransactionV3 resource_bounds tip signature nonce sender_address calldata nonce_data_availability_mode fee_data_availability_mode paymaster_data account_deployment_data).

Definition serde_InvokeTransactionV3 : StorageSerde InvokeTransactionV3 := {|
  serialize_into := fun self => serialize_conditionally (write_InvokeTransactionV3 self);
  deserialize_from := deserialize_conditionally read_InvokeTransactionV3
|}.

Definition serde_InvokeTransaction : StorageSerde InvokeTransaction := {|
  serialize_into := fun self =>
    match self with
    | InvokeTransaction_V0 value => write_all [0] ;! serialize_into serde_InvokeTransactionV0 value ;! ret tt
    | InvokeTransaction_V1 value => write_all [1] ;! serialize_into serde_InvokeTransactionV1 value ;! ret tt
    | InvokeTransaction_V3 value => write_all [2] ;! serialize_into serde_InvokeTransactionV3 value ;! ret tt
    end;
  deserialize_from :=
    let! kind := read_exact 1 in
    match kind with
    | [0] => let! value := deserialize_from serde_InvokeTransactionV0 in ret (InvokeTransaction_V0 value)
    | [1] => let! value := deserialize_from serde_InvokeTransactionV1 in ret (InvokeTransaction_V1 value)
    | [2] => let! value := deserialize_from serde_InvokeTransactionV3 in ret (InvokeTransaction_V3 value)
    | _ => raise tt
    end
|}.

Definition serde_L1ToL2Payload : StorageSerde (list Z) := {|
  serialize_into := fun self => serialize_into (serde_vec serde_Felt) self;
  deserialize_from := let! x := deserialize_from (serde_vec serde_Felt) in ret x
|}.

Definition serde_L2ToL1Payload : StorageSerde (list Z) := {|
  serialize_into := fun self => serialize_into (serde_vec serde_Felt) self;
  deserialize_from := let! x := deserialize_from (serde_vec serde_Felt) in ret x
|}.

Definition serde_MarkerKind : StorageSerde MarkerKind := {|
  serialize_into := fun self =>
    match self with
    | MarkerKind_Header => write_all [0] ;! ret tt
    | MarkerKind_Body => write_all [1] ;! ret tt
    | MarkerKind_Event => write_all [2] ;! ret tt
    | MarkerKind_State => write_all [3] ;! ret tt
    | MarkerKind_Class => write_all [4] ;! ret tt
    | MarkerKind_CompiledClass => write_all [5] ;! ret tt
    | MarkerKind_BaseLayerBlock => write_all [6] ;! ret tt
    end;
  deserialize_from :=
    let! kind := read_exact 1 in
    match kind with
    | [0] => ret MarkerKind_Header
    | [1] => ret MarkerKind_Body
    | [2] => ret MarkerKind_Event
    | [3] => ret MarkerKind_State
    | [4] => ret MarkerKind_Class
    | [5] => ret MarkerKind_CompiledClass
    | [6] => ret MarkerKind_BaseLayerBlock
    | _ => raise tt
    end
|}.

Definition serde_MessageToL1 : StorageSerde MessageToL1 := {|
  serialize_into := fun self =>
    serialize_into serde_EthAddress (MessageToL1_to_address self) ;!
    serialize_into serde_L2ToL1Payload (MessageToL1_payload self) ;!
    serialize_into serde_PatriciaKey (MessageToL1_from_address self) ;!
    ret tt;
  deserialize_from :=
    let! to_address := deserialize_from serde_EthAddress in
    let! payload := deserialize_from serde_L2ToL1Payload in
    let! from_address := deserialize_from serde_PatriciaKey in
    ret (mkMessageToL1 to_address payload from_address)
|}.

Definition serde_MessageToL2 : StorageSerde MessageToL2 := {|
  serialize_into := fun self =>
    serialize_into serde_EthAddress (MessageToL2_from_address self) ;!
    serialize_into serde_L1ToL2Payload (MessageToL2_payload self) ;!
    ret tt;
  deserialize_from :=
    let! from_address := deserialize_from serde_EthAddress in
    let! payload := deserialize_from serde_L1ToL2Payload in
    ret (mkMessageToL2 from_address payload)
|}.

Definition serde_OffsetKind : StorageSerde OffsetKind := {|
  serialize_into := fun self =>
    match self with
    | OffsetKind_ThinStateDiff => write_all [0] ;! ret tt
    | OffsetKind_ContractClass => write_all [1] ;! ret tt
    | OffsetKind_Casm => write_all [2] ;! ret tt
    | OffsetKind_DeprecatedContractClass => write_all [3] ;! ret tt
    | OffsetKind_TransactionOutput => write_all [4] ;! ret tt
    | OffsetKind_Transaction => write_all [5] ;! ret tt
    end;
  deserialize_from :=
    let! kind := read_exact 1 in
    match kind with
    | [0] => ret OffsetKind_ThinStateDiff
    | [1] => ret OffsetKind_ContractClass
    | [2] => ret OffsetKind_Casm
    | [3] => ret OffsetKind_DeprecatedContractClass
    | [4] => ret OffsetKind_TransactionOutput
    | [5] => ret OffsetKind_Transaction
    | _ => raise tt
    end
|}.

Definition serde_Program : StorageSerde Program := {|
  serialize_into := fun self =>
    serialize_into serde_Json (Program_attributes self) ;!
    serialize_into serde_Json (Program_builtins self) ;!
    serialize_into serde_Json (Program_compiler_version self) ;!
    serialize_into serde_Json (Program_data self) ;!
    serialize_into serde_Json (Program_debug_info self) ;!
    serialize_into serde_Json (Program_hints self) ;!
    serialize_into serde_Json (Program_identifiers self) ;!
    serialize_into serde_Json (Program_main_scope self) ;!
    serialize_into serde_Json (Program_prime self) ;!
    serialize_into serde_Json (Program_reference_manager self) ;!
    ret tt;
  deserialize_from :=
    let! attributes := deserialize_from serde_Json in
    let! builtins := deserialize_from serde_Json in
    let! compiler_version := deserialize_from serde_Json in
    let! data := deserialize_from serde_Json in
    let! debug_info := deserialize_from serde_Json in
    let! hints := deserialize_from serde_Json in
    let! identifiers := deserialize_from serde_Json in
    let! main_scope := deserialize_from serde_Json in
    let! prime := deserialize_from serde_Json in
    let! reference_manager := deserialize_from serde_Json in
    ret (mkProgram attributes builtins compiler_version data debug_info hints identifiers main_scope prime reference_manager)
|}.

Definition serde_StarknetVersion : StorageSerde rstring := {|
  serialize_into := fun self => serialize_into serde_String self;
  deserialize_from := let! x := deserialize_from serde_String in ret x
|}.

Definition serde_TransactionHash : StorageSerde Z := {|
  serialize_into := fun self => serialize_into serde_Felt self;
  deserialize_from := let! x := deserialize_from serde_Felt in ret x
|}.

Definition serde_TransactionMetadata : StorageSerde TransactionMetadata := {|
  serialize_into := fun self =>
    serialize_into serde_TransactionHash (TransactionMetadata_tx_hash self) ;!
    serialize_into serde_LocationInFile (TransactionMetadata_tx_location self) ;!
    serialize_into serde_LocationInFile (TransactionMetadata_tx_output_location self) ;!
    ret tt;
  deserialize_from :=
    let! tx_hash := deserialize_from serde_TransactionHash in
    let! tx_location := deserialize_from serde_LocationInFile in
    let! tx_output_location := deserialize_from serde_LocationInFile in
    ret (mkTransactionMetadata tx_hash tx_location tx_output_location)
|}.

Definition serde_TransactionVersion : StorageSerde Z := {|
  serialize_into := fun self => serialize_into serde_Felt self;
  deserialize_from := let! x := deserialize_from serde_Felt in ret x
|}.

Definition write_DeployTransaction (self : DeployTransaction) : Ser unit :=
    serialize_into serde_TransactionVersion (DeployTransaction_version self) ;!
    serialize_into serde_ClassHash (DeployTransaction_class_hash self) ;!
    serialize_into serde_ContractAddressSalt (DeployTransaction_contract_address_salt self) ;!
    serialize_into serde_Calldata (DeployTransaction_constructor_calldata self) ;!
    ret tt.

Definition read_DeployTransaction : De DeployTransaction :=
    let! version := deserialize_from serde_TransactionVersion in
    let! class_hash := deserialize_from serde_ClassHash in
    let! contract_address_salt := deserialize_from serde_ContractAddressSalt in
    let! constructor_calldata := deserialize_from serde_Calldata in
    ret (mkDeployTransaction version class_hash contract_address_salt constructor_calldata).

Definition serde_DeployTransaction : StorageSerde DeployTransaction := {|
  serialize_into := fun self => serialize_conditionally (write_DeployTransaction self);
  deserialize_from := deserialize_conditionally read_DeployTransaction
|}.

Definition write_L1HandlerTransaction (self : L1HandlerTransaction) : Ser unit :=
    serialize_into serde_TransactionVersion (L1HandlerTransaction_version self) ;!
    serialize_into serde_Nonce (L1HandlerTransaction_nonce self) ;!
    serialize_into serde_PatriciaKey (L1HandlerTransaction_contract_address self) ;!
    serialize_into serde_EntryPointSelector (L1HandlerTransaction_entry_point_selector self) ;!
    serialize_into serde_Calldata (L1HandlerTransaction_calldata self) ;!
    ret tt.

Definition read_L1HandlerTransaction : De L1HandlerTransaction :=
    let! version := deserialize_from serde_TransactionVersion in
    let! nonce := deserialize_from serde_Nonce in
    let! contract_address := deserialize_from serde_PatriciaKey in
    let! entry_point_selector := deserialize_from serde_EntryPointSelector in
    let! calldata := deserialize_from serde_Calldata in
    ret (mkL1HandlerTransaction version nonce contract_address entry_point_selector calldata).

Definition serde_L1HandlerTransaction : StorageSerde L1HandlerTransaction := {|
  serialize_into := fun self => serialize_conditionally (write_L1HandlerTransaction self);
  deserialize_from := deserialize_conditionally read_L1HandlerTransaction
|}.

Definition serde_Transaction : StorageSerde Transaction := {|
  serialize_into := fun self =>
    match self with
    | Transaction_Declare value => write_all [0] ;! serialize_into serde_DeclareTransaction value ;! ret tt
    | Transaction_Deploy value => write_all [1] ;! serialize_into serde_DeployTransaction value ;! ret tt
    | Transaction_DeployAccount value => write_all [2] ;! serialize_into serde_DeployAccountTransaction value ;! ret tt
    | Transaction_Invoke value => write_all [3] ;! serialize_into serde_InvokeTransaction value ;! ret tt
    | Transaction_L1Handler value => write_all [4] ;! serialize_into serde_L1HandlerTransaction value ;! ret tt
    end;
  deserialize_from :=
    let! kind := read_exact 1 in
    match kind with
    | [0] => let! value := deserialize_from serde_DeclareTransaction in ret (Transaction_Declare value)
    | [1] => let! value := deserialize_from serde_DeployTransaction in ret (Transaction_Deploy value)
    | [2] => let! value := deserialize_from serde_DeployAccountTransaction in ret (Transaction_DeployAccount value)
    | [3] => let! value := deserialize_from serde_InvokeTransaction in ret (Transaction_Invoke value)
    | [4] => let! value := deserialize_from serde_L1HandlerTransaction in ret (Transaction_L1Handler value)
    | _ => raise tt
    end
|}.

Definition serde_RevertedTransactionExecutionStatus : StorageSerde RevertedTransactionExecutionStatus := {|
  serialize_into := fun self =>
    serialize_into serde_String (RevertedTransactionExecutionStatus_revert_reason self) ;!
    ret tt;
  deserialize_from :=
    let! revert_reason := deserialize_from serde_String in
    ret (mkRevertedTransactionExecutionStatus revert_reason)
|}.

Definition serde_TransactionExecutionStatus : StorageSerde TransactionExecutionStatus := {|
  serialize_into := fun self =>
    match self with
    | TransactionExecutionStatus_Succeeded => write_all [0] ;! ret tt
    | TransactionExecutionStatus_Reverted value => write_all [1] ;! serialize_into serde_RevertedTransactionExecutionStatus value ;! ret tt
    end;
  deserialize_from :=
    let! kind := read_exact 1 in
    match kind with
    | [0] => ret TransactionExecutionStatus_Succeeded
    | [1] => let! value := deserialize_from serde_RevertedTransactionExecutionStatus in ret (TransactionExecutionStatus_Reverted value)
    | _ => raise tt
    end
|}.

Definition serde_Builtin : StorageSerde Builtin := {|
  serialize_into := fun self =>
    match self with
    | Builtin_RangeCheck => write_all [0] ;! ret tt
    | Builtin_Pedersen => write_all [1] ;! ret tt
    | Builtin_Poseidon => write_all [2] ;! ret tt
    | Builtin_EcOp => write_all [3] ;! ret tt
    | Builtin_Ecdsa => write_all [4] ;! ret tt
    | Builtin_Bitwise => write_all [5] ;! ret tt
    | Builtin_Keccak => write_all [6] ;! ret tt
    | Builtin_SegmentArena => write_all [7] ;! ret tt
    | Builtin_AddMod => write_all [8] ;! ret tt
    | Builtin_MulMod => write_all [9] ;! ret tt
    | Builtin_RangeCheck96 => write_all [10] ;! ret tt
    end;
  deserialize_from :=
    let! kind := read_exact 1 in
    match kind with
    | [0] => ret Builtin_RangeCheck
    | [1] => ret Builtin_Pedersen
    | [2] => ret Builtin_Poseidon
    | [3] => ret Builtin_EcOp
    | [4] => ret Builtin_Ecdsa
    | [5] => ret Builtin_Bitwise
    | [6] => ret Builtin_Keccak
    | [7] => ret Builtin_SegmentArena
    | [8] => ret Builtin_AddMod
    | [9] => ret Builtin_MulMod
    | [10] => ret Builtin_RangeCheck96
    | _ => raise tt
    end
|}.

Definition serde_ExecutionResources : StorageSerde ExecutionResources := {|
  serialize_into := fun self =>
    serialize_into serde_u64 (ExecutionResources_steps self) ;!
    serialize_into (serde_hashmap serde_Builtin serde_u64) (ExecutionResources_builtin_instance_counter self) ;!
    serialize_into serde_u64 (ExecutionResources_memory_holes self) ;!
    serialize_into serde_GasVector (ExecutionResources_da_gas_consumed self) ;!
    serialize_into serde_GasVector (ExecutionResources_gas_consumed self) ;!
    ret tt;
  deserialize_from :=
    let! steps := deserialize_from serde_u64 in
    let! builtin_instance_counter := deserialize_from (serde_hashmap serde_Builtin serde_u64) in
    let! memory_holes := deserialize_from serde_u64 in
    let! da_gas_consumed := deserialize_from serde_GasVector in
    let! gas_consumed := deserialize_from serde_GasVector in
    ret (mkExecutionResources steps builtin_instance_counter memory_holes da_gas_consumed gas_consumed)
|}.

Definition write_DeclareTransactionOutput (self : DeclareTransactionOutput) : Ser unit :=
    serialize_into serde_Fee (DeclareTransactionOutput_actual_fee self) ;!
    serialize_into (serde_vec serde_MessageToL1) (DeclareTransactionOutput_messages_sent self) ;!
    serialize_into (serde_vec serde_Event) (DeclareTransactionOutput_events self) ;!
    serialize_into serde_TransactionExecutionStatus (DeclareTransactionOutput_execution_status self) ;!
    serialize_into serde_ExecutionResources (DeclareTransactionOutput_execution_resources self) ;!
    ret tt.

Definition read_DeclareTransactionOutput : De DeclareTransactionOutput :=
    let! actual_fee := deserialize_from serde_Fee in
    let! messages_sent := deserialize_from (serde_vec serde_MessageToL1) in
    let! events := deserialize_from (serde_vec serde_Event) in
    let! execution_status := deserialize_from serde_TransactionExecutionStatus in
    let! execution_resources := deserialize_from serde_ExecutionResources in
    ret (mkDeclareTransactionOutput actual_fee messages_sent events execution_status execution_resources).

Definition serde_DeclareTransactionOutput : StorageSerde DeclareTransactionOutput := {|
  serialize_into := fun self => serialize_conditionally (write_DeclareTransactionOutput self);
  deserialize_from := deserialize_conditionally read_DeclareTransactionOutput
|}.

Definition write_DeployAccountTransactionOutput (self : DeployAccountTransactionOutput) : Ser unit :=
    serialize_into serde_Fee (DeployAccountTransactionOutput_actual_fee self) ;!
    serialize_into (serde_vec serde_MessageToL1) (DeployAccountTransactionOutput_messages_sent self) ;!
    serialize_into (serde_vec serde_Event) (DeployAccountTransactionOutput_events self) ;!
    serialize_into serde_PatriciaKey (DeployAccountTransactionOutput_contract_address self) ;!
    serialize_into serde_TransactionExecutionStatus (DeployAccountTransactionOutput_execution_status self) ;!
    serialize_into serde_ExecutionResources (DeployAccountTransactionOutput_execution_resources self) ;!
    ret tt.

Definition read_DeployAccountTransactionOutput : De DeployAccountTransactionOutput :=
    let! actual_fee := deserialize_from serde_Fee in
    let! messages_sent := deserialize_from (serde_vec serde_MessageToL1) in
    let! events := deserialize_from (serde_vec serde_Event) in
    let! contract_address := deserialize_from serde_PatriciaKey in
    let! execution_status := deserialize_from serde_TransactionExecutionStatus in
    let! execution_resources := deserialize_from serde_ExecutionResources in
    ret (mkDeployAccountTransactionOutput actual_fee messages_sent events contract_address execution_status execution_resources).

Definition serde_DeployAccountTransactionOutput : StorageSerde DeployAccountTransactionOutput := {|
  serialize_into := fun self => serialize_conditionally (write_DeployAccountTransactionOutput self);
  deserialize_from := deserialize_conditionally read_DeployAccountTransactionOutput
|}.

Definition write_DeployTransactionOutput (self : DeployTransactionOutput) : Ser unit :=
    serialize_into serde_Fee (DeployTransactionOutput_actual_fee self) ;!
    serialize_into (serde_vec serde_MessageToL1) (DeployTransactionOutput_messages_sent self) ;!
    serialize_into (serde_vec serde_Event) (DeployTransactionOutput_events self) ;!
    serialize_into serde_PatriciaKey (DeployTransactionOutput_contract_address self) ;!
    serialize_into serde_TransactionExecutionStatus (DeployTransactionOutput_execution_status self) ;!
    serialize_into serde_ExecutionResources (DeployTransactionOutput_execution_resources self) ;!
    ret tt.

Definition read_DeployTransactionOutput : De DeployTransactionOutput :=
    let! actual_fee := deserialize_from serde_Fee in
    let! messages_sent := deserialize_from (serde_vec serde_MessageToL1) in
    let! events := deserialize_from (serde_vec serde_Event) in
    let! contract_address := deserialize_from serde_PatriciaKey in
    let! execution_status := deserialize_from serde_TransactionExecutionStatus in
    let! execution_resources := deserialize_from serde_ExecutionResources in
    ret (mkDeployTransactionOutput actual_fee messages_sent events contract_address execution_status execution_resources).

Definition serde_DeployTransactionOutput : StorageSerde DeployTransactionOutput := {|
  serialize_into := fun self => serialize_conditionally (write_DeployTransactionOutput self);
  deserialize_from := deserialize_conditionally read_DeployTransactionOutput
|}.

Definition write_InvokeTransactionOutput (self : InvokeTransactionOutput) : Ser unit :=
    serialize_into serde_Fee (InvokeTransactionOutput_actual_fee self) ;!
    serialize_into (serde_vec serde_MessageToL1) (InvokeTransactionOutput_messages_sent self) ;!
    serialize_into (serde_vec serde_Event) (InvokeTransactionOutput_events self) ;!
    serialize_into serde_TransactionExecutionStatus (InvokeTransactionOutput_execution_status self) ;!
    serialize_into serde_ExecutionResources (InvokeTransactionOutput_execution_resources self) ;!
    ret tt.

Definition read_InvokeTransactionOutput : De InvokeTransactionOutput :=
    let! actual_fee := deserialize_from serde_Fee in
    let! messages_sent := deserialize_from (serde_vec serde_MessageToL1) in
    let! events := deserialize_from (serde_vec serde_Event) in
    let! execution_status := deserialize_from serde_TransactionExecutionStatus in
    let! execution_resources := deserialize_from serde_ExecutionResources in
    ret (mkInvokeTransactionOutput actual_fee messages_sent events execution_status execution_resources).

Definition serde_InvokeTransactionOutput : StorageSerde InvokeTransactionOutput := {|
  serialize_into := fun self => serialize_conditionally (write_InvokeTransactionOutput self);
  deserialize_from := deserialize_conditionally read_InvokeTransactionOutput
|}.

Definition write_L1HandlerTransactionOutput (self : L1HandlerTransactionOutput) : Ser unit :=
    serialize_into serde_Fee (L1HandlerTransactionOutput_actual_fee self) ;!
    serialize_into (serde_vec serde_MessageToL1) (L1HandlerTransactionOutput_messages_sent self) ;!
    serialize_into (serde_vec serde_Event) (L1HandlerTransactionOutput_events self) ;!
    serialize_into serde_TransactionExecutionStatus (L1HandlerTransactionOutput_execution_status self) ;!
    serialize_into serde_ExecutionResources (L1HandlerTransactionOutput_execution_resources self) ;!
    ret tt.

Definition read_L1HandlerTransactionOutput : De L1HandlerTransactionOutput :=
    let! actual_fee := deserialize_from serde_Fee in
    let! messages_sent := deserialize_from (serde_vec serde_MessageToL1) in
    let! events := deserialize_from (serde_vec serde_Event) in
    let! execution_status := deserialize_from serde_TransactionExecutionStatus in
    let! execution_resources := deserialize_from serde_ExecutionResources in
    ret (mkL1HandlerTransactionOutput actual_fee messages_sent events execution_status execution_resources).

Definition serde_L1HandlerTransactionOutput : StorageSerde L1HandlerTransactionOutput := {|
  serialize_into := fun self => serialize_conditionally (write_L1HandlerTransactionOutput self);
  deserialize_from := deserialize_conditionally read_L1HandlerTransactionOutput
|}.

Definition serde_TransactionOutput : StorageSerde TransactionOutput := {|
  serialize_into := fun self =>
    match self with
    | TransactionOutput_Declare value => write_all [0] ;! serialize_into serde_DeclareTransactionOutput value ;! ret tt
    | TransactionOutput_Deploy value => write_all [1] ;! serialize_into serde_DeployTransactionOutput value ;! ret tt
    | TransactionOutput_DeployAccount value => write_all [2] ;! serialize_into serde_DeployAccountTransactionOutput value ;! ret tt
    | TransactionOutput_Invoke value => write_all [3] ;! serialize_into serde_InvokeTransactionOutput value ;! ret tt
    | TransactionOutput_L1Handler value => write_all [4] ;! serialize_into serde_L1HandlerTransactionOutput value ;! ret tt
    end;
  deserialize_from :=
    let! kind := read_exact 1 in
    match kind with
    | [0] => let! value := deserialize_from serde_DeclareTransactionOutput in ret (TransactionOutput_Declare value)
    | [1] => let! value := deserialize_from serde_DeployTransactionOutput in ret (TransactionOutput_Deploy value)
    | [2] => let! value := deserialize_from serde_DeployAccountTransactionOutput in ret (TransactionOutput_DeployAccount value)
    | [3] => let! value := deserialize_from serde_InvokeTransactionOutput in ret (TransactionOutput_Invoke value)
    | [4] => let! value := deserialize_from serde_L1HandlerTransactionOutput in ret (TransactionOutput_L1Handler value)
    | _ => raise tt
    end
|}.

Definition serde_Version : StorageSerde Version := {|
  serialize_into := fun self =>
    serialize_into serde_u32 (Version_major self) ;!
    serialize_into serde_u32 (Version_minor self) ;!
    ret tt;
  deserialize_from :=
    let! major := deserialize_from serde_u32 in
    let! minor := deserialize_from serde_u32 in
    ret (mkVersion major minor)
|}.

Definition serde_CasmContractEntryPoint : StorageSerde CasmContractEntryPoint := {|
  serialize_into := fun self =>
    serialize_into serde_BigUint (CasmContractEntryPoint_selector self) ;!
    serialize_into serde_usize (CasmContractEntryPoint_offset self) ;!
    serialize_into (serde_vec serde_String) (CasmContractEntryPoint_builtins self) ;!
    ret tt;
  deserialize_from :=
    let! selector := deserialize_from serde_BigUint in
    let! offset := deserialize_from serde_usize in
    let! builtins := deserialize_from (serde_vec serde_String) in
    ret (mkCasmContractEntryPoint selector offset builtins)
|}.

Definition serde_CasmContractEntryPoints : StorageSerde CasmContractEntryPoints := {|
  serialize_into := fun self =>
    serialize_into (serde_vec serde_CasmContractEntryPoint) (CasmContractEntryPoints_external self) ;!
    serialize_into (serde_vec serde_CasmContractEntryPoint) (CasmContractEntryPoints_l1_handler self) ;!
    serialize_into (serde_vec serde_CasmContractEntryPoint) (CasmContractEntryPoints_constructor self) ;!
    ret tt;
  deserialize_from :=
    let! external := deserialize_from (serde_vec serde_CasmContractEntryPoint) in
    let! l1_handler := deserialize_from (serde_vec serde_CasmContractEntryPoint) in
    let! constructor := deserialize_from (serde_vec serde_CasmContractEntryPoint) in
    ret (mkCasmContractEntryPoints external l1_handler constructor)
|}.

Definition serde_BigUintAsHex : StorageSerde BigUintAsHex := {|
  serialize_into := fun self =>
    serialize_into serde_BigUint (BigUintAsHex_value self) ;!
    ret tt;
  deserialize_from :=
    let! value := deserialize_from serde_BigUint in
    ret (mkBigUintAsHex value)
|}.

Definition serde_FunctionAbiEntry : StorageSerde FunctionAbiEntry := {|
  serialize_into := fun self =>
    serialize_into serde_String (FunctionAbiEntry_name self) ;!
    serialize_into (serde_vec serde_TypedParameter) (FunctionAbiEntry_inputs self) ;!
    serialize_into (serde_vec serde_TypedParameter) (FunctionAbiEntry_outputs self) ;!
    serialize_into (serde_option serde_FunctionStateMutability) (FunctionAbiEntry_state_mutability self) ;!
    ret tt;
  deserialize_from :=
    let! name := deserialize_from serde_String in
    let! inputs := deserialize_from (serde_vec serde_TypedParameter) in
    let! outputs := deserialize_from (serde_vec serde_TypedParameter) in
    let! state_mutability := deserialize_from (serde_option serde_FunctionStateMutability) in
    ret (mkFunctionAbiEntry name inputs outputs state_mutability)
|}.

Definition serde_ContractClassAbiEntry : StorageSerde ContractClassAbiEntry := {|
  serialize_into := fun self =>
    match self with
    | ContractClassAbiEntry_Event value => write_all [0] ;! serialize_into serde_EventAbiEntry value ;! ret tt
    | ContractClassAbiEntry_Function value => write_all [1] ;! serialize_into serde_FunctionAbiEntry value ;! ret tt
    | ContractClassAbiEntry_Constructor value => write_all [2] ;! serialize_into serde_FunctionAbiEntry value ;! ret tt
    | ContractClassAbiEntry_L1Handler value => write_all [3] ;! serialize_into serde_FunctionAbiEntry value ;! ret tt
    | ContractClassAbiEntry_Struct value => write_all [4] ;! serialize_into serde_StructAbiEntry value ;! ret tt
    end;
  deserialize_from :=
    let! kind := read_exact 1 in
    match kind with
    | [0] => let! value := deserialize_from serde_EventAbiEntry in ret (ContractClassAbiEntry_Event value)
    | [1] => let! value := deserialize_from serde_FunctionAbiEntry in ret (ContractClassAbiEntry_Function value)
    | [2] => let! value := deserialize_from serde_FunctionAbiEntry in ret (ContractClassAbiEntry_Constructor value)
    | [3] => let! value := deserialize_from serde_FunctionAbiEntry in ret (ContractClassAbiEntry_L1Handler value)
    | [4] => let! value := deserialize_from serde_StructAbiEntry in ret (ContractClassAbiEntry_Struct value)
    | _ => raise tt
    end
|}.

(** [NestedIntList]: a recursive enum. The reader recurses as deep as the bytes
    say; each level reads a byte, so the length of the input bounds the depth. *)
Fixpoint serialize_NestedIntList (self : NestedIntList) : Ser unit :=
  match self with
  | NestedIntList_Leaf value => write_all [0] ;! serialize_into serde_usize value ;! ret tt
  | NestedIntList_Node value =>
      write_all [1] ;!
      (write_all (write_varint (zlength value)) ;!
       (fix go l := match l with [] => ret tt | x :: l' => serialize_NestedIntList x ;! go l' end) value) ;!
      ret tt
  end.

Fixpoint deserialize_NestedIntList (fuel : nat) : De NestedIntList :=
  match fuel with
  | O => panic
  | S fuel' =>
      let! kind := read_exact 1 in
      match kind with
      | [0] => let! value := deserialize_from serde_usize in ret (NestedIntList_Leaf value)
      | [1] =>
          let! n := read_with read_varint in
          let! value := deserialize_n (deserialize_NestedIntList fuel') (Z.to_nat n) in
          ret (NestedIntList_Node value)
      | _ => raise tt
      end
  end.

Definition serde_NestedIntList : StorageSerde NestedIntList := {|
  serialize_into := serialize_NestedIntList;
  deserialize_from := fun bs => deserialize_NestedIntList (S (length bs)) bs
|}.

Definition write_CasmContractClass (self : CasmContractClass) : Ser unit :=
    serialize_into serde_BigUint (CasmContractClass_prime self) ;!
    serialize_into serde_String (CasmContractClass_compiler_version self) ;!
    serialize_into (serde_vec serde_BigUintAsHex) (CasmContractClass_bytecode self) ;!
    serialize_into (serde_option serde_NestedIntList) (CasmContractClass_bytecode_segment_lengths self) ;!
    serialize_into (serde_vec (serde_pair serde_usize (serde_vec serde_Hint))) (CasmContractClass_hints self) ;!
    serialize_into (serde_option (serde_vec (serde_pair serde_usize (serde_vec serde_String)))) (CasmContractClass_pythonic_hints self) ;!
    serialize_into serde_CasmContractEntryPoints (CasmContractClass_entry_points_by_type self) ;!
    ret tt.

Definition read_CasmContractClass : De CasmContractClass :=
    let! prime := deserialize_from serde_BigUint in
    let! compiler_version := deserialize_from serde_String in
    let! bytecode := deserialize_from (serde_vec serde_BigUintAsHex) in
    let! bytecode_segment_lengths := deserialize_from (serde_option serde_NestedIntList) in
    let! hints := deserialize_from (serde_vec (serde_pair serde_usize (serde_vec serde_Hint))) in
    let! pythonic_hints := deserialize_from (serde_option (serde_vec (serde_pair serde_usize (serde_vec serde_String)))) in
    let! entry_points_by_type := deserialize_from serde_CasmContractEntryPoints in
    ret (mkCasmContractClass prime compiler_version bytecode bytecode_segment_lengths hints pythonic_hints entry_points_by_type).

Definition serde_CasmContractClass : StorageSerde CasmContractClass := {|
  serialize_into := fun self => serialize_compressed (write_CasmContractClass self);
  deserialize_from := deserialize_compressed read_CasmContractClass
|}.

Definition write_ThinStateDiff (self : ThinStateDiff) : Ser unit :=
    serialize_into (serde_indexmap serde_PatriciaKey serde_ClassHash) (ThinStateDiff_deployed_contracts self) ;!
    serialize_into (serde_indexmap serde_PatriciaKey (serde_indexmap serde_PatriciaKey serde_Felt)) (ThinStateDiff_storage_diffs self) ;!
    serialize_into (serde_indexmap serde_ClassHash serde_CompiledClassHash) (ThinStateDiff_declared_classes self) ;!
    serialize_into (serde_vec serde_ClassHash) (ThinStateDiff_deprecated_declared_classes self) ;!
    serialize_into (serde_indexmap serde_PatriciaKey serde_Nonce) (ThinStateDiff_nonces self) ;!
    serialize_into (serde_indexmap serde_PatriciaKey serde_ClassHash) (ThinStateDiff_replaced_classes self) ;!
    ret tt.

Definition read_ThinStateDiff : De ThinStateDiff :=
    let! deployed_contracts := deserialize_from (serde_indexmap serde_PatriciaKey serde_ClassHash) in
    let! storage_diffs := deserialize_from (serde_indexmap serde_PatriciaKey (serde_indexmap serde_PatriciaKey serde_Felt)) in
    let! declared_classes := deserialize_from (serde_indexmap serde_ClassHash serde_CompiledClassHash) in
    let! deprecated_declared_classes := deserialize_from (serde_vec serde_ClassHash) in
    let! nonces := deserialize_from (serde_indexmap serde_PatriciaKey serde_Nonce) in
    let! replaced_classes := deserialize_from (serde_indexmap serde_PatriciaKey serde_ClassHash) in
    ret (mkThinStateDiff deployed_contracts storage_diffs declared_classes deprecated_declared_classes nonces replaced_classes).

Definition serde_ThinStateDiff : StorageSerde ThinStateDiff := {|
  serialize_into := fun self => serialize_compressed (write_ThinStateDiff self);
  deserialize_from := deserialize_compressed read_ThinStateDiff
|}.

(** The classes: the program and the ABI are compressed, the entry points are not. *)
Definition serde_ContractClass : StorageSerde ContractClass := {|
  serialize_into := fun self =>
    let! b := serialize_and_compress (serde_vec serde_Felt) (ContractClass_sierra_program self) in
    serialize_into serde_bytes b ;!
    serialize_into (serde_hashmap serde_EntryPointType (serde_vec serde_EntryPoint))
      (ContractClass_entry_points_by_type self) ;!
    let! b := serialize_and_compress serde_String (ContractClass_abi self) in
    serialize_into serde_bytes b ;!
    ret tt;
  deserialize_from :=
    let! data := decompress_from_reader in
    let! sierra_program := from_slice (deserialize_from (serde_vec serde_Felt)) data in
    let! entry_points_by_type :=
      deserialize_from (serde_hashmap serde_EntryPointType (serde_vec serde_EntryPoint)) in
    let! data := decompress_from_reader in
    let! abi := from_slice (deserialize_from serde_String) data in
    ret (mkContractClass sierra_program entry_points_by_type abi)
|}.

Definition write_DeprecatedContractClass (self : DeprecatedContractClass) : Ser unit :=
    serialize_into (serde_option (serde_vec serde_ContractClassAbiEntry)) (DeprecatedContractClass_abi self) ;!
    serialize_into serde_Program (DeprecatedContractClass_program self) ;!
    ret tt.

Definition serde_DeprecatedContractClass : StorageSerde DeprecatedContractClass := {|
  serialize_into := fun self =>
    let! to_compress := to_vec (write_DeprecatedContractClass self) in
    let! compressed := compress to_compress in
    serialize_into serde_bytes compressed ;!
    serialize_into (serde_hashmap serde_DeprecatedEntryPointType (serde_vec serde_DeprecatedEntryPoint))
      (DeprecatedContractClass_entry_points_by_type self) ;!
    ret tt;
  deserialize_from :=
    let! compressed_data := deserialize_from serde_bytes in
    let! data := expect (decompress compressed_data) in
    let! abi_program := from_slice
      (let! abi := deserialize_from (serde_option (serde_vec serde_ContractClassAbiEntry)) in
       let! program := deserialize_from serde_Program in
       ret (abi, program)) data in
    let! entry_points_by_type :=
      deserialize_from (serde_hashmap serde_DeprecatedEntryPointType (serde_vec serde_DeprecatedEntryPoint)) in
    ret (mkDeprecatedContractClass abi_program.1 abi_program.2 entry_points_by_type)
|}.
End Types.
