(* ===== verification/SerdeTypesLaws.v ===== *)
(** * Round trips of the stored types

    Every type the storage writes reads back: for each serializer of
    [SerdeTypes.v] the values it can hold ([ok_*]: integers within their width,
    field elements, valid strings, lengths below [2^64], and a serialized size
    that can be decompressed again) and the proof that it is lawful on them. *)

From stdpp Require Import base gmap list strings fin_maps.
From Stdlib Require Import ZArith Lia.
From S2P Require Import Prelude StorageTables StarknetTypes Serde SerdeLaws SerdeTypes.

Ltac field law H := eapply (coded_field _ _ _ _ _ _ law); [exact H|].
Ltac tag := apply coded_tag; [done|].

Section Laws.
Context {X : ExternalTypes} {C : SerdeCrates} {HM : HashMapIter} {CS : SerdeCratesSpec}.

Definition ok_H160 : (list Z) -> Prop := (ok_array ok_u8 20).

Lemma lawful_H160 : lawful serde_H160 ok_H160.
Proof. intros x Hx. by apply (coded_last _ _ _ _ _ (lawful_array _ _ lawful_u8 20)). Qed.

Definition ok_AccountDeploymentData : (list Z) -> Prop := (ok_vec ok_Felt).

Lemma lawful_AccountDeploymentData : lawful serde_AccountDeploymentData ok_AccountDeploymentData.
Proof. intros x Hx. by apply (coded_last _ _ _ _ _ (lawful_vec _ _ lawful_Felt)). Qed.

Definition ok_BlockHash : Z -> Prop := ok_Felt.

Lemma lawful_BlockHash : lawful serde_BlockHash ok_BlockHash.
Proof. intros x Hx. by apply (coded_last _ _ _ _ _ lawful_Felt). Qed.

Definition ok_BlockTimestamp : Z -> Prop := ok_u64.

Lemma lawful_BlockTimestamp : lawful serde_BlockTimestamp ok_BlockTimestamp.
Proof. intros x Hx. by apply (coded_last _ _ _ _ _ lawful_u64). Qed.

Definition ok_EventCommitment : Z -> Prop := ok_Felt.

Lemma lawful_EventCommitment : lawful serde_EventCommitment ok_EventCommitment.
Proof. intros x Hx. by apply (coded_last _ _ _ _ _ lawful_Felt). Qed.

Definition ok_GasPrice : Z -> Prop := ok_u128.

Lemma lawful_GasPrice : lawful serde_GasPrice ok_GasPrice.
Proof. intros x Hx. by apply (coded_last _ _ _ _ _ lawful_u128). Qed.

Definition ok_GasPricePerToken (x : GasPricePerToken) : Prop :=
  ok_GasPrice (GasPricePerToken_price_in_fri x) /\
  ok_GasPrice (GasPricePerToken_price_in_wei x).

Lemma lawful_GasPricePerToken : lawful serde_GasPricePerToken ok_GasPricePerToken.
Proof.
  intros [] (H1 & H2). 
  field lawful_GasPrice H1.
  field lawful_GasPrice H2.
  apply coded_end.
Qed.

Definition ok_GlobalRoot : Z -> Prop := ok_Felt.

Lemma lawful_GlobalRoot : lawful serde_GlobalRoot ok_GlobalRoot.
Proof. intros x Hx. by apply (coded_last _ _ _ _ _ lawful_Felt). Qed.

Definition ok_L1DataAvailabilityMode (x : L1DataAvailabilityMode) : Prop := True.

Lemma lawful_L1DataAvailabilityMode : lawful serde_L1DataAvailabilityMode ok_L1DataAvailabilityMode.
Proof.
  intros [ | ] Hx.
  - tag. apply coded_end.
  - tag. apply coded_end.
Qed.

Definition ok_ReceiptCommitment : Z -> Prop := ok_Felt.

Lemma lawful_ReceiptCommitment : lawful serde_ReceiptCommitment ok_ReceiptCommitment.
Proof. intros x Hx. by apply (coded_last _ _ _ _ _ lawful_Felt). Qed.

Definition ok_SequencerContractAddress : Z -> Prop := ok_PatriciaKey.

Lemma lawful_SequencerContractAddress : lawful serde_SequencerContractAddress ok_SequencerContractAddress.
Proof. intros x Hx. by apply (coded_last _ _ _ _ _ lawful_PatriciaKey). Qed.

Definition ok_PoseidonHash : Z -> Prop := ok_Felt.

Lemma lawful_PoseidonHash : lawful serde_PoseidonHash ok_PoseidonHash.
Proof. intros x Hx. by apply (coded_last _ _ _ _ _ lawful_Felt). Qed.

Definition ok_StateDiffCommitment : Z -> Prop := ok_PoseidonHash.

Lemma lawful_StateDiffCommitment : lawful serde_StateDiffCommitment ok_StateDiffCommitment.
Proof. intros x Hx. by apply (coded_last _ _ _ _ _ lawful_PoseidonHash). Qed.

Definition ok_TransactionCommitment : Z -> Prop := ok_Felt.

Lemma lawful_TransactionCommitment : lawful serde_TransactionCommitment ok_TransactionCommitment.
Proof. intros x Hx. by apply (coded_last _ _ _ _ _ lawful_Felt). Qed.

Definition ok_StorageBlockHeader (x : StorageBlockHeader) : Prop :=
  ok_BlockHash (StorageBlockHeader_block_hash x) /\
  ok_BlockHash (StorageBlockHeader_parent_hash x) /\
  ok_BlockNumber (StorageBlockHeader_block_number x) /\
  ok_GasPricePerToken (StorageBlockHeader_l1_gas_price x) /\
  ok_GasPricePerToken (StorageBlockHeader_l1_data_gas_price x) /\
  ok_GlobalRoot (StorageBlockHeader_state_root x) /\
  ok_SequencerContractAddress (StorageBlockHeader_sequencer x) /\
  ok_BlockTimestamp (StorageBlockHeader_timestamp x) /\
  ok_L1DataAvailabilityMode (StorageBlockHeader_l1_da_mode x) /\
  (ok_option ok_StateDiffCommitment) (StorageBlockHeader_state_diff_commitment x) /\
  (ok_option ok_TransactionCommitment) (StorageBlockHeader_transaction_commitment x) /\
  (ok_option ok_EventCommitment) (StorageBlockHeader_event_commitment x) /\
  (ok_option ok_ReceiptCommitment) (StorageBlockHeader_receipt_commitment x) /\
  (ok_option ok_usize) (StorageBlockHeader_state_diff_length x) /\
  ok_usize (StorageBlockHeader_n_transactions x) /\
  ok_usize (StorageBlockHeader_n_events x).

Lemma lawful_StorageBlockHeader : lawful serde_StorageBlockHeader ok_StorageBlockHeader.
Proof.
  intros [] (H1 & H2 & H3 & H4 & H5 & H6 & H7 & H8 & H9 & H10 & H11 & H12 & H13 & H14 & H15 & H16). 
  field lawful_BlockHash H1.
  field lawful_BlockHash H2.
  field lawful_BlockNumber H3.
  field lawful_GasPricePerToken H4.
  field lawful_GasPricePerToken H5.
  field lawful_GlobalRoot H6.
  field lawful_SequencerContractAddress H7.
  field lawful_BlockTimestamp H8.
  field lawful_L1DataAvailabilityMode H9.
  field (lawful_option _ _ lawful_StateDiffCommitment) H10.
  field (lawful_option _ _ lawful_TransactionCommitment) H11.
  field (lawful_option _ _ lawful_EventCommitment) H12.
  field (lawful_option _ _ lawful_ReceiptCommitment) H13.
  field (lawful_option _ _ lawful_usize) H14.
  field lawful_usize H15.
  field lawful_usize H16.
  apply coded_end.
Qed.

Definition ok_Signature (x : Signature) : Prop :=
  ok_Felt (Signature_r x) /\
  ok_Felt (Signature_s x).

Lemma lawful_Signature : lawful serde_Signature ok_Signature.
Proof.
  intros [] (H1 & H2). 
  field lawful_Felt H1.
  field lawful_Felt H2.
  apply coded_end.
Qed.

Definition ok_BlockSignature : Signature -> Prop := ok_Signature.

Lemma lawful_BlockSignature : lawful serde_BlockSignature ok_BlockSignature.
Proof. intros x Hx. by apply (coded_last _ _ _ _ _ lawful_Signature). Qed.

Definition ok_BlockStatus (x : BlockStatus) : Prop := True.

Lemma lawful_BlockStatus : lawful serde_BlockStatus ok_BlockStatus.
Proof.
  intros [ |  |  | ] Hx.
  - tag. apply coded_end.
  - tag. apply coded_end.
  - tag. apply coded_end.
  - tag. apply coded_end.
Qed.

Definition ok_Calldata : (list Z) -> Prop := (ok_vec ok_Felt).

Lemma lawful_Calldata : lawful serde_Calldata ok_Calldata.
Proof. intros x Hx. by apply (coded_last _ _ _ _ _ (lawful_vec _ _ lawful_Felt)). Qed.

Definition ok_CompiledClassHash : Z -> Prop := ok_Felt.

Lemma lawful_CompiledClassHash : lawful serde_CompiledClassHash ok_CompiledClassHash.
Proof. intros x Hx. by apply (coded_last _ _ _ _ _ lawful_Felt). Qed.

Definition ok_ClassHash : Z -> Prop := ok_Felt.

Lemma lawful_ClassHash : lawful serde_ClassHash ok_ClassHash.
Proof. intros x Hx. by apply (coded_last _ _ _ _ _ lawful_Felt). Qed.

Definition ok_ContractAddressSalt : Z -> Prop := ok_Felt.

Lemma lawful_ContractAddressSalt : lawful serde_ContractAddressSalt ok_ContractAddressSalt.
Proof. intros x Hx. by apply (coded_last _ _ _ _ _ lawful_Felt). Qed.

Definition ok_EventType (x : EventType) : Prop := True.

Lemma lawful_EventType : lawful serde_EventType ok_EventType.
Proof.
  intros [] Hx.
  - tag. apply coded_end.
Qed.

Definition ok_TypedParameter (x : TypedParameter) : Prop :=
  ok_String (TypedParameter_name x) /\
  ok_String (TypedParameter_type x).

Lemma lawful_TypedParameter : lawful serde_TypedParameter ok_TypedParameter.
Proof.
  intros [] (H1 & H2). 
  field lawful_String H1.
  field lawful_String H2.
  apply coded_end.
Qed.

Definition ok_EventAbiEntry (x : EventAbiEntry) : Prop :=
  (ok_vec ok_TypedParameter) (EventAbiEntry_data x) /\
  (ok_vec ok_TypedParameter) (EventAbiEntry_keys x) /\
  ok_String (EventAbiEntry_name x) /\
  ok_EventType (EventAbiEntry_type x).

Lemma lawful_EventAbiEntry : lawful serde_EventAbiEntry ok_EventAbiEntry.
Proof.
  intros [] (H1 & H2 & H3 & H4). 
  field (lawful_vec _ _ lawful_TypedParameter) H1.
  field (lawful_vec _ _ lawful_TypedParameter) H2.
  field lawful_String H3.
  field lawful_EventType H4.
  apply coded_end.
Qed.

Definition ok_StructMember (x : StructMember) : Prop :=
  ok_String (StructMember_name x) /\
  ok_usize (StructMember_offset x) /\
  ok_String (StructMember_type x).

Lemma lawful_StructMember : lawful serde_StructMember ok_StructMember.
Proof.
  intros [] (H1 & H2 & H3). 
  field lawful_String H1.
  field lawful_usize H2.
  field lawful_String H3.
  apply coded_end.
Qed.

Definition ok_StructType (x : StructType) : Prop := True.

Lemma lawful_StructType : lawful serde_StructType ok_StructType.
Proof.
  intros [] Hx.
  - tag. apply coded_end.
Qed.

Definition ok_StructAbiEntry (x : StructAbiEntry) : Prop :=
  (ok_vec ok_StructMember) (StructAbiEntry_members x) /\
  ok_String (StructAbiEntry_name x) /\
  ok_usize (StructAbiEntry_size x) /\
  ok_StructType (StructAbiEntry_type x).

Lemma lawful_StructAbiEntry : lawful serde_StructAbiEntry ok_StructAbiEntry.
Proof.
  intros [] (H1 & H2 & H3 & H4). 
  field (lawful_vec _ _ lawful_StructMember) H1.
  field lawful_String H2.
  field lawful_usize H3.
  field lawful_StructType H4.
  apply coded_end.
Qed.

Definition ok_DataAvailabilityMode (x : DataAvailabilityMode) : Prop := True.

Lemma lawful_DataAvailabilityMode : lawful serde_DataAvailabilityMode ok_DataAvailabilityMode.
Proof.
  intros [ | ] Hx.
  - tag. apply coded_end.
  - tag. apply coded_end.
Qed.

Definition ok_Fee : Z -> Prop := ok_u128.

Lemma lawful_Fee : lawful serde_Fee ok_Fee.
Proof. intros x Hx. by apply (coded_last _ _ _ _ _ lawful_u128). Qed.

Definition ok_Nonce : Z -> Prop := ok_Felt.

Lemma lawful_Nonce : lawful serde_Nonce ok_Nonce.
Proof. intros x Hx. by apply (coded_last _ _ _ _ _ lawful_Felt). Qed.

Definition ok_TransactionSignature : (list Z) -> Prop := (ok_vec ok_Felt).

Lemma lawful_TransactionSignature : lawful serde_TransactionSignature ok_TransactionSignature.
Proof. intros x Hx. by apply (coded_last _ _ _ _ _ (lawful_vec _ _ lawful_Felt)). Qed.

Definition ok_DeclareTransactionV0V1 (x : DeclareTransactionV0V1) : Prop :=
  ok_Fee (DeclareTransactionV0V1_max_fee x) /\
  ok_TransactionSignature (DeclareTransactionV0V1_signature x) /\
  ok_Nonce (DeclareTransactionV0V1_nonce x) /\
  ok_ClassHash (DeclareTransactionV0V1_class_hash x) /\
  ok_PatriciaKey (DeclareTransactionV0V1_sender_address x).

Lemma lawful_DeclareTransactionV0V1 : lawful serde_DeclareTransactionV0V1 ok_DeclareTransactionV0V1.
Proof.
  intros [] (H1 & H2 & H3 & H4 & H5). 
  field lawful_Fee H1.
  field lawful_TransactionSignature H2.
  field lawful_Nonce H3.
  field lawful_ClassHash H4.
  field lawful_PatriciaKey H5.
  apply coded_end.
Qed.

Definition ok_DeclareTransactionV2 (x : DeclareTransactionV2) : Prop :=
  ok_Fee (DeclareTransactionV2_max_fee x) /\
  ok_TransactionSignature (DeclareTransactionV2_signature x) /\
  ok_Nonce (DeclareTransactionV2_nonce x) /\
  ok_ClassHash (DeclareTransactionV2_class_hash x) /\
  ok_CompiledClassHash (DeclareTransactionV2_compiled_class_hash x) /\
  ok_PatriciaKey (DeclareTransactionV2_sender_address x).

Lemma lawful_DeclareTransactionV2 : lawful serde_DeclareTransactionV2 ok_DeclareTransactionV2.
Proof.
  intros [] (H1 & H2 & H3 & H4 & H5 & H6). 
  field lawful_Fee H1.
  field lawful_TransactionSignature H2.
  field lawful_Nonce H3.
  field lawful_ClassHash H4.
  field lawful_CompiledClassHash H5.
  field lawful_PatriciaKey H6.
  apply coded_end.
Qed.

Definition ok_PaymasterData : (list Z) -> Prop := (ok_vec ok_Felt).

Lemma lawful_PaymasterData : lawful serde_PaymasterData ok_PaymasterData.
Proof. intros x Hx. by apply (coded_last _ _ _ _ _ (lawful_vec _ _ lawful_Felt)). Qed.

Definition ok_Resource (x : Resource) : Prop := True.

Lemma lawful_Resource : lawful serde_Resource ok_Resource.
Proof.
  intros [ | ] Hx.
  - tag. apply coded_end.
  - tag. apply coded_end.
Qed.

Definition ok_ResourceBounds (x : ResourceBounds) : Prop :=
  ok_u64 (ResourceBounds_max_amount x) /\
  ok_u128 (ResourceBounds_max_price_per_unit x).

Lemma lawful_ResourceBounds : lawful serde_ResourceBounds ok_ResourceBounds.
Proof.
  intros [] (H1 & H2). 
  field lawful_u64 H1.
  field lawful_u128 H2.
  apply coded_end.
Qed.

Definition ok_ResourceBoundsMapping : (gmap Resource ResourceBounds) -> Prop := (ok_map ok_Resource ok_ResourceBounds).

Lemma lawful_ResourceBoundsMapping : lawful serde_ResourceBoundsMapping ok_ResourceBoundsMapping.
Proof. intros x Hx. by apply (coded_last _ _ _ _ _ (lawful_btreemap _ _ _ _ lawful_Resource lawful_ResourceBounds)). Qed.

Definition ok_Tip : Z -> Prop := ok_u64.

Lemma lawful_Tip : lawful serde_Tip ok_Tip.
Proof. intros x Hx. by apply (coded_last _ _ _ _ _ lawful_u64). Qed.

Definition ok_DeclareTransactionV3 (x : DeclareTransactionV3) : Prop :=
  ok_ResourceBoundsMapping (DeclareTransactionV3_resource_bounds x) /\
  ok_Tip (DeclareTransactionV3_tip x) /\
  ok_TransactionSignature (DeclareTransactionV3_signature x) /\
  ok_Nonce (DeclareTransactionV3_nonce x) /\
  ok_ClassHash (DeclareTransactionV3_class_hash x) /\
  ok_CompiledClassHash (DeclareTransactionV3_compiled_class_hash x) /\
  ok_PatriciaKey (DeclareTransactionV3_sender_address x) /\
  ok_DataAvailabilityMode (DeclareTransactionV3_nonce_data_availability_mode x) /\
  ok_DataAvailabilityMode (DeclareTransactionV3_fee_data_availability_mode x) /\
  ok_PaymasterData (DeclareTransactionV3_paymaster_data x) /\
  ok_AccountDeploymentData (DeclareTransactionV3_account_deployment_data x).

Lemma lawful_DeclareTransactionV3 : lawful serde_DeclareTransactionV3 ok_DeclareTransactionV3.
Proof.
  intros [] (H1 & H2 & H3 & H4 & H5 & H6 & H7 & H8 & H9 & H10 & H11). 
  field lawful_ResourceBoundsMapping H1.
  field lawful_Tip H2.
  field lawful_TransactionSignature H3.
  field lawful_Nonce H4.
  field lawful_ClassHash H5.
  field lawful_CompiledClassHash H6.
  field lawful_PatriciaKey H7.
  field lawful_DataAvailabilityMode H8.
  field lawful_DataAvailabilityMode H9.
  field lawful_PaymasterData H10.
  field lawful_AccountDeploymentData H11.
  apply coded_end.
Qed.

Definition ok_DeclareTransaction (x : DeclareTransaction) : Prop :=
  match x with
  | DeclareTransaction_V0 value => ok_DeclareTransactionV0V1 value
  | DeclareTransaction_V1 value => ok_DeclareTransactionV0V1 value
  | DeclareTransaction_V2 value => ok_DeclareTransactionV2 value
  | DeclareTransaction_V3 value => ok_DeclareTransactionV3 value
  end.

Lemma lawful_DeclareTransaction : lawful serde_DeclareTransaction ok_DeclareTransaction.
Proof.
  intros [value | value | value | value] Hx.
  - tag. field lawful_DeclareTransactionV0V1 Hx. apply coded_end.
  - tag. field lawful_DeclareTransactionV0V1 Hx. apply coded_end.
  - tag. field lawful_DeclareTransactionV2 Hx. apply coded_end.
  - tag. field lawful_DeclareTransactionV3 Hx. apply coded_end.
Qed.

Definition ok_DeployAccountTransactionV1 (x : DeployAccountTransactionV1) : Prop :=
  ok_Fee (DeployAccountTransactionV1_max_fee x) /\
  ok_TransactionSignature (DeployAccountTransactionV1_signature x) /\
  ok_Nonce (DeployAccountTransactionV1_nonce x) /\
  ok_ClassHash (DeployAccountTransactionV1_class_hash x) /\
  ok_ContractAddressSalt (DeployAccountTransactionV1_contract_address_salt x) /\
  ok_Calldata (DeployAccountTransactionV1_constructor_calldata x) /\
  small (write_DeployAccountTransactionV1 x).

Lemma lawful_DeployAccountTransactionV1 : lawful serde_DeployAccountTransactionV1 ok_DeployAccountTransactionV1.
Proof.
  intros [] (H1 & H2 & H3 & H4 & H5 & H6 & Hs). apply coded_conditionally; [|exact Hs].
  field lawful_Fee H1.
  field lawful_TransactionSignature H2.
  field lawful_Nonce H3.
  field lawful_ClassHash H4.
  field lawful_ContractAddressSalt H5.
  field lawful_Calldata H6.
  apply coded_end.
Qed.

Definition ok_DeployAccountTransactionV3 (x : DeployAccountTransactionV3) : Prop :=
  ok_ResourceBoundsMapping (DeployAccountTransactionV3_resource_bounds x) /\
  ok_Tip (DeployAccountTransactionV3_tip x) /\
  ok_TransactionSignature (DeployAccountTransactionV3_signature x) /\
  ok_Nonce (DeployAccountTransactionV3_nonce x) /\
  ok_ClassHash (DeployAccountTransactionV3_class_hash x) /\
  ok_ContractAddressSalt (DeployAccountTransactionV3_contract_address_salt x) /\
  ok_Calldata (DeployAccountTransactionV3_constructor_calldata x) /\
  ok_DataAvailabilityMode (DeployAccountTransactionV3_nonce_data_availability_mode x) /\
  ok_DataAvailabilityMode (DeployAccountTransactionV3_fee_data_availability_mode x) /\
  ok_PaymasterData (DeployAccountTransactionV3_paymaster_data x) /\
  small (write_DeployAccountTransactionV3 x).

Lemma lawful_DeployAccountTransactionV3 : lawful serde_DeployAccountTransactionV3 ok_DeployAccountTransactionV3.
Proof.
  intros [] (H1 & H2 & H3 & H4 & H5 & H6 & H7 & H8 & H9 & H10 & Hs). apply coded_conditionally; [|exact Hs].
  field lawful_ResourceBoundsMapping H1.
  field lawful_Tip H2.
  field lawful_TransactionSignature H3.
  field lawful_Nonce H4.
  field lawful_ClassHash H5.
  field lawful_ContractAddressSalt H6.
  field lawful_Calldata H7.
  field lawful_DataAvailabilityMode H8.
  field lawful_DataAvailabilityMode H9.
  field lawful_PaymasterData H10.
  apply coded_end.
Qed.

Definition ok_DeployAccountTransaction (x : DeployAccountTransaction) : Prop :=
  match x with
  | DeployAccountTransaction_V1 value => ok_DeployAccountTransactionV1 value
  | DeployAccountTransaction_V3 value => ok_DeployAccountTransactionV3 value
  end.

Lemma lawful_DeployAccountTransaction : lawful serde_DeployAccountTransaction ok_DeployAccountTransaction.
Proof.
  intros [value | value] Hx.
  - tag. field lawful_DeployAccountTransactionV1 Hx. apply coded_end.
  - tag. field lawful_DeployAccountTransactionV3 Hx. apply coded_end.
Qed.

Definition ok_EntryPointOffset : Z -> Prop := ok_usize.

Lemma lawful_EntryPointOffset : lawful serde_EntryPointOffset ok_EntryPointOffset.
Proof. intros x Hx. by apply (coded_last _ _ _ _ _ lawful_usize). Qed.

Definition ok_EntryPointSelector : Z -> Prop := ok_Felt.

Lemma lawful_EntryPointSelector : lawful serde_EntryPointSelector ok_EntryPointSelector.
Proof. intros x Hx. by apply (coded_last _ _ _ _ _ lawful_Felt). Qed.

Definition ok_DeprecatedEntryPoint (x : DeprecatedEntryPoint) : Prop :=
  ok_EntryPointSelector (DeprecatedEntryPoint_selector x) /\
  ok_EntryPointOffset (DeprecatedEntryPoint_offset x).

Lemma lawful_DeprecatedEntryPoint : lawful serde_DeprecatedEntryPoint ok_DeprecatedEntryPoint.
Proof.
  intros [] (H1 & H2). 
  field lawful_EntryPointSelector H1.
  field lawful_EntryPointOffset H2.
  apply coded_end.
Qed.

Definition ok_DeprecatedEntryPointType (x : DeprecatedEntryPointType) : Prop := True.

Lemma lawful_DeprecatedEntryPointType : lawful serde_DeprecatedEntryPointType ok_DeprecatedEntryPointType.
Proof.
  intros [ |  | ] Hx.
  - tag. apply coded_end.
  - tag. apply coded_end.
  - tag. apply coded_end.
Qed.

Definition ok_FunctionIndex : Z -> Prop := ok_usize.

Lemma lawful_FunctionIndex : lawful serde_FunctionIndex ok_FunctionIndex.
Proof. intros x Hx. by apply (coded_last _ _ _ _ _ lawful_usize). Qed.

Definition ok_EntryPoint (x : EntryPoint) : Prop :=
  ok_FunctionIndex (EntryPoint_function_idx x) /\
  ok_EntryPointSelector (EntryPoint_selector x).

Lemma lawful_EntryPoint : lawful serde_EntryPoint ok_EntryPoint.
Proof.
  intros [] (H1 & H2). 
  field lawful_FunctionIndex H1.
  field lawful_EntryPointSelector H2.
  apply coded_end.
Qed.

Definition ok_EntryPointType (x : EntryPointType) : Prop := True.

Lemma lawful_EntryPointType : lawful serde_EntryPointType ok_EntryPointType.
Proof.
  intros [ |  | ] Hx.
  - tag. apply coded_end.
  - tag. apply coded_end.
  - tag. apply coded_end.
Qed.

Definition ok_EthAddress : (list Z) -> Prop := ok_H160.

Lemma lawful_EthAddress : lawful serde_EthAddress ok_EthAddress.
Proof. intros x Hx. by apply (coded_last _ _ _ _ _ lawful_H160). Qed.

Definition ok_EventData : (list Z) -> Prop := (ok_vec ok_Felt).

Lemma lawful_EventData : lawful serde_EventData ok_EventData.
Proof. intros x Hx. by apply (coded_last _ _ _ _ _ (lawful_vec _ _ lawful_Felt)). Qed.

Definition ok_EventKey : Z -> Prop := ok_Felt.

Lemma lawful_EventKey : lawful serde_EventKey ok_EventKey.
Proof. intros x Hx. by apply (coded_last _ _ _ _ _ lawful_Felt). Qed.

Definition ok_EventContent (x : EventContent) : Prop :=
  (ok_vec ok_EventKey) (EventContent_keys x) /\
  ok_EventData (EventContent_data x).

Lemma lawful_EventContent : lawful serde_EventContent ok_EventContent.
Proof.
  intros [] (H1 & H2). 
  field (lawful_vec _ _ lawful_EventKey) H1.
  field lawful_EventData H2.
  apply coded_end.
Qed.

Definition ok_Event (x : Event) : Prop :=
  ok_PatriciaKey (Event_from_address x) /\
  ok_EventContent (Event_content x).

Lemma lawful_Event : lawful serde_Event ok_Event.
Proof.
  intros [] (H1 & H2). 
  field lawful_PatriciaKey H1.
  field lawful_EventContent H2.
  apply coded_end.
Qed.

Definition ok_EventIndexInTransactionOutput : Z -> Prop := ok_usize.

Lemma lawful_EventIndexInTransactionOutput : lawful serde_EventIndexInTransactionOutput ok_EventIndexInTransactionOutput.
Proof. intros x Hx. by apply (coded_last _ _ _ _ _ lawful_usize). Qed.

Definition ok_TransactionIndex (x : (Z * Z)%type) : Prop := ok_BlockNumber x.1 /\ ok_TransactionOffsetInBlock x.2.

Lemma lawful_TransactionIndex : lawful serde_TransactionIndex ok_TransactionIndex.
Proof. intros [x0 x1] [H0 H1]. field lawful_BlockNumber H0. by apply (coded_last _ _ _ _ _ lawful_TransactionOffsetInBlock). Qed.

Definition ok_EventIndex (x : (TransactionIndex * EventIndexInTransactionOutput)%type) : Prop := ok_TransactionIndex x.1 /\ ok_EventIndexInTransactionOutput x.2.

Lemma lawful_EventIndex : lawful serde_EventIndex ok_EventIndex.
Proof. intros [x0 x1] [H0 H1]. field lawful_TransactionIndex H0. by apply (coded_last _ _ _ _ _ lawful_EventIndexInTransactionOutput). Qed.

Definition ok_FunctionStateMutability (x : FunctionStateMutability) : Prop := True.

Lemma lawful_FunctionStateMutability : lawful serde_FunctionStateMutability ok_FunctionStateMutability.
Proof.
  intros [] Hx.
  - tag. apply coded_end.
Qed.

Definition ok_GasVector (x : GasVector) : Prop :=
  ok_u64 (GasVector_l1_gas x) /\
  ok_u64 (GasVector_l1_data_gas x).

Lemma lawful_GasVector : lawful serde_GasVector ok_GasVector.
Proof.
  intros [] (H1 & H2). 
  field lawful_u64 H1.
  field lawful_u64 H2.
  apply coded_end.
Qed.

Definition ok_IndexedDeprecatedContractClass (x : IndexedDeprecatedContractClass) : Prop :=
  ok_BlockNumber (IndexedDeprecatedContractClass_block_number x) /\
  ok_LocationInFile (IndexedDeprecatedContractClass_location_in_file x).

Lemma lawful_IndexedDeprecatedContractClass : lawful serde_IndexedDeprecatedContractClass ok_IndexedDeprecatedContractClass.
Proof.
  intros [] (H1 & H2). 
  field lawful_BlockNumber H1.
  field lawful_LocationInFile H2.
  apply coded_end.
Qed.

Definition ok_InvokeTransactionV0 (x : InvokeTransactionV0) : Prop :=
  ok_Fee (InvokeTransactionV0_max_fee x) /\
  ok_TransactionSignature (InvokeTransactionV0_signature x) /\
  ok_PatriciaKey (InvokeTransactionV0_contract_address x) /\
  ok_EntryPointSelector (InvokeTransactionV0_entry_point_selector x) /\
  ok_Calldata (InvokeTransactionV0_calldata x) /\
  small (write_InvokeTransactionV0 x).

Lemma lawful_InvokeTransactionV0 : lawful serde_InvokeTransactionV0 ok_InvokeTransactionV0.
Proof.
  intros [] (H1 & H2 & H3 & H4 & H5 & Hs). apply coded_conditionally; [|exact Hs].
  field lawful_Fee H1.
  field lawful_TransactionSignature H2.
  field lawful_PatriciaKey H3.
  field lawful_EntryPointSelector H4.
  field lawful_Calldata H5.
  apply coded_end.
Qed.

Definition ok_InvokeTransactionV1 (x : InvokeTransactionV1) : Prop :=
  ok_Fee (InvokeTransactionV1_max_fee x) /\
  ok_TransactionSignature (InvokeTransactionV1_signature x) /\
  ok_Nonce (InvokeTransactionV1_nonce x) /\
  ok_PatriciaKey (InvokeTransactionV1_sender_address x) /\
  ok_Calldata (InvokeTransactionV1_calldata x) /\
  small (write_InvokeTransactionV1 x).

Lemma lawful_InvokeTransactionV1 : lawful serde_InvokeTransactionV1 ok_InvokeTransactionV1.
Proof.
  intros [] (H1 & H2 & H3 & H4 & H5 & Hs). apply coded_conditionally; [|exact Hs].
  field lawful_Fee H1.
  field lawful_TransactionSignature H2.
  field lawful_Nonce H3.
  field lawful_PatriciaKey H4.
  field lawful_Calldata H5.
  apply coded_end.
Qed.

Definition ok_InvokeTransactionV3 (x : InvokeTransactionV3) : Prop :=
  ok_ResourceBoundsMapping (InvokeTransactionV3_resource_bounds x) /\
  ok_Tip (InvokeTransactionV3_tip x) /\
  ok_TransactionSignature (InvokeTransactionV3_signature x) /\
  ok_Nonce (InvokeTransactionV3_nonce x) /\
  ok_PatriciaKey (InvokeTransactionV3_sender_address x) /\
  ok_Calldata (InvokeTransactionV3_calldata x) /\
  ok_DataAvailabilityMode (InvokeTransactionV3_nonce_data_availability_mode x) /\
  ok_DataAvailabilityMode (InvokeTransactionV3_fee_data_availability_mode x) /\
  ok_PaymasterData (InvokeTransactionV3_paymaster_data x) /\
  ok_AccountDeploymentData (InvokeTransactionV3_account_deployment_data x) /\
  small (write_InvokeTransactionV3 x).

Lemma lawful_InvokeTransactionV3 : lawful serde_InvokeTransactionV3 ok_InvokeTransactionV3.
Proof.
  intros [] (H1 & H2 & H3 & H4 & H5 & H6 & H7 & H8 & H9 & H10 & Hs). apply coded_conditionally; [|exact Hs].
  field lawful_ResourceBoundsMapping H1.
  field lawful_Tip H2.
  field lawful_TransactionSignature H3.
  field lawful_Nonce H4.
  field lawful_PatriciaKey H5.
  field lawful_Calldata H6.
  field lawful_DataAvailabilityMode H7.
  field lawful_DataAvailabilityMode H8.
  field lawful_PaymasterData H9.
  field lawful_AccountDeploymentData H10.
  apply coded_end.
Qed.

Definition ok_InvokeTransaction (x : InvokeTransaction) : Prop :=
  match x with
  | InvokeTransaction_V0 value => ok_InvokeTransactionV0 value
  | InvokeTransaction_V1 value => ok_InvokeTransactionV1 value
  | InvokeTransaction_V3 value => ok_InvokeTransactionV3 value
  end.

Lemma lawful_InvokeTransaction : lawful serde_InvokeTransaction ok_InvokeTransaction.
Proof.
  intros [value | value | value] Hx.
  - tag. field lawful_InvokeTransactionV0 Hx. apply coded_end.
  - tag. field lawful_InvokeTransactionV1 Hx. apply coded_end.
  - tag. field lawful_InvokeTransactionV3 Hx. apply coded_end.
Qed.

Definition ok_L1ToL2Payload : (list Z) -> Prop := (ok_vec ok_Felt).

Lemma lawful_L1ToL2Payload : lawful serde_L1ToL2Payload ok_L1ToL2Payload.
Proof. intros x Hx. by apply (coded_last _ _ _ _ _ (lawful_vec _ _ lawful_Felt)). Qed.

Definition ok_L2ToL1Payload : (list Z) -> Prop := (ok_vec ok_Felt).

Lemma lawful_L2ToL1Payload : lawful serde_L2ToL1Payload ok_L2ToL1Payload.
Proof. intros x Hx. by apply (coded_last _ _ _ _ _ (lawful_vec _ _ lawful_Felt)). Qed.

Definition ok_MarkerKind (x : MarkerKind) : Prop := True.

Lemma lawful_MarkerKind : lawful serde_MarkerKind ok_MarkerKind.
Proof.
  intros [ |  |  |  |  |  | ] Hx.
  - tag. apply coded_end.
  - tag. apply coded_end.
  - tag. apply coded_end.
  - tag. apply coded_end.
  - tag. apply coded_end.
  - tag. apply coded_end.
  - tag. apply coded_end.
Qed.

Definition ok_MessageToL1 (x : MessageToL1) : Prop :=
  ok_EthAddress (MessageToL1_to_address x) /\
  ok_L2ToL1Payload (MessageToL1_payload x) /\
  ok_PatriciaKey (MessageToL1_from_address x).

Lemma lawful_MessageToL1 : lawful serde_MessageToL1 ok_MessageToL1.
Proof.
  intros [] (H1 & H2 & H3). 
  field lawful_EthAddress H1.
  field lawful_L2ToL1Payload H2.
  field lawful_PatriciaKey H3.
  apply coded_end.
Qed.

Definition ok_MessageToL2 (x : MessageToL2) : Prop :=
  ok_EthAddress (MessageToL2_from_address x) /\
  ok_L1ToL2Payload (MessageToL2_payload x).

Lemma lawful_MessageToL2 : lawful serde_MessageToL2 ok_MessageToL2.
Proof.
  intros [] (H1 & H2). 
  field lawful_EthAddress H1.
  field lawful_L1ToL2Payload H2.
  apply coded_end.
Qed.

Definition ok_OffsetKind (x : OffsetKind) : Prop := True.

Lemma lawful_OffsetKind : lawful serde_OffsetKind ok_OffsetKind.
Proof.
  intros [ |  |  |  |  | ] Hx.
  - tag. apply coded_end.
  - tag. apply coded_end.
  - tag. apply coded_end.
  - tag. apply coded_end.
  - tag. apply coded_end.
  - tag. apply coded_end.
Qed.

Definition ok_Program (x : Program) : Prop :=
  ok_Json (Program_attributes x) /\
  ok_Json (Program_builtins x) /\
  ok_Json (Program_compiler_version x) /\
  ok_Json (Program_data x) /\
  ok_Json (Program_debug_info x) /\
  ok_Json (Program_hints x) /\
  ok_Json (Program_identifiers x) /\
  ok_Json (Program_main_scope x) /\
  ok_Json (Program_prime x) /\
  ok_Json (Program_reference_manager x).

Lemma lawful_Program : lawful serde_Program ok_Program.
Proof.
  intros [] (H1 & H2 & H3 & H4 & H5 & H6 & H7 & H8 & H9 & H10). 
  field lawful_Json H1.
  field lawful_Json H2.
  field lawful_Json H3.
  field lawful_Json H4.
  field lawful_Json H5.
  field lawful_Json H6.
  field lawful_Json H7.
  field lawful_Json H8.
  field lawful_Json H9.
  field lawful_Json H10.
  apply coded_end.
Qed.

Definition ok_StarknetVersion : rstring -> Prop := ok_String.

Lemma lawful_StarknetVersion : lawful serde_StarknetVersion ok_StarknetVersion.
Proof. intros x Hx. by apply (coded_last _ _ _ _ _ lawful_String). Qed.

Definition ok_TransactionHash : Z -> Prop := ok_Felt.

Lemma lawful_TransactionHash : lawful serde_TransactionHash ok_TransactionHash.
Proof. intros x Hx. by apply (coded_last _ _ _ _ _ lawful_Felt). Qed.

Definition ok_TransactionMetadata (x : TransactionMetadata) : Prop :=
  ok_TransactionHash (TransactionMetadata_tx_hash x) /\
  ok_LocationInFile (TransactionMetadata_tx_location x) /\
  ok_LocationInFile (TransactionMetadata_tx_output_location x).

Lemma lawful_TransactionMetadata : lawful serde_TransactionMetadata ok_TransactionMetadata.
Proof.
  intros [] (H1 & H2 & H3). 
  field lawful_TransactionHash H1.
  field lawful_LocationInFile H2.
  field lawful_LocationInFile H3.
  apply coded_end.
Qed.

Definition ok_TransactionVersion : Z -> Prop := ok_Felt.

Lemma lawful_TransactionVersion : lawful serde_TransactionVersion ok_TransactionVersion.
Proof. intros x Hx. by apply (coded_last _ _ _ _ _ lawful_Felt). Qed.

Definition ok_DeployTransaction (x : DeployTransaction) : Prop :=
  ok_TransactionVersion (DeployTransaction_version x) /\
  ok_ClassHash (DeployTransaction_class_hash x) /\
  ok_ContractAddressSalt (DeployTransaction_contract_address_salt x) /\
  ok_Calldata (DeployTransaction_constructor_calldata x) /\
  small (write_DeployTransaction x).

Lemma lawful_DeployTransaction : lawful serde_DeployTransaction ok_DeployTransaction.
Proof.
  intros [] (H1 & H2 & H3 & H4 & Hs). apply coded_conditionally; [|exact Hs].
  field lawful_TransactionVersion H1.
  field lawful_ClassHash H2.
  field lawful_ContractAddressSalt H3.
  field lawful_Calldata H4.
  apply coded_end.
Qed.

Definition ok_L1HandlerTransaction (x : L1HandlerTransaction) : Prop :=
  ok_TransactionVersion (L1HandlerTransaction_version x) /\
  ok_Nonce (L1HandlerTransaction_nonce x) /\
  ok_PatriciaKey (L1HandlerTransaction_contract_address x) /\
  ok_EntryPointSelector (L1HandlerTransaction_entry_point_selector x) /\
  ok_Calldata (L1HandlerTransaction_calldata x) /\
  small (write_L1HandlerTransaction x).

Lemma lawful_L1HandlerTransaction : lawful serde_L1HandlerTransaction ok_L1HandlerTransaction.
Proof.
  intros [] (H1 & H2 & H3 & H4 & H5 & Hs). apply coded_conditionally; [|exact Hs].
  field lawful_TransactionVersion H1.
  field lawful_Nonce H2.
  field lawful_PatriciaKey H3.
  field lawful_EntryPointSelector H4.
  field lawful_Calldata H5.
  apply coded_end.
Qed.

Definition ok_Transaction (x : Transaction) : Prop :=
  match x with
  | Transaction_Declare value => ok_DeclareTransaction value
  | Transaction_Deploy value => ok_DeployTransaction value
  | Transaction_DeployAccount value => ok_DeployAccountTransaction value
  | Transaction_Invoke value => ok_InvokeTransaction value
  | Transaction_L1Handler value => ok_L1HandlerTransaction value
  end.

Lemma lawful_Transaction : lawful serde_Transaction ok_Transaction.
Proof.
  intros [value | value | value | value | value] Hx.
  - tag. field lawful_DeclareTransaction Hx. apply coded_end.
  - tag. field lawful_DeployTransaction Hx. apply coded_end.
  - tag. field lawful_DeployAccountTransaction Hx. apply coded_end.
  - tag. field lawful_InvokeTransaction Hx. apply coded_end.
  - tag. field lawful_L1HandlerTransaction Hx. apply coded_end.
Qed.

Definition ok_RevertedTransactionExecutionStatus (x : RevertedTransactionExecutionStatus) : Prop :=
  ok_String (RevertedTransactionExecutionStatus_revert_reason x).

Lemma lawful_RevertedTransactionExecutionStatus : lawful serde_RevertedTransactionExecutionStatus ok_RevertedTransactionExecutionStatus.
Proof.
  intros [] H1. 
  field lawful_String H1.
  apply coded_end.
Qed.

Definition ok_TransactionExecutionStatus (x : TransactionExecutionStatus) : Prop :=
  match x with
  | TransactionExecutionStatus_Succeeded => True
  | TransactionExecutionStatus_Reverted value => ok_RevertedTransactionExecutionStatus value
  end.

Lemma lawful_TransactionExecutionStatus : lawful serde_TransactionExecutionStatus ok_TransactionExecutionStatus.
Proof.
  intros [ | value] Hx.
  - tag. apply coded_end.
  - tag. field lawful_RevertedTransactionExecutionStatus Hx. apply coded_end.
Qed.

Definition ok_Builtin (x : Builtin) : Prop := True.

Lemma lawful_Builtin : lawful serde_Builtin ok_Builtin.
Proof.
  intros [ |  |  |  |  |  |  |  |  |  | ] Hx.
  - tag. apply coded_end.
  - tag. apply coded_end.
  - tag. apply coded_end.
  - tag. apply coded_end.
  - tag. apply coded_end.
  - tag. apply coded_end.
  - tag. apply coded_end.
  - tag. apply coded_end.
  - tag. apply coded_end.
  - tag. apply coded_end.
  - tag. apply coded_end.
Qed.

Definition ok_ExecutionResources (x : ExecutionResources) : Prop :=
  ok_u64 (ExecutionResources_steps x) /\
  (ok_map ok_Builtin ok_u64) (ExecutionResources_builtin_instance_counter x) /\
  ok_u64 (ExecutionResources_memory_holes x) /\
  ok_GasVector (ExecutionResources_da_gas_consumed x) /\
  ok_GasVector (ExecutionResources_gas_consumed x).

Lemma lawful_ExecutionResources : lawful serde_ExecutionResources ok_ExecutionResources.
Proof.
  intros [] (H1 & H2 & H3 & H4 & H5). 
  field lawful_u64 H1.
  field (lawful_hashmap _ _ _ _ lawful_Builtin lawful_u64) H2.
  field lawful_u64 H3.
  field lawful_GasVector H4.
  field lawful_GasVector H5.
  apply coded_end.
Qed.

Definition ok_DeclareTransactionOutput (x : DeclareTransactionOutput) : Prop :=
  ok_Fee (DeclareTransactionOutput_actual_fee x) /\
  (ok_vec ok_MessageToL1) (DeclareTransactionOutput_messages_sent x) /\
  (ok_vec ok_Event) (DeclareTransactionOutput_events x) /\
  ok_TransactionExecutionStatus (DeclareTransactionOutput_execution_status x) /\
  ok_ExecutionResources (DeclareTransactionOutput_execution_resources x) /\
  small (write_DeclareTransactionOutput x).

Lemma lawful_DeclareTransactionOutput : lawful serde_DeclareTransactionOutput ok_DeclareTransactionOutput.
Proof.
  intros [] (H1 & H2 & H3 & H4 & H5 & Hs). apply coded_conditionally; [|exact Hs].
  field lawful_Fee H1.
  field (lawful_vec _ _ lawful_MessageToL1) H2.
  field (lawful_vec _ _ lawful_Event) H3.
  field lawful_TransactionExecutionStatus H4.
  field lawful_ExecutionResources H5.
  apply coded_end.
Qed.

Definition ok_DeployAccountTransactionOutput (x : DeployAccountTransactionOutput) : Prop :=
  ok_Fee (DeployAccountTransactionOutput_actual_fee x) /\
  (ok_vec ok_MessageToL1) (DeployAccountTransactionOutput_messages_sent x) /\
  (ok_vec ok_Event) (DeployAccountTransactionOutput_events x) /\
  ok_PatriciaKey (DeployAccountTransactionOutput_contract_address x) /\
  ok_TransactionExecutionStatus (DeployAccountTransactionOutput_execution_status x) /\
  ok_ExecutionResources (DeployAccountTransactionOutput_execution_resources x) /\
  small (write_DeployAccountTransactionOutput x).

Lemma lawful_DeployAccountTransactionOutput : lawful serde_DeployAccountTransactionOutput ok_DeployAccountTransactionOutput.
Proof.
  intros [] (H1 & H2 & H3 & H4 & H5 & H6 & Hs). apply coded_conditionally; [|exact Hs].
  field lawful_Fee H1.
  field (lawful_vec _ _ lawful_MessageToL1) H2.
  field (lawful_vec _ _ lawful_Event) H3.
  field lawful_PatriciaKey H4.
  field lawful_TransactionExecutionStatus H5.
  field lawful_ExecutionResources H6.
  apply coded_end.
Qed.

Definition ok_DeployTransactionOutput (x : DeployTransactionOutput) : Prop :=
  ok_Fee (DeployTransactionOutput_actual_fee x) /\
  (ok_vec ok_MessageToL1) (DeployTransactionOutput_messages_sent x) /\
  (ok_vec ok_Event) (DeployTransactionOutput_events x) /\
  ok_PatriciaKey (DeployTransactionOutput_contract_address x) /\
  ok_TransactionExecutionStatus (DeployTransactionOutput_execution_status x) /\
  ok_ExecutionResources (DeployTransactionOutput_execution_resources x) /\
  small (write_DeployTransactionOutput x).

Lemma lawful_DeployTransactionOutput : lawful serde_DeployTransactionOutput ok_DeployTransactionOutput.
Proof.
  intros [] (H1 & H2 & H3 & H4 & H5 & H6 & Hs). apply coded_conditionally; [|exact Hs].
  field lawful_Fee H1.
  field (lawful_vec _ _ lawful_MessageToL1) H2.
  field (lawful_vec _ _ lawful_Event) H3.
  field lawful_PatriciaKey H4.
  field lawful_TransactionExecutionStatus H5.
  field lawful_ExecutionResources H6.
  apply coded_end.
Qed.

Definition ok_InvokeTransactionOutput (x : InvokeTransactionOutput) : Prop :=
  ok_Fee (InvokeTransactionOutput_actual_fee x) /\
  (ok_vec ok_MessageToL1) (InvokeTransactionOutput_messages_sent x) /\
  (ok_vec ok_Event) (InvokeTransactionOutput_events x) /\
  ok_TransactionExecutionStatus (InvokeTransactionOutput_execution_status x) /\
  ok_ExecutionResources (InvokeTransactionOutput_execution_resources x) /\
  small (write_InvokeTransactionOutput x).

Lemma lawful_InvokeTransactionOutput : lawful serde_InvokeTransactionOutput ok_InvokeTransactionOutput.
Proof.
  intros [] (H1 & H2 & H3 & H4 & H5 & Hs). apply coded_conditionally; [|exact Hs].
  field lawful_Fee H1.
  field (lawful_vec _ _ lawful_MessageToL1) H2.
  field (lawful_vec _ _ lawful_Event) H3.
  field lawful_TransactionExecutionStatus H4.
  field lawful_ExecutionResources H5.
  apply coded_end.
Qed.

Definition ok_L1HandlerTransactionOutput (x : L1HandlerTransactionOutput) : Prop :=
  ok_Fee (L1HandlerTransactionOutput_actual_fee x) /\
  (ok_vec ok_MessageToL1) (L1HandlerTransactionOutput_messages_sent x) /\
  (ok_vec ok_Event) (L1HandlerTransactionOutput_events x) /\
  ok_TransactionExecutionStatus (L1HandlerTransactionOutput_execution_status x) /\
  ok_ExecutionResources (L1HandlerTransactionOutput_execution_resources x) /\
  small (write_L1HandlerTransactionOutput x).

Lemma lawful_L1HandlerTransactionOutput : lawful serde_L1HandlerTransactionOutput ok_L1HandlerTransactionOutput.
Proof.
  intros [] (H1 & H2 & H3 & H4 & H5 & Hs). apply coded_conditionally; [|exact Hs].
  field lawful_Fee H1.
  field (lawful_vec _ _ lawful_MessageToL1) H2.
  field (lawful_vec _ _ lawful_Event) H3.
  field lawful_TransactionExecutionStatus H4.
  field lawful_ExecutionResources H5.
  apply coded_end.
Qed.

Definition ok_TransactionOutput (x : TransactionOutput) : Prop :=
  match x with
  | TransactionOutput_Declare value => ok_DeclareTransactionOutput value
  | TransactionOutput_Deploy value => ok_DeployTransactionOutput value
  | TransactionOutput_DeployAccount value => ok_DeployAccountTransactionOutput value
  | TransactionOutput_Invoke value => ok_InvokeTransactionOutput value
  | TransactionOutput_L1Handler value => ok_L1HandlerTransactionOutput value
  end.

Lemma lawful_TransactionOutput : lawful serde_TransactionOutput ok_TransactionOutput.
Proof.
  intros [value | value | value | value | value] Hx.
  - tag. field lawful_DeclareTransactionOutput Hx. apply coded_end.
  - tag. field lawful_DeployTransactionOutput Hx. apply coded_end.
  - tag. field lawful_DeployAccountTransactionOutput Hx. apply coded_end.
  - tag. field lawful_InvokeTransactionOutput Hx. apply coded_end.
  - tag. field lawful_L1HandlerTransactionOutput Hx. apply coded_end.
Qed.

Definition ok_Version (x : Version) : Prop :=
  ok_u32 (Version_major x) /\
  ok_u32 (Version_minor x).

Lemma lawful_Version : lawful serde_Version ok_Version.
Proof.
  intros [] (H1 & H2). 
  field lawful_u32 H1.
  field lawful_u32 H2.
  apply coded_end.
Qed.

Definition ok_CasmContractEntryPoint (x : CasmContractEntryPoint) : Prop :=
  ok_BigUint (CasmContractEntryPoint_selector x) /\
  ok_usize (CasmContractEntryPoint_offset x) /\
  (ok_vec ok_String) (CasmContractEntryPoint_builtins x).

Lemma lawful_CasmContractEntryPoint : lawful serde_CasmContractEntryPoint ok_CasmContractEntryPoint.
Proof.
  intros [] (H1 & H2 & H3). 
  field lawful_BigUint H1.
  field lawful_usize H2.
  field (lawful_vec _ _ lawful_String) H3.
  apply coded_end.
Qed.

Definition ok_CasmContractEntryPoints (x : CasmContractEntryPoints) : Prop :=
  (ok_vec ok_CasmContractEntryPoint) (CasmContractEntryPoints_external x) /\
  (ok_vec ok_CasmContractEntryPoint) (CasmContractEntryPoints_l1_handler x) /\
  (ok_vec ok_CasmContractEntryPoint) (CasmContractEntryPoints_constructor x).

Lemma lawful_CasmContractEntryPoints : lawful serde_CasmContractEntryPoints ok_CasmContractEntryPoints.
Proof.
  intros [] (H1 & H2 & H3). 
  field (lawful_vec _ _ lawful_CasmContractEntryPoint) H1.
  field (lawful_vec _ _ lawful_CasmContractEntryPoint) H2.
  field (lawful_vec _ _ lawful_CasmContractEntryPoint) H3.
  apply coded_end.
Qed.

Definition ok_BigUintAsHex (x : BigUintAsHex) : Prop :=
  ok_BigUint (BigUintAsHex_value x).

Lemma lawful_BigUintAsHex : lawful serde_BigUintAsHex ok_BigUintAsHex.
Proof.
  intros [] H1. 
  field lawful_BigUint H1.
  apply coded_end.
Qed.

Definition ok_FunctionAbiEntry (x : FunctionAbiEntry) : Prop :=
  ok_String (FunctionAbiEntry_name x) /\
  (ok_vec ok_TypedParameter) (FunctionAbiEntry_inputs x) /\
  (ok_vec ok_TypedParameter) (FunctionAbiEntry_outputs x) /\
  (ok_option ok_FunctionStateMutability) (FunctionAbiEntry_state_mutability x).

Lemma lawful_FunctionAbiEntry : lawful serde_FunctionAbiEntry ok_FunctionAbiEntry.
Proof.
  intros [] (H1 & H2 & H3 & H4). 
  field lawful_String H1.
  field (lawful_vec _ _ lawful_TypedParameter) H2.
  field (lawful_vec _ _ lawful_TypedParameter) H3.
  field (lawful_option _ _ lawful_FunctionStateMutability) H4.
  apply coded_end.
Qed.

Definition ok_ContractClassAbiEntry (x : ContractClassAbiEntry) : Prop :=
  match x with
  | ContractClassAbiEntry_Event value => ok_EventAbiEntry value
  | ContractClassAbiEntry_Function value => ok_FunctionAbiEntry value
  | ContractClassAbiEntry_Constructor value => ok_FunctionAbiEntry value
  | ContractClassAbiEntry_L1Handler value => ok_FunctionAbiEntry value
  | ContractClassAbiEntry_Struct value => ok_StructAbiEntry value
  end.

Lemma lawful_ContractClassAbiEntry : lawful serde_ContractClassAbiEntry ok_ContractClassAbiEntry.
Proof.
  intros [value | value | value | value | value] Hx.
  - tag. field lawful_EventAbiEntry Hx. apply coded_end.
  - tag. field lawful_FunctionAbiEntry Hx. apply coded_end.
  - tag. field lawful_FunctionAbiEntry Hx. apply coded_end.
  - tag. field lawful_FunctionAbiEntry Hx. apply coded_end.
  - tag. field lawful_StructAbiEntry Hx. apply coded_end.
Qed.

(** Every level of the tree is bounded. *)
Fixpoint ok_NestedIntList (x : NestedIntList) : Prop :=
  match x with
  | NestedIntList_Leaf value => ok_usize value
  | NestedIntList_Node value =>
      zlength value < 2 ^ 64 /\
      (fix go l := match l with [] => True | y :: l' => ok_NestedIntList y /\ go l' end) value
  end.

(** Read with any fuel above the number of bytes. *)
Definition nested_coded (x : NestedIntList) : Prop :=
  exists bs, Forall is_byte bs /\ writes (serialize_NestedIntList x) bs /\
    forall fuel, (length bs < fuel)%nat -> reads (deserialize_NestedIntList fuel) bs x.

(** The children one after another. *)
Lemma nested_children l :
  Forall nested_coded l ->
  exists bs, Forall is_byte bs /\
    writes ((fix go l := match l with [] => ret tt | x :: l' => serialize_NestedIntList x ;! go l' end) l) bs /\
    forall fuel, (length bs < fuel)%nat -> reads (deserialize_n (deserialize_NestedIntList fuel) (length l)) bs l.
Proof.
  induction 1 as [|x l (b1 & Hb1 & Hw1 & Hr1) Hl (b2 & Hb2 & Hw2 & Hr2)].
  - exists []. split; [done|]. split; [apply writes_ret|]. intros fuel _. apply reads_ret.
  - exists (b1 ++ b2). split; [by apply Forall_app|]. split; [by apply writes_bind|].
    intros fuel Hf. rewrite length_app in Hf. cbn [deserialize_n length].
    eapply reads_bind; [apply Hr1; lia|]. intros rest.
    rewrite (bind_step _ _ _ _ _ (Hr2 fuel ltac:(lia) rest)). done.
Qed.

Lemma nested_leaf value : ok_usize value -> nested_coded (NestedIntList_Leaf value).
Proof.
  intros Hv. destruct (lawful_usize value Hv) as (bs & Hb & Hw & Hr). exists (0 :: bs).
  split; [by constructor|]. split.
  - apply (writes_bind _ _ [0] bs); [apply writes_all|]. intros out. cbn [serialize_NestedIntList].
    by rewrite (bind_step _ _ _ _ _ (Hw out)).
  - intros [|fuel] Hf; [lia|]. cbn [deserialize_NestedIntList]. apply (reads_bind _ _ [0] bs [0]); [by apply reads_exact|].
    intros rest. by rewrite (bind_step _ _ _ _ _ (Hr rest)).
Qed.

Lemma nested_node l : zlength l < 2 ^ 64 -> Forall nested_coded l -> nested_coded (NestedIntList_Node l).
Proof.
  intros Hlen Hl. destruct (nested_children l Hl) as (bs & Hb & Hw & Hr).
  assert (Hn : 0 <= zlength l < 2 ^ 64) by (unfold zlength in *; lia).
  exists ([1] ++ write_varint (zlength l) ++ bs). split.
  { constructor; [done|]. apply Forall_app. split; [by apply varint_bytes|done]. }
  split.
  - cbn [serialize_NestedIntList]. apply writes_bind; [apply writes_all|]. intros out. run_steps.
    rewrite (bind_step _ _ _ _ _ (writes_all (write_varint (zlength l)) out)), (bind_step _ _ _ _ _ (Hw _)).
    unfold ret. by rewrite app_assoc.
  - intros [|fuel] Hf; [lia|]. rewrite !length_app in Hf. cbn [deserialize_NestedIntList].
    eapply reads_bind; [by apply reads_exact|]. eapply reads_bind.
    + apply reads_with. intros rest. by apply varint_roundtrip.
    + intros rest. unfold zlength. rewrite Nat2Z.id. by rewrite (bind_step _ _ _ _ _ (Hr fuel ltac:(cbn in Hf; lia) rest)).
Qed.

Lemma nested_all : forall x, ok_NestedIntList x -> nested_coded x.
Proof.
  fix IH 1. intros [value|l].
  - apply nested_leaf.
  - intros [Hlen Hl]. apply nested_node; [exact Hlen|].
    induction l as [|x l IHl]; [constructor|]. destruct Hl as [Hx Hl].
    constructor; [apply IH; exact Hx|apply IHl; [unfold zlength in *; cbn [length] in Hlen; lia|exact Hl]].
Qed.

Lemma lawful_NestedIntList : lawful serde_NestedIntList ok_NestedIntList.
Proof.
  intros x Hx. destruct (nested_all x Hx) as (bs & Hb & Hw & Hr). exists bs. split; [done|]. split; [done|].
  intros rest. cbn [deserialize_from serde_NestedIntList]. apply Hr. rewrite length_app. lia.
Qed.

Definition ok_CasmContractClass (x : CasmContractClass) : Prop :=
  ok_BigUint (CasmContractClass_prime x) /\
  ok_String (CasmContractClass_compiler_version x) /\
  (ok_vec ok_BigUintAsHex) (CasmContractClass_bytecode x) /\
  (ok_option ok_NestedIntList) (CasmContractClass_bytecode_segment_lengths x) /\
  (ok_vec (ok_pair ok_usize (ok_vec ok_Hint))) (CasmContractClass_hints x) /\
  (ok_option (ok_vec (ok_pair ok_usize (ok_vec ok_String)))) (CasmContractClass_pythonic_hints x) /\
  ok_CasmContractEntryPoints (CasmContractClass_entry_points_by_type x) /\
  small (write_CasmContractClass x).

Lemma lawful_CasmContractClass : lawful serde_CasmContractClass ok_CasmContractClass.
Proof.
  intros [] (H1 & H2 & H3 & H4 & H5 & H6 & H7 & Hs). apply coded_compressed; [|exact Hs].
  field lawful_BigUint H1.
  field lawful_String H2.
  field (lawful_vec _ _ lawful_BigUintAsHex) H3.
  field (lawful_option _ _ lawful_NestedIntList) H4.
  field (lawful_vec _ _ (lawful_pair _ _ _ _ lawful_usize (lawful_vec _ _ lawful_Hint))) H5.
  field (lawful_option _ _ (lawful_vec _ _ (lawful_pair _ _ _ _ lawful_usize (lawful_vec _ _ lawful_String)))) H6.
  field lawful_CasmContractEntryPoints H7.
  apply coded_end.
Qed.

Definition ok_ThinStateDiff (x : ThinStateDiff) : Prop :=
  (ok_indexmap ok_PatriciaKey ok_ClassHash) (ThinStateDiff_deployed_contracts x) /\
  (ok_indexmap ok_PatriciaKey (ok_indexmap ok_PatriciaKey ok_Felt)) (ThinStateDiff_storage_diffs x) /\
  (ok_indexmap ok_ClassHash ok_CompiledClassHash) (ThinStateDiff_declared_classes x) /\
  (ok_vec ok_ClassHash) (ThinStateDiff_deprecated_declared_classes x) /\
  (ok_indexmap ok_PatriciaKey ok_Nonce) (ThinStateDiff_nonces x) /\
  (ok_indexmap ok_PatriciaKey ok_ClassHash) (ThinStateDiff_replaced_classes x) /\
  small (write_ThinStateDiff x).

Lemma lawful_ThinStateDiff : lawful serde_ThinStateDiff ok_ThinStateDiff.
Proof.
  intros [] (H1 & H2 & H3 & H4 & H5 & H6 & Hs). apply coded_compressed; [|exact Hs].
  field (lawful_indexmap _ _ _ _ lawful_PatriciaKey lawful_ClassHash) H1.
  field (lawful_indexmap _ _ _ _ lawful_PatriciaKey (lawful_indexmap _ _ _ _ lawful_PatriciaKey lawful_Felt)) H2.
  field (lawful_indexmap _ _ _ _ lawful_ClassHash lawful_CompiledClassHash) H3.
  field (lawful_vec _ _ lawful_ClassHash) H4.
  field (lawful_indexmap _ _ _ _ lawful_PatriciaKey lawful_Nonce) H5.
  field (lawful_indexmap _ _ _ _ lawful_PatriciaKey lawful_ClassHash) H6.
  apply coded_end.
Qed.

(** ** Classes *)

(** A value that is compressed on its own. *)
Lemma compressed_field {A B} (s : StorageSerde A) ok a (m : Ser unit) (k : A -> De B) b :
  lawful s ok -> ok a -> small (serialize_into s a) -> coded m (k a) b ->
  coded (let! buf := serialize_and_compress s a in serialize_into serde_bytes buf ;! m)
    (let! data := decompress_from_reader in let! x := from_slice (deserialize_from s) data in k x) b.
Proof.
  intros Hl Ha Hs (b2 & Hb2 & Hw2 & Hr2). destruct (Hl a Ha) as (b1 & Hb1 & Hw1 & Hr1).
  destruct (compress_writes _ b1 Hb1 Hw1 Hs) as (c & Hc & Hok & Hd).
  destruct (lawful_bytes c Hok) as (cb & Hcb & Hcw & Hcr). exists (cb ++ b2).
  split; [by apply Forall_app|]. split.
  - intros out. unfold serialize_and_compress, compress. run_steps.
    rewrite (bind_step _ _ _ _ _ (to_vec_writes _ _ out Hw1)), Hc. cbn [or_fail]. run_steps.
    rewrite (bind_step _ _ _ _ _ (Hcw out)), Hw2. by rewrite app_assoc.
  - intros rest. unfold decompress_from_reader. run_steps. rewrite <-app_assoc, (bind_step _ _ _ _ _ (Hcr _)), Hd.
    cbn [or_fail]. run_steps. rewrite (bind_step _ _ _ _ _ (from_slice_reads _ _ _ _ Hr1)). apply Hr2.
Qed.

Definition ok_ContractClass (x : ContractClass) : Prop :=
  ok_vec ok_Felt (ContractClass_sierra_program x) /\
  small (serialize_into (serde_vec serde_Felt) (ContractClass_sierra_program x)) /\
  ok_map ok_EntryPointType (ok_vec ok_EntryPoint) (ContractClass_entry_points_by_type x) /\
  ok_String (ContractClass_abi x) /\
  small (serialize_into serde_String (ContractClass_abi x)).

Lemma lawful_ContractClass : lawful serde_ContractClass ok_ContractClass.
Proof.
  intros [] (H1 & Hs1 & H2 & H3 & Hs3).
  apply (compressed_field _ _ _ _ _ _ (lawful_vec _ _ lawful_Felt) H1 Hs1).
  field (lawful_hashmap _ _ _ _ lawful_EntryPointType (lawful_vec _ _ lawful_EntryPoint)) H2.
  apply (compressed_field _ _ _ _ _ _ lawful_String H3 Hs3). apply coded_end.
Qed.

Definition ok_DeprecatedContractClass (x : DeprecatedContractClass) : Prop :=
  ok_option (ok_vec ok_ContractClassAbiEntry) (DeprecatedContractClass_abi x) /\
  ok_Program (DeprecatedContractClass_program x) /\
  ok_map ok_DeprecatedEntryPointType (ok_vec ok_DeprecatedEntryPoint) (DeprecatedContractClass_entry_points_by_type x) /\
  small (write_DeprecatedContractClass x).

Lemma lawful_DeprecatedContractClass : lawful serde_DeprecatedContractClass ok_DeprecatedContractClass.
Proof.
  intros [abi program eps] (H1 & H2 & H3 & Hs). cbn [DeprecatedContractClass_abi DeprecatedContractClass_program
    DeprecatedContractClass_entry_points_by_type] in *.
  assert (Hc : coded (write_DeprecatedContractClass (mkDeprecatedContractClass abi program eps))
    (let! abi := deserialize_from (serde_option (serde_vec serde_ContractClassAbiEntry)) in
     let! program := deserialize_from serde_Program in ret (abi, program)) (abi, program)).
  { field (lawful_option _ _ (lawful_vec _ _ lawful_ContractClassAbiEntry)) H1. field lawful_Program H2. apply coded_end. }
  destruct Hc as (bs & Hb & Hw & Hr). destruct (compress_writes _ bs Hb Hw Hs) as (c & Hc & Hok & Hd).
  destruct (lawful_bytes c Hok) as (cb & Hcb & Hcw & Hcr).
  destruct (lawful_hashmap _ _ _ _ lawful_DeprecatedEntryPointType (lawful_vec _ _ lawful_DeprecatedEntryPoint) _ H3)
    as (eb & Heb & Hew & Her).
  exists (cb ++ eb). split; [by apply Forall_app|]. split.
  - intros out. cbn [serialize_into serde_DeprecatedContractClass]. rewrite (bind_step _ _ _ _ _ (to_vec_writes _ _ out Hw)).
    unfold compress. rewrite Hc. cbn [or_fail]. run_steps. rewrite (bind_step _ _ _ _ _ (Hcw out)).
    cbn [DeprecatedContractClass_entry_points_by_type]. rewrite (bind_step _ _ _ _ _ (Hew _)). unfold ret. by rewrite app_assoc.
  - intros rest. cbn [deserialize_from serde_DeprecatedContractClass]. rewrite <-app_assoc, (bind_step _ _ _ _ _ (Hcr _)), Hd.
    run_steps. rewrite (bind_step _ _ _ _ _ (from_slice_reads _ _ _ _ Hr)). by rewrite (bind_step _ _ _ _ _ (Her _)).
Qed.
End Laws.
