(* ===== verification/ClientObjects.v ===== *)
(** * Classes that are not in the storage yet

    Models [crates/papyrus_common/src/pending_classes.rs]: a class of either kind,
    and the classes and compiled classes of the pending block. *)

From stdpp Require Import base gmap list strings fin_maps.
From Stdlib Require Import ZArith Lia Ascii String.
From S2P Require Import Prelude StorageTables StarknetTypes StorageTxn Header Body.

Section PendingClasses.
Context {X : ExternalTypes}.

Inductive ApiContractClass : Type :=
| ApiContractClass_DeprecatedContractClass (c : DeprecatedContractClass)
| ApiContractClass_ContractClass (c : ContractClass).

Definition into_cairo0 (class : ApiContractClass) : option DeprecatedContractClass :=
  match class with ApiContractClass_DeprecatedContractClass class => Some class | _ => None end.

Definition into_cairo1 (class : ApiContractClass) : option ContractClass :=
  match class with ApiContractClass_ContractClass class => Some class | _ => None end.

Record PendingClasses : Type := mkPendingClasses {
  PendingClasses_classes : gmap Z ApiContractClass;
  PendingClasses_compiled_classes : gmap Z CasmContractClass
}.

Definition default_PendingClasses : PendingClasses := mkPendingClasses ∅ ∅.

Definition pending_get_class (self : PendingClasses) (class_hash : Z) : option ApiContractClass :=
  PendingClasses_classes self !! class_hash.

Definition pending_add_class (class_hash : Z) (class : ApiContractClass) (self : PendingClasses) : PendingClasses :=
  mkPendingClasses (<[class_hash := class]> (PendingClasses_classes self)) (PendingClasses_compiled_classes self).

Definition pending_get_compiled_class (self : PendingClasses) (class_hash : Z) : option CasmContractClass :=
  PendingClasses_compiled_classes self !! class_hash.

Definition pending_add_compiled_class (class_hash : Z) (compiled_class : CasmContractClass) (self : PendingClasses) :
    PendingClasses :=
  mkPendingClasses (PendingClasses_classes self) (<[class_hash := compiled_class]> (PendingClasses_compiled_classes self)).

Definition pending_clear (_ : PendingClasses) : PendingClasses := mkPendingClasses ∅ ∅.
End PendingClasses.

(** * The objects of the feeder gateway

    Models [crates/starknet_client/src/reader/objects]: the transactions, receipts,
    blocks, state updates and pending data as the gateway sends them, and their
    conversion to the types of the node. A conversion is a computation without
    state: it returns a value, an error or panics. Messages of errors are left out.

    A type that has the name of one of the node's types carries the prefix
    [Client]. *)

(** ** Transactions *)

Record ClientL1HandlerTransaction : Type := mkClientL1HandlerTransaction {
  ClientL1Handler_transaction_hash : TransactionHash;
  ClientL1Handler_version : TransactionVersion;
  ClientL1Handler_nonce : Nonce;
  ClientL1Handler_contract_address : Z;
  ClientL1Handler_entry_point_selector : EntryPointSelector;
  ClientL1Handler_calldata : Calldata
}.

Inductive ReservedDataAvailabilityMode : Type := ReservedDataAvailabilityMode_Reserved.

Record IntermediateDeclareTransaction : Type := mkIntermediateDeclareTransaction {
  IntermediateDeclare_resource_bounds : option ResourceBoundsMapping;
  IntermediateDeclare_tip : option Tip;
  IntermediateDeclare_signature : TransactionSignature;
  IntermediateDeclare_nonce : Nonce;
  IntermediateDeclare_class_hash : ClassHash;
  IntermediateDeclare_compiled_class_hash : option CompiledClassHash;
  IntermediateDeclare_sender_address : Z;
  IntermediateDeclare_nonce_data_availability_mode : option ReservedDataAvailabilityMode;
  IntermediateDeclare_fee_data_availability_mode : option ReservedDataAvailabilityMode;
  IntermediateDeclare_paymaster_data : option PaymasterData;
  IntermediateDeclare_account_deployment_data : option AccountDeploymentData;
  IntermediateDeclare_max_fee : option Fee;
  IntermediateDeclare_version : TransactionVersion;
  IntermediateDeclare_transaction_hash : TransactionHash
}.

Record ClientDeployTransaction : Type := mkClientDeployTransaction {
  ClientDeploy_contract_address : Z;
  ClientDeploy_contract_address_salt : ContractAddressSalt;
  ClientDeploy_class_hash : ClassHash;
  ClientDeploy_constructor_calldata : Calldata;
  ClientDeploy_transaction_hash : TransactionHash;
  ClientDeploy_version : TransactionVersion
}.

Record IntermediateDeployAccountTransaction : Type := mkIntermediateDeployAccountTransaction {
  IntermediateDeployAccount_resource_bounds : option ResourceBoundsMapping;
  IntermediateDeployAccount_tip : option Tip;
  IntermediateDeployAccount_signature : TransactionSignature;
  IntermediateDeployAccount_nonce : Nonce;
  IntermediateDeployAccount_class_hash : ClassHash;
  IntermediateDeployAccount_contract_address_salt : ContractAddressSalt;
  IntermediateDeployAccount_constructor_calldata : Calldata;
  IntermediateDeployAccount_nonce_data_availability_mode : option ReservedDataAvailabilityMode;
  IntermediateDeployAccount_fee_data_availability_mode : option ReservedDataAvailabilityMode;
  IntermediateDeployAccount_paymaster_data : option PaymasterData;
  IntermediateDeployAccount_sender_address : Z;
  IntermediateDeployAccount_max_fee : option Fee;
  IntermediateDeployAccount_transaction_hash : TransactionHash;
  IntermediateDeployAccount_version : TransactionVersion
}.

Record IntermediateInvokeTransaction : Type := mkIntermediateInvokeTransaction {
  IntermediateInvoke_resource_bounds : option ResourceBoundsMapping;
  IntermediateInvoke_tip : option Tip;
  IntermediateInvoke_calldata : Calldata;
  IntermediateInvoke_sender_address : Z;
  IntermediateInvoke_entry_point_selector : option EntryPointSelector;
  IntermediateInvoke_nonce : option Nonce;
  IntermediateInvoke_max_fee : option Fee;
  IntermediateInvoke_signature : TransactionSignature;
  IntermediateInvoke_nonce_data_availability_mode : option ReservedDataAvailabilityMode;
  IntermediateInvoke_fee_data_availability_mode : option ReservedDataAvailabilityMode;
  IntermediateInvoke_paymaster_data : option PaymasterData;
  IntermediateInvoke_account_deployment_data : option AccountDeploymentData;
  IntermediateInvoke_transaction_hash : TransactionHash;
  IntermediateInvoke_version : TransactionVersion
}.

Inductive ClientTransaction : Type :=
| ClientTransaction_Declare (tx : IntermediateDeclareTransaction)
| ClientTransaction_DeployAccount (tx : IntermediateDeployAccountTransaction)
| ClientTransaction_Deploy (tx : ClientDeployTransaction)
| ClientTransaction_Invoke (tx : IntermediateInvokeTransaction)
| ClientTransaction_L1Handler (tx : ClientL1HandlerTransaction).

Inductive TransactionType : Type :=
| TransactionType_Declare
| TransactionType_Deploy
| TransactionType_DeployAccount
| TransactionType_InvokeFunction
| TransactionType_L1Handler.

#[global] Instance TransactionType_eq_dec : EqDecision TransactionType.
Proof. solve_decision. Defined.

Definition client_transaction_hash (tx : ClientTransaction) : Z :=
  match tx with
  | ClientTransaction_Declare tx => IntermediateDeclare_transaction_hash tx
  | ClientTransaction_Deploy tx => ClientDeploy_transaction_hash tx
  | ClientTransaction_DeployAccount tx => IntermediateDeployAccount_transaction_hash tx
  | ClientTransaction_Invoke tx => IntermediateInvoke_transaction_hash tx
  | ClientTransaction_L1Handler tx => ClientL1Handler_transaction_hash tx
  end.

Definition client_transaction_type (tx : ClientTransaction) : TransactionType :=
  match tx with
  | ClientTransaction_Declare _ => TransactionType_Declare
  | ClientTransaction_Deploy _ => TransactionType_Deploy
  | ClientTransaction_DeployAccount _ => TransactionType_DeployAccount
  | ClientTransaction_Invoke _ => TransactionType_InvokeFunction
  | ClientTransaction_L1Handler _ => TransactionType_L1Handler
  end.

Definition client_contract_address (tx : ClientTransaction) : option Z :=
  match tx with
  | ClientTransaction_Deploy tx => Some (ClientDeploy_contract_address tx)
  | ClientTransaction_DeployAccount tx => Some (IntermediateDeployAccount_sender_address tx)
  | _ => None
  end.

Definition client_transaction_version (tx : ClientTransaction) : Z :=
  match tx with
  | ClientTransaction_Declare tx => IntermediateDeclare_version tx
  | ClientTransaction_Deploy tx => ClientDeploy_version tx
  | ClientTransaction_DeployAccount tx => IntermediateDeployAccount_version tx
  | ClientTransaction_Invoke tx => IntermediateInvoke_version tx
  | ClientTransaction_L1Handler tx => ClientL1Handler_version tx
  end.

(** ** Receipts *)

Inductive ClientBuiltin : Type :=
| ClientBuiltin_RangeCheck
| ClientBuiltin_Pedersen
| ClientBuiltin_Poseidon
| ClientBuiltin_EcOp
| ClientBuiltin_Ecdsa
| ClientBuiltin_Bitwise
| ClientBuiltin_Keccak
| ClientBuiltin_Output
| ClientBuiltin_SegmentArena
| ClientBuiltin_AddMod
| ClientBuiltin_MulMod
| ClientBuiltin_RangeCheck96.

#[global] Instance ClientBuiltin_eq_dec : EqDecision ClientBuiltin.
Proof. solve_decision. Defined.

(** The node's builtin; the output builtin has none. *)
Definition convert_builtin (builtin : ClientBuiltin) : option Builtin :=
  match builtin with
  | ClientBuiltin_RangeCheck => Some Builtin_RangeCheck
  | ClientBuiltin_Pedersen => Some Builtin_Pedersen
  | ClientBuiltin_Poseidon => Some Builtin_Poseidon
  | ClientBuiltin_EcOp => Some Builtin_EcOp
  | ClientBuiltin_Ecdsa => Some Builtin_Ecdsa
  | ClientBuiltin_Bitwise => Some Builtin_Bitwise
  | ClientBuiltin_Keccak => Some Builtin_Keccak
  | ClientBuiltin_Output => None
  | ClientBuiltin_SegmentArena => Some Builtin_SegmentArena
  | ClientBuiltin_AddMod => Some Builtin_AddMod
  | ClientBuiltin_MulMod => Some Builtin_MulMod
  | ClientBuiltin_RangeCheck96 => Some Builtin_RangeCheck96
  end.

#[global] Instance ClientBuiltin_countable : Countable ClientBuiltin.
Proof.
  refine (inj_countable' convert_builtin
    (fun b => match b with
      | None => ClientBuiltin_Output
      | Some Builtin_RangeCheck => ClientBuiltin_RangeCheck
      | Some Builtin_Pedersen => ClientBuiltin_Pedersen
      | Some Builtin_Poseidon => ClientBuiltin_Poseidon
      | Some Builtin_EcOp => ClientBuiltin_EcOp
      | Some Builtin_Ecdsa => ClientBuiltin_Ecdsa
      | Some Builtin_Bitwise => ClientBuiltin_Bitwise
      | Some Builtin_Keccak => ClientBuiltin_Keccak
      | Some Builtin_SegmentArena => ClientBuiltin_SegmentArena
      | Some Builtin_AddMod => ClientBuiltin_AddMod
      | Some Builtin_MulMod => ClientBuiltin_MulMod
      | Some Builtin_RangeCheck96 => ClientBuiltin_RangeCheck96
      end) _); by intros [].
Defined.

Record ClientExecutionResources : Type := mkClientExecutionResources {
  ClientExecutionResources_n_steps : Z;
  ClientExecutionResources_builtin_instance_counter : gmap ClientBuiltin Z;
  ClientExecutionResources_n_memory_holes : Z;
  ClientExecutionResources_data_availability : option GasVector;
  ClientExecutionResources_total_gas_consumed : option GasVector
}.

Record L1ToL2Message : Type := mkL1ToL2Message {
  L1ToL2Message_from_address : EthAddress;
  L1ToL2Message_to_address : Z;
  L1ToL2Message_selector : EntryPointSelector;
  L1ToL2Message_payload : L1ToL2Payload;
  L1ToL2Message_nonce : Z
}.

#[global] Instance L1ToL2Message_eq_dec : EqDecision L1ToL2Message.
Proof. solve_decision. Defined.

(** An [EthAddress] is twenty bytes. *)
Definition default_L1ToL2Message : L1ToL2Message := mkL1ToL2Message (replicate 20 0) 0 0 [] 0.

Record L2ToL1Message : Type := mkL2ToL1Message {
  L2ToL1Message_from_address : Z;
  L2ToL1Message_to_address : EthAddress;
  L2ToL1Message_payload : L2ToL1Payload
}.

Inductive ClientTransactionExecutionStatus : Type :=
| ClientTransactionExecutionStatus_Succeeded
| ClientTransactionExecutionStatus_Reverted.

Record TransactionReceipt : Type := mkTransactionReceipt {
  TransactionReceipt_transaction_index : Z;
  TransactionReceipt_transaction_hash : TransactionHash;
  TransactionReceipt_l1_to_l2_consumed_message : L1ToL2Message;
  TransactionReceipt_l2_to_l1_messages : list L2ToL1Message;
  TransactionReceipt_events : list Event;
  TransactionReceipt_execution_resources : ClientExecutionResources;
  TransactionReceipt_actual_fee : Fee;
  TransactionReceipt_execution_status : ClientTransactionExecutionStatus;
  TransactionReceipt_revert_error : option rstring
}.

(** ** Errors *)

Inductive TransactionReceiptsError : Type :=
| WrongNumberOfReceipts (block_number num_of_txs num_of_receipts : Z)
| MismatchFields (block_number tx_index tx_hash : Z) (tx_type : TransactionType)
| MismatchTransactionHash (block_number tx_index tx_hash receipt_tx_hash : Z)
| MismatchTransactionIndex (block_number tx_index tx_hash receipt_tx_index : Z).

(** Errors of the connection and of the JSON decoding carry no data here. *)
Inductive ReaderClientError : Type :=
| ReaderClientError_ClientError
| ReaderClientError_SerdeError
| ReaderClientError_StarknetApiError
| ReaderClientError_TransactionReceiptsError (e : TransactionReceiptsError)
| ReaderClientError_BadTransaction (tx_hash : TransactionHash).

Definition Convert (A : Type) : Type := M unit ReaderClientError A.

(** ** Conversions of transactions *)

Definition convert_l1_handler (tx : ClientL1HandlerTransaction) : L1HandlerTransaction := {|
  L1HandlerTransaction_version := ClientL1Handler_version tx;
  L1HandlerTransaction_nonce := ClientL1Handler_nonce tx;
  L1HandlerTransaction_contract_address := ClientL1Handler_contract_address tx;
  L1HandlerTransaction_entry_point_selector := ClientL1Handler_entry_point_selector tx;
  L1HandlerTransaction_calldata := ClientL1Handler_calldata tx
|}.

Definition convert_reserved_mode (_ : ReservedDataAvailabilityMode) : DataAvailabilityMode := DataAvailabilityMode_L1.

(** A field that the version of the transaction asks for. *)
Definition required {A} (tx_hash : Z) (field : option A) : Convert A :=
  ok_or_raise (ReaderClientError_BadTransaction tx_hash) field.

Definition convert_declare_v0_v1 (tx : IntermediateDeclareTransaction) : Convert DeclareTransactionV0V1 :=
  let! max_fee := required (IntermediateDeclare_transaction_hash tx) (IntermediateDeclare_max_fee tx) in
  ret {|
    DeclareTransactionV0V1_max_fee := max_fee;
    DeclareTransactionV0V1_signature := IntermediateDeclare_signature tx;
    DeclareTransactionV0V1_nonce := IntermediateDeclare_nonce tx;
    DeclareTransactionV0V1_class_hash := IntermediateDeclare_class_hash tx;
    DeclareTransactionV0V1_sender_address := IntermediateDeclare_sender_address tx
  |}.

Definition convert_declare_v2 (tx : IntermediateDeclareTransaction) : Convert DeclareTransactionV2 :=
  let hash := IntermediateDeclare_transaction_hash tx in
  let! max_fee := required hash (IntermediateDeclare_max_fee tx) in
  let! compiled_class_hash := required hash (IntermediateDeclare_compiled_class_hash tx) in
  ret {|
    DeclareTransactionV2_max_fee := max_fee;
    DeclareTransactionV2_signature := IntermediateDeclare_signature tx;
    DeclareTransactionV2_nonce := IntermediateDeclare_nonce tx;
    DeclareTransactionV2_class_hash := IntermediateDeclare_class_hash tx;
    DeclareTransactionV2_compiled_class_hash := compiled_class_hash;
    DeclareTransactionV2_sender_address := IntermediateDeclare_sender_address tx
  |}.

Definition convert_declare_v3 (tx : IntermediateDeclareTransaction) : Convert DeclareTransactionV3 :=
  let hash := IntermediateDeclare_transaction_hash tx in
  let! resource_bounds := required hash (IntermediateDeclare_resource_bounds tx) in
  let! tip := required hash (IntermediateDeclare_tip tx) in
  let! compiled_class_hash := required hash (IntermediateDeclare_compiled_class_hash tx) in
  let! nonce_mode := required hash (IntermediateDeclare_nonce_data_availability_mode tx) in
  let! fee_mode := required hash (IntermediateDeclare_fee_data_availability_mode tx) in
  let! paymaster_data := required hash (IntermediateDeclare_paymaster_data tx) in
  let! account_deployment_data := required hash (IntermediateDeclare_account_deployment_data tx) in
  ret {|
    DeclareTransactionV3_resource_bounds := resource_bounds;
    DeclareTransactionV3_tip := tip;
    DeclareTransactionV3_signature := IntermediateDeclare_signature tx;
    DeclareTransactionV3_nonce := IntermediateDeclare_nonce tx;
    DeclareTransactionV3_class_hash := IntermediateDeclare_class_hash tx;
    DeclareTransactionV3_compiled_class_hash := compiled_class_hash;
    DeclareTransactionV3_sender_address := IntermediateDeclare_sender_address tx;
    DeclareTransactionV3_nonce_data_availability_mode := convert_reserved_mode nonce_mode;
    DeclareTransactionV3_fee_data_availability_mode := convert_reserved_mode fee_mode;
    DeclareTransactionV3_paymaster_data := paymaster_data;
    DeclareTransactionV3_account_deployment_data := account_deployment_data
  |}.

Definition convert_declare (tx : IntermediateDeclareTransaction) : Convert DeclareTransaction :=
  if IntermediateDeclare_version tx =? 0 then let! v := convert_declare_v0_v1 tx in ret (DeclareTransaction_V0 v)
  else if IntermediateDeclare_version tx =? 1 then let! v := convert_declare_v0_v1 tx in ret (DeclareTransaction_V1 v)
  else if IntermediateDeclare_version tx =? 2 then let! v := convert_declare_v2 tx in ret (DeclareTransaction_V2 v)
  else if IntermediateDeclare_version tx =? 3 then let! v := convert_declare_v3 tx in ret (DeclareTransaction_V3 v)
  else raise (ReaderClientError_BadTransaction (IntermediateDeclare_transaction_hash tx)).

Definition convert_deploy (tx : ClientDeployTransaction) : DeployTransaction := {|
  DeployTransaction_version := ClientDeploy_version tx;
  DeployTransaction_class_hash := ClientDeploy_class_hash tx;
  DeployTransaction_contract_address_salt := ClientDeploy_contract_address_salt tx;
  DeployTransaction_constructor_calldata := ClientDeploy_constructor_calldata tx
|}.

Definition convert_deploy_account_v1 (tx : IntermediateDeployAccountTransaction) : Convert DeployAccountTransactionV1 :=
  let! max_fee := required (IntermediateDeployAccount_transaction_hash tx) (IntermediateDeployAccount_max_fee tx) in
  ret {|
    DeployAccountTransactionV1_max_fee := max_fee;
    DeployAccountTransactionV1_signature := IntermediateDeployAccount_signature tx;
    DeployAccountTransactionV1_nonce := IntermediateDeployAccount_nonce tx;
    DeployAccountTransactionV1_class_hash := IntermediateDeployAccount_class_hash tx;
    DeployAccountTransactionV1_contract_address_salt := IntermediateDeployAccount_contract_address_salt tx;
    DeployAccountTransactionV1_constructor_calldata := IntermediateDeployAccount_constructor_calldata tx
  |}.

Definition convert_deploy_account_v3 (tx : IntermediateDeployAccountTransaction) : Convert DeployAccountTransactionV3 :=
  let hash := IntermediateDeployAccount_transaction_hash tx in
  let! resource_bounds := required hash (IntermediateDeployAccount_resource_bounds tx) in
  let! tip := required hash (IntermediateDeployAccount_tip tx) in
  let! nonce_mode := required hash (IntermediateDeployAccount_nonce_data_availability_mode tx) in
  let! fee_mode := required hash (IntermediateDeployAccount_fee_data_availability_mode tx) in
  let! paymaster_data := required hash (IntermediateDeployAccount_paymaster_data tx) in
  ret {|
    DeployAccountTransactionV3_resource_bounds := resource_bounds;
    DeployAccountTransactionV3_tip := tip;
    DeployAccountTransactionV3_signature := IntermediateDeployAccount_signature tx;
    DeployAccountTransactionV3_nonce := IntermediateDeployAccount_nonce tx;
    DeployAccountTransactionV3_class_hash := IntermediateDeployAccount_class_hash tx;
    DeployAccountTransactionV3_contract_address_salt := IntermediateDeployAccount_contract_address_salt tx;
    DeployAccountTransactionV3_constructor_calldata := IntermediateDeployAccount_constructor_calldata tx;
    DeployAccountTransactionV3_nonce_data_availability_mode := convert_reserved_mode nonce_mode;
    DeployAccountTransactionV3_fee_data_availability_mode := convert_reserved_mode fee_mode;
    DeployAccountTransactionV3_paymaster_data := paymaster_data
  |}.

Definition convert_deploy_account (tx : IntermediateDeployAccountTransaction) : Convert DeployAccountTransaction :=
  if IntermediateDeployAccount_version tx =? 1 then
    let! v := convert_deploy_account_v1 tx in ret (DeployAccountTransaction_V1 v)
  else if IntermediateDeployAccount_version tx =? 3 then
    let! v := convert_deploy_account_v3 tx in ret (DeployAccountTransaction_V3 v)
  else raise (ReaderClientError_BadTransaction (IntermediateDeployAccount_transaction_hash tx)).

Definition convert_invoke_v0 (tx : IntermediateInvokeTransaction) : Convert InvokeTransactionV0 :=
  let hash := IntermediateInvoke_transaction_hash tx in
  let! max_fee := required hash (IntermediateInvoke_max_fee tx) in
  let! entry_point_selector := required hash (IntermediateInvoke_entry_point_selector tx) in
  ret {|
    InvokeTransactionV0_max_fee := max_fee;
    InvokeTransactionV0_signature := IntermediateInvoke_signature tx;
    InvokeTransactionV0_contract_address := IntermediateInvoke_sender_address tx;
    InvokeTransactionV0_entry_point_selector := entry_point_selector;
    InvokeTransactionV0_calldata := IntermediateInvoke_calldata tx
  |}.

Definition convert_invoke_v1 (tx : IntermediateInvokeTransaction) : Convert InvokeTransactionV1 :=
  let hash := IntermediateInvoke_transaction_hash tx in
  let! max_fee := required hash (IntermediateInvoke_max_fee tx) in
  let! nonce := required hash (IntermediateInvoke_nonce tx) in
  ret {|
    InvokeTransactionV1_max_fee := max_fee;
    InvokeTransactionV1_signature := IntermediateInvoke_signature tx;
    InvokeTransactionV1_nonce := nonce;
    InvokeTransactionV1_sender_address := IntermediateInvoke_sender_address tx;
    InvokeTransactionV1_calldata := IntermediateInvoke_calldata tx
  |}.

Definition convert_invoke_v3 (tx : IntermediateInvokeTransaction) : Convert InvokeTransactionV3 :=
  let hash := IntermediateInvoke_transaction_hash tx in
  let! resource_bounds := required hash (IntermediateInvoke_resource_bounds tx) in
  let! tip := required hash (IntermediateInvoke_tip tx) in
  let! nonce := required hash (IntermediateInvoke_nonce tx) in
  let! nonce_mode := required hash (IntermediateInvoke_nonce_data_availability_mode tx) in
  let! fee_mode := required hash (IntermediateInvoke_fee_data_availability_mode tx) in
  let! paymaster_data := required hash (IntermediateInvoke_paymaster_data tx) in
  let! account_deployment_data := required hash (IntermediateInvoke_account_deployment_data tx) in
  ret {|
    InvokeTransactionV3_resource_bounds := resource_bounds;
    InvokeTransactionV3_tip := tip;
    InvokeTransactionV3_signature := IntermediateInvoke_signature tx;
    InvokeTransactionV3_nonce := nonce;
    InvokeTransactionV3_sender_address := IntermediateInvoke_sender_address tx;
    InvokeTransactionV3_calldata := IntermediateInvoke_calldata tx;
    InvokeTransactionV3_nonce_data_availability_mode := convert_reserved_mode nonce_mode;
    InvokeTransactionV3_fee_data_availability_mode := convert_reserved_mode fee_mode;
    InvokeTransactionV3_paymaster_data := paymaster_data;
    InvokeTransactionV3_account_deployment_data := account_deployment_data
  |}.

Definition convert_invoke (tx : IntermediateInvokeTransaction) : Convert InvokeTransaction :=
  if IntermediateInvoke_version tx =? 0 then let! v := convert_invoke_v0 tx in ret (InvokeTransaction_V0 v)
  else if IntermediateInvoke_version tx =? 1 then let! v := convert_invoke_v1 tx in ret (InvokeTransaction_V1 v)
  else if IntermediateInvoke_version tx =? 3 then let! v := convert_invoke_v3 tx in ret (InvokeTransaction_V3 v)
  else raise (ReaderClientError_BadTransaction (IntermediateInvoke_transaction_hash tx)).

Definition convert_transaction (tx : ClientTransaction) : Convert Transaction :=
  match tx with
  | ClientTransaction_Declare declare_tx => let! t := convert_declare declare_tx in ret (Transaction_Declare t)
  | ClientTransaction_Deploy deploy_tx => ret (Transaction_Deploy (convert_deploy deploy_tx))
  | ClientTransaction_DeployAccount deploy_acc_tx =>
      let! t := convert_deploy_account deploy_acc_tx in ret (Transaction_DeployAccount t)
  | ClientTransaction_Invoke invoke_tx => let! t := convert_invoke invoke_tx in ret (Transaction_Invoke t)
  | ClientTransaction_L1Handler l1_handler_tx => ret (Transaction_L1Handler (convert_l1_handler l1_handler_tx))
  end.

(** [collect::<Result<_, _>>()?]. *)
Fixpoint convert_all (txs : list ClientTransaction) : Convert (list Transaction) :=
  match txs with
  | [] => ret []
  | tx :: txs' => let! t := convert_transaction tx in let! ts := convert_all txs' in ret (t :: ts)
  end.

(** ** Conversions of receipts *)

Definition default_GasVector : GasVector := mkGasVector 0 0.

Definition convert_execution_resources (r : ClientExecutionResources) : ExecutionResources :=
  let da_gas_consumed := default default_GasVector (ClientExecutionResources_data_availability r) in
  {|
    ExecutionResources_steps := ClientExecutionResources_n_steps r;
    ExecutionResources_builtin_instance_counter :=
      list_to_map (omap (fun '(builtin, count) => (fun b => (b, count)) <$> convert_builtin builtin)
        (map_to_list (ClientExecutionResources_builtin_instance_counter r)));
    ExecutionResources_memory_holes := ClientExecutionResources_n_memory_holes r;
    ExecutionResources_da_gas_consumed := da_gas_consumed;
    ExecutionResources_gas_consumed :=
      match ClientExecutionResources_total_gas_consumed r with
      | Some total_gas_consumed => total_gas_consumed
      | None => mkGasVector 0 (GasVector_l1_data_gas da_gas_consumed)
      end
  |}.

Definition convert_l2_to_l1_message (m : L2ToL1Message) : MessageToL1 := {|
  MessageToL1_to_address := L2ToL1Message_to_address m;
  MessageToL1_payload := L2ToL1Message_payload m;
  MessageToL1_from_address := L2ToL1Message_from_address m
|}.

Definition convert_l1_to_l2_message (m : L1ToL2Message) : MessageToL2 := {|
  MessageToL2_from_address := L1ToL2Message_from_address m;
  MessageToL2_payload := L1ToL2Message_payload m
|}.

Definition string_bytes (s : string) : rstring := (fun c => Z.of_N (Ascii.N_of_ascii c)) <$> String.list_ascii_of_string s.

Definition convert_execution_status (receipt : TransactionReceipt) : TransactionExecutionStatus :=
  match TransactionReceipt_execution_status receipt with
  | ClientTransactionExecutionStatus_Succeeded => TransactionExecutionStatus_Succeeded
  | ClientTransactionExecutionStatus_Reverted =>
      TransactionExecutionStatus_Reverted (mkRevertedTransactionExecutionStatus
        (default (string_bytes "Reverted without a reason") (TransactionReceipt_revert_error receipt)))
  end.

Definition into_starknet_api_transaction_output (receipt : TransactionReceipt) (transaction : ClientTransaction) :
    Convert TransactionOutput :=
  let contract_address := client_contract_address transaction in
  let execution_status := convert_execution_status receipt in
  let messages_sent := convert_l2_to_l1_message <$> TransactionReceipt_l2_to_l1_messages receipt in
  let execution_resources := convert_execution_resources (TransactionReceipt_execution_resources receipt) in
  let actual_fee := TransactionReceipt_actual_fee receipt in
  let events := TransactionReceipt_events receipt in
  match client_transaction_type transaction with
  | TransactionType_Declare =>
      ret (TransactionOutput_Declare
        (mkDeclareTransactionOutput actual_fee messages_sent events execution_status execution_resources))
  | TransactionType_Deploy =>
      let! contract_address := expect contract_address in
      ret (TransactionOutput_Deploy
        (mkDeployTransactionOutput actual_fee messages_sent events contract_address execution_status execution_resources))
  | TransactionType_DeployAccount =>
      let! contract_address := expect contract_address in
      ret (TransactionOutput_DeployAccount
        (mkDeployAccountTransactionOutput actual_fee messages_sent events contract_address execution_status
           execution_resources))
  | TransactionType_InvokeFunction =>
      ret (TransactionOutput_Invoke
        (mkInvokeTransactionOutput actual_fee messages_sent events execution_status execution_resources))
  | TransactionType_L1Handler =>
      ret (TransactionOutput_L1Handler
        (mkL1HandlerTransactionOutput actual_fee messages_sent events execution_status execution_resources))
  end.

(** ** Blocks *)

Inductive ClientBlockStatus : Type :=
| ClientBlockStatus_Aborted
| ClientBlockStatus_AcceptedOnL1
| ClientBlockStatus_AcceptedOnL2
| ClientBlockStatus_Pending
| ClientBlockStatus_Reverted.

Definition convert_block_status (status : ClientBlockStatus) : BlockStatus :=
  match status with
  | ClientBlockStatus_Aborted => BlockStatus_Rejected
  | ClientBlockStatus_AcceptedOnL1 => BlockStatus_AcceptedOnL1
  | ClientBlockStatus_AcceptedOnL2 => BlockStatus_AcceptedOnL2
  | ClientBlockStatus_Pending => BlockStatus_Pending
  | ClientBlockStatus_Reverted => BlockStatus_Rejected
  end.

(** [BlockPostV0_13_1], the one variant of the enum [Block]. *)
Record ClientBlock : Type := mkClientBlock {
  ClientBlock_block_hash : BlockHash;
  ClientBlock_block_number : Z;
  ClientBlock_parent_block_hash : BlockHash;
  ClientBlock_sequencer_address : SequencerContractAddress;
  ClientBlock_state_root : GlobalRoot;
  ClientBlock_status : ClientBlockStatus;
  ClientBlock_timestamp : BlockTimestamp;
  ClientBlock_transactions : list ClientTransaction;
  ClientBlock_transaction_receipts : list TransactionReceipt;
  ClientBlock_starknet_version : rstring;
  ClientBlock_l1_da_mode : L1DataAvailabilityMode;
  ClientBlock_l1_gas_price : GasPricePerToken;
  ClientBlock_l1_data_gas_price : GasPricePerToken;
  ClientBlock_transaction_commitment : TransactionCommitment;
  ClientBlock_event_commitment : EventCommitment;
  ClientBlock_state_diff_commitment : option StateDiffCommitment;
  ClientBlock_receipt_commitment : option ReceiptCommitment;
  ClientBlock_state_diff_length : option Z
}.

Record BlockSignatureMessage : Type := mkBlockSignatureMessage {
  BlockSignatureMessage_block_hash : BlockHash;
  BlockSignatureMessage_state_diff_commitment : GlobalRoot
}.

Inductive BlockSignatureData : Type :=
| BlockSignatureData_Deprecated (block_number : Z) (signature : Z * Z) (signature_input : BlockSignatureMessage)
| BlockSignatureData_V0_13_2 (block_hash : Z) (signature : Z * Z).

(** [starknet_api::block::Block]. *)
Record Block : Type := mkBlock {
  Block_header : BlockHeader;
  Block_body : BlockBody
}.

Definition sum_lengths {A B} (f : A -> list B) (l : list A) : Z := foldl (fun acc x => acc + zlength (f x)) 0 l.

Definition client_block_header (block : ClientBlock) : BlockHeader :=
  let is_post_v0_13_2 := bool_decide (is_Some (ClientBlock_receipt_commitment block)) in
  {|
    BlockHeader_block_hash := ClientBlock_block_hash block;
    BlockHeader_parent_hash := ClientBlock_parent_block_hash block;
    BlockHeader_block_number := ClientBlock_block_number block;
    BlockHeader_l1_gas_price := ClientBlock_l1_gas_price block;
    BlockHeader_l1_data_gas_price := ClientBlock_l1_data_gas_price block;
    BlockHeader_state_root := ClientBlock_state_root block;
    BlockHeader_sequencer := ClientBlock_sequencer_address block;
    BlockHeader_timestamp := ClientBlock_timestamp block;
    BlockHeader_l1_da_mode := ClientBlock_l1_da_mode block;
    BlockHeader_state_diff_commitment := ClientBlock_state_diff_commitment block;
    BlockHeader_transaction_commitment :=
      if is_post_v0_13_2 then Some (ClientBlock_transaction_commitment block) else None;
    BlockHeader_event_commitment := if is_post_v0_13_2 then Some (ClientBlock_event_commitment block) else None;
    BlockHeader_receipt_commitment := ClientBlock_receipt_commitment block;
    BlockHeader_state_diff_length := ClientBlock_state_diff_length block;
    BlockHeader_n_transactions := zlength (ClientBlock_transactions block);
    BlockHeader_n_events := sum_lengths TransactionReceipt_events (ClientBlock_transaction_receipts block);
    BlockHeader_starknet_version := ClientBlock_starknet_version block
  |}.

(** The checks of a receipt against the transaction at its position. *)
Definition check_receipt (block_number i : Z) (transaction : ClientTransaction) (receipt : TransactionReceipt) :
    Convert unit :=
  let mismatch := fun e => raise (ReaderClientError_TransactionReceiptsError e) in
  let tx_hash := client_transaction_hash transaction in
  if negb (i =? TransactionReceipt_transaction_index receipt) then
    mismatch (MismatchTransactionIndex block_number i tx_hash (TransactionReceipt_transaction_index receipt))
  else if negb (tx_hash =? TransactionReceipt_transaction_hash receipt) then
    mismatch (MismatchTransactionHash block_number i tx_hash (TransactionReceipt_transaction_hash receipt))
  else if bool_decide (client_transaction_type transaction <> TransactionType_L1Handler) &&
          bool_decide (TransactionReceipt_l1_to_l2_consumed_message receipt <> default_L1ToL2Message) then
    mismatch (MismatchFields block_number i tx_hash (client_transaction_type transaction))
  else ret tt.

(** The loop over the receipts: the outputs and the hashes; an index past the
    transactions is a panic. *)
Fixpoint convert_receipts (block_number : Z) (transactions : list ClientTransaction) (i : Z)
    (receipts : list TransactionReceipt) : Convert (list TransactionOutput * list Z) :=
  match receipts with
  | [] => ret ([], [])
  | receipt :: rest =>
      let! transaction := expect (lookup_z transactions i) in
      check_receipt block_number i transaction receipt ;!
      let! tx_output := into_starknet_api_transaction_output receipt transaction in
      let! (outputs, hashes) := convert_receipts block_number transactions (i + 1) rest in
      ret (tx_output :: outputs, TransactionReceipt_transaction_hash receipt :: hashes)
  end.

Definition to_starknet_api_block_and_version (block : ClientBlock) : Convert Block :=
  let num_of_txs := zlength (ClientBlock_transactions block) in
  let num_of_receipts := zlength (ClientBlock_transaction_receipts block) in
  if negb (num_of_txs =? num_of_receipts) then
    raise (ReaderClientError_TransactionReceiptsError
      (WrongNumberOfReceipts (ClientBlock_block_number block) num_of_txs num_of_receipts))
  else
    let header := client_block_header block in
    let! (transaction_outputs, transaction_hashes) :=
      convert_receipts (BlockHeader_block_number header) (ClientBlock_transactions block) 0
        (ClientBlock_transaction_receipts block) in
    let! transactions := convert_all (ClientBlock_transactions block) in
    ret (mkBlock header (mkBlockBody transactions transaction_outputs transaction_hashes)).

(** ** State updates *)

Record StorageEntry : Type := mkStorageEntry { StorageEntry_key : Z; StorageEntry_value : Z }.
Record DeployedContract : Type := mkDeployedContract { DeployedContract_address : Z; DeployedContract_class_hash : Z }.
Record DeclaredClassHashEntry : Type := mkDeclaredClassHashEntry {
  DeclaredClassHashEntry_class_hash : ClassHash;
  DeclaredClassHashEntry_compiled_class_hash : CompiledClassHash
}.
Record ReplacedClass : Type := mkReplacedClass { ReplacedClass_address : Z; ReplacedClass_class_hash : Z }.

Record ClientStateDiff : Type := mkClientStateDiff {
  ClientStateDiff_storage_diffs : list (Z * list StorageEntry);
  ClientStateDiff_deployed_contracts : list DeployedContract;
  ClientStateDiff_declared_classes : list DeclaredClassHashEntry;
  ClientStateDiff_old_declared_contracts : list ClassHash;
  ClientStateDiff_nonces : list (Z * Nonce);
  ClientStateDiff_replaced_classes : list ReplacedClass
}.

Record StateUpdate : Type := mkStateUpdate {
  StateUpdate_block_hash : BlockHash;
  StateUpdate_new_root : GlobalRoot;
  StateUpdate_old_root : GlobalRoot;
  StateUpdate_state_diff : ClientStateDiff
}.

Definition class_hashes (d : ClientStateDiff) : list Z :=
  let declared_class_hashes :=
    (DeclaredClassHashEntry_class_hash <$> ClientStateDiff_declared_classes d) ++ ClientStateDiff_old_declared_contracts d in
  let deployed_class_hashes :=
    filter (fun hash => hash ∉ declared_class_hashes) (DeployedContract_class_hash <$> ClientStateDiff_deployed_contracts d) in
  declared_class_hashes ++ deployed_class_hashes.

(** ** Pending data *)

Record AcceptedOnL2ExtraData : Type := mkAcceptedOnL2ExtraData {
  AcceptedOnL2ExtraData_block_hash : BlockHash;
  AcceptedOnL2ExtraData_block_number : Z;
  AcceptedOnL2ExtraData_state_root : GlobalRoot
}.

Record DeprecatedPendingBlock : Type := mkDeprecatedPendingBlock {
  DeprecatedPendingBlock_accepted_on_l2_extra_data : option AcceptedOnL2ExtraData;
  DeprecatedPendingBlock_parent_block_hash : BlockHash;
  DeprecatedPendingBlock_status : ClientBlockStatus;
  DeprecatedPendingBlock_eth_l1_gas_price : GasPrice;
  DeprecatedPendingBlock_strk_l1_gas_price : GasPrice;
  DeprecatedPendingBlock_transactions : list ClientTransaction;
  DeprecatedPendingBlock_timestamp : BlockTimestamp;
  DeprecatedPendingBlock_sequencer_address : SequencerContractAddress;
  DeprecatedPendingBlock_transaction_receipts : list TransactionReceipt;
  DeprecatedPendingBlock_starknet_version : rstring
}.

Record PendingBlock : Type := mkPendingBlock {
  PendingBlock_accepted_on_l2_extra_data : option AcceptedOnL2ExtraData;
  PendingBlock_parent_block_hash : BlockHash;
  PendingBlock_status : ClientBlockStatus;
  PendingBlock_l1_gas_price : GasPricePerToken;
  PendingBlock_l1_data_gas_price : GasPricePerToken;
  PendingBlock_transactions : list ClientTransaction;
  PendingBlock_timestamp : BlockTimestamp;
  PendingBlock_sequencer_address : SequencerContractAddress;
  PendingBlock_transaction_receipts : list TransactionReceipt;
  PendingBlock_starknet_version : rstring;
  PendingBlock_l1_da_mode : L1DataAvailabilityMode;
  PendingBlock_transaction_commitment : option TransactionCommitment;
  PendingBlock_event_commitment : option EventCommitment;
  PendingBlock_receipt_commitment : option ReceiptCommitment;
  PendingBlock_state_diff_commitment : option StateDiffCommitment;
  PendingBlock_state_diff_length : option Z
}.

Inductive PendingBlockOrDeprecated : Type :=
| PendingBlockOrDeprecated_Deprecated (block : DeprecatedPendingBlock)
| PendingBlockOrDeprecated_Current (block : PendingBlock).

Definition pending_block_hash (b : PendingBlockOrDeprecated) : option Z :=
  match b with
  | PendingBlockOrDeprecated_Deprecated block =>
      AcceptedOnL2ExtraData_block_hash <$> DeprecatedPendingBlock_accepted_on_l2_extra_data block
  | PendingBlockOrDeprecated_Current block =>
      AcceptedOnL2ExtraData_block_hash <$> PendingBlock_accepted_on_l2_extra_data block
  end.

Definition pending_parent_block_hash (b : PendingBlockOrDeprecated) : Z :=
  match b with
  | PendingBlockOrDeprecated_Deprecated block => DeprecatedPendingBlock_parent_block_hash block
  | PendingBlockOrDeprecated_Current block => PendingBlock_parent_block_hash block
  end.

Definition pending_transactions (b : PendingBlockOrDeprecated) : list ClientTransaction :=
  match b with
  | PendingBlockOrDeprecated_Deprecated block => DeprecatedPendingBlock_transactions block
  | PendingBlockOrDeprecated_Current block => PendingBlock_transactions block
  end.

Definition pending_l1_gas_price (b : PendingBlockOrDeprecated) : GasPricePerToken :=
  match b with
  | PendingBlockOrDeprecated_Deprecated block =>
      mkGasPricePerToken (DeprecatedPendingBlock_strk_l1_gas_price block) (DeprecatedPendingBlock_eth_l1_gas_price block)
  | PendingBlockOrDeprecated_Current block => PendingBlock_l1_gas_price block
  end.

Definition pending_l1_data_gas_price (b : PendingBlockOrDeprecated) : GasPricePerToken :=
  match b with
  | PendingBlockOrDeprecated_Deprecated _ => mkGasPricePerToken 0 0
  | PendingBlockOrDeprecated_Current block => PendingBlock_l1_data_gas_price block
  end.

Definition pending_l1_da_mode (b : PendingBlockOrDeprecated) : L1DataAvailabilityMode :=
  match b with
  | PendingBlockOrDeprecated_Deprecated _ => L1DataAvailabilityMode_Calldata
  | PendingBlockOrDeprecated_Current block => PendingBlock_l1_da_mode block
  end.

Record PendingStateUpdate : Type := mkPendingStateUpdate {
  PendingStateUpdate_old_root : GlobalRoot;
  PendingStateUpdate_state_diff : ClientStateDiff
}.

Record PendingData : Type := mkPendingData {
  PendingData_block : PendingBlockOrDeprecated;
  PendingData_state_update : PendingStateUpdate
}.

(** ** Classes *)

Section Classes.
Context {X : ExternalTypes}.

(** [starknet_client]'s [ContractClass]. *)
Record ClientContractClass : Type := mkClientContractClass {
  ClientContractClass_sierra_program : list Z;
  ClientContractClass_entry_points_by_type : gmap EntryPointType (list EntryPoint);
  ClientContractClass_contract_class_version : rstring;
  ClientContractClass_abi : rstring
}.

Definition convert_contract_class (class : ClientContractClass) : ContractClass := {|
  ContractClass_sierra_program := ClientContractClass_sierra_program class;
  ContractClass_entry_points_by_type := ClientContractClass_entry_points_by_type class;
  ContractClass_abi := ClientContractClass_abi class
|}.

Inductive GenericContractClass : Type :=
| Cairo0ContractClass (class : DeprecatedContractClass)
| Cairo1ContractClass (class : ClientContractClass).

Definition api_class_of_generic (value : GenericContractClass) : ApiContractClass :=
  match value with
  | Cairo0ContractClass class => ApiContractClass_DeprecatedContractClass class
  | Cairo1ContractClass class => ApiContractClass_ContractClass (convert_contract_class class)
  end.
End Classes.
