(* ===== verification/P2pServer.v ===== *)
(** * Messages of the peer-to-peer synchronisation

    Models [crates/papyrus_protobuf/src/sync.rs]: the queries, the messages that
    answer them and the length of a part of a state diff. *)

From stdpp Require Import base gmap list strings fin_maps.
From Stdlib Require Import ZArith Lia.
From S2P Require Import Prelude StorageTables StarknetTypes StorageTxn Header Body State ClientObjects.

Inductive Direction : Type := Direction_Forward | Direction_Backward.

Inductive BlockHashOrNumber : Type :=
| BlockHashOrNumber_Hash (block_hash : Z)
| BlockHashOrNumber_Number (block_number : Z).

Record Query : Type := mkQuery {
  Query_start_block : BlockHashOrNumber;
  Query_direction : Direction;
  Query_limit : Z;
  Query_step : Z
}.

(** [None] is the end of the answer. *)
Abbreviation DataOrFin A := (option A) (only parsing).

Record SignedBlockHeader : Type := mkSignedBlockHeader {
  SignedBlockHeader_block_header : BlockHeader;
  SignedBlockHeader_signatures : list Signature
}.

Record ContractDiff : Type := mkContractDiff {
  ContractDiff_contract_address : Z;
  ContractDiff_class_hash : option ClassHash;
  ContractDiff_nonce : option Nonce;
  ContractDiff_storage_diffs : list (Z * Z)
}.

Record DeclaredClass : Type := mkDeclaredClass {
  DeclaredClass_class_hash : ClassHash;
  DeclaredClass_compiled_class_hash : CompiledClassHash
}.

Record DeprecatedDeclaredClass : Type := mkDeprecatedDeclaredClass {
  DeprecatedDeclaredClass_class_hash : ClassHash
}.

Inductive StateDiffChunk : Type :=
| StateDiffChunk_ContractDiff (contract_diff : ContractDiff)
| StateDiffChunk_DeclaredClass (declared_class : DeclaredClass)
| StateDiffChunk_DeprecatedDeclaredClass (deprecated_declared_class : DeprecatedDeclaredClass).

#[global] Instance Direction_eq_dec : EqDecision Direction.
Proof. solve_decision. Defined.

#[global] Instance BlockHashOrNumber_eq_dec : EqDecision BlockHashOrNumber.
Proof. solve_decision. Defined.

#[global] Instance Query_eq_dec : EqDecision Query.
Proof. solve_decision. Defined.

(** [IndexMap::get]. *)
Definition indexmap_get {V} (l : list (Z * V)) (k : Z) : option V := (list_to_map l : gmap Z V) !! k.

Definition one_if {A} (o : option A) : Z := match o with Some _ => 1 | None => 0 end.

(** [StateDiffChunk::len]. *)
Definition chunk_len (chunk : StateDiffChunk) : Z :=
  match chunk with
  | StateDiffChunk_ContractDiff contract_diff =>
      zlength (ContractDiff_storage_diffs contract_diff) + one_if (ContractDiff_class_hash contract_diff) +
      one_if (ContractDiff_nonce contract_diff)
  | StateDiffChunk_DeclaredClass _ => 1
  | StateDiffChunk_DeprecatedDeclaredClass _ => 1
  end.

Definition chunk_is_empty (chunk : StateDiffChunk) : bool := chunk_len chunk =? 0.

(** [ThinStateDiff] is a type of [starknet_api]; its length is the number of the
    changes it holds. *)
Definition sum_z (l : list Z) : Z := foldr Z.add 0 l.

Definition change_count (d : ThinStateDiff) : Z :=
  zlength (ThinStateDiff_deployed_contracts d) + zlength (ThinStateDiff_replaced_classes d) +
  zlength (ThinStateDiff_declared_classes d) + zlength (ThinStateDiff_deprecated_declared_classes d) +
  zlength (ThinStateDiff_nonces d) + sum_z (zlength ∘ snd <$> ThinStateDiff_storage_diffs d).

Class ThinStateDiffApi : Type := {
  thin_state_diff_len : ThinStateDiff -> Z;
  thin_state_diff_len_spec : forall d, thin_state_diff_len d = change_count d
}.

Lemma chunk_len_nonneg chunk : 0 <= chunk_len chunk.
Proof. destruct chunk as [c| |]; cbn; [|lia..]. pose proof (zlength_nonneg (ContractDiff_storage_diffs c)). unfold one_if. repeat case_match; lia. Qed.

(** * The server of the peer-to-peer synchronisation

    Models [crates/papyrus_p2p_sync/src/server/mod.rs] and [utils.rs]: a query is
    answered from a read transaction of the storage, block by block, and every
    answer is closed by the end message. A trait with one implementation per kind
    of data fetches the data of a block. *)

Inductive P2PSyncServerError : Type :=
| P2PSyncServerError_DBInternalError (e : StorageError)
| P2PSyncServerError_BlockNumberOutOfRange (query : Query) (counter : Z)
| P2PSyncServerError_BlockNotFound (block_hash_or_number : BlockHashOrNumber)
| P2PSyncServerError_ClassNotFound (class_hash : Z)
| P2PSyncServerError_JoinError
| P2PSyncServerError_SignatureNotFound (block_number : Z)
| P2PSyncServerError_SendError.

Definition should_log_in_error_level (e : P2PSyncServerError) : bool :=
  match e with
  | P2PSyncServerError_JoinError | P2PSyncServerError_SignatureNotFound _ | P2PSyncServerError_SendError
  | P2PSyncServerError_DBInternalError _ => true
  | P2PSyncServerError_BlockNumberOutOfRange _ _ | P2PSyncServerError_BlockNotFound _
  | P2PSyncServerError_ClassNotFound _ => false
  end.

(** The product of the step and the counter is a [u64] and wraps; the sum is an
    [i128], which holds every sum and difference of two [u64]. *)
Definition calculate_block_number (query : Query) (start_block read_blocks_counter : Z) : Z + P2PSyncServerError :=
  let direction_factor := match Query_direction query with Direction_Forward => 1 | Direction_Backward => -1 end in
  let blocks_delta := direction_factor * wrap 64 (Query_step query * read_blocks_counter) in
  let block_number := start_block + blocks_delta in
  if (block_number <? 0) || (2 ^ 64 - 1 <? block_number)
  then inr (P2PSyncServerError_BlockNumberOutOfRange query read_blocks_counter)
  else inl block_number.

Section Server.
Context {BN : BlockNumberApi} {SN : StateNumberApi} {X : ExternalTypes} {SF : StorageFiles} {HS : HashSetIter}.
Context {TD : ThinStateDiffApi}.

(** ** Fetching the data of a block *)

Definition Fetch (A : Type) : Type := M StorageTxn P2PSyncServerError A.

Definition db_read {A} (m : Txn A) : Fetch A := map_err P2PSyncServerError_DBInternalError m.

Definition block_not_found (block_number : Z) : P2PSyncServerError :=
  P2PSyncServerError_BlockNotFound (BlockHashOrNumber_Number block_number).

(** A read of the block's data, which must be there. *)
Definition found_in_block {A} (block_number : Z) (m : Txn (option A)) : Fetch A :=
  let! o := db_read m in ok_or_raise (block_not_found block_number) o.

Definition with_state_diff_length (h : BlockHeader) (len : Z) : BlockHeader :=
  mkBlockHeader (BlockHeader_block_hash h) (BlockHeader_parent_hash h) (BlockHeader_block_number h)
    (BlockHeader_l1_gas_price h) (BlockHeader_l1_data_gas_price h) (BlockHeader_state_root h)
    (BlockHeader_sequencer h) (BlockHeader_timestamp h) (BlockHeader_l1_da_mode h)
    (BlockHeader_state_diff_commitment h) (BlockHeader_transaction_commitment h)
    (BlockHeader_event_commitment h) (BlockHeader_receipt_commitment h) (Some len)
    (BlockHeader_n_transactions h) (BlockHeader_n_events h) (BlockHeader_starknet_version h).

(** The header with the length of the state diff filled in, and the signature. *)
Definition fetch_signed_header (block_number : Z) : Fetch (list SignedBlockHeader) :=
  let! header := found_in_block block_number (get_block_header block_number) in
  let! header :=
    match BlockHeader_state_diff_length header with
    | None =>
        let! state_diff := found_in_block block_number (get_state_diff block_number) in
        ret (with_state_diff_length header (thin_state_diff_len state_diff))
    | Some _ => ret header
    end in
  let! signature := db_read (get_block_signature block_number) in
  let! signature := ok_or_raise (P2PSyncServerError_SignatureNotFound block_number) signature in
  ret [mkSignedBlockHeader header [signature]].

(** The addresses of the changed contracts, a [HashSet]. *)
Definition contract_addresses (d : ThinStateDiff) : gset Z :=
  list_to_set ((ThinStateDiff_deployed_contracts d).*1 ++ (ThinStateDiff_replaced_classes d).*1 ++
               (ThinStateDiff_nonces d).*1 ++ (ThinStateDiff_storage_diffs d).*1).

Definition contract_diff_of (d : ThinStateDiff) (contract_address : Z) : StateDiffChunk :=
  let class_hash :=
    match indexmap_get (ThinStateDiff_deployed_contracts d) contract_address with
    | Some class_hash => Some class_hash
    | None => indexmap_get (ThinStateDiff_replaced_classes d) contract_address
    end in
  let storage_diffs := default [] (indexmap_get (ThinStateDiff_storage_diffs d) contract_address) in
  let nonce := indexmap_get (ThinStateDiff_nonces d) contract_address in
  StateDiffChunk_ContractDiff (mkContractDiff contract_address class_hash nonce storage_diffs).

Definition split_thin_state_diff (d : ThinStateDiff) : list StateDiffChunk :=
  (contract_diff_of d <$> hs_iter (contract_addresses d)) ++
  ((fun '(class_hash, compiled_class_hash) =>
      StateDiffChunk_DeclaredClass (mkDeclaredClass class_hash compiled_class_hash)) <$>
     ThinStateDiff_declared_classes d) ++
  ((fun class_hash => StateDiffChunk_DeprecatedDeclaredClass (mkDeprecatedDeclaredClass class_hash)) <$>
     ThinStateDiff_deprecated_declared_classes d).

Definition fetch_state_diff_chunks (block_number : Z) : Fetch (list StateDiffChunk) :=
  let! thin_state_diff := found_in_block block_number (get_state_diff block_number) in
  ret (split_thin_state_diff thin_state_diff).

Definition fetch_transactions (block_number : Z) : Fetch (list (Transaction * TransactionOutput)) :=
  let! transactions := found_in_block block_number (get_block_transactions block_number) in
  let! transaction_outputs := found_in_block block_number (get_block_transaction_outputs block_number) in
  ret (zip transactions transaction_outputs).

Fixpoint fetch_each {A B} (f : A -> Fetch B) (l : list A) : Fetch (list B) :=
  match l with
  | [] => ret []
  | x :: l' => let! y := f x in let! rest := fetch_each f l' in ret (y :: rest)
  end.

Definition class_found {A} (class_hash : Z) (m : Txn (option A)) : Fetch A :=
  let! o := db_read m in ok_or_raise (P2PSyncServerError_ClassNotFound class_hash) o.

Definition fetch_classes (block_number : Z) : Fetch (list ApiContractClass) :=
  let! thin_state_diff := found_in_block block_number (get_state_diff block_number) in
  let! deprecated := fetch_each (fun class_hash =>
      let! c := class_found class_hash (get_deprecated_class class_hash) in
      ret (ApiContractClass_DeprecatedContractClass c))
    (ThinStateDiff_deprecated_declared_classes thin_state_diff) in
  let! classes := fetch_each (fun '(class_hash, _) =>
      let! c := class_found class_hash (get_class class_hash) in
      ret (ApiContractClass_ContractClass c))
    (ThinStateDiff_declared_classes thin_state_diff) in
  ret (deprecated ++ classes).

Definition fetch_events (block_number : Z) : Fetch (list (Event * TransactionHash)) :=
  let! transaction_outputs := found_in_block block_number (get_block_transaction_outputs block_number) in
  let! transaction_hashes := found_in_block block_number (get_block_transaction_hashes block_number) in
  ret (zip transaction_outputs transaction_hashes ≫= fun '(transaction_output, transaction_hash) =>
         (fun event => (event, transaction_hash)) <$> TransactionOutput_events transaction_output).

(** The trait and its implementations. *)
Class FetchBlockDataFromDb (Data : Type) : Type := {
  fetch_block_data_from_db : Z -> Fetch (list Data)
}.

#[global] Instance fetch_SignedBlockHeader : FetchBlockDataFromDb SignedBlockHeader := {|
  fetch_block_data_from_db := fetch_signed_header |}.
#[global] Instance fetch_StateDiffChunk : FetchBlockDataFromDb StateDiffChunk := {|
  fetch_block_data_from_db := fetch_state_diff_chunks |}.
#[global] Instance fetch_Transaction : FetchBlockDataFromDb (Transaction * TransactionOutput) := {|
  fetch_block_data_from_db := fetch_transactions |}.
#[global] Instance fetch_ApiContractClass : FetchBlockDataFromDb ApiContractClass := {|
  fetch_block_data_from_db := fetch_classes |}.
#[global] Instance fetch_Event : FetchBlockDataFromDb (Event * TransactionHash) := {|
  fetch_block_data_from_db := fetch_events |}.

(** ** Answering a query *)

(** The messages fed into the sender; [capacity] is the number of messages it
    still takes before its receiver is dropped, if it is. *)
Record Sender (Data : Type) : Type := mkSender { sent : list (DataOrFin Data); capacity : option nat }.
Arguments mkSender {Data}.
Arguments sent {Data}.
Arguments capacity {Data}.

Section Send.
Context {Data : Type} {FD : FetchBlockDataFromDb Data}.

Definition Send (A : Type) : Type := M (Sender Data) P2PSyncServerError A.

Definition feed (data : DataOrFin Data) : Send unit := fun sender =>
  match capacity sender with
  | None => Done (mkSender (sent sender ++ [data]) None) tt
  | Some (S n) => Done (mkSender (sent sender ++ [data]) (Some n)) tt
  | Some O => Fail sender P2PSyncServerError_SendError
  end.

(** A read in the transaction of the query. *)
Definition in_txn {A} (txn : StorageTxn) (m : Fetch A) : Send A := fun sender =>
  match m txn with Done _ a => Done sender a | Fail _ e => Fail sender e | Panic => Panic end.

Definition start_block_number (query : Query) : Fetch Z :=
  match Query_start_block query with
  | BlockHashOrNumber_Number num => ret num
  | BlockHashOrNumber_Hash block_hash =>
      let! o := db_read (get_block_number_by_hash block_hash) in
      ok_or_raise (P2PSyncServerError_BlockNotFound (BlockHashOrNumber_Hash block_hash)) o
  end.

(** The blocks with counters [counter], [counter + 1], ... *)
Fixpoint send_blocks (txn : StorageTxn) (query : Query) (start : Z) (blocks : nat) (counter : Z) : Send unit :=
  match blocks with
  | O => ret tt
  | S blocks' =>
      let! block_number :=
        match calculate_block_number query start counter with inl n => ret n | inr e => raise e end in
      let! data_vec := in_txn txn (fetch_block_data_from_db block_number) in
      for_each data_vec (fun data => feed (Some data)) ;!
      send_blocks txn query start blocks' (counter + 1)
  end.

Definition send_data_without_fin_for_query (txn : StorageTxn) (query : Query) : Send unit :=
  let! start := in_txn txn (start_block_number query) in
  send_blocks txn query start (Z.to_nat (Query_limit query)) 0.

(** The end message is sent even after an error; when that fails too, its error
    is the one returned. *)
Definition send_data_for_query (txn : StorageTxn) (query : Query) : Send unit := fun sender =>
  match send_data_without_fin_for_query txn query sender with
  | Done sender' _ => feed None sender'
  | Fail sender' e => (feed None ;! raise e) sender'
  | Panic => Panic
  end.

(** The spawned task: its result and whether it logged an error. *)
Definition register_query (txn : StorageTxn) (query : Query) (sender : Sender Data) :
    res (Sender Data) P2PSyncServerError unit * bool :=
  let result := send_data_for_query txn query sender in
  (result, match result with Fail _ e => should_log_in_error_level e | _ => false end).

(** An item of the receiver of one kind of queries: a query, or what could not be
    converted into one, with the sender for its answer; or its end. *)
Inductive QueryItem : Type :=
| QueryItem_Query (query_result : option Query) (response_sender : Sender Data)
| QueryItem_Dropped.

(** A branch of [run], the same for the five kinds of queries: the end of the
    receiver panics, an invalid query is ignored. *)
Definition handle_query_item (txn : StorageTxn) (item : QueryItem) :
    option (option (res (Sender Data) P2PSyncServerError unit * bool)) :=
  match item with
  | QueryItem_Dropped => None
  | QueryItem_Query None _ => Some None
  | QueryItem_Query (Some query) response_sender => Some (Some (register_query txn query response_sender))
  end.
End Send.
End Server.

Arguments mkSender {Data}.
Arguments sent {Data}.
Arguments capacity {Data}.
