(* ===== verification/P2pClient.v ===== *)
(** * The client of the peer-to-peer synchronisation

    Models [crates/papyrus_p2p_sync/src/client]: for headers and for state diffs a
    stream that queries the network for the next blocks, checks the answers and
    yields the data of one block at a time, and the loop that writes what the
    streams yield to the storage.

    A stream runs until it has something to yield or waits for the network; the
    consumer writes a yielded item before it polls the streams again. The step
    relation [client_step] interleaves the steps of the two streams in any order.
    What the network delivers to a query is a list of responses, the end of which
    is the closing of the channel. The data of one block is parsed in one step:
    the only read of the storage in it is that of a header below the header
    marker, which the other stream never changes. *)

From stdpp Require Import base gmap list strings fin_maps.
From Stdlib Require Import ZArith Lia.
From S2P Require Import Prelude StorageTables StarknetTypes StorageTxn Header State P2pServer.

Definition STEP : Z := 1.
Definition ALLOWED_SIGNATURES_LENGTH : Z := 1.

(** Durations are in seconds. *)
Definition NETWORK_DATA_TIMEOUT : Z := 300.

Record P2PSyncClientConfig : Type := mkP2PSyncClientConfig {
  num_headers_per_query : Z;
  num_block_state_diffs_per_query : Z;
  wait_period_for_new_data : Z;
  buffer_size : Z;
  stop_sync_at_block_number : option Z
}.

Definition default_P2PSyncClientConfig : P2PSyncClientConfig := {|
  num_headers_per_query := 10000;
  num_block_state_diffs_per_query := 100;
  wait_period_for_new_data := 5;
  buffer_size := 100000;
  stop_sync_at_block_number := None
|}.

Inductive TypeDescription : Type := TypeDescription_headers | TypeDescription_state_diffs.

Inductive P2PSyncError : Type :=
| P2PSyncError_HeadersUnordered (expected_block_number actual_block_number : Z)
| P2PSyncError_WrongSignaturesLength (signatures : list Signature)
| P2PSyncError_WrongStateDiffLength (expected_length : Z) (possible_lengths : list Z)
| P2PSyncError_ConflictingStateDiffParts
| P2PSyncError_EmptyStateDiffPart
| P2PSyncError_TooManyResponses
| P2PSyncError_ProtobufConversionError
| P2PSyncError_OldHeaderInStorage (block_number : Z)
| P2PSyncError_ReceiverChannelTerminated (type_description : TypeDescription)
| P2PSyncError_NetworkTimeout
| P2PSyncError_StorageError (e : StorageError)
| P2PSyncError_SendError.

(** What a channel delivers: a message, bytes that are not one, or nothing for
    [NETWORK_DATA_TIMEOUT]. *)
Inductive Response (A : Type) : Type :=
| Response_Message (m : DataOrFin A)
| Response_Invalid
| Response_Timeout.
Arguments Response_Message {A}.
Arguments Response_Invalid {A}.
Arguments Response_Timeout {A}.

(** An index map has no repeated keys, in a received part too. *)
Definition chunk_ok (chunk : StateDiffChunk) : Prop :=
  match chunk with
  | StateDiffChunk_ContractDiff c => NoDup (ContractDiff_storage_diffs c).*1
  | _ => True
  end.

Definition response_ok (r : Response StateDiffChunk) : Prop :=
  match r with Response_Message (Some chunk) => chunk_ok chunk | _ => True end.

(** The receiver of the responses of a query, as a state. *)
Definition Receive (A B : Type) : Type := M (list (Response A)) P2PSyncError B.

(** [timeout(NETWORK_DATA_TIMEOUT, receiver.next()).await?.ok_or(..)?] and the [?]
    on the message. *)
Definition next_message {A} (description : TypeDescription) : Receive A (DataOrFin A) := fun responses =>
  match responses with
  | [] => Fail [] (P2PSyncError_ReceiverChannelTerminated description)
  | Response_Message m :: rest => Done rest m
  | Response_Invalid :: rest => Fail rest P2PSyncError_ProtobufConversionError
  | Response_Timeout :: rest => Fail rest P2PSyncError_NetworkTimeout
  end.

(** ** Assembling a state diff *)

Definition set_deployed (x : list (Z * Z)) (d : ThinStateDiff) : ThinStateDiff :=
  mkThinStateDiff x (ThinStateDiff_storage_diffs d) (ThinStateDiff_declared_classes d)
    (ThinStateDiff_deprecated_declared_classes d) (ThinStateDiff_nonces d) (ThinStateDiff_replaced_classes d).
Definition set_storage (x : list (Z * list (Z * Z))) (d : ThinStateDiff) : ThinStateDiff :=
  mkThinStateDiff (ThinStateDiff_deployed_contracts d) x (ThinStateDiff_declared_classes d)
    (ThinStateDiff_deprecated_declared_classes d) (ThinStateDiff_nonces d) (ThinStateDiff_replaced_classes d).
Definition set_declared (x : list (Z * Z)) (d : ThinStateDiff) : ThinStateDiff :=
  mkThinStateDiff (ThinStateDiff_deployed_contracts d) (ThinStateDiff_storage_diffs d) x
    (ThinStateDiff_deprecated_declared_classes d) (ThinStateDiff_nonces d) (ThinStateDiff_replaced_classes d).
Definition set_deprecated_declared (x : list Z) (d : ThinStateDiff) : ThinStateDiff :=
  mkThinStateDiff (ThinStateDiff_deployed_contracts d) (ThinStateDiff_storage_diffs d)
    (ThinStateDiff_declared_classes d) x (ThinStateDiff_nonces d) (ThinStateDiff_replaced_classes d).
Definition set_diff_nonces (x : list (Z * Z)) (d : ThinStateDiff) : ThinStateDiff :=
  mkThinStateDiff (ThinStateDiff_deployed_contracts d) (ThinStateDiff_storage_diffs d)
    (ThinStateDiff_declared_classes d) (ThinStateDiff_deprecated_declared_classes d) x (ThinStateDiff_replaced_classes d).

Definition default_ThinStateDiff : ThinStateDiff := mkThinStateDiff [] [] [] [] [] [].

Definition Unite (A : Type) : Type := M ThinStateDiff P2PSyncError A.

(** [if map.insert(k, v).is_some() { return Err(ConflictingStateDiffParts) }]. *)
Definition insert_new (field : ThinStateDiff -> list (Z * Z)) (set_field : list (Z * Z) -> ThinStateDiff -> ThinStateDiff)
    (k v : Z) : Unite unit :=
  let! state_diff := get in
  let '(map, old) := indexmap_insert (field state_diff) k v in
  modify (set_field map) ;!
  match old with Some _ => raise P2PSyncError_ConflictingStateDiffParts | None => ret tt end.

Definition insert_new_if (field : ThinStateDiff -> list (Z * Z)) (set_field : list (Z * Z) -> ThinStateDiff -> ThinStateDiff)
    (k : Z) (o : option Z) : Unite unit :=
  match o with Some v => insert_new field set_field k v | None => ret tt end.

(** The storage diffs of a contract that already has some. *)
Fixpoint insert_all_new (storage_diffs entries : list (Z * Z)) : list (Z * Z) + P2PSyncError :=
  match entries with
  | [] => inl storage_diffs
  | (k, v) :: entries' =>
      let '(storage_diffs', old) := indexmap_insert storage_diffs k v in
      match old with
      | Some _ => inr P2PSyncError_ConflictingStateDiffParts
      | None => insert_all_new storage_diffs' entries'
      end
  end.

Definition unite_storage_diffs (contract_address : Z) (entries : list (Z * Z)) : Unite unit :=
  match entries with
  | [] => ret tt
  | _ :: _ =>
      let! state_diff := get in
      match indexmap_get (ThinStateDiff_storage_diffs state_diff) contract_address with
      | Some storage_diffs =>
          match insert_all_new storage_diffs entries with
          | inl storage_diffs' =>
              modify (set_storage (indexmap_insert (ThinStateDiff_storage_diffs state_diff) contract_address storage_diffs').1)
          | inr e => raise e
          end
      | None =>
          modify (set_storage (indexmap_insert (ThinStateDiff_storage_diffs state_diff) contract_address entries).1)
      end
  end.

Definition unite_state_diffs (state_diff_chunk : StateDiffChunk) : Unite unit :=
  match state_diff_chunk with
  | StateDiffChunk_ContractDiff contract_diff =>
      insert_new_if ThinStateDiff_deployed_contracts set_deployed (ContractDiff_contract_address contract_diff)
        (ContractDiff_class_hash contract_diff) ;!
      insert_new_if ThinStateDiff_nonces set_diff_nonces (ContractDiff_contract_address contract_diff)
        (ContractDiff_nonce contract_diff) ;!
      unite_storage_diffs (ContractDiff_contract_address contract_diff) (ContractDiff_storage_diffs contract_diff)
  | StateDiffChunk_DeclaredClass declared_class =>
      insert_new ThinStateDiff_declared_classes set_declared (DeclaredClass_class_hash declared_class)
        (DeclaredClass_compiled_class_hash declared_class)
  | StateDiffChunk_DeprecatedDeclaredClass deprecated_declared_class =>
      modify (fun d => set_deprecated_declared
        (ThinStateDiff_deprecated_declared_classes d ++ [DeprecatedDeclaredClass_class_hash deprecated_declared_class]) d)
  end.

Definition validate_deprecated_declared_classes_non_conflicting (state_diff : ThinStateDiff) : option P2PSyncError :=
  let classes := ThinStateDiff_deprecated_declared_classes state_diff in
  if zlength classes =? Z.of_nat (size (list_to_set classes : gset Z)) then None
  else Some P2PSyncError_ConflictingStateDiffParts.

Section Client.
Context {BN : BlockNumberApi} {SN : StateNumberApi} {X : ExternalTypes} {SF : StorageFiles} {HS : HashSetIter}.

(** ** The streams *)

(** A read in a transaction of its own. *)
Definition read_storage {A B} (storage : StorageTxn) (m : Txn B) : Receive A B := fun responses =>
  match m storage with
  | Done _ b => Done responses b
  | Fail _ e => Fail responses (P2PSyncError_StorageError e)
  | Panic => Panic
  end.

Inductive BlockNumberLimit : Type := BlockNumberLimit_Unlimited | BlockNumberLimit_HeaderMarker.

Class BlockData (Output : Type) : Type := {
  write_to_storage : Output -> Txn unit
}.

Class DataStreamBuilder (InputFromNetwork Output : Type) : Type := {
  #[global] output_data :: BlockData Output;
  TYPE_DESCRIPTION : TypeDescription;
  BLOCK_NUMBER_LIMIT : BlockNumberLimit;
  parse_data_for_block : StorageTxn -> Z -> Receive InputFromNetwork (option Output);
  get_start_block_number : Txn Z
}.

(** *** Headers *)

#[global] Instance SignedBlockHeader_data : BlockData SignedBlockHeader := {|
  write_to_storage := fun self =>
    let block_number := BlockHeader_block_number (SignedBlockHeader_block_header self) in
    append_header block_number (SignedBlockHeader_block_header self) ;!
    let! signature := expect (head (SignedBlockHeader_signatures self)) in
    append_block_signature block_number signature
|}.

Definition parse_header (block_number : Z) : Receive SignedBlockHeader (option SignedBlockHeader) :=
  let! maybe_signed_header := next_message TypeDescription_headers in
  match maybe_signed_header with
  | None => ret None
  | Some signed_block_header =>
      let actual := BlockHeader_block_number (SignedBlockHeader_block_header signed_block_header) in
      if negb (block_number =? actual) then raise (P2PSyncError_HeadersUnordered block_number actual)
      else if negb (zlength (SignedBlockHeader_signatures signed_block_header) =? ALLOWED_SIGNATURES_LENGTH)
      then raise (P2PSyncError_WrongSignaturesLength (SignedBlockHeader_signatures signed_block_header))
      else ret (Some signed_block_header)
  end.

#[global] Instance HeaderStreamBuilder : DataStreamBuilder SignedBlockHeader SignedBlockHeader := {|
  TYPE_DESCRIPTION := TypeDescription_headers;
  BLOCK_NUMBER_LIMIT := BlockNumberLimit_Unlimited;
  parse_data_for_block := fun _ block_number => parse_header block_number;
  get_start_block_number := get_header_marker
|}.

(** *** State diffs *)

#[global] Instance ThinStateDiff_data : BlockData (ThinStateDiff * Z) := {|
  write_to_storage := fun self => append_state_diff self.2 self.1
|}.

(** The loop that receives the parts of a state diff and the checks after it. *)
Fixpoint receive_state_diff (target_state_diff_len : Z) (responses : list (Response StateDiffChunk))
    (result : ThinStateDiff) (prev_result_len current_state_diff_len : Z) :
    res (list (Response StateDiffChunk)) P2PSyncError (option ThinStateDiff) :=
  if current_state_diff_len <? target_state_diff_len then
    match responses with
    | [] => Fail [] (P2PSyncError_ReceiverChannelTerminated TypeDescription_state_diffs)
    | Response_Timeout :: rest => Fail rest P2PSyncError_NetworkTimeout
    | Response_Invalid :: rest => Fail rest P2PSyncError_ProtobufConversionError
    | Response_Message None :: rest =>
        if current_state_diff_len =? 0 then Done rest None
        else Fail rest (P2PSyncError_WrongStateDiffLength target_state_diff_len [current_state_diff_len])
    | Response_Message (Some state_diff_chunk) :: rest =>
        if chunk_is_empty state_diff_chunk then Fail rest P2PSyncError_EmptyStateDiffPart
        else
          match unite_state_diffs state_diff_chunk result with
          | Done result' _ =>
              receive_state_diff target_state_diff_len rest result' current_state_diff_len
                (current_state_diff_len + chunk_len state_diff_chunk)
          | Fail _ e => Fail rest e
          | Panic => Panic
          end
    end
  else if negb (current_state_diff_len =? target_state_diff_len)
  then Fail responses (P2PSyncError_WrongStateDiffLength target_state_diff_len [prev_result_len; current_state_diff_len])
  else
    match validate_deprecated_declared_classes_non_conflicting result with
    | Some e => Fail responses e
    | None => Done responses (Some result)
    end.

Definition parse_state_diff (storage : StorageTxn) (block_number : Z) :
    Receive StateDiffChunk (option (ThinStateDiff * Z)) :=
  let! header := read_storage storage (get_block_header block_number) in
  let! header := expect header in
  let! target_state_diff_len :=
    ok_or_raise (P2PSyncError_OldHeaderInStorage block_number) (BlockHeader_state_diff_length header) in
  let! result := fun responses => receive_state_diff target_state_diff_len responses default_ThinStateDiff 0 0 in
  ret ((fun state_diff => (state_diff, block_number)) <$> result).

#[global] Instance StateDiffStreamBuilder : DataStreamBuilder StateDiffChunk (ThinStateDiff * Z) := {|
  TYPE_DESCRIPTION := TypeDescription_state_diffs;
  BLOCK_NUMBER_LIMIT := BlockNumberLimit_HeaderMarker;
  parse_data_for_block := parse_state_diff;
  get_start_block_number := get_state_marker
|}.

(** *** [create_stream]

    Where the stream stands: before its first instruction, at the head of the
    outer loop, in the loop over the blocks of a query, or after its end. *)
Inductive StreamState (Input : Type) : Type :=
| Stream_Start
| Stream_Query (current_block_number : Z)
| Stream_Blocks (current_block_number end_block_number : Z) (responses : list (Response Input))
| Stream_Ended.
Arguments Stream_Start {Input}.
Arguments Stream_Query {Input}.
Arguments Stream_Blocks {Input}.
Arguments Stream_Ended {Input}.

Inductive StreamEffect (Input Output : Type) : Type :=
| Effect_Continue (state : StreamState Input)
| Effect_Yield (output : Output) (state : StreamState Input)
| Effect_Error (e : P2PSyncError)
| Effect_Panic.
Arguments Effect_Continue {Input Output}.
Arguments Effect_Yield {Input Output}.
Arguments Effect_Error {Input Output}.
Arguments Effect_Panic {Input Output}.

Section Stream.
Context {Input Output : Type} {DB : DataStreamBuilder Input Output}.
Context (num_blocks_per_query : Z) (stop_sync_at_block_number : option Z).

(** The network: the responses to a query, or a sender that is closed. *)
Definition Network : Type := Query -> option (list (Response Input)).

(** The number of blocks to ask for; [0] means to wait for a new header. *)
Definition query_limit (storage : StorageTxn) (current_block_number : Z) : res StorageTxn StorageError Z :=
  match BLOCK_NUMBER_LIMIT with
  | BlockNumberLimit_Unlimited => Done storage num_blocks_per_query
  | BlockNumberLimit_HeaderMarker =>
      (let! last_block_number := get_header_marker in
       ret (Z.min (wrap 64 (last_block_number - current_block_number)) num_blocks_per_query)) storage
  end.

Definition waits (limit : Z) : bool :=
  match BLOCK_NUMBER_LIMIT with
  | BlockNumberLimit_Unlimited => false
  | BlockNumberLimit_HeaderMarker => limit =? 0
  end.

Definition query_for (current_block_number limit : Z) : Query := {|
  Query_start_block := BlockHashOrNumber_Number current_block_number;
  Query_direction := Direction_Forward;
  Query_limit := limit;
  Query_step := STEP
|}.

Definition send_query (network : Network) (storage : StorageTxn) (current_block_number : Z) : StreamEffect Input Output :=
  match query_limit storage current_block_number with
  | Fail _ e => Effect_Error (P2PSyncError_StorageError e)
  | Panic => Effect_Panic
  | Done _ limit =>
      if waits limit then Effect_Continue (Stream_Query current_block_number)
      else
        match network (query_for current_block_number limit) with
        | None => Effect_Error P2PSyncError_SendError
        | Some responses =>
            Effect_Continue (Stream_Blocks current_block_number (wrap 64 (current_block_number + limit)) responses)
        end
  end.

(** After a block was yielded. *)
Definition after_yield (current_block_number end_block_number : Z) (responses : list (Response Input)) : StreamState Input :=
  let next_block_number := bn_unchecked_next current_block_number in
  match stop_sync_at_block_number with
  | Some stop => if stop <=? next_block_number then Stream_Ended
                 else Stream_Blocks next_block_number end_block_number responses
  | None => Stream_Blocks next_block_number end_block_number responses
  end.

(** The message that closes the answer, awaited without a timeout. *)
Fixpoint consume_fin (current_block_number : Z) (responses : list (Response Input)) : StreamEffect Input Output :=
  match responses with
  | [] => Effect_Error (P2PSyncError_ReceiverChannelTerminated TYPE_DESCRIPTION)
  | Response_Timeout :: rest => consume_fin current_block_number rest
  | Response_Message None :: _ => Effect_Continue (Stream_Query current_block_number)
  | Response_Message (Some _) :: _ | Response_Invalid :: _ => Effect_Error P2PSyncError_TooManyResponses
  end.

Definition stream_step (network : Network) (storage : StorageTxn) (state : StreamState Input) : StreamEffect Input Output :=
  match state with
  | Stream_Start =>
      match get_start_block_number storage with
      | Done _ current_block_number => Effect_Continue (Stream_Query current_block_number)
      | Fail _ e => Effect_Error (P2PSyncError_StorageError e)
      | Panic => Effect_Panic
      end
  | Stream_Query current_block_number => send_query network storage current_block_number
  | Stream_Blocks current_block_number end_block_number responses =>
      if current_block_number <? end_block_number then
        match parse_data_for_block storage current_block_number responses with
        | Done responses' (Some output) =>
            Effect_Yield output (after_yield current_block_number end_block_number responses')
        | Done _ None => Effect_Continue (Stream_Query current_block_number)
        | Fail _ e => Effect_Error e
        | Panic => Effect_Panic
        end
      else consume_fin current_block_number responses
  | Stream_Ended => Effect_Continue Stream_Ended
  end.
End Stream.

(** ** The client *)

Record P2PSyncClient : Type := mkP2PSyncClient {
  client_storage : StorageTxn;
  client_headers : StreamState SignedBlockHeader;
  client_state_diffs : StreamState StateDiffChunk
}.

(** A client whose loop runs, or ended with an error or a panic. *)
Inductive ClientState : Type :=
| Client_Running (client : P2PSyncClient)
| Client_Failed (e : P2PSyncError)
| Client_Panicked.

Definition new_client (storage : StorageTxn) : ClientState :=
  Client_Running (mkP2PSyncClient storage Stream_Start Stream_Start).

(** The effect of a stream on the client: a yielded item is written in a
    transaction of its own, which is dropped when it fails. *)
Definition apply_effect {Input Output} {DB : DataStreamBuilder Input Output} (storage : StorageTxn)
    (resume : StorageTxn -> StreamState Input -> P2PSyncClient) (effect : StreamEffect Input Output) : ClientState :=
  match effect with
  | Effect_Continue state => Client_Running (resume storage state)
  | Effect_Yield output state =>
      match write_to_storage output storage with
      | Done storage' _ => Client_Running (resume storage' state)
      | Fail _ e => Client_Failed (P2PSyncError_StorageError e)
      | Panic => Client_Panicked
      end
  | Effect_Error e => Client_Failed e
  | Effect_Panic => Client_Panicked
  end.

Definition headers_step (config : P2PSyncClientConfig) (network : Network) (c : P2PSyncClient) : ClientState :=
  apply_effect (client_storage c)
    (fun storage state => mkP2PSyncClient storage state (client_state_diffs c))
    (stream_step (num_headers_per_query config) (stop_sync_at_block_number config) network
       (client_storage c) (client_headers c)).

Definition state_diffs_step (config : P2PSyncClientConfig) (network : Network) (c : P2PSyncClient) : ClientState :=
  apply_effect (client_storage c)
    (fun storage state => mkP2PSyncClient storage (client_headers c) state)
    (stream_step (num_block_state_diffs_per_query config) (stop_sync_at_block_number config) network
       (client_storage c) (client_state_diffs c)).

(** [run]: the merged stream polls either stream; when both have ended its
    [next] is [None] and the [expect] panics. *)
Inductive client_step (config : P2PSyncClientConfig) : ClientState -> ClientState -> Prop :=
| client_step_headers c network : client_step config (Client_Running c) (headers_step config network c)
| client_step_state_diffs c network :
    (forall query responses, network query = Some responses -> Forall response_ok responses) ->
    client_step config (Client_Running c) (state_diffs_step config network c)
| client_step_ended storage :
    client_step config (Client_Running (mkP2PSyncClient storage Stream_Ended Stream_Ended)) Client_Panicked.
End Client.

Arguments Stream_Start {Input}.
Arguments Stream_Query {Input}.
Arguments Stream_Blocks {Input}.
Arguments Stream_Ended {Input}.
Arguments Effect_Continue {Input Output}.
Arguments Effect_Yield {Input Output}.
Arguments Effect_Error {Input Output}.
Arguments Effect_Panic {Input Output}.
