(* ===== verification/P2pDiffProps.v ===== *)
(** * State diffs over the network

    Facts on the split of a state diff into parts and on their assembly: what the
    client accepts is a well-formed state diff of the announced length, and the
    parts of a state diff assemble to that state diff, with the replaced classes
    among the deployed ones. *)

From stdpp Require Import base gmap list strings fin_maps.
From Stdlib Require Import ZArith Lia.
From S2P Require Import Prelude StorageTables StarknetTypes StorageTxn Header State StateProps P2pServer P2pClient.

(** ** Index maps *)

Lemma indexmap_get_Some {V} (l : list (Z * V)) k v : NoDup l.*1 -> indexmap_get l k = Some v <-> (k, v) ∈ l.
Proof. intros Hnd. symmetry. by apply elem_of_list_to_map. Qed.

Lemma indexmap_get_None {V} (l : list (Z * V)) k : indexmap_get l k = None <-> k ∉ l.*1.
Proof. symmetry. apply not_elem_of_list_to_map. Qed.

Lemma indexmap_get_app {V} (l1 l2 : list (Z * V)) k :
  indexmap_get (l1 ++ l2) k = match indexmap_get l1 k with Some v => Some v | None => indexmap_get l2 k end.
Proof.
  unfold indexmap_get. rewrite list_to_map_app, lookup_union. by destruct (list_to_map l1 !! k); destruct (list_to_map l2 !! k).
Qed.

(** The entries of some keys. *)
Definition entries_at {V} (f : Z -> option V) (keys : list Z) : list (Z * V) := omap (fun a => pair a <$> f a) keys.

Lemma entries_at_in {V} (f : Z -> option V) keys a v : (a, v) ∈ entries_at f keys <-> a ∈ keys /\ f a = Some v.
Proof.
  unfold entries_at. rewrite list_elem_of_omap. split.
  - intros (a' & Ha & Hf). apply fmap_Some in Hf as (v' & Hf & [= -> ->]). done.
  - intros [Ha Hf]. exists a. by rewrite Hf.
Qed.

Lemma entries_at_keys {V} (f : Z -> option V) keys : (entries_at f keys).*1 = filter (fun a => is_Some (f a)) keys.
Proof.
  induction keys as [|a keys IH]; [done|]. unfold entries_at in *. cbn [omap list_omap]. rewrite filter_cons.
  destruct (f a) as [v|] eqn:Hf; cbn; [rewrite decide_True by done; by rewrite <-IH|].
  rewrite decide_False by (intros [? ?]; congruence). done.
Qed.

Lemma entries_at_keys_nodup {V} (f : Z -> option V) keys : NoDup keys -> NoDup (entries_at f keys).*1.
Proof. intros Hnd. rewrite entries_at_keys. by apply NoDup_filter. Qed.

Lemma entries_at_key {V} (f : Z -> option V) keys a : a ∈ (entries_at f keys).*1 -> a ∈ keys.
Proof. rewrite entries_at_keys. by intros [_ ?]%list_elem_of_filter. Qed.

Lemma entries_at_snoc {V} (f : Z -> option V) keys a :
  entries_at f (keys ++ [a]) = entries_at f keys ++ match f a with Some v => [(a, v)] | None => [] end.
Proof. unfold entries_at. rewrite omap_app. cbn. by destruct (f a). Qed.

(** All the entries of an index map, when the keys cover it. *)
Lemma entries_at_all {V} (l : list (Z * V)) keys :
  NoDup l.*1 -> NoDup keys -> (forall a, a ∈ l.*1 -> a ∈ keys) -> entries_at (indexmap_get l) keys ≡ₚ l.
Proof.
  intros Hl Hk Hsub. apply NoDup_Permutation.
  - eapply NoDup_fmap_1, entries_at_keys_nodup. done.
  - by eapply NoDup_fmap_1.
  - intros [a v]. rewrite entries_at_in, (indexmap_get_Some _ _ _ Hl). split; [by intros [_ ?]|]. intros Hin. split; [|done].
    apply Hsub, list_elem_of_fmap. by exists (a, v).
Qed.

(** ** Accepted state diffs *)

(** A state diff that is being assembled. *)
Record united (d : ThinStateDiff) : Prop := {
  un_ok : diff_ok d;
  un_replaced : ThinStateDiff_replaced_classes d = []
}.

Lemma sum_z_cons x l : sum_z (x :: l) = x + sum_z l.
Proof. done. Qed.

Lemma sum_z_app l1 l2 : sum_z (l1 ++ l2) = sum_z l1 + sum_z l2.
Proof. unfold sum_z. induction l1 as [|x l1 IH]; cbn; lia. Qed.

Lemma sum_z_perm l1 l2 : l1 ≡ₚ l2 -> sum_z l1 = sum_z l2.
Proof. induction 1; unfold sum_z in *; cbn; lia. Qed.

Lemma nodup_snoc_key {V} (l : list (Z * V)) k v : NoDup l.*1 -> k ∉ l.*1 -> NoDup (l ++ [(k, v)]).*1.
Proof.
  intros Hl Hk. rewrite fmap_app. apply NoDup_app. split; [done|]. split; [|apply NoDup_singleton].
  intros x Hx Hx'%list_elem_of_singleton. cbn in Hx'. congruence.
Qed.

Lemma insert_new_inv field set_field k v d d' u :
  insert_new field set_field k v d = Done d' u -> k ∉ (field d).*1 /\ d' = set_field (field d ++ [(k, v)]) d.
Proof.
  unfold insert_new. cbn. destruct (decide (k ∈ (field d).*1)) as [Hin|Hin].
  - destruct (indexmap_insert_old _ _ v Hin) as [old Ho]. destruct (indexmap_insert (field d) k v) as [m o]. cbn in Ho. by subst o.
  - rewrite (indexmap_insert_new _ _ _ Hin). cbn. by intros [= <- _].
Qed.

Lemma insert_new_done field set_field k v d :
  k ∉ (field d).*1 -> insert_new field set_field k v d = Done (set_field (field d ++ [(k, v)]) d) tt.
Proof. intros Hin. unfold insert_new. cbn. by rewrite (indexmap_insert_new _ _ _ Hin). Qed.

Lemma insert_all_new_inv s entries s' :
  insert_all_new s entries = inl s' -> NoDup s.*1 -> s' = s ++ entries /\ NoDup s'.*1.
Proof.
  revert s; induction entries as [|[k v] entries IH]; intros s; cbn [insert_all_new]; [intros [= <-]; by rewrite app_nil_r|].
  destruct (decide (k ∈ s.*1)) as [Hin|Hin].
  - destruct (indexmap_insert_old _ _ v Hin) as [old Ho]. destruct (indexmap_insert s k v) as [m o]. cbn in Ho. by subst o.
  - rewrite (indexmap_insert_new _ _ _ Hin). intros Hr Hnd. destruct (IH _ Hr) as [-> Hnd']; [by apply nodup_snoc_key|].
    split; [by rewrite <-app_assoc|done].
Qed.

Lemma indexmap_insert_sum (l : list (Z * list (Z * Z))) k v v' :
  NoDup l.*1 -> indexmap_get l k = Some v ->
  sum_z (zlength ∘ snd <$> (indexmap_insert l k v').1) = sum_z (zlength ∘ snd <$> l) - zlength v + zlength v'.
Proof.
  intros Hnd Hg. apply (indexmap_get_Some _ _ _ Hnd) in Hg. revert Hnd Hg.
  induction l as [|[k1 v1] l IH]; [by intros _ ?%elem_of_nil|]. cbn [indexmap_insert]. intros Hnd Hin. cbn in Hnd.
  apply NoDup_cons in Hnd as [Hk1 Hnd]. apply elem_of_cons in Hin as [[= <- <-]|Hin].
  - rewrite Z.eqb_refl. unfold sum_z. cbn. lia.
  - destruct (Z.eqb_spec k1 k) as [->|Hne]; [destruct Hk1; apply list_elem_of_fmap; by exists (k, v)|].
    specialize (IH Hnd Hin). destruct (indexmap_insert l k v') as [l' old]. unfold sum_z in *. cbn in *. lia.
Qed.

Lemma unite_storage_inv a entries d d' u :
  unite_storage_diffs a entries d = Done d' u -> united d -> NoDup entries.*1 ->
  united d' /\ change_count d' = change_count d + zlength entries.
Proof.
  intros Hrun [Hok Hrep] He. destruct entries as [|e entries]; [injection Hrun as <- _; unfold zlength; cbn; split; [done|lia]|].
  cbn [unite_storage_diffs] in Hrun. rewrite bind_get in Hrun.
  destruct (indexmap_get (ThinStateDiff_storage_diffs d) a) as [s|] eqn:Hg.
  - assert (Hin : (a, s) ∈ ThinStateDiff_storage_diffs d) by (by apply indexmap_get_Some; [apply Hok|]).
    assert (Hs : NoDup s.*1) by (pose proof (ok_entries _ Hok) as Hf; rewrite Forall_forall in Hf; exact (Hf _ Hin)).
    destruct (insert_all_new s (e :: entries)) as [s'|] eqn:Hi; [|done].
    destruct (insert_all_new_inv _ _ _ Hi Hs) as [-> Hnd]. injection Hrun as <- _.
    assert (Ha : a ∈ (ThinStateDiff_storage_diffs d).*1) by (apply list_elem_of_fmap; by exists (a, s)).
    split; [split; [|done]|].
    + destruct Hok. split; cbn; try done; [by rewrite indexmap_insert_keys|]. apply Forall_forall. intros [k' v'] Hin'.
      apply indexmap_insert_in in Hin' as [[= -> ->]|Hin']; [done|]. rewrite Forall_forall in ok_entries. by apply (ok_entries (k', v')).
    + unfold change_count. cbn [ThinStateDiff_storage_diffs set_storage ThinStateDiff_deployed_contracts ThinStateDiff_replaced_classes
        ThinStateDiff_declared_classes ThinStateDiff_deprecated_declared_classes ThinStateDiff_nonces].
      rewrite (indexmap_insert_sum _ _ s) by (apply Hok || done). rewrite zlength_app. lia.
  - apply indexmap_get_None in Hg. injection Hrun as <- _. rewrite (indexmap_insert_new _ _ _ Hg). cbn [fst].
    split; [split; [|done]|].
    + destruct Hok. split; cbn; try done; [by apply nodup_snoc_key|]. apply Forall_app. split; [done|by constructor].
    + unfold change_count. cbn [ThinStateDiff_storage_diffs set_storage ThinStateDiff_deployed_contracts ThinStateDiff_replaced_classes
        ThinStateDiff_declared_classes ThinStateDiff_deprecated_declared_classes ThinStateDiff_nonces].
      rewrite fmap_app, sum_z_app. unfold sum_z at 2. cbn. lia.
Qed.

Ltac diff_simpl := cbn [ThinStateDiff_storage_diffs ThinStateDiff_deployed_contracts ThinStateDiff_replaced_classes
  ThinStateDiff_declared_classes ThinStateDiff_deprecated_declared_classes ThinStateDiff_nonces
  set_storage set_deployed set_declared set_deprecated_declared set_diff_nonces].

(** A field that [insert_new] extends. *)
Lemma insert_deployed_inv a o d d' u :
  insert_new_if ThinStateDiff_deployed_contracts set_deployed a o d = Done d' u -> united d ->
  united d' /\ change_count d' = change_count d + one_if o.
Proof.
  destruct o as [c|]; cbn [insert_new_if one_if]; [|intros [= <- _]; split; [done|lia]].
  intros [Ha ->]%insert_new_inv [[] Hrep]. unfold change_count. diff_simpl. rewrite zlength_snoc. split; [|lia].
  split; [|done]. split; diff_simpl; try done; [by apply nodup_snoc_key|]. rewrite Hrep. intros x _ ?%elem_of_nil. done.
Qed.

Lemma insert_nonce_inv a o d d' u :
  insert_new_if ThinStateDiff_nonces set_diff_nonces a o d = Done d' u -> united d ->
  united d' /\ change_count d' = change_count d + one_if o.
Proof.
  destruct o as [c|]; cbn [insert_new_if one_if]; [|intros [= <- _]; split; [done|lia]].
  intros [Ha ->]%insert_new_inv [[] Hrep]. unfold change_count. diff_simpl. rewrite zlength_snoc. split; [|lia].
  split; [|done]. split; diff_simpl; try done. by apply nodup_snoc_key.
Qed.

Lemma unite_inv chunk d d' u :
  unite_state_diffs chunk d = Done d' u -> united d -> chunk_ok chunk ->
  united d' /\ change_count d' = change_count d + chunk_len chunk.
Proof.
  destruct chunk as [c|c|c]; cbn [unite_state_diffs chunk_ok chunk_len].
  - intros (d1 & [] & H1 & H2)%bind_Done Hd Hc. apply bind_Done in H2 as (d2 & [] & H2 & H3).
    destruct (insert_deployed_inv _ _ _ _ _ H1 Hd) as [Hd1 E1]. destruct (insert_nonce_inv _ _ _ _ _ H2 Hd1) as [Hd2 E2].
    destruct (unite_storage_inv _ _ _ _ _ H3 Hd2 Hc) as [Hd3 E3]. split; [done|lia].
  - intros [Ha ->]%insert_new_inv [[] Hrep] _. unfold change_count. diff_simpl. rewrite zlength_snoc. split; [|lia].
    split; [|done]. split; diff_simpl; try done. by apply nodup_snoc_key.
  - intros [= <- _] [[] Hrep] _. unfold change_count. diff_simpl. rewrite zlength_snoc. split; [|lia]. split; [|done]. by split.
Qed.

Lemma unite_no_panic chunk d : unite_state_diffs chunk d <> Panic.
Proof.
  assert (Hi : forall field set_field k o d, insert_new_if field set_field k o d <> Panic).
  { intros field set_field k [v|] d'; cbn; [|done]. destruct (indexmap_insert _ k v) as [m [old|]]; done. }
  destruct chunk as [c|c|c]; cbn [unite_state_diffs]; [|exact (Hi _ _ _ (Some _) _)|done]. intros Hp.
  apply bind_Panic in Hp as [Hp|(d1 & u1 & _ & Hp)]; [by apply Hi in Hp|]. apply bind_Panic in Hp as [Hp|(d2 & u2 & _ & Hp)]; [by apply Hi in Hp|].
  destruct (ContractDiff_storage_diffs c) as [|e entries]; [done|]. cbn [unite_storage_diffs] in Hp. rewrite bind_get in Hp.
  destruct (indexmap_get _ _) as [s|]; [|done]. by destruct (insert_all_new s (e :: entries)).
Qed.

Lemma validate_ok d : validate_deprecated_declared_classes_non_conflicting d = None <->
  NoDup (ThinStateDiff_deprecated_declared_classes d).
Proof.
  unfold validate_deprecated_declared_classes_non_conflicting, zlength. set (l := ThinStateDiff_deprecated_declared_classes d).
  assert (Hs : size (list_to_set l : gset Z) = length (remove_dups l)).
  { rewrite <-(size_list_to_set (C := gset Z)) by apply NoDup_remove_dups. f_equal. apply set_eq. intros x.
    by rewrite !elem_of_list_to_set, elem_of_remove_dups. }
  rewrite Hs. split.
  - destruct (Z.eqb_spec (Z.of_nat (length l)) (Z.of_nat (length (remove_dups l)))) as [He|]; [|done]. intros _.
    clear Hs. induction l as [|x l IH]; [constructor|]. cbn [remove_dups] in He. destruct (decide_rel elem_of x l) as [Hin|Hin].
    + exfalso. cbn [length] in He. assert (length (remove_dups l) <= length l)%nat; [|lia].
      clear. induction l as [|x l IH]; cbn; [lia|]. case_match; cbn; lia.
    + constructor; [done|]. apply IH. cbn in He. lia.
  - intros Hnd. rewrite (proj2 (Z.eqb_eq _ _)); [done|]. f_equal. clear Hs. induction Hnd as [|x l Hx Hnd IH]; [done|].
    cbn [remove_dups]. destruct (decide_rel elem_of x l); [done|]. cbn. by rewrite <-IH.
Qed.

Lemma default_united : united default_ThinStateDiff.
Proof. split; [|done]. split; try constructor. by intros a ?%elem_of_nil. Qed.

Lemma receive_no_panic target rs d prev cur : receive_state_diff target rs d prev cur <> Panic.
Proof.
  revert d prev cur; induction rs as [|x rs IH]; intros d prev cur; cbn [receive_state_diff]; (destruct (cur <? target); [|
    destruct (negb _); [done|]; by destruct (validate_deprecated_declared_classes_non_conflicting d)]); [done|].
  destruct x as [[chunk|]| |]; try done; [|by destruct (cur =? 0)]. destruct (chunk_is_empty chunk); [done|].
  destruct (unite_state_diffs chunk d) as [d1 u| |] eqn:Hu; [apply IH|done|by apply unite_no_panic in Hu].
Qed.

(** What the loop returns. *)
Lemma receive_inv target responses d prev cur rest r :
  receive_state_diff target responses d prev cur = Done rest (Some r) -> Forall response_ok responses ->
  united d -> change_count d = cur ->
  united r /\ change_count r = target /\ NoDup (ThinStateDiff_deprecated_declared_classes r) /\ rest `suffix_of` responses.
Proof.
  revert d prev cur; induction responses as [|x responses IH]; intros d prev cur; cbn [receive_state_diff].
  all: destruct (Z.ltb_spec cur target) as [Hlt|Hlt].
  - done.
  - destruct (Z.eqb_spec cur target) as [->|]; cbn [negb]; [|done].
    destruct (validate_deprecated_declared_classes_non_conflicting d) eqn:Hv; [done|]. apply validate_ok in Hv.
    intros [= <- <-] _ Hd Hc. done.
  - destruct x as [[chunk|]| |]; try done; [|by destruct (cur =? 0)].
    destruct (chunk_is_empty chunk); [done|]. destruct (unite_state_diffs chunk d) as [d1 []| |] eqn:Hu; try done.
    intros Hrun [Hx Hf]%Forall_cons Hd Hc. destruct (unite_inv _ _ _ _ Hu Hd Hx) as [Hd1 Hc1].
    destruct (IH _ _ _ Hrun Hf Hd1) as (H1 & H2 & H3 & H4); [lia|]. split_and!; try done. by apply suffix_cons_r.
  - destruct (Z.eqb_spec cur target) as [->|]; cbn [negb]; [|done].
    destruct (validate_deprecated_declared_classes_non_conflicting d) eqn:Hv; [done|]. apply validate_ok in Hv.
    intros [= <- <-] _ Hd Hc. done.
Qed.

(** ** The parts of a state diff *)

Definition class_at (d : ThinStateDiff) (a : Z) : option Z :=
  indexmap_get (ThinStateDiff_deployed_contracts d ++ ThinStateDiff_replaced_classes d) a.

(** The changed cells of a contract, if there are any. *)
Definition storage_at (d : ThinStateDiff) (a : Z) : option (list (Z * Z)) :=
  match indexmap_get (ThinStateDiff_storage_diffs d) a with
  | Some (e :: entries) => Some (e :: entries)
  | _ => None
  end.

(** The state diff with the changes of some contracts and some classes. *)
Definition assembled (d : ThinStateDiff) (keys : list Z) (declared : list (Z * Z)) (deprecated : list Z) : ThinStateDiff :=
  mkThinStateDiff (entries_at (class_at d) keys) (entries_at (storage_at d) keys) declared deprecated
    (entries_at (indexmap_get (ThinStateDiff_nonces d)) keys) [].

Lemma unite_contract d keys a :
  a ∉ keys ->
  unite_state_diffs (contract_diff_of d a) (assembled d keys [] []) = Done (assembled d (keys ++ [a]) [] []) tt.
Proof.
  intros Ha. unfold contract_diff_of. cbn [unite_state_diffs ContractDiff_contract_address ContractDiff_class_hash
    ContractDiff_nonce ContractDiff_storage_diffs].
  rewrite <-indexmap_get_app. fold (class_at d a). unfold assembled.
  assert (Hno : forall V (f : Z -> option V), a ∉ (entries_at f keys).*1) by (intros V f Hin; by apply Ha, (entries_at_key f)).
  rewrite !entries_at_snoc. set (s0 := entries_at (storage_at d) keys). set (n0 := entries_at (indexmap_get _) keys).
  assert (E1 : forall n s, insert_new_if ThinStateDiff_deployed_contracts set_deployed a (class_at d a)
      (mkThinStateDiff (entries_at (class_at d) keys) s [] [] n []) =
    Done (mkThinStateDiff (entries_at (class_at d) keys ++ match class_at d a with Some v => [(a, v)] | None => [] end) s [] [] n []) tt).
  { intros n s. destruct (class_at d a); cbn [insert_new_if]; [by rewrite insert_new_done by apply Hno|by rewrite app_nil_r]. }
  rewrite (bind_step _ _ _ _ _ (E1 n0 s0)). set (c1 := entries_at (class_at d) keys ++ _).
  assert (E2 : insert_new_if ThinStateDiff_nonces set_diff_nonces a (indexmap_get (ThinStateDiff_nonces d) a)
      (mkThinStateDiff c1 s0 [] [] n0 []) =
    Done (mkThinStateDiff c1 s0 [] [] (n0 ++ match indexmap_get (ThinStateDiff_nonces d) a with Some v => [(a, v)] | None => [] end) []) tt).
  { destruct (indexmap_get _ a); cbn [insert_new_if]; [by rewrite insert_new_done by apply Hno|by rewrite app_nil_r]. }
  rewrite (bind_step _ _ _ _ _ E2). unfold storage_at.
  destruct (indexmap_get (ThinStateDiff_storage_diffs d) a) as [[|e entries]|]; cbn [from_option id unite_storage_diffs]; try (by rewrite app_nil_r).
  rewrite bind_get. diff_simpl. rewrite (proj2 (indexmap_get_None s0 a) (Hno _ _)).
  by rewrite (indexmap_insert_new s0 _ _ (Hno _ _)).
Qed.

Lemma unite_contracts d l keys :
  NoDup (keys ++ l) ->
  for_each (contract_diff_of d <$> l) unite_state_diffs (assembled d keys [] []) = Done (assembled d (keys ++ l) [] []) tt.
Proof.
  revert keys; induction l as [|a l IH]; intros keys Hnd; cbn [fmap list_fmap for_each]; [by rewrite app_nil_r|].
  rewrite (bind_step _ _ _ _ _ (unite_contract d keys a ltac:(intros Hin; apply NoDup_app in Hnd as (_ & Hd & _); apply (Hd a Hin); by left))).
  rewrite IH by (by rewrite <-app_assoc). by rewrite <-app_assoc.
Qed.

Lemma unite_declared d keys l declared :
  NoDup (declared ++ l).*1 ->
  for_each ((fun '(h, c) => StateDiffChunk_DeclaredClass (mkDeclaredClass h c)) <$> l) unite_state_diffs (assembled d keys declared []) =
  Done (assembled d keys (declared ++ l) []) tt.
Proof.
  revert declared; induction l as [|[h c] l IH]; intros declared Hnd; cbn [fmap list_fmap for_each]; [by rewrite app_nil_r|].
  assert (Hh : h ∉ declared.*1).
  { rewrite fmap_app in Hnd. apply NoDup_app in Hnd as (_ & Hd & _). intros Hin. apply (Hd h Hin). by left. }
  cbn [unite_state_diffs DeclaredClass_class_hash DeclaredClass_compiled_class_hash].
  erewrite bind_step; [|apply insert_new_done; exact Hh]. unfold assembled. diff_simpl.
  specialize (IH (declared ++ [(h, c)])). unfold assembled in IH. rewrite <-app_assoc in IH. exact (IH Hnd).
Qed.

Lemma unite_deprecated d keys declared l deprecated :
  for_each ((fun h => StateDiffChunk_DeprecatedDeclaredClass (mkDeprecatedDeclaredClass h)) <$> l) unite_state_diffs
    (assembled d keys declared deprecated) = Done (assembled d keys declared (deprecated ++ l)) tt.
Proof.
  revert deprecated; induction l as [|h l IH]; intros deprecated; cbn [fmap list_fmap for_each]; [by rewrite app_nil_r|].
  cbn [unite_state_diffs]. rewrite bind_modify. unfold assembled. diff_simpl. specialize (IH (deprecated ++ [h])).
  unfold assembled in IH. rewrite <-app_assoc in IH. exact IH.
Qed.

Section Split.
Context {HS : HashSetIter}.

(** The order of the addresses in a [HashSet]. *)
Definition addresses (d : ThinStateDiff) : list Z := hs_iter (contract_addresses d).

Lemma addresses_nodup d : NoDup (addresses d).
Proof. unfold addresses. rewrite hs_iter_perm. apply NoDup_elements. Qed.

Lemma addresses_in d a : a ∈ addresses d <-> a ∈ contract_addresses d.
Proof. unfold addresses. rewrite hs_iter_perm. apply elem_of_elements. Qed.

(** What the parts of a state diff assemble to. *)
Definition received (d : ThinStateDiff) : ThinStateDiff :=
  assembled d (addresses d) (ThinStateDiff_declared_classes d) (ThinStateDiff_deprecated_declared_classes d).

Lemma unite_split d :
  NoDup (ThinStateDiff_declared_classes d).*1 ->
  for_each (split_thin_state_diff d) unite_state_diffs default_ThinStateDiff = Done (received d) tt.
Proof.
  intros Hnd. unfold split_thin_state_diff. rewrite for_each_app. change default_ThinStateDiff with (assembled d [] [] []).
  rewrite (bind_step _ _ _ _ _ (unite_contracts d (hs_iter (contract_addresses d)) [] (addresses_nodup d))). cbn [app].
  rewrite for_each_app, (bind_step _ _ _ _ _ (unite_declared d _ _ [] Hnd)). by rewrite unite_deprecated.
Qed.

(** No contract is listed without changed cells. *)
Definition no_empty_storage (d : ThinStateDiff) : Prop := Forall (fun ae => ae.2 <> []) (ThinStateDiff_storage_diffs d).

Lemma storage_at_get d a : no_empty_storage d -> NoDup (ThinStateDiff_storage_diffs d).*1 ->
  storage_at d a = indexmap_get (ThinStateDiff_storage_diffs d) a.
Proof.
  intros Hne Hnd. unfold storage_at. destruct (indexmap_get _ a) as [[|e entries]|] eqn:Hg; try done.
  apply (indexmap_get_Some _ _ _ Hnd) in Hg. unfold no_empty_storage in Hne. rewrite Forall_forall in Hne. by destruct (Hne _ Hg).
Qed.

Lemma addresses_cover d a :
  a ∈ addresses d <-> a ∈ (ThinStateDiff_deployed_contracts d).*1 \/ a ∈ (ThinStateDiff_replaced_classes d).*1 \/
    a ∈ (ThinStateDiff_nonces d).*1 \/ a ∈ (ThinStateDiff_storage_diffs d).*1.
Proof. rewrite addresses_in. unfold contract_addresses. rewrite elem_of_list_to_set, !elem_of_app. tauto. Qed.

Lemma classes_nodup d : diff_ok d -> NoDup (ThinStateDiff_deployed_contracts d ++ ThinStateDiff_replaced_classes d).*1.
Proof. intros []. rewrite fmap_app. apply NoDup_app. split_and!; [done|done|done]. Qed.

Lemma entries_at_ext {V} (f g : Z -> option V) keys : (forall a, f a = g a) -> entries_at f keys = entries_at g keys.
Proof. intros Hfg. induction keys as [|a keys IH]; [done|]. unfold entries_at in *. cbn. by rewrite Hfg, IH. Qed.

(** The received state diff has the changes of the one that was split. *)
Lemma received_perm d :
  diff_ok d -> no_empty_storage d ->
  ThinStateDiff_deployed_contracts (received d) ≡ₚ ThinStateDiff_deployed_contracts d ++ ThinStateDiff_replaced_classes d /\
  ThinStateDiff_storage_diffs (received d) ≡ₚ ThinStateDiff_storage_diffs d /\
  ThinStateDiff_nonces (received d) ≡ₚ ThinStateDiff_nonces d.
Proof.
  intros Hok Hne. pose proof (addresses_nodup d) as Hnd. unfold received, assembled. diff_simpl. split_and!.
  - apply entries_at_all; [by apply classes_nodup|done|]. intros a. rewrite addresses_cover, fmap_app, elem_of_app. tauto.
  - rewrite (entries_at_ext _ (indexmap_get (ThinStateDiff_storage_diffs d))) by (intros a; apply storage_at_get; [done|apply Hok]).
    apply entries_at_all; [apply Hok|done|]. intros a. rewrite addresses_cover. tauto.
  - apply entries_at_all; [apply Hok|done|]. intros a. rewrite addresses_cover. tauto.
Qed.

Lemma received_united d : diff_ok d -> united (received d).
Proof.
  intros Hok. pose proof (addresses_nodup d) as Hnd. split; [|done]. unfold received, assembled.
  split; diff_simpl; try (by apply entries_at_keys_nodup); try constructor; try apply Hok.
  - apply Forall_forall. intros [a e] [_ Hs]%entries_at_in. unfold storage_at in Hs.
    destruct (indexmap_get _ a) as [[|e1 entries]|] eqn:Hg; [done| |done]. injection Hs as <-.
    apply (indexmap_get_Some _ _ _ (ok_storage _ Hok)) in Hg. pose proof (ok_entries _ Hok) as Hf. rewrite Forall_forall in Hf. exact (Hf _ Hg).
  - by intros a _ ?%elem_of_nil.
Qed.

Lemma zlength_perm {A} (l1 l2 : list A) : l1 ≡ₚ l2 -> zlength l1 = zlength l2.
Proof. intros Hp. unfold zlength. by rewrite Hp. Qed.

Lemma received_count d : diff_ok d -> no_empty_storage d -> change_count (received d) = change_count d.
Proof.
  intros Hok Hne. destruct (received_perm d Hok Hne) as (H1 & H2 & H3). unfold change_count.
  rewrite (zlength_perm _ _ H1), (zlength_perm _ _ H3), zlength_app.
  rewrite (sum_z_perm _ _ (fmap_Permutation (zlength ∘ snd) _ _ H2)). unfold received, assembled. diff_simpl. unfold zlength. cbn. lia.
Qed.

Lemma unite_all_count chunks d d' u :
  for_each chunks unite_state_diffs d = Done d' u -> united d -> Forall chunk_ok chunks ->
  change_count d' = change_count d + sum_z (chunk_len <$> chunks).
Proof.
  revert d; induction chunks as [|c chunks IH]; intros d; cbn [for_each]; [intros [= <- _]; unfold sum_z; cbn; lia|].
  intros (d1 & [] & H1 & H2)%bind_Done Hd [Hc Hcs]%Forall_cons. destruct (unite_inv _ _ _ _ H1 Hd Hc) as [Hd1 E1].
  rewrite (IH _ H2 Hd1 Hcs). unfold sum_z. cbn. lia.
Qed.

Lemma split_chunk_ok d : diff_ok d -> Forall chunk_ok (split_thin_state_diff d).
Proof.
  intros Hok. unfold split_thin_state_diff. apply Forall_app. split; [|apply Forall_app; split]; apply Forall_fmap, Forall_forall.
  - intros a _. cbn. destruct (indexmap_get (ThinStateDiff_storage_diffs d) a) as [e|] eqn:Hg; cbn; [|constructor].
    apply (indexmap_get_Some _ _ _ (ok_storage _ Hok)) in Hg. pose proof (ok_entries _ Hok) as Hf. rewrite Forall_forall in Hf. exact (Hf _ Hg).
  - by intros [h c] _.
  - done.
Qed.

Lemma in_keys_get {V} (l : list (Z * V)) a : a ∈ l.*1 -> is_Some (indexmap_get l a).
Proof. intros Hin. destruct (indexmap_get l a) eqn:Hg; [done|]. by apply indexmap_get_None in Hg. Qed.

Lemma split_nonempty d :
  diff_ok d -> no_empty_storage d -> Forall (fun c => chunk_is_empty c = false) (split_thin_state_diff d).
Proof.
  intros Hok Hne. unfold split_thin_state_diff, chunk_is_empty. apply Forall_app. split; [|apply Forall_app; split]; apply Forall_fmap, Forall_forall.
  - intros a Ha. apply Z.eqb_neq. unfold contract_diff_of.
    cbn [chunk_len ContractDiff_storage_diffs ContractDiff_class_hash ContractDiff_nonce]. rewrite <-indexmap_get_app. fold (class_at d a).
    set (s := default [] _). pose proof (zlength_nonneg s). apply addresses_cover in Ha.
    assert (Hc : is_Some (class_at d a) \/ is_Some (indexmap_get (ThinStateDiff_nonces d) a) \/ s <> []).
    { destruct Ha as [Ha|[Ha|[Ha|Ha]]].
      - left. apply in_keys_get. rewrite fmap_app, elem_of_app. by left.
      - left. apply in_keys_get. rewrite fmap_app, elem_of_app. by right.
      - right. left. by apply in_keys_get.
      - right. right. unfold s. destruct (in_keys_get _ _ Ha) as [e Hg]. rewrite Hg. cbn.
        apply (indexmap_get_Some _ _ _ (ok_storage _ Hok)) in Hg. unfold no_empty_storage in Hne. rewrite Forall_forall in Hne. exact (Hne _ Hg). }
    destruct Hc as [[c ->]|[[n ->]|Hs]]; [destruct (indexmap_get (ThinStateDiff_nonces d) a); cbn [one_if]; lia|destruct (class_at d a); cbn [one_if]; lia|].
    assert (0 < zlength s) by (unfold zlength; destruct s; [done|cbn; lia]).
    destruct (class_at d a), (indexmap_get (ThinStateDiff_nonces d) a); cbn [one_if]; lia.
  - by intros [h c] _.
  - done.
Qed.

(** ** Receiving parts that assemble *)

Lemma receive_all chunks d d' rest prev cur target :
  for_each chunks unite_state_diffs d = Done d' tt -> Forall (fun c => chunk_is_empty c = false) chunks ->
  target = cur + sum_z (chunk_len <$> chunks) -> NoDup (ThinStateDiff_deprecated_declared_classes d') ->
  receive_state_diff target (((fun c => Response_Message (Some c)) <$> chunks) ++ rest) d prev cur = Done rest (Some d').
Proof.
  revert d prev cur; induction chunks as [|c chunks IH]; intros d prev cur; rewrite ?fmap_cons, ?fmap_nil; cbn [for_each app].
  - intros [= <-] _ -> Hv%validate_ok. unfold sum_z. cbn [foldr]. rewrite Z.add_0_r.
    destruct rest; cbn [receive_state_diff]; by rewrite Z.ltb_irrefl, Z.eqb_refl; cbn [negb]; rewrite Hv.
  - intros (d1 & [] & H1 & H2)%bind_Done [Hc Hcs]%Forall_cons -> Hv. cbn [receive_state_diff].
    rewrite sum_z_cons.
    assert (0 < chunk_len c) by (unfold chunk_is_empty in Hc; pose proof (chunk_len_nonneg c); lia).
    assert (0 <= sum_z (chunk_len <$> chunks)).
    { clear. unfold sum_z. induction chunks as [|c chunks IH]; cbn; [lia|]. pose proof (chunk_len_nonneg c). lia. }
    destruct (Z.ltb_spec cur (cur + (chunk_len c + sum_z (chunk_len <$> chunks)))); [|lia]. rewrite Hc, H1.
    apply IH; [done|done|rewrite sum_z_cons; lia|done].
Qed.

Lemma receive_split d rest :
  diff_ok d -> no_empty_storage d -> NoDup (ThinStateDiff_deprecated_declared_classes d) ->
  receive_state_diff (change_count d)
    (((fun c => Response_Message (Some c)) <$> split_thin_state_diff d) ++ rest) default_ThinStateDiff 0 0 =
  Done rest (Some (received d)).
Proof.
  intros Hok Hne Hdep. pose proof (unite_split d (ok_declared _ Hok)) as Hu. apply receive_all; [done|by apply split_nonempty| |done].
  rewrite <-(received_count d Hok Hne), (unite_all_count _ _ _ _ Hu default_united (split_chunk_ok d Hok)). done.
Qed.
End Split.
