(* ===== verification/P2pProps.v ===== *)
(** * What the writers of one component leave to the others

    The header writers do not touch the state, the writer of the state diffs does
    not touch the headers: the relations of the two components with their lists
    survive each other's operations. *)

From stdpp Require Import base gmap list strings fin_maps relations.
From Stdlib Require Import ZArith Lia.
From S2P Require Import Prelude StorageTables StarknetTypes StorageTxn Header Body State StateProps P2pServer P2pClient.
From S2P Require Import P2pDiffProps.

Section Frames.
Context {BN : BlockNumberApi} {SN : StateNumberApi} {X : ExternalTypes} {SF : StorageFiles} {HS : HashSetIter}.

(** Every class with a declaring block is declared there. *)
Definition declared_only (t : StorageTxn) (ds : list ThinStateDiff) : Prop :=
  forall h b, t_declared_classes_block t !! h = Some b ->
    exists d, lookup_z ds b = Some d /\ h ∈ (ThinStateDiff_declared_classes d).*1.

(** The relation of the headers sees these parts only. *)
Lemma header_rel_same t t' l :
  marker MarkerKind_Header t' = marker MarkerKind_Header t -> t_headers t' = t_headers t ->
  t_block_hash_to_number t' = t_block_hash_to_number t -> t_starknet_version t' = t_starknet_version t ->
  t_block_signatures t' = t_block_signatures t -> header_rel t l -> header_rel t' l.
Proof. intros H1 H2 H3 H4 H5 [? ? ? ? ?]. split; rewrite ?H1, ?H2, ?H3, ?H4, ?H5; done. Qed.

Lemma state_rel_header_frame t t' ds : header_frame t t' -> state_rel t ds -> state_rel t' ds.
Proof.
  intros [Hm (mk & hs & hh & vs & sg & ->)] [? ? ? ? ? ? ? ?].
  split; unfold marker in *; rewrite ?Hm by done; try done; unfold diffs_rel in *; txn_simpl; done.
Qed.

Lemma declared_only_header_frame t t' ds : header_frame t t' -> declared_only t ds -> declared_only t' ds.
Proof. intros [_ (mk & hs & hh & vs & sg & ->)]. done. Qed.

Lemma header_frame_trans t1 t2 t3 : header_frame t1 t2 -> header_frame t2 t3 -> header_frame t1 t3.
Proof.
  intros [M1 (mk & hs & hh & vs & sg & ->)] [M2 (mk' & hs' & hh' & vs' & sg' & ->)]. split.
  - intros kind Hk. by rewrite M2, M1 by done.
  - by exists mk', hs', hh', vs', sg'.
Qed.

(** A state diff that can be stored is appended, or refused because of a class that
    was declared before. *)
Lemma append_state_diff_outcome t l ds d :
  state_rel t ds -> header_rel t l -> diff_ok d -> storable d -> is_Some (file_append (t_thin_state_diff_file t) d) ->
  zlength ds < 2 ^ 32 - 1 ->
  (exists t', append_state_diff (zlength ds) d t = Done t' tt /\ state_rel t' (ds ++ [d]) /\ header_rel t' l /\
     (declared_only t ds -> declared_only t' (ds ++ [d])) /\
     exists loc, file_append (t_thin_state_diff_file t) d = Some (t_thin_state_diff_file t', loc)) \/
  (~ (forall h, h ∈ (ThinStateDiff_declared_classes d).*1 -> t_declared_classes_block t !! h = None) /\
   exists t', append_state_diff (zlength ds) d t = Fail t' (StorageError_InnerError DbError_KeyAlreadyExists)).
Proof.
  intros Hr Hh Hok Hst [[f loc] Happ] Hlt.
  destruct (decide (Forall (fun h => t_declared_classes_block t !! h = None) (ThinStateDiff_declared_classes d).*1)) as [Hf|Hf].
  all: rewrite Forall_forall in Hf.
  - left. destruct (append_state_diff_done t ds d f loc) as (t' & Hrun & Hmv); [done..|]. exists t'. split; [done|].
    pose proof (sr_casm_marker _ _ Hr) as Hcm. pose proof (next_declaring_bound (ds ++ [d]) (marker MarkerKind_CompiledClass t)) as Hn.
    rewrite zlength_snoc in Hn. split; [|split; [|split]].
    + eapply state_rel_casm_moved; [exact Hmv| |by apply state_rel_appended]. rewrite zlength_snoc. lia.
    + destruct Hmv as (mk & -> & _ & Ho). eapply header_rel_same; [..|exact Hh]; try done.
      rewrite Ho by done. by rewrite marker_with_diff, decide_False.
    + intros Hdo h b. destruct Hmv as (mk & -> & _ & _). unfold with_diff, with_changes. txn_simpl.
      rewrite lookup_union, declared_at_lookup. case_bool_decide as Hin.
      * intros Hb. assert (b = zlength ds) as -> by (destruct (t_declared_classes_block t !! h); cbn in Hb; congruence).
        exists d. by rewrite lookup_z_snoc, Z.eqb_refl.
      * rewrite (left_id_L None (∪)). intros Hb. destruct (Hdo h b Hb) as (d' & Hl & Hin'). exists d'. split; [|done].
        rewrite lookup_z_snoc. apply lookup_z_Some in Hl as Hl'. by rewrite (proj2 (Z.eqb_neq _ _)) by lia.
    + exists loc. by destruct Hmv as (mk & -> & _ & _).
  - right. split; [done|]. by apply append_state_diff_conflict.
Qed.

(** A header with its signature is appended, or refused because of its hash. *)
Lemma append_signed_header_at t l h s :
  header_rel t l -> NoDup (hash_of <$> l) -> zlength l < 2 ^ 32 ->
  let write := append_header (zlength l) h ;! append_block_signature (zlength l) s in
  (BlockHeader_block_hash h ∉ (hash_of <$> l) /\
   exists t', write t = Done t' tt /\ header_rel t' (l ++ [(h, Some s)]) /\
     NoDup (hash_of <$> (l ++ [(h, Some s)])) /\ header_frame t t') \/
  (BlockHeader_block_hash h ∈ (hash_of <$> l) /\
   exists t', write t = Fail t' (StorageError_InnerError DbError_KeyAlreadyExists)).
Proof.
  intros Hr Hnd Hlen write. unfold write. clear write.
  pose proof (append_refines t l (zlength l) h Hr Hnd Hlen) as Ha. unfold refines_header in Ha. cbn [header_spec run_header_op] in Ha.
  rewrite Z.eqb_refl in Ha. cbn [negb] in Ha. case_bool_decide as Hin.
  - right. split; [done|]. destruct Ha as (t' & Ha). apply bind_Fail in Ha as [Ha|(? & ? & _ & ?)]; [|done]. exists t'. unfold bind. by rewrite Ha.
  - left. split; [done|]. destruct Ha as (t1 & Ha & Hr1 & Hnd1 & Hf1). apply bind_Done in Ha as (? & [] & Ha & [= ->]).
    pose proof (sign_refines t1 _ (zlength l) s Hr1 Hnd1 (zlength_nonneg l)) as Hs. unfold refines_header in Hs.
    cbn [header_spec run_header_op] in Hs. rewrite lookup_z_snoc, Z.eqb_refl in Hs.
    destruct Hs as (t2 & Hs & Hr2 & Hnd2 & Hf2). apply bind_Done in Hs as (? & [] & Hs & [= ->]).
    assert (Hal : alter (sign s) (Z.to_nat (zlength l)) (l ++ [(h, None)]) = l ++ [(h, Some s)]).
    { unfold zlength. rewrite Nat2Z.id. clear. induction l as [|x l IH]; cbn; [done|]. by rewrite <-IH. }
    rewrite Hal in *. exists t2. rewrite (bind_step _ _ _ _ _ Ha). split_and!; try done. by eapply header_frame_trans.
Qed.

Lemma append_signed_header_outcome t l h s :
  header_rel t l -> NoDup (hash_of <$> l) -> zlength l < 2 ^ 32 -> BlockHeader_block_number h = zlength l ->
  let write := append_header (BlockHeader_block_number h) h ;! append_block_signature (BlockHeader_block_number h) s in
  (BlockHeader_block_hash h ∉ (hash_of <$> l) /\
   exists t', write t = Done t' tt /\ header_rel t' (l ++ [(h, Some s)]) /\
     NoDup (hash_of <$> (l ++ [(h, Some s)])) /\ header_frame t t') \/
  (BlockHeader_block_hash h ∈ (hash_of <$> l) /\
   exists t', write t = Fail t' (StorageError_InnerError DbError_KeyAlreadyExists)).
Proof. intros Hr Hnd Hlen ->. by apply append_signed_header_at. Qed.
End Frames.

(** * The client keeps the storage consistent

    The invariant of the client's loop, by induction on its steps: each stream
    stands at its marker, the state does not pass the headers, and what was
    stored is what the headers announce. *)

Section ClientProps.
Context {BN : BlockNumberApi} {SN : StateNumberApi} {X : ExternalTypes} {SF : StorageFiles} {HS : HashSetIter}.

(** The file of the state diffs has room for one, and reads it back. *)
Definition diff_fits (t : StorageTxn) (d : ThinStateDiff) : Prop := storable d /\ is_Some (file_append (t_thin_state_diff_file t) d).

(** The state diff that a client is about to store fits. *)
Definition next_diff_fits (c : P2PSyncClient) : Prop := forall n end_ responses rest d,
  client_state_diffs c = Stream_Blocks n end_ responses -> parse_state_diff (client_storage c) n responses = Done rest (Some (d, n)) ->
  diff_fits (client_storage c) d.

(** The file has room for state diffs one after another. *)
Fixpoint file_takes (f : ThinStateDiffFile) (ds : list ThinStateDiff) : Prop :=
  match ds with
  | [] => True
  | d :: ds' => storable d /\ exists f' loc, file_append f d = Some (f', loc) /\ file_takes f' ds'
  end.

(** The headers and the state diffs the storage holds. *)
Record synced (t : StorageTxn) (l : HeaderChain) (ds : list ThinStateDiff) : Prop := {
  sy_headers : header_rel t l;
  sy_hashes : NoDup (hash_of <$> l);
  sy_state : state_rel t ds;
  sy_order : zlength ds <= zlength l
}.

(** From block [from] on, every state diff is well formed and as long as its header
    says. *)
Definition lengths_match (from : Z) (l : HeaderChain) (ds : list ThinStateDiff) : Prop :=
  forall b d, from <= b -> lookup_z ds b = Some d -> diff_ok d /\ NoDup (ThinStateDiff_deprecated_declared_classes d) /\
    exists h s, lookup_z l b = Some (h, s) /\ BlockHeader_state_diff_length h = Some (change_count d).

(** A stream ends only at the configured block. *)
Definition headers_at (stop : option Z) (state : StreamState SignedBlockHeader) (n : Z) : Prop :=
  match state with
  | Stream_Start => True
  | Stream_Ended => is_Some stop
  | Stream_Query current | Stream_Blocks current _ _ => current = n
  end.

Definition diffs_at (stop : option Z) (state : StreamState StateDiffChunk) (n header_marker : Z) : Prop :=
  match state with
  | Stream_Start => True
  | Stream_Ended => is_Some stop
  | Stream_Query current => current = n
  | Stream_Blocks current end_ responses => current = n /\ end_ <= header_marker /\ Forall response_ok responses
  end.

(** The storage extends the one the client started with. *)
Definition client_ok (stop : option Z) (l0 : HeaderChain) (ds0 : list ThinStateDiff) (c : P2PSyncClient) : Prop :=
  exists l ds, synced (client_storage c) l ds /\ l0 `prefix_of` l /\ ds0 `prefix_of` ds /\ lengths_match (zlength ds0) l ds /\
    headers_at stop (client_headers c) (zlength l) /\ diffs_at stop (client_state_diffs c) (zlength ds) (zlength l).

(** A panic happens only at the end of both streams. *)
Definition state_ok (stop : option Z) (l0 : HeaderChain) (ds0 : list ThinStateDiff) (s : ClientState) : Prop :=
  match s with Client_Running c => client_ok stop l0 ds0 c | Client_Failed _ => True | Client_Panicked => is_Some stop end.

Lemma after_yield_headers stop n end_ rs : 0 <= n < 2 ^ 32 -> headers_at stop (after_yield stop n end_ rs) (n + 1).
Proof. intros Hn. unfold after_yield. rewrite bn_unchecked_next_small by done. destruct stop as [s|]; [destruct (s <=? n + 1)|]; (done || by eexists). Qed.

Lemma after_yield_diffs stop n end_ rs m :
  0 <= n < 2 ^ 32 -> end_ <= m -> Forall response_ok rs -> diffs_at stop (after_yield stop n end_ rs) (n + 1) m.
Proof. intros Hn He Hr. unfold after_yield. rewrite bn_unchecked_next_small by done. destruct stop as [s|]; [destruct (s <=? n + 1)|]; (done || by eexists). Qed.

Lemma lengths_match_header from l ds x : lengths_match from l ds -> lengths_match from (l ++ [x]) ds.
Proof.
  intros Hm b d Hb Hd. destruct (Hm b d Hb Hd) as (H1 & H2 & h & s & Hl & H3). split_and!; [done|done|]. exists h, s. split; [|done].
  rewrite lookup_z_snoc. apply lookup_z_Some in Hl as Hl'. by rewrite (proj2 (Z.eqb_neq _ _)) by lia.
Qed.

Lemma diffs_at_header stop state n m : diffs_at stop state n m -> diffs_at stop state n (m + 1).
Proof. destruct state; cbn; try done. intros (-> & He & Hr). split_and!; [done|lia|done]. Qed.

(** *** Headers *)

Lemma parse_header_inv n rs rest h :
  parse_header n rs = Done rest (Some h) ->
  BlockHeader_block_number (SignedBlockHeader_block_header h) = n /\
  exists s, SignedBlockHeader_signatures h = [s].
Proof.
  unfold parse_header. intros (rs1 & m & Hm & Hr)%bind_Done. destruct m as [h'|]; [|done].
  destruct (Z.eqb_spec n (BlockHeader_block_number (SignedBlockHeader_block_header h'))) as [Hn|]; cbn [negb] in Hr; [|done].
  destruct (Z.eqb_spec (zlength (SignedBlockHeader_signatures h')) ALLOWED_SIGNATURES_LENGTH) as [Hs|]; cbn [negb] in Hr; [|done].
  injection Hr as _ <-. split; [done|]. unfold zlength, ALLOWED_SIGNATURES_LENGTH in Hs.
  destruct (SignedBlockHeader_signatures h') as [|s [|]]; cbn in Hs; try lia. by exists s.
Qed.

Lemma parse_header_no_panic n rs : parse_header n rs <> Panic.
Proof.
  unfold parse_header. intros Hp. apply bind_Panic in Hp as [Hp|(rs1 & m & Hm & Hp)].
  - destruct rs as [|[m| |] rs]; done.
  - destruct m; [|done]. destruct (negb _); [done|]. by destruct (negb _).
Qed.

Lemma consume_fin_ok {Input Output} {DB : DataStreamBuilder Input Output} n rs :
  consume_fin n rs = Effect_Continue (Stream_Query n) \/ exists e, consume_fin n rs = Effect_Error e.
Proof. induction rs as [|[[x|]| |] rs IH]; cbn; eauto. Qed.

Lemma headers_step_ok config network l0 ds0 c :
  let stop := stop_sync_at_block_number config in
  client_ok stop l0 ds0 c -> marker MarkerKind_Header (client_storage c) < 2 ^ 32 - 1 ->
  state_ok stop l0 ds0 (headers_step config network c).
Proof.
  intros stop (l & ds & Hs & Hl & Hdp & Hm & Hh & Hd) Hlt. pose proof Hs as [Hr Hnd Hst Hord]. rewrite (hr_marker _ _ Hr) in Hlt.
  pose proof (zlength_nonneg l) as Hl0. unfold headers_step.
  assert (Hkeep : forall state, headers_at stop state (zlength l) ->
    state_ok stop l0 ds0 (Client_Running (mkP2PSyncClient (client_storage c) state (client_state_diffs c)))).
  { intros state Hst'. by exists l, ds. }
  destruct (client_headers c) as [|n|n end_ rs|] eqn:Hc; cbn [stream_step headers_at] in *.
  - change (get_start_block_number (DataStreamBuilder := HeaderStreamBuilder)) with get_header_marker.
    rewrite (get_header_marker_rel _ _ Hr). by apply Hkeep.
  - unfold send_query. cbn [query_limit BLOCK_NUMBER_LIMIT HeaderStreamBuilder waits]. destruct (network _) as [rs|]; [|done]. by apply Hkeep.
  - destruct (n <? end_).
    + change (parse_data_for_block (DataStreamBuilder := HeaderStreamBuilder) (client_storage c) n rs) with (parse_header n rs).
      destruct (parse_header n rs) as [rest [h|]|rest e|] eqn:Hp; cbn [apply_effect]; [|by apply Hkeep|done|by apply parse_header_no_panic in Hp].
      apply parse_header_inv in Hp as [Hn (s & Hsig)]. subst n.
      destruct (append_signed_header_outcome (client_storage c) l (SignedBlockHeader_block_header h) s Hr Hnd ltac:(lia) ltac:(lia)) as [(Hin & t' & Hw & Hr' & Hnd' & Hf)|(Hin & t' & Hw)].
      all: cbn [write_to_storage SignedBlockHeader_data HeaderStreamBuilder output_data]; rewrite Hsig; cbn [head].
      all: assert (Hw' : (append_header (BlockHeader_block_number (SignedBlockHeader_block_header h)) (SignedBlockHeader_block_header h) ;!
          let! signature := expect (Some s) in append_block_signature (BlockHeader_block_number (SignedBlockHeader_block_header h)) signature)
          (client_storage c) = (append_header (BlockHeader_block_number (SignedBlockHeader_block_header h)) (SignedBlockHeader_block_header h) ;!
          append_block_signature (BlockHeader_block_number (SignedBlockHeader_block_header h)) s) (client_storage c)) by done.
      * rewrite Hw', Hw. exists (l ++ [(SignedBlockHeader_block_header h, Some s)]), ds. split_and!.
        -- split; [done|done|by eapply state_rel_header_frame|rewrite zlength_snoc; lia].
        -- by apply prefix_app_r.
        -- done.
        -- by apply lengths_match_header.
        -- cbn [client_headers]. rewrite zlength_snoc. apply after_yield_headers. lia.
        -- cbn [client_state_diffs]. rewrite zlength_snoc. by apply diffs_at_header.
      * by rewrite Hw', Hw.
    + destruct (consume_fin_ok (DB := HeaderStreamBuilder) n rs) as [->|[e ->]]; cbn [apply_effect]; [by apply Hkeep|done].
  - by apply Hkeep.
Qed.

(** *** State diffs *)

(** What a parsed state diff is, and that a header below the marker is found. *)
Lemma parse_state_diff_inv t l n rs :
  header_rel t l -> NoDup (hash_of <$> l) -> 0 <= n < zlength l -> zlength l < 2 ^ 32 -> Forall response_ok rs ->
  parse_state_diff t n rs <> Panic /\
  forall rest r, parse_state_diff t n rs = Done rest (Some r) ->
    r.2 = n /\ diff_ok r.1 /\ NoDup (ThinStateDiff_deprecated_declared_classes r.1) /\ Forall response_ok rest /\
    exists h s, lookup_z l n = Some (h, s) /\ BlockHeader_state_diff_length h = Some (change_count r.1).
Proof.
  intros Hr Hnd Hn Hlt Hrs. unfold parse_state_diff.
  destruct (proj2 (lookup_z_is_Some l n) Hn) as [[h s] Hl].
  assert (Hg : read_storage (A := StateDiffChunk) t (get_block_header n) rs = Done rs (Some h)).
  { unfold read_storage. rewrite (get_block_header_rel t l n Hr) by lia. by rewrite Hl. }
  rewrite (bind_step _ _ _ _ _ Hg). cbn [expect]. rewrite bind_ret.
  destruct (BlockHeader_state_diff_length h) as [target|] eqn:Ht; cbn [ok_or_raise]; [|done]. rewrite bind_ret.
  split.
  - intros Hp. apply bind_Panic in Hp as [Hp|(? & ? & _ & ?)]; [by apply receive_no_panic in Hp|done].
  - intros rest r (rs1 & o & Hrec & Hret)%bind_Done. injection Hret as -> Ho. apply fmap_Some in Ho as (d & -> & ->). cbn [fst snd].
    destruct (receive_inv _ _ _ _ _ _ _ Hrec Hrs default_united eq_refl) as ([Hok _] & Hc & Hdep & Hsuf).
    split_and!; [done|done|done| |].
    + destruct Hsuf as [pre ->]. by apply Forall_app in Hrs as [_ ?].
    + exists h, s. by rewrite Hc.
Qed.

Lemma lengths_match_diff from l ds d h s :
  lengths_match from l ds -> diff_ok d -> NoDup (ThinStateDiff_deprecated_declared_classes d) ->
  lookup_z l (zlength ds) = Some (h, s) -> BlockHeader_state_diff_length h = Some (change_count d) ->
  lengths_match from l (ds ++ [d]).
Proof.
  intros Hm Hok Hdep Hl Hc b d' Hb. rewrite lookup_z_snoc. destruct (Z.eqb_spec b (zlength ds)) as [->|]; [|by apply Hm].
  intros [= <-]. split_and!; [done|done|]. by exists h, s.
Qed.

Lemma state_diffs_step_ok config network l0 ds0 c :
  let stop := stop_sync_at_block_number config in
  next_diff_fits c -> 0 <= num_block_state_diffs_per_query config ->
  (forall query responses, network query = Some responses -> Forall response_ok responses) ->
  client_ok stop l0 ds0 c -> marker MarkerKind_Header (client_storage c) < 2 ^ 32 - 1 ->
  state_ok stop l0 ds0 (state_diffs_step config network c).
Proof.
  intros stop Hfit Hnum Hnet (l & ds & Hs & Hl & Hdp & Hm & Hh & Hd) Hlt. pose proof Hs as [Hr Hnd Hst Hord]. rewrite (hr_marker _ _ Hr) in Hlt.
  pose proof (zlength_nonneg ds) as Hds0. unfold state_diffs_step.
  assert (Hkeep : forall state, diffs_at stop state (zlength ds) (zlength l) ->
    state_ok stop l0 ds0 (Client_Running (mkP2PSyncClient (client_storage c) (client_headers c) state))).
  { intros state Hst'. by exists l, ds. }
  destruct (client_state_diffs c) as [|n|n end_ rs|] eqn:Hc; cbn [stream_step diffs_at] in *.
  - change (get_start_block_number (DataStreamBuilder := StateDiffStreamBuilder)) with get_state_marker.
    change (get_state_marker (client_storage c)) with
      (@Done StorageTxn StorageError Z (client_storage c) (marker MarkerKind_State (client_storage c))).
    rewrite (sr_marker _ _ Hst). by apply Hkeep.
  - subst n. unfold send_query, query_limit. cbn [BLOCK_NUMBER_LIMIT StateDiffStreamBuilder].
    rewrite (bind_step _ _ _ _ _ (get_header_marker_rel _ _ Hr)). cbn [ret].
    rewrite wrap_id by (unfold in_range; lia). set (limit := Z.min _ _).
    unfold waits. cbn [BLOCK_NUMBER_LIMIT StateDiffStreamBuilder]. destruct (limit =? 0); cbn [apply_effect]; [by apply Hkeep|].
    destruct (network _) as [rs|] eqn:Hn; [|done]. apply Hkeep. cbn. split; [done|]. split; [|by eapply Hnet].
    rewrite wrap_id by (unfold in_range, limit; lia). unfold limit. lia.
  - destruct Hd as (-> & He & Hrs). destruct (Z.ltb_spec (zlength ds) end_) as [Hlt'|].
    + change (parse_data_for_block (DataStreamBuilder := StateDiffStreamBuilder)) with parse_state_diff.
      destruct (parse_state_diff_inv (client_storage c) l (zlength ds) rs Hr Hnd ltac:(lia) ltac:(lia) Hrs) as [Hnp Hdone].
      destruct (parse_state_diff (client_storage c) (zlength ds) rs) as [rest [[d n]|]|rest e|] eqn:Hp; cbn [apply_effect];
        [|by apply Hkeep|done|done].
      destruct (Hdone _ _ eq_refl) as (Hn & Hok & Hdep & Hrest & h & s & Hlh & Hlen). cbn [fst snd] in *. subst n.
      destruct (Hfit _ _ _ _ d Hc Hp) as [Hstor Hfits].
      change (write_to_storage (d, zlength ds) (client_storage c)) with (append_state_diff (zlength ds) d (client_storage c)).
      destruct (append_state_diff_outcome (client_storage c) l ds d Hst Hr Hok Hstor Hfits ltac:(lia)) as [(t' & Hw & Hst' & Hr' & _)|(_ & t' & Hw)];
        rewrite Hw; [|done].
      exists l, (ds ++ [d]). rewrite zlength_snoc. split_and!; [|done|by apply prefix_app_r|by eapply lengths_match_diff|done|].
      * split; [done|done|done|rewrite zlength_snoc; lia].
      * cbn [client_state_diffs]. apply after_yield_diffs; [lia|done|done].
    + destruct (consume_fin_ok (DB := StateDiffStreamBuilder) (zlength ds) rs) as [->|[e ->]]; cbn [apply_effect]; [by apply Hkeep|done].
  - by apply Hkeep.
Qed.
End ClientProps.

(** * The answers of the server

    What the server sends for a query: the data of the blocks asked for, up to the
    first that cannot be read, and the end message. *)

(** The block numbers of a query that are in range. *)
Lemma calculate_block_number_forward query start counter :
  Query_direction query = Direction_Forward -> 0 <= start -> 0 <= Query_step query * counter -> start + Query_step query * counter < 2 ^ 64 ->
  calculate_block_number query start counter = inl (start + Query_step query * counter).
Proof.
  intros Hd Hs Hc Hlt. unfold calculate_block_number. rewrite Hd, wrap_id, Z.mul_1_l by (unfold in_range; lia).
  destruct (Z.ltb_spec (start + Query_step query * counter) 0), (Z.ltb_spec (2 ^ 64 - 1) (start + Query_step query * counter)); cbn; lia || done.
Qed.

(** A chain whose blocks are all signed. *)
Abbreviation SignedChain := (list (BlockHeader * Signature)).

Section ServerProps.
Context {BN : BlockNumberApi} {SN : StateNumberApi} {X : ExternalTypes} {SF : StorageFiles} {HS : HashSetIter}.
Context {TD : ThinStateDiffApi}.

Section Send.
Context {Data : Type} {FD : FetchBlockDataFromDb Data}.

Lemma feed_all (l : list Data) s :
  for_each l (fun data => feed (Some data)) (mkSender s None) = Done (mkSender (s ++ (Some <$> l)) None) tt.
Proof.
  revert s; induction l as [|x l IH]; intros s; cbn [for_each fmap list_fmap]; [by rewrite app_nil_r|].
  unfold bind at 1. cbn [feed capacity sent]. rewrite IH. by rewrite <-app_assoc.
Qed.

(** The first blocks of the query were read as [datas]. *)
Definition blocks_read (txn : StorageTxn) (query : Query) (start counter : Z) (datas : list (list Data)) : Prop :=
  forall i data, datas !! i = Some data -> exists b txn',
    calculate_block_number query start (counter + Z.of_nat i) = inl b /\ fetch_block_data_from_db b txn = Done txn' data.

(** The error at a block of the query. *)
Definition block_error (txn : StorageTxn) (query : Query) (start counter : Z) (e : P2PSyncServerError) : Prop :=
  calculate_block_number query start counter = inr e \/
  exists b txn', calculate_block_number query start counter = inl b /\ fetch_block_data_from_db b txn = Fail txn' e.

Lemma blocks_read_nil txn query start counter : blocks_read txn query start counter [].
Proof. intros i d Hi. by rewrite lookup_nil in Hi. Qed.

Lemma send_blocks_shape txn query start n counter s :
  (forall b, fetch_block_data_from_db b txn <> Panic) ->
  exists datas, blocks_read txn query start counter datas /\ (length datas <= n)%nat /\
    let s' := mkSender (s ++ (Some <$> concat datas)) None in
    (length datas = n /\ send_blocks txn query start n counter (mkSender s None) = Done s' tt \/
     (length datas < n)%nat /\ exists e, block_error txn query start (counter + zlength datas) e /\
       send_blocks txn query start n counter (mkSender s None) = Fail s' e).
Proof.
  intros Hnp. revert counter s; induction n as [|n IH]; intros counter s.
  { exists []. split; [apply blocks_read_nil|]. split; [done|]. left. split; [done|]. cbn. by rewrite app_nil_r. }
  assert (Hstop : forall e, block_error txn query start counter e ->
    send_blocks txn query start (S n) counter (mkSender s None) = Fail (mkSender s None) e ->
    exists datas, blocks_read txn query start counter datas /\ (length datas <= S n)%nat /\
    let s' := mkSender (s ++ (Some <$> concat datas)) None in
    (length datas = S n /\ send_blocks txn query start (S n) counter (mkSender s None) = Done s' tt \/
     (length datas < S n)%nat /\ exists e, block_error txn query start (counter + zlength datas) e /\
       send_blocks txn query start (S n) counter (mkSender s None) = Fail s' e)).
  { intros e He Hrun. exists []. split; [apply blocks_read_nil|]. split; [cbn; lia|]. right. split; [cbn; lia|]. exists e.
    unfold zlength. cbn [concat fmap list_fmap length Z.of_nat]. by rewrite app_nil_r, Z.add_0_r. }
  cbn [send_blocks] in *. destruct (calculate_block_number query start counter) as [b|e] eqn:Hb; [|apply (Hstop e); [by left|done]].
  rewrite bind_ret in *. destruct (fetch_block_data_from_db b txn) as [t' data|t' e|] eqn:Hd; [| |by apply Hnp in Hd].
  - assert (Hf : in_txn txn (fetch_block_data_from_db b) (mkSender s None) = Done (mkSender s None) data) by (unfold in_txn; by rewrite Hd).
    rewrite (bind_step _ _ _ _ _ Hf), (bind_step _ _ _ _ _ (feed_all data s)).
    destruct (IH (counter + 1) (s ++ (Some <$> data))) as (datas & Hr & Hlen & Hcase). exists (data :: datas).
    split; [|split; [cbn; lia|]].
    + intros [|i] d Hi; cbn in Hi; [injection Hi as <-; exists b, t'; by rewrite Z.add_0_r|].
      destruct (Hr i d Hi) as (b' & t2 & Hb' & Hd'). exists b', t2. split; [|done]. rewrite <-Hb'. f_equal. lia.
    + cbn [concat length]. rewrite fmap_app, app_assoc.
      destruct Hcase as [[Hl Hrun]|(Hl & e & He & Hrun)]; [left; split; [lia|done]|]. right. split; [lia|]. exists e. split; [|done].
      replace (counter + zlength (data :: datas)) with (counter + 1 + zlength datas) by (unfold zlength; cbn; lia). done.
  - apply (Hstop e); [right; by exists b, t'|]. unfold bind at 1, in_txn at 1. by rewrite Hd.
Qed.
End Send.

(** ** A chain of blocks served forward *)

(** The first [length items] blocks are there, with the data [items]. *)
Definition serves {Data} {FD : FetchBlockDataFromDb Data} (txn : StorageTxn) (items : list (list Data)) : Prop :=
  (forall b data, lookup_z items b = Some data -> fetch_block_data_from_db b txn = Done txn data) /\
  forall b, zlength items <= b -> exists e, fetch_block_data_from_db b txn = Fail txn e.

(** The data of the blocks from [start] on, [n] of them or as many as there are. *)
Definition blocks_from {Data} (items : list (list Data)) (start : Z) (n : nat) : list Data :=
  concat (take n (drop (Z.to_nat start) items)).

Lemma send_blocks_serves {Data} {FD : FetchBlockDataFromDb Data} txn (items : list (list Data)) query start n counter s :
  serves txn items -> Query_direction query = Direction_Forward -> Query_step query = 1 -> 0 <= start -> 0 <= counter ->
  counter + Z.of_nat n <= 2 ^ 64 -> zlength items < 2 ^ 64 ->
  exists r, send_blocks txn query start n counter (mkSender s None) = r /\
    match r with
    | Done sender _ | Fail sender _ => sender = mkSender (s ++ (Some <$> blocks_from items (start + counter) n)) None
    | Panic => False
    end.
Proof.
  intros [Hs He] Hdir Hstep Hstart Hc Hcn Hlen. revert counter s Hc Hcn; induction n as [|n IH]; intros counter s Hc Hcn.
  - eexists; split; [done|]. cbn. unfold blocks_from. cbn. by rewrite app_nil_r.
  - cbn [send_blocks]. destruct (decide (start + counter < 2 ^ 64)) as [Hlt|Hge].
    + rewrite (calculate_block_number_forward query) by (rewrite ?Hstep; done || lia). rewrite bind_ret, Hstep, Z.mul_1_l.
      destruct (lookup_z items (start + counter)) as [data|] eqn:Hl.
      * unfold bind at 1. unfold in_txn at 1. rewrite (Hs _ _ Hl). rewrite (bind_step _ _ _ _ _ (feed_all data s)).
        destruct (IH (counter + 1) (s ++ (Some <$> data)) ltac:(lia) ltac:(lia)) as (r & Hr & Hcase). exists r. split; [done|].
        assert (Hb : blocks_from items (start + counter) (S n) = data ++ blocks_from items (start + (counter + 1)) n).
        { unfold blocks_from. rewrite (drop_lookup_z _ _ _ Hl). cbn [take concat]. do 4 f_equal. lia. }
        rewrite Hb, fmap_app, app_assoc. done.
      * apply lookup_z_None in Hl. destruct (He (start + counter)) as [e Hf]; [lia|].
        unfold bind at 1. unfold in_txn at 1. rewrite Hf. eexists; split; [done|]. cbn.
        unfold blocks_from. rewrite drop_ge by (unfold zlength in *; lia). rewrite take_nil. cbn. by rewrite app_nil_r.
    + assert (Hb : blocks_from items (start + counter) (S n) = []).
      { unfold blocks_from. rewrite drop_ge by (unfold zlength in *; lia). done. }
      rewrite Hb, app_nil_r. unfold calculate_block_number. rewrite Hdir, Hstep, !Z.mul_1_l, wrap_id by (unfold in_range; lia).
      destruct (Z.ltb_spec (2 ^ 64 - 1) (start + counter)); [|lia]. rewrite orb_true_r. by eexists.
Qed.

(** *** Headers and state diffs *)

Definition with_signature (x : BlockHeader * Signature) : BlockHeader * option Signature := (x.1, Some x.2).

(** The header the server sends: the length of the state diff is filled in. *)
Definition served_header (x : BlockHeader * Signature) (d : ThinStateDiff) : SignedBlockHeader :=
  mkSignedBlockHeader
    (match BlockHeader_state_diff_length x.1 with
     | None => with_state_diff_length x.1 (thin_state_diff_len d)
     | Some _ => x.1
     end) [x.2].

Definition served_headers (l : SignedChain) (ds : list ThinStateDiff) : list SignedBlockHeader := zip_with served_header l ds.

Lemma get_state_diff_at t ds b d : diffs_rel t ds -> lookup_z ds b = Some d -> get_state_diff b t = Done t (Some d).
Proof.
  intros Hd Hl. destruct (read_diff t ds b d Hd Hl) as (loc & Hloc & Hg). unfold get_state_diff, tbl_get. rewrite bind_get, Hloc.
  by rewrite (bind_step _ _ _ _ _ Hg).
Qed.

Lemma get_state_diff_past t ds b : diffs_rel t ds -> lookup_z ds b = None -> get_state_diff b t = Done t None.
Proof.
  intros Hd Hb. specialize (Hd b). rewrite Hb in Hd.
  unfold get_state_diff, tbl_get. rewrite bind_get. by destruct (t_state_diffs t !! b).
Qed.

Lemma found_in_block_some {A} b (m : Txn (option A)) t a : m t = Done t (Some a) -> found_in_block b m t = Done t a.
Proof. intros Hm. unfold found_in_block, db_read, map_err, bind. by rewrite Hm. Qed.

Lemma found_in_block_none {A} b (m : Txn (option A)) t :
  m t = Done t None -> found_in_block b m t = Fail t (block_not_found b).
Proof. intros Hm. unfold found_in_block, db_read, map_err, bind. by rewrite Hm. Qed.

Lemma lookup_z_zip {A B C} (f : A -> B -> C) (l : list A) (k : list B) i c :
  lookup_z (zip_with f l k) i = Some c -> exists a b, lookup_z l i = Some a /\ lookup_z k i = Some b /\ c = f a b.
Proof.
  unfold lookup_z. destruct (0 <=? i); [|done]. intros Hl. apply lookup_zip_with_Some in Hl as (a & b & -> & Ha & Hb). by exists a, b.
Qed.

Lemma zlength_zip {A B C} (f : A -> B -> C) (l : list A) (k : list B) : zlength l = zlength k -> zlength (zip_with f l k) = zlength l.
Proof. unfold zlength. intros Hl. rewrite length_zip_with. lia. Qed.

Lemma serves_headers t (l : SignedChain) ds :
  header_rel t (with_signature <$> l) -> diffs_rel t ds -> zlength l = zlength ds -> zlength l < 2 ^ 32 ->
  serves t ((fun h => [h]) <$> served_headers l ds).
Proof.
  intros Hr Hd Hlen Hlt. split.
  - intros b data Hl. rewrite lookup_z_fmap in Hl. apply fmap_Some in Hl as (h & Hl & ->).
    apply lookup_z_zip in Hl as ([h0 s0] & d & Hl & Hld & ->). pose proof (lookup_z_Some _ _ _ Hl) as Hb.
    cbn [fetch_block_data_from_db fetch_SignedBlockHeader]. unfold fetch_signed_header.
    assert (Hh : get_block_header b t = Done t (Some h0)).
    { rewrite (get_block_header_rel t _ b Hr) by lia. by rewrite lookup_z_fmap, Hl. }
    assert (Hs : get_block_signature b t = Done t (Some s0)).
    { unfold get_block_signature, tbl_get. rewrite bind_get, (hr_signatures _ _ Hr), lookup_z_fmap, Hl. done. }
    rewrite (bind_step _ _ _ _ _ (found_in_block_some b _ _ _ Hh)).
    assert (Hx : forall h, bind (fun s => db_read (get_block_signature b) s) (fun signature =>
      let! signature := ok_or_raise (P2PSyncServerError_SignatureNotFound b) signature in ret [mkSignedBlockHeader h [signature]]) t =
      Done t [mkSignedBlockHeader h [s0]]) by (intros h; unfold bind, db_read, map_err; by rewrite Hs).
    unfold served_header. cbn [fst snd]. destruct (BlockHeader_state_diff_length h0).
    + rewrite bind_ret. apply Hx.
    + rewrite bind_assoc, (bind_step _ _ _ _ _ (found_in_block_some b _ _ _ (get_state_diff_at _ _ _ _ Hd Hld))), bind_ret. apply Hx.
  - intros b Hb. unfold served_headers in Hb. unfold zlength in Hb. rewrite length_fmap, length_zip_with in Hb. unfold zlength in Hlen.
    exists (block_not_found b). cbn [fetch_block_data_from_db fetch_SignedBlockHeader]. unfold fetch_signed_header.
    assert (Hh : get_block_header b t = Done t None).
    { unfold get_block_header, tbl_get. rewrite bind_get, (hr_headers _ _ Hr), (proj2 (lookup_z_None _ b)); [done|].
      unfold zlength. rewrite length_fmap. lia. }
    unfold bind at 1. by rewrite (found_in_block_none b _ _ Hh).
Qed.

Lemma serves_state_diffs t ds : diffs_rel t ds -> serves t (split_thin_state_diff <$> ds).
Proof.
  intros Hd. split; cbn [fetch_block_data_from_db fetch_StateDiffChunk]; unfold fetch_state_diff_chunks.
  - intros b data Hl. rewrite lookup_z_fmap in Hl. apply fmap_Some in Hl as (d & Hl & ->).
    by rewrite (bind_step _ _ _ _ _ (found_in_block_some b _ _ _ (get_state_diff_at _ _ _ _ Hd Hl))).
  - intros b Hb. unfold zlength in Hb. rewrite length_fmap in Hb. exists (block_not_found b). unfold bind at 1.
    by rewrite (found_in_block_none b _ _ (get_state_diff_past t ds b Hd ltac:(apply lookup_z_None; unfold zlength; lia))).
Qed.

Lemma fetch_diffs_no_panic t ds b : diffs_rel t ds -> fetch_state_diff_chunks b t <> Panic.
Proof.
  intros Hd. unfold fetch_state_diff_chunks. unfold bind at 1. destruct (lookup_z ds b) as [d|] eqn:Hl.
  - by rewrite (found_in_block_some b _ _ _ (get_state_diff_at _ _ _ _ Hd Hl)).
  - by rewrite (found_in_block_none b _ _ (get_state_diff_past _ _ _ Hd Hl)).
Qed.

(** The messages of an answer that is received as it was sent. *)
Definition sent_by {Data} (r : res (Sender Data) P2PSyncServerError unit) : list (DataOrFin Data) :=
  match r with Done sender _ | Fail sender _ => sent sender | Panic => [] end.

Lemma answer_serves {Data} {FD : FetchBlockDataFromDb Data} txn (items : list (list Data)) start limit :
  serves txn items -> 0 <= start -> 0 <= limit < 2 ^ 64 -> zlength items < 2 ^ 64 ->
  sent_by (send_data_for_query txn (mkQuery (BlockHashOrNumber_Number start) Direction_Forward limit 1) (mkSender [] None)) =
  (Some <$> blocks_from items start (Z.to_nat limit)) ++ [None].
Proof.
  intros Hs Hstart Hlimit Hlen. unfold send_data_for_query, send_data_without_fin_for_query.
  set (q := mkQuery _ _ _ _). cbn [start_block_number Query_start_block q].
  change (in_txn txn (ret start)) with (ret start : Send (Data := Data) Z). rewrite bind_ret. cbn [Query_limit q].
  destruct (send_blocks_serves txn items q start (Z.to_nat limit) 0 [] Hs eq_refl eq_refl Hstart ltac:(lia) ltac:(lia) Hlen) as (r & Hr & Hcase).
  rewrite Hr, Z.add_0_r in *. destruct r as [sender u|sender e|]; [| |done]; subst sender; done.
Qed.
End ServerProps.
