(* ===== verification/P2pHonest.v ===== *)
(** * Synchronising from an honest peer

    The client and the server composed: a client whose queries are answered by
    the server of a synced node follows the chain of that node, in every
    interleaving of its streams, and can always reach its end. *)

From stdpp Require Import base gmap list strings fin_maps relations.
From Stdlib Require Import ZArith Lia.
From S2P Require Import Prelude StorageTables StarknetTypes StorageTxn Header State StateProps P2pServer P2pClient P2pDiffProps.
From S2P Require Import P2pProps.

Section Honest.
Context {BN : BlockNumberApi} {SN : StateNumberApi} {X : ExternalTypes} {SF : StorageFiles} {HS : HashSetIter}.
Context {TD : ThinStateDiffApi}.

(** What a peer answers, delivered as it was sent. *)
Definition peer {Data} {FD : FetchBlockDataFromDb Data} (sv : StorageTxn) : Network (Input := Data) := fun query =>
  Some (Response_Message <$> sent_by (send_data_for_query sv query (mkSender [] None))).

(** The steps of a client with this peer. *)
Inductive peer_step (config : P2PSyncClientConfig) (sv : StorageTxn) : ClientState -> ClientState -> Prop :=
| peer_step_headers c : peer_step config sv (Client_Running c) (headers_step config (peer sv) c)
| peer_step_state_diffs c : peer_step config sv (Client_Running c) (state_diffs_step config (peer sv) c).

(** The chain of the peer: signed blocks with their numbers, and a well-formed state
    diff for each, as long as its header says if it says. *)
Record peer_chain (sv : StorageTxn) (l : SignedChain) (ds : list ThinStateDiff) : Prop := {
  pc_headers : header_rel sv (with_signature <$> l);
  pc_hashes : NoDup (hash_of <$> (with_signature <$> l));
  pc_state : state_rel sv ds;
  pc_length : zlength l = zlength ds;
  pc_narrow : zlength l < 2 ^ 32 - 1;
  pc_numbers : forall b x, lookup_z l b = Some x -> BlockHeader_block_number x.1 = b;
  pc_diffs : Forall (fun d => diff_ok d /\ no_empty_storage d /\ NoDup (ThinStateDiff_deprecated_declared_classes d)) ds;
  pc_lengths : forall b x d, lookup_z l b = Some x -> lookup_z ds b = Some d ->
    BlockHeader_state_diff_length x.1 = None \/ BlockHeader_state_diff_length x.1 = Some (change_count d)
}.

(** What the client stores of it. *)
Definition stored_header (h : SignedBlockHeader) : BlockHeader * option Signature :=
  (SignedBlockHeader_block_header h, head (SignedBlockHeader_signatures h)).

Definition synced_headers (l : SignedChain) (ds : list ThinStateDiff) : HeaderChain := stored_header <$> served_headers l ds.
Definition synced_diffs (ds : list ThinStateDiff) : list ThinStateDiff := received <$> ds.

(** The rest of the answer to a query for the blocks up to [end_], at block [n]. *)
Definition rest_of {Data} (items : list (list Data)) (n : nat) (end_ : Z) : list (Response Data) :=
  Response_Message <$> ((Some <$> blocks_from items (Z.of_nat n) (Z.to_nat (end_ - Z.of_nat n))) ++ [None]).

Definition stream_at {Data} (items : list (list Data)) (state : StreamState Data) (n : nat) (bound : Z) : Prop :=
  match state with
  | Stream_Start => True
  | Stream_Query current => current = Z.of_nat n
  | Stream_Blocks current end_ responses =>
      current = Z.of_nat n /\ Z.of_nat n <= end_ <= bound /\ responses = rest_of items n end_
  | Stream_Ended => False
  end.

Lemma rest_of_end {Data} (items : list (list Data)) n : rest_of items n (Z.of_nat n) = [Response_Message None].
Proof. unfold rest_of, blocks_from. by rewrite Z.sub_diag. Qed.

Lemma rest_of_past {Data} (items : list (list Data)) n end_ :
  items !! n = None -> rest_of items n end_ = [Response_Message None].
Proof. intros Hn. unfold rest_of, blocks_from. rewrite Nat2Z.id, drop_ge by (by apply lookup_ge_None). by rewrite take_nil. Qed.

Lemma rest_of_next {Data} (items : list (list Data)) n end_ data :
  items !! n = Some data -> Z.of_nat n < end_ ->
  rest_of items n end_ = ((fun x => Response_Message (Some x)) <$> data) ++ rest_of items (S n) end_.
Proof.
  intros Hn Hlt. unfold rest_of, blocks_from. rewrite !Nat2Z.id.
  replace (Z.to_nat (end_ - Z.of_nat n)) with (S (Z.to_nat (end_ - Z.of_nat (S n)))) by lia.
  rewrite (drop_S _ _ _ Hn). cbn [take concat]. rewrite !fmap_app, <-list_fmap_compose, app_assoc. done.
Qed.

Section Peer.
Context (config : P2PSyncClientConfig) (sv : StorageTxn) (l : SignedChain) (ds : list ThinStateDiff).
Context (Hpeer : peer_chain sv l ds).
Context (Hstop : stop_sync_at_block_number config = None).
Context (Hnh : 1 <= num_headers_per_query config < 2 ^ 63) (Hnd : 1 <= num_block_state_diffs_per_query config < 2 ^ 63).

Abbreviation header_items := ((fun h => [h]) <$> served_headers l ds).
Abbreviation diff_items := (split_thin_state_diff <$> ds).

(** [n] headers and [m] state diffs are stored. *)
Record follows (c : P2PSyncClient) (n m : nat) : Prop := {
  fo_headers : header_rel (client_storage c) (take n (synced_headers l ds));
  fo_state : state_rel (client_storage c) (take m (synced_diffs ds));
  fo_declared : declared_only (client_storage c) (take m (synced_diffs ds));
  fo_room : file_takes (t_thin_state_diff_file (client_storage c)) (drop m (synced_diffs ds));
  fo_order : (m <= n <= length l)%nat;
  fo_header_stream : stream_at header_items (client_headers c) n (2 ^ 64 - 1);
  fo_diff_stream : stream_at diff_items (client_state_diffs c) m (Z.of_nat n)
}.

Lemma length_served : length (served_headers l ds) = length l.
Proof. pose proof (pc_length _ _ _ Hpeer) as Hl. unfold zlength in Hl. unfold served_headers. rewrite length_zip_with. lia. Qed.

Lemma length_synced : length (synced_headers l ds) = length l.
Proof. unfold synced_headers. rewrite length_fmap. apply length_served. Qed.

Lemma zlength_take {A} (k : list A) n : (n <= length k)%nat -> zlength (take n k) = Z.of_nat n.
Proof. intros Hn. unfold zlength. rewrite length_take. lia. Qed.

Lemma peer_headers_answer n limit :
  0 <= limit < 2 ^ 64 -> peer (Data := SignedBlockHeader) sv (query_for (Z.of_nat n) limit) = Some (rest_of header_items n (Z.of_nat n + limit)).
Proof.
  intros Hl. unfold peer, query_for, STEP, rest_of. pose proof (pc_narrow _ _ _ Hpeer) as Hlt. unfold zlength in Hlt.
  rewrite (answer_serves sv header_items); [|by apply serves_headers; [apply Hpeer|apply (pc_state _ _ _ Hpeer)|apply Hpeer|unfold zlength; lia]|lia|lia|].
  - by replace (Z.of_nat n + limit - Z.of_nat n) with limit by lia.
  - unfold zlength. rewrite length_fmap, length_served. lia.
Qed.

Lemma peer_diffs_answer n limit :
  0 <= limit < 2 ^ 64 -> peer (Data := StateDiffChunk) sv (query_for (Z.of_nat n) limit) = Some (rest_of diff_items n (Z.of_nat n + limit)).
Proof.
  intros Hl. unfold peer, query_for, STEP, rest_of. pose proof (pc_narrow _ _ _ Hpeer) as Hlt. pose proof (pc_length _ _ _ Hpeer) as Hlen.
  unfold zlength in Hlt, Hlen.
  rewrite (answer_serves sv diff_items); [|apply serves_state_diffs, (pc_state _ _ _ Hpeer)|lia|lia|].
  - by replace (Z.of_nat n + limit - Z.of_nat n) with limit by lia.
  - unfold zlength. rewrite length_fmap. lia.
Qed.

Lemma served_at n : (n < length l)%nat -> exists x d, l !! n = Some x /\ ds !! n = Some d /\
  served_headers l ds !! n = Some (served_header x d).
Proof.
  intros Hn. destruct (lookup_lt_is_Some_2 l n Hn) as [x Hx]. pose proof (pc_length _ _ _ Hpeer) as Hl. unfold zlength in Hl.
  destruct (lookup_lt_is_Some_2 ds n ltac:(lia)) as [d Hd]. exists x, d. split_and!; [done|done|].
  apply lookup_zip_with_Some. by exists x, d.
Qed.

Lemma served_number n x d : l !! n = Some x -> BlockHeader_block_number (SignedBlockHeader_block_header (served_header x d)) = Z.of_nat n.
Proof.
  intros Hx. rewrite <-lookup_z_of_nat in Hx. rewrite <-(pc_numbers _ _ _ Hpeer _ _ Hx). unfold served_header. cbn.
  by destruct (BlockHeader_state_diff_length x.1).
Qed.

Lemma served_length n x d : l !! n = Some x -> ds !! n = Some d ->
  BlockHeader_state_diff_length (SignedBlockHeader_block_header (served_header x d)) = Some (change_count d).
Proof.
  intros Hx Hd. rewrite <-lookup_z_of_nat in Hx. rewrite <-lookup_z_of_nat in Hd. pose proof (pc_lengths _ _ _ Hpeer _ _ _ Hx Hd) as Hc. unfold served_header.
  destruct (BlockHeader_state_diff_length x.1) eqn:He; cbn; [destruct Hc as [|Hc]; [done|by rewrite He]|by rewrite thin_state_diff_len_spec].
Qed.

Lemma synced_hashes : hash_of <$> synced_headers l ds = hash_of <$> (with_signature <$> l).
Proof.
  apply list_eq. intros i. unfold synced_headers. rewrite !list_lookup_fmap. destruct (decide (i < length l)%nat) as [Hi|Hi].
  - destruct (served_at i Hi) as (x & d & Hx & _ & Hs). rewrite Hs, Hx. cbn. unfold served_header, hash_of. cbn.
    by destruct (BlockHeader_state_diff_length x.1).
  - rewrite !lookup_ge_None_2; [done| |]; rewrite ?length_served; lia.
Qed.

Lemma take_synced_nodup n : NoDup (hash_of <$> take n (synced_headers l ds)).
Proof.
  pose proof (pc_hashes _ _ _ Hpeer) as Hn. rewrite <-synced_hashes, <-(take_drop n (synced_headers l ds)), fmap_app in Hn.
  by apply NoDup_app in Hn as [? _].
Qed.

Lemma take_synced_snoc n x d : served_headers l ds !! n = Some (served_header x d) ->
  take (S n) (synced_headers l ds) = take n (synced_headers l ds) ++ [(SignedBlockHeader_block_header (served_header x d), Some x.2)].
Proof. intros Hs. apply take_S_r. unfold synced_headers. by rewrite list_lookup_fmap, Hs. Qed.

Lemma parse_served n x d rest :
  l !! n = Some x -> parse_header (Z.of_nat n) (Response_Message (Some (served_header x d)) :: rest) = Done rest (Some (served_header x d)).
Proof. intros Hx. unfold parse_header. unfold bind. cbn beta iota zeta delta [next_message]. rewrite (served_number n x d Hx), Z.eqb_refl. done. Qed.

(** *** Steps of the header stream *)

Definition with_headers (c : P2PSyncClient) (t : StorageTxn) (state : StreamState SignedBlockHeader) : P2PSyncClient :=
  mkP2PSyncClient t state (client_state_diffs c).

(** A step that stores no header. *)
Lemma follows_headers c n m state :
  follows c n m -> stream_at header_items state n (2 ^ 64 - 1) -> follows (with_headers c (client_storage c) state) n m.
Proof. intros [? ? ? ? ? ? ?] Hs. by split. Qed.

Lemma headers_block_step c n m end_ :
  follows c n m -> (n < length l)%nat -> Z.of_nat n < end_ <= 2 ^ 64 - 1 -> client_headers c = Stream_Blocks (Z.of_nat n) end_ (rest_of header_items n end_) ->
  exists c', headers_step config (peer sv) c = Client_Running c' /\ follows c' (S n) m /\
    client_headers c' = Stream_Blocks (Z.of_nat (S n)) end_ (rest_of header_items (S n) end_).
Proof.
  intros Hf Hn He Hc. destruct (served_at n Hn) as (x & d & Hx & Hd & Hs).
  assert (Hit : header_items !! n = Some [served_header x d]) by (by rewrite list_lookup_fmap, Hs).
  unfold headers_step. rewrite Hc. cbn [stream_step]. rewrite (proj2 (Z.ltb_lt _ _)) by lia.
  change (parse_data_for_block (DataStreamBuilder := HeaderStreamBuilder)) with (fun (_ : StorageTxn) => parse_header).
  cbn beta. rewrite (rest_of_next _ _ _ _ Hit) by lia. cbn [fmap list_fmap app]. rewrite (parse_served n x d _ Hx).
  cbn [apply_effect write_to_storage output_data HeaderStreamBuilder SignedBlockHeader_data].
  set (h := SignedBlockHeader_block_header (served_header x d)).
  change (head (SignedBlockHeader_signatures (served_header x d))) with (Some x.2). cbn [expect].
  pose proof (pc_narrow _ _ _ Hpeer) as Hnw. unfold zlength in Hnw.
  assert (Hl : zlength (take n (synced_headers l ds)) = Z.of_nat n) by (apply zlength_take; rewrite length_synced; lia).
  destruct (append_signed_header_outcome (client_storage c) (take n (synced_headers l ds)) h x.2) as [(_ & t' & Hw & Hr' & _ & Hfr)|(Hin & _)].
  - apply Hf.
  - apply take_synced_nodup.
  - lia.
  - rewrite Hl. exact (served_number n x d Hx).
  - assert (Hw' : (append_header (BlockHeader_block_number h) h ;!
        let! signature := ret x.2 in append_block_signature (BlockHeader_block_number h) signature) (client_storage c) = Done t' tt) by exact Hw.
    rewrite Hw'. unfold after_yield. rewrite Hstop, bn_unchecked_next_small by lia.
    replace (Z.of_nat n + 1) with (Z.of_nat (S n)) by lia. eexists. split; [done|]. split; [|done].
    destruct Hf. split; cbn [client_storage client_headers client_state_diffs].
    + by rewrite (take_synced_snoc n x d Hs).
    + by eapply state_rel_header_frame.
    + by eapply declared_only_header_frame.
    + by destruct Hfr as [_ (mk & hs & hh & vs & sg & ->)].
    + lia.
    + cbn. split; [done|]. split; [lia|done].
    + destruct (client_state_diffs c) as [| |cur e rs|]; cbn in *; try done. destruct fo_diff_stream0 as (? & ? & ?). split_and!; [done|lia|lia|done].
  - exfalso. pose proof (take_synced_nodup (S n)) as Hnd'. rewrite (take_synced_snoc n x d Hs), fmap_app in Hnd'.
    apply NoDup_app in Hnd' as (_ & Hdis & _). apply (Hdis _ Hin). cbn. by left.
Qed.

Lemma headers_query_step c n m :
  follows c n m -> client_headers c = Stream_Query (Z.of_nat n) ->
  let end_ := Z.of_nat n + num_headers_per_query config in
  let c' := with_headers c (client_storage c) (Stream_Blocks (Z.of_nat n) end_ (rest_of header_items n end_)) in
  headers_step config (peer sv) c = Client_Running c' /\ follows c' n m.
Proof.
  intros Hf Hc end_ c'. pose proof (pc_narrow _ _ _ Hpeer) as Hnw. unfold zlength in Hnw. pose proof (fo_order _ _ _ Hf) as Ho.
  assert (Hw : wrap 64 (Z.of_nat n + num_headers_per_query config) = end_) by (apply wrap_id; unfold in_range; lia).
  unfold headers_step. rewrite Hc. cbn [stream_step]. unfold send_query, query_limit, waits. cbn [BLOCK_NUMBER_LIMIT HeaderStreamBuilder].
  rewrite peer_headers_answer, Hw by lia. split; [done|]. apply follows_headers; [done|]. cbn. unfold end_. split_and!; [done|lia|lia|done].
Qed.

Lemma headers_start_step c n m :
  follows c n m -> client_headers c = Stream_Start ->
  let c' := with_headers c (client_storage c) (Stream_Query (Z.of_nat n)) in
  headers_step config (peer sv) c = Client_Running c' /\ follows c' n m.
Proof.
  intros Hf Hc c'. pose proof (fo_order _ _ _ Hf) as Ho. unfold headers_step. rewrite Hc. cbn [stream_step].
  change (get_start_block_number (DataStreamBuilder := HeaderStreamBuilder)) with get_header_marker.
  rewrite (get_header_marker_rel _ _ (fo_headers _ _ _ Hf)), zlength_take by (rewrite length_synced; lia).
  split; [done|]. by apply follows_headers.
Qed.

(** The end of an answer, whether all the blocks asked for came or not. *)
Lemma headers_fin_step c n m end_ :
  follows c n m -> client_headers c = Stream_Blocks (Z.of_nat n) end_ (rest_of header_items n end_) ->
  Z.of_nat n <= end_ -> ~ ((n < length l)%nat /\ Z.of_nat n < end_) ->
  let c' := with_headers c (client_storage c) (Stream_Query (Z.of_nat n)) in
  headers_step config (peer sv) c = Client_Running c' /\ follows c' n m.
Proof.
  intros Hf Hc He Hno c'. split; [|by apply follows_headers]. unfold headers_step. rewrite Hc. cbn [stream_step].
  destruct (Z.ltb_spec (Z.of_nat n) end_) as [Hlt|].
  - rewrite rest_of_past by (rewrite list_lookup_fmap, lookup_ge_None_2; [done|rewrite length_served; lia]). done.
  - assert (end_ = Z.of_nat n) as -> by lia. by rewrite rest_of_end.
Qed.

Lemma headers_honest c n m :
  follows c n m -> exists c' n', headers_step config (peer sv) c = Client_Running c' /\ follows c' n' m /\ (n <= n')%nat.
Proof.
  intros Hf. pose proof (fo_header_stream _ _ _ Hf) as Hs. destruct (client_headers c) as [|cur|cur end_ rs|] eqn:Hc; cbn in Hs.
  - destruct (headers_start_step c n m Hf Hc) as [Hst Hf']. by eexists _, n.
  - subst cur. destruct (headers_query_step c n m Hf Hc) as [Hst Hf']. by eexists _, n.
  - destruct Hs as (-> & He & ->). destruct (decide ((n < length l)%nat /\ Z.of_nat n < end_)) as [[Hn Hlt]|Hno].
    + destruct (headers_block_step c n m end_ Hf Hn ltac:(lia) Hc) as (c' & Hst & Hf' & _). exists c', (S n). split_and!; [done|done|lia].
    + destruct (headers_fin_step c n m end_ Hf Hc ltac:(lia) Hno) as [Hst Hf']. by eexists _, n.
  - done.
Qed.

(** From any position the next header is reached. *)
Lemma step_then c c' s : headers_step config (peer sv) c = Client_Running c' ->
  rtc (peer_step config sv) (Client_Running c') s -> rtc (peer_step config sv) (Client_Running c) s.
Proof. intros Hst Hr. eapply rtc_l; [apply peer_step_headers|by rewrite Hst]. Qed.

Lemma headers_query_progress c n m :
  follows c n m -> (n < length l)%nat -> client_headers c = Stream_Query (Z.of_nat n) ->
  exists c', rtc (peer_step config sv) (Client_Running c) (Client_Running c') /\ follows c' (S n) m.
Proof.
  intros Hf Hn Hc. pose proof (pc_narrow _ _ _ Hpeer) as Hnw. unfold zlength in Hnw.
  destruct (headers_query_step c n m Hf Hc) as [Hst Hf1].
  destruct (headers_block_step _ n m (Z.of_nat n + num_headers_per_query config) Hf1 Hn ltac:(lia) eq_refl) as (c' & Hst2 & Hf2 & _).
  exists c'. split; [|done]. eapply step_then; [exact Hst|]. eapply step_then; [exact Hst2|]. reflexivity.
Qed.

Lemma headers_progress c n m :
  follows c n m -> (n < length l)%nat ->
  exists c', rtc (peer_step config sv) (Client_Running c) (Client_Running c') /\ follows c' (S n) m.
Proof.
  intros Hf Hn. pose proof (fo_header_stream _ _ _ Hf) as Hs. destruct (client_headers c) as [|cur|cur end_ rs|] eqn:Hc; cbn in Hs.
  - destruct (headers_start_step c n m Hf Hc) as [Hst Hf1]. destruct (headers_query_progress _ n m Hf1 Hn eq_refl) as (c' & Hr & Hf').
    exists c'. split; [|done]. by eapply step_then.
  - subst cur. by apply headers_query_progress.
  - destruct Hs as (-> & He & ->). destruct (decide (Z.of_nat n < end_)) as [Hlt|Hge].
    + destruct (headers_block_step c n m end_ Hf Hn ltac:(lia) Hc) as (c' & Hst & Hf' & _). exists c'. split; [|done].
      eapply step_then; [exact Hst|]. reflexivity.
    + destruct (headers_fin_step c n m end_ Hf Hc ltac:(lia) ltac:(tauto)) as [Hst Hf1].
      destruct (headers_query_progress _ n m Hf1 Hn eq_refl) as (c' & Hr & Hf'). exists c'. split; [|done]. by eapply step_then.
  - done.
Qed.

(** *** Steps of the state diff stream *)

Definition with_state_diffs (c : P2PSyncClient) (t : StorageTxn) (state : StreamState StateDiffChunk) : P2PSyncClient :=
  mkP2PSyncClient t (client_headers c) state.

Lemma follows_state_diffs c n m state :
  follows c n m -> stream_at diff_items state m (Z.of_nat n) -> follows (with_state_diffs c (client_storage c) state) n m.
Proof. intros [? ? ? ? ? ? ?] Hs. by split. Qed.

(** The classes of the next state diff are new to the client. *)
Lemma next_declared_new c n m d h :
  follows c n m -> ds !! m = Some d -> h ∈ (ThinStateDiff_declared_classes d).*1 -> t_declared_classes_block (client_storage c) !! h = None.
Proof.
  intros Hf Hd Hh. destruct (t_declared_classes_block (client_storage c) !! h) as [b|] eqn:Hb; [|done]. exfalso.
  destruct (fo_declared _ _ _ Hf h b Hb) as (d' & Hl & Hin). pose proof (lookup_z_Some _ _ _ Hl) as Hr. unfold zlength in Hr.
  rewrite length_take in Hr. replace b with (Z.of_nat (Z.to_nat b)) in Hl by lia. rewrite lookup_z_of_nat, lookup_take_lt in Hl by lia.
  unfold synced_diffs in Hl. rewrite list_lookup_fmap in Hl. apply fmap_Some in Hl as (d0 & Hl & ->).
  pose proof (pc_state _ _ _ Hpeer) as Hst. rewrite <-lookup_z_of_nat in Hl, Hd.
  pose proof (sr_declared _ _ Hst _ _ _ Hl Hin) as E1. pose proof (sr_declared _ _ Hst _ _ _ Hd Hh) as E2. rewrite E1 in E2. injection E2 as E2. lia.
Qed.

Lemma parse_served_diff c n m end_ d :
  follows c n m -> ds !! m = Some d -> (m < n)%nat -> Z.of_nat m < end_ ->
  parse_state_diff (client_storage c) (Z.of_nat m) (rest_of diff_items m end_) = Done (rest_of diff_items (S m) end_) (Some (received d, Z.of_nat m)).
Proof.
  intros Hf Hd Hm He. pose proof (fo_order _ _ _ Hf) as Ho. pose proof (pc_narrow _ _ _ Hpeer) as Hnw. unfold zlength in Hnw.
  destruct (served_at m ltac:(lia)) as (x & d' & Hx & Hd' & Hs). assert (d' = d) as -> by congruence.
  assert (Hit : diff_items !! m = Some (split_thin_state_diff d)) by (by rewrite list_lookup_fmap, Hd).
  assert (Hh : lookup_z (take n (synced_headers l ds)) (Z.of_nat m) = Some (stored_header (served_header x d))).
  { rewrite lookup_z_of_nat, lookup_take_lt by done. unfold synced_headers. by rewrite list_lookup_fmap, Hs. }
  unfold parse_state_diff. rewrite (rest_of_next _ _ _ _ Hit) by lia. set (rs := _ ++ _).
  assert (Hg : read_storage (A := StateDiffChunk) (client_storage c) (get_block_header (Z.of_nat m)) rs =
    Done rs (Some (SignedBlockHeader_block_header (served_header x d)))).
  { unfold read_storage. rewrite (get_block_header_rel _ _ _ (fo_headers _ _ _ Hf)) by lia. by rewrite Hh. }
  rewrite (bind_step _ _ _ _ _ Hg). cbn [expect]. rewrite bind_ret, (served_length m x d Hx Hd). cbn [ok_or_raise]. rewrite bind_ret.
  pose proof (pc_diffs _ _ _ Hpeer) as Hf'. rewrite Forall_forall in Hf'.
  destruct (Hf' d (list_elem_of_lookup_2 _ _ _ Hd)) as (Hok & Hne & Hdep). unfold bind, rs. by rewrite (receive_split d _ Hok Hne Hdep).
Qed.

Lemma diffs_block_step c n m end_ :
  follows c n m -> Z.of_nat m < end_ <= Z.of_nat n -> client_state_diffs c = Stream_Blocks (Z.of_nat m) end_ (rest_of diff_items m end_) ->
  exists c', state_diffs_step config (peer sv) c = Client_Running c' /\ follows c' n (S m).
Proof.
  intros Hf He Hc. pose proof (fo_order _ _ _ Hf) as Ho. pose proof (pc_length _ _ _ Hpeer) as Hlen. pose proof (pc_narrow _ _ _ Hpeer) as Hnw.
  unfold zlength in Hlen, Hnw. destruct (lookup_lt_is_Some_2 ds m ltac:(lia)) as [d Hd].
  unfold state_diffs_step. rewrite Hc. cbn [stream_step]. rewrite (proj2 (Z.ltb_lt _ _)) by lia.
  change (parse_data_for_block (DataStreamBuilder := StateDiffStreamBuilder)) with parse_state_diff.
  rewrite (parse_served_diff c n m end_ d Hf Hd ltac:(lia) ltac:(lia)). cbn [apply_effect].
  change (write_to_storage (received d, Z.of_nat m) (client_storage c)) with (append_state_diff (Z.of_nat m) (received d) (client_storage c)).
  pose proof (pc_diffs _ _ _ Hpeer) as Hf'. rewrite Forall_forall in Hf'.
  destruct (Hf' d (list_elem_of_lookup_2 _ _ _ Hd)) as (Hok & Hne & Hdep). pose proof (un_ok _ (received_united d Hok)) as Hok'.
  pose proof (fo_room _ _ _ Hf) as Hroom. rewrite (drop_S (synced_diffs ds) (received d)) in Hroom
    by (unfold synced_diffs; by rewrite list_lookup_fmap, Hd). destruct Hroom as (Hstor & f' & loc & Happ & Hroom).
  assert (Hlm : length (synced_diffs ds) = length ds) by (unfold synced_diffs; by rewrite length_fmap).
  assert (Hl : zlength (take m (synced_diffs ds)) = Z.of_nat m) by (apply zlength_take; lia).
  destruct (append_state_diff_outcome (client_storage c) _ _ (received d) (fo_state _ _ _ Hf) (fo_headers _ _ _ Hf) Hok' Hstor ltac:(by eexists) ltac:(lia))
    as [(t' & Hw & Hst' & Hr' & Hdo & loc' & Happ')|(Hno & _)]; [|destruct Hno; intros h Hh; by eapply next_declared_new].
  rewrite Hl in Hw. rewrite Hw. unfold after_yield. rewrite Hstop, bn_unchecked_next_small by lia.
  replace (Z.of_nat m + 1) with (Z.of_nat (S m)) by lia. eexists. split; [done|].
  assert (Hsn : take (S m) (synced_diffs ds) = take m (synced_diffs ds) ++ [received d]).
  { apply take_S_r. unfold synced_diffs. by rewrite list_lookup_fmap, Hd. }
  specialize (Hdo (fo_declared _ _ _ Hf)). rewrite <-Hsn in *. destruct Hf. rewrite Happ in Happ'. injection Happ' as -> ->.
  split; cbn [client_storage client_headers client_state_diffs]; try done; [lia|].
  cbn. split_and!; [done|lia|lia|done].
Qed.

Lemma diffs_query_step c n m :
  follows c n m -> client_state_diffs c = Stream_Query (Z.of_nat m) ->
  let end_ := Z.of_nat m + Z.min (Z.of_nat n - Z.of_nat m) (num_block_state_diffs_per_query config) in
  let c' := with_state_diffs c (client_storage c)
    (if decide (m = n) then Stream_Query (Z.of_nat m) else Stream_Blocks (Z.of_nat m) end_ (rest_of diff_items m end_)) in
  state_diffs_step config (peer sv) c = Client_Running c' /\ follows c' n m.
Proof.
  intros Hf Hc end_ c'. pose proof (pc_narrow _ _ _ Hpeer) as Hnw. unfold zlength in Hnw. pose proof (fo_order _ _ _ Hf) as Ho.
  assert (Hstep : state_diffs_step config (peer sv) c = Client_Running c').
  { unfold state_diffs_step. rewrite Hc. cbn [stream_step]. unfold send_query, query_limit, waits. cbn [BLOCK_NUMBER_LIMIT StateDiffStreamBuilder].
    rewrite (bind_step _ _ _ _ _ (get_header_marker_rel _ _ (fo_headers _ _ _ Hf))), zlength_take by (rewrite length_synced; lia). cbn [ret].
    rewrite (wrap_id 64 (Z.of_nat n - Z.of_nat m)) by (unfold in_range; lia). unfold c', end_. destruct (decide (m = n)) as [->|Hne].
    - rewrite Z.sub_diag, Z.min_l by lia. done.
    - destruct (Z.eqb_spec (Z.min (Z.of_nat n - Z.of_nat m) (num_block_state_diffs_per_query config)) 0); [lia|].
      rewrite peer_diffs_answer, wrap_id by (unfold in_range; lia). done. }
  split; [done|]. apply follows_state_diffs; [done|]. destruct (decide (m = n)); [done|]. cbn. unfold end_. split_and!; [done|lia|lia|done].
Qed.

Lemma diffs_start_step c n m :
  follows c n m -> client_state_diffs c = Stream_Start ->
  let c' := with_state_diffs c (client_storage c) (Stream_Query (Z.of_nat m)) in
  state_diffs_step config (peer sv) c = Client_Running c' /\ follows c' n m.
Proof.
  intros Hf Hc c'. pose proof (fo_order _ _ _ Hf) as Ho. pose proof (pc_length _ _ _ Hpeer) as Hlen. unfold zlength in Hlen.
  unfold state_diffs_step. rewrite Hc. cbn [stream_step].
  change (get_start_block_number (DataStreamBuilder := StateDiffStreamBuilder)) with get_state_marker.
  change (get_state_marker (client_storage c)) with
    (@Done StorageTxn StorageError Z (client_storage c) (marker MarkerKind_State (client_storage c))).
  rewrite (sr_marker _ _ (fo_state _ _ _ Hf)), zlength_take by (unfold synced_diffs; rewrite length_fmap; lia).
  split; [done|]. by apply follows_state_diffs.
Qed.

Lemma diffs_fin_step c n m :
  follows c n m -> client_state_diffs c = Stream_Blocks (Z.of_nat m) (Z.of_nat m) (rest_of diff_items m (Z.of_nat m)) ->
  let c' := with_state_diffs c (client_storage c) (Stream_Query (Z.of_nat m)) in
  state_diffs_step config (peer sv) c = Client_Running c' /\ follows c' n m.
Proof.
  intros Hf Hc c'. split; [|by apply follows_state_diffs]. unfold state_diffs_step. rewrite Hc. cbn [stream_step].
  by rewrite Z.ltb_irrefl, rest_of_end.
Qed.

Lemma diffs_honest c n m :
  follows c n m -> exists c' m', state_diffs_step config (peer sv) c = Client_Running c' /\ follows c' n m' /\ (m <= m')%nat.
Proof.
  intros Hf. pose proof (fo_diff_stream _ _ _ Hf) as Hs. destruct (client_state_diffs c) as [|cur|cur end_ rs|] eqn:Hc; cbn in Hs.
  - destruct (diffs_start_step c n m Hf Hc) as [Hst Hf']. by eexists _, m.
  - subst cur. destruct (diffs_query_step c n m Hf Hc) as [Hst Hf']. by eexists _, m.
  - destruct Hs as (-> & He & ->). destruct (decide (Z.of_nat m < end_)) as [Hlt|Hge].
    + destruct (diffs_block_step c n m end_ Hf ltac:(lia) Hc) as (c' & Hst & Hf'). exists c', (S m). split_and!; [done|done|lia].
    + assert (end_ = Z.of_nat m) as -> by lia. destruct (diffs_fin_step c n m Hf Hc) as [Hst Hf']. by eexists _, m.
  - done.
Qed.

Lemma diff_step_then c c' s : state_diffs_step config (peer sv) c = Client_Running c' ->
  rtc (peer_step config sv) (Client_Running c') s -> rtc (peer_step config sv) (Client_Running c) s.
Proof. intros Hst Hr. eapply rtc_l; [apply peer_step_state_diffs|by rewrite Hst]. Qed.

Lemma diffs_query_progress c n m :
  follows c n m -> (m < n)%nat -> client_state_diffs c = Stream_Query (Z.of_nat m) ->
  exists c', rtc (peer_step config sv) (Client_Running c) (Client_Running c') /\ follows c' n (S m).
Proof.
  intros Hf Hm Hc. destruct (diffs_query_step c n m Hf Hc) as [Hst Hf1]. rewrite decide_False in Hst, Hf1 by lia.
  destruct (diffs_block_step _ n m (Z.of_nat m + Z.min (Z.of_nat n - Z.of_nat m) (num_block_state_diffs_per_query config)) Hf1
    ltac:(lia) eq_refl) as (c' & Hst2 & Hf2).
  exists c'. split; [|done]. eapply diff_step_then; [exact Hst|]. eapply diff_step_then; [exact Hst2|]. reflexivity.
Qed.

Lemma diffs_progress c n m :
  follows c n m -> (m < n)%nat ->
  exists c', rtc (peer_step config sv) (Client_Running c) (Client_Running c') /\ follows c' n (S m).
Proof.
  intros Hf Hm. pose proof (fo_diff_stream _ _ _ Hf) as Hs. destruct (client_state_diffs c) as [|cur|cur end_ rs|] eqn:Hc; cbn in Hs.
  - destruct (diffs_start_step c n m Hf Hc) as [Hst Hf1]. destruct (diffs_query_progress _ n m Hf1 Hm eq_refl) as (c' & Hr & Hf').
    exists c'. split; [|done]. by eapply diff_step_then.
  - subst cur. by apply diffs_query_progress.
  - destruct Hs as (-> & He & ->). destruct (decide (Z.of_nat m < end_)) as [Hlt|Hge].
    + destruct (diffs_block_step c n m end_ Hf ltac:(lia) Hc) as (c' & Hst & Hf'). exists c'. split; [|done].
      eapply diff_step_then; [exact Hst|]. reflexivity.
    + assert (end_ = Z.of_nat m) as -> by lia. destruct (diffs_fin_step c n m Hf Hc) as [Hst Hf1].
      destruct (diffs_query_progress _ n m Hf1 Hm eq_refl) as (c' & Hr & Hf'). exists c'. split; [|done]. by eapply diff_step_then.
  - done.
Qed.

(** *** Whole runs *)

Lemma peer_step_follows c n m s :
  follows c n m -> peer_step config sv (Client_Running c) s ->
  exists c' n' m', s = Client_Running c' /\ follows c' n' m' /\ (n <= n')%nat /\ (m <= m')%nat.
Proof.
  intros Hf Hst. inversion Hst; subst.
  - destruct (headers_honest c n m Hf) as (c' & n' & -> & Hf' & Hle). by exists c', n', m.
  - destruct (diffs_honest c n m Hf) as (c' & m' & -> & Hf' & Hle). by exists c', n, m'.
Qed.

Lemma peer_run_follows s0 s c n m :
  rtc (peer_step config sv) s0 s -> s0 = Client_Running c -> follows c n m ->
  exists c' n' m', s = Client_Running c' /\ follows c' n' m' /\ (n <= n')%nat /\ (m <= m')%nat.
Proof.
  intros Hr. revert c n m; induction Hr as [s|s0 s1 s2 Hst Hr IH]; intros c n m -> Hf; [by exists c, n, m|].
  destruct (peer_step_follows c n m s1 Hf Hst) as (c1 & n1 & m1 & -> & Hf1 & Hn & Hm).
  destruct (IH c1 n1 m1 eq_refl Hf1) as (c2 & n2 & m2 & -> & Hf2 & ? & ?). exists c2, n2, m2. split_and!; [done|done|lia|lia].
Qed.

(** All headers, then all state diffs. *)
Lemma headers_complete c n m k :
  (length l - n <= k)%nat -> follows c n m ->
  exists c', rtc (peer_step config sv) (Client_Running c) (Client_Running c') /\ follows c' (length l) m.
Proof.
  revert c n; induction k as [|k IH]; intros c n Hk Hf; pose proof (fo_order _ _ _ Hf) as Ho.
  - exists c. assert (n = length l) as <- by lia. done.
  - destruct (decide (n = length l)) as [->|Hne]; [by exists c|].
    destruct (headers_progress c n m Hf ltac:(lia)) as (c1 & Hr1 & Hf1). destruct (IH c1 (S n) ltac:(lia) Hf1) as (c2 & Hr2 & Hf2).
    exists c2. split; [|done]. by etrans.
Qed.

Lemma diffs_complete c n m k :
  (n - m <= k)%nat -> follows c n m ->
  exists c', rtc (peer_step config sv) (Client_Running c) (Client_Running c') /\ follows c' n n.
Proof.
  revert c m; induction k as [|k IH]; intros c m Hk Hf; pose proof (fo_order _ _ _ Hf) as Ho.
  - exists c. assert (n = m) as <- by lia. done.
  - destruct (decide (n = m)) as [->|Hne]; [by exists c|].
    destruct (diffs_progress c n m Hf ltac:(lia)) as (c1 & Hr1 & Hf1). destruct (IH c1 (S m) ltac:(lia) Hf1) as (c2 & Hr2 & Hf2).
    exists c2. split; [|done]. by etrans.
Qed.

Lemma sync_complete c n m :
  follows c n m -> exists c', rtc (peer_step config sv) (Client_Running c) (Client_Running c') /\
    header_rel (client_storage c') (synced_headers l ds) /\ state_rel (client_storage c') (synced_diffs ds).
Proof.
  intros Hf. destruct (headers_complete c n m (length l) ltac:(lia) Hf) as (c1 & Hr1 & Hf1).
  destruct (diffs_complete c1 (length l) m (length l) ltac:(lia) Hf1) as (c2 & Hr2 & Hf2). exists c2. split; [by etrans|].
  pose proof (pc_length _ _ _ Hpeer) as Hlen. unfold zlength in Hlen.
  pose proof (fo_headers _ _ _ Hf2) as Hh. pose proof (fo_state _ _ _ Hf2) as Hs.
  rewrite take_ge in Hh by (rewrite length_synced; lia). rewrite take_ge in Hs by (unfold synced_diffs; rewrite length_fmap; lia). done.
Qed.

(** An empty storage follows. *)
Lemma new_client_follows t :
  header_rel t [] -> state_rel t [] -> t_declared_classes_block t = ∅ -> file_takes (t_thin_state_diff_file t) (synced_diffs ds) ->
  follows (mkP2PSyncClient t Stream_Start Stream_Start) 0 0.
Proof.
  intros Hh Hs Hd Hroom. split; cbn [client_storage client_headers client_state_diffs]; try done; [|lia].
  intros h b. rewrite Hd. by intros ?%lookup_empty_Some.
Qed.
End Peer.
End Honest.
