(* ===== verification/P2pTheorems.v ===== *)
(** * What the peer-to-peer synchronisation guarantees

    The theorems on the answers of the server, on the state diffs that travel over
    the network, on the client's storage with any peers, and on a client with an
    honest peer. *)

From stdpp Require Import base gmap list strings fin_maps relations.
From Stdlib Require Import ZArith Lia.
From S2P Require Import Prelude StorageTables StarknetTypes StorageTxn Header State StateProps P2pServer P2pClient P2pDiffProps.
From S2P Require Import P2pProps P2pHonest.

Section Theorems.
Context {BN : BlockNumberApi} {SN : StateNumberApi} {X : ExternalTypes} {SF : StorageFiles} {HS : HashSetIter}.

(** ** The client with any peers *)

(** The storage has room: the block numbers fit the 32 bits in which it writes them,
    and the state diff that comes next, if one does, fits the file. *)
Definition room_left (s : ClientState) : Prop :=
  match s with
  | Client_Running c => marker MarkerKind_Header (client_storage c) < 2 ^ 32 - 1 /\ next_diff_fits c
  | _ => True
  end.

Definition step_with_room (config : P2PSyncClientConfig) (s s' : ClientState) : Prop := client_step config s s' /\ room_left s.

Lemma client_step_ok config l0 ds0 s s' :
  0 <= num_block_state_diffs_per_query config ->
  state_ok (stop_sync_at_block_number config) l0 ds0 s -> step_with_room config s s' ->
  state_ok (stop_sync_at_block_number config) l0 ds0 s'.
Proof.
  intros Hnum Hok [Hst Hnw]. destruct Hst as [c network|c network Hnet|storage].
  - apply headers_step_ok; [done|apply Hnw].
  - apply state_diffs_step_ok; [apply Hnw|done|done|done|apply Hnw].
  - destruct Hok as (l & ds & _ & _ & _ & _ & Hh & _). exact Hh.
Qed.

(** C8: Whatever the network answers and however the streams interleave, the client
    keeps its storage consistent, as long as the storage is not full ([room_left]). The
    headers and state diffs it started with stay; the blocks it adds form one chain
    with distinct hashes and the state diffs never pass the headers; each added state
    diff is well formed and has the length its header announces. The client never
    panics, unless it is configured to stop at a block. *)
Theorem client_keeps_storage (config : P2PSyncClientConfig) (t : StorageTxn) (l0 : HeaderChain) (ds0 : list ThinStateDiff)
    (s : ClientState) :
  0 <= num_block_state_diffs_per_query config -> synced t l0 ds0 ->
  rtc (step_with_room config) (new_client t) s ->
  match s with
  | Client_Running c => exists l ds,
      synced (client_storage c) l ds /\ l0 `prefix_of` l /\ ds0 `prefix_of` ds /\ lengths_match (zlength ds0) l ds
  | Client_Failed _ => True
  | Client_Panicked => is_Some (stop_sync_at_block_number config)
  end.
Proof.
  intros Hnum Hs Hr. assert (Hok : state_ok (stop_sync_at_block_number config) l0 ds0 s).
  { revert Hr. assert (H0 : state_ok (stop_sync_at_block_number config) l0 ds0 (new_client t)).
    { exists l0, ds0. split_and!; try done. intros b d Hb Hd. apply lookup_z_Some in Hd. lia. }
    generalize (new_client t), H0. clear H0. intros s0 H0 Hr. induction Hr as [s|s0 s1 s2 Hst Hr IH]; [done|].
    apply IH. by eapply client_step_ok. }
  destruct s as [c| |]; [|done|done]. destruct Hok as (l & ds & H1 & H2 & H3 & H4 & _). by exists l, ds.
Qed.

(** ** State diffs over the network *)

Lemma lookup_perm {V} (l l' : list (Z * V)) k : NoDup l.*1 -> l ≡ₚ l' -> lookup_list l k = lookup_list l' k.
Proof. intros Hnd Hp. unfold lookup_list. by rewrite (list_to_map_proper l l' Hnd Hp). Qed.

(** What the client receives of a state diff has its storage cells and classes, and its
    nonces but those of contracts whose class is replaced. *)
Lemma received_storage d ak : diff_ok d -> no_empty_storage d -> diff_storage (received d) ak = diff_storage d ak.
Proof.
  intros Hok Hne. destruct (received_perm d Hok Hne) as (_ & P2 & _). pose proof (un_ok _ (received_united d Hok)) as Hok'.
  unfold diff_storage. by rewrite (lookup_perm _ _ _ (ok_storage _ Hok') P2).
Qed.

Lemma received_class d a : diff_ok d -> no_empty_storage d -> diff_class (received d) a = diff_class d a.
Proof.
  intros Hok Hne. destruct (received_perm d Hok Hne) as (P1 & _ & _). pose proof (received_united d Hok) as [Hok' Hrep].
  unfold diff_class. rewrite Hrep, (lookup_perm _ _ _ (ok_deployed _ Hok') P1).
  change (lookup_list (V := Z) [] a) with (@None Z).
  pose proof (indexmap_get_app (ThinStateDiff_deployed_contracts d) (ThinStateDiff_replaced_classes d) a) as Ha.
  change (@indexmap_get Z) with (@lookup_list Z) in Ha. rewrite Ha.
  by destruct (lookup_list (ThinStateDiff_deployed_contracts d) a), (lookup_list (ThinStateDiff_replaced_classes d) a).
Qed.

Lemma received_nonce d a : diff_ok d -> no_empty_storage d -> a ∉ (ThinStateDiff_replaced_classes d).*1 ->
  diff_nonce (received d) a = diff_nonce d a.
Proof.
  intros Hok Hne Ha. destruct (received_perm d Hok Hne) as (P1 & _ & P3). pose proof (un_ok _ (received_united d Hok)) as Hok'.
  unfold diff_nonce. rewrite (lookup_perm _ _ _ (ok_nonces _ Hok') P3). destruct (lookup_list _ a); [done|].
  rewrite (bool_decide_ext (a ∈ (ThinStateDiff_deployed_contracts (received d)).*1) (a ∈ (ThinStateDiff_deployed_contracts d).*1)); [done|].
  rewrite P1, fmap_app, elem_of_app. tauto.
Qed.


(** ** The server *)

Context {TD : ThinStateDiffApi}.

(** The [i]-th block that a query asks for. *)
Definition query_block (query : Query) (start i : Z) : Z :=
  match Query_direction query with
  | Direction_Forward => start + i * Query_step query
  | Direction_Backward => start - i * Query_step query
  end.

Definition is_u64 (n : Z) : Prop := 0 <= n < 2 ^ 64.

(** The block with which a query starts: the given one, or that with the given hash. *)
Definition starts_at (l : HeaderChain) (query : Query) (start : Z) : Prop :=
  match Query_start_block query with
  | BlockHashOrNumber_Number num => start = num
  | BlockHashOrNumber_Hash block_hash => (hash_of <$> lookup_z l start) = Some block_hash
  end.

(** Why a block of a query is not sent: its number is none, or its data cannot be read. *)
Definition not_sent {Data : Type} {FD : FetchBlockDataFromDb Data} (txn : StorageTxn) (query : Query) (start i : Z) (e : P2PSyncServerError) : Prop :=
  let b := query_block query start i in
  ~ is_u64 b /\ e = P2PSyncServerError_BlockNumberOutOfRange query i \/
  is_u64 b /\ exists txn', fetch_block_data_from_db (Data := Data) b txn = Fail txn' e.

Lemma calculate_query_block query start i :
  0 <= Query_step query * i < 2 ^ 64 ->
  calculate_block_number query start i =
    if decide (0 <= query_block query start i < 2 ^ 64) then inl (query_block query start i)
    else inr (P2PSyncServerError_BlockNumberOutOfRange query i).
Proof.
  intros Hi. unfold calculate_block_number, query_block. rewrite wrap_id by (unfold in_range; lia).
  destruct (Query_direction query); case_decide as Hd;
    (match goal with |- (if (?x <? 0) || (?y <? ?z) then _ else _) = _ => destruct (Z.ltb_spec x 0), (Z.ltb_spec y z) end);
    cbn [orb]; try lia; f_equal; lia.
Qed.

Lemma start_by_hash {Data : Type} txn query h (sender : Sender Data) : Query_start_block query = BlockHashOrNumber_Hash h ->
  in_txn txn (start_block_number query) sender =
    match t_block_hash_to_number txn !! h with
    | Some b => Done sender b
    | None => Fail sender (P2PSyncServerError_BlockNotFound (BlockHashOrNumber_Hash h))
    end.
Proof.
  intros Hq. unfold in_txn, start_block_number. rewrite Hq. unfold bind, db_read, map_err, get_block_number_by_hash, bind, get, ret, tbl_get.
  by destruct (t_block_hash_to_number txn !! h).
Qed.

(** C26: The answer to a query, of any kind of data that is read without a panic, in a
    storage with the headers [l]: the data of the blocks [start], [start + step], ...
    or [start], [start - step], ... in this order, up to the first that does not exist
    or cannot be read, and the end message in every case. The task succeeds exactly
    when all blocks up to the limit were sent, and else returns the error of the block
    at which it stopped. A query that starts with an unknown hash gets the end message
    only. The product of step and limit must not exceed the 64 bits in which the code
    multiplies. *)
Theorem server_answers_query {Data : Type} {FD : FetchBlockDataFromDb Data} (txn : StorageTxn) (l : HeaderChain) (query : Query) :
  header_rel txn l -> 0 <= Query_step query -> 0 <= Query_limit query -> Query_step query * Query_limit query < 2 ^ 64 ->
  (forall b, fetch_block_data_from_db (Data := Data) b txn <> Panic) ->
  let answer := send_data_for_query (Data := Data) txn query (mkSender [] None) in
  (forall start, starts_at l query start ->
    exists datas, zlength datas <= Query_limit query /\
      (forall i data, lookup_z datas i = Some data ->
        is_u64 (query_block query start i) /\ exists txn', fetch_block_data_from_db (query_block query start i) txn = Done txn' data) /\
      sent_by answer = (Some <$> concat datas) ++ [None] /\
      (zlength datas = Query_limit query /\ (exists sender, answer = Done sender tt) \/
       zlength datas < Query_limit query /\ exists e sender, not_sent (Data := Data) txn query start (zlength datas) e /\ answer = Fail sender e)) /\
  (forall block_hash, Query_start_block query = BlockHashOrNumber_Hash block_hash ->
    (forall b, (hash_of <$> lookup_z l b) <> Some block_hash) ->
    sent_by answer = [None] /\ exists sender, answer = Fail sender (P2PSyncServerError_BlockNotFound (BlockHashOrNumber_Hash block_hash))).
Proof.
  intros Hr Hstep Hlim Hprod Hnp answer.
  assert (Hat : forall i, 0 <= i < Query_limit query -> 0 <= Query_step query * i < 2 ^ 64) by (intros i Hi; nia).
  split.
  - intros start Hs. destruct (send_blocks_shape txn query start (Z.to_nat (Query_limit query)) 0 [] Hnp) as (datas & Hd & Hlen & Hcase).
    exists datas. split; [unfold zlength; lia|]. split.
    { intros i data Hi. pose proof (lookup_z_Some _ _ _ Hi) as Hi2. unfold zlength in Hi2. unfold lookup_z in Hi. rewrite (proj2 (Z.leb_le _ _)) in Hi by lia.
      destruct (Hd _ _ Hi) as (b & txn' & Hb & Hf). rewrite Z2Nat.id, Z.add_0_l, calculate_query_block in Hb by (try apply Hat; lia).
      case_decide; [|done]. injection Hb as <-. split; [done|]. by exists txn'. }
    assert (Hstart : in_txn txn (start_block_number query) (mkSender (Data := Data) [] None) = Done (mkSender [] None) start).
    { unfold starts_at in Hs. destruct (Query_start_block query) as [h|num] eqn:Hq.
      - rewrite <-(hr_hashes _ _ Hr) in Hs. by rewrite (start_by_hash _ _ _ _ Hq), Hs.
      - unfold in_txn, start_block_number. rewrite Hq. by subst. }
    unfold answer, send_data_for_query, send_data_without_fin_for_query. rewrite (bind_step _ _ _ _ _ Hstart).
    destruct Hcase as [[Hl ->]|(Hl & e & He & ->)]; cbn [sent_by].
    + split; [done|]. left. split; [unfold zlength; lia|by eexists].
    + split; [done|]. right. split; [unfold zlength; lia|]. exists e. eexists. split; [|done].
      rewrite Z.add_0_l in He. unfold block_error in He. rewrite calculate_query_block in He by (apply Hat; unfold zlength; lia).
      unfold not_sent, is_u64. case_decide as Hrange; [right|left]; destruct He as [He|(b & txn' & Hb & Hf)]; naive_solver.
  - intros h Hh Hnone. unfold answer, send_data_for_query, send_data_without_fin_for_query.
    assert (Hmiss : t_block_hash_to_number txn !! h = None).
    { apply eq_None_not_Some. intros [b Hb]. by apply (hr_hashes _ _ Hr), Hnone in Hb. }
    assert (Hstart : in_txn txn (start_block_number query) (mkSender (Data := Data) [] None) =
      Fail (mkSender [] None) (P2PSyncServerError_BlockNotFound (BlockHashOrNumber_Hash h))).
    { by rewrite (start_by_hash _ _ _ _ Hh), Hmiss. }
    rewrite (proj2 (bind_Fail _ _ _ _ _) (or_introl Hstart)). split; [done|]. by eexists.
Qed.

(** ** The client with an honest peer *)

(** The state of a client that holds the state diffs of a node: all storage cells and
    classes are those of the node, and so are the nonces, except those of a contract
    whose class the block replaces. *)
Record same_state (sv t : StorageTxn) (ds : list ThinStateDiff) : Prop := {
  ss_storage : t_contract_storage t = t_contract_storage sv;
  ss_classes : t_deployed_contracts t = t_deployed_contracts sv;
  ss_nonces : forall a b, (forall d, lookup_z ds b = Some d -> a ∉ (ThinStateDiff_replaced_classes d).*1) ->
    t_nonces t !! (a, b) = t_nonces sv !! (a, b)
}.

Lemma synced_same_state sv l t ds : peer_chain sv l ds -> state_rel t (synced_diffs ds) -> same_state sv t ds.
Proof.
  intros Hp Hs. pose proof (pc_state _ _ _ Hp) as Hr. pose proof (pc_diffs _ _ _ Hp) as Hd. rewrite Forall_forall in Hd.
  assert (Hl : forall b, lookup_z (synced_diffs ds) b = received <$> lookup_z ds b).
  { intros b. apply lookup_z_fmap. }
  assert (Hin : forall b d, lookup_z ds b = Some d -> d ∈ ds).
  { intros b d. unfold lookup_z. case_match; [apply list_elem_of_lookup_2|done]. }
  split.
  - apply map_eq. intros [ak b]. rewrite (sr_storage _ _ Hs), (sr_storage _ _ Hr), Hl. destruct (lookup_z ds b) as [d|] eqn:Hb; [|done].
    destruct (Hd d (Hin b d Hb)) as (Hok & Hne & _). by apply received_storage.
  - apply map_eq. intros [a b]. rewrite (sr_classes _ _ Hs), (sr_classes _ _ Hr), Hl. destruct (lookup_z ds b) as [d|] eqn:Hb; [|done].
    destruct (Hd d (Hin b d Hb)) as (Hok & Hne & _). by apply received_class.
  - intros a b Ha. rewrite (sr_nonces _ _ Hs), (sr_nonces _ _ Hr), Hl. destruct (lookup_z ds b) as [d|] eqn:Hb; [|done].
    destruct (Hd d (Hin b d Hb)) as (Hok & Hne & _). apply received_nonce; auto.
Qed.

End Theorems.
