(* ===== verification/ClientProps.v ===== *)
(** * What the conversion of the gateway's blocks guarantees

    The block the node stores is built from a block of the feeder gateway exactly
    when its receipts belong to its transactions and every transaction has the
    fields of its version; its body is then well formed. *)

From stdpp Require Import base gmap list strings fin_maps.
From Stdlib Require Import ZArith Lia.
From S2P Require Import Prelude StorageTables StarknetTypes StorageTxn Header Body BodyProps ClientObjects.

(** ** The fields that a version asks for *)

Definition declare_complete (tx : IntermediateDeclareTransaction) : Prop :=
  let v := IntermediateDeclare_version tx in
  ((v = 0 \/ v = 1) /\ is_Some (IntermediateDeclare_max_fee tx)) \/
  (v = 2 /\ is_Some (IntermediateDeclare_max_fee tx) /\ is_Some (IntermediateDeclare_compiled_class_hash tx)) \/
  (v = 3 /\ is_Some (IntermediateDeclare_resource_bounds tx) /\ is_Some (IntermediateDeclare_tip tx) /\
   is_Some (IntermediateDeclare_compiled_class_hash tx) /\
   is_Some (IntermediateDeclare_nonce_data_availability_mode tx) /\
   is_Some (IntermediateDeclare_fee_data_availability_mode tx) /\
   is_Some (IntermediateDeclare_paymaster_data tx) /\ is_Some (IntermediateDeclare_account_deployment_data tx)).

Definition deploy_account_complete (tx : IntermediateDeployAccountTransaction) : Prop :=
  let v := IntermediateDeployAccount_version tx in
  (v = 1 /\ is_Some (IntermediateDeployAccount_max_fee tx)) \/
  (v = 3 /\ is_Some (IntermediateDeployAccount_resource_bounds tx) /\ is_Some (IntermediateDeployAccount_tip tx) /\
   is_Some (IntermediateDeployAccount_nonce_data_availability_mode tx) /\
   is_Some (IntermediateDeployAccount_fee_data_availability_mode tx) /\
   is_Some (IntermediateDeployAccount_paymaster_data tx)).

Definition invoke_complete (tx : IntermediateInvokeTransaction) : Prop :=
  let v := IntermediateInvoke_version tx in
  (v = 0 /\ is_Some (IntermediateInvoke_max_fee tx) /\ is_Some (IntermediateInvoke_entry_point_selector tx)) \/
  (v = 1 /\ is_Some (IntermediateInvoke_max_fee tx) /\ is_Some (IntermediateInvoke_nonce tx)) \/
  (v = 3 /\ is_Some (IntermediateInvoke_resource_bounds tx) /\ is_Some (IntermediateInvoke_tip tx) /\
   is_Some (IntermediateInvoke_nonce tx) /\
   is_Some (IntermediateInvoke_nonce_data_availability_mode tx) /\
   is_Some (IntermediateInvoke_fee_data_availability_mode tx) /\
   is_Some (IntermediateInvoke_paymaster_data tx) /\ is_Some (IntermediateInvoke_account_deployment_data tx)).

Definition transaction_complete (tx : ClientTransaction) : Prop :=
  match tx with
  | ClientTransaction_Declare tx => declare_complete tx
  | ClientTransaction_DeployAccount tx => deploy_account_complete tx
  | ClientTransaction_Invoke tx => invoke_complete tx
  | ClientTransaction_Deploy _ | ClientTransaction_L1Handler _ => True
  end.

(** The kinds of a transaction and of an output. *)
Definition transaction_kind (tx : Transaction) : TransactionType :=
  match tx with
  | Transaction_Declare _ => TransactionType_Declare
  | Transaction_Deploy _ => TransactionType_Deploy
  | Transaction_DeployAccount _ => TransactionType_DeployAccount
  | Transaction_Invoke _ => TransactionType_InvokeFunction
  | Transaction_L1Handler _ => TransactionType_L1Handler
  end.

Definition output_kind (output : TransactionOutput) : TransactionType :=
  match output with
  | TransactionOutput_Declare _ => TransactionType_Declare
  | TransactionOutput_Deploy _ => TransactionType_Deploy
  | TransactionOutput_DeployAccount _ => TransactionType_DeployAccount
  | TransactionOutput_Invoke _ => TransactionType_InvokeFunction
  | TransactionOutput_L1Handler _ => TransactionType_L1Handler
  end.

(** The receipt of the transaction at a position. *)
Definition receipt_matches (i : Z) (tx : ClientTransaction) (receipt : TransactionReceipt) : Prop :=
  TransactionReceipt_transaction_index receipt = i /\
  TransactionReceipt_transaction_hash receipt = client_transaction_hash tx /\
  (client_transaction_type tx = TransactionType_L1Handler \/
   TransactionReceipt_l1_to_l2_consumed_message receipt = default_L1ToL2Message).

Definition receipts_match (from : Z) (txs : list ClientTransaction) (receipts : list TransactionReceipt) : Prop :=
  forall i receipt, lookup_z receipts i = Some receipt ->
    exists tx, lookup_z txs (from + i) = Some tx /\ receipt_matches (from + i) tx receipt.

(** ** Transactions *)

(** A computation without state that ends with a value exactly under a condition
    and never panics. *)
Definition succeeds_iff {A} (m : Convert A) (P : Prop) (Q : A -> Prop) : Prop :=
  match m tt with Done _ a => P /\ Q a | Fail _ _ => ~ P | Panic => False end.

Ltac solve_fields :=
  unfold required, ok_or_raise, bind, ret, raise in *;
  repeat match goal with
  | |- context [match ?o with Some _ => _ | None => _ end] => destruct o eqn:?
  end; cbn in *;
  repeat match goal with |- _ /\ True => split; [|done] | |- _ /\ _ = _ => split; [|done] end;
  try (intros Hno); unfold is_Some in *; try (naive_solver lia).

Lemma convert_declare_iff tx : succeeds_iff (convert_declare tx) (declare_complete tx) (fun _ => True).
Proof.
  unfold succeeds_iff, convert_declare, declare_complete, convert_declare_v0_v1, convert_declare_v2, convert_declare_v3.
  repeat case_cmp; subst; solve_fields.
Qed.

Lemma convert_deploy_account_iff tx :
  succeeds_iff (convert_deploy_account tx) (deploy_account_complete tx) (fun _ => True).
Proof.
  unfold succeeds_iff, convert_deploy_account, deploy_account_complete, convert_deploy_account_v1, convert_deploy_account_v3.
  repeat case_cmp; subst; solve_fields.
Qed.

Lemma convert_invoke_iff tx : succeeds_iff (convert_invoke tx) (invoke_complete tx) (fun _ => True).
Proof.
  unfold succeeds_iff, convert_invoke, invoke_complete, convert_invoke_v0, convert_invoke_v1, convert_invoke_v3.
  repeat case_cmp; subst; solve_fields.
Qed.

Lemma succeeds_iff_map {A B} (m : Convert A) (f : A -> B) P Q :
  succeeds_iff m P (fun _ => True) -> (forall a, Q (f a)) -> succeeds_iff (let! a := m in ret (f a)) P Q.
Proof. unfold succeeds_iff, bind, ret. intros Hm HQ. destruct (m tt); [|done|done]. by split; [apply Hm|]. Qed.

Lemma convert_transaction_iff tx :
  succeeds_iff (convert_transaction tx) (transaction_complete tx) (fun t => transaction_kind t = client_transaction_type tx).
Proof.
  destruct tx; cbn [convert_transaction transaction_complete]; try done; eapply succeeds_iff_map;
    try apply convert_declare_iff; try apply convert_deploy_account_iff; try apply convert_invoke_iff; done.
Qed.

Lemma convert_all_iff txs :
  succeeds_iff (convert_all txs) (Forall transaction_complete txs) (fun ts =>
    Forall2 (fun tx t => transaction_kind t = client_transaction_type tx) txs ts).
Proof.
  induction txs as [|tx txs IH]; cbn [convert_all]; [by split|].
  pose proof (convert_transaction_iff tx) as Ht. unfold succeeds_iff, bind in *.
  destruct (convert_transaction tx tt) as [[] t|[] e|]; [|by intros [? ?]%Forall_cons|done].
  destruct (convert_all txs tt) as [[] ts|[] e|]; [|by intros [? ?]%Forall_cons|done].
  cbn. rewrite Forall_cons. split; [tauto|]. constructor; tauto.
Qed.

(** ** Receipts *)

Lemma into_output_done receipt tx :
  exists o, into_starknet_api_transaction_output receipt tx tt = Done tt o /\
    output_kind o = client_transaction_type tx /\ TransactionOutput_events o = TransactionReceipt_events receipt.
Proof. destruct tx; by eexists. Qed.

Lemma check_receipt_iff n i tx receipt :
  succeeds_iff (check_receipt n i tx receipt) (receipt_matches i tx receipt) (fun _ => True).
Proof.
  unfold succeeds_iff, check_receipt, receipt_matches.
  destruct (Z.eqb_spec i (TransactionReceipt_transaction_index receipt)) as [Hi|Hi]; cbn [negb]; [|cbn; intros (H & _ & _); by subst].
  destruct (Z.eqb_spec (client_transaction_hash tx) (TransactionReceipt_transaction_hash receipt)) as [Hh|Hh]; cbn [negb];
    [|cbn; intros (_ & H & _); by rewrite H in Hh].
  case_bool_decide as Hk; cbn [andb].
  - case_bool_decide as Hm; [intros (_ & _ & [?|?]); congruence|]. split; [|done]. split; [done|]. split; [done|]. by right.
  - split; [|done]. split; [done|]. split; [done|]. by left.
Qed.

Lemma lookup_z_cons {A} (x : A) l i : lookup_z (x :: l) i = if i =? 0 then Some x else lookup_z l (i - 1).
Proof.
  destruct (Z.eqb_spec i 0) as [->|]; [done|]. unfold lookup_z. repeat case_cmp; try lia; [|done].
  by replace (Z.to_nat i) with (S (Z.to_nat (i - 1))) by lia.
Qed.

Lemma receipts_match_cons from txs receipt rest :
  receipts_match from txs (receipt :: rest) <->
  (exists tx, lookup_z txs from = Some tx /\ receipt_matches from tx receipt) /\ receipts_match (from + 1) txs rest.
Proof.
  split.
  - intros Hm. split.
    + destruct (Hm 0 receipt eq_refl) as (tx & Htx & Hr). rewrite Z.add_0_r in *. eauto.
    + intros i r Hi. apply lookup_z_Some in Hi as Hb. destruct (Hm (i + 1) r) as (tx & Htx & Hr).
      * rewrite lookup_z_cons, (proj2 (Z.eqb_neq _ _)) by lia. by replace (i + 1 - 1) with i by lia.
      * replace (from + 1 + i) with (from + (i + 1)) by lia. eauto.
  - intros [(tx & Htx & Hr) Hm] i r Hi. apply lookup_z_Some in Hi as Hb. destruct (decide (i = 0)) as [->|Hne].
    + injection Hi as <-. rewrite Z.add_0_r. eauto.
    + destruct (Hm (i - 1) r) as (tx' & Htx' & Hr').
      * by rewrite lookup_z_cons, (proj2 (Z.eqb_neq _ _)) in Hi by lia.
      * replace (from + 1 + (i - 1)) with (from + i) in * by lia. eauto.
Qed.

Definition receipts_converted (from : Z) (txs : list ClientTransaction) (receipts : list TransactionReceipt)
    (r : list TransactionOutput * list Z) : Prop :=
  r.2 = client_transaction_hash <$> take (length receipts) (drop (Z.to_nat from) txs) /\
  TransactionOutput_events <$> r.1 = TransactionReceipt_events <$> receipts /\
  output_kind <$> r.1 = client_transaction_type <$> take (length receipts) (drop (Z.to_nat from) txs).

Lemma convert_receipts_iff n txs from receipts :
  0 <= from -> from + zlength receipts <= zlength txs ->
  succeeds_iff (convert_receipts n txs from receipts) (receipts_match from txs receipts) (receipts_converted from txs receipts).
Proof.
  revert from; induction receipts as [|receipt rest IH]; intros from Hf Hlen; cbn [convert_receipts].
  { split; [intros i r Hi; apply lookup_z_Some in Hi; unfold zlength in Hi; cbn in Hi; lia|done]. }
  change (receipt :: rest) with ([receipt] ++ rest) in Hlen. rewrite zlength_app in Hlen. change (zlength [receipt]) with 1 in Hlen.
  pose proof (zlength_nonneg rest) as Hr0.
  destruct (proj2 (lookup_z_is_Some txs from) ltac:(lia)) as [tx Htx].
  pose proof (check_receipt_iff n from tx receipt) as Hc. specialize (IH (from + 1) ltac:(lia) ltac:(lia)).
  destruct (into_output_done receipt tx) as (o & Ho & Hk & He). unfold succeeds_iff in *.
  unfold bind at 1. rewrite Htx. cbn [expect ret]. unfold bind at 1.
  destruct (check_receipt n from tx receipt tt) as [[] []|[] e|].
  2: { rewrite receipts_match_cons. intros [(tx' & Htx' & Hm) _]. simplify_eq. by apply Hc. }
  2: { done. }
  unfold bind at 1. rewrite Ho. unfold bind at 1.
  destruct (convert_receipts n txs (from + 1) rest tt) as [[] [os hs]|[] e|]; [|by rewrite receipts_match_cons; intros [_ ?]|done].
  destruct IH as (IHm & IHh & IHe & IHk). destruct Hc as [Hc _]. split.
  - apply receipts_match_cons. eauto.
  - assert (Hd : drop (Z.to_nat from) txs = tx :: drop (Z.to_nat (from + 1)) txs).
    { replace (Z.to_nat (from + 1)) with (S (Z.to_nat from)) by lia. apply drop_S. unfold lookup_z in Htx. by case_cmp. }
    unfold receipts_converted. rewrite Hd. cbn [fst snd] in *. cbn. rewrite IHh, IHe, IHk, He, Hk.
    destruct Hc as (_ & -> & _). done.
Qed.

Lemma sum_lengths_shift {A B} (f : A -> list B) l n :
  foldl (fun acc x => acc + zlength (f x)) n l = n + sum_lengths f l.
Proof.
  unfold sum_lengths. revert n; induction l as [|x l IH]; intros n; cbn; [lia|]. rewrite IH, (IH (0 + _)). lia.
Qed.

Lemma sum_lengths_fmap {A B C} (f : A -> list B) (g : C -> list B) l l' :
  f <$> l = g <$> l' -> sum_lengths f l = sum_lengths g l'.
Proof.
  revert l'; induction l as [|x l IH]; intros [|y l'] He; try done. cbn in He. injection He as H1 H2.
  unfold sum_lengths. cbn. rewrite !sum_lengths_shift, H1. f_equal. by apply IH.
Qed.

(** ** Blocks *)

(** A block of the gateway that can be stored. *)
Definition valid_client_block (block : ClientBlock) : Prop :=
  zlength (ClientBlock_transactions block) = zlength (ClientBlock_transaction_receipts block) /\
  receipts_match 0 (ClientBlock_transactions block) (ClientBlock_transaction_receipts block) /\
  Forall transaction_complete (ClientBlock_transactions block).

(** What the converted block is: a header and a well-formed body, whose outputs are
    of the kinds of their transactions and carry the counted events. *)
Definition block_converted (block : ClientBlock) (b : Block) : Prop :=
  let header := Block_header b in
  let body := Block_body b in
  header = client_block_header block /\
  BlockHeader_block_hash header = ClientBlock_block_hash block /\
  BlockHeader_parent_hash header = ClientBlock_parent_block_hash block /\
  BlockHeader_block_number header = ClientBlock_block_number block /\
  (is_Some (BlockHeader_transaction_commitment header) <-> is_Some (ClientBlock_receipt_commitment block)) /\
  well_formed_body body /\
  BlockHeader_n_transactions header = zlength (BlockBody_transactions body) /\
  BlockHeader_n_events header = sum_lengths TransactionOutput_events (BlockBody_transaction_outputs body) /\
  BlockBody_transaction_hashes body = client_transaction_hash <$> ClientBlock_transactions block /\
  transaction_kind <$> BlockBody_transactions body = client_transaction_type <$> ClientBlock_transactions block /\
  output_kind <$> BlockBody_transaction_outputs body = client_transaction_type <$> ClientBlock_transactions block.

Lemma block_conversion_outcome (block : ClientBlock) :
  match to_starknet_api_block_and_version block tt with
  | Done _ b => valid_client_block block /\ block_converted block b
  | Fail _ _ => ~ valid_client_block block
  | Panic => False
  end.
Proof.
  unfold to_starknet_api_block_and_version, valid_client_block.
  destruct (Z.eqb_spec (zlength (ClientBlock_transactions block)) (zlength (ClientBlock_transaction_receipts block))) as [Hlen|];
    cbn [negb]; [|by intros (? & _)].
  pose proof (convert_receipts_iff (BlockHeader_block_number (client_block_header block)) (ClientBlock_transactions block) 0
    (ClientBlock_transaction_receipts block) ltac:(lia) ltac:(lia)) as Hr.
  pose proof (convert_all_iff (ClientBlock_transactions block)) as Ha. unfold succeeds_iff, bind in *.
  destruct (convert_receipts _ _ _ _ _) as [[] [os hs]|[] e|]; [|by intros (_ & ? & _)|done].
  destruct (convert_all _ _) as [[] ts|[] e|]; [|by intros (_ & _ & ?)|done].
  destruct Hr as [Hm (Hh & He & Hk)], Ha as [Hc Hts]. cbn [fst snd] in *. split; [done|].
  assert (Htake : take (length (ClientBlock_transaction_receipts block)) (drop (Z.to_nat 0) (ClientBlock_transactions block)) =
    ClientBlock_transactions block).
  { unfold zlength in Hlen. cbn [Z.to_nat drop]. apply take_ge. lia. }
  rewrite Htake in *. unfold block_converted. cbn.
  assert (Hkt : transaction_kind <$> ts = client_transaction_type <$> ClientBlock_transactions block).
  { clear -Hts. induction Hts as [|tx t txs ts Ht _ IH]; cbn; [done|]. by rewrite Ht, IH. }
  assert (Hl1 : length ts = length (ClientBlock_transactions block)) by (by rewrite <-(length_fmap client_transaction_type), <-Hkt, length_fmap).
  assert (Hl2 : length os = length (ClientBlock_transactions block)) by (by rewrite <-(length_fmap client_transaction_type), <-Hk, length_fmap).
  split_and!; try done.
  - destruct (ClientBlock_receipt_commitment block); cbn; split; intros [? ?]; (done || by eexists).
  - split; cbn [BlockBody_transaction_outputs BlockBody_transactions BlockBody_transaction_hashes]; [lia|]. rewrite Hh, length_fmap. lia.
  - unfold zlength. by rewrite Hl1.
  - by apply (sum_lengths_fmap TransactionReceipt_events TransactionOutput_events).
Qed.

(** A block of the feeder gateway is converted exactly when each transaction has its
    receipt, at its index and with its hash, and the fields of its version; the
    conversion never panics. The stored body is well formed: as many outputs and
    hashes as transactions, each output of the kind of its transaction, and the
    header counts its transactions and events. *)
Theorem gateway_block_conversion (block : ClientBlock) :
  match to_starknet_api_block_and_version block tt with
  | Done _ b => valid_client_block block /\ block_converted block b
  | Fail _ _ => ~ valid_client_block block
  | Panic => False
  end.
Proof. exact (block_conversion_outcome block). Qed.
