(* ===== verification/PendingSync.v ===== *)
(** * The types of the feeder synchronisation

    The configuration, the events and the errors of [crates/papyrus_sync/src/lib.rs]
    and of its sources, and the state diff with its classes as the node receives it.
    Messages of errors and errors of the connections carry no data here. *)

From stdpp Require Import base gmap list sorting strings fin_maps relations.
From Stdlib Require Import ZArith Lia.
From S2P Require Import Prelude StorageTables StarknetTypes StorageTxn Header Body ClientObjects.

(** ** Configuration, durations in seconds *)

Record SyncConfig : Type := mkSyncConfig {
  block_propagation_sleep_duration : Z;
  base_layer_propagation_sleep_duration : Z;
  recoverable_error_sleep_duration : Z;
  blocks_max_stream_size : Z;
  state_updates_max_stream_size : Z;
  verify_blocks : bool
}.

Definition default_SyncConfig : SyncConfig := {|
  block_propagation_sleep_duration := 2;
  base_layer_propagation_sleep_duration := 10;
  recoverable_error_sleep_duration := 3;
  blocks_max_stream_size := 1000;
  state_updates_max_stream_size := 1000;
  verify_blocks := true
|}.

Definition GENESIS_HASH : Z := 0.

Record BlockHashAndNumber : Type := mkBlockHashAndNumber {
  BlockHashAndNumber_block_hash : Z;
  BlockHashAndNumber_block_number : Z
}.

(** ** Errors *)

Inductive CentralError : Type :=
| CentralError_ClientCreation
| CentralError_ClientError (e : ReaderClientError)
| CentralError_StateUpdateNotFound
| CentralError_ClassNotFound
| CentralError_CompiledClassNotFound (class_hash : Z)
| CentralError_BlockNotFound (block_number : Z)
| CentralError_StarknetApiError
| CentralError_StorageError (e : StorageError)
| CentralError_BadContractClassType
| CentralError_BlockAndSignatureVersionMismatch.

Inductive PendingError : Type :=
| PendingError_ClientCreation
| PendingError_ClientError (e : ReaderClientError)
| PendingError_PendingBlockNotFound.

Inductive BaseLayerSourceError : Type :=
| BaseLayerSourceError_BaseLayerContractError
| BaseLayerSourceError_BaseLayerSourceCreationError.

Inductive StateSyncError : Type :=
| StateSyncError_NoProgress
| StateSyncError_StorageError (e : StorageError)
| StateSyncError_CentralSourceError (e : CentralError)
| StateSyncError_PendingSourceError (e : PendingError)
| StateSyncError_ParentBlockHashMismatch (block_number expected_parent_block_hash stored_parent_block_hash : Z)
| StateSyncError_BaseLayerBlockWithoutMatchingHeader (block_number : Z)
| StateSyncError_BaseLayerSourceError (e : BaseLayerSourceError)
| StateSyncError_BaseLayerHashMismatch (block_number base_layer_hash l2_hash : Z)
| StateSyncError_SequencerPubKeyChanged (old new : Z).

(** ** State diffs with their classes *)

Section Types.
Context {X : ExternalTypes}.

(** [starknet_api::state::StateDiff]; its maps are index maps. *)
Record StateDiff : Type := mkStateDiff {
  StateDiff_deployed_contracts : list (Z * ClassHash);
  StateDiff_storage_diffs : list (Z * list (Z * Z));
  StateDiff_declared_classes : list (ClassHash * (CompiledClassHash * ContractClass));
  StateDiff_deprecated_declared_classes : list (ClassHash * DeprecatedContractClass);
  StateDiff_nonces : list (Z * Nonce);
  StateDiff_replaced_classes : list (Z * ClassHash)
}.

(** [ThinStateDiff::from_state_diff] of [starknet_api]: the state diff without its
    classes, and the classes. *)
Class StateDiffApi : Type := {
  from_state_diff : StateDiff -> ThinStateDiff * list (Z * ContractClass) * list (Z * DeprecatedContractClass);
  from_state_diff_spec : forall d,
    let '(thin, classes, deprecated) := from_state_diff d in
    ThinStateDiff_deployed_contracts thin = StateDiff_deployed_contracts d /\
    ThinStateDiff_storage_diffs thin = StateDiff_storage_diffs d /\
    ThinStateDiff_declared_classes thin = prod_map id fst <$> StateDiff_declared_classes d /\
    ThinStateDiff_deprecated_declared_classes thin = (StateDiff_deprecated_declared_classes d).*1 /\
    ThinStateDiff_nonces thin = StateDiff_nonces d /\
    ThinStateDiff_replaced_classes thin = StateDiff_replaced_classes d /\
    classes = prod_map id snd <$> StateDiff_declared_classes d /\
    deprecated = StateDiff_deprecated_declared_classes d
}.

(** [IndexMap::sort_unstable_keys]. *)
Definition key_le {V} (a b : Z * V) : Prop := a.1 <= b.1.

#[global] Instance key_le_dec {V} : RelDecision (key_le (V := V)).
Proof. intros a b. unfold key_le. apply _. Defined.

Definition sort_unstable_keys {V} (l : list (Z * V)) : list (Z * V) := merge_sort key_le l.

Definition sort_state_diff (diff : StateDiff) : StateDiff := {|
  StateDiff_deployed_contracts := sort_unstable_keys (StateDiff_deployed_contracts diff);
  StateDiff_storage_diffs :=
    (fun ae => (ae.1, sort_unstable_keys ae.2)) <$> sort_unstable_keys (StateDiff_storage_diffs diff);
  StateDiff_declared_classes := sort_unstable_keys (StateDiff_declared_classes diff);
  StateDiff_deprecated_declared_classes := sort_unstable_keys (StateDiff_deprecated_declared_classes diff);
  StateDiff_nonces := sort_unstable_keys (StateDiff_nonces diff);
  StateDiff_replaced_classes := sort_unstable_keys (StateDiff_replaced_classes diff)
|}.

(** ** Events *)

Inductive SyncEvent : Type :=
| SyncEvent_NoProgress
| SyncEvent_BlockAvailable (block_number : Z) (block : Block) (signature : Signature)
| SyncEvent_StateDiffAvailable (block_number block_hash : Z) (state_diff : StateDiff)
    (deployed_contract_class_definitions : list (Z * DeprecatedContractClass))
| SyncEvent_CompiledClassAvailable (class_hash compiled_class_hash : Z) (compiled_class : CasmContractClass)
| SyncEvent_NewBaseLayerBlock (block_number block_hash : Z).
End Types.

(** * The data of the pending block

    Models [crates/papyrus_sync/src/pending_sync.rs]: while the node has every block,
    tasks poll the gateway for the pending block and download the classes it
    declares. The tasks run concurrently and finish in any order; one of them, which
    waits for the pending data, is always there.

    A task takes effect in one step when its download ends: it is the only writer of
    the pending data, and what it writes to the shared maps between two waits for a
    lock is not seen by another task. *)

Section PendingSync.
Context {BN : BlockNumberApi} {X : ExternalTypes} {SF : StorageFiles}.

(** What the node shares with its RPC server. *)
Record PendingShared : Type := mkPendingShared {
  shared_pending_data : PendingData;
  shared_pending_classes : PendingClasses
}.

Inductive PendingSyncTaskResult : Type :=
| DownloadedNewPendingData
| DownloadedOldPendingData
| PendingSyncFinished
| DownloadedClassOrCompiledClass.

Definition Pending (A : Type) : Type := M PendingShared StateSyncError A.

(** The block on top of which the pending block is: the gateway sends the latest
    block, with its hash, when there is no pending block. *)
Definition pending_parent_hash (data : PendingData) : Z :=
  default (pending_parent_block_hash (PendingData_block data)) (pending_block_hash (PendingData_block data)).

Definition num_pending_transactions (data : PendingData) : Z := zlength (pending_transactions (PendingData_block data)).

Definition get_pending_data (latest_block_hash : Z) (answer : PendingData + PendingError) : Pending PendingSyncTaskResult :=
  match answer with
  | inr e => raise (StateSyncError_PendingSourceError e)
  | inl new_pending_data =>
      let new_pending_parent_hash := pending_parent_hash new_pending_data in
      if negb (new_pending_parent_hash =? latest_block_hash) then ret PendingSyncFinished
      else
        let! shared := get in
        let current_pending_num_transactions := num_pending_transactions (shared_pending_data shared) in
        let current_pending_parent_hash := pending_parent_hash (shared_pending_data shared) in
        let is_new_pending_data_more_advanced :=
          negb (current_pending_parent_hash =? new_pending_parent_hash) ||
          (current_pending_num_transactions <? num_pending_transactions new_pending_data) in
        if is_new_pending_data_more_advanced then
          (if negb (current_pending_parent_hash =? new_pending_parent_hash)
           then modify (fun s => mkPendingShared (shared_pending_data s) (pending_clear (shared_pending_classes s)))
           else ret tt) ;!
          modify (fun s => mkPendingShared new_pending_data (shared_pending_classes s)) ;!
          ret DownloadedNewPendingData
        else ret DownloadedOldPendingData
  end.

Definition get_pending_class (class_hash : Z) (answer : ApiContractClass + CentralError) : Pending PendingSyncTaskResult :=
  match answer with
  | inr e => raise (StateSyncError_CentralSourceError e)
  | inl class =>
      modify (fun s => mkPendingShared (shared_pending_data s) (pending_add_class class_hash class (shared_pending_classes s))) ;!
      ret DownloadedClassOrCompiledClass
  end.

Definition get_pending_compiled_class (class_hash : Z) (answer : CasmContractClass + CentralError) :
    Pending PendingSyncTaskResult :=
  match answer with
  | inr e => raise (StateSyncError_CentralSourceError e)
  | inl compiled_class =>
      modify (fun s => mkPendingShared (shared_pending_data s)
        (pending_add_compiled_class class_hash compiled_class (shared_pending_classes s))) ;!
      ret DownloadedClassOrCompiledClass
  end.

(** ** The loop *)

Inductive PendingTask : Type :=
| Task_PendingData
| Task_PendingClass (class_hash : Z)
| Task_PendingCompiledClass (class_hash : Z).

(** The local state of [sync_pending_data]: the tasks are a [FuturesUnordered]. *)
Record PendingLoop : Type := mkPendingLoop {
  loop_latest_block_hash : Z;
  loop_tasks : list PendingTask;
  loop_processed_classes : gset Z;
  loop_processed_compiled_classes : gset Z
}.

(** The hash of the last block in the storage. *)
Definition get_latest_block_hash : Txn Z :=
  let! header_marker := get_header_marker in
  if header_marker =? 0 then ret GENESIS_HASH
  else
    let! prev := expect (bn_prev header_marker) in
    let! header := get_block_header prev in
    let! header := expect header in
    ret (BlockHeader_block_hash header).

Definition start_pending_loop (latest_block_hash : Z) : PendingLoop :=
  mkPendingLoop latest_block_hash [Task_PendingData] ∅ ∅.

(** [if processed_classes.insert(class_hash) { tasks.push(..) }]. *)
Definition push_class (class_hash : Z) (l : PendingLoop) : PendingLoop :=
  if bool_decide (class_hash ∈ loop_processed_classes l) then l
  else mkPendingLoop (loop_latest_block_hash l) (loop_tasks l ++ [Task_PendingClass class_hash])
         ({[class_hash]} ∪ loop_processed_classes l) (loop_processed_compiled_classes l).

Definition push_compiled_class (class_hash compiled_class_hash : Z) (l : PendingLoop) : PendingLoop :=
  if bool_decide (compiled_class_hash ∈ loop_processed_compiled_classes l) then l
  else mkPendingLoop (loop_latest_block_hash l) (loop_tasks l ++ [Task_PendingCompiledClass class_hash])
         (loop_processed_classes l) ({[compiled_class_hash]} ∪ loop_processed_compiled_classes l).

Definition push_pending_data (l : PendingLoop) : PendingLoop :=
  mkPendingLoop (loop_latest_block_hash l) (loop_tasks l ++ [Task_PendingData]) (loop_processed_classes l)
    (loop_processed_compiled_classes l).

Definition push_declared (entry : DeclaredClassHashEntry) (l : PendingLoop) : PendingLoop :=
  push_compiled_class (DeclaredClassHashEntry_class_hash entry) (DeclaredClassHashEntry_compiled_class_hash entry)
    (push_class (DeclaredClassHashEntry_class_hash entry) l).

Definition push_tasks_of (diff : ClientStateDiff) (l : PendingLoop) : PendingLoop :=
  let l := foldl (fun l entry => push_declared entry l) l (ClientStateDiff_declared_classes diff) in
  let l := foldl (fun l class_hash => push_class class_hash l) l (ClientStateDiff_old_declared_contracts diff) in
  push_pending_data l.

(** The pending data whose classes are downloaded. *)
Definition declared_diff (shared : PendingShared) : ClientStateDiff :=
  PendingStateUpdate_state_diff (PendingData_state_update (shared_pending_data shared)).

(** The loop goes on, or [sync_pending_data] returns. *)
Inductive PendingState : Type :=
| Pending_Running (shared : PendingShared) (l : PendingLoop)
| Pending_Finished (shared : PendingShared)
| Pending_Failed (shared : PendingShared) (e : StateSyncError)
| Pending_Panicked.

Definition handle_task_result (l : PendingLoop) (r : res PendingShared StateSyncError PendingSyncTaskResult) : PendingState :=
  match r with
  | Panic => Pending_Panicked
  | Fail shared e => Pending_Failed shared e
  | Done shared PendingSyncFinished => Pending_Finished shared
  | Done shared DownloadedNewPendingData => Pending_Running shared (push_tasks_of (declared_diff shared) l)
  | Done shared DownloadedOldPendingData => Pending_Running shared (push_pending_data l)
  | Done shared DownloadedClassOrCompiledClass => Pending_Running shared l
  end.

Definition without_task (l : PendingLoop) (before after : list PendingTask) : PendingLoop :=
  mkPendingLoop (loop_latest_block_hash l) (before ++ after) (loop_processed_classes l) (loop_processed_compiled_classes l).

(** One iteration: some task ends with some answer; without a task the [expect] panics.
    The pending data that the gateway sends satisfies [data_ok]. *)
Inductive pending_step (data_ok : PendingData -> Prop) : PendingState -> PendingState -> Prop :=
| pending_step_data shared l before after answer :
    loop_tasks l = before ++ Task_PendingData :: after ->
    (forall data, answer = inl data -> data_ok data) ->
    pending_step data_ok (Pending_Running shared l)
      (handle_task_result (without_task l before after) (get_pending_data (loop_latest_block_hash l) answer shared))
| pending_step_class shared l before after class_hash answer :
    loop_tasks l = before ++ Task_PendingClass class_hash :: after ->
    pending_step data_ok (Pending_Running shared l)
      (handle_task_result (without_task l before after) (get_pending_class class_hash answer shared))
| pending_step_compiled_class shared l before after class_hash answer :
    loop_tasks l = before ++ Task_PendingCompiledClass class_hash :: after ->
    pending_step data_ok (Pending_Running shared l)
      (handle_task_result (without_task l before after) (get_pending_compiled_class class_hash answer shared))
| pending_step_empty shared l : loop_tasks l = [] -> pending_step data_ok (Pending_Running shared l) Pending_Panicked.
End PendingSync.

(** * The pending data is complete

    The invariant of the tasks of [PendingSync.v], by induction on the steps: there is
    one task that waits for the pending data, the data is never replaced by older
    data, and every class it declares is there or on its way. *)

Section PendingProps.
Context {BN : BlockNumberApi} {X : ExternalTypes} {SF : StorageFiles}.

(** The classes that a state diff of the gateway declares. *)
Definition declared_hashes (diff : ClientStateDiff) : list Z :=
  (DeclaredClassHashEntry_class_hash <$> ClientStateDiff_declared_classes diff) ++ ClientStateDiff_old_declared_contracts diff.

Definition compiled_as (compiled_of : Z -> Z -> Prop) (diff : ClientStateDiff) : Prop :=
  Forall (fun e => compiled_of (DeclaredClassHashEntry_class_hash e) (DeclaredClassHashEntry_compiled_class_hash e))
    (ClientStateDiff_declared_classes diff).

Definition diff_of (data : PendingData) : ClientStateDiff := PendingStateUpdate_state_diff (PendingData_state_update data).

Definition one_data_task (tasks : list PendingTask) : Prop :=
  exists before after, tasks = before ++ Task_PendingData :: after /\ Task_PendingData ∉ before ++ after.

(** The class is there or on its way. *)
Definition class_coming (shared : PendingShared) (tasks : list PendingTask) (h : Z) : Prop :=
  Task_PendingClass h ∈ tasks \/ is_Some (pending_get_class (shared_pending_classes shared) h).

Definition compiled_class_coming (shared : PendingShared) (tasks : list PendingTask) (h : Z) : Prop :=
  Task_PendingCompiledClass h ∈ tasks \/ is_Some (pending_get_compiled_class (shared_pending_classes shared) h).

Section Inv.
Context (compiled_of : Z -> Z -> Prop) (compiled_inj : forall h h' c, compiled_of h c -> compiled_of h' c -> h = h').
Context (latest : Z) (shared0 : PendingShared).

(** The processed classes of the loop. *)
Record tasks_ok (shared : PendingShared) (l : PendingLoop) : Prop := {
  tk_classes : forall h, h ∈ loop_processed_classes l -> class_coming shared (loop_tasks l) h;
  tk_compiled : forall h c, compiled_of h c -> c ∈ loop_processed_compiled_classes l ->
    compiled_class_coming shared (loop_tasks l) h
}.

(** The data the loop started with, or data on top of the latest block that is
    further than it and whose classes were all processed. *)
Definition data_started (shared : PendingShared) (l : PendingLoop) : Prop :=
  shared_pending_data shared = shared_pending_data shared0 /\
  loop_processed_classes l = ∅ /\ loop_processed_compiled_classes l = ∅.

Definition data_downloaded (shared : PendingShared) (l : PendingLoop) : Prop :=
  let data := shared_pending_data shared in
  let diff := diff_of data in
  pending_parent_hash data = latest /\
  (pending_parent_hash (shared_pending_data shared0) = latest ->
   num_pending_transactions (shared_pending_data shared0) < num_pending_transactions data) /\
  (forall h, h ∈ declared_hashes diff -> h ∈ loop_processed_classes l) /\
  (forall e, e ∈ ClientStateDiff_declared_classes diff ->
     DeclaredClassHashEntry_compiled_class_hash e ∈ loop_processed_compiled_classes l).

Record pending_inv (shared : PendingShared) (l : PendingLoop) : Prop := {
  pi_latest : loop_latest_block_hash l = latest;
  pi_data_task : one_data_task (loop_tasks l);
  pi_tasks : tasks_ok shared l;
  pi_data : data_started shared l \/ data_downloaded shared l /\ compiled_as compiled_of (diff_of (shared_pending_data shared))
}.

Definition state_inv (s : PendingState) : Prop :=
  match s with
  | Pending_Running shared l => pending_inv shared l
  | Pending_Finished shared | Pending_Failed shared _ =>
      shared_pending_data shared = shared_pending_data shared0 \/ pending_parent_hash (shared_pending_data shared) = latest
  | Pending_Panicked => False
  end.

(** ** Pushing tasks *)

(** What pushing the tasks of a state diff changes: only what it has to. *)
Record pushed (hs : list Z) (cs : list Z) (l l' : PendingLoop) : Prop := {
  pu_latest : loop_latest_block_hash l' = loop_latest_block_hash l;
  pu_tasks : exists new, loop_tasks l' = loop_tasks l ++ new /\ Task_PendingData ∉ new;
  pu_classes : loop_processed_classes l' = list_to_set hs ∪ loop_processed_classes l;
  pu_compiled : loop_processed_compiled_classes l' = list_to_set cs ∪ loop_processed_compiled_classes l
}.

Lemma pushed_refl l : pushed [] [] l l.
Proof. split; try done; [exists []; by rewrite app_nil_r; split; [|apply not_elem_of_nil]|set_solver|set_solver]. Qed.

Lemma pushed_trans hs1 cs1 hs2 cs2 l1 l2 l3 : pushed hs1 cs1 l1 l2 -> pushed hs2 cs2 l2 l3 -> pushed (hs1 ++ hs2) (cs1 ++ cs2) l1 l3.
Proof.
  intros [A1 (n1 & A2 & A2') A3 A4] [B1 (n2 & B2 & B2') B3 B4]. split.
  - congruence.
  - exists (n1 ++ n2). rewrite B2, A2, app_assoc. split; [done|]. rewrite elem_of_app. tauto.
  - rewrite B3, A3. set_solver.
  - rewrite B4, A4. set_solver.
Qed.

Lemma push_class_pushed h l : pushed [h] [] l (push_class h l).
Proof.
  unfold push_class. case_bool_decide; [|split; cbn; try done; [|set_solver|set_solver]].
  - split; try done; [exists []; rewrite app_nil_r; by split; [|apply not_elem_of_nil]|set_solver|set_solver].
  - exists [Task_PendingClass h]. split; [done|]. rewrite list_elem_of_singleton. done.
Qed.

Lemma push_compiled_class_pushed h c l : pushed [] [c] l (push_compiled_class h c l).
Proof.
  unfold push_compiled_class. case_bool_decide; [|split; cbn; try done; [|set_solver|set_solver]].
  - split; try done; [exists []; rewrite app_nil_r; by split; [|apply not_elem_of_nil]|set_solver|set_solver].
  - exists [Task_PendingCompiledClass h]. split; [done|]. rewrite list_elem_of_singleton. done.
Qed.

Lemma class_coming_app shared tasks new h : class_coming shared tasks h -> class_coming shared (tasks ++ new) h.
Proof. unfold class_coming. rewrite elem_of_app. tauto. Qed.

Lemma compiled_class_coming_app shared tasks new h :
  compiled_class_coming shared tasks h -> compiled_class_coming shared (tasks ++ new) h.
Proof. unfold compiled_class_coming. rewrite elem_of_app. tauto. Qed.

Lemma push_class_ok h shared l : tasks_ok shared l -> tasks_ok shared (push_class h l).
Proof.
  intros [H1 H2]. unfold push_class. case_bool_decide as Hin; [done|]. split; cbn.
  - intros h' [->%elem_of_singleton|Hh]%elem_of_union; [|by apply class_coming_app, H1].
    left. apply elem_of_app. right. by apply list_elem_of_singleton.
  - intros h' c Hc Hin'. by eapply compiled_class_coming_app, H2.
Qed.

Lemma push_compiled_class_ok h c shared l : compiled_of h c -> tasks_ok shared l -> tasks_ok shared (push_compiled_class h c l).
Proof.
  intros Hhc [H1 H2]. unfold push_compiled_class. case_bool_decide as Hin; [done|]. split; cbn.
  - intros h' Hh. by apply class_coming_app, H1.
  - intros h' c' Hc [->%elem_of_singleton|Hh]%elem_of_union; [|by eapply compiled_class_coming_app, H2].
    rewrite (compiled_inj _ _ _ Hc Hhc). left. apply elem_of_app. right. by apply list_elem_of_singleton.
Qed.

Lemma push_pending_data_ok shared l : tasks_ok shared l -> tasks_ok shared (push_pending_data l).
Proof. intros [H1 H2]. split; cbn; intros; [by apply class_coming_app, H1|by eapply compiled_class_coming_app, H2]. Qed.

Lemma push_declared_fold entries shared l :
  Forall (fun e => compiled_of (DeclaredClassHashEntry_class_hash e) (DeclaredClassHashEntry_compiled_class_hash e)) entries ->
  let l' := foldl (fun l entry => push_declared entry l) l entries in
  pushed (DeclaredClassHashEntry_class_hash <$> entries) (DeclaredClassHashEntry_compiled_class_hash <$> entries) l l' /\
  (tasks_ok shared l -> tasks_ok shared l').
Proof.
  revert l; induction entries as [|e entries IH]; intros l Hf; cbn [foldl]; [split; [apply pushed_refl|done]|].
  apply Forall_cons in Hf as [He Hf]. destruct (IH (push_declared e l) Hf) as [IHp IHt]. split.
  - refine (pushed_trans [_] [_] _ _ _ _ _ _ IHp).
    exact (pushed_trans [_] [] [] [_] _ _ _ (push_class_pushed _ _) (push_compiled_class_pushed _ _ _)).
  - intros Ht. by apply IHt, push_compiled_class_ok, push_class_ok.
Qed.

Lemma push_class_fold hs shared l :
  let l' := foldl (fun l class_hash => push_class class_hash l) l hs in
  pushed hs [] l l' /\ (tasks_ok shared l -> tasks_ok shared l').
Proof.
  revert l; induction hs as [|h hs IH]; intros l; cbn [foldl]; [split; [apply pushed_refl|done]|].
  destruct (IH (push_class h l)) as [IHp IHt]. split.
  - exact (pushed_trans [_] [] _ [] _ _ _ (push_class_pushed _ _) IHp).
  - intros Ht. by apply IHt, push_class_ok.
Qed.

(** ** The steps *)

Lemma push_tasks_inv shared l :
  loop_latest_block_hash l = latest -> Task_PendingData ∉ loop_tasks l -> tasks_ok shared l ->
  pending_parent_hash (shared_pending_data shared) = latest ->
  (pending_parent_hash (shared_pending_data shared0) = latest ->
   num_pending_transactions (shared_pending_data shared0) < num_pending_transactions (shared_pending_data shared)) ->
  compiled_as compiled_of (diff_of (shared_pending_data shared)) ->
  pending_inv shared (push_tasks_of (declared_diff shared) l).
Proof.
  intros Hl Hno Hok Hp Hn Hc. unfold push_tasks_of. change (declared_diff shared) with (diff_of (shared_pending_data shared)).
  set (diff := diff_of (shared_pending_data shared)) in *.
  destruct (push_declared_fold _ shared l Hc) as [P1 T1].
  destruct (push_class_fold (ClientStateDiff_old_declared_contracts diff) shared
    (foldl (fun l entry => push_declared entry l) l (ClientStateDiff_declared_classes diff))) as [P2 T2].
  pose proof (pushed_trans _ _ _ _ _ _ _ P1 P2) as [Q1 (new & Q2 & Q2') Q3 Q4]. rewrite app_nil_r in Q4.
  set (l2 := foldl (fun l class_hash => push_class class_hash l) _ _) in *.
  split.
  - cbn. congruence.
  - exists (loop_tasks l ++ new), []. cbn. rewrite Q2, app_nil_r. split; [done|]. rewrite elem_of_app. tauto.
  - by apply push_pending_data_ok, T2, T1.
  - right. split; [|done]. split; [done|]. split; [done|]. cbn. fold diff. split.
    + intros h Hh. rewrite Q3. set_solver.
    + intros e He. rewrite Q4. apply elem_of_union_l, elem_of_list_to_set, list_elem_of_fmap. eauto.
Qed.

Lemma clear_tasks shared l : data_started shared l -> tasks_ok (mkPendingShared (shared_pending_data shared) (pending_clear (shared_pending_classes shared))) l.
Proof. intros (_ & H1 & H2). split; rewrite ?H1, ?H2; set_solver. Qed.

Lemma without_data_task l before after shared :
  loop_tasks l = before ++ Task_PendingData :: after -> pending_inv shared l ->
  Task_PendingData ∉ before ++ after /\ tasks_ok shared (without_task l before after).
Proof.
  intros Hl [_ (b & a & Hba & Hno) [H1 H2] _]. split.
  - rewrite Hl in Hba. intros Hin. apply Hno. clear -Hba Hin.
    assert (Hperm : before ++ after ≡ₚ b ++ a).
    { apply (inj (cons Task_PendingData)). by rewrite !Permutation_middle, Hba. }
    by rewrite <-Hperm.
  - assert (Hin : forall x, x <> Task_PendingData -> x ∈ loop_tasks l -> x ∈ before ++ after).
    { intros x Hx. rewrite Hl, !elem_of_app, elem_of_cons. tauto. }
    split; cbn.
    + intros h Hh. destruct (H1 h Hh); [left; by apply Hin|by right].
    + intros h c Hc Hh. destruct (H2 h c Hc Hh); [left; by apply Hin|by right].
Qed.

Lemma data_step_inv shared l before after answer :
  loop_tasks l = before ++ Task_PendingData :: after ->
  (forall data, answer = inl data -> compiled_as compiled_of (diff_of data)) -> pending_inv shared l ->
  state_inv (handle_task_result (without_task l before after) (get_pending_data (loop_latest_block_hash l) answer shared)).
Proof.
  intros Hl Hok Hinv. destruct (without_data_task _ _ _ _ Hl Hinv) as [Hno Htk]. pose proof Hinv as [Hlat _ _ Hdata].
  assert (Hend : shared_pending_data shared = shared_pending_data shared0 \/ pending_parent_hash (shared_pending_data shared) = latest).
  { destruct Hdata as [[? _]|[[? _] _]]; auto. }
  rewrite Hlat. destruct answer as [data|e]; [|exact Hend]. specialize (Hok data eq_refl). unfold get_pending_data.
  destruct (Z.eqb_spec (pending_parent_hash data) latest) as [Hp|]; cbn [negb]; [|exact Hend]. rewrite bind_get, Hp.
  destruct (Z.eqb_spec (pending_parent_hash (shared_pending_data shared)) latest) as [Hcur|Hcur]; cbn [negb orb].
  - destruct (Z.ltb_spec (num_pending_transactions (shared_pending_data shared)) (num_pending_transactions data)) as [Hlt|].
    + run_steps. cbn. apply push_tasks_inv; cbn; try done; [by destruct Htk; split|].
      intros H0. destruct Hdata as [[Hd _]|[(_ & Hd & _) _]]; [by rewrite <-Hd|]. specialize (Hd H0). lia.
    + cbn. split; [done|exists (before ++ after), []; by rewrite app_nil_r|by apply push_pending_data_ok|exact Hdata].
  - assert (Hst : data_started shared l) by (destruct Hdata as [?|[[? _] _]]; [done|congruence]).
    run_steps. cbn. apply push_tasks_inv; cbn; try done.
    + apply (clear_tasks shared (without_task l before after)) in Hst as [K1 K2]. by split.
    + intros H0. destruct Hst as [Hd _]. congruence.
Qed.

(** A class task ends: its class is stored, or the loop fails. *)
Lemma class_step_inv shared shared' l before after task :
  loop_tasks l = before ++ task :: after -> task <> Task_PendingData -> pending_inv shared l ->
  shared_pending_data shared' = shared_pending_data shared ->
  (forall h, class_coming shared (before ++ task :: after) h -> class_coming shared' (before ++ after) h) ->
  (forall h, compiled_class_coming shared (before ++ task :: after) h -> compiled_class_coming shared' (before ++ after) h) ->
  pending_inv shared' (without_task l before after).
Proof.
  intros Hl Hne [Hlat (b & a & Hba & Hno) [H1 H2] Hdata] Hd Hc Hcc. rewrite Hl in *. split.
  - done.
  - cbn. assert (Hin : Task_PendingData ∈ before ++ after).
    { assert (Hi : Task_PendingData ∈ before ++ task :: after) by (rewrite Hba; set_solver). set_solver. }
    apply list_elem_of_split in Hin as (b' & a' & Hin). exists b', a'. split; [done|]. intros Hin'. apply Hno.
    assert (Hperm : task :: b' ++ a' ≡ₚ b ++ a).
    { apply (inj (cons Task_PendingData)). rewrite (Permutation_middle b a), <-Hba, <-(Permutation_middle before after), Hin.
      by rewrite <-(Permutation_middle b' a'), Permutation_swap. }
    rewrite <-Hperm. by right.
  - split; cbn; eauto.
  - unfold data_started, data_downloaded in *. rewrite Hd. exact Hdata.
Qed.

Lemma pending_step_inv s s' :
  pending_step (fun data => compiled_as compiled_of (diff_of data)) s s' -> state_inv s -> state_inv s'.
Proof.
  intros Hst Hinv. destruct Hst as [shared l before after answer Hl Hok|shared l before after h answer Hl|
    shared l before after h answer Hl|shared l Hl].
  - by apply data_step_inv.
  - destruct answer as [class|e]; cbn; [|destruct Hinv as [_ _ _ [[? _]|[[? _] _]]]; auto].
    eapply class_step_inv; [exact Hl|done|exact Hinv|done|..]; unfold class_coming, compiled_class_coming; cbn; intros h'.
    + unfold pending_get_class; cbn. rewrite !elem_of_app, elem_of_cons, lookup_insert. case_decide; [intros; right; by eexists|].
      intros [[?|[[=]|?]]|?]; auto. congruence.
    + unfold pending_get_compiled_class; cbn. rewrite !elem_of_app, elem_of_cons. intros [[?|[[=]|?]]|?]; auto.
  - destruct answer as [class|e]; cbn; [|destruct Hinv as [_ _ _ [[? _]|[[? _] _]]]; auto].
    eapply class_step_inv; [exact Hl|done|exact Hinv|done|..]; unfold class_coming, compiled_class_coming; cbn; intros h'.
    + unfold pending_get_class; cbn. rewrite !elem_of_app, elem_of_cons. intros [[?|[[=]|?]]|?]; auto.
    + unfold pending_get_compiled_class; cbn. rewrite !elem_of_app, elem_of_cons, lookup_insert. case_decide; [intros; right; by eexists|].
      intros [[?|[[=]|?]]|?]; auto. congruence.
  - destruct Hinv as [_ (b & a & Hba & _) _ _]. rewrite Hl in Hba. by destruct b.
Qed.

Lemma start_inv : pending_inv shared0 (start_pending_loop latest).
Proof.
  split; [done|exists [], []; split; [done|apply not_elem_of_nil]|split; set_solver|left; done].
Qed.
End Inv.

(** C28: The pending data that the node serves, however the downloads of the tasks
    interleave. The task that polls for it is always there, so that the loop never
    panics; the data is what it was or data on top of the latest block, with more
    transactions when it replaces data of the same block; and once new data arrived,
    every class it declares and its compiled class is stored or being downloaded. *)
Theorem pending_data_complete (compiled_of : Z -> Z -> Prop) (latest : Z) (shared0 : PendingShared) (s : PendingState) :
  (forall h h' c, compiled_of h c -> compiled_of h' c -> h = h') ->
  rtc (pending_step (fun data => compiled_as compiled_of (diff_of data))) (Pending_Running shared0 (start_pending_loop latest)) s ->
  match s with
  | Pending_Running shared l =>
      Task_PendingData ∈ loop_tasks l /\
      (shared_pending_data shared = shared_pending_data shared0 \/
       pending_parent_hash (shared_pending_data shared) = latest /\
       (pending_parent_hash (shared_pending_data shared0) = latest ->
        num_pending_transactions (shared_pending_data shared0) < num_pending_transactions (shared_pending_data shared)) /\
       (forall h, h ∈ declared_hashes (diff_of (shared_pending_data shared)) -> class_coming shared (loop_tasks l) h) /\
       (forall e, e ∈ ClientStateDiff_declared_classes (diff_of (shared_pending_data shared)) ->
          compiled_class_coming shared (loop_tasks l) (DeclaredClassHashEntry_class_hash e)))
  | Pending_Finished shared | Pending_Failed shared _ =>
      shared_pending_data shared = shared_pending_data shared0 \/ pending_parent_hash (shared_pending_data shared) = latest
  | Pending_Panicked => False
  end.
Proof.
  intros Hinj Hr. assert (Hs : state_inv compiled_of latest shared0 s).
  { assert (H0 : state_inv compiled_of latest shared0 (Pending_Running shared0 (start_pending_loop latest))) by exact (start_inv compiled_of Hinj latest shared0).
    revert H0. induction Hr as [|s0 s1 s2 Hst _ IH]; [done|]. intros H0. by eapply IH, pending_step_inv. }
  destruct s as [shared l| | |]; try exact Hs. destruct Hs as [_ (b & a & Hba & _) [H1 H2] Hdata]. split; [rewrite Hba; set_solver|].
  destruct Hdata as [[? _]|[(D1 & D2 & D3 & D4) Hc]]; [by left|right]. split; [done|]. split; [done|]. split; [eauto|].
  intros e He. eapply H2; [|by apply D4]. unfold compiled_as in Hc. rewrite Forall_forall in Hc. by apply Hc.
Qed.
End PendingProps.
