(* ===== verification/Sync.v ===== *)
(** * Transactions that are not committed

    A writer whose operation failed drops its transaction: the tables stay as they
    were, but what it appended to the files of [mmap_file] stays there, past the end
    of everything the tables refer to. This file shows that no operation of the
    storage does anything to the files but append, so that the relations of the
    components with their lists survive a dropped transaction. *)

From stdpp Require Import base gmap list strings fin_maps relations.
From Stdlib Require Import ZArith Lia.
From S2P Require Import Prelude StorageTables StarknetTypes StorageTxn Header Body BodyProps State StateProps StateTheorems.
From S2P Require Import ClientObjects PendingSync.

Section Rollback.
Context {BN : BlockNumberApi} {SN : StateNumberApi} {X : ExternalTypes} {SF : StorageFiles} {HS : HashSetIter}.

(** The storage after a transaction that started from [t] and was dropped at [t']. *)
Definition rollback (t t' : StorageTxn) : StorageTxn :=
  set_thin_state_diff_file (t_thin_state_diff_file t') (set_contract_class_file (t_contract_class_file t')
    (set_casm_file (t_casm_file t') (set_deprecated_contract_class_file (t_deprecated_contract_class_file t')
      (set_transaction_output_file (t_transaction_output_file t') (set_transaction_file (t_transaction_file t') t))))).

(** ** Files only grow *)

Definition file_grows {F V} {H : FileHandler F V} : F -> F -> Prop :=
  rtc (fun f f' => exists v loc, file_append f v = Some (f', loc)).

Record files_grow (t t' : StorageTxn) : Prop := {
  fg_thin_state_diff : file_grows (t_thin_state_diff_file t) (t_thin_state_diff_file t');
  fg_contract_class : file_grows (t_contract_class_file t) (t_contract_class_file t');
  fg_casm : file_grows (t_casm_file t) (t_casm_file t');
  fg_deprecated : file_grows (t_deprecated_contract_class_file t) (t_deprecated_contract_class_file t');
  fg_output : file_grows (t_transaction_output_file t) (t_transaction_output_file t');
  fg_transaction : file_grows (t_transaction_file t) (t_transaction_file t')
}.

#[global] Instance files_grow_preorder : PreOrder files_grow.
Proof.
  split.
  - intros t. split; apply rtc_refl.
  - intros t1 t2 t3 [] []. split; by etrans.
Qed.

(** An operation that only appends to the files, whether it succeeds or not. *)
Definition appends_only {A} (m : Txn A) : Prop :=
  forall t, match m t with Done t' _ | Fail t' _ => files_grow t t' | Panic => True end.

Lemma appends_only_ret {A} (a : A) : appends_only (ret a).
Proof. by intros t. Qed.
Lemma appends_only_raise {A} e : appends_only (raise (A := A) e).
Proof. by intros t. Qed.
Lemma appends_only_panic {A} : appends_only (panic (A := A)).
Proof. by intros t. Qed.
Lemma appends_only_get : appends_only get.
Proof. by intros t. Qed.
Lemma appends_only_expect {A} (o : option A) : appends_only (expect o).
Proof. by destruct o; intros t. Qed.
Lemma appends_only_db {A} (r : DbResult A) : appends_only (db r).
Proof. by destruct r; intros t. Qed.
Lemma appends_only_bind {A B} (m : Txn A) (k : A -> Txn B) :
  appends_only m -> (forall a, appends_only (k a)) -> appends_only (bind m k).
Proof.
  intros Hm Hk t. specialize (Hm t). unfold bind. destruct (m t) as [t' a|t' e|]; [|done|done].
  specialize (Hk a t'). destruct (k a t'); [by etrans|by etrans|done].
Qed.
Lemma appends_only_modify f : (forall t, files_grow t (f t)) -> appends_only (modify f).
Proof. intros Hf t. apply Hf. Qed.
Lemma appends_only_for_each {A} (l : list A) (body : A -> Txn unit) :
  (forall x, appends_only (body x)) -> appends_only (for_each l body).
Proof. intros Hb. induction l as [|x l IH]; cbn; [apply appends_only_ret|by apply appends_only_bind]. Qed.
Lemma appends_only_read {F V} {H : FileHandler F V} (file : StorageTxn -> F) loc : appends_only (get_unchecked file loc).
Proof. intros t. unfold get_unchecked. run_steps. by destruct (file_get _ _). Qed.

(** Appending to one of the files. *)
Definition file_setter {F V} {H : FileHandler F V} (file : StorageTxn -> F) (set_file : F -> StorageTxn -> StorageTxn) : Prop :=
  forall t f, file_grows (file t) f -> files_grow t (set_file f t).

Lemma appends_only_append_to {F V} {H : FileHandler F V} (file : StorageTxn -> F) set_file (v : V) :
  file_setter file set_file -> appends_only (append_to file set_file v).
Proof.
  intros Hs t. unfold append_to. run_steps. destruct (file_append (file t) v) as [[f loc]|] eqn:Ha; [|done].
  run_steps. apply Hs, rtc_once. by exists v, loc.
Qed.
End Rollback.

Create HintDb appends discriminated.
#[export] Hint Resolve appends_only_ret appends_only_raise appends_only_panic appends_only_get appends_only_expect appends_only_db appends_only_read : appends.

(** Split an operation into its steps; setters of tables leave the files alone. *)
Ltac appends :=
  repeat match goal with
  | |- forall _, _ => intros ?
  | |- appends_only (bind _ _) => apply appends_only_bind
  | |- appends_only (for_each _ _) => apply appends_only_for_each
  | |- appends_only (modify _) => apply appends_only_modify; intros ?; split; apply rtc_refl
  | |- appends_only (append_to _ _ _) => apply appends_only_append_to; intros ? ? ?; split; txn_simpl; first [assumption | apply rtc_refl]
  | |- appends_only (match ?x with _ => _ end) => destruct x
  | |- appends_only (let '(_, _) := ?x in _) => destruct x
  | |- appends_only _ => solve [eauto with appends]
  end.

Section Operations.
Context {BN : BlockNumberApi} {SN : StateNumberApi} {X : ExternalTypes} {SF : StorageFiles} {HS : HashSetIter}.

Lemma appends_only_get_marker kind : appends_only (get_marker kind).
Proof. unfold get_marker. appends. Qed.
Lemma appends_only_upsert_marker kind n : appends_only (upsert_marker kind n).
Proof. unfold upsert_marker. appends. Qed.
#[local] Hint Resolve appends_only_get_marker appends_only_upsert_marker : appends.

Lemma append_header_appends b h : appends_only (append_header b h).
Proof. unfold append_header, update_header_marker, update_hash_mapping, update_starknet_version. appends. Qed.

Lemma append_block_signature_appends b s : appends_only (append_block_signature b s).
Proof. unfold append_block_signature, get_header_marker. appends. Qed.

Lemma write_events_loop_appends idx l : appends_only (write_events_loop idx l).
Proof. induction l; cbn [write_events_loop]; appends. Qed.
#[local] Hint Resolve write_events_loop_appends : appends.

Lemma write_transactions_loop_appends items : forall b last i, appends_only (write_transactions_loop b last i items).
Proof. induction items; intros; cbn [write_transactions_loop]; unfold write_events; appends. Qed.
#[local] Hint Resolve write_transactions_loop_appends : appends.

Lemma open_table_appends name : appends_only (open_table name).
Proof. unfold open_table. appends. Qed.
#[local] Hint Resolve open_table_appends : appends.

Lemma append_body_appends b body : appends_only (append_body b body).
Proof. unfold append_body, update_body_marker, write_transactions. appends. Qed.

Lemma advance_loop_appends fuel : forall m c, appends_only (advance_loop fuel m c).
Proof. induction fuel; intros; cbn [advance_loop]; appends. Qed.
#[local] Hint Resolve advance_loop_appends : appends.

Lemma append_state_diff_appends b d : appends_only (append_state_diff b d).
Proof.
  unfold append_state_diff, write_deployed_contracts, write_storage_diffs, write_nonces, write_replaced_classes,
    write_declared_classes_block, update_marker_to_next_block, advance_compiled_class_marker_over_blocks_without_classes.
  appends.
Qed.

Lemma append_classes_appends b cs dcs : appends_only (append_classes b cs dcs).
Proof. unfold append_classes, write_classes, write_deprecated_classes. appends. Qed.

Lemma update_casm_marker_loop_appends fuel : forall h m, appends_only (update_casm_marker_loop fuel h m).
Proof. induction fuel; intros; cbn [update_casm_marker_loop]; appends. Qed.
#[local] Hint Resolve update_casm_marker_loop_appends : appends.

Lemma append_casm_appends h casm : appends_only (append_casm h casm).
Proof. unfold append_casm, update_casm_marker. appends. Qed.

(** ** The relations survive *)

Lemma located_grows {F V} {H : FileHandler F V} (f f' : F) loc v : file_grows f f' -> located f loc v -> located f' loc v.
Proof. induction 1 as [|f f1 f2 (w & l & Ha) _ IH]; [done|]. intros Hl. by eapply IH, located_append. Qed.

Lemma offset_grows {F V} {H : FileHandler F V} (f f' : F) : file_grows f f' -> file_offset f <= file_offset f'.
Proof.
  induction 1 as [|f f1 f2 (w & l & Ha) _ IH]; [done|]. apply file_append_location in Ha as (Ho & Hn & Hl).
  unfold next_offset in Hn. lia.
Qed.

Lemma header_rel_rollback t t' l : header_rel t l -> header_rel (rollback t t') l.
Proof. by intros []. Qed.

Lemma body_rel_rollback t t' bs : files_grow t t' -> body_rel t bs -> body_rel (rollback t t') bs.
Proof.
  intros Hg [[H1 [H2 H2'] H3 H4 H5] H6 H7]. pose proof (offset_grows _ _ (fg_transaction _ _ Hg)).
  pose proof (offset_grows _ _ (fg_output _ _ Hg)). constructor; [constructor|done|done]; try done.
  - cbn. lia.
  - intros k. specialize (H3 k). unfold rollback. txn_simpl. destruct (t_transaction_metadata t !! k), (item bs k); try done.
    destruct H3 as (H3 & H3' & H3''). split; [done|]. split; [by eapply located_grows, H3'; apply Hg|by eapply located_grows, H3''; apply Hg].
Qed.

Lemma state_rel_rollback t t' ds : files_grow t t' -> state_rel t ds -> state_rel (rollback t t') ds.
Proof.
  intros Hg [H1 H2 H3 H4 H5 H6 H7 H8]. pose proof (offset_grows _ _ (fg_thin_state_diff _ _ Hg)). constructor; try done.
  - cbn. lia.
  - intros b. specialize (H4 b). unfold rollback. txn_simpl. destruct (t_state_diffs t !! b), (lookup_z ds b); try done.
    eapply located_grows, H4; apply Hg.
Qed.

Lemma class_rel_rollback t t' : files_grow t t' -> class_rel t -> class_rel (rollback t t').
Proof.
  intros Hg [(F1 & F2 & F3) H1 H2 H3]. pose proof (offset_grows _ _ (fg_contract_class _ _ Hg)).
  pose proof (offset_grows _ _ (fg_deprecated _ _ Hg)). pose proof (offset_grows _ _ (fg_casm _ _ Hg)). constructor.
  - cbn. lia.
  - intros h loc Hh. destruct (H1 h loc Hh) as [c Hc]. exists c. eapply located_grows, Hc; apply Hg.
  - intros h v Hh. destruct (H2 h v Hh) as [c Hc]. exists c. eapply located_grows, Hc; apply Hg.
  - intros h loc Hh. destruct (H3 h loc Hh) as [c Hc]. exists c. eapply located_grows, Hc; apply Hg.
Qed.
End Operations.

(** * The feeder synchronisation

    Models [crates/papyrus_sync/src/lib.rs]: the node downloads blocks, state diffs
    and compiled classes from the central source and the last proved block from the
    base layer, stores them, and reverts the blocks that the central source no longer
    has. Five streams yield events; a loop takes the events of any of them and stores
    them one at a time. An error ends the loop; a recoverable one starts it again.

    A step of [sync_step] is the part of a stream between two of its waits, together
    with the handling of the event it yields: the handling is not interleaved with
    the streams. The answers of the sources are arguments of the steps. *)

(** [chrono]: whether [Utc.timestamp_opt(secs, 0)] is a time. *)
Class ChronoApi : Type := { timestamp_opt_single : Z -> bool }.

(** [as i64]. *)
Definition as_i64 (z : Z) : Z := let w := wrap 64 z in if w <? 2 ^ 63 then w else w - 2 ^ 64.

Section Sync.
Context {BN : BlockNumberApi} {SN : StateNumberApi} {X : ExternalTypes} {SF : StorageFiles} {HS : HashSetIter}.
Context {SD : StateDiffApi} {CH : ChronoApi}.

(** ** Storage transactions *)

Definition Store (A : Type) : Type := M StorageTxn StateSyncError A.

(** [?] on a storage operation. *)
Definition storage_op {A} (m : Txn A) : Store A := map_err StateSyncError_StorageError m.

(** A write transaction: committed when its operations succeed, dropped otherwise. *)
Definition rw_txn {A} (m : Store A) : Store A := fun t =>
  match m t with
  | Done t' a => Done t' a
  | Fail t' e => Fail (rollback t t') e
  | Panic => Panic
  end.

(** A read transaction. *)
Definition ro_txn {A} (m : Store A) : Store A := fun t =>
  match m t with
  | Done _ a => Done t a
  | Fail _ e => Fail t e
  | Panic => Panic
  end.

(** ** Storing what the streams yield *)

Definition verify_parent_block_hash (block_number : Z) (block : Block) : Store unit :=
  match bn_prev block_number with
  | None => ret tt
  | Some prev_block_number =>
      let! header := ro_txn (storage_op (get_block_header prev_block_number)) in
      let! header := ok_or_raise (StateSyncError_StorageError StorageError_DBInconsistency) header in
      let prev_hash := BlockHeader_block_hash header in
      if negb (prev_hash =? BlockHeader_parent_hash (Block_header block)) then
        raise (StateSyncError_ParentBlockHashMismatch block_number (BlockHeader_parent_hash (Block_header block)) prev_hash)
      else ret tt
  end.

(** After the commit the age of the block is measured; its timestamp must be a time. *)
Definition store_block (block_number : Z) (block : Block) (signature : Signature) : Store unit :=
  verify_parent_block_hash block_number block ;!
  rw_txn (storage_op (
    append_header block_number (Block_header block) ;!
    append_block_signature block_number signature ;!
    append_body block_number (Block_body block))) ;!
  assert_ (timestamp_opt_single (as_i64 (BlockHeader_timestamp (Block_header block)))).

Definition store_state_diff (block_number : Z) (state_diff : StateDiff)
    (deployed_contract_class_definitions : list (Z * DeprecatedContractClass)) : Store unit :=
  let '(thin_state_diff, classes, deprecated_classes) := from_state_diff state_diff in
  rw_txn (storage_op (
    append_state_diff block_number thin_state_diff ;!
    append_classes block_number classes (deprecated_classes ++ deployed_contract_class_definitions))) ;!
  let! _ := ro_txn (storage_op get_compiled_class_marker) in
  ret tt.

(** A compiled class that is already stored is not an error. *)
Definition store_compiled_class (class_hash : Z) (compiled_class : CasmContractClass) : Store unit := fun t =>
  match append_casm class_hash compiled_class t with
  | Done t' _ => (let! _ := ro_txn (storage_op get_compiled_class_marker) in ret tt) t'
  | Fail t' (StorageError_InnerError DbError_KeyAlreadyExists) => Done (rollback t t') tt
  | Fail t' e => Fail (rollback t t') (StateSyncError_StorageError e)
  | Panic => Panic
  end.

Definition store_base_layer_block (block_number block_hash : Z) : Store unit :=
  rw_txn (
    let! header := storage_op (get_block_header block_number) in
    let! header := ok_or_raise (StateSyncError_BaseLayerBlockWithoutMatchingHeader block_number) header in
    let expected_hash := BlockHeader_block_hash header in
    if negb (expected_hash =? block_hash) then
      raise (StateSyncError_BaseLayerHashMismatch block_number block_hash expected_hash)
    else
      let! marker := storage_op get_base_layer_block_marker in
      if negb (marker =? bn_unchecked_next block_number)
      then storage_op (update_base_layer_block_marker (bn_unchecked_next block_number))
      else ret tt).

Definition process_sync_event (event : SyncEvent) : Store unit :=
  match event with
  | SyncEvent_BlockAvailable block_number block signature => store_block block_number block signature
  | SyncEvent_StateDiffAvailable block_number _ state_diff deployed_contract_class_definitions =>
      store_state_diff block_number state_diff deployed_contract_class_definitions
  | SyncEvent_CompiledClassAvailable class_hash _ compiled_class => store_compiled_class class_hash compiled_class
  | SyncEvent_NewBaseLayerBlock block_number block_hash => store_base_layer_block block_number block_hash
  | SyncEvent_NoProgress => raise StateSyncError_NoProgress
  end.

(** ** Reverting blocks *)

(** The answer of the central source to [get_block_hash]. *)
Definition should_revert_block (answer : option Z + CentralError) (block_number : Z) : Store bool :=
  match answer with
  | inr e => raise (StateSyncError_CentralSourceError e)
  | inl None => ret true
  | inl (Some central_block_hash) =>
      let! storage_block_header := ro_txn (storage_op (get_block_header block_number)) in
      match storage_block_header with
      | Some block_header => ret (negb (BlockHeader_block_hash block_header =? central_block_hash))
      | None => ret false
      end
  end.

Definition revert_block (block_number : Z) : Store unit :=
  rw_txn (storage_op (
    try_revert_base_layer_marker block_number ;!
    let! (header, _) := revert_header block_number in
    match header with
    | Some _ =>
        let! _ := revert_body block_number in
        let! _ := revert_state_diff block_number in
        ret tt
    | None => ret tt
    end)).

(** The [while let] loop; each iteration steps one block back, out of fuel is a panic. *)
Fixpoint revert_blocks (fuel : nat) (central_hash : Z -> option Z + CentralError) (last_block_in_storage : option Z) : Store unit :=
  match last_block_in_storage with
  | None => ret tt
  | Some block_number =>
      match fuel with
      | O => panic
      | S fuel' =>
          let! should_revert := should_revert_block (central_hash block_number) block_number in
          if should_revert then revert_block block_number ;! revert_blocks fuel' central_hash (bn_prev block_number)
          else ret tt
      end
  end.

Definition handle_block_reverts (central_hash : Z -> option Z + CentralError) : Store unit :=
  let! header_marker := ro_txn (storage_op get_header_marker) in
  revert_blocks (Z.to_nat header_marker) central_hash (bn_prev header_marker).

(** ** The node *)

Record GenericStateSync : Type := mkGenericStateSync {
  sync_storage : StorageTxn;
  sync_shared_highest_block : option BlockHashAndNumber;
  sync_pending : PendingShared;
  sync_sequencer_pub_key : option Z
}.

Definition set_sync_storage (x : StorageTxn) (n : GenericStateSync) : GenericStateSync :=
  mkGenericStateSync x (sync_shared_highest_block n) (sync_pending n) (sync_sequencer_pub_key n).
Definition set_sync_highest (x : option BlockHashAndNumber) (n : GenericStateSync) : GenericStateSync :=
  mkGenericStateSync (sync_storage n) x (sync_pending n) (sync_sequencer_pub_key n).
Definition set_sync_pending (x : PendingShared) (n : GenericStateSync) : GenericStateSync :=
  mkGenericStateSync (sync_storage n) (sync_shared_highest_block n) x (sync_sequencer_pub_key n).
Definition set_sync_key (x : option Z) (n : GenericStateSync) : GenericStateSync :=
  mkGenericStateSync (sync_storage n) (sync_shared_highest_block n) (sync_pending n) x.

Definition Sync (A : Type) : Type := M GenericStateSync StateSyncError A.

Definition on_storage {A} (m : Store A) : Sync A := fun n =>
  match m (sync_storage n) with
  | Done t a => Done (set_sync_storage t n) a
  | Fail t e => Fail (set_sync_storage t n) e
  | Panic => Panic
  end.

Definition read {A} (m : Txn A) : Sync A := on_storage (ro_txn (storage_op m)).

Definition is_recoverable (err : StateSyncError) : bool :=
  match err with
  | StateSyncError_StorageError error => match error with StorageError_InnerError _ => true | _ => false end
  | StateSyncError_NoProgress | StateSyncError_CentralSourceError _ | StateSyncError_PendingSourceError _
  | StateSyncError_BaseLayerSourceError _ | StateSyncError_ParentBlockHashMismatch _ _ _
  | StateSyncError_BaseLayerHashMismatch _ _ _ | StateSyncError_BaseLayerBlockWithoutMatchingHeader _ => true
  | StateSyncError_SequencerPubKeyChanged _ _ => false
  end.

Definition track_sequencer_public_key_changes (answer : Z + CentralError) : Sync unit :=
  match answer with
  | inr e => raise (StateSyncError_CentralSourceError e)
  | inl sequencer_pub_key =>
      let! self := get in
      match sync_sequencer_pub_key self with
      | None => modify (set_sync_key (Some sequencer_pub_key))
      | Some cur_key =>
          if negb (cur_key =? sequencer_pub_key) then
            modify (set_sync_key (Some sequencer_pub_key)) ;!
            raise (StateSyncError_SequencerPubKeyChanged cur_key sequencer_pub_key)
          else ret tt
      end
  end.

(** [sync_while_ok] up to the creation of the streams. *)
Definition start_sync (config : SyncConfig) (key : Z + CentralError) (central_hash : Z -> option Z + CentralError) : Sync unit :=
  (if verify_blocks config then track_sequencer_public_key_changes key else ret tt) ;!
  on_storage (handle_block_reverts central_hash).

(** ** The streams *)

(** What the streams of the central source deliver. *)
Definition CentralBlock : Type := Z * Block * Signature.
Definition CentralStateUpdate : Type := Z * Z * StateDiff * list (Z * DeprecatedContractClass).
Definition CentralCompiledClass : Type := Z * Z * CasmContractClass.

(** Where each stream stands: at the head of its loop, inside its pending sync or
    waiting for an answer, or in the loop over the items of a download. *)
Inductive BlocksStream : Type :=
| Blocks_Loop
| Blocks_Pending (l : PendingLoop)
| Blocks_Download (items : list (CentralBlock + CentralError)).

Inductive DiffsStream : Type :=
| Diffs_Loop
| Diffs_Download (items : list (CentralStateUpdate + CentralError)).

Inductive CasmsStream : Type :=
| Casms_Loop
| Casms_Download (items : list (CentralCompiledClass + CentralError)).

Inductive BaseLayerStream : Type :=
| BaseLayer_Sleep
| BaseLayer_Ask (header_marker : Z).

Inductive ProgressStream : Type :=
| Progress_Start
| Progress_Watch (header_marker state_marker casm_marker : Z).

(** *** Blocks *)

(** One iteration up to the download; nobody else adds headers, so that the marker
    read before the answer of [get_latest_block] still holds after it. *)
Definition blocks_iteration (config : SyncConfig) (latest : option BlockHashAndNumber + CentralError)
    (stream_new_blocks : Z -> Z -> list (CentralBlock + CentralError)) : Sync BlocksStream :=
  let! header_marker := read get_header_marker in
  match latest with
  | inr e => raise (StateSyncError_CentralSourceError e)
  | inl latest_central_block =>
      modify (set_sync_highest latest_central_block) ;!
      let central_block_marker :=
        match latest_central_block with
        | None => 0
        | Some block => bn_unchecked_next (BlockHashAndNumber_block_number block)
        end in
      if header_marker =? central_block_marker then
        let! state_marker := read get_state_marker in
        if state_marker =? header_marker then
          let! latest_block_hash := read get_latest_block_hash in
          ret (Blocks_Pending (start_pending_loop latest_block_hash))
        else ret Blocks_Loop
      else
        let up_to := Z.min central_block_marker (u64_add header_marker (blocks_max_stream_size config)) in
        ret (Blocks_Download (stream_new_blocks header_marker up_to))
  end.

(** The next item of a download. *)
Definition next_block (items : list (CentralBlock + CentralError)) : Sync (option SyncEvent * BlocksStream) :=
  match items with
  | [] => ret (None, Blocks_Loop)
  | inl (block_number, block, signature) :: rest =>
      ret (Some (SyncEvent_BlockAvailable block_number block signature), Blocks_Download rest)
  | inr e :: _ => raise (StateSyncError_CentralSourceError e)
  end.

(** *** State diffs *)

Definition diffs_iteration (config : SyncConfig) (stream_state_updates : Z -> Z -> list (CentralStateUpdate + CentralError)) :
    Sync DiffsStream :=
  let! state_marker := read get_state_marker in
  let! last_block_number := read get_header_marker in
  if state_marker =? last_block_number then ret Diffs_Loop
  else
    let up_to := Z.min last_block_number (u64_add state_marker (state_updates_max_stream_size config)) in
    ret (Diffs_Download (stream_state_updates state_marker up_to)).

Definition next_state_diff (items : list (CentralStateUpdate + CentralError)) : Sync (option SyncEvent * DiffsStream) :=
  match items with
  | [] => ret (None, Diffs_Loop)
  | inl (block_number, block_hash, state_diff, deployed_contract_class_definitions) :: rest =>
      ret (Some (SyncEvent_StateDiffAvailable block_number block_hash (sort_state_diff state_diff)
                   deployed_contract_class_definitions), Diffs_Download rest)
  | inr e :: _ => raise (StateSyncError_CentralSourceError e)
  end.

(** *** Compiled classes *)

(** The [while] loop over blocks without declared classes; out of fuel is a panic. *)
Fixpoint skip_blocks_without_classes (fuel : nat) (state_marker from : Z) : Txn Z :=
  if from <? state_marker then
    match fuel with
    | O => panic
    | S fuel' =>
        let! state_diff := get_state_diff from in
        let! state_diff := expect state_diff in
        match ThinStateDiff_declared_classes state_diff with
        | [] => skip_blocks_without_classes fuel' state_marker (bn_unchecked_next from)
        | _ :: _ => ret from
        end
    end
  else ret from.

Definition casms_iteration (config : SyncConfig) (stream_compiled_classes : Z -> Z -> list (CentralCompiledClass + CentralError)) :
    Sync CasmsStream :=
  let! (from, state_marker) := read (
    let! from := get_compiled_class_marker in
    let! state_marker := get_state_marker in
    let! from := skip_blocks_without_classes (Z.to_nat (state_marker - from)) state_marker from in
    ret (from, state_marker)) in
  if from =? state_marker then ret Casms_Loop
  else
    let up_to := Z.min state_marker (u64_add from (state_updates_max_stream_size config)) in
    ret (Casms_Download (stream_compiled_classes from up_to)).

Definition next_compiled_class (items : list (CentralCompiledClass + CentralError)) : Sync (option SyncEvent * CasmsStream) :=
  match items with
  | [] => ret (None, Casms_Loop)
  | inl (class_hash, compiled_class_hash, compiled_class) :: rest =>
      ret (Some (SyncEvent_CompiledClassAvailable class_hash compiled_class_hash compiled_class), Casms_Download rest)
  | inr e :: _ => raise (StateSyncError_CentralSourceError e)
  end.

(** *** The base layer and the watchdog *)

Definition base_layer_step (answer : option (Z * Z) + BaseLayerSourceError) (s : BaseLayerStream) :
    Sync (option SyncEvent * BaseLayerStream) :=
  match s with
  | BaseLayer_Sleep => let! header_marker := read get_header_marker in ret (None, BaseLayer_Ask header_marker)
  | BaseLayer_Ask header_marker =>
      match answer with
      | inr e => raise (StateSyncError_BaseLayerSourceError e)
      | inl (Some (block_number, block_hash)) =>
          if header_marker <=? block_number then ret (None, BaseLayer_Sleep)
          else ret (Some (SyncEvent_NewBaseLayerBlock block_number block_hash), BaseLayer_Sleep)
      | inl None => ret (None, BaseLayer_Sleep)
      end
  end.

Definition check_sync_progress (s : ProgressStream) : Sync (option SyncEvent * ProgressStream) :=
  let! new_header_marker := read get_header_marker in
  let! new_state_marker := read get_state_marker in
  let! new_casm_marker := read get_compiled_class_marker in
  let watch := Progress_Watch new_header_marker new_state_marker new_casm_marker in
  match s with
  | Progress_Start => ret (None, watch)
  | Progress_Watch header_marker state_marker casm_marker =>
      if (header_marker =? new_header_marker) || (state_marker =? new_state_marker) || (casm_marker =? new_casm_marker)
      then ret (Some SyncEvent_NoProgress, watch)
      else ret (None, watch)
  end.

(** ** The loop *)

Record SyncStreams : Type := mkSyncStreams {
  block_stream : BlocksStream;
  state_diff_stream : DiffsStream;
  compiled_class_stream : CasmsStream;
  base_layer_block_stream : BaseLayerStream;
  sync_progress_stream : ProgressStream
}.

Definition new_streams : SyncStreams := mkSyncStreams Blocks_Loop Diffs_Loop Casms_Loop BaseLayer_Sleep Progress_Start.

Definition set_block_stream x (s : SyncStreams) : SyncStreams :=
  mkSyncStreams x (state_diff_stream s) (compiled_class_stream s) (base_layer_block_stream s) (sync_progress_stream s).
Definition set_state_diff_stream x (s : SyncStreams) : SyncStreams :=
  mkSyncStreams (block_stream s) x (compiled_class_stream s) (base_layer_block_stream s) (sync_progress_stream s).
Definition set_compiled_class_stream x (s : SyncStreams) : SyncStreams :=
  mkSyncStreams (block_stream s) (state_diff_stream s) x (base_layer_block_stream s) (sync_progress_stream s).
Definition set_base_layer_block_stream x (s : SyncStreams) : SyncStreams :=
  mkSyncStreams (block_stream s) (state_diff_stream s) (compiled_class_stream s) x (sync_progress_stream s).
Definition set_sync_progress_stream x (s : SyncStreams) : SyncStreams :=
  mkSyncStreams (block_stream s) (state_diff_stream s) (compiled_class_stream s) (base_layer_block_stream s) x.

(** [run]: before [sync_while_ok], inside its loop, or ended. *)
Inductive SyncState : Type :=
| Sync_Starting (n : GenericStateSync)
| Sync_Running (n : GenericStateSync) (s : SyncStreams)
| Sync_Ended (n : GenericStateSync) (e : StateSyncError)
| Sync_Panicked.

(** The end of a part of [sync_while_ok]: [run] tries again after a recoverable error. *)
Definition continue_with {A} (r : res GenericStateSync StateSyncError A) (k : GenericStateSync -> A -> SyncState) : SyncState :=
  match r with
  | Done n a => k n a
  | Fail n e => if is_recoverable e then Sync_Starting n else Sync_Ended n e
  | Panic => Sync_Panicked
  end.

(** The event that a stream yields is processed before any stream runs again. *)
Definition process {St} (m : Sync (option SyncEvent * St)) : Sync St :=
  let! (event, st) := m in
  match event with
  | Some event => on_storage (process_sync_event event) ;! ret st
  | None => ret st
  end.

(** Back from [sync_pending_data]: the stream goes on, or the error ends the loop. *)
Definition after_pending (n : GenericStateSync) (s : SyncStreams) (p : PendingState) : SyncState :=
  match p with
  | Pending_Running shared l => Sync_Running (set_sync_pending shared n) (set_block_stream (Blocks_Pending l) s)
  | Pending_Finished shared => Sync_Running (set_sync_pending shared n) (set_block_stream Blocks_Loop s)
  | Pending_Failed shared e => continue_with (Fail (A := unit) (set_sync_pending shared n) e) (fun n _ => Sync_Starting n)
  | Pending_Panicked => Sync_Panicked
  end.

(** What the sources promise: the blocks and the state updates of a download are those
    of the numbers asked for, in order, and nothing follows an error. *)
Class CentralPromise : Type := {
  block_promise : Block -> Prop;
  state_diff_promise : StateDiff -> list (Z * DeprecatedContractClass) -> Prop;
  pending_promise : PendingData -> Prop
}.

Context {CP : CentralPromise}.

Fixpoint blocks_in_order (from up_to : Z) (items : list (CentralBlock + CentralError)) : Prop :=
  match items with
  | [] => True
  | inl (block_number, block, _) :: rest =>
      block_number = from /\ from < up_to /\ block_promise block /\ blocks_in_order (from + 1) up_to rest
  | inr _ :: rest => rest = []
  end.

Fixpoint diffs_in_order (from up_to : Z) (items : list (CentralStateUpdate + CentralError)) : Prop :=
  match items with
  | [] => True
  | inl (block_number, _, state_diff, classes) :: rest =>
      block_number = from /\ from < up_to /\ state_diff_promise state_diff classes /\ diffs_in_order (from + 1) up_to rest
  | inr _ :: rest => rest = []
  end.

Inductive sync_step (config : SyncConfig) : SyncState -> SyncState -> Prop :=
| sync_step_start n key central_hash :
    sync_step config (Sync_Starting n)
      (continue_with (start_sync config key central_hash n) (fun n _ => Sync_Running n new_streams))
| sync_step_blocks n s latest download :
    block_stream s = Blocks_Loop ->
    (forall from up_to, 0 <= from -> blocks_in_order from up_to (download from up_to)) ->
    sync_step config (Sync_Running n s)
      (continue_with (blocks_iteration config latest download n) (fun n st => Sync_Running n (set_block_stream st s)))
| sync_step_block n s items :
    block_stream s = Blocks_Download items ->
    sync_step config (Sync_Running n s)
      (continue_with (process (next_block items) n) (fun n st => Sync_Running n (set_block_stream st s)))
| sync_step_pending n s l p :
    block_stream s = Blocks_Pending l -> pending_step pending_promise (Pending_Running (sync_pending n) l) p ->
    sync_step config (Sync_Running n s) (after_pending n s p)
| sync_step_diffs n s download :
    state_diff_stream s = Diffs_Loop ->
    (forall from up_to, 0 <= from -> up_to < 2 ^ 32 -> diffs_in_order from up_to (download from up_to)) ->
    sync_step config (Sync_Running n s)
      (continue_with (diffs_iteration config download n) (fun n st => Sync_Running n (set_state_diff_stream st s)))
| sync_step_diff n s items :
    state_diff_stream s = Diffs_Download items ->
    sync_step config (Sync_Running n s)
      (continue_with (process (next_state_diff items) n) (fun n st => Sync_Running n (set_state_diff_stream st s)))
| sync_step_casms n s download :
    compiled_class_stream s = Casms_Loop ->
    sync_step config (Sync_Running n s)
      (continue_with (casms_iteration config download n) (fun n st => Sync_Running n (set_compiled_class_stream st s)))
| sync_step_casm n s items :
    compiled_class_stream s = Casms_Download items ->
    sync_step config (Sync_Running n s)
      (continue_with (process (next_compiled_class items) n) (fun n st => Sync_Running n (set_compiled_class_stream st s)))
| sync_step_base_layer n s answer :
    (forall block_number block_hash, answer = inl (Some (block_number, block_hash)) -> 0 <= block_number) ->
    sync_step config (Sync_Running n s)
      (continue_with (process (base_layer_step answer (base_layer_block_stream s)) n)
        (fun n st => Sync_Running n (set_base_layer_block_stream st s)))
| sync_step_progress n s :
    sync_step config (Sync_Running n s)
      (continue_with (process (check_sync_progress (sync_progress_stream s)) n)
        (fun n st => Sync_Running n (set_sync_progress_stream st s))).
End Sync.
