(* ===== verification/SyncProps.v ===== *)
(** * Storing what the synchronisation yields

    The storage of a synchronised node holds a chain of linked and signed headers, a
    body for each of them, and state diffs that do not pass the headers. Each handler
    of [Sync.v] extends it, or fails with a recoverable error and leaves it; a revert
    removes its last block. *)

From stdpp Require Import base gmap list strings fin_maps relations.
From Stdlib Require Import ZArith Lia.
From S2P Require Import Prelude StorageTables StarknetTypes StorageTxn Header Body BodyProps State StateProps StateTheorems.
From S2P Require Import ClientObjects P2pProps PendingSync Sync.

(** Every block names the block before it as its parent. *)
Definition linked (l : HeaderChain) : Prop :=
  forall b x y, lookup_z l b = Some x -> lookup_z l (b + 1) = Some y -> BlockHeader_parent_hash y.1 = hash_of x.

Definition signed (l : HeaderChain) : Prop := Forall (fun x => is_Some x.2) l.

Section Props.
Context {BN : BlockNumberApi} {SN : StateNumberApi} {X : ExternalTypes} {SF : StorageFiles} {HS : HashSetIter}.
Context {SD : StateDiffApi} {CH : ChronoApi}.

(** What the storage of the node holds. *)
Record sync_rel (t : StorageTxn) (l : HeaderChain) (bs : BodyChain) (ds : list ThinStateDiff) : Prop := {
  ss_headers : header_rel t l;
  ss_hashes : NoDup (hash_of <$> l);
  ss_linked : linked l;
  ss_signed : signed l;
  ss_bodies : body_rel t bs;
  ss_transactions : NoDup (chain_hashes bs);
  ss_lengths : zlength bs = zlength l;
  ss_state : state_rel t ds;
  ss_diffs : Forall diff_ok ds;
  ss_order : zlength ds <= zlength l;
  ss_classes : class_rel t;
  ss_class_marker : marker MarkerKind_Class t = zlength ds;
  ss_base_layer : 0 <= marker MarkerKind_BaseLayerBlock t <= zlength l
}.

(** ** What a relation depends on *)

Lemma body_rel_same t t' bs :
  t_scope t' = t_scope t -> t_transaction_metadata t' = t_transaction_metadata t ->
  t_transaction_hash_to_idx t' = t_transaction_hash_to_idx t -> t_events t' = t_events t ->
  t_transaction_file t' = t_transaction_file t -> t_transaction_output_file t' = t_transaction_output_file t ->
  marker MarkerKind_Body t' = marker MarkerKind_Body t -> marker MarkerKind_Event t' = marker MarkerKind_Event t ->
  body_rel t bs -> body_rel t' bs.
Proof.
  intros H1 H2 H3 H4 H5 H6 H7 H8 [[K1 K2 K3 K4 K5] ? ?].
  split; [split|..]; unfold metadata_of in *; rewrite ?H1, ?H2, ?H3, ?H4, ?H5, ?H6, ?H7, ?H8; done.
Qed.

Lemma state_rel_same t t' ds :
  marker MarkerKind_State t' = marker MarkerKind_State t ->
  marker MarkerKind_CompiledClass t' = marker MarkerKind_CompiledClass t ->
  t_thin_state_diff_file t' = t_thin_state_diff_file t -> t_state_diffs t' = t_state_diffs t ->
  t_contract_storage t' = t_contract_storage t -> t_nonces t' = t_nonces t ->
  t_deployed_contracts t' = t_deployed_contracts t -> t_declared_classes_block t' = t_declared_classes_block t ->
  state_rel t ds -> state_rel t' ds.
Proof.
  intros H1 H2 H3 H4 H5 H6 H7 H8 []. split; unfold diffs_rel in *; rewrite ?H1, ?H2, ?H3, ?H4, ?H5, ?H6, ?H7, ?H8; done.
Qed.

Lemma class_rel_same t t' :
  t_contract_class_file t' = t_contract_class_file t ->
  t_deprecated_contract_class_file t' = t_deprecated_contract_class_file t -> t_casm_file t' = t_casm_file t ->
  t_declared_classes t' = t_declared_classes t ->
  t_deprecated_declared_classes t' = t_deprecated_declared_classes t -> t_casms t' = t_casms t ->
  class_rel t -> class_rel t'.
Proof. intros H1 H2 H3 H4 H5 H6 []. split; rewrite ?H1, ?H2, ?H3, ?H4, ?H5, ?H6; done. Qed.

(** The markers of the other components. *)
Lemma header_frame_marker t t' kind : header_frame t t' -> kind <> MarkerKind_Header -> marker kind t' = marker kind t.
Proof. intros [Hm _] Hk. unfold marker. by rewrite Hm. Qed.

Lemma body_frame_marker t t' kind :
  body_frame t t' -> kind <> MarkerKind_Body -> kind <> MarkerKind_Event -> marker kind t' = marker kind t.
Proof. intros [Hm _] H1 H2. unfold marker. by rewrite Hm. Qed.

Lemma body_rel_header_frame t t' bs : header_frame t t' -> body_rel t bs -> body_rel t' bs.
Proof.
  intros Hf. pose proof Hf as [_ (mk & hs & hh & vs & sg & Ht)]. apply body_rel_same; rewrite ?Ht; try done; rewrite <-Ht;
    by apply header_frame_marker.
Qed.

Lemma class_rel_header_frame t t' : header_frame t t' -> class_rel t -> class_rel t'.
Proof. intros [_ (mk & hs & hh & vs & sg & ->)]. by apply class_rel_same. Qed.

Lemma header_rel_body_frame t t' l : body_frame t t' -> header_rel t l -> header_rel t' l.
Proof.
  intros Hf. pose proof Hf as [_ (m & md & h & e & o & fo & ft & Ht)]. apply header_rel_same; rewrite ?Ht; try done. rewrite <-Ht.
  by apply body_frame_marker.
Qed.

Lemma state_rel_body_frame t t' ds : body_frame t t' -> state_rel t ds -> state_rel t' ds.
Proof.
  intros Hf. pose proof Hf as [_ (m & md & h & e & o & fo & ft & Ht)]. apply state_rel_same; rewrite ?Ht; try done; rewrite <-Ht;
    by apply body_frame_marker.
Qed.

Lemma class_rel_body_frame t t' : body_frame t t' -> class_rel t -> class_rel t'.
Proof. intros [_ (m & md & h & e & o & fo & ft & ->)]. by apply class_rel_same. Qed.

(** ** A dropped transaction *)

Lemma sync_rel_rollback t t' l bs ds : files_grow t t' -> sync_rel t l bs ds -> sync_rel (rollback t t') l bs ds.
Proof.
  intros Hg []. split; auto using header_rel_rollback, body_rel_rollback, state_rel_rollback, class_rel_rollback.
Qed.

(** The outcome of a handler: a storage that satisfies [post], or a recoverable error
    with a storage that holds what it held. *)
Definition stores {A} (post : StorageTxn -> Prop) (l : HeaderChain) (bs : BodyChain) (ds : list ThinStateDiff)
    (r : res StorageTxn StateSyncError A) : Prop :=
  match r with
  | Done t' _ => post t'
  | Fail t' e => is_recoverable e = true /\ sync_rel t' l bs ds
  | Panic => False
  end.

Lemma rw_txn_stores {A} (m : Txn A) post t l bs ds :
  sync_rel t l bs ds -> appends_only m ->
  ((exists t' a, m t = Done t' a /\ post t') \/ (exists t' e, m t = Fail t' (StorageError_InnerError e))) ->
  stores post l bs ds (rw_txn (storage_op m) t).
Proof.
  intros Hs Ha Hm. specialize (Ha t). unfold rw_txn, storage_op, map_err.
  destruct Hm as [(t' & a & -> & Hp)|(t' & e & Hm)]; [done|]. rewrite Hm in *. split; [done|]. by apply sync_rel_rollback.
Qed.

Lemma stores_bind {A B} (m : Store A) (k : A -> Store B) (mid post : StorageTxn -> Prop) t l bs ds :
  stores mid l bs ds (m t) -> (forall a t', mid t' -> stores post l bs ds (k a t')) -> stores post l bs ds ((let! a := m in k a) t).
Proof. unfold bind. destruct (m t) as [t' a|t' e|]; [|done|done]. intros Hm Hk. by apply Hk. Qed.

(** ** Blocks *)

Lemma linked_snoc l x :
  linked l -> (forall y, lookup_z l (zlength l - 1) = Some y -> BlockHeader_parent_hash x.1 = hash_of y) -> linked (l ++ [x]).
Proof.
  intros Hl Hx b y z. rewrite !lookup_z_snoc. destruct (Z.eqb_spec b (zlength l)) as [Hb|Hb], (Z.eqb_spec (b + 1) (zlength l)) as [Hb1|Hb1]; try lia.
  - intros _ Hz. apply lookup_z_Some in Hz. lia.
  - intros Hy [= <-]. apply Hx. by replace (zlength l - 1) with b by lia.
  - apply Hl.
Qed.

Lemma get_block_header_store t l b :
  header_rel t l -> 0 <= b < 2 ^ 32 -> ro_txn (storage_op (get_block_header b)) t = Done t (fst <$> lookup_z l b).
Proof. intros Hr Hb. unfold ro_txn, storage_op, map_err. by rewrite (get_block_header_rel _ _ _ Hr Hb). Qed.

Lemma verify_parent_stores t l bs ds block :
  sync_rel t l bs ds -> zlength l < 2 ^ 32 ->
  stores (fun t' => t' = t /\ forall y, lookup_z l (zlength l - 1) = Some y -> BlockHeader_parent_hash (Block_header block) = hash_of y)
    l bs ds (verify_parent_block_hash (zlength l) block t).
Proof.
  intros Hs Hlt. pose proof (zlength_nonneg l) as H0. unfold verify_parent_block_hash. rewrite bn_prev_small by lia.
  destruct (Z.eqb_spec (zlength l) 0) as [He|Hne].
  { split; [done|]. intros y Hy. apply lookup_z_Some in Hy. lia. }
  rewrite (bind_step _ _ _ _ _ (get_block_header_store _ _ (zlength l - 1) (ss_headers _ _ _ _ Hs) ltac:(lia))).
  destruct (proj2 (lookup_z_is_Some l (zlength l - 1)) ltac:(lia)) as [y Hy]. rewrite Hy. cbn [fmap option_fmap option_map ok_or_raise].
  rewrite bind_ret. destruct (Z.eqb_spec (BlockHeader_block_hash y.1) (BlockHeader_parent_hash (Block_header block))) as [Hh|]; cbn [negb].
  - split; [done|]. intros y' [= <-]. by rewrite <-Hh.
  - by split.
Qed.

Lemma append_block_done t l bs ds block s :
  sync_rel t l bs ds -> zlength l < 2 ^ 32 - 1 -> well_formed_body (Block_body block) -> has_room t (Block_body block) ->
  (forall y, lookup_z l (zlength l - 1) = Some y -> BlockHeader_parent_hash (Block_header block) = hash_of y) ->
  let m := append_header (zlength l) (Block_header block) ;! append_block_signature (zlength l) s ;!
    append_body (zlength l) (Block_body block) in
  (exists t' u, m t = Done t' u /\ sync_rel t' (l ++ [(Block_header block, Some s)]) (bs ++ [body_items (Block_body block)]) ds) \/
  (exists t' e, m t = Fail t' (StorageError_InnerError e)).
Proof.
  intros Hs Hlt Hwf Hroom Hpar. pose proof Hs as []. cbn zeta.
  assert (Hassoc : (append_header (zlength l) (Block_header block) ;! append_block_signature (zlength l) s ;! append_body (zlength l) (Block_body block)) t =
    ((append_header (zlength l) (Block_header block) ;! append_block_signature (zlength l) s) ;! append_body (zlength l) (Block_body block)) t)
    by (by rewrite bind_assoc).
  rewrite Hassoc. clear Hassoc.
  destruct (append_signed_header_at t l (Block_header block) s) as [(Hh & t1 & Hw & Hr1 & Hnd1 & Hf)|(_ & t1 & Hw)]; [done|done|lia|..].
  2: { right. exists t1. eexists. unfold bind at 1. by rewrite Hw. }
  rewrite (bind_step _ _ _ _ _ Hw). pose proof (zlength_nonneg l) as Hl0.
  assert (Hroom1 : has_room t1 (Block_body block)) by (destruct Hf as [_ (mk & hs & hh & vs & sg & ->)]; exact Hroom).
  pose proof (append_body_rel t1 bs (zlength l) (Block_body block) (body_rel_header_frame _ _ _ Hf ss_bodies0) ss_transactions0
    ltac:(lia) Hwf Hroom1) as Hb. unfold append_body_spec in Hb. rewrite ss_lengths0, Z.eqb_refl in Hb. cbn [negb] in Hb.
  case_decide as Hd; [|right; destruct Hb as (t2 & Hb); eauto]. destruct Hb as (t2 & Hb & Hr2 & Hnd2 & Hf2 & _).
  left. exists t2, tt. split; [done|]. split; try done.
  - by eapply header_rel_body_frame.
  - apply linked_snoc; [done|exact Hpar].
  - apply Forall_app. split; [done|]. constructor; [by eexists|done].
  - rewrite !zlength_snoc. lia.
  - by eapply state_rel_body_frame, state_rel_header_frame.
  - rewrite zlength_snoc. lia.
  - by eapply class_rel_body_frame, class_rel_header_frame.
  - by rewrite (body_frame_marker _ _ _ Hf2), (header_frame_marker _ _ _ Hf).
  - rewrite (body_frame_marker _ _ _ Hf2), (header_frame_marker _ _ _ Hf), zlength_snoc by done. lia.
Qed.

(** What [store_block] does up to the measurement of the age of the block. *)
Definition commit_block (block_number : Z) (block : Block) (s : Signature) : Store unit :=
  verify_parent_block_hash block_number block ;!
  rw_txn (storage_op (append_header block_number (Block_header block) ;! append_block_signature block_number s ;!
    append_body block_number (Block_body block))).

Lemma store_block_commit b block s t :
  store_block b block s t = (commit_block b block s ;! assert_ (timestamp_opt_single (as_i64 (BlockHeader_timestamp (Block_header block))))) t.
Proof. unfold commit_block. by rewrite bind_assoc. Qed.

Lemma commit_block_stores t l bs ds block s :
  sync_rel t l bs ds -> zlength l < 2 ^ 32 - 1 -> well_formed_body (Block_body block) -> has_room t (Block_body block) ->
  stores (fun t' => sync_rel t' (l ++ [(Block_header block, Some s)]) (bs ++ [body_items (Block_body block)]) ds) l bs ds
    (commit_block (zlength l) block s t).
Proof.
  intros Hs Hlt Hwf Hroom. unfold commit_block. eapply stores_bind; [by apply verify_parent_stores; [|lia]|].
  intros _ t0 [-> Hpar]. eapply rw_txn_stores; [done| |by apply append_block_done].
  apply appends_only_bind; [apply append_header_appends|intros _].
  apply appends_only_bind; [apply append_block_signature_appends|intros _; apply append_body_appends].
Qed.

Lemma store_block_stores t l bs ds block s :
  sync_rel t l bs ds -> zlength l < 2 ^ 32 - 1 -> well_formed_body (Block_body block) -> has_room t (Block_body block) ->
  timestamp_opt_single (as_i64 (BlockHeader_timestamp (Block_header block))) = true ->
  stores (fun t' => sync_rel t' (l ++ [(Block_header block, Some s)]) (bs ++ [body_items (Block_body block)]) ds) l bs ds
    (store_block (zlength l) block s t).
Proof.
  intros Hs Hlt Hwf Hroom Hts. rewrite store_block_commit, Hts. eapply stores_bind; [by apply commit_block_stores|done].
Qed.

(** A block whose timestamp is not a time is committed like any other, and then panics. *)
Lemma store_block_late t l bs ds block s :
  sync_rel t l bs ds -> zlength l < 2 ^ 32 - 1 -> well_formed_body (Block_body block) -> has_room t (Block_body block) ->
  timestamp_opt_single (as_i64 (BlockHeader_timestamp (Block_header block))) = false ->
  store_block (zlength l) block s t = Panic \/ stores (fun _ => False) l bs ds (store_block (zlength l) block s t).
Proof.
  intros Hs Hlt Hwf Hroom Hts. rewrite store_block_commit, Hts.
  pose proof (commit_block_stores t l bs ds block s Hs Hlt Hwf Hroom) as Hc. unfold bind.
  destruct (commit_block (zlength l) block s t) as [t1 []|t1 e|]; [by left|by right|done].
Qed.

(** ** State diffs *)

(** The thin state diff of a state diff and its classes. *)
Definition thin_of (sd : StateDiff) : ThinStateDiff := (from_state_diff sd).1.1.
Definition classes_of (sd : StateDiff) : list (Z * ContractClass) := (from_state_diff sd).1.2.
Definition deprecated_classes_of (sd : StateDiff) : list (Z * DeprecatedContractClass) := (from_state_diff sd).2.

(** The index maps of a state diff have no repeated keys, and a contract is not both
    deployed and replaced. *)
Record state_diff_ok (sd : StateDiff) (defs : list (Z * DeprecatedContractClass)) : Prop := {
  so_deployed : NoDup (StateDiff_deployed_contracts sd).*1;
  so_storage : NoDup (StateDiff_storage_diffs sd).*1;
  so_entries : Forall (fun ae => NoDup ae.2.*1) (StateDiff_storage_diffs sd);
  so_declared : NoDup (StateDiff_declared_classes sd).*1;
  so_nonces : NoDup (StateDiff_nonces sd).*1;
  so_replaced : NoDup (StateDiff_replaced_classes sd).*1;
  so_disjoint : forall a, a ∈ (StateDiff_deployed_contracts sd).*1 -> a ∉ (StateDiff_replaced_classes sd).*1;
  so_deprecated : NoDup ((StateDiff_deprecated_declared_classes sd).*1 ++ defs.*1)
}.

Lemma fst_prod_map {A B C} (f : B -> C) (l : list (A * B)) : (prod_map id f <$> l).*1 = l.*1.
Proof. rewrite <-list_fmap_compose. apply list_fmap_ext. by intros i [a b]. Qed.

Lemma thin_of_ok sd defs : state_diff_ok sd defs ->
  diff_ok (thin_of sd) /\ NoDup (classes_of sd).*1 /\ NoDup (deprecated_classes_of sd ++ defs).*1.
Proof.
  intros []. unfold thin_of, classes_of, deprecated_classes_of. pose proof (from_state_diff_spec sd) as Hsp.
  destruct (from_state_diff sd) as [[thin cs] dcs]. destruct Hsp as (E1 & E2 & E3 & E4 & E5 & E6 & -> & ->). cbn [fst snd].
  split_and!; [split; rewrite ?E1, ?E2, ?E3, ?E4, ?E5, ?E6; try done; by rewrite fst_prod_map|by rewrite fst_prod_map|by rewrite fmap_app].
Qed.

(** The files have room for a state diff with its classes. *)
Definition state_diff_fits (t : StorageTxn) (sd : StateDiff) (defs : list (Z * DeprecatedContractClass)) : Prop :=
  storable (thin_of sd) /\ is_Some (file_append (t_thin_state_diff_file t) (thin_of sd)) /\
  fits (t_contract_class_file t) (classes_of sd).*2 /\
  fits (t_deprecated_contract_class_file t) (missing t (deprecated_classes_of sd ++ defs)).*2.

(** [append_classes] at the marker: it succeeds, or a class was stored before. *)
Lemma append_classes_outcome t b cs dcs :
  class_rel t -> marker MarkerKind_Class t = b -> 0 <= b < 2 ^ 32 -> NoDup cs.*1 -> NoDup dcs.*1 ->
  fits (t_contract_class_file t) cs.*2 -> fits (t_deprecated_contract_class_file t) (missing t dcs).*2 ->
  (exists t', append_classes b cs dcs t = Done t' tt /\ class_rel t' /\
     exists f f' table table' offsets, t' = set_markers (tbl_upsert (t_markers t) MarkerKind_Class (b + 1))
       (set_file_offsets offsets (set_deprecated_declared_classes table' (set_deprecated_contract_class_file f'
         (set_declared_classes table (set_contract_class_file f t)))))) \/
  (exists t', append_classes b cs dcs t = Fail t' (StorageError_InnerError DbError_KeyAlreadyExists)).
Proof.
  intros Hr Hm Hb Hnd Hnd' Hf Hf'. unfold append_classes, get_marker. run_txn. unfold tbl_get.
  change (default 0 (t_markers t !! MarkerKind_Class)) with (marker MarkerKind_Class t). rewrite Hm, Z.eqb_refl. cbn [negb].
  destruct (decide (Forall (fun h => t_declared_classes t !! h = None) cs.*1)) as [Hno|Hno]; rewrite Forall_forall in Hno.
  - left. destruct (write_classes_done cs t) as (t1 & Hrun1 & Hr1 & (f & tb & offs & Ht1) & _); [done..|].
    rewrite (bind_step _ _ _ _ _ Hrun1).
    destruct (write_deprecated_classes_done dcs b t1) as (t2 & Hrun2 & Hr2 & (f2 & tb2 & offs2 & Ht2) & _); [done|done|by rewrite Ht1|].
    rewrite (bind_step _ _ _ _ _ Hrun2). unfold upsert_marker, modify. rewrite bn_unchecked_next_small by lia.
    eexists. split; [done|]. split; [by destruct Hr2; split|]. exists f, f2, tb, tb2, offs2. by rewrite Ht2, Ht1.
  - right. destruct (write_classes_conflict cs t Hno Hf) as (t1 & Hrun). exists t1. unfold bind. by rewrite Hrun.
Qed.

(** The relations after the two writers. *)
Lemma append_diff_with_classes t l bs ds thin cs dcs :
  sync_rel t l bs ds -> zlength ds < zlength l -> zlength l < 2 ^ 32 - 1 -> diff_ok thin -> storable thin ->
  is_Some (file_append (t_thin_state_diff_file t) thin) -> NoDup cs.*1 -> NoDup dcs.*1 ->
  fits (t_contract_class_file t) cs.*2 -> fits (t_deprecated_contract_class_file t) (missing t dcs).*2 ->
  let m := append_state_diff (zlength ds) thin ;! append_classes (zlength ds) cs dcs in
  (exists t' u, m t = Done t' u /\ sync_rel t' l bs (ds ++ [thin])) \/ (exists t' e, m t = Fail t' (StorageError_InnerError e)).
Proof.
  intros Hs Hlt Hlen Hok Hst [[f loc] Happ] Hnd Hnd' Hf Hf'. pose proof Hs as []. pose proof (zlength_nonneg ds) as H0. cbn zeta.
  destruct (decide (Forall (fun h => t_declared_classes_block t !! h = None) (ThinStateDiff_declared_classes thin).*1)) as [Hfr|Hfr].
  all: rewrite Forall_forall in Hfr.
  2: { right. destruct (append_state_diff_conflict t ds thin) as (t1 & Hrun); [done..|]. do 2 eexists. unfold bind. by rewrite Hrun. }
  destruct (append_state_diff_done t ds thin f loc) as (t1 & Hrun1 & Hmv); [done|done|done|lia|done|done|].
  rewrite (bind_step _ _ _ _ _ Hrun1). pose proof (sr_casm_marker _ _ ss_state0) as Hcm.
  pose proof (next_declaring_bound (ds ++ [thin]) (marker MarkerKind_CompiledClass t)) as Hn. rewrite zlength_snoc in Hn.
  assert (Hr1 : state_rel t1 (ds ++ [thin])).
  { eapply state_rel_casm_moved; [exact Hmv| |by apply state_rel_appended]. rewrite zlength_snoc. lia. }
  destruct Hmv as (mk & Ht1 & _ & Hother).
  assert (Hmark : forall kind, kind <> MarkerKind_CompiledClass -> kind <> MarkerKind_State -> marker kind t1 = marker kind t).
  { intros kind H1 H2. rewrite Hother by done. rewrite marker_with_diff. case_decide; [congruence|done]. }
  assert (Hc1 : class_rel t1) by (rewrite Ht1; by eapply class_rel_same, ss_classes0).
  destruct (append_classes_outcome t1 (zlength ds) cs dcs) as [(t2 & Hrun2 & Hc2 & g & g' & tb & tb' & offs & Ht2)|(t2 & Hrun2)];
    try done; try lia; [by rewrite Hmark|by rewrite Ht1|by rewrite Ht1| |right; eauto].
  left. exists t2, tt. split; [done|].
  assert (Hmark2 : forall kind, kind <> MarkerKind_Class -> marker kind t2 = marker kind t1).
  { intros kind Hk. rewrite Ht2. unfold marker, tbl_upsert. txn_simpl. by rewrite lookup_insert_ne. }
  split; try done.
  - eapply header_rel_same, ss_headers0; rewrite ?Hmark2, ?Hmark by done; rewrite ?Ht2, ?Ht1; done.
  - eapply body_rel_same, ss_bodies0; rewrite ?Hmark2, ?Hmark by done; rewrite ?Ht2, ?Ht1; done.
  - eapply state_rel_same, Hr1; rewrite ?Hmark2 by done; rewrite ?Ht2; done.
  - apply Forall_app. split; [done|]. by constructor.
  - rewrite zlength_snoc. lia.
  - rewrite Ht2. unfold marker, tbl_upsert. txn_simpl. by rewrite lookup_insert_eq, zlength_snoc.
  - by rewrite Hmark2, Hmark by done.
Qed.

Lemma store_state_diff_stores t l bs ds sd defs :
  sync_rel t l bs ds -> zlength ds < zlength l -> zlength l < 2 ^ 32 - 1 -> state_diff_ok sd defs -> state_diff_fits t sd defs ->
  stores (fun t' => sync_rel t' l bs (ds ++ [thin_of sd])) l bs ds (store_state_diff (zlength ds) sd defs t).
Proof.
  intros Hs Hlt Hlen Hok (F1 & F2 & F3 & F4). destruct (thin_of_ok _ _ Hok) as (Hd & Hnd & Hnd').
  unfold store_state_diff, thin_of, classes_of, deprecated_classes_of in *. destruct (from_state_diff sd) as [[thin cs] dcs]. cbn [fst snd] in *.
  eapply stores_bind; [|intros _ t' Hs'; exact Hs']. eapply rw_txn_stores; [done| |by apply append_diff_with_classes].
  apply appends_only_bind; [apply append_state_diff_appends|intros _; apply append_classes_appends].
Qed.

(** ** Compiled classes and the base layer *)

Lemma store_compiled_class_stores t l bs ds h casm :
  sync_rel t l bs ds -> zlength l < 2 ^ 32 -> storable casm -> is_Some (file_append (t_casm_file t) casm) ->
  stores (fun t' => sync_rel t' l bs ds) l bs ds (store_compiled_class h casm t).
Proof.
  intros Hs Hlt Hst Happ. pose proof Hs as []. unfold store_compiled_class.
  destruct (t_casms t !! h) eqn:Hh.
  - destruct (append_casm_conflict t h casm) as (t' & Hrun); [by rewrite Hh|done|]. pose proof (append_casm_appends h casm t) as Hg.
    rewrite Hrun in *. by apply sync_rel_rollback.
  - destruct Happ as [[f loc] Happ].
    destruct (append_casm_done t ds h casm f loc) as (t' & Hrun & Hr' & Hc' & Hm & Hmark & _ & f' & tb & offs & mk & Ht'); [done|done|lia|done..|].
    rewrite Hrun. change (sync_rel t' l bs ds). split; try done.
    + eapply header_rel_same, ss_headers0; [by apply Hmark|rewrite Ht'; done..].
    + eapply body_rel_same, ss_bodies0; [rewrite Ht'; done..|by apply Hmark|by apply Hmark].
    + by rewrite Hmark.
    + by rewrite Hmark.
Qed.

(** A storage with another base layer marker. *)
Lemma sync_rel_base_layer t l bs ds n :
  sync_rel t l bs ds -> 0 <= n <= zlength l ->
  sync_rel (set_markers (tbl_upsert (t_markers t) MarkerKind_BaseLayerBlock n) t) l bs ds.
Proof.
  intros [] Hn. assert (Hm : forall kind, kind <> MarkerKind_BaseLayerBlock ->
    marker kind (set_markers (tbl_upsert (t_markers t) MarkerKind_BaseLayerBlock n) t) = marker kind t).
  { intros kind Hk. rewrite marker_upsert. case_decide; [congruence|done]. }
  split; try done.
  - eapply header_rel_same, ss_headers0; [by apply Hm|done..].
  - eapply body_rel_same, ss_bodies0; [done..|by apply Hm|by apply Hm].
  - eapply state_rel_same, ss_state0; [by apply Hm|by apply Hm|done..].
  - by eapply class_rel_same, ss_classes0.
  - by rewrite Hm.
  - by rewrite marker_upsert, decide_True.
Qed.

Lemma store_base_layer_block_stores t l bs ds n h :
  sync_rel t l bs ds -> zlength l < 2 ^ 32 -> 0 <= n < 2 ^ 32 ->
  stores (fun t' => sync_rel t' l bs ds) l bs ds (store_base_layer_block n h t).
Proof.
  intros Hs Hlt Hn. pose proof Hs as []. unfold store_base_layer_block, rw_txn, storage_op, map_err.
  unfold bind at 1. rewrite (get_block_header_rel _ _ _ ss_headers0 Hn).
  assert (Hdrop : sync_rel (rollback t t) l bs ds) by (apply sync_rel_rollback; [reflexivity|done]).
  destruct (lookup_z l n) as [y|] eqn:Hy; cbn [fmap option_fmap option_map ok_or_raise]; [|by split].
  unfold bind at 1. unfold ret at 1. destruct (Z.eqb_spec (BlockHeader_block_hash y.1) h); cbn [negb]; [|by split].
  unfold bind at 1, get_base_layer_block_marker, get_marker. cbn. rewrite bn_unchecked_next_small by lia.
  apply lookup_z_Some in Hy. destruct (negb _); cbn; [apply sync_rel_base_layer; [done|lia]|done].
Qed.

(** ** Reverts *)

Lemma linked_prefix l x : linked (l ++ [x]) -> linked l.
Proof.
  intros Hl b y z Hy Hz. apply (Hl b); rewrite lookup_z_snoc; apply lookup_z_Some in Hy as ?; apply lookup_z_Some in Hz as ?;
    by rewrite (proj2 (Z.eqb_neq _ _)) by lia.
Qed.

Lemma revert_base_layer_done t l x bs ds :
  sync_rel t (l ++ [x]) bs ds -> zlength l < 2 ^ 32 - 1 ->
  exists t1, try_revert_base_layer_marker (zlength l) t = Done t1 tt /\ sync_rel t1 (l ++ [x]) bs ds /\
    0 <= marker MarkerKind_BaseLayerBlock t1 <= zlength l.
Proof.
  intros Hs Hlt. pose proof (zlength_nonneg l) as H0.
  unfold try_revert_base_layer_marker, get_base_layer_block_marker, get_marker. run_txn. rewrite bn_unchecked_next_small by lia.
  change (default 0 (tbl_get (t_markers t) MarkerKind_BaseLayerBlock)) with (marker MarkerKind_BaseLayerBlock t).
  pose proof (ss_base_layer _ _ _ _ Hs) as Hm. rewrite zlength_snoc in Hm. case_cmp.
  - eexists. split; [done|]. split; [apply sync_rel_base_layer; [done|rewrite zlength_snoc; lia]|].
    rewrite marker_upsert, decide_True by done. lia.
  - exists t. split; [done|]. split; [done|lia].
Qed.

(** The state diff of a block whose header and body were reverted. *)
Lemma revert_state_part t l bs ds :
  (forall ds', state_rel t ds' -> Forall diff_ok ds' -> zlength ds' <= zlength l -> marker MarkerKind_Class t = zlength ds' -> sync_rel t l bs ds') ->
  header_rel t l -> NoDup (hash_of <$> l) -> linked l -> signed l ->
  body_rel t bs -> NoDup (chain_hashes bs) -> zlength bs = zlength l ->
  state_rel t ds -> Forall diff_ok ds -> class_rel t -> marker MarkerKind_Class t = zlength ds ->
  0 <= marker MarkerKind_BaseLayerBlock t <= zlength l -> zlength ds <= zlength l + 1 -> zlength l < 2 ^ 32 - 1 ->
  exists t' r, revert_state_diff (zlength l) t = Done t' r /\ sync_rel t' l bs (take (length l) ds).
Proof.
  intros Hkeep Hh Hnd Hl Hsg Hb Hnb Hlen Hst Hds Hc Hcm Hbm Hord Hlt. pose proof (zlength_nonneg l) as H0.
  destruct (decide (zlength ds = zlength l + 1)) as [He|Hne].
  - destruct ds as [|d ds _] using rev_ind; [unfold zlength in *; cbn in *; lia|].
    apply Forall_app in Hds as [Hds Hd]. rewrite Forall_singleton in Hd. rewrite zlength_snoc in *.
    destruct (revert_state_diff_done t ds d) as (t4 & cl & dep & ca & rest & mk & Hrun & Ht4 & Hm & Hcl & _); [done|done|done|lia|].
    exists t4. replace (zlength l) with (zlength ds) by lia. rewrite Hrun. eexists. split; [done|].
    replace (take (length l) (ds ++ [d])) with ds.
    2: { rewrite take_app_le by (unfold zlength in *; lia). symmetry. apply take_ge. unfold zlength in *; lia. }
    assert (Hst4 : state_rel t4 ds).
    { rewrite Ht4 in *. apply revert_state_rel; [done|done|done|apply (Hm MarkerKind_State)|apply (Hm MarkerKind_CompiledClass)]. }
    split; try done; try lia.
    + eapply header_rel_same; [..|exact Hh]; [by rewrite (Hm MarkerKind_Header)|by rewrite Ht4..].
    + eapply body_rel_same; [..|exact Hb]; [by rewrite Ht4..|by rewrite (Hm MarkerKind_Body)|by rewrite (Hm MarkerKind_Event)].
    + rewrite Ht4. by apply class_rel_deleted.
    + rewrite (Hm MarkerKind_Class), Hcm. unfold marker_back. case_cmp; lia.
    + rewrite (Hm MarkerKind_BaseLayerBlock). lia.
  - exists t. replace (take (length l) ds) with ds by (symmetry; apply take_ge; unfold zlength in *; lia).
    eexists. split; [|apply Hkeep; try done; lia]. unfold revert_state_diff, get_state_marker, get_marker. run_txn.
    change (default 0 (tbl_get (t_markers t) MarkerKind_State)) with (marker MarkerKind_State t).
    rewrite bn_next_small, (sr_marker _ _ Hst) by lia. by rewrite (proj2 (Z.eqb_neq _ _)) by lia.
Qed.

(** The revert of the last block succeeds and removes it, its body and, if it was
    stored, its state diff. *)
Lemma revert_block_done t l x bs ds :
  sync_rel t (l ++ [x]) bs ds -> zlength l < 2 ^ 32 - 1 ->
  exists t', revert_block (zlength l) t = Done t' tt /\
    sync_rel t' l (take (length l) bs) (take (length l) ds).
Proof.
  intros Hs Hlt. pose proof (zlength_nonneg l) as H0. unfold revert_block, rw_txn, storage_op, map_err.
  destruct (revert_base_layer_done _ _ _ _ _ Hs Hlt) as (t1 & Hb & Hs1 & Hbm). clear Hs. pose proof Hs1 as []. destruct x as [h s].
  assert (Hh : exists t2, revert_header (zlength l) t1 = Done t2 (Some h, s) /\ header_rel t2 l /\ NoDup (hash_of <$> l) /\ header_frame t1 t2).
  { pose proof (revert_refines t1 (l ++ [(h, s)]) (zlength l) ss_headers0 ss_hashes0) as Hr. unfold refines_header in Hr.
    cbn [header_spec run_header_op] in Hr. rewrite last_snoc, zlength_snoc, Z.eqb_refl, removelast_last in Hr. apply Hr; lia. }
  destruct Hh as (t2 & Hh & Hr2 & Hnd2 & Hf2). apply linked_prefix in ss_linked0. apply Forall_app in ss_signed0 as [Hsg _].
  rewrite zlength_snoc in *. destruct bs as [|body bs _] using rev_ind; [unfold zlength in *; cbn in *; lia|].
  rewrite zlength_snoc in ss_lengths0.
  destruct (revert_body_rel t2 (bs ++ [body]) (zlength l)) as (t3 & Hbody & Hr3 & Hnd3 & Hf3 & _);
    [by eapply body_rel_header_frame|done|rewrite zlength_snoc; lia|lia|].
  unfold revert_body_spec in *. rewrite last_snoc, zlength_snoc in *. rewrite (proj2 (Z.eqb_eq _ _)) in * by lia.
  rewrite removelast_last in *. cbn [fst snd] in *.
  assert (Hmark3 : forall kind, kind <> MarkerKind_Header -> kind <> MarkerKind_Body -> kind <> MarkerKind_Event -> marker kind t3 = marker kind t1).
  { intros kind K1 K2 K3. by rewrite (body_frame_marker _ _ _ Hf3), (header_frame_marker _ _ _ Hf2). }
  assert (Hh3 : header_rel t3 l) by (by eapply header_rel_body_frame).
  assert (Hst3 : state_rel t3 ds) by (by eapply state_rel_body_frame, state_rel_header_frame).
  assert (Hc3 : class_rel t3) by (by eapply class_rel_body_frame, class_rel_header_frame).
  assert (Hbs : take (length l) (bs ++ [body]) = bs).
  { rewrite take_app_le by (unfold zlength in *; lia). apply take_ge. unfold zlength in *; lia. }
  destruct (revert_state_part t3 l bs ds) as (t4 & r & Hrun & Hs4); rewrite ?Hmark3 by done; try done; try lia.
  { intros ds' K1 K2 K3 K4. split; try done; rewrite ?Hmark3 by done; done || lia. }
  exists t4. rewrite Hbs. split; [|done]. unfold bind at 1. rewrite Hb. unfold bind at 1. rewrite Hh. unfold bind at 1. rewrite Hbody.
  by rewrite (bind_step _ _ _ _ _ Hrun).
Qed.

(** ** The loop over the blocks to revert *)

(** The central source has another block, or none, at the place of [x]. *)
Definition disagrees (central_hash : Z -> option Z + CentralError) (b : nat) (x : BlockHeader * option Signature) : Prop :=
  exists answer, central_hash (Z.of_nat b) = inl answer /\ answer <> Some (hash_of x).

(** The outcome on a chain [l]: its first [n] blocks remain, and the source was asked
    about each of the removed ones. *)
Definition reverted (central_hash : Z -> option Z + CentralError) (l : HeaderChain) (bs : BodyChain) (ds : list ThinStateDiff)
    (r : res StorageTxn StateSyncError unit) : Prop :=
  exists n : nat, (n <= length l)%nat /\
    (forall (b : nat) x, (n <= b)%nat -> l !! b = Some x -> disagrees central_hash b x) /\
    match r with
    | Done t' _ => sync_rel t' (take n l) (take n bs) (take n ds) /\
        (forall x, last (take n l) = Some x -> central_hash (Z.of_nat n - 1) = inl (Some (hash_of x)))
    | Fail t' e => sync_rel t' (take n l) (take n bs) (take n ds) /\ n <> O /\
        exists ce, central_hash (Z.of_nat n - 1) = inr ce /\ e = StateSyncError_CentralSourceError ce
    | Panic => False
    end.

Lemma should_revert_block_done central_hash answer t l b x :
  header_rel t l -> central_hash b = inl answer -> lookup_z l b = Some x -> 0 <= b < 2 ^ 32 ->
  should_revert_block (central_hash b) b t = Done t (bool_decide (answer <> Some (hash_of x))).
Proof.
  intros Hr Ha Hx Hb. unfold should_revert_block. rewrite Ha. destruct answer as [h|].
  - rewrite (bind_step _ _ _ _ _ (get_block_header_store _ _ _ Hr Hb)), Hx. cbn [fmap option_fmap option_map]. unfold ret. f_equal.
    unfold hash_of. destruct (Z.eqb_spec (BlockHeader_block_hash x.1) h) as [Hh|Hh]; cbn [negb].
    + symmetry. apply bool_decide_eq_false. intros Hn. apply Hn. by rewrite Hh.
    + symmetry. apply bool_decide_eq_true. congruence.
  - done.
Qed.

Lemma revert_blocks_reverted central_hash l : forall t bs ds,
  sync_rel t l bs ds -> zlength l < 2 ^ 32 ->
  reverted central_hash l bs ds (revert_blocks (length l) central_hash (bn_prev (zlength l)) t).
Proof.
  induction l as [|x l IH] using rev_ind; intros t bs ds Hs Hlt.
  { exists O. pose proof (ss_lengths _ _ _ _ Hs). pose proof (ss_order _ _ _ _ Hs). destruct bs, ds; unfold zlength in *; cbn in *; try lia.
    split; [lia|]. split; [done|]. rewrite bn_prev_small by lia. by split. }
  pose proof (zlength_nonneg l) as H0. rewrite zlength_snoc in *. rewrite bn_prev_small by lia.
  destruct (Z.eqb_spec (zlength l + 1) 0) as [?|_]; [lia|]. replace (zlength l + 1 - 1) with (zlength l) by lia.
  rewrite length_app, Nat.add_1_r. cbn [revert_blocks].
  assert (Hall : forall (n : nat), n = S (length l) -> take n (l ++ [x]) = l ++ [x] /\ take n bs = bs /\ take n ds = ds).
  { intros n ->. pose proof (ss_lengths _ _ _ _ Hs). pose proof (ss_order _ _ _ _ Hs). unfold zlength in *. rewrite length_app in *.
    cbn in *. rewrite !take_ge; [done|lia|lia|]. rewrite length_app. cbn. lia. }
  assert (Hx : lookup_z (l ++ [x]) (zlength l) = Some x) by (by rewrite lookup_z_snoc, Z.eqb_refl).
  assert (Hend : forall (b : nat) y, (S (length l) <= b)%nat -> (l ++ [x]) !! b = Some y -> disagrees central_hash b y).
  { intros b y Hb Hy. apply lookup_lt_Some in Hy. rewrite length_app in Hy. cbn in Hy. lia. }
  destruct (central_hash (zlength l)) as [answer|ce] eqn:Hc.
  2: { unfold should_revert_block. exists (S (length l)). rewrite length_app. destruct (Hall _ eq_refl) as (-> & -> & ->).
    split; [cbn; lia|]. split; [done|]. unfold bind, raise. split; [done|]. split; [done|]. exists ce. split; [|done].
    by replace (Z.of_nat (S (length l)) - 1) with (zlength l) by (unfold zlength; lia). }
  pose proof (should_revert_block_done central_hash _ _ _ _ _ (ss_headers _ _ _ _ Hs) Hc Hx ltac:(lia)) as Hrun. rewrite Hc in Hrun.
  rewrite (bind_step _ _ _ _ _ Hrun). destruct (bool_decide_reflect (answer <> Some (hash_of x))) as [Hd|Hd].
  - destruct (revert_block_done _ _ _ _ _ Hs ltac:(lia)) as (t' & Hrev & Hs'). rewrite (bind_step _ _ _ _ _ Hrev).
    destruct (IH _ _ _ Hs' ltac:(lia)) as (n & Hn & Hdis & Hr). exists n. rewrite length_app. split; [cbn; lia|]. split.
    + intros b y Hb Hy. destruct (decide (b < length l)%nat) as [Hlb|Hlb].
      * rewrite lookup_app_l in Hy by lia. by apply Hdis.
      * rewrite lookup_app_r in Hy by lia. destruct (b - length l)%nat eqn:He; [|done]. cbn in Hy. injection Hy as <-.
        exists answer. split; [|done]. rewrite <-Hc. f_equal. unfold zlength. lia.
    + rewrite take_app_le by lia. rewrite !take_take, !Nat.min_l in Hr by lia. done.
  - exists (S (length l)). rewrite length_app. destruct (Hall _ eq_refl) as (-> & -> & ->).
    split; [cbn; lia|]. split; [done|]. unfold ret. split; [done|]. rewrite last_snoc. intros y [= <-].
    replace (Z.of_nat (S (length l)) - 1) with (zlength l) by (unfold zlength; lia). rewrite Hc. f_equal.
    destruct (decide (answer = Some (hash_of x))); [done|contradiction].
Qed.

Lemma handle_block_reverts_reverted central_hash t l bs ds :
  sync_rel t l bs ds -> zlength l < 2 ^ 32 -> reverted central_hash l bs ds (handle_block_reverts central_hash t).
Proof.
  intros Hs Hlt. unfold handle_block_reverts.
  assert (Hm : ro_txn (storage_op get_header_marker) t = Done t (zlength l)).
  { unfold ro_txn, storage_op, map_err. by rewrite (get_header_marker_rel _ _ (ss_headers _ _ _ _ Hs)). }
  rewrite (bind_step _ _ _ _ _ Hm). replace (Z.to_nat (zlength l)) with (length l) by (unfold zlength; lia).
  by apply revert_blocks_reverted.
Qed.

End Props.
