(* ===== verification/SyncTheorems.v ===== *)
(** * The synchronisation keeps a consistent storage

    What [handle_block_reverts] leaves is the longest chain that the node and the
    central source share; and in every run of the loop of [Sync.v], whatever the
    sources answer and however the streams interleave, the storage holds a linked
    chain with its bodies and state diffs, no stream panics, and only a new key of the
    sequencer ends the loop. *)

From stdpp Require Import base gmap list sorting strings fin_maps relations.
From Stdlib Require Import ZArith Lia.
From S2P Require Import Prelude StorageTables StarknetTypes StorageTxn Header Body BodyProps State StateProps StateTheorems.
From S2P Require Import ClientObjects PendingSync Sync SyncProps.

Section Theorems.
Context {BN : BlockNumberApi} {SN : StateNumberApi} {X : ExternalTypes} {SF : StorageFiles} {HS : HashSetIter}.
Context {SD : StateDiffApi} {CH : ChronoApi}.

(** ** Reverts *)

(** The chains that end in the same block agree below it: each block names its parent. *)
Lemma linked_agree (l c : HeaderChain) :
  linked l -> linked c ->
  (forall x y, x ∈ l -> y ∈ c -> hash_of x = hash_of y -> BlockHeader_parent_hash x.1 = BlockHeader_parent_hash y.1) ->
  forall k b x y, l !! (b + k)%nat = Some x -> c !! (b + k)%nat = Some y -> hash_of x = hash_of y ->
  exists x' y', l !! b = Some x' /\ c !! b = Some y' /\ hash_of x' = hash_of y'.
Proof.
  intros Hl Hc Hinj k. induction k as [|k IH]; intros b x y Hx Hy He; [rewrite Nat.add_0_r in *; eauto|].
  destruct (IH (S b) x y) as (x1 & y1 & Hx1 & Hy1 & He1); [by rewrite Nat.add_succ_comm..|done|].
  destruct (lookup_lt_is_Some_2 l b) as [x0 Hx0]; [apply lookup_lt_Some in Hx1; lia|].
  destruct (lookup_lt_is_Some_2 c b) as [y0 Hy0]; [apply lookup_lt_Some in Hy1; lia|].
  exists x0, y0. split; [done|]. split; [done|].
  rewrite <-(Hl (Z.of_nat b) x0 x1), <-(Hc (Z.of_nat b) y0 y1).
  - apply Hinj; [by eapply list_elem_of_lookup_2|by eapply list_elem_of_lookup_2|done].
  - by rewrite lookup_z_of_nat.
  - replace (Z.of_nat b + 1) with (Z.of_nat (S b)) by lia. by rewrite lookup_z_of_nat.
  - by rewrite lookup_z_of_nat.
  - replace (Z.of_nat b + 1) with (Z.of_nat (S b)) by lia. by rewrite lookup_z_of_nat.
Qed.

(** Two chains that agree at the last block of the first agree on all of it. *)
Lemma agreed_prefix (l c : HeaderChain) (n : nat) :
  linked l -> linked c ->
  (forall x y, x ∈ l -> y ∈ c -> hash_of x = hash_of y -> BlockHeader_parent_hash x.1 = BlockHeader_parent_hash y.1) ->
  (n <= length l)%nat -> (forall x, last (take n l) = Some x -> hash_of <$> lookup_z c (Z.of_nat n - 1) = Some (hash_of x)) ->
  hash_of <$> take n l = take n (hash_of <$> c).
Proof.
  intros Hl Hc Hinj Hn Hlast. destruct n as [|n]; [done|].
  destruct (lookup_lt_is_Some_2 l n) as [x Hx]; [lia|].
  assert (Hlx : last (take (S n) l) = Some x) by (by rewrite (take_S_r _ _ x Hx), last_snoc).
  specialize (Hlast x Hlx). replace (Z.of_nat (S n) - 1) with (Z.of_nat n) in Hlast by lia. rewrite lookup_z_of_nat in Hlast.
  destruct (c !! n) as [y|] eqn:Hy; [|done]. injection Hlast as He.
  apply list_eq. intros i. rewrite list_lookup_fmap. destruct (decide (i < S n)%nat) as [Hi|Hi].
  - rewrite !lookup_take_lt, list_lookup_fmap by lia.
    destruct (linked_agree l c Hl Hc Hinj (n - i) i x y) as (x' & y' & -> & -> & Hxy); [..|done|].
    1-2: by replace (i + (n - i))%nat with n by lia.
    cbn. by rewrite Hxy.
  - by rewrite !lookup_take_ge by lia.
Qed.

(** C6: [handle_block_reverts], against a central source that answers for a chain of
    its own: it ends without an error, and the storage holds the longest chain that
    the node and the source share, with its bodies and its state diffs. The chains are
    compared from the top only, which is enough as every block names its parent. *)
Theorem reverts_to_common_chain (t : StorageTxn) (l : HeaderChain) (bs : BodyChain) (ds : list ThinStateDiff) (c : HeaderChain) :
  sync_rel t l bs ds -> zlength l < 2 ^ 32 -> linked c ->
  (forall x y, x ∈ l -> y ∈ c -> hash_of x = hash_of y -> BlockHeader_parent_hash x.1 = BlockHeader_parent_hash y.1) ->
  exists t' n, handle_block_reverts (fun b => inl (hash_of <$> lookup_z c b)) t = Done t' tt /\
    sync_rel t' (take n l) (take n bs) (take n ds) /\
    (hash_of <$> take n l) `prefix_of` (hash_of <$> c) /\
    (forall k, k `prefix_of` (hash_of <$> l) -> k `prefix_of` (hash_of <$> c) -> k `prefix_of` (hash_of <$> take n l)).
Proof.
  intros Hs Hlt Hc Hinj. destruct (handle_block_reverts_reverted (fun b => inl (hash_of <$> lookup_z c b)) _ _ _ _ Hs Hlt) as (n & Hn & Hdis & Hr).
  destruct (handle_block_reverts _ t) as [t' []|t' e|]; [|by destruct Hr as (_ & _ & ce & ? & _)|done]. destruct Hr as [Hs' Hlast].
  exists t', n. split; [done|]. split; [done|].
  rewrite (agreed_prefix l c n (ss_linked _ _ _ _ Hs) Hc Hinj Hn) by (intros x Hx; by specialize (Hlast x Hx) as [= ?]).
  split; [apply prefix_take|]. intros k Hkl [k' Hkc]. rewrite Hkc. assert (Hlen : (length k <= n)%nat); [|rewrite take_app_ge by done; by eexists].
  destruct (decide (n < length k)%nat) as [Hgt|]; [exfalso|lia]. destruct Hkl as [k2 Hkl].
  destruct (lookup_lt_is_Some_2 k n Hgt) as [h Hh].
  assert (Hx : (hash_of <$> l) !! n = Some h) by (rewrite Hkl, lookup_app_l; done).
  assert (Hy : (hash_of <$> c) !! n = Some h) by (rewrite Hkc, lookup_app_l; done).
  rewrite list_lookup_fmap in Hx, Hy. destruct (l !! n) as [x|] eqn:Hlx; [|done]. injection Hx as Hx.
  destruct (Hdis n x (le_n n) Hlx) as (a & [= <-] & Hne). rewrite lookup_z_of_nat, Hy in Hne. by rewrite Hx in Hne.
Qed.

(** ** The loop *)

(** The bodies of the central source are well formed, its state diffs have no repeated
    keys. *)
#[local] Instance sound_central : CentralPromise := {|
  block_promise block := well_formed_body (Block_body block);
  state_diff_promise := state_diff_ok;
  pending_promise _ := True
|}.

(** The storage has room for what the streams have next, and for one more header. *)
Record has_capacity (t : StorageTxn) (s : SyncStreams) : Prop := {
  cap_headers : marker MarkerKind_Header t < 2 ^ 32 - 1;
  cap_block : forall b block signature rest, block_stream s = Blocks_Download (inl (b, block, signature) :: rest) ->
    has_room t (Block_body block);
  cap_diff : forall b h sd defs rest, state_diff_stream s = Diffs_Download (inl (b, h, sd, defs) :: rest) ->
    state_diff_fits t (sort_state_diff sd) defs;
  cap_casm : forall h c casm rest, compiled_class_stream s = Casms_Download (inl (h, c, casm) :: rest) ->
    storable casm /\ is_Some (file_append (t_casm_file t) casm)
}.

Definition room_for_next (s : SyncState) : Prop :=
  match s with
  | Sync_Starting n => marker MarkerKind_Header (sync_storage n) < 2 ^ 32 - 1
  | Sync_Running n s => has_capacity (sync_storage n) s
  | _ => True
  end.

(** A step of a storage that is not full. *)
Definition sync_step_with_room (config : SyncConfig) (s s' : SyncState) : Prop := room_for_next s /\ sync_step config s s'.

(** Where the streams stand, for a chain [l] and state diffs [ds] in the storage. *)
Definition blocks_stream_at (l : HeaderChain) (st : BlocksStream) : Prop :=
  match st with
  | Blocks_Loop => True
  | Blocks_Pending p => Task_PendingData ∈ loop_tasks p
  | Blocks_Download items => exists up_to, blocks_in_order (zlength l) up_to items
  end.

Definition diffs_stream_at (l : HeaderChain) (ds : list ThinStateDiff) (st : DiffsStream) : Prop :=
  match st with
  | Diffs_Loop => True
  | Diffs_Download items => exists up_to, up_to <= zlength l /\ diffs_in_order (zlength ds) up_to items
  end.

Definition base_layer_stream_at (l : HeaderChain) (st : BaseLayerStream) : Prop :=
  match st with BaseLayer_Sleep => True | BaseLayer_Ask header_marker => header_marker <= zlength l end.

Record streams_at (l : HeaderChain) (ds : list ThinStateDiff) (s : SyncStreams) : Prop := {
  at_blocks : blocks_stream_at l (block_stream s);
  at_diffs : diffs_stream_at l ds (state_diff_stream s);
  at_base_layer : base_layer_stream_at l (base_layer_block_stream s)
}.

Definition consistent (n : GenericStateSync) : Prop := exists l bs ds, sync_rel (sync_storage n) l bs ds.

Definition sync_inv (s : SyncState) : Prop :=
  match s with
  | Sync_Starting n => consistent n
  | Sync_Running n s => exists l bs ds, sync_rel (sync_storage n) l bs ds /\ streams_at l ds s
  | Sync_Ended n e => consistent n /\ exists old new, e = StateSyncError_SequencerPubKeyChanged old new
  | Sync_Panicked => False
  end.

(** The outcome of a part of the loop. *)
Definition goes_on {A} (post : GenericStateSync -> A -> Prop) (r : res GenericStateSync StateSyncError A) : Prop :=
  match r with
  | Done n a => post n a
  | Fail n e => consistent n /\ (is_recoverable e = true \/ exists old new, e = StateSyncError_SequencerPubKeyChanged old new)
  | Panic => False
  end.

Lemma continue_with_inv {A} (r : res GenericStateSync StateSyncError A) k :
  goes_on (fun n a => sync_inv (k n a)) r -> sync_inv (continue_with r k).
Proof.
  destruct r as [n a|n e|]; [done| |done]. intros [Hc He]. unfold continue_with. destruct (is_recoverable e) eqn:Hr; [done|].
  split; [done|]. destruct He; [done|done].
Qed.

Lemma read_done {A} (m : Txn A) n a : m (sync_storage n) = Done (sync_storage n) a -> read m n = Done n a.
Proof. intros Hm. unfold read, on_storage, ro_txn, storage_op, map_err. rewrite Hm. by destruct n. Qed.

Lemma get_state_marker_rel t ds : state_rel t ds -> get_state_marker t = Done t (zlength ds).
Proof. intros Hr. unfold get_state_marker, get_marker. rewrite bind_get. unfold ret. f_equal. apply (sr_marker _ _ Hr). Qed.

(** The event of a stream is stored. *)
Lemma process_event {St} (event : SyncEvent) (st : St) (post : StorageTxn -> Prop) n l bs ds :
  stores post l bs ds (process_sync_event event (sync_storage n)) ->
  goes_on (fun n' st' => st' = st /\ post (sync_storage n')) (process (ret (Some event, st)) n).
Proof.
  intros Hs. unfold process. rewrite bind_ret. unfold bind, on_storage. destruct (process_sync_event event (sync_storage n)) as [t a|t e|]; cbn; [done| |done].
  destruct Hs as [He Hs]. split; [by exists l, bs, ds|by left].
Qed.

Lemma goes_on_mono {A} (post post' : GenericStateSync -> A -> Prop) r :
  (forall n a, post n a -> post' n a) -> goes_on post r -> goes_on post' r.
Proof. destruct r; cbn; auto. Qed.

(** *** The start *)

Lemma start_sync_goes_on config key central_hash n :
  consistent n -> marker MarkerKind_Header (sync_storage n) < 2 ^ 32 ->
  goes_on (fun n' _ => consistent n') (start_sync config key central_hash n).
Proof.
  intros Hc Hlt.
  assert (Hkey : goes_on (fun n' _ => sync_storage n' = sync_storage n)
    ((if verify_blocks config then track_sequencer_public_key_changes key else ret tt) n)).
  { destruct (verify_blocks config); [|done]. destruct key as [k|e]; cbn; [|by split; [|left]].
    unfold bind, get. destruct (sync_sequencer_pub_key n) as [cur|]; [|done]. destruct (Z.eqb_spec cur k); cbn; [done|].
    split; [exact Hc|right; eauto]. }
  unfold start_sync. unfold bind at 1. destruct (_ n) as [n' []|n' e|]; cbn in Hkey; [|done|done].
  destruct Hc as (l & bs & ds & Hs). unfold on_storage. rewrite Hkey.
  rewrite (hr_marker _ _ (ss_headers _ _ _ _ Hs)) in Hlt.
  destruct (handle_block_reverts_reverted central_hash _ _ _ _ Hs Hlt) as (k & _ & _ & Hr).
  destruct (handle_block_reverts central_hash (sync_storage n)) as [t []|t e|]; cbn; [|destruct Hr as (Hr & _ & ce & _ & ->)|done].
  - destruct Hr as [Hr _]. by do 3 eexists.
  - split; [by do 3 eexists|by left].
Qed.

(** *** Blocks *)

Lemma get_latest_block_hash_done t l : header_rel t l -> zlength l < 2 ^ 32 ->
  get_latest_block_hash t = Done t (default GENESIS_HASH (hash_of <$> last l)).
Proof.
  intros Hr Hlt. pose proof (zlength_nonneg l) as H0. unfold get_latest_block_hash. rewrite (bind_step _ _ _ _ _ (get_header_marker_rel _ _ Hr)).
  destruct l as [|x l _] using rev_ind; [done|]. rewrite last_snoc. rewrite zlength_snoc in *. pose proof (zlength_nonneg l) as H1.
  destruct (Z.eqb_spec (zlength l + 1) 0); [lia|]. rewrite bn_prev_small by lia. destruct (Z.eqb_spec (zlength l + 1) 0); [lia|].
  cbn [expect]. rewrite bind_ret. replace (zlength l + 1 - 1) with (zlength l) by lia.
  rewrite (bind_step _ _ _ _ _ (get_block_header_rel _ _ (zlength l) Hr ltac:(lia))).
  by rewrite lookup_z_snoc, Z.eqb_refl.
Qed.

Lemma blocks_iteration_goes_on config latest download n l bs ds :
  sync_rel (sync_storage n) l bs ds -> zlength l < 2 ^ 32 ->
  (forall from up_to, 0 <= from -> blocks_in_order from up_to (download from up_to)) ->
  goes_on (fun n' st => sync_storage n' = sync_storage n /\ blocks_stream_at l st) (blocks_iteration config latest download n).
Proof.
  intros Hs Hlt Hd. unfold blocks_iteration.
  rewrite (bind_step _ _ _ _ _ (read_done _ _ _ (get_header_marker_rel _ _ (ss_headers _ _ _ _ Hs)))).
  destruct latest as [latest|e]; [|split; [by exists l, bs, ds|by left]].
  rewrite bind_modify. set (n1 := set_sync_highest latest n). change (sync_storage n) with (sync_storage n1) in *.
  destruct (_ =? _); [|by split; [|eexists; apply Hd, zlength_nonneg]].
  rewrite (bind_step _ _ _ _ _ (read_done _ _ _ (get_state_marker_rel _ _ (ss_state _ _ _ _ Hs)))).
  destruct (_ =? _); [|by split].
  rewrite (bind_step _ _ _ _ _ (read_done _ _ _ (get_latest_block_hash_done _ _ (ss_headers _ _ _ _ Hs) Hlt))).
  split; [done|]. cbn. apply list_elem_of_singleton. done.
Qed.

(** The timestamp of a block is outside of the times that chrono knows. *)
Definition late (block : Block) : Prop := timestamp_opt_single (as_i64 (BlockHeader_timestamp (Block_header block))) = false.

(** The next block is late, and what is stored of it panics. *)
Lemma late_block_panics b block signature rest n l bs ds up_to :
  let items : list (CentralBlock + CentralError) := inl ((b, block, signature) : CentralBlock) :: rest in
  sync_rel (sync_storage n) l bs ds -> zlength l < 2 ^ 32 - 1 -> blocks_in_order (zlength l) up_to items ->
  has_room (sync_storage n) (Block_body block) -> late block ->
  process (next_block items) n = Panic \/ goes_on (fun _ _ => False) (process (next_block items) n).
Proof.
  intros items Hs Hlt (-> & _ & Hwf & Hrest) Hroom Hlate. cbn [next_block items].
  destruct (store_block_late _ l bs ds block signature Hs Hlt Hwf Hroom Hlate) as [Hp|Hst].
  - left. unfold process. rewrite bind_ret. unfold bind, on_storage. cbn [process_sync_event]. by rewrite Hp.
  - right. eapply goes_on_mono; [|by eapply process_event]. by intros ?? [_ ?].
Qed.

Lemma next_block_goes_on items n l bs ds up_to :
  sync_rel (sync_storage n) l bs ds -> zlength l < 2 ^ 32 - 1 -> blocks_in_order (zlength l) up_to items ->
  (forall b block signature rest, items = inl (b, block, signature) :: rest -> ~ late block) ->
  (forall b block signature rest, items = inl (b, block, signature) :: rest -> has_room (sync_storage n) (Block_body block)) ->
  goes_on (fun n' st => exists l' bs', sync_rel (sync_storage n') l' bs' ds /\ l `prefix_of` l' /\ blocks_stream_at l' st)
    (process (next_block items) n).
Proof.
  intros Hs Hlt Hi Hlate Hroom. destruct items as [|[[[b block] signature]|e] rest].
  - exists l, bs. by split_and!.
  - specialize (Hlate _ _ _ _ eq_refl). unfold late in Hlate. apply not_false_is_true in Hlate as Hts.
    destruct Hi as (-> & _ & Hwf & Hrest). cbn [next_block].
    eapply goes_on_mono; [|eapply process_event, (store_block_stores _ l bs ds block signature); eauto].
    intros n' st [-> Hs']. do 2 eexists. split; [exact Hs'|]. split; [by eexists|]. exists up_to. by rewrite zlength_snoc.
  - split; [by exists l, bs, ds|by left].
Qed.

(** *** State diffs *)

Lemma sort_keys_fst {V} (l : list (Z * V)) : (sort_unstable_keys l).*1 ≡ₚ l.*1.
Proof. apply fmap_Permutation, merge_sort_Permutation. Qed.

Lemma sort_state_diff_ok sd defs : state_diff_ok sd defs -> state_diff_ok (sort_state_diff sd) defs.
Proof.
  assert (Hs : forall V W (f : V -> W) (l : list (Z * V)), ((fun ae => (ae.1, f ae.2)) <$> l).*1 = l.*1).
  { intros V W f l. rewrite <-list_fmap_compose. by apply list_fmap_ext. }
  intros []. split; cbn; rewrite ?Hs, ?sort_keys_fst; try done.
  - apply Forall_fmap, Forall_forall. intros ae Hae. cbn. rewrite sort_keys_fst.
    rewrite Forall_forall in so_entries. apply so_entries. unfold sort_unstable_keys in Hae. by rewrite merge_sort_Permutation in Hae.
  - intros a. rewrite !sort_keys_fst. apply so_disjoint.
Qed.

Lemma diffs_iteration_goes_on config download n l bs ds :
  sync_rel (sync_storage n) l bs ds -> zlength l < 2 ^ 32 ->
  (forall from up_to, 0 <= from -> up_to < 2 ^ 32 -> diffs_in_order from up_to (download from up_to)) ->
  goes_on (fun n' st => n' = n /\ diffs_stream_at l ds st) (diffs_iteration config download n).
Proof.
  intros Hs Hlt Hd. unfold diffs_iteration.
  rewrite (bind_step _ _ _ _ _ (read_done _ _ _ (get_state_marker_rel _ _ (ss_state _ _ _ _ Hs)))).
  rewrite (bind_step _ _ _ _ _ (read_done _ _ _ (get_header_marker_rel _ _ (ss_headers _ _ _ _ Hs)))).
  destruct (_ =? _); [done|]. split; [done|]. eexists. split; [|apply Hd; [apply zlength_nonneg|]]; lia.
Qed.

Lemma next_state_diff_goes_on items n l bs ds up_to :
  sync_rel (sync_storage n) l bs ds -> zlength l < 2 ^ 32 - 1 -> up_to <= zlength l -> diffs_in_order (zlength ds) up_to items ->
  (forall b h sd defs rest, items = inl (b, h, sd, defs) :: rest -> state_diff_fits (sync_storage n) (sort_state_diff sd) defs) ->
  goes_on (fun n' st => exists ds', sync_rel (sync_storage n') l bs ds' /\ diffs_stream_at l ds' st) (process (next_state_diff items) n).
Proof.
  intros Hs Hlt Hup Hi Hroom. destruct items as [|[[[[b h] sd] defs]|e] rest].
  - by exists ds.
  - destruct Hi as (-> & Hb & Hok & Hrest). cbn [next_state_diff].
    eapply goes_on_mono; [|eapply process_event, (store_state_diff_stores _ l bs ds (sort_state_diff sd) defs); eauto using sort_state_diff_ok; lia].
    intros n' st [-> Hs']. eexists. split; [exact Hs'|]. exists up_to. by rewrite zlength_snoc.
  - split; [by exists l, bs, ds|by left].
Qed.

(** *** Compiled classes *)

(** The loop ends at the next block that declares a class. *)
Lemma skip_blocks_done t ds : state_rel t ds -> zlength ds < 2 ^ 32 ->
  forall fuel m, 0 <= m <= zlength ds -> (Z.to_nat (zlength ds - m) <= fuel)%nat ->
  skip_blocks_without_classes fuel (zlength ds) m t = Done t (next_declaring ds m).
Proof.
  intros Hr Hlt fuel. induction fuel as [|fuel IH]; intros m Hm Hf; cbn [skip_blocks_without_classes].
  - rewrite (proj2 (Z.ltb_ge _ _)) by lia. replace m with (zlength ds) by lia. by rewrite next_declaring_end.
  - destruct (Z.ltb_spec m (zlength ds)); [|replace m with (zlength ds) by lia; by rewrite next_declaring_end].
    rewrite (bind_step _ _ _ _ _ (get_state_diff_rel _ _ m Hr)). destruct (proj2 (lookup_z_is_Some ds m) ltac:(lia)) as [d Hd].
    rewrite Hd. cbn [expect]. rewrite bind_ret. destruct (ThinStateDiff_declared_classes d) eqn:Hc.
    + rewrite bn_unchecked_next_small, IH by lia. by rewrite (next_declaring_step ds m d Hd Hc).
    + by rewrite (next_declaring_stop ds m d Hd) by (by rewrite Hc).
Qed.

Lemma casms_iteration_goes_on config download n l bs ds :
  sync_rel (sync_storage n) l bs ds -> zlength l < 2 ^ 32 ->
  goes_on (fun n' _ => n' = n) (casms_iteration config download n).
Proof.
  intros Hs Hlt. pose proof (ss_order _ _ _ _ Hs) as Ho. pose proof (sr_casm_marker _ _ (ss_state _ _ _ _ Hs)) as Hm.
  unfold casms_iteration. set (cm := marker MarkerKind_CompiledClass (sync_storage n)) in *.
  assert (Hread : read (let! from := get_compiled_class_marker in
      let! state_marker := get_state_marker in
      let! from := skip_blocks_without_classes (Z.to_nat (state_marker - from)) state_marker from in
      ret (from, state_marker)) n = Done n (next_declaring ds cm, zlength ds)).
  { apply read_done. unfold get_compiled_class_marker, get_marker. run_txn.
    rewrite (bind_step _ _ _ _ _ (get_state_marker_rel _ _ (ss_state _ _ _ _ Hs))).
    by rewrite (bind_step _ _ _ _ _ (skip_blocks_done _ _ (ss_state _ _ _ _ Hs) ltac:(lia) _ _ Hm (le_n _))). }
  rewrite (bind_step _ _ _ _ _ Hread). by destruct (_ =? _).
Qed.

Lemma next_compiled_class_goes_on items n l bs ds :
  sync_rel (sync_storage n) l bs ds -> zlength l < 2 ^ 32 ->
  (forall h c casm rest, items = inl (h, c, casm) :: rest ->
     storable casm /\ is_Some (file_append (t_casm_file (sync_storage n)) casm)) ->
  goes_on (fun n' _ => sync_rel (sync_storage n') l bs ds) (process (next_compiled_class items) n).
Proof.
  intros Hs Hlt Hroom. destruct items as [|[[[h c] casm]|e] rest]; [done| |split; [by exists l, bs, ds|by left]].
  destruct (Hroom _ _ _ _ eq_refl) as [Hst Happ]. cbn [next_compiled_class].
  eapply goes_on_mono; [|eapply process_event, (store_compiled_class_stores _ l bs ds h casm); eauto]. by intros n' st [_ Hs'].
Qed.

(** *** The base layer and the watchdog *)

Lemma base_layer_step_goes_on answer st n l bs ds :
  sync_rel (sync_storage n) l bs ds -> zlength l < 2 ^ 32 -> base_layer_stream_at l st ->
  (forall block_number block_hash, answer = inl (Some (block_number, block_hash)) -> 0 <= block_number) ->
  goes_on (fun n' st' => sync_rel (sync_storage n') l bs ds /\ base_layer_stream_at l st') (process (base_layer_step answer st) n).
Proof.
  intros Hs Hlt Hat Hans. destruct st as [|header_marker]; cbn [base_layer_step].
  - unfold process. rewrite bind_assoc, (bind_step _ _ _ _ _ (read_done _ _ _ (get_header_marker_rel _ _ (ss_headers _ _ _ _ Hs)))).
    split; [done|]. cbn. lia.
  - destruct answer as [[[b h]|]|e]; [|done|split; [by exists l, bs, ds|by left]].
    specialize (Hans b h eq_refl). cbn in Hat. destruct (Z.leb_spec header_marker b); [done|].
    eapply goes_on_mono; [|eapply process_event, (store_base_layer_block_stores _ l bs ds b h); eauto; lia]. by intros n' st [-> Hs'].
Qed.

Lemma check_sync_progress_goes_on st n l bs ds :
  sync_rel (sync_storage n) l bs ds -> goes_on (fun n' _ => sync_rel (sync_storage n') l bs ds) (process (check_sync_progress st) n).
Proof.
  intros Hs. unfold check_sync_progress, process.
  rewrite bind_assoc, (bind_step _ _ _ _ _ (read_done _ _ _ (get_header_marker_rel _ _ (ss_headers _ _ _ _ Hs)))).
  rewrite bind_assoc, (bind_step _ _ _ _ _ (read_done _ _ _ (get_state_marker_rel _ _ (ss_state _ _ _ _ Hs)))).
  rewrite bind_assoc, (bind_step _ _ _ _ _ (read_done get_compiled_class_marker n _ eq_refl)).
  destruct st as [|hm sm cm]; [done|]. destruct (_ || _ || _); [|done]. cbn. split; [by destruct n; exists l, bs, ds|by left].
Qed.

(** *** The pending data *)

Lemma push_keeps_data_task diff l : Task_PendingData ∈ loop_tasks (push_tasks_of diff l).
Proof. unfold push_tasks_of. cbn. apply elem_of_app. right. by apply list_elem_of_singleton. Qed.

(** The polling task stays, and the loop ends in a recoverable error at most. *)
Lemma pending_step_goes_on data_ok shared l p :
  Task_PendingData ∈ loop_tasks l -> pending_step data_ok (Pending_Running shared l) p ->
  match p with
  | Pending_Running _ l' => Task_PendingData ∈ loop_tasks l'
  | Pending_Finished _ => True
  | Pending_Failed _ e => is_recoverable e = true
  | Pending_Panicked => False
  end.
Proof.
  intros Hin Hst. inversion Hst as [sh l' b a answer Hl Hok|sh l' b a h answer Hl|sh l' b a h answer Hl|sh l' Hl]; subst; rewrite Hl in Hin.
  - destruct answer as [data|e]; [|done]. unfold get_pending_data. destruct (negb _); [done|]. rewrite bind_get.
    destruct (_ || _); [destruct (negb _)|]; cbn; apply push_keeps_data_task || (apply elem_of_app; right; by apply list_elem_of_singleton).
  - destruct answer; cbn; [set_solver|done].
  - destruct answer; cbn; [set_solver|done].
  - set_solver.
Qed.

(** *** Every step *)

Lemma diffs_stream_grows l l' ds st : l `prefix_of` l' -> diffs_stream_at l ds st -> diffs_stream_at l' ds st.
Proof.
  intros [k ->]. destruct st as [|items]; [done|]. intros (up_to & Hup & Hi). exists up_to. split; [|done].
  unfold zlength in *. rewrite length_app. lia.
Qed.

Lemma base_layer_stream_grows l l' st : l `prefix_of` l' -> base_layer_stream_at l st -> base_layer_stream_at l' st.
Proof. intros [k ->]. destruct st; [done|]. cbn. unfold zlength in *. rewrite length_app. lia. Qed.

(** The next block that the stream of blocks has is late. *)
Definition late_block_next (s : SyncState) : Prop :=
  exists n st b block signature rest, s = Sync_Running n st /\ block_stream st = Blocks_Download (inl (b, block, signature) :: rest) /\ late block.

Lemma sync_step_inv config s s' : sync_step_with_room config s s' -> sync_inv s -> sync_inv s' \/ s' = Sync_Panicked /\ late_block_next s.
Proof.
  intros [Hroom Hst] Hinv. destruct Hst as [n key central_hash|n s latest download Hb Hd|n s items Hb|n s l0 p Hb Hp|
    n s download Hb Hd|n s items Hb|n s download Hb|n s items Hb|n s answer Ha|n s].
  1: { left. apply continue_with_inv. eapply goes_on_mono; [|apply start_sync_goes_on; [exact Hinv|cbn in Hroom; lia]].
       intros n' _ (l & bs & ds & Hs). exists l, bs, ds. split; [done|by split]. }
  all: destruct Hinv as (l & bs & ds & Hs & [A1 A2 A3]); destruct Hroom as [R1 R2 R3 R4];
    rewrite (hr_marker _ _ (ss_headers _ _ _ _ Hs)) in R1.
  3: { left. rewrite Hb in A1. pose proof (pending_step_goes_on _ _ _ _ A1 Hp) as Hg. destruct p as [sh l1|sh|sh e|]; cbn.
       - exists l, bs, ds. by split; [|split].
       - exists l, bs, ds. by split; [|split].
       - rewrite Hg. by exists l, bs, ds.
       - done. }
  2: { rewrite Hb in A1. destruct A1 as [up_to Hi].
       destruct (match items with inl (_, block, _) :: _ => negb (timestamp_opt_single (as_i64 (BlockHeader_timestamp (Block_header block)))) | _ => false end)
         eqn:Hlate.
       - destruct items as [|[[[b block] signature]|e] rest]; [done| |done]. apply negb_true_iff in Hlate.
         destruct (late_block_panics b block signature rest n l bs ds up_to Hs R1 Hi (R2 _ _ _ _ Hb) Hlate) as [Hp|Hg].
         + right. rewrite Hp. split; [done|]. by exists n, s, b, block, signature, rest.
         + left. apply continue_with_inv. by eapply goes_on_mono; [|exact Hg].
       - left. apply continue_with_inv. eapply goes_on_mono; [|apply (next_block_goes_on _ _ _ _ _ _ Hs R1 Hi); intros b block signature rest ->; [|by eapply R2]].
         2: { unfold late. by destruct (timestamp_opt_single _). }
         intros n' st (l' & bs' & Hs' & Hpre & Hat). exists l', bs', ds. split; [done|]. split; cbn; [done|by eapply diffs_stream_grows|by eapply base_layer_stream_grows]. }
  all: left; apply continue_with_inv; rewrite ?Hb in *.
  - eapply goes_on_mono; [|apply (blocks_iteration_goes_on _ _ _ _ _ _ _ Hs); [lia|done]].
    intros n' st [Hn Hat]. exists l, bs, ds. rewrite Hn. by split; [|split].
  - eapply goes_on_mono; [|apply (diffs_iteration_goes_on _ _ _ _ _ _ Hs); [lia|done]]. intros n' st [-> Hat]. exists l, bs, ds. by split; [|split].
  - destruct A2 as (up_to & Hup & Hi). eapply goes_on_mono; [|apply (next_state_diff_goes_on _ _ _ _ _ _ Hs R1 Hup Hi); intros ????? ->; by eapply R3].
    intros n' st (ds' & Hs' & Hat). exists l, bs, ds'. by split; [|split].
  - eapply goes_on_mono; [|apply (casms_iteration_goes_on _ _ _ _ _ _ Hs); lia]. intros n' st ->. exists l, bs, ds. by split; [|split].
  - eapply goes_on_mono; [|apply (next_compiled_class_goes_on _ _ _ _ _ Hs); [lia|intros ???? ->; by eapply R4]].
    intros n' st Hs'. exists l, bs, ds. by split; [|split].
  - eapply goes_on_mono; [|apply (base_layer_step_goes_on _ _ _ _ _ _ Hs); [lia|done|done]].
    intros n' st [Hs' Hat]. exists l, bs, ds. by split; [|split].
  - eapply goes_on_mono; [|by apply (check_sync_progress_goes_on _ _ _ _ _ Hs)]. intros n' st Hs'. exists l, bs, ds. by split; [|split].
Qed.


End Theorems.
