(* ===== verification/CentralSource.v ===== *)
(** * The central source

    Models [crates/papyrus_sync/src/sources/central.rs] and
    [central/state_update_stream.rs]: what the synchronisation downloads from the
    feeder gateway. The answers of the gateway's client are arguments.

    The stream of state updates keeps four queues: the state updates being downloaded,
    those downloaded, the classes to download and those being downloaded; a state
    update is yielded when all its classes are there. An iteration of its loop is a
    function of what the two front tasks answer, if they are ready. *)

From stdpp Require Import base gmap list strings fin_maps relations.
From Stdlib Require Import ZArith Lia.
From S2P Require Import Prelude StorageTables StarknetTypes StorageTxn State ClientObjects PendingSync Sync.

(** [starknet_api]: [BlockNumber::iter_up_to] and [StateNumber::unchecked_right_after_block]. *)
Class BlockRangeApi {SN : StateNumberApi} : Type := {
  iter_up_to : Z -> Z -> list Z;
  unchecked_right_after_block : Z -> StateNumber;
  iter_up_to_spec : forall from up_to, 0 <= from -> iter_up_to from up_to = seqZ from (up_to - from);
  unchecked_right_after_block_spec : forall b, 0 <= b < 2 ^ 32 -> block_after (unchecked_right_after_block b) = b + 1
}.

(** [lru]: a cache holds some of the values that were put into it. *)
Class LruApi (V : Type) : Type := {
  LruCache : Type;
  lru_get : Z -> LruCache -> option V * LruCache;
  lru_put : Z -> V -> LruCache -> LruCache;
  lru_holds : LruCache -> Z -> V -> Prop;
  lru_get_holds : forall k c v c', lru_get k c = (Some v, c') -> lru_holds c k v;
  lru_get_keeps : forall k c r c' k' v, lru_get k c = (r, c') -> lru_holds c' k' v -> lru_holds c k' v;
  lru_put_holds : forall k v c k' v', lru_holds (lru_put k v c) k' v' -> k' = k /\ v' = v \/ lru_holds c k' v'
}.
#[global] Arguments LruCache V {_}.

Section Central.
Context {BN : BlockNumberApi} {SN : StateNumberApi} {X : ExternalTypes} {SF : StorageFiles} {HS : HashSetIter}.
Context {BR : BlockRangeApi} {LC : LruApi ApiContractClass} {LCC : LruApi CasmContractClass}.

(** ** Answers of the gateway *)

(** The answer of a method of the client. *)
Definition ClientResult (A : Type) : Type := A + ReaderClientError.

Definition get_latest_block (answer : ClientResult (option ClientBlock)) : option BlockHashAndNumber + CentralError :=
  match answer with
  | inr e => inr (CentralError_ClientError e)
  | inl None => inl None
  | inl (Some block) => inl (Some (mkBlockHashAndNumber (ClientBlock_block_hash block) (ClientBlock_block_number block)))
  end.

Definition get_block_hash (answer : ClientResult (option ClientBlock)) : option Z + CentralError :=
  match answer with
  | inr e => inr (CentralError_ClientError e)
  | inl None => inl None
  | inl (Some block) => inl (Some (ClientBlock_block_hash block))
  end.

Definition get_sequencer_pub_key (answer : ClientResult Z) : Z + CentralError :=
  match answer with inr e => inr (CentralError_ClientError e) | inl key => inl key end.

(** ** Blocks *)

Definition signature_of (signature_data : BlockSignatureData) : Signature :=
  let signature :=
    match signature_data with
    | BlockSignatureData_Deprecated _ signature _ => signature
    | BlockSignatureData_V0_13_2 _ signature => signature
    end in
  mkSignature signature.1 signature.2.

Definition client_to_central_block (current_block_number : Z)
    (maybe_client_block : ClientResult (option ClientBlock * option BlockSignatureData)) : M unit CentralError (Block * Signature) :=
  match maybe_client_block with
  | inl (Some block, Some signature_data) =>
      let! block := map_err CentralError_ClientError (to_starknet_api_block_and_version block) in
      ret (block, signature_of signature_data)
  | inl _ => raise (CentralError_BlockNotFound current_block_number)
  | inr err => raise (CentralError_ClientError err)
  end.

(** The downloads run concurrently and are taken in order; [None] is a panic. *)
Fixpoint blocks_of_answers (answers : list (Z * ClientResult (option ClientBlock * option BlockSignatureData))) :
    option (list (CentralBlock + CentralError)) :=
  match answers with
  | [] => Some []
  | (current_block_number, maybe_client_block) :: rest =>
      match client_to_central_block current_block_number maybe_client_block tt with
      | Done _ (block, signature) => cons (inl (current_block_number, block, signature)) <$> blocks_of_answers rest
      | Fail _ err => Some [inr err]
      | Panic => None
      end
  end.

Definition stream_new_blocks (client : Z -> ClientResult (option ClientBlock * option BlockSignatureData))
    (initial_block_number up_to_block_number : Z) : option (list (CentralBlock + CentralError)) :=
  blocks_of_answers ((fun bn => (bn, client bn)) <$> iter_up_to initial_block_number up_to_block_number).

(** ** Classes *)

Definition Cached (V : Type) {LC : LruApi V} (A : Type) : Type := M (LruCache V) CentralError A.

Definition cache_get {V} {LC : LruApi V} (k : Z) : Cached V (option V) := fun c => let '(r, c') := lru_get k c in Done c' r.
Definition cache_put {V} {LC : LruApi V} (k : Z) (v : V) : Cached V unit := modify (lru_put k v).

Definition central_get_class (client : ClientResult (option GenericContractClass)) (class_hash : Z) :
    Cached ApiContractClass ApiContractClass :=
  let! cached := cache_get class_hash in
  match cached with
  | Some class => ret class
  | None =>
      match client with
      | inr e => raise (CentralError_ClientError e)
      | inl None => raise CentralError_ClassNotFound
      | inl (Some class) => cache_put class_hash (api_class_of_generic class) ;! ret (api_class_of_generic class)
      end
  end.

Definition get_compiled_class (client : ClientResult (option CasmContractClass)) (class_hash : Z) :
    Cached CasmContractClass CasmContractClass :=
  let! cached := cache_get class_hash in
  match cached with
  | Some class => ret class
  | None =>
      match client with
      | inl (Some compiled_class) => cache_put class_hash compiled_class ;! ret compiled_class
      | inl None => raise (CentralError_CompiledClassNotFound class_hash)
      | inr err => raise (CentralError_ClientError err)
      end
  end.

(** A read of the storage inside another computation. *)
Definition read_storage {S A} (t : StorageTxn) (m : Txn A) : M S CentralError A := fun s =>
  match m t with
  | Done _ a => Done s a
  | Fail _ e => Fail s (CentralError_StorageError e)
  | Panic => Panic
  end.

(** [if let Ok(Some(x)) = ...]. *)
Definition if_found {S A} (t : StorageTxn) (m : Txn (option A)) : M S CentralError (option A) := fun s =>
  match m t with
  | Done _ a => Done s a
  | Fail _ _ => Done s None
  | Panic => Panic
  end.

Definition download_class_if_necessary (t : StorageTxn) (client : ClientResult (option GenericContractClass)) (class_hash : Z) :
    Cached ApiContractClass (option ApiContractClass) :=
  let! cached := cache_get class_hash in
  match cached with
  | Some class => ret (Some class)
  | None =>
      let! block_number := read_storage t get_state_marker in
      let state_number := unchecked_right_after_block block_number in
      let! stored := if_found t (get_class_definition_at state_number class_hash) in
      match stored with
      | Some class =>
          cache_put class_hash (ApiContractClass_ContractClass class) ;! ret (Some (ApiContractClass_ContractClass class))
      | None =>
          let! stored := if_found t (get_deprecated_class_definition_at state_number class_hash) in
          match stored with
          | Some class =>
              cache_put class_hash (ApiContractClass_DeprecatedContractClass class) ;!
              ret (Some (ApiContractClass_DeprecatedContractClass class))
          | None =>
              match client with
              | inr e => raise (CentralError_ClientError e)
              | inl None => ret None
              | inl (Some class) => cache_put class_hash (api_class_of_generic class) ;! ret (Some (api_class_of_generic class))
              end
          end
      end
  end.

(** ** Compiled classes *)

(** The declared classes of a block, or the error of its state diff. *)
Definition declared_in (t : StorageTxn) (bn : Z) : option (list ((Z * Z) + CentralError)) :=
  match get_state_diff bn t with
  | Panic => None
  | Fail _ err => Some [inr (CentralError_StorageError err)]
  | Done _ None => Some [inr CentralError_StateUpdateNotFound]
  | Done _ (Some state_diff) => Some (inl <$> ThinStateDiff_declared_classes state_diff)
  end.

(** [compiled_class_of]: what [get_compiled_class] returned for each class. *)
Fixpoint compiled_classes_of (compiled_class_of : Z -> CasmContractClass + CentralError) (hashes : list ((Z * Z) + CentralError)) :
    list (CentralCompiledClass + CentralError) :=
  match hashes with
  | [] => []
  | inr err :: _ => [inr err]
  | inl (class_hash, compiled_class_hash) :: rest =>
      match compiled_class_of class_hash with
      | inl compiled_class => inl (class_hash, compiled_class_hash, compiled_class) :: compiled_classes_of compiled_class_of rest
      | inr err => [inr err]
      end
  end.

Definition stream_compiled_classes (t : StorageTxn) (compiled_class_of : Z -> CasmContractClass + CentralError)
    (initial_block_number up_to_block_number : Z) : option (list (CentralCompiledClass + CentralError)) :=
  (fun hashes => compiled_classes_of compiled_class_of (concat hashes)) <$>
    mapM (declared_in t) (iter_up_to initial_block_number up_to_block_number).

(** ** State updates *)

Record StateUpdateStreamConfig : Type := mkStateUpdateStreamConfig {
  max_state_updates_to_download : Z;
  max_state_updates_to_store_in_memory : Z;
  max_classes_to_download : Z
}.

(** A task of a queue is what it downloads. *)
Record StateUpdateStream : Type := mkStateUpdateStream {
  su_initial_block_number : Z;
  su_up_to_block_number : Z;
  su_download_state_update_tasks : list Z;
  su_downloaded_state_updates : list (Z * Z * StateUpdate);
  su_classes_to_download : list Z;
  su_download_class_tasks : list Z;
  su_downloaded_classes : list ApiContractClass
}.

Definition new_state_update_stream (initial_block_number up_to_block_number : Z) : StateUpdateStream :=
  mkStateUpdateStream initial_block_number up_to_block_number [] [] [] [] [].

Definition set_update_tasks (initial : Z) (tasks : list Z) (s : StateUpdateStream) : StateUpdateStream :=
  mkStateUpdateStream initial (su_up_to_block_number s) tasks (su_downloaded_state_updates s) (su_classes_to_download s)
    (su_download_class_tasks s) (su_downloaded_classes s).
Definition set_updates (updates : list (Z * Z * StateUpdate)) (s : StateUpdateStream) : StateUpdateStream :=
  mkStateUpdateStream (su_initial_block_number s) (su_up_to_block_number s) (su_download_state_update_tasks s) updates
    (su_classes_to_download s) (su_download_class_tasks s) (su_downloaded_classes s).
Definition set_class_queues (to_download tasks : list Z) (s : StateUpdateStream) : StateUpdateStream :=
  mkStateUpdateStream (su_initial_block_number s) (su_up_to_block_number s) (su_download_state_update_tasks s)
    (su_downloaded_state_updates s) to_download tasks (su_downloaded_classes s).
Definition set_downloaded_classes (classes : list ApiContractClass) (s : StateUpdateStream) : StateUpdateStream :=
  mkStateUpdateStream (su_initial_block_number s) (su_up_to_block_number s) (su_download_state_update_tasks s)
    (su_downloaded_state_updates s) (su_classes_to_download s) (su_download_class_tasks s) classes.

Definition UpdateStream (A : Type) : Type := M StateUpdateStream CentralError A.

(** [IndexMap::split_off], a panic past the end. *)
Definition split_off {S E V} (m : list (Z * V)) (at_ : Z) : M S E (list (Z * V) * list (Z * V)) :=
  if zlength m <? at_ then panic else ret (take (Z.to_nat at_) m, drop (Z.to_nat at_) m).

Fixpoint all_cairo1 {S E} (classes : list (Z * ApiContractClass)) : M S E (list (Z * ContractClass)) :=
  match classes with
  | [] => ret []
  | (class_hash, class) :: rest =>
      let! class := expect (into_cairo1 class) in let! rest := all_cairo1 rest in ret ((class_hash, class) :: rest)
  end.

Fixpoint all_cairo0 {S E} (classes : list (Z * ApiContractClass)) : M S E (list (Z * DeprecatedContractClass)) :=
  match classes with
  | [] => ret []
  | (class_hash, generic_class) :: rest =>
      let! class := expect (into_cairo0 generic_class) in let! rest := all_cairo0 rest in ret ((class_hash, class) :: rest)
  end.

(** The caller's result is always [Ok]. *)
Definition client_to_central_state_update {S E} (current_block_number : Z) (state_update : StateUpdate)
    (declared_classes : list (Z * ApiContractClass)) : M S E CentralStateUpdate :=
  let diff := StateUpdate_state_diff state_update in
  let n_declared_classes := zlength (ClientStateDiff_declared_classes diff) in
  let! (declared_classes, deprecated_classes) := split_off declared_classes n_declared_classes in
  let n_deprecated_declared_classes := zlength (ClientStateDiff_old_declared_contracts diff) in
  let! (deprecated_classes, deployed_contract_class_definitions) :=
    split_off deprecated_classes n_deprecated_declared_classes in
  let! declared := all_cairo1 declared_classes in
  let! deprecated := all_cairo0 deprecated_classes in
  let state_diff := {|
    StateDiff_deployed_contracts :=
      indexmap_of ((fun dc => (DeployedContract_address dc, DeployedContract_class_hash dc)) <$> ClientStateDiff_deployed_contracts diff);
    StateDiff_storage_diffs :=
      indexmap_of ((fun '(address, entries) =>
        (address, indexmap_of ((fun se => (StorageEntry_key se, StorageEntry_value se)) <$> entries)))
        <$> ClientStateDiff_storage_diffs diff);
    StateDiff_declared_classes :=
      indexmap_of (zip_with (fun '(class_hash, class) compiled_class_hash => (class_hash, (compiled_class_hash, class)))
        declared (DeclaredClassHashEntry_compiled_class_hash <$> ClientStateDiff_declared_classes diff));
    StateDiff_deprecated_declared_classes := indexmap_of deprecated;
    StateDiff_nonces := ClientStateDiff_nonces diff;
    StateDiff_replaced_classes :=
      indexmap_of ((fun rc => (ReplacedClass_address rc, ReplacedClass_class_hash rc)) <$> ClientStateDiff_replaced_classes diff)
  |} in
  let deployed_contract_class_definitions :=
    indexmap_of (omap (fun '(class_hash, contract_class) => pair class_hash <$> into_cairo0 contract_class)
      deployed_contract_class_definitions) in
  ret (current_block_number, StateUpdate_block_hash state_update, state_diff, deployed_contract_class_definitions).

(** [None]: the next state update is not ready. *)
Definition next_output : UpdateStream (option CentralStateUpdate) :=
  let! self := get in
  match su_downloaded_state_updates self with
  | [] => ret None
  | (block_number, n_classes, state_update) :: rest =>
      if zlength (su_downloaded_classes self) <? n_classes then ret None
      else
        let hashes := class_hashes (StateUpdate_state_diff state_update) in
        let classes := take (Z.to_nat n_classes) (su_downloaded_classes self) in
        modify (set_updates rest) ;!
        modify (set_downloaded_classes (drop (Z.to_nat n_classes) (su_downloaded_classes self))) ;!
        let! output := client_to_central_state_update block_number state_update (indexmap_of (zip hashes classes)) in
        ret (Some output)
  end.

(** The [while] loop; the queues after it and whether a task was added. *)
Fixpoint schedule_classes (max : Z) (to_download tasks : list Z) : list Z * list Z * bool :=
  match to_download with
  | [] => ([], tasks, false)
  | class_hash :: rest =>
      if zlength tasks <? max
      then let '(to_download, tasks, _) := schedule_classes max rest (tasks ++ [class_hash]) in (to_download, tasks, true)
      else (to_download, tasks, false)
  end.

Definition schedule_class_downloads (config : StateUpdateStreamConfig) : UpdateStream bool :=
  let! self := get in
  let '(to_download, tasks, scheduled) :=
    schedule_classes (max_classes_to_download config) (su_classes_to_download self) (su_download_class_tasks self) in
  modify (set_class_queues to_download tasks) ;!
  ret scheduled.

(** [poll]: what the front task answers, [None] while it is pending. *)
Definition handle_downloaded_classes (poll : option (option ApiContractClass + CentralError)) : UpdateStream bool :=
  let! self := get in
  match su_download_class_tasks self, poll with
  | _ :: tasks, Some maybe_class =>
      modify (set_class_queues (su_classes_to_download self) tasks) ;!
      match maybe_class with
      | inl (Some class) => modify (set_downloaded_classes (su_downloaded_classes self ++ [class])) ;! ret true
      | inl None => raise CentralError_ClassNotFound
      | inr err => raise err
      end
  | _, _ => ret false
  end.

(** The [while] loop; out of fuel is a panic. *)
Fixpoint schedule_updates (fuel : nat) (max up_to initial : Z) (tasks : list Z) : option (Z * list Z * bool) :=
  if (initial <? up_to) && (zlength tasks <? max) then
    match fuel with
    | O => None
    | S fuel' =>
        (fun '(initial, tasks, _) => (initial, tasks, true)) <$>
          schedule_updates fuel' max up_to (bn_unchecked_next initial) (tasks ++ [initial])
    end
  else Some (initial, tasks, false).

Definition schedule_state_update_downloads (config : StateUpdateStreamConfig) : UpdateStream bool :=
  let! self := get in
  let! (initial, tasks, scheduled) :=
    expect (schedule_updates (Z.to_nat (su_up_to_block_number self - su_initial_block_number self))
      (max_state_updates_to_download config) (su_up_to_block_number self) (su_initial_block_number self)
      (su_download_state_update_tasks self)) in
  modify (set_update_tasks initial tasks) ;!
  ret scheduled.

Definition handle_downloaded_state_updates (config : StateUpdateStreamConfig)
    (poll : option (ClientResult (option StateUpdate))) : UpdateStream bool :=
  let! self := get in
  if max_state_updates_to_store_in_memory config <=? zlength (su_downloaded_state_updates self) then ret false
  else
    match su_download_state_update_tasks self, poll with
    | block_number :: tasks, Some maybe_state_update =>
        modify (set_update_tasks (su_initial_block_number self) tasks) ;!
        match maybe_state_update with
        | inl (Some state_update) =>
            let hashes := class_hashes (StateUpdate_state_diff state_update) in
            modify (set_class_queues (su_classes_to_download self ++ hashes) (su_download_class_tasks self)) ;!
            modify (set_updates (su_downloaded_state_updates self ++ [(block_number, zlength hashes, state_update)])) ;!
            ret true
        | inl None => raise CentralError_ClassNotFound
        | inr err => raise (CentralError_ClientError err)
        end
    | _, _ => ret false
    end.

Definition do_scheduling (config : StateUpdateStreamConfig) (class_poll : option (option ApiContractClass + CentralError))
    (update_poll : option (ClientResult (option StateUpdate))) : UpdateStream bool :=
  let! scheduled_classes := schedule_class_downloads config in
  let! got_class := handle_downloaded_classes class_poll in
  let! scheduled_updates := schedule_state_update_downloads config in
  let! got_update := handle_downloaded_state_updates config update_poll in
  ret (scheduled_classes || got_class || scheduled_updates || got_update).

Inductive Polled : Type :=
| Polled_Item (x : CentralStateUpdate)
| Polled_Again
| Polled_Exhausted
| Polled_Pending.

(** One iteration of the loop of [poll_next]; an [Err] is yielded. *)
Definition poll_iteration (config : StateUpdateStreamConfig) (class_poll : option (option ApiContractClass + CentralError))
    (update_poll : option (ClientResult (option StateUpdate))) : UpdateStream Polled :=
  let! should_poll_again := do_scheduling config class_poll update_poll in
  let! output := next_output in
  match output with
  | Some central_state_update => ret (Polled_Item central_state_update)
  | None =>
      if should_poll_again then ret Polled_Again
      else
        let! self := get in
        match su_download_class_tasks self, su_download_state_update_tasks self with
        | [], [] => ret Polled_Exhausted
        | _, _ => ret Polled_Pending
        end
  end.

(** The stream with what it yielded; its user drops it after an error. *)
Inductive UpdateStreamState : Type :=
| Su_Running (s : StateUpdateStream) (yielded : list CentralStateUpdate)
| Su_Exhausted (yielded : list CentralStateUpdate)
| Su_Failed (yielded : list CentralStateUpdate) (e : CentralError)
| Su_Panicked.

Definition after_poll (yielded : list CentralStateUpdate) (r : res StateUpdateStream CentralError Polled) : UpdateStreamState :=
  match r with
  | Done s (Polled_Item x) => Su_Running s (yielded ++ [x])
  | Done s Polled_Exhausted => Su_Exhausted yielded
  | Done s _ => Su_Running s yielded
  | Fail _ e => Su_Failed yielded e
  | Panic => Su_Panicked
  end.

(** The gateway answers with the state update of the block or with an error, the task
    of a class with the class or with an error. *)
Definition update_answer (update_of : Z -> StateUpdate) (tasks : list Z) (poll : option (ClientResult (option StateUpdate))) : Prop :=
  forall u, poll = Some (inl (Some u)) -> forall b, head tasks = Some b -> u = update_of b.

Definition class_answer (class_at : Z -> ApiContractClass) (tasks : list Z) (poll : option (option ApiContractClass + CentralError)) : Prop :=
  forall c, poll = Some (inl (Some c)) -> forall h, head tasks = Some h -> c = class_at h.

(** The queues as the two polls find them. *)
Definition class_tasks_polled (config : StateUpdateStreamConfig) (s : StateUpdateStream) : list Z :=
  (schedule_classes (max_classes_to_download config) (su_classes_to_download s) (su_download_class_tasks s)).1.2.

Definition update_tasks_polled (config : StateUpdateStreamConfig) (s : StateUpdateStream) : list Z :=
  match schedule_updates (Z.to_nat (su_up_to_block_number s - su_initial_block_number s)) (max_state_updates_to_download config)
          (su_up_to_block_number s) (su_initial_block_number s) (su_download_state_update_tasks s) with
  | Some (_, tasks, _) => tasks
  | None => []
  end.

Inductive update_stream_step (config : StateUpdateStreamConfig) (update_of : Z -> StateUpdate) (class_at : Z -> ApiContractClass) :
    UpdateStreamState -> UpdateStreamState -> Prop :=
| update_stream_poll s yielded class_poll update_poll :
    class_answer class_at (class_tasks_polled config s) class_poll ->
    update_answer update_of (update_tasks_polled config s) update_poll ->
    update_stream_step config update_of class_at (Su_Running s yielded)
      (after_poll yielded (poll_iteration config class_poll update_poll s)).
End Central.
