(* ===== verification/CentralTheorems.v ===== *)
(** * What the central source delivers

    The streams of [CentralSource.v] deliver the blocks and the state updates of the
    numbers asked for, in order, each with its own classes: the promises under which
    [SyncTheorems.v] shows the synchronisation correct. *)

From stdpp Require Import base gmap list strings fin_maps relations.
From Stdlib Require Import ZArith Lia.
From S2P Require Import Prelude StorageTables StarknetTypes StorageTxn BodyProps State StateProps StateTheorems ClientObjects ClientProps.
From S2P Require Import PendingSync Sync SyncProps SyncTheorems CentralSource.

(** ** Index maps *)

Lemma indexmap_foldl_app {V} (l m1 m2 : list (Z * V)) :
  (forall k, k ∈ l.*1 -> k ∉ m1.*1) ->
  foldl (fun m e => (indexmap_insert m e.1 e.2).1) (m1 ++ m2) l = m1 ++ foldl (fun m e => (indexmap_insert m e.1 e.2).1) m2 l.
Proof.
  assert (Hins : forall (m1 m2 : list (Z * V)) k v, k ∉ m1.*1 -> (indexmap_insert (m1 ++ m2) k v).1 = m1 ++ (indexmap_insert m2 k v).1).
  { intros n1 n2 k v. induction n1 as [|[k1 v1] n1 IH]; [done|]. cbn. intros Hk. apply not_elem_of_cons in Hk as [Hne Hk].
    destruct (Z.eqb_spec k1 k); [congruence|]. specialize (IH Hk). destruct (indexmap_insert (n1 ++ n2) k v). cbn in *. by rewrite IH. }
  revert m2. induction l as [|[k v] l IH]; intros m2 Hd; [done|]. cbn [foldl fst snd]. rewrite Hins by (apply Hd; left).
  apply IH. intros k' Hk'. apply Hd. by right.
Qed.

Lemma indexmap_of_app {V} (l1 l2 : list (Z * V)) :
  NoDup l1.*1 -> (forall k, k ∈ l2.*1 -> k ∉ l1.*1) -> indexmap_of (l1 ++ l2) = l1 ++ indexmap_of l2.
Proof.
  intros Hnd Hd. unfold indexmap_of. rewrite foldl_app. fold (indexmap_of l1). rewrite indexmap_of_id by done.
  rewrite <-(app_nil_r l1) at 1. by apply indexmap_foldl_app.
Qed.

(** A map whose values depend on their keys. *)
Lemma elem_of_indexmap_of {V} (f : Z -> V) hs h v :
  (h, v) ∈ indexmap_of ((fun h => (h, f h)) <$> hs) <-> h ∈ hs /\ v = f h.
Proof.
  unfold indexmap_of. cut (forall m : list (Z * V), (forall k w, (k, w) ∈ m -> w = f k) ->
    ((h, v) ∈ foldl (fun m e => (indexmap_insert m e.1 e.2).1) m ((fun h => (h, f h)) <$> hs) <-> (h, v) ∈ m \/ h ∈ hs /\ v = f h)).
  { intros Hm. rewrite Hm by set_solver. set_solver. }
  induction hs as [|k hs IH]; intros m Hm; cbn [fmap list_fmap foldl fst snd]; [set_solver|].
  assert (Hin : forall k' w, (k', w) ∈ (indexmap_insert m k (f k)).1 <-> (k', w) = (k, f k) \/ (k', w) ∈ m).
  { intros k' w. split; [apply indexmap_insert_in|]. clear IH. revert Hm. induction m as [|[k1 v1] m IH]; intros Hm Hor; cbn.
    - destruct Hor as [->|?]; [by left|set_solver].
    - destruct (Z.eqb_spec k1 k) as [->|Hne]; cbn.
      + pose proof (Hm k v1 ltac:(left)) as ->. set_solver.
      + specialize (IH ltac:(intros ?? Hx; apply Hm; by right)). destruct (indexmap_insert m k (f k)) as [m' o]. cbn in *.
        rewrite elem_of_cons in *. naive_solver. }
  rewrite IH, Hin; [|intros ? ? [[= -> ->]|?]%Hin; eauto]. rewrite elem_of_cons. naive_solver.
Qed.

Lemma zip_fmap_r {A B} (f : A -> B) (l : list A) : zip l (f <$> l) = (fun x => (x, f x)) <$> l.
Proof. induction l as [|x l IH]; cbn; [done|]. by rewrite IH. Qed.

(** ** Index maps made of lists *)

(** The value of the last entry with a key. *)
Definition last_value {V} (entries : list (Z * V)) (k : Z) : option V := lookup_list (reverse entries) k.

Lemma lookup_pair_cons {V} (e : Z * V) l k : lookup_list (e :: l) k = if decide (e.1 = k) then Some e.2 else lookup_list l k.
Proof. destruct e as [k1 v]. unfold lookup_list. cbn. by rewrite lookup_insert. Qed.

Lemma lookup_indexmap_insert {V} (m : list (Z * V)) k v k' :
  lookup_list (indexmap_insert m k v).1 k' = if decide (k = k') then Some v else lookup_list m k'.
Proof.
  induction m as [|[k1 v1] m IH]; cbn [indexmap_insert fst]; [by rewrite lookup_pair_cons|].
  destruct (Z.eqb_spec k1 k) as [->|Hne]; cbn [fst].
  - rewrite !lookup_pair_cons. cbn [fst snd]. by case_decide.
  - destruct (indexmap_insert m k v) as [m' old]. cbn [fst] in *. rewrite !lookup_pair_cons, IH. cbn [fst snd]. by repeat case_decide; subst.
Qed.

(** An index map collected from a list has the last value of each key. *)
Lemma lookup_indexmap_of {V} (l : list (Z * V)) k : lookup_list (indexmap_of l) k = last_value l k.
Proof.
  unfold last_value, indexmap_of. induction l as [|[k1 v1] l IH] using rev_ind; [done|].
  rewrite foldl_app, reverse_snoc, lookup_pair_cons. cbn [foldl fst snd]. by rewrite lookup_indexmap_insert, IH.
Qed.

Section Props.
Context {BN : BlockNumberApi} {SN : StateNumberApi} {X : ExternalTypes} {SF : StorageFiles} {HS : HashSetIter}.
Context {SD : StateDiffApi} {CH : ChronoApi}.
Context {BR : BlockRangeApi} {LC : LruApi ApiContractClass} {LCC : LruApi CasmContractClass}.

#[local] Existing Instance sound_central.

(** ** Blocks *)

(** The item of a block is the conversion of what the gateway sent. *)
Definition block_item (client : Z -> ClientResult (option ClientBlock * option BlockSignatureData)) (x : CentralBlock) : Prop :=
  exists block signature, client x.1.1 = inl (Some block, Some signature) /\
    to_starknet_api_block_and_version block tt = Done tt x.1.2 /\ x.2 = signature_of signature.

Lemma client_to_central_block_outcome client bn :
  match client_to_central_block bn (client bn) tt with
  | Done _ (block, signature) => block_promise block /\ block_item client (bn, block, signature)
  | Fail _ _ => True
  | Panic => False
  end.
Proof.
  unfold client_to_central_block. destruct (client bn) as [[[block|] [signature|]]|e] eqn:Hc; try done.
  pose proof (block_conversion_outcome block) as Hg. unfold bind, map_err.
  destruct (to_starknet_api_block_and_version block tt) as [[] b|[] e|] eqn:Hconv; [|done|done].
  destruct Hg as (_ & Hhd & _ & _ & _ & _ & Hwf & _). split; [done|].
  by exists block, signature.
Qed.

(** The items of a download that did not fail are all there. *)
Definition complete {A} (from up_to : Z) (items : list (A + CentralError)) : Prop :=
  (forall e, inr e ∉ items) -> zlength items = Z.max 0 (up_to - from).

Lemma complete_cons {A} from up_to (x : A) items :
  from < up_to -> complete (from + 1) up_to items -> complete from up_to (inl x :: items).
Proof.
  intros Hlt Hc Hno. change (inl x :: items) with ([inl x] ++ items). rewrite zlength_app. change (zlength [inl x]) with 1. rewrite Hc; [lia|].
  intros e He. apply (Hno e). by right.
Qed.

Lemma complete_error {A} from up_to e (items : list (A + CentralError)) : complete from up_to (inr e :: items).
Proof. intros Hno. destruct (Hno e). left. Qed.

Definition blocks_delivered (client : Z -> ClientResult (option ClientBlock * option BlockSignatureData)) (from up_to : Z)
    (items : list (CentralBlock + CentralError)) : Prop :=
  blocks_in_order from up_to items /\ (forall x, inl x ∈ items -> block_item client x) /\ complete from up_to items.

Lemma blocks_of_answers_delivered client up_to :
  forall n from, up_to - from = Z.of_nat n ->
  exists items, blocks_of_answers ((fun bn => (bn, client bn)) <$> seqZ from (up_to - from)) = Some items /\
    blocks_delivered client from up_to items.
Proof.
  intros n. induction n as [|n IH]; intros from Hn.
  { rewrite seqZ_nil by lia. exists []. split; [done|]. split; [done|]. split; [set_solver|]. intros _. unfold zlength. cbn. lia. }
  rewrite seqZ_cons by lia. cbn [fmap list_fmap blocks_of_answers]. pose proof (client_to_central_block_outcome client from) as Hb.
  destruct (client_to_central_block from (client from) tt) as [[] [block signature]|[] e|]; [|exists [inr e]|done].
  - destruct Hb as [Hp Hi]. replace (Z.pred (up_to - from)) with (up_to - Z.succ from) by lia.
    destruct (IH (Z.succ from) ltac:(lia)) as (items & -> & Ho & Hf & Hc). eexists. split; [done|]. split_and!.
    + by split_and!; [|lia|..].
    + intros x [[= ->]|?]%elem_of_cons; auto.
    + apply complete_cons; [lia|done].
  - split; [done|]. split_and!; [done| |apply complete_error]. intros x. rewrite list_elem_of_singleton. done.
Qed.

Lemma stream_new_blocks_delivered client from up_to :
  0 <= from ->
  exists items, stream_new_blocks client from up_to = Some items /\ blocks_delivered client from up_to items.
Proof.
  intros Hf. unfold stream_new_blocks. rewrite iter_up_to_spec by done. destruct (decide (from <= up_to)).
  - apply (blocks_of_answers_delivered client up_to (Z.to_nat (up_to - from))). lia.
  - rewrite seqZ_nil by lia. exists []. split; [done|]. split; [done|]. split; [set_solver|]. intros _. unfold zlength. cbn. lia.
Qed.

(** ** Classes *)

(** [class_at] is the class of each hash; the cache, the storage and the gateway agree
    with it. *)
Definition cache_sound {V} {LC : LruApi V} (value_of : Z -> V) (c : LruCache V) : Prop := forall k v, lru_holds c k v -> v = value_of k.

Definition storage_sound (class_at : Z -> ApiContractClass) (t : StorageTxn) : Prop :=
  (forall h c, class_of t h = Some c -> class_at h = ApiContractClass_ContractClass c) /\
  (forall h c, deprecated_class_of t h = Some c -> class_at h = ApiContractClass_DeprecatedContractClass c).

(** The outcome of a cached download: the value, or an error; the cache stays sound. *)
Definition downloads {V A} {LC : LruApi V} (value_of : Z -> V) (post : A -> Prop) (r : res (LruCache V) CentralError A) : Prop :=
  match r with Done c a => cache_sound value_of c /\ post a | Fail c _ => cache_sound value_of c | Panic => False end.

Lemma cache_put_sound {V} {L : LruApi V} value_of k c : cache_sound value_of c -> cache_sound value_of (lru_put k (value_of k) c).
Proof. intros Hs k' v' Hh. destruct (lru_put_holds _ _ _ _ _ Hh) as [[-> ->]|Hh']; [done|by apply Hs]. Qed.

Lemma cache_get_sound {V} {L : LruApi V} value_of k c r c' :
  cache_sound value_of c -> lru_get k c = (r, c') -> cache_sound value_of c' /\ (forall v, r = Some v -> v = value_of k).
Proof.
  intros Hs Hg. split; [intros k' v Hh; apply Hs; by eapply lru_get_keeps|]. intros v ->. apply Hs. by eapply lru_get_holds.
Qed.

Lemma central_get_class_downloads class_at client h c :
  cache_sound class_at c -> (forall g, client = inl (Some g) -> api_class_of_generic g = class_at h) ->
  downloads class_at (fun a => a = class_at h) (central_get_class client h c).
Proof.
  intros Hs Hc. unfold central_get_class, cache_get, bind. destruct (lru_get h c) as [r c'] eqn:Hg.
  destruct (cache_get_sound _ _ _ _ _ Hs Hg) as [Hs' Hr]. destruct r as [v|]; [by split; [|apply Hr]|].
  destruct client as [[g|]|e]; cbn; [|done|done]. rewrite (Hc g eq_refl). split; [by apply cache_put_sound|done].
Qed.

Lemma get_compiled_class_downloads casm_at client h c :
  cache_sound casm_at c -> (forall g, client = inl (Some g) -> g = casm_at h) ->
  downloads casm_at (fun a => a = casm_at h) (get_compiled_class client h c).
Proof.
  intros Hs Hc. unfold get_compiled_class, cache_get, bind. destruct (lru_get h c) as [r c'] eqn:Hg.
  destruct (cache_get_sound _ _ _ _ _ Hs Hg) as [Hs' Hr]. destruct r as [v|]; [by split; [|apply Hr]|].
  destruct client as [[g|]|e]; cbn; [|done|done]. rewrite (Hc g eq_refl). split; [by apply cache_put_sound|done].
Qed.

Lemma class_definition_found t sn h :
  class_rel t -> match get_class_definition_at sn h t with Done _ o => o = None \/ o = class_of t h | Fail _ _ => True | Panic => False end.
Proof.
  intros Hc. unfold get_class_definition_at, class_of, tbl_get. run_txn. destruct (t_declared_classes_block t !! h) as [b|]; [|by left].
  destruct (is_before sn b); [by left|]. destruct (t_declared_classes t !! h) as [loc|] eqn:Hl.
  - destruct (cr_classes _ Hc _ _ Hl) as [c Hloc].
    rewrite (bind_step _ _ _ _ _ (get_unchecked_located t_contract_class_file _ _ _ Hloc)). right. cbn. by rewrite (proj2 (proj2 Hloc)).
  - unfold get_marker. run_txn. destruct (is_after sn _); [by left|done].
Qed.

Lemma deprecated_class_definition_found t sn h :
  class_rel t ->
  match get_deprecated_class_definition_at sn h t with Done _ o => o = None \/ o = deprecated_class_of t h | Fail _ _ => True | Panic => False end.
Proof.
  intros Hc. unfold get_deprecated_class_definition_at, deprecated_class_of, tbl_get. run_txn.
  destruct (t_deprecated_declared_classes t !! h) as [v|] eqn:Hl; [|by left]. destruct (is_before sn _); [by left|].
  destruct (cr_deprecated _ Hc _ _ Hl) as [c Hloc].
  rewrite (bind_step _ _ _ _ _ (get_unchecked_located t_deprecated_contract_class_file _ _ _ Hloc)). right. cbn. by rewrite (proj2 (proj2 Hloc)).
Qed.

Lemma if_found_downloads {V A B} {L : LruApi V} (value_of : Z -> V) t (m : Txn (option A)) (k : option A -> Cached V B) c post :
  match m t with Done _ o => downloads value_of post (k o c) | Fail _ _ => downloads value_of post (k None c) | Panic => False end ->
  downloads value_of post ((let! o := if_found t m in k o) c).
Proof. unfold bind, if_found. by destruct (m t). Qed.

(** A class that was found is put into the cache and returned. *)
Lemma found_downloads {V} {L : LruApi V} (value_of : Z -> V) h v c :
  cache_sound value_of c -> v = value_of h ->
  downloads value_of (fun a => forall v', a = Some v' -> v' = value_of h) ((cache_put h v ;! ret (Some v)) c).
Proof. intros Hs ->. split; [by apply cache_put_sound|by intros ? [= <-]]. Qed.

Lemma download_class_downloads class_at t client h c :
  cache_sound class_at c -> class_rel t -> storage_sound class_at t ->
  (forall g, client = inl (Some g) -> api_class_of_generic g = class_at h) ->
  downloads class_at (fun a => forall class, a = Some class -> class = class_at h) (download_class_if_necessary t client h c).
Proof.
  intros Hs Hr [Hst Hsd] Hc. unfold download_class_if_necessary, cache_get. unfold bind at 1. destruct (lru_get h c) as [r c'] eqn:Hg.
  destruct (cache_get_sound _ _ _ _ _ Hs Hg) as [Hs' Hv]. destruct r as [v|]; [by split|].
  rewrite (bind_step _ _ _ _ _ (eq_refl : read_storage t get_state_marker c' = Done c' (marker MarkerKind_State t))).
  set (number := unchecked_right_after_block _). apply if_found_downloads. pose proof (class_definition_found t number h Hr) as Hd.
  pose proof (deprecated_class_definition_found t number h Hr) as Hdd.
  destruct (get_class_definition_at number h t) as [t1 [class|]|t1 e|]; [|..|done].
  { destruct Hd as [?|He]; [done|]. apply found_downloads; [done|]. symmetry. by apply Hst. }
  all: apply if_found_downloads; destruct (get_deprecated_class_definition_at number h t) as [t2 [class|]|t2 e'|]; [|..|done];
    [destruct Hdd as [?|He]; [done|]; apply found_downloads; [done|]; symmetry; by apply Hsd|..];
    (destruct client as [[g|]|e2]; [apply found_downloads; auto|done|done]).
Qed.
End Props.

(** * The stream of state updates delivers them in order

    The queues of [StateUpdateStream], however the downloads interleave, hold the
    blocks that follow what was yielded, and the classes of the downloaded state
    updates in the order in which these need them. *)

Section Props.
Context {BN : BlockNumberApi} {SN : StateNumberApi} {X : ExternalTypes} {SF : StorageFiles} {HS : HashSetIter}.
Context {SD : StateDiffApi} {CH : ChronoApi}.
Context {BR : BlockRangeApi} {LC : LruApi ApiContractClass} {LCC : LruApi CasmContractClass}.
Context (config : StateUpdateStreamConfig) (update_of : Z -> StateUpdate) (class_at : Z -> ApiContractClass).

#[local] Existing Instance sound_central.

(** ** The conversion *)

Definition declared_list (d : ClientStateDiff) : list Z := DeclaredClassHashEntry_class_hash <$> ClientStateDiff_declared_classes d.
Definition deployed_list (d : ClientStateDiff) : list Z := DeployedContract_class_hash <$> ClientStateDiff_deployed_contracts d.

(** A state update of the gateway: a class is declared once, with the class of its
    kind, and a contract is not both deployed and replaced. *)
Record update_ok (d : ClientStateDiff) : Prop := {
  uo_hashes : NoDup (declared_list d ++ ClientStateDiff_old_declared_contracts d);
  uo_cairo1 : Forall (fun h => is_Some (into_cairo1 (class_at h))) (declared_list d);
  uo_cairo0 : Forall (fun h => is_Some (into_cairo0 (class_at h))) (ClientStateDiff_old_declared_contracts d);
  uo_nonces : NoDup (ClientStateDiff_nonces d).*1;
  uo_disjoint : forall a, a ∈ DeployedContract_address <$> ClientStateDiff_deployed_contracts d ->
    a ∉ ReplacedClass_address <$> ClientStateDiff_replaced_classes d
}.

(** What is delivered for a state update: its storage cells, nonces, deployed and
    replaced contracts (of repeated keys the last), its own declared classes with their
    definitions, and the definitions of the deployed classes that it does not declare. *)
Definition update_delivered (b : Z) (u : StateUpdate) (x : CentralStateUpdate) : Prop :=
  let '(block_number, block_hash, sd, defs) := x in
  let d := StateUpdate_state_diff u in
  block_number = b /\ block_hash = StateUpdate_block_hash u /\
  Forall2 (fun e c => c.1 = DeclaredClassHashEntry_class_hash e /\ c.2.1 = DeclaredClassHashEntry_compiled_class_hash e /\
    class_at c.1 = ApiContractClass_ContractClass c.2.2) (ClientStateDiff_declared_classes d) (StateDiff_declared_classes sd) /\
  Forall2 (fun h c => c.1 = h /\ class_at h = ApiContractClass_DeprecatedContractClass c.2)
    (ClientStateDiff_old_declared_contracts d) (StateDiff_deprecated_declared_classes sd) /\
  (forall a, option_Forall2 (fun entries client_entries =>
      forall k, lookup_list entries k = last_value ((fun se => (StorageEntry_key se, StorageEntry_value se)) <$> client_entries) k)
    (lookup_list (StateDiff_storage_diffs sd) a) (last_value (ClientStateDiff_storage_diffs d) a)) /\
  (forall a, lookup_list (StateDiff_deployed_contracts sd) a =
    last_value ((fun dc => (DeployedContract_address dc, DeployedContract_class_hash dc)) <$> ClientStateDiff_deployed_contracts d) a) /\
  (forall a, lookup_list (StateDiff_replaced_classes sd) a =
    last_value ((fun rc => (ReplacedClass_address rc, ReplacedClass_class_hash rc)) <$> ClientStateDiff_replaced_classes d) a) /\
  StateDiff_nonces sd = ClientStateDiff_nonces d /\
  (forall h c, (h, c) ∈ defs <-> h ∈ deployed_list d /\ h ∉ declared_list d ++ ClientStateDiff_old_declared_contracts d /\
    class_at h = ApiContractClass_DeprecatedContractClass c).

Lemma all_cairo1_done (classes : list (Z * ApiContractClass)) :
  Forall (fun hc => is_Some (into_cairo1 hc.2)) classes ->
  exists cs, (forall S E (s : S), all_cairo1 (E := E) classes s = Done s cs) /\
    Forall2 (fun hc c => c.1 = hc.1 /\ hc.2 = ApiContractClass_ContractClass c.2) classes cs.
Proof.
  induction 1 as [|[h class] classes [c Hc] _ (cs & IH & IHf)]; [by exists []|]. destruct class as [|c0]; [done|].
  exists ((h, c0) :: cs). split; [|by constructor]. intros S E s. cbn. unfold bind, ret. by rewrite IH.
Qed.

Lemma all_cairo0_done (classes : list (Z * ApiContractClass)) :
  Forall (fun hc => is_Some (into_cairo0 hc.2)) classes ->
  exists cs, (forall S E (s : S), all_cairo0 (E := E) classes s = Done s cs) /\
    Forall2 (fun hc c => c.1 = hc.1 /\ hc.2 = ApiContractClass_DeprecatedContractClass c.2) classes cs.
Proof.
  induction 1 as [|[h class] classes [c Hc] _ (cs & IH & IHf)]; [by exists []|]. destruct class as [c0|]; [|done].
  exists ((h, c0) :: cs). split; [|by constructor]. intros S E s. cbn. unfold bind, ret. by rewrite IH.
Qed.

Lemma Forall2_fst {A B} (P : Z * A -> Z * B -> Prop) l k : Forall2 (fun x y => y.1 = x.1 /\ P x y) l k -> k.*1 = l.*1.
Proof. induction 1 as [|x y l k [Hx _] _ IH]; cbn; [done|]. by rewrite Hx, IH. Qed.

(** The classes by their hashes. *)
Definition with_classes (hs : list Z) : list (Z * ApiContractClass) := (fun h => (h, class_at h)) <$> hs.

Lemma with_classes_fst hs : (with_classes hs).*1 = hs.
Proof. unfold with_classes. rewrite <-list_fmap_compose. apply list_fmap_id. Qed.

(** The map of the classes of a state update: the declared ones, the deprecated
    declared ones, and those of the deployed contracts. *)
Lemma class_map_split d : update_ok d ->
  indexmap_of (with_classes (class_hashes d)) =
    with_classes (declared_list d) ++ with_classes (ClientStateDiff_old_declared_contracts d) ++
    indexmap_of (with_classes (filter (fun h => h ∉ declared_list d ++ ClientStateDiff_old_declared_contracts d) (deployed_list d))).
Proof.
  intros [Hnd _ _ _ _]. unfold class_hashes. fold (declared_list d). fold (deployed_list d).
  assert (Happ : forall l1 l2, with_classes (l1 ++ l2) = with_classes l1 ++ with_classes l2) by (intros; apply fmap_app).
  rewrite Happ, indexmap_of_app; rewrite ?with_classes_fst; [|done|].
  - by rewrite Happ, <-app_assoc.
  - intros k Hk. apply list_elem_of_filter in Hk. tauto.
Qed.

Lemma Forall_with_classes (P : ApiContractClass -> Prop) hs : Forall (fun h => P (class_at h)) hs -> Forall (fun hc => P hc.2) (with_classes hs).
Proof. intros Hf. by apply Forall_fmap. Qed.

Lemma zlength_with_classes hs : zlength (with_classes hs) = zlength hs.
Proof. unfold zlength, with_classes. by rewrite length_fmap. Qed.

(** The definitions of the classes of the deployed contracts. *)
Definition definitions_of (classes : list (Z * ApiContractClass)) : list (Z * DeprecatedContractClass) :=
  omap (fun '(class_hash, contract_class) => pair class_hash <$> into_cairo0 contract_class) classes.

Lemma elem_of_definitions classes h c :
  (h, c) ∈ definitions_of classes <-> (h, ApiContractClass_DeprecatedContractClass c) ∈ classes.
Proof.
  unfold definitions_of. rewrite list_elem_of_omap. split.
  - intros ([h' class] & Hin & Hc). destruct class as [c'|]; [|done]. injection Hc as -> ->. done.
  - intros Hin. by exists (h, ApiContractClass_DeprecatedContractClass c).
Qed.

Lemma definitions_NoDup classes : NoDup classes.*1 -> NoDup (definitions_of classes).*1.
Proof.
  induction classes as [|[h class] classes IH]; [intros _; constructor|]. cbn. intros [Hh Hnd]%NoDup_cons.
  destruct class as [c|c]; cbn; [|by apply IH]. apply NoDup_cons. split; [|by apply IH].
  intros Hin. apply Hh. apply list_elem_of_fmap in Hin as ([h' c'] & -> & Hin). apply elem_of_definitions in Hin.
  apply list_elem_of_fmap. exists (h', ApiContractClass_DeprecatedContractClass c'). done.
Qed.

(** The declared classes with their compiled class hashes. *)
Lemma zip_declared (entries : list DeclaredClassHashEntry) (cs : list (Z * ContractClass)) :
  Forall2 (fun hc c => c.1 = hc.1 /\ hc.2 = ApiContractClass_ContractClass c.2)
    (with_classes (DeclaredClassHashEntry_class_hash <$> entries)) cs ->
  let declared := zip_with (fun '(class_hash, class) compiled_class_hash => (class_hash, (compiled_class_hash, class))) cs
    (DeclaredClassHashEntry_compiled_class_hash <$> entries) in
  Forall2 (fun e c => c.1 = DeclaredClassHashEntry_class_hash e /\ c.2.1 = DeclaredClassHashEntry_compiled_class_hash e /\
    class_at c.1 = ApiContractClass_ContractClass c.2.2) entries declared /\
  declared.*1 = DeclaredClassHashEntry_class_hash <$> entries.
Proof.
  revert cs; induction entries as [|e entries IH]; intros cs Hf; cbn in Hf.
  - apply Forall2_nil_inv_l in Hf as ->. by split.
  - apply Forall2_cons_inv_l in Hf as ([h c] & cs' & [Hh Hc] & Hf & ->). cbn in *. destruct (IH cs' Hf) as [IH1 IH2]. split.
    + constructor; [|done]. cbn. by rewrite Hh.
    + by rewrite Hh, IH2.
Qed.

Lemma deprecated_delivered (hs : list Z) (cs : list (Z * DeprecatedContractClass)) :
  Forall2 (fun hc c => c.1 = hc.1 /\ hc.2 = ApiContractClass_DeprecatedContractClass c.2) (with_classes hs) cs ->
  Forall2 (fun h c => c.1 = h /\ class_at h = ApiContractClass_DeprecatedContractClass c.2) hs cs.
Proof. unfold with_classes. by rewrite Forall2_fmap_l. Qed.

Lemma indexmap_of_in {V} (entries : list (Z * V)) e : e ∈ indexmap_of entries -> e ∈ entries.
Proof.
  unfold indexmap_of. cut (forall m : list (Z * V), e ∈ foldl (fun m e => (indexmap_insert m e.1 e.2).1) m entries -> e ∈ m ++ entries).
  { intros Hm Hi. by apply (Hm []). }
  induction entries as [|[k1 v1] entries IH]; intros m Hi; cbn [foldl] in Hi; [by rewrite app_nil_r|].
  apply IH, elem_of_app in Hi as [Hi|Hi]; [|set_solver]. destruct e as [k v]. cbn in Hi.
  apply indexmap_insert_in in Hi as [->|?]; set_solver.
Qed.

Lemma keys_of_indexmap {A V} (f : A -> Z * V) (l : list A) k : k ∈ (indexmap_of (f <$> l)).*1 -> k ∈ (fst ∘ f) <$> l.
Proof.
  intros (e & -> & Hk)%list_elem_of_fmap. apply indexmap_of_in, list_elem_of_fmap in Hk as (x & -> & Hin).
  apply list_elem_of_fmap. by exists x.
Qed.

Lemma split_off_app {S E V} (m1 m2 : list (Z * V)) n (s : S) : n = zlength m1 -> split_off (E := E) (m1 ++ m2) n s = Done s (m1, m2).
Proof.
  intros ->. unfold split_off, zlength. rewrite length_app, (proj2 (Z.ltb_ge _ _)) by lia. rewrite Nat2Z.id.
  by rewrite take_app_length, drop_app_length.
Qed.

Lemma last_value_fmap {V W} (f : V -> W) (l : list (Z * V)) a :
  last_value ((fun '(k, v) => (k, f v)) <$> l) a = f <$> last_value l a.
Proof.
  unfold last_value. rewrite <-fmap_reverse. induction (reverse l) as [|[k v] l' IH]; [done|]. cbn [fmap list_fmap].
  change (list_fmap _ _ ?f l') with (f <$> l'). rewrite !lookup_pair_cons, IH. cbn [fst snd]. by case_decide.
Qed.

Lemma last_value_storage (l : list (Z * list StorageEntry)) a :
  option_Forall2 (fun entries client_entries =>
      forall k, lookup_list entries k = last_value ((fun se => (StorageEntry_key se, StorageEntry_value se)) <$> client_entries) k)
    (lookup_list (indexmap_of ((fun '(address, entries) =>
        (address, indexmap_of ((fun se => (StorageEntry_key se, StorageEntry_value se)) <$> entries))) <$> l)) a) (last_value l a).
Proof.
  rewrite lookup_indexmap_of, (last_value_fmap (fun entries => indexmap_of ((fun se => (StorageEntry_key se, StorageEntry_value se)) <$> entries))).
  destruct (last_value l a) as [es|]; constructor. intros k. apply lookup_indexmap_of.
Qed.

Lemma conversion_done b (u : StateUpdate) :
  let d := StateUpdate_state_diff u in
  update_ok d ->
  exists x, (forall S E (s : S), client_to_central_state_update (E := E) b u (indexmap_of (with_classes (class_hashes d))) s = Done s x) /\
    update_delivered b u x /\ state_diff_ok x.1.2 x.2 /\ x.1.1.1 = b.
Proof.
  intros d Hok. rewrite class_map_split by done. pose proof Hok as [Hnd H1 H0 Hn Hdis].
  destruct (all_cairo1_done (with_classes (declared_list d))) as (cs1 & Hcs1 & Hf1); [by apply (Forall_with_classes (fun c => is_Some (into_cairo1 c)))|].
  destruct (all_cairo0_done (with_classes (ClientStateDiff_old_declared_contracts d))) as (cs0 & Hcs0 & Hf0);
    [by apply (Forall_with_classes (fun c => is_Some (into_cairo0 c)))|].
  destruct (zip_declared _ _ Hf1) as [Hz1 Hz2]. pose proof (Forall2_fst _ _ _ Hf0) as Hk0. rewrite with_classes_fst in Hk0.
  apply NoDup_app in Hnd as Hnd'. destruct Hnd' as (Hnd1 & Hnd2 & Hnd3).
  set (deployed := indexmap_of (with_classes (filter _ _))).
  assert (Hdefs : forall h c, (h, c) ∈ definitions_of deployed <-> h ∈ deployed_list d /\
    h ∉ declared_list d ++ ClientStateDiff_old_declared_contracts d /\ class_at h = ApiContractClass_DeprecatedContractClass c).
  { intros h c. rewrite elem_of_definitions. unfold deployed, with_classes. rewrite elem_of_indexmap_of, list_elem_of_filter. naive_solver. }
  assert (Hndefs : NoDup (definitions_of deployed).*1) by (apply definitions_NoDup, indexmap_of_NoDup).
  eexists. split; [|split; [|split]].
  - intros S E s. unfold client_to_central_state_update. fold d. unfold bind at 1.
    rewrite split_off_app by (rewrite zlength_with_classes; unfold declared_list, zlength; by rewrite length_fmap).
    unfold bind at 1. rewrite split_off_app by (by rewrite zlength_with_classes).
    unfold bind at 1. rewrite Hcs1. unfold bind at 1. rewrite Hcs0. reflexivity.
  - cbn. fold d. fold (definitions_of deployed). rewrite !indexmap_of_id by (rewrite ?Hz2, ?Hk0; done).
    split_and!; [done|done|done|by apply deprecated_delivered|intros a; apply last_value_storage|intros a; apply lookup_indexmap_of|intros a; apply lookup_indexmap_of|done|rewrite indexmap_of_id by done; exact Hdefs].
  - fold (definitions_of deployed). split; cbn; fold d; rewrite ?indexmap_of_id by (rewrite ?Hz2, ?Hk0; done); try apply indexmap_of_NoDup; try done.
    + apply Forall_forall. intros [a es] Hin. apply indexmap_of_in, list_elem_of_fmap in Hin as ([a' es'] & [= -> ->] & _). apply indexmap_of_NoDup.
    + by rewrite Hz2.
    + intros a Ha Hr. apply keys_of_indexmap in Ha, Hr. by eapply Hdis.
    + rewrite Hk0. apply NoDup_app. split; [done|]. split; [|done]. intros h Hh ([h' c] & -> & Hin)%list_elem_of_fmap.
      apply Hdefs in Hin as (_ & Hno & _). apply Hno, elem_of_app. by right.
  - done.
Qed.

(** ** The queues *)

Section Stream.
Context (from up_to : Z) (from_ok : 0 <= from) (up_to_ok : up_to < 2 ^ 32).
Context (updates_ok : forall b, from <= b < up_to -> update_ok (StateUpdate_state_diff (update_of b))).

Definition hashes_of (b : Z) : list Z := class_hashes (StateUpdate_state_diff (update_of b)).

Definition delivered (b : Z) (x : CentralStateUpdate) : Prop := update_delivered b (update_of b) x /\ state_diff_ok x.1.2 x.2.

(** After [k] yielded state updates, [d] are downloaded and the next ones are being
    downloaded; the classes of the downloaded ones are the downloaded classes, those
    being downloaded and those to download, in order. *)
Record queues (s : StateUpdateStream) (k d m : Z) (have : list Z) : Prop := {
  qu_nonneg : 0 <= k /\ 0 <= d /\ 0 <= m;
  qu_up_to : su_up_to_block_number s = up_to;
  qu_updates : su_downloaded_state_updates s = (fun b => (b, zlength (hashes_of b), update_of b)) <$> seqZ (from + k) d;
  qu_tasks : su_download_state_update_tasks s = seqZ (from + k + d) m;
  qu_initial : su_initial_block_number s = from + k + d + m;
  qu_range : from + k + d + m <= Z.max from up_to;
  qu_have : su_downloaded_classes s = class_at <$> have;
  qu_classes : concat (hashes_of <$> seqZ (from + k) d) = have ++ su_download_class_tasks s ++ su_classes_to_download s
}.

(** What the configuration bounds. *)
Record bounded (s : StateUpdateStream) : Prop := {
  bo_tasks : zlength (su_download_state_update_tasks s) <= Z.max 0 (max_state_updates_to_download config);
  bo_updates : zlength (su_downloaded_state_updates s) <= Z.max 0 (max_state_updates_to_store_in_memory config);
  bo_classes : zlength (su_download_class_tasks s) <= Z.max 0 (max_classes_to_download config)
}.

Lemma schedule_classes_spec max q : forall t, let '(q', t', scheduled) := schedule_classes max q t in
  t' ++ q' = t ++ q /\ zlength t' <= Z.max (zlength t) max /\
  (scheduled = false -> q' = q /\ t' = t /\ (q = [] \/ max <= zlength t)).
Proof.
  induction q as [|h q IH]; intros t; cbn [schedule_classes]; [split_and!; [done|lia|auto]|].
  destruct (Z.ltb_spec (zlength t) max).
  - specialize (IH (t ++ [h])). destruct (schedule_classes max q (t ++ [h])) as [[q' t'] f]. destruct IH as (-> & Hl & _).
    rewrite zlength_snoc in Hl. split_and!; [by rewrite <-app_assoc|lia|done].
  - split_and!; [done|lia|auto].
Qed.

Lemma schedule_updates_spec max fuel : forall initial t,
  0 <= initial -> (Z.to_nat (up_to - initial) <= fuel)%nat ->
  exists i' t' scheduled, schedule_updates fuel max up_to initial t = Some (i', t', scheduled) /\
    initial <= i' <= Z.max initial up_to /\ t' = t ++ seqZ initial (i' - initial) /\ zlength t' <= Z.max (zlength t) max /\
    (scheduled = false -> i' = initial /\ (up_to <= initial \/ max <= zlength t)).
Proof.
  induction fuel as [|fuel IH]; intros initial t H0 Hf; cbn [schedule_updates];
    destruct (Z.ltb_spec initial up_to), (Z.ltb_spec (zlength t) max); cbn [andb]; try lia.
  all: try (do 3 eexists; split; [done|]; rewrite Z.sub_diag, seqZ_nil, app_nil_r by lia; split_and!; [lia|lia|done|lia|auto]).
  rewrite bn_unchecked_next_small by lia. destruct (IH (initial + 1) (t ++ [initial])) as (i' & t' & sc & -> & Hi & -> & Hl & _); [lia|lia|].
  do 3 eexists. split; [done|]. split; [lia|]. rewrite (seqZ_cons initial) by lia. rewrite <-app_assoc. cbn [app].
  replace (Z.pred (i' - initial)) with (i' - (initial + 1)) by lia. unfold Z.succ. split; [done|]. split; [|done].
  rewrite zlength_snoc, <-app_assoc in Hl. cbn [app] in Hl. lia.
Qed.

(** The downloads of the state updates: what the class queues do not touch. *)
Definition same_updates (s s' : StateUpdateStream) : Prop :=
  su_initial_block_number s' = su_initial_block_number s /\ su_up_to_block_number s' = su_up_to_block_number s /\
  su_download_state_update_tasks s' = su_download_state_update_tasks s /\ su_downloaded_state_updates s' = su_downloaded_state_updates s.

(** Nothing more can be scheduled. *)
Definition classes_idle (s : StateUpdateStream) : Prop :=
  su_classes_to_download s = [] \/ max_classes_to_download config <= zlength (su_download_class_tasks s).
Definition updates_idle (s : StateUpdateStream) : Prop :=
  up_to <= su_initial_block_number s \/ max_state_updates_to_download config <= zlength (su_download_state_update_tasks s).

Lemma schedule_class_downloads_queues s k d m have :
  queues s k d m have -> bounded s ->
  exists s' f, schedule_class_downloads config s = Done s' f /\ queues s' k d m have /\ bounded s' /\ same_updates s s' /\
    su_download_class_tasks s' = class_tasks_polled config s /\ (f = false -> s' = s /\ classes_idle s).
Proof.
  intros [] []. unfold schedule_class_downloads, class_tasks_polled, classes_idle. rewrite bind_get.
  pose proof (schedule_classes_spec (max_classes_to_download config) (su_classes_to_download s) (su_download_class_tasks s)) as Hs.
  destruct (schedule_classes _ _ _) as [[q' t'] f]. destruct Hs as (Happ & Hl & Hf).
  do 2 eexists. split; [reflexivity|]. split; [split; cbn; try done; by rewrite Happ|]. split; [split; cbn; try done; lia|].
  split; [done|]. split; [done|]. intros ->. destruct (Hf eq_refl) as (-> & -> & Hi). split; [by destruct s|done].
Qed.

(** The outcome of a part of an iteration. *)
Definition proceeds (post : StateUpdateStream -> bool -> Prop) (r : res StateUpdateStream CentralError bool) : Prop :=
  match r with Done s f => post s f | Fail _ _ => True | Panic => False end.

Lemma handle_downloaded_classes_queues s k d m have poll :
  queues s k d m have -> bounded s -> class_answer class_at (su_download_class_tasks s) poll ->
  proceeds (fun s' f => exists have', queues s' k d m have' /\ bounded s' /\ same_updates s s' /\ (f = false -> s' = s))
    (handle_downloaded_classes poll s).
Proof.
  intros Hq Hb Ha. unfold handle_downloaded_classes. rewrite bind_get.
  destruct (su_download_class_tasks s) as [|h tasks] eqn:Ht; [by exists have|]. destruct poll as [[[class|]|e]|]; try done; [|by exists have].
  rewrite bind_modify, bind_modify. rewrite (Ha class eq_refl h eq_refl). exists (have ++ [h]). destruct Hq, Hb. rewrite Ht in *.
  split; [split; cbn; try done; [by rewrite qu_have0, fmap_app|by rewrite <-app_assoc]|]. split; [|by split].
  split; cbn; try done. unfold zlength in *. cbn in *. lia.
Qed.

Lemma schedule_state_update_downloads_queues s k d m have :
  queues s k d m have -> bounded s ->
  exists s' f m', schedule_state_update_downloads config s = Done s' f /\ queues s' k d m' have /\ bounded s' /\
    su_download_state_update_tasks s' = update_tasks_polled config s /\ su_download_class_tasks s' = su_download_class_tasks s /\
    su_classes_to_download s' = su_classes_to_download s /\ (f = false -> s' = s /\ updates_idle s).
Proof.
  intros [] []. unfold schedule_state_update_downloads, update_tasks_polled, updates_idle. rewrite bind_get. rewrite qu_up_to0.
  destruct (schedule_updates_spec (max_state_updates_to_download config) (Z.to_nat (up_to - su_initial_block_number s))
    (su_initial_block_number s) (su_download_state_update_tasks s)) as (i' & t' & f & -> & Hi & Ht & Hl & Hf); [lia|lia|].
  cbn [expect]. rewrite bind_ret, bind_modify. exists (set_update_tasks i' t' s), f, (m + (i' - su_initial_block_number s)).
  split; [done|]. split; [split; cbn; try done; try lia|].
  - rewrite Ht, qu_tasks0, seqZ_app by lia. do 2 f_equal; lia.
  - split; [split; cbn; try done; lia|]. split; [done|]. split; [done|]. split; [done|]. intros ->. destruct (Hf eq_refl) as [-> Hid].
    split; [|done]. rewrite Ht, Z.sub_diag, seqZ_nil, app_nil_r by lia. by destruct s.
Qed.

Lemma seqZ_one a : seqZ a 1 = [a].
Proof. rewrite seqZ_cons by lia. by rewrite seqZ_nil by lia. Qed.

Lemma zlength_seqZ a n : 0 <= n -> zlength (seqZ a n) = n.
Proof. intros Hn. unfold zlength. rewrite length_seqZ. lia. Qed.

Lemma handle_downloaded_state_updates_queues s k d m have poll :
  queues s k d m have -> bounded s -> update_answer update_of (su_download_state_update_tasks s) poll ->
  proceeds (fun s' f => exists d' m', queues s' k d' m' have /\ bounded s' /\ (f = false -> s' = s))
    (handle_downloaded_state_updates config poll s).
Proof.
  intros Hq Hb Ha. unfold handle_downloaded_state_updates. rewrite bind_get. destruct (Z.leb_spec (max_state_updates_to_store_in_memory config)
    (zlength (su_downloaded_state_updates s))) as [|Hroom]; [by exists d, m|]. pose proof Hq as [].
  destruct (su_download_state_update_tasks s) as [|b tasks] eqn:Ht; [by exists d, m|]. destruct poll as [[[u|]|e]|]; try done; [|by exists d, m].
  rewrite bind_modify, bind_modify, bind_modify. rewrite (Ha u eq_refl b eq_refl). fold (hashes_of b).
  assert (Hm : 0 < m). { destruct (decide (m = 0)) as [->|]; [by rewrite seqZ_nil in qu_tasks0 by lia|lia]. }
  rewrite seqZ_cons in qu_tasks0 by lia. injection qu_tasks0 as -> ->.
  exists (d + 1), (m - 1). split; [split; cbn; try done; try lia|].
  - rewrite qu_updates0, (seqZ_app _ d 1) by lia. by rewrite fmap_app.
  - f_equal; lia.
  - rewrite (seqZ_app _ d 1) by lia. rewrite fmap_app, concat_app, qu_classes0, seqZ_one. cbn. rewrite app_nil_r. by rewrite <-!app_assoc.
  - split; [|done]. destruct Hb. rewrite Ht in *. split; cbn; try done; [|rewrite zlength_snoc; lia]. unfold zlength in *. cbn in *. lia.
Qed.

(** *** The output *)

Lemma app_prefix {A} (h r a b : list A) : h ++ r = a ++ b -> (length h <= length a)%nat -> exists a', a = h ++ a' /\ r = a' ++ b.
Proof.
  revert a; induction h as [|x h IH]; intros a He Hl; [by exists a|]. destruct a as [|y a]; [cbn in Hl; lia|].
  injection He as -> He. destruct (IH a He) as (a' & -> & ->); [cbn in Hl; lia|]. by exists a'.
Qed.

Lemma next_output_queues s k d m have :
  queues s k d m have ->
  match next_output s with
  | Done s' None => s' = s /\ (d = 0 \/ 0 < d /\ zlength have < zlength (hashes_of (from + k)))
  | Done s' (Some x) => delivered (from + k) x /\ (bounded s -> bounded s') /\ exists have', queues s' (k + 1) (d - 1) m have'
  | _ => False
  end.
Proof.
  intros Hq. pose proof Hq as []. unfold next_output. rewrite bind_get, qu_updates0. destruct (decide (d = 0)) as [->|Hd].
  { rewrite seqZ_nil by lia. split; [done|by left]. }
  assert (Hd0 : 0 < d) by lia. rewrite seqZ_cons in qu_updates0, qu_classes0 |- * by lia. cbn [fmap list_fmap] in *.
  rewrite qu_have0. replace (zlength (class_at <$> have)) with (zlength have) by (unfold zlength; by rewrite length_fmap).
  destruct (Z.ltb_spec (zlength have) (zlength (hashes_of (from + k)))) as [|Hle]; [split; [done|by right]|].
  cbn [concat] in qu_classes0. destruct (app_prefix _ _ _ _ qu_classes0) as (have' & -> & Hrest); [unfold zlength in Hle; lia|].
  rewrite bind_modify, bind_modify. unfold zlength at 1. rewrite Nat2Z.id, fmap_app, take_app_le, take_ge by (rewrite length_fmap; lia).
  fold (hashes_of (from + k)). rewrite zip_fmap_r. destruct (conversion_done (from + k) (update_of (from + k))) as (x & Hx & Hdel & Hok & _).
  { apply updates_ok. lia. }
  unfold bind. unfold hashes_of, with_classes in *. rewrite Hx. split; [by split|]. split.
  - intros []. split; cbn; try done. rewrite qu_updates0 in *. unfold zlength in *. cbn in *. lia.
  - exists have'. split; cbn; try done; try lia.
    + by replace (Z.pred d) with (d - 1) by lia; replace (Z.succ (from + k)) with (from + (k + 1)) by lia.
    + rewrite qu_tasks0. f_equal. lia.
    + rewrite drop_app_length'; [done|]. unfold zlength. rewrite length_fmap. lia.
    + rewrite <-Hrest. do 3 f_equal; lia.
Qed.

(** *** An iteration *)

(** Where the stream is, with what it yielded. *)
Definition stream_at (s : StateUpdateStream) (yielded : list CentralStateUpdate) : Prop :=
  bounded s /\ Forall2 delivered (seqZ from (zlength yielded)) yielded /\ exists d m have, queues s (zlength yielded) d m have.

Lemma do_scheduling_queues s k d m have class_poll update_poll :
  queues s k d m have -> bounded s -> class_answer class_at (class_tasks_polled config s) class_poll ->
  update_answer update_of (update_tasks_polled config s) update_poll ->
  proceeds (fun s' f => bounded s' /\ (exists d' m' have', queues s' k d' m' have') /\ (f = false -> classes_idle s' /\ updates_idle s'))
    (do_scheduling config class_poll update_poll s).
Proof.
  intros Hq Hb Hc Hu. unfold do_scheduling.
  destruct (schedule_class_downloads_queues _ _ _ _ _ Hq Hb) as (s1 & f1 & H1 & Hq1 & Hb1 & (E1 & E2 & E3 & E4) & Ht1 & Hf1).
  rewrite (bind_step _ _ _ _ _ H1). rewrite <-Ht1 in Hc. pose proof (handle_downloaded_classes_queues _ _ _ _ _ _ Hq1 Hb1 Hc) as H2.
  unfold bind at 1. destruct (handle_downloaded_classes class_poll s1) as [s2 f2|s2 e|]; [|done|done].
  destruct H2 as (have2 & Hq2 & Hb2 & (G1 & G2 & G3 & G4) & Hf2).
  destruct (schedule_state_update_downloads_queues _ _ _ _ _ Hq2 Hb2) as (s3 & f3 & m3 & H3 & Hq3 & Hb3 & Ht3 & _ & _ & Hf3).
  rewrite (bind_step _ _ _ _ _ H3).
  assert (Hsame : update_tasks_polled config s = update_tasks_polled config s2).
  { unfold update_tasks_polled. by rewrite G1, G2, G3, E1, E2, E3. }
  rewrite Hsame, <-Ht3 in Hu. pose proof (handle_downloaded_state_updates_queues _ _ _ _ _ _ Hq3 Hb3 Hu) as H4.
  unfold bind at 1. destruct (handle_downloaded_state_updates config update_poll s3) as [s4 f4|s4 e|]; [|done|done].
  destruct H4 as (d4 & m4 & Hq4 & Hb4 & Hf4). split; [done|]. split; [by exists d4, m4, have2|].
  destruct f1, f2, f3, f4; try done. intros _. rewrite (Hf4 eq_refl). destruct (Hf3 eq_refl) as [-> Hu3]. rewrite (Hf2 eq_refl) in *.
  destruct (Hf1 eq_refl) as [-> Hc1]. done.
Qed.

(** The stream ends only when every state update was yielded. *)
Lemma exhausted_all s k d m have :
  0 < max_state_updates_to_download config -> 0 < max_classes_to_download config ->
  queues s k d m have -> classes_idle s -> updates_idle s -> su_download_class_tasks s = [] -> su_download_state_update_tasks s = [] ->
  d = 0 \/ 0 < d /\ zlength have < zlength (hashes_of (from + k)) -> k = Z.max 0 (up_to - from).
Proof.
  intros Hmu Hmc [] Hci Hui Hct Hut Hout. unfold classes_idle, updates_idle in *. rewrite Hct, Hut in *. change (zlength (@nil Z)) with 0 in *.
  destruct Hci as [Hci|]; [|lia]. destruct Hui as [Hui|]; [|lia].
  assert (m = 0). { destruct (decide (m = 0)); [done|]. by rewrite seqZ_cons in qu_tasks0 by lia. }
  destruct Hout as [->|[Hd Hlt]]; [lia|]. exfalso. rewrite Hci, !app_nil_r in qu_classes0.
  rewrite seqZ_cons in qu_classes0 by lia. cbn in qu_classes0. rewrite <-qu_classes0, zlength_app in Hlt.
  pose proof (zlength_nonneg (concat (hashes_of <$> seqZ (Z.succ (from + k)) (Z.pred d)))). lia.
Qed.

Definition stream_inv (st : UpdateStreamState) : Prop :=
  match st with
  | Su_Running s yielded => stream_at s yielded
  | Su_Exhausted yielded => Forall2 delivered (seqZ from (Z.max 0 (up_to - from))) yielded
  | Su_Failed yielded _ => Forall2 delivered (seqZ from (zlength yielded)) yielded /\ from + zlength yielded <= Z.max from up_to
  | Su_Panicked => False
  end.

Lemma update_stream_step_inv st st' :
  0 < max_state_updates_to_download config -> 0 < max_classes_to_download config ->
  update_stream_step config update_of class_at st st' -> stream_inv st -> stream_inv st'.
Proof.
  intros Hmu Hmc Hst Hinv. destruct Hst as [s yielded class_poll update_poll Hc Hu].
  destruct Hinv as (Hb & Hy & d & m & have & Hq). pose proof (do_scheduling_queues _ _ _ _ _ _ _ Hq Hb Hc Hu) as Hd.
  unfold poll_iteration, bind at 1. destruct (do_scheduling config class_poll update_poll s) as [s1 f|s1 e|]; [| |done].
  2: { cbn. split; [done|]. destruct Hq. lia. }
  destruct Hd as (Hb1 & (d1 & m1 & have1 & Hq1) & Hidle). pose proof (next_output_queues _ _ _ _ _ Hq1) as Ho.
  unfold bind at 1. destruct (next_output s1) as [s2 [x|]|s2 e|]; [| |done|done].
  - destruct Ho as (Hx & Hb2 & have2 & Hq2). cbn. split; [auto|]. rewrite zlength_snoc. split; [|eauto].
    rewrite seqZ_app, seqZ_one by (pose proof (zlength_nonneg yielded); lia). apply Forall2_app; [done|]. by constructor.
  - destruct Ho as [-> Hout]. destruct f; [by split_and!; [..|eauto]|]. destruct (Hidle eq_refl) as [Hci Hui]. rewrite bind_get.
    destruct (su_download_class_tasks s1) eqn:E1; [|by split_and!; [..|eauto]].
    destruct (su_download_state_update_tasks s1) eqn:E2; [|by split_and!; [..|eauto]].
    cbn. by rewrite <-(exhausted_all _ _ _ _ _ Hmu Hmc Hq1 Hci Hui E1 E2 Hout).
Qed.

Lemma new_stream_inv : stream_inv (Su_Running (new_state_update_stream from up_to) []).
Proof.
  split; [split; cbn; unfold zlength; cbn; lia|]. split; [by rewrite seqZ_nil by (unfold zlength; cbn; lia)|]. exists 0, 0, [].
  change (zlength (@nil CentralStateUpdate)) with 0. split; cbn; try done; try lia; rewrite ?seqZ_nil by lia; done.
Qed.
End Stream.
End Props.

(** * The central source keeps its promises

    The downloads of the gateway, as the synchronisation consumes them: blocks and
    state updates in order, each converted from the gateway's answer for its number,
    and classes that do not depend on where they were found. *)

Section Theorems.
Context {BN : BlockNumberApi} {SN : StateNumberApi} {X : ExternalTypes} {SF : StorageFiles} {HS : HashSetIter}.
Context {SD : StateDiffApi} {CH : ChronoApi}.
Context {BR : BlockRangeApi} {LC : LruApi ApiContractClass} {LCC : LruApi CasmContractClass}.

#[local] Existing Instance sound_central.

(** A download of blocks never panics and delivers the blocks from the number asked
    for on, in order and without a gap, each well formed and converted, with its
    signature, from the gateway's answer for its number; it stops at the first error
    and otherwise delivers all of them. *)
Theorem new_blocks_in_order (client : Z -> ClientResult (option ClientBlock * option BlockSignatureData)) (from up_to : Z) :
  0 <= from ->
  exists items, stream_new_blocks client from up_to = Some items /\
    blocks_in_order from up_to items /\
    (forall x, inl x ∈ items -> block_item client x) /\
    ((forall e, inr e ∉ items) -> zlength items = Z.max 0 (up_to - from)).
Proof. apply stream_new_blocks_delivered. Qed.

(** The items that the user of the stream sees when it has ended. *)
Definition items_of (st : UpdateStreamState) : option (list (CentralStateUpdate + CentralError)) :=
  match st with
  | Su_Exhausted yielded => Some (inl <$> yielded)
  | Su_Failed yielded e => Some ((inl <$> yielded) ++ [inr e])
  | _ => None
  end.

Lemma delivered_in_order update_of class_at up_to (tail : list (CentralStateUpdate + CentralError)) ys :
  tail = [] \/ (exists e, tail = [inr e]) ->
  forall from, from + zlength ys <= Z.max from up_to -> Forall2 (delivered update_of class_at) (seqZ from (zlength ys)) ys ->
  diffs_in_order from up_to ((inl <$> ys) ++ tail).
Proof.
  intros Ht. induction ys as [|[[[b h] sd] defs] ys IH]; intros from Hle Hf; [by destruct Ht as [->|[e ->]]|].
  change (((b, h, sd, defs) :: ys)) with ([(b, h, sd, defs)] ++ ys) in Hle, Hf. rewrite zlength_app in Hle, Hf.
  change (zlength [(b, h, sd, defs)]) with 1 in *. pose proof (zlength_nonneg ys) as H0. rewrite seqZ_cons in Hf by lia.
  apply Forall2_cons_1 in Hf as [[Hd Hok] Hf]. destruct Hd as [-> _]. cbn. split; [done|]. split; [lia|]. split; [done|].
  apply IH; [lia|]. by replace (Z.pred (1 + zlength ys)) with (zlength ys) in Hf by lia.
Qed.

(** C10: The stream of state updates, in any interleaving of its downloads: what it
    yields are the state updates of the blocks from the first on, in order, each with
    the storage cells, nonces and contracts of the gateway's update, the definitions of
    the classes it declares and those of the deployed classes; it ends only after the
    last block or with an error, keeps its queues within the configured sizes, and its
    user sees what the synchronisation relies on. It never panics if the updates of the
    gateway satisfy [update_ok]: no class is declared twice, the definition of a class
    is of its kind, and a contract is not both deployed and replaced. *)
Theorem state_updates_in_order (config : StateUpdateStreamConfig) (update_of : Z -> StateUpdate)
    (class_at : Z -> ApiContractClass) (from up_to : Z) (st : UpdateStreamState) :
  0 <= from -> up_to < 2 ^ 32 -> 0 < max_state_updates_to_download config -> 0 < max_classes_to_download config ->
  (forall b, from <= b < up_to -> update_ok class_at (StateUpdate_state_diff (update_of b))) ->
  rtc (update_stream_step config update_of class_at) (Su_Running (new_state_update_stream from up_to) []) st ->
  match st with
  | Su_Running s yielded => Forall2 (delivered update_of class_at) (seqZ from (zlength yielded)) yielded /\ bounded config s
  | Su_Exhausted yielded => Forall2 (delivered update_of class_at) (seqZ from (Z.max 0 (up_to - from))) yielded
  | Su_Failed yielded _ => Forall2 (delivered update_of class_at) (seqZ from (zlength yielded)) yielded
  | Su_Panicked => False
  end /\ (forall items, items_of st = Some items -> diffs_in_order from up_to items).
Proof.
  intros Hf Hu Hmu Hmc Hok Hr. assert (Hi : stream_inv config update_of class_at from up_to st).
  { pose proof (new_stream_inv config update_of class_at from up_to) as H0. revert H0.
    induction Hr as [|s0 s1 s2 Hst _ IH]; [done|]. intros H0. eapply IH, update_stream_step_inv; eauto. }
  destruct st as [s y|y|y e|]; cbn in Hi |- *.
  - by destruct Hi as (Hb & Hy & _).
  - split; [done|]. intros ? [= <-]. apply Forall2_length in Hi as Hl. rewrite length_seqZ in Hl.
    assert (Hz : zlength y = Z.max 0 (up_to - from)) by (unfold zlength; lia).
    rewrite <-(app_nil_r (inl <$> y)). apply (delivered_in_order update_of class_at); [by left|lia|by rewrite Hz].
  - destruct Hi as [Hy Hle]. split; [done|]. intros ? [= <-]. apply (delivered_in_order update_of class_at); [by right; exists e|done|done].
  - done.
Qed.

(** Classes by their hashes: the cache, the storage and the gateway agree, so that what
    a download returns does not depend on where it was found, and the cache still
    agrees after it. *)
Theorem class_downloads_agree (class_at : Z -> ApiContractClass) (t : StorageTxn) (client : ClientResult (option GenericContractClass))
    (h : Z) (c : LruCache ApiContractClass) :
  cache_sound class_at c -> class_rel t -> storage_sound class_at t ->
  (forall g, client = inl (Some g) -> api_class_of_generic g = class_at h) ->
  downloads class_at (fun a => forall class, a = Some class -> class = class_at h) (download_class_if_necessary t client h c) /\
  downloads class_at (fun a => a = class_at h) (central_get_class client h c).
Proof. intros Hs Hr Hst Hc. split; [by apply download_class_downloads|by apply central_get_class_downloads]. Qed.
End Theorems.
