(* ===== verification/ProtoCommon.v ===== *)
(** * The messages of the peer-to-peer protocol

    The messages of [crates/papyrus_protobuf/src/proto/p2p/proto/*.proto], as
    [prost] generates them: a field of a message type is an option, a repeated
    field a list, a field of an enum type its integer, a [oneof] an option of a
    sum. The message [m] of the package is [PbM], its field [f] is [PbM_f], and its
    [oneof] is [PbMOneof].

    [fits_PbM] says that the fields are values of their Rust types. *)

From stdpp Require Import base list gmap strings fin_maps.
From Stdlib Require Import ZArith Lia.
From S2P Require Import Prelude StorageTables StarknetTypes StorageTxn Header Serde P2pServer.

Record PbFelt252 : Type := mkPbFelt252 {
  PbFelt252_elements : list Z
}.

Record PbHash : Type := mkPbHash {
  PbHash_elements : list Z
}.

Record PbAddress : Type := mkPbAddress {
  PbAddress_elements : list Z
}.

Record PbUint128 : Type := mkPbUint128 {
  PbUint128_low : Z;
  PbUint128_high : Z
}.

Record PbConsensusSignature : Type := mkPbConsensusSignature {
  PbConsensusSignature_r : option PbFelt252;
  PbConsensusSignature_s : option PbFelt252
}.

Record PbPatricia : Type := mkPbPatricia {
  PbPatricia_n_leaves : Z;
  PbPatricia_root : option PbHash
}.

Record PbStateDiffCommitment : Type := mkPbStateDiffCommitment {
  PbStateDiffCommitment_state_diff_length : Z;
  PbStateDiffCommitment_root : option PbHash
}.

Inductive PbIterationOneof : Type :=
| PbIteration_BlockNumber (value : Z)
| PbIteration_Header (value : PbHash).

Record PbIteration : Type := mkPbIteration {
  PbIteration_start : option PbIterationOneof;
  PbIteration_direction : Z;
  PbIteration_limit : Z;
  PbIteration_step : Z
}.

Inductive PbFin : Type := mkPbFin.

Record PbSignedBlockHeader : Type := mkPbSignedBlockHeader {
  PbSignedBlockHeader_block_hash : option PbHash;
  PbSignedBlockHeader_parent_hash : option PbHash;
  PbSignedBlockHeader_number : Z;
  PbSignedBlockHeader_time : Z;
  PbSignedBlockHeader_sequencer_address : option PbAddress;
  PbSignedBlockHeader_state_root : option PbHash;
  PbSignedBlockHeader_state_diff_commitment : option PbStateDiffCommitment;
  PbSignedBlockHeader_transactions : option PbPatricia;
  PbSignedBlockHeader_events : option PbPatricia;
  PbSignedBlockHeader_receipts : option PbHash;
  PbSignedBlockHeader_protocol_version : list Z;
  PbSignedBlockHeader_gas_price_fri : option PbUint128;
  PbSignedBlockHeader_gas_price_wei : option PbUint128;
  PbSignedBlockHeader_data_gas_price_fri : option PbUint128;
  PbSignedBlockHeader_data_gas_price_wei : option PbUint128;
  PbSignedBlockHeader_l1_data_availability_mode : Z;
  PbSignedBlockHeader_signatures : list PbConsensusSignature
}.

Record PbBlockHeadersRequest : Type := mkPbBlockHeadersRequest {
  PbBlockHeadersRequest_iteration : option PbIteration
}.

Inductive PbBlockHeadersResponseOneof : Type :=
| PbBlockHeadersResponse_Header (value : PbSignedBlockHeader)
| PbBlockHeadersResponse_Fin (value : PbFin).

Record PbBlockHeadersResponse : Type := mkPbBlockHeadersResponse {
  PbBlockHeadersResponse_header_message : option PbBlockHeadersResponseOneof
}.

Record PbEvent : Type := mkPbEvent {
  PbEvent_transaction_hash : option PbHash;
  PbEvent_from_address : option PbFelt252;
  PbEvent_keys : list PbFelt252;
  PbEvent_data : list PbFelt252
}.

Record PbEventsRequest : Type := mkPbEventsRequest {
  PbEventsRequest_iteration : option PbIteration
}.

Inductive PbEventsResponseOneof : Type :=
| PbEventsResponse_Event (value : PbEvent)
| PbEventsResponse_Fin (value : PbFin).

Record PbEventsResponse : Type := mkPbEventsResponse {
  PbEventsResponse_event_message : option PbEventsResponseOneof
}.

Record PbEthereumAddress : Type := mkPbEthereumAddress {
  PbEthereumAddress_elements : list Z
}.

Record PbMessageToL1 : Type := mkPbMessageToL1 {
  PbMessageToL1_from_address : option PbFelt252;
  PbMessageToL1_payload : list PbFelt252;
  PbMessageToL1_to_address : option PbEthereumAddress
}.

Record PbBuiltinCounter : Type := mkPbBuiltinCounter {
  PbBuiltinCounter_bitwise : Z;
  PbBuiltinCounter_ecdsa : Z;
  PbBuiltinCounter_ec_op : Z;
  PbBuiltinCounter_pedersen : Z;
  PbBuiltinCounter_range_check : Z;
  PbBuiltinCounter_poseidon : Z;
  PbBuiltinCounter_keccak : Z;
  PbBuiltinCounter_output : Z
}.

Record PbGasVector : Type := mkPbGasVector {
  PbGasVector_l1_gas : Z;
  PbGasVector_l1_data_gas : Z
}.

Record PbExecutionResources : Type := mkPbExecutionResources {
  PbExecutionResources_builtins : option PbBuiltinCounter;
  PbExecutionResources_steps : Z;
  PbExecutionResources_memory_holes : Z;
  PbExecutionResources_da_gas_consumed : option PbGasVector;
  PbExecutionResources_gas_consumed : option PbGasVector
}.

Record PbReceiptCommon : Type := mkPbReceiptCommon {
  PbReceiptCommon_actual_fee : option PbFelt252;
  PbReceiptCommon_price_unit : Z;
  PbReceiptCommon_messages_sent : list PbMessageToL1;
  PbReceiptCommon_execution_resources : option PbExecutionResources;
  PbReceiptCommon_revert_reason : option (list Z)
}.

Record PbReceiptInvoke : Type := mkPbReceiptInvoke {
  PbReceiptInvoke_common : option PbReceiptCommon
}.

Record PbReceiptL1Handler : Type := mkPbReceiptL1Handler {
  PbReceiptL1Handler_common : option PbReceiptCommon;
  PbReceiptL1Handler_msg_hash : option PbHash
}.

Record PbReceiptDeclare : Type := mkPbReceiptDeclare {
  PbReceiptDeclare_common : option PbReceiptCommon
}.

Record PbReceiptDeploy : Type := mkPbReceiptDeploy {
  PbReceiptDeploy_common : option PbReceiptCommon;
  PbReceiptDeploy_contract_address : option PbFelt252
}.

Record PbReceiptDeployAccount : Type := mkPbReceiptDeployAccount {
  PbReceiptDeployAccount_common : option PbReceiptCommon;
  PbReceiptDeployAccount_contract_address : option PbFelt252
}.

Inductive PbReceiptOneof : Type :=
| PbReceipt_Invoke (value : PbReceiptInvoke)
| PbReceipt_L1Handler (value : PbReceiptL1Handler)
| PbReceipt_Declare (value : PbReceiptDeclare)
| PbReceipt_DeprecatedDeploy (value : PbReceiptDeploy)
| PbReceipt_DeployAccount (value : PbReceiptDeployAccount).

Record PbReceipt : Type := mkPbReceipt {
  PbReceipt_type : option PbReceiptOneof
}.

Record PbResourceLimits : Type := mkPbResourceLimits {
  PbResourceLimits_max_amount : Z;
  PbResourceLimits_max_price_per_unit : option PbFelt252
}.

Record PbResourceBounds : Type := mkPbResourceBounds {
  PbResourceBounds_l1_gas : option PbResourceLimits;
  PbResourceBounds_l2_gas : option PbResourceLimits
}.

Record PbAccountSignature : Type := mkPbAccountSignature {
  PbAccountSignature_parts : list PbFelt252
}.

Record PbDeclareV0 : Type := mkPbDeclareV0 {
  PbDeclareV0_sender : option PbAddress;
  PbDeclareV0_max_fee : option PbFelt252;
  PbDeclareV0_signature : option PbAccountSignature;
  PbDeclareV0_class_hash : option PbHash
}.

Record PbDeclareV1 : Type := mkPbDeclareV1 {
  PbDeclareV1_sender : option PbAddress;
  PbDeclareV1_max_fee : option PbFelt252;
  PbDeclareV1_signature : option PbAccountSignature;
  PbDeclareV1_class_hash : option PbHash;
  PbDeclareV1_nonce : option PbFelt252
}.

Record PbDeclareV2 : Type := mkPbDeclareV2 {
  PbDeclareV2_sender : option PbAddress;
  PbDeclareV2_max_fee : option PbFelt252;
  PbDeclareV2_signature : option PbAccountSignature;
  PbDeclareV2_class_hash : option PbHash;
  PbDeclareV2_nonce : option PbFelt252;
  PbDeclareV2_compiled_class_hash : option PbHash
}.

Record PbDeclareV3 : Type := mkPbDeclareV3 {
  PbDeclareV3_sender : option PbAddress;
  PbDeclareV3_signature : option PbAccountSignature;
  PbDeclareV3_class_hash : option PbHash;
  PbDeclareV3_nonce : option PbFelt252;
  PbDeclareV3_compiled_class_hash : option PbHash;
  PbDeclareV3_resource_bounds : option PbResourceBounds;
  PbDeclareV3_tip : Z;
  PbDeclareV3_paymaster_data : list PbFelt252;
  PbDeclareV3_account_deployment_data : list PbFelt252;
  PbDeclareV3_nonce_data_availability_mode : Z;
  PbDeclareV3_fee_data_availability_mode : Z
}.

Record PbDeploy : Type := mkPbDeploy {
  PbDeploy_class_hash : option PbHash;
  PbDeploy_address_salt : option PbFelt252;
  PbDeploy_calldata : list PbFelt252;
  PbDeploy_version : Z
}.

Record PbDeployAccountV1 : Type := mkPbDeployAccountV1 {
  PbDeployAccountV1_max_fee : option PbFelt252;
  PbDeployAccountV1_signature : option PbAccountSignature;
  PbDeployAccountV1_class_hash : option PbHash;
  PbDeployAccountV1_nonce : option PbFelt252;
  PbDeployAccountV1_address_salt : option PbFelt252;
  PbDeployAccountV1_calldata : list PbFelt252
}.

Record PbDeployAccountV3 : Type := mkPbDeployAccountV3 {
  PbDeployAccountV3_signature : option PbAccountSignature;
  PbDeployAccountV3_class_hash : option PbHash;
  PbDeployAccountV3_nonce : option PbFelt252;
  PbDeployAccountV3_address_salt : option PbFelt252;
  PbDeployAccountV3_calldata : list PbFelt252;
  PbDeployAccountV3_resource_bounds : option PbResourceBounds;
  PbDeployAccountV3_tip : Z;
  PbDeployAccountV3_paymaster_data : list PbFelt252;
  PbDeployAccountV3_nonce_data_availability_mode : Z;
  PbDeployAccountV3_fee_data_availability_mode : Z
}.

Record PbInvokeV0 : Type := mkPbInvokeV0 {
  PbInvokeV0_max_fee : option PbFelt252;
  PbInvokeV0_signature : option PbAccountSignature;
  PbInvokeV0_address : option PbAddress;
  PbInvokeV0_entry_point_selector : option PbFelt252;
  PbInvokeV0_calldata : list PbFelt252
}.

Record PbInvokeV1 : Type := mkPbInvokeV1 {
  PbInvokeV1_sender : option PbAddress;
  PbInvokeV1_max_fee : option PbFelt252;
  PbInvokeV1_signature : option PbAccountSignature;
  PbInvokeV1_calldata : list PbFelt252;
  PbInvokeV1_nonce : option PbFelt252
}.

Record PbInvokeV3 : Type := mkPbInvokeV3 {
  PbInvokeV3_sender : option PbAddress;
  PbInvokeV3_signature : option PbAccountSignature;
  PbInvokeV3_calldata : list PbFelt252;
  PbInvokeV3_resource_bounds : option PbResourceBounds;
  PbInvokeV3_tip : Z;
  PbInvokeV3_paymaster_data : list PbFelt252;
  PbInvokeV3_account_deployment_data : list PbFelt252;
  PbInvokeV3_nonce_data_availability_mode : Z;
  PbInvokeV3_fee_data_availability_mode : Z;
  PbInvokeV3_nonce : option PbFelt252
}.

Record PbL1HandlerV0 : Type := mkPbL1HandlerV0 {
  PbL1HandlerV0_nonce : option PbFelt252;
  PbL1HandlerV0_address : option PbAddress;
  PbL1HandlerV0_entry_point_selector : option PbFelt252;
  PbL1HandlerV0_calldata : list PbFelt252
}.

Inductive PbTransactionOneof : Type :=
| PbTransaction_DeclareV0 (value : PbDeclareV0)
| PbTransaction_DeclareV1 (value : PbDeclareV1)
| PbTransaction_DeclareV2 (value : PbDeclareV2)
| PbTransaction_DeclareV3 (value : PbDeclareV3)
| PbTransaction_Deploy (value : PbDeploy)
| PbTransaction_DeployAccountV1 (value : PbDeployAccountV1)
| PbTransaction_DeployAccountV3 (value : PbDeployAccountV3)
| PbTransaction_InvokeV0 (value : PbInvokeV0)
| PbTransaction_InvokeV1 (value : PbInvokeV1)
| PbTransaction_InvokeV3 (value : PbInvokeV3)
| PbTransaction_L1Handler (value : PbL1HandlerV0).

Record PbTransaction : Type := mkPbTransaction {
  PbTransaction_txn : option PbTransactionOneof
}.

Record PbTransactionWithReceipt : Type := mkPbTransactionWithReceipt {
  PbTransactionWithReceipt_transaction : option PbTransaction;
  PbTransactionWithReceipt_receipt : option PbReceipt
}.

Record PbTransactionsRequest : Type := mkPbTransactionsRequest {
  PbTransactionsRequest_iteration : option PbIteration
}.

Inductive PbTransactionsResponseOneof : Type :=
| PbTransactionsResponse_TransactionWithReceipt (value : PbTransactionWithReceipt)
| PbTransactionsResponse_Fin (value : PbFin).

Record PbTransactionsResponse : Type := mkPbTransactionsResponse {
  PbTransactionsResponse_transaction_message : option PbTransactionsResponseOneof
}.

Record PbEntryPoint : Type := mkPbEntryPoint {
  PbEntryPoint_selector : option PbFelt252;
  PbEntryPoint_offset : Z
}.

Record PbCairo0Class : Type := mkPbCairo0Class {
  PbCairo0Class_abi : list Z;
  PbCairo0Class_externals : list PbEntryPoint;
  PbCairo0Class_l1_handlers : list PbEntryPoint;
  PbCairo0Class_constructors : list PbEntryPoint;
  PbCairo0Class_program : list Z
}.

Record PbSierraEntryPoint : Type := mkPbSierraEntryPoint {
  PbSierraEntryPoint_index : Z;
  PbSierraEntryPoint_selector : option PbFelt252
}.

Record PbCairo1EntryPoints : Type := mkPbCairo1EntryPoints {
  PbCairo1EntryPoints_externals : list PbSierraEntryPoint;
  PbCairo1EntryPoints_l1_handlers : list PbSierraEntryPoint;
  PbCairo1EntryPoints_constructors : list PbSierraEntryPoint
}.

Record PbCairo1Class : Type := mkPbCairo1Class {
  PbCairo1Class_abi : list Z;
  PbCairo1Class_entry_points : option PbCairo1EntryPoints;
  PbCairo1Class_program : list PbFelt252;
  PbCairo1Class_contract_class_version : list Z
}.

Inductive PbClassOneof : Type :=
| PbClass_Cairo0 (value : PbCairo0Class)
| PbClass_Cairo1 (value : PbCairo1Class).

Record PbClass : Type := mkPbClass {
  PbClass_class : option PbClassOneof;
  PbClass_domain : Z
}.

Record PbClassesRequest : Type := mkPbClassesRequest {
  PbClassesRequest_iteration : option PbIteration
}.

Inductive PbClassesResponseOneof : Type :=
| PbClassesResponse_Class (value : PbClass)
| PbClassesResponse_Fin (value : PbFin).

Record PbClassesResponse : Type := mkPbClassesResponse {
  PbClassesResponse_class_message : option PbClassesResponseOneof
}.

Record PbContractStoredValue : Type := mkPbContractStoredValue {
  PbContractStoredValue_key : option PbFelt252;
  PbContractStoredValue_value : option PbFelt252
}.

Record PbContractDiff : Type := mkPbContractDiff {
  PbContractDiff_address : option PbAddress;
  PbContractDiff_nonce : option PbFelt252;
  PbContractDiff_class_hash : option PbHash;
  PbContractDiff_values : list PbContractStoredValue;
  PbContractDiff_domain : Z
}.

Record PbDeclaredClass : Type := mkPbDeclaredClass {
  PbDeclaredClass_class_hash : option PbHash;
  PbDeclaredClass_compiled_class_hash : option PbHash
}.

Record PbStateDiffsRequest : Type := mkPbStateDiffsRequest {
  PbStateDiffsRequest_iteration : option PbIteration
}.

Inductive PbStateDiffsResponseOneof : Type :=
| PbStateDiffsResponse_ContractDiff (value : PbContractDiff)
| PbStateDiffsResponse_DeclaredClass (value : PbDeclaredClass)
| PbStateDiffsResponse_Fin (value : PbFin).

Record PbStateDiffsResponse : Type := mkPbStateDiffsResponse {
  PbStateDiffsResponse_state_diff_message : option PbStateDiffsResponseOneof
}.

Record PbProposal : Type := mkPbProposal {
  PbProposal_height : Z;
  PbProposal_proposer : option PbAddress;
  PbProposal_transactions : list PbTransaction;
  PbProposal_block_hash : option PbHash
}.

Record PbVote : Type := mkPbVote {
  PbVote_vote_type : Z;
  PbVote_height : Z;
  PbVote_block_hash : option PbHash;
  PbVote_voter : option PbAddress
}.

Inductive PbConsensusMessageOneof : Type :=
| PbConsensusMessage_Proposal (value : PbProposal)
| PbConsensusMessage_Vote (value : PbVote).

Record PbConsensusMessage : Type := mkPbConsensusMessage {
  PbConsensusMessage_message : option PbConsensusMessageOneof
}.

(** ** Values of the Rust types *)

Definition fits_option {A} (P : A -> Prop) (o : option A) : Prop := match o with Some a => P a | None => True end.

Definition fits_bytes (bs : list Z) : Prop := Forall is_byte bs.

Definition fits_string (s : list Z) : Prop := valid_utf8 s = true.

Definition fits_i32 (z : Z) : Prop := - 2 ^ 31 <= z < 2 ^ 31.

Definition fits_PbFelt252 (m : PbFelt252) : Prop :=
  fits_bytes (PbFelt252_elements m).

Definition fits_PbHash (m : PbHash) : Prop :=
  fits_bytes (PbHash_elements m).

Definition fits_PbAddress (m : PbAddress) : Prop :=
  fits_bytes (PbAddress_elements m).

Definition fits_PbUint128 (m : PbUint128) : Prop :=
  in_range 64 (PbUint128_low m) /\
  in_range 64 (PbUint128_high m).

Definition fits_PbConsensusSignature (m : PbConsensusSignature) : Prop :=
  fits_option fits_PbFelt252 (PbConsensusSignature_r m) /\
  fits_option fits_PbFelt252 (PbConsensusSignature_s m).

Definition fits_PbPatricia (m : PbPatricia) : Prop :=
  in_range 64 (PbPatricia_n_leaves m) /\
  fits_option fits_PbHash (PbPatricia_root m).

Definition fits_PbStateDiffCommitment (m : PbStateDiffCommitment) : Prop :=
  in_range 64 (PbStateDiffCommitment_state_diff_length m) /\
  fits_option fits_PbHash (PbStateDiffCommitment_root m).

Definition fits_PbIterationOneof (m : PbIterationOneof) : Prop :=
  match m with
  | PbIteration_BlockNumber value => in_range 64 value
  | PbIteration_Header value => fits_PbHash value
  end.

Definition fits_PbIteration (m : PbIteration) : Prop :=
  fits_option fits_PbIterationOneof (PbIteration_start m) /\
  fits_i32 (PbIteration_direction m) /\
  in_range 64 (PbIteration_limit m) /\
  in_range 64 (PbIteration_step m).

Definition fits_PbFin (m : PbFin) : Prop := True.

Definition fits_PbSignedBlockHeader (m : PbSignedBlockHeader) : Prop :=
  fits_option fits_PbHash (PbSignedBlockHeader_block_hash m) /\
  fits_option fits_PbHash (PbSignedBlockHeader_parent_hash m) /\
  in_range 64 (PbSignedBlockHeader_number m) /\
  in_range 64 (PbSignedBlockHeader_time m) /\
  fits_option fits_PbAddress (PbSignedBlockHeader_sequencer_address m) /\
  fits_option fits_PbHash (PbSignedBlockHeader_state_root m) /\
  fits_option fits_PbStateDiffCommitment (PbSignedBlockHeader_state_diff_commitment m) /\
  fits_option fits_PbPatricia (PbSignedBlockHeader_transactions m) /\
  fits_option fits_PbPatricia (PbSignedBlockHeader_events m) /\
  fits_option fits_PbHash (PbSignedBlockHeader_receipts m) /\
  fits_string (PbSignedBlockHeader_protocol_version m) /\
  fits_option fits_PbUint128 (PbSignedBlockHeader_gas_price_fri m) /\
  fits_option fits_PbUint128 (PbSignedBlockHeader_gas_price_wei m) /\
  fits_option fits_PbUint128 (PbSignedBlockHeader_data_gas_price_fri m) /\
  fits_option fits_PbUint128 (PbSignedBlockHeader_data_gas_price_wei m) /\
  fits_i32 (PbSignedBlockHeader_l1_data_availability_mode m) /\
  Forall fits_PbConsensusSignature (PbSignedBlockHeader_signatures m).

Definition fits_PbBlockHeadersRequest (m : PbBlockHeadersRequest) : Prop :=
  fits_option fits_PbIteration (PbBlockHeadersRequest_iteration m).

Definition fits_PbBlockHeadersResponseOneof (m : PbBlockHeadersResponseOneof) : Prop :=
  match m with
  | PbBlockHeadersResponse_Header value => fits_PbSignedBlockHeader value
  | PbBlockHeadersResponse_Fin value => fits_PbFin value
  end.

Definition fits_PbBlockHeadersResponse (m : PbBlockHeadersResponse) : Prop :=
  fits_option fits_PbBlockHeadersResponseOneof (PbBlockHeadersResponse_header_message m).

Definition fits_PbEvent (m : PbEvent) : Prop :=
  fits_option fits_PbHash (PbEvent_transaction_hash m) /\
  fits_option fits_PbFelt252 (PbEvent_from_address m) /\
  Forall fits_PbFelt252 (PbEvent_keys m) /\
  Forall fits_PbFelt252 (PbEvent_data m).

Definition fits_PbEventsRequest (m : PbEventsRequest) : Prop :=
  fits_option fits_PbIteration (PbEventsRequest_iteration m).

Definition fits_PbEventsResponseOneof (m : PbEventsResponseOneof) : Prop :=
  match m with
  | PbEventsResponse_Event value => fits_PbEvent value
  | PbEventsResponse_Fin value => fits_PbFin value
  end.

Definition fits_PbEventsResponse (m : PbEventsResponse) : Prop :=
  fits_option fits_PbEventsResponseOneof (PbEventsResponse_event_message m).

Definition fits_PbEthereumAddress (m : PbEthereumAddress) : Prop :=
  fits_bytes (PbEthereumAddress_elements m).

Definition fits_PbMessageToL1 (m : PbMessageToL1) : Prop :=
  fits_option fits_PbFelt252 (PbMessageToL1_from_address m) /\
  Forall fits_PbFelt252 (PbMessageToL1_payload m) /\
  fits_option fits_PbEthereumAddress (PbMessageToL1_to_address m).

Definition fits_PbBuiltinCounter (m : PbBuiltinCounter) : Prop :=
  in_range 32 (PbBuiltinCounter_bitwise m) /\
  in_range 32 (PbBuiltinCounter_ecdsa m) /\
  in_range 32 (PbBuiltinCounter_ec_op m) /\
  in_range 32 (PbBuiltinCounter_pedersen m) /\
  in_range 32 (PbBuiltinCounter_range_check m) /\
  in_range 32 (PbBuiltinCounter_poseidon m) /\
  in_range 32 (PbBuiltinCounter_keccak m) /\
  in_range 32 (PbBuiltinCounter_output m).

Definition fits_PbGasVector (m : PbGasVector) : Prop :=
  in_range 64 (PbGasVector_l1_gas m) /\
  in_range 64 (PbGasVector_l1_data_gas m).

Definition fits_PbExecutionResources (m : PbExecutionResources) : Prop :=
  fits_option fits_PbBuiltinCounter (PbExecutionResources_builtins m) /\
  in_range 32 (PbExecutionResources_steps m) /\
  in_range 32 (PbExecutionResources_memory_holes m) /\
  fits_option fits_PbGasVector (PbExecutionResources_da_gas_consumed m) /\
  fits_option fits_PbGasVector (PbExecutionResources_gas_consumed m).

Definition fits_PbReceiptCommon (m : PbReceiptCommon) : Prop :=
  fits_option fits_PbFelt252 (PbReceiptCommon_actual_fee m) /\
  fits_i32 (PbReceiptCommon_price_unit m) /\
  Forall fits_PbMessageToL1 (PbReceiptCommon_messages_sent m) /\
  fits_option fits_PbExecutionResources (PbReceiptCommon_execution_resources m) /\
  fits_option fits_string (PbReceiptCommon_revert_reason m).

Definition fits_PbReceiptInvoke (m : PbReceiptInvoke) : Prop :=
  fits_option fits_PbReceiptCommon (PbReceiptInvoke_common m).

Definition fits_PbReceiptL1Handler (m : PbReceiptL1Handler) : Prop :=
  fits_option fits_PbReceiptCommon (PbReceiptL1Handler_common m) /\
  fits_option fits_PbHash (PbReceiptL1Handler_msg_hash m).

Definition fits_PbReceiptDeclare (m : PbReceiptDeclare) : Prop :=
  fits_option fits_PbReceiptCommon (PbReceiptDeclare_common m).

Definition fits_PbReceiptDeploy (m : PbReceiptDeploy) : Prop :=
  fits_option fits_PbReceiptCommon (PbReceiptDeploy_common m) /\
  fits_option fits_PbFelt252 (PbReceiptDeploy_contract_address m).

Definition fits_PbReceiptDeployAccount (m : PbReceiptDeployAccount) : Prop :=
  fits_option fits_PbReceiptCommon (PbReceiptDeployAccount_common m) /\
  fits_option fits_PbFelt252 (PbReceiptDeployAccount_contract_address m).

Definition fits_PbReceiptOneof (m : PbReceiptOneof) : Prop :=
  match m with
  | PbReceipt_Invoke value => fits_PbReceiptInvoke value
  | PbReceipt_L1Handler value => fits_PbReceiptL1Handler value
  | PbReceipt_Declare value => fits_PbReceiptDeclare value
  | PbReceipt_DeprecatedDeploy value => fits_PbReceiptDeploy value
  | PbReceipt_DeployAccount value => fits_PbReceiptDeployAccount value
  end.

Definition fits_PbReceipt (m : PbReceipt) : Prop :=
  fits_option fits_PbReceiptOneof (PbReceipt_type m).

Definition fits_PbResourceLimits (m : PbResourceLimits) : Prop :=
  in_range 64 (PbResourceLimits_max_amount m) /\
  fits_option fits_PbFelt252 (PbResourceLimits_max_price_per_unit m).

Definition fits_PbResourceBounds (m : PbResourceBounds) : Prop :=
  fits_option fits_PbResourceLimits (PbResourceBounds_l1_gas m) /\
  fits_option fits_PbResourceLimits (PbResourceBounds_l2_gas m).

Definition fits_PbAccountSignature (m : PbAccountSignature) : Prop :=
  Forall fits_PbFelt252 (PbAccountSignature_parts m).

Definition fits_PbDeclareV0 (m : PbDeclareV0) : Prop :=
  fits_option fits_PbAddress (PbDeclareV0_sender m) /\
  fits_option fits_PbFelt252 (PbDeclareV0_max_fee m) /\
  fits_option fits_PbAccountSignature (PbDeclareV0_signature m) /\
  fits_option fits_PbHash (PbDeclareV0_class_hash m).

Definition fits_PbDeclareV1 (m : PbDeclareV1) : Prop :=
  fits_option fits_PbAddress (PbDeclareV1_sender m) /\
  fits_option fits_PbFelt252 (PbDeclareV1_max_fee m) /\
  fits_option fits_PbAccountSignature (PbDeclareV1_signature m) /\
  fits_option fits_PbHash (PbDeclareV1_class_hash m) /\
  fits_option fits_PbFelt252 (PbDeclareV1_nonce m).

Definition fits_PbDeclareV2 (m : PbDeclareV2) : Prop :=
  fits_option fits_PbAddress (PbDeclareV2_sender m) /\
  fits_option fits_PbFelt252 (PbDeclareV2_max_fee m) /\
  fits_option fits_PbAccountSignature (PbDeclareV2_signature m) /\
  fits_option fits_PbHash (PbDeclareV2_class_hash m) /\
  fits_option fits_PbFelt252 (PbDeclareV2_nonce m) /\
  fits_option fits_PbHash (PbDeclareV2_compiled_class_hash m).

Definition fits_PbDeclareV3 (m : PbDeclareV3) : Prop :=
  fits_option fits_PbAddress (PbDeclareV3_sender m) /\
  fits_option fits_PbAccountSignature (PbDeclareV3_signature m) /\
  fits_option fits_PbHash (PbDeclareV3_class_hash m) /\
  fits_option fits_PbFelt252 (PbDeclareV3_nonce m) /\
  fits_option fits_PbHash (PbDeclareV3_compiled_class_hash m) /\
  fits_option fits_PbResourceBounds (PbDeclareV3_resource_bounds m) /\
  in_range 64 (PbDeclareV3_tip m) /\
  Forall fits_PbFelt252 (PbDeclareV3_paymaster_data m) /\
  Forall fits_PbFelt252 (PbDeclareV3_account_deployment_data m) /\
  fits_i32 (PbDeclareV3_nonce_data_availability_mode m) /\
  fits_i32 (PbDeclareV3_fee_data_availability_mode m).

Definition fits_PbDeploy (m : PbDeploy) : Prop :=
  fits_option fits_PbHash (PbDeploy_class_hash m) /\
  fits_option fits_PbFelt252 (PbDeploy_address_salt m) /\
  Forall fits_PbFelt252 (PbDeploy_calldata m) /\
  in_range 32 (PbDeploy_version m).

Definition fits_PbDeployAccountV1 (m : PbDeployAccountV1) : Prop :=
  fits_option fits_PbFelt252 (PbDeployAccountV1_max_fee m) /\
  fits_option fits_PbAccountSignature (PbDeployAccountV1_signature m) /\
  fits_option fits_PbHash (PbDeployAccountV1_class_hash m) /\
  fits_option fits_PbFelt252 (PbDeployAccountV1_nonce m) /\
  fits_option fits_PbFelt252 (PbDeployAccountV1_address_salt m) /\
  Forall fits_PbFelt252 (PbDeployAccountV1_calldata m).

Definition fits_PbDeployAccountV3 (m : PbDeployAccountV3) : Prop :=
  fits_option fits_PbAccountSignature (PbDeployAccountV3_signature m) /\
  fits_option fits_PbHash (PbDeployAccountV3_class_hash m) /\
  fits_option fits_PbFelt252 (PbDeployAccountV3_nonce m) /\
  fits_option fits_PbFelt252 (PbDeployAccountV3_address_salt m) /\
  Forall fits_PbFelt252 (PbDeployAccountV3_calldata m) /\
  fits_option fits_PbResourceBounds (PbDeployAccountV3_resource_bounds m) /\
  in_range 64 (PbDeployAccountV3_tip m) /\
  Forall fits_PbFelt252 (PbDeployAccountV3_paymaster_data m) /\
  fits_i32 (PbDeployAccountV3_nonce_data_availability_mode m) /\
  fits_i32 (PbDeployAccountV3_fee_data_availability_mode m).

Definition fits_PbInvokeV0 (m : PbInvokeV0) : Prop :=
  fits_option fits_PbFelt252 (PbInvokeV0_max_fee m) /\
  fits_option fits_PbAccountSignature (PbInvokeV0_signature m) /\
  fits_option fits_PbAddress (PbInvokeV0_address m) /\
  fits_option fits_PbFelt252 (PbInvokeV0_entry_point_selector m) /\
  Forall fits_PbFelt252 (PbInvokeV0_calldata m).

Definition fits_PbInvokeV1 (m : PbInvokeV1) : Prop :=
  fits_option fits_PbAddress (PbInvokeV1_sender m) /\
  fits_option fits_PbFelt252 (PbInvokeV1_max_fee m) /\
  fits_option fits_PbAccountSignature (PbInvokeV1_signature m) /\
  Forall fits_PbFelt252 (PbInvokeV1_calldata m) /\
  fits_option fits_PbFelt252 (PbInvokeV1_nonce m).

Definition fits_PbInvokeV3 (m : PbInvokeV3) : Prop :=
  fits_option fits_PbAddress (PbInvokeV3_sender m) /\
  fits_option fits_PbAccountSignature (PbInvokeV3_signature m) /\
  Forall fits_PbFelt252 (PbInvokeV3_calldata m) /\
  fits_option fits_PbResourceBounds (PbInvokeV3_resource_bounds m) /\
  in_range 64 (PbInvokeV3_tip m) /\
  Forall fits_PbFelt252 (PbInvokeV3_paymaster_data m) /\
  Forall fits_PbFelt252 (PbInvokeV3_account_deployment_data m) /\
  fits_i32 (PbInvokeV3_nonce_data_availability_mode m) /\
  fits_i32 (PbInvokeV3_fee_data_availability_mode m) /\
  fits_option fits_PbFelt252 (PbInvokeV3_nonce m).

Definition fits_PbL1HandlerV0 (m : PbL1HandlerV0) : Prop :=
  fits_option fits_PbFelt252 (PbL1HandlerV0_nonce m) /\
  fits_option fits_PbAddress (PbL1HandlerV0_address m) /\
  fits_option fits_PbFelt252 (PbL1HandlerV0_entry_point_selector m) /\
  Forall fits_PbFelt252 (PbL1HandlerV0_calldata m).

Definition fits_PbTransactionOneof (m : PbTransactionOneof) : Prop :=
  match m with
  | PbTransaction_DeclareV0 value => fits_PbDeclareV0 value
  | PbTransaction_DeclareV1 value => fits_PbDeclareV1 value
  | PbTransaction_DeclareV2 value => fits_PbDeclareV2 value
  | PbTransaction_DeclareV3 value => fits_PbDeclareV3 value
  | PbTransaction_Deploy value => fits_PbDeploy value
  | PbTransaction_DeployAccountV1 value => fits_PbDeployAccountV1 value
  | PbTransaction_DeployAccountV3 value => fits_PbDeployAccountV3 value
  | PbTransaction_InvokeV0 value => fits_PbInvokeV0 value
  | PbTransaction_InvokeV1 value => fits_PbInvokeV1 value
  | PbTransaction_InvokeV3 value => fits_PbInvokeV3 value
  | PbTransaction_L1Handler value => fits_PbL1HandlerV0 value
  end.

Definition fits_PbTransaction (m : PbTransaction) : Prop :=
  fits_option fits_PbTransactionOneof (PbTransaction_txn m).

Definition fits_PbTransactionWithReceipt (m : PbTransactionWithReceipt) : Prop :=
  fits_option fits_PbTransaction (PbTransactionWithReceipt_transaction m) /\
  fits_option fits_PbReceipt (PbTransactionWithReceipt_receipt m).

Definition fits_PbTransactionsRequest (m : PbTransactionsRequest) : Prop :=
  fits_option fits_PbIteration (PbTransactionsRequest_iteration m).

Definition fits_PbTransactionsResponseOneof (m : PbTransactionsResponseOneof) : Prop :=
  match m with
  | PbTransactionsResponse_TransactionWithReceipt value => fits_PbTransactionWithReceipt value
  | PbTransactionsResponse_Fin value => fits_PbFin value
  end.

Definition fits_PbTransactionsResponse (m : PbTransactionsResponse) : Prop :=
  fits_option fits_PbTransactionsResponseOneof (PbTransactionsResponse_transaction_message m).

Definition fits_PbEntryPoint (m : PbEntryPoint) : Prop :=
  fits_option fits_PbFelt252 (PbEntryPoint_selector m) /\
  in_range 64 (PbEntryPoint_offset m).

Definition fits_PbCairo0Class (m : PbCairo0Class) : Prop :=
  fits_string (PbCairo0Class_abi m) /\
  Forall fits_PbEntryPoint (PbCairo0Class_externals m) /\
  Forall fits_PbEntryPoint (PbCairo0Class_l1_handlers m) /\
  Forall fits_PbEntryPoint (PbCairo0Class_constructors m) /\
  fits_string (PbCairo0Class_program m).

Definition fits_PbSierraEntryPoint (m : PbSierraEntryPoint) : Prop :=
  in_range 64 (PbSierraEntryPoint_index m) /\
  fits_option fits_PbFelt252 (PbSierraEntryPoint_selector m).

Definition fits_PbCairo1EntryPoints (m : PbCairo1EntryPoints) : Prop :=
  Forall fits_PbSierraEntryPoint (PbCairo1EntryPoints_externals m) /\
  Forall fits_PbSierraEntryPoint (PbCairo1EntryPoints_l1_handlers m) /\
  Forall fits_PbSierraEntryPoint (PbCairo1EntryPoints_constructors m).

Definition fits_PbCairo1Class (m : PbCairo1Class) : Prop :=
  fits_string (PbCairo1Class_abi m) /\
  fits_option fits_PbCairo1EntryPoints (PbCairo1Class_entry_points m) /\
  Forall fits_PbFelt252 (PbCairo1Class_program m) /\
  fits_string (PbCairo1Class_contract_class_version m).

Definition fits_PbClassOneof (m : PbClassOneof) : Prop :=
  match m with
  | PbClass_Cairo0 value => fits_PbCairo0Class value
  | PbClass_Cairo1 value => fits_PbCairo1Class value
  end.

Definition fits_PbClass (m : PbClass) : Prop :=
  fits_option fits_PbClassOneof (PbClass_class m) /\
  in_range 32 (PbClass_domain m).

Definition fits_PbClassesRequest (m : PbClassesRequest) : Prop :=
  fits_option fits_PbIteration (PbClassesRequest_iteration m).

Definition fits_PbClassesResponseOneof (m : PbClassesResponseOneof) : Prop :=
  match m with
  | PbClassesResponse_Class value => fits_PbClass value
  | PbClassesResponse_Fin value => fits_PbFin value
  end.

Definition fits_PbClassesResponse (m : PbClassesResponse) : Prop :=
  fits_option fits_PbClassesResponseOneof (PbClassesResponse_class_message m).

Definition fits_PbContractStoredValue (m : PbContractStoredValue) : Prop :=
  fits_option fits_PbFelt252 (PbContractStoredValue_key m) /\
  fits_option fits_PbFelt252 (PbContractStoredValue_value m).

Definition fits_PbContractDiff (m : PbContractDiff) : Prop :=
  fits_option fits_PbAddress (PbContractDiff_address m) /\
  fits_option fits_PbFelt252 (PbContractDiff_nonce m) /\
  fits_option fits_PbHash (PbContractDiff_class_hash m) /\
  Forall fits_PbContractStoredValue (PbContractDiff_values m) /\
  fits_i32 (PbContractDiff_domain m).

Definition fits_PbDeclaredClass (m : PbDeclaredClass) : Prop :=
  fits_option fits_PbHash (PbDeclaredClass_class_hash m) /\
  fits_option fits_PbHash (PbDeclaredClass_compiled_class_hash m).

Definition fits_PbStateDiffsRequest (m : PbStateDiffsRequest) : Prop :=
  fits_option fits_PbIteration (PbStateDiffsRequest_iteration m).

Definition fits_PbStateDiffsResponseOneof (m : PbStateDiffsResponseOneof) : Prop :=
  match m with
  | PbStateDiffsResponse_ContractDiff value => fits_PbContractDiff value
  | PbStateDiffsResponse_DeclaredClass value => fits_PbDeclaredClass value
  | PbStateDiffsResponse_Fin value => fits_PbFin value
  end.

Definition fits_PbStateDiffsResponse (m : PbStateDiffsResponse) : Prop :=
  fits_option fits_PbStateDiffsResponseOneof (PbStateDiffsResponse_state_diff_message m).

Definition fits_PbProposal (m : PbProposal) : Prop :=
  in_range 64 (PbProposal_height m) /\
  fits_option fits_PbAddress (PbProposal_proposer m) /\
  Forall fits_PbTransaction (PbProposal_transactions m) /\
  fits_option fits_PbHash (PbProposal_block_hash m).

Definition fits_PbVote (m : PbVote) : Prop :=
  fits_i32 (PbVote_vote_type m) /\
  in_range 64 (PbVote_height m) /\
  fits_option fits_PbHash (PbVote_block_hash m) /\
  fits_option fits_PbAddress (PbVote_voter m).

Definition fits_PbConsensusMessageOneof (m : PbConsensusMessageOneof) : Prop :=
  match m with
  | PbConsensusMessage_Proposal value => fits_PbProposal value
  | PbConsensusMessage_Vote value => fits_PbVote value
  end.

Definition fits_PbConsensusMessage (m : PbConsensusMessage) : Prop :=
  fits_option fits_PbConsensusMessageOneof (PbConsensusMessage_message m).

(** * Conversions of the shared parts of the messages

    Models [crates/papyrus_protobuf/src/converters/mod.rs] and
    [crates/papyrus_protobuf/src/converters/common.rs]: the errors of a
    conversion, field elements, hashes, addresses, 128-bit integers, the enums
    and the queries.

    [impl TryFrom<protobuf::M> for T] is [T_try_from], a computation that ends
    with a value, an error or a panic; [impl From<T> for protobuf::M] is
    [PbM_from], a function, or a computation where the code can panic. *)

#[local] Open Scope string_scope.
#[local] Open Scope Z_scope.

(** The value whose text an error holds. *)
Inductive Formatted : Type :=
| Formatted_bytes (value : list Z)
| Formatted_felt (value : Z)
| Formatted_int (value : Z).

Inductive ProtobufConversionError : Type :=
| ProtobufConversionError_OutOfRangeValue (type_description : string) (value_as_str : Formatted)
| ProtobufConversionError_MissingField (field_description : string)
| ProtobufConversionError_BytesDataLengthMismatch (type_description : string) (num_expected : Z) (value : list Z)
| ProtobufConversionError_DecodeError.

Definition Conv (A : Type) : Type := M unit ProtobufConversionError A.

(** ** Shapes of the conversions *)

(** [o.ok_or(ProtobufConversionError::MissingField { .. })?]. *)
Definition field_or_missing {A} (field_description : string) (o : option A) : Conv A :=
  ok_or_raise (ProtobufConversionError_MissingField field_description) o.

(** [o.map(f).transpose()?]. *)
Definition map_transpose {A B} (f : A -> Conv B) (o : option A) : Conv (option B) :=
  match o with
  | Some a => let! b := f a in ret (Some b)
  | None => ret None
  end.

(** [v.into_iter().map(f).collect::<Result<Vec<_>, _>>()?]. *)
Fixpoint collect {A B} (f : A -> Conv B) (v : list A) : Conv (list B) :=
  match v with
  | [] => ret []
  | a :: v' => let! b := f a in let! bs := collect f v' in ret (b :: bs)
  end.

(** [slice.copy_from_slice(src)] into an array of [n] bytes: panics when the
    lengths differ. *)
Definition array_from_slice (n : Z) (src : list Z) : Conv (list Z) :=
  if zlength src =? n then ret src else panic.

(** [T::try_from(z)] between unsigned integers, for a [T] of [w] bits. *)
Definition uint_try_from (w z : Z) : option Z := if (0 <=? z) && (z <? 2 ^ w) then Some z else None.

(** ** Field elements and addresses

    The types of [starknet_types_core] and [starknet_api]. *)
Class FeltApi : Type := {
  felt_from_bytes_be : list Z -> Z;
  felt_to_bytes_be : Z -> list Z;
  (** [Felt::from] of an unsigned integer. *)
  felt_from_uint : Z -> Z;
  (** Its [Display]. *)
  felt_display : Z -> list Z;
  (** [PatriciaKey::try_from] and [ContractAddress::try_from] of a [Felt]. *)
  patricia_key_try_from : Z -> option Z;
  contract_address_try_from : Z -> option Z
}.

(** Their documented behaviour, for the integers that are values of the types. *)
Class FeltSpec {F : FeltApi} : Type := {
  is_felt : Z -> Prop;
  is_patricia_key : Z -> Prop;
  is_felt_range : forall z, is_felt z -> 0 <= z < 2 ^ 256;
  felt_from_bytes_is_felt : forall bs, length bs = 32%nat -> Forall is_byte bs -> is_felt (felt_from_bytes_be bs);
  felt_from_bytes_canonical : forall z, is_felt z -> felt_from_bytes_be (be_bytes 32 z) = z;
  felt_to_bytes_spec : forall z, is_felt z -> felt_to_bytes_be z = be_bytes 32 z;
  felt_from_uint_spec : forall z, in_range 128 z -> felt_from_uint z = z /\ is_felt z;
  felt_display_utf8 : forall z, Forall (fun b => between 0 127 b = true) (felt_display z);
  patricia_key_is_felt : forall z, is_patricia_key z -> is_felt z;
  patricia_key_spec : forall z k, patricia_key_try_from z = Some k <-> k = z /\ is_patricia_key z;
  contract_address_spec : forall z k, contract_address_try_from z = Some k <-> k = z /\ is_patricia_key z
}.

(** ** The encoding of messages

    [prost::Message]: a parameter of the model. *)
Class ProstMessage (A : Type) : Type := {
  encode_to_vec : A -> list Z;
  prost_decode : list Z -> option A
}.

(** [auto_impl_into_and_try_from_vec_u8!] and [auto_impl_try_from_vec_u8!]. *)
Definition into_vec_u8 {T A} `{ProstMessage A} (from : T -> Conv A) (value : T) : Conv (list Z) :=
  let! protobuf_value := from value in ret (encode_to_vec protobuf_value).

Definition try_from_vec_u8 {T A} `{ProstMessage A} (try_from : A -> Conv T) (value : list Z) : Conv T :=
  let! protobuf_value := ok_or_raise ProtobufConversionError_DecodeError (prost_decode value) in
  try_from protobuf_value.

Section Common.
Context {F : FeltApi}.

Definition Felt_try_from (value : PbFelt252) : Conv Z :=
  let! felt := array_from_slice 32 (PbFelt252_elements value) in
  ret (felt_from_bytes_be felt).

Definition PbFelt252_from (value : Z) : PbFelt252 := mkPbFelt252 (felt_to_bytes_be value).

(** Both [From<BlockHash>] and [From<StarkHash>]. *)
Definition PbHash_from (value : Z) : PbHash := mkPbHash (felt_to_bytes_be value).

Definition PbAddress_from (value : Z) : PbAddress := mkPbAddress (felt_to_bytes_be value).

Definition PbUint128_from (value : Z) : PbUint128 := {|
  PbUint128_high := wrap 64 (Z.shiftr value 64);
  PbUint128_low := wrap 64 value
|}.

Definition u128_from (value : PbUint128) : Z :=
  wrap 128 (PbUint128_low value + wrap 128 (Z.shiftl (PbUint128_high value) 64)).

Definition StarkHash_try_from (value : PbHash) : Conv Z :=
  if negb (zlength (PbHash_elements value) =? 32) then
    raise (ProtobufConversionError_BytesDataLengthMismatch "Hash" 32 (PbHash_elements value))
  else
    let! felt := array_from_slice 32 (PbHash_elements value) in
    ret (felt_from_bytes_be felt).

Definition ContractAddress_try_from (value : PbAddress) : Conv Z :=
  if negb (zlength (PbAddress_elements value) =? 32) then
    raise (ProtobufConversionError_BytesDataLengthMismatch "Address" 32 (PbAddress_elements value))
  else
    let! felt := array_from_slice 32 (PbAddress_elements value) in
    let hash := felt_from_bytes_be felt in
    match patricia_key_try_from hash with
    | Some stark_felt => ret stark_felt
    | None => raise (ProtobufConversionError_OutOfRangeValue "Address" (Formatted_bytes felt))
    end.

Definition enum_int_to_l1_data_availability_mode (value : Z) : Conv L1DataAvailabilityMode :=
  if value =? 0 then ret L1DataAvailabilityMode_Calldata
  else if value =? 1 then ret L1DataAvailabilityMode_Blob
  else raise (ProtobufConversionError_OutOfRangeValue "DataAvailabilityMode" (Formatted_int value)).

Definition l1_data_availability_mode_to_enum_int (value : L1DataAvailabilityMode) : Z :=
  match value with
  | L1DataAvailabilityMode_Calldata => 0
  | L1DataAvailabilityMode_Blob => 1
  end.

Definition enum_int_to_volition_domain (value : Z) : Conv DataAvailabilityMode :=
  if value =? 0 then ret DataAvailabilityMode_L1
  else if value =? 1 then ret DataAvailabilityMode_L2
  else raise (ProtobufConversionError_OutOfRangeValue "VolitionDomain" (Formatted_int value)).

Definition volition_domain_to_enum_int (value : DataAvailabilityMode) : Z :=
  match value with
  | DataAvailabilityMode_L1 => 0
  | DataAvailabilityMode_L2 => 1
  end.

(** ** Queries *)

Definition Query_try_from (value : PbIteration) : Conv Query :=
  let! start := field_or_missing "Iteration::start" (PbIteration_start value) in
  let! start_block :=
    match start with
    | PbIteration_BlockNumber block_number => ret (BlockHashOrNumber_Number block_number)
    | PbIteration_Header protobuf_hash =>
        let! hash := StarkHash_try_from protobuf_hash in ret (BlockHashOrNumber_Hash hash)
    end in
  let! direction :=
    if PbIteration_direction value =? 0 then ret Direction_Forward
    else if PbIteration_direction value =? 1 then ret Direction_Backward
    else raise (ProtobufConversionError_OutOfRangeValue "Direction" (Formatted_int (PbIteration_direction value))) in
  ret (mkQuery start_block direction (PbIteration_limit value) (PbIteration_step value)).

Definition PbIteration_from (value : Query) : PbIteration := {|
  PbIteration_start :=
    Some (match Query_start_block value with
          | BlockHashOrNumber_Number number => PbIteration_BlockNumber number
          | BlockHashOrNumber_Hash block_hash => PbIteration_Header (PbHash_from block_hash)
          end);
  PbIteration_direction := match Query_direction value with Direction_Forward => 0 | Direction_Backward => 1 end;
  PbIteration_limit := Query_limit value;
  PbIteration_step := Query_step value
|}.

(** ** Integers in field elements *)

(** [u128::from_be_bytes] of the last bytes, when the first ones are zero. *)
Definition try_from_starkfelt_to_u128 (felt : Z) : option Z :=
  let felt_be_bytes := felt_to_bytes_be felt in
  let rest := take 16 felt_be_bytes in
  let u128_bytes := drop 16 felt_be_bytes in
  if negb (bool_decide (rest = replicate 16 0)) then None
  else if negb (zlength u128_bytes =? 16) then None
  else Some (be_value u128_bytes).

Definition try_from_starkfelt_to_u32 (felt : Z) : option Z :=
  let felt_be_bytes := felt_to_bytes_be felt in
  let rest := take 28 felt_be_bytes in
  let u32_bytes := drop 28 felt_be_bytes in
  if negb (bool_decide (rest = replicate 28 0)) then None
  else if negb (zlength u32_bytes =? 4) then None
  else Some (be_value u32_bytes).

(** [try_from_starkfelt_to_u128(felt).map_err(..)?] of the converters. *)
Definition felt_to_u128 (felt : Z) : Conv Z :=
  ok_or_raise (ProtobufConversionError_OutOfRangeValue "u128" (Formatted_felt felt)) (try_from_starkfelt_to_u128 felt).

(** ** Required fields *)

(** [x.ok_or(MissingField)?.try_into()?] of a hash field. *)
Definition hash_field (field_description : string) (o : option PbHash) : Conv Z :=
  let! hash := field_or_missing field_description o in StarkHash_try_from hash.

Definition u128_field (field_description : string) (o : option PbUint128) : Conv Z :=
  let! value := field_or_missing field_description o in ret (u128_from value).

(** [x.ok_or(MissingField)?.try_into()?] of a field element and of an address. *)
Definition felt_field (field_description : string) (o : option PbFelt252) : Conv Z :=
  let! value := field_or_missing field_description o in Felt_try_from value.

Definition address_field (field_description : string) (o : option PbAddress) : Conv Z :=
  let! value := field_or_missing field_description o in ContractAddress_try_from value.

(** A [Fee] or a price: [try_from_starkfelt_to_u128] of a field element. *)
Definition fee_field (field_description : string) (o : option PbFelt252) : Conv Z :=
  let! felt := felt_field field_description o in felt_to_u128 felt.
End Common.
