(* ===== verification/ProtoSync.v ===== *)
(** * Conversions of headers, events and state diffs

    Models [crates/papyrus_protobuf/src/converters/header.rs],
    [crates/papyrus_protobuf/src/converters/event.rs] and
    [crates/papyrus_protobuf/src/converters/state_diff.rs]. *)

From stdpp Require Import base gmap list strings fin_maps.
From Stdlib Require Import ZArith Lia.
From S2P Require Import Prelude StorageTables StarknetTypes StorageTxn Header Serde P2pServer ProtoCommon.

#[local] Open Scope string_scope.
#[local] Open Scope Z_scope.

Section ProtoSync.
Context {F : FeltApi}.

(** ** Headers *)

Definition BlockSignature_try_from (value : PbConsensusSignature) : Conv Signature :=
  let! r := felt_field "SignedBlockHeader::r" (PbConsensusSignature_r value) in
  let! s := felt_field "SignedBlockHeader::s" (PbConsensusSignature_s value) in
  ret (mkSignature r s).

Definition PbConsensusSignature_from (value : Signature) : PbConsensusSignature := {|
  PbConsensusSignature_r := Some (PbFelt252_from (Signature_r value));
  PbConsensusSignature_s := Some (PbFelt252_from (Signature_s value))
|}.

Definition SignedBlockHeader_try_from (value : PbSignedBlockHeader) : Conv SignedBlockHeader :=
  let! block_hash := hash_field "SignedBlockHeader::block_hash" (PbSignedBlockHeader_block_hash value) in
  let! parent_hash := hash_field "SignedBlockHeader::parent_hash" (PbSignedBlockHeader_parent_hash value) in
  let timestamp := PbSignedBlockHeader_time value in
  let! sequencer :=
    address_field "SignedBlockHeader::sequencer_address" (PbSignedBlockHeader_sequencer_address value) in
  let! state_root := hash_field "SignedBlockHeader::state_root" (PbSignedBlockHeader_state_root value) in
  let! transactions := field_or_missing "SignedBlockHeader::transactions" (PbSignedBlockHeader_transactions value) in
  let! n_transactions := expect (uint_try_from 64 (PbPatricia_n_leaves transactions)) in
  let! transaction_commitment :=
    map_transpose (fun transactions => hash_field "Merkle::root" (PbPatricia_root transactions))
      (PbSignedBlockHeader_transactions value) in
  let! events := field_or_missing "SignedBlockHeader::events" (PbSignedBlockHeader_events value) in
  let! n_events := expect (uint_try_from 64 (PbPatricia_n_leaves events)) in
  let! event_commitment :=
    map_transpose (fun events => hash_field "Merkle::root" (PbPatricia_root events)) (PbSignedBlockHeader_events value) in
  let! state_diff_length :=
    map_transpose (fun commitment => expect (uint_try_from 64 (PbStateDiffCommitment_state_diff_length commitment)))
      (PbSignedBlockHeader_state_diff_commitment value) in
  let! l1_da_mode := enum_int_to_l1_data_availability_mode (PbSignedBlockHeader_l1_data_availability_mode value) in
  let starknet_version := PbSignedBlockHeader_protocol_version value in
  let! l1_price_in_fri := u128_field "SignedBlockHeader::gas_price_fri" (PbSignedBlockHeader_gas_price_fri value) in
  let! l1_price_in_wei := u128_field "SignedBlockHeader::gas_price_wei" (PbSignedBlockHeader_gas_price_wei value) in
  let! data_price_in_fri :=
    u128_field "SignedBlockHeader::data_gas_price_fri" (PbSignedBlockHeader_data_gas_price_fri value) in
  let! data_price_in_wei :=
    u128_field "SignedBlockHeader::data_gas_price_wei" (PbSignedBlockHeader_data_gas_price_wei value) in
  let! receipt_commitment := map_transpose StarkHash_try_from (PbSignedBlockHeader_receipts value) in
  let! state_diff_commitment :=
    map_transpose (fun commitment => hash_field "StateDiffCommitment::root" (PbStateDiffCommitment_root commitment))
      (PbSignedBlockHeader_state_diff_commitment value) in
  let! signatures := collect BlockSignature_try_from (PbSignedBlockHeader_signatures value) in
  ret {|
    SignedBlockHeader_block_header := {|
      BlockHeader_block_hash := block_hash;
      BlockHeader_parent_hash := parent_hash;
      BlockHeader_block_number := PbSignedBlockHeader_number value;
      BlockHeader_l1_gas_price := mkGasPricePerToken l1_price_in_fri l1_price_in_wei;
      BlockHeader_l1_data_gas_price := mkGasPricePerToken data_price_in_fri data_price_in_wei;
      BlockHeader_state_root := state_root;
      BlockHeader_sequencer := sequencer;
      BlockHeader_timestamp := timestamp;
      BlockHeader_l1_da_mode := l1_da_mode;
      BlockHeader_state_diff_commitment := state_diff_commitment;
      BlockHeader_state_diff_length := state_diff_length;
      BlockHeader_transaction_commitment := transaction_commitment;
      BlockHeader_event_commitment := event_commitment;
      BlockHeader_n_transactions := n_transactions;
      BlockHeader_n_events := n_events;
      BlockHeader_receipt_commitment := receipt_commitment;
      BlockHeader_starknet_version := starknet_version
    |};
    SignedBlockHeader_signatures := signatures
  |}.

(** A root and the number of its leaves, [usize] converted into [u64]. *)
Definition PbPatricia_of (commitment : option Z) (n_leaves : Z) : Conv (option PbPatricia) :=
  map_transpose (fun root => let! n := expect (uint_try_from 64 n_leaves) in ret (mkPbPatricia n (Some (PbHash_from root))))
    commitment.

Definition PbSignedBlockHeader_from (header : BlockHeader) (signatures : list Signature) : Conv PbSignedBlockHeader :=
  let! state_diff_commitment :=
    match BlockHeader_state_diff_commitment header, BlockHeader_state_diff_length header with
    | Some state_diff_commitment, Some state_diff_length =>
        let! length := expect (uint_try_from 64 state_diff_length) in
        ret (Some (mkPbStateDiffCommitment length (Some (PbHash_from state_diff_commitment))))
    | _, _ => ret None
    end in
  let! transactions := PbPatricia_of (BlockHeader_transaction_commitment header) (BlockHeader_n_transactions header) in
  let! events := PbPatricia_of (BlockHeader_event_commitment header) (BlockHeader_n_events header) in
  ret {|
    PbSignedBlockHeader_block_hash := Some (PbHash_from (BlockHeader_block_hash header));
    PbSignedBlockHeader_parent_hash := Some (PbHash_from (BlockHeader_parent_hash header));
    PbSignedBlockHeader_number := BlockHeader_block_number header;
    PbSignedBlockHeader_time := BlockHeader_timestamp header;
    PbSignedBlockHeader_sequencer_address := Some (PbAddress_from (BlockHeader_sequencer header));
    PbSignedBlockHeader_state_diff_commitment := state_diff_commitment;
    PbSignedBlockHeader_state_root := Some (PbHash_from (BlockHeader_state_root header));
    PbSignedBlockHeader_transactions := transactions;
    PbSignedBlockHeader_events := events;
    PbSignedBlockHeader_receipts := PbHash_from <$> BlockHeader_receipt_commitment header;
    PbSignedBlockHeader_protocol_version := BlockHeader_starknet_version header;
    PbSignedBlockHeader_gas_price_wei :=
      Some (PbUint128_from (GasPricePerToken_price_in_wei (BlockHeader_l1_gas_price header)));
    PbSignedBlockHeader_gas_price_fri :=
      Some (PbUint128_from (GasPricePerToken_price_in_fri (BlockHeader_l1_gas_price header)));
    PbSignedBlockHeader_data_gas_price_wei :=
      Some (PbUint128_from (GasPricePerToken_price_in_wei (BlockHeader_l1_data_gas_price header)));
    PbSignedBlockHeader_data_gas_price_fri :=
      Some (PbUint128_from (GasPricePerToken_price_in_fri (BlockHeader_l1_data_gas_price header)));
    PbSignedBlockHeader_l1_data_availability_mode :=
      l1_data_availability_mode_to_enum_int (BlockHeader_l1_da_mode header);
    PbSignedBlockHeader_signatures := PbConsensusSignature_from <$> signatures
  |}.

Definition MaybeSignedBlockHeader_try_from (value : PbBlockHeadersResponse) : Conv (DataOrFin SignedBlockHeader) :=
  match PbBlockHeadersResponse_header_message value with
  | Some (PbBlockHeadersResponse_Header header) =>
      let! header := SignedBlockHeader_try_from header in ret (Some header)
  | Some (PbBlockHeadersResponse_Fin _) => ret None
  | None => raise (ProtobufConversionError_MissingField "BlockHeadersResponse::header_message")
  end.

Definition PbBlockHeadersResponse_from (data : DataOrFin SignedBlockHeader) : Conv PbBlockHeadersResponse :=
  match data with
  | Some signed =>
      let! header :=
        PbSignedBlockHeader_from (SignedBlockHeader_block_header signed) (SignedBlockHeader_signatures signed) in
      ret (mkPbBlockHeadersResponse (Some (PbBlockHeadersResponse_Header header)))
  | None => ret (mkPbBlockHeadersResponse (Some (PbBlockHeadersResponse_Fin mkPbFin)))
  end.

Definition HeaderQuery_try_from (value : PbBlockHeadersRequest) : Conv Query :=
  let! iteration := field_or_missing "BlockHeadersRequest::iteration" (PbBlockHeadersRequest_iteration value) in
  Query_try_from iteration.

Definition PbBlockHeadersRequest_from (value : Query) : PbBlockHeadersRequest :=
  mkPbBlockHeadersRequest (Some (PbIteration_from value)).

(** ** Events *)

(** [ContractAddress(PatriciaKey::try_from(felt).map_err(..)?)] of a [Felt252] field. *)
Definition address_of_felt (field_description : string) (o : option PbFelt252) : Conv Z :=
  let! felt := felt_field field_description o in
  ok_or_raise (ProtobufConversionError_OutOfRangeValue "PatriciaKey" (Formatted_felt felt)) (patricia_key_try_from felt).

Definition Event_try_from (value : PbEvent) : Conv (Event * Z) :=
  let! transaction_hash := hash_field "Event::transaction_hash" (PbEvent_transaction_hash value) in
  let! from_address := address_of_felt "Event::from_address" (PbEvent_from_address value) in
  let! keys := collect Felt_try_from (PbEvent_keys value) in
  let! data := collect Felt_try_from (PbEvent_data value) in
  ret (mkEvent from_address (mkEventContent keys data), transaction_hash).

Definition PbEvent_from (value : Event * Z) : PbEvent :=
  let '(event, transaction_hash) := value in
  {| PbEvent_transaction_hash := Some (PbHash_from transaction_hash);
     PbEvent_from_address := Some (PbFelt252_from (Event_from_address event));
     PbEvent_keys := PbFelt252_from <$> EventContent_keys (Event_content event);
     PbEvent_data := PbFelt252_from <$> EventContent_data (Event_content event) |}.

Definition MaybeEvent_try_from (value : PbEventsResponse) : Conv (DataOrFin (Event * Z)) :=
  match PbEventsResponse_event_message value with
  | Some (PbEventsResponse_Event event) => let! event := Event_try_from event in ret (Some event)
  | Some (PbEventsResponse_Fin _) => ret None
  | None => raise (ProtobufConversionError_MissingField "EventsResponse::event_message")
  end.

Definition PbEventsResponse_from (value : DataOrFin (Event * Z)) : PbEventsResponse :=
  match value with
  | Some event => mkPbEventsResponse (Some (PbEventsResponse_Event (PbEvent_from event)))
  | None => mkPbEventsResponse (Some (PbEventsResponse_Fin mkPbFin))
  end.

Definition EventQuery_try_from (value : PbEventsRequest) : Conv Query :=
  let! iteration := field_or_missing "EventsRequest::iteration" (PbEventsRequest_iteration value) in
  Query_try_from iteration.

Definition PbEventsRequest_from (value : Query) : PbEventsRequest := mkPbEventsRequest (Some (PbIteration_from value)).

(** ** State diffs *)

Definition DOMAIN : DataAvailabilityMode := DataAvailabilityMode_L1.

Definition StoredValue_try_from (entry : PbContractStoredValue) : Conv (Z * Z) :=
  let! key_felt := felt_field "ContractStoredValue::key" (PbContractStoredValue_key entry) in
  let! key :=
    ok_or_raise (ProtobufConversionError_OutOfRangeValue "Felt252" (Formatted_felt key_felt))
      (patricia_key_try_from key_felt) in
  let! value := felt_field "ContractStoredValue::value" (PbContractStoredValue_value entry) in
  ret (key, value).

Definition ContractDiff_try_from (value : PbContractDiff) : Conv ContractDiff :=
  let! contract_address := address_field "ContractDiff::address" (PbContractDiff_address value) in
  let! class_hash := map_transpose StarkHash_try_from (PbContractDiff_class_hash value) in
  let! nonce := map_transpose Felt_try_from (PbContractDiff_nonce value) in
  let! storage_diffs := collect StoredValue_try_from (PbContractDiff_values value) in
  ret (mkContractDiff contract_address class_hash nonce (indexmap_of storage_diffs)).

Definition PbContractDiff_from (value : ContractDiff) : PbContractDiff := {|
  PbContractDiff_address := Some (PbAddress_from (ContractDiff_contract_address value));
  PbContractDiff_class_hash := PbHash_from <$> ContractDiff_class_hash value;
  PbContractDiff_nonce := PbFelt252_from <$> ContractDiff_nonce value;
  PbContractDiff_values :=
    (fun '(key, value) => mkPbContractStoredValue (Some (PbFelt252_from key)) (Some (PbFelt252_from value))) <$>
    ContractDiff_storage_diffs value;
  PbContractDiff_domain := volition_domain_to_enum_int DOMAIN
|}.

Definition DeclaredClass_try_from (value : PbDeclaredClass) : Conv DeclaredClass :=
  let! class_hash := hash_field "DeclaredClass::class_hash" (PbDeclaredClass_class_hash value) in
  let! compiled_class_hash :=
    hash_field "DeclaredClass::compiled_class_hash" (PbDeclaredClass_compiled_class_hash value) in
  ret (mkDeclaredClass class_hash compiled_class_hash).

Definition PbDeclaredClass_from_declared (value : DeclaredClass) : PbDeclaredClass := {|
  PbDeclaredClass_class_hash := Some (PbHash_from (DeclaredClass_class_hash value));
  PbDeclaredClass_compiled_class_hash := Some (PbHash_from (DeclaredClass_compiled_class_hash value))
|}.

Definition DeprecatedDeclaredClass_try_from (value : PbDeclaredClass) : Conv DeprecatedDeclaredClass :=
  let! class_hash := hash_field "DeclaredClass::class_hash" (PbDeclaredClass_class_hash value) in
  ret (mkDeprecatedDeclaredClass class_hash).

Definition PbDeclaredClass_from_deprecated (value : DeprecatedDeclaredClass) : PbDeclaredClass := {|
  PbDeclaredClass_class_hash := Some (PbHash_from (DeprecatedDeclaredClass_class_hash value));
  PbDeclaredClass_compiled_class_hash := None
|}.

Definition StateDiffChunk_try_from (value : PbStateDiffsResponse) : Conv (DataOrFin StateDiffChunk) :=
  match PbStateDiffsResponse_state_diff_message value with
  | Some (PbStateDiffsResponse_ContractDiff contract_diff) =>
      let! contract_diff := ContractDiff_try_from contract_diff in
      ret (Some (StateDiffChunk_ContractDiff contract_diff))
  | Some (PbStateDiffsResponse_DeclaredClass declared_class) =>
      match PbDeclaredClass_compiled_class_hash declared_class with
      | Some _ =>
          let! declared_class := DeclaredClass_try_from declared_class in
          ret (Some (StateDiffChunk_DeclaredClass declared_class))
      | None =>
          let! deprecated := DeprecatedDeclaredClass_try_from declared_class in
          ret (Some (StateDiffChunk_DeprecatedDeclaredClass deprecated))
      end
  | Some (PbStateDiffsResponse_Fin _) => ret None
  | None => raise (ProtobufConversionError_MissingField "StateDiffsResponse::state_diff_message")
  end.

Definition PbStateDiffsResponse_from (value : DataOrFin StateDiffChunk) : PbStateDiffsResponse :=
  let state_diff_message :=
    match value with
    | Some (StateDiffChunk_ContractDiff contract_diff) =>
        PbStateDiffsResponse_ContractDiff (PbContractDiff_from contract_diff)
    | Some (StateDiffChunk_DeclaredClass declared_class) =>
        PbStateDiffsResponse_DeclaredClass (PbDeclaredClass_from_declared declared_class)
    | Some (StateDiffChunk_DeprecatedDeclaredClass deprecated_declared_class) =>
        PbStateDiffsResponse_DeclaredClass (PbDeclaredClass_from_deprecated deprecated_declared_class)
    | None => PbStateDiffsResponse_Fin mkPbFin
    end in
  mkPbStateDiffsResponse (Some state_diff_message).

(** The conversions into a whole state diff. *)
Definition ThinStateDiff_of_contract (value : PbContractDiff) : Conv ThinStateDiff :=
  let! contract_address := address_field "ContractDiff::address" (PbContractDiff_address value) in
  let! deployed_contracts :=
    map_transpose (fun hash => let! hash := StarkHash_try_from hash in ret [(contract_address, hash)])
      (PbContractDiff_class_hash value) in
  let! storage_diffs :=
    match PbContractDiff_values value with
    | [] => ret []
    | values =>
        let! storage_values := collect StoredValue_try_from values in
        ret [(contract_address, indexmap_of storage_values)]
    end in
  let! nonces :=
    map_transpose (fun nonce => let! nonce := Felt_try_from nonce in ret [(contract_address, nonce)])
      (PbContractDiff_nonce value) in
  ret {|
    ThinStateDiff_deployed_contracts := default [] deployed_contracts;
    ThinStateDiff_storage_diffs := storage_diffs;
    ThinStateDiff_nonces := default [] nonces;
    ThinStateDiff_declared_classes := [];
    ThinStateDiff_deprecated_declared_classes := [];
    ThinStateDiff_replaced_classes := []
  |}.

Definition ThinStateDiff_of_declared (value : PbDeclaredClass) : Conv ThinStateDiff :=
  let! class_hash := hash_field "DeclaredClass::class_hash" (PbDeclaredClass_class_hash value) in
  match PbDeclaredClass_compiled_class_hash value with
  | Some compiled_class_hash =>
      let! compiled_class_hash := StarkHash_try_from compiled_class_hash in
      ret (mkThinStateDiff [] [] [(class_hash, compiled_class_hash)] [] [] [])
  | None => ret (mkThinStateDiff [] [] [] [class_hash] [] [])
  end.

Definition MaybeThinStateDiff_try_from (value : PbStateDiffsResponse) : Conv (DataOrFin ThinStateDiff) :=
  match PbStateDiffsResponse_state_diff_message value with
  | Some (PbStateDiffsResponse_ContractDiff contract_diff) =>
      let! diff := ThinStateDiff_of_contract contract_diff in ret (Some diff)
  | Some (PbStateDiffsResponse_DeclaredClass declared_class) =>
      let! diff := ThinStateDiff_of_declared declared_class in ret (Some diff)
  | Some (PbStateDiffsResponse_Fin _) => ret None
  | None => raise (ProtobufConversionError_MissingField "StateDiffsResponse::state_diff_message")
  end.

Definition StateDiffQuery_try_from (value : PbStateDiffsRequest) : Conv Query :=
  let! iteration := field_or_missing "StateDiffsRequest::iteration" (PbStateDiffsRequest_iteration value) in
  Query_try_from iteration.

Definition PbStateDiffsRequest_from (value : Query) : PbStateDiffsRequest :=
  mkPbStateDiffsRequest (Some (PbIteration_from value)).
End ProtoSync.

(** * Conversions of receipts

    Models [crates/papyrus_protobuf/src/converters/receipt.rs]. *)

#[local] Open Scope string_scope.
#[local] Open Scope Z_scope.

Section ProtoReceipt.
Context {F : FeltApi}.

(** ** Resources *)

Definition builtin_counter_try_from (value : PbBuiltinCounter) : gmap Builtin Z :=
  <[Builtin_SegmentArena := 0]> (<[Builtin_Keccak := PbBuiltinCounter_keccak value]>
  (<[Builtin_Bitwise := PbBuiltinCounter_bitwise value]> (<[Builtin_Ecdsa := PbBuiltinCounter_ecdsa value]>
  (<[Builtin_EcOp := PbBuiltinCounter_ec_op value]> (<[Builtin_Poseidon := PbBuiltinCounter_poseidon value]>
  (<[Builtin_Pedersen := PbBuiltinCounter_pedersen value]>
  (<[Builtin_RangeCheck := PbBuiltinCounter_range_check value]> (∅ : gmap Builtin Z)))))))).

(** The entry of a builtin, zero when there is none, converted into [u32] or a panic. *)
Definition builtin_u32 (value : gmap Builtin Z) (builtin : Builtin) : Conv Z :=
  expect (uint_try_from 32 (default 0 (value !! builtin))).

Definition PbBuiltinCounter_from (value : gmap Builtin Z) : Conv PbBuiltinCounter :=
  let! range_check := builtin_u32 value Builtin_RangeCheck in
  let! pedersen := builtin_u32 value Builtin_Pedersen in
  let! poseidon := builtin_u32 value Builtin_Poseidon in
  let! ec_op := builtin_u32 value Builtin_EcOp in
  let! ecdsa := builtin_u32 value Builtin_Ecdsa in
  let! bitwise := builtin_u32 value Builtin_Bitwise in
  let! keccak := builtin_u32 value Builtin_Keccak in
  ret {|
    PbBuiltinCounter_range_check := range_check;
    PbBuiltinCounter_pedersen := pedersen;
    PbBuiltinCounter_poseidon := poseidon;
    PbBuiltinCounter_ec_op := ec_op;
    PbBuiltinCounter_ecdsa := ecdsa;
    PbBuiltinCounter_bitwise := bitwise;
    PbBuiltinCounter_keccak := keccak;
    PbBuiltinCounter_output := 0
  |}.

Definition GasVector_from (value : PbGasVector) : GasVector :=
  mkGasVector (PbGasVector_l1_gas value) (PbGasVector_l1_data_gas value).

Definition PbGasVector_from (value : GasVector) : PbGasVector :=
  mkPbGasVector (GasVector_l1_gas value) (GasVector_l1_data_gas value).

Definition ExecutionResources_try_from (value : PbExecutionResources) : Conv ExecutionResources :=
  let! builtins := field_or_missing "builtins" (PbExecutionResources_builtins value) in
  let builtin_instance_counter := builtin_counter_try_from builtins in
  let! gas_consumed :=
    field_or_missing "ExecutionResources::gas_consumed" (PbExecutionResources_gas_consumed value) in
  let! da_gas_consumed :=
    field_or_missing "ExecutionResources::da_gas_consumed" (PbExecutionResources_da_gas_consumed value) in
  ret {|
    ExecutionResources_steps := PbExecutionResources_steps value;
    ExecutionResources_builtin_instance_counter := builtin_instance_counter;
    ExecutionResources_memory_holes := PbExecutionResources_memory_holes value;
    ExecutionResources_gas_consumed := GasVector_from gas_consumed;
    ExecutionResources_da_gas_consumed := GasVector_from da_gas_consumed
  |}.

Definition PbExecutionResources_from (value : ExecutionResources) : Conv PbExecutionResources :=
  let! builtin_instance_counter := PbBuiltinCounter_from (ExecutionResources_builtin_instance_counter value) in
  let gas_consumed := PbGasVector_from (ExecutionResources_gas_consumed value) in
  let da_gas_consumed := PbGasVector_from (ExecutionResources_da_gas_consumed value) in
  let! steps := expect (uint_try_from 32 (ExecutionResources_steps value)) in
  let! memory_holes := expect (uint_try_from 32 (ExecutionResources_memory_holes value)) in
  ret {|
    PbExecutionResources_builtins := Some builtin_instance_counter;
    PbExecutionResources_steps := steps;
    PbExecutionResources_memory_holes := memory_holes;
    PbExecutionResources_gas_consumed := Some gas_consumed;
    PbExecutionResources_da_gas_consumed := Some da_gas_consumed
  |}.

(** ** Messages to L1 *)

Definition EthAddress_try_from (value : PbEthereumAddress) : Conv EthAddress :=
  if negb (zlength (PbEthereumAddress_elements value) =? 20) then
    raise (ProtobufConversionError_BytesDataLengthMismatch "EthereumAddress" 20 (PbEthereumAddress_elements value))
  else array_from_slice 20 (PbEthereumAddress_elements value).

Definition PbEthereumAddress_from (value : EthAddress) : PbEthereumAddress := mkPbEthereumAddress value.

Definition MessageToL1_try_from (value : PbMessageToL1) : Conv MessageToL1 :=
  let! from_address_felt := felt_field "MessageToL1::from_address" (PbMessageToL1_from_address value) in
  let! from_address := expect (contract_address_try_from from_address_felt) in
  let! to_address := field_or_missing "MessageToL1::to_address" (PbMessageToL1_to_address value) in
  let! to_address := EthAddress_try_from to_address in
  let! payload := collect Felt_try_from (PbMessageToL1_payload value) in
  ret {|
    MessageToL1_from_address := from_address;
    MessageToL1_to_address := to_address;
    MessageToL1_payload := payload
  |}.

Definition PbMessageToL1_from (value : MessageToL1) : PbMessageToL1 := {|
  PbMessageToL1_from_address := Some (PbFelt252_from (MessageToL1_from_address value));
  PbMessageToL1_to_address := Some (PbEthereumAddress_from (MessageToL1_to_address value));
  PbMessageToL1_payload := PbFelt252_from <$> MessageToL1_payload value
|}.

(** ** The part all receipts share *)

Definition parse_common_receipt_fields (common : option PbReceiptCommon) :
    Conv (Fee * list MessageToL1 * TransactionExecutionStatus * ExecutionResources) :=
  let! common := field_or_missing "Common" common in
  let! actual_fee := fee_field "Common::actual_fee" (PbReceiptCommon_actual_fee common) in
  let! messages_sent := collect MessageToL1_try_from (PbReceiptCommon_messages_sent common) in
  let execution_status :=
    match PbReceiptCommon_revert_reason common with
    | None => TransactionExecutionStatus_Succeeded
    | Some revert_reason =>
        TransactionExecutionStatus_Reverted (mkRevertedTransactionExecutionStatus revert_reason)
    end in
  let! resources := field_or_missing "Common::execution_resources" (PbReceiptCommon_execution_resources common) in
  let! execution_resources := ExecutionResources_try_from resources in
  ret (actual_fee, messages_sent, execution_status, execution_resources).

Definition create_proto_receipt_common_from_txn_output_fields (actual_fee : Fee) (messages_sent : list MessageToL1)
    (execution_resources : ExecutionResources) (execution_status : TransactionExecutionStatus) : Conv PbReceiptCommon :=
  let actual_fee := PbFelt252_from (felt_from_uint actual_fee) in
  let messages_sent := PbMessageToL1_from <$> messages_sent in
  let! execution_resources := PbExecutionResources_from execution_resources in
  let revert_reason :=
    match execution_status with
    | TransactionExecutionStatus_Reverted reverted_status =>
        Some (RevertedTransactionExecutionStatus_revert_reason reverted_status)
    | TransactionExecutionStatus_Succeeded => None
    end in
  ret {|
    PbReceiptCommon_actual_fee := Some actual_fee;
    PbReceiptCommon_price_unit := 0;
    PbReceiptCommon_messages_sent := messages_sent;
    PbReceiptCommon_execution_resources := Some execution_resources;
    PbReceiptCommon_revert_reason := revert_reason
  |}.

(** ** Receipts of the kinds of transactions *)

Definition DeployAccountTransactionOutput_try_from (value : PbReceiptDeployAccount) :
    Conv DeployAccountTransactionOutput :=
  let! (actual_fee, messages_sent, execution_status, execution_resources) :=
    parse_common_receipt_fields (PbReceiptDeployAccount_common value) in
  let! contract_address :=
    address_of_felt "DeployAccount::contract_address" (PbReceiptDeployAccount_contract_address value) in
  ret {|
    DeployAccountTransactionOutput_actual_fee := actual_fee;
    DeployAccountTransactionOutput_messages_sent := messages_sent;
    DeployAccountTransactionOutput_events := [];
    DeployAccountTransactionOutput_contract_address := contract_address;
    DeployAccountTransactionOutput_execution_status := execution_status;
    DeployAccountTransactionOutput_execution_resources := execution_resources
  |}.

Definition PbReceiptDeployAccount_from (value : DeployAccountTransactionOutput) : Conv PbReceiptDeployAccount :=
  let! common :=
    create_proto_receipt_common_from_txn_output_fields (DeployAccountTransactionOutput_actual_fee value)
      (DeployAccountTransactionOutput_messages_sent value) (DeployAccountTransactionOutput_execution_resources value)
      (DeployAccountTransactionOutput_execution_status value) in
  ret {|
    PbReceiptDeployAccount_common := Some common;
    PbReceiptDeployAccount_contract_address :=
      Some (PbFelt252_from (DeployAccountTransactionOutput_contract_address value))
  |}.

Definition DeployTransactionOutput_try_from (value : PbReceiptDeploy) : Conv DeployTransactionOutput :=
  let! (actual_fee, messages_sent, execution_status, execution_resources) :=
    parse_common_receipt_fields (PbReceiptDeploy_common value) in
  let! contract_address := address_of_felt "Deploy::contract_address" (PbReceiptDeploy_contract_address value) in
  ret {|
    DeployTransactionOutput_actual_fee := actual_fee;
    DeployTransactionOutput_messages_sent := messages_sent;
    DeployTransactionOutput_events := [];
    DeployTransactionOutput_contract_address := contract_address;
    DeployTransactionOutput_execution_status := execution_status;
    DeployTransactionOutput_execution_resources := execution_resources
  |}.

Definition PbReceiptDeploy_from (value : DeployTransactionOutput) : Conv PbReceiptDeploy :=
  let! common :=
    create_proto_receipt_common_from_txn_output_fields (DeployTransactionOutput_actual_fee value)
      (DeployTransactionOutput_messages_sent value) (DeployTransactionOutput_execution_resources value)
      (DeployTransactionOutput_execution_status value) in
  ret {|
    PbReceiptDeploy_common := Some common;
    PbReceiptDeploy_contract_address := Some (PbFelt252_from (DeployTransactionOutput_contract_address value))
  |}.

Definition DeclareTransactionOutput_try_from (value : PbReceiptDeclare) : Conv DeclareTransactionOutput :=
  let! (actual_fee, messages_sent, execution_status, execution_resources) :=
    parse_common_receipt_fields (PbReceiptDeclare_common value) in
  ret {|
    DeclareTransactionOutput_actual_fee := actual_fee;
    DeclareTransactionOutput_messages_sent := messages_sent;
    DeclareTransactionOutput_events := [];
    DeclareTransactionOutput_execution_status := execution_status;
    DeclareTransactionOutput_execution_resources := execution_resources
  |}.

Definition PbReceiptDeclare_from (value : DeclareTransactionOutput) : Conv PbReceiptDeclare :=
  let! common :=
    create_proto_receipt_common_from_txn_output_fields (DeclareTransactionOutput_actual_fee value)
      (DeclareTransactionOutput_messages_sent value) (DeclareTransactionOutput_execution_resources value)
      (DeclareTransactionOutput_execution_status value) in
  ret (mkPbReceiptDeclare (Some common)).

Definition InvokeTransactionOutput_try_from (value : PbReceiptInvoke) : Conv InvokeTransactionOutput :=
  let! (actual_fee, messages_sent, execution_status, execution_resources) :=
    parse_common_receipt_fields (PbReceiptInvoke_common value) in
  ret {|
    InvokeTransactionOutput_actual_fee := actual_fee;
    InvokeTransactionOutput_messages_sent := messages_sent;
    InvokeTransactionOutput_events := [];
    InvokeTransactionOutput_execution_status := execution_status;
    InvokeTransactionOutput_execution_resources := execution_resources
  |}.

Definition PbReceiptInvoke_from (value : InvokeTransactionOutput) : Conv PbReceiptInvoke :=
  let! common :=
    create_proto_receipt_common_from_txn_output_fields (InvokeTransactionOutput_actual_fee value)
      (InvokeTransactionOutput_messages_sent value) (InvokeTransactionOutput_execution_resources value)
      (InvokeTransactionOutput_execution_status value) in
  ret (mkPbReceiptInvoke (Some common)).

Definition L1HandlerTransactionOutput_try_from (value : PbReceiptL1Handler) : Conv L1HandlerTransactionOutput :=
  let! (actual_fee, messages_sent, execution_status, execution_resources) :=
    parse_common_receipt_fields (PbReceiptL1Handler_common value) in
  ret {|
    L1HandlerTransactionOutput_actual_fee := actual_fee;
    L1HandlerTransactionOutput_messages_sent := messages_sent;
    L1HandlerTransactionOutput_events := [];
    L1HandlerTransactionOutput_execution_status := execution_status;
    L1HandlerTransactionOutput_execution_resources := execution_resources
  |}.

Definition PbReceiptL1Handler_from (value : L1HandlerTransactionOutput) : Conv PbReceiptL1Handler :=
  let! common :=
    create_proto_receipt_common_from_txn_output_fields (L1HandlerTransactionOutput_actual_fee value)
      (L1HandlerTransactionOutput_messages_sent value) (L1HandlerTransactionOutput_execution_resources value)
      (L1HandlerTransactionOutput_execution_status value) in
  ret {| PbReceiptL1Handler_common := Some common; PbReceiptL1Handler_msg_hash := None |}.

Definition TransactionOutput_try_from (value : PbReceipt) : Conv TransactionOutput :=
  let! receipt := field_or_missing "Receipt::type" (PbReceipt_type value) in
  match receipt with
  | PbReceipt_Invoke invoke =>
      let! output := InvokeTransactionOutput_try_from invoke in ret (TransactionOutput_Invoke output)
  | PbReceipt_L1Handler l1_handler =>
      let! output := L1HandlerTransactionOutput_try_from l1_handler in ret (TransactionOutput_L1Handler output)
  | PbReceipt_Declare declare =>
      let! output := DeclareTransactionOutput_try_from declare in ret (TransactionOutput_Declare output)
  | PbReceipt_DeprecatedDeploy deploy =>
      let! output := DeployTransactionOutput_try_from deploy in ret (TransactionOutput_Deploy output)
  | PbReceipt_DeployAccount deploy_account =>
      let! output := DeployAccountTransactionOutput_try_from deploy_account in
      ret (TransactionOutput_DeployAccount output)
  end.

Definition PbReceipt_from (value : TransactionOutput) : Conv PbReceipt :=
  match value with
  | TransactionOutput_Invoke invoke =>
      let! invoke := PbReceiptInvoke_from invoke in ret (mkPbReceipt (Some (PbReceipt_Invoke invoke)))
  | TransactionOutput_L1Handler l1_handler =>
      let! l1_handler := PbReceiptL1Handler_from l1_handler in ret (mkPbReceipt (Some (PbReceipt_L1Handler l1_handler)))
  | TransactionOutput_Declare declare =>
      let! declare := PbReceiptDeclare_from declare in ret (mkPbReceipt (Some (PbReceipt_Declare declare)))
  | TransactionOutput_Deploy deploy =>
      let! deploy := PbReceiptDeploy_from deploy in ret (mkPbReceipt (Some (PbReceipt_DeprecatedDeploy deploy)))
  | TransactionOutput_DeployAccount deploy_account =>
      let! deploy_account := PbReceiptDeployAccount_from deploy_account in
      ret (mkPbReceipt (Some (PbReceipt_DeployAccount deploy_account)))
  end.
End ProtoReceipt.
