(* ===== verification/ProtoTransaction.v ===== *)
(** * Conversions of transactions

    Models [crates/papyrus_protobuf/src/converters/transaction.rs]. *)

From stdpp Require Import base gmap list strings fin_maps.
From Stdlib Require Import ZArith Lia.
From S2P Require Import Prelude StateMachine SingleHeightConsensus StorageTables StarknetTypes StorageTxn Header Serde ClientObjects P2pServer.
From S2P Require Import ProtoCommon ProtoSync.

#[local] Open Scope string_scope.
#[local] Open Scope Z_scope.

(** The [Default]s of [starknet_api] the converters use. *)
Class TransactionApi : Type := {
  default_ResourceBounds : ResourceBounds;
  default_ResourceBoundsMapping : gmap Resource ResourceBounds
}.

Section ProtoTransaction.
Context {F : FeltApi} {TA : TransactionApi}.

(** ** Fields the transactions share *)

Definition signature_field (field_description : string) (o : option PbAccountSignature) : Conv (list Z) :=
  let! signature := field_or_missing field_description o in
  collect Felt_try_from (PbAccountSignature_parts signature).

Definition PbAccountSignature_of (signature : list Z) : option PbAccountSignature :=
  Some (mkPbAccountSignature (PbFelt252_from <$> signature)).

(** [Some(Felt::from(value.max_fee.0).into())]. *)
Definition pb_fee (fee : Z) : option PbFelt252 := Some (PbFelt252_from (felt_from_uint fee)).

Definition ResourceBoundsMapping_try_from (value : PbResourceBounds) : Conv (gmap Resource ResourceBounds) :=
  let resource_bounds := default_ResourceBoundsMapping in
  let! l1_gas := field_or_missing "ResourceBounds::l1_gas" (PbResourceBounds_l1_gas value) in
  let max_amount := PbResourceLimits_max_amount l1_gas in
  let! max_price_per_unit :=
    fee_field "ResourceBounds::l1_gas::max_price_per_unit" (PbResourceLimits_max_price_per_unit l1_gas) in
  let resource_bounds := <[Resource_L1Gas := mkResourceBounds max_amount max_price_per_unit]> resource_bounds in
  let! l2_gas := field_or_missing "ResourceBounds::l2_gas" (PbResourceBounds_l2_gas value) in
  let max_amount := PbResourceLimits_max_amount l2_gas in
  let! max_price_per_unit :=
    fee_field "ResourceBounds::l2_gas::max_price_per_unit" (PbResourceLimits_max_price_per_unit l2_gas) in
  ret (<[Resource_L2Gas := mkResourceBounds max_amount max_price_per_unit]> resource_bounds).

Definition PbResourceLimits_of (bounds : ResourceBounds) : PbResourceLimits := {|
  PbResourceLimits_max_amount := ResourceBounds_max_amount bounds;
  PbResourceLimits_max_price_per_unit := pb_fee (ResourceBounds_max_price_per_unit bounds)
|}.

Definition PbResourceBounds_from (value : gmap Resource ResourceBounds) : PbResourceBounds := {|
  PbResourceBounds_l1_gas := Some (PbResourceLimits_of (default default_ResourceBounds (value !! Resource_L1Gas)));
  PbResourceBounds_l2_gas := Some (PbResourceLimits_of (default default_ResourceBounds (value !! Resource_L2Gas)))
|}.

Definition resource_bounds_field (field_description : string) (o : option PbResourceBounds) :
    Conv (gmap Resource ResourceBounds) :=
  let! value := field_or_missing field_description o in ResourceBoundsMapping_try_from value.

(** ** Deployments of accounts *)

Definition DeployAccountTransactionV1_try_from (value : PbDeployAccountV1) : Conv DeployAccountTransactionV1 :=
  let! max_fee := fee_field "DeployAccountV1::max_fee" (PbDeployAccountV1_max_fee value) in
  let! signature := signature_field "DeployAccountV1::signature" (PbDeployAccountV1_signature value) in
  let! nonce := felt_field "DeployAccountV1::nonce" (PbDeployAccountV1_nonce value) in
  let! class_hash := hash_field "DeployAccountV1::class_hash" (PbDeployAccountV1_class_hash value) in
  let! contract_address_salt := felt_field "DeployAccountV1::address_salt" (PbDeployAccountV1_address_salt value) in
  let! constructor_calldata := collect Felt_try_from (PbDeployAccountV1_calldata value) in
  ret {|
    DeployAccountTransactionV1_max_fee := max_fee;
    DeployAccountTransactionV1_signature := signature;
    DeployAccountTransactionV1_nonce := nonce;
    DeployAccountTransactionV1_class_hash := class_hash;
    DeployAccountTransactionV1_contract_address_salt := contract_address_salt;
    DeployAccountTransactionV1_constructor_calldata := constructor_calldata
  |}.

Definition PbDeployAccountV1_from (value : DeployAccountTransactionV1) : PbDeployAccountV1 := {|
  PbDeployAccountV1_max_fee := pb_fee (DeployAccountTransactionV1_max_fee value);
  PbDeployAccountV1_signature := PbAccountSignature_of (DeployAccountTransactionV1_signature value);
  PbDeployAccountV1_nonce := Some (PbFelt252_from (DeployAccountTransactionV1_nonce value));
  PbDeployAccountV1_class_hash := Some (PbHash_from (DeployAccountTransactionV1_class_hash value));
  PbDeployAccountV1_address_salt := Some (PbFelt252_from (DeployAccountTransactionV1_contract_address_salt value));
  PbDeployAccountV1_calldata := PbFelt252_from <$> DeployAccountTransactionV1_constructor_calldata value
|}.

Definition DeployAccountTransactionV3_try_from (value : PbDeployAccountV3) : Conv DeployAccountTransactionV3 :=
  let! resource_bounds :=
    resource_bounds_field "DeployAccountV3::resource_bounds" (PbDeployAccountV3_resource_bounds value) in
  let tip := PbDeployAccountV3_tip value in
  let! signature := signature_field "DeployAccountV3::signature" (PbDeployAccountV3_signature value) in
  let! nonce := felt_field "DeployAccountV3::nonce" (PbDeployAccountV3_nonce value) in
  let! class_hash := hash_field "DeployAccountV3::class_hash" (PbDeployAccountV3_class_hash value) in
  let! contract_address_salt := felt_field "DeployAccountV3::address_salt" (PbDeployAccountV3_address_salt value) in
  let! constructor_calldata := collect Felt_try_from (PbDeployAccountV3_calldata value) in
  let! nonce_data_availability_mode :=
    enum_int_to_volition_domain (PbDeployAccountV3_nonce_data_availability_mode value) in
  let! fee_data_availability_mode :=
    enum_int_to_volition_domain (PbDeployAccountV3_fee_data_availability_mode value) in
  let! paymaster_data := collect Felt_try_from (PbDeployAccountV3_paymaster_data value) in
  ret {|
    DeployAccountTransactionV3_resource_bounds := resource_bounds;
    DeployAccountTransactionV3_tip := tip;
    DeployAccountTransactionV3_signature := signature;
    DeployAccountTransactionV3_nonce := nonce;
    DeployAccountTransactionV3_class_hash := class_hash;
    DeployAccountTransactionV3_contract_address_salt := contract_address_salt;
    DeployAccountTransactionV3_constructor_calldata := constructor_calldata;
    DeployAccountTransactionV3_nonce_data_availability_mode := nonce_data_availability_mode;
    DeployAccountTransactionV3_fee_data_availability_mode := fee_data_availability_mode;
    DeployAccountTransactionV3_paymaster_data := paymaster_data
  |}.

Definition PbDeployAccountV3_from (value : DeployAccountTransactionV3) : PbDeployAccountV3 := {|
  PbDeployAccountV3_resource_bounds := Some (PbResourceBounds_from (DeployAccountTransactionV3_resource_bounds value));
  PbDeployAccountV3_tip := DeployAccountTransactionV3_tip value;
  PbDeployAccountV3_signature := PbAccountSignature_of (DeployAccountTransactionV3_signature value);
  PbDeployAccountV3_nonce := Some (PbFelt252_from (DeployAccountTransactionV3_nonce value));
  PbDeployAccountV3_class_hash := Some (PbHash_from (DeployAccountTransactionV3_class_hash value));
  PbDeployAccountV3_address_salt := Some (PbFelt252_from (DeployAccountTransactionV3_contract_address_salt value));
  PbDeployAccountV3_calldata := PbFelt252_from <$> DeployAccountTransactionV3_constructor_calldata value;
  PbDeployAccountV3_nonce_data_availability_mode :=
    volition_domain_to_enum_int (DeployAccountTransactionV3_nonce_data_availability_mode value);
  PbDeployAccountV3_fee_data_availability_mode :=
    volition_domain_to_enum_int (DeployAccountTransactionV3_fee_data_availability_mode value);
  PbDeployAccountV3_paymaster_data := PbFelt252_from <$> DeployAccountTransactionV3_paymaster_data value
|}.

(** ** Invocations *)

Definition InvokeTransactionV0_try_from (value : PbInvokeV0) : Conv InvokeTransactionV0 :=
  let! max_fee := fee_field "InvokeV0::max_fee" (PbInvokeV0_max_fee value) in
  let! signature := signature_field "InvokeV0::signature" (PbInvokeV0_signature value) in
  let! contract_address := address_field "InvokeV0::address" (PbInvokeV0_address value) in
  let! entry_point_selector := felt_field "InvokeV0::entry_point_selector" (PbInvokeV0_entry_point_selector value) in
  let! calldata := collect Felt_try_from (PbInvokeV0_calldata value) in
  ret {|
    InvokeTransactionV0_max_fee := max_fee;
    InvokeTransactionV0_signature := signature;
    InvokeTransactionV0_contract_address := contract_address;
    InvokeTransactionV0_entry_point_selector := entry_point_selector;
    InvokeTransactionV0_calldata := calldata
  |}.

Definition PbInvokeV0_from (value : InvokeTransactionV0) : PbInvokeV0 := {|
  PbInvokeV0_max_fee := pb_fee (InvokeTransactionV0_max_fee value);
  PbInvokeV0_signature := PbAccountSignature_of (InvokeTransactionV0_signature value);
  PbInvokeV0_address := Some (PbAddress_from (InvokeTransactionV0_contract_address value));
  PbInvokeV0_entry_point_selector := Some (PbFelt252_from (InvokeTransactionV0_entry_point_selector value));
  PbInvokeV0_calldata := PbFelt252_from <$> InvokeTransactionV0_calldata value
|}.

Definition InvokeTransactionV1_try_from (value : PbInvokeV1) : Conv InvokeTransactionV1 :=
  let! max_fee := fee_field "InvokeV1::max_fee" (PbInvokeV1_max_fee value) in
  let! signature := signature_field "InvokeV1::signature" (PbInvokeV1_signature value) in
  let! sender_address := address_field "InvokeV1::sender" (PbInvokeV1_sender value) in
  let! nonce := felt_field "InvokeV1::nonce" (PbInvokeV1_nonce value) in
  let! calldata := collect Felt_try_from (PbInvokeV1_calldata value) in
  ret {|
    InvokeTransactionV1_max_fee := max_fee;
    InvokeTransactionV1_signature := signature;
    InvokeTransactionV1_nonce := nonce;
    InvokeTransactionV1_sender_address := sender_address;
    InvokeTransactionV1_calldata := calldata
  |}.

Definition PbInvokeV1_from (value : InvokeTransactionV1) : PbInvokeV1 := {|
  PbInvokeV1_max_fee := pb_fee (InvokeTransactionV1_max_fee value);
  PbInvokeV1_signature := PbAccountSignature_of (InvokeTransactionV1_signature value);
  PbInvokeV1_sender := Some (PbAddress_from (InvokeTransactionV1_sender_address value));
  PbInvokeV1_nonce := Some (PbFelt252_from (InvokeTransactionV1_nonce value));
  PbInvokeV1_calldata := PbFelt252_from <$> InvokeTransactionV1_calldata value
|}.

Definition InvokeTransactionV3_try_from (value : PbInvokeV3) : Conv InvokeTransactionV3 :=
  let! resource_bounds := resource_bounds_field "InvokeV3::resource_bounds" (PbInvokeV3_resource_bounds value) in
  let tip := PbInvokeV3_tip value in
  let! signature := signature_field "InvokeV3::signature" (PbInvokeV3_signature value) in
  let! nonce := felt_field "InvokeV3::nonce" (PbInvokeV3_nonce value) in
  let! sender_address := address_field "InvokeV3::sender" (PbInvokeV3_sender value) in
  let! calldata := collect Felt_try_from (PbInvokeV3_calldata value) in
  let! nonce_data_availability_mode := enum_int_to_volition_domain (PbInvokeV3_nonce_data_availability_mode value) in
  let! fee_data_availability_mode := enum_int_to_volition_domain (PbInvokeV3_fee_data_availability_mode value) in
  let! paymaster_data := collect Felt_try_from (PbInvokeV3_paymaster_data value) in
  let! account_deployment_data := collect Felt_try_from (PbInvokeV3_account_deployment_data value) in
  ret {|
    InvokeTransactionV3_resource_bounds := resource_bounds;
    InvokeTransactionV3_tip := tip;
    InvokeTransactionV3_signature := signature;
    InvokeTransactionV3_nonce := nonce;
    InvokeTransactionV3_sender_address := sender_address;
    InvokeTransactionV3_calldata := calldata;
    InvokeTransactionV3_nonce_data_availability_mode := nonce_data_availability_mode;
    InvokeTransactionV3_fee_data_availability_mode := fee_data_availability_mode;
    InvokeTransactionV3_paymaster_data := paymaster_data;
    InvokeTransactionV3_account_deployment_data := account_deployment_data
  |}.

Definition PbInvokeV3_from (value : InvokeTransactionV3) : PbInvokeV3 := {|
  PbInvokeV3_resource_bounds := Some (PbResourceBounds_from (InvokeTransactionV3_resource_bounds value));
  PbInvokeV3_tip := InvokeTransactionV3_tip value;
  PbInvokeV3_signature := PbAccountSignature_of (InvokeTransactionV3_signature value);
  PbInvokeV3_nonce := Some (PbFelt252_from (InvokeTransactionV3_nonce value));
  PbInvokeV3_sender := Some (PbAddress_from (InvokeTransactionV3_sender_address value));
  PbInvokeV3_calldata := PbFelt252_from <$> InvokeTransactionV3_calldata value;
  PbInvokeV3_nonce_data_availability_mode :=
    volition_domain_to_enum_int (InvokeTransactionV3_nonce_data_availability_mode value);
  PbInvokeV3_fee_data_availability_mode :=
    volition_domain_to_enum_int (InvokeTransactionV3_fee_data_availability_mode value);
  PbInvokeV3_paymaster_data := PbFelt252_from <$> InvokeTransactionV3_paymaster_data value;
  PbInvokeV3_account_deployment_data := PbFelt252_from <$> InvokeTransactionV3_account_deployment_data value
|}.

(** ** Declarations *)

Definition DeclareTransactionV0_try_from (value : PbDeclareV0) : Conv DeclareTransactionV0V1 :=
  let! max_fee := fee_field "DeclareV0::max_fee" (PbDeclareV0_max_fee value) in
  let! signature := signature_field "DeclareV0::signature" (PbDeclareV0_signature value) in
  let nonce := 0 in
  let! class_hash := hash_field "DeclareV0::class_hash" (PbDeclareV0_class_hash value) in
  let! sender_address := address_field "DeclareV0::sender" (PbDeclareV0_sender value) in
  ret {|
    DeclareTransactionV0V1_max_fee := max_fee;
    DeclareTransactionV0V1_signature := signature;
    DeclareTransactionV0V1_nonce := nonce;
    DeclareTransactionV0V1_class_hash := class_hash;
    DeclareTransactionV0V1_sender_address := sender_address
  |}.

Definition PbDeclareV0_from (value : DeclareTransactionV0V1) : PbDeclareV0 := {|
  PbDeclareV0_max_fee := pb_fee (DeclareTransactionV0V1_max_fee value);
  PbDeclareV0_signature := PbAccountSignature_of (DeclareTransactionV0V1_signature value);
  PbDeclareV0_sender := Some (PbAddress_from (DeclareTransactionV0V1_sender_address value));
  PbDeclareV0_class_hash := Some (PbHash_from (DeclareTransactionV0V1_class_hash value))
|}.

Definition DeclareTransactionV1_try_from (value : PbDeclareV1) : Conv DeclareTransactionV0V1 :=
  let! max_fee := fee_field "DeclareV1::max_fee" (PbDeclareV1_max_fee value) in
  let! signature := signature_field "DeclareV1::signature" (PbDeclareV1_signature value) in
  let! nonce := felt_field "DeclareV1::nonce" (PbDeclareV1_nonce value) in
  let! class_hash := hash_field "DeclareV1::class_hash" (PbDeclareV1_class_hash value) in
  let! sender_address := address_field "DeclareV1::sender" (PbDeclareV1_sender value) in
  ret {|
    DeclareTransactionV0V1_max_fee := max_fee;
    DeclareTransactionV0V1_signature := signature;
    DeclareTransactionV0V1_nonce := nonce;
    DeclareTransactionV0V1_class_hash := class_hash;
    DeclareTransactionV0V1_sender_address := sender_address
  |}.

Definition PbDeclareV1_from (value : DeclareTransactionV0V1) : PbDeclareV1 := {|
  PbDeclareV1_max_fee := pb_fee (DeclareTransactionV0V1_max_fee value);
  PbDeclareV1_signature := PbAccountSignature_of (DeclareTransactionV0V1_signature value);
  PbDeclareV1_nonce := Some (PbFelt252_from (DeclareTransactionV0V1_nonce value));
  PbDeclareV1_class_hash := Some (PbHash_from (DeclareTransactionV0V1_class_hash value));
  PbDeclareV1_sender := Some (PbAddress_from (DeclareTransactionV0V1_sender_address value))
|}.

Definition DeclareTransactionV2_try_from (value : PbDeclareV2) : Conv DeclareTransactionV2 :=
  let! max_fee := fee_field "DeclareV2::max_fee" (PbDeclareV2_max_fee value) in
  let! signature := signature_field "DeclareV2::signature" (PbDeclareV2_signature value) in
  let! nonce := felt_field "DeclareV2::nonce" (PbDeclareV2_nonce value) in
  let! class_hash := hash_field "DeclareV2::class_hash" (PbDeclareV2_class_hash value) in
  let! compiled_class_hash := hash_field "DeclareV2::compiled_class_hash" (PbDeclareV2_compiled_class_hash value) in
  let! sender_address := address_field "DeclareV2::sender" (PbDeclareV2_sender value) in
  ret {|
    DeclareTransactionV2_max_fee := max_fee;
    DeclareTransactionV2_signature := signature;
    DeclareTransactionV2_nonce := nonce;
    DeclareTransactionV2_class_hash := class_hash;
    DeclareTransactionV2_compiled_class_hash := compiled_class_hash;
    DeclareTransactionV2_sender_address := sender_address
  |}.

Definition PbDeclareV2_from (value : DeclareTransactionV2) : PbDeclareV2 := {|
  PbDeclareV2_max_fee := pb_fee (DeclareTransactionV2_max_fee value);
  PbDeclareV2_signature := PbAccountSignature_of (DeclareTransactionV2_signature value);
  PbDeclareV2_nonce := Some (PbFelt252_from (DeclareTransactionV2_nonce value));
  PbDeclareV2_class_hash := Some (PbHash_from (DeclareTransactionV2_class_hash value));
  PbDeclareV2_compiled_class_hash := Some (PbHash_from (DeclareTransactionV2_compiled_class_hash value));
  PbDeclareV2_sender := Some (PbAddress_from (DeclareTransactionV2_sender_address value))
|}.

Definition DeclareTransactionV3_try_from (value : PbDeclareV3) : Conv DeclareTransactionV3 :=
  let! resource_bounds := resource_bounds_field "DeclareV3::resource_bounds" (PbDeclareV3_resource_bounds value) in
  let tip := PbDeclareV3_tip value in
  let! signature := signature_field "DeclareV3::signature" (PbDeclareV3_signature value) in
  let! nonce := felt_field "DeclareV3::nonce" (PbDeclareV3_nonce value) in
  let! class_hash := hash_field "DeclareV3::class_hash" (PbDeclareV3_class_hash value) in
  let! compiled_class_hash := hash_field "DeclareV3::compiled_class_hash" (PbDeclareV3_compiled_class_hash value) in
  let! sender_address := address_field "DeclareV3::sender" (PbDeclareV3_sender value) in
  let! nonce_data_availability_mode := enum_int_to_volition_domain (PbDeclareV3_nonce_data_availability_mode value) in
  let! fee_data_availability_mode := enum_int_to_volition_domain (PbDeclareV3_fee_data_availability_mode value) in
  let! paymaster_data := collect Felt_try_from (PbDeclareV3_paymaster_data value) in
  let! account_deployment_data := collect Felt_try_from (PbDeclareV3_account_deployment_data value) in
  ret {|
    DeclareTransactionV3_resource_bounds := resource_bounds;
    DeclareTransactionV3_tip := tip;
    DeclareTransactionV3_signature := signature;
    DeclareTransactionV3_nonce := nonce;
    DeclareTransactionV3_class_hash := class_hash;
    DeclareTransactionV3_compiled_class_hash := compiled_class_hash;
    DeclareTransactionV3_sender_address := sender_address;
    DeclareTransactionV3_nonce_data_availability_mode := nonce_data_availability_mode;
    DeclareTransactionV3_fee_data_availability_mode := fee_data_availability_mode;
    DeclareTransactionV3_paymaster_data := paymaster_data;
    DeclareTransactionV3_account_deployment_data := account_deployment_data
  |}.

Definition PbDeclareV3_from (value : DeclareTransactionV3) : PbDeclareV3 := {|
  PbDeclareV3_resource_bounds := Some (PbResourceBounds_from (DeclareTransactionV3_resource_bounds value));
  PbDeclareV3_tip := DeclareTransactionV3_tip value;
  PbDeclareV3_signature := PbAccountSignature_of (DeclareTransactionV3_signature value);
  PbDeclareV3_nonce := Some (PbFelt252_from (DeclareTransactionV3_nonce value));
  PbDeclareV3_class_hash := Some (PbHash_from (DeclareTransactionV3_class_hash value));
  PbDeclareV3_compiled_class_hash := Some (PbHash_from (DeclareTransactionV3_compiled_class_hash value));
  PbDeclareV3_sender := Some (PbAddress_from (DeclareTransactionV3_sender_address value));
  PbDeclareV3_nonce_data_availability_mode :=
    volition_domain_to_enum_int (DeclareTransactionV3_nonce_data_availability_mode value);
  PbDeclareV3_fee_data_availability_mode :=
    volition_domain_to_enum_int (DeclareTransactionV3_fee_data_availability_mode value);
  PbDeclareV3_paymaster_data := PbFelt252_from <$> DeclareTransactionV3_paymaster_data value;
  PbDeclareV3_account_deployment_data := PbFelt252_from <$> DeclareTransactionV3_account_deployment_data value
|}.

(** ** Deployments and messages from L1 *)

Definition DeployTransaction_try_from (value : PbDeploy) : Conv DeployTransaction :=
  let version := felt_from_uint (PbDeploy_version value) in
  let! class_hash := hash_field "Deploy::class_hash" (PbDeploy_class_hash value) in
  let! contract_address_salt := felt_field "Deploy::address_salt" (PbDeploy_address_salt value) in
  let! constructor_calldata := collect Felt_try_from (PbDeploy_calldata value) in
  ret {|
    DeployTransaction_version := version;
    DeployTransaction_class_hash := class_hash;
    DeployTransaction_contract_address_salt := contract_address_salt;
    DeployTransaction_constructor_calldata := constructor_calldata
  |}.

Definition PbDeploy_from (value : DeployTransaction) : PbDeploy := {|
  PbDeploy_version := default 0 (try_from_starkfelt_to_u32 (DeployTransaction_version value));
  PbDeploy_class_hash := Some (PbHash_from (DeployTransaction_class_hash value));
  PbDeploy_address_salt := Some (PbFelt252_from (DeployTransaction_contract_address_salt value));
  PbDeploy_calldata := PbFelt252_from <$> DeployTransaction_constructor_calldata value
|}.

Definition L1HandlerTransaction_try_from (value : PbL1HandlerV0) : Conv L1HandlerTransaction :=
  let version := 0 in
  let! nonce := felt_field "L1HandlerV0::nonce" (PbL1HandlerV0_nonce value) in
  let! contract_address := address_field "L1HandlerV0::address" (PbL1HandlerV0_address value) in
  let! entry_point_selector :=
    felt_field "L1HandlerV0::entry_point_selector" (PbL1HandlerV0_entry_point_selector value) in
  let! calldata := collect Felt_try_from (PbL1HandlerV0_calldata value) in
  ret {|
    L1HandlerTransaction_version := version;
    L1HandlerTransaction_nonce := nonce;
    L1HandlerTransaction_contract_address := contract_address;
    L1HandlerTransaction_entry_point_selector := entry_point_selector;
    L1HandlerTransaction_calldata := calldata
  |}.

Definition PbL1HandlerV0_from (value : L1HandlerTransaction) : PbL1HandlerV0 := {|
  PbL1HandlerV0_nonce := Some (PbFelt252_from (L1HandlerTransaction_nonce value));
  PbL1HandlerV0_address := Some (PbAddress_from (L1HandlerTransaction_contract_address value));
  PbL1HandlerV0_entry_point_selector := Some (PbFelt252_from (L1HandlerTransaction_entry_point_selector value));
  PbL1HandlerV0_calldata := PbFelt252_from <$> L1HandlerTransaction_calldata value
|}.

(** ** Transactions *)

Definition Transaction_try_from (value : PbTransaction) : Conv Transaction :=
  let! txn := field_or_missing "Transaction::txn" (PbTransaction_txn value) in
  match txn with
  | PbTransaction_DeclareV0 declare_v0 =>
      let! tx := DeclareTransactionV0_try_from declare_v0 in ret (Transaction_Declare (DeclareTransaction_V0 tx))
  | PbTransaction_DeclareV1 declare_v1 =>
      let! tx := DeclareTransactionV1_try_from declare_v1 in ret (Transaction_Declare (DeclareTransaction_V1 tx))
  | PbTransaction_DeclareV2 declare_v2 =>
      let! tx := DeclareTransactionV2_try_from declare_v2 in ret (Transaction_Declare (DeclareTransaction_V2 tx))
  | PbTransaction_DeclareV3 declare_v3 =>
      let! tx := DeclareTransactionV3_try_from declare_v3 in ret (Transaction_Declare (DeclareTransaction_V3 tx))
  | PbTransaction_Deploy deploy =>
      let! tx := DeployTransaction_try_from deploy in ret (Transaction_Deploy tx)
  | PbTransaction_DeployAccountV1 deploy_account_v1 =>
      let! tx := DeployAccountTransactionV1_try_from deploy_account_v1 in
      ret (Transaction_DeployAccount (DeployAccountTransaction_V1 tx))
  | PbTransaction_DeployAccountV3 deploy_account_v3 =>
      let! tx := DeployAccountTransactionV3_try_from deploy_account_v3 in
      ret (Transaction_DeployAccount (DeployAccountTransaction_V3 tx))
  | PbTransaction_InvokeV0 invoke_v0 =>
      let! tx := InvokeTransactionV0_try_from invoke_v0 in ret (Transaction_Invoke (InvokeTransaction_V0 tx))
  | PbTransaction_InvokeV1 invoke_v1 =>
      let! tx := InvokeTransactionV1_try_from invoke_v1 in ret (Transaction_Invoke (InvokeTransaction_V1 tx))
  | PbTransaction_InvokeV3 invoke_v3 =>
      let! tx := InvokeTransactionV3_try_from invoke_v3 in ret (Transaction_Invoke (InvokeTransaction_V3 tx))
  | PbTransaction_L1Handler l1_handler =>
      let! tx := L1HandlerTransaction_try_from l1_handler in ret (Transaction_L1Handler tx)
  end.

Definition PbTransaction_from (value : Transaction) : PbTransaction :=
  mkPbTransaction (Some
    match value with
    | Transaction_Declare (DeclareTransaction_V0 declare_v0) => PbTransaction_DeclareV0 (PbDeclareV0_from declare_v0)
    | Transaction_Declare (DeclareTransaction_V1 declare_v1) => PbTransaction_DeclareV1 (PbDeclareV1_from declare_v1)
    | Transaction_Declare (DeclareTransaction_V2 declare_v2) => PbTransaction_DeclareV2 (PbDeclareV2_from declare_v2)
    | Transaction_Declare (DeclareTransaction_V3 declare_v3) => PbTransaction_DeclareV3 (PbDeclareV3_from declare_v3)
    | Transaction_Deploy deploy => PbTransaction_Deploy (PbDeploy_from deploy)
    | Transaction_DeployAccount (DeployAccountTransaction_V1 v1) =>
        PbTransaction_DeployAccountV1 (PbDeployAccountV1_from v1)
    | Transaction_DeployAccount (DeployAccountTransaction_V3 v3) =>
        PbTransaction_DeployAccountV3 (PbDeployAccountV3_from v3)
    | Transaction_Invoke (InvokeTransaction_V0 invoke_v0) => PbTransaction_InvokeV0 (PbInvokeV0_from invoke_v0)
    | Transaction_Invoke (InvokeTransaction_V1 invoke_v1) => PbTransaction_InvokeV1 (PbInvokeV1_from invoke_v1)
    | Transaction_Invoke (InvokeTransaction_V3 invoke_v3) => PbTransaction_InvokeV3 (PbInvokeV3_from invoke_v3)
    | Transaction_L1Handler l1_handler => PbTransaction_L1Handler (PbL1HandlerV0_from l1_handler)
    end).

(** ** Transactions with their receipts *)

Inductive PriceUnit : Type := PriceUnit_Wei | PriceUnit_Fri.

Definition price_unit_into (unit : PriceUnit) : Z := match unit with PriceUnit_Wei => 0 | PriceUnit_Fri => 1 end.

(** The unit of the fee; [None] is the early return. *)
Definition price_unit_of (txn : option PbTransactionOneof) : option PriceUnit :=
  match txn with
  | Some (PbTransaction_DeclareV1 _) => Some PriceUnit_Wei
  | Some (PbTransaction_DeclareV2 _) => Some PriceUnit_Wei
  | Some (PbTransaction_DeclareV3 _) => Some PriceUnit_Fri
  | Some (PbTransaction_Deploy _) => Some PriceUnit_Wei
  | Some (PbTransaction_DeployAccountV1 _) => Some PriceUnit_Wei
  | Some (PbTransaction_DeployAccountV3 _) => Some PriceUnit_Fri
  | Some (PbTransaction_InvokeV1 _) => Some PriceUnit_Wei
  | Some (PbTransaction_InvokeV3 _) => Some PriceUnit_Fri
  | Some (PbTransaction_L1Handler _) => Some PriceUnit_Wei
  | _ => None
  end.

(** [common.price_unit = price_unit.into()] when there is a [common]. *)
Definition set_common_price_unit (unit : PriceUnit) (common : option PbReceiptCommon) : option PbReceiptCommon :=
  (fun common => {|
     PbReceiptCommon_actual_fee := PbReceiptCommon_actual_fee common;
     PbReceiptCommon_price_unit := price_unit_into unit;
     PbReceiptCommon_messages_sent := PbReceiptCommon_messages_sent common;
     PbReceiptCommon_execution_resources := PbReceiptCommon_execution_resources common;
     PbReceiptCommon_revert_reason := PbReceiptCommon_revert_reason common
   |}) <$> common.

Definition set_price_unit_based_on_transaction (receipt : PbReceipt) (transaction : PbTransaction) : PbReceipt :=
  match price_unit_of (PbTransaction_txn transaction) with
  | None => receipt
  | Some unit =>
      match PbReceipt_type receipt with
      | None => receipt
      | Some receipt_type =>
          mkPbReceipt (Some
            match receipt_type with
            | PbReceipt_Invoke invoke =>
                PbReceipt_Invoke (mkPbReceiptInvoke (set_common_price_unit unit (PbReceiptInvoke_common invoke)))
            | PbReceipt_L1Handler l1_handler =>
                PbReceipt_L1Handler (mkPbReceiptL1Handler
                  (set_common_price_unit unit (PbReceiptL1Handler_common l1_handler))
                  (PbReceiptL1Handler_msg_hash l1_handler))
            | PbReceipt_Declare declare =>
                PbReceipt_Declare (mkPbReceiptDeclare (set_common_price_unit unit (PbReceiptDeclare_common declare)))
            | PbReceipt_DeprecatedDeploy deploy =>
                PbReceipt_DeprecatedDeploy (mkPbReceiptDeploy
                  (set_common_price_unit unit (PbReceiptDeploy_common deploy)) (PbReceiptDeploy_contract_address deploy))
            | PbReceipt_DeployAccount deploy_account =>
                PbReceipt_DeployAccount (mkPbReceiptDeployAccount
                  (set_common_price_unit unit (PbReceiptDeployAccount_common deploy_account))
                  (PbReceiptDeployAccount_contract_address deploy_account))
            end)
      end
  end.

Definition TransactionWithReceipt_try_from (value : PbTransactionWithReceipt) : Conv (Transaction * TransactionOutput) :=
  let! transaction :=
    field_or_missing "TransactionWithReceipt::transaction" (PbTransactionWithReceipt_transaction value) in
  let! transaction := Transaction_try_from transaction in
  let! receipt := field_or_missing "TransactionWithReceipt::output" (PbTransactionWithReceipt_receipt value) in
  let! output := TransactionOutput_try_from receipt in
  ret (transaction, output).

Definition PbTransactionWithReceipt_from (value : Transaction * TransactionOutput) : Conv PbTransactionWithReceipt :=
  let transaction := PbTransaction_from value.1 in
  let! receipt := PbReceipt_from value.2 in
  let receipt := set_price_unit_based_on_transaction receipt transaction in
  ret {| PbTransactionWithReceipt_transaction := Some transaction; PbTransactionWithReceipt_receipt := Some receipt |}.

Definition MaybeTransaction_try_from (value : PbTransactionsResponse) :
    Conv (DataOrFin (Transaction * TransactionOutput)) :=
  match PbTransactionsResponse_transaction_message value with
  | None => raise (ProtobufConversionError_MissingField "TransactionsResponse::transaction_message")
  | Some (PbTransactionsResponse_TransactionWithReceipt tx_with_receipt) =>
      let! result := TransactionWithReceipt_try_from tx_with_receipt in ret (Some result)
  | Some (PbTransactionsResponse_Fin _) => ret None
  end.

Definition PbTransactionsResponse_from (value : DataOrFin (Transaction * TransactionOutput)) : Conv PbTransactionsResponse :=
  match value with
  | Some transaction_and_output =>
      let! tx_with_receipt := PbTransactionWithReceipt_from transaction_and_output in
      ret (mkPbTransactionsResponse (Some (PbTransactionsResponse_TransactionWithReceipt tx_with_receipt)))
  | None => ret (mkPbTransactionsResponse (Some (PbTransactionsResponse_Fin mkPbFin)))
  end.

Definition TransactionQuery_try_from (value : PbTransactionsRequest) : Conv Query :=
  let! iteration := field_or_missing "TransactionsRequest::iteration" (PbTransactionsRequest_iteration value) in
  Query_try_from iteration.

Definition PbTransactionsRequest_from (value : Query) : PbTransactionsRequest :=
  mkPbTransactionsRequest (Some (PbIteration_from value)).
End ProtoTransaction.

(** * Conversions of classes and of consensus messages

    Models [crates/papyrus_protobuf/src/converters/class.rs] and
    [crates/papyrus_protobuf/src/converters/consensus.rs]. *)

#[local] Open Scope string_scope.
#[local] Open Scope Z_scope.

(** [deprecated_contract_class::Program::default()]. *)
Class ProgramApi {X : ExternalTypes} : Type := {
  default_Program : Program
}.

(** The bytes of a string literal of ASCII characters. *)
Definition literal (s : string) : list Z := Z.of_nat ∘ Ascii.nat_of_ascii <$> String.list_ascii_of_string s.

Section ProtoClass.
Context {F : FeltApi} {X : ExternalTypes} {PA : ProgramApi}.

(** ** Entry points *)

Definition DeprecatedEntryPoint_try_from (value : PbEntryPoint) : Conv DeprecatedEntryPoint :=
  let! selector := felt_field "EntryPoint::selector" (PbEntryPoint_selector value) in
  let! offset := expect (uint_try_from 64 (PbEntryPoint_offset value)) in
  ret (mkDeprecatedEntryPoint selector offset).

Definition PbEntryPoint_from (value : DeprecatedEntryPoint) : Conv PbEntryPoint :=
  let! offset := expect (uint_try_from 64 (DeprecatedEntryPoint_offset value)) in
  ret {| PbEntryPoint_selector := Some (PbFelt252_from (DeprecatedEntryPoint_selector value));
         PbEntryPoint_offset := offset |}.

Definition EntryPoint_try_from (value : PbSierraEntryPoint) : Conv EntryPoint :=
  let! selector := felt_field "SierraEntryPoint::selector" (PbSierraEntryPoint_selector value) in
  let! function_idx := expect (uint_try_from 64 (PbSierraEntryPoint_index value)) in
  ret (mkEntryPoint function_idx selector).

Definition PbSierraEntryPoint_from (value : EntryPoint) : Conv PbSierraEntryPoint :=
  let! index := expect (uint_try_from 64 (EntryPoint_function_idx value)) in
  ret {| PbSierraEntryPoint_index := index;
         PbSierraEntryPoint_selector := Some (PbFelt252_from (EntryPoint_selector value)) |}.

(** [if !points.is_empty() { map.insert(key, points converted) }]. *)
Definition insert_entry_points {K A B} `{Countable K} (convert : A -> Conv B) (key : K) (points : list A)
    (entry_points_by_type : gmap K (list B)) : Conv (gmap K (list B)) :=
  match points with
  | [] => ret entry_points_by_type
  | _ => let! points := collect convert points in ret (<[key := points]> entry_points_by_type)
  end.

(** [map.get(&key).unwrap_or(&vec![])]. *)
Definition entry_points_of {K B} `{Countable K} (key : K) (entry_points_by_type : gmap K (list B)) : list B :=
  default [] (entry_points_by_type !! key).

(** ** Classes *)

Definition DeprecatedContractClass_try_from (value : PbCairo0Class) : Conv DeprecatedContractClass :=
  let! entry_points_by_type :=
    insert_entry_points DeprecatedEntryPoint_try_from DeprecatedEntryPointType_Constructor
      (PbCairo0Class_constructors value) ∅ in
  let! entry_points_by_type :=
    insert_entry_points DeprecatedEntryPoint_try_from DeprecatedEntryPointType_External
      (PbCairo0Class_externals value) entry_points_by_type in
  let! entry_points_by_type :=
    insert_entry_points DeprecatedEntryPoint_try_from DeprecatedEntryPointType_L1Handler
      (PbCairo0Class_l1_handlers value) entry_points_by_type in
  ret {|
    DeprecatedContractClass_abi := None;
    DeprecatedContractClass_program := default_Program;
    DeprecatedContractClass_entry_points_by_type := entry_points_by_type
  |}.

Definition PbCairo0Class_from (value : DeprecatedContractClass) : Conv PbCairo0Class :=
  let entry_points_by_type := DeprecatedContractClass_entry_points_by_type value in
  let! constructors :=
    collect PbEntryPoint_from (entry_points_of DeprecatedEntryPointType_Constructor entry_points_by_type) in
  let! externals :=
    collect PbEntryPoint_from (entry_points_of DeprecatedEntryPointType_External entry_points_by_type) in
  let! l1_handlers :=
    collect PbEntryPoint_from (entry_points_of DeprecatedEntryPointType_L1Handler entry_points_by_type) in
  ret {|
    PbCairo0Class_constructors := constructors;
    PbCairo0Class_externals := externals;
    PbCairo0Class_l1_handlers := l1_handlers;
    PbCairo0Class_abi := [];
    PbCairo0Class_program := []
  |}.

Definition ContractClass_try_from (value : PbCairo1Class) : Conv ContractClass :=
  let! sierra_program := collect Felt_try_from (PbCairo1Class_program value) in
  let! entry_points := field_or_missing "Cairo1Class::entry_points" (PbCairo1Class_entry_points value) in
  let! entry_points_by_type :=
    insert_entry_points EntryPoint_try_from EntryPointType_Constructor (PbCairo1EntryPoints_constructors entry_points) ∅ in
  let! entry_points_by_type :=
    insert_entry_points EntryPoint_try_from EntryPointType_External (PbCairo1EntryPoints_externals entry_points)
      entry_points_by_type in
  let! entry_points_by_type :=
    insert_entry_points EntryPoint_try_from EntryPointType_L1Handler (PbCairo1EntryPoints_l1_handlers entry_points)
      entry_points_by_type in
  ret {|
    ContractClass_sierra_program := sierra_program;
    ContractClass_entry_points_by_type := entry_points_by_type;
    ContractClass_abi := PbCairo1Class_abi value
  |}.

Definition PbCairo1Class_from (value : ContractClass) : Conv PbCairo1Class :=
  let program := PbFelt252_from <$> ContractClass_sierra_program value in
  let entry_points_by_type := ContractClass_entry_points_by_type value in
  let! constructors :=
    collect PbSierraEntryPoint_from (entry_points_of EntryPointType_Constructor entry_points_by_type) in
  let! externals := collect PbSierraEntryPoint_from (entry_points_of EntryPointType_External entry_points_by_type) in
  let! l1_handlers := collect PbSierraEntryPoint_from (entry_points_of EntryPointType_L1Handler entry_points_by_type) in
  let! v0 := expect (ContractClass_sierra_program value !! 0%nat) in
  let! v1 := expect (ContractClass_sierra_program value !! 1%nat) in
  let! v2 := expect (ContractClass_sierra_program value !! 2%nat) in
  let! v3 := expect (ContractClass_sierra_program value !! 3%nat) in
  let! v4 := expect (ContractClass_sierra_program value !! 4%nat) in
  let! v5 := expect (ContractClass_sierra_program value !! 5%nat) in
  let contract_class_version :=
    (literal "sierra-v" ++ felt_display v0 ++ literal "." ++ felt_display v1 ++ literal "." ++ felt_display v2 ++
     literal " cairo-v" ++ felt_display v3 ++ literal "." ++ felt_display v4 ++ literal "." ++ felt_display v5)%list in
  ret {|
    PbCairo1Class_abi := ContractClass_abi value;
    PbCairo1Class_program := program;
    PbCairo1Class_entry_points := Some {|
      PbCairo1EntryPoints_constructors := constructors;
      PbCairo1EntryPoints_externals := externals;
      PbCairo1EntryPoints_l1_handlers := l1_handlers
    |};
    PbCairo1Class_contract_class_version := contract_class_version
  |}.

Definition ApiContractClass_try_from (value : PbClass) : Conv ApiContractClass :=
  match PbClass_class value with
  | Some (PbClass_Cairo0 class) =>
      let! class := DeprecatedContractClass_try_from class in ret (ApiContractClass_DeprecatedContractClass class)
  | Some (PbClass_Cairo1 class) =>
      let! class := ContractClass_try_from class in ret (ApiContractClass_ContractClass class)
  | None => raise (ProtobufConversionError_MissingField "Class::class")
  end.

Definition PbClass_from (value : ApiContractClass) : Conv PbClass :=
  let! domain := expect (uint_try_from 32 (volition_domain_to_enum_int DOMAIN)) in
  let! class :=
    match value with
    | ApiContractClass_DeprecatedContractClass class =>
        let! class := PbCairo0Class_from class in ret (PbClass_Cairo0 class)
    | ApiContractClass_ContractClass class => let! class := PbCairo1Class_from class in ret (PbClass_Cairo1 class)
    end in
  ret {| PbClass_domain := domain; PbClass_class := Some class |}.

Definition MaybeClass_try_from (value : PbClassesResponse) : Conv (DataOrFin ApiContractClass) :=
  match PbClassesResponse_class_message value with
  | Some (PbClassesResponse_Class class) => let! class := ApiContractClass_try_from class in ret (Some class)
  | Some (PbClassesResponse_Fin _) => ret None
  | None => raise (ProtobufConversionError_MissingField "ClassesResponse::class_message")
  end.

Definition PbClassesResponse_from (value : DataOrFin ApiContractClass) : Conv PbClassesResponse :=
  match value with
  | Some class =>
      let! class := PbClass_from class in ret (mkPbClassesResponse (Some (PbClassesResponse_Class class)))
  | None => ret (mkPbClassesResponse (Some (PbClassesResponse_Fin mkPbFin)))
  end.

Definition ClassQuery_try_from (value : PbClassesRequest) : Conv Query :=
  let! iteration := field_or_missing "ClassesRequest::iteration" (PbClassesRequest_iteration value) in
  Query_try_from iteration.

Definition PbClassesRequest_from (value : Query) : PbClassesRequest := mkPbClassesRequest (Some (PbIteration_from value)).
End ProtoClass.

(** ** Consensus *)

Section ProtoConsensus.
Context {F : FeltApi} {TA : TransactionApi}.

Definition Proposal_try_from (value : PbProposal) : Conv (Proposal Transaction) :=
  let! transactions := collect Transaction_try_from (PbProposal_transactions value) in
  let height := PbProposal_height value in
  let! proposer := address_field "proposer" (PbProposal_proposer value) in
  let! block_hash := hash_field "block_hash" (PbProposal_block_hash value) in
  ret (mkProposal height proposer transactions block_hash).

Definition PbProposal_from (value : Proposal Transaction) : PbProposal := {|
  PbProposal_height := proposal_height value;
  PbProposal_proposer := Some (PbAddress_from (proposal_proposer value));
  PbProposal_transactions := PbTransaction_from <$> proposal_transactions value;
  PbProposal_block_hash := Some (PbHash_from (proposal_block_hash value))
|}.

(** [protobuf::vote::VoteType::try_from(i32)?], then the variant of the same name. *)
Definition VoteType_try_from (value : Z) : Conv VoteType :=
  if value =? 0 then ret VoteType_Prevote
  else if value =? 1 then ret VoteType_Precommit
  else raise ProtobufConversionError_DecodeError.

Definition vote_type_as_i32 (vote_type : VoteType) : Z := match vote_type with VoteType_Prevote => 0 | VoteType_Precommit => 1 end.

Definition Vote_try_from (value : PbVote) : Conv Vote :=
  let! vote_type := VoteType_try_from (PbVote_vote_type value) in
  let height := PbVote_height value in
  let! block_hash := hash_field "block_hash" (PbVote_block_hash value) in
  let! voter := address_field "voter" (PbVote_voter value) in
  ret (mkVote vote_type height block_hash voter).

Definition PbVote_from (value : Vote) : PbVote := {|
  PbVote_vote_type := vote_type_as_i32 (vote_type value);
  PbVote_height := vote_height value;
  PbVote_block_hash := Some (PbHash_from (vote_block_hash value));
  PbVote_voter := Some (PbAddress_from (vote_voter value))
|}.

Definition ConsensusMessage_try_from (value : PbConsensusMessage) : Conv (ConsensusMessage Transaction) :=
  match PbConsensusMessage_message value with
  | None => raise (ProtobufConversionError_MissingField "message")
  | Some (PbConsensusMessage_Proposal proposal) =>
      let! proposal := Proposal_try_from proposal in ret (ConsensusMessage_Proposal proposal)
  | Some (PbConsensusMessage_Vote vote) => let! vote := Vote_try_from vote in ret (ConsensusMessage_Vote vote)
  end.

Definition PbConsensusMessage_from (value : ConsensusMessage Transaction) : PbConsensusMessage :=
  match value with
  | ConsensusMessage_Proposal proposal =>
      mkPbConsensusMessage (Some (PbConsensusMessage_Proposal (PbProposal_from proposal)))
  | ConsensusMessage_Vote vote => mkPbConsensusMessage (Some (PbConsensusMessage_Vote (PbVote_from vote)))
  end.
End ProtoConsensus.
