(* ===== verification/ProtoLaws.v ===== *)
(** * Laws of the shared conversions

    A conversion from a message is described by [conv_ok]: what it returns
    satisfies a predicate, and it panics only when the message is not regular
    ([regular_PbM]: the field elements hold 32 bytes, and the senders of messages to
    L1 are addresses). Round trips are equations between runs. The lemmas on the
    kinds of fields are hints of the database [proto]; the lemmas on messages
    follow from them. *)

From stdpp Require Import base gmap list strings fin_maps.
From Stdlib Require Import ZArith Lia.
From S2P Require Import Prelude StorageTables StarknetTypes StorageTxn Header Serde SerdeLaws P2pServer ProtoCommon ProtoSync.
From S2P Require Import ProtoTransaction.

Create HintDb proto.

#[global] Arguments map_transpose : simpl never.
#[global] Arguments field_or_missing : simpl never.
#[global] Arguments pb_fee : simpl never.
#[global] Arguments PbAccountSignature_of : simpl never.

(** ** Runs of conversions *)

(** What [m] returns satisfies [P]; it panics only if [R] does not hold. *)
Definition conv_ok {A} (R : Prop) (m : Conv A) (P : A -> Prop) : Prop :=
  match m tt with Done _ a => P a | Fail _ _ => True | Panic => ~ R end.

Lemma conv_ok_bind {A B} (R : Prop) (m : Conv A) (k : A -> Conv B) P Q :
  conv_ok R m P -> (forall a, P a -> conv_ok R (k a) Q) -> conv_ok R (bind m k) Q.
Proof. unfold conv_ok, bind. destruct (m tt) as [[] a|s e|]; intros H1 H2; [by apply H2|done|exact H1]. Qed.

Lemma conv_ok_ret {A} (R : Prop) (a : A) (P : A -> Prop) : P a -> conv_ok R (ret a) P.
Proof. done. Qed.

Lemma conv_ok_raise {A} (R : Prop) e (P : A -> Prop) : conv_ok R (raise e) P.
Proof. done. Qed.

Lemma conv_ok_weaken {A} (R : Prop) (m : Conv A) (P Q : A -> Prop) : conv_ok R m P -> (forall a, P a -> Q a) -> conv_ok R m Q.
Proof. unfold conv_ok. destruct (m tt); auto. Qed.

Lemma conv_ok_field {A} (R : Prop) name (o : option A) (P : A -> Prop) : fits_option P o -> conv_ok R (field_or_missing name o) P.
Proof. by destruct o. Qed.

Lemma conv_ok_or_raise {A} (R : Prop) e (o : option A) (P : A -> Prop) : fits_option P o -> conv_ok R (ok_or_raise e o) P.
Proof. by destruct o. Qed.

Lemma conv_ok_transpose {A B} (R : Prop) (f : A -> Conv B) o Q :
  fits_option (fun a => conv_ok R (f a) Q) o -> conv_ok R (map_transpose f o) (fits_option Q).
Proof. destruct o as [a|]; [|done]. cbn [fits_option]. unfold map_transpose. intros Ha. eapply conv_ok_bind; [exact Ha|]. done. Qed.

Lemma conv_ok_collect {A B} (R : Prop) (f : A -> Conv B) l Q :
  Forall (fun a => conv_ok R (f a) Q) l -> conv_ok R (collect f l) (Forall Q).
Proof.
  induction 1 as [|a l Ha Hl IH]; cbn [collect]; [by apply conv_ok_ret|].
  eapply conv_ok_bind; [exact Ha|]. intros b Hb. eapply conv_ok_bind; [exact IH|]. intros bs Hbs. by apply conv_ok_ret, Forall_cons.
Qed.

Lemma transpose_present {A B} (f : A -> Conv B) a b : f a tt = Done tt b -> map_transpose f (Some a) tt = Done tt (Some b).
Proof. intros H. unfold map_transpose. by rewrite (bind_step _ _ _ _ _ H). Qed.

Lemma transpose_absent {A B} (f : A -> Conv B) : map_transpose f None tt = Done tt None.
Proof. done. Qed.

Lemma transpose_is_Some {A B} (f : A -> Conv B) o s s' b : map_transpose f o s = Done s' b -> is_Some b <-> is_Some o.
Proof.
  destruct o as [a|]; unfold map_transpose; intros H; [|unfold ret in H; by simplify_eq]. inv_run. by split; intros _; eexists.
Qed.

Lemma field_or_missing_Some {A} name (o : option A) s s' a : field_or_missing name o s = Done s' a -> o = Some a.
Proof. destruct o; unfold field_or_missing, ok_or_raise, ret, raise; by intros [= _ ->]. Qed.

(** A conversion that returned. *)
Lemma conv_ok_Done {A} R (m : Conv A) P s a : conv_ok R m P -> m tt = Done s a -> P a.
Proof. unfold conv_ok. intros H E. by rewrite E in H. Qed.

Lemma conv_ok_not_Panic {A} (R : Prop) (m : Conv A) P : conv_ok R m P -> R -> m tt <> Panic.
Proof. unfold conv_ok. intros H HR E. by rewrite E in H. Qed.

(** A list converted and read back. *)
Lemma collect_fmap {A B} (to : A -> B) (f : B -> Conv A) l :
  Forall (fun a => f (to a) tt = Done tt a) l -> collect f (to <$> l) tt = Done tt l.
Proof.
  induction 1 as [|a l Ha Hl IH]; [done|]. cbn [collect fmap list_fmap].
  rewrite (bind_step _ _ _ _ _ Ha), (bind_step _ _ _ _ _ IH). done.
Qed.

Lemma collect_collect {A B} (to : A -> Conv B) (f : B -> Conv A) (Q : B -> Prop) l :
  Forall (fun a => exists b, to a tt = Done tt b /\ Q b /\ f b tt = Done tt a) l ->
  exists bs, collect to l tt = Done tt bs /\ Forall Q bs /\ collect f bs tt = Done tt l.
Proof.
  induction 1 as [|a l (b & H1 & H2 & H3) Hl (bs & IH1 & IH2 & IH3)]; [by exists []|].
  exists (b :: bs). cbn [collect]. split; [by rewrite (bind_step _ _ _ _ _ H1), (bind_step _ _ _ _ _ IH1)|].
  split; [by constructor|]. by rewrite (bind_step _ _ _ _ _ H3), (bind_step _ _ _ _ _ IH3).
Qed.

Lemma fits_option_mono {A} (P Q : A -> Prop) o : fits_option P o -> (forall a, P a -> Q a) -> fits_option Q o.
Proof. destruct o; cbn; auto. Qed.

Lemma uint_try_from_Some w z : in_range w z -> uint_try_from w z = Some z.
Proof. unfold in_range, uint_try_from. intros Hz. destruct (Z.leb_spec 0 z), (Z.ltb_spec z (2 ^ w)); try lia. done. Qed.

Lemma uint_try_from_range w z n : uint_try_from w z = Some n -> n = z /\ in_range w z.
Proof. unfold uint_try_from, in_range. destruct (Z.leb_spec 0 z), (Z.ltb_spec z (2 ^ w)); cbn; intros [= <-]. lia. Qed.

Lemma conv_ok_uint R w z : in_range w z -> conv_ok R (expect (uint_try_from w z)) (in_range w).
Proof. intros Hz. by rewrite uint_try_from_Some. Qed.

(** ** Integers *)

Lemma PbUint128_roundtrip z : in_range 128 z -> u128_from (PbUint128_from z) = z.
Proof.
  unfold in_range, u128_from, PbUint128_from, wrap. cbn [PbUint128_low PbUint128_high]. intros Hz.
  rewrite Z.shiftr_div_pow2, Z.shiftl_mul_pow2 by lia.
  pose proof (Z.div_mod z (2 ^ 64) ltac:(lia)) as Hdm. pose proof (Z.mod_pos_bound z (2 ^ 64) ltac:(lia)) as Hr.
  set (q := z / 2 ^ 64) in *. set (r := z mod 2 ^ 64) in *. clearbody q r.
  rewrite (Z.mod_small q) by lia. rewrite (Z.mod_small (q * 2 ^ 64)) by lia. rewrite Z.mod_small; lia.
Qed.

Lemma PbUint128_fits z : fits_PbUint128 (PbUint128_from z).
Proof. split; cbn; apply wrap_range; lia. Qed.

Lemma u128_range m : in_range 128 (u128_from m).
Proof. apply wrap_range. lia. Qed.

Lemma be_value_range bs : Forall is_byte bs -> 0 <= be_value bs < 256 ^ zlength bs.
Proof.
  induction 1 as [|b bs Hb Hbs IH]; [done|]. rewrite be_value_cons. unfold is_byte in Hb.
  unfold zlength in *. cbn [length]. rewrite Nat2Z.inj_succ, Z.pow_succ_r by lia. nia.
Qed.

Lemma be_bytes_take m n z : 0 <= z < 256 ^ Z.of_nat n -> take m (be_bytes (m + n) z) = replicate m 0.
Proof.
  intros Hz. induction m as [|m IH]; [done|]. cbn [Nat.add be_bytes take replicate]. rewrite IH. f_equal.
  rewrite Z.div_small; [done|]. split; [lia|]. eapply Z.lt_le_trans; [apply Hz|]. apply Z.pow_le_mono_r; lia.
Qed.

(** ** Regular messages *)

Section Regular.
Context {F : FeltApi} {FS : FeltSpec}.

(** [Felt::try_from] of the field copies its bytes into an array of 32. *)
Definition regular_PbFelt252 (m : PbFelt252) : Prop := zlength (PbFelt252_elements m) = 32.

(** The sender of a message to L1 is converted with [expect]. *)
Definition regular_address_felt (m : PbFelt252) : Prop :=
  regular_PbFelt252 m /\ is_patricia_key (felt_from_bytes_be (PbFelt252_elements m)).

Definition regular_PbConsensusSignature (m : PbConsensusSignature) : Prop :=
  fits_option regular_PbFelt252 (PbConsensusSignature_r m) /\
  fits_option regular_PbFelt252 (PbConsensusSignature_s m).

Definition regular_PbSignedBlockHeader (m : PbSignedBlockHeader) : Prop :=
  Forall regular_PbConsensusSignature (PbSignedBlockHeader_signatures m).

Definition regular_PbBlockHeadersResponseOneof (m : PbBlockHeadersResponseOneof) : Prop :=
  match m with
  | PbBlockHeadersResponse_Header value => regular_PbSignedBlockHeader value
  | PbBlockHeadersResponse_Fin value => True
  end.

Definition regular_PbBlockHeadersResponse (m : PbBlockHeadersResponse) : Prop :=
  fits_option regular_PbBlockHeadersResponseOneof (PbBlockHeadersResponse_header_message m).

Definition regular_PbEvent (m : PbEvent) : Prop :=
  fits_option regular_PbFelt252 (PbEvent_from_address m) /\
  Forall regular_PbFelt252 (PbEvent_keys m) /\
  Forall regular_PbFelt252 (PbEvent_data m).

Definition regular_PbEventsResponseOneof (m : PbEventsResponseOneof) : Prop :=
  match m with
  | PbEventsResponse_Event value => regular_PbEvent value
  | PbEventsResponse_Fin value => True
  end.

Definition regular_PbEventsResponse (m : PbEventsResponse) : Prop :=
  fits_option regular_PbEventsResponseOneof (PbEventsResponse_event_message m).

Definition regular_PbMessageToL1 (m : PbMessageToL1) : Prop :=
  fits_option regular_address_felt (PbMessageToL1_from_address m) /\
  Forall regular_PbFelt252 (PbMessageToL1_payload m).

Definition regular_PbReceiptCommon (m : PbReceiptCommon) : Prop :=
  fits_option regular_PbFelt252 (PbReceiptCommon_actual_fee m) /\
  Forall regular_PbMessageToL1 (PbReceiptCommon_messages_sent m).

Definition regular_PbReceiptInvoke (m : PbReceiptInvoke) : Prop :=
  fits_option regular_PbReceiptCommon (PbReceiptInvoke_common m).

Definition regular_PbReceiptL1Handler (m : PbReceiptL1Handler) : Prop :=
  fits_option regular_PbReceiptCommon (PbReceiptL1Handler_common m).

Definition regular_PbReceiptDeclare (m : PbReceiptDeclare) : Prop :=
  fits_option regular_PbReceiptCommon (PbReceiptDeclare_common m).

Definition regular_PbReceiptDeploy (m : PbReceiptDeploy) : Prop :=
  fits_option regular_PbReceiptCommon (PbReceiptDeploy_common m) /\
  fits_option regular_PbFelt252 (PbReceiptDeploy_contract_address m).

Definition regular_PbReceiptDeployAccount (m : PbReceiptDeployAccount) : Prop :=
  fits_option regular_PbReceiptCommon (PbReceiptDeployAccount_common m) /\
  fits_option regular_PbFelt252 (PbReceiptDeployAccount_contract_address m).

Definition regular_PbReceiptOneof (m : PbReceiptOneof) : Prop :=
  match m with
  | PbReceipt_Invoke value => regular_PbReceiptInvoke value
  | PbReceipt_L1Handler value => regular_PbReceiptL1Handler value
  | PbReceipt_Declare value => regular_PbReceiptDeclare value
  | PbReceipt_DeprecatedDeploy value => regular_PbReceiptDeploy value
  | PbReceipt_DeployAccount value => regular_PbReceiptDeployAccount value
  end.

Definition regular_PbReceipt (m : PbReceipt) : Prop :=
  fits_option regular_PbReceiptOneof (PbReceipt_type m).

Definition regular_PbResourceLimits (m : PbResourceLimits) : Prop :=
  fits_option regular_PbFelt252 (PbResourceLimits_max_price_per_unit m).

Definition regular_PbResourceBounds (m : PbResourceBounds) : Prop :=
  fits_option regular_PbResourceLimits (PbResourceBounds_l1_gas m) /\
  fits_option regular_PbResourceLimits (PbResourceBounds_l2_gas m).

Definition regular_PbAccountSignature (m : PbAccountSignature) : Prop :=
  Forall regular_PbFelt252 (PbAccountSignature_parts m).

Definition regular_PbDeclareV0 (m : PbDeclareV0) : Prop :=
  fits_option regular_PbFelt252 (PbDeclareV0_max_fee m) /\
  fits_option regular_PbAccountSignature (PbDeclareV0_signature m).

Definition regular_PbDeclareV1 (m : PbDeclareV1) : Prop :=
  fits_option regular_PbFelt252 (PbDeclareV1_max_fee m) /\
  fits_option regular_PbAccountSignature (PbDeclareV1_signature m) /\
  fits_option regular_PbFelt252 (PbDeclareV1_nonce m).

Definition regular_PbDeclareV2 (m : PbDeclareV2) : Prop :=
  fits_option regular_PbFelt252 (PbDeclareV2_max_fee m) /\
  fits_option regular_PbAccountSignature (PbDeclareV2_signature m) /\
  fits_option regular_PbFelt252 (PbDeclareV2_nonce m).

Definition regular_PbDeclareV3 (m : PbDeclareV3) : Prop :=
  fits_option regular_PbAccountSignature (PbDeclareV3_signature m) /\
  fits_option regular_PbFelt252 (PbDeclareV3_nonce m) /\
  fits_option regular_PbResourceBounds (PbDeclareV3_resource_bounds m) /\
  Forall regular_PbFelt252 (PbDeclareV3_paymaster_data m) /\
  Forall regular_PbFelt252 (PbDeclareV3_account_deployment_data m).

Definition regular_PbDeploy (m : PbDeploy) : Prop :=
  fits_option regular_PbFelt252 (PbDeploy_address_salt m) /\
  Forall regular_PbFelt252 (PbDeploy_calldata m).

Definition regular_PbDeployAccountV1 (m : PbDeployAccountV1) : Prop :=
  fits_option regular_PbFelt252 (PbDeployAccountV1_max_fee m) /\
  fits_option regular_PbAccountSignature (PbDeployAccountV1_signature m) /\
  fits_option regular_PbFelt252 (PbDeployAccountV1_nonce m) /\
  fits_option regular_PbFelt252 (PbDeployAccountV1_address_salt m) /\
  Forall regular_PbFelt252 (PbDeployAccountV1_calldata m).

Definition regular_PbDeployAccountV3 (m : PbDeployAccountV3) : Prop :=
  fits_option regular_PbAccountSignature (PbDeployAccountV3_signature m) /\
  fits_option regular_PbFelt252 (PbDeployAccountV3_nonce m) /\
  fits_option regular_PbFelt252 (PbDeployAccountV3_address_salt m) /\
  Forall regular_PbFelt252 (PbDeployAccountV3_calldata m) /\
  fits_option regular_PbResourceBounds (PbDeployAccountV3_resource_bounds m) /\
  Forall regular_PbFelt252 (PbDeployAccountV3_paymaster_data m).

Definition regular_PbInvokeV0 (m : PbInvokeV0) : Prop :=
  fits_option regular_PbFelt252 (PbInvokeV0_max_fee m) /\
  fits_option regular_PbAccountSignature (PbInvokeV0_signature m) /\
  fits_option regular_PbFelt252 (PbInvokeV0_entry_point_selector m) /\
  Forall regular_PbFelt252 (PbInvokeV0_calldata m).

Definition regular_PbInvokeV1 (m : PbInvokeV1) : Prop :=
  fits_option regular_PbFelt252 (PbInvokeV1_max_fee m) /\
  fits_option regular_PbAccountSignature (PbInvokeV1_signature m) /\
  Forall regular_PbFelt252 (PbInvokeV1_calldata m) /\
  fits_option regular_PbFelt252 (PbInvokeV1_nonce m).

Definition regular_PbInvokeV3 (m : PbInvokeV3) : Prop :=
  fits_option regular_PbAccountSignature (PbInvokeV3_signature m) /\
  Forall regular_PbFelt252 (PbInvokeV3_calldata m) /\
  fits_option regular_PbResourceBounds (PbInvokeV3_resource_bounds m) /\
  Forall regular_PbFelt252 (PbInvokeV3_paymaster_data m) /\
  Forall regular_PbFelt252 (PbInvokeV3_account_deployment_data m) /\
  fits_option regular_PbFelt252 (PbInvokeV3_nonce m).

Definition regular_PbL1HandlerV0 (m : PbL1HandlerV0) : Prop :=
  fits_option regular_PbFelt252 (PbL1HandlerV0_nonce m) /\
  fits_option regular_PbFelt252 (PbL1HandlerV0_entry_point_selector m) /\
  Forall regular_PbFelt252 (PbL1HandlerV0_calldata m).

Definition regular_PbTransactionOneof (m : PbTransactionOneof) : Prop :=
  match m with
  | PbTransaction_DeclareV0 value => regular_PbDeclareV0 value
  | PbTransaction_DeclareV1 value => regular_PbDeclareV1 value
  | PbTransaction_DeclareV2 value => regular_PbDeclareV2 value
  | PbTransaction_DeclareV3 value => regular_PbDeclareV3 value
  | PbTransaction_Deploy value => regular_PbDeploy value
  | PbTransaction_DeployAccountV1 value => regular_PbDeployAccountV1 value
  | PbTransaction_DeployAccountV3 value => regular_PbDeployAccountV3 value
  | PbTransaction_InvokeV0 value => regular_PbInvokeV0 value
  | PbTransaction_InvokeV1 value => regular_PbInvokeV1 value
  | PbTransaction_InvokeV3 value => regular_PbInvokeV3 value
  | PbTransaction_L1Handler value => regular_PbL1HandlerV0 value
  end.

Definition regular_PbTransaction (m : PbTransaction) : Prop :=
  fits_option regular_PbTransactionOneof (PbTransaction_txn m).

Definition regular_PbTransactionWithReceipt (m : PbTransactionWithReceipt) : Prop :=
  fits_option regular_PbTransaction (PbTransactionWithReceipt_transaction m) /\
  fits_option regular_PbReceipt (PbTransactionWithReceipt_receipt m).

Definition regular_PbTransactionsResponseOneof (m : PbTransactionsResponseOneof) : Prop :=
  match m with
  | PbTransactionsResponse_TransactionWithReceipt value => regular_PbTransactionWithReceipt value
  | PbTransactionsResponse_Fin value => True
  end.

Definition regular_PbTransactionsResponse (m : PbTransactionsResponse) : Prop :=
  fits_option regular_PbTransactionsResponseOneof (PbTransactionsResponse_transaction_message m).

Definition regular_PbEntryPoint (m : PbEntryPoint) : Prop :=
  fits_option regular_PbFelt252 (PbEntryPoint_selector m).

Definition regular_PbCairo0Class (m : PbCairo0Class) : Prop :=
  Forall regular_PbEntryPoint (PbCairo0Class_externals m) /\
  Forall regular_PbEntryPoint (PbCairo0Class_l1_handlers m) /\
  Forall regular_PbEntryPoint (PbCairo0Class_constructors m).

Definition regular_PbSierraEntryPoint (m : PbSierraEntryPoint) : Prop :=
  fits_option regular_PbFelt252 (PbSierraEntryPoint_selector m).

Definition regular_PbCairo1EntryPoints (m : PbCairo1EntryPoints) : Prop :=
  Forall regular_PbSierraEntryPoint (PbCairo1EntryPoints_externals m) /\
  Forall regular_PbSierraEntryPoint (PbCairo1EntryPoints_l1_handlers m) /\
  Forall regular_PbSierraEntryPoint (PbCairo1EntryPoints_constructors m).

Definition regular_PbCairo1Class (m : PbCairo1Class) : Prop :=
  fits_option regular_PbCairo1EntryPoints (PbCairo1Class_entry_points m) /\
  Forall regular_PbFelt252 (PbCairo1Class_program m).

Definition regular_PbClassOneof (m : PbClassOneof) : Prop :=
  match m with
  | PbClass_Cairo0 value => regular_PbCairo0Class value
  | PbClass_Cairo1 value => regular_PbCairo1Class value
  end.

Definition regular_PbClass (m : PbClass) : Prop :=
  fits_option regular_PbClassOneof (PbClass_class m).

Definition regular_PbClassesResponseOneof (m : PbClassesResponseOneof) : Prop :=
  match m with
  | PbClassesResponse_Class value => regular_PbClass value
  | PbClassesResponse_Fin value => True
  end.

Definition regular_PbClassesResponse (m : PbClassesResponse) : Prop :=
  fits_option regular_PbClassesResponseOneof (PbClassesResponse_class_message m).

Definition regular_PbContractStoredValue (m : PbContractStoredValue) : Prop :=
  fits_option regular_PbFelt252 (PbContractStoredValue_key m) /\
  fits_option regular_PbFelt252 (PbContractStoredValue_value m).

Definition regular_PbContractDiff (m : PbContractDiff) : Prop :=
  fits_option regular_PbFelt252 (PbContractDiff_nonce m) /\
  Forall regular_PbContractStoredValue (PbContractDiff_values m).

Definition regular_PbStateDiffsResponseOneof (m : PbStateDiffsResponseOneof) : Prop :=
  match m with
  | PbStateDiffsResponse_ContractDiff value => regular_PbContractDiff value
  | PbStateDiffsResponse_DeclaredClass value => True
  | PbStateDiffsResponse_Fin value => True
  end.

Definition regular_PbStateDiffsResponse (m : PbStateDiffsResponse) : Prop :=
  fits_option regular_PbStateDiffsResponseOneof (PbStateDiffsResponse_state_diff_message m).

Definition regular_PbProposal (m : PbProposal) : Prop :=
  Forall regular_PbTransaction (PbProposal_transactions m).

Definition regular_PbConsensusMessageOneof (m : PbConsensusMessageOneof) : Prop :=
  match m with
  | PbConsensusMessage_Proposal value => regular_PbProposal value
  | PbConsensusMessage_Vote value => True
  end.

Definition regular_PbConsensusMessage (m : PbConsensusMessage) : Prop :=
  fits_option regular_PbConsensusMessageOneof (PbConsensusMessage_message m).
End Regular.

Section FieldLaws.
Context {F : FeltApi} {FS : FeltSpec} {TA : TransactionApi}.

(** ** Field elements, hashes and addresses *)

Lemma felt_bytes_length z : is_felt z -> zlength (felt_to_bytes_be z) = 32.
Proof. intros Hz. rewrite felt_to_bytes_spec by done. unfold zlength. by rewrite be_bytes_length. Qed.

Lemma felt_bytes_back z : is_felt z -> felt_from_bytes_be (felt_to_bytes_be z) = z.
Proof. intros Hz. rewrite felt_to_bytes_spec by done. by apply felt_from_bytes_canonical. Qed.

Lemma felt_bytes_fit z : is_felt z -> fits_bytes (felt_to_bytes_be z).
Proof. intros Hz. rewrite felt_to_bytes_spec by done. apply be_bytes_byte. Qed.

Lemma from_bytes_is_felt bs : zlength bs = 32 -> fits_bytes bs -> is_felt (felt_from_bytes_be bs).
Proof. unfold zlength. intros Hl Hb. apply felt_from_bytes_is_felt; [lia|done]. Qed.

Lemma array_from_slice_same n src : zlength src = n -> array_from_slice n src tt = Done tt src.
Proof. intros <-. unfold array_from_slice. by rewrite Z.eqb_refl. Qed.

Lemma Felt_roundtrip z : is_felt z -> Felt_try_from (PbFelt252_from z) tt = Done tt z.
Proof.
  intros Hz. unfold Felt_try_from. cbn [PbFelt252_from PbFelt252_elements].
  rewrite (bind_step _ _ _ _ _ (array_from_slice_same _ _ (felt_bytes_length z Hz))). unfold ret. by rewrite felt_bytes_back.
Qed.

Lemma hash_roundtrip z : is_felt z -> StarkHash_try_from (PbHash_from z) tt = Done tt z.
Proof.
  intros Hz. unfold StarkHash_try_from. cbn [PbHash_from PbHash_elements]. rewrite felt_bytes_length by done. cbn [Z.eqb negb Pos.eqb].
  rewrite (bind_step _ _ _ _ _ (array_from_slice_same _ _ (felt_bytes_length z Hz))). unfold ret. by rewrite felt_bytes_back.
Qed.

Lemma patricia_key_Some z : is_patricia_key z -> patricia_key_try_from z = Some z.
Proof. intros Hz. by apply patricia_key_spec. Qed.

Lemma address_roundtrip z : is_patricia_key z -> ContractAddress_try_from (PbAddress_from z) tt = Done tt z.
Proof.
  intros Hp. pose proof (patricia_key_is_felt z Hp) as Hz. unfold ContractAddress_try_from. cbn [PbAddress_from PbAddress_elements].
  rewrite felt_bytes_length by done. cbn [Z.eqb negb Pos.eqb].
  rewrite (bind_step _ _ _ _ _ (array_from_slice_same _ _ (felt_bytes_length z Hz))), felt_bytes_back by done.
  by rewrite patricia_key_Some.
Qed.

Lemma Felt_ok R m :
  fits_PbFelt252 m -> (R -> regular_PbFelt252 m) -> conv_ok R (Felt_try_from m) is_felt.
Proof.
  intros Hm Hr. unfold Felt_try_from, array_from_slice. destruct (Z.eqb_spec (zlength (PbFelt252_elements m)) 32) as [Hl|Hl].
  - by apply from_bytes_is_felt.
  - intros HR. by apply Hl, Hr.
Qed.

Lemma hash_ok R m : fits_PbHash m -> conv_ok R (StarkHash_try_from m) is_felt.
Proof.
  intros Hm. unfold StarkHash_try_from, array_from_slice. destruct (Z.eqb_spec (zlength (PbHash_elements m)) 32) as [Hl|Hl]; cbn; [|done].
  by apply from_bytes_is_felt.
Qed.

Lemma patricia_ok R e z : conv_ok R (ok_or_raise e (patricia_key_try_from z)) is_patricia_key.
Proof.
  apply conv_ok_or_raise. destruct (patricia_key_try_from z) as [k|] eqn:E; [|done]. by apply patricia_key_spec in E as [-> ?].
Qed.

Lemma address_ok R m : fits_PbAddress m -> conv_ok R (ContractAddress_try_from m) is_patricia_key.
Proof.
  intros Hm. unfold ContractAddress_try_from, array_from_slice. destruct (Z.eqb_spec (zlength (PbAddress_elements m)) 32) as [Hl|Hl]; [|done].
  cbn [negb]. unfold bind, ret. cbv beta iota zeta. destruct (patricia_key_try_from _) as [k|] eqn:E; [|done].
  apply patricia_key_spec in E as [-> ?]. done.
Qed.

(** ** Integers in field elements *)

Lemma u128_is_felt z : in_range 128 z -> is_felt z.
Proof. apply felt_from_uint_spec. Qed.

Lemma zero_is_felt : is_felt 0.
Proof. apply u128_is_felt. split; [lia|done]. Qed.

(** The last [k] of the 32 bytes, the others being zero. *)
Lemma felt_low_bytes k n z :
  (k + n = 32)%nat -> is_felt z ->
  take k (felt_to_bytes_be z) = replicate k 0 <-> in_range (8 * Z.of_nat n) z.
Proof.
  intros Hk Hz. pose proof (is_felt_range z Hz) as Hr. rewrite felt_to_bytes_spec by done. rewrite <-Hk. unfold in_range.
  replace (2 ^ (8 * Z.of_nat n)) with (256 ^ Z.of_nat n) by (rewrite Z.pow_mul_r by lia; done). split.
  - intros Ht. rewrite <-(Z.mod_small z (256 ^ Z.of_nat (k + n))) by (rewrite Hk; exact Hr).
    rewrite <-be_value_bytes, <-(take_drop k (be_bytes (k + n) z)), Ht, be_value_zeros, be_bytes_drop.
    pose proof (be_value_range (be_bytes n z) (be_bytes_byte n z)) as Hv. unfold zlength in Hv. by rewrite be_bytes_length in Hv.
  - intros Hlt. by apply be_bytes_take.
Qed.

Lemma felt_low_value k n z :
  (k + n = 32)%nat -> is_felt z -> in_range (8 * Z.of_nat n) z ->
  zlength (drop k (felt_to_bytes_be z)) = Z.of_nat n /\ be_value (drop k (felt_to_bytes_be z)) = z.
Proof.
  intros Hk Hz Hr. rewrite felt_to_bytes_spec by done. rewrite <-Hk, be_bytes_drop. unfold zlength.
  rewrite be_bytes_length, be_value_bytes. split; [done|]. apply Z.mod_small. unfold in_range in Hr.
  replace (256 ^ Z.of_nat n) with (2 ^ (8 * Z.of_nat n)) by (rewrite Z.pow_mul_r by lia; done). done.
Qed.

(** A field element converts into a [u128] (a [u32]) exactly when its value fits. *)
Lemma starkfelt_to_u128_spec z :
  is_felt z -> try_from_starkfelt_to_u128 z = if decide (in_range 128 z) then Some z else None.
Proof.
  intros Hz. unfold try_from_starkfelt_to_u128. pose proof (felt_low_bytes 16 16 z eq_refl Hz) as Hb.
  change (8 * Z.of_nat 16) with 128 in Hb. destruct (decide (in_range 128 z)) as [Hr|Hr].
  - rewrite bool_decide_eq_true_2 by by apply Hb. destruct (felt_low_value 16 16 z eq_refl Hz Hr) as [-> ->]. done.
  - rewrite bool_decide_eq_false_2; [done|]. intros Ht. by apply Hr, Hb.
Qed.

Lemma starkfelt_to_u32_spec z :
  is_felt z -> try_from_starkfelt_to_u32 z = if decide (in_range 32 z) then Some z else None.
Proof.
  intros Hz. unfold try_from_starkfelt_to_u32. pose proof (felt_low_bytes 28 4 z eq_refl Hz) as Hb.
  change (8 * Z.of_nat 4) with 32 in Hb. destruct (decide (in_range 32 z)) as [Hr|Hr].
  - rewrite bool_decide_eq_true_2 by by apply Hb. destruct (felt_low_value 28 4 z eq_refl Hz Hr) as [-> ->]. done.
  - rewrite bool_decide_eq_false_2; [done|]. intros Ht. by apply Hr, Hb.
Qed.

(** ** Round trips of fields *)

Lemma field_present {A} name (a : A) : field_or_missing name (Some a) tt = Done tt a.
Proof. done. Qed.

Lemma felt_field_present name z : is_felt z -> felt_field name (Some (PbFelt252_from z)) tt = Done tt z.
Proof. apply Felt_roundtrip. Qed.

Lemma hash_field_present name z : is_felt z -> hash_field name (Some (PbHash_from z)) tt = Done tt z.
Proof. apply hash_roundtrip. Qed.

Lemma address_field_present name z : is_patricia_key z -> address_field name (Some (PbAddress_from z)) tt = Done tt z.
Proof. apply address_roundtrip. Qed.

Lemma address_of_felt_present name z : is_patricia_key z -> address_of_felt name (Some (PbFelt252_from z)) tt = Done tt z.
Proof.
  intros Hz. unfold address_of_felt.
  rewrite (bind_step _ _ _ _ _ (felt_field_present name z (patricia_key_is_felt z Hz))). by rewrite patricia_key_Some.
Qed.

Lemma u128_field_present name z : in_range 128 z -> u128_field name (Some (PbUint128_from z)) tt = Done tt z.
Proof. intros Hz. unfold u128_field. rewrite (bind_step _ _ _ _ _ (field_present _ _)). unfold ret. by rewrite PbUint128_roundtrip. Qed.

Lemma felt_to_u128_same z : in_range 128 z -> felt_to_u128 z tt = Done tt z.
Proof. intros Hz. unfold felt_to_u128. rewrite starkfelt_to_u128_spec by by apply u128_is_felt. by rewrite decide_True. Qed.

Lemma fee_field_present name z : in_range 128 z -> fee_field name (pb_fee z) tt = Done tt z.
Proof.
  intros Hz. destruct (felt_from_uint_spec z Hz) as [E Hf]. unfold fee_field, pb_fee. rewrite E.
  rewrite (bind_step _ _ _ _ _ (felt_field_present name z Hf)). by apply felt_to_u128_same.
Qed.

Lemma felts_present l : Forall is_felt l -> collect Felt_try_from (PbFelt252_from <$> l) tt = Done tt l.
Proof. intros Hl. apply collect_fmap. eapply Forall_impl; [exact Hl|]. apply Felt_roundtrip. Qed.

Lemma signature_field_present name l : Forall is_felt l -> signature_field name (PbAccountSignature_of l) tt = Done tt l.
Proof. apply felts_present. Qed.

Lemma hash_option_present o : fits_option is_felt o -> map_transpose StarkHash_try_from (PbHash_from <$> o) tt = Done tt o.
Proof. destruct o as [z|]; [|done]. intros Hz. by apply transpose_present, hash_roundtrip. Qed.

Lemma felt_option_present o : fits_option is_felt o -> map_transpose Felt_try_from (PbFelt252_from <$> o) tt = Done tt o.
Proof. destruct o as [z|]; [|done]. intros Hz. by apply transpose_present, Felt_roundtrip. Qed.

Lemma volition_domain_roundtrip d : enum_int_to_volition_domain (volition_domain_to_enum_int d) tt = Done tt d.
Proof. by destruct d. Qed.

Lemma l1_da_mode_roundtrip d : enum_int_to_l1_data_availability_mode (l1_data_availability_mode_to_enum_int d) tt = Done tt d.
Proof. by destruct d. Qed.

Lemma expect_uint w z : in_range w z -> @expect unit ProtobufConversionError Z (uint_try_from w z) tt = Done tt z.
Proof. intros Hz. by rewrite uint_try_from_Some. Qed.

(** ** Fields of messages that were converted fit *)

Lemma felt_fits z : is_felt z -> fits_PbFelt252 (PbFelt252_from z).
Proof. apply felt_bytes_fit. Qed.

Lemma hash_fits z : is_felt z -> fits_PbHash (PbHash_from z).
Proof. apply felt_bytes_fit. Qed.

Lemma address_fits z : is_patricia_key z -> fits_PbAddress (PbAddress_from z).
Proof. intros Hz. by apply felt_bytes_fit, patricia_key_is_felt. Qed.

Lemma felts_fit l : Forall is_felt l -> Forall fits_PbFelt252 (PbFelt252_from <$> l).
Proof. intros Hl. apply Forall_fmap. eapply Forall_impl; [exact Hl|]. apply felt_fits. Qed.

Lemma fee_fits z : in_range 128 z -> fits_option fits_PbFelt252 (pb_fee z).
Proof. intros Hz. destruct (felt_from_uint_spec z Hz) as [E Hf]. unfold pb_fee. cbn. rewrite E. by apply felt_fits. Qed.

Lemma signature_fits l : Forall is_felt l -> fits_option fits_PbAccountSignature (PbAccountSignature_of l).
Proof. apply felts_fit. Qed.

Lemma hash_option_fits o : fits_option is_felt o -> fits_option fits_PbHash (PbHash_from <$> o).
Proof. destruct o; [apply hash_fits|done]. Qed.

Lemma felt_option_fits o : fits_option is_felt o -> fits_option fits_PbFelt252 (PbFelt252_from <$> o).
Proof. destruct o; [apply felt_fits|done]. Qed.

Lemma volition_domain_fits d : fits_i32 (volition_domain_to_enum_int d).
Proof. destruct d; cbv; split; congruence. Qed.

Lemma l1_da_mode_fits d : fits_i32 (l1_data_availability_mode_to_enum_int d).
Proof. destruct d; cbv; split; congruence. Qed.

(** ** Fields of any message *)

Lemma felt_field_ok R name o :
  fits_option fits_PbFelt252 o -> (R -> fits_option regular_PbFelt252 o) -> conv_ok R (felt_field name o) is_felt.
Proof. destruct o; [|done]. apply Felt_ok. Qed.

Lemma hash_field_ok R name o : fits_option fits_PbHash o -> conv_ok R (hash_field name o) is_felt.
Proof. destruct o; [|done]. apply hash_ok. Qed.

Lemma address_field_ok R name o : fits_option fits_PbAddress o -> conv_ok R (address_field name o) is_patricia_key.
Proof. destruct o; [|done]. apply address_ok. Qed.

Lemma address_of_felt_ok R name o :
  fits_option fits_PbFelt252 o -> (R -> fits_option regular_PbFelt252 o) ->
  conv_ok R (address_of_felt name o) is_patricia_key.
Proof.
  intros Hf Hr. eapply conv_ok_bind; [by apply felt_field_ok|]. intros z _. apply patricia_ok.
Qed.

Lemma u128_field_ok R name o : conv_ok R (u128_field name o) (in_range 128).
Proof. destruct o as [m|]; [|done]. apply u128_range. Qed.

Lemma felt_to_u128_ok R z : is_felt z -> conv_ok R (felt_to_u128 z) (in_range 128).
Proof. intros Hz. unfold felt_to_u128. rewrite starkfelt_to_u128_spec by done. by destruct (decide _). Qed.

Lemma fee_field_ok R name o :
  fits_option fits_PbFelt252 o -> (R -> fits_option regular_PbFelt252 o) -> conv_ok R (fee_field name o) (in_range 128).
Proof. intros Hf Hr. eapply conv_ok_bind; [by apply felt_field_ok|]. intros z. apply felt_to_u128_ok. Qed.

Lemma collect_ok {A B} R (f : A -> Conv B) (fits regular : A -> Prop) (Q : B -> Prop) l :
  (forall a, fits a -> (R -> regular a) -> conv_ok R (f a) Q) ->
  Forall fits l -> (R -> Forall regular l) -> conv_ok R (collect f l) (Forall Q).
Proof.
  intros Hf Hl Hr. apply conv_ok_collect, Forall_forall. intros a Ha. apply Hf; [by eapply Forall_forall in Hl|].
  intros HR. specialize (Hr HR). by eapply Forall_forall in Hr.
Qed.

Lemma transpose_ok {A B} R (f : A -> Conv B) (fits regular : A -> Prop) (Q : B -> Prop) o :
  (forall a, fits a -> (R -> regular a) -> conv_ok R (f a) Q) ->
  fits_option fits o -> (R -> fits_option regular o) -> conv_ok R (map_transpose f o) (fits_option Q).
Proof. intros Hf Ho Hr. apply conv_ok_transpose. destruct o as [a|]; [|done]. by apply Hf. Qed.

Lemma felts_ok R l :
  Forall fits_PbFelt252 l -> (R -> Forall regular_PbFelt252 l) -> conv_ok R (collect Felt_try_from l) (Forall is_felt).
Proof. apply collect_ok, Felt_ok. Qed.

Lemma felt_option_ok R o :
  fits_option fits_PbFelt252 o -> (R -> fits_option regular_PbFelt252 o) ->
  conv_ok R (map_transpose Felt_try_from o) (fits_option is_felt).
Proof. apply transpose_ok, Felt_ok. Qed.

Lemma hash_option_ok R o : fits_option fits_PbHash o -> conv_ok R (map_transpose StarkHash_try_from o) (fits_option is_felt).
Proof. intros Ho. apply conv_ok_transpose. destruct o as [m|]; [|done]. by apply hash_ok. Qed.

Lemma signature_field_ok R name o :
  fits_option fits_PbAccountSignature o -> (R -> fits_option regular_PbAccountSignature o) ->
  conv_ok R (signature_field name o) (Forall is_felt).
Proof. destruct o as [m|]; [|done]. apply felts_ok. Qed.

Lemma volition_domain_ok R z : conv_ok R (enum_int_to_volition_domain z) (fun _ => True).
Proof. unfold enum_int_to_volition_domain. by repeat case_cmp. Qed.

Lemma l1_da_mode_ok R z : conv_ok R (enum_int_to_l1_data_availability_mode z) (fun _ => True).
Proof. unfold enum_int_to_l1_data_availability_mode. by repeat case_cmp. Qed.
End FieldLaws.

#[export] Hint Resolve field_present felt_field_present hash_field_present address_field_present
  address_of_felt_present u128_field_present fee_field_present felts_present signature_field_present hash_option_present
  felt_option_present volition_domain_roundtrip l1_da_mode_roundtrip expect_uint Felt_roundtrip hash_roundtrip
  address_roundtrip : proto.
#[export] Hint Resolve felt_fits hash_fits address_fits felts_fit fee_fits signature_fits hash_option_fits felt_option_fits
  volition_domain_fits l1_da_mode_fits PbUint128_fits : proto.
#[export] Hint Resolve felt_field_ok hash_field_ok address_field_ok address_of_felt_ok u128_field_ok fee_field_ok felts_ok
  felt_option_ok hash_option_ok signature_field_ok volition_domain_ok l1_da_mode_ok conv_ok_uint Felt_ok hash_ok
  address_ok : proto.

#[export] Hint Resolve transpose_absent : proto.
#[export] Hint Extern 3 (map_transpose _ (Some _) tt = _) => eapply transpose_present; cbn : proto.

(** Run a conversion whose steps are known to return. *)
Ltac conv_steps := repeat (erewrite bind_step; [|solve [eauto with proto | cbn; eauto with proto]]); try done.

(** Split the facts on the fields of a message. *)
Ltac split_facts :=
  repeat match goal with
  | H : _ /\ _ |- _ => destruct H
  | H : ?R -> ?A /\ ?B |- _ =>
      let H1 := fresh "Hr" in let H2 := fresh "Hr" in
      assert (H1 : R -> A) by (intros HR; apply (proj1 (H HR)));
      assert (H2 : R -> B) by (intros HR; apply (proj2 (H HR))); clear H
  end.

(** Go through the steps of a conversion of any message. *)
Ltac conv_fields :=
  repeat (eapply conv_ok_bind; [solve [eauto with proto | apply conv_ok_field; eassumption]|intros]).

(** The fields of a message that was converted. *)
Ltac fits_fields := cbn; repeat match goal with |- _ /\ _ => split end; eauto with proto.
