(* ===== verification/ProtoProps.v ===== *)
(** * Laws of the conversions of headers, events and state diffs *)

From stdpp Require Import base gmap list strings fin_maps.
From Stdlib Require Import ZArith Lia.
From S2P Require Import Prelude StorageTables StarknetTypes StorageTxn Header Serde SerdeLaws P2pServer ProtoCommon ProtoSync.
From S2P Require Import ProtoTransaction ProtoLaws.

Section SyncLaws.
Context {F : FeltApi} {FS : FeltSpec}.

(** ** Headers *)

Definition typed_Signature (s : Signature) : Prop := is_felt (Signature_r s) /\ is_felt (Signature_s s).

Definition typed_GasPrice (p : GasPricePerToken) : Prop :=
  in_range 128 (GasPricePerToken_price_in_fri p) /\ in_range 128 (GasPricePerToken_price_in_wei p).

(** The fields of a header are values of their Rust types. *)
Record typed_BlockHeader (h : BlockHeader) : Prop := {
  typed_block_hash : is_felt (BlockHeader_block_hash h);
  typed_parent_hash : is_felt (BlockHeader_parent_hash h);
  typed_block_number : in_range 64 (BlockHeader_block_number h);
  typed_l1_gas_price : typed_GasPrice (BlockHeader_l1_gas_price h);
  typed_l1_data_gas_price : typed_GasPrice (BlockHeader_l1_data_gas_price h);
  typed_state_root : is_felt (BlockHeader_state_root h);
  typed_sequencer : is_patricia_key (BlockHeader_sequencer h);
  typed_timestamp : in_range 64 (BlockHeader_timestamp h);
  typed_state_diff_commitment : fits_option is_felt (BlockHeader_state_diff_commitment h);
  typed_transaction_commitment : fits_option is_felt (BlockHeader_transaction_commitment h);
  typed_event_commitment : fits_option is_felt (BlockHeader_event_commitment h);
  typed_receipt_commitment : fits_option is_felt (BlockHeader_receipt_commitment h);
  typed_state_diff_length : fits_option (in_range 64) (BlockHeader_state_diff_length h);
  typed_n_transactions : in_range 64 (BlockHeader_n_transactions h);
  typed_n_events : in_range 64 (BlockHeader_n_events h);
  typed_starknet_version : fits_string (BlockHeader_starknet_version h)
}.

Definition typed_SignedBlockHeader (s : SignedBlockHeader) : Prop :=
  typed_BlockHeader (SignedBlockHeader_block_header s) /\ Forall typed_Signature (SignedBlockHeader_signatures s).

(** The header has the commitments that the protocol requires, and its state diff
    commitment comes with the length of the diff. *)
Record committed (h : BlockHeader) : Prop := {
  committed_transactions : is_Some (BlockHeader_transaction_commitment h);
  committed_events : is_Some (BlockHeader_event_commitment h);
  committed_state_diff : is_Some (BlockHeader_state_diff_commitment h) <-> is_Some (BlockHeader_state_diff_length h)
}.

Lemma Signature_roundtrip s : typed_Signature s -> BlockSignature_try_from (PbConsensusSignature_from s) tt = Done tt s.
Proof.
  destruct s as [r s]. intros [Hr Hs]. unfold BlockSignature_try_from. cbn [PbConsensusSignature_from PbConsensusSignature_r PbConsensusSignature_s Signature_r Signature_s] in *.
  conv_steps.
Qed.

Lemma Signature_fits s : typed_Signature s -> fits_PbConsensusSignature (PbConsensusSignature_from s).
Proof. intros [Hr Hs]. split; by apply felt_fits. Qed.

Lemma Signature_ok R m :
  fits_PbConsensusSignature m -> (R -> regular_PbConsensusSignature m) -> conv_ok R (BlockSignature_try_from m) typed_Signature.
Proof.
  destruct m as [r s]. unfold fits_PbConsensusSignature, regular_PbConsensusSignature. cbn. intros Hf Hr. split_facts. unfold BlockSignature_try_from. cbn.
  conv_fields. by apply conv_ok_ret.
Qed.

#[local] Hint Resolve Signature_ok : proto.

(** The parts of a header that the message keeps as one. *)
Definition patricia_of (root : option Z) (n : Z) : option PbPatricia := (fun z => mkPbPatricia n (Some (PbHash_from z))) <$> root.

Lemma PbPatricia_of_spec root n : in_range 64 n -> PbPatricia_of root n tt = Done tt (patricia_of root n).
Proof. intros Hn. destruct root as [z|]; [|done]. unfold PbPatricia_of, map_transpose. rewrite bind_assoc. conv_steps. Qed.

Lemma patricia_fits root n : fits_option is_felt root -> in_range 64 n -> fits_option fits_PbPatricia (patricia_of root n).
Proof. intros Hz Hn. destruct root as [z|]; [|done]. split; [done|]. by apply hash_fits. Qed.

Definition diff_commitment_of (h : BlockHeader) : option PbStateDiffCommitment :=
  match BlockHeader_state_diff_commitment h, BlockHeader_state_diff_length h with
  | Some root, Some n => Some (mkPbStateDiffCommitment n (Some (PbHash_from root)))
  | _, _ => None
  end.

Lemma diff_commitment_fits h : typed_BlockHeader h -> fits_option fits_PbStateDiffCommitment (diff_commitment_of h).
Proof.
  intros [_ _ _ _ _ _ _ _ Hc _ _ _ Hl _ _ _]. unfold diff_commitment_of.
  destruct (BlockHeader_state_diff_commitment h), (BlockHeader_state_diff_length h); try done. split; [done|]. by apply hash_fits.
Qed.

(** The message of a header. *)
Definition header_message (s : SignedBlockHeader) : PbSignedBlockHeader :=
  let h := SignedBlockHeader_block_header s in {|
    PbSignedBlockHeader_block_hash := Some (PbHash_from (BlockHeader_block_hash h));
    PbSignedBlockHeader_parent_hash := Some (PbHash_from (BlockHeader_parent_hash h));
    PbSignedBlockHeader_number := BlockHeader_block_number h;
    PbSignedBlockHeader_time := BlockHeader_timestamp h;
    PbSignedBlockHeader_sequencer_address := Some (PbAddress_from (BlockHeader_sequencer h));
    PbSignedBlockHeader_state_diff_commitment := diff_commitment_of h;
    PbSignedBlockHeader_state_root := Some (PbHash_from (BlockHeader_state_root h));
    PbSignedBlockHeader_transactions := patricia_of (BlockHeader_transaction_commitment h) (BlockHeader_n_transactions h);
    PbSignedBlockHeader_events := patricia_of (BlockHeader_event_commitment h) (BlockHeader_n_events h);
    PbSignedBlockHeader_receipts := PbHash_from <$> BlockHeader_receipt_commitment h;
    PbSignedBlockHeader_protocol_version := BlockHeader_starknet_version h;
    PbSignedBlockHeader_gas_price_wei := Some (PbUint128_from (GasPricePerToken_price_in_wei (BlockHeader_l1_gas_price h)));
    PbSignedBlockHeader_gas_price_fri := Some (PbUint128_from (GasPricePerToken_price_in_fri (BlockHeader_l1_gas_price h)));
    PbSignedBlockHeader_data_gas_price_wei :=
      Some (PbUint128_from (GasPricePerToken_price_in_wei (BlockHeader_l1_data_gas_price h)));
    PbSignedBlockHeader_data_gas_price_fri :=
      Some (PbUint128_from (GasPricePerToken_price_in_fri (BlockHeader_l1_data_gas_price h)));
    PbSignedBlockHeader_l1_data_availability_mode := l1_data_availability_mode_to_enum_int (BlockHeader_l1_da_mode h);
    PbSignedBlockHeader_signatures := PbConsensusSignature_from <$> SignedBlockHeader_signatures s
  |}.

Lemma SignedBlockHeader_into s :
  typed_SignedBlockHeader s ->
  PbSignedBlockHeader_from (SignedBlockHeader_block_header s) (SignedBlockHeader_signatures s) tt = Done tt (header_message s).
Proof.
  intros [H _]. unfold PbSignedBlockHeader_from, header_message, diff_commitment_of.
  pose proof (typed_state_diff_length _ H) as Hl. pose proof (typed_n_transactions _ H) as Hn. pose proof (typed_n_events _ H) as He.
  set (h := SignedBlockHeader_block_header s) in *.
  destruct (BlockHeader_state_diff_commitment h) as [c|], (BlockHeader_state_diff_length h) as [n|]; cbn [fits_option] in Hl.
  - unfold bind at 1. erewrite bind_step by eauto with proto. unfold ret at 1.
    rewrite (bind_step _ _ _ _ _ (PbPatricia_of_spec _ _ Hn)), (bind_step _ _ _ _ _ (PbPatricia_of_spec _ _ He)). done.
  - rewrite bind_ret, (bind_step _ _ _ _ _ (PbPatricia_of_spec _ _ Hn)), (bind_step _ _ _ _ _ (PbPatricia_of_spec _ _ He)). done.
  - rewrite bind_ret, (bind_step _ _ _ _ _ (PbPatricia_of_spec _ _ Hn)), (bind_step _ _ _ _ _ (PbPatricia_of_spec _ _ He)). done.
  - rewrite bind_ret, (bind_step _ _ _ _ _ (PbPatricia_of_spec _ _ Hn)), (bind_step _ _ _ _ _ (PbPatricia_of_spec _ _ He)). done.
Qed.

Lemma signatures_roundtrip l :
  Forall typed_Signature l -> collect BlockSignature_try_from (PbConsensusSignature_from <$> l) tt = Done tt l.
Proof. intros Hl. apply collect_fmap. eapply Forall_impl; [exact Hl|]. apply Signature_roundtrip. Qed.

Lemma header_message_fits s : typed_SignedBlockHeader s -> fits_PbSignedBlockHeader (header_message s).
Proof.
  intros [H Hs]. pose proof (diff_commitment_fits _ H). destruct H as [? ? ? [? ?] [? ?] ? ? ? ? ? ? ? ? ? ? ?].
  unfold fits_PbSignedBlockHeader, header_message. fits_fields; [by apply patricia_fits..|].
  apply Forall_fmap. eapply Forall_impl; [exact Hs|]. apply Signature_fits.
Qed.

(** What comes out of the header's message. *)
Lemma SignedBlockHeader_received s :
  typed_SignedBlockHeader s -> committed (SignedBlockHeader_block_header s) ->
  SignedBlockHeader_try_from (header_message s) tt = Done tt s.
Proof.
  intros [H Hs] [Hct Hce Hcd]. destruct s as [h sigs]. cbn [SignedBlockHeader_block_header SignedBlockHeader_signatures] in *.
  destruct H as [? ? ? [? ?] [? ?] ? ? ? Hsd Htc Hec ? Hsl ? ? ?]. pose proof (signatures_roundtrip _ Hs).
  unfold SignedBlockHeader_try_from, header_message, diff_commitment_of.
  cbn [SignedBlockHeader_block_header SignedBlockHeader_signatures].
  destruct h as [? ? ? [? ?] [? ?] ? ? ? ? sdc tc ec rc sdl ? ? ?]. cbn in *.
  destruct tc as [tc|]; [|by destruct Hct]. destruct ec as [ec|]; [|by destruct Hce]. cbn in *.
  destruct sdc as [sdc|], sdl as [sdl|]; cbn in *; [|by destruct (proj1 Hcd) as [? [=]]|by destruct (proj2 Hcd) as [? [=]]|].
  all: conv_steps; unfold ret; by rewrite !PbUint128_roundtrip.
Qed.

(** A header without one of the commitments is sent and refused. *)
Lemma header_without_transactions s :
  typed_SignedBlockHeader s -> BlockHeader_transaction_commitment (SignedBlockHeader_block_header s) = None ->
  SignedBlockHeader_try_from (header_message s) tt =
  Fail tt (ProtobufConversionError_MissingField "SignedBlockHeader::transactions").
Proof.
  intros [H _] Htc. destruct H. unfold SignedBlockHeader_try_from, header_message. rewrite Htc. cbn. conv_steps.
Qed.

Lemma header_without_events s :
  typed_SignedBlockHeader s -> is_Some (BlockHeader_transaction_commitment (SignedBlockHeader_block_header s)) ->
  BlockHeader_event_commitment (SignedBlockHeader_block_header s) = None ->
  SignedBlockHeader_try_from (header_message s) tt =
  Fail tt (ProtobufConversionError_MissingField "SignedBlockHeader::events").
Proof.
  intros [H _] [tc Htc] Hec. destruct H. unfold SignedBlockHeader_try_from, header_message. rewrite Htc, Hec in *. cbn in *. conv_steps.
Qed.

Lemma root_ok R name o :
  fits_option fits_PbPatricia o -> conv_ok R (map_transpose (fun m => hash_field name (PbPatricia_root m)) o) (fits_option is_felt).
Proof. intros Ho. apply conv_ok_transpose. destruct o as [m|]; [|done]. by apply hash_field_ok, Ho. Qed.

Lemma diff_root_ok R name o :
  fits_option fits_PbStateDiffCommitment o ->
  conv_ok R (map_transpose (fun m => hash_field name (PbStateDiffCommitment_root m)) o) (fits_option is_felt).
Proof. intros Ho. apply conv_ok_transpose. destruct o as [m|]; [|done]. by apply hash_field_ok, Ho. Qed.

Lemma diff_length_ok R o :
  fits_option fits_PbStateDiffCommitment o ->
  conv_ok R (map_transpose (fun m => expect (uint_try_from 64 (PbStateDiffCommitment_state_diff_length m))) o)
    (fits_option (in_range 64)).
Proof. intros Ho. apply conv_ok_transpose. destruct o as [m|]; [|done]. by apply conv_ok_uint, Ho. Qed.

Lemma n_leaves_ok R m : fits_PbPatricia m -> conv_ok R (expect (uint_try_from 64 (PbPatricia_n_leaves m))) (in_range 64).
Proof. intros Hm. by apply conv_ok_uint, Hm. Qed.

#[local] Hint Resolve root_ok diff_root_ok diff_length_ok n_leaves_ok : proto.

(** What a peer can make of a header: values of the types. *)
Lemma SignedBlockHeader_ok R m :
  fits_PbSignedBlockHeader m -> (R -> regular_PbSignedBlockHeader m) ->
  conv_ok R (SignedBlockHeader_try_from m) typed_SignedBlockHeader.
Proof.
  intros Hf Hr. unfold fits_PbSignedBlockHeader, regular_PbSignedBlockHeader in *. split_facts. unfold SignedBlockHeader_try_from.
  assert (conv_ok R (collect BlockSignature_try_from (PbSignedBlockHeader_signatures m)) (Forall typed_Signature))
    by (eapply collect_ok; [apply Signature_ok|done|done]).
  conv_fields. apply conv_ok_ret. split; [|done]. constructor; cbn; first [done|by split].
Qed.

Lemma SignedBlockHeader_committed m s s' h :
  SignedBlockHeader_try_from m s = Done s' h -> committed (SignedBlockHeader_block_header h).
Proof.
  unfold SignedBlockHeader_try_from. intros H. inv_run.
  repeat match goal with
  | H : field_or_missing _ _ _ = Done _ _ |- _ => apply field_or_missing_Some in H
  | H : map_transpose _ _ _ = Done _ _ |- _ => apply transpose_is_Some in H
  end.
  constructor; cbn; [naive_solver|naive_solver|]. by etransitivity; [|symmetry].
Qed.

(** ** Events *)

Definition typed_Event (e : Event * Z) : Prop :=
  is_patricia_key (Event_from_address e.1) /\ Forall is_felt (EventContent_keys (Event_content e.1)) /\
  Forall is_felt (EventContent_data (Event_content e.1)) /\ is_felt e.2.

Lemma Event_roundtrip e : typed_Event e -> Event_try_from (PbEvent_from e) tt = Done tt e.
Proof.
  destruct e as [[a [ks ds]] h]. intros (H1 & H2 & H3 & H4). cbn [Event_from_address Event_content EventContent_keys EventContent_data fst snd] in *.
  unfold Event_try_from. cbn [PbEvent_from PbEvent_transaction_hash PbEvent_from_address PbEvent_keys PbEvent_data Event_from_address Event_content EventContent_keys EventContent_data].
  conv_steps.
Qed.

Lemma Event_fits e : typed_Event e -> fits_PbEvent (PbEvent_from e).
Proof.
  destruct e as [[a [ks ds]] h]. intros (H1 & H2 & H3 & H4). unfold fits_PbEvent. fits_fields. by apply felt_fits, patricia_key_is_felt.
Qed.

Lemma Event_ok R m : fits_PbEvent m -> (R -> regular_PbEvent m) -> conv_ok R (Event_try_from m) typed_Event.
Proof.
  intros Hf Hr. unfold fits_PbEvent, regular_PbEvent in *. split_facts. unfold Event_try_from. conv_fields. by apply conv_ok_ret.
Qed.

(** ** State diffs *)

Definition typed_entry (e : Z * Z) : Prop := is_patricia_key e.1 /\ is_felt e.2.

(** The storage keys of a contract are those of an index map. *)
Definition typed_ContractDiff (d : ContractDiff) : Prop :=
  is_patricia_key (ContractDiff_contract_address d) /\ fits_option is_felt (ContractDiff_class_hash d) /\
  fits_option is_felt (ContractDiff_nonce d) /\ Forall typed_entry (ContractDiff_storage_diffs d) /\
  NoDup (ContractDiff_storage_diffs d).*1.

Definition typed_StateDiffChunk (c : StateDiffChunk) : Prop :=
  match c with
  | StateDiffChunk_ContractDiff d => typed_ContractDiff d
  | StateDiffChunk_DeclaredClass d => is_felt (DeclaredClass_class_hash d) /\ is_felt (DeclaredClass_compiled_class_hash d)
  | StateDiffChunk_DeprecatedDeclaredClass d => is_felt (DeprecatedDeclaredClass_class_hash d)
  end.

Definition entry_message (e : Z * Z) : PbContractStoredValue :=
  mkPbContractStoredValue (Some (PbFelt252_from e.1)) (Some (PbFelt252_from e.2)).

Lemma PbContractDiff_values_spec d : PbContractDiff_values (PbContractDiff_from d) = entry_message <$> ContractDiff_storage_diffs d.
Proof. cbn [PbContractDiff_from PbContractDiff_values]. apply list_fmap_ext. by intros ? [k v] _. Qed.

Lemma entry_roundtrip e : typed_entry e -> StoredValue_try_from (entry_message e) tt = Done tt e.
Proof.
  destruct e as [k v]. intros [Hk Hv]. cbn in Hk, Hv. unfold StoredValue_try_from. cbn [entry_message PbContractStoredValue_key PbContractStoredValue_value fst snd].
  pose proof (patricia_key_is_felt k Hk). erewrite bind_step by eauto with proto. rewrite patricia_key_Some by done. cbn [ok_or_raise]. rewrite bind_ret. conv_steps.
Qed.

Lemma entry_ok R m :
  fits_PbContractStoredValue m -> (R -> regular_PbContractStoredValue m) -> conv_ok R (StoredValue_try_from m) typed_entry.
Proof.
  intros Hf Hr. unfold fits_PbContractStoredValue, regular_PbContractStoredValue in *. split_facts. unfold StoredValue_try_from.
  eapply conv_ok_bind; [by eauto with proto|intros z _]. eapply conv_ok_bind; [apply patricia_ok|intros k Hk]. conv_fields.
  by apply conv_ok_ret.
Qed.

Lemma entries_ok R l :
  Forall fits_PbContractStoredValue l -> (R -> Forall regular_PbContractStoredValue l) ->
  conv_ok R (collect StoredValue_try_from l) (Forall typed_entry).
Proof. apply collect_ok, entry_ok. Qed.

(** Collecting into an index map keeps the entries' types. *)
Lemma indexmap_of_Forall {V} (P : Z * V -> Prop) l : Forall P l -> Forall P (indexmap_of l).
Proof.
  unfold indexmap_of. intros Hl. assert (H0 : Forall P []) by constructor. revert H0. generalize ([] : list (Z * V)) as m.
  induction Hl as [|[k v] l Hx Hl IH]; intros m Hm; [done|]. cbn [foldl fst snd]. apply IH. apply Forall_forall. intros [k' v'] Hin.
  destruct (indexmap_insert_in _ _ _ _ _ Hin) as [[= -> ->]|Hin']; [done|]. by eapply Forall_forall in Hm.
Qed.

Lemma ContractDiff_roundtrip d : typed_ContractDiff d -> ContractDiff_try_from (PbContractDiff_from d) tt = Done tt d.
Proof.
  intros (H1 & H2 & H3 & H4 & H5). unfold ContractDiff_try_from. rewrite PbContractDiff_values_spec. destruct d as [a c n l]. cbn in *.
  assert (collect StoredValue_try_from (entry_message <$> l) tt = Done tt l)
    by (apply collect_fmap; eapply Forall_impl; [exact H4|apply entry_roundtrip]).
  conv_steps. by rewrite indexmap_of_id.
Qed.

Lemma ContractDiff_fits d : typed_ContractDiff d -> fits_PbContractDiff (PbContractDiff_from d).
Proof.
  intros (H1 & H2 & H3 & H4 & H5). unfold fits_PbContractDiff. rewrite PbContractDiff_values_spec. fits_fields.
  - apply Forall_fmap. eapply Forall_impl; [exact H4|]. intros [k v] [Hk Hv]. split; cbn in *; [|by apply felt_fits].
    by apply felt_fits, patricia_key_is_felt.
  - apply (volition_domain_fits DataAvailabilityMode_L1).
Qed.

Lemma ContractDiff_ok R m :
  fits_PbContractDiff m -> (R -> regular_PbContractDiff m) -> conv_ok R (ContractDiff_try_from m) typed_ContractDiff.
Proof.
  intros Hf Hr. unfold fits_PbContractDiff, regular_PbContractDiff in *. split_facts. unfold ContractDiff_try_from.
  assert (conv_ok R (collect StoredValue_try_from (PbContractDiff_values m)) (Forall typed_entry)) by by apply entries_ok.
  conv_fields. apply conv_ok_ret. repeat match goal with |- _ /\ _ => split | |- typed_ContractDiff _ => unfold typed_ContractDiff; cbn end; try done.
  - by apply indexmap_of_Forall.
  - apply indexmap_of_NoDup.
Qed.

Definition typed_DataOrFin {A} (P : A -> Prop) : DataOrFin A -> Prop := fits_option P.

Lemma chunk_roundtrip c :
  typed_DataOrFin typed_StateDiffChunk c -> StateDiffChunk_try_from (PbStateDiffsResponse_from c) tt = Done tt c.
Proof.
  destruct c as [[d|[ch cch]|[ch]]|]; intros H; [| | |done]; cbn in H; unfold StateDiffChunk_try_from; cbn.
  - by rewrite (bind_step _ _ _ _ _ (ContractDiff_roundtrip d H)).
  - destruct H. unfold DeclaredClass_try_from. cbn. rewrite bind_assoc. erewrite bind_step by eauto with proto. rewrite bind_assoc. conv_steps.
  - unfold DeprecatedDeclaredClass_try_from. cbn. rewrite bind_assoc. conv_steps.
Qed.

Lemma chunk_fits c : typed_DataOrFin typed_StateDiffChunk c -> fits_PbStateDiffsResponse (PbStateDiffsResponse_from c).
Proof.
  destruct c as [[d|[ch cch]|[ch]]|]; intros H; [| | |done]; cbn in H; unfold fits_PbStateDiffsResponse; cbn.
  - by apply ContractDiff_fits.
  - destruct H. split; by apply hash_fits.
  - split; [by apply hash_fits|done].
Qed.

Lemma chunk_ok R m :
  fits_PbStateDiffsResponse m -> (R -> regular_PbStateDiffsResponse m) ->
  conv_ok R (StateDiffChunk_try_from m) (typed_DataOrFin typed_StateDiffChunk).
Proof.
  destruct m as [[[d|d|]|]]; intros Hf Hr; [| |done|done]; cbn in Hf, Hr.
  - eapply conv_ok_bind; [by apply ContractDiff_ok|]. intros d' Hd. by apply conv_ok_ret.
  - destruct d as [c [cc|]], Hf as [H1 H2]; unfold StateDiffChunk_try_from; cbn in *.
    + eapply (conv_ok_bind _ _ _ (fun d => typed_StateDiffChunk (StateDiffChunk_DeclaredClass d))); [|by intros; apply conv_ok_ret].
      unfold DeclaredClass_try_from. cbn. conv_fields. by apply conv_ok_ret.
    + eapply (conv_ok_bind _ _ _ (fun d => typed_StateDiffChunk (StateDiffChunk_DeprecatedDeclaredClass d))); [|by intros; apply conv_ok_ret].
      unfold DeprecatedDeclaredClass_try_from. cbn. conv_fields. by apply conv_ok_ret.
Qed.

(** ** Queries *)

Definition typed_Query (q : Query) : Prop :=
  match Query_start_block q with
  | BlockHashOrNumber_Hash h => is_felt h
  | BlockHashOrNumber_Number n => in_range 64 n
  end /\ in_range 64 (Query_limit q) /\ in_range 64 (Query_step q).

Lemma Query_roundtrip q : typed_Query q -> Query_try_from (PbIteration_from q) tt = Done tt q.
Proof.
  destruct q as [start dir lim st]. intros (H1 & H2 & H3). cbn in *. unfold Query_try_from. cbn.
  erewrite bind_step by eauto with proto. destruct start as [h|n].
  - rewrite bind_assoc. erewrite bind_step by eauto with proto. by destruct dir.
  - by destruct dir.
Qed.

Lemma Query_fits q : typed_Query q -> fits_PbIteration (PbIteration_from q).
Proof.
  destruct q as [start dir lim st]. intros (H1 & H2 & H3). unfold fits_PbIteration. fits_fields; cbn.
  - destruct start; [by apply hash_fits|done].
  - destruct dir; cbv; split; congruence.
Qed.

(** A query is converted exactly when it has a start and a direction; it never panics. *)
Lemma Query_ok R m : fits_PbIteration m -> conv_ok R (Query_try_from m) typed_Query.
Proof.
  destruct m as [start dir lim st]. intros (H1 & H2 & H3 & H4). unfold Query_try_from. cbn in *.
  eapply conv_ok_bind; [by apply conv_ok_field|]. intros o Ho.
  eapply (conv_ok_bind _ _ _ (fun b => match b with BlockHashOrNumber_Hash h => is_felt h | BlockHashOrNumber_Number n => in_range 64 n end)).
  - destruct o as [n|h]; cbn in Ho; [by apply conv_ok_ret|]. conv_fields. by apply conv_ok_ret.
  - intros b Hb. eapply (conv_ok_bind _ _ _ (fun _ => True)); [by repeat case_cmp|]. intros d _. by apply conv_ok_ret.
Qed.
End SyncLaws.
