(* ===== verification/ProtoTxnProps.v ===== *)
(** * Laws of the conversions of transactions and receipts *)

From stdpp Require Import base gmap list strings fin_maps.
From Stdlib Require Import ZArith Lia.
From S2P Require Import Prelude StorageTables StarknetTypes StorageTxn Header Serde SerdeLaws P2pServer ProtoCommon ProtoSync.
From S2P Require Import ProtoTransaction ProtoLaws.

Section TxnLaws.
Context {F : FeltApi} {FS : FeltSpec} {TA : TransactionApi}.

(** ** Resource bounds *)

Definition typed_ResourceBounds (b : ResourceBounds) : Prop :=
  in_range 64 (ResourceBounds_max_amount b) /\ in_range 128 (ResourceBounds_max_price_per_unit b).

Definition typed_bounds (m : gmap Resource ResourceBounds) : Prop := forall r b, m !! r = Some b -> typed_ResourceBounds b.

(** A mapping that lacks a resource is received with its default bounds. *)
Definition received_bounds (m : gmap Resource ResourceBounds) : gmap Resource ResourceBounds :=
  <[Resource_L2Gas := default default_ResourceBounds (m !! Resource_L2Gas)]>
  (<[Resource_L1Gas := default default_ResourceBounds (m !! Resource_L1Gas)]> ∅).

Lemma received_bounds_id m :
  is_Some (m !! Resource_L1Gas) -> is_Some (m !! Resource_L2Gas) -> received_bounds m = m.
Proof.
  intros [b1 E1] [b2 E2]. unfold received_bounds. rewrite E1, E2. apply map_eq. intros [].
  - by rewrite lookup_insert_ne, lookup_insert_eq.
  - by rewrite lookup_insert_eq.
Qed.

Lemma received_bounds_idem m : received_bounds (received_bounds m) = received_bounds m.
Proof. apply received_bounds_id; unfold received_bounds; [rewrite lookup_insert_ne by done|]; rewrite lookup_insert_eq; by eexists. Qed.

Context (Hdefault : typed_ResourceBounds default_ResourceBounds).

Lemma limits_fit b : typed_ResourceBounds b -> fits_PbResourceLimits (PbResourceLimits_of b).
Proof. intros [H1 H2]. unfold fits_PbResourceLimits. fits_fields. Qed.

Lemma default_typed m r : typed_bounds m -> typed_ResourceBounds (default default_ResourceBounds (m !! r)).
Proof. intros Hm. destruct (m !! r) as [b|] eqn:E; [by eapply Hm|exact Hdefault]. Qed.

Lemma bounds_fit m : typed_bounds m -> fits_PbResourceBounds (PbResourceBounds_from m).
Proof. intros Hm. split; cbn; by apply limits_fit, default_typed. Qed.

Lemma bounds_roundtrip name m :
  typed_bounds m -> resource_bounds_field name (Some (PbResourceBounds_from m)) tt = Done tt (received_bounds m).
Proof.
  intros Hm. unfold resource_bounds_field. erewrite bind_step by eauto with proto. unfold ResourceBoundsMapping_try_from. cbn.
  pose proof (default_typed m Resource_L1Gas Hm) as [A1 B1]. pose proof (default_typed m Resource_L2Gas Hm) as [A2 B2].
  unfold received_bounds. destruct (default _ (m !! Resource_L1Gas)) as [a1 p1], (default _ (m !! Resource_L2Gas)) as [a2 p2]. cbn in *.
  conv_steps. unfold ret. f_equal. apply map_eq. intros [].
  - by rewrite !(lookup_insert_ne _ Resource_L2Gas), !lookup_insert_eq.
  - by rewrite !lookup_insert_eq.
Qed.

Lemma bounds_ok R name o :
  fits_option fits_PbResourceBounds o -> (R -> fits_option regular_PbResourceBounds o) ->
  conv_ok R (resource_bounds_field name o)
    (fun m => typed_bounds m /\ is_Some (m !! Resource_L1Gas) /\ is_Some (m !! Resource_L2Gas)).
Proof.
  intros Hf Hr. destruct o as [[l1 l2]|]; [|done]. unfold fits_PbResourceBounds, regular_PbResourceBounds in *. cbn in Hf, Hr. split_facts.
  unfold resource_bounds_field. eapply (conv_ok_bind _ _ _ (eq (mkPbResourceBounds l1 l2))); [done|]. intros ? <-.
  unfold ResourceBoundsMapping_try_from. cbn.
  destruct l1 as [[a1 p1]|]; [|done]. destruct l2 as [[a2 p2]|];
    cbn [fits_option] in *; unfold fits_PbResourceLimits, regular_PbResourceLimits in *; cbn in *; split_facts.
  - eapply (conv_ok_bind _ _ _ (eq _)); [done|]. intros ? <-. cbn. eapply conv_ok_bind; [by eauto with proto|]. intros q1 Hq1.
    eapply (conv_ok_bind _ _ _ (eq _)); [done|]. intros ? <-. cbn. eapply conv_ok_bind; [by eauto with proto|]. intros q2 Hq2.
    apply conv_ok_ret. split; [|by rewrite lookup_insert_eq, lookup_insert_ne, lookup_insert_eq].
    intros [] b Hb; [rewrite lookup_insert_ne in Hb by done|]; rewrite lookup_insert_eq in Hb; by simplify_eq.
  - eapply (conv_ok_bind _ _ _ (eq _)); [done|]. intros ? <-. cbn. eapply conv_ok_bind; [by eauto with proto|]. done.
Qed.

#[local] Hint Resolve bounds_fit bounds_roundtrip bounds_ok : proto.

(** ** Transactions: the fields are values of their types *)

Definition typed_DeployAccountV1 (x : DeployAccountTransactionV1) : Prop :=
  in_range 128 (DeployAccountTransactionV1_max_fee x) /\ Forall is_felt (DeployAccountTransactionV1_signature x) /\
  is_felt (DeployAccountTransactionV1_nonce x) /\ is_felt (DeployAccountTransactionV1_class_hash x) /\
  is_felt (DeployAccountTransactionV1_contract_address_salt x) /\
  Forall is_felt (DeployAccountTransactionV1_constructor_calldata x).

Definition typed_DeployAccountV3 (x : DeployAccountTransactionV3) : Prop :=
  typed_bounds (DeployAccountTransactionV3_resource_bounds x) /\ in_range 64 (DeployAccountTransactionV3_tip x) /\
  Forall is_felt (DeployAccountTransactionV3_signature x) /\ is_felt (DeployAccountTransactionV3_nonce x) /\
  is_felt (DeployAccountTransactionV3_class_hash x) /\ is_felt (DeployAccountTransactionV3_contract_address_salt x) /\
  Forall is_felt (DeployAccountTransactionV3_constructor_calldata x) /\
  Forall is_felt (DeployAccountTransactionV3_paymaster_data x).

Definition typed_InvokeV0 (x : InvokeTransactionV0) : Prop :=
  in_range 128 (InvokeTransactionV0_max_fee x) /\ Forall is_felt (InvokeTransactionV0_signature x) /\
  is_patricia_key (InvokeTransactionV0_contract_address x) /\ is_felt (InvokeTransactionV0_entry_point_selector x) /\
  Forall is_felt (InvokeTransactionV0_calldata x).

Definition typed_InvokeV1 (x : InvokeTransactionV1) : Prop :=
  in_range 128 (InvokeTransactionV1_max_fee x) /\ Forall is_felt (InvokeTransactionV1_signature x) /\
  is_felt (InvokeTransactionV1_nonce x) /\ is_patricia_key (InvokeTransactionV1_sender_address x) /\
  Forall is_felt (InvokeTransactionV1_calldata x).

Definition typed_InvokeV3 (x : InvokeTransactionV3) : Prop :=
  typed_bounds (InvokeTransactionV3_resource_bounds x) /\ in_range 64 (InvokeTransactionV3_tip x) /\
  Forall is_felt (InvokeTransactionV3_signature x) /\ is_felt (InvokeTransactionV3_nonce x) /\
  is_patricia_key (InvokeTransactionV3_sender_address x) /\ Forall is_felt (InvokeTransactionV3_calldata x) /\
  Forall is_felt (InvokeTransactionV3_paymaster_data x) /\ Forall is_felt (InvokeTransactionV3_account_deployment_data x).

Definition typed_DeclareV0V1 (x : DeclareTransactionV0V1) : Prop :=
  in_range 128 (DeclareTransactionV0V1_max_fee x) /\ Forall is_felt (DeclareTransactionV0V1_signature x) /\
  is_felt (DeclareTransactionV0V1_nonce x) /\ is_felt (DeclareTransactionV0V1_class_hash x) /\
  is_patricia_key (DeclareTransactionV0V1_sender_address x).

Definition typed_DeclareV2 (x : DeclareTransactionV2) : Prop :=
  in_range 128 (DeclareTransactionV2_max_fee x) /\ Forall is_felt (DeclareTransactionV2_signature x) /\
  is_felt (DeclareTransactionV2_nonce x) /\ is_felt (DeclareTransactionV2_class_hash x) /\
  is_felt (DeclareTransactionV2_compiled_class_hash x) /\ is_patricia_key (DeclareTransactionV2_sender_address x).

Definition typed_DeclareV3 (x : DeclareTransactionV3) : Prop :=
  typed_bounds (DeclareTransactionV3_resource_bounds x) /\ in_range 64 (DeclareTransactionV3_tip x) /\
  Forall is_felt (DeclareTransactionV3_signature x) /\ is_felt (DeclareTransactionV3_nonce x) /\
  is_felt (DeclareTransactionV3_class_hash x) /\ is_felt (DeclareTransactionV3_compiled_class_hash x) /\
  is_patricia_key (DeclareTransactionV3_sender_address x) /\ Forall is_felt (DeclareTransactionV3_paymaster_data x) /\
  Forall is_felt (DeclareTransactionV3_account_deployment_data x).

Definition typed_Deploy (x : DeployTransaction) : Prop :=
  is_felt (DeployTransaction_version x) /\ is_felt (DeployTransaction_class_hash x) /\
  is_felt (DeployTransaction_contract_address_salt x) /\ Forall is_felt (DeployTransaction_constructor_calldata x).

Definition typed_L1Handler (x : L1HandlerTransaction) : Prop :=
  is_felt (L1HandlerTransaction_version x) /\ is_felt (L1HandlerTransaction_nonce x) /\
  is_patricia_key (L1HandlerTransaction_contract_address x) /\ is_felt (L1HandlerTransaction_entry_point_selector x) /\
  Forall is_felt (L1HandlerTransaction_calldata x).

Definition typed_Transaction (tx : Transaction) : Prop :=
  match tx with
  | Transaction_Declare (DeclareTransaction_V0 x) => typed_DeclareV0V1 x
  | Transaction_Declare (DeclareTransaction_V1 x) => typed_DeclareV0V1 x
  | Transaction_Declare (DeclareTransaction_V2 x) => typed_DeclareV2 x
  | Transaction_Declare (DeclareTransaction_V3 x) => typed_DeclareV3 x
  | Transaction_Deploy x => typed_Deploy x
  | Transaction_DeployAccount (DeployAccountTransaction_V1 x) => typed_DeployAccountV1 x
  | Transaction_DeployAccount (DeployAccountTransaction_V3 x) => typed_DeployAccountV3 x
  | Transaction_Invoke (InvokeTransaction_V0 x) => typed_InvokeV0 x
  | Transaction_Invoke (InvokeTransaction_V1 x) => typed_InvokeV1 x
  | Transaction_Invoke (InvokeTransaction_V3 x) => typed_InvokeV3 x
  | Transaction_L1Handler x => typed_L1Handler x
  end.

(** What the receiver of a transaction sees of it. *)
Definition received_Transaction (tx : Transaction) : Transaction :=
  match tx with
  | Transaction_Declare (DeclareTransaction_V0 x) =>
      Transaction_Declare (DeclareTransaction_V0 {|
        DeclareTransactionV0V1_max_fee := DeclareTransactionV0V1_max_fee x;
        DeclareTransactionV0V1_signature := DeclareTransactionV0V1_signature x;
        DeclareTransactionV0V1_nonce := 0;
        DeclareTransactionV0V1_class_hash := DeclareTransactionV0V1_class_hash x;
        DeclareTransactionV0V1_sender_address := DeclareTransactionV0V1_sender_address x |})
  | Transaction_Declare (DeclareTransaction_V3 x) =>
      Transaction_Declare (DeclareTransaction_V3 {|
        DeclareTransactionV3_resource_bounds := received_bounds (DeclareTransactionV3_resource_bounds x);
        DeclareTransactionV3_tip := DeclareTransactionV3_tip x;
        DeclareTransactionV3_signature := DeclareTransactionV3_signature x;
        DeclareTransactionV3_nonce := DeclareTransactionV3_nonce x;
        DeclareTransactionV3_class_hash := DeclareTransactionV3_class_hash x;
        DeclareTransactionV3_compiled_class_hash := DeclareTransactionV3_compiled_class_hash x;
        DeclareTransactionV3_sender_address := DeclareTransactionV3_sender_address x;
        DeclareTransactionV3_nonce_data_availability_mode := DeclareTransactionV3_nonce_data_availability_mode x;
        DeclareTransactionV3_fee_data_availability_mode := DeclareTransactionV3_fee_data_availability_mode x;
        DeclareTransactionV3_paymaster_data := DeclareTransactionV3_paymaster_data x;
        DeclareTransactionV3_account_deployment_data := DeclareTransactionV3_account_deployment_data x |})
  | Transaction_Deploy x =>
      Transaction_Deploy {|
        DeployTransaction_version := if decide (in_range 32 (DeployTransaction_version x)) then DeployTransaction_version x else 0;
        DeployTransaction_class_hash := DeployTransaction_class_hash x;
        DeployTransaction_contract_address_salt := DeployTransaction_contract_address_salt x;
        DeployTransaction_constructor_calldata := DeployTransaction_constructor_calldata x |}
  | Transaction_DeployAccount (DeployAccountTransaction_V3 x) =>
      Transaction_DeployAccount (DeployAccountTransaction_V3 {|
        DeployAccountTransactionV3_resource_bounds := received_bounds (DeployAccountTransactionV3_resource_bounds x);
        DeployAccountTransactionV3_tip := DeployAccountTransactionV3_tip x;
        DeployAccountTransactionV3_signature := DeployAccountTransactionV3_signature x;
        DeployAccountTransactionV3_nonce := DeployAccountTransactionV3_nonce x;
        DeployAccountTransactionV3_class_hash := DeployAccountTransactionV3_class_hash x;
        DeployAccountTransactionV3_contract_address_salt := DeployAccountTransactionV3_contract_address_salt x;
        DeployAccountTransactionV3_constructor_calldata := DeployAccountTransactionV3_constructor_calldata x;
        DeployAccountTransactionV3_nonce_data_availability_mode := DeployAccountTransactionV3_nonce_data_availability_mode x;
        DeployAccountTransactionV3_fee_data_availability_mode := DeployAccountTransactionV3_fee_data_availability_mode x;
        DeployAccountTransactionV3_paymaster_data := DeployAccountTransactionV3_paymaster_data x |})
  | Transaction_Invoke (InvokeTransaction_V3 x) =>
      Transaction_Invoke (InvokeTransaction_V3 {|
        InvokeTransactionV3_resource_bounds := received_bounds (InvokeTransactionV3_resource_bounds x);
        InvokeTransactionV3_tip := InvokeTransactionV3_tip x;
        InvokeTransactionV3_signature := InvokeTransactionV3_signature x;
        InvokeTransactionV3_nonce := InvokeTransactionV3_nonce x;
        InvokeTransactionV3_sender_address := InvokeTransactionV3_sender_address x;
        InvokeTransactionV3_calldata := InvokeTransactionV3_calldata x;
        InvokeTransactionV3_nonce_data_availability_mode := InvokeTransactionV3_nonce_data_availability_mode x;
        InvokeTransactionV3_fee_data_availability_mode := InvokeTransactionV3_fee_data_availability_mode x;
        InvokeTransactionV3_paymaster_data := InvokeTransactionV3_paymaster_data x;
        InvokeTransactionV3_account_deployment_data := InvokeTransactionV3_account_deployment_data x |})
  | Transaction_L1Handler x =>
      Transaction_L1Handler {|
        L1HandlerTransaction_version := 0;
        L1HandlerTransaction_nonce := L1HandlerTransaction_nonce x;
        L1HandlerTransaction_contract_address := L1HandlerTransaction_contract_address x;
        L1HandlerTransaction_entry_point_selector := L1HandlerTransaction_entry_point_selector x;
        L1HandlerTransaction_calldata := L1HandlerTransaction_calldata x |}
  | _ => tx
  end.

(** The fields the protocol has no place for have the values the receiver gives them. *)
Definition wire_Transaction (tx : Transaction) : Prop :=
  match tx with
  | Transaction_Declare (DeclareTransaction_V0 x) => DeclareTransactionV0V1_nonce x = 0
  | Transaction_Declare (DeclareTransaction_V3 x) =>
      is_Some (DeclareTransactionV3_resource_bounds x !! Resource_L1Gas) /\
      is_Some (DeclareTransactionV3_resource_bounds x !! Resource_L2Gas)
  | Transaction_Deploy x => in_range 32 (DeployTransaction_version x)
  | Transaction_DeployAccount (DeployAccountTransaction_V3 x) =>
      is_Some (DeployAccountTransactionV3_resource_bounds x !! Resource_L1Gas) /\
      is_Some (DeployAccountTransactionV3_resource_bounds x !! Resource_L2Gas)
  | Transaction_Invoke (InvokeTransaction_V3 x) =>
      is_Some (InvokeTransactionV3_resource_bounds x !! Resource_L1Gas) /\
      is_Some (InvokeTransactionV3_resource_bounds x !! Resource_L2Gas)
  | Transaction_L1Handler x => L1HandlerTransaction_version x = 0
  | _ => True
  end.

Lemma received_Transaction_wire tx : wire_Transaction tx -> received_Transaction tx = tx.
Proof.
  destruct tx as [[[]|[]|[]|[]]|[]|[[]|[]]|[[]|[]|[]]|[]]; cbn; intros H; try done.
  all: try (destruct H; by rewrite received_bounds_id).
  - by rewrite H.
  - by rewrite decide_True.
  - by rewrite H.
Qed.

Lemma received_Transaction_idem tx : received_Transaction (received_Transaction tx) = received_Transaction tx.
Proof.
  destruct tx as [[[]|[]|[]|[]]|[]|[[]|[]]|[[]|[]|[]]|[]]; cbn; try done; try by rewrite received_bounds_idem.
  by repeat case_decide.
Qed.

(** The version of a deployment, as the message holds it. *)
Lemma deploy_version_spec x :
  typed_Deploy x ->
  PbDeploy_version (PbDeploy_from x) =
  if decide (in_range 32 (DeployTransaction_version x)) then DeployTransaction_version x else 0.
Proof. intros (Hv & _). cbn. rewrite starkfelt_to_u32_spec by done. by destruct (decide _). Qed.

Lemma deploy_version_range x : typed_Deploy x -> in_range 32 (PbDeploy_version (PbDeploy_from x)).
Proof. intros Hx. rewrite deploy_version_spec by done. destruct (decide _); [done|]. by split. Qed.

Lemma u32_uint_felt z : in_range 32 z -> felt_from_uint z = z /\ is_felt z.
Proof. intros Hz. apply felt_from_uint_spec. unfold in_range in *. lia. Qed.

#[local] Tactic Notation "txn_case" reference(T) :=
  erewrite bind_step by (unfold T; cbn; conv_steps); done.

Lemma Transaction_roundtrip tx :
  typed_Transaction tx -> Transaction_try_from (PbTransaction_from tx) tt = Done tt (received_Transaction tx).
Proof.
  intros H. unfold Transaction_try_from. cbn [PbTransaction_from PbTransaction_txn]. rewrite (bind_step _ _ _ _ _ (field_present _ _)).
  destruct tx as [[x|x|x|x]|x|[x|x]|[x|x|x]|x].
  5: { pose proof (deploy_version_range x H) as Hv. pose proof (deploy_version_spec x H) as Hs. destruct (u32_uint_felt _ Hv) as [Hu _].
       destruct x as [v c a l], H as (H1 & H2 & H3 & H4). cbn in H2, H3, H4. unfold DeployTransaction_try_from. rewrite Hu, Hs.
       erewrite bind_step by (cbn; conv_steps). done. }
  all: destruct x; cbn in H; unfold typed_DeclareV0V1, typed_DeclareV2, typed_DeclareV3, typed_DeployAccountV1, typed_DeployAccountV3,
    typed_InvokeV0, typed_InvokeV1, typed_InvokeV3, typed_L1Handler in H; cbn in H; split_facts.
  - txn_case DeclareTransactionV0_try_from.
  - txn_case DeclareTransactionV1_try_from.
  - txn_case DeclareTransactionV2_try_from.
  - txn_case DeclareTransactionV3_try_from.
  - txn_case DeployAccountTransactionV1_try_from.
  - txn_case DeployAccountTransactionV3_try_from.
  - txn_case InvokeTransactionV0_try_from.
  - txn_case InvokeTransactionV1_try_from.
  - txn_case InvokeTransactionV3_try_from.
  - txn_case L1HandlerTransaction_try_from.
Qed.

Lemma Transaction_fits tx : typed_Transaction tx -> fits_PbTransaction (PbTransaction_from tx).
Proof.
  intros H. unfold fits_PbTransaction. cbn [PbTransaction_from PbTransaction_txn fits_option]. destruct tx as [[x|x|x|x]|x|[x|x]|[x|x|x]|x].
  5: { pose proof (deploy_version_range x H) as Hv. cbn [fits_PbTransactionOneof]. destruct H as (H1 & H2 & H3 & H4).
       unfold fits_PbDeploy. cbn [fits_option PbDeploy_class_hash PbDeploy_address_salt PbDeploy_calldata PbDeploy_from].
       repeat match goal with |- _ /\ _ => split end; eauto with proto. }
  all: unfold typed_Transaction, typed_DeclareV0V1, typed_DeclareV2, typed_DeclareV3, typed_DeployAccountV1, typed_DeployAccountV3,
    typed_InvokeV0, typed_InvokeV1, typed_InvokeV3, typed_L1Handler in H; split_facts.
  all: cbn [fits_PbTransactionOneof]; unfold fits_PbDeclareV0, fits_PbDeclareV1, fits_PbDeclareV2, fits_PbDeclareV3,
    fits_PbDeployAccountV1, fits_PbDeployAccountV3, fits_PbInvokeV0, fits_PbInvokeV1, fits_PbInvokeV3, fits_PbL1HandlerV0.
  all: fits_fields.
Qed.

(** What a peer can send: values of the types, with the fields of the protocol. *)
Definition received_ok (tx : Transaction) : Prop := typed_Transaction tx /\ wire_Transaction tx.

#[local] Tactic Notation "txn_ok" reference(T) constr(C) :=
  eapply (conv_ok_bind _ _ _ (fun x => received_ok (C x)));
  [unfold T; conv_fields; apply conv_ok_ret; unfold received_ok; cbn; cbv beta in *; destruct_and?;
   unfold typed_DeclareV0V1, typed_DeclareV2, typed_DeclareV3, typed_DeployAccountV1, typed_DeployAccountV3,
     typed_InvokeV0, typed_InvokeV1, typed_InvokeV3, typed_L1Handler; cbn;
   repeat match goal with |- _ /\ _ => split end; first [done | exact zero_is_felt]
  |intros; by apply conv_ok_ret].

Lemma Transaction_ok R m :
  fits_PbTransaction m -> (R -> regular_PbTransaction m) -> conv_ok R (Transaction_try_from m) received_ok.
Proof.
  destruct m as [[o|]]; [|done]. unfold fits_PbTransaction, regular_PbTransaction. cbn [PbTransaction_txn fits_option]. intros Hf Hr.
  eapply (conv_ok_bind _ _ _ (eq o)); [done|]. intros ? <-.
  destruct o as [m|m|m|m|m|m|m|m|m|m|m]; cbn [fits_PbTransactionOneof regular_PbTransactionOneof] in Hf, Hr.
  5: { unfold fits_PbDeploy, regular_PbDeploy in *. split_facts.
       assert (Hu : in_range 32 (PbDeploy_version m)) by done. destruct (u32_uint_felt _ Hu) as [E Hv].
       eapply (conv_ok_bind _ _ _ (fun x => received_ok (Transaction_Deploy x))); [|intros; by apply conv_ok_ret].
       unfold DeployTransaction_try_from. rewrite E. conv_fields. by apply conv_ok_ret. }
  all: unfold fits_PbDeclareV0, fits_PbDeclareV1, fits_PbDeclareV2, fits_PbDeclareV3, fits_PbDeployAccountV1, fits_PbDeployAccountV3,
    fits_PbInvokeV0, fits_PbInvokeV1, fits_PbInvokeV3, fits_PbL1HandlerV0 in Hf;
    unfold regular_PbDeclareV0, regular_PbDeclareV1, regular_PbDeclareV2, regular_PbDeclareV3, regular_PbDeployAccountV1,
    regular_PbDeployAccountV3, regular_PbInvokeV0, regular_PbInvokeV1, regular_PbInvokeV3, regular_PbL1HandlerV0 in Hr; split_facts.
  - txn_ok DeclareTransactionV0_try_from (fun x => Transaction_Declare (DeclareTransaction_V0 x)).
  - txn_ok DeclareTransactionV1_try_from (fun x => Transaction_Declare (DeclareTransaction_V1 x)).
  - txn_ok DeclareTransactionV2_try_from (fun x => Transaction_Declare (DeclareTransaction_V2 x)).
  - txn_ok DeclareTransactionV3_try_from (fun x => Transaction_Declare (DeclareTransaction_V3 x)).
  - txn_ok DeployAccountTransactionV1_try_from (fun x => Transaction_DeployAccount (DeployAccountTransaction_V1 x)).
  - txn_ok DeployAccountTransactionV3_try_from (fun x => Transaction_DeployAccount (DeployAccountTransaction_V3 x)).
  - txn_ok InvokeTransactionV0_try_from (fun x => Transaction_Invoke (InvokeTransaction_V0 x)).
  - txn_ok InvokeTransactionV1_try_from (fun x => Transaction_Invoke (InvokeTransaction_V1 x)).
  - txn_ok InvokeTransactionV3_try_from (fun x => Transaction_Invoke (InvokeTransaction_V3 x)).
  - txn_ok L1HandlerTransaction_try_from Transaction_L1Handler.
Qed.
End TxnLaws.

(** * Laws of the conversions of receipts *)

Section ReceiptLaws.
Context {F : FeltApi} {FS : FeltSpec} {TA : TransactionApi}.

(** ** Resources *)

(** The builtins the protocol has a counter for. *)
Definition sent_builtins : list Builtin :=
  [Builtin_RangeCheck; Builtin_Pedersen; Builtin_Poseidon; Builtin_EcOp; Builtin_Ecdsa; Builtin_Bitwise; Builtin_Keccak].

Definition counter_of (m : gmap Builtin Z) (b : Builtin) : Z := default 0 (m !! b).

(** The receiver has those counters, zero when they were absent, and no others but
    that of the segment arena, which is zero. *)
Definition received_builtins (m : gmap Builtin Z) : gmap Builtin Z :=
  <[Builtin_SegmentArena := 0]> (list_to_map ((fun b => (b, counter_of m b)) <$> sent_builtins)).

Definition typed_GasVector (g : GasVector) : Prop := in_range 64 (GasVector_l1_gas g) /\ in_range 64 (GasVector_l1_data_gas g).

(** The counters fit the 32 bits of the protocol. *)
Definition sendable_resources (r : ExecutionResources) : Prop :=
  in_range 32 (ExecutionResources_steps r) /\ in_range 32 (ExecutionResources_memory_holes r) /\
  Forall (fun b => in_range 32 (counter_of (ExecutionResources_builtin_instance_counter r) b)) sent_builtins /\
  typed_GasVector (ExecutionResources_da_gas_consumed r) /\ typed_GasVector (ExecutionResources_gas_consumed r).

Definition received_resources (r : ExecutionResources) : ExecutionResources := {|
  ExecutionResources_steps := ExecutionResources_steps r;
  ExecutionResources_builtin_instance_counter := received_builtins (ExecutionResources_builtin_instance_counter r);
  ExecutionResources_memory_holes := ExecutionResources_memory_holes r;
  ExecutionResources_da_gas_consumed := ExecutionResources_da_gas_consumed r;
  ExecutionResources_gas_consumed := ExecutionResources_gas_consumed r
|}.

Lemma builtins_roundtrip m :
  Forall (fun b => in_range 32 (counter_of m b)) sent_builtins ->
  exists c, PbBuiltinCounter_from m tt = Done tt c /\ fits_PbBuiltinCounter c /\ builtin_counter_try_from c = received_builtins m.
Proof.
  intros H. unfold sent_builtins in H. rewrite !Forall_cons in H. destruct H as (H1 & H2 & H3 & H4 & H5 & H6 & H7 & _).
  eexists. split; [|split].
  - unfold PbBuiltinCounter_from, builtin_u32. unfold counter_of in *. conv_steps.
  - unfold fits_PbBuiltinCounter. cbn. unfold counter_of in *. repeat match goal with |- _ /\ _ => split end; done.
  - unfold builtin_counter_try_from, received_builtins. cbn. apply map_eq. intros b.
    destruct b; by repeat first [rewrite lookup_insert_eq | rewrite lookup_insert_ne by done].
Qed.

Lemma resources_roundtrip r :
  sendable_resources r ->
  exists m, PbExecutionResources_from r tt = Done tt m /\ fits_PbExecutionResources m /\
    ExecutionResources_try_from m tt = Done tt (received_resources r).
Proof.
  intros (H1 & H2 & H3 & [G1 G2] & [G3 G4]). destruct (builtins_roundtrip _ H3) as (c & Hc & Hfc & Hrc). eexists. split; [|split].
  - unfold PbExecutionResources_from. rewrite (bind_step _ _ _ _ _ Hc). conv_steps.
  - unfold fits_PbExecutionResources, fits_PbGasVector. fits_fields.
  - unfold ExecutionResources_try_from. cbn. conv_steps. unfold ret, received_resources. rewrite Hrc. f_equal. unfold GasVector_from. cbn.
    by destruct (ExecutionResources_da_gas_consumed r), (ExecutionResources_gas_consumed r).
Qed.

Lemma received_builtins_counter m b : counter_of (received_builtins m) b = if decide (b ∈ sent_builtins) then counter_of m b else 0.
Proof. unfold counter_of at 1, received_builtins. destruct b; by cbn. Qed.

Lemma received_builtins_received c : received_builtins (builtin_counter_try_from c) = builtin_counter_try_from c.
Proof.
  unfold builtin_counter_try_from, received_builtins. apply map_eq. intros b.
  destruct b; by repeat first [rewrite lookup_insert_eq | rewrite lookup_insert_ne by done].
Qed.

(** The resources that are received can be sent on, unchanged. *)
Lemma resources_ok R m :
  fits_PbExecutionResources m ->
  conv_ok R (ExecutionResources_try_from m) (fun r => sendable_resources r /\ received_resources r = r).
Proof.
  intros H. unfold fits_PbExecutionResources in H. split_facts. unfold ExecutionResources_try_from. conv_fields. apply conv_ok_ret.
  split; [|unfold received_resources; cbn [ExecutionResources_builtin_instance_counter]; by rewrite received_builtins_received].
  match goal with H : fits_PbBuiltinCounter ?a |- _ => destruct a; unfold fits_PbBuiltinCounter in H; cbn in H end. split_facts.
  unfold sendable_resources, typed_GasVector. cbn. unfold fits_PbGasVector in *. split_facts.
  repeat match goal with |- _ /\ _ => split end; try done. unfold sent_builtins. rewrite !Forall_cons. done.
Qed.

(** ** Messages to L1 *)

Definition typed_MessageToL1 (x : MessageToL1) : Prop :=
  is_patricia_key (MessageToL1_from_address x) /\ zlength (MessageToL1_to_address x) = 20 /\
  fits_bytes (MessageToL1_to_address x) /\ Forall is_felt (MessageToL1_payload x).

Lemma eth_address_roundtrip a : zlength a = 20 -> EthAddress_try_from (PbEthereumAddress_from a) tt = Done tt a.
Proof. intros Ha. unfold EthAddress_try_from, array_from_slice. cbn [PbEthereumAddress_from PbEthereumAddress_elements]. by rewrite Ha. Qed.

Lemma eth_address_ok R m :
  fits_PbEthereumAddress m -> conv_ok R (EthAddress_try_from m) (fun a => zlength a = 20 /\ fits_bytes a).
Proof. intros Hm. unfold EthAddress_try_from, array_from_slice. by destruct (Z.eqb_spec (zlength (PbEthereumAddress_elements m)) 20). Qed.

Lemma MessageToL1_roundtrip x : typed_MessageToL1 x -> MessageToL1_try_from (PbMessageToL1_from x) tt = Done tt x.
Proof.
  destruct x as [t p f]. intros (H1 & H2 & H3 & H4). cbn in *. unfold MessageToL1_try_from. cbn. pose proof (patricia_key_is_felt f H1).
  erewrite bind_step by eauto with proto. rewrite (proj2 (contract_address_spec f f) (conj eq_refl H1)). rewrite bind_expect.
  erewrite bind_step by eauto with proto. rewrite (bind_step _ _ _ _ _ (eth_address_roundtrip t H2)). conv_steps.
Qed.

Lemma MessageToL1_fits x : typed_MessageToL1 x -> fits_PbMessageToL1 (PbMessageToL1_from x).
Proof.
  intros (H1 & H2 & H3 & H4). unfold fits_PbMessageToL1. fits_fields. by apply felt_fits, patricia_key_is_felt.
Qed.

(** The sender of a message: a panic when it is no address. *)
Lemma sender_ok R name o :
  fits_option fits_PbFelt252 o -> (R -> fits_option regular_address_felt o) ->
  conv_ok R (let! f := felt_field name o in expect (contract_address_try_from f)) is_patricia_key.
Proof.
  intros Hf Hr. destruct o as [m|]; [|done]. cbn in Hf, Hr. unfold conv_ok, felt_field, field_or_missing, Felt_try_from, array_from_slice, bind. cbn.
  destruct (Z.eqb_spec (zlength (PbFelt252_elements m)) 32) as [Hl|Hl]; cbn; [|intros HR; by apply Hl, Hr].
  destruct (contract_address_try_from _) as [k|] eqn:E; cbn.
  - by apply contract_address_spec in E as [-> ?].
  - intros HR. destruct (Hr HR) as [_ Hk]. by rewrite (proj2 (contract_address_spec _ _) (conj eq_refl Hk)) in E.
Qed.

Lemma conv_ok_assoc {A B C} R (m : Conv A) (k : A -> Conv B) (h : B -> Conv C) P :
  conv_ok R (bind (bind m k) h) P -> conv_ok R (bind m (fun a => bind (k a) h)) P.
Proof. unfold conv_ok. by rewrite bind_assoc. Qed.

Lemma MessageToL1_ok R m :
  fits_PbMessageToL1 m -> (R -> regular_PbMessageToL1 m) -> conv_ok R (MessageToL1_try_from m) typed_MessageToL1.
Proof.
  intros Hf Hr. unfold fits_PbMessageToL1, regular_PbMessageToL1 in *. split_facts. unfold MessageToL1_try_from. apply conv_ok_assoc.
  eapply conv_ok_bind; [by apply sender_ok|]. intros f Hfr. eapply conv_ok_bind; [by apply conv_ok_field|]. intros t Ht.
  eapply conv_ok_bind; [by apply eth_address_ok|]. intros a [Ha1 Ha2]. conv_fields. by apply conv_ok_ret.
Qed.

(** ** The shared part *)

Definition sendable_common (fee : Z) (msgs : list MessageToL1) (res : ExecutionResources) (status : TransactionExecutionStatus) : Prop :=
  in_range 128 fee /\ Forall typed_MessageToL1 msgs /\ sendable_resources res /\
  match status with
  | TransactionExecutionStatus_Succeeded => True
  | TransactionExecutionStatus_Reverted r => fits_string (RevertedTransactionExecutionStatus_revert_reason r)
  end.

Lemma messages_roundtrip l :
  Forall typed_MessageToL1 l -> collect MessageToL1_try_from (PbMessageToL1_from <$> l) tt = Done tt l.
Proof. intros Hl. apply collect_fmap. eapply Forall_impl; [exact Hl|]. apply MessageToL1_roundtrip. Qed.

Lemma common_roundtrip fee msgs res status :
  sendable_common fee msgs res status ->
  exists c, create_proto_receipt_common_from_txn_output_fields fee msgs res status tt = Done tt c /\ fits_PbReceiptCommon c /\
    parse_common_receipt_fields (Some c) tt = Done tt (fee, msgs, status, received_resources res).
Proof.
  intros (H1 & H2 & H3 & H4). destruct (resources_roundtrip res H3) as (m & Hm & Hfm & Hrm). eexists. split; [|split].
  - unfold create_proto_receipt_common_from_txn_output_fields. by rewrite (bind_step _ _ _ _ _ Hm).
  - unfold fits_PbReceiptCommon. cbn. repeat match goal with |- _ /\ _ => split end; try done.
    + by apply fee_fits.
    + apply Forall_fmap. eapply Forall_impl; [exact H2|]. apply MessageToL1_fits.
    + by destruct status.
  - unfold parse_common_receipt_fields. erewrite bind_step by eauto with proto. cbn. change (Some (PbFelt252_from (felt_from_uint fee))) with (pb_fee fee).
    erewrite bind_step by eauto with proto. rewrite (bind_step _ _ _ _ _ (messages_roundtrip msgs H2)).
    erewrite bind_step by eauto with proto. rewrite (bind_step _ _ _ _ _ Hrm). by destruct status as [|[]].
Qed.

Lemma common_ok R o :
  fits_option fits_PbReceiptCommon o -> (R -> fits_option regular_PbReceiptCommon o) ->
  conv_ok R (parse_common_receipt_fields o)
    (fun '(fee, msgs, status, res) => sendable_common fee msgs res status /\ received_resources res = res).
Proof.
  intros Hf Hr. destruct o as [c|]; [|done]. unfold parse_common_receipt_fields. eapply (conv_ok_bind _ _ _ (eq c)); [done|]. intros ? <-.
  cbn [fits_option] in *. unfold fits_PbReceiptCommon, regular_PbReceiptCommon in *. split_facts.
  eapply conv_ok_bind; [by eauto with proto|]. intros fee Hfee.
  eapply conv_ok_bind; [by eapply collect_ok; [apply MessageToL1_ok|..]|]. intros msgs Hmsgs.
  eapply conv_ok_bind; [by apply conv_ok_field|]. intros r Hres. eapply conv_ok_bind; [by apply resources_ok|]. intros res [Hs He].
  apply conv_ok_ret. split; [|done]. split; [done|]. split; [done|]. split; [done|]. by destruct (PbReceiptCommon_revert_reason c).
Qed.

(** ** Outputs *)

Definition sendable_TransactionOutput (o : TransactionOutput) : Prop :=
  match o with
  | TransactionOutput_Declare x =>
      sendable_common (DeclareTransactionOutput_actual_fee x) (DeclareTransactionOutput_messages_sent x)
        (DeclareTransactionOutput_execution_resources x) (DeclareTransactionOutput_execution_status x)
  | TransactionOutput_Deploy x =>
      sendable_common (DeployTransactionOutput_actual_fee x) (DeployTransactionOutput_messages_sent x)
        (DeployTransactionOutput_execution_resources x) (DeployTransactionOutput_execution_status x) /\
      is_patricia_key (DeployTransactionOutput_contract_address x)
  | TransactionOutput_DeployAccount x =>
      sendable_common (DeployAccountTransactionOutput_actual_fee x) (DeployAccountTransactionOutput_messages_sent x)
        (DeployAccountTransactionOutput_execution_resources x) (DeployAccountTransactionOutput_execution_status x) /\
      is_patricia_key (DeployAccountTransactionOutput_contract_address x)
  | TransactionOutput_Invoke x =>
      sendable_common (InvokeTransactionOutput_actual_fee x) (InvokeTransactionOutput_messages_sent x)
        (InvokeTransactionOutput_execution_resources x) (InvokeTransactionOutput_execution_status x)
  | TransactionOutput_L1Handler x =>
      sendable_common (L1HandlerTransactionOutput_actual_fee x) (L1HandlerTransactionOutput_messages_sent x)
        (L1HandlerTransactionOutput_execution_resources x) (L1HandlerTransactionOutput_execution_status x)
  end.

(** What the receiver of an output sees of it: no events (they are messages of their
    own) and the resources of the protocol. *)
Definition received_TransactionOutput (o : TransactionOutput) : TransactionOutput :=
  match o with
  | TransactionOutput_Declare (mkDeclareTransactionOutput fee msgs _ status res) =>
      TransactionOutput_Declare (mkDeclareTransactionOutput fee msgs [] status (received_resources res))
  | TransactionOutput_Deploy (mkDeployTransactionOutput fee msgs _ address status res) =>
      TransactionOutput_Deploy (mkDeployTransactionOutput fee msgs [] address status (received_resources res))
  | TransactionOutput_DeployAccount (mkDeployAccountTransactionOutput fee msgs _ address status res) =>
      TransactionOutput_DeployAccount (mkDeployAccountTransactionOutput fee msgs [] address status (received_resources res))
  | TransactionOutput_Invoke (mkInvokeTransactionOutput fee msgs _ status res) =>
      TransactionOutput_Invoke (mkInvokeTransactionOutput fee msgs [] status (received_resources res))
  | TransactionOutput_L1Handler (mkL1HandlerTransactionOutput fee msgs _ status res) =>
      TransactionOutput_L1Handler (mkL1HandlerTransactionOutput fee msgs [] status (received_resources res))
  end.

Lemma received_builtins_idem m : received_builtins (received_builtins m) = received_builtins m.
Proof.
  unfold received_builtins. apply map_eq. intros b.
  destruct b; by repeat first [rewrite lookup_insert_eq | rewrite lookup_insert_ne by done].
Qed.

Lemma received_TransactionOutput_idem o : received_TransactionOutput (received_TransactionOutput o) = received_TransactionOutput o.
Proof. destruct o as [[]|[]|[]|[]|[]]; cbn; unfold received_resources; cbn [ExecutionResources_builtin_instance_counter]; by rewrite received_builtins_idem. Qed.

#[local] Ltac use_common H := destruct (common_roundtrip _ _ _ _ H) as (c & Hc & Hfc & Hrc).

(** The run that sends [x], what it sends, and the run that receives it. *)
Lemma TransactionOutput_roundtrip o :
  sendable_TransactionOutput o ->
  exists r, PbReceipt_from o tt = Done tt r /\ fits_PbReceipt r /\
    TransactionOutput_try_from r tt = Done tt (received_TransactionOutput o).
Proof.
  destruct o as [[]|[]|[]|[]|[]]; cbn; intros H.
  - use_common H. eexists. split; [|split]; [unfold PbReceiptDeclare_from; cbn; by rewrite bind_assoc, (bind_step _ _ _ _ _ Hc)|done|].
    unfold TransactionOutput_try_from, DeclareTransactionOutput_try_from. cbn. conv_steps. cbn. rewrite bind_assoc. by rewrite (bind_step _ _ _ _ _ Hrc).
  - destruct H as [H Ha]. use_common H. eexists. split; [|split]; [unfold PbReceiptDeploy_from; cbn; by rewrite bind_assoc, (bind_step _ _ _ _ _ Hc)| |].
    + split; [done|]. by apply felt_fits, patricia_key_is_felt.
    + unfold TransactionOutput_try_from, DeployTransactionOutput_try_from. cbn. conv_steps. cbn. rewrite bind_assoc, (bind_step _ _ _ _ _ Hrc), bind_assoc. conv_steps.
  - destruct H as [H Ha]. use_common H. eexists. split; [|split]; [unfold PbReceiptDeployAccount_from; cbn; by rewrite bind_assoc, (bind_step _ _ _ _ _ Hc)| |].
    + split; [done|]. by apply felt_fits, patricia_key_is_felt.
    + unfold TransactionOutput_try_from, DeployAccountTransactionOutput_try_from. cbn. conv_steps. cbn. rewrite bind_assoc, (bind_step _ _ _ _ _ Hrc), bind_assoc. conv_steps.
  - use_common H. eexists. split; [|split]; [unfold PbReceiptInvoke_from; cbn; by rewrite bind_assoc, (bind_step _ _ _ _ _ Hc)|done|].
    unfold TransactionOutput_try_from, InvokeTransactionOutput_try_from. cbn. conv_steps. cbn. rewrite bind_assoc. by rewrite (bind_step _ _ _ _ _ Hrc).
  - use_common H. eexists. split; [|split]; [unfold PbReceiptL1Handler_from; cbn; by rewrite bind_assoc, (bind_step _ _ _ _ _ Hc)|by split|].
    unfold TransactionOutput_try_from, L1HandlerTransactionOutput_try_from. cbn. conv_steps. cbn. rewrite bind_assoc. by rewrite (bind_step _ _ _ _ _ Hrc).
Qed.

Definition received_output_ok (o : TransactionOutput) : Prop := sendable_TransactionOutput o /\ received_TransactionOutput o = o.

#[local] Tactic Notation "output_ok" reference(T) constr(C) :=
  eapply (conv_ok_bind _ _ _ (fun x => received_output_ok (C x))); [|intros; by apply conv_ok_ret];
  unfold T; eapply conv_ok_bind; [by apply common_ok|]; intros [[[fee msgs] status] res] [Hs He];
  conv_fields; apply conv_ok_ret; split; cbn; [done|by rewrite He].

Lemma TransactionOutput_ok R m :
  fits_PbReceipt m -> (R -> regular_PbReceipt m) -> conv_ok R (TransactionOutput_try_from m) received_output_ok.
Proof.
  destruct m as [[o|]]; [|done]. unfold fits_PbReceipt, regular_PbReceipt. cbn [PbReceipt_type fits_option]. intros Hf Hr.
  eapply (conv_ok_bind _ _ _ (eq o)); [done|]. intros ? <-.
  destruct o; cbn [fits_PbReceiptOneof regular_PbReceiptOneof] in Hf, Hr;
    unfold fits_PbReceiptInvoke, fits_PbReceiptL1Handler, fits_PbReceiptDeclare, fits_PbReceiptDeploy, fits_PbReceiptDeployAccount in Hf;
    unfold regular_PbReceiptInvoke, regular_PbReceiptL1Handler, regular_PbReceiptDeclare, regular_PbReceiptDeploy,
      regular_PbReceiptDeployAccount in Hr; split_facts.
  - output_ok InvokeTransactionOutput_try_from TransactionOutput_Invoke.
  - output_ok L1HandlerTransactionOutput_try_from TransactionOutput_L1Handler.
  - output_ok DeclareTransactionOutput_try_from TransactionOutput_Declare.
  - output_ok DeployTransactionOutput_try_from TransactionOutput_Deploy.
  - output_ok DeployAccountTransactionOutput_try_from TransactionOutput_DeployAccount.
Qed.

(** The unit of the fee is written for the peer; the conversion does not read it. *)
Lemma parse_price_unit unit o : parse_common_receipt_fields (set_common_price_unit unit o) tt = parse_common_receipt_fields o tt.
Proof. by destruct o. Qed.

Lemma price_unit_ignored r t :
  TransactionOutput_try_from (set_price_unit_based_on_transaction r t) tt = TransactionOutput_try_from r tt.
Proof.
  unfold set_price_unit_based_on_transaction. destruct (price_unit_of _) as [unit|]; [|done]. destruct r as [[o|]]; [|done].
  destruct o as [[[]]|[[] ?]|[[]]|[[] ?]|[[] ?]]; done.
Qed.

Lemma common_price_unit_fits unit o :
  fits_option fits_PbReceiptCommon o -> fits_option fits_PbReceiptCommon (set_common_price_unit unit o).
Proof.
  destruct o as [c|]; [|done]. cbn. unfold fits_PbReceiptCommon. cbn. intros H. split_facts.
  repeat match goal with |- _ /\ _ => split end; try done. destruct unit; cbv; split; congruence.
Qed.

Lemma price_unit_fits r t : fits_PbReceipt r -> fits_PbReceipt (set_price_unit_based_on_transaction r t).
Proof.
  unfold set_price_unit_based_on_transaction, fits_PbReceipt. destruct (price_unit_of _) as [unit|]; [|done]. destruct r as [[o|]]; [|done].
  cbn [PbReceipt_type fits_option]. destruct o as [m|m|m|m|m]; cbn [fits_PbReceiptOneof].
  - apply common_price_unit_fits.
  - intros [H1 H2]. split; [by apply common_price_unit_fits|done].
  - apply common_price_unit_fits.
  - intros [H1 H2]. split; [by apply common_price_unit_fits|done].
  - intros [H1 H2]. split; [by apply common_price_unit_fits|done].
Qed.

(** ** Transactions with their outputs *)

Context (Hdefault : typed_ResourceBounds default_ResourceBounds).

Definition sendable_pair (p : Transaction * TransactionOutput) : Prop := typed_Transaction p.1 /\ sendable_TransactionOutput p.2.

Definition received_pair (p : Transaction * TransactionOutput) : Transaction * TransactionOutput :=
  (received_Transaction p.1, received_TransactionOutput p.2).

Lemma pair_roundtrip p :
  sendable_pair p ->
  exists m, PbTransactionWithReceipt_from p tt = Done tt m /\ fits_PbTransactionWithReceipt m /\
    TransactionWithReceipt_try_from m tt = Done tt (received_pair p).
Proof.
  destruct p as [tx o]. intros [Ht Ho]. destruct (TransactionOutput_roundtrip o Ho) as (r & H1 & H2 & H3). eexists. split; [|split].
  - unfold PbTransactionWithReceipt_from. cbn [fst snd]. by rewrite (bind_step _ _ _ _ _ H1).
  - split; cbn [PbTransactionWithReceipt_transaction PbTransactionWithReceipt_receipt fits_option];
      [by apply Transaction_fits|by apply price_unit_fits].
  - unfold TransactionWithReceipt_try_from. cbn [PbTransactionWithReceipt_transaction PbTransactionWithReceipt_receipt].
    erewrite bind_step by eauto with proto. rewrite (bind_step _ _ _ _ _ (Transaction_roundtrip Hdefault tx Ht)).
    erewrite bind_step by eauto with proto. rewrite <-(price_unit_ignored r (PbTransaction_from tx)) in H3. by rewrite (bind_step _ _ _ _ _ H3).
Qed.

Lemma pair_ok R m :
  fits_PbTransactionWithReceipt m -> (R -> regular_PbTransactionWithReceipt m) ->
  conv_ok R (TransactionWithReceipt_try_from m) (fun p => received_ok p.1 /\ received_output_ok p.2).
Proof.
  intros Hf Hr. unfold fits_PbTransactionWithReceipt, regular_PbTransactionWithReceipt in *. destruct m as [[t|] [r|]]; cbn in *; split_facts; try done.
  - unfold TransactionWithReceipt_try_from. cbn. eapply (conv_ok_bind _ _ _ (eq t)); [done|]. intros ? <-.
    eapply conv_ok_bind; [by apply Transaction_ok|]. intros tx Htx. eapply (conv_ok_bind _ _ _ (eq r)); [done|]. intros ? <-.
    eapply conv_ok_bind; [by apply TransactionOutput_ok|]. intros o Ho. by apply conv_ok_ret.
  - unfold TransactionWithReceipt_try_from. cbn. eapply (conv_ok_bind _ _ _ (eq t)); [done|]. intros ? <-.
    eapply conv_ok_bind; [by apply Transaction_ok|]. done.
Qed.
End ReceiptLaws.
