(* ===== verification/ProtoClassProps.v ===== *)
(** * Laws of the conversions of classes and consensus messages *)

From stdpp Require Import base gmap list strings fin_maps.
From Stdlib Require Import ZArith Lia.
From S2P Require Import Prelude StateMachine SingleHeightConsensus StorageTables StarknetTypes StorageTxn Header Serde SerdeLaws ClientObjects.
From S2P Require Import P2pServer ProtoCommon ProtoSync ProtoTransaction ProtoLaws ProtoTxnProps.

(** ** Entry points by type *)

Section EntryPoints.
Context {K A B : Type} `{Countable K}.

(** The types without entry points are not sent. *)
Definition with_points (l : list B) : option (list B) := match l with [] => None | _ => Some l end.

Definition received_points (m : gmap K (list B)) : gmap K (list B) := omap with_points m.

Lemma lookup_received_points m k : received_points m !! k = m !! k ≫= with_points.
Proof. apply lookup_omap. Qed.

Definition insert_points (k : K) (l : list B) (acc : gmap K (list B)) : gmap K (list B) :=
  match l with [] => acc | _ => <[k := l]> acc end.

Lemma lookup_insert_points k l acc : insert_points k l acc !! k = match l with [] => acc !! k | _ => Some l end.
Proof. destruct l; cbn; [done|]. by rewrite lookup_insert_eq. Qed.

Lemma lookup_insert_points_ne k k' l acc : k <> k' -> insert_points k l acc !! k' = acc !! k'.
Proof. intros Hne. destruct l; cbn; [done|]. by rewrite lookup_insert_ne. Qed.

Context (from : B -> Conv A) (try_from : A -> Conv B) (fits : A -> Prop).

Lemma insert_roundtrip key l :
  Forall (fun b => exists a, from b tt = Done tt a /\ fits a /\ try_from a tt = Done tt b) l ->
  exists ms, collect from l tt = Done tt ms /\ Forall fits ms /\
    forall acc, insert_entry_points try_from key ms acc tt = Done tt (insert_points key l acc).
Proof.
  intros Hl. destruct (collect_collect _ _ _ _ Hl) as (ms & H1 & H2 & H3). exists ms. split; [done|]. split; [done|]. intros acc.
  destruct ms as [|m ms].
  - cbn in H3. unfold ret in H3. by simplify_eq.
  - unfold insert_entry_points. rewrite (bind_step _ _ _ _ _ H3). destruct l as [|b l]; [|done]. cbn in H1. unfold ret in H1. by simplify_eq.
Qed.

(** The points of every type are values of a type, and none of the lists is empty. *)
Definition points_ok (Q : B -> Prop) (m : gmap K (list B)) : Prop := map_Forall (fun _ l => Forall Q l /\ l <> []) m.

Lemma insert_ok R (regular : A -> Prop) (Q : B -> Prop) key ms acc :
  (forall a, fits a -> (R -> regular a) -> conv_ok R (try_from a) Q) ->
  Forall fits ms -> (R -> Forall regular ms) -> points_ok Q acc ->
  conv_ok R (insert_entry_points try_from key ms acc) (points_ok Q).
Proof.
  intros Hq Hf Hr Hacc. unfold insert_entry_points. destruct ms as [|m ms]; [done|].
  unfold conv_ok. pose proof (collect_ok R try_from fits regular Q (m :: ms) Hq Hf Hr) as Hc. unfold conv_ok in Hc. unfold bind at 1.
  destruct (collect try_from (m :: ms) tt) as [[] l|[] e|] eqn:E; [|done|done]. cbn. apply map_Forall_insert_2; [|done]. split; [done|].
  cbn in E. inv_run. done.
Qed.

Lemma received_points_ok Q m : points_ok Q m -> received_points m = m.
Proof.
  intros Hm. apply map_eq. intros k. rewrite lookup_received_points. destruct (m !! k) as [l|] eqn:E; [|done]. cbn.
  destruct (Hm _ _ E) as [_ Hl]. by destruct l.
Qed.
End EntryPoints.

Section ClassLaws.
Context {F : FeltApi} {FS : FeltSpec} {X : ExternalTypes} {PA : ProgramApi}.

(** ** Entry points *)

Definition typed_DeprecatedEntryPoint (e : DeprecatedEntryPoint) : Prop :=
  is_felt (DeprecatedEntryPoint_selector e) /\ in_range 64 (DeprecatedEntryPoint_offset e).

Definition typed_EntryPoint (e : EntryPoint) : Prop := is_felt (EntryPoint_selector e) /\ in_range 64 (EntryPoint_function_idx e).

Lemma DeprecatedEntryPoint_roundtrip e :
  typed_DeprecatedEntryPoint e ->
  exists m, PbEntryPoint_from e tt = Done tt m /\ fits_PbEntryPoint m /\ DeprecatedEntryPoint_try_from m tt = Done tt e.
Proof.
  destruct e as [sel off]. intros [Hs Ho]. cbn in *. eexists. split; [|split].
  - unfold PbEntryPoint_from. cbn. conv_steps.
  - unfold fits_PbEntryPoint. fits_fields.
  - unfold DeprecatedEntryPoint_try_from. cbn. conv_steps.
Qed.

Lemma EntryPoint_roundtrip e :
  typed_EntryPoint e ->
  exists m, PbSierraEntryPoint_from e tt = Done tt m /\ fits_PbSierraEntryPoint m /\ EntryPoint_try_from m tt = Done tt e.
Proof.
  destruct e as [idx sel]. intros [Hs Ho]. cbn in *. eexists. split; [|split].
  - unfold PbSierraEntryPoint_from. cbn. conv_steps.
  - unfold fits_PbSierraEntryPoint. fits_fields.
  - unfold EntryPoint_try_from. cbn. conv_steps.
Qed.

Lemma DeprecatedEntryPoint_ok R m :
  fits_PbEntryPoint m -> (R -> regular_PbEntryPoint m) -> conv_ok R (DeprecatedEntryPoint_try_from m) typed_DeprecatedEntryPoint.
Proof.
  intros Hf Hr. unfold fits_PbEntryPoint, regular_PbEntryPoint in *. split_facts. unfold DeprecatedEntryPoint_try_from. conv_fields.
  by apply conv_ok_ret.
Qed.

Lemma EntryPoint_ok R m :
  fits_PbSierraEntryPoint m -> (R -> regular_PbSierraEntryPoint m) -> conv_ok R (EntryPoint_try_from m) typed_EntryPoint.
Proof.
  intros Hf Hr. unfold fits_PbSierraEntryPoint, regular_PbSierraEntryPoint in *. split_facts. unfold EntryPoint_try_from. conv_fields.
  by apply conv_ok_ret.
Qed.

(** ** Classes *)

Definition typed_points {K B} `{Countable K} (Q : B -> Prop) (m : gmap K (list B)) : Prop := map_Forall (fun _ l => Forall Q l) m.

Definition sendable_class (c : ApiContractClass) : Prop :=
  match c with
  | ApiContractClass_DeprecatedContractClass c =>
      typed_points typed_DeprecatedEntryPoint (DeprecatedContractClass_entry_points_by_type c)
  | ApiContractClass_ContractClass c =>
      Forall is_felt (ContractClass_sierra_program c) /\ (6 <= length (ContractClass_sierra_program c))%nat /\
      typed_points typed_EntryPoint (ContractClass_entry_points_by_type c) /\ fits_string (ContractClass_abi c)
  end.

(** What the receiver of a class sees of it. *)
Definition received_class (c : ApiContractClass) : ApiContractClass :=
  match c with
  | ApiContractClass_DeprecatedContractClass c =>
      ApiContractClass_DeprecatedContractClass (mkDeprecatedContractClass None default_Program
        (received_points (DeprecatedContractClass_entry_points_by_type c)))
  | ApiContractClass_ContractClass c =>
      ApiContractClass_ContractClass (mkContractClass (ContractClass_sierra_program c)
        (received_points (ContractClass_entry_points_by_type c)) (ContractClass_abi c))
  end.

Lemma points_of_Forall {K B} `{Countable K} (Q P : B -> Prop) (m : gmap K (list B)) k :
  typed_points Q m -> (forall b, Q b -> P b) -> Forall P (entry_points_of k m).
Proof.
  intros Hm HP. unfold entry_points_of. destruct (m !! k) as [l|] eqn:E; [|constructor]. eapply Forall_impl; [exact (Hm _ _ E)|done].
Qed.

Lemma inserted_deprecated_points (m : gmap DeprecatedEntryPointType (list DeprecatedEntryPoint)) :
  insert_points DeprecatedEntryPointType_L1Handler (entry_points_of DeprecatedEntryPointType_L1Handler m)
    (insert_points DeprecatedEntryPointType_External (entry_points_of DeprecatedEntryPointType_External m)
      (insert_points DeprecatedEntryPointType_Constructor (entry_points_of DeprecatedEntryPointType_Constructor m) ∅)) =
  received_points m.
Proof.
  apply map_eq. intros k. rewrite lookup_received_points. unfold entry_points_of.
  destruct k; rewrite ?lookup_insert_points_ne by done; rewrite lookup_insert_points, ?lookup_insert_points_ne by done;
    destruct (m !! _) as [[|]|]; done.
Qed.

Lemma inserted_points (m : gmap EntryPointType (list EntryPoint)) :
  insert_points EntryPointType_L1Handler (entry_points_of EntryPointType_L1Handler m)
    (insert_points EntryPointType_External (entry_points_of EntryPointType_External m)
      (insert_points EntryPointType_Constructor (entry_points_of EntryPointType_Constructor m) ∅)) =
  received_points m.
Proof.
  apply map_eq. intros k. rewrite lookup_received_points. unfold entry_points_of.
  destruct k; rewrite ?lookup_insert_points_ne by done; rewrite lookup_insert_points, ?lookup_insert_points_ne by done;
    destruct (m !! _) as [[|]|]; done.
Qed.

Lemma Cairo0_roundtrip c :
  typed_points typed_DeprecatedEntryPoint (DeprecatedContractClass_entry_points_by_type c) ->
  exists m, PbCairo0Class_from c tt = Done tt m /\ fits_PbCairo0Class m /\
    DeprecatedContractClass_try_from m tt =
    Done tt (mkDeprecatedContractClass None default_Program (received_points (DeprecatedContractClass_entry_points_by_type c))).
Proof.
  intros Hm. set (points := DeprecatedContractClass_entry_points_by_type c) in *.
  pose proof (fun k => insert_roundtrip _ _ _ k _ (points_of_Forall _ _ points k Hm DeprecatedEntryPoint_roundtrip)) as Hp.
  destruct (Hp DeprecatedEntryPointType_Constructor) as (m1 & A1 & B1 & C1), (Hp DeprecatedEntryPointType_External) as (m2 & A2 & B2 & C2),
    (Hp DeprecatedEntryPointType_L1Handler) as (m3 & A3 & B3 & C3). eexists. split; [|split].
  - unfold PbCairo0Class_from. fold points. by rewrite (bind_step _ _ _ _ _ A1), (bind_step _ _ _ _ _ A2), (bind_step _ _ _ _ _ A3).
  - unfold fits_PbCairo0Class. fits_fields; done.
  - unfold DeprecatedContractClass_try_from. cbn.
    rewrite (bind_step _ _ _ _ _ (C1 _)), (bind_step _ _ _ _ _ (C2 _)), (bind_step _ _ _ _ _ (C3 _)).
    unfold ret. by rewrite inserted_deprecated_points.
Qed.

(** The version string is made of ASCII characters. *)
Lemma ascii_utf8 bs : Forall (fun b => between 0 127 b = true) bs -> fits_string bs.
Proof. unfold fits_string. induction 1 as [|b bs Hb Hbs IH]; [done|]. cbn [valid_utf8]. by rewrite Hb. Qed.

Lemma version_utf8 v0 v1 v2 v3 v4 v5 :
  fits_string (literal "sierra-v" ++ felt_display v0 ++ literal "." ++ felt_display v1 ++ literal "." ++ felt_display v2 ++
    literal " cairo-v" ++ felt_display v3 ++ literal "." ++ felt_display v4 ++ literal "." ++ felt_display v5).
Proof.
  apply ascii_utf8. rewrite !Forall_app.
  repeat match goal with |- _ /\ _ => split end; first [apply felt_display_utf8 | repeat constructor].
Qed.

Lemma Cairo1_roundtrip c :
  sendable_class (ApiContractClass_ContractClass c) ->
  exists m, PbCairo1Class_from c tt = Done tt m /\ fits_PbCairo1Class m /\
    ContractClass_try_from m tt =
    Done tt (mkContractClass (ContractClass_sierra_program c) (received_points (ContractClass_entry_points_by_type c)) (ContractClass_abi c)).
Proof.
  destruct c as [prog points abi]. cbn [sendable_class ContractClass_sierra_program ContractClass_entry_points_by_type ContractClass_abi].
  intros (Hf & Hlen & Hm & Habi).
  destruct prog as [|v0 [|v1 [|v2 [|v3 [|v4 [|v5 prog]]]]]]; cbn [length] in Hlen; try lia. clear Hlen.
  pose proof (fun k => insert_roundtrip _ _ _ k _ (points_of_Forall _ _ points k Hm EntryPoint_roundtrip)) as Hp.
  destruct (Hp EntryPointType_Constructor) as (m1 & A1 & B1 & C1), (Hp EntryPointType_External) as (m2 & A2 & B2 & C2),
    (Hp EntryPointType_L1Handler) as (m3 & A3 & B3 & C3). eexists. split; [|split].
  - unfold PbCairo1Class_from. cbn [ContractClass_sierra_program ContractClass_entry_points_by_type ContractClass_abi].
    by rewrite (bind_step _ _ _ _ _ A1), (bind_step _ _ _ _ _ A2), (bind_step _ _ _ _ _ A3).
  - unfold fits_PbCairo1Class. cbn. repeat match goal with |- _ /\ _ => split end; try done; [exact (felts_fit _ Hf)|].
    exact (version_utf8 v0 v1 v2 v3 v4 v5).
  - unfold ContractClass_try_from. cbn [PbCairo1Class_program PbCairo1Class_entry_points PbCairo1Class_abi].
    erewrite bind_step by eauto with proto. erewrite bind_step by eauto with proto. cbn.
    rewrite (bind_step _ _ _ _ _ (C1 _)), (bind_step _ _ _ _ _ (C2 _)), (bind_step _ _ _ _ _ (C3 _)).
    unfold ret. by rewrite inserted_points.
Qed.

Lemma class_roundtrip c :
  sendable_class c ->
  exists m, PbClass_from c tt = Done tt m /\ fits_PbClass m /\ ApiContractClass_try_from m tt = Done tt (received_class c).
Proof.
  destruct c as [c|c]; intros H.
  - destruct (Cairo0_roundtrip c H) as (m & H1 & H2 & H3). exists (mkPbClass (Some (PbClass_Cairo0 m)) 0). split; [|split].
    + unfold PbClass_from. erewrite bind_step by (apply expect_uint; by split). by rewrite bind_assoc, (bind_step _ _ _ _ _ H1).
    + split; [done|]. by split.
    + unfold ApiContractClass_try_from. cbn. by rewrite (bind_step _ _ _ _ _ H3).
  - destruct (Cairo1_roundtrip c H) as (m & H1 & H2 & H3). exists (mkPbClass (Some (PbClass_Cairo1 m)) 0). split; [|split].
    + unfold PbClass_from. erewrite bind_step by (apply expect_uint; by split). by rewrite bind_assoc, (bind_step _ _ _ _ _ H1).
    + split; [done|]. by split.
    + unfold ApiContractClass_try_from. cbn. by rewrite (bind_step _ _ _ _ _ H3).
Qed.

(** A class that is received: its parts are values of their types. *)
Definition received_class_ok (c : ApiContractClass) : Prop :=
  match c with
  | ApiContractClass_DeprecatedContractClass c => points_ok typed_DeprecatedEntryPoint (DeprecatedContractClass_entry_points_by_type c)
  | ApiContractClass_ContractClass c =>
      Forall is_felt (ContractClass_sierra_program c) /\ points_ok typed_EntryPoint (ContractClass_entry_points_by_type c) /\
      fits_string (ContractClass_abi c)
  end.

Lemma class_ok R m : fits_PbClass m -> (R -> regular_PbClass m) -> conv_ok R (ApiContractClass_try_from m) received_class_ok.
Proof.
  destruct m as [[[c|c]|] dom]; unfold fits_PbClass, regular_PbClass; cbn; intros [Hf _] Hr; [| |done]; unfold ApiContractClass_try_from; cbn.
  - unfold fits_PbCairo0Class, regular_PbCairo0Class in *. split_facts.
    eapply (conv_ok_bind _ _ _ (fun x => received_class_ok (ApiContractClass_DeprecatedContractClass x))); [|by intros; apply conv_ok_ret].
    unfold DeprecatedContractClass_try_from. do 3 (eapply conv_ok_bind; [by apply (insert_ok _ _ _ _ _ _ _ _ (DeprecatedEntryPoint_ok R))|intros ? ?]).
    by apply conv_ok_ret.
  - unfold fits_PbCairo1Class, regular_PbCairo1Class in *. split_facts.
    eapply (conv_ok_bind _ _ _ (fun x => received_class_ok (ApiContractClass_ContractClass x))); [|by intros; apply conv_ok_ret].
    unfold ContractClass_try_from. eapply conv_ok_bind; [by eauto with proto|]. intros prog Hprog.
    destruct (PbCairo1Class_entry_points c) as [ep|]; [|done]. eapply (conv_ok_bind _ _ _ (eq ep)); [done|]. intros ? <-.
    cbn [fits_option] in *. unfold fits_PbCairo1EntryPoints, regular_PbCairo1EntryPoints in *. split_facts.
    do 3 (eapply conv_ok_bind; [by apply (insert_ok _ _ _ _ _ _ _ _ (EntryPoint_ok R))|intros ? ?]). by apply conv_ok_ret.
Qed.
End ClassLaws.

(** ** Consensus messages *)

Section ConsensusLaws.
Context {F : FeltApi} {FS : FeltSpec} {TA : TransactionApi} (Hdefault : typed_ResourceBounds default_ResourceBounds).

Definition typed_Vote (v : Vote) : Prop :=
  in_range 64 (vote_height v) /\ is_felt (vote_block_hash v) /\ is_patricia_key (vote_voter v).

Definition typed_Proposal (p : Proposal Transaction) : Prop :=
  in_range 64 (proposal_height p) /\ is_patricia_key (proposal_proposer p) /\
  Forall typed_Transaction (proposal_transactions p) /\ is_felt (proposal_block_hash p).

Definition typed_ConsensusMessage (m : ConsensusMessage Transaction) : Prop :=
  match m with ConsensusMessage_Proposal p => typed_Proposal p | ConsensusMessage_Vote v => typed_Vote v end.

(** Votes arrive as they were sent; the transactions of a proposal as transactions do. *)
Definition received_message (m : ConsensusMessage Transaction) : ConsensusMessage Transaction :=
  match m with
  | ConsensusMessage_Proposal (mkProposal height proposer txs hash) =>
      ConsensusMessage_Proposal (mkProposal height proposer (received_Transaction <$> txs) hash)
  | ConsensusMessage_Vote v => ConsensusMessage_Vote v
  end.

Lemma collect_received {A B} (to : A -> B) (f : B -> Conv A) (g : A -> A) l :
  Forall (fun a => f (to a) tt = Done tt (g a)) l -> collect f (to <$> l) tt = Done tt (g <$> l).
Proof.
  induction 1 as [|a l Ha Hl IH]; [done|]. cbn [collect fmap list_fmap].
  rewrite (bind_step _ _ _ _ _ Ha), (bind_step _ _ _ _ _ IH). done.
Qed.

Lemma vote_type_roundtrip t : VoteType_try_from (vote_type_as_i32 t) tt = Done tt t.
Proof. by destruct t. Qed.

#[local] Hint Resolve vote_type_roundtrip : proto.

Lemma message_roundtrip m :
  typed_ConsensusMessage m -> ConsensusMessage_try_from (PbConsensusMessage_from m) tt = Done tt (received_message m).
Proof.
  destruct m as [[height proposer txs hash]|[t height hash voter]]; intros H; unfold ConsensusMessage_try_from; cbn.
  - destruct H as (H1 & H2 & H3 & H4). cbn in *. erewrite bind_step; [done|]. unfold Proposal_try_from. cbn.
    erewrite bind_step; [|apply collect_received; eapply Forall_impl; [exact H3|exact (Transaction_roundtrip Hdefault)]]. conv_steps.
  - destruct H as (H1 & H2 & H3). cbn in *. erewrite bind_step; [done|]. unfold Vote_try_from. cbn. conv_steps.
Qed.

Lemma message_fits m : typed_ConsensusMessage m -> fits_PbConsensusMessage (PbConsensusMessage_from m).
Proof.
  destruct m as [[height proposer txs hash]|[t height hash voter]]; intros H; unfold fits_PbConsensusMessage; cbn in *.
  - destruct H as (H1 & H2 & H3 & H4). unfold fits_PbProposal. fits_fields. cbn in *. apply Forall_fmap. eapply Forall_impl; [exact H3|].
    exact (Transaction_fits Hdefault).
  - destruct H as (H1 & H2 & H3). cbn in *. unfold fits_PbVote. fits_fields. destruct t; cbv; split; congruence.
Qed.

Definition received_message_ok (m : ConsensusMessage Transaction) : Prop := typed_ConsensusMessage m /\ received_message m = m.

Lemma received_list_id l : Forall received_ok l -> received_Transaction <$> l = l.
Proof. induction 1 as [|x l [_ Hx] Hl IH]; [done|]. cbn. by rewrite IH, received_Transaction_wire. Qed.

Lemma message_ok R m :
  fits_PbConsensusMessage m -> (R -> regular_PbConsensusMessage m) -> conv_ok R (ConsensusMessage_try_from m) received_message_ok.
Proof.
  destruct m as [[[p|v]|]]; intros Hf Hr; cbn in Hf, Hr; [| |done]; unfold ConsensusMessage_try_from; cbn.
  - eapply (conv_ok_bind _ _ _ (fun x => received_message_ok (ConsensusMessage_Proposal x))); [|by intros; apply conv_ok_ret].
    unfold fits_PbProposal, regular_PbProposal in *. split_facts. unfold Proposal_try_from.
    eapply conv_ok_bind; [by eapply collect_ok; [apply Transaction_ok|..]|]. intros txs Htxs. conv_fields. apply conv_ok_ret.
    split; cbn; [|by rewrite received_list_id]. split; [done|]. split; [done|]. split; [|done]. cbn.
    eapply Forall_impl; [exact Htxs|]. by intros tx [? _].
  - eapply (conv_ok_bind _ _ _ (fun x => received_message_ok (ConsensusMessage_Vote x))); [|by intros; apply conv_ok_ret].
    unfold fits_PbVote in *. split_facts. unfold Vote_try_from.
    eapply (conv_ok_bind _ _ _ (fun _ => True)); [unfold VoteType_try_from; by repeat case_cmp|]. intros t _. conv_fields. by apply conv_ok_ret.
Qed.
End ConsensusLaws.
