(* ===== verification/ProtoTheorems.v ===== *)
(** * What the peers exchange

    The conversions of [crates/papyrus_protobuf], end to end: what arrives of each
    kind of value that is sent, what a peer can make a node believe, and when a
    conversion panics. *)

From stdpp Require Import base gmap list strings fin_maps.
From Stdlib Require Import ZArith Lia.
From S2P Require Import Prelude StateMachine SingleHeightConsensus StorageTables StarknetTypes StorageTxn Header Serde ClientObjects P2pServer.
From S2P Require Import ProtoCommon ProtoSync ProtoTransaction ProtoLaws ProtoProps ProtoTxnProps ProtoClassProps.

#[local] Open Scope string_scope.
#[local] Open Scope Z_scope.

(** ** Sending and receiving *)

Section Wire.
Context {T A : Type} `{ProstMessage A}.

(** What [prost] promises for the message of [x]: it reads back what it wrote. *)
Definition prost_carries (from : T -> Conv A) (fits : A -> Prop) (x : T) : Prop :=
  forall m, from x tt = Done tt m -> fits m -> prost_decode (encode_to_vec m) = Some m.

(** What [prost] promises for received bytes: the fields are values of their types. *)
Definition prost_typed (fits : A -> Prop) (bs : list Z) : Prop := forall m, prost_decode bs = Some m -> fits m.

(** The value [x] is sent as bytes, and the conversion of the bytes ends with [r]. *)
Definition delivered (from : T -> Conv A) (try_from : A -> Conv T) (x : T) (r : res unit ProtobufConversionError T) : Prop :=
  exists bs, into_vec_u8 from x tt = Done tt bs /\ try_from_vec_u8 try_from bs tt = r.

Lemma delivered_of from try_from fits x m r :
  prost_carries from fits x -> from x tt = Done tt m -> fits m -> try_from m tt = r -> delivered from try_from x r.
Proof.
  intros Hp Hx Hm Hr. exists (encode_to_vec m). split; [unfold into_vec_u8; by rewrite (bind_step _ _ _ _ _ Hx)|].
  unfold try_from_vec_u8. by rewrite (Hp m Hx Hm).
Qed.

(** The message in the bytes, if there is one, is regular. *)
Definition regular_bytes (regular : A -> Prop) (bs : list Z) : Prop := forall m, prost_decode bs = Some m -> regular m.

Lemma received_of (try_from : A -> Conv T) (fits regular : A -> Prop) (P : T -> Prop) bs :
  (forall R m, fits m -> (R -> regular m) -> conv_ok R (try_from m) P) ->
  prost_typed fits bs -> conv_ok (regular_bytes regular bs) (try_from_vec_u8 try_from bs) P.
Proof.
  intros Hok Ht. unfold try_from_vec_u8. destruct (prost_decode bs) as [m|] eqn:E; [|done].
  eapply (conv_ok_bind _ _ _ (eq m)); [done|]. intros ? <-. apply Hok; [by apply Ht|]. intros HR. by apply HR.
Qed.
End Wire.

Section Headers.
Context {F : FeltApi} {FS : FeltSpec} `{!ProstMessage PbBlockHeadersResponse}.

(** The receiver keeps the commitment and the length of a state diff only together. *)
Definition received_header (h : BlockHeader) : BlockHeader := {|
  BlockHeader_block_hash := BlockHeader_block_hash h;
  BlockHeader_parent_hash := BlockHeader_parent_hash h;
  BlockHeader_block_number := BlockHeader_block_number h;
  BlockHeader_l1_gas_price := BlockHeader_l1_gas_price h;
  BlockHeader_l1_data_gas_price := BlockHeader_l1_data_gas_price h;
  BlockHeader_state_root := BlockHeader_state_root h;
  BlockHeader_sequencer := BlockHeader_sequencer h;
  BlockHeader_timestamp := BlockHeader_timestamp h;
  BlockHeader_l1_da_mode := BlockHeader_l1_da_mode h;
  BlockHeader_state_diff_commitment :=
    match BlockHeader_state_diff_length h with Some _ => BlockHeader_state_diff_commitment h | None => None end;
  BlockHeader_transaction_commitment := BlockHeader_transaction_commitment h;
  BlockHeader_event_commitment := BlockHeader_event_commitment h;
  BlockHeader_receipt_commitment := BlockHeader_receipt_commitment h;
  BlockHeader_state_diff_length :=
    match BlockHeader_state_diff_commitment h with Some _ => BlockHeader_state_diff_length h | None => None end;
  BlockHeader_n_transactions := BlockHeader_n_transactions h;
  BlockHeader_n_events := BlockHeader_n_events h;
  BlockHeader_starknet_version := BlockHeader_starknet_version h
|}.

Definition received_signed (s : SignedBlockHeader) : SignedBlockHeader :=
  mkSignedBlockHeader (received_header (SignedBlockHeader_block_header s)) (SignedBlockHeader_signatures s).

Lemma received_signed_message s : header_message (received_signed s) = header_message s.
Proof.
  unfold header_message, diff_commitment_of, received_signed, received_header. cbn.
  by destruct (BlockHeader_state_diff_commitment _), (BlockHeader_state_diff_length _).
Qed.

Lemma received_signed_typed s : typed_SignedBlockHeader s -> typed_SignedBlockHeader (received_signed s).
Proof.
  intros [H Hs]. split; [|done]. destruct H. constructor; cbn in *; try done.
  - by destruct (BlockHeader_state_diff_length _).
  - by destruct (BlockHeader_state_diff_commitment _).
Qed.

(** What the receiver of a header is told. *)
Definition header_result (s : SignedBlockHeader) : res unit ProtobufConversionError (DataOrFin SignedBlockHeader) :=
  let h := SignedBlockHeader_block_header s in
  match BlockHeader_transaction_commitment h, BlockHeader_event_commitment h with
  | Some _, Some _ => Done tt (Some (received_signed s))
  | None, _ => Fail tt (ProtobufConversionError_MissingField "SignedBlockHeader::transactions")
  | Some _, None => Fail tt (ProtobufConversionError_MissingField "SignedBlockHeader::events")
  end.

(** the header a peer sends arrives with every field unchanged when it has the
    commitments of its transactions and events (the commitment of the state diff
    travels only with its length); without one of them it is sent, and refused by
    the receiver. *)
Theorem headers_delivered (s : SignedBlockHeader) :
  typed_SignedBlockHeader s -> prost_carries PbBlockHeadersResponse_from fits_PbBlockHeadersResponse (Some s) ->
  delivered PbBlockHeadersResponse_from MaybeSignedBlockHeader_try_from (Some s) (header_result s) /\
  (committed (SignedBlockHeader_block_header s) -> received_signed s = s).
Proof.
  intros Hs Hp. split.
  - eapply delivered_of; [exact Hp| | |].
    + unfold PbBlockHeadersResponse_from. by rewrite (bind_step _ _ _ _ _ (SignedBlockHeader_into s Hs)).
    + by apply header_message_fits.
    + unfold MaybeSignedBlockHeader_try_from, header_result. cbn.
      destruct (BlockHeader_transaction_commitment _) as [tc|] eqn:Et; [destruct (BlockHeader_event_commitment _) as [ec|] eqn:Ee|].
      * rewrite <-received_signed_message. erewrite bind_step; [done|]. apply SignedBlockHeader_received; [by apply received_signed_typed|].
        constructor; cbn; [by eexists|by eexists|].
        by destruct (BlockHeader_state_diff_commitment _), (BlockHeader_state_diff_length _).
      * unfold bind at 1. rewrite header_without_events by (done || by eexists). done.
      * unfold bind at 1. by rewrite header_without_transactions.
  - intros [_ _ Hc]. destruct s as [h sigs]. unfold received_signed, received_header. cbn in *. f_equal.
    destruct h as [? ? ? ? ? ? ? ? ? sdc ? ? ? sdl ? ? ?]. cbn in *.
    destruct sdc, sdl; [done|by destruct (proj1 Hc) as [? [=]]|by destruct (proj2 Hc) as [? [=]]|done].
Qed.
End Headers.

Section Bodies.
Context {F : FeltApi} {FS : FeltSpec} {TA : TransactionApi} (Hdefault : typed_ResourceBounds default_ResourceBounds).

(** C27: a transaction with its output arrives as [received_pair] says: every field of the
    transaction is unchanged but those the protocol has no place for (the nonce of a
    declare V0, the version of an L1 handler, a deploy version over 32 bits, a
    missing resource bound), the output loses its events and the builtins without a
    counter; what has arrived once arrives unchanged from then on. *)
Theorem transactions_delivered `{!ProstMessage PbTransactionsResponse} (p : Transaction * TransactionOutput) :
  sendable_pair p -> prost_carries PbTransactionsResponse_from fits_PbTransactionsResponse (Some p) ->
  delivered PbTransactionsResponse_from MaybeTransaction_try_from (Some p) (Done tt (Some (received_pair p))) /\
  (wire_Transaction p.1 -> received_Transaction p.1 = p.1) /\
  received_pair (received_pair p) = received_pair p.
Proof.
  intros Hs Hp. split; [|split; [apply received_Transaction_wire|]].
  - destruct (pair_roundtrip Hdefault p Hs) as (m & H1 & H2 & H3). eapply delivered_of; [exact Hp| | |].
    + unfold PbTransactionsResponse_from. by rewrite (bind_step _ _ _ _ _ H1).
    + exact H2.
    + unfold MaybeTransaction_try_from. cbn. by rewrite (bind_step _ _ _ _ _ H3).
  - unfold received_pair. cbn. by rewrite received_Transaction_idem, received_TransactionOutput_idem.
Qed.
End Bodies.

Section Exact.
Context {F : FeltApi} {FS : FeltSpec}.

Lemma query_delivered {A} `{ProstMessage A} (wrap_in : option PbIteration -> A) (iteration : A -> option PbIteration)
    (fits : A -> Prop) name q :
  (forall o, iteration (wrap_in o) = o) -> (fits_PbIteration (PbIteration_from q) -> fits (wrap_in (Some (PbIteration_from q)))) ->
  typed_Query q -> prost_carries (fun q => ret (wrap_in (Some (PbIteration_from q)))) fits q ->
  delivered (fun q => ret (wrap_in (Some (PbIteration_from q))))
    (fun m => let! i := field_or_missing name (iteration m) in Query_try_from i) q (Done tt q).
Proof.
  intros Hi Hf Hq Hp. eapply delivered_of; [exact Hp|done|by apply Hf, Query_fits|]. rewrite Hi.
  rewrite (bind_step _ _ _ _ _ (field_present _ _)). by apply Query_roundtrip.
Qed.

(** The parts of a state diff, the events and the end of an answer arrive exactly as
    they were sent, and so do the queries that ask for headers, transactions, state
    diffs, classes and events. *)
Theorem diffs_events_and_queries_delivered
    `{!ProstMessage PbStateDiffsResponse} `{!ProstMessage PbEventsResponse} `{!ProstMessage PbBlockHeadersRequest}
    `{!ProstMessage PbTransactionsRequest} `{!ProstMessage PbStateDiffsRequest} `{!ProstMessage PbClassesRequest}
    `{!ProstMessage PbEventsRequest} (c : DataOrFin StateDiffChunk) (e : DataOrFin (Event * Z)) (q : Query) :
  typed_DataOrFin typed_StateDiffChunk c -> typed_DataOrFin typed_Event e -> typed_Query q ->
  prost_carries (fun c => ret (PbStateDiffsResponse_from c)) fits_PbStateDiffsResponse c ->
  prost_carries (fun e => ret (PbEventsResponse_from e)) fits_PbEventsResponse e ->
  prost_carries (fun q => ret (PbBlockHeadersRequest_from q)) fits_PbBlockHeadersRequest q ->
  prost_carries (fun q => ret (PbTransactionsRequest_from q)) fits_PbTransactionsRequest q ->
  prost_carries (fun q => ret (PbStateDiffsRequest_from q)) fits_PbStateDiffsRequest q ->
  prost_carries (fun q => ret (PbClassesRequest_from q)) fits_PbClassesRequest q ->
  prost_carries (fun q => ret (PbEventsRequest_from q)) fits_PbEventsRequest q ->
  delivered (fun c => ret (PbStateDiffsResponse_from c)) StateDiffChunk_try_from c (Done tt c) /\
  delivered (fun e => ret (PbEventsResponse_from e)) MaybeEvent_try_from e (Done tt e) /\
  delivered (fun q => ret (PbBlockHeadersRequest_from q)) HeaderQuery_try_from q (Done tt q) /\
  delivered (fun q => ret (PbTransactionsRequest_from q)) TransactionQuery_try_from q (Done tt q) /\
  delivered (fun q => ret (PbStateDiffsRequest_from q)) StateDiffQuery_try_from q (Done tt q) /\
  delivered (fun q => ret (PbClassesRequest_from q)) ClassQuery_try_from q (Done tt q) /\
  delivered (fun q => ret (PbEventsRequest_from q)) EventQuery_try_from q (Done tt q).
Proof.
  intros Hc He Hq P1 P2 P3 P4 P5 P6 P7. repeat match goal with |- _ /\ _ => split end.
  - eapply delivered_of; [exact P1|done|by apply chunk_fits|by apply chunk_roundtrip].
  - eapply delivered_of; [exact P2|done| |].
    + destruct e as [e|]; [by apply Event_fits|done].
    + destruct e as [e|]; [|done]. unfold MaybeEvent_try_from. cbn. by rewrite (bind_step _ _ _ _ _ (Event_roundtrip e He)).
  - by apply (query_delivered mkPbBlockHeadersRequest PbBlockHeadersRequest_iteration fits_PbBlockHeadersRequest).
  - by apply (query_delivered mkPbTransactionsRequest PbTransactionsRequest_iteration fits_PbTransactionsRequest).
  - by apply (query_delivered mkPbStateDiffsRequest PbStateDiffsRequest_iteration fits_PbStateDiffsRequest).
  - by apply (query_delivered mkPbClassesRequest PbClassesRequest_iteration fits_PbClassesRequest).
  - by apply (query_delivered mkPbEventsRequest PbEventsRequest_iteration fits_PbEventsRequest).
Qed.

(** The state diff that a message holds, as the older conversion makes it. *)
Definition diff_of_chunk (c : StateDiffChunk) : ThinStateDiff :=
  match c with
  | StateDiffChunk_ContractDiff d =>
      let a := ContractDiff_contract_address d in
      mkThinStateDiff (match ContractDiff_class_hash d with Some h => [(a, h)] | None => [] end)
        (match ContractDiff_storage_diffs d with [] => [] | l => [(a, l)] end) [] []
        (match ContractDiff_nonce d with Some n => [(a, n)] | None => [] end) []
  | StateDiffChunk_DeclaredClass d =>
      mkThinStateDiff [] [] [(DeclaredClass_class_hash d, DeclaredClass_compiled_class_hash d)] [] [] []
  | StateDiffChunk_DeprecatedDeclaredClass d => mkThinStateDiff [] [] [] [DeprecatedDeclaredClass_class_hash d] [] []
  end.

Lemma indexmap_of_cons {V} (e : Z * V) l : indexmap_of (e :: l) <> [].
Proof.
  unfold indexmap_of. cbn [foldl]. assert (Hne : (indexmap_insert ([] : list (Z * V)) e.1 e.2).1 <> []) by done. revert Hne.
  generalize (indexmap_insert [] e.1 e.2).1 as m. induction l as [|x l IH]; intros m Hm; [done|]. cbn [foldl]. apply IH.
  destruct m as [|[k v] m]; [done|]. cbn. destruct (k =? x.1); [done|]. by destruct (indexmap_insert m x.1 x.2).
Qed.

Lemma collect_cons_Done {A B} (f : A -> Conv B) x l s s' ys : collect f (x :: l) s = Done s' ys -> exists y ys', ys = y :: ys'.
Proof. cbn [collect]. intros H. inv_run. by eexists _, _. Qed.

(** Run the steps that are known to return, in a conversion that may do others first. *)
#[local] Ltac same_steps :=
  repeat match goal with s : unit |- _ => destruct s end;
  repeat match goal with H : ?m tt = Done tt _ |- context [bind ?m _ tt] => rewrite (bind_step _ _ _ _ _ H) end.

Lemma map_transpose_pair {A B C} (f : A -> Conv B) (g : B -> C) o b :
  map_transpose f o tt = Done tt b -> map_transpose (fun a => let! x := f a in ret (g x)) o tt = Done tt (g <$> b).
Proof.
  destruct o as [a|]; unfold map_transpose; intros H; [|unfold ret in H; by simplify_eq]. inv_run. same_steps. rewrite bind_assoc. same_steps. done.
Qed.

Lemma map_transpose_pair_inv {A B C} (f : A -> Conv B) (g : B -> C) o c :
  map_transpose (fun a => let! x := f a in ret (g x)) o tt = Done tt c -> exists b, map_transpose f o tt = Done tt b /\ c = g <$> b.
Proof.
  destruct o as [a|]; unfold map_transpose; intros H; [|unfold ret in H; simplify_eq; by exists None]. inv_run. same_steps. by eexists.
Qed.

Lemma contract_diff_thin m d :
  ContractDiff_try_from m tt = Done tt d ->
  ThinStateDiff_of_contract m tt = Done tt (diff_of_chunk (StateDiffChunk_ContractDiff d)).
Proof.
  unfold ContractDiff_try_from, ThinStateDiff_of_contract. intros H. inv_run. same_steps.
  erewrite bind_step by (apply (map_transpose_pair StarkHash_try_from (fun h => [(_, h)])); eassumption).
  assert (Hn : forall x : Z, map_transpose (fun nonce => let! nonce := Felt_try_from nonce in ret [(x, nonce)]) (PbContractDiff_nonce m) tt =
    Done tt ((fun n => [(x, n)]) <$> a1)) by (intros x; by apply (map_transpose_pair Felt_try_from (fun n => [(x, n)]))).
  cbn [diff_of_chunk ContractDiff_contract_address ContractDiff_class_hash ContractDiff_nonce ContractDiff_storage_diffs].
  destruct (PbContractDiff_values m) as [|v vs].
  - cbn in H3. unfold ret in H3. simplify_eq. rewrite bind_ret, (bind_step _ _ _ _ _ (Hn _)). by destruct a0, a1.
  - rewrite bind_assoc. same_steps. rewrite bind_ret, (bind_step _ _ _ _ _ (Hn _)). destruct (collect_cons_Done _ _ _ _ _ _ H3) as (y & ys & ->).
    pose proof (indexmap_of_cons y ys). destruct (indexmap_of (y :: ys)); [done|]. by destruct a0, a1.
Qed.

Lemma thin_contract_diff m t :
  ThinStateDiff_of_contract m tt = Done tt t -> exists d, ContractDiff_try_from m tt = Done tt d.
Proof.
  unfold ContractDiff_try_from, ThinStateDiff_of_contract. intros H. inv_run.
  repeat match goal with s : unit |- _ => destruct s end.
  match goal with H : map_transpose _ (PbContractDiff_class_hash m) _ = _ |- _ =>
    apply (map_transpose_pair_inv StarkHash_try_from (fun h => [(_, h)])) in H as (hash & H & _) end.
  match goal with H : map_transpose _ (PbContractDiff_nonce m) _ = _ |- _ =>
    apply (map_transpose_pair_inv Felt_try_from (fun n => [(_, n)])) in H as (nonce & H & _) end.
  same_steps. destruct (PbContractDiff_values m) as [|v vs]; [by eexists|]. inv_run. same_steps. by eexists.
Qed.

Lemma thin_declared m :
  ThinStateDiff_of_declared m tt =
  match PbDeclaredClass_compiled_class_hash m with
  | Some _ => (let! c := DeclaredClass_try_from m in ret (diff_of_chunk (StateDiffChunk_DeclaredClass c))) tt
  | None => (let! c := DeprecatedDeclaredClass_try_from m in ret (diff_of_chunk (StateDiffChunk_DeprecatedDeclaredClass c))) tt
  end.
Proof.
  destruct m as [h [ch|]]; unfold ThinStateDiff_of_declared, DeclaredClass_try_from, DeprecatedDeclaredClass_try_from; cbn.
  - rewrite bind_assoc. unfold bind at 1 3. destruct (hash_field _ h tt) as [[] z|[] e|]; [|done|done].
    unfold hash_field. rewrite !bind_assoc, (bind_step _ _ _ _ _ (field_present _ _)). unfold bind. by destruct (StarkHash_try_from ch tt).
  - rewrite bind_assoc. done.
Qed.

(** the older conversion of an answer, into a whole state diff, accepts exactly the
    messages that the conversion into a part of a state diff accepts, and makes of
    them the diff of that part. *)
Theorem thin_diff_conversion (m : PbStateDiffsResponse) :
  (forall c, StateDiffChunk_try_from m tt = Done tt c -> MaybeThinStateDiff_try_from m tt = Done tt (diff_of_chunk <$> c)) /\
  (forall t, MaybeThinStateDiff_try_from m tt = Done tt t ->
   exists c, StateDiffChunk_try_from m tt = Done tt c /\ t = diff_of_chunk <$> c).
Proof.
  assert (H1 : forall c, StateDiffChunk_try_from m tt = Done tt c -> MaybeThinStateDiff_try_from m tt = Done tt (diff_of_chunk <$> c)).
  { destruct m as [[[d|d|]|]]; intros c Hc; unfold StateDiffChunk_try_from in Hc; unfold MaybeThinStateDiff_try_from; cbn in *.
    - inv_run. same_steps. by rewrite (bind_step _ _ _ _ _ (contract_diff_thin _ _ H)).
    - unfold bind at 1. rewrite thin_declared. destruct (PbDeclaredClass_compiled_class_hash d); inv_run; same_steps; done.
    - unfold ret in *. by simplify_eq.
    - done. }
  split; [done|]. intros t Ht. enough (exists c, StateDiffChunk_try_from m tt = Done tt c) as [c Hc].
  { exists c. split; [done|]. specialize (H1 c Hc). congruence. }
  destruct m as [[[d|d|]|]]; unfold MaybeThinStateDiff_try_from in Ht; unfold StateDiffChunk_try_from; cbn in *.
  - inv_run. same_steps. destruct (thin_contract_diff _ _ H) as [d' Hd]. same_steps. by eexists.
  - inv_run. same_steps. rewrite thin_declared in H. destruct (PbDeclaredClass_compiled_class_hash d); inv_run; same_steps; by eexists.
  - by eexists.
  - done.
Qed.
End Exact.

Section ClassesAndConsensus.
Context {F : FeltApi} {FS : FeltSpec} {TA : TransactionApi} {X : ExternalTypes} {PA : ProgramApi}.
Context (Hdefault : typed_ResourceBounds default_ResourceBounds).

(** A Cairo 1 class of at least six felts arrives with its program, its ABI and the
    entry points of every type that has some; of a Cairo 0 class only the entry
    points arrive. *)
Theorem classes_delivered `{!ProstMessage PbClassesResponse} (c : ApiContractClass) :
  sendable_class c -> prost_carries PbClassesResponse_from fits_PbClassesResponse (Some c) ->
  delivered PbClassesResponse_from MaybeClass_try_from (Some c) (Done tt (Some (received_class c))).
Proof.
  intros Hc Hp. destruct (class_roundtrip c Hc) as (m & H1 & H2 & H3). eapply delivered_of; [exact Hp| | |].
  - unfold PbClassesResponse_from. by rewrite (bind_step _ _ _ _ _ H1).
  - exact H2.
  - unfold MaybeClass_try_from. cbn. by rewrite (bind_step _ _ _ _ _ H3).
Qed.

(** votes arrive exactly as they were sent, proposals with their transactions as
    [received_Transaction] says; what a validator receives it can send on
    unchanged, so that every validator sees the same proposal. *)
Theorem consensus_messages_delivered `{!ProstMessage PbConsensusMessage} (m : ConsensusMessage Transaction) :
  typed_ConsensusMessage m ->
  prost_carries (fun m => ret (PbConsensusMessage_from m)) fits_PbConsensusMessage m ->
  delivered (fun m => ret (PbConsensusMessage_from m)) ConsensusMessage_try_from m (Done tt (received_message m)) /\
  message_height (received_message m) = message_height m /\
  received_message (received_message m) = received_message m.
Proof.
  intros Hm Hp. split; [|split].
  - eapply delivered_of; [exact Hp|done|by apply message_fits|by apply message_roundtrip].
  - by destruct m as [[]|].
  - destruct m as [[]|]; [|done]. cbn. rewrite <-list_fmap_compose. do 2 f_equal. apply list_fmap_ext. intros i tx _. apply received_Transaction_idem.
Qed.
End ClassesAndConsensus.

(** ** Received values *)

Section Received.
Context {F : FeltApi} {FS : FeltSpec} {TA : TransactionApi} {X : ExternalTypes} {PA : ProgramApi}.
Context `{!ProstMessage PbBlockHeadersResponse} `{!ProstMessage PbTransactionsResponse} `{!ProstMessage PbStateDiffsResponse}.
Context `{!ProstMessage PbClassesResponse} `{!ProstMessage PbEventsResponse} `{!ProstMessage PbConsensusMessage}.

Definition received_header_ok (s : SignedBlockHeader) : Prop :=
  typed_SignedBlockHeader s /\ committed (SignedBlockHeader_block_header s).

Lemma conv_ok_and {A} R (m : Conv A) (P Q : A -> Prop) :
  conv_ok R m P -> (forall s a, m tt = Done s a -> Q a) -> conv_ok R m (fun a => P a /\ Q a).
Proof. unfold conv_ok. intros HP HQ. destruct (m tt) as [s a|s e|] eqn:E; [|done|done]. split; [done|]. by eapply HQ. Qed.

Lemma header_response_ok R m :
  fits_PbBlockHeadersResponse m -> (R -> regular_PbBlockHeadersResponse m) ->
  conv_ok R (MaybeSignedBlockHeader_try_from m) (typed_DataOrFin received_header_ok).
Proof.
  destruct m as [[[h|]|]]; intros Hf Hr; [|done|done]. unfold MaybeSignedBlockHeader_try_from. cbn in *.
  eapply conv_ok_bind; [apply (conv_ok_and _ _ _ (fun s => committed (SignedBlockHeader_block_header s)) (SignedBlockHeader_ok R h Hf Hr))|].
  - intros s a Ha. by eapply SignedBlockHeader_committed.
  - intros s Hs. by apply conv_ok_ret.
Qed.

Definition received_pair_ok (p : Transaction * TransactionOutput) : Prop := received_ok p.1 /\ received_output_ok p.2.

Lemma transaction_response_ok R m :
  fits_PbTransactionsResponse m -> (R -> regular_PbTransactionsResponse m) ->
  conv_ok R (MaybeTransaction_try_from m) (typed_DataOrFin received_pair_ok).
Proof.
  destruct m as [[[t|]|]]; intros Hf Hr; [|done|done]. unfold MaybeTransaction_try_from. cbn in *.
  eapply conv_ok_bind; [by apply pair_ok|]. intros p Hp. by apply conv_ok_ret.
Qed.

Lemma class_response_ok R m :
  fits_PbClassesResponse m -> (R -> regular_PbClassesResponse m) ->
  conv_ok R (MaybeClass_try_from m) (typed_DataOrFin received_class_ok).
Proof.
  destruct m as [[[c|]|]]; intros Hf Hr; [|done|done]. unfold MaybeClass_try_from. cbn in *.
  eapply conv_ok_bind; [by apply class_ok|]. intros c' Hc. by apply conv_ok_ret.
Qed.

Lemma event_response_ok R m :
  fits_PbEventsResponse m -> (R -> regular_PbEventsResponse m) -> conv_ok R (MaybeEvent_try_from m) (typed_DataOrFin typed_Event).
Proof.
  destruct m as [[[e|]|]]; intros Hf Hr; [|done|done]. unfold MaybeEvent_try_from. cbn in *.
  eapply conv_ok_bind; [by apply Event_ok|]. intros e' He. by apply conv_ok_ret.
Qed.

(** a conversion of received bytes panics only for messages with a field element that
    does not have 32 bytes, or with a message to L1 whose sender is not an address;
    all other malformed messages are errors. *)
Theorem conversions_do_not_panic (bs : list Z) :
  (prost_typed fits_PbBlockHeadersResponse bs -> regular_bytes regular_PbBlockHeadersResponse bs ->
     try_from_vec_u8 MaybeSignedBlockHeader_try_from bs tt <> Panic) /\
  (prost_typed fits_PbTransactionsResponse bs -> regular_bytes regular_PbTransactionsResponse bs ->
     try_from_vec_u8 MaybeTransaction_try_from bs tt <> Panic) /\
  (prost_typed fits_PbStateDiffsResponse bs -> regular_bytes regular_PbStateDiffsResponse bs ->
     try_from_vec_u8 StateDiffChunk_try_from bs tt <> Panic) /\
  (prost_typed fits_PbClassesResponse bs -> regular_bytes regular_PbClassesResponse bs ->
     try_from_vec_u8 MaybeClass_try_from bs tt <> Panic) /\
  (prost_typed fits_PbEventsResponse bs -> regular_bytes regular_PbEventsResponse bs ->
     try_from_vec_u8 MaybeEvent_try_from bs tt <> Panic) /\
  (prost_typed fits_PbConsensusMessage bs -> regular_bytes regular_PbConsensusMessage bs ->
     try_from_vec_u8 ConsensusMessage_try_from bs tt <> Panic).
Proof.
  repeat match goal with |- _ /\ _ => split end; intros Ht; eapply conv_ok_not_Panic.
  - exact (received_of _ _ _ _ bs header_response_ok Ht).
  - exact (received_of _ _ _ _ bs transaction_response_ok Ht).
  - exact (received_of _ _ _ _ bs chunk_ok Ht).
  - exact (received_of _ _ _ _ bs class_response_ok Ht).
  - exact (received_of _ _ _ _ bs event_response_ok Ht).
  - exact (received_of _ _ _ _ bs message_ok Ht).
Qed.
End Received.

(** ** What cannot be sent *)

Section Sent.
Context {F : FeltApi}.

(** The counters that the protocol carries fit its 32 bits. *)
Definition counters_fit (r : ExecutionResources) : Prop :=
  Forall (fun b => in_range 32 (counter_of (ExecutionResources_builtin_instance_counter r) b)) sent_builtins /\
  in_range 32 (ExecutionResources_steps r) /\ in_range 32 (ExecutionResources_memory_holes r).

Definition output_resources (o : TransactionOutput) : ExecutionResources :=
  match o with
  | TransactionOutput_Declare x => DeclareTransactionOutput_execution_resources x
  | TransactionOutput_Deploy x => DeployTransactionOutput_execution_resources x
  | TransactionOutput_DeployAccount x => DeployAccountTransactionOutput_execution_resources x
  | TransactionOutput_Invoke x => InvokeTransactionOutput_execution_resources x
  | TransactionOutput_L1Handler x => L1HandlerTransactionOutput_execution_resources x
  end.

(** [m] returns when [P] holds, and panics when it does not. *)
Definition returns_iff {A} (m : Conv A) (P : Prop) : Prop := (P /\ exists a, m tt = Done tt a) \/ (~ P /\ m tt = Panic).

Lemma returns_iff_expect w z : returns_iff (expect (uint_try_from w z)) (in_range w z).
Proof.
  unfold returns_iff. destruct (uint_try_from w z) as [n|] eqn:E.
  - left. apply uint_try_from_range in E as [-> Hz]. split; [done|]. by eexists.
  - right. split; [|done]. intros Hz. by rewrite uint_try_from_Some in E.
Qed.

Lemma returns_iff_bind {A B} (m : Conv A) (k : A -> Conv B) P Q :
  returns_iff m P -> (forall a, m tt = Done tt a -> returns_iff (k a) Q) -> returns_iff (bind m k) (P /\ Q).
Proof.
  intros [[HP [a Ha]]|[HP Ha]] Hk; unfold returns_iff, bind; rewrite Ha.
  - destruct (Hk a Ha) as [[HQ [b Hb]]|[HQ Hb]]; [left|right]; rewrite Hb; naive_solver.
  - right. naive_solver.
Qed.

Lemma returns_iff_ret {A} (a : A) : returns_iff (ret a) True.
Proof. left. split; [done|]. by eexists. Qed.

Lemma returns_iff_equiv {A} (m : Conv A) P Q : returns_iff m P -> (P <-> Q) -> returns_iff m Q.
Proof. unfold returns_iff. naive_solver. Qed.

Lemma resources_returns r : returns_iff (PbExecutionResources_from r) (counters_fit r).
Proof.
  eapply returns_iff_equiv.
  - unfold PbExecutionResources_from, PbBuiltinCounter_from, builtin_u32. eapply returns_iff_bind.
    + do 7 (eapply returns_iff_bind; [apply returns_iff_expect|intros ? _]). apply returns_iff_ret.
    + intros ? _. do 2 (eapply returns_iff_bind; [apply returns_iff_expect|intros ? _]). apply returns_iff_ret.
  - unfold counters_fit, sent_builtins. rewrite !Forall_cons, Forall_nil. unfold counter_of. tauto.
Qed.

Lemma common_returns fee msgs res status :
  returns_iff (create_proto_receipt_common_from_txn_output_fields fee msgs res status) (counters_fit res).
Proof.
  eapply returns_iff_equiv; [eapply returns_iff_bind; [apply resources_returns|intros; apply returns_iff_ret]|]. tauto.
Qed.

(** sending an output panics exactly when one of its counters (steps, memory holes or
    a builtin of the protocol) does not fit 32 bits; the other builtins are dropped,
    whatever their value. *)
Theorem receipt_panics_iff (o : TransactionOutput) :
  (PbReceipt_from o tt = Panic <-> ~ counters_fit (output_resources o)) /\
  ((exists r, PbReceipt_from o tt = Done tt r) <-> counters_fit (output_resources o)).
Proof.
  assert (H : returns_iff (PbReceipt_from o) (counters_fit (output_resources o))).
  { eapply returns_iff_equiv; [|apply and_True].
    destruct o as [x|x|x|x|x]; cbn [PbReceipt_from output_resources]; (eapply returns_iff_bind; [|intros; apply returns_iff_ret]);
      (eapply returns_iff_equiv; [|apply and_True]); (eapply returns_iff_bind; [apply common_returns|intros; apply returns_iff_ret]). }
  destruct H as [[H [r Hr]]|[H Hr]]; rewrite Hr; split; split; try done; try by eexists. intros [r [=]].
Qed.
End Sent.
