(* ===== verification/RpcConvert.v ===== *)
(** * The objects of the JSON-RPC server

    The types of [crates/papyrus_rpc/src/v0_7/] ([transaction.rs], [block.rs],
    [state.rs], [broadcasted_transaction.rs], [write_api_result.rs]), of
    [crates/papyrus_rpc/src/api.rs] and [syncing_state.rs], and of the writer of the
    gateway ([crates/starknet_client/src/writer/objects/] with [starknet_error.rs]).

    A type that has the name of a type of the storage has the prefix [Rpc], a type
    of the writer that has the name of one of the server the prefix [Writer]. The
    attributes of serde are the JSON the types are printed as, which is not
    modelled. *)

From stdpp Require Import base gmap list strings fin_maps.
From Stdlib Require Import ZArith Lia.
From S2P Require Import Prelude StorageTables StarknetTypes StorageTxn Header ClientObjects ProtoCommon ProtoTransaction.

(** ** Transactions *)

Inductive TransactionVersion0 : Type :=
| TransactionVersion0_Version0
| TransactionVersion0_Version0OnlyQuery.

Inductive TransactionVersion1 : Type :=
| TransactionVersion1_Version1
| TransactionVersion1_Version1OnlyQuery.

Inductive TransactionVersion2 : Type :=
| TransactionVersion2_Version2
| TransactionVersion2_Version2OnlyQuery.

Inductive TransactionVersion3 : Type :=
| TransactionVersion3_Version3
| TransactionVersion3_Version3OnlyQuery.

Record RpcDeclareTransactionV0 : Type := mkRpcDeclareTransactionV0 {
  RpcDeclareTransactionV0_class_hash : ClassHash;
  RpcDeclareTransactionV0_sender_address : Z;
  RpcDeclareTransactionV0_nonce : Nonce;
  RpcDeclareTransactionV0_max_fee : Fee;
  RpcDeclareTransactionV0_version : TransactionVersion0;
  RpcDeclareTransactionV0_signature : TransactionSignature
}.

Record RpcDeclareTransactionV1 : Type := mkRpcDeclareTransactionV1 {
  RpcDeclareTransactionV1_class_hash : ClassHash;
  RpcDeclareTransactionV1_sender_address : Z;
  RpcDeclareTransactionV1_nonce : Nonce;
  RpcDeclareTransactionV1_max_fee : Fee;
  RpcDeclareTransactionV1_version : TransactionVersion1;
  RpcDeclareTransactionV1_signature : TransactionSignature
}.

Record RpcDeclareTransactionV2 : Type := mkRpcDeclareTransactionV2 {
  RpcDeclareTransactionV2_class_hash : ClassHash;
  RpcDeclareTransactionV2_compiled_class_hash : CompiledClassHash;
  RpcDeclareTransactionV2_sender_address : Z;
  RpcDeclareTransactionV2_nonce : Nonce;
  RpcDeclareTransactionV2_max_fee : Fee;
  RpcDeclareTransactionV2_version : TransactionVersion2;
  RpcDeclareTransactionV2_signature : TransactionSignature
}.

Record RpcResourceBoundsMapping : Type := mkRpcResourceBoundsMapping {
  RpcResourceBoundsMapping_l1_gas : ResourceBounds;
  RpcResourceBoundsMapping_l2_gas : ResourceBounds
}.

Record RpcDeclareTransactionV3 : Type := mkRpcDeclareTransactionV3 {
  RpcDeclareTransactionV3_resource_bounds : RpcResourceBoundsMapping;
  RpcDeclareTransactionV3_tip : Tip;
  RpcDeclareTransactionV3_signature : TransactionSignature;
  RpcDeclareTransactionV3_nonce : Nonce;
  RpcDeclareTransactionV3_class_hash : ClassHash;
  RpcDeclareTransactionV3_compiled_class_hash : CompiledClassHash;
  RpcDeclareTransactionV3_sender_address : Z;
  RpcDeclareTransactionV3_nonce_data_availability_mode : DataAvailabilityMode;
  RpcDeclareTransactionV3_fee_data_availability_mode : DataAvailabilityMode;
  RpcDeclareTransactionV3_paymaster_data : PaymasterData;
  RpcDeclareTransactionV3_account_deployment_data : AccountDeploymentData;
  RpcDeclareTransactionV3_version : TransactionVersion3
}.

Inductive RpcDeclareTransaction : Type :=
| RpcDeclareTransaction_Version0 (value : RpcDeclareTransactionV0)
| RpcDeclareTransaction_Version1 (value : RpcDeclareTransactionV1)
| RpcDeclareTransaction_Version2 (value : RpcDeclareTransactionV2)
| RpcDeclareTransaction_Version3 (value : RpcDeclareTransactionV3).

Record RpcDeployAccountTransactionV1 : Type := mkRpcDeployAccountTransactionV1 {
  RpcDeployAccountTransactionV1_max_fee : Fee;
  RpcDeployAccountTransactionV1_signature : TransactionSignature;
  RpcDeployAccountTransactionV1_nonce : Nonce;
  RpcDeployAccountTransactionV1_class_hash : ClassHash;
  RpcDeployAccountTransactionV1_contract_address_salt : ContractAddressSalt;
  RpcDeployAccountTransactionV1_constructor_calldata : Calldata;
  RpcDeployAccountTransactionV1_version : TransactionVersion1
}.

Record RpcDeployAccountTransactionV3 : Type := mkRpcDeployAccountTransactionV3 {
  RpcDeployAccountTransactionV3_signature : TransactionSignature;
  RpcDeployAccountTransactionV3_nonce : Nonce;
  RpcDeployAccountTransactionV3_class_hash : ClassHash;
  RpcDeployAccountTransactionV3_contract_address_salt : ContractAddressSalt;
  RpcDeployAccountTransactionV3_constructor_calldata : Calldata;
  RpcDeployAccountTransactionV3_version : TransactionVersion3;
  RpcDeployAccountTransactionV3_resource_bounds : RpcResourceBoundsMapping;
  RpcDeployAccountTransactionV3_tip : Tip;
  RpcDeployAccountTransactionV3_paymaster_data : PaymasterData;
  RpcDeployAccountTransactionV3_nonce_data_availability_mode : DataAvailabilityMode;
  RpcDeployAccountTransactionV3_fee_data_availability_mode : DataAvailabilityMode
}.

Inductive RpcDeployAccountTransaction : Type :=
| RpcDeployAccountTransaction_Version1 (value : RpcDeployAccountTransactionV1)
| RpcDeployAccountTransaction_Version3 (value : RpcDeployAccountTransactionV3).

Record RpcInvokeTransactionV0 : Type := mkRpcInvokeTransactionV0 {
  RpcInvokeTransactionV0_max_fee : Fee;
  RpcInvokeTransactionV0_version : TransactionVersion0;
  RpcInvokeTransactionV0_signature : TransactionSignature;
  RpcInvokeTransactionV0_contract_address : Z;
  RpcInvokeTransactionV0_entry_point_selector : EntryPointSelector;
  RpcInvokeTransactionV0_calldata : Calldata
}.

Record RpcInvokeTransactionV1 : Type := mkRpcInvokeTransactionV1 {
  RpcInvokeTransactionV1_max_fee : Fee;
  RpcInvokeTransactionV1_version : TransactionVersion1;
  RpcInvokeTransactionV1_signature : TransactionSignature;
  RpcInvokeTransactionV1_nonce : Nonce;
  RpcInvokeTransactionV1_sender_address : Z;
  RpcInvokeTransactionV1_calldata : Calldata
}.

Record RpcInvokeTransactionV3 : Type := mkRpcInvokeTransactionV3 {
  RpcInvokeTransactionV3_sender_address : Z;
  RpcInvokeTransactionV3_calldata : Calldata;
  RpcInvokeTransactionV3_version : TransactionVersion3;
  RpcInvokeTransactionV3_signature : TransactionSignature;
  RpcInvokeTransactionV3_nonce : Nonce;
  RpcInvokeTransactionV3_resource_bounds : RpcResourceBoundsMapping;
  RpcInvokeTransactionV3_tip : Tip;
  RpcInvokeTransactionV3_paymaster_data : PaymasterData;
  RpcInvokeTransactionV3_account_deployment_data : AccountDeploymentData;
  RpcInvokeTransactionV3_nonce_data_availability_mode : DataAvailabilityMode;
  RpcInvokeTransactionV3_fee_data_availability_mode : DataAvailabilityMode
}.

Inductive RpcInvokeTransaction : Type :=
| RpcInvokeTransaction_Version0 (value : RpcInvokeTransactionV0)
| RpcInvokeTransaction_Version1 (value : RpcInvokeTransactionV1)
| RpcInvokeTransaction_Version3 (value : RpcInvokeTransactionV3).

Inductive RpcTransaction : Type :=
| RpcTransaction_Declare (value : RpcDeclareTransaction)
| RpcTransaction_DeployAccount (value : RpcDeployAccountTransaction)
| RpcTransaction_Deploy (value : DeployTransaction)
| RpcTransaction_Invoke (value : RpcInvokeTransaction)
| RpcTransaction_L1Handler (value : L1HandlerTransaction).

Record TransactionWithHash : Type := mkTransactionWithHash {
  TransactionWithHash_transaction_hash : TransactionHash;
  TransactionWithHash_transaction : RpcTransaction
}.

(** ** Receipts *)

Inductive TransactionFinalityStatus : Type :=
| TransactionFinalityStatus_AcceptedOnL2
| TransactionFinalityStatus_AcceptedOnL1.

Record TransactionStatus : Type := mkTransactionStatus {
  TransactionStatus_finality_status : TransactionFinalityStatus;
  TransactionStatus_execution_status : TransactionExecutionStatus
}.

Inductive PendingTransactionFinalityStatus : Type :=
| PendingTransactionFinalityStatus_AcceptedOnL2.

Inductive RpcBuiltin : Type :=
| RpcBuiltin_RangeCheck
| RpcBuiltin_Pedersen
| RpcBuiltin_Poseidon
| RpcBuiltin_EcOp
| RpcBuiltin_Ecdsa
| RpcBuiltin_Bitwise
| RpcBuiltin_Keccak
| RpcBuiltin_SegmentArena.

#[global] Instance RpcBuiltin_eq_dec : EqDecision RpcBuiltin.
Proof. solve_decision. Defined.
#[global] Instance RpcBuiltin_countable : Countable RpcBuiltin.
Proof.
  refine (inj_countable' (fun x => match x with | RpcBuiltin_RangeCheck => 0%nat | RpcBuiltin_Pedersen => 1%nat | RpcBuiltin_Poseidon => 2%nat | RpcBuiltin_EcOp => 3%nat | RpcBuiltin_Ecdsa => 4%nat | RpcBuiltin_Bitwise => 5%nat | RpcBuiltin_Keccak => 6%nat | RpcBuiltin_SegmentArena => 7%nat end)
            (fun n => match n with | 0%nat => RpcBuiltin_RangeCheck | 1%nat => RpcBuiltin_Pedersen | 2%nat => RpcBuiltin_Poseidon | 3%nat => RpcBuiltin_EcOp | 4%nat => RpcBuiltin_Ecdsa | 5%nat => RpcBuiltin_Bitwise | 6%nat => RpcBuiltin_Keccak | _ => RpcBuiltin_SegmentArena end) _); by intros [].
Defined.

Record ComputationResources : Type := mkComputationResources {
  ComputationResources_steps : Z;
  ComputationResources_builtin_instance_counter : gmap RpcBuiltin Z;
  ComputationResources_memory_holes : option Z
}.

Record DataAvailabilityResources : Type := mkDataAvailabilityResources {
  DataAvailabilityResources_l1_gas : Z;
  DataAvailabilityResources_l1_data_gas : Z
}.

Record RpcExecutionResources : Type := mkRpcExecutionResources {
  RpcExecutionResources_computation_resources : ComputationResources;
  RpcExecutionResources_data_availability : DataAvailabilityResources
}.

(** [papyrus_execution::objects::PriceUnit]. *)
Inductive PriceUnit : Type :=
| PriceUnit_Wei
| PriceUnit_Fri.

Record FeePayment : Type := mkFeePayment {
  FeePayment_amount : Fee;
  FeePayment_unit : PriceUnit
}.

(** The bytes of a Keccak hash. *)
Abbreviation L1L2MsgHash := (list Z) (only parsing).

Record RpcDeclareTransactionOutput : Type := mkRpcDeclareTransactionOutput {
  RpcDeclareTransactionOutput_actual_fee : FeePayment;
  RpcDeclareTransactionOutput_messages_sent : list MessageToL1;
  RpcDeclareTransactionOutput_events : list Event;
  RpcDeclareTransactionOutput_execution_status : TransactionExecutionStatus;
  RpcDeclareTransactionOutput_execution_resources : RpcExecutionResources
}.

Record RpcDeployAccountTransactionOutput : Type := mkRpcDeployAccountTransactionOutput {
  RpcDeployAccountTransactionOutput_actual_fee : FeePayment;
  RpcDeployAccountTransactionOutput_messages_sent : list MessageToL1;
  RpcDeployAccountTransactionOutput_events : list Event;
  RpcDeployAccountTransactionOutput_contract_address : Z;
  RpcDeployAccountTransactionOutput_execution_status : TransactionExecutionStatus;
  RpcDeployAccountTransactionOutput_execution_resources : RpcExecutionResources
}.

Record RpcDeployTransactionOutput : Type := mkRpcDeployTransactionOutput {
  RpcDeployTransactionOutput_actual_fee : FeePayment;
  RpcDeployTransactionOutput_messages_sent : list MessageToL1;
  RpcDeployTransactionOutput_events : list Event;
  RpcDeployTransactionOutput_contract_address : Z;
  RpcDeployTransactionOutput_execution_status : TransactionExecutionStatus;
  RpcDeployTransactionOutput_execution_resources : RpcExecutionResources
}.

Record RpcInvokeTransactionOutput : Type := mkRpcInvokeTransactionOutput {
  RpcInvokeTransactionOutput_actual_fee : FeePayment;
  RpcInvokeTransactionOutput_messages_sent : list MessageToL1;
  RpcInvokeTransactionOutput_events : list Event;
  RpcInvokeTransactionOutput_execution_status : TransactionExecutionStatus;
  RpcInvokeTransactionOutput_execution_resources : RpcExecutionResources
}.

Record RpcL1HandlerTransactionOutput : Type := mkRpcL1HandlerTransactionOutput {
  RpcL1HandlerTransactionOutput_actual_fee : FeePayment;
  RpcL1HandlerTransactionOutput_messages_sent : list MessageToL1;
  RpcL1HandlerTransactionOutput_events : list Event;
  RpcL1HandlerTransactionOutput_execution_status : TransactionExecutionStatus;
  RpcL1HandlerTransactionOutput_execution_resources : RpcExecutionResources;
  RpcL1HandlerTransactionOutput_message_hash : L1L2MsgHash
}.

Inductive RpcTransactionOutput : Type :=
| RpcTransactionOutput_Declare (value : RpcDeclareTransactionOutput)
| RpcTransactionOutput_Deploy (value : RpcDeployTransactionOutput)
| RpcTransactionOutput_DeployAccount (value : RpcDeployAccountTransactionOutput)
| RpcTransactionOutput_Invoke (value : RpcInvokeTransactionOutput)
| RpcTransactionOutput_L1Handler (value : RpcL1HandlerTransactionOutput).

Inductive PendingTransactionOutput : Type :=
| PendingTransactionOutput_Declare (value : RpcDeclareTransactionOutput)
| PendingTransactionOutput_DeployAccount (value : RpcDeployAccountTransactionOutput)
| PendingTransactionOutput_Invoke (value : RpcInvokeTransactionOutput)
| PendingTransactionOutput_L1Handler (value : RpcL1HandlerTransactionOutput).

Record RpcTransactionReceipt : Type := mkRpcTransactionReceipt {
  RpcTransactionReceipt_finality_status : TransactionFinalityStatus;
  RpcTransactionReceipt_transaction_hash : TransactionHash;
  RpcTransactionReceipt_block_hash : BlockHash;
  RpcTransactionReceipt_block_number : Z;
  RpcTransactionReceipt_output : RpcTransactionOutput
}.

Record PendingTransactionReceipt : Type := mkPendingTransactionReceipt {
  PendingTransactionReceipt_finality_status : PendingTransactionFinalityStatus;
  PendingTransactionReceipt_transaction_hash : TransactionHash;
  PendingTransactionReceipt_output : PendingTransactionOutput
}.

Record TransactionReceiptInBlock : Type := mkTransactionReceiptInBlock {
  TransactionReceiptInBlock_finality_status : TransactionFinalityStatus;
  TransactionReceiptInBlock_transaction_hash : TransactionHash;
  TransactionReceiptInBlock_output : RpcTransactionOutput
}.

Inductive GeneralTransactionReceipt : Type :=
| GeneralTransactionReceipt_TransactionReceipt (value : RpcTransactionReceipt)
| GeneralTransactionReceipt_PendingTransactionReceipt (value : PendingTransactionReceipt).

Record TransactionWithReceipt : Type := mkTransactionWithReceipt {
  TransactionWithReceipt_receipt : TransactionReceiptInBlock;
  TransactionWithReceipt_transaction : RpcTransaction
}.

Inductive Transactions : Type :=
| Transactions_Hashes (value : list TransactionHash)
| Transactions_Full (value : list TransactionWithHash)
| Transactions_FullWithReceipts (value : list TransactionWithReceipt).

Record RpcEvent : Type := mkRpcEvent {
  RpcEvent_block_hash : option BlockHash;
  RpcEvent_block_number : option Z;
  RpcEvent_transaction_hash : TransactionHash;
  RpcEvent_event : Event
}.

(** ** Blocks *)

Record ResourcePrice : Type := mkResourcePrice {
  ResourcePrice_price_in_wei : GasPrice;
  ResourcePrice_price_in_fri : GasPrice
}.

Record RpcBlockHeader : Type := mkRpcBlockHeader {
  RpcBlockHeader_block_hash : BlockHash;
  RpcBlockHeader_parent_hash : BlockHash;
  RpcBlockHeader_block_number : Z;
  RpcBlockHeader_sequencer_address : SequencerContractAddress;
  RpcBlockHeader_new_root : GlobalRoot;
  RpcBlockHeader_timestamp : BlockTimestamp;
  RpcBlockHeader_l1_gas_price : ResourcePrice;
  RpcBlockHeader_l1_data_gas_price : ResourcePrice;
  RpcBlockHeader_l1_da_mode : L1DataAvailabilityMode;
  RpcBlockHeader_starknet_version : rstring
}.

Record PendingBlockHeader : Type := mkPendingBlockHeader {
  PendingBlockHeader_parent_hash : BlockHash;
  PendingBlockHeader_sequencer_address : SequencerContractAddress;
  PendingBlockHeader_timestamp : BlockTimestamp;
  PendingBlockHeader_l1_gas_price : ResourcePrice;
  PendingBlockHeader_l1_data_gas_price : ResourcePrice;
  PendingBlockHeader_l1_da_mode : L1DataAvailabilityMode;
  PendingBlockHeader_starknet_version : rstring
}.

Inductive GeneralBlockHeader : Type :=
| GeneralBlockHeader_BlockHeader (value : RpcBlockHeader)
| GeneralBlockHeader_PendingBlockHeader (value : PendingBlockHeader).

Record RpcBlock : Type := mkRpcBlock {
  RpcBlock_status : option BlockStatus;
  RpcBlock_header : GeneralBlockHeader;
  RpcBlock_transactions : Transactions
}.

Inductive Tag : Type :=
| Tag_Latest
| Tag_Pending.

Inductive RpcBlockHashOrNumber : Type :=
| RpcBlockHashOrNumber_Hash (value : BlockHash)
| RpcBlockHashOrNumber_Number (value : Z).

Inductive BlockId : Type :=
| BlockId_HashOrNumber (value : RpcBlockHashOrNumber)
| BlockId_Tag (value : Tag).

Record SyncStatus : Type := mkSyncStatus {
  SyncStatus_starting_block_hash : BlockHash;
  SyncStatus_starting_block_num : Z;
  SyncStatus_current_block_hash : BlockHash;
  SyncStatus_current_block_num : Z;
  SyncStatus_highest_block_hash : BlockHash;
  SyncStatus_highest_block_num : Z
}.

Inductive SyncingState : Type :=
| SyncingState_Synced
| SyncingState_SyncStatus (value : SyncStatus).

(** ** State updates and classes *)

Record ContractNonce : Type := mkContractNonce {
  ContractNonce_contract_address : Z;
  ContractNonce_nonce : Nonce
}.

Record RpcDeployedContract : Type := mkRpcDeployedContract {
  RpcDeployedContract_address : Z;
  RpcDeployedContract_class_hash : ClassHash
}.

Record RpcStorageEntry : Type := mkRpcStorageEntry {
  RpcStorageEntry_key : Z;
  RpcStorageEntry_value : Z
}.

Record StorageDiff : Type := mkStorageDiff {
  StorageDiff_address : Z;
  StorageDiff_storage_entries : list RpcStorageEntry
}.

Record ClassHashes : Type := mkClassHashes {
  ClassHashes_class_hash : ClassHash;
  ClassHashes_compiled_class_hash : CompiledClassHash
}.

Record ReplacedClasses : Type := mkReplacedClasses {
  ReplacedClasses_contract_address : Z;
  ReplacedClasses_class_hash : ClassHash
}.

Record RpcThinStateDiff : Type := mkRpcThinStateDiff {
  RpcThinStateDiff_deployed_contracts : list RpcDeployedContract;
  RpcThinStateDiff_storage_diffs : list StorageDiff;
  RpcThinStateDiff_declared_classes : list ClassHashes;
  RpcThinStateDiff_deprecated_declared_classes : list ClassHash;
  RpcThinStateDiff_nonces : list ContractNonce;
  RpcThinStateDiff_replaced_classes : list ReplacedClasses
}.

Record AcceptedStateUpdate : Type := mkAcceptedStateUpdate {
  AcceptedStateUpdate_block_hash : BlockHash;
  AcceptedStateUpdate_new_root : GlobalRoot;
  AcceptedStateUpdate_old_root : GlobalRoot;
  AcceptedStateUpdate_state_diff : RpcThinStateDiff
}.

Record RpcPendingStateUpdate : Type := mkRpcPendingStateUpdate {
  RpcPendingStateUpdate_old_root : GlobalRoot;
  RpcPendingStateUpdate_state_diff : RpcThinStateDiff
}.

Inductive RpcStateUpdate : Type :=
| RpcStateUpdate_AcceptedStateUpdate (value : AcceptedStateUpdate)
| RpcStateUpdate_PendingStateUpdate (value : RpcPendingStateUpdate).

Record EntryPointByType : Type := mkEntryPointByType {
  EntryPointByType_constructor : list EntryPoint;
  EntryPointByType_external : list EntryPoint;
  EntryPointByType_l1handler : list EntryPoint
}.

Record RpcContractClass : Type := mkRpcContractClass {
  RpcContractClass_sierra_program : list Z;
  RpcContractClass_contract_class_version : rstring;
  RpcContractClass_entry_points_by_type : EntryPointByType;
  RpcContractClass_abi : rstring
}.

(** ** What is sent to the gateway *)

Inductive DeployAccountType : Type :=
| DeployAccountType_DeployAccount.

Inductive InvokeType : Type :=
| InvokeType_Invoke.

Inductive DeclareType : Type :=
| DeclareType_Declare.

Inductive WriterReservedDataAvailabilityMode : Type :=
| WriterReservedDataAvailabilityMode_Reserved.

Record DeployAccountV1Transaction : Type := mkDeployAccountV1Transaction {
  DeployAccountV1Transaction_contract_address_salt : ContractAddressSalt;
  DeployAccountV1Transaction_class_hash : ClassHash;
  DeployAccountV1Transaction_constructor_calldata : Calldata;
  DeployAccountV1Transaction_nonce : Nonce;
  DeployAccountV1Transaction_max_fee : Fee;
  DeployAccountV1Transaction_signature : TransactionSignature;
  DeployAccountV1Transaction_version : TransactionVersion;
  DeployAccountV1Transaction_type : DeployAccountType
}.

Record DeployAccountV3Transaction : Type := mkDeployAccountV3Transaction {
  DeployAccountV3Transaction_resource_bounds : ResourceBoundsMapping;
  DeployAccountV3Transaction_tip : Tip;
  DeployAccountV3Transaction_contract_address_salt : ContractAddressSalt;
  DeployAccountV3Transaction_class_hash : ClassHash;
  DeployAccountV3Transaction_constructor_calldata : Calldata;
  DeployAccountV3Transaction_nonce : Nonce;
  DeployAccountV3Transaction_signature : TransactionSignature;
  DeployAccountV3Transaction_nonce_data_availability_mode : WriterReservedDataAvailabilityMode;
  DeployAccountV3Transaction_fee_data_availability_mode : WriterReservedDataAvailabilityMode;
  DeployAccountV3Transaction_paymaster_data : PaymasterData;
  DeployAccountV3Transaction_version : TransactionVersion;
  DeployAccountV3Transaction_type : DeployAccountType
}.

Inductive WriterDeployAccountTransaction : Type :=
| WriterDeployAccountTransaction_DeployAccountV1 (value : DeployAccountV1Transaction)
| WriterDeployAccountTransaction_DeployAccountV3 (value : DeployAccountV3Transaction).

Record InvokeV0Transaction : Type := mkInvokeV0Transaction {
  InvokeV0Transaction_calldata : Calldata;
  InvokeV0Transaction_contract_address : Z;
  InvokeV0Transaction_max_fee : Fee;
  InvokeV0Transaction_signature : TransactionSignature;
  InvokeV0Transaction_version : TransactionVersion;
  InvokeV0Transaction_type : InvokeType;
  InvokeV0Transaction_entry_point_selector : EntryPointSelector
}.

Record InvokeV1Transaction : Type := mkInvokeV1Transaction {
  InvokeV1Transaction_calldata : Calldata;
  InvokeV1Transaction_sender_address : Z;
  InvokeV1Transaction_nonce : Nonce;
  InvokeV1Transaction_max_fee : Fee;
  InvokeV1Transaction_signature : TransactionSignature;
  InvokeV1Transaction_version : TransactionVersion;
  InvokeV1Transaction_type : InvokeType
}.

Record InvokeV3Transaction : Type := mkInvokeV3Transaction {
  InvokeV3Transaction_resource_bounds : ResourceBoundsMapping;
  InvokeV3Transaction_tip : Tip;
  InvokeV3Transaction_calldata : Calldata;
  InvokeV3Transaction_sender_address : Z;
  InvokeV3Transaction_nonce : Nonce;
  InvokeV3Transaction_signature : TransactionSignature;
  InvokeV3Transaction_nonce_data_availability_mode : WriterReservedDataAvailabilityMode;
  InvokeV3Transaction_fee_data_availability_mode : WriterReservedDataAvailabilityMode;
  InvokeV3Transaction_paymaster_data : PaymasterData;
  InvokeV3Transaction_account_deployment_data : AccountDeploymentData;
  InvokeV3Transaction_version : TransactionVersion;
  InvokeV3Transaction_type : InvokeType
}.

Inductive WriterInvokeTransaction : Type :=
| WriterInvokeTransaction_InvokeV0 (value : InvokeV0Transaction)
| WriterInvokeTransaction_InvokeV1 (value : InvokeV1Transaction)
| WriterInvokeTransaction_InvokeV3 (value : InvokeV3Transaction).

Record WriterDeprecatedContractClass : Type := mkWriterDeprecatedContractClass {
  WriterDeprecatedContractClass_abi : option (list ContractClassAbiEntry);
  WriterDeprecatedContractClass_compressed_program : rstring;
  WriterDeprecatedContractClass_entry_points_by_type : gmap DeprecatedEntryPointType (list DeprecatedEntryPoint)
}.

Record WriterContractClass : Type := mkWriterContractClass {
  WriterContractClass_compressed_sierra_program : rstring;
  WriterContractClass_contract_class_version : rstring;
  WriterContractClass_entry_points_by_type : gmap EntryPointType (list EntryPoint);
  WriterContractClass_abi : rstring
}.

Record DeclareV1Transaction : Type := mkDeclareV1Transaction {
  DeclareV1Transaction_contract_class : WriterDeprecatedContractClass;
  DeclareV1Transaction_sender_address : Z;
  DeclareV1Transaction_nonce : Nonce;
  DeclareV1Transaction_max_fee : Fee;
  DeclareV1Transaction_version : TransactionVersion;
  DeclareV1Transaction_signature : TransactionSignature;
  DeclareV1Transaction_type : DeclareType
}.

Record DeclareV2Transaction : Type := mkDeclareV2Transaction {
  DeclareV2Transaction_contract_class : WriterContractClass;
  DeclareV2Transaction_compiled_class_hash : CompiledClassHash;
  DeclareV2Transaction_sender_address : Z;
  DeclareV2Transaction_nonce : Nonce;
  DeclareV2Transaction_max_fee : Fee;
  DeclareV2Transaction_version : TransactionVersion;
  DeclareV2Transaction_signature : TransactionSignature;
  DeclareV2Transaction_type : DeclareType
}.

Record DeclareV3Transaction : Type := mkDeclareV3Transaction {
  DeclareV3Transaction_contract_class : WriterContractClass;
  DeclareV3Transaction_resource_bounds : ResourceBoundsMapping;
  DeclareV3Transaction_tip : Tip;
  DeclareV3Transaction_signature : TransactionSignature;
  DeclareV3Transaction_nonce : Nonce;
  DeclareV3Transaction_compiled_class_hash : CompiledClassHash;
  DeclareV3Transaction_sender_address : Z;
  DeclareV3Transaction_nonce_data_availability_mode : WriterReservedDataAvailabilityMode;
  DeclareV3Transaction_fee_data_availability_mode : WriterReservedDataAvailabilityMode;
  DeclareV3Transaction_paymaster_data : PaymasterData;
  DeclareV3Transaction_account_deployment_data : AccountDeploymentData;
  DeclareV3Transaction_version : TransactionVersion;
  DeclareV3Transaction_type : DeclareType
}.

Inductive WriterDeclareTransaction : Type :=
| WriterDeclareTransaction_DeclareV1 (value : DeclareV1Transaction)
| WriterDeclareTransaction_DeclareV2 (value : DeclareV2Transaction)
| WriterDeclareTransaction_DeclareV3 (value : DeclareV3Transaction).

Inductive SuccessfulStarknetErrorCode : Type :=
| SuccessfulStarknetErrorCode_TransactionReceived.

Record DeclareResponse : Type := mkDeclareResponse {
  DeclareResponse_code : SuccessfulStarknetErrorCode;
  DeclareResponse_transaction_hash : TransactionHash;
  DeclareResponse_class_hash : ClassHash
}.

Record DeployAccountResponse : Type := mkDeployAccountResponse {
  DeployAccountResponse_code : SuccessfulStarknetErrorCode;
  DeployAccountResponse_transaction_hash : TransactionHash;
  DeployAccountResponse_address : Z
}.

Record InvokeResponse : Type := mkInvokeResponse {
  InvokeResponse_code : SuccessfulStarknetErrorCode;
  InvokeResponse_transaction_hash : TransactionHash
}.

Inductive KnownStarknetErrorCode : Type :=
| KnownStarknetErrorCode_UndeclaredClass
| KnownStarknetErrorCode_BlockNotFound
| KnownStarknetErrorCode_MalformedRequest
| KnownStarknetErrorCode_OutOfRangeClassHash
| KnownStarknetErrorCode_ClassAlreadyDeclared
| KnownStarknetErrorCode_CompilationFailed
| KnownStarknetErrorCode_ContractBytecodeSizeTooLarge
| KnownStarknetErrorCode_ContractClassObjectSizeTooLarge
| KnownStarknetErrorCode_DuplicatedTransaction
| KnownStarknetErrorCode_EntryPointNotFoundInContract
| KnownStarknetErrorCode_InsufficientAccountBalance
| KnownStarknetErrorCode_InsufficientMaxFee
| KnownStarknetErrorCode_InvalidCompiledClassHash
| KnownStarknetErrorCode_InvalidContractClassVersion
| KnownStarknetErrorCode_InvalidTransactionNonce
| KnownStarknetErrorCode_InvalidTransactionVersion
| KnownStarknetErrorCode_ValidateFailure
| KnownStarknetErrorCode_TransactionLimitExceeded.

Inductive StarknetErrorCode : Type :=
| StarknetErrorCode_UnknownErrorCode (value : rstring)
| StarknetErrorCode_KnownErrorCode (value : KnownStarknetErrorCode).

Record StarknetError : Type := mkStarknetError {
  StarknetError_code : StarknetErrorCode;
  StarknetError_message : rstring
}.

(** ** What the server is sent *)

Inductive BroadcastedDeclareType : Type :=
| BroadcastedDeclareType_Declare.

Record BroadcastedDeclareV1Transaction : Type := mkBroadcastedDeclareV1Transaction {
  BroadcastedDeclareV1Transaction_type : BroadcastedDeclareType;
  BroadcastedDeclareV1Transaction_contract_class : WriterDeprecatedContractClass;
  BroadcastedDeclareV1Transaction_sender_address : Z;
  BroadcastedDeclareV1Transaction_nonce : Nonce;
  BroadcastedDeclareV1Transaction_max_fee : Fee;
  BroadcastedDeclareV1Transaction_signature : TransactionSignature
}.

Record BroadcastedDeclareV2Transaction : Type := mkBroadcastedDeclareV2Transaction {
  BroadcastedDeclareV2Transaction_type : BroadcastedDeclareType;
  BroadcastedDeclareV2Transaction_contract_class : RpcContractClass;
  BroadcastedDeclareV2Transaction_compiled_class_hash : CompiledClassHash;
  BroadcastedDeclareV2Transaction_sender_address : Z;
  BroadcastedDeclareV2Transaction_nonce : Nonce;
  BroadcastedDeclareV2Transaction_max_fee : Fee;
  BroadcastedDeclareV2Transaction_signature : TransactionSignature
}.

Record BroadcastedDeclareV3Transaction : Type := mkBroadcastedDeclareV3Transaction {
  BroadcastedDeclareV3Transaction_type : BroadcastedDeclareType;
  BroadcastedDeclareV3Transaction_sender_address : Z;
  BroadcastedDeclareV3Transaction_compiled_class_hash : CompiledClassHash;
  BroadcastedDeclareV3Transaction_signature : TransactionSignature;
  BroadcastedDeclareV3Transaction_nonce : Nonce;
  BroadcastedDeclareV3Transaction_contract_class : RpcContractClass;
  BroadcastedDeclareV3Transaction_resource_bounds : RpcResourceBoundsMapping;
  BroadcastedDeclareV3Transaction_tip : Tip;
  BroadcastedDeclareV3Transaction_paymaster_data : PaymasterData;
  BroadcastedDeclareV3Transaction_account_deployment_data : AccountDeploymentData;
  BroadcastedDeclareV3Transaction_nonce_data_availability_mode : DataAvailabilityMode;
  BroadcastedDeclareV3Transaction_fee_data_availability_mode : DataAvailabilityMode
}.

Inductive BroadcastedDeclareTransaction : Type :=
| BroadcastedDeclareTransaction_V1 (value : BroadcastedDeclareV1Transaction)
| BroadcastedDeclareTransaction_V2 (value : BroadcastedDeclareV2Transaction)
| BroadcastedDeclareTransaction_V3 (value : BroadcastedDeclareV3Transaction).

Inductive BroadcastedTransaction : Type :=
| BroadcastedTransaction_Declare (value : BroadcastedDeclareTransaction)
| BroadcastedTransaction_DeployAccount (value : RpcDeployAccountTransaction)
| BroadcastedTransaction_Invoke (value : RpcInvokeTransaction).

Record AddInvokeOkResult : Type := mkAddInvokeOkResult {
  AddInvokeOkResult_transaction_hash : TransactionHash
}.

Record AddDeclareOkResult : Type := mkAddDeclareOkResult {
  AddDeclareOkResult_transaction_hash : TransactionHash;
  AddDeclareOkResult_class_hash : ClassHash
}.

Record AddDeployAccountOkResult : Type := mkAddDeployAccountOkResult {
  AddDeployAccountOkResult_transaction_hash : TransactionHash;
  AddDeployAccountOkResult_contract_address : Z
}.

(** * Conversions of the JSON-RPC server

    Models the conversions of [crates/papyrus_rpc/src/v0_7/transaction.rs],
    [state.rs], [block.rs], [deprecated_contract_class.rs],
    [broadcasted_transaction.rs], [write_api_result.rs], [write_api_error.rs],
    [error.rs] and [api/mod.rs], and [crates/papyrus_rpc/src/compression_utils.rs].

    [impl From<A> for B] is [B_from], or [B_from_A] where there are several;
    [impl TryFrom<A> for B] is [B_try_from], a computation that can fail or panic. *)

#[local] Open Scope string_scope.
#[local] Open Scope Z_scope.

(** ** Errors *)

(** What the [data] of an error holds: a text, a [ContractError] or a
    [TransactionExecutionError]. *)
Inductive ErrorData : Type :=
| ErrorData_String (s : rstring)
| ErrorData_ContractError (revert_error : rstring)
| ErrorData_TransactionExecutionError (transaction_index : Z) (execution_error : rstring).

Record JsonRpcError : Type := mkJsonRpcError {
  JsonRpcError_code : Z;
  JsonRpcError_message : string;
  JsonRpcError_data : option ErrorData
}.

(** An [ErrorObjectOwned] has the code, the message and the data of the error. *)
Abbreviation ErrorObjectOwned := JsonRpcError.

Definition CONTRACT_NOT_FOUND : JsonRpcError := mkJsonRpcError 20 "Contract not found" None.
Definition BLOCK_NOT_FOUND : JsonRpcError := mkJsonRpcError 24 "Block not found" None.
Definition INVALID_TRANSACTION_HASH : JsonRpcError := mkJsonRpcError 25 "Invalid transaction hash" None.
Definition INVALID_TRANSACTION_INDEX : JsonRpcError := mkJsonRpcError 27 "Invalid transaction index in a block" None.
Definition CLASS_HASH_NOT_FOUND : JsonRpcError := mkJsonRpcError 28 "Class hash not found" None.
Definition TRANSACTION_HASH_NOT_FOUND : JsonRpcError := mkJsonRpcError 29 "Transaction hash not found" None.
Definition PAGE_SIZE_TOO_BIG : JsonRpcError := mkJsonRpcError 31 "Requested page size is too big" None.
Definition NO_BLOCKS : JsonRpcError := mkJsonRpcError 32 "There are no blocks" None.
Definition INVALID_CONTINUATION_TOKEN : JsonRpcError :=
  mkJsonRpcError 33 "The supplied continuation token is invalid or unknown" None.
Definition TOO_MANY_KEYS_IN_FILTER : JsonRpcError := mkJsonRpcError 34 "Too many keys provided in a filter" None.
Definition ContractError_into (revert_error : rstring) : JsonRpcError :=
  mkJsonRpcError 40 "Contract error" (Some (ErrorData_ContractError revert_error)).
Definition TransactionExecutionError_into (transaction_index : Z) (execution_error : rstring) : JsonRpcError :=
  mkJsonRpcError 41 "Transaction execution error" (Some (ErrorData_TransactionExecutionError transaction_index execution_error)).
Definition CLASS_ALREADY_DECLARED : JsonRpcError := mkJsonRpcError 51 "Class already declared" None.
Definition INVALID_TRANSACTION_NONCE : JsonRpcError := mkJsonRpcError 52 "Invalid transaction nonce" None.
Definition INSUFFICIENT_MAX_FEE : JsonRpcError :=
  mkJsonRpcError 53 "Max fee is smaller than the minimal transaction cost (validation plus fee transfer)" None.
Definition INSUFFICIENT_ACCOUNT_BALANCE : JsonRpcError :=
  mkJsonRpcError 54 "Account balance is smaller than the transaction's max_fee" None.
Definition validation_failure (data : rstring) : JsonRpcError :=
  mkJsonRpcError 55 "Account validation failed" (Some (ErrorData_String data)).
Definition COMPILATION_FAILED : JsonRpcError := mkJsonRpcError 56 "Compilation failed" None.
Definition CONTRACT_CLASS_SIZE_IS_TOO_LARGE : JsonRpcError := mkJsonRpcError 57 "Contract class size it too large" None.
Definition NON_ACCOUNT : JsonRpcError := mkJsonRpcError 58 "Sender address in not an account contract" None.
Definition DUPLICATE_TX : JsonRpcError :=
  mkJsonRpcError 59 "A transaction with the same hash already exists in the mempool" None.
Definition COMPILED_CLASS_HASH_MISMATCH : JsonRpcError :=
  mkJsonRpcError 60 "the compiled class hash did not match the one supplied in the transaction" None.
Definition UNSUPPORTED_TX_VERSION : JsonRpcError := mkJsonRpcError 61 "the transaction version is not supported" None.
Definition UNSUPPORTED_CONTRACT_CLASS_VERSION : JsonRpcError :=
  mkJsonRpcError 62 "the contract class version is not supported" None.
Definition unexpected_error (data : rstring) : JsonRpcError :=
  mkJsonRpcError 63 "An unexpected error occurred" (Some (ErrorData_String data)).

(** The error of JSON-RPC itself: the cause is logged and not returned. *)
Definition internal_server_error : ErrorObjectOwned := mkJsonRpcError (-32603) "Internal error" None.
Definition internal_server_error_with_msg (err : string) : ErrorObjectOwned := mkJsonRpcError (-32603) err None.

Definition starknet_error_to_invoke_error (error : StarknetError) : JsonRpcError :=
  match StarknetError_code error with
  | StarknetErrorCode_UnknownErrorCode _ => unexpected_error (StarknetError_message error)
  | StarknetErrorCode_KnownErrorCode known_error_code =>
      match known_error_code with
      | KnownStarknetErrorCode_DuplicatedTransaction => DUPLICATE_TX
      | KnownStarknetErrorCode_EntryPointNotFoundInContract => NON_ACCOUNT
      | KnownStarknetErrorCode_InsufficientAccountBalance => INSUFFICIENT_ACCOUNT_BALANCE
      | KnownStarknetErrorCode_InsufficientMaxFee => INSUFFICIENT_MAX_FEE
      | KnownStarknetErrorCode_InvalidTransactionNonce => INVALID_TRANSACTION_NONCE
      | KnownStarknetErrorCode_InvalidTransactionVersion => UNSUPPORTED_TX_VERSION
      | KnownStarknetErrorCode_ValidateFailure => validation_failure (StarknetError_message error)
      | _ => unexpected_error (StarknetError_message error)
      end
  end.

Definition starknet_error_to_declare_error (error : StarknetError) : JsonRpcError :=
  match StarknetError_code error with
  | StarknetErrorCode_UnknownErrorCode _ => unexpected_error (StarknetError_message error)
  | StarknetErrorCode_KnownErrorCode known_error_code =>
      match known_error_code with
      | KnownStarknetErrorCode_ClassAlreadyDeclared => CLASS_ALREADY_DECLARED
      | KnownStarknetErrorCode_CompilationFailed => COMPILATION_FAILED
      | KnownStarknetErrorCode_ContractBytecodeSizeTooLarge => CONTRACT_CLASS_SIZE_IS_TOO_LARGE
      | KnownStarknetErrorCode_ContractClassObjectSizeTooLarge => CONTRACT_CLASS_SIZE_IS_TOO_LARGE
      | KnownStarknetErrorCode_DuplicatedTransaction => DUPLICATE_TX
      | KnownStarknetErrorCode_EntryPointNotFoundInContract => NON_ACCOUNT
      | KnownStarknetErrorCode_InsufficientAccountBalance => INSUFFICIENT_ACCOUNT_BALANCE
      | KnownStarknetErrorCode_InsufficientMaxFee => INSUFFICIENT_MAX_FEE
      | KnownStarknetErrorCode_InvalidCompiledClassHash => COMPILED_CLASS_HASH_MISMATCH
      | KnownStarknetErrorCode_InvalidContractClassVersion => UNSUPPORTED_CONTRACT_CLASS_VERSION
      | KnownStarknetErrorCode_InvalidTransactionNonce => INVALID_TRANSACTION_NONCE
      | KnownStarknetErrorCode_InvalidTransactionVersion => UNSUPPORTED_TX_VERSION
      | KnownStarknetErrorCode_ValidateFailure => validation_failure (StarknetError_message error)
      | _ => unexpected_error (StarknetError_message error)
      end
  end.

Definition starknet_error_to_deploy_account_error (error : StarknetError) : JsonRpcError :=
  match StarknetError_code error with
  | StarknetErrorCode_UnknownErrorCode _ => unexpected_error (StarknetError_message error)
  | StarknetErrorCode_KnownErrorCode known_error_code =>
      match known_error_code with
      | KnownStarknetErrorCode_DuplicatedTransaction => DUPLICATE_TX
      | KnownStarknetErrorCode_EntryPointNotFoundInContract => NON_ACCOUNT
      | KnownStarknetErrorCode_InsufficientAccountBalance => INSUFFICIENT_ACCOUNT_BALANCE
      | KnownStarknetErrorCode_InsufficientMaxFee => INSUFFICIENT_MAX_FEE
      | KnownStarknetErrorCode_InvalidTransactionNonce => INVALID_TRANSACTION_NONCE
      | KnownStarknetErrorCode_InvalidTransactionVersion => UNSUPPORTED_TX_VERSION
      | KnownStarknetErrorCode_UndeclaredClass => CLASS_HASH_NOT_FOUND
      | KnownStarknetErrorCode_ValidateFailure => validation_failure (StarknetError_message error)
      | _ => unexpected_error (StarknetError_message error)
      end
  end.

(** ** The crates the server calls *)

Class RpcCrates {X : ExternalTypes} : Type := {
  (** [starknet_api]: [version()] and [actual_fee()]. *)
  declare_transaction_version : DeclareTransaction -> Z;
  deploy_account_transaction_version : DeployAccountTransaction -> Z;
  invoke_transaction_version : InvokeTransaction -> Z;
  transaction_output_actual_fee : TransactionOutput -> Z;
  (** [ethers]: [encode_packed] of tokens of bytes, and [keccak256]. *)
  encode_packed : list (list Z) -> option (list Z);
  keccak256 : list Z -> list Z;
  (** [serde_json]: the value of a program and of a list of felts, whether a value is
      null, an object without a key ([None] if the value is not an object), the text of
      a value, and the text of an event index with its parser. *)
  program_to_value : Program -> option Json;
  felts_to_value : list Z -> option Json;
  json_is_null : Json -> bool;
  json_remove : string -> Json -> option Json;
  json_to_bytes : Json -> option (list Z);
  event_index_to_string : EventIndex -> option rstring;
  event_index_from_str : rstring -> option EventIndex;
  (** [flate2] and [base64]. *)
  gzip : list Z -> option (list Z);
  base64_encode : list Z -> rstring
}.

(** Their documented behaviour, as far as the theorems need it: the versions are
    those of the variants, bytes are packed one after the other, an index of an event
    is printed and read back. *)
Class RpcCratesSpec {X : ExternalTypes} {RC : RpcCrates} : Type := {
  declare_version_spec : forall tx, declare_transaction_version tx =
    match tx with DeclareTransaction_V0 _ => 0 | DeclareTransaction_V1 _ => 1 | DeclareTransaction_V2 _ => 2 | DeclareTransaction_V3 _ => 3 end;
  deploy_account_version_spec : forall tx, deploy_account_transaction_version tx =
    match tx with DeployAccountTransaction_V1 _ => 1 | DeployAccountTransaction_V3 _ => 3 end;
  invoke_version_spec : forall tx, invoke_transaction_version tx =
    match tx with InvokeTransaction_V0 _ => 0 | InvokeTransaction_V1 _ => 1 | InvokeTransaction_V3 _ => 3 end;
  encode_packed_spec : forall l, encode_packed l = Some (concat l);
  event_index_printed : forall i, exists s, event_index_to_string i = Some s /\ event_index_from_str s = Some i
}.

Section Convert.
Context {X : ExternalTypes} {F : FeltApi} {TA : TransactionApi} {RC : RpcCrates} {S : Type}.

Abbreviation Rpc := (M S ErrorObjectOwned).

(** [map_err(internal_server_error)?] on a [Result] without effects. *)
Definition ok_or_internal {A} (o : option A) : Rpc A := ok_or_raise internal_server_error o.

(** [TransactionVersion::ZERO] to [TransactionVersion::THREE]. *)
Definition TransactionVersion_ZERO : Z := 0.
Definition TransactionVersion_ONE : Z := 1.
Definition TransactionVersion_TWO : Z := 2.
Definition TransactionVersion_THREE : Z := 3.

(** ** Transactions *)

Definition RpcDeclareTransactionV2_from (tx : DeclareTransactionV2) : RpcDeclareTransactionV2 := {|
  RpcDeclareTransactionV2_class_hash := DeclareTransactionV2_class_hash tx;
  RpcDeclareTransactionV2_compiled_class_hash := DeclareTransactionV2_compiled_class_hash tx;
  RpcDeclareTransactionV2_sender_address := DeclareTransactionV2_sender_address tx;
  RpcDeclareTransactionV2_nonce := DeclareTransactionV2_nonce tx;
  RpcDeclareTransactionV2_max_fee := DeclareTransactionV2_max_fee tx;
  RpcDeclareTransactionV2_version := TransactionVersion2_Version2;
  RpcDeclareTransactionV2_signature := DeclareTransactionV2_signature tx
|}.

Definition ResourceBoundsMapping_from_rpc (value : RpcResourceBoundsMapping) : gmap Resource ResourceBounds :=
  list_to_map [(Resource_L1Gas, RpcResourceBoundsMapping_l1_gas value); (Resource_L2Gas, RpcResourceBoundsMapping_l2_gas value)].

Definition RpcResourceBoundsMapping_from (value : gmap Resource ResourceBounds) : RpcResourceBoundsMapping := {|
  RpcResourceBoundsMapping_l1_gas := default default_ResourceBounds (value !! Resource_L1Gas);
  RpcResourceBoundsMapping_l2_gas := default default_ResourceBounds (value !! Resource_L2Gas)
|}.

Definition RpcDeclareTransactionV3_from (tx : DeclareTransactionV3) : RpcDeclareTransactionV3 := {|
  RpcDeclareTransactionV3_resource_bounds := RpcResourceBoundsMapping_from (DeclareTransactionV3_resource_bounds tx);
  RpcDeclareTransactionV3_tip := DeclareTransactionV3_tip tx;
  RpcDeclareTransactionV3_signature := DeclareTransactionV3_signature tx;
  RpcDeclareTransactionV3_nonce := DeclareTransactionV3_nonce tx;
  RpcDeclareTransactionV3_class_hash := DeclareTransactionV3_class_hash tx;
  RpcDeclareTransactionV3_compiled_class_hash := DeclareTransactionV3_compiled_class_hash tx;
  RpcDeclareTransactionV3_sender_address := DeclareTransactionV3_sender_address tx;
  RpcDeclareTransactionV3_nonce_data_availability_mode := DeclareTransactionV3_nonce_data_availability_mode tx;
  RpcDeclareTransactionV3_fee_data_availability_mode := DeclareTransactionV3_fee_data_availability_mode tx;
  RpcDeclareTransactionV3_paymaster_data := DeclareTransactionV3_paymaster_data tx;
  RpcDeclareTransactionV3_account_deployment_data := DeclareTransactionV3_account_deployment_data tx;
  RpcDeclareTransactionV3_version := TransactionVersion3_Version3
|}.

Definition RpcDeployAccountTransaction_try_from (tx : DeployAccountTransaction) : Rpc RpcDeployAccountTransaction :=
  match tx with
  | DeployAccountTransaction_V1 (mkDeployAccountTransactionV1 max_fee signature nonce class_hash contract_address_salt constructor_calldata) =>
      ret (RpcDeployAccountTransaction_Version1 {|
        RpcDeployAccountTransactionV1_max_fee := max_fee;
        RpcDeployAccountTransactionV1_signature := signature;
        RpcDeployAccountTransactionV1_nonce := nonce;
        RpcDeployAccountTransactionV1_class_hash := class_hash;
        RpcDeployAccountTransactionV1_contract_address_salt := contract_address_salt;
        RpcDeployAccountTransactionV1_constructor_calldata := constructor_calldata;
        RpcDeployAccountTransactionV1_version := TransactionVersion1_Version1
      |})
  | DeployAccountTransaction_V3 (mkDeployAccountTransactionV3 resource_bounds tip signature nonce class_hash contract_address_salt
        constructor_calldata nonce_data_availability_mode fee_data_availability_mode paymaster_data) =>
      ret (RpcDeployAccountTransaction_Version3 {|
        RpcDeployAccountTransactionV3_signature := signature;
        RpcDeployAccountTransactionV3_nonce := nonce;
        RpcDeployAccountTransactionV3_class_hash := class_hash;
        RpcDeployAccountTransactionV3_contract_address_salt := contract_address_salt;
        RpcDeployAccountTransactionV3_constructor_calldata := constructor_calldata;
        RpcDeployAccountTransactionV3_version := TransactionVersion3_Version3;
        RpcDeployAccountTransactionV3_resource_bounds := RpcResourceBoundsMapping_from resource_bounds;
        RpcDeployAccountTransactionV3_tip := tip;
        RpcDeployAccountTransactionV3_paymaster_data := paymaster_data;
        RpcDeployAccountTransactionV3_nonce_data_availability_mode := nonce_data_availability_mode;
        RpcDeployAccountTransactionV3_fee_data_availability_mode := fee_data_availability_mode
      |})
  end.

Definition RpcInvokeTransaction_try_from (tx : InvokeTransaction) : Rpc RpcInvokeTransaction :=
  match tx with
  | InvokeTransaction_V0 (mkInvokeTransactionV0 max_fee signature contract_address entry_point_selector calldata) =>
      ret (RpcInvokeTransaction_Version0 {|
        RpcInvokeTransactionV0_max_fee := max_fee;
        RpcInvokeTransactionV0_version := TransactionVersion0_Version0;
        RpcInvokeTransactionV0_signature := signature;
        RpcInvokeTransactionV0_contract_address := contract_address;
        RpcInvokeTransactionV0_entry_point_selector := entry_point_selector;
        RpcInvokeTransactionV0_calldata := calldata
      |})
  | InvokeTransaction_V1 (mkInvokeTransactionV1 max_fee signature nonce sender_address calldata) =>
      ret (RpcInvokeTransaction_Version1 {|
        RpcInvokeTransactionV1_max_fee := max_fee;
        RpcInvokeTransactionV1_version := TransactionVersion1_Version1;
        RpcInvokeTransactionV1_signature := signature;
        RpcInvokeTransactionV1_nonce := nonce;
        RpcInvokeTransactionV1_sender_address := sender_address;
        RpcInvokeTransactionV1_calldata := calldata
      |})
  | InvokeTransaction_V3 (mkInvokeTransactionV3 resource_bounds tip signature nonce sender_address calldata
        nonce_data_availability_mode fee_data_availability_mode paymaster_data account_deployment_data) =>
      ret (RpcInvokeTransaction_Version3 {|
        RpcInvokeTransactionV3_sender_address := sender_address;
        RpcInvokeTransactionV3_calldata := calldata;
        RpcInvokeTransactionV3_version := TransactionVersion3_Version3;
        RpcInvokeTransactionV3_signature := signature;
        RpcInvokeTransactionV3_nonce := nonce;
        RpcInvokeTransactionV3_resource_bounds := RpcResourceBoundsMapping_from resource_bounds;
        RpcInvokeTransactionV3_tip := tip;
        RpcInvokeTransactionV3_paymaster_data := paymaster_data;
        RpcInvokeTransactionV3_account_deployment_data := account_deployment_data;
        RpcInvokeTransactionV3_nonce_data_availability_mode := nonce_data_availability_mode;
        RpcInvokeTransactionV3_fee_data_availability_mode := fee_data_availability_mode
      |})
  end.

Definition RpcTransaction_version (self : RpcTransaction) : Z :=
  match self with
  | RpcTransaction_Declare (RpcDeclareTransaction_Version0 _) | RpcTransaction_Invoke (RpcInvokeTransaction_Version0 _) => TransactionVersion_ZERO
  | RpcTransaction_Declare (RpcDeclareTransaction_Version1 _) | RpcTransaction_Invoke (RpcInvokeTransaction_Version1 _)
  | RpcTransaction_DeployAccount (RpcDeployAccountTransaction_Version1 _) => TransactionVersion_ONE
  | RpcTransaction_Declare (RpcDeclareTransaction_Version2 _) => TransactionVersion_TWO
  | RpcTransaction_Declare (RpcDeclareTransaction_Version3 _) | RpcTransaction_Invoke (RpcInvokeTransaction_Version3 _)
  | RpcTransaction_DeployAccount (RpcDeployAccountTransaction_Version3 _) => TransactionVersion_THREE
  | RpcTransaction_Deploy tx => DeployTransaction_version tx
  | RpcTransaction_L1Handler tx => L1HandlerTransaction_version tx
  end.

Definition RpcTransaction_try_from (tx : Transaction) : Rpc RpcTransaction :=
  match tx with
  | Transaction_Declare declare_tx =>
      match declare_tx with
      | DeclareTransaction_V0 tx => ret (RpcTransaction_Declare (RpcDeclareTransaction_Version0 {|
          RpcDeclareTransactionV0_class_hash := DeclareTransactionV0V1_class_hash tx;
          RpcDeclareTransactionV0_sender_address := DeclareTransactionV0V1_sender_address tx;
          RpcDeclareTransactionV0_nonce := DeclareTransactionV0V1_nonce tx;
          RpcDeclareTransactionV0_max_fee := DeclareTransactionV0V1_max_fee tx;
          RpcDeclareTransactionV0_version := TransactionVersion0_Version0;
          RpcDeclareTransactionV0_signature := DeclareTransactionV0V1_signature tx |}))
      | DeclareTransaction_V1 tx => ret (RpcTransaction_Declare (RpcDeclareTransaction_Version1 {|
          RpcDeclareTransactionV1_class_hash := DeclareTransactionV0V1_class_hash tx;
          RpcDeclareTransactionV1_sender_address := DeclareTransactionV0V1_sender_address tx;
          RpcDeclareTransactionV1_nonce := DeclareTransactionV0V1_nonce tx;
          RpcDeclareTransactionV1_max_fee := DeclareTransactionV0V1_max_fee tx;
          RpcDeclareTransactionV1_version := TransactionVersion1_Version1;
          RpcDeclareTransactionV1_signature := DeclareTransactionV0V1_signature tx |}))
      | DeclareTransaction_V2 tx => ret (RpcTransaction_Declare (RpcDeclareTransaction_Version2 (RpcDeclareTransactionV2_from tx)))
      | DeclareTransaction_V3 tx => ret (RpcTransaction_Declare (RpcDeclareTransaction_Version3 (RpcDeclareTransactionV3_from tx)))
      end
  | Transaction_Deploy deploy_tx => ret (RpcTransaction_Deploy deploy_tx)
  | Transaction_DeployAccount deploy_account_tx =>
      let! deploy_account_tx := RpcDeployAccountTransaction_try_from deploy_account_tx in
      ret (RpcTransaction_DeployAccount deploy_account_tx)
  | Transaction_Invoke invoke_tx =>
      let! invoke_tx := RpcInvokeTransaction_try_from invoke_tx in
      ret (RpcTransaction_Invoke invoke_tx)
  | Transaction_L1Handler l1_handler_tx => ret (RpcTransaction_L1Handler l1_handler_tx)
  end.

(** To the types of the node, for execution. *)
Definition DeployAccountTransaction_from_rpc (tx : RpcDeployAccountTransaction) : DeployAccountTransaction :=
  match tx with
  | RpcDeployAccountTransaction_Version1 tx => DeployAccountTransaction_V1 {|
      DeployAccountTransactionV1_max_fee := RpcDeployAccountTransactionV1_max_fee tx;
      DeployAccountTransactionV1_signature := RpcDeployAccountTransactionV1_signature tx;
      DeployAccountTransactionV1_nonce := RpcDeployAccountTransactionV1_nonce tx;
      DeployAccountTransactionV1_class_hash := RpcDeployAccountTransactionV1_class_hash tx;
      DeployAccountTransactionV1_contract_address_salt := RpcDeployAccountTransactionV1_contract_address_salt tx;
      DeployAccountTransactionV1_constructor_calldata := RpcDeployAccountTransactionV1_constructor_calldata tx |}
  | RpcDeployAccountTransaction_Version3 tx => DeployAccountTransaction_V3 {|
      DeployAccountTransactionV3_resource_bounds := ResourceBoundsMapping_from_rpc (RpcDeployAccountTransactionV3_resource_bounds tx);
      DeployAccountTransactionV3_tip := RpcDeployAccountTransactionV3_tip tx;
      DeployAccountTransactionV3_signature := RpcDeployAccountTransactionV3_signature tx;
      DeployAccountTransactionV3_nonce := RpcDeployAccountTransactionV3_nonce tx;
      DeployAccountTransactionV3_class_hash := RpcDeployAccountTransactionV3_class_hash tx;
      DeployAccountTransactionV3_contract_address_salt := RpcDeployAccountTransactionV3_contract_address_salt tx;
      DeployAccountTransactionV3_constructor_calldata := RpcDeployAccountTransactionV3_constructor_calldata tx;
      DeployAccountTransactionV3_nonce_data_availability_mode := RpcDeployAccountTransactionV3_nonce_data_availability_mode tx;
      DeployAccountTransactionV3_fee_data_availability_mode := RpcDeployAccountTransactionV3_fee_data_availability_mode tx;
      DeployAccountTransactionV3_paymaster_data := RpcDeployAccountTransactionV3_paymaster_data tx |}
  end.

Definition InvokeTransaction_from_rpc (value : RpcInvokeTransaction) : InvokeTransaction :=
  match value with
  | RpcInvokeTransaction_Version0 tx => InvokeTransaction_V0 {|
      InvokeTransactionV0_max_fee := RpcInvokeTransactionV0_max_fee tx;
      InvokeTransactionV0_signature := RpcInvokeTransactionV0_signature tx;
      InvokeTransactionV0_contract_address := RpcInvokeTransactionV0_contract_address tx;
      InvokeTransactionV0_entry_point_selector := RpcInvokeTransactionV0_entry_point_selector tx;
      InvokeTransactionV0_calldata := RpcInvokeTransactionV0_calldata tx |}
  | RpcInvokeTransaction_Version1 tx => InvokeTransaction_V1 {|
      InvokeTransactionV1_max_fee := RpcInvokeTransactionV1_max_fee tx;
      InvokeTransactionV1_signature := RpcInvokeTransactionV1_signature tx;
      InvokeTransactionV1_nonce := RpcInvokeTransactionV1_nonce tx;
      InvokeTransactionV1_sender_address := RpcInvokeTransactionV1_sender_address tx;
      InvokeTransactionV1_calldata := RpcInvokeTransactionV1_calldata tx |}
  | RpcInvokeTransaction_Version3 tx => InvokeTransaction_V3 {|
      InvokeTransactionV3_resource_bounds := ResourceBoundsMapping_from_rpc (RpcInvokeTransactionV3_resource_bounds tx);
      InvokeTransactionV3_tip := RpcInvokeTransactionV3_tip tx;
      InvokeTransactionV3_signature := RpcInvokeTransactionV3_signature tx;
      InvokeTransactionV3_nonce := RpcInvokeTransactionV3_nonce tx;
      InvokeTransactionV3_sender_address := RpcInvokeTransactionV3_sender_address tx;
      InvokeTransactionV3_calldata := RpcInvokeTransactionV3_calldata tx;
      InvokeTransactionV3_nonce_data_availability_mode := RpcInvokeTransactionV3_nonce_data_availability_mode tx;
      InvokeTransactionV3_fee_data_availability_mode := RpcInvokeTransactionV3_fee_data_availability_mode tx;
      InvokeTransactionV3_paymaster_data := RpcInvokeTransactionV3_paymaster_data tx;
      InvokeTransactionV3_account_deployment_data := RpcInvokeTransactionV3_account_deployment_data tx |}
  end.

(** ** To the gateway *)

Definition WriterDeployAccountTransaction_from (tx : RpcDeployAccountTransaction) : WriterDeployAccountTransaction :=
  match tx with
  | RpcDeployAccountTransaction_Version1 deploy_account_tx => WriterDeployAccountTransaction_DeployAccountV1 {|
      DeployAccountV1Transaction_contract_address_salt := RpcDeployAccountTransactionV1_contract_address_salt deploy_account_tx;
      DeployAccountV1Transaction_class_hash := RpcDeployAccountTransactionV1_class_hash deploy_account_tx;
      DeployAccountV1Transaction_constructor_calldata := RpcDeployAccountTransactionV1_constructor_calldata deploy_account_tx;
      DeployAccountV1Transaction_nonce := RpcDeployAccountTransactionV1_nonce deploy_account_tx;
      DeployAccountV1Transaction_max_fee := RpcDeployAccountTransactionV1_max_fee deploy_account_tx;
      DeployAccountV1Transaction_signature := RpcDeployAccountTransactionV1_signature deploy_account_tx;
      DeployAccountV1Transaction_version := TransactionVersion_ONE;
      DeployAccountV1Transaction_type := DeployAccountType_DeployAccount |}
  | RpcDeployAccountTransaction_Version3 deploy_account_tx => WriterDeployAccountTransaction_DeployAccountV3 {|
      DeployAccountV3Transaction_resource_bounds := ResourceBoundsMapping_from_rpc (RpcDeployAccountTransactionV3_resource_bounds deploy_account_tx);
      DeployAccountV3Transaction_tip := RpcDeployAccountTransactionV3_tip deploy_account_tx;
      DeployAccountV3Transaction_contract_address_salt := RpcDeployAccountTransactionV3_contract_address_salt deploy_account_tx;
      DeployAccountV3Transaction_class_hash := RpcDeployAccountTransactionV3_class_hash deploy_account_tx;
      DeployAccountV3Transaction_constructor_calldata := RpcDeployAccountTransactionV3_constructor_calldata deploy_account_tx;
      DeployAccountV3Transaction_nonce := RpcDeployAccountTransactionV3_nonce deploy_account_tx;
      DeployAccountV3Transaction_signature := RpcDeployAccountTransactionV3_signature deploy_account_tx;
      DeployAccountV3Transaction_nonce_data_availability_mode := WriterReservedDataAvailabilityMode_Reserved;
      DeployAccountV3Transaction_fee_data_availability_mode := WriterReservedDataAvailabilityMode_Reserved;
      DeployAccountV3Transaction_paymaster_data := RpcDeployAccountTransactionV3_paymaster_data deploy_account_tx;
      DeployAccountV3Transaction_version := TransactionVersion_THREE;
      DeployAccountV3Transaction_type := DeployAccountType_DeployAccount |}
  end.

Definition WriterInvokeTransaction_from_V0 (tx : RpcInvokeTransactionV0) : WriterInvokeTransaction := WriterInvokeTransaction_InvokeV0 {|
  InvokeV0Transaction_calldata := RpcInvokeTransactionV0_calldata tx;
  InvokeV0Transaction_contract_address := RpcInvokeTransactionV0_contract_address tx;
  InvokeV0Transaction_max_fee := RpcInvokeTransactionV0_max_fee tx;
  InvokeV0Transaction_signature := RpcInvokeTransactionV0_signature tx;
  InvokeV0Transaction_version := TransactionVersion_ZERO;
  InvokeV0Transaction_type := InvokeType_Invoke;
  InvokeV0Transaction_entry_point_selector := RpcInvokeTransactionV0_entry_point_selector tx
|}.

Definition WriterInvokeTransaction_from_V1 (tx : RpcInvokeTransactionV1) : WriterInvokeTransaction := WriterInvokeTransaction_InvokeV1 {|
  InvokeV1Transaction_calldata := RpcInvokeTransactionV1_calldata tx;
  InvokeV1Transaction_sender_address := RpcInvokeTransactionV1_sender_address tx;
  InvokeV1Transaction_nonce := RpcInvokeTransactionV1_nonce tx;
  InvokeV1Transaction_max_fee := RpcInvokeTransactionV1_max_fee tx;
  InvokeV1Transaction_signature := RpcInvokeTransactionV1_signature tx;
  InvokeV1Transaction_version := TransactionVersion_ONE;
  InvokeV1Transaction_type := InvokeType_Invoke
|}.

Definition WriterInvokeTransaction_from_V3 (tx : RpcInvokeTransactionV3) : WriterInvokeTransaction := WriterInvokeTransaction_InvokeV3 {|
  InvokeV3Transaction_resource_bounds := ResourceBoundsMapping_from_rpc (RpcInvokeTransactionV3_resource_bounds tx);
  InvokeV3Transaction_tip := RpcInvokeTransactionV3_tip tx;
  InvokeV3Transaction_calldata := RpcInvokeTransactionV3_calldata tx;
  InvokeV3Transaction_sender_address := RpcInvokeTransactionV3_sender_address tx;
  InvokeV3Transaction_nonce := RpcInvokeTransactionV3_nonce tx;
  InvokeV3Transaction_signature := RpcInvokeTransactionV3_signature tx;
  InvokeV3Transaction_nonce_data_availability_mode := WriterReservedDataAvailabilityMode_Reserved;
  InvokeV3Transaction_fee_data_availability_mode := WriterReservedDataAvailabilityMode_Reserved;
  InvokeV3Transaction_paymaster_data := RpcInvokeTransactionV3_paymaster_data tx;
  InvokeV3Transaction_account_deployment_data := RpcInvokeTransactionV3_account_deployment_data tx;
  InvokeV3Transaction_version := TransactionVersion_THREE;
  InvokeV3Transaction_type := InvokeType_Invoke
|}.

Definition WriterInvokeTransaction_from (tx : RpcInvokeTransaction) : WriterInvokeTransaction :=
  match tx with
  | RpcInvokeTransaction_Version0 invoke_tx => WriterInvokeTransaction_from_V0 invoke_tx
  | RpcInvokeTransaction_Version1 invoke_tx => WriterInvokeTransaction_from_V1 invoke_tx
  | RpcInvokeTransaction_Version3 invoke_tx => WriterInvokeTransaction_from_V3 invoke_tx
  end.

(** A transaction with its type, as the methods receive it. *)
Inductive TypedInvokeTransaction : Type := TypedInvokeTransaction_Invoke (tx : RpcInvokeTransaction).
Inductive TypedDeployAccountTransaction : Type := TypedDeployAccountTransaction_DeployAccount (tx : RpcDeployAccountTransaction).

Definition WriterInvokeTransaction_from_Typed (tx : TypedInvokeTransaction) : WriterInvokeTransaction :=
  match tx with TypedInvokeTransaction_Invoke tx => WriterInvokeTransaction_from tx end.

Definition WriterDeployAccountTransaction_from_Typed (tx : TypedDeployAccountTransaction) : WriterDeployAccountTransaction :=
  match tx with TypedDeployAccountTransaction_DeployAccount tx => WriterDeployAccountTransaction_from tx end.

Definition compress_and_encode (value : Json) : option rstring :=
  written ← json_to_bytes value;
  compressed_data ← gzip written;
  Some (base64_encode compressed_data).

Definition EntryPointByType_from_hash_map (entry_points_by_type : gmap EntryPointType (list EntryPoint)) : EntryPointByType := {|
  EntryPointByType_constructor := default [] (entry_points_by_type !! EntryPointType_Constructor);
  EntryPointByType_external := default [] (entry_points_by_type !! EntryPointType_External);
  EntryPointByType_l1handler := default [] (entry_points_by_type !! EntryPointType_L1Handler)
|}.

Definition EntryPointByType_to_hash_map (self : EntryPointByType) : gmap EntryPointType (list EntryPoint) :=
  list_to_map [(EntryPointType_Constructor, EntryPointByType_constructor self);
               (EntryPointType_External, EntryPointByType_external self);
               (EntryPointType_L1Handler, EntryPointByType_l1handler self)].

(** The class of a declaration, with its program compressed; [None] is a
    [StorageSerdeError]. *)
Definition writer_contract_class (contract_class : RpcContractClass) : option WriterContractClass :=
  value ← felts_to_value (RpcContractClass_sierra_program contract_class);
  compressed_sierra_program ← compress_and_encode value;
  Some {|
    WriterContractClass_compressed_sierra_program := compressed_sierra_program;
    WriterContractClass_contract_class_version := RpcContractClass_contract_class_version contract_class;
    WriterContractClass_entry_points_by_type := EntryPointByType_to_hash_map (RpcContractClass_entry_points_by_type contract_class);
    WriterContractClass_abi := RpcContractClass_abi contract_class
  |}.

Definition WriterDeclareTransaction_try_from (value : BroadcastedDeclareTransaction) : option WriterDeclareTransaction :=
  match value with
  | BroadcastedDeclareTransaction_V1 declare_v1 => Some (WriterDeclareTransaction_DeclareV1 {|
      DeclareV1Transaction_contract_class := BroadcastedDeclareV1Transaction_contract_class declare_v1;
      DeclareV1Transaction_sender_address := BroadcastedDeclareV1Transaction_sender_address declare_v1;
      DeclareV1Transaction_nonce := BroadcastedDeclareV1Transaction_nonce declare_v1;
      DeclareV1Transaction_max_fee := BroadcastedDeclareV1Transaction_max_fee declare_v1;
      DeclareV1Transaction_version := TransactionVersion_ONE;
      DeclareV1Transaction_signature := BroadcastedDeclareV1Transaction_signature declare_v1;
      DeclareV1Transaction_type := DeclareType_Declare |})
  | BroadcastedDeclareTransaction_V2 declare_v2 =>
      contract_class ← writer_contract_class (BroadcastedDeclareV2Transaction_contract_class declare_v2);
      Some (WriterDeclareTransaction_DeclareV2 {|
        DeclareV2Transaction_contract_class := contract_class;
        DeclareV2Transaction_compiled_class_hash := BroadcastedDeclareV2Transaction_compiled_class_hash declare_v2;
        DeclareV2Transaction_sender_address := BroadcastedDeclareV2Transaction_sender_address declare_v2;
        DeclareV2Transaction_nonce := BroadcastedDeclareV2Transaction_nonce declare_v2;
        DeclareV2Transaction_max_fee := BroadcastedDeclareV2Transaction_max_fee declare_v2;
        DeclareV2Transaction_version := TransactionVersion_TWO;
        DeclareV2Transaction_signature := BroadcastedDeclareV2Transaction_signature declare_v2;
        DeclareV2Transaction_type := DeclareType_Declare |})
  | BroadcastedDeclareTransaction_V3 declare_v3 =>
      contract_class ← writer_contract_class (BroadcastedDeclareV3Transaction_contract_class declare_v3);
      Some (WriterDeclareTransaction_DeclareV3 {|
        DeclareV3Transaction_contract_class := contract_class;
        DeclareV3Transaction_resource_bounds := ResourceBoundsMapping_from_rpc (BroadcastedDeclareV3Transaction_resource_bounds declare_v3);
        DeclareV3Transaction_tip := BroadcastedDeclareV3Transaction_tip declare_v3;
        DeclareV3Transaction_signature := BroadcastedDeclareV3Transaction_signature declare_v3;
        DeclareV3Transaction_nonce := BroadcastedDeclareV3Transaction_nonce declare_v3;
        DeclareV3Transaction_compiled_class_hash := BroadcastedDeclareV3Transaction_compiled_class_hash declare_v3;
        DeclareV3Transaction_sender_address := BroadcastedDeclareV3Transaction_sender_address declare_v3;
        DeclareV3Transaction_nonce_data_availability_mode := WriterReservedDataAvailabilityMode_Reserved;
        DeclareV3Transaction_fee_data_availability_mode := WriterReservedDataAvailabilityMode_Reserved;
        DeclareV3Transaction_paymaster_data := BroadcastedDeclareV3Transaction_paymaster_data declare_v3;
        DeclareV3Transaction_account_deployment_data := BroadcastedDeclareV3Transaction_account_deployment_data declare_v3;
        DeclareV3Transaction_version := TransactionVersion_THREE;
        DeclareV3Transaction_type := DeclareType_Declare |})
  end.

Definition AddInvokeOkResult_from (response : InvokeResponse) : AddInvokeOkResult :=
  mkAddInvokeOkResult (InvokeResponse_transaction_hash response).

Definition AddDeclareOkResult_from (response : DeclareResponse) : AddDeclareOkResult :=
  mkAddDeclareOkResult (DeclareResponse_transaction_hash response) (DeclareResponse_class_hash response).

Definition AddDeployAccountOkResult_from (response : DeployAccountResponse) : AddDeployAccountOkResult :=
  mkAddDeployAccountOkResult (DeployAccountResponse_transaction_hash response) (DeployAccountResponse_address response).

(** ** Receipts *)

(** A rejected block is [unreachable!]. *)
Definition TransactionFinalityStatus_from (status : BlockStatus) : Rpc TransactionFinalityStatus :=
  match status with
  | BlockStatus_AcceptedOnL1 => ret TransactionFinalityStatus_AcceptedOnL1
  | BlockStatus_AcceptedOnL2 => ret TransactionFinalityStatus_AcceptedOnL2
  | BlockStatus_Pending => ret TransactionFinalityStatus_AcceptedOnL2
  | BlockStatus_Rejected => panic
  end.

Definition RpcTransactionOutput_execution_status (self : RpcTransactionOutput) : TransactionExecutionStatus :=
  match self with
  | RpcTransactionOutput_Declare tx_output => RpcDeclareTransactionOutput_execution_status tx_output
  | RpcTransactionOutput_Deploy tx_output => RpcDeployTransactionOutput_execution_status tx_output
  | RpcTransactionOutput_DeployAccount tx_output => RpcDeployAccountTransactionOutput_execution_status tx_output
  | RpcTransactionOutput_Invoke tx_output => RpcInvokeTransactionOutput_execution_status tx_output
  | RpcTransactionOutput_L1Handler tx_output => RpcL1HandlerTransactionOutput_execution_status tx_output
  end.

Definition PendingTransactionOutput_execution_status (self : PendingTransactionOutput) : TransactionExecutionStatus :=
  match self with
  | PendingTransactionOutput_Declare tx_output => RpcDeclareTransactionOutput_execution_status tx_output
  | PendingTransactionOutput_DeployAccount tx_output => RpcDeployAccountTransactionOutput_execution_status tx_output
  | PendingTransactionOutput_Invoke tx_output => RpcInvokeTransactionOutput_execution_status tx_output
  | PendingTransactionOutput_L1Handler tx_output => RpcL1HandlerTransactionOutput_execution_status tx_output
  end.

Definition transaction_status (self : GeneralTransactionReceipt) : TransactionStatus :=
  match self with
  | GeneralTransactionReceipt_TransactionReceipt receipt =>
      mkTransactionStatus (RpcTransactionReceipt_finality_status receipt)
        (RpcTransactionOutput_execution_status (RpcTransactionReceipt_output receipt))
  | GeneralTransactionReceipt_PendingTransactionReceipt receipt =>
      mkTransactionStatus TransactionFinalityStatus_AcceptedOnL2
        (PendingTransactionOutput_execution_status (PendingTransactionReceipt_output receipt))
  end.

Definition TransactionReceiptInBlock_from (value : GeneralTransactionReceipt) : TransactionReceiptInBlock :=
  match value with
  | GeneralTransactionReceipt_TransactionReceipt receipt => {|
      TransactionReceiptInBlock_finality_status := RpcTransactionReceipt_finality_status receipt;
      TransactionReceiptInBlock_transaction_hash := RpcTransactionReceipt_transaction_hash receipt;
      TransactionReceiptInBlock_output := RpcTransactionReceipt_output receipt |}
  | GeneralTransactionReceipt_PendingTransactionReceipt receipt => {|
      TransactionReceiptInBlock_finality_status :=
        match PendingTransactionReceipt_finality_status receipt with
        | PendingTransactionFinalityStatus_AcceptedOnL2 => TransactionFinalityStatus_AcceptedOnL2
        end;
      TransactionReceiptInBlock_transaction_hash := PendingTransactionReceipt_transaction_hash receipt;
      TransactionReceiptInBlock_output :=
        match PendingTransactionReceipt_output receipt with
        | PendingTransactionOutput_DeployAccount deploy_account_output => RpcTransactionOutput_DeployAccount deploy_account_output
        | PendingTransactionOutput_Declare declare_output => RpcTransactionOutput_Declare declare_output
        | PendingTransactionOutput_Invoke invoke_output => RpcTransactionOutput_Invoke invoke_output
        | PendingTransactionOutput_L1Handler l1_handler_output => RpcTransactionOutput_L1Handler l1_handler_output
        end |}
  end.

Definition RpcBuiltin_try_from (builtin : Builtin) : option RpcBuiltin :=
  match builtin with
  | Builtin_RangeCheck => Some RpcBuiltin_RangeCheck
  | Builtin_Pedersen => Some RpcBuiltin_Pedersen
  | Builtin_Poseidon => Some RpcBuiltin_Poseidon
  | Builtin_EcOp => Some RpcBuiltin_EcOp
  | Builtin_Ecdsa => Some RpcBuiltin_Ecdsa
  | Builtin_Bitwise => Some RpcBuiltin_Bitwise
  | Builtin_Keccak => Some RpcBuiltin_Keccak
  | Builtin_SegmentArena => Some RpcBuiltin_SegmentArena
  | Builtin_AddMod | Builtin_MulMod | Builtin_RangeCheck96 => None
  end.

(** [NonZeroU64::try_from]. *)
Definition non_zero (v : Z) : option Z := if v =? 0 then None else Some v.

(** The keys stay distinct, so that the order in which the hash map is read does not
    matter for the map that is collected. *)
Definition ComputationResources_from (value : ExecutionResources) : ComputationResources := {|
  ComputationResources_steps := ExecutionResources_steps value;
  ComputationResources_builtin_instance_counter :=
    list_to_map (omap (fun '(k, v) => v ← non_zero v; k ← RpcBuiltin_try_from k; Some (k, v))
                   (map_to_list (ExecutionResources_builtin_instance_counter value)));
  ComputationResources_memory_holes := non_zero (ExecutionResources_memory_holes value)
|}.

Definition RpcExecutionResources_from (value : ExecutionResources) : RpcExecutionResources :=
  let l1_gas := GasVector_l1_gas (ExecutionResources_da_gas_consumed value) in
  let l1_data_gas := GasVector_l1_data_gas (ExecutionResources_da_gas_consumed value) in
  mkRpcExecutionResources (ComputationResources_from value) (mkDataAvailabilityResources l1_gas l1_data_gas).

Definition RpcTransactionOutput_from (tx_output : TransactionOutput) (tx_version : Z) (maybe_msg_hash : option L1L2MsgHash) :
    Rpc RpcTransactionOutput :=
  let actual_fee :=
    if (tx_version =? TransactionVersion_ZERO) || (tx_version =? TransactionVersion_ONE) || (tx_version =? TransactionVersion_TWO)
    then mkFeePayment (transaction_output_actual_fee tx_output) PriceUnit_Wei
    else mkFeePayment (transaction_output_actual_fee tx_output) PriceUnit_Fri in
  match tx_output with
  | TransactionOutput_Declare declare_tx_output => ret (RpcTransactionOutput_Declare {|
      RpcDeclareTransactionOutput_actual_fee := actual_fee;
      RpcDeclareTransactionOutput_messages_sent := DeclareTransactionOutput_messages_sent declare_tx_output;
      RpcDeclareTransactionOutput_events := DeclareTransactionOutput_events declare_tx_output;
      RpcDeclareTransactionOutput_execution_status := DeclareTransactionOutput_execution_status declare_tx_output;
      RpcDeclareTransactionOutput_execution_resources := RpcExecutionResources_from (DeclareTransactionOutput_execution_resources declare_tx_output) |})
  | TransactionOutput_Deploy deploy_tx_output => ret (RpcTransactionOutput_Deploy {|
      RpcDeployTransactionOutput_actual_fee := actual_fee;
      RpcDeployTransactionOutput_messages_sent := DeployTransactionOutput_messages_sent deploy_tx_output;
      RpcDeployTransactionOutput_events := DeployTransactionOutput_events deploy_tx_output;
      RpcDeployTransactionOutput_contract_address := DeployTransactionOutput_contract_address deploy_tx_output;
      RpcDeployTransactionOutput_execution_status := DeployTransactionOutput_execution_status deploy_tx_output;
      RpcDeployTransactionOutput_execution_resources := RpcExecutionResources_from (DeployTransactionOutput_execution_resources deploy_tx_output) |})
  | TransactionOutput_DeployAccount deploy_tx_output => ret (RpcTransactionOutput_DeployAccount {|
      RpcDeployAccountTransactionOutput_actual_fee := actual_fee;
      RpcDeployAccountTransactionOutput_messages_sent := DeployAccountTransactionOutput_messages_sent deploy_tx_output;
      RpcDeployAccountTransactionOutput_events := DeployAccountTransactionOutput_events deploy_tx_output;
      RpcDeployAccountTransactionOutput_contract_address := DeployAccountTransactionOutput_contract_address deploy_tx_output;
      RpcDeployAccountTransactionOutput_execution_status := DeployAccountTransactionOutput_execution_status deploy_tx_output;
      RpcDeployAccountTransactionOutput_execution_resources := RpcExecutionResources_from (DeployAccountTransactionOutput_execution_resources deploy_tx_output) |})
  | TransactionOutput_Invoke invoke_tx_output => ret (RpcTransactionOutput_Invoke {|
      RpcInvokeTransactionOutput_actual_fee := actual_fee;
      RpcInvokeTransactionOutput_messages_sent := InvokeTransactionOutput_messages_sent invoke_tx_output;
      RpcInvokeTransactionOutput_events := InvokeTransactionOutput_events invoke_tx_output;
      RpcInvokeTransactionOutput_execution_status := InvokeTransactionOutput_execution_status invoke_tx_output;
      RpcInvokeTransactionOutput_execution_resources := RpcExecutionResources_from (InvokeTransactionOutput_execution_resources invoke_tx_output) |})
  | TransactionOutput_L1Handler l1_handler_tx_output =>
      let! message_hash := expect maybe_msg_hash in
      ret (RpcTransactionOutput_L1Handler {|
        RpcL1HandlerTransactionOutput_actual_fee := actual_fee;
        RpcL1HandlerTransactionOutput_messages_sent := L1HandlerTransactionOutput_messages_sent l1_handler_tx_output;
        RpcL1HandlerTransactionOutput_events := L1HandlerTransactionOutput_events l1_handler_tx_output;
        RpcL1HandlerTransactionOutput_execution_status := L1HandlerTransactionOutput_execution_status l1_handler_tx_output;
        RpcL1HandlerTransactionOutput_execution_resources := RpcExecutionResources_from (L1HandlerTransactionOutput_execution_resources l1_handler_tx_output);
        RpcL1HandlerTransactionOutput_message_hash := message_hash |})
  end.

Definition PendingTransactionOutput_try_from (tx_output : RpcTransactionOutput) : Rpc PendingTransactionOutput :=
  match tx_output with
  | RpcTransactionOutput_Declare declare_tx_output => ret (PendingTransactionOutput_Declare declare_tx_output)
  | RpcTransactionOutput_Deploy _ => raise internal_server_error
  | RpcTransactionOutput_DeployAccount deploy_tx_output => ret (PendingTransactionOutput_DeployAccount deploy_tx_output)
  | RpcTransactionOutput_Invoke invoke_tx_output => ret (PendingTransactionOutput_Invoke invoke_tx_output)
  | RpcTransactionOutput_L1Handler l1_handler_tx_output => ret (PendingTransactionOutput_L1Handler l1_handler_tx_output)
  end.

(** ** The hash of a message from L1 *)

(** [payload.len() as u64] does not wrap: a length fits in 64 bits. *)
Definition l1_handler_message_hash (contract_address nonce entry_point_selector : Z) (calldata : list Z) : Rpc L1L2MsgHash :=
  match calldata with
  | [] => panic
  | from_address :: payload =>
      let payload_length_as_felt := felt_from_uint (zlength payload) in
      let to_encode :=
        ([felt_to_bytes_be from_address; felt_to_bytes_be contract_address; felt_to_bytes_be nonce;
          felt_to_bytes_be entry_point_selector; felt_to_bytes_be payload_length_as_felt] ++ (felt_to_bytes_be <$> payload))%list in
      let! encoded := expect (encode_packed to_encode) in
      ret (keccak256 encoded)
  end.

Definition calc_msg_hash (self : L1HandlerTransaction) : Rpc L1L2MsgHash :=
  l1_handler_message_hash (L1HandlerTransaction_contract_address self) (L1HandlerTransaction_nonce self)
    (L1HandlerTransaction_entry_point_selector self) (L1HandlerTransaction_calldata self).

Definition client_calc_msg_hash (self : ClientL1HandlerTransaction) : Rpc L1L2MsgHash :=
  l1_handler_message_hash (ClientL1Handler_contract_address self) (ClientL1Handler_nonce self)
    (ClientL1Handler_entry_point_selector self) (ClientL1Handler_calldata self).

(** ** Headers and state updates *)

Definition RpcBlockHeader_from (header : BlockHeader) : RpcBlockHeader := {|
  RpcBlockHeader_block_hash := BlockHeader_block_hash header;
  RpcBlockHeader_parent_hash := BlockHeader_parent_hash header;
  RpcBlockHeader_block_number := BlockHeader_block_number header;
  RpcBlockHeader_sequencer_address := BlockHeader_sequencer header;
  RpcBlockHeader_new_root := BlockHeader_state_root header;
  RpcBlockHeader_timestamp := BlockHeader_timestamp header;
  RpcBlockHeader_l1_gas_price := {|
    ResourcePrice_price_in_wei := GasPricePerToken_price_in_wei (BlockHeader_l1_gas_price header);
    ResourcePrice_price_in_fri := GasPricePerToken_price_in_fri (BlockHeader_l1_gas_price header) |};
  RpcBlockHeader_l1_data_gas_price := {|
    ResourcePrice_price_in_wei := GasPricePerToken_price_in_wei (BlockHeader_l1_data_gas_price header);
    ResourcePrice_price_in_fri := GasPricePerToken_price_in_fri (BlockHeader_l1_data_gas_price header) |};
  RpcBlockHeader_l1_da_mode := BlockHeader_l1_da_mode header;
  RpcBlockHeader_starknet_version := BlockHeader_starknet_version header
|}.

Definition RpcThinStateDiff_from (diff : ThinStateDiff) : RpcThinStateDiff := {|
  RpcThinStateDiff_deployed_contracts :=
    (fun '(address, class_hash) => mkRpcDeployedContract address class_hash) <$> ThinStateDiff_deployed_contracts diff;
  RpcThinStateDiff_storage_diffs :=
    (fun '(address, entries) => mkStorageDiff address ((fun '(key, value) => mkRpcStorageEntry key value) <$> entries))
      <$> ThinStateDiff_storage_diffs diff;
  RpcThinStateDiff_declared_classes :=
    (fun '(class_hash, compiled_class_hash) => mkClassHashes class_hash compiled_class_hash) <$> ThinStateDiff_declared_classes diff;
  RpcThinStateDiff_deprecated_declared_classes := ThinStateDiff_deprecated_declared_classes diff;
  RpcThinStateDiff_nonces :=
    (fun '(contract_address, nonce) => mkContractNonce contract_address nonce) <$> ThinStateDiff_nonces diff;
  RpcThinStateDiff_replaced_classes :=
    (fun '(contract_address, class_hash) => mkReplacedClasses contract_address class_hash) <$> ThinStateDiff_replaced_classes diff
|}.

Definition RpcThinStateDiff_from_client (diff : ClientStateDiff) : RpcThinStateDiff := {|
  RpcThinStateDiff_deployed_contracts :=
    (fun '(mkDeployedContract address class_hash) => mkRpcDeployedContract address class_hash) <$> ClientStateDiff_deployed_contracts diff;
  RpcThinStateDiff_storage_diffs :=
    (fun '(address, entries) => mkStorageDiff address ((fun '(mkStorageEntry key value) => mkRpcStorageEntry key value) <$> entries))
      <$> ClientStateDiff_storage_diffs diff;
  RpcThinStateDiff_declared_classes :=
    (fun '(mkDeclaredClassHashEntry class_hash compiled_class_hash) => mkClassHashes class_hash compiled_class_hash)
      <$> ClientStateDiff_declared_classes diff;
  RpcThinStateDiff_deprecated_declared_classes := ClientStateDiff_old_declared_contracts diff;
  RpcThinStateDiff_nonces :=
    (fun '(contract_address, nonce) => mkContractNonce contract_address nonce) <$> ClientStateDiff_nonces diff;
  RpcThinStateDiff_replaced_classes :=
    (fun '(mkReplacedClass contract_address class_hash) => mkReplacedClasses contract_address class_hash)
      <$> ClientStateDiff_replaced_classes diff
|}.

(** ** Classes *)

(** The bytes of ["0.1.0"]. *)
Definition CONTRACT_CLASS_VERSION : rstring := string_bytes "0.1.0".

Definition RpcContractClass_from (class : ContractClass) : RpcContractClass := {|
  RpcContractClass_sierra_program := ContractClass_sierra_program class;
  RpcContractClass_contract_class_version := CONTRACT_CLASS_VERSION;
  RpcContractClass_entry_points_by_type := EntryPointByType_from_hash_map (ContractClass_entry_points_by_type class);
  RpcContractClass_abi := ContractClass_abi class
|}.

Record RpcDeprecatedContractClass : Type := mkRpcDeprecatedContractClass {
  RpcDeprecatedContractClass_abi : list ContractClassAbiEntry;
  RpcDeprecatedContractClass_program : rstring;
  RpcDeprecatedContractClass_entry_points_by_type : gmap DeprecatedEntryPointType (list DeprecatedEntryPoint)
}.

(** A [StorageSerdeError] is an internal error for every caller. *)
Definition RpcDeprecatedContractClass_try_from (class : DeprecatedContractClass) : Rpc RpcDeprecatedContractClass :=
  let! program_value := ok_or_internal (program_to_value (DeprecatedContractClass_program class)) in
  let! program_value :=
    if json_is_null (Program_attributes (DeprecatedContractClass_program class))
    then expect (json_remove "attributes" program_value) else ret program_value in
  let! program_value :=
    if json_is_null (Program_compiler_version (DeprecatedContractClass_program class))
    then expect (json_remove "compiler_version" program_value) else ret program_value in
  let abi := default [] (DeprecatedContractClass_abi class) in
  let! program := ok_or_internal (compress_and_encode program_value) in
  ret {|
    RpcDeprecatedContractClass_abi := abi;
    RpcDeprecatedContractClass_program := program;
    RpcDeprecatedContractClass_entry_points_by_type := DeprecatedContractClass_entry_points_by_type class
  |}.

Inductive GatewayContractClass : Type :=
| GatewayContractClass_Cairo0 (class : RpcDeprecatedContractClass)
| GatewayContractClass_Sierra (class : RpcContractClass).

Definition GatewayContractClass_try_from (class : ApiContractClass) : Rpc GatewayContractClass :=
  match class with
  | ApiContractClass_DeprecatedContractClass deprecated_class =>
      let! class := RpcDeprecatedContractClass_try_from deprecated_class in
      ret (GatewayContractClass_Cairo0 class)
  | ApiContractClass_ContractClass sierra_class => ret (GatewayContractClass_Sierra (RpcContractClass_from sierra_class))
  end.

Inductive CompiledContractClass : Type :=
| CompiledContractClass_V0 (class : DeprecatedContractClass)
| CompiledContractClass_V1 (class : CasmContractClass).

End Convert.
