(* ===== verification/Rpc.v ===== *)
(** * The JSON-RPC server

    Models the methods of [crates/papyrus_rpc/src/v0_7/api/api_impl.rs] that read the
    chain or forward a transaction, with [v0_7/block.rs], [lib.rs],
    [syncing_state.rs] and the readers of
    [crates/papyrus_execution/src/execution_utils.rs].

    A method is a computation over the storage its read transaction sees. What the
    locks of the server hold when they are read ([pending_data], [pending_classes],
    [shared_highest_block]) are fields of the server. A method that opens a second
    transaction gets the storage of that moment as an argument. *)

From stdpp Require Import base gmap list strings fin_maps.
From Stdlib Require Import ZArith Lia.
From S2P Require Import Prelude StorageTables StarknetTypes StorageTxn Header Body State ClientObjects PendingSync ProtoCommon.
From S2P Require Import ProtoTransaction RpcConvert.

#[local] Open Scope Z_scope.

(** [starknet_api]: the states next to a block, and the default header. *)
Class StarknetBlockApi {BN : BlockNumberApi} {SN : StateNumberApi} : Type := {
  unchecked_right_after_block : Z -> StateNumber;
  right_after_block : Z -> option StateNumber;
  default_BlockHeader : BlockHeader;
  unchecked_right_after_spec : forall b, block_after (unchecked_right_after_block b) = bn_unchecked_next b;
  right_after_spec : forall b, block_after <$> right_after_block b = bn_next b
}.

Record EventFilter : Type := mkEventFilter {
  EventFilter_from_block : option BlockId;
  EventFilter_to_block : option BlockId;
  EventFilter_continuation_token : option rstring;
  EventFilter_chunk_size : Z;
  EventFilter_address : option Z;
  EventFilter_keys : list (gset Z)
}.

Record EventsChunk : Type := mkEventsChunk {
  EventsChunk_events : list RpcEvent;
  EventsChunk_continuation_token : option rstring
}.

Section Rpc.
Context {BN : BlockNumberApi} {SN : StateNumberApi} {X : ExternalTypes} {SF : StorageFiles} {HS : HashSetIter}.
Context {SB : StarknetBlockApi} {F : FeltApi} {TA : TransactionApi} {RC : RpcCrates}.

Abbreviation Rpc := (M StorageTxn ErrorObjectOwned).

(** [map_err(internal_server_error)?]. *)
Definition internal {E A} (m : M StorageTxn E A) : Rpc A := map_err (fun _ => internal_server_error) m.

(** A conversion of [starknet_client], whose error is internal. *)
Definition internal_convert {A} (m : Convert A) : Rpc A :=
  match m tt with
  | Done _ a => ret a
  | Fail _ _ => raise internal_server_error
  | Panic => panic
  end.

(** [collect::<Result<Vec<_>, _>>()]. *)
Fixpoint try_collect {A B} (f : A -> Rpc B) (l : list A) : Rpc (list B) :=
  match l with
  | [] => ret []
  | x :: l' =>
      let! y := f x in
      let! rest := try_collect f l' in
      ret (y :: rest)
  end.

(** ** The server *)

Record JsonRpcServerImpl : Type := mkJsonRpcServerImpl {
  rpc_max_events_chunk_size : Z;
  rpc_max_events_keys : Z;
  rpc_starting_block : BlockHashAndNumber;
  rpc_shared_highest_block : option BlockHashAndNumber;
  rpc_pending_data : PendingData;
  rpc_pending_classes : PendingClasses
}.

Implicit Types self : JsonRpcServerImpl.

Definition verify_storage_scope : Rpc unit :=
  let! txn := get in
  match t_scope txn with
  | StorageScope_StateOnly => raise (internal_server_error_with_msg "Unsupported method in state-only scope.")
  | StorageScope_FullArchive => ret tt
  end.

Definition get_latest_block_number : Rpc (option Z) :=
  let! state_marker := internal get_state_marker in
  ret (bn_prev state_marker).

Definition get_block_status (block_number : Z) : Rpc BlockStatus :=
  let! base_layer_tip := internal get_base_layer_block_marker in
  ret (if block_number <? base_layer_tip then BlockStatus_AcceptedOnL1 else BlockStatus_AcceptedOnL2).

(** ** Blocks *)

Definition get_block_header_by_number (block_number : Z) : Rpc BlockHeader :=
  let! header := internal (get_block_header block_number) in
  ok_or_raise BLOCK_NOT_FOUND header.

Definition get_accepted_block_number (block_id : BlockId) : Rpc Z :=
  match block_id with
  | BlockId_HashOrNumber (RpcBlockHashOrNumber_Hash block_hash) =>
      let! found := internal (get_block_number_by_hash block_hash) in
      let! block_number := ok_or_raise BLOCK_NOT_FOUND found in
      let! latest := get_latest_block_number in
      let! last_block_number := ok_or_raise BLOCK_NOT_FOUND latest in
      if last_block_number <? block_number then raise BLOCK_NOT_FOUND else ret block_number
  | BlockId_HashOrNumber (RpcBlockHashOrNumber_Number block_number) =>
      let! latest := get_latest_block_number in
      let! last_block_number := ok_or_raise BLOCK_NOT_FOUND latest in
      if last_block_number <? block_number then raise BLOCK_NOT_FOUND else ret block_number
  | BlockId_Tag (Tag_Latest | Tag_Pending) =>
      let! latest := get_latest_block_number in
      ok_or_raise BLOCK_NOT_FOUND latest
  end.

Definition is_pending (block_id : BlockId) : bool :=
  match block_id with BlockId_Tag Tag_Pending => true | _ => false end.

Definition get_block_txs_by_number (block_number : Z) : Rpc (list RpcTransaction) :=
  let! found := internal (get_block_transactions block_number) in
  let! transactions := ok_or_raise BLOCK_NOT_FOUND found in
  try_collect RpcTransaction_try_from transactions.

Definition get_block_tx_hashes_by_number (block_number : Z) : Rpc (list Z) :=
  let! found := internal (get_block_transaction_hashes block_number) in
  ok_or_raise BLOCK_NOT_FOUND found.

(** ** Pending data *)

Definition pending_transaction_receipts (b : PendingBlockOrDeprecated) : list TransactionReceipt :=
  match b with
  | PendingBlockOrDeprecated_Deprecated block => DeprecatedPendingBlock_transaction_receipts block
  | PendingBlockOrDeprecated_Current block => PendingBlock_transaction_receipts block
  end.

Definition pending_sequencer_address (b : PendingBlockOrDeprecated) : Z :=
  match b with
  | PendingBlockOrDeprecated_Deprecated block => DeprecatedPendingBlock_sequencer_address block
  | PendingBlockOrDeprecated_Current block => PendingBlock_sequencer_address block
  end.

Definition pending_timestamp (b : PendingBlockOrDeprecated) : Z :=
  match b with
  | PendingBlockOrDeprecated_Deprecated block => DeprecatedPendingBlock_timestamp block
  | PendingBlockOrDeprecated_Current block => PendingBlock_timestamp block
  end.

Definition pending_starknet_version (b : PendingBlockOrDeprecated) : rstring :=
  match b with
  | PendingBlockOrDeprecated_Deprecated block => DeprecatedPendingBlock_starknet_version block
  | PendingBlockOrDeprecated_Current block => PendingBlock_starknet_version block
  end.

(** The pending block of a node that has none for its last block. *)
Definition empty_pending_data (latest_header : BlockHeader) : PendingData := {|
  PendingData_block := PendingBlockOrDeprecated_Deprecated {|
    DeprecatedPendingBlock_accepted_on_l2_extra_data := None;
    DeprecatedPendingBlock_parent_block_hash := BlockHeader_block_hash latest_header;
    DeprecatedPendingBlock_status := ClientBlockStatus_AcceptedOnL2;
    DeprecatedPendingBlock_eth_l1_gas_price := GasPricePerToken_price_in_wei (BlockHeader_l1_gas_price latest_header);
    DeprecatedPendingBlock_strk_l1_gas_price := GasPricePerToken_price_in_fri (BlockHeader_l1_gas_price latest_header);
    DeprecatedPendingBlock_transactions := [];
    DeprecatedPendingBlock_timestamp := BlockHeader_timestamp latest_header;
    DeprecatedPendingBlock_sequencer_address := BlockHeader_sequencer latest_header;
    DeprecatedPendingBlock_transaction_receipts := [];
    DeprecatedPendingBlock_starknet_version := BlockHeader_starknet_version latest_header
  |};
  PendingData_state_update := mkPendingStateUpdate (BlockHeader_state_root latest_header) (mkClientStateDiff [] [] [] [] [] [])
|}.

(** With no block, the default header gets the genesis hash as its parent's; only its
    own hash is looked at. *)
Definition read_pending_data (pending_data : PendingData) : Rpc PendingData :=
  let! latest := get_latest_block_number in
  let! latest_header :=
    match latest with
    | Some latest_block_number => get_block_header_by_number latest_block_number
    | None => ret default_BlockHeader
    end in
  if pending_parent_block_hash (PendingData_block pending_data) =? BlockHeader_block_hash latest_header
  then ret pending_data
  else ret (empty_pending_data latest_header).

(** ** Readers of the state, over the pending state ([execution_utils.rs]) *)

Definition exec_get_storage_at (state_number : StateNumber) (pending_storage_diffs : option (list (Z * list StorageEntry)))
    (contract_address key : Z) : Txn Z :=
  match (pending_storage_diffs ← pending_storage_diffs;
         storage_entries ← snd <$> list_find (fun e => e.1 = contract_address) pending_storage_diffs;
         snd <$> list_find (fun e => key = StorageEntry_key e) storage_entries.2) with
  | Some entry => ret (StorageEntry_value entry)
  | None => get_storage_at state_number contract_address key
  end.

Definition exec_get_nonce_at (state_number : StateNumber) (pending_nonces : option (list (Z * Z))) (contract_address : Z) : Txn (option Z) :=
  match (pending_nonces ← pending_nonces; snd <$> list_find (fun e => e.1 = contract_address) pending_nonces) with
  | Some (_, nonce) => ret (Some nonce)
  | None => get_nonce_at state_number contract_address
  end.

Definition exec_get_class_hash_at (state_number : StateNumber)
    (pending_deployed_contracts_and_replaced_classes : option (list DeployedContract * list ReplacedClass)) (contract_address : Z) :
    Txn (option Z) :=
  match pending_deployed_contracts_and_replaced_classes with
  | Some (pending_deployed_contracts, pending_replaced_classes) =>
      match list_find (fun r => ReplacedClass_address r = contract_address) pending_replaced_classes with
      | Some (_, replaced) => ret (Some (ReplacedClass_class_hash replaced))
      | None =>
          match list_find (fun d => DeployedContract_address d = contract_address) pending_deployed_contracts with
          | Some (_, deployed) => ret (Some (DeployedContract_class_hash deployed))
          | None => get_class_hash_at state_number contract_address
          end
      end
  | None => get_class_hash_at state_number contract_address
  end.

(** ** Receipts *)

Definition get_non_pending_receipt (transaction_index : Z * Z) (transaction_hash tx_version : Z) (msg_hash : option L1L2MsgHash) :
    Rpc GeneralTransactionReceipt :=
  let block_number := transaction_index.1 in
  let! status := get_block_status block_number in
  match status with
  | BlockStatus_Rejected => raise BLOCK_NOT_FOUND
  | _ =>
      let! header := internal (get_block_header_by_number block_number) in
      let! output := internal (get_transaction_output transaction_index) in
      let! output := ok_or_raise TRANSACTION_HASH_NOT_FOUND output in
      let! output := RpcTransactionOutput_from output tx_version msg_hash in
      let! finality_status := TransactionFinalityStatus_from status in
      ret (GeneralTransactionReceipt_TransactionReceipt {|
        RpcTransactionReceipt_finality_status := finality_status;
        RpcTransactionReceipt_transaction_hash := transaction_hash;
        RpcTransactionReceipt_block_hash := BlockHeader_block_hash header;
        RpcTransactionReceipt_block_number := block_number;
        RpcTransactionReceipt_output := output |})
  end.

Definition client_receipt_to_rpc_pending_receipt (client_transaction : ClientTransaction) (client_transaction_receipt : TransactionReceipt) :
    Rpc GeneralTransactionReceipt :=
  let transaction_hash := client_transaction_hash client_transaction in
  let! starknet_api_output := internal_convert (into_starknet_api_transaction_output client_transaction_receipt client_transaction) in
  let! msg_hash :=
    match client_transaction with
    | ClientTransaction_L1Handler tx => let! hash := client_calc_msg_hash tx in ret (Some hash)
    | _ => ret None
    end in
  let! output := RpcTransactionOutput_from starknet_api_output (client_transaction_version client_transaction) msg_hash in
  let! output := PendingTransactionOutput_try_from output in
  ret (GeneralTransactionReceipt_PendingTransactionReceipt {|
    PendingTransactionReceipt_finality_status := PendingTransactionFinalityStatus_AcceptedOnL2;
    PendingTransactionReceipt_transaction_hash := transaction_hash;
    PendingTransactionReceipt_output := output |}).

(** ** Blocks with their transactions *)

Definition PendingBlockHeader_of (block : PendingBlockOrDeprecated) : PendingBlockHeader := {|
  PendingBlockHeader_parent_hash := pending_parent_block_hash block;
  PendingBlockHeader_sequencer_address := pending_sequencer_address block;
  PendingBlockHeader_timestamp := pending_timestamp block;
  PendingBlockHeader_l1_gas_price := {|
    ResourcePrice_price_in_wei := GasPricePerToken_price_in_wei (pending_l1_gas_price block);
    ResourcePrice_price_in_fri := GasPricePerToken_price_in_fri (pending_l1_gas_price block) |};
  PendingBlockHeader_l1_data_gas_price := {|
    ResourcePrice_price_in_wei := GasPricePerToken_price_in_wei (pending_l1_data_gas_price block);
    ResourcePrice_price_in_fri := GasPricePerToken_price_in_fri (pending_l1_data_gas_price block) |};
  PendingBlockHeader_l1_da_mode := pending_l1_da_mode block;
  PendingBlockHeader_starknet_version := pending_starknet_version block
|}.

Definition get_block self (block_id : BlockId) (get_pending_transactions : PendingData -> Rpc Transactions)
    (get_transactions : Z -> Rpc Transactions) : Rpc RpcBlock :=
  verify_storage_scope ;!
  if is_pending block_id then
    let! pending_data := read_pending_data (rpc_pending_data self) in
    let header := GeneralBlockHeader_PendingBlockHeader (PendingBlockHeader_of (PendingData_block pending_data)) in
    let! transactions := get_pending_transactions pending_data in
    ret {| RpcBlock_status := None; RpcBlock_header := header; RpcBlock_transactions := transactions |}
  else
    let! block_number := get_accepted_block_number block_id in
    let! status := get_block_status block_number in
    let! header := get_block_header_by_number block_number in
    let! transactions := get_transactions block_number in
    ret {| RpcBlock_status := Some status; RpcBlock_header := GeneralBlockHeader_BlockHeader (RpcBlockHeader_from header);
           RpcBlock_transactions := transactions |}.

Definition get_block_w_transaction_hashes self (block_id : BlockId) : Rpc RpcBlock :=
  get_block self block_id
    (fun pending_data => ret (Transactions_Hashes (client_transaction_hash <$> pending_transactions (PendingData_block pending_data))))
    (fun block_number =>
       let! hashes := get_block_tx_hashes_by_number block_number in
       ret (Transactions_Hashes hashes)).

Definition convert_pending_transaction (client_transaction : ClientTransaction) : Rpc RpcTransaction :=
  let! starknet_api_transaction := internal_convert (convert_transaction client_transaction) in
  internal (RpcTransaction_try_from starknet_api_transaction).

Definition get_block_w_full_transactions self (block_id : BlockId) : Rpc RpcBlock :=
  get_block self block_id
    (fun pending_data =>
       let! transactions := try_collect (fun client_transaction =>
           let transaction_hash := client_transaction_hash client_transaction in
           let! transaction := convert_pending_transaction client_transaction in
           ret (mkTransactionWithHash transaction_hash transaction))
         (pending_transactions (PendingData_block pending_data)) in
       ret (Transactions_Full transactions))
    (fun block_number =>
       let! transactions := get_block_txs_by_number block_number in
       let! transaction_hashes := get_block_tx_hashes_by_number block_number in
       ret (Transactions_Full (zip_with (fun transaction transaction_hash => mkTransactionWithHash transaction_hash transaction)
                                 transactions transaction_hashes))).

Definition msg_hash_of (transaction : RpcTransaction) : Rpc (option L1L2MsgHash) :=
  match transaction with
  | RpcTransaction_L1Handler l1_handler_tx => let! hash := calc_msg_hash l1_handler_tx in ret (Some hash)
  | _ => ret None
  end.

Definition transaction_with_receipt (block_number : Z) (entry : nat * (RpcTransaction * Z)) : Rpc TransactionWithReceipt :=
  let '(transaction_offset, (transaction, transaction_hash)) := entry in
  let transaction_index := (block_number, Z.of_nat transaction_offset) in
  let! msg_hash := msg_hash_of transaction in
  let transaction_version := RpcTransaction_version transaction in
  let! receipt := get_non_pending_receipt transaction_index transaction_hash transaction_version msg_hash in
  ret (mkTransactionWithReceipt (TransactionReceiptInBlock_from receipt) transaction).

Definition get_block_w_full_transactions_and_receipts self (block_id : BlockId) : Rpc RpcBlock :=
  get_block self block_id
    (fun pending_data =>
       let block := PendingData_block pending_data in
       let! transactions := try_collect (fun '(client_transaction, client_transaction_receipt) =>
           let! receipt := client_receipt_to_rpc_pending_receipt client_transaction client_transaction_receipt in
           let! transaction := convert_pending_transaction client_transaction in
           ret (mkTransactionWithReceipt (TransactionReceiptInBlock_from receipt) transaction))
         (zip (pending_transactions block) (pending_transaction_receipts block)) in
       ret (Transactions_FullWithReceipts transactions))
    (fun block_number =>
       let! transactions := get_block_txs_by_number block_number in
       let! transaction_hashes := get_block_tx_hashes_by_number block_number in
       let! transactions := try_collect (transaction_with_receipt block_number) (imap pair (zip transactions transaction_hashes)) in
       ret (Transactions_FullWithReceipts transactions)).

(** ** The methods on blocks and transactions *)

Definition block_number : Rpc Z :=
  let! latest := get_latest_block_number in
  ok_or_raise NO_BLOCKS latest.

Definition block_hash_and_number : Rpc BlockHashAndNumber :=
  let! latest := get_latest_block_number in
  let! block_number := ok_or_raise NO_BLOCKS latest in
  let! header := get_block_header_by_number block_number in
  ret (mkBlockHashAndNumber (RpcBlockHeader_block_hash (RpcBlockHeader_from header)) block_number).

Definition find_transaction (transaction_hash : Z) (transactions : list ClientTransaction) : option ClientTransaction :=
  snd <$> list_find (fun tx => client_transaction_hash tx = transaction_hash) transactions.

Definition get_transaction_by_hash self (transaction_hash : Z) : Rpc TransactionWithHash :=
  verify_storage_scope ;!
  let! found := internal (get_transaction_idx_by_hash transaction_hash) in
  match found with
  | Some transaction_index =>
      let! found := internal (get_transaction transaction_index) in
      let! transaction := ok_or_raise TRANSACTION_HASH_NOT_FOUND found in
      let! transaction := RpcTransaction_try_from transaction in
      ret (mkTransactionWithHash transaction_hash transaction)
  | None =>
      let! pending_data := read_pending_data (rpc_pending_data self) in
      let! client_transaction := ok_or_raise TRANSACTION_HASH_NOT_FOUND
        (find_transaction transaction_hash (pending_transactions (PendingData_block pending_data))) in
      let! starknet_api_transaction := internal_convert (convert_transaction client_transaction) in
      let! transaction := RpcTransaction_try_from starknet_api_transaction in
      ret (mkTransactionWithHash transaction_hash transaction)
  end.

Definition get_transaction_by_block_id_and_index self (block_id : BlockId) (index : Z) : Rpc TransactionWithHash :=
  verify_storage_scope ;!
  let! (starknet_api_transaction, transaction_hash) :=
    if is_pending block_id then
      let! pending_data := read_pending_data (rpc_pending_data self) in
      let! client_transaction := ok_or_raise INVALID_TRANSACTION_INDEX
        (lookup_z (pending_transactions (PendingData_block pending_data)) index) in
      let transaction_hash := client_transaction_hash client_transaction in
      let! starknet_api_transaction := internal_convert (convert_transaction client_transaction) in
      ret (starknet_api_transaction, transaction_hash)
    else
      let! block_number := get_accepted_block_number block_id in
      let tx_index := (block_number, index) in
      let! transaction := internal (get_transaction tx_index) in
      let! transaction := ok_or_raise INVALID_TRANSACTION_INDEX transaction in
      let! transaction_hash := internal (get_transaction_hash_by_idx tx_index) in
      let! transaction_hash := ok_or_raise INVALID_TRANSACTION_INDEX transaction_hash in
      ret (transaction, transaction_hash) in
  let! transaction := RpcTransaction_try_from starknet_api_transaction in
  ret (mkTransactionWithHash transaction_hash transaction).

Definition get_block_transaction_count self (block_id : BlockId) : Rpc Z :=
  verify_storage_scope ;!
  if is_pending block_id then
    let! pending_data := read_pending_data (rpc_pending_data self) in
    ret (zlength (pending_transactions (PendingData_block pending_data)))
  else
    let! block_number := get_accepted_block_number block_id in
    let! count := internal (get_block_transactions_count block_number) in
    ok_or_raise BLOCK_NOT_FOUND count.

(** The version of a stored transaction. *)
Definition stored_transaction_version (tx : Transaction) : Z :=
  match tx with
  | Transaction_Declare tx => declare_transaction_version tx
  | Transaction_Deploy tx => DeployTransaction_version tx
  | Transaction_DeployAccount tx => deploy_account_transaction_version tx
  | Transaction_Invoke tx => invoke_transaction_version tx
  | Transaction_L1Handler tx => L1HandlerTransaction_version tx
  end.

Definition get_transaction_receipt self (transaction_hash : Z) : Rpc GeneralTransactionReceipt :=
  verify_storage_scope ;!
  let! found := internal (get_transaction_idx_by_hash transaction_hash) in
  match found with
  | Some transaction_index =>
      let! tx := internal (get_transaction transaction_index) in
      let! tx := expect tx in
      let tx_version := stored_transaction_version tx in
      let! msg_hash :=
        match tx with
        | Transaction_L1Handler l1_handler_tx => let! hash := calc_msg_hash l1_handler_tx in ret (Some hash)
        | _ => ret None
        end in
      get_non_pending_receipt transaction_index transaction_hash tx_version msg_hash
  | None =>
      let! pending_data := read_pending_data (rpc_pending_data self) in
      let! client_transaction_receipt := ok_or_raise TRANSACTION_HASH_NOT_FOUND
        (snd <$> list_find (fun receipt => TransactionReceipt_transaction_hash receipt = transaction_hash)
                   (pending_transaction_receipts (PendingData_block pending_data))) in
      let! client_transaction := ok_or_raise TRANSACTION_HASH_NOT_FOUND
        (find_transaction transaction_hash (pending_transactions (PendingData_block pending_data))) in
      client_receipt_to_rpc_pending_receipt client_transaction client_transaction_receipt
  end.

Definition get_transaction_status self (transaction_hash : Z) : Rpc TransactionStatus :=
  let! receipt := get_transaction_receipt self transaction_hash in
  ret (transaction_status receipt).

(** ** The methods on the state *)

(** Address 0x1 holds the hashes of the blocks; no contract is deployed there. *)
Definition BLOCK_HASH_TABLE_ADDRESS : Z := 1.

Definition rpc_get_storage_at self (contract_address key : Z) (block_id : BlockId) : Rpc Z :=
  let! maybe_pending_storage_diffs :=
    if is_pending block_id then
      let! pending_data := read_pending_data (rpc_pending_data self) in
      ret (Some (ClientStateDiff_storage_diffs (PendingStateUpdate_state_diff (PendingData_state_update pending_data))))
    else ret None in
  let! block_number := get_accepted_block_number block_id in
  let state_number := unchecked_right_after_block block_number in
  let! res := internal (exec_get_storage_at state_number maybe_pending_storage_diffs contract_address key) in
  (if (res =? 0) && negb (contract_address =? BLOCK_HASH_TABLE_ADDRESS) then
     let! class_hash := internal (get_class_hash_at state_number contract_address) in
     ok_or_raise CONTRACT_NOT_FOUND class_hash ;! ret tt
   else ret tt) ;!
  ret res.

Definition get_class_hash_at_block self (block_id : BlockId) (contract_address : Z) : Rpc Z :=
  let! maybe_pending_deployed_contracts_and_replaced_classes :=
    if is_pending block_id then
      let! pending_data := read_pending_data (rpc_pending_data self) in
      let pending_state_diff := PendingStateUpdate_state_diff (PendingData_state_update pending_data) in
      ret (Some (ClientStateDiff_deployed_contracts pending_state_diff, ClientStateDiff_replaced_classes pending_state_diff))
    else ret None in
  let! block_number := get_accepted_block_number block_id in
  let state_number := unchecked_right_after_block block_number in
  let! class_hash := internal (exec_get_class_hash_at state_number maybe_pending_deployed_contracts_and_replaced_classes contract_address) in
  ok_or_raise CONTRACT_NOT_FOUND class_hash.

Definition get_nonce self (block_id : BlockId) (contract_address : Z) : Rpc Z :=
  let! maybe_pending_nonces :=
    if is_pending block_id then
      let! pending_data := read_pending_data (rpc_pending_data self) in
      ret (Some (ClientStateDiff_nonces (PendingStateUpdate_state_diff (PendingData_state_update pending_data))))
    else ret None in
  let! block_number := get_accepted_block_number block_id in
  let state_number := unchecked_right_after_block block_number in
  let! nonce := internal (exec_get_nonce_at state_number maybe_pending_nonces contract_address) in
  ok_or_raise CONTRACT_NOT_FOUND nonce.

Definition retain_storage_diffs (storage_diffs : list (Z * list (Z * Z))) : list (Z * list (Z * Z)) :=
  filter (fun e => e.2 <> []) storage_diffs.

Definition without_empty_storage (d : ThinStateDiff) : ThinStateDiff := {|
  ThinStateDiff_deployed_contracts := ThinStateDiff_deployed_contracts d;
  ThinStateDiff_storage_diffs := retain_storage_diffs (ThinStateDiff_storage_diffs d);
  ThinStateDiff_declared_classes := ThinStateDiff_declared_classes d;
  ThinStateDiff_deprecated_declared_classes := ThinStateDiff_deprecated_declared_classes d;
  ThinStateDiff_nonces := ThinStateDiff_nonces d;
  ThinStateDiff_replaced_classes := ThinStateDiff_replaced_classes d
|}.

(** [match m { Ok(v) => .., Err(_) => .. }]. *)
Definition try_ok {A} (m : Rpc A) : Rpc (option A) :=
  fun s => match m s with Done s' a => Done s' (Some a) | Fail s' _ => Done s' None | Panic => Panic end.

Definition get_state_update self (block_id : BlockId) : Rpc RpcStateUpdate :=
  if is_pending block_id then
    let! pending_data := read_pending_data (rpc_pending_data self) in
    let state_update := PendingData_state_update pending_data in
    ret (RpcStateUpdate_PendingStateUpdate {|
      RpcPendingStateUpdate_old_root := PendingStateUpdate_old_root state_update;
      RpcPendingStateUpdate_state_diff := RpcThinStateDiff_from_client (PendingStateUpdate_state_diff state_update) |})
  else
    let! block_number := get_accepted_block_number block_id in
    let! header := get_block_header_by_number block_number in
    let header := RpcBlockHeader_from header in
    let! parent := try_ok (get_accepted_block_number
      (BlockId_HashOrNumber (RpcBlockHashOrNumber_Hash (RpcBlockHeader_parent_hash header)))) in
    let! old_root :=
      match parent with
      | Some parent_block_number =>
          let! parent_header := get_block_header_by_number parent_block_number in
          ret (RpcBlockHeader_new_root (RpcBlockHeader_from parent_header))
      | None => ret GENESIS_HASH
      end in
    let! found := internal (get_state_diff block_number) in
    let! thin_state_diff := ok_or_raise BLOCK_NOT_FOUND found in
    ret (RpcStateUpdate_AcceptedStateUpdate {|
      AcceptedStateUpdate_block_hash := RpcBlockHeader_block_hash header;
      AcceptedStateUpdate_new_root := RpcBlockHeader_new_root header;
      AcceptedStateUpdate_old_root := old_root;
      AcceptedStateUpdate_state_diff := RpcThinStateDiff_from (without_empty_storage thin_state_diff) |}).

(** ** Classes *)

Definition get_class_of_block self (block_id : BlockId) (class_hash : Z) : Rpc GatewayContractClass :=
  let from_storage (block_id : BlockId) :=
    let! block_number := get_accepted_block_number block_id in
    let state_number := unchecked_right_after_block block_number in
    let! class := internal (get_class_definition_at state_number class_hash) in
    match class with
    | Some class => ret (GatewayContractClass_Sierra (RpcContractClass_from class))
    | None =>
        let! class := internal (get_deprecated_class_definition_at state_number class_hash) in
        let! class := ok_or_raise CLASS_HASH_NOT_FOUND class in
        let! class := RpcDeprecatedContractClass_try_from class in
        ret (GatewayContractClass_Cairo0 class)
    end in
  if is_pending block_id then
    match pending_get_class (rpc_pending_classes self) class_hash with
    | Some class => GatewayContractClass_try_from class
    | None => from_storage (BlockId_Tag Tag_Latest)
    end
  else from_storage block_id.

(** The second method opens its own transaction and reads the locks again: [self']
    and [storage'] are the server and the storage then. *)
Definition get_class_at self self' (storage' : StorageTxn) (block_id : BlockId) (contract_address : Z) : Rpc GatewayContractClass :=
  let! class_hash := get_class_hash_at_block self block_id contract_address in
  put storage' ;!
  get_class_of_block self' block_id class_hash.

Definition get_compiled_contract_class (block_id : BlockId) (class_hash : Z) : Rpc CompiledContractClass :=
  let! block_number := get_accepted_block_number block_id in
  let! class_definition_block_number := internal (get_class_definition_block_number class_hash) in
  match class_definition_block_number with
  | Some class_definition_block_number =>
      if block_number <? class_definition_block_number then raise CLASS_HASH_NOT_FOUND
      else
        let! casm := internal (get_casm class_hash) in
        let! casm := ok_or_raise CLASS_HASH_NOT_FOUND casm in
        ret (CompiledContractClass_V1 casm)
  | None =>
      let! state_number := ok_or_raise internal_server_error (right_after_block block_number) in
      let! class := internal (get_deprecated_class_definition_at state_number class_hash) in
      let! class := ok_or_raise CLASS_HASH_NOT_FOUND class in
      ret (CompiledContractClass_V0 class)
  end.

(** ** Synchronisation and writing *)

Definition get_last_synced_block : Txn BlockHashAndNumber :=
  let! compiled_class_marker := get_compiled_class_marker in
  match bn_prev compiled_class_marker with
  | None => ret (mkBlockHashAndNumber 0 0)
  | Some block_number =>
      let! header := get_block_header block_number in
      let! header := expect header in
      ret (mkBlockHashAndNumber (BlockHeader_block_hash header) block_number)
  end.

Definition syncing self : Rpc SyncingState :=
  match rpc_shared_highest_block self with
  | None => ret SyncingState_Synced
  | Some highest_block =>
      let! current_block := internal get_last_synced_block in
      if BlockHashAndNumber_block_number highest_block <=? BlockHashAndNumber_block_number current_block
      then ret SyncingState_Synced
      else ret (SyncingState_SyncStatus {|
        SyncStatus_starting_block_hash := BlockHashAndNumber_block_hash (rpc_starting_block self);
        SyncStatus_starting_block_num := BlockHashAndNumber_block_number (rpc_starting_block self);
        SyncStatus_current_block_hash := BlockHashAndNumber_block_hash current_block;
        SyncStatus_current_block_num := BlockHashAndNumber_block_number current_block;
        SyncStatus_highest_block_hash := BlockHashAndNumber_block_hash highest_block;
        SyncStatus_highest_block_num := BlockHashAndNumber_block_number highest_block |})
  end.

(** [WriterClientError]: an error the gateway reported, or another one. *)
Inductive WriterClientError : Type :=
| WriterClientError_StarknetError (starknet_error : StarknetError)
| WriterClientError_Other.

(** The answer of [writer_client] to a transaction that was sent. *)
Definition add_invoke_transaction (writer : WriterInvokeTransaction -> WriterClientError + InvokeResponse)
    (invoke_transaction : TypedInvokeTransaction) : Rpc AddInvokeOkResult :=
  match writer (WriterInvokeTransaction_from_Typed invoke_transaction) with
  | inr res => ret (AddInvokeOkResult_from res)
  | inl (WriterClientError_StarknetError starknet_error) => raise (starknet_error_to_invoke_error starknet_error)
  | inl WriterClientError_Other => raise internal_server_error
  end.

Definition add_deploy_account_transaction (writer : WriterDeployAccountTransaction -> WriterClientError + DeployAccountResponse)
    (deploy_account_transaction : TypedDeployAccountTransaction) : Rpc AddDeployAccountOkResult :=
  match writer (WriterDeployAccountTransaction_from_Typed deploy_account_transaction) with
  | inr res => ret (AddDeployAccountOkResult_from res)
  | inl (WriterClientError_StarknetError starknet_error) => raise (starknet_error_to_deploy_account_error starknet_error)
  | inl WriterClientError_Other => raise internal_server_error
  end.

Definition add_declare_transaction (writer : WriterDeclareTransaction -> WriterClientError + DeclareResponse)
    (declare_transaction : BroadcastedDeclareTransaction) : Rpc AddDeclareOkResult :=
  let! declare_transaction := ok_or_internal (WriterDeclareTransaction_try_from declare_transaction) in
  match writer declare_transaction with
  | inr res => ret (AddDeclareOkResult_from res)
  | inl (WriterClientError_StarknetError starknet_error) => raise (starknet_error_to_declare_error starknet_error)
  | inl WriterClientError_Other => raise internal_server_error
  end.

(** ** Events *)

Definition do_event_keys_match_filter (event_content : EventContent) (filter : EventFilter) : bool :=
  forallb (fun '(i, keys) =>
      match EventContent_keys event_content !! i with
      | None => false
      | Some key => bool_decide (keys = ∅) || bool_decide (key ∈ keys)
      end) (imap pair (EventFilter_keys filter)).

Definition ContinuationToken_parse (token : rstring) : Rpc EventIndex :=
  ok_or_raise INVALID_CONTINUATION_TOKEN (event_index_from_str token).

Definition ContinuationToken_new (event_index : EventIndex) : Rpc rstring :=
  ok_or_internal (event_index_to_string event_index).

(** A full chunk, with a token for the next event. *)
Definition full_chunk (filtered_events : list RpcEvent) (event_index : EventIndex) : Rpc (EventsChunk + list RpcEvent) :=
  let! token := ContinuationToken_new event_index in
  ret (inl (mkEventsChunk filtered_events (Some token))).

(** The loop over the iterator of the storage: an early return is [inl], the events
    collected when it ends are [inr]. Every turn takes an event of the iterator. *)
Fixpoint collect_events (fuel : nat) (filter : EventFilter) (to_block_number : Z) (it : EventIter) (filtered_events : list RpcEvent) :
    Rpc (EventsChunk + list RpcEvent) :=
  match fuel with
  | O => panic
  | S fuel =>
      let! (it, next) := internal (event_iter_next it) in
      match next with
      | None => ret (inr filtered_events)
      | Some ((from_address, event_index), content) =>
          let block_number := event_index.1.1 in
          if to_block_number <? block_number then ret (inr filtered_events)
          else if match EventFilter_address filter with Some filter_address => negb (from_address =? filter_address) | None => false end
          then ret (inr filtered_events)
          else if do_event_keys_match_filter content filter then
            if zlength filtered_events =? EventFilter_chunk_size filter then full_chunk filtered_events event_index
            else
              let! header := internal (get_block_header_by_number block_number) in
              let! transaction_hash := internal (get_transaction_hash_by_idx event_index.1) in
              let! transaction_hash := ok_or_internal transaction_hash in
              let emitted_event := {|
                RpcEvent_block_hash := Some (RpcBlockHeader_block_hash (RpcBlockHeader_from header));
                RpcEvent_block_number := Some block_number;
                RpcEvent_transaction_hash := transaction_hash;
                RpcEvent_event := mkEvent from_address content |} in
              collect_events fuel filter to_block_number it (filtered_events ++ [emitted_event])
          else collect_events fuel filter to_block_number it filtered_events
      end
  end.

(** The loop over the events of a pending transaction. [pending_block_number] is the
    number after the latest block. *)
Fixpoint collect_receipt_events (filter : EventFilter) (pending_block_number transaction_start event_start transaction_offset transaction_hash : Z)
    (event_offset : Z) (events : list Event) (filtered_events : list RpcEvent) : Rpc (EventsChunk + list RpcEvent) :=
  match events with
  | [] => ret (inr filtered_events)
  | event :: events =>
      let go := collect_receipt_events filter pending_block_number transaction_start event_start transaction_offset transaction_hash
                  (event_offset + 1) events in
      if (transaction_offset =? transaction_start) && (event_offset <? event_start) then go filtered_events
      else if zlength filtered_events =? EventFilter_chunk_size filter
      then full_chunk filtered_events ((pending_block_number, transaction_offset), event_offset)
      else if negb (do_event_keys_match_filter (Event_content event) filter) then go filtered_events
      else if match EventFilter_address filter with Some filter_address => negb (Event_from_address event =? filter_address) | None => false end
      then go filtered_events
      else go (filtered_events ++ [mkRpcEvent None None transaction_hash event])
  end.

(** The loop over the pending transactions. *)
Fixpoint collect_pending_events (filter : EventFilter) (pending_block_number transaction_start event_start : Z)
    (transaction_offset : Z) (receipts : list TransactionReceipt) (filtered_events : list RpcEvent) : Rpc (EventsChunk + list RpcEvent) :=
  match receipts with
  | [] => ret (inr filtered_events)
  | receipt :: receipts =>
      let go := collect_pending_events filter pending_block_number transaction_start event_start (transaction_offset + 1) receipts in
      if transaction_offset <? transaction_start then go filtered_events
      else
        let! collected := collect_receipt_events filter pending_block_number transaction_start event_start transaction_offset
          (TransactionReceipt_transaction_hash receipt) 0 (TransactionReceipt_events receipt) filtered_events in
        match collected with
        | inl chunk => ret (inl chunk)
        | inr filtered_events => go filtered_events
        end
  end.

Definition no_events : EventsChunk := mkEventsChunk [] None.

(** [fuel] bounds the events the iterator of the storage yields. *)
Definition get_events (fuel : nat) self (filter : EventFilter) : Rpc EventsChunk :=
  verify_storage_scope ;!
  if rpc_max_events_chunk_size self <? EventFilter_chunk_size filter then raise PAGE_SIZE_TOO_BIG
  else if rpc_max_events_keys self <? zlength (EventFilter_keys filter) then raise TOO_MANY_KEYS_IN_FILTER
  else
    let! latest := get_latest_block_number in
    match latest with
    | None => ret no_events
    | Some latest_block_number =>
        let! from_block_number :=
          match EventFilter_from_block filter with
          | None => ret 0
          | Some (BlockId_Tag Tag_Pending) => ret (bn_unchecked_next latest_block_number)
          | Some block_id => get_accepted_block_number block_id
          end in
        let! to_block_number :=
          match EventFilter_to_block filter with
          | Some (BlockId_Tag Tag_Pending) | None => ret (bn_unchecked_next latest_block_number)
          | Some block_id => get_accepted_block_number block_id
          end in
        if to_block_number <? from_block_number then ret no_events
        else
          let! start_event_index :=
            match EventFilter_continuation_token filter with
            | Some token => ContinuationToken_parse token
            | None => ret ((from_block_number, 0), 0)
            end in
          let include_pending_block := latest_block_number <? to_block_number in
          let! to_block_number := if include_pending_block then expect (bn_prev to_block_number) else ret to_block_number in
          let! collected :=
            if start_event_index.1.1 <=? latest_block_number then
              let! it := internal (iter_events (EventFilter_address filter) start_event_index to_block_number) in
              collect_events fuel filter to_block_number it []
            else ret (inr []) in
          match collected with
          | inl chunk => ret chunk
          | inr filtered_events =>
              if include_pending_block then
                let! pending_data := read_pending_data (rpc_pending_data self) in
                let '(transaction_start, event_start) :=
                  if latest_block_number <? start_event_index.1.1 then (start_event_index.1.2, start_event_index.2) else (0, 0) in
                let! collected := collect_pending_events filter (bn_unchecked_next latest_block_number) transaction_start event_start 0
                  (pending_transaction_receipts (PendingData_block pending_data)) filtered_events in
                match collected with
                | inl chunk => ret chunk
                | inr filtered_events => ret (mkEventsChunk filtered_events None)
                end
              else ret (mkEventsChunk filtered_events None)
          end
    end.

End Rpc.
