(* ===== verification/RpcProps.v ===== *)
(** * The JSON-RPC server reads the chain

    The methods of [Rpc.v] on the storage of a synchronised node, which [sync_rel]
    relates to a list of headers, of bodies and of state diffs. A block is accepted
    when its state diff is stored. *)

From stdpp Require Import base gmap list strings fin_maps.
From Stdlib Require Import ZArith Lia.
From S2P Require Import Prelude StorageTables StarknetTypes StorageTxn Header Body BodyProps EventsProps State StateProps.
From S2P Require Import StateTheorems ClientObjects PendingSync Sync SyncProps ProtoCommon ProtoTransaction RpcConvert Rpc.

#[local] Open Scope Z_scope.

(** ** The abstract answers *)

(** The number of the last accepted block. *)
Definition latest_accepted (ds : list ThinStateDiff) : option Z :=
  if zlength ds =? 0 then None else Some (zlength ds - 1).

Definition number_of_hash (l : HeaderChain) (h : Z) : option Z :=
  (fun x => Z.of_nat x.1) <$> list_find (fun x => hash_of x = h) l.

(** The accepted block an identifier names. *)
Definition resolve (l : HeaderChain) (ds : list ThinStateDiff) (block_id : BlockId) : option Z :=
  match block_id with
  | BlockId_HashOrNumber (RpcBlockHashOrNumber_Hash h) =>
      b ← number_of_hash l h; if b <? zlength ds then Some b else None
  | BlockId_HashOrNumber (RpcBlockHashOrNumber_Number b) => if b <? zlength ds then Some b else None
  | BlockId_Tag _ => latest_accepted ds
  end.

(** Block numbers are unsigned. *)
Definition block_id_ok (block_id : BlockId) : Prop :=
  match block_id with BlockId_HashOrNumber (RpcBlockHashOrNumber_Number b) => 0 <= b | _ => True end.

(** The state diff of the pending block, as a diff of the storage. *)
Definition pending_thin (d : ClientStateDiff) : ThinStateDiff :=
  let entry (s : StorageEntry) : Z * Z := (StorageEntry_key s, StorageEntry_value s) in
  let storage (e : Z * list StorageEntry) : Z * list (Z * Z) := (e.1, fmap (M:=list) entry e.2) in
  let deployed (c : DeployedContract) : Z * ClassHash := (DeployedContract_address c, DeployedContract_class_hash c) in
  let declared (c : DeclaredClassHashEntry) : ClassHash * CompiledClassHash :=
    (DeclaredClassHashEntry_class_hash c, DeclaredClassHashEntry_compiled_class_hash c) in
  let replaced (c : ReplacedClass) : Z * ClassHash := (ReplacedClass_address c, ReplacedClass_class_hash c) in {|
    ThinStateDiff_deployed_contracts := fmap (M:=list) deployed (ClientStateDiff_deployed_contracts d);
    ThinStateDiff_storage_diffs := fmap (M:=list) storage (ClientStateDiff_storage_diffs d);
    ThinStateDiff_declared_classes := fmap (M:=list) declared (ClientStateDiff_declared_classes d);
    ThinStateDiff_deprecated_declared_classes := ClientStateDiff_old_declared_contracts d;
    ThinStateDiff_nonces := ClientStateDiff_nonces d;
    ThinStateDiff_replaced_classes := fmap (M:=list) replaced (ClientStateDiff_replaced_classes d)
  |}.

(** What a sequence of diffs leaves. *)
Definition final {V} (f : ThinStateDiff -> option V) (ds : list ThinStateDiff) : option V := last_change f ds (zlength ds).

Lemma last_change_final {V} (f : ThinStateDiff -> option V) ds n :
  0 <= n <= zlength ds -> last_change f ds n = final f (take (Z.to_nat n) ds).
Proof.
  intros Hn. unfold final, last_change, zlength in *. rewrite Nat2Z.id, (take_ge (take _ ds)) by lia. done.
Qed.

Lemma final_snoc {V} (f : ThinStateDiff -> option V) ds d :
  final f (ds ++ [d]) = match f d with Some v => Some v | None => final f ds end.
Proof.
  unfold final. rewrite last_change_snoc, zlength_snoc. by rewrite (proj2 (Z.leb_gt _ _)) by lia.
Qed.

Lemma lookup_list_find {V} (l : list (Z * V)) k : lookup_list l k = (fun x => x.2.2) <$> list_find (fun e => e.1 = k) l.
Proof.
  unfold lookup_list. induction l as [|[k' v] l IH]; [done|]. cbn [list_to_map foldr list_find].
  cbn. case_decide as Hk.
  - subst. by rewrite lookup_insert_eq.
  - rewrite lookup_insert_ne by done. unfold lookup_list in IH. rewrite IH. by destruct (list_find _ l) as [[? ?]|].
Qed.

Lemma lookup_list_fmap {A V} (l : list A) (f : A -> Z * V) k :
  lookup_list (f <$> l) k = (fun x => (f x.2).2) <$> list_find (fun a => (f a).1 = k) l.
Proof.
  rewrite lookup_list_find, list_find_fmap. unfold compose. by destruct (list_find _ l) as [[? ?]|].
Qed.

Section Props.
Context {BN : BlockNumberApi} {SN : StateNumberApi} {X : ExternalTypes} {SF : StorageFiles} {HS : HashSetIter}.
Context {SB : StarknetBlockApi} {F : FeltApi} {TA : TransactionApi} {RC : RpcCrates}.

(** The answer, or the error of a method that finds nothing. *)
Definition found_or {A} (t : StorageTxn) (e : JsonRpcError) (o : option A) : res StorageTxn JsonRpcError A :=
  match o with Some a => Done t a | None => Fail t e end.

(** The header of a block; every accepted block has one. *)
Definition header_at (l : HeaderChain) (b : Z) : BlockHeader := default default_BlockHeader (fst <$> lookup_z l b).

(** The header of the last accepted block, or the default header. *)
Definition latest_header (l : HeaderChain) (ds : list ThinStateDiff) : BlockHeader := header_at l (zlength ds - 1).

(** The pending data on top of the last accepted block, or an empty pending block. *)
Definition shown_pending (l : HeaderChain) (ds : list ThinStateDiff) (pending_data : PendingData) : PendingData :=
  if pending_parent_block_hash (PendingData_block pending_data) =? BlockHeader_block_hash (latest_header l ds)
  then pending_data else empty_pending_data (latest_header l ds).

Lemma ok_or_raise_found {A} (e : JsonRpcError) (o : option A) t : ok_or_raise e o t = found_or t e o.
Proof. by destruct o. Qed.

Lemma internal_done {E A} (m : M StorageTxn E A) t a : m t = Done t a -> internal m t = Done t a.
Proof. intros Hm. unfold internal, map_err. by rewrite Hm. Qed.

Section Reads.
Context (t : StorageTxn) (l : HeaderChain) (bs : BodyChain) (ds : list ThinStateDiff).
Context (Hs : sync_rel t l bs ds) (Hlen : zlength l < 2 ^ 32).

Lemma diffs_small : 0 <= zlength ds <= zlength l.
Proof. split; [apply zlength_nonneg|apply (ss_order _ _ _ _ Hs)]. Qed.

Lemma get_latest_rel : get_latest_block_number t = Done t (latest_accepted ds).
Proof.
  pose proof diffs_small. unfold get_latest_block_number, latest_accepted.
  rewrite (bind_step _ _ t t (zlength ds)).
  - unfold ret. by rewrite bn_prev_small by lia.
  - apply internal_done. by rewrite <-(sr_marker _ _ (ss_state _ _ _ _ Hs)).
Qed.

Lemma latest_is_last b : latest_accepted ds = Some b -> b = zlength ds - 1 /\ 0 <= b < zlength l.
Proof. pose proof diffs_small. unfold latest_accepted. case_cmp; [done|]. intros [= <-]. lia. Qed.

Lemma get_header_rel b : 0 <= b < 2 ^ 32 -> get_block_header_by_number b t = found_or t BLOCK_NOT_FOUND (fst <$> lookup_z l b).
Proof.
  intros Hb. unfold get_block_header_by_number.
  rewrite (bind_step _ _ t t (fst <$> lookup_z l b)); [apply ok_or_raise_found|].
  apply internal_done, get_block_header_rel; [apply (ss_headers _ _ _ _ Hs)|done].
Qed.

Lemma header_at_some b : 0 <= b < zlength l -> exists x, lookup_z l b = Some x /\ header_at l b = x.1.
Proof. intros [x Hx]%lookup_z_is_Some. exists x. split; [done|]. unfold header_at. by rewrite Hx. Qed.

Lemma get_header_done b : 0 <= b < zlength l -> get_block_header_by_number b t = Done t (header_at l b).
Proof.
  intros Hb. rewrite get_header_rel by lia. destruct (header_at_some b Hb) as (x & Hx & ->). by rewrite Hx.
Qed.

Lemma number_of_hash_spec h b : number_of_hash l h = Some b <-> (hash_of <$> lookup_z l b) = Some h.
Proof.
  unfold number_of_hash. split.
  - intros ([i x] & (Hi & Hh & _)%list_find_Some & ->)%fmap_Some. cbn. rewrite lookup_z_of_nat, Hi. cbn. by rewrite Hh.
  - intros (x & Hx & Hh)%fmap_Some. pose proof (lookup_z_Some _ _ _ Hx) as Hb.
    rewrite <-(Z2Nat.id b), lookup_z_of_nat in Hx by lia. apply fmap_Some. exists (Z.to_nat b, x). cbn.
    split; [|lia]. apply list_find_Some. split; [done|]. split; [done|]. intros j y Hj Hlt Hy.
    pose proof (NoDup_lookup _ (Z.to_nat b) j h (ss_hashes _ _ _ _ Hs)) as Hnd.
    rewrite !list_lookup_fmap, Hx, Hj in Hnd. cbn in Hnd. rewrite Hy, Hh in Hnd. specialize (Hnd eq_refl eq_refl). lia.
Qed.

Lemma get_number_by_hash_rel h : get_block_number_by_hash h t = Done t (number_of_hash l h).
Proof.
  unfold get_block_number_by_hash, tbl_get. run_txn. unfold ret. f_equal. apply option_eq. intros b.
  by rewrite number_of_hash_spec, (hr_hashes _ _ (ss_headers _ _ _ _ Hs)).
Qed.

Lemma number_of_hash_range h b : number_of_hash l h = Some b -> 0 <= b < zlength l.
Proof. intros (x & Hx & _)%number_of_hash_spec%fmap_Some. by apply lookup_z_Some in Hx. Qed.

(** The block is not past the last accepted one. *)
Lemma not_past_latest b : 0 <= b ->
  (let! latest := get_latest_block_number in
   let! last_block_number := ok_or_raise BLOCK_NOT_FOUND latest in
   if last_block_number <? b then raise BLOCK_NOT_FOUND else ret b) t =
  found_or t BLOCK_NOT_FOUND (if b <? zlength ds then Some b else None).
Proof.
  intros Hb. rewrite (bind_step _ _ _ _ _ get_latest_rel). unfold latest_accepted.
  destruct (Z.eqb_spec (zlength ds) 0); cbn [ok_or_raise]; run_steps.
  - destruct (Z.ltb_spec b (zlength ds)); [lia|done].
  - destruct (Z.ltb_spec (zlength ds - 1) b), (Z.ltb_spec b (zlength ds)); done || lia.
Qed.

(** An identifier names an accepted block, or nothing is found. *)
Lemma get_accepted_rel block_id :
  block_id_ok block_id -> get_accepted_block_number block_id t = found_or t BLOCK_NOT_FOUND (resolve l ds block_id).
Proof.
  intros Hok. destruct block_id as [[h|b]|[]]; cbn [get_accepted_block_number resolve].
  - rewrite (bind_step _ _ _ _ _ (internal_done _ _ _ (get_number_by_hash_rel h))).
    destruct (number_of_hash l h) as [b|] eqn:Hb; cbn [ok_or_raise mbind option_bind]; run_steps; [|done].
    apply not_past_latest. apply number_of_hash_range in Hb. lia.
  - by apply not_past_latest.
  - rewrite (bind_step _ _ _ _ _ get_latest_rel). apply ok_or_raise_found.
  - rewrite (bind_step _ _ _ _ _ get_latest_rel). apply ok_or_raise_found.
Qed.

Lemma resolve_range block_id b : block_id_ok block_id -> resolve l ds block_id = Some b -> 0 <= b < zlength ds.
Proof.
  intros Hok. destruct block_id as [[h|n]|?]; cbn [resolve].
  - intros (n & Hn & Hb)%bind_Some. apply number_of_hash_range in Hn. destruct (Z.ltb_spec n (zlength ds)); [|done].
    injection Hb as <-. lia.
  - cbn in Hok. destruct (Z.ltb_spec n (zlength ds)); [|done]. intros [= <-]. lia.
  - pose proof diffs_small. unfold latest_accepted. case_cmp; [done|]. intros [= <-]. lia.
Qed.

Lemma read_pending_rel pending_data : read_pending_data pending_data t = Done t (shown_pending l ds pending_data).
Proof.
  pose proof diffs_small. unfold read_pending_data. rewrite (bind_step _ _ _ _ _ get_latest_rel).
  rewrite (bind_step _ _ t t (latest_header l ds)).
  - unfold shown_pending. by case_match.
  - unfold latest_accepted, latest_header. destruct (Z.eqb_spec (zlength ds) 0) as [->|Hne].
    + unfold header_at. by rewrite (proj2 (lookup_z_None l (0 - 1)) ltac:(lia)).
    + apply get_header_done. lia.
Qed.

Lemma get_status_rel b :
  get_block_status b t =
  Done t (if b <? marker MarkerKind_BaseLayerBlock t then BlockStatus_AcceptedOnL1 else BlockStatus_AcceptedOnL2).
Proof. reflexivity. Qed.

Lemma full_archive : verify_storage_scope t = Done t tt.
Proof. unfold verify_storage_scope. run_steps. by rewrite (tr_scope _ _ (br_tables _ _ (ss_bodies _ _ _ _ Hs))). Qed.

Lemma block_after_rel b : 0 <= b < zlength ds -> block_after (unchecked_right_after_block b) = b + 1.
Proof. intros Hb. pose proof diffs_small. rewrite unchecked_right_after_spec. apply bn_unchecked_next_small. lia. Qed.

(** ** The state *)

(** The state diff of the pending block, for a method that asks for it. *)
Definition pending_diff (self : JsonRpcServerImpl) (block_id : BlockId) : option ClientStateDiff :=
  if is_pending block_id
  then Some (PendingStateUpdate_state_diff (PendingData_state_update (shown_pending l ds (rpc_pending_data self)))) else None.

(** The diffs up to a block, with that of the pending block. *)
Definition shown_diffs (pending : option ClientStateDiff) (b : Z) : list ThinStateDiff :=
  take (Z.to_nat (b + 1)) ds ++ match pending with Some d => [pending_thin d] | None => [] end.

Lemma exec_storage_rel b pending a k :
  0 <= b < zlength ds ->
  exec_get_storage_at (unchecked_right_after_block b) (ClientStateDiff_storage_diffs <$> pending) a k t =
  Done t (default 0 (final (fun d => diff_storage d (a, k)) (shown_diffs pending b))).
Proof.
  intros Hb. pose proof (get_storage_at_rel t ds (unchecked_right_after_block b) a k (ss_state _ _ _ _ Hs)) as Hg.
  rewrite block_after_rel, last_change_final in Hg by lia. unfold exec_get_storage_at, shown_diffs.
  destruct pending as [d|]; cbn [fmap option_fmap option_map mbind option_bind]; [|by rewrite app_nil_r].
  rewrite final_snoc. unfold diff_storage at 1. cbn [fst snd ThinStateDiff_storage_diffs pending_thin].
  rewrite lookup_list_fmap. destruct (list_find _ _) as [[i [a' es]]|]; cbn; [|exact Hg].
  rewrite lookup_list_fmap. rewrite (list_find_ext (fun e => k = StorageEntry_key e) (fun e => StorageEntry_key e = k)) by done.
  cbn. destruct (list_find _ _) as [[j e]|]; [done|exact Hg].
Qed.

Lemma class_at_rel b a :
  0 <= b < zlength ds ->
  get_class_hash_at (unchecked_right_after_block b) a t = Done t (final (fun d => diff_class d a) (shown_diffs None b)).
Proof.
  intros Hb. rewrite (get_class_hash_at_rel t ds _ a (ss_state _ _ _ _ Hs)).
  unfold shown_diffs. by rewrite block_after_rel, last_change_final, app_nil_r by lia.
Qed.

(** No contract is both deployed and replaced in the pending block. *)
Definition pending_disjoint (d : ClientStateDiff) : Prop :=
  forall c r, c ∈ ClientStateDiff_deployed_contracts d -> r ∈ ClientStateDiff_replaced_classes d ->
    DeployedContract_address c <> ReplacedClass_address r.

Lemma exec_class_rel b pending a :
  0 <= b < zlength ds -> (forall d, pending = Some d -> pending_disjoint d) ->
  exec_get_class_hash_at (unchecked_right_after_block b)
    ((fun d => (ClientStateDiff_deployed_contracts d, ClientStateDiff_replaced_classes d)) <$> pending) a t =
  Done t (final (fun d => diff_class d a) (shown_diffs pending b)).
Proof.
  intros Hb Hd. pose proof (class_at_rel b a Hb) as Hg. unfold exec_get_class_hash_at, shown_diffs in *.
  destruct pending as [d|]; cbn [fmap option_fmap option_map]; [|exact Hg]. rewrite app_nil_r in Hg.
  rewrite final_snoc. unfold diff_class at 1. cbn [ThinStateDiff_deployed_contracts ThinStateDiff_replaced_classes pending_thin].
  rewrite !lookup_list_fmap. cbn.
  destruct (list_find (fun r => ReplacedClass_address r = a) _) as [[i r]|] eqn:Hr.
  - destruct (list_find (fun c => DeployedContract_address c = a) _) as [[j c]|] eqn:Hc; [|done]. exfalso.
    apply list_find_Some in Hr as (Hr%list_elem_of_lookup_2 & Hra & _).
    apply list_find_Some in Hc as (Hc%list_elem_of_lookup_2 & Hca & _).
    apply (Hd d eq_refl c r); [done|done|congruence].
  - destruct (list_find (fun c => DeployedContract_address c = a) _) as [[j c]|]; [done|exact Hg].
Qed.

(** The nonces of the pending block, before those of the chain. *)
Lemma exec_nonce_rel b pending a :
  0 <= b < zlength ds ->
  exec_get_nonce_at (unchecked_right_after_block b) (ClientStateDiff_nonces <$> pending) a t =
  Done t (match pending ≫= fun d => lookup_list (ClientStateDiff_nonces d) a with
          | Some nonce => Some nonce
          | None => final (fun d => diff_nonce d a) (shown_diffs None b)
          end).
Proof.
  intros Hb. pose proof (get_nonce_at_rel t ds (unchecked_right_after_block b) a (ss_state _ _ _ _ Hs)) as Hg.
  rewrite block_after_rel, last_change_final in Hg by lia. unfold exec_get_nonce_at, shown_diffs. rewrite app_nil_r.
  destruct pending as [d|]; cbn [fmap option_fmap option_map mbind option_bind]; [|exact Hg].
  rewrite lookup_list_find. destruct (list_find _ _) as [[i [? ?]]|]; [done|exact Hg].
Qed.

(** The part of the pending state a method reads. *)
Lemma read_pending_part {A} self block_id (f : ClientStateDiff -> A) :
  (if is_pending block_id then
     let! pending_data := read_pending_data (rpc_pending_data self) in
     ret (Some (f (PendingStateUpdate_state_diff (PendingData_state_update pending_data))))
   else ret None) t = Done t (f <$> pending_diff self block_id).
Proof. unfold pending_diff. destruct (is_pending block_id); [|done]. by rewrite (bind_step _ _ _ _ _ (read_pending_rel _)). Qed.

Lemma found_bind {A B} (e : JsonRpcError) (m : M StorageTxn JsonRpcError A) (o : option A) (k : A -> M StorageTxn JsonRpcError B) r :
  m t = found_or t e o -> (forall a, o = Some a -> k a t = r) -> (o = None -> Fail t e = r) -> bind m k t = r.
Proof. intros Hm Hk Hn. destruct o as [a|]; unfold bind; rewrite Hm; cbn; auto. Qed.

Lemma rpc_storage_rel self a k block_id :
  block_id_ok block_id ->
  rpc_get_storage_at self a k block_id t =
  match resolve l ds block_id with
  | None => Fail t BLOCK_NOT_FOUND
  | Some b =>
      let value := default 0 (final (fun d => diff_storage d (a, k)) (shown_diffs (pending_diff self block_id) b)) in
      if (value =? 0) && negb (a =? BLOCK_HASH_TABLE_ADDRESS) && bool_decide (final (fun d => diff_class d a) (shown_diffs None b) = None)
      then Fail t CONTRACT_NOT_FOUND else Done t value
  end.
Proof.
  intros Hok. unfold rpc_get_storage_at. rewrite (bind_step _ _ _ _ _ (read_pending_part self block_id ClientStateDiff_storage_diffs)).
  apply (found_bind BLOCK_NOT_FOUND _ _ _ _ (get_accepted_rel _ Hok)); [|by intros ->]. intros b Hres. rewrite Hres.
  pose proof (resolve_range _ _ Hok Hres) as Hb.
  rewrite (bind_step _ _ _ _ _ (internal_done _ _ _ (exec_storage_rel b (pending_diff self block_id) a k Hb))). cbv zeta.
  destruct ((_ =? 0) && negb _); cbn [andb]; [|done].
  rewrite bind_assoc, (bind_step _ _ _ _ _ (internal_done _ _ _ (class_at_rel b a Hb))).
  destruct (final (fun d => diff_class d a) _); [rewrite bool_decide_eq_false_2 by done|rewrite bool_decide_eq_true_2 by done]; done.
Qed.

Lemma rpc_class_hash_rel self block_id a :
  block_id_ok block_id -> (forall d, pending_diff self block_id = Some d -> pending_disjoint d) ->
  get_class_hash_at_block self block_id a t =
  match resolve l ds block_id with
  | None => Fail t BLOCK_NOT_FOUND
  | Some b => found_or t CONTRACT_NOT_FOUND (final (fun d => diff_class d a) (shown_diffs (pending_diff self block_id) b))
  end.
Proof.
  intros Hok Hd. unfold get_class_hash_at_block.
  rewrite (bind_step _ _ _ _ _ (read_pending_part self block_id (fun d => (ClientStateDiff_deployed_contracts d, ClientStateDiff_replaced_classes d)))).
  apply (found_bind BLOCK_NOT_FOUND _ _ _ _ (get_accepted_rel _ Hok)); [|by intros ->]. intros b Hres. rewrite Hres.
  rewrite (bind_step _ _ _ _ _ (internal_done _ _ _ (exec_class_rel b _ a (resolve_range _ _ Hok Hres) Hd))).
  apply ok_or_raise_found.
Qed.

Lemma rpc_nonce_rel self block_id a :
  block_id_ok block_id ->
  get_nonce self block_id a t =
  match resolve l ds block_id with
  | None => Fail t BLOCK_NOT_FOUND
  | Some b => found_or t CONTRACT_NOT_FOUND
      (match pending_diff self block_id ≫= fun d => lookup_list (ClientStateDiff_nonces d) a with
       | Some nonce => Some nonce
       | None => final (fun d => diff_nonce d a) (shown_diffs None b)
       end)
  end.
Proof.
  intros Hok. unfold get_nonce.
  rewrite (bind_step _ _ _ _ _ (read_pending_part self block_id ClientStateDiff_nonces)).
  apply (found_bind BLOCK_NOT_FOUND _ _ _ _ (get_accepted_rel _ Hok)); [|by intros ->]. intros b Hres. rewrite Hres.
  rewrite (bind_step _ _ _ _ _ (internal_done _ _ _ (exec_nonce_rel b _ a (resolve_range _ _ Hok Hres)))).
  apply ok_or_raise_found.
Qed.

(** ** State updates *)

(** The parent of the first block is not a block of the chain. *)
Definition genesis_parent : Prop :=
  forall x, lookup_z l 0 = Some x -> BlockHeader_parent_hash x.1 ∉ (hash_of <$> l).

(** The state root before a block. *)
Definition root_before (b : Z) : Z := if b =? 0 then GENESIS_HASH else BlockHeader_state_root (header_at l (b - 1)).

Lemma resolve_parent b :
  genesis_parent -> 0 <= b < zlength ds ->
  resolve l ds (BlockId_HashOrNumber (RpcBlockHashOrNumber_Hash (BlockHeader_parent_hash (header_at l b)))) =
  if b =? 0 then None else Some (b - 1).
Proof.
  intros Hgen Hb. pose proof diffs_small. destruct (header_at_some b ltac:(lia)) as (x & Hx & ->). cbn [resolve].
  destruct (Z.eqb_spec b 0) as [->|Hne].
  - destruct (number_of_hash l _) as [n|] eqn:Hn; [|done]. exfalso. apply (Hgen _ Hx).
    apply number_of_hash_spec, fmap_Some in Hn as (y & Hy & ->). apply list_elem_of_fmap. exists y. split; [done|].
    apply elem_of_lookup_z. by exists n.
  - destruct (header_at_some (b - 1) ltac:(lia)) as (y & Hy & _).
    assert (Hn : number_of_hash l (BlockHeader_parent_hash x.1) = Some (b - 1)).
    { apply number_of_hash_spec. rewrite Hy. cbn. f_equal. symmetry. apply (ss_linked _ _ _ _ Hs (b - 1)); [done|].
      by replace (b - 1 + 1) with b by lia. }
    rewrite Hn. cbn. by rewrite (proj2 (Z.ltb_lt _ _)) by lia.
Qed.

Lemma rpc_state_update_rel self block_id b d :
  block_id_ok block_id -> is_pending block_id = false -> genesis_parent ->
  resolve l ds block_id = Some b -> lookup_z ds b = Some d ->
  get_state_update self block_id t = Done t (RpcStateUpdate_AcceptedStateUpdate {|
    AcceptedStateUpdate_block_hash := BlockHeader_block_hash (header_at l b);
    AcceptedStateUpdate_new_root := BlockHeader_state_root (header_at l b);
    AcceptedStateUpdate_old_root := root_before b;
    AcceptedStateUpdate_state_diff := RpcThinStateDiff_from (without_empty_storage d) |}).
Proof.
  intros Hok Hp Hgen Hres Hd. unfold get_state_update. rewrite Hp.
  pose proof (get_accepted_rel block_id Hok) as Ha. rewrite Hres in Ha. cbn in Ha. rewrite (bind_step _ _ _ _ _ Ha).
  pose proof (resolve_range _ _ Hok Hres) as Hb. pose proof diffs_small.
  rewrite (bind_step _ _ _ _ _ (get_header_done b ltac:(lia))).
  rewrite (bind_step _ _ t t (if b =? 0 then None else Some (b - 1))).
  2: { unfold try_ok. cbn [RpcBlockHeader_parent_hash RpcBlockHeader_from]. rewrite get_accepted_rel, resolve_parent by done. by case_cmp. }
  rewrite (bind_step _ _ t t (root_before b)).
  2: { unfold root_before. case_cmp; [done|]. by rewrite (bind_step _ _ _ _ _ (get_header_done (b - 1) ltac:(lia))). }
  rewrite (bind_step _ _ _ _ _ (internal_done _ _ _ (get_state_diff_rel t ds b (ss_state _ _ _ _ Hs)))). by rewrite Hd.
Qed.

(** ** Blocks and transactions *)

Lemma try_collect_done {A B} (f : A -> M StorageTxn JsonRpcError B) (P : A -> B -> Prop) xs :
  (forall x, x ∈ xs -> exists y, f x t = Done t y /\ P x y) -> exists ys, try_collect f xs t = Done t ys /\ Forall2 P xs ys.
Proof.
  induction xs as [|x xs IH]; intros Hf; [by exists []|].
  destruct (Hf x) as (y & Hy & HP); [by left|]. destruct IH as (ys & Hys & HPs); [intros z Hz; apply Hf; by right|].
  exists (y :: ys). cbn [try_collect]. rewrite (bind_step _ _ _ _ _ Hy), (bind_step _ _ _ _ _ Hys). split; [done|by constructor].
Qed.

(** The conversion of a stored transaction does not fail. *)
Lemma transaction_converts {S} (s : S) tx : exists r, RpcTransaction_try_from tx s = Done s r.
Proof. destruct tx as [[]|?|[[]|[]]|[[]|[]|[]]|?]; by eexists. Qed.

(** A transaction of a block, as the server shows it. *)
Definition shows (x : BodyItem) (shown : TransactionWithHash) : Prop :=
  TransactionWithHash_transaction_hash shown = x.2 /\
  RpcTransaction_try_from x.1.1 t = Done t (TransactionWithHash_transaction shown).

Definition status_of (b : Z) : BlockStatus :=
  if b <? marker MarkerKind_BaseLayerBlock t then BlockStatus_AcceptedOnL1 else BlockStatus_AcceptedOnL2.

Definition shown_block (b : Z) (transactions : Transactions) : RpcBlock := {|
  RpcBlock_status := Some (status_of b);
  RpcBlock_header := GeneralBlockHeader_BlockHeader (RpcBlockHeader_from (header_at l b));
  RpcBlock_transactions := transactions
|}.

Lemma get_block_rel self block_id b (pending : PendingData -> M StorageTxn JsonRpcError Transactions) accepted txs :
  block_id_ok block_id -> is_pending block_id = false -> resolve l ds block_id = Some b ->
  accepted b t = Done t txs -> Rpc.get_block self block_id pending accepted t = Done t (shown_block b txs).
Proof.
  intros Hok Hp Hres Htx. unfold Rpc.get_block. rewrite (bind_step _ _ _ _ _ full_archive), Hp.
  pose proof (get_accepted_rel block_id Hok) as Ha. rewrite Hres in Ha. cbn in Ha. rewrite (bind_step _ _ _ _ _ Ha).
  pose proof (resolve_range _ _ Hok Hres) as Hb. pose proof diffs_small.
  rewrite (bind_step _ _ _ _ _ (get_status_rel b)), (bind_step _ _ _ _ _ (get_header_done b ltac:(lia))).
  by rewrite (bind_step _ _ _ _ _ Htx).
Qed.

Lemma block_not_found self block_id (pending : PendingData -> M StorageTxn JsonRpcError Transactions) accepted :
  block_id_ok block_id -> is_pending block_id = false -> resolve l ds block_id = None ->
  Rpc.get_block self block_id pending accepted t = Fail t BLOCK_NOT_FOUND.
Proof.
  intros Hok Hp Hres. unfold Rpc.get_block. rewrite (bind_step _ _ _ _ _ full_archive), Hp.
  pose proof (get_accepted_rel block_id Hok) as Ha. rewrite Hres in Ha. unfold bind. by rewrite Ha.
Qed.

Lemma accepted_body b : 0 <= b < zlength ds -> exists body, lookup_z bs b = Some body.
Proof. intros Hb. pose proof diffs_small. apply lookup_z_is_Some. rewrite (ss_lengths _ _ _ _ Hs). lia. Qed.

Lemma get_hashes_rel b body : 0 <= b -> lookup_z bs b = Some body -> get_block_tx_hashes_by_number b t = Done t (map snd body).
Proof.
  intros Hb Hbody. unfold get_block_tx_hashes_by_number.
  rewrite (bind_step _ _ _ _ _ (internal_done _ _ _ (get_block_transaction_hashes_rel t bs b (ss_bodies _ _ _ _ Hs) Hb))).
  by rewrite Hbody.
Qed.

Lemma get_txs_rel b body :
  0 <= b -> lookup_z bs b = Some body -> exists rs, get_block_txs_by_number b t = Done t rs /\
    Forall2 (fun (x : BodyItem) r => RpcTransaction_try_from x.1.1 t = Done t r) body rs.
Proof.
  intros Hb Hbody. unfold get_block_txs_by_number.
  rewrite (bind_step _ _ _ _ _ (internal_done _ _ _ (get_block_transactions_rel t bs b (ss_bodies _ _ _ _ Hs) Hb))).
  rewrite Hbody. cbn [fmap option_fmap option_map ok_or_raise]. run_steps.
  destruct (try_collect_done RpcTransaction_try_from (fun x r => RpcTransaction_try_from x t = Done t r)
    (map (fun x : BodyItem => x.1.1) body)) as (rs & Hrs & HF).
  - intros x _. destruct (transaction_converts t x) as [r Hr]. by exists r.
  - exists rs. split; [done|]. by apply Forall2_fmap_l in HF.
Qed.

Lemma zip_shows body rs :
  Forall2 (fun (x : BodyItem) r => RpcTransaction_try_from x.1.1 t = Done t r) body rs ->
  Forall2 shows body (zip_with (fun transaction transaction_hash => mkTransactionWithHash transaction_hash transaction) rs (map snd body)).
Proof. induction 1 as [|x r body rs Hx HF IH]; cbn; constructor; [by split|done]. Qed.

Lemma get_index_rel k x : item bs k = Some x -> get_transaction_idx_by_hash x.2 t = Done t (Some k).
Proof.
  intros Hx. pose proof (br_tables _ _ (ss_bodies _ _ _ _ Hs)) as Ht. unfold get_transaction_idx_by_hash.
  rewrite (bind_step _ _ _ _ _ (open_table_full _ _ (tr_scope _ _ Ht))). run_txn. unfold tbl_get, ret. do 2 f_equal.
  apply (tr_hashes _ _ Ht). eauto.
Qed.

Lemma get_by_hash_rel self k x :
  item bs k = Some x -> exists shown, get_transaction_by_hash self x.2 t = Done t shown /\ shows x shown.
Proof.
  intros Hx. unfold get_transaction_by_hash. rewrite (bind_step _ _ _ _ _ full_archive).
  rewrite (bind_step _ _ _ _ _ (internal_done _ _ _ (get_index_rel k x Hx))).
  rewrite (bind_step _ _ _ _ _ (internal_done _ _ _ (get_transaction_rel t bs k (br_tables _ _ (ss_bodies _ _ _ _ Hs))))).
  rewrite Hx. cbn [fmap option_fmap option_map ok_or_raise]. run_steps.
  destruct (transaction_converts t x.1.1) as [r Hr]. rewrite (bind_step _ _ _ _ _ Hr). by eexists.
Qed.

Lemma get_by_index_rel self block_id b i :
  block_id_ok block_id -> is_pending block_id = false -> resolve l ds block_id = Some b ->
  match item bs (b, i) with
  | Some x => exists shown, get_transaction_by_block_id_and_index self block_id i t = Done t shown /\ shows x shown
  | None => get_transaction_by_block_id_and_index self block_id i t = Fail t INVALID_TRANSACTION_INDEX
  end.
Proof.
  intros Hok Hp Hres. unfold get_transaction_by_block_id_and_index. rewrite (bind_step _ _ _ _ _ full_archive), Hp.
  pose proof (br_tables _ _ (ss_bodies _ _ _ _ Hs)) as Ht.
  pose proof (get_accepted_rel block_id Hok) as Ha. rewrite Hres in Ha. cbn in Ha. rewrite bind_assoc, (bind_step _ _ _ _ _ Ha). cbv zeta.
  rewrite bind_assoc, (bind_step _ _ _ _ _ (internal_done _ _ _ (get_transaction_rel t bs (b, i) Ht))).
  destruct (item bs (b, i)) as [x|] eqn:Hx; cbn [fmap option_fmap option_map ok_or_raise]; run_steps; [|done].
  rewrite (bind_step _ _ _ _ _ (internal_done _ _ _ (get_transaction_hash_rel t bs (b, i) Ht))), Hx.
  cbn [fmap option_fmap option_map ok_or_raise]. run_steps.
  destruct (transaction_converts t x.1.1) as [r Hr]. rewrite (bind_step _ _ _ _ _ Hr). by eexists.
Qed.

(** ** Receipts *)

(** A message from L1 names its sender in the first felt of the calldata. *)
Definition has_sender (tx : Transaction) : Prop :=
  match tx with Transaction_L1Handler tx => L1HandlerTransaction_calldata tx <> [] | _ => True end.

(** Only messages from L1 have the output of one. *)
Definition output_fits (tx : Transaction) (output : TransactionOutput) : Prop :=
  match tx, output with Transaction_L1Handler _, _ => True | _, TransactionOutput_L1Handler _ => False | _, _ => True end.

Definition finality_of (b : Z) : TransactionFinalityStatus :=
  if b <? marker MarkerKind_BaseLayerBlock t then TransactionFinalityStatus_AcceptedOnL1 else TransactionFinalityStatus_AcceptedOnL2.

Definition shown_receipt (k : Z * Z) (h : Z) (output : RpcTransactionOutput) : RpcTransactionReceipt := {|
  RpcTransactionReceipt_finality_status := finality_of k.1;
  RpcTransactionReceipt_transaction_hash := h;
  RpcTransactionReceipt_block_hash := BlockHeader_block_hash (header_at l k.1);
  RpcTransactionReceipt_block_number := k.1;
  RpcTransactionReceipt_output := output
|}.

Lemma non_pending_receipt_rel k x version msg_hash output :
  item bs k = Some x -> RpcTransactionOutput_from x.1.2 version msg_hash t = Done t output ->
  get_non_pending_receipt k x.2 version msg_hash t = Done t (GeneralTransactionReceipt_TransactionReceipt (shown_receipt k x.2 output)).
Proof.
  intros Hx Hout. pose proof (item_range _ _ _ Hx) as [Hk _]. rewrite (ss_lengths _ _ _ _ Hs) in Hk.
  unfold get_non_pending_receipt. rewrite (bind_step _ _ _ _ _ (get_status_rel k.1)). unfold shown_receipt, finality_of.
  destruct (k.1 <? _);
    rewrite (bind_step _ _ _ _ _ (internal_done _ _ _ (get_header_done k.1 Hk)));
    rewrite (bind_step _ _ _ _ _ (internal_done _ _ _ (get_transaction_output_rel t bs k (br_tables _ _ (ss_bodies _ _ _ _ Hs)))));
    rewrite Hx; cbn [fmap option_fmap option_map ok_or_raise]; run_steps; by rewrite (bind_step _ _ _ _ _ Hout).
Qed.

Context {RCS : RpcCratesSpec}.

(** The hash of a message from L1: sender, receiver, nonce, selector, the length of
    the payload and the payload, one after the other. *)
Definition message_hash (tx : Transaction) : option L1L2MsgHash :=
  match tx with
  | Transaction_L1Handler tx =>
      let payload := tail (L1HandlerTransaction_calldata tx) in
      Some (keccak256 (concat (felt_to_bytes_be <$>
        [hd 0 (L1HandlerTransaction_calldata tx); L1HandlerTransaction_contract_address tx; L1HandlerTransaction_nonce tx;
         L1HandlerTransaction_entry_point_selector tx; felt_from_uint (zlength payload)] ++ payload)))
  | _ => None
  end.

Lemma calc_msg_hash_rel {S} (s : S) tx :
  L1HandlerTransaction_calldata tx <> [] -> exists h, calc_msg_hash tx s = Done s h /\ message_hash (Transaction_L1Handler tx) = Some h.
Proof.
  intros Hne. unfold calc_msg_hash, l1_handler_message_hash, message_hash.
  destruct (L1HandlerTransaction_calldata tx) as [|sender payload]; [done|]. rewrite encode_packed_spec. by eexists.
Qed.

Lemma output_converts (x : BodyItem) version :
  output_fits x.1.1 x.1.2 -> exists output, RpcTransactionOutput_from (S:=StorageTxn) x.1.2 version (message_hash x.1.1) t = Done t output.
Proof. destruct x as [[[] []] ?]; cbn; try done; intros _; by eexists. Qed.

Lemma stored_version_rel {S} (s : S) tx r :
  RpcTransaction_try_from tx s = Done s r -> RpcTransaction_version r = stored_transaction_version tx.
Proof.
  destruct tx as [d|?|d|d|?]; cbn; rewrite ?declare_version_spec, ?deploy_account_version_spec, ?invoke_version_spec;
    try destruct d as [[]|[]|[]|[]] || destruct d as [[]|[]] || destruct d as [[]|[]|[]]; cbn; intros [= <-]; done.
Qed.

Lemma msg_hash_rel tx r :
  has_sender tx -> RpcTransaction_try_from tx t = Done t r -> msg_hash_of r t = Done t (message_hash tx).
Proof.
  destruct tx as [[]|?|[[]|[]]|[[]|[]|[]]|tx]; cbn; intros Hne [= <-]; try done. cbn.
  destruct (calc_msg_hash_rel t tx Hne) as (h & Hh & Hm). rewrite (bind_step _ _ _ _ _ Hh). unfold ret. by rewrite <-Hm.
Qed.

(** The output of a stored transaction, as the server shows it. *)
Definition shows_output (x : BodyItem) (output : RpcTransactionOutput) : Prop :=
  RpcTransactionOutput_from x.1.2 (stored_transaction_version x.1.1) (message_hash x.1.1) t = Done t output.

Lemma receipt_rel self k x :
  item bs k = Some x -> has_sender x.1.1 -> output_fits x.1.1 x.1.2 ->
  exists output, shows_output x output /\
    get_transaction_receipt self x.2 t = Done t (GeneralTransactionReceipt_TransactionReceipt (shown_receipt k x.2 output)).
Proof.
  intros Hx Hne Hfit. destruct (output_converts x (stored_transaction_version x.1.1) Hfit) as [output Hout].
  exists output. split; [done|]. unfold get_transaction_receipt. rewrite (bind_step _ _ _ _ _ full_archive).
  rewrite (bind_step _ _ _ _ _ (internal_done _ _ _ (get_index_rel k x Hx))).
  rewrite (bind_step _ _ _ _ _ (internal_done _ _ _ (get_transaction_rel t bs k (br_tables _ _ (ss_bodies _ _ _ _ Hs))))).
  rewrite Hx. cbn [fmap option_fmap option_map]. run_steps. cbv zeta.
  rewrite (bind_step _ _ t t (message_hash x.1.1)); [by apply non_pending_receipt_rel|].
  destruct x as [[[] ?] ?]; cbn in *; try done.
  destruct (calc_msg_hash_rel t _ Hne) as (h & Hh & Hm). rewrite (bind_step _ _ _ _ _ Hh). unfold ret. by rewrite <-Hm.
Qed.

Lemma receipt_panics self k x :
  item bs k = Some x -> ~ has_sender x.1.1 -> get_transaction_receipt self x.2 t = Panic.
Proof.
  intros Hx Hn. unfold get_transaction_receipt. rewrite (bind_step _ _ _ _ _ full_archive).
  rewrite (bind_step _ _ _ _ _ (internal_done _ _ _ (get_index_rel k x Hx))).
  rewrite (bind_step _ _ _ _ _ (internal_done _ _ _ (get_transaction_rel t bs k (br_tables _ _ (ss_bodies _ _ _ _ Hs))))).
  rewrite Hx. cbn [fmap option_fmap option_map]. run_steps. destruct x as [[[] ?] ?]; cbn in *; try done.
  unfold calc_msg_hash, l1_handler_message_hash. destruct (L1HandlerTransaction_calldata _); [done|]. by destruct Hn.
Qed.

(** The receipts of a block are those of its transactions. *)
Lemma with_receipt_rel b i x r :
  item bs (b, Z.of_nat i) = Some x -> has_sender x.1.1 -> output_fits x.1.1 x.1.2 -> RpcTransaction_try_from x.1.1 t = Done t r ->
  exists output, shows_output x output /\ transaction_with_receipt b (i, (r, x.2)) t = Done t (mkTransactionWithReceipt
    (TransactionReceiptInBlock_from (GeneralTransactionReceipt_TransactionReceipt (shown_receipt (b, Z.of_nat i) x.2 output))) r).
Proof.
  intros Hx Hne Hfit Hr. destruct (output_converts x (stored_transaction_version x.1.1) Hfit) as [output Hout].
  exists output. split; [done|]. cbn [transaction_with_receipt]. rewrite (bind_step _ _ _ _ _ (msg_hash_rel _ _ Hne Hr)).
  cbv zeta. rewrite (stored_version_rel _ _ _ Hr).
  by rewrite (bind_step _ _ _ _ _ (non_pending_receipt_rel _ _ _ _ _ Hx Hout)).
Qed.

End Reads.
End Props.
