(* ===== verification/RpcEvents.v ===== *)
(** * Paging through the events

    What [get_events] of [Rpc.v] answers on the storage of a synchronised node. The
    events a filter asks for form a stream, ordered by their indices: those of the
    accepted blocks, then those of the pending block. A page is a part of the stream,
    and its continuation token stands for the rest of it. *)

From stdpp Require Import base gmap list strings fin_maps sorting.
From Stdlib Require Import ZArith Lia.
From S2P Require Import Prelude StorageTables StarknetTypes StorageTxn Header Body BodyProps EventsProps State StateProps.
From S2P Require Import StateTheorems ClientObjects PendingSync Sync SyncProps ProtoCommon ProtoTransaction RpcConvert Rpc RpcProps.

#[local] Open Scope Z_scope.

(** An event with its index. *)
Abbreviation Stream := (list (EventIndex * RpcEvent)).

Abbreviation by_index := (fun x y : EventIndex * RpcEvent => key_lt x.1 y.1).

(** The keys of an event satisfy a filter: at each position of the filter the event
    has a key, and it is one of those listed unless none is listed. *)
Lemma keys_match_spec content filter :
  do_event_keys_match_filter content filter = true <->
  forall i keys, EventFilter_keys filter !! i = Some keys ->
    exists key, EventContent_keys content !! i = Some key /\ (keys = ∅ \/ key ∈ keys).
Proof.
  unfold do_event_keys_match_filter. rewrite forallb_forall. split.
  - intros Hall i keys Hi. specialize (Hall (i, keys)). rewrite <-list_elem_of_In in Hall.
    specialize (Hall ltac:(apply elem_of_lookup_imap; eauto)).
    destruct (EventContent_keys content !! i) as [key|]; [|done]. exists key. split; [done|].
    by rewrite orb_true_iff, !bool_decide_eq_true in Hall.
  - intros Hall [i keys] (i' & keys' & [= -> ->] & Hi)%list_elem_of_In%elem_of_lookup_imap.
    destruct (Hall _ _ Hi) as (key & -> & Hk). by rewrite orb_true_iff, !bool_decide_eq_true.
Qed.

Definition address_matches (filter : EventFilter) (event : Event) : Prop :=
  match EventFilter_address filter with Some a => Event_from_address event = a | None => True end.

#[export] Instance address_matches_dec filter event : Decision (address_matches filter event).
Proof. unfold address_matches. destruct (EventFilter_address filter); apply _. Defined.

(** The events a filter asks for. *)
Definition wanted (filter : EventFilter) (x : EventIndex * RpcEvent) : Prop :=
  address_matches filter (RpcEvent_event x.2) /\ do_event_keys_match_filter (Event_content (RpcEvent_event x.2)) filter = true.

#[export] Instance wanted_dec filter x : Decision (wanted filter x).
Proof. apply and_dec; apply _. Defined.

(** The part of a stream from an index on. *)
Definition from_index (i : EventIndex) (s : Stream) : Stream := filter (fun x => ~ key_lt x.1 i) s.

Lemma from_index_head (s1 : Stream) y s2 :
  StronglySorted by_index (s1 ++ y :: s2) -> from_index y.1 (s1 ++ y :: s2) = y :: s2.
Proof.
  intros Hs. unfold from_index. rewrite filter_app, filter_none, filter_all; [done| |].
  - apply StronglySorted_app_1_r, StronglySorted_inv in Hs as [_ Hall]. rewrite Forall_forall in Hall.
    intros x [->|Hx]%elem_of_cons; [apply key_lt_irrefl|]. by apply key_lt_asym, Hall.
  - intros x Hx Hn. apply Hn. eapply (StronglySorted_app_1_elem_of by_index); [exact Hs|done|by left].
Qed.

(** The events of a pending transaction, and of the pending block with number [n]. *)
Fixpoint receipt_stream (k : TransactionIndex) (transaction_hash j : Z) (events : list Event) : Stream :=
  match events with
  | [] => []
  | event :: events => ((k, j), mkRpcEvent None None transaction_hash event) :: receipt_stream k transaction_hash (j + 1) events
  end.

Fixpoint pending_stream (n i : Z) (receipts : list TransactionReceipt) : Stream :=
  match receipts with
  | [] => []
  | receipt :: receipts =>
      receipt_stream (n, i) (TransactionReceipt_transaction_hash receipt) 0 (TransactionReceipt_events receipt) ++
      pending_stream n (i + 1) receipts
  end.

Lemma receipt_stream_index k h j events x : x ∈ receipt_stream k h j events -> x.1.1 = k /\ j <= x.1.2.
Proof.
  revert j; induction events as [|e events IH]; intros j; cbn [receipt_stream]; [by intros ?%not_elem_of_nil|].
  intros [->|[-> Hj]%IH]%elem_of_cons; cbn; split; done || lia.
Qed.

Lemma pending_stream_index n i receipts x : x ∈ pending_stream n i receipts -> x.1.1.1 = n /\ i <= x.1.1.2 /\ 0 <= x.1.2.
Proof.
  revert i; induction receipts as [|r receipts IH]; intros i; cbn [pending_stream]; [by intros ?%not_elem_of_nil|].
  intros [[-> Hj]%receipt_stream_index|(-> & Hi & Hj)%IH]%elem_of_app; cbn; repeat split; lia.
Qed.

Lemma receipt_stream_sorted k h j events : StronglySorted by_index (receipt_stream k h j events).
Proof.
  revert j; induction events as [|e events IH]; intros j; cbn [receipt_stream]; constructor; [done|].
  apply Forall_forall. intros x [Hk Hj]%receipt_stream_index. right. cbn in *. split; [done|]. lia.
Qed.

Lemma pending_stream_sorted n i receipts : StronglySorted by_index (pending_stream n i receipts).
Proof.
  revert i; induction receipts as [|r receipts IH]; intros i; cbn [pending_stream]; [constructor|].
  apply StronglySorted_app_2; [|apply receipt_stream_sorted|done].
  intros x y [Hx _]%receipt_stream_index (Hy & Hi & _)%pending_stream_index. left. rewrite Hx. right. cbn in *. split; [done|]. lia.
Qed.

(** ** The outcome of a loop *)

Section Pages.
Context {BN : BlockNumberApi} {SN : StateNumberApi} {X : ExternalTypes} {SF : StorageFiles} {HS : HashSetIter}.
Context {SB : StarknetBlockApi} {RC : RpcCrates} {RCS : RpcCratesSpec}.
Context (filter : EventFilter).

(** A loop over [s] that has collected [acc] before: it returns a full page with a
    token for an event of [s], or the wanted events of [s] are all collected. *)
Definition collected (acc : list RpcEvent) (s : Stream) (r : EventsChunk + list RpcEvent) : Prop :=
  match r with
  | inr events => events = acc ++ (base.filter (wanted filter) s).*2 /\ zlength events <= EventFilter_chunk_size filter
  | inl chunk => exists s1 y s2 token, s = s1 ++ y :: s2 /\
      EventsChunk_events chunk = acc ++ (base.filter (wanted filter) s1).*2 /\
      zlength (EventsChunk_events chunk) = EventFilter_chunk_size filter /\
      EventsChunk_continuation_token chunk = Some token /\ event_index_from_str token = Some y.1
  end.

Lemma collected_skip acc x s r : ~ wanted filter x -> collected acc s r -> collected acc (x :: s) r.
Proof.
  intros Hx. destruct r as [chunk|events]; unfold collected; [|by rewrite filter_cons_False].
  intros (s1 & y & s2 & token & -> & He & H). exists (x :: s1), y, s2, token. by rewrite filter_cons_False.
Qed.

Lemma collected_take acc x s r : wanted filter x -> collected (acc ++ [x.2]) s r -> collected acc (x :: s) r.
Proof.
  intros Hx. destruct r as [chunk|events]; unfold collected.
  - intros (s1 & y & s2 & token & -> & He & H). exists (x :: s1), y, s2, token. rewrite filter_cons_True by done.
    rewrite <-app_assoc in He. done.
  - rewrite filter_cons_True by done. by rewrite <-app_assoc.
Qed.

Lemma collected_app acc s1 s2 events r : collected acc s1 (inr events) -> collected events s2 r -> collected acc (s1 ++ s2) r.
Proof.
  intros [-> _]. destruct r as [chunk|events']; unfold collected.
  - intros (s3 & y & s4 & token & -> & He & H). exists (s1 ++ s3), y, s4, token.
    rewrite filter_app, fmap_app, !app_assoc. by rewrite <-!app_assoc in *.
  - by rewrite filter_app, fmap_app, !app_assoc.
Qed.

Lemma collected_more acc s1 s2 chunk : collected acc s1 (inl chunk) -> collected acc (s1 ++ s2) (inl chunk).
Proof.
  unfold collected. intros (s3 & y & s4 & token & -> & H). exists s3, y, (s4 ++ s2), token. by rewrite <-app_assoc.
Qed.

Lemma full_chunk_rel acc y s t :
  zlength acc = EventFilter_chunk_size filter ->
  exists r, full_chunk acc y.1 t = Done t r /\ collected acc (y :: s) r.
Proof.
  intros Hl. unfold full_chunk, ContinuationToken_new. destruct (event_index_printed y.1) as (token & -> & Htok).
  eexists. split; [done|]. exists [], y, s, token. cbn. by rewrite app_nil_r.
Qed.

(** ** The pending block *)

Context (t : StorageTxn).

Lemma wanted_bools event index (hash : Z) block number :
  wanted filter (index, mkRpcEvent block number hash event) <->
  do_event_keys_match_filter (Event_content event) filter = true /\
  match EventFilter_address filter with Some a => negb (Event_from_address event =? a) | None => false end = false.
Proof.
  unfold wanted, address_matches. cbn. destruct (EventFilter_address filter); [|tauto].
  rewrite negb_false_iff, Z.eqb_eq. tauto.
Qed.

Lemma collect_receipt_rel n ts es i hash j events acc :
  zlength acc <= EventFilter_chunk_size filter ->
  exists r, collect_receipt_events filter n ts es i hash j events acc t = Done t r /\
    collected acc (base.filter (fun x => ~ (i = ts /\ x.1.2 < es)) (receipt_stream (n, i) hash j events)) r.
Proof.
  revert j acc; induction events as [|event events IH]; intros j acc Hacc; cbn [collect_receipt_events receipt_stream].
  { exists (inr acc). split; [done|]. split; [by rewrite app_nil_r|done]. }
  cbv zeta. destruct (Z.eqb_spec i ts) as [Hi|Hi], (Z.ltb_spec j es) as [Hj|Hj]; cbn [andb].
  1: rewrite filter_cons_False by (cbn; tauto); by apply IH.
  all: rewrite filter_cons_True by (cbn; lia).
  all: destruct (Z.eqb_spec (zlength acc) (EventFilter_chunk_size filter)) as [Hfull|Hfull]; [by apply (full_chunk_rel acc (((n, i), j), _))|].
  all: pose proof (wanted_bools event ((n, i), j) hash None None) as Hw.
  all: destruct (do_event_keys_match_filter _ _); cbn [negb].
  all: try (destruct (match EventFilter_address filter with Some _ => _ | None => _ end)).
  all: try (destruct (IH (j + 1) acc Hacc) as (r & Hr & Hc); exists r; split; [done|]; apply collected_skip; [naive_solver|done]).
  all: destruct (IH (j + 1) (acc ++ [mkRpcEvent None None hash event])) as (r & Hr & Hc); [rewrite zlength_snoc; lia|].
  all: exists r; split; [done|]; apply collected_take; [tauto|done].
Qed.

Lemma collect_pending_rel n ts es i receipts acc :
  zlength acc <= EventFilter_chunk_size filter ->
  exists r, collect_pending_events filter n ts es i receipts acc t = Done t r /\
    collected acc (from_index ((n, ts), es) (pending_stream n i receipts)) r.
Proof.
  revert i acc; induction receipts as [|receipt receipts IH]; intros i acc Hacc; cbn [collect_pending_events pending_stream].
  { exists (inr acc). split; [done|]. split; [by rewrite app_nil_r|done]. }
  cbv zeta. unfold from_index. rewrite filter_app. destruct (Z.ltb_spec i ts) as [Hi|Hi].
  { rewrite filter_none; [by apply IH|]. intros x [Hx _]%receipt_stream_index Hn. apply Hn. left. rewrite Hx. right. by cbn. }
  destruct (collect_receipt_rel n ts es i (TransactionReceipt_transaction_hash receipt) 0 (TransactionReceipt_events receipt) acc Hacc)
    as (r & Hr & Hc). rewrite (bind_step _ _ _ _ _ Hr).
  rewrite (filter_ext_in _ (fun x : EventIndex * RpcEvent => ~ (i = ts /\ x.1.2 < es))).
  2: { intros x [Hx _]%receipt_stream_index. unfold key_lt; cbn. unfold pair_lt, key_lt; cbn. unfold pair_lt, key_lt; cbn.
       rewrite Hx. cbn. destruct x as [[[? ?] ?] ?]; cbn in *. injection Hx as -> ->. split; intros H1 H2; apply H1.
       - destruct H2 as [-> ?]. by right.
       - destruct H2 as [[?|[_ ?]]|[[= ->] ?]]; lia. }
  destruct r as [chunk|events].
  - eexists. split; [done|]. by apply collected_more.
  - destruct (IH (i + 1) events) as (r & Hr' & Hc'); [apply Hc|]. exists r. split; [done|]. by eapply collected_app.
Qed.

(** ** The accepted blocks *)

Context (l : HeaderChain) (bs : BodyChain) (ds : list ThinStateDiff).
Context (Hs : sync_rel t l bs ds) (Hlen : zlength l < 2 ^ 32).

(** An event of a stored block, as the server shows it. *)
Definition accepted_event (e : EventItem) : EventIndex * RpcEvent :=
  (event_key e, {|
    RpcEvent_block_hash := Some (BlockHeader_block_hash (header_at l (event_key e).1.1));
    RpcEvent_block_number := Some (event_key e).1.1;
    RpcEvent_transaction_hash := default 0 (snd <$> item bs (event_key e).1);
    RpcEvent_event := mkEvent (event_address e) e.2 |}).

Lemma all_events_item e : e ∈ all_events bs -> exists x, item bs (event_key e).1 = Some x /\ 0 <= (event_key e).2.
Proof.
  unfold all_events. intros ([k x] & (i & He)%tx_events_key & Hin)%list_elem_of_bind. rewrite He. cbn.
  exists x. split; [by apply indexed_elem|lia].
Qed.

(** What the iterator returns, one event after the other. *)
Fixpoint yields (it : EventIter) (events : list EventItem) : Prop :=
  match events with
  | [] => exists it', event_iter_next it t = Done t (it', None)
  | e :: events => exists it', event_iter_next it t = Done t (it', Some e) /\ yields it' events
  end.

Definition stops (B : Z) (e : EventItem) : Prop :=
  B < (event_key e).1.1 \/ ~ address_matches filter (mkEvent (event_address e) e.2).

Lemma stops_bools B e :
  stops B e <-> (B <? (event_key e).1.1) = true \/
    match EventFilter_address filter with Some a => negb (event_address e =? a) | None => false end = true.
Proof.
  unfold stops, address_matches. cbn. rewrite Z.ltb_lt. destruct (EventFilter_address filter); [|naive_solver].
  by rewrite negb_true_iff, Z.eqb_neq.
Qed.

Lemma read_emitted e :
  e ∈ all_events bs ->
  internal (get_block_header_by_number (event_key e).1.1) t = Done t (header_at l (event_key e).1.1) /\
  internal (get_transaction_hash_by_idx (event_key e).1) t = Done t (snd <$> item bs (event_key e).1).
Proof.
  intros (x & Hx & _)%all_events_item. pose proof (item_range _ _ _ Hx) as [Hb _]. rewrite (ss_lengths _ _ _ _ Hs) in Hb. split.
  - apply internal_done. by apply (get_header_done t l bs ds Hs Hlen).
  - apply internal_done, get_transaction_hash_rel, (br_tables _ _ (ss_bodies _ _ _ _ Hs)).
Qed.

Lemma collect_events_rel B W V fuel it acc :
  yields it (W ++ V) -> Forall (fun e => ~ stops B e /\ e ∈ all_events bs) W ->
  match V with [] => True | e :: _ => stops B e end -> (length W < fuel)%nat -> zlength acc <= EventFilter_chunk_size filter ->
  exists r, collect_events fuel filter B it acc t = Done t r /\ collected acc (accepted_event <$> W) r.
Proof.
  intros Hy HW HV. revert fuel it acc Hy; induction HW as [|e W [Hgo Hin] HW IH]; intros [|fuel] it acc Hy Hf Hacc; [lia| |lia|];
    cbn [collect_events]; unfold bind at 1.
  - assert (Hdone : collected acc (accepted_event <$> []) (inr acc)) by (split; [by rewrite app_nil_r|done]).
    destruct V as [|e V]; cbn [yields app] in Hy.
    + destruct Hy as (it' & Hn). rewrite (internal_done _ _ _ Hn). by eexists.
    + destruct Hy as (it' & Hn & _). rewrite (internal_done _ _ _ Hn). destruct e as [[a [[b i] j]] content]. cbn [fst snd].
      apply stops_bools in HV. cbn [event_key event_address fst snd] in HV.
      destruct (B <? b); [by eexists|]. destruct HV as [|HV]; [done|]. rewrite HV. by eexists.
  - cbn [yields app] in Hy. destruct Hy as (it' & Hn & Hy). rewrite (internal_done _ _ _ Hn).
    destruct (read_emitted e Hin) as [Hh Ht]. destruct (all_events_item e Hin) as (x & Hx & _).
    rewrite stops_bools in Hgo. pose proof (wanted_bools (mkEvent (event_address e) e.2) (event_key e)
      (default 0 (snd <$> item bs (event_key e).1)) (Some (BlockHeader_block_hash (header_at l (event_key e).1.1)))
      (Some (event_key e).1.1)) as Hw. change (_, _) with (accepted_event e) in Hw. cbn [Event_content Event_from_address] in Hw.
    cbn in Hf. rewrite fmap_cons. destruct (item bs (event_key e).1) eqn:Hx'; [|done]. injection Hx as ->.
    destruct e as [[a [[b i] j]] content]. cbn [event_key event_address fst snd] in *.
    destruct (B <? b); [naive_solver|]. destruct (match EventFilter_address filter with Some _ => _ | None => _ end); [naive_solver|].
    destruct (do_event_keys_match_filter content filter).
    + destruct (Z.eqb_spec (zlength acc) (EventFilter_chunk_size filter)) as [Hfull|Hfull]; [exact (full_chunk_rel acc (accepted_event ((a, ((b, i), j)), content)) _ t Hfull)|].
      rewrite (bind_step _ _ _ _ _ Hh), (bind_step _ _ _ _ _ Ht). cbn [fmap option_fmap option_map ok_or_internal ok_or_raise]. run_steps.
      destruct (IH fuel it' (acc ++ [(accepted_event ((a, ((b, i), j)), content)).2])) as (r & Hr & Hc); [done|lia|rewrite zlength_snoc; lia|].
      exists r. split; [|apply collected_take; [tauto|done]]. rewrite <-Hr. unfold accepted_event. cbn. by rewrite Hx'.
    + destruct (IH fuel it' acc) as (r & Hr & Hc); [done|lia|done|]. exists r. split; [done|].
      apply collected_skip; [naive_solver|done].
Qed.

Lemma tx_events_sorted y : StronglySorted (fun e e' : EventItem => key_lt (event_key e) (event_key e')) (tx_events y).
Proof.
  unfold tx_events. assert (Hgen : forall n, StronglySorted (fun e e' : EventItem => key_lt (event_key e) (event_key e'))
    (imap (fun j e => ((Event_from_address e, (y.1, Z.of_nat (n + j))), Event_content e)) (TransactionOutput_events y.2.1.2)));
    [|apply (Hgen 0%nat)].
  induction (TransactionOutput_events y.2.1.2) as [|ev evs IH]; intros n; cbn [imap]; constructor.
  - erewrite imap_ext; [apply (IH (S n))|]. intros i e _. cbn. do 4 f_equal. lia.
  - apply Forall_forall. intros e (i & ev' & -> & _)%elem_of_lookup_imap. right. split; [done|]. cbn. lia.
Qed.

Lemma all_events_sorted : StronglySorted (fun e e' : EventItem => key_lt (event_key e) (event_key e')) (all_events bs).
Proof.
  unfold all_events. induction (indexed_sorted bs) as [|y L HL IH Hall]; cbn [mbind list_bind]; [constructor|].
  apply StronglySorted_app_2; [|apply tx_events_sorted|done].
  intros e e' (i & He)%tx_events_key (z & (i' & He')%tx_events_key & Hz)%list_elem_of_bind.
  rewrite Forall_forall in Hall. apply Hall in Hz. rewrite He, He'. by left.
Qed.

Lemma by_index_yields B events : forall it L j, iter_at bs B it L j -> ready B L j -> remaining B L j = events ->
  yields (EventIter_ByEventIndex it) events.
Proof.
  pose proof (br_tables _ _ (ss_bodies _ _ _ _ Hs)) as Ht.
  induction events as [|e events IH]; intros it L j Hat Hrd Hrem; pose proof (by_event_index_next_done t bs B it L j Ht Hat Hrd) as Hn;
    rewrite Hrem in Hn; cbn [yields]; unfold event_iter_next.
  - eexists. by rewrite (bind_step _ _ _ _ _ Hn).
  - destruct Hn as (it' & L' & j' & Hn & Hat' & Hrd' & Hrem'). eexists. rewrite (bind_step _ _ _ _ _ Hn). split; [done|]. by eapply IH.
Qed.

Lemma by_address_yields events : forall it E, address_iter_at t it E -> events_queue it ++ later_events bs E = events ->
  yields (EventIter_ByContractAddress it) events.
Proof.
  pose proof (br_tables _ _ (ss_bodies _ _ _ _ Hs)) as Ht.
  induction events as [|e events IH]; intros it E Hat Hrem; pose proof (by_contract_address_next_done t bs it E Ht Hat) as Hn;
    rewrite Hrem in Hn; cbn [yields]; unfold event_iter_next.
  - eexists. by rewrite (bind_step _ _ _ _ _ Hn).
  - destruct Hn as (it' & E' & Hn & Hat' & Hrem'). eexists. rewrite (bind_step _ _ _ _ _ Hn). split; [done|]. by eapply IH.
Qed.

(** The iterator of a query returns its events, and then only events the loop stops at. *)
Definition queried (start : EventIndex) (B : Z) : list EventItem :=
  base.filter (fun e => ~ key_lt (event_key e) start /\ ~ stops B e) (all_events bs).

#[local] Instance stops_dec B e : Decision (stops B e).
Proof. apply or_dec; apply _. Defined.

Lemma filter_split {A} (P : A -> Prop) `{forall x, Decision (P x)} (l1 l2 : list A) :
  Forall P l1 -> Forall (fun x => ~ P x) l2 -> base.filter P (l1 ++ l2) = l1.
Proof.
  rewrite !Forall_forall. intros H1 H2. by rewrite filter_app, (filter_all P l1), (filter_none P l2), app_nil_r.
Qed.

Lemma stops_cases B e :
  stops B e <-> B < (event_key e).1.1 \/ match EventFilter_address filter with Some a => event_address e <> a | None => False end.
Proof. unfold stops, address_matches. cbn. by destruct (EventFilter_address filter); [|naive_solver]. Qed.

Lemma iter_events_yields k j B :
  0 <= j -> is_Some (item bs k) \/ j = 0 ->
  exists it V, iter_events (EventFilter_address filter) (k, j) B t = Done t it /\ yields it (queried (k, j) B ++ V) /\
    match V with [] => True | e :: _ => stops B e end.
Proof.
  intros Hj Hk. pose proof (br_tables _ _ (ss_bodies _ _ _ _ Hs)) as Ht. pose proof (stops_cases B) as Hst.
  destruct (EventFilter_address filter) as [a|] eqn:Ha.
  - destruct (split_entries t a k) as (E1 & Ea & Er & Hse & HE1 & HE2 & HEa & Hgt).
    destruct (address_iter_start t bs a k j E1 (Ea ++ Er) Ht Hse HE1 HE2) as (it & E' & Hrun & Hat & He).
    rewrite events_from_entries_app, (events_of_entries t bs a k j E1 Ea Er) in He by done.
    set (others := match Ea with [] => _ | _ => _ end) in He.
    assert (Hothers : Forall (fun e => a < event_address e) others)
      by (subst others; destruct Ea; [by apply entries_above|by apply later_events_above]).
    destruct (sorted_split _ (fun e => (event_key e).1.1 <= B) (events_of a (k, j) bs)
      (filter_sorted _ _ _ all_events_sorted)) as (W & V1 & Hsplit & HW & HV1).
    { intros e e' [[Hlt|[Hlt _]]|[Heq _]] Hle; [cbn in *; lia|cbn in *; lia|by rewrite Heq]. }
    exists (EventIter_ByContractAddress it), (V1 ++ others). split; [apply Hrun|]. split.
    + eapply by_address_yields; [done|]. rewrite He, Hsplit, <-app_assoc. f_equal.
      rewrite <-(filter_split (fun e => (event_key e).1.1 <= B) W V1), <-Hsplit by done. unfold events_of, queried.
      rewrite list_filter_filter. apply list_filter_iff. intros e. rewrite Hst. split; [intros (? & ? & ?)|intros [? ?]].
      * split; [done|]. intros [?|?]; [lia|done].
      * destruct (decide (event_address e = a)); [|tauto]. split; [lia|done].
    + destruct V1 as [|e V1]; cbn [app].
      * destruct Hothers as [|e others' Hlt]; [done|]. apply Hst. right. lia.
      * apply Forall_cons in HV1 as [Hv _]. apply Hst. left. lia.
  - destruct (split_indexed bs k) as (L1 & L2 & He & H1 & H2).
    destruct (iter_start t bs k j B L1 L2 Ht Hj He H1 H2) as (it & L' & j' & Hrun & Hat & Hrd & Hrem).
    exists (EventIter_ByEventIndex it), []. split; [done|]. split; [|done]. rewrite app_nil_r.
    eapply by_index_yields; [done..|]. rewrite Hrem, (remaining_between k j B Hj bs L1 L2 He H1 H2 Hk).
    unfold events_between, queried. apply list_filter_iff. intros e. rewrite Hst. split; intros [? ?]; split; done || lia || tauto.
Qed.

(** ** A page *)

(** The events a filter asks for, up to block [to]; the number of the pending block
    is that after the last accepted one. *)
Definition all_shown (self : JsonRpcServerImpl) (to : Z) : Stream :=
  (accepted_event <$> base.filter (fun e => (event_key e).1.1 <= Z.min to (zlength ds - 1)) (all_events bs)) ++
  (if zlength ds <=? to
   then pending_stream (zlength ds) 0 (pending_transaction_receipts (PendingData_block (shown_pending l ds (rpc_pending_data self))))
   else []).

Definition stream (self : JsonRpcServerImpl) (to : Z) : Stream := base.filter (wanted filter) (all_shown self to).

(** An index a page can start at. *)
Definition valid_start (i : EventIndex) : Prop :=
  0 <= i.1.2 /\ 0 <= i.2 /\ i.1.1 <= zlength ds /\ (i.1.1 < zlength ds -> is_Some (item bs i.1) \/ i.2 = 0).

Definition page (self : JsonRpcServerImpl) (to : Z) (start : EventIndex) (chunk : EventsChunk) : Prop :=
  match EventsChunk_continuation_token chunk with
  | None => EventsChunk_events chunk = (from_index start (stream self to)).*2
  | Some token => exists i, event_index_from_str token = Some i /\ valid_start i /\
      zlength (EventsChunk_events chunk) = EventFilter_chunk_size filter /\
      EventsChunk_events chunk ++ (from_index i (stream self to)).*2 = (from_index start (stream self to)).*2
  end.

(** What the loops visit from [start] on. *)
Definition visited (self : JsonRpcServerImpl) (to : Z) (start : EventIndex) : Stream :=
  (accepted_event <$> queried start (Z.min to (zlength ds - 1))) ++
  (if zlength ds <=? to
   then from_index start (pending_stream (zlength ds) 0
     (pending_transaction_receipts (PendingData_block (shown_pending l ds (rpc_pending_data self)))))
   else []).

Lemma filter_swap {A} (P Q : A -> Prop) `{forall x, Decision (P x), forall x, Decision (Q x)} (s : list A) :
  base.filter P (base.filter Q s) = base.filter Q (base.filter P s).
Proof. rewrite !list_filter_filter. apply list_filter_iff. tauto. Qed.

Lemma filter_fmap_comm {A C} (P : C -> Prop) `{forall x, Decision (P x)} (f : A -> C) (s : list A) :
  base.filter P (f <$> s) = f <$> base.filter (fun x => P (f x)) s.
Proof. induction s as [|x s IH]; [done|]. rewrite fmap_cons, !filter_cons, IH. by case_decide. Qed.

Lemma visited_wanted self to start : base.filter (wanted filter) (visited self to start) = from_index start (stream self to).
Proof.
  unfold visited, stream, all_shown, from_index. rewrite (filter_swap (fun x => ~ key_lt x.1 start)), !filter_app. f_equal.
  - rewrite !filter_fmap_comm. f_equal. unfold queried. rewrite !list_filter_filter. apply list_filter_iff.
    intros e. unfold stops, wanted. cbn. destruct (decide (address_matches filter (mkEvent (event_address e) e.2))); [|tauto].
    assert (~ Z.min to (zlength ds - 1) < (event_key e).1.1 <-> (event_key e).1.1 <= Z.min to (zlength ds - 1)) by lia. tauto.
  - by destruct (zlength ds <=? to).
Qed.

Lemma visited_sorted self to start : StronglySorted by_index (visited self to start).
Proof.
  unfold visited. apply StronglySorted_app_2.
  - intros x y (e & -> & [[_ He] _]%list_elem_of_filter)%list_elem_of_fmap Hy. destruct (zlength ds <=? to); [|by apply not_elem_of_nil in Hy].
    apply list_elem_of_filter in Hy as [_ (Hy & _)%pending_stream_index]. left. left. cbn. rewrite Hy.
    unfold stops in He. destruct (Z.lt_ge_cases (event_key e).1.1 (zlength ds)); [done|]. destruct He. left. lia.
  - apply fmap_sorted, filter_sorted, all_events_sorted.
  - destruct (zlength ds <=? to); [|constructor]. apply filter_sorted, pending_stream_sorted.
Qed.

Lemma visited_from self to start x : x ∈ visited self to start -> ~ key_lt x.1 start /\ valid_start x.1.
Proof.
  unfold visited. intros [(e & -> & [[Hge He] Hin]%list_elem_of_filter)%list_elem_of_fmap|Hx]%elem_of_app.
  - split; [done|]. destruct (all_events_item e Hin) as (y & Hy & Hj). pose proof (item_range _ _ _ Hy) as [Hb Hi].
    unfold stops in He. split; [done|]. split; [done|]. cbn. split; [lia|]. intros _. left. by exists y.
  - destruct (zlength ds <=? to); [|by apply not_elem_of_nil in Hx].
    apply list_elem_of_filter in Hx as [Hge (Hn & Hi & Hj)%pending_stream_index]. split; [done|]. unfold valid_start. lia.
Qed.

Lemma collected_page self to start r :
  collected [] (visited self to start) r ->
  page self to start (match r with inl chunk => chunk | inr events => mkEventsChunk events None end).
Proof.
  unfold page. destruct r as [chunk|events]; [|intros [-> _]; cbn; by rewrite visited_wanted].
  intros (s1 & y & s2 & token & Hv & He & Hfull & -> & Htok). exists y.1. split; [done|].
  destruct (visited_from self to start y) as [Hge Hvalid]; [rewrite Hv; apply elem_of_app; right; by left|].
  split; [done|]. split; [done|]. rewrite He. cbn [app].
  assert (Hrest : from_index y.1 (stream self to) = base.filter (wanted filter) (y :: s2)).
  { transitivity (from_index y.1 (from_index start (stream self to))).
    - unfold from_index. rewrite list_filter_filter. apply list_filter_iff. intros x. split; [|tauto].
      intros Hx. split; [done|]. intros Hlt. apply Hx. apply key_not_lt in Hge as [->|Hge]; [done|by transitivity start].
    - rewrite <-visited_wanted. unfold from_index at 1. rewrite filter_swap. f_equal.
      pose proof (visited_sorted self to start) as Hsort. rewrite Hv in Hsort |- *. by apply from_index_head. }
  rewrite Hrest, <-fmap_app, <-filter_app, <-Hv. by rewrite visited_wanted.
Qed.

(** ** The method *)

Definition from_number : option Z :=
  match EventFilter_from_block filter with
  | None => Some 0
  | Some block_id => if is_pending block_id then Some (zlength ds) else resolve l ds block_id
  end.

Definition to_number : option Z :=
  match EventFilter_to_block filter with
  | None => Some (zlength ds)
  | Some block_id => if is_pending block_id then Some (zlength ds) else resolve l ds block_id
  end.

(** The filter is within the limits of the server and its block numbers are unsigned. *)
Record filter_ok (self : JsonRpcServerImpl) : Prop := {
  fo_chunk : 0 <= EventFilter_chunk_size filter <= rpc_max_events_chunk_size self;
  fo_keys : zlength (EventFilter_keys filter) <= rpc_max_events_keys self;
  fo_from : match EventFilter_from_block filter with Some block_id => block_id_ok block_id | None => True end;
  fo_to : match EventFilter_to_block filter with Some block_id => block_id_ok block_id | None => True end
}.

Lemma next_of_latest : 0 < zlength ds -> bn_unchecked_next (zlength ds - 1) = zlength ds.
Proof. intros Hd. pose proof (diffs_small t l bs ds Hs). rewrite bn_unchecked_next_small by lia. lia. Qed.

Lemma read_from_block :
  0 < zlength ds -> match EventFilter_from_block filter with Some block_id => block_id_ok block_id | None => True end ->
  (match EventFilter_from_block filter with
   | None => ret 0
   | Some (BlockId_Tag Tag_Pending) => ret (bn_unchecked_next (zlength ds - 1))
   | Some block_id => get_accepted_block_number block_id
   end) t = found_or t BLOCK_NOT_FOUND from_number.
Proof.
  intros Hd Hok. unfold from_number. pose proof (get_accepted_rel t l bs ds Hs Hlen) as Ha.
  destruct (EventFilter_from_block filter) as [[[h|b]|[]]|]; cbn [is_pending]; try (by apply Ha); [|done].
  by rewrite next_of_latest.
Qed.

Lemma read_to_block :
  0 < zlength ds -> match EventFilter_to_block filter with Some block_id => block_id_ok block_id | None => True end ->
  (match EventFilter_to_block filter with
   | Some (BlockId_Tag Tag_Pending) | None => ret (bn_unchecked_next (zlength ds - 1))
   | Some block_id => get_accepted_block_number block_id
   end) t = found_or t BLOCK_NOT_FOUND to_number.
Proof.
  intros Hd Hok. unfold to_number. pose proof (get_accepted_rel t l bs ds Hs Hlen) as Ha.
  destruct (EventFilter_to_block filter) as [[[h|b]|[]]|]; cbn [is_pending]; try (by apply Ha); by rewrite next_of_latest.
Qed.

Lemma to_number_range to : 0 < zlength ds ->
  match EventFilter_to_block filter with Some block_id => block_id_ok block_id | None => True end ->
  to_number = Some to -> 0 <= to <= zlength ds.
Proof.
  intros Hd Hok. unfold to_number. destruct (EventFilter_to_block filter) as [id|]; [destruct (is_pending id)|].
  1, 3: intros [= <-]; lia. intros Hr. apply (resolve_range t l bs ds Hs) in Hr; [lia|done].
Qed.

(** The loop over the storage, when the page starts in an accepted block. *)
Lemma collect_storage_rel fuel start B :
  valid_start start -> B < zlength ds -> (length (all_events bs) < fuel)%nat -> 0 <= EventFilter_chunk_size filter ->
  exists r, (if start.1.1 <=? zlength ds - 1 then
      let! it := internal (iter_events (EventFilter_address filter) start B) in collect_events fuel filter B it []
    else ret (inr [])) t = Done t r /\ collected [] (accepted_event <$> queried start B) r.
Proof.
  intros (Hi & Hj & Hle & Hk) HB Hf Hc. destruct (Z.leb_spec start.1.1 (zlength ds - 1)) as [Hb|Hb].
  - destruct start as [k j]. destruct (iter_events_yields k j B) as (it & V & Hit & Hy & HV); [done|apply Hk; cbn in *; lia|].
    rewrite (bind_step _ _ _ _ _ (internal_done _ _ _ Hit)). eapply collect_events_rel; [done| |done| |done].
    + apply Forall_forall. intros e [[_ He] Hin]%list_elem_of_filter. done.
    + eapply Nat.le_lt_trans; [|exact Hf]. unfold queried. apply length_filter.
  - exists (inr []). split; [done|]. assert (queried start B = []) as ->; [|by split].
    apply filter_none. intros e _ [Hge He]. apply Hge. left. left. cbn.
    unfold stops in He. destruct (Z.lt_ge_cases B (event_key e).1.1); [tauto|lia].
Qed.

(** The loop over the pending block starts where the page does. *)
Lemma collect_from_start_rel start receipts acc :
  valid_start start -> zlength acc <= EventFilter_chunk_size filter ->
  exists r, (let '(transaction_start, event_start) := if zlength ds - 1 <? start.1.1 then (start.1.2, start.2) else (0, 0) in
      collect_pending_events filter (zlength ds) transaction_start event_start 0 receipts acc) t = Done t r /\
    collected acc (from_index start (pending_stream (zlength ds) 0 receipts)) r.
Proof.
  intros (_ & _ & Hle & _) Hacc. destruct start as [[b i] j]. cbn in *. destruct (Z.ltb_spec (zlength ds - 1) b) as [Hb|Hb].
  - replace b with (zlength ds) by lia. by apply collect_pending_rel.
  - destruct (collect_pending_rel (zlength ds) 0 0 0 receipts acc Hacc) as (r & Hr & Hc). exists r. split; [done|].
    unfold from_index in *. rewrite filter_all in Hc |- *; [done|..].
    all: intros x (Hn & Hi & Hj)%pending_stream_index [[Hlt|[Heq Hlt]]|[Heq Hlt]]; cbn in *; [lia|lia|].
    all: rewrite Heq in Hn; cbn in Hn; lia.
Qed.

Lemma get_events_page fuel self from to start :
  filter_ok self -> 0 < zlength ds -> from_number = Some from -> to_number = Some to -> from <= to ->
  match EventFilter_continuation_token filter with
  | Some token => event_index_from_str token = Some start
  | None => start = ((from, 0), 0)
  end -> valid_start start -> (length (all_events bs) < fuel)%nat ->
  exists chunk, get_events fuel self filter t = Done t chunk /\ page self to start chunk.
Proof.
  intros [Hchunk Hkeys Hfr Hto] Hd Hfrom Hton Hft Htok Hst Hf. pose proof (diffs_small t l bs ds Hs) as Hsm.
  pose proof (to_number_range to Hd Hto Hton) as Htr. unfold get_events.
  rewrite (bind_step _ _ _ _ _ (full_archive t l bs ds Hs)).
  rewrite (proj2 (Z.ltb_ge _ _)), (proj2 (Z.ltb_ge _ _)) by lia.
  rewrite (bind_step _ _ _ _ _ (get_latest_rel t l bs ds Hs Hlen)). unfold latest_accepted.
  rewrite (proj2 (Z.eqb_neq _ _)) by lia.
  pose proof (read_from_block Hd Hfr) as Hrf. rewrite Hfrom in Hrf. rewrite (bind_step _ _ _ _ _ Hrf).
  pose proof (read_to_block Hd Hto) as Hrt. rewrite Hton in Hrt. rewrite (bind_step _ _ _ _ _ Hrt).
  rewrite (proj2 (Z.ltb_ge _ _)) by lia.
  rewrite (bind_step _ _ t t start).
  2: { destruct (EventFilter_continuation_token filter); [unfold ContinuationToken_parse; by rewrite Htok|by rewrite Htok]. }
  cbv zeta. rewrite (bind_step _ _ t t (Z.min to (zlength ds - 1))).
  2: { destruct (Z.ltb_spec (zlength ds - 1) to).
       - rewrite bn_prev_small, (proj2 (Z.eqb_neq _ _)) by lia. cbn. unfold ret. f_equal. lia.
       - unfold ret. f_equal. lia. }
  destruct (collect_storage_rel fuel start (Z.min to (zlength ds - 1)) Hst ltac:(lia) Hf ltac:(lia)) as (r & Hr & Hc).
  rewrite (bind_step _ _ _ _ _ Hr). destruct r as [chunk|events].
  { exists chunk. split; [done|]. apply (collected_page self to start (inl chunk)). by apply collected_more. }
  destruct (Z.ltb_spec (zlength ds - 1) to) as [Hp|Hp].
  - rewrite (bind_step _ _ _ _ _ (read_pending_rel t l bs ds Hs Hlen _)), next_of_latest by lia.
    destruct (collect_from_start_rel start (pending_transaction_receipts (PendingData_block (shown_pending l ds (rpc_pending_data self))))
      events Hst) as (r & Hr' & Hc'); [apply Hc|].
    assert (Hall : collected [] (visited self to start) r).
    { unfold visited. rewrite (proj2 (Z.leb_le _ _)) by lia. by eapply collected_app. }
    destruct (if zlength ds - 1 <? start.1.1 then _ else _) as [ts es]. rewrite (bind_step _ _ _ _ _ Hr').
    apply collected_page in Hall. destruct r; by eexists.
  - exists (mkEventsChunk events None). split; [done|]. apply (collected_page self to start (inr events)).
    unfold visited. rewrite (proj2 (Z.leb_gt _ _)), app_nil_r by lia. done.
Qed.
End Pages.

(** ** All pages *)

(** The next query of a client that follows a token. *)
Definition with_token (filter : EventFilter) (token : rstring) : EventFilter := {|
  EventFilter_from_block := EventFilter_from_block filter;
  EventFilter_to_block := EventFilter_to_block filter;
  EventFilter_continuation_token := Some token;
  EventFilter_chunk_size := EventFilter_chunk_size filter;
  EventFilter_address := EventFilter_address filter;
  EventFilter_keys := EventFilter_keys filter
|}.

Section AllPages.
Context {BN : BlockNumberApi} {SN : StateNumberApi} {X : ExternalTypes} {SF : StorageFiles} {HS : HashSetIter}.
Context {SB : StarknetBlockApi} {RC : RpcCrates} {RCS : RpcCratesSpec}.

(** A client that asks for pages until there is no token, at most [n] times. *)
Fixpoint all_pages (n fuel : nat) (self : JsonRpcServerImpl) (filter : EventFilter) : M StorageTxn JsonRpcError (list RpcEvent) :=
  match n with
  | O => panic
  | S n =>
      let! chunk := get_events fuel self filter in
      match EventsChunk_continuation_token chunk with
      | None => ret (EventsChunk_events chunk)
      | Some token =>
          let! rest := all_pages n fuel self (with_token filter token) in
          ret (EventsChunk_events chunk ++ rest)
      end
  end.

Context (t : StorageTxn) (l : HeaderChain) (bs : BodyChain) (ds : list ThinStateDiff).
Context (Hs : sync_rel t l bs ds) (Hlen : zlength l < 2 ^ 32).
Context (self : JsonRpcServerImpl) (fuel : nat) (Hfuel : (length (all_events bs) < fuel)%nat) (Hd : 0 < zlength ds).

Lemma all_pages_from n filter from to start :
  filter_ok filter self -> 0 < EventFilter_chunk_size filter -> from_number filter l ds = Some from ->
  to_number filter l ds = Some to -> from <= to ->
  match EventFilter_continuation_token filter with
  | Some token => event_index_from_str token = Some start
  | None => start = ((from, 0), 0)
  end -> valid_start bs ds start ->
  (length (from_index start (stream filter l bs ds self to)) < n)%nat ->
  all_pages n fuel self filter t = Done t (from_index start (stream filter l bs ds self to)).*2.
Proof.
  revert filter start; induction n as [|n IH]; intros filter start Hok Hc Hfrom Hto Hft Htok Hv Hn; [lia|]. cbn [all_pages].
  destruct (get_events_page filter t l bs ds Hs Hlen fuel self from to start) as (chunk & Hrun & Hp); [done..|].
  rewrite (bind_step _ _ _ _ _ Hrun). unfold page in Hp.
  destruct (EventsChunk_continuation_token chunk) as [token|]; [|by rewrite Hp].
  destruct Hp as (i & Hi & Hvi & Hfull & Happ).
  assert (Hlt : (length (from_index i (stream filter l bs ds self to)) < n)%nat).
  { apply (f_equal length) in Happ. rewrite length_app, !length_fmap in Happ. unfold zlength in Hfull. lia. }
  rewrite (bind_step _ _ t t (from_index i (stream filter l bs ds self to)).*2); [unfold ret; by rewrite Happ|].
  apply (IH (with_token filter token) i); try done. by destruct Hok.
Qed.
End AllPages.
