(* ===== verification/RpcTheorems.v ===== *)
(** * What the JSON-RPC server promises

    On the storage of a synchronised node the methods answer from the chain it holds:
    its blocks, transactions, receipts and events, and the state after each block. *)

From stdpp Require Import base gmap list strings fin_maps sorting.
From Stdlib Require Import ZArith Lia.
From S2P Require Import Prelude StorageTables StarknetTypes StorageTxn Header Body BodyProps EventsProps State StateProps.
From S2P Require Import StateTheorems ClientObjects PendingSync Sync SyncProps ProtoCommon ProtoTransaction RpcConvert Rpc RpcProps.
From S2P Require Import RpcEvents.

#[local] Open Scope Z_scope.

Section Theorems.
Context {BN : BlockNumberApi} {SN : StateNumberApi} {X : ExternalTypes} {SF : StorageFiles} {HS : HashSetIter}.
Context {SB : StarknetBlockApi} {F : FeltApi} {TA : TransactionApi} {RC : RpcCrates} {RCS : RpcCratesSpec}.

(** ** Events *)

Lemma no_events_between fuel self filter t l bs ds from to :
  sync_rel t l bs ds -> zlength l < 2 ^ 32 -> 0 < zlength ds -> filter_ok filter self ->
  from_number filter l ds = Some from -> to_number filter l ds = Some to -> to < from ->
  get_events fuel self filter t = Done t no_events.
Proof.
  intros Hs Hlen Hd [Hchunk Hkeys Hfr Hto] Hfrom Hton Hlt. unfold get_events.
  rewrite (bind_step _ _ _ _ _ (full_archive t l bs ds Hs)).
  rewrite (proj2 (Z.ltb_ge _ _)), (proj2 (Z.ltb_ge _ _)) by lia.
  rewrite (bind_step _ _ _ _ _ (get_latest_rel t l bs ds Hs Hlen)). unfold latest_accepted.
  rewrite (proj2 (Z.eqb_neq _ _)) by lia.
  pose proof (read_from_block filter t l bs ds Hs Hlen Hd Hfr) as Hrf. rewrite Hfrom in Hrf. rewrite (bind_step _ _ _ _ _ Hrf).
  pose proof (read_to_block filter t l bs ds Hs Hlen Hd Hto) as Hrt. rewrite Hton in Hrt. rewrite (bind_step _ _ _ _ _ Hrt).
  by rewrite (proj2 (Z.ltb_lt _ _)) by lia.
Qed.

Lemma nothing_after_end filter l bs ds self from to :
  to < from -> from <= zlength ds -> from_index ((from, 0), 0) (stream filter l bs ds self to) = [].
Proof.
  intros Hlt Hle. apply filter_none. intros x [_ Hx]%list_elem_of_filter Hn. apply Hn. left. left. cbn.
  unfold all_shown in Hx. rewrite (proj2 (Z.leb_gt _ _)), app_nil_r in Hx by lia.
  apply list_elem_of_fmap in Hx as (e & -> & [He _]%list_elem_of_filter). cbn. lia.
Qed.

Lemma from_number_range filter self t l bs ds from :
  sync_rel t l bs ds -> filter_ok filter self -> from_number filter l ds = Some from -> 0 <= from <= zlength ds.
Proof.
  intros Hs Hok. pose proof (zlength_nonneg ds). pose proof (fo_from _ _ Hok) as Hfr. unfold from_number.
  destruct (EventFilter_from_block filter) as [id|]; [destruct (is_pending id)|].
  1, 3: intros [= <-]; lia. intros Hr. apply (resolve_range t l bs ds Hs) in Hr; [lia|done].
Qed.

(** C15: a client that asks for the events of a range of blocks, and follows the
    continuation tokens until there is none, gets every event of the accepted and the
    pending blocks of the range that passes the filter, each once and in the order of
    their indices, and no others. It needs no more pages than there are such events
    and one, for every page size within the limits of the server but zero; no page is
    an error or a panic. *)
Theorem events_paged (t : StorageTxn) (l : HeaderChain) (bs : BodyChain) (ds : list ThinStateDiff)
    (self : JsonRpcServerImpl) (filter : EventFilter) (from to : Z) (n fuel : nat) :
  sync_rel t l bs ds -> zlength l < 2 ^ 32 -> 0 < zlength ds ->
  filter_ok filter self -> 0 < EventFilter_chunk_size filter -> EventFilter_continuation_token filter = None ->
  from_number filter l ds = Some from -> to_number filter l ds = Some to ->
  (length (all_events bs) < fuel)%nat ->
  (length (from_index ((from, 0%Z), 0%Z) (stream filter l bs ds self to)) < n)%nat ->
  all_pages n fuel self filter t = Done t (from_index ((from, 0%Z), 0%Z) (stream filter l bs ds self to)).*2.
Proof.
  intros Hs Hlen Hd Hok Hc Htok Hfrom Hto Hf Hn. pose proof (from_number_range filter self t l bs ds from Hs Hok Hfrom) as Hr.
  destruct (Z.le_gt_cases from to) as [Hle|Hgt].
  - apply (all_pages_from t l bs ds Hs Hlen self fuel Hf Hd n filter from); try done; [by rewrite Htok|].
    unfold valid_start. cbn. repeat split; [lia|lia|lia|]. by right.
  - rewrite nothing_after_end in Hn |- * by lia. destruct n as [|n]; [cbn in Hn; lia|]. cbn [all_pages].
    by rewrite (bind_step _ _ _ _ _ (no_events_between fuel self filter t l bs ds from to Hs Hlen Hd Hok Hfrom Hto Hgt)).
Qed.

(** ** The state *)

(** C16: the methods on the state answer from the state after the block that is asked
    for: the state diffs up to that block and, for the pending tag, the diff of the
    pending block, provided it follows the last accepted block. A block that is not
    accepted is BLOCK_NOT_FOUND. The class of a contract is the last one deployed or
    replaced, and without one the contract is not found. A storage key holds its last
    value, or zero; zero is CONTRACT_NOT_FOUND when the contract has no class in the
    accepted blocks and is not the table of the block hashes. A nonce is that of the
    pending block, or the last one of the accepted blocks. *)
Theorem state_methods_answer (t : StorageTxn) (l : HeaderChain) (bs : BodyChain) (ds : list ThinStateDiff)
    (self : JsonRpcServerImpl) (block_id : BlockId) (a k : Z) :
  sync_rel t l bs ds -> zlength l < 2 ^ 32 -> block_id_ok block_id ->
  (forall d, pending_diff l ds self block_id = Some d -> pending_disjoint d) ->
  match resolve l ds block_id with
  | None =>
      rpc_get_storage_at self a k block_id t = Fail t BLOCK_NOT_FOUND /\
      get_class_hash_at_block self block_id a t = Fail t BLOCK_NOT_FOUND /\
      get_nonce self block_id a t = Fail t BLOCK_NOT_FOUND
  | Some b =>
      let accepted := shown_diffs ds None b in
      let shown := shown_diffs ds (pending_diff l ds self block_id) b in
      let value := default 0 (final (fun d => diff_storage d (a, k)) shown) in
      rpc_get_storage_at self a k block_id t =
        (if bool_decide (value = 0 /\ a <> BLOCK_HASH_TABLE_ADDRESS /\ final (fun d => diff_class d a) accepted = None)
         then Fail t CONTRACT_NOT_FOUND else Done t value) /\
      get_class_hash_at_block self block_id a t = found_or t CONTRACT_NOT_FOUND (final (fun d => diff_class d a) shown) /\
      get_nonce self block_id a t = found_or t CONTRACT_NOT_FOUND
        (match pending_diff l ds self block_id ≫= fun d => lookup_list (ClientStateDiff_nonces d) a with
         | Some nonce => Some nonce
         | None => final (fun d => diff_nonce d a) accepted
         end)
  end.
Proof.
  intros Hs Hlen Hok Hd. rewrite (rpc_storage_rel t l bs ds Hs Hlen self a k block_id Hok).
  rewrite (rpc_class_hash_rel t l bs ds Hs Hlen self block_id a Hok Hd), (rpc_nonce_rel t l bs ds Hs Hlen self block_id a Hok).
  destruct (resolve l ds block_id) as [b|]; [|done]. cbv zeta. split; [|done].
  destruct (Z.eqb_spec (default 0 (final (fun d => diff_storage d (a, k)) (shown_diffs ds (pending_diff l ds self block_id) b))) 0) as [Hv|Hv],
    (Z.eqb_spec a BLOCK_HASH_TABLE_ADDRESS) as [Ha|Ha]; cbn [andb negb].
  2: by rewrite (bool_decide_ext (_ /\ _) (final (fun d => diff_class d a) (shown_diffs ds None b) = None)) by tauto.
  all: by rewrite bool_decide_eq_false_2 by tauto.
Qed.

(** ** State updates *)

Lemma lookup_list_cons {V} (l : list (Z * V)) a v a' :
  lookup_list ((a, v) :: l) a' = if decide (a = a') then Some v else lookup_list l a'.
Proof. unfold lookup_list. cbn. case_decide; [subst; by rewrite lookup_insert_eq|by rewrite lookup_insert_ne]. Qed.

Lemma lookup_retained storage a k :
  NoDup storage.*1 ->
  (lookup_list (retain_storage_diffs storage) a ≫= fun entries => lookup_list entries k) =
  lookup_list storage a ≫= fun entries => lookup_list entries k.
Proof.
  induction storage as [|[a' entries] storage IH]; intros Hnd; [done|]. apply NoDup_cons in Hnd as [Hnin Hnd].
  unfold retain_storage_diffs in *. rewrite filter_cons, lookup_list_cons. case_decide as Hne.
  - rewrite lookup_list_cons. case_decide; [done|]. by apply IH.
  - case_decide as Ha; [|by apply IH]. subst a'. destruct entries; [|discriminate Hne].
    assert (Hn : lookup_list (base.filter (fun e : Z * list (Z * Z) => e.2 <> []) storage) a = None); [|by rewrite Hn].
    apply lookup_list_None. intros (e & -> & [_ He]%list_elem_of_filter)%list_elem_of_fmap. apply Hnin, list_elem_of_fmap. by exists e.
Qed.

(** the state update of an accepted block has the hash and the state root of the
    block, the state root of the block before it (that of genesis for the first one) as
    the old root, so that the updates of consecutive blocks meet, and a state diff
    without empty entries that changes the storage, the nonces and the classes of the
    contracts as the stored one does. *)
Theorem state_updates_answer (t : StorageTxn) (l : HeaderChain) (bs : BodyChain) (ds : list ThinStateDiff)
    (self : JsonRpcServerImpl) (block_id : BlockId) (b : Z) (d : ThinStateDiff) :
  sync_rel t l bs ds -> zlength l < 2 ^ 32 -> genesis_parent l -> block_id_ok block_id -> is_pending block_id = false ->
  resolve l ds block_id = Some b -> lookup_z ds b = Some d ->
  exists update d', get_state_update self block_id t = Done t (RpcStateUpdate_AcceptedStateUpdate update) /\
    AcceptedStateUpdate_block_hash update = BlockHeader_block_hash (header_at l b) /\
    AcceptedStateUpdate_new_root update = BlockHeader_state_root (header_at l b) /\
    AcceptedStateUpdate_old_root update = (if b =? 0 then GENESIS_HASH else BlockHeader_state_root (header_at l (b - 1))) /\
    AcceptedStateUpdate_state_diff update = RpcThinStateDiff_from d' /\
    Forall (fun e => e.2 <> []) (ThinStateDiff_storage_diffs d') /\
    forall a k, diff_storage d' (a, k) = diff_storage d (a, k) /\ diff_nonce d' a = diff_nonce d a /\ diff_class d' a = diff_class d a.
Proof.
  intros Hs Hlen Hgen Hok Hp Hres Hd. eexists. exists (without_empty_storage d).
  split; [by apply (rpc_state_update_rel t l bs ds Hs Hlen self block_id b d)|]. do 4 (split; [done|]). split.
  - apply Forall_forall. by intros e [He _]%list_elem_of_filter.
  - intros a k. split; [|done]. apply lookup_retained, ok_storage. pose proof (ss_diffs _ _ _ _ Hs) as Hall.
    rewrite Forall_forall in Hall. apply Hall, elem_of_lookup_z. eauto.
Qed.

(** ** Blocks and transactions *)

Lemma block_hashes_done self t l bs ds block_id b body :
  sync_rel t l bs ds -> zlength l < 2 ^ 32 -> block_id_ok block_id -> is_pending block_id = false ->
  resolve l ds block_id = Some b -> lookup_z bs b = Some body ->
  get_block_w_transaction_hashes self block_id t = Done t (shown_block t l b (Transactions_Hashes (map snd body))).
Proof.
  intros Hs Hlen Hok Hp Hres Hbody. pose proof (resolve_range t l bs ds Hs block_id b Hok Hres) as Hb.
  apply (get_block_rel t l bs ds Hs Hlen self block_id b); [done..|].
  by rewrite (bind_step _ _ _ _ _ (get_hashes_rel t l bs ds Hs b body ltac:(lia) Hbody)).
Qed.

Lemma block_transactions_done self t l bs ds block_id b body :
  sync_rel t l bs ds -> zlength l < 2 ^ 32 -> block_id_ok block_id -> is_pending block_id = false ->
  resolve l ds block_id = Some b -> lookup_z bs b = Some body ->
  exists shown, get_block_w_full_transactions self block_id t = Done t (shown_block t l b (Transactions_Full shown)) /\
    Forall2 (shows t) body shown.
Proof.
  intros Hs Hlen Hok Hp Hres Hbody. pose proof (resolve_range t l bs ds Hs block_id b Hok Hres) as Hb.
  destruct (get_txs_rel t l bs ds Hs b body ltac:(lia) Hbody) as (rs & Hrs & HF).
  eexists. split; [|apply (zip_shows t body rs HF)]. apply (get_block_rel t l bs ds Hs Hlen self block_id b); [done..|].
  rewrite (bind_step _ _ _ _ _ Hrs). by rewrite (bind_step _ _ _ _ _ (get_hashes_rel t l bs ds Hs b body ltac:(lia) Hbody)).
Qed.

Lemma block_count_done self t l bs ds block_id b body :
  sync_rel t l bs ds -> zlength l < 2 ^ 32 -> (forall body, body ∈ bs -> zlength body < 2 ^ 64) ->
  block_id_ok block_id -> is_pending block_id = false -> resolve l ds block_id = Some b -> lookup_z bs b = Some body ->
  get_block_transaction_count self block_id t = Done t (zlength body).
Proof.
  intros Hs Hlen Hsize Hok Hp Hres Hbody. pose proof (resolve_range t l bs ds Hs block_id b Hok Hres) as Hb.
  pose proof (diffs_small t l bs ds Hs). unfold get_block_transaction_count.
  rewrite (bind_step _ _ _ _ _ (full_archive t l bs ds Hs)), Hp.
  pose proof (get_accepted_rel t l bs ds Hs Hlen block_id Hok) as Ha. rewrite Hres in Ha. cbn in Ha. rewrite (bind_step _ _ _ _ _ Ha).
  rewrite (bind_step _ _ _ _ _ (internal_done _ _ _ (get_block_transactions_count_rel t bs b (ss_bodies _ _ _ _ Hs) ltac:(lia) Hsize))).
  by rewrite Hbody.
Qed.

Lemma shows_unique t x tx tx' : shows t x tx -> shows t x tx' -> tx = tx'.
Proof.
  intros [H1 H2] [H3 H4]. destruct tx, tx'. cbn in *. rewrite H2 in H4. by simplify_eq.
Qed.

(** C32: a block is found by its hash, its number or the latest tag exactly when it is
    accepted. The server shows its header, its status by the marker of the base layer,
    and its transactions in order: their hashes, or the transactions themselves, and
    their number. A transaction is shown in the same way by its index in the block and
    by its hash, and an index past the end is INVALID_TRANSACTION_INDEX. *)
Theorem blocks_answer (t : StorageTxn) (l : HeaderChain) (bs : BodyChain) (ds : list ThinStateDiff)
    (self : JsonRpcServerImpl) (block_id : BlockId) :
  sync_rel t l bs ds -> zlength l < 2 ^ 32 -> (forall body, body ∈ bs -> zlength body < 2 ^ 64) ->
  block_id_ok block_id -> is_pending block_id = false ->
  match resolve l ds block_id with
  | None =>
      get_block_w_transaction_hashes self block_id t = Fail t BLOCK_NOT_FOUND /\
      get_block_w_full_transactions self block_id t = Fail t BLOCK_NOT_FOUND /\
      get_block_transaction_count self block_id t = Fail t BLOCK_NOT_FOUND
  | Some b => exists body shown, lookup_z bs b = Some body /\ Forall2 (shows t) body shown /\
      get_block_w_transaction_hashes self block_id t = Done t (shown_block t l b (Transactions_Hashes (map snd body))) /\
      get_block_w_full_transactions self block_id t = Done t (shown_block t l b (Transactions_Full shown)) /\
      get_block_transaction_count self block_id t = Done t (zlength body) /\
      forall i, match lookup_z body i with
        | Some x => exists tx, get_transaction_by_block_id_and_index self block_id i t = Done t tx /\
            get_transaction_by_hash self x.2 t = Done t tx /\ lookup_z shown i = Some tx
        | None => get_transaction_by_block_id_and_index self block_id i t = Fail t INVALID_TRANSACTION_INDEX
        end
  end.
Proof.
  intros Hs Hlen Hsize Hok Hp. pose proof (get_accepted_rel t l bs ds Hs Hlen block_id Hok) as Hacc.
  destruct (resolve l ds block_id) as [b|] eqn:Hres.
  2: { do 2 (split; [by apply (block_not_found t l bs ds Hs Hlen)|]). unfold get_block_transaction_count.
       rewrite (bind_step _ _ _ _ _ (full_archive t l bs ds Hs)), Hp. unfold bind. by rewrite Hacc. }
  pose proof (resolve_range t l bs ds Hs block_id b Hok Hres) as Hb.
  pose proof (diffs_small t l bs ds Hs) as Hsm. destruct (accepted_body t l bs ds Hs b Hb) as [body Hbody].
  destruct (block_transactions_done self t l bs ds block_id b body) as (shown & Hshown & HF); [done..|].
  exists body, shown. do 2 (split; [done|]). split; [by apply (block_hashes_done self t l bs ds)|]. split; [done|].
  split; [by apply (block_count_done self t l bs ds block_id b body)|]. intros i.
  pose proof (get_by_index_rel t l bs ds Hs Hlen self block_id b i Hok Hp Hres) as Hidx. unfold item in Hidx. cbn in Hidx.
  rewrite Hbody in Hidx. cbn in Hidx. destruct (lookup_z body i) as [x|] eqn:Hx; [|done]. destruct Hidx as (tx & Hidx & Htx).
  exists tx. split; [done|].
  destruct (get_by_hash_rel t l bs ds Hs self (b, i) x) as (tx' & Hhash & Htx'); [unfold item; cbn; by rewrite Hbody|].
  rewrite <-(shows_unique t x tx tx' Htx Htx') in Hhash. split; [done|].
  unfold lookup_z in *. destruct (0 <=? i); [|done]. destruct (Forall2_lookup_l _ _ _ _ _ HF Hx) as (tx2 & -> & Htx2).
  f_equal. by eapply shows_unique.
Qed.

(** ** Receipts *)

(** An element of the list the receipts of a block are computed from. *)
Lemma indexed_transactions (t : StorageTxn) (body : list BodyItem) rs i r h :
  Forall2 (fun (x : BodyItem) r => RpcTransaction_try_from x.1.1 t = Done t r) body rs ->
  imap pair (zip rs (map snd body)) !! i = Some (i, (r, h)) ->
  exists x, body !! i = Some x /\ h = x.2 /\ RpcTransaction_try_from x.1.1 t = Done t r.
Proof.
  intros HF Hi. rewrite list_lookup_imap in Hi. apply fmap_Some in Hi as ([r' h'] & Hi & [= <- <-]).
  apply lookup_zip_with_Some in Hi as (r2 & h2 & [= <- <-] & Hr & Hh).
  destruct (Forall2_lookup_r _ _ _ _ _ HF Hr) as (x & Hx & Hc). exists x. split; [done|]. split; [|done].
  change (map snd body) with (snd <$> body) in Hh. rewrite list_lookup_fmap, Hx in Hh. by injection Hh as <-.
Qed.

(** A transaction of a block with its receipt agrees with the receipt by its hash. *)
Definition receipt_shown (self : JsonRpcServerImpl) (t : StorageTxn) (x : BodyItem) (shown : TransactionWithReceipt) : Prop :=
  RpcTransaction_try_from x.1.1 t = Done t (TransactionWithReceipt_transaction shown) /\
  exists receipt, get_transaction_receipt self x.2 t = Done t receipt /\
    TransactionWithReceipt_receipt shown = TransactionReceiptInBlock_from receipt.

Lemma with_receipt_shown self t l bs ds b i x r :
  sync_rel t l bs ds -> zlength l < 2 ^ 32 -> item bs (b, Z.of_nat i) = Some x -> has_sender x.1.1 -> output_fits x.1.1 x.1.2 ->
  RpcTransaction_try_from x.1.1 t = Done t r ->
  exists shown, transaction_with_receipt b (i, (r, x.2)) t = Done t shown /\ receipt_shown self t x shown.
Proof.
  intros Hs Hlen Hx Hne Hfit Hr.
  destruct (with_receipt_rel t l bs ds Hs Hlen b i x r Hx Hne Hfit Hr) as (output & Ho & Hrun).
  destruct (receipt_rel t l bs ds Hs Hlen self _ x Hx Hne Hfit) as (output' & Ho' & Hrun').
  unfold shows_output in *. rewrite Ho in Ho'. injection Ho' as <-.
  eexists. split; [exact Hrun|]. split; [done|]. eexists. split; [exact Hrun'|done].
Qed.

Lemma block_receipts_done self t l bs ds block_id b body :
  sync_rel t l bs ds -> zlength l < 2 ^ 32 -> block_id_ok block_id -> is_pending block_id = false ->
  resolve l ds block_id = Some b -> lookup_z bs b = Some body ->
  Forall (fun x : BodyItem => has_sender x.1.1 /\ output_fits x.1.1 x.1.2) body ->
  exists shown, get_block_w_full_transactions_and_receipts self block_id t =
      Done t (shown_block t l b (Transactions_FullWithReceipts shown)) /\ Forall2 (receipt_shown self t) body shown.
Proof.
  intros Hs Hlen Hok Hp Hres Hbody Hall. pose proof (resolve_range t l bs ds Hs block_id b Hok Hres) as Hb.
  destruct (get_txs_rel t l bs ds Hs b body ltac:(lia) Hbody) as (rs & Hrs & HF).
  destruct (try_collect_done t (transaction_with_receipt b)
    (fun e shown => exists x, body !! e.1 = Some x /\ receipt_shown self t x shown)
    (imap pair (zip rs (map snd body)))) as (shown & Hrun & HF').
  { intros [i [r h]] (j & [r' h'] & [= <- <- <-] & Hj)%elem_of_lookup_imap.
    destruct (indexed_transactions t body rs i r h HF) as (x & Hx & -> & Hr); [by rewrite list_lookup_imap, Hj|].
    rewrite Forall_lookup in Hall. destruct (Hall _ _ Hx) as [Hne Hfit].
    destruct (with_receipt_shown self t l bs ds b i x r) as (s & Hs1 & Hs2); try done; [|by exists s; eauto].
    unfold item. cbn. rewrite Hbody. cbn. by rewrite lookup_z_of_nat. }
  exists shown. split.
  - apply (get_block_rel t l bs ds Hs Hlen self block_id b); [done..|].
    rewrite (bind_step _ _ _ _ _ Hrs), (bind_step _ _ _ _ _ (get_hashes_rel t l bs ds Hs b body ltac:(lia) Hbody)).
    by rewrite (bind_step _ _ _ _ _ Hrun).
  - apply Forall2_same_length_lookup. split.
    + rewrite <-(Forall2_length _ _ _ HF'), length_imap, length_zip_with, length_map, <-(Forall2_length _ _ _ HF). lia.
    + intros i x s Hx Hsi. destruct (Forall2_lookup_r _ _ _ _ _ HF' Hsi) as (e & He & x' & Hx' & Hshown).
      rewrite list_lookup_imap in He. apply fmap_Some in He as (y & _ & ->). cbn in Hx'. congruence.
Qed.

(** the receipt of a stored transaction tells the block that holds it, whether the
    base layer has it, and its output, for a message from L1 with the hash of the
    message; the receipts of a block are those of its transactions, in order. The
    method panics exactly when the transaction is a message from L1 with an empty
    calldata. *)
Theorem receipts_answer (t : StorageTxn) (l : HeaderChain) (bs : BodyChain) (ds : list ThinStateDiff)
    (self : JsonRpcServerImpl) (block_id : BlockId) (b : Z) (body : list BodyItem) :
  sync_rel t l bs ds -> zlength l < 2 ^ 32 -> block_id_ok block_id -> is_pending block_id = false ->
  resolve l ds block_id = Some b -> lookup_z bs b = Some body ->
  Forall (fun x : BodyItem => output_fits x.1.1 x.1.2) body ->
  (forall i x, lookup_z body i = Some x ->
     (has_sender x.1.1 -> exists output, shows_output t x output /\
        get_transaction_receipt self x.2 t = Done t (GeneralTransactionReceipt_TransactionReceipt (shown_receipt t l (b, i) x.2 output))) /\
     (get_transaction_receipt self x.2 t = Panic <-> ~ has_sender x.1.1)) /\
  (Forall (fun x : BodyItem => has_sender x.1.1) body ->
     exists shown, get_block_w_full_transactions_and_receipts self block_id t =
         Done t (shown_block t l b (Transactions_FullWithReceipts shown)) /\ Forall2 (receipt_shown self t) body shown).
Proof.
  intros Hs Hlen Hok Hp Hres Hbody Hfit. split.
  - intros i x Hx. assert (Hi : item bs (b, i) = Some x) by (unfold item; cbn; by rewrite Hbody).
    assert (Hf : output_fits x.1.1 x.1.2).
    { rewrite Forall_forall in Hfit. apply Hfit, elem_of_lookup_z. by exists i. }
    split; [by intros Hne; apply (receipt_rel t l bs ds Hs Hlen self (b, i) x)|]. split.
    + intros Hpanic Hne. destruct (receipt_rel t l bs ds Hs Hlen self (b, i) x Hi Hne Hf) as (? & _ & Hr). congruence.
    + by apply (receipt_panics t l bs ds Hs self (b, i)).
  - intros Hne. apply (block_receipts_done self t l bs ds block_id b body); try done. apply Forall_and. done.
Qed.

(** ** Conversions *)

(** The bounds of a transaction of the node are those of the two resources. *)
Definition both_bounds (m : gmap Resource ResourceBounds) : Prop :=
  is_Some (m !! Resource_L1Gas) /\ is_Some (m !! Resource_L2Gas).

Lemma bounds_from_rpc (r : RpcResourceBoundsMapping) : RpcResourceBoundsMapping_from (ResourceBoundsMapping_from_rpc r) = r.
Proof. by destruct r. Qed.

Lemma bounds_to_rpc (m : gmap Resource ResourceBounds) :
  both_bounds m -> ResourceBoundsMapping_from_rpc (RpcResourceBoundsMapping_from m) = m.
Proof.
  intros [[b1 H1] [b2 H2]]. apply map_eq. intros r. unfold ResourceBoundsMapping_from_rpc, RpcResourceBoundsMapping_from.
  cbn. rewrite H1, H2. destruct r; [rewrite lookup_insert_eq by done|rewrite lookup_insert_ne, lookup_insert_eq by done]; done.
Qed.

(** A transaction with the version of one that is meant to be executed. *)
Definition plain_version (tx : RpcInvokeTransaction) : RpcInvokeTransaction :=
  match tx with
  | RpcInvokeTransaction_Version0 (mkRpcInvokeTransactionV0 a _ c d e f) =>
      RpcInvokeTransaction_Version0 (mkRpcInvokeTransactionV0 a TransactionVersion0_Version0 c d e f)
  | RpcInvokeTransaction_Version1 (mkRpcInvokeTransactionV1 a _ c d e f) =>
      RpcInvokeTransaction_Version1 (mkRpcInvokeTransactionV1 a TransactionVersion1_Version1 c d e f)
  | RpcInvokeTransaction_Version3 (mkRpcInvokeTransactionV3 a b _ d e f g h i j k) =>
      RpcInvokeTransaction_Version3 (mkRpcInvokeTransactionV3 a b TransactionVersion3_Version3 d e f g h i j k)
  end.

Definition plain_deploy_version (tx : RpcDeployAccountTransaction) : RpcDeployAccountTransaction :=
  match tx with
  | RpcDeployAccountTransaction_Version1 (mkRpcDeployAccountTransactionV1 a b c d e f _) =>
      RpcDeployAccountTransaction_Version1 (mkRpcDeployAccountTransactionV1 a b c d e f TransactionVersion1_Version1)
  | RpcDeployAccountTransaction_Version3 (mkRpcDeployAccountTransactionV3 a b c d e _ g h i j k) =>
      RpcDeployAccountTransaction_Version3 (mkRpcDeployAccountTransactionV3 a b c d e TransactionVersion3_Version3 g h i j k)
  end.

(** What the gateway is told of a transaction: neither its data availability modes nor
    that it was meant for a query. *)
Definition as_sent (tx : RpcInvokeTransaction) : RpcInvokeTransaction :=
  match plain_version tx with
  | RpcInvokeTransaction_Version3 (mkRpcInvokeTransactionV3 a b c d e f g h i _ _) =>
      RpcInvokeTransaction_Version3 (mkRpcInvokeTransactionV3 a b c d e f g h i DataAvailabilityMode_L1 DataAvailabilityMode_L1)
  | tx => tx
  end.

Definition stored_bounds (tx : InvokeTransaction) : Prop :=
  match tx with InvokeTransaction_V3 tx => both_bounds (InvokeTransactionV3_resource_bounds tx) | _ => True end.

Definition stored_deploy_bounds (tx : DeployAccountTransaction) : Prop :=
  match tx with DeployAccountTransaction_V3 tx => both_bounds (DeployAccountTransactionV3_resource_bounds tx) | _ => True end.

Lemma bounds_inj (r r' : RpcResourceBoundsMapping) :
  ResourceBoundsMapping_from_rpc r = ResourceBoundsMapping_from_rpc r' -> r = r'.
Proof. intros H. by rewrite <-(bounds_from_rpc r), H, bounds_from_rpc. Qed.

(** The bounds in what is sent to the gateway. *)
Definition sent_bounds (tx : WriterInvokeTransaction) : gmap Resource ResourceBounds :=
  match tx with WriterInvokeTransaction_InvokeV3 tx => InvokeV3Transaction_resource_bounds tx | _ => ∅ end.

Lemma sent_determines invoke invoke' :
  WriterInvokeTransaction_from invoke = WriterInvokeTransaction_from invoke' <-> as_sent invoke = as_sent invoke'.
Proof.
  destruct invoke as [[]|[]|[]], invoke' as [[]|[]|[]]; split; intros H; try done.
  5: pose proof (f_equal sent_bounds H) as Hb; apply bounds_inj in Hb; cbn in Hb; subst.
  all: unfold WriterInvokeTransaction_from, WriterInvokeTransaction_from_V0, WriterInvokeTransaction_from_V1, WriterInvokeTransaction_from_V3 in *.
  all: cbn in *; simplify_eq; done.
Qed.

(** an invoke or deploy account transaction a client sends is converted to the
    transaction of the node and back without a loss but for the mark that it is only a
    query, and a transaction of the node with bounds for both resources to that of the
    server and back. What is sent to the gateway for an invoke transaction determines
    it up to that mark and the data availability modes, which are dropped. *)
Theorem rpc_transactions_roundtrip (s : StorageTxn) (invoke : RpcInvokeTransaction) (deploy : RpcDeployAccountTransaction)
    (stored : InvokeTransaction) (stored_deploy : DeployAccountTransaction) :
  RpcInvokeTransaction_try_from (InvokeTransaction_from_rpc invoke) s = Done s (plain_version invoke) /\
  RpcDeployAccountTransaction_try_from (DeployAccountTransaction_from_rpc deploy) s = Done s (plain_deploy_version deploy) /\
  (stored_bounds stored -> exists tx, RpcInvokeTransaction_try_from stored s = Done s tx /\ InvokeTransaction_from_rpc tx = stored) /\
  (stored_deploy_bounds stored_deploy -> exists tx, RpcDeployAccountTransaction_try_from stored_deploy s = Done s tx /\
     DeployAccountTransaction_from_rpc tx = stored_deploy) /\
  forall invoke', WriterInvokeTransaction_from invoke = WriterInvokeTransaction_from invoke' <-> as_sent invoke = as_sent invoke'.
Proof.
  split; [|split; [|split; [|split]]].
  - by destruct invoke as [[]|[]|[? ? ? ? ? []]].
  - by destruct deploy as [[]|[? ? ? ? ? ? []]].
  - intros Hb. destruct stored as [[]|[]|[]]; eexists; (split; [reflexivity|]); try done.
    cbn [InvokeTransaction_from_rpc RpcInvokeTransactionV3_resource_bounds]. by rewrite bounds_to_rpc.
  - intros Hb. destruct stored_deploy as [[]|[]]; eexists; (split; [reflexivity|]); try done.
    cbn [DeployAccountTransaction_from_rpc RpcDeployAccountTransactionV3_resource_bounds]. by rewrite bounds_to_rpc.
  - intros invoke'. apply sent_determines.
Qed.
End Theorems.
