(* ===== verification/Hashes.v ===== *)
(** * The hashes of transactions, blocks, state diffs and classes

    Models [crates/papyrus_common/src/transaction_hash.rs], [block_hash.rs],
    [state_diff_commitment.rs], [class_hash.rs] and the helpers of [lib.rs].

    The hash functions are parameters. A computation of a hash keeps, beside its
    result, the inputs the hash functions were applied to ([HashQuery]), the last
    one first: the list is not read by any of the definitions. A theorem that needs
    the absence of collisions asks for it on these inputs only, since no function
    into the field is injective on all lists. *)

From stdpp Require Import base gmap list strings fin_maps sorting.
From Stdlib Require Import ZArith Lia.
From S2P Require Import Prelude StarknetTypes StorageTxn Header Body Serde ProtoCommon RpcConvert.

#[local] Open Scope string_scope.
#[local] Open Scope Z_scope.

(** An application of a hash function. *)
Inductive HashQuery : Type :=
| Query_Pedersen (elements : list Z)
| Query_Poseidon (elements : list Z)
| Query_PedersenPair (x y : Z)
| Query_PedersenRoot (leaves : list Z)
| Query_Keccak (data : list Z).

#[global] Instance HashQuery_eq_dec : EqDecision HashQuery.
Proof. solve_decision. Defined.

(** The crates the computations call: the hash functions of [starknet_types_core]
    and [sha3], the Patricia tree and the addresses of [starknet_api], and the
    conversions of field elements. *)
Class HashCrates : Type := {
  StarknetApiError : Type;
  (** [StarknetApiError::OutOfRange { string }]. *)
  StarknetApiError_OutOfRange : rstring -> StarknetApiError;
  (** [ChainId] with its [Display]. *)
  ChainId : Type;
  ChainId_eq_dec : EqDecision ChainId;
  ChainId_Mainnet : ChainId;
  chain_id_to_string : ChainId -> rstring;
  pedersen_hash_array : list Z -> Z;
  pedersen_hash : Z -> Z -> Z;
  poseidon_hash_array : list Z -> Z;
  (** [calculate_root::<Pedersen>]. *)
  calculate_root : list Z -> Z;
  (** [sha3::Keccak256] of the bytes. *)
  sha3_keccak256 : list Z -> list Z;
  (** [calculate_contract_address(salt, class_hash, &constructor_calldata, deployer_address)]. *)
  calculate_contract_address : Z -> Z -> list Z -> Z -> Z + StarknetApiError;
  (** [ContractAddress::from(u8)] and [SequencerContractAddress::default()]. *)
  contract_address_from_u8 : Z -> Z;
  default_SequencerContractAddress : Z;
  (** [hex::encode], [Felt::from_hex] ([None]: an error), [Felt::from_hex_unchecked]
      and [Felt::from_bytes_be_slice]. *)
  hex_encode : list Z -> rstring;
  felt_from_hex : rstring -> option Z;
  felt_from_hex_unchecked : rstring -> Z;
  felt_from_bytes_be_slice : list Z -> Z;
  (** [Felt::add] and [Felt::from(DataAvailabilityMode)]. *)
  felt_add : Z -> Z -> Z;
  felt_from_da_mode : DataAvailabilityMode -> Z;
  (** [signature()] of the transactions with several versions. *)
  declare_signature : DeclareTransaction -> list Z;
  invoke_signature : InvokeTransaction -> list Z
}.

#[global] Existing Instance ChainId_eq_dec.

(** A string literal as the bytes of a [String]. *)
Definition str_bytes (s : string) : rstring := (fun a => Z.of_N (Ascii.N_of_ascii a)) <$> String.list_ascii_of_string s.

Section Hashes.
Context {F : FeltApi} {X : ExternalTypes} {RC : RpcCrates} {HC : HashCrates}.

(** ** [lib.rs] *)

Record TransactionOptions : Type := mkTransactionOptions { only_query : bool }.

(** Computations that hash, and can end with an error or a panic. *)
Definition Hashing (E A : Type) : Type := M (list HashQuery) E A.

Definition usize_into_felt {E} (u : Z) : Hashing E Z :=
  let! u := expect (uint_try_from 128 u) in ret (felt_from_uint u).

(** ** [transaction_hash.rs]: the hash chain *)

Record HashChain : Type := mkHashChain { elements : list Z }.

Definition HashChain_new : HashChain := mkHashChain [].

Definition chain (felt : Z) (self : HashChain) : HashChain := mkHashChain (elements self ++ [felt]).

Definition chain_if_fn (f : option Z) (self : HashChain) : HashChain :=
  match f with
  | Some felt => chain felt self
  | None => self
  end.

Definition chain_iter (felts : list Z) (self : HashChain) : HashChain :=
  foldl (fun current felt => chain felt current) self felts.

(** [Pedersen::hash_array] and [Poseidon::hash_array] with the query noted. *)
Definition pedersen_array {E} (l : list Z) : Hashing E Z :=
  modify (cons (Query_Pedersen l)) ;! ret (pedersen_hash_array l).

Definition poseidon_array {E} (l : list Z) : Hashing E Z :=
  modify (cons (Query_Poseidon l)) ;! ret (poseidon_hash_array l).

Definition get_pedersen_hash {E} (self : HashChain) : Hashing E Z := pedersen_array (elements self).

Definition get_poseidon_hash {E} (self : HashChain) : Hashing E Z := poseidon_array (elements self).

Notation "h '|>' f" := (f h) (at level 61, left associativity, only parsing).

(** ** [transaction_hash.rs]: constants and encodings *)

Definition ascii_as_felt (ascii_str : rstring) : Hashing StarknetApiError Z :=
  match felt_from_hex (hex_encode ascii_str) with
  | Some felt => ret felt
  | None => raise (StarknetApiError_OutOfRange ascii_str)
  end.

(** [unwrap()] of a [Result]. *)
Definition unwrap {E E' A} (m : Hashing E A) : Hashing E' A :=
  fun log => match m log with Done log' a => Done log' a | _ => Panic end.

Definition DECLARE : Hashing StarknetApiError Z := unwrap (ascii_as_felt (str_bytes "declare")).
Definition DEPLOY : Hashing StarknetApiError Z := unwrap (ascii_as_felt (str_bytes "deploy")).
Definition DEPLOY_ACCOUNT : Hashing StarknetApiError Z := unwrap (ascii_as_felt (str_bytes "deploy_account")).
Definition INVOKE : Hashing StarknetApiError Z := unwrap (ascii_as_felt (str_bytes "invoke")).
Definition L1_HANDLER : Hashing StarknetApiError Z := unwrap (ascii_as_felt (str_bytes "l1_handler")).

Definition CONSTRUCTOR_ENTRY_POINT_SELECTOR : Z :=
  felt_from_hex_unchecked (str_bytes "0x28ffe4ff0f226a9107253e17a904099aa4f63a02a5621de0576e5aa71bc5194").

Definition ZERO : Z := felt_from_uint 0.

Definition DATA_AVAILABILITY_MODE_BITS : Z := 32.
Definition L1_GAS : list Z := 0 :: str_bytes "L1_GAS".
Definition L2_GAS : list Z := 0 :: str_bytes "L2_GAS".

Definition get_concat_resource (resource_bounds : ResourceBounds) (resource_name : list Z) : Hashing StarknetApiError Z :=
  let max_amount := be_bytes 8 (ResourceBounds_max_amount resource_bounds) in
  let max_price := be_bytes 16 (ResourceBounds_max_price_per_unit resource_bounds) in
  let concat_bytes := ([0] ++ resource_name ++ max_amount ++ max_price)%list in
  if zlength concat_bytes =? 32 then ret (felt_from_bytes_be concat_bytes) else panic.

Definition get_tip_resource_bounds_hash (resource_bounds_mapping : gmap Resource ResourceBounds) (tip : Z) :
    Hashing StarknetApiError Z :=
  let! l1_resource_bounds := expect (resource_bounds_mapping !! Resource_L1Gas) in
  let! l1_resource := get_concat_resource l1_resource_bounds L1_GAS in
  let! l2_resource_bounds := expect (resource_bounds_mapping !! Resource_L2Gas) in
  let! l2_resource := get_concat_resource l2_resource_bounds L2_GAS in
  HashChain_new |> chain (felt_from_uint tip) |> chain l1_resource |> chain l2_resource |> get_poseidon_hash.

Definition data_availability_mode_index (mode : DataAvailabilityMode) : Z :=
  match mode with
  | DataAvailabilityMode_L1 => 0
  | DataAvailabilityMode_L2 => 1
  end.

Definition concat_data_availability_mode (nonce_mode fee_mode : DataAvailabilityMode) : Z :=
  felt_from_uint (u64_add (data_availability_mode_index fee_mode)
    (wrap 64 (Z.shiftl (data_availability_mode_index nonce_mode) DATA_AVAILABILITY_MODE_BITS))).

(** [calculate_contract_address(..)?]. *)
Definition contract_address_of (salt class_hash : Z) (constructor_calldata : list Z) : Hashing StarknetApiError Z :=
  match calculate_contract_address salt class_hash constructor_calldata (contract_address_from_u8 0) with
  | inl address => ret address
  | inr e => raise e
  end.

(** [ascii_as_felt(chain_id.to_string().as_str())?]. *)
Definition chain_id_felt (chain_id : ChainId) : Hashing StarknetApiError Z := ascii_as_felt (chain_id_to_string chain_id).

(** ** [transaction_hash.rs]: the hash of each kind of transaction *)

Definition get_common_deploy_transaction_hash (transaction : DeployTransaction) (chain_id : ChainId) (is_deprecated : bool)
    (transaction_version : Z) : Hashing StarknetApiError Z :=
  let! contract_address := contract_address_of (DeployTransaction_contract_address_salt transaction)
    (DeployTransaction_class_hash transaction) (DeployTransaction_constructor_calldata transaction) in
  let! deploy := DEPLOY in
  let! calldata_hash := HashChain_new |> chain_iter (DeployTransaction_constructor_calldata transaction) |> get_pedersen_hash in
  let! chain_id := chain_id_felt chain_id in
  HashChain_new
    |> chain deploy
    |> chain_if_fn (if negb is_deprecated then Some transaction_version else None)
    |> chain contract_address
    |> chain CONSTRUCTOR_ENTRY_POINT_SELECTOR
    |> chain calldata_hash
    |> chain_if_fn (if negb is_deprecated then Some ZERO else None)
    |> chain chain_id
    |> get_pedersen_hash.

Definition get_deploy_transaction_hash (transaction : DeployTransaction) (chain_id : ChainId) (transaction_version : Z) :
    Hashing StarknetApiError Z :=
  get_common_deploy_transaction_hash transaction chain_id false transaction_version.

Definition get_deprecated_deploy_transaction_hash (transaction : DeployTransaction) (chain_id : ChainId)
    (transaction_version : Z) : Hashing StarknetApiError Z :=
  get_common_deploy_transaction_hash transaction chain_id true transaction_version.

Definition get_common_invoke_transaction_v0_hash (transaction : InvokeTransactionV0) (chain_id : ChainId)
    (is_deprecated : bool) (transaction_version : Z) : Hashing StarknetApiError Z :=
  let! invoke := INVOKE in
  let! calldata_hash := HashChain_new |> chain_iter (InvokeTransactionV0_calldata transaction) |> get_pedersen_hash in
  let! chain_id := chain_id_felt chain_id in
  HashChain_new
    |> chain invoke
    |> chain_if_fn (if negb is_deprecated then Some transaction_version else None)
    |> chain (InvokeTransactionV0_contract_address transaction)
    |> chain (InvokeTransactionV0_entry_point_selector transaction)
    |> chain calldata_hash
    |> chain_if_fn (if negb is_deprecated then Some (felt_from_uint (InvokeTransactionV0_max_fee transaction)) else None)
    |> chain chain_id
    |> get_pedersen_hash.

Definition get_invoke_transaction_v0_hash (transaction : InvokeTransactionV0) (chain_id : ChainId) (transaction_version : Z) :
    Hashing StarknetApiError Z :=
  get_common_invoke_transaction_v0_hash transaction chain_id false transaction_version.

Definition get_deprecated_invoke_transaction_v0_hash (transaction : InvokeTransactionV0) (chain_id : ChainId)
    (transaction_version : Z) : Hashing StarknetApiError Z :=
  get_common_invoke_transaction_v0_hash transaction chain_id true transaction_version.

Definition get_invoke_transaction_v1_hash (transaction : InvokeTransactionV1) (chain_id : ChainId) (transaction_version : Z) :
    Hashing StarknetApiError Z :=
  let! invoke := INVOKE in
  let! calldata_hash := HashChain_new |> chain_iter (InvokeTransactionV1_calldata transaction) |> get_pedersen_hash in
  let! chain_id := chain_id_felt chain_id in
  HashChain_new
    |> chain invoke
    |> chain transaction_version
    |> chain (InvokeTransactionV1_sender_address transaction)
    |> chain ZERO
    |> chain calldata_hash
    |> chain (felt_from_uint (InvokeTransactionV1_max_fee transaction))
    |> chain chain_id
    |> chain (InvokeTransactionV1_nonce transaction)
    |> get_pedersen_hash.

Definition get_invoke_transaction_v3_hash (transaction : InvokeTransactionV3) (chain_id : ChainId) (transaction_version : Z) :
    Hashing StarknetApiError Z :=
  let! tip_resource_bounds_hash :=
    get_tip_resource_bounds_hash (InvokeTransactionV3_resource_bounds transaction) (InvokeTransactionV3_tip transaction) in
  let! paymaster_data_hash := HashChain_new |> chain_iter (InvokeTransactionV3_paymaster_data transaction) |> get_poseidon_hash in
  let data_availability_mode := concat_data_availability_mode (InvokeTransactionV3_nonce_data_availability_mode transaction)
    (InvokeTransactionV3_fee_data_availability_mode transaction) in
  let! account_deployment_data_hash :=
    HashChain_new |> chain_iter (InvokeTransactionV3_account_deployment_data transaction) |> get_poseidon_hash in
  let! calldata_hash := HashChain_new |> chain_iter (InvokeTransactionV3_calldata transaction) |> get_poseidon_hash in
  let! invoke := INVOKE in
  let! chain_id := chain_id_felt chain_id in
  HashChain_new
    |> chain invoke
    |> chain transaction_version
    |> chain (InvokeTransactionV3_sender_address transaction)
    |> chain tip_resource_bounds_hash
    |> chain paymaster_data_hash
    |> chain chain_id
    |> chain (InvokeTransactionV3_nonce transaction)
    |> chain data_availability_mode
    |> chain account_deployment_data_hash
    |> chain calldata_hash
    |> get_poseidon_hash.

Inductive L1HandlerVersions : Type :=
| L1HandlerVersions_AsInvoke
| L1HandlerVersions_V0Deprecated
| L1HandlerVersions_V0.

(** The derived order: that of the variants. *)
Definition l1_handler_version_index (version : L1HandlerVersions) : Z :=
  match version with
  | L1HandlerVersions_AsInvoke => 0
  | L1HandlerVersions_V0Deprecated => 1
  | L1HandlerVersions_V0 => 2
  end.

Definition l1_handler_version_gt (a b : L1HandlerVersions) : bool := l1_handler_version_index b <? l1_handler_version_index a.

Definition get_common_l1_handler_transaction_hash (transaction : L1HandlerTransaction) (chain_id : ChainId)
    (version : L1HandlerVersions) (transaction_version : Z) : Hashing StarknetApiError Z :=
  let! name := match version with L1HandlerVersions_AsInvoke => INVOKE | _ => L1_HANDLER end in
  let! calldata_hash := HashChain_new |> chain_iter (L1HandlerTransaction_calldata transaction) |> get_pedersen_hash in
  let! chain_id := chain_id_felt chain_id in
  HashChain_new
    |> chain_if_fn (Some name)
    |> chain_if_fn (if l1_handler_version_gt version L1HandlerVersions_V0Deprecated then Some transaction_version else None)
    |> chain (L1HandlerTransaction_contract_address transaction)
    |> chain (L1HandlerTransaction_entry_point_selector transaction)
    |> chain calldata_hash
    |> chain_if_fn (if l1_handler_version_gt version L1HandlerVersions_V0Deprecated then Some ZERO else None)
    |> chain chain_id
    |> chain_if_fn (if l1_handler_version_gt version L1HandlerVersions_AsInvoke
                    then Some (L1HandlerTransaction_nonce transaction) else None)
    |> get_pedersen_hash.

Definition get_l1_handler_transaction_hash (transaction : L1HandlerTransaction) (chain_id : ChainId) (transaction_version : Z) :
    Hashing StarknetApiError Z :=
  get_common_l1_handler_transaction_hash transaction chain_id L1HandlerVersions_V0 transaction_version.

Definition get_deprecated_l1_handler_transaction_hashes (transaction : L1HandlerTransaction) (chain_id : ChainId)
    (transaction_version : Z) : Hashing StarknetApiError (list Z) :=
  let! as_invoke :=
    get_common_l1_handler_transaction_hash transaction chain_id L1HandlerVersions_AsInvoke transaction_version in
  let! v0_deprecated :=
    get_common_l1_handler_transaction_hash transaction chain_id L1HandlerVersions_V0Deprecated transaction_version in
  ret [as_invoke; v0_deprecated].

Definition get_declare_transaction_v0_hash (transaction : DeclareTransactionV0V1) (chain_id : ChainId)
    (transaction_version : Z) : Hashing StarknetApiError Z :=
  let! declare := DECLARE in
  let! empty_hash := HashChain_new |> get_pedersen_hash in
  let! chain_id := chain_id_felt chain_id in
  HashChain_new
    |> chain declare
    |> chain transaction_version
    |> chain (DeclareTransactionV0V1_sender_address transaction)
    |> chain ZERO
    |> chain empty_hash
    |> chain (felt_from_uint (DeclareTransactionV0V1_max_fee transaction))
    |> chain chain_id
    |> chain (DeclareTransactionV0V1_class_hash transaction)
    |> get_pedersen_hash.

Definition get_declare_transaction_v1_hash (transaction : DeclareTransactionV0V1) (chain_id : ChainId)
    (transaction_version : Z) : Hashing StarknetApiError Z :=
  let! declare := DECLARE in
  let! class_hash := HashChain_new |> chain (DeclareTransactionV0V1_class_hash transaction) |> get_pedersen_hash in
  let! chain_id := chain_id_felt chain_id in
  HashChain_new
    |> chain declare
    |> chain transaction_version
    |> chain (DeclareTransactionV0V1_sender_address transaction)
    |> chain ZERO
    |> chain class_hash
    |> chain (felt_from_uint (DeclareTransactionV0V1_max_fee transaction))
    |> chain chain_id
    |> chain (DeclareTransactionV0V1_nonce transaction)
    |> get_pedersen_hash.

Definition get_declare_transaction_v2_hash (transaction : DeclareTransactionV2) (chain_id : ChainId)
    (transaction_version : Z) : Hashing StarknetApiError Z :=
  let! declare := DECLARE in
  let! class_hash := HashChain_new |> chain (DeclareTransactionV2_class_hash transaction) |> get_pedersen_hash in
  let! chain_id := chain_id_felt chain_id in
  HashChain_new
    |> chain declare
    |> chain transaction_version
    |> chain (DeclareTransactionV2_sender_address transaction)
    |> chain ZERO
    |> chain class_hash
    |> chain (felt_from_uint (DeclareTransactionV2_max_fee transaction))
    |> chain chain_id
    |> chain (DeclareTransactionV2_nonce transaction)
    |> chain (DeclareTransactionV2_compiled_class_hash transaction)
    |> get_pedersen_hash.

Definition get_declare_transaction_v3_hash (transaction : DeclareTransactionV3) (chain_id : ChainId)
    (transaction_version : Z) : Hashing StarknetApiError Z :=
  let! tip_resource_bounds_hash :=
    get_tip_resource_bounds_hash (DeclareTransactionV3_resource_bounds transaction) (DeclareTransactionV3_tip transaction) in
  let! paymaster_data_hash := HashChain_new |> chain_iter (DeclareTransactionV3_paymaster_data transaction) |> get_poseidon_hash in
  let data_availability_mode := concat_data_availability_mode (DeclareTransactionV3_nonce_data_availability_mode transaction)
    (DeclareTransactionV3_fee_data_availability_mode transaction) in
  let! account_deployment_data_hash :=
    HashChain_new |> chain_iter (DeclareTransactionV3_account_deployment_data transaction) |> get_poseidon_hash in
  let! declare := DECLARE in
  let! chain_id := chain_id_felt chain_id in
  HashChain_new
    |> chain declare
    |> chain transaction_version
    |> chain (DeclareTransactionV3_sender_address transaction)
    |> chain tip_resource_bounds_hash
    |> chain paymaster_data_hash
    |> chain chain_id
    |> chain (DeclareTransactionV3_nonce transaction)
    |> chain data_availability_mode
    |> chain account_deployment_data_hash
    |> chain (DeclareTransactionV3_class_hash transaction)
    |> chain (DeclareTransactionV3_compiled_class_hash transaction)
    |> get_poseidon_hash.

Definition get_deploy_account_transaction_v1_hash (transaction : DeployAccountTransactionV1) (chain_id : ChainId)
    (transaction_version : Z) : Hashing StarknetApiError Z :=
  let! calldata_hash := HashChain_new
    |> chain (DeployAccountTransactionV1_class_hash transaction)
    |> chain (DeployAccountTransactionV1_contract_address_salt transaction)
    |> chain_iter (DeployAccountTransactionV1_constructor_calldata transaction)
    |> get_pedersen_hash in
  let! contract_address := contract_address_of (DeployAccountTransactionV1_contract_address_salt transaction)
    (DeployAccountTransactionV1_class_hash transaction) (DeployAccountTransactionV1_constructor_calldata transaction) in
  let! deploy_account := DEPLOY_ACCOUNT in
  let! chain_id := chain_id_felt chain_id in
  HashChain_new
    |> chain deploy_account
    |> chain transaction_version
    |> chain contract_address
    |> chain ZERO
    |> chain calldata_hash
    |> chain (felt_from_uint (DeployAccountTransactionV1_max_fee transaction))
    |> chain chain_id
    |> chain (DeployAccountTransactionV1_nonce transaction)
    |> get_pedersen_hash.

Definition get_deploy_account_transaction_v3_hash (transaction : DeployAccountTransactionV3) (chain_id : ChainId)
    (transaction_version : Z) : Hashing StarknetApiError Z :=
  let! contract_address := contract_address_of (DeployAccountTransactionV3_contract_address_salt transaction)
    (DeployAccountTransactionV3_class_hash transaction) (DeployAccountTransactionV3_constructor_calldata transaction) in
  let! tip_resource_bounds_hash := get_tip_resource_bounds_hash (DeployAccountTransactionV3_resource_bounds transaction)
    (DeployAccountTransactionV3_tip transaction) in
  let! paymaster_data_hash :=
    HashChain_new |> chain_iter (DeployAccountTransactionV3_paymaster_data transaction) |> get_poseidon_hash in
  let data_availability_mode := concat_data_availability_mode
    (DeployAccountTransactionV3_nonce_data_availability_mode transaction)
    (DeployAccountTransactionV3_fee_data_availability_mode transaction) in
  let! constructor_calldata_hash :=
    HashChain_new |> chain_iter (DeployAccountTransactionV3_constructor_calldata transaction) |> get_poseidon_hash in
  let! deploy_account := DEPLOY_ACCOUNT in
  let! chain_id := chain_id_felt chain_id in
  HashChain_new
    |> chain deploy_account
    |> chain transaction_version
    |> chain contract_address
    |> chain tip_resource_bounds_hash
    |> chain paymaster_data_hash
    |> chain chain_id
    |> chain data_availability_mode
    |> chain (DeployAccountTransactionV3_nonce transaction)
    |> chain constructor_calldata_hash
    |> chain (DeployAccountTransactionV3_class_hash transaction)
    |> chain (DeployAccountTransactionV3_contract_address_salt transaction)
    |> get_poseidon_hash.

Definition get_tx_version (tx : Transaction) (transaction_options : TransactionOptions) : Z :=
  let version :=
    match tx with
    | Transaction_Declare tx => declare_transaction_version tx
    | Transaction_Deploy tx => DeployTransaction_version tx
    | Transaction_DeployAccount tx => deploy_account_transaction_version tx
    | Transaction_Invoke tx => invoke_transaction_version tx
    | Transaction_L1Handler tx => L1HandlerTransaction_version tx
    end in
  if only_query transaction_options
  then felt_add version (felt_from_hex_unchecked (str_bytes "0x100000000000000000000000000000000"))
  else version.

Definition get_transaction_hash (transaction : Transaction) (chain_id : ChainId) (transaction_options : TransactionOptions) :
    Hashing StarknetApiError Z :=
  let tx_version := get_tx_version transaction transaction_options in
  match transaction with
  | Transaction_Declare (DeclareTransaction_V0 declare_v0) => get_declare_transaction_v0_hash declare_v0 chain_id tx_version
  | Transaction_Declare (DeclareTransaction_V1 declare_v1) => get_declare_transaction_v1_hash declare_v1 chain_id tx_version
  | Transaction_Declare (DeclareTransaction_V2 declare_v2) => get_declare_transaction_v2_hash declare_v2 chain_id tx_version
  | Transaction_Declare (DeclareTransaction_V3 declare_v3) => get_declare_transaction_v3_hash declare_v3 chain_id tx_version
  | Transaction_Deploy deploy => get_deploy_transaction_hash deploy chain_id tx_version
  | Transaction_DeployAccount (DeployAccountTransaction_V1 deploy_account_v1) =>
      get_deploy_account_transaction_v1_hash deploy_account_v1 chain_id tx_version
  | Transaction_DeployAccount (DeployAccountTransaction_V3 deploy_account_v3) =>
      get_deploy_account_transaction_v3_hash deploy_account_v3 chain_id tx_version
  | Transaction_Invoke (InvokeTransaction_V0 invoke_v0) => get_invoke_transaction_v0_hash invoke_v0 chain_id tx_version
  | Transaction_Invoke (InvokeTransaction_V1 invoke_v1) => get_invoke_transaction_v1_hash invoke_v1 chain_id tx_version
  | Transaction_Invoke (InvokeTransaction_V3 invoke_v3) => get_invoke_transaction_v3_hash invoke_v3 chain_id tx_version
  | Transaction_L1Handler l1_handler => get_l1_handler_transaction_hash l1_handler chain_id tx_version
  end.

Definition MAINNET_TRANSACTION_HASH_WITH_VERSION : Z := 1470.

Definition get_deprecated_transaction_hashes (chain_id : ChainId) (block_number : Z) (transaction : Transaction)
    (transaction_options : TransactionOptions) : Hashing StarknetApiError (list Z) :=
  let tx_version := get_tx_version transaction transaction_options in
  if bool_decide (chain_id = ChainId_Mainnet) && (MAINNET_TRANSACTION_HASH_WITH_VERSION <? block_number) then ret []
  else
    match transaction with
    | Transaction_Declare _ => ret []
    | Transaction_Deploy deploy =>
        let! hash := get_deprecated_deploy_transaction_hash deploy chain_id tx_version in ret [hash]
    | Transaction_DeployAccount _ => ret []
    | Transaction_Invoke (InvokeTransaction_V0 invoke_v0) =>
        let! hash := get_deprecated_invoke_transaction_v0_hash invoke_v0 chain_id tx_version in ret [hash]
    | Transaction_Invoke (InvokeTransaction_V1 _) | Transaction_Invoke (InvokeTransaction_V3 _) => ret []
    | Transaction_L1Handler l1_handler => get_deprecated_l1_handler_transaction_hashes l1_handler chain_id tx_version
    end.

Definition validate_transaction_hash (transaction : Transaction) (block_number : Z) (chain_id : ChainId)
    (expected_hash : Z) (transaction_options : TransactionOptions) : Hashing StarknetApiError bool :=
  let! possible_hashes := get_deprecated_transaction_hashes chain_id block_number transaction transaction_options in
  let! hash := get_transaction_hash transaction chain_id transaction_options in
  ret (bool_decide (expected_hash ∈ (possible_hashes ++ [hash])%list)).

(** ** [block_hash.rs] *)

Inductive BlockHashError : Type :=
| BlockHashError_MissingHeaderData
| BlockHashError_StarknetApiError (e : StarknetApiError).

Inductive BlockHashVersion : Type :=
| BlockHashVersion_V0
| BlockHashVersion_V1
| BlockHashVersion_V2
| BlockHashVersion_V3.

#[global] Instance BlockHashVersion_eq_dec : EqDecision BlockHashVersion.
Proof. solve_decision. Defined.

(** The derived order: that of the variants. *)
Definition block_hash_version_index (version : BlockHashVersion) : Z :=
  match version with
  | BlockHashVersion_V0 => 0
  | BlockHashVersion_V1 => 1
  | BlockHashVersion_V2 => 2
  | BlockHashVersion_V3 => 3
  end.

Definition block_hash_version_ge (a b : BlockHashVersion) : bool := block_hash_version_index b <=? block_hash_version_index a.

(** [unimplemented!] for the other chains. *)
Definition get_chain_sequencer_address {E} (chain_id : ChainId) : Hashing E Z :=
  if bool_decide (chain_id = ChainId_Mainnet)
  then ret (felt_from_hex_unchecked (str_bytes "0x021f4b90b0377c82bf330b7b5295820769e72d79d8acd0effa0ebde6e9988bc5"))
  else panic.

Definition calculate_block_hash_by_version (header : BlockHeader) (version : BlockHashVersion) (chain_id : ChainId) :
    Hashing BlockHashError Z :=
  let! chain_id_as_felt :=
    if bool_decide (version = BlockHashVersion_V0)
    then let! felt := map_err BlockHashError_StarknetApiError (chain_id_felt chain_id) in ret (Some felt)
    else ret None in
  let! sequencer :=
    if negb (BlockHeader_sequencer header =? default_SequencerContractAddress) || negb (bool_decide (version = BlockHashVersion_V2))
    then ret (Some (BlockHeader_sequencer header))
    else let! address := get_chain_sequencer_address chain_id in ret (Some address) in
  let! n_transactions := usize_into_felt (BlockHeader_n_transactions header) in
  let! transaction_commitment := ok_or_raise BlockHashError_MissingHeaderData (BlockHeader_transaction_commitment header) in
  let! n_events := usize_into_felt (BlockHeader_n_events header) in
  let! event_commitment := ok_or_raise BlockHashError_MissingHeaderData (BlockHeader_event_commitment header) in
  HashChain_new
    |> chain (felt_from_uint (BlockHeader_block_number header))
    |> chain (BlockHeader_state_root header)
    |> chain_if_fn sequencer
    |> chain_if_fn (if block_hash_version_ge version BlockHashVersion_V1
                    then Some (felt_from_uint (BlockHeader_timestamp header)) else Some ZERO)
    |> chain n_transactions
    |> chain transaction_commitment
    |> chain n_events
    |> chain event_commitment
    |> chain ZERO
    |> chain ZERO
    |> chain_if_fn chain_id_as_felt
    |> chain (BlockHeader_parent_hash header)
    |> get_pedersen_hash.

(** The order in which the versions are tried. *)
Definition all_versions : list BlockHashVersion :=
  [BlockHashVersion_V3; BlockHashVersion_V2; BlockHashVersion_V1; BlockHashVersion_V0].

(** The loop of [validate_header]. *)
Fixpoint validate_header_loop (header : BlockHeader) (chain_id : ChainId) (versions : list BlockHashVersion) :
    Hashing BlockHashError bool :=
  match versions with
  | [] => ret false
  | version :: rest =>
      let! block_hash := calculate_block_hash_by_version header version chain_id in
      if block_hash =? BlockHeader_block_hash header then ret true else validate_header_loop header chain_id rest
  end.

Definition validate_header (header : BlockHeader) (chain_id : ChainId) : Hashing BlockHashError bool :=
  validate_header_loop header chain_id all_versions.

Definition get_transaction_signature (transaction : Transaction) : list Z :=
  match transaction with
  | Transaction_Declare declare => declare_signature declare
  | Transaction_Deploy _ => []
  | Transaction_DeployAccount (DeployAccountTransaction_V1 deploy_account_v1) =>
      DeployAccountTransactionV1_signature deploy_account_v1
  | Transaction_DeployAccount (DeployAccountTransaction_V3 deploy_account_v3) =>
      DeployAccountTransactionV3_signature deploy_account_v3
  | Transaction_Invoke invoke => invoke_signature invoke
  | Transaction_L1Handler _ => []
  end.

Definition get_signature_only_from_invoke (transaction : Transaction) : list Z :=
  match transaction with
  | Transaction_Invoke invoke => invoke_signature invoke
  | _ => []
  end.

Definition get_transaction_leaf (transaction : Transaction) (transaction_hash : Z) (version : BlockHashVersion) :
    Hashing StarknetApiError Z :=
  let signature := if block_hash_version_ge version BlockHashVersion_V3 then get_transaction_signature transaction
                   else get_signature_only_from_invoke transaction in
  let! signature_hash := HashChain_new |> chain_iter signature |> get_pedersen_hash in
  modify (cons (Query_PedersenPair transaction_hash signature_hash)) ;!
  ret (pedersen_hash transaction_hash signature_hash).

(** [calculate_root::<Pedersen>] with the query noted. *)
Definition pedersen_root {E} (leaves : list Z) : Hashing E Z :=
  modify (cons (Query_PedersenRoot leaves)) ;! ret (calculate_root leaves).

(** [map(f).collect()]. *)
Fixpoint map_hashing {E A B} (f : A -> Hashing E B) (l : list A) : Hashing E (list B) :=
  match l with
  | [] => ret []
  | a :: l' => let! b := f a in let! bs := map_hashing f l' in ret (b :: bs)
  end.

Definition calculate_transaction_commitment_by_version (block_body : BlockBody) (version : BlockHashVersion) :
    Hashing BlockHashError Z :=
  let! transaction_patricia_leaves := map_err BlockHashError_StarknetApiError
    (map_hashing (fun '(transaction, transaction_hash) => get_transaction_leaf transaction transaction_hash version)
      (zip (BlockBody_transactions block_body) (BlockBody_transaction_hashes block_body))) in
  pedersen_root transaction_patricia_leaves.

Definition get_event_leaf {E} (event : Event) : Hashing E Z :=
  let event_keys := EventContent_keys (Event_content event) in
  let! keys_hash := HashChain_new |> chain_iter event_keys |> get_pedersen_hash in
  let! data_hash := HashChain_new |> chain_iter (EventContent_data (Event_content event)) |> get_pedersen_hash in
  HashChain_new
    |> chain (Event_from_address event)
    |> chain keys_hash
    |> chain data_hash
    |> get_pedersen_hash.

Definition calculate_event_commitment_by_version {E} (transaction_outputs : list TransactionOutput)
    (version : BlockHashVersion) : Hashing E Z :=
  if negb (block_hash_version_ge version BlockHashVersion_V1) then ret ZERO
  else
    let! event_patricia_leaves := map_hashing get_event_leaf (transaction_outputs ≫= TransactionOutput_events) in
    pedersen_root event_patricia_leaves.

(** The loop of [validate_body]. *)
Fixpoint validate_body_loop (body : BlockBody) (transaction_commitment event_commitment : Z)
    (versions : list BlockHashVersion) : Hashing BlockHashError bool :=
  match versions with
  | [] => ret false
  | version :: rest =>
      let! calculated_transaction_commitment := calculate_transaction_commitment_by_version body version in
      if negb (calculated_transaction_commitment =? transaction_commitment)
      then validate_body_loop body transaction_commitment event_commitment rest
      else
        let! calculated_event_commitment := calculate_event_commitment_by_version (BlockBody_transaction_outputs body) version in
        if negb (calculated_event_commitment =? event_commitment)
        then validate_body_loop body transaction_commitment event_commitment rest
        else ret true
  end.

Definition validate_body (body : BlockBody) (transaction_commitment event_commitment : Z) : Hashing BlockHashError bool :=
  validate_body_loop body transaction_commitment event_commitment all_versions.

(** ** [state_diff_commitment.rs] *)

Inductive StateDiffVersion : Type :=
| StateDiffVersion_V0.

Definition SUPPORTED_DA_MODES_STATE_DIFF_V0 : list DataAvailabilityMode := [DataAvailabilityMode_L1].

Definition supported_da_modes (self : StateDiffVersion) : list DataAvailabilityMode :=
  match self with StateDiffVersion_V0 => SUPPORTED_DA_MODES_STATE_DIFF_V0 end.

(** [impl From<StateDiffVersion> for Felt]: [Felt::ZERO]. *)
Definition felt_from_state_diff_version (version : StateDiffVersion) : Z :=
  match version with StateDiffVersion_V0 => 0 end.

(** [sorted_by_key(|(contract_address, _)| *contract_address)]: a stable sort. *)
Fixpoint insert_by_key {V} (e : Z * V) (l : list (Z * V)) : list (Z * V) :=
  match l with
  | [] => [e]
  | e' :: l' => if e.1 <=? e'.1 then e :: l else e' :: insert_by_key e l'
  end.

Fixpoint sorted_by_key {V} (l : list (Z * V)) : list (Z * V) :=
  match l with
  | [] => []
  | e :: l' => insert_by_key e (sorted_by_key l')
  end.

(** [Felt::from(n as u64)] of a length. *)
Definition len_felt (n : Z) : Z := felt_from_uint (wrap 64 n).

(** The loops that push the two halves of each entry. *)
Definition push_pairs (l : list (Z * Z)) : list Z := l ≫= (fun '(a, b) => [a; b]).

Definition flattened_storage_diffs (storage_diffs : list (Z * list (Z * Z))) : list Z :=
  len_felt (zlength storage_diffs) ::
  (storage_diffs ≫= fun '(contract_address, diffs) => contract_address :: len_felt (zlength diffs) :: push_pairs diffs).

(** The loop over the data availability modes. *)
Fixpoint push_da_modes {E} (state_diff : ThinStateDiff) (da_modes : list DataAvailabilityMode) (flattened : list Z) :
    Hashing E (list Z) :=
  match da_modes with
  | [] => ret flattened
  | da_mode :: rest =>
      let flattened_nonces := len_felt (zlength (ThinStateDiff_nonces state_diff)) :: push_pairs (ThinStateDiff_nonces state_diff) in
      let storage_diffs_and_nonces :=
        (flattened_storage_diffs (ThinStateDiff_storage_diffs state_diff) ++ flattened_nonces)%list in
      let! hash_of_storage_domain_state_diff := poseidon_array storage_diffs_and_nonces in
      push_da_modes state_diff rest (flattened ++ [felt_from_da_mode da_mode; hash_of_storage_domain_state_diff])%list
  end.

Definition calculate_state_diff_commitment {E} (state_diff : ThinStateDiff) (state_diff_version : StateDiffVersion) :
    Hashing E Z :=
  let num_deployed_contracts :=
    zlength (ThinStateDiff_deployed_contracts state_diff) + zlength (ThinStateDiff_replaced_classes state_diff) in
  let deployed_contracts_iter :=
    sorted_by_key (ThinStateDiff_deployed_contracts state_diff ++ ThinStateDiff_replaced_classes state_diff)%list in
  let flattened_deployed_contracts := len_felt num_deployed_contracts :: push_pairs deployed_contracts_iter in
  let! hash_of_deployed_contracts := poseidon_array flattened_deployed_contracts in
  let flattened_declared_classes :=
    len_felt (zlength (ThinStateDiff_declared_classes state_diff)) :: push_pairs (ThinStateDiff_declared_classes state_diff) in
  let! hash_of_declared_classes := poseidon_array flattened_declared_classes in
  let flattened_deprecated_declared_classes :=
    len_felt (zlength (ThinStateDiff_deprecated_declared_classes state_diff)) ::
    ThinStateDiff_deprecated_declared_classes state_diff in
  let! hash_of_deprecated_declared_classes := poseidon_array flattened_deprecated_declared_classes in
  let da_modes := supported_da_modes state_diff_version in
  let! flattened_total_state_diff := push_da_modes state_diff da_modes
    [felt_from_state_diff_version state_diff_version; hash_of_deployed_contracts; hash_of_declared_classes;
     hash_of_deprecated_declared_classes; len_felt (zlength da_modes)] in
  poseidon_array flattened_total_state_diff.

(** ** [class_hash.rs] *)

Definition API_VERSION : Z := felt_from_bytes_be_slice (str_bytes "CONTRACT_CLASS_V0.1.0").

(** The byte [plain[0] &= 0x03] of an array of 32 bytes. *)
Definition truncated_keccak (plain : list Z) : Z :=
  match plain with
  | b :: rest => felt_from_bytes_be (Z.land b 3 :: rest)
  | [] => felt_from_bytes_be []
  end.

Definition entry_points_hash {E} (class : ContractClass) (entry_point_type : EntryPointType) : Hashing E Z :=
  let! felts := map_hashing
    (fun ep => let! idx := usize_into_felt (EntryPoint_function_idx ep) in ret [EntryPoint_selector ep; idx])
    (default [] (ContractClass_entry_points_by_type class !! entry_point_type)) in
  poseidon_array (concat felts).

Definition calculate_class_hash {E} (class : ContractClass) : Hashing E Z :=
  let! external_entry_points_hash := entry_points_hash class EntryPointType_External in
  let! l1_handler_entry_points_hash := entry_points_hash class EntryPointType_L1Handler in
  let! constructor_entry_points_hash := entry_points_hash class EntryPointType_Constructor in
  modify (cons (Query_Keccak (ContractClass_abi class))) ;!
  let abi_keccak := sha3_keccak256 (ContractClass_abi class) in
  let abi_hash := truncated_keccak abi_keccak in
  let! program_hash := poseidon_array (ContractClass_sierra_program class) in
  poseidon_array [API_VERSION; external_entry_points_hash; l1_handler_entry_points_hash; constructor_entry_points_hash;
                  abi_hash; program_hash].

End Hashes.
