(* ===== verification/HashProps.v ===== *)
(** * What the hashes commit to

    Theorems on [Hashes.v]: equal hashes have equal contents unless the inputs
    hashed on the way contain a collision, and the validations accept exactly the
    hashes of the versions they try. *)

From stdpp Require Import base gmap list strings fin_maps sorting.
From Stdlib Require Import ZArith Lia.
From S2P Require Import Prelude StarknetTypes StorageTxn Header Body Serde SerdeLaws ProtoCommon ProtoLaws ProtoTxnProps RpcConvert Hashes.

#[local] Open Scope string_scope.
#[local] Open Scope Z_scope.
#[local] Open Scope list_scope.

(** Documented behaviour of the conversions: a hexadecimal string of at most 31
    bytes is read as their value, and addition is exact below the prime. *)
Class HashCratesSpec {F : FeltApi} {FS : FeltSpec} {HC : HashCrates} : Type := {
  small_is_felt : forall z, 0 <= z < 2 ^ 251 -> ProtoCommon.is_felt z;
  felt_from_hex_encode : forall bs, bs <> [] -> Forall is_byte bs -> zlength bs <= 31 ->
    felt_from_hex (hex_encode bs) = Some (be_value bs);
  felt_add_small : forall a b, 0 <= a -> 0 <= b -> a + b < 2 ^ 251 -> felt_add a b = a + b;
  query_bit : felt_from_hex_unchecked (str_bytes "0x100000000000000000000000000000000") = 2 ^ 128
}.

Section HashProps.
Context {F : FeltApi} {FS : FeltSpec} {X : ExternalTypes} {RC : RpcCrates} {RS : RpcCratesSpec} {HC : HashCrates}.

(** ** Queries and collisions *)

(** The value of a query in a hash. *)
Definition answer (q : HashQuery) : Z :=
  match q with
  | Query_Pedersen elements => pedersen_hash_array elements
  | Query_Poseidon elements => poseidon_hash_array elements
  | Query_PedersenPair x y => pedersen_hash x y
  | Query_PedersenRoot leaves => calculate_root leaves
  | Query_Keccak data => truncated_keccak (sha3_keccak256 data)
  end.

(** No two different queries of the log have the same answer. *)
Definition collision_free (log : list HashQuery) : Prop :=
  forall q1 q2, q1 ∈ log -> q2 ∈ log -> answer q1 = answer q2 -> q1 = q2.

#[global] Instance collision_free_dec log : Decision (collision_free log).
Proof.
  refine (cast_if (decide (Forall (fun q1 => Forall (fun q2 => answer q1 = answer q2 -> q1 = q2) log) log)));
    unfold collision_free; rewrite Forall_forall in *; setoid_rewrite Forall_forall in f || setoid_rewrite Forall_forall in n; naive_solver.
Defined.

Lemma collision_free_pedersen log l1 l2 :
  collision_free log -> Query_Pedersen l1 ∈ log -> Query_Pedersen l2 ∈ log ->
  pedersen_hash_array l1 = pedersen_hash_array l2 -> l1 = l2.
Proof. intros H H1 H2 E. by injection (H _ _ H1 H2 E). Qed.

Lemma collision_free_poseidon log l1 l2 :
  collision_free log -> Query_Poseidon l1 ∈ log -> Query_Poseidon l2 ∈ log ->
  poseidon_hash_array l1 = poseidon_hash_array l2 -> l1 = l2.
Proof. intros H H1 H2 E. by injection (H _ _ H1 H2 E). Qed.

(** ** Running the hash chain *)

Lemma elements_chain_iter felts self : elements (chain_iter felts self) = elements self ++ felts.
Proof.
  unfold chain_iter. revert self; induction felts as [|f felts IH]; intros self; cbn [foldl]; [by rewrite app_nil_r|].
  rewrite IH. cbn. by rewrite <-app_assoc.
Qed.

Lemma pedersen_array_Done {E} l log log' h :
  pedersen_array (E := E) l log = Done log' h -> log' = Query_Pedersen l :: log /\ h = pedersen_hash_array l.
Proof. by intros [= <- <-]. Qed.

Lemma poseidon_array_Done {E} l log log' h :
  poseidon_array (E := E) l log = Done log' h -> log' = Query_Poseidon l :: log /\ h = poseidon_hash_array l.
Proof. by intros [= <- <-]. Qed.

Lemma ascii_as_felt_Done s log log' c :
  ascii_as_felt s log = Done log' c -> log' = log /\ felt_from_hex (hex_encode s) = Some c.
Proof. unfold ascii_as_felt. destruct (felt_from_hex _) as [f|]; [by intros [= <- <-]|done]. Qed.

Lemma contract_address_of_Done salt class calldata log log' a :
  contract_address_of salt class calldata log = Done log' a ->
  log' = log /\ calculate_contract_address salt class calldata (contract_address_from_u8 0) = inl a.
Proof. unfold contract_address_of. destruct (calculate_contract_address _ _ _ _) as [a'|e]; [by intros [= <- <-]|done]. Qed.

Lemma expect_Done {S E A} (o : option A) (s s' : S) a : expect (E := E) o s = Done s' a -> s' = s /\ o = Some a.
Proof. destruct o; [by intros [= <- <-]|done]. Qed.

Section Spec.
Context {HS : HashCratesSpec}.

(** The value of a name. *)
Definition name_felt (s : string) : Z := be_value (str_bytes s).

Lemma str_bytes_byte s : Forall is_byte (str_bytes s).
Proof.
  unfold str_bytes. apply Forall_fmap, Forall_true. intros a. unfold is_byte. cbn.
  pose proof (Ascii.N_ascii_bounded a). lia.
Qed.

Lemma str_bytes_length s : length (str_bytes s) = String.length s.
Proof. unfold str_bytes. rewrite length_fmap. induction s; cbn; congruence. Qed.

Lemma name_Done s log log' d :
  s <> EmptyString -> (String.length s <= 31)%nat ->
  unwrap (E' := StarknetApiError) (ascii_as_felt (str_bytes s)) log = Done log' d -> log' = log /\ d = name_felt s.
Proof.
  intros Hs Hl. unfold unwrap. destruct (ascii_as_felt _ log) as [log1 d1|log1 e|] eqn:E; try done. intros [= <- <-].
  apply ascii_as_felt_Done in E as [-> E]. split; [done|]. rewrite felt_from_hex_encode in E; [by injection E| |apply str_bytes_byte|].
  - destruct s; [done|]. discriminate.
  - unfold zlength. rewrite str_bytes_length. lia.
Qed.

(** ** The encodings of numbers are injective *)

Lemma felt_uint_inj a b : in_range 128 a -> in_range 128 b -> felt_from_uint a = felt_from_uint b -> a = b.
Proof. intros Ha Hb. destruct (felt_from_uint_spec a Ha) as [-> _], (felt_from_uint_spec b Hb) as [-> _]. done. Qed.

Lemma be_bytes_low n c v : be_bytes n (c * 256 ^ Z.of_nat n + v) = be_bytes n v.
Proof.
  revert c; induction n as [|n IH]; intros c; [done|]. cbn [be_bytes].
  replace (c * 256 ^ Z.of_nat (S n) + v) with ((c * 256) * 256 ^ Z.of_nat n + v)
    by (rewrite Nat2Z.inj_succ, Z.pow_succ_r by lia; lia).
  rewrite IH. f_equal. rewrite Z.div_add_l by (apply Z.pow_nonzero; lia). by rewrite Z.add_comm, Z.mod_add.
Qed.

Lemma be_bytes_of_value bs : Forall is_byte bs -> be_bytes (length bs) (be_value bs) = bs.
Proof.
  induction 1 as [|b bs Hb Hbs IH]; [done|]. cbn [length be_bytes]. rewrite be_value_cons. unfold zlength. rewrite be_bytes_low, IH. f_equal.
  rewrite Z.div_add_l by (apply Z.pow_nonzero; lia). rewrite Z.div_small, Z.add_0_r by (by apply be_value_range). by apply Z.mod_small.
Qed.

(** The felt of 32 bytes whose first is zero is their value. *)
Lemma felt_from_bytes_small bs : length bs = 31%nat -> Forall is_byte bs -> felt_from_bytes_be (0 :: bs) = be_value bs.
Proof.
  intros Hl Hbs. pose proof (be_value_range bs Hbs) as Hv. unfold zlength in Hv. rewrite Hl in Hv.
  rewrite <-(felt_from_bytes_canonical (be_value bs)) at 1; [|apply small_is_felt; cbn in *; lia].
  f_equal. assert (Hz : be_value (0 :: bs) = be_value bs) by (rewrite be_value_cons; lia).
  rewrite <-Hz. rewrite <-(be_bytes_of_value (0 :: bs)) at 1; [by cbn [length]; rewrite Hl|]. constructor; [unfold is_byte; lia|done].
Qed.

Lemma be_value_inj l1 l2 : length l1 = length l2 -> Forall is_byte l1 -> Forall is_byte l2 -> be_value l1 = be_value l2 -> l1 = l2.
Proof. intros Hl H1 H2 E. rewrite <-(be_bytes_of_value l1), <-(be_bytes_of_value l2) by done. by rewrite Hl, E. Qed.

(** The felt of the bounds of a resource. *)
Definition concat_resource (b : ResourceBounds) (name : list Z) : Z :=
  be_value (name ++ be_bytes 8 (ResourceBounds_max_amount b) ++ be_bytes 16 (ResourceBounds_max_price_per_unit b)).

Definition gas_names : list (list Z) := [L1_GAS; L2_GAS].

Lemma get_concat_resource_spec b name log :
  name ∈ gas_names -> get_concat_resource b name log = Done log (concat_resource b name).
Proof.
  intros Hn. assert (length name = 7%nat /\ Forall is_byte name) as [Hl Hb].
  { unfold gas_names in Hn. rewrite !elem_of_cons, elem_of_nil in Hn. destruct Hn as [-> |[-> |[]]]; (split; [done|]);
      constructor; (unfold is_byte; lia) || apply str_bytes_byte. }
  unfold get_concat_resource. cbn zeta.
  assert (Hlen : length (name ++ be_bytes 8 (ResourceBounds_max_amount b) ++ be_bytes 16 (ResourceBounds_max_price_per_unit b)) = 31%nat)
    by (by rewrite !length_app, !be_bytes_length, Hl).
  rewrite (proj2 (Z.eqb_eq _ _)) by (unfold zlength; cbn [app length]; by rewrite Hlen). unfold ret. f_equal.
  apply felt_from_bytes_small; [done|]. rewrite !Forall_app. auto using be_bytes_byte.
Qed.

Lemma concat_resource_inj b1 b2 name :
  typed_ResourceBounds b1 -> typed_ResourceBounds b2 -> Forall is_byte name ->
  concat_resource b1 name = concat_resource b2 name -> b1 = b2.
Proof.
  destruct b1 as [a1 p1], b2 as [a2 p2]. intros [Ha1 Hp1] [Ha2 Hp2] Hn E. cbn in *.
  unfold concat_resource in E. apply be_value_inj in E; cycle 1.
  { by rewrite !length_app, !be_bytes_length. } { rewrite !Forall_app. auto using be_bytes_byte. } { rewrite !Forall_app. auto using be_bytes_byte. }
  apply app_inv_head in E. apply app_inj_1 in E as [E1 E2]; [|by rewrite !be_bytes_length].
  apply be_bytes_inj in E1, E2; [by f_equal|..]; done.
Qed.

Lemma da_modes_inj n1 f1 n2 f2 : concat_data_availability_mode n1 f1 = concat_data_availability_mode n2 f2 -> n1 = n2 /\ f1 = f2.
Proof.
  unfold concat_data_availability_mode. intros E. apply felt_uint_inj in E; [|by destruct n1, f1|by destruct n2, f2].
  by destruct n1, f1, n2, f2.
Qed.

Lemma tip_hash_Done m tip log log' h :
  get_tip_resource_bounds_hash m tip log = Done log' h ->
  exists b1 b2, m !! Resource_L1Gas = Some b1 /\ m !! Resource_L2Gas = Some b2 /\
    let l := [felt_from_uint tip; concat_resource b1 L1_GAS; concat_resource b2 L2_GAS] in
    log' = Query_Poseidon l :: log /\ h = poseidon_hash_array l.
Proof.
  unfold get_tip_resource_bounds_hash. intros H. inv_run.
  rewrite get_concat_resource_spec in * by (unfold gas_names; set_solver). simplify_eq.
  apply poseidon_array_Done in H as [-> ->]. eauto 10.
Qed.

(** ** Transactions *)

(** What the hash of a transaction commits to: all of it but the signature, the
    nonce of a declaration of version 0, and, for a deployment, the class and the
    salt, of which only the address is hashed. The version is [get_tx_version]. *)
Definition signed_part (tx : Transaction) : Transaction :=
  match tx with
  | Transaction_Declare (DeclareTransaction_V0 (mkDeclareTransactionV0V1 max_fee _ _ class_hash sender)) =>
      Transaction_Declare (DeclareTransaction_V0 (mkDeclareTransactionV0V1 max_fee [] 0 class_hash sender))
  | Transaction_Declare (DeclareTransaction_V1 (mkDeclareTransactionV0V1 max_fee _ nonce class_hash sender)) =>
      Transaction_Declare (DeclareTransaction_V1 (mkDeclareTransactionV0V1 max_fee [] nonce class_hash sender))
  | Transaction_Declare (DeclareTransaction_V2 (mkDeclareTransactionV2 max_fee _ nonce class_hash compiled sender)) =>
      Transaction_Declare (DeclareTransaction_V2 (mkDeclareTransactionV2 max_fee [] nonce class_hash compiled sender))
  | Transaction_Declare (DeclareTransaction_V3 (mkDeclareTransactionV3 bounds tip _ nonce class_hash compiled sender nonce_mode
      fee_mode paymaster account)) =>
      Transaction_Declare (DeclareTransaction_V3 (mkDeclareTransactionV3 bounds tip [] nonce class_hash compiled sender nonce_mode
        fee_mode paymaster account))
  | Transaction_Deploy (mkDeployTransaction _ _ _ calldata) => Transaction_Deploy (mkDeployTransaction 0 0 0 calldata)
  | Transaction_DeployAccount (DeployAccountTransaction_V1 (mkDeployAccountTransactionV1 max_fee _ nonce class_hash salt calldata)) =>
      Transaction_DeployAccount (DeployAccountTransaction_V1 (mkDeployAccountTransactionV1 max_fee [] nonce class_hash salt calldata))
  | Transaction_DeployAccount (DeployAccountTransaction_V3 (mkDeployAccountTransactionV3 bounds tip _ nonce class_hash salt calldata
      nonce_mode fee_mode paymaster)) =>
      Transaction_DeployAccount (DeployAccountTransaction_V3 (mkDeployAccountTransactionV3 bounds tip [] nonce class_hash salt
        calldata nonce_mode fee_mode paymaster))
  | Transaction_Invoke (InvokeTransaction_V0 (mkInvokeTransactionV0 max_fee _ address selector calldata)) =>
      Transaction_Invoke (InvokeTransaction_V0 (mkInvokeTransactionV0 max_fee [] address selector calldata))
  | Transaction_Invoke (InvokeTransaction_V1 (mkInvokeTransactionV1 max_fee _ nonce sender calldata)) =>
      Transaction_Invoke (InvokeTransaction_V1 (mkInvokeTransactionV1 max_fee [] nonce sender calldata))
  | Transaction_Invoke (InvokeTransaction_V3 (mkInvokeTransactionV3 bounds tip _ nonce sender calldata nonce_mode fee_mode
      paymaster account)) =>
      Transaction_Invoke (InvokeTransaction_V3 (mkInvokeTransactionV3 bounds tip [] nonce sender calldata nonce_mode fee_mode
        paymaster account))
  | Transaction_L1Handler (mkL1HandlerTransaction _ nonce address selector calldata) =>
      Transaction_L1Handler (mkL1HandlerTransaction 0 nonce address selector calldata)
  end.

(** The address a transaction deploys to. *)
Definition deployed_address (tx : Transaction) : option (Z + StarknetApiError) :=
  match tx with
  | Transaction_Deploy (mkDeployTransaction _ class_hash salt calldata) =>
      Some (calculate_contract_address salt class_hash calldata (contract_address_from_u8 0))
  | _ => None
  end.

(** The name at the head of the hash. *)
Definition tx_name (tx : Transaction) : string :=
  match tx with
  | Transaction_Declare _ => "declare"
  | Transaction_Deploy _ => "deploy"
  | Transaction_DeployAccount _ => "deploy_account"
  | Transaction_Invoke _ => "invoke"
  | Transaction_L1Handler _ => "l1_handler"
  end.

Definition query_elements (q : HashQuery) : list Z :=
  match q with
  | Query_Pedersen l | Query_Poseidon l => l
  | _ => []
  end.

Ltac unfold_hashes H :=
  unfold get_transaction_hash, get_declare_transaction_v0_hash, get_declare_transaction_v1_hash, get_declare_transaction_v2_hash,
    get_declare_transaction_v3_hash, get_deploy_transaction_hash, get_common_deploy_transaction_hash,
    get_deploy_account_transaction_v1_hash, get_deploy_account_transaction_v3_hash, get_invoke_transaction_v0_hash,
    get_common_invoke_transaction_v0_hash, get_invoke_transaction_v1_hash, get_invoke_transaction_v3_hash,
    get_l1_handler_transaction_hash, get_common_l1_handler_transaction_hash, get_pedersen_hash, get_poseidon_hash, chain_id_felt,
    DECLARE, DEPLOY, DEPLOY_ACCOUNT, INVOKE, L1_HANDLER in H; cbn [l1_handler_version_gt l1_handler_version_index Z.ltb Z.compare Pos.compare Pos.compare_cont negb chain_if_fn] in H.

Ltac name_side := solve [discriminate | apply Nat.leb_le; vm_compute; reflexivity].

Ltac hash_inv H :=
  unfold_hashes H; inv_run;
  repeat match goal with
  | H : pedersen_array _ _ = Done _ _ |- _ => apply pedersen_array_Done in H as [-> ->]
  | H : poseidon_array _ _ = Done _ _ |- _ => apply poseidon_array_Done in H as [-> ->]
  | H : ascii_as_felt _ _ = Done _ _ |- _ => apply ascii_as_felt_Done in H as [-> H]
  | H : contract_address_of _ _ _ _ = Done _ _ |- _ => apply contract_address_of_Done in H as [-> H]
  | H : unwrap (ascii_as_felt (str_bytes _)) _ = Done _ _ |- _ => apply name_Done in H as [-> ->]; [|name_side..]
  | H : get_tip_resource_bounds_hash _ _ _ = Done _ _ |- _ => apply tip_hash_Done in H as (? & ? & ? & ? & -> & ->)
  end; rewrite ?elements_chain_iter in *; cbn [chain elements HashChain_new app] in *.

(** The last query starts with the name and the version of the transaction. *)
Lemma hash_shape tx chain_id o log log' h :
  get_transaction_hash tx chain_id o log = Done log' h ->
  exists q subs rest, log' = q :: subs /\ answer q = h /\ query_elements q = name_felt (tx_name tx) :: get_tx_version tx o :: rest.
Proof.
  intros H. destruct tx as [[t|t|t|t]|t|[t|t]|[t|t|t]|t]; hash_inv H; eexists _, _, _; (split; [reflexivity|split; reflexivity]).
Qed.

(** The variant of a transaction within its kind. *)
Definition tx_variant (tx : Transaction) : Z :=
  match tx with
  | Transaction_Declare tx => declare_transaction_version tx
  | Transaction_DeployAccount tx => deploy_account_transaction_version tx
  | Transaction_Invoke tx => invoke_transaction_version tx
  | _ => 0
  end.

Lemma query_version v o : 0 <= v <= 3 ->
  (if only_query o then felt_add v (felt_from_hex_unchecked (str_bytes "0x100000000000000000000000000000000")) else v) =
  v + (if only_query o then 2 ^ 128 else 0).
Proof. intros Hv. destruct (only_query o); [|lia]. rewrite query_bit, felt_add_small; lia. Qed.

Lemma tx_names_distinct tx1 tx2 : name_felt (tx_name tx1) = name_felt (tx_name tx2) -> tx_name tx1 = tx_name tx2.
Proof. destruct tx1, tx2; intros E; (reflexivity || (vm_compute in E; discriminate E)). Qed.

(** The name and the version determine the variant. *)
Lemma same_variant tx1 tx2 o1 o2 :
  tx_name tx1 = tx_name tx2 -> get_tx_version tx1 o1 = get_tx_version tx2 o2 -> tx_variant tx1 = tx_variant tx2.
Proof.
  unfold get_tx_version. destruct tx1 as [t1|t1|t1|t1|t1], tx2 as [t2|t2|t2|t2|t2]; try discriminate; intros _; cbn [tx_variant]; try done.
  - rewrite !declare_version_spec. destruct t1, t2; rewrite !query_version by lia; destruct (only_query o1), (only_query o2); lia.
  - rewrite !deploy_account_version_spec. destruct t1, t2; rewrite !query_version by lia; destruct (only_query o1), (only_query o2); lia.
  - rewrite !invoke_version_spec. destruct t1, t2; rewrite !query_version by lia; destruct (only_query o1), (only_query o2); lia.
Qed.

Lemma bounds_eq (m1 m2 : gmap Resource ResourceBounds) b1 b2 :
  m1 !! Resource_L1Gas = Some b1 -> m1 !! Resource_L2Gas = Some b2 ->
  m2 !! Resource_L1Gas = Some b1 -> m2 !! Resource_L2Gas = Some b2 -> m1 = m2.
Proof. intros. apply map_eq. intros []; congruence. Qed.

(** The bounds and the tip behind a hash. *)
Lemma tip_hash_inj log m1 m2 tip1 tip2 b1 b2 c1 c2 :
  let l1 := [felt_from_uint tip1; concat_resource b1 L1_GAS; concat_resource c1 L2_GAS] in
  let l2 := [felt_from_uint tip2; concat_resource b2 L1_GAS; concat_resource c2 L2_GAS] in
  collision_free log -> Query_Poseidon l1 ∈ log -> Query_Poseidon l2 ∈ log ->
  m1 !! Resource_L1Gas = Some b1 -> m1 !! Resource_L2Gas = Some c1 ->
  m2 !! Resource_L1Gas = Some b2 -> m2 !! Resource_L2Gas = Some c2 ->
  typed_bounds m1 -> typed_bounds m2 -> in_range 64 tip1 -> in_range 64 tip2 ->
  poseidon_hash_array l1 = poseidon_hash_array l2 -> m1 = m2 /\ tip1 = tip2.
Proof.
  cbn zeta. intros Hc H1 H2 Eb1 Ec1 Eb2 Ec2 Hm1 Hm2 Ht1 Ht2 E. apply (collision_free_poseidon _ _ _ Hc H1 H2) in E. injection E as E1 E2 E3.
  apply concat_resource_inj in E2; [|by eapply Hm1|by eapply Hm2|by constructor; [done|apply str_bytes_byte]].
  apply concat_resource_inj in E3; [|by eapply Hm1|by eapply Hm2|by constructor; [done|apply str_bytes_byte]]. subst.
  apply felt_uint_inj in E1; [|unfold in_range in *; lia..]. split; [by eapply bounds_eq|done].
Qed.

Ltac solve_log := rewrite ?elem_of_app, ?elem_of_cons; tauto.

(** Derive the equalities of what was hashed. *)
Ltac hash_equalities Hc :=
  repeat match goal with
  | E : ?a :: _ = ?b :: _ |- _ => injection E; clear E; intros
  | E : pedersen_hash_array _ = pedersen_hash_array _ |- _ =>
      first [apply (collision_free_pedersen _ _ _ Hc) in E; [|solve_log|solve_log] | clear E]
  | E : poseidon_hash_array [felt_from_uint _; _; _] = poseidon_hash_array _ |- _ =>
      eapply (tip_hash_inj _ _ _ _ _ _ _ _ _ Hc) in E as [? ?]; [|solve_log|solve_log|eassumption..|tauto|tauto|tauto|tauto]
  | E : poseidon_hash_array _ = poseidon_hash_array _ |- _ =>
      first [apply (collision_free_poseidon _ _ _ Hc) in E; [|solve_log|solve_log] | clear E]
  | E : felt_from_uint _ = felt_from_uint _ |- _ => apply felt_uint_inj in E; [|tauto|tauto]
  | E : concat_data_availability_mode _ _ = concat_data_availability_mode _ _ |- _ => apply da_modes_inj in E as [? ?]
  end.

#[local] Arguments name_felt : simpl never.
#[local] Arguments get_tx_version : simpl never.
#[local] Arguments concat_resource : simpl never.
#[local] Arguments concat_data_availability_mode : simpl never.

(** Two runs [H1] and [H2] on transactions of one variant. *)
Ltac same_hash H1 H2 Hc :=
  hash_inv H1; hash_inv H2; cbn in *;
  unfold typed_DeclareV0V1, typed_DeclareV2, typed_DeclareV3, typed_Deploy, typed_DeployAccountV1, typed_DeployAccountV3,
    typed_InvokeV0, typed_InvokeV1, typed_InvokeV3, typed_L1Handler in *; cbn in *;
  hash_equalities Hc; subst; split; congruence.

(** C19: Two transactions with the same hash on a chain say the same: they are of the same
    kind and version and agree on everything a user signs (sender, nonce, fee or
    resource bounds and tip, data, classes, the modes of data availability, and
    whether they are queries), unless the lists hashed on the way collide. *)
Theorem transaction_hash_binds tx1 tx2 chain_id o1 o2 log1 log2 h :
  typed_Transaction tx1 -> typed_Transaction tx2 ->
  get_transaction_hash tx1 chain_id o1 [] = Done log1 h -> get_transaction_hash tx2 chain_id o2 [] = Done log2 h ->
  collision_free (log1 ++ log2) ->
  get_tx_version tx1 o1 = get_tx_version tx2 o2 /\ signed_part tx1 = signed_part tx2 /\ deployed_address tx1 = deployed_address tx2.
Proof.
  intros Ht1 Ht2 H1 H2 Hc.
  destruct (hash_shape _ _ _ _ _ _ H1) as (q1 & subs1 & r1 & E1 & A1 & L1), (hash_shape _ _ _ _ _ _ H2) as (q2 & subs2 & r2 & E2 & A2 & L2).
  assert (q1 = q2) as <- by (apply Hc; [subst; solve_log..|congruence]). rewrite L2 in L1. injection L1 as Hname Hversion _.
  apply tx_names_distinct in Hname. pose proof (same_variant _ _ _ _ (eq_sym Hname) (eq_sym Hversion)) as Hvariant.
  split; [done|]. clear r1 r2 L2 subs1 subs2 E1 E2 A1 A2 Hversion q1.
  remember h as h2 eqn:Eh in H2.
  destruct tx1 as [t1|t1|t1|t1|t1], tx2 as [t2|t2|t2|t2|t2]; try discriminate Hname; clear Hname; cbn [tx_variant] in Hvariant;
    rewrite ?declare_version_spec, ?deploy_account_version_spec, ?invoke_version_spec in Hvariant.
  - destruct t1 as [[]|[]|[]|[]], t2 as [[]|[]|[]|[]]; try discriminate Hvariant; same_hash H1 H2 Hc.
  - destruct t1, t2. same_hash H1 H2 Hc.
  - destruct t1 as [[]|[]], t2 as [[]|[]]; try discriminate Hvariant; same_hash H1 H2 Hc.
  - destruct t1 as [[]|[]|[]], t2 as [[]|[]|[]]; try discriminate Hvariant; same_hash H1 H2 Hc.
  - destruct t1, t2. same_hash H1 H2 Hc.
Qed.

(** ** Computing the hash of a transaction *)

Definition has_bounds (m : gmap Resource ResourceBounds) : Prop :=
  is_Some (m !! Resource_L1Gas) /\ is_Some (m !! Resource_L2Gas).

#[global] Instance has_bounds_dec m : Decision (has_bounds m) := _.

(** The bounds a transaction of version 3 must have. *)
Definition bounds_given (tx : Transaction) : Prop :=
  match tx with
  | Transaction_Declare (DeclareTransaction_V3 t) => has_bounds (DeclareTransactionV3_resource_bounds t)
  | Transaction_DeployAccount (DeployAccountTransaction_V3 t) => has_bounds (DeployAccountTransactionV3_resource_bounds t)
  | Transaction_Invoke (InvokeTransaction_V3 t) => has_bounds (InvokeTransactionV3_resource_bounds t)
  | _ => True
  end.

(** The address of a deployed contract exists. *)
Definition address_exists (tx : Transaction) : Prop :=
  match tx with
  | Transaction_Deploy t => exists a, calculate_contract_address (DeployTransaction_contract_address_salt t)
      (DeployTransaction_class_hash t) (DeployTransaction_constructor_calldata t) (contract_address_from_u8 0) = inl a
  | Transaction_DeployAccount (DeployAccountTransaction_V1 t) =>
      exists a, calculate_contract_address (DeployAccountTransactionV1_contract_address_salt t)
      (DeployAccountTransactionV1_class_hash t) (DeployAccountTransactionV1_constructor_calldata t) (contract_address_from_u8 0) = inl a
  | Transaction_DeployAccount (DeployAccountTransaction_V3 t) =>
      exists a, calculate_contract_address (DeployAccountTransactionV3_contract_address_salt t)
      (DeployAccountTransactionV3_class_hash t) (DeployAccountTransactionV3_constructor_calldata t) (contract_address_from_u8 0) = inl a
  | _ => True
  end.

(** The lists that were hashed before the version was part of the hash. *)
Definition old_forms (tx : Transaction) (c : Z) : list (list Z) :=
  match tx with
  | Transaction_Deploy t =>
      match calculate_contract_address (DeployTransaction_contract_address_salt t) (DeployTransaction_class_hash t)
              (DeployTransaction_constructor_calldata t) (contract_address_from_u8 0) with
      | inl address => [[name_felt "deploy"; address; CONSTRUCTOR_ENTRY_POINT_SELECTOR;
                         pedersen_hash_array (DeployTransaction_constructor_calldata t); c]]
      | inr _ => []
      end
  | Transaction_Invoke (InvokeTransaction_V0 t) =>
      [[name_felt "invoke"; InvokeTransactionV0_contract_address t; InvokeTransactionV0_entry_point_selector t;
        pedersen_hash_array (InvokeTransactionV0_calldata t); c]]
  | Transaction_L1Handler t =>
      [[name_felt "invoke"; L1HandlerTransaction_contract_address t; L1HandlerTransaction_entry_point_selector t;
        pedersen_hash_array (L1HandlerTransaction_calldata t); c];
       [name_felt "l1_handler"; L1HandlerTransaction_contract_address t; L1HandlerTransaction_entry_point_selector t;
        pedersen_hash_array (L1HandlerTransaction_calldata t); c; L1HandlerTransaction_nonce t]]
  | _ => []
  end.

Lemma name_run s log : s <> EmptyString -> (String.length s <= 31)%nat ->
  unwrap (E' := StarknetApiError) (ascii_as_felt (str_bytes s)) log = Done log (name_felt s).
Proof.
  intros Hs Hl. unfold unwrap, ascii_as_felt. rewrite felt_from_hex_encode; [done| |apply str_bytes_byte|].
  - destruct s; [done|]. discriminate.
  - unfold zlength. rewrite str_bytes_length. lia.
Qed.

Lemma chain_id_run chain_id c log :
  felt_from_hex (hex_encode (chain_id_to_string chain_id)) = Some c -> ascii_as_felt (chain_id_to_string chain_id) log = Done log c.
Proof. unfold ascii_as_felt. by intros ->. Qed.

Lemma address_run salt class calldata a log :
  calculate_contract_address salt class calldata (contract_address_from_u8 0) = inl a ->
  contract_address_of salt class calldata log = Done log a.
Proof. unfold contract_address_of. by intros ->. Qed.

Lemma tip_hash_run m tip b1 b2 log : m !! Resource_L1Gas = Some b1 -> m !! Resource_L2Gas = Some b2 ->
  let l := [felt_from_uint tip; concat_resource b1 L1_GAS; concat_resource b2 L2_GAS] in
  get_tip_resource_bounds_hash m tip log = Done (Query_Poseidon l :: log) (poseidon_hash_array l).
Proof.
  intros E1 E2. unfold get_tip_resource_bounds_hash. rewrite E1, E2. unfold bind, expect, ret.
  rewrite get_concat_resource_spec by (unfold gas_names; set_solver). by rewrite get_concat_resource_spec by (unfold gas_names; set_solver).
Qed.

Lemma tip_hash_panic m tip log : ~ has_bounds m -> get_tip_resource_bounds_hash m tip log = Panic.
Proof.
  intros Hb. unfold get_tip_resource_bounds_hash. destruct (m !! Resource_L1Gas) as [b1|] eqn:E1; [|done].
  run_steps. unfold bind. rewrite get_concat_resource_spec by (unfold gas_names; set_solver).
  destruct (m !! Resource_L2Gas) as [b2|] eqn:E2; [|done]. by destruct Hb; split; eexists.
Qed.

(** Run the steps of a hash whose parts are known. *)
Ltac hash_run Hc :=
  repeat first
  [ rewrite bind_assoc | rewrite bind_ret
  | erewrite bind_step; [|first [eapply name_run; name_side | eapply chain_id_run; exact Hc | eapply address_run; eassumption
      | eapply tip_hash_run; eassumption | reflexivity]]
  | reflexivity ].

Section Validate.
Context (tx : Transaction) (chain_id : ChainId) (c : Z) (o : TransactionOptions).
Context (Hchain : felt_from_hex (hex_encode (chain_id_to_string chain_id)) = Some c) (Haddress : address_exists tx).

Lemma transaction_hash_run :
  bounds_given tx -> exists h, forall log, exists log', get_transaction_hash tx chain_id o log = Done log' h.
Proof.
  intros Hb. destruct tx as [[t|t|t|t]|t|[t|t]|[t|t|t]|t]; cbn in Hb, Haddress; destruct_ex_and;
    repeat match goal with H : has_bounds _ |- _ => destruct H as [[? ?] [? ?]] end;
    eexists; intros log; eexists;
    match goal with |- ?l = _ => let H := fresh in set (H := l); unfold_hashes H; subst H end; hash_run Hchain.
Qed.

Lemma transaction_hash_panics log : ~ bounds_given tx -> get_transaction_hash tx chain_id o log = Panic.
Proof.
  intros Hb. destruct tx as [[t|t|t|t]|t|[t|t]|[t|t|t]|t]; cbn in Hb, Haddress; try tauto; destruct_ex_and; cbn [get_transaction_hash].
  - unfold get_declare_transaction_v3_hash. unfold bind at 1. by rewrite tip_hash_panic.
  - unfold get_deploy_account_transaction_v3_hash. erewrite bind_step by (eapply address_run; eassumption).
    unfold bind at 1. by rewrite tip_hash_panic.
  - unfold get_invoke_transaction_v3_hash. unfold bind at 1. by rewrite tip_hash_panic.
Qed.

(** The forms of a transaction that are not recent. *)
Lemma old_hashes_run log : exists log' hs,
  match tx with
  | Transaction_Declare _ => ret []
  | Transaction_Deploy deploy =>
      let! hash := get_deprecated_deploy_transaction_hash deploy chain_id (get_tx_version tx o) in ret [hash]
  | Transaction_DeployAccount _ => ret []
  | Transaction_Invoke (InvokeTransaction_V0 invoke_v0) =>
      let! hash := get_deprecated_invoke_transaction_v0_hash invoke_v0 chain_id (get_tx_version tx o) in ret [hash]
  | Transaction_Invoke (InvokeTransaction_V1 _) | Transaction_Invoke (InvokeTransaction_V3 _) => ret []
  | Transaction_L1Handler l1_handler => get_deprecated_l1_handler_transaction_hashes l1_handler chain_id (get_tx_version tx o)
  end log = Done log' hs /\ hs = pedersen_hash_array <$> old_forms tx c.
Proof.
  destruct tx as [[t|t|t|t]|t|[t|t]|[t|t|t]|t]; cbn in Haddress; destruct_ex_and; try by eexists _, [].
  - eexists _, _. split.
    + unfold get_deprecated_deploy_transaction_hash, get_common_deploy_transaction_hash, get_pedersen_hash, chain_id_felt, DEPLOY.
      cbn [negb chain_if_fn]. hash_run Hchain.
    + cbn [old_forms]. match goal with H : calculate_contract_address _ _ _ _ = _ |- _ => rewrite H end. by rewrite !elements_chain_iter.
  - eexists _, _. split.
    + unfold get_deprecated_invoke_transaction_v0_hash, get_common_invoke_transaction_v0_hash, get_pedersen_hash, chain_id_felt, INVOKE.
      cbn [negb chain_if_fn]. hash_run Hchain.
    + by rewrite !elements_chain_iter.
  - eexists _, _. split.
    + unfold get_deprecated_l1_handler_transaction_hashes, get_common_l1_handler_transaction_hash, get_pedersen_hash, chain_id_felt, INVOKE, L1_HANDLER.
      cbn [l1_handler_version_gt l1_handler_version_index Z.ltb Z.compare Pos.compare Pos.compare_cont chain_if_fn]. hash_run Hchain.
    + by rewrite !elements_chain_iter.
Qed.

Definition recent_on_mainnet (n : Z) : Prop := chain_id = ChainId_Mainnet /\ MAINNET_TRANSACTION_HASH_WITH_VERSION < n.

#[local] Instance recent_dec n : Decision (recent_on_mainnet n) := _.

Lemma deprecated_hashes_run n log :
  exists log' hs, get_deprecated_transaction_hashes chain_id n tx o log = Done log' hs /\
    (recent_on_mainnet n -> hs = []) /\ (~ recent_on_mainnet n -> hs = pedersen_hash_array <$> old_forms tx c).
Proof.
  unfold get_deprecated_transaction_hashes, recent_on_mainnet. cbn zeta.
  destruct (bool_decide_reflect (chain_id = ChainId_Mainnet)) as [Hm|Hm]; cbn [andb];
    [destruct (Z.ltb_spec MAINNET_TRANSACTION_HASH_WITH_VERSION n) as [Hn|Hn]; [eexists _, []; by split_and!; [| |intros []]|]|].
  all: destruct (old_hashes_run log) as (log' & hs & Erun & ->); exists log'; eexists; (split; [exact Erun|]); (split; [|done]); (intros [? ?]; first [lia | done]).
Qed.

(** The validation of the hash of a transaction accepts the hash of its version
    and, before block 1471 of mainnet or on another chain, the forms used earlier;
    it answers for every transaction that has its resource bounds, and panics for one
    of version 3 that lacks them. *)
Theorem transaction_hash_validated n h :
  (bounds_given tx -> exists current log log' b,
     get_transaction_hash tx chain_id o [] = Done log current /\
     validate_transaction_hash tx n chain_id h o [] = Done log' b /\
     (b = true <-> h = current \/ ~ recent_on_mainnet n /\ h ∈ pedersen_hash_array <$> old_forms tx c)) /\
  (~ bounds_given tx -> validate_transaction_hash tx n chain_id h o [] = Panic).
Proof.
  destruct (deprecated_hashes_run n []) as (log1 & hs & E1 & Hrecent & Hold). unfold validate_transaction_hash.
  rewrite (bind_step _ _ _ _ _ E1). split; intros Hb.
  - destruct (transaction_hash_run Hb) as [current Hrun]. destruct (Hrun []) as [log Hlog], (Hrun log1) as [log2 Hlog2].
    rewrite (bind_step _ _ _ _ _ Hlog2). eexists _, _, _, _. split; [exact Hlog|]. split; [reflexivity|].
    rewrite bool_decide_eq_true, elem_of_app, list_elem_of_singleton.
    destruct (recent_dec n) as [Hr|Hr]; [rewrite Hrecent by done|rewrite Hold by done]; [rewrite elem_of_nil|]; tauto.
  - apply bind_Panic. left. by apply transaction_hash_panics.
Qed.
End Validate.
End Spec.
End HashProps.
