(* ===== verification/BlockHashProps.v ===== *)
(** * What the hashes of blocks, state diffs and classes commit to

    Theorems on the second half of [Hashes.v]: [block_hash.rs],
    [state_diff_commitment.rs] and [class_hash.rs]. *)

From stdpp Require Import base gmap list strings fin_maps sorting.
From Stdlib Require Import ZArith Lia.
From S2P Require Import Prelude StarknetTypes StorageTxn Header Body Serde SerdeLaws ProtoCommon ProtoLaws ProtoTxnProps RpcConvert Hashes HashProps.

#[local] Open Scope string_scope.
#[local] Open Scope Z_scope.
#[local] Open Scope list_scope.

Section BlockHash.
Context {F : FeltApi} {FS : FeltSpec} {HC : HashCrates}.

(** ** Headers *)

(** The fields are machine integers. *)
Definition header_ranges (h : BlockHeader) : Prop :=
  in_range 64 (BlockHeader_block_number h) /\ in_range 64 (BlockHeader_timestamp h) /\
  in_range 64 (BlockHeader_n_transactions h) /\ in_range 64 (BlockHeader_n_events h).

(** The list a header is hashed from. *)
Definition header_preimage (h : BlockHeader) (sequencer timestamp transactions events : Z) (chain : option Z) : list Z :=
  [felt_from_uint (BlockHeader_block_number h); BlockHeader_state_root h; sequencer; timestamp;
   felt_from_uint (BlockHeader_n_transactions h); transactions; felt_from_uint (BlockHeader_n_events h); events; ZERO; ZERO] ++
  option_list chain ++ [BlockHeader_parent_hash h].

Definition mainnet_sequencer : Z :=
  felt_from_hex_unchecked (str_bytes "0x021f4b90b0377c82bf330b7b5295820769e72d79d8acd0effa0ebde6e9988bc5").

(** What stands for the sequencer, the time and the chain in a version. *)
Definition version_sequencer (h : BlockHeader) (v : BlockHashVersion) : Z :=
  if bool_decide (v = BlockHashVersion_V2 /\ BlockHeader_sequencer h = default_SequencerContractAddress) then mainnet_sequencer
  else BlockHeader_sequencer h.

Definition version_timestamp (h : BlockHeader) (v : BlockHashVersion) : Z :=
  if bool_decide (v = BlockHashVersion_V0) then ZERO else felt_from_uint (BlockHeader_timestamp h).

Definition version_chain (c : Z) (v : BlockHashVersion) : option Z :=
  if bool_decide (v = BlockHashVersion_V0) then Some c else None.

Definition version_preimage (h : BlockHeader) (transactions events c : Z) (v : BlockHashVersion) : list Z :=
  header_preimage h (version_sequencer h v) (version_timestamp h v) transactions events (version_chain c v).

(** Version 2 has no sequencer to put in on this chain. *)
Definition no_sequencer (h : BlockHeader) (chain_id : ChainId) (v : BlockHashVersion) : Prop :=
  v = BlockHashVersion_V2 /\ BlockHeader_sequencer h = default_SequencerContractAddress /\ chain_id <> ChainId_Mainnet.

Lemma usize_into_felt_run {E} u log : in_range 64 u -> usize_into_felt (E := E) u log = Done log (felt_from_uint u).
Proof.
  intros [H0 H1]. unfold usize_into_felt, uint_try_from.
  rewrite (proj2 (Z.leb_le _ _) H0), (proj2 (Z.ltb_lt _ _)) by lia. done.
Qed.

Context (chain_id : ChainId) (c : Z) (Hchain : felt_from_hex (hex_encode (chain_id_to_string chain_id)) = Some c).

Lemma version_chain_run v log (k : option Z -> Hashing BlockHashError Z) :
  bind (if bool_decide (v = BlockHashVersion_V0)
        then let! felt := map_err BlockHashError_StarknetApiError (chain_id_felt chain_id) in ret (Some felt) else ret None) k log =
  k (version_chain c v) log.
Proof.
  unfold version_chain. case_bool_decide; [|done]. unfold bind, map_err, chain_id_felt, ascii_as_felt. by rewrite Hchain.
Qed.

Lemma version_sequencer_run h v log (k : option Z -> Hashing BlockHashError Z) :
  ~ no_sequencer h chain_id v ->
  bind (if negb (BlockHeader_sequencer h =? default_SequencerContractAddress) || negb (bool_decide (v = BlockHashVersion_V2))
        then ret (Some (BlockHeader_sequencer h))
        else let! address := get_chain_sequencer_address chain_id in ret (Some address)) k log =
  k (Some (version_sequencer h v)) log.
Proof.
  unfold no_sequencer, version_sequencer, get_chain_sequencer_address. intros Hn.
  destruct (Z.eqb_spec (BlockHeader_sequencer h) default_SequencerContractAddress) as [Hs|Hs]; cbn [negb orb].
  - case_bool_decide as Hv; cbn [negb].
    + rewrite !bool_decide_eq_true_2 by (tauto || destruct (decide (chain_id = ChainId_Mainnet)); tauto). done.
    + by rewrite bool_decide_eq_false_2 by tauto.
  - by rewrite bool_decide_eq_false_2 by tauto.
Qed.

(** The hash of a header of one version. *)
Lemma block_hash_run h v transactions events log :
  header_ranges h -> ~ no_sequencer h chain_id v ->
  BlockHeader_transaction_commitment h = Some transactions -> BlockHeader_event_commitment h = Some events ->
  calculate_block_hash_by_version h v chain_id log =
  Done (Query_Pedersen (version_preimage h transactions events c v) :: log)
    (pedersen_hash_array (version_preimage h transactions events c v)).
Proof.
  intros (_ & _ & Ht & He) Hs Et Ee. unfold calculate_block_hash_by_version.
  rewrite version_chain_run, version_sequencer_run by done.
  rewrite (bind_step _ _ _ _ _ (usize_into_felt_run _ log Ht)). rewrite Et. cbn [ok_or_raise]. rewrite bind_ret.
  rewrite (bind_step _ _ _ _ _ (usize_into_felt_run _ log He)). rewrite Ee. cbn [ok_or_raise]. rewrite bind_ret.
  unfold get_pedersen_hash, pedersen_array. run_steps. unfold ret. destruct v; reflexivity.
Qed.

Lemma block_hash_missing h v log :
  header_ranges h -> ~ no_sequencer h chain_id v ->
  BlockHeader_transaction_commitment h = None \/ BlockHeader_event_commitment h = None ->
  calculate_block_hash_by_version h v chain_id log = Fail log BlockHashError_MissingHeaderData.
Proof.
  intros (_ & _ & Ht & He) Hs Hm. unfold calculate_block_hash_by_version.
  rewrite version_chain_run, version_sequencer_run by done.
  rewrite (bind_step _ _ _ _ _ (usize_into_felt_run _ log Ht)).
  destruct (BlockHeader_transaction_commitment h) as [t|]; [|done]. cbn [ok_or_raise]. rewrite bind_ret.
  rewrite (bind_step _ _ _ _ _ (usize_into_felt_run _ log He)). by destruct Hm as [| ->].
Qed.

Lemma block_hash_panic h v log : no_sequencer h chain_id v -> calculate_block_hash_by_version h v chain_id log = Panic.
Proof.
  intros (-> & Hs & Hm). unfold calculate_block_hash_by_version. rewrite version_chain_run by done. rewrite Hs, Z.eqb_refl.
  cbn [negb orb]. rewrite bool_decide_eq_true_2 by done. cbn [negb]. unfold get_chain_sequencer_address.
  by rewrite bool_decide_eq_false_2.
Qed.

Lemma v2_only h v : v <> BlockHashVersion_V2 -> ~ no_sequencer h chain_id v.
Proof. by intros Hv [? _]. Qed.

(** C33: Validating a header: it has to have both commitments; its hash is accepted when
    it is that of version 3 (or 1, which is the same), 2 or 0. Where version 3 does
    not fit, a header without sequencer of a chain other than mainnet panics at
    version 2, before version 0 is tried. *)
Theorem header_validation_exact h :
  header_ranges h ->
  match BlockHeader_transaction_commitment h, BlockHeader_event_commitment h with
  | Some transactions, Some events =>
      let accepted v := pedersen_hash_array (version_preimage h transactions events c v) = BlockHeader_block_hash h in
      (accepted BlockHashVersion_V3 -> exists log, validate_header h chain_id [] = Done log true) /\
      (~ accepted BlockHashVersion_V3 -> no_sequencer h chain_id BlockHashVersion_V2 -> validate_header h chain_id [] = Panic) /\
      (~ no_sequencer h chain_id BlockHashVersion_V2 -> exists log b, validate_header h chain_id [] = Done log b /\
         (b = true <-> exists v, accepted v))
  | _, _ => validate_header h chain_id [] = Fail [] BlockHashError_MissingHeaderData
  end.
Proof.
  intros Hr. unfold validate_header, all_versions. cbn [validate_header_loop].
  destruct (BlockHeader_transaction_commitment h) as [transactions|] eqn:Et;
    [destruct (BlockHeader_event_commitment h) as [events|] eqn:Ee|];
    [|unfold bind at 1; by rewrite block_hash_missing by (done || (by apply v2_only) || tauto)..].
  rewrite (bind_step _ _ _ _ _ (block_hash_run h _ transactions events [] Hr (v2_only h BlockHashVersion_V3 ltac:(done)) Et Ee)).
  cbn zeta. split_and!.
  - intros ->. rewrite Z.eqb_refl. by eexists.
  - intros Hv3 Hn. rewrite (proj2 (Z.eqb_neq _ _) Hv3). unfold bind at 1. by rewrite block_hash_panic.
  - intros Hn. assert (Hv : forall P : BlockHashVersion -> Prop,
      (exists v, P v) <-> P BlockHashVersion_V3 \/ P BlockHashVersion_V2 \/ P BlockHashVersion_V1 \/ P BlockHashVersion_V0).
    { intros P. split; [intros [[] ?]; tauto|]. intros [?|[?|[?|?]]]; eauto. }
    specialize (Hv (fun v => pedersen_hash_array (version_preimage h transactions events c v) = BlockHeader_block_hash h)).
    cbn beta in Hv.
    repeat first
    [ match goal with |- context [if ?a =? ?b then _ else _] => destruct (Z.eqb_spec a b) as [?|?] end
    | rewrite (bind_step _ _ _ _ _ (block_hash_run h BlockHashVersion_V2 transactions events _ Hr Hn Et Ee))
    | rewrite (bind_step _ _ _ _ _ (block_hash_run h BlockHashVersion_V1 transactions events _ Hr (v2_only h BlockHashVersion_V1 ltac:(done)) Et Ee))
    | rewrite (bind_step _ _ _ _ _ (block_hash_run h BlockHashVersion_V0 transactions events _ Hr (v2_only h BlockHashVersion_V0 ltac:(done)) Et Ee)) ];
    (eexists _, _; split; [reflexivity|]; rewrite Hv; clear Hv; intuition congruence).
Qed.

(** A header that is accepted has the hash of a version, and the list was hashed. *)
Lemma validate_header_loop_true h vs log log' :
  header_ranges h -> validate_header_loop h chain_id vs log = Done log' true ->
  exists v transactions events, BlockHeader_transaction_commitment h = Some transactions /\ BlockHeader_event_commitment h = Some events /\
    Query_Pedersen (version_preimage h transactions events c v) ∈ log' /\
    pedersen_hash_array (version_preimage h transactions events c v) = BlockHeader_block_hash h.
Proof.
  intros Hr. revert log. induction vs as [|v vs IH]; intros log H; [done|]. cbn [validate_header_loop] in H.
  destruct (decide (no_sequencer h chain_id v)) as [Hn|Hn]; [unfold bind at 1 in H; by rewrite block_hash_panic in H|].
  destruct (BlockHeader_transaction_commitment h) as [t|] eqn:Et;
    [destruct (BlockHeader_event_commitment h) as [e|] eqn:Ee|];
    [|unfold bind at 1 in H; by rewrite block_hash_missing in H by tauto..].
  rewrite (bind_step _ _ _ _ _ (block_hash_run h v t e log Hr Hn Et Ee)) in H.
  destruct (Z.eqb_spec (pedersen_hash_array (version_preimage h t e c v)) (BlockHeader_block_hash h)) as [Hv|Hv]; [|by eapply IH].
  injection H as <-. exists v, t, e. split_and!; try done. left.
Qed.

(** The versions two headers were hashed with, and what follows from equal lists. *)
Lemma preimage_inj h1 h2 v1 v2 t1 t2 e1 e2 :
  header_ranges h1 -> header_ranges h2 ->
  version_preimage h1 t1 e1 c v1 = version_preimage h2 t2 e2 c v2 ->
  BlockHeader_block_number h1 = BlockHeader_block_number h2 /\ BlockHeader_state_root h1 = BlockHeader_state_root h2 /\
  BlockHeader_parent_hash h1 = BlockHeader_parent_hash h2 /\ BlockHeader_n_transactions h1 = BlockHeader_n_transactions h2 /\
  BlockHeader_n_events h1 = BlockHeader_n_events h2 /\ t1 = t2 /\ e1 = e2 /\
  (v1 = BlockHashVersion_V0 <-> v2 = BlockHashVersion_V0) /\
  (v1 = BlockHashVersion_V0 \/ BlockHeader_timestamp h1 = BlockHeader_timestamp h2) /\
  version_sequencer h1 v1 = version_sequencer h2 v2.
Proof.
  intros (R1 & R2 & R3 & R4) (S1 & S2 & S3 & S4) E. unfold in_range in *.
  assert (Hv : v1 = BlockHashVersion_V0 <-> v2 = BlockHashVersion_V0).
  { apply (f_equal length) in E. unfold version_preimage, header_preimage, version_chain in E. by destruct v1, v2. }
  assert (HE : header_preimage h1 (version_sequencer h1 v1) (version_timestamp h1 v1) t1 e1 (version_chain c v1) =
               header_preimage h2 (version_sequencer h2 v2) (version_timestamp h2 v2) t2 e2 (version_chain c v1)).
  { unfold version_preimage in E. rewrite E. f_equal. unfold version_chain.
    by destruct (decide (v1 = BlockHashVersion_V0)); [rewrite !bool_decide_eq_true_2 by tauto|rewrite !bool_decide_eq_false_2 by tauto]. }
  clear E. unfold header_preimage in HE. cbn [app] in HE. injection HE as E1 E2 E3 E4 E5 E6 E7 E8 E9. apply app_inv_head in E9. injection E9 as E9.
  apply felt_uint_inj in E1, E5, E7; try (unfold in_range; lia). split_and!; try done. unfold version_timestamp in E4.
  destruct (decide (v1 = BlockHashVersion_V0)) as [|Hne]; [by left|]. right.
  rewrite !bool_decide_eq_false_2 in E4 by tauto. apply felt_uint_inj in E4; unfold in_range; lia.
Qed.

(** Two headers with one block hash that are both accepted agree on the number, the
    state, the parent, the transactions and the events, unless the lists hashed
    collide; on the time unless the hash is of version 0, which leaves it out; and
    on the sequencer unless one of them has none. *)
Theorem validated_headers_agree h1 h2 log1 log2 :
  header_ranges h1 -> header_ranges h2 -> BlockHeader_block_hash h1 = BlockHeader_block_hash h2 ->
  validate_header h1 chain_id [] = Done log1 true -> validate_header h2 chain_id [] = Done log2 true ->
  collision_free (log1 ++ log2) ->
  BlockHeader_block_number h1 = BlockHeader_block_number h2 /\ BlockHeader_state_root h1 = BlockHeader_state_root h2 /\
  BlockHeader_parent_hash h1 = BlockHeader_parent_hash h2 /\
  BlockHeader_n_transactions h1 = BlockHeader_n_transactions h2 /\ BlockHeader_n_events h1 = BlockHeader_n_events h2 /\
  BlockHeader_transaction_commitment h1 = BlockHeader_transaction_commitment h2 /\
  BlockHeader_event_commitment h1 = BlockHeader_event_commitment h2 /\
  (BlockHeader_timestamp h1 = BlockHeader_timestamp h2 \/
   exists t e, pedersen_hash_array (version_preimage h1 t e c BlockHashVersion_V0) = BlockHeader_block_hash h1) /\
  (BlockHeader_sequencer h1 = BlockHeader_sequencer h2 \/
   BlockHeader_sequencer h1 = default_SequencerContractAddress \/ BlockHeader_sequencer h2 = default_SequencerContractAddress).
Proof.
  intros R1 R2 Eh H1 H2 Hc.
  destruct (validate_header_loop_true _ _ _ _ R1 H1) as (v1 & t1 & e1 & Et1 & Ee1 & Q1 & A1).
  destruct (validate_header_loop_true _ _ _ _ R2 H2) as (v2 & t2 & e2 & Et2 & Ee2 & Q2 & A2).
  assert (E : version_preimage h1 t1 e1 c v1 = version_preimage h2 t2 e2 c v2).
  { eapply collision_free_pedersen; [exact Hc|apply elem_of_app; by left|apply elem_of_app; by right|congruence]. }
  apply preimage_inj in E as (? & ? & ? & ? & ? & <- & <- & Hv & Ht & Hs); [|done..].
  split_and!; try done; [congruence|congruence| |].
  - destruct Ht as [-> |]; [right; eauto|by left].
  - unfold version_sequencer in Hs. repeat case_bool_decide; tauto.
Qed.
End BlockHash.

(** ** State diffs *)

Section StateDiffCommitment.
Context {F : FeltApi} {FS : FeltSpec} {HC : HashCrates}.

Lemma insert_by_key_perm {V} (e : Z * V) l : insert_by_key e l ≡ₚ e :: l.
Proof.
  induction l as [|e' l IH]; cbn; [done|]. case_cmp; [done|]. rewrite IH. apply Permutation_swap.
Qed.

Lemma sorted_by_key_perm {V} (l : list (Z * V)) : sorted_by_key l ≡ₚ l.
Proof. induction l as [|e l IH]; cbn; [done|]. by rewrite insert_by_key_perm, IH. Qed.

Definition key_le {V} (a b : Z * V) : Prop := a.1 <= b.1.

Lemma insert_by_key_sorted {V} (e : Z * V) l : StronglySorted key_le l -> StronglySorted key_le (insert_by_key e l).
Proof.
  induction 1 as [|e' l Hs IH Hall]; cbn; [by repeat constructor|]. case_cmp.
  - constructor; [by constructor|]. constructor; [done|]. eapply Forall_impl; [exact Hall|]. unfold key_le. cbn. intros x Hx. lia.
  - constructor; [done|]. rewrite insert_by_key_perm. constructor; [unfold key_le; lia|done].
Qed.

Lemma sorted_by_key_sorted {V} (l : list (Z * V)) : StronglySorted key_le (sorted_by_key l).
Proof. induction l as [|e l IH]; cbn; [constructor|by apply insert_by_key_sorted]. Qed.

(** Sorting forgets the order of entries with different keys. *)
Lemma sorted_by_key_unique {V} (l1 l2 : list (Z * V)) : NoDup l1.*1 -> l1 ≡ₚ l2 -> sorted_by_key l1 = sorted_by_key l2.
Proof.
  intros Hnd Hp. apply (StronglySorted_unique_strong key_le); [|apply sorted_by_key_sorted..|by rewrite !sorted_by_key_perm].
  intros [k1 v1] [k2 v2] H1 H2 Hle1 Hle2. rewrite sorted_by_key_perm in H1, H2. rewrite <-Hp in H2. unfold key_le in *. cbn in *.
  assert (k1 = k2) as <- by lia. f_equal.
  apply (elem_of_list_to_map_1 (M := gmap Z) _ _ _ Hnd) in H1, H2. congruence.
Qed.

(** The sizes of the parts fit [u64]. *)
Definition fits_u64 {A} (l : list A) : Prop := zlength l < 2 ^ 64.

Definition diff_sized (d : ThinStateDiff) : Prop :=
  fits_u64 (ThinStateDiff_deployed_contracts d ++ ThinStateDiff_replaced_classes d) /\
  fits_u64 (ThinStateDiff_declared_classes d) /\ fits_u64 (ThinStateDiff_deprecated_declared_classes d) /\
  fits_u64 (ThinStateDiff_storage_diffs d) /\ Forall (fun e => fits_u64 e.2) (ThinStateDiff_storage_diffs d) /\
  fits_u64 (ThinStateDiff_nonces d).

Lemma len_felt_inj {A B} (l1 : list A) (l2 : list B) :
  fits_u64 l1 -> fits_u64 l2 -> len_felt (zlength l1) = len_felt (zlength l2) -> length l1 = length l2.
Proof.
  unfold fits_u64, len_felt. intros H1 H2 E. pose proof (zlength_nonneg l1). pose proof (zlength_nonneg l2).
  rewrite !wrap_id in E by (unfold in_range; lia). apply felt_uint_inj in E; unfold in_range, zlength in *; lia.
Qed.

Lemma push_pairs_length l : length (push_pairs l) = (2 * length l)%nat.
Proof.
  induction l as [|[a b] l IH]; [done|]. change (push_pairs ((a, b) :: l)) with (a :: b :: push_pairs l). cbn [length]. rewrite IH. lia.
Qed.

Lemma push_pairs_inj l1 l2 : push_pairs l1 = push_pairs l2 -> l1 = l2.
Proof.
  revert l2; induction l1 as [|[a b] l1 IH]; intros [|[a' b'] l2]; cbn; intros E; try done. injection E as -> -> E. f_equal. by apply IH.
Qed.

Definition storage_entries (s : list (Z * list (Z * Z))) : list Z :=
  s ≫= fun '(contract_address, diffs) => contract_address :: len_felt (zlength diffs) :: push_pairs diffs.

(** The lengths make the entries readable in one way. *)
Lemma storage_entries_inj s1 s2 r1 r2 :
  length s1 = length s2 -> Forall (fun e => fits_u64 e.2) s1 -> Forall (fun e => fits_u64 e.2) s2 ->
  storage_entries s1 ++ r1 = storage_entries s2 ++ r2 -> s1 = s2 /\ r1 = r2.
Proof.
  revert s2; induction s1 as [|[a1 d1] s1 IH]; intros [|[a2 d2] s2] Hl H1 H2 E; try done. cbn in E.
  apply Forall_cons in H1 as [Hd1 H1], H2 as [Hd2 H2]. injection E as -> El E.
  apply len_felt_inj in El; [|done..]. rewrite <-!app_assoc in E.
  apply app_inj_1 in E as [Ed E]; [|by rewrite !push_pairs_length, El]. apply push_pairs_inj in Ed as ->.
  apply IH in E as [-> ->]; [done| |done..]. by injection Hl.
Qed.

(** The lists behind a commitment, the parts first. *)
Definition deployed_felts (d : ThinStateDiff) : list Z :=
  len_felt (zlength (ThinStateDiff_deployed_contracts d ++ ThinStateDiff_replaced_classes d)) ::
  push_pairs (sorted_by_key (ThinStateDiff_deployed_contracts d ++ ThinStateDiff_replaced_classes d)).
Definition declared_felts (d : ThinStateDiff) : list Z :=
  len_felt (zlength (ThinStateDiff_declared_classes d)) :: push_pairs (ThinStateDiff_declared_classes d).
Definition deprecated_felts (d : ThinStateDiff) : list Z :=
  len_felt (zlength (ThinStateDiff_deprecated_declared_classes d)) :: ThinStateDiff_deprecated_declared_classes d.
Definition domain_felts (d : ThinStateDiff) : list Z :=
  flattened_storage_diffs (ThinStateDiff_storage_diffs d) ++
  len_felt (zlength (ThinStateDiff_nonces d)) :: push_pairs (ThinStateDiff_nonces d).
Definition total_felts (d : ThinStateDiff) : list Z :=
  [0; poseidon_hash_array (deployed_felts d); poseidon_hash_array (declared_felts d); poseidon_hash_array (deprecated_felts d);
   len_felt 1; felt_from_da_mode DataAvailabilityMode_L1; poseidon_hash_array (domain_felts d)].

Lemma commitment_run {E} d log :
  calculate_state_diff_commitment (E := E) d StateDiffVersion_V0 log =
  Done (Query_Poseidon (total_felts d) :: Query_Poseidon (domain_felts d) :: Query_Poseidon (deprecated_felts d) ::
        Query_Poseidon (declared_felts d) :: Query_Poseidon (deployed_felts d) :: log) (poseidon_hash_array (total_felts d)).
Proof. unfold total_felts, deployed_felts. rewrite zlength_app. reflexivity. Qed.

(** What two state diffs with one commitment share. *)
Definition same_diff (d1 d2 : ThinStateDiff) : Prop :=
  ThinStateDiff_deployed_contracts d1 ++ ThinStateDiff_replaced_classes d1 ≡ₚ
    ThinStateDiff_deployed_contracts d2 ++ ThinStateDiff_replaced_classes d2 /\
  ThinStateDiff_declared_classes d1 = ThinStateDiff_declared_classes d2 /\
  ThinStateDiff_deprecated_declared_classes d1 = ThinStateDiff_deprecated_declared_classes d2 /\
  ThinStateDiff_storage_diffs d1 = ThinStateDiff_storage_diffs d2 /\ ThinStateDiff_nonces d1 = ThinStateDiff_nonces d2.

Lemma domain_felts_inj d1 d2 : diff_sized d1 -> diff_sized d2 -> domain_felts d1 = domain_felts d2 ->
  ThinStateDiff_storage_diffs d1 = ThinStateDiff_storage_diffs d2 /\ ThinStateDiff_nonces d1 = ThinStateDiff_nonces d2.
Proof.
  intros (_ & _ & _ & Hs1 & He1 & Hn1) (_ & _ & _ & Hs2 & He2 & Hn2) E. unfold domain_felts, flattened_storage_diffs in E.
  cbn [app] in E. injection E as El E. apply len_felt_inj in El; [|done..].
  apply storage_entries_inj in E as [-> E]; [|done..]. injection E as _ E. by apply push_pairs_inj in E.
Qed.

(** C21: The commitment of a state diff: two diffs have the same one exactly when they
    declare the same classes, write the same storage and nonces in the same order,
    and set the classes of the same contracts, in any order and whether deployed or
    replaced; unless the lists hashed collide. *)
Theorem state_diff_commitment_exact (E : Type) d1 d2 log1 log2 h1 h2 :
  diff_sized d1 -> diff_sized d2 ->
  NoDup (ThinStateDiff_deployed_contracts d1 ++ ThinStateDiff_replaced_classes d1).*1 ->
  calculate_state_diff_commitment (E := E) d1 StateDiffVersion_V0 [] = Done log1 h1 ->
  calculate_state_diff_commitment (E := E) d2 StateDiffVersion_V0 [] = Done log2 h2 ->
  collision_free (log1 ++ log2) -> h1 = h2 <-> same_diff d1 d2.
Proof.
  intros Hs1 Hs2 Hnd H1 H2 Hc. rewrite commitment_run in H1, H2. injection H1 as <- <-. injection H2 as <- <-. split.
  - intros E12. pose proof (fun l1 l2 => collision_free_poseidon _ l1 l2 Hc) as Hinj.
    apply Hinj in E12; [|rewrite ?elem_of_app, ?elem_of_cons; tauto..]. injection E12 as Ed Ec Eo Es.
    apply Hinj in Ed, Ec, Eo, Es; try (rewrite ?elem_of_app, ?elem_of_cons; tauto).
    apply domain_felts_inj in Es as [Es En]; [|done..]. injection Ed as _ Ed. injection Ec as _ Ec. injection Eo as _ Eo.
    apply push_pairs_inj in Ed, Ec. unfold same_diff. split_and!; try done. by rewrite <-sorted_by_key_perm, Ed, sorted_by_key_perm.
  - intros (Hp & Ec & Eo & Es & En). unfold total_felts, deployed_felts, declared_felts, deprecated_felts, domain_felts.
    rewrite (sorted_by_key_unique _ _ Hnd Hp), Ec, Eo, Es, En. unfold zlength. by rewrite Hp.
Qed.
End StateDiffCommitment.

(** ** Bodies *)

Section BodyCommitment.
Context {F : FeltApi} {HC : HashCrates}.

(** A computation that only adds queries. *)
Definition grows {A} (P : A -> list HashQuery -> Prop) {E} (m : Hashing E A) : Prop :=
  forall log log' a, m log = Done log' a -> log ⊆ log' /\ P a log'.

Definition monotone {A} (P : A -> list HashQuery -> Prop) : Prop := forall a log log', P a log -> log ⊆ log' -> P a log'.

Lemma map_hashing_grows {E A B} (f : A -> Hashing E B) (P : A -> B -> list HashQuery -> Prop) l :
  (forall a, monotone (P a)) -> (forall a, grows (P a) (f a)) ->
  grows (fun bs log => Forall2 (fun a b => P a b log) l bs) (map_hashing f l).
Proof.
  intros Hm Hf. induction l as [|a l IH]; intros log log' bs H; cbn [map_hashing] in H; inv_run; [by split; [|constructor]|].
  match goal with H1 : f _ _ = Done _ _, H2 : map_hashing _ _ _ = Done _ _ |- _ =>
    apply Hf in H1 as [S1 P1]; apply IH in H2 as [S2 P2] end.
  split; [set_solver|]. constructor; [by eapply Hm|done].
Qed.

(** The signature that a version commits to: from version 3 on every transaction that
    an account signs, before only invoke transactions. *)
Definition covered_signature (v : BlockHashVersion) (tx : Transaction) : list Z :=
  match v, tx with
  | _, Transaction_Invoke invoke => invoke_signature invoke
  | BlockHashVersion_V3, Transaction_Declare declare => declare_signature declare
  | BlockHashVersion_V3, Transaction_DeployAccount (DeployAccountTransaction_V1 deploy) => DeployAccountTransactionV1_signature deploy
  | BlockHashVersion_V3, Transaction_DeployAccount (DeployAccountTransaction_V3 deploy) => DeployAccountTransactionV3_signature deploy
  | _, _ => []
  end.

(** The commitments of a body in a version: the roots over the leaves of its
    transactions and of its events; version 0 has no commitment to events. *)
Definition transactions_root (v : BlockHashVersion) (body : BlockBody) : Z :=
  calculate_root ((fun th => pedersen_hash th.2 (pedersen_hash_array (covered_signature v th.1))) <$>
    zip (BlockBody_transactions body) (BlockBody_transaction_hashes body)).

Definition event_felts (e : Event) : list Z :=
  [Event_from_address e; pedersen_hash_array (EventContent_keys (Event_content e)); pedersen_hash_array (EventContent_data (Event_content e))].

Definition body_events (body : BlockBody) : list Event := BlockBody_transaction_outputs body ≫= TransactionOutput_events.

Definition events_root (v : BlockHashVersion) (body : BlockBody) : Z :=
  match v with
  | BlockHashVersion_V0 => ZERO
  | _ => calculate_root (pedersen_hash_array ∘ event_felts <$> body_events body)
  end.

Definition commits_in (body : BlockBody) (tc ec : Z) (v : BlockHashVersion) : Prop :=
  transactions_root v body = tc /\ events_root v body = ec.

(** The newest version in which a body has two given commitments. *)
Definition accepting_version (body : BlockBody) (tc ec : Z) : option BlockHashVersion :=
  head (filter (commits_in body tc ec) [BlockHashVersion_V3; BlockHashVersion_V2; BlockHashVersion_V1; BlockHashVersion_V0]).

Lemma covered_signature_code v tx :
  covered_signature v tx =
  if block_hash_version_ge v BlockHashVersion_V3 then get_transaction_signature tx else get_signature_only_from_invoke tx.
Proof. by destruct v, tx as [|?|[]| |]. Qed.

Definition transaction_leaf (v : BlockHashVersion) (th : Transaction * Z) (leaf : Z) (log : list HashQuery) : Prop :=
  let sig_hash := pedersen_hash_array (covered_signature v th.1) in
  leaf = pedersen_hash th.2 sig_hash /\ Query_PedersenPair th.2 sig_hash ∈ log /\ Query_Pedersen (covered_signature v th.1) ∈ log.

Lemma transaction_leaf_grows v th :
  grows (transaction_leaf v th) (let '(tx, h) := th in get_transaction_leaf tx h v).
Proof.
  destruct th as [tx h]. intros log log' leaf H. unfold get_transaction_leaf, get_pedersen_hash in H.
  rewrite <-covered_signature_code in H. inv_run.
  match goal with H : pedersen_array _ _ = Done _ _ |- _ => apply pedersen_array_Done in H as [-> ->] end.
  rewrite elements_chain_iter. unfold transaction_leaf. cbn. set_solver.
Qed.

Definition event_leaf (e : Event) (leaf : Z) (log : list HashQuery) : Prop :=
  leaf = pedersen_hash_array (event_felts e) /\ Query_Pedersen (event_felts e) ∈ log /\
  Query_Pedersen (EventContent_keys (Event_content e)) ∈ log /\ Query_Pedersen (EventContent_data (Event_content e)) ∈ log.

Lemma event_leaf_grows {E} e : grows (event_leaf e) (get_event_leaf (E := E) e).
Proof.
  intros log log' leaf H. unfold get_event_leaf, get_pedersen_hash in H. inv_run.
  repeat match goal with H : pedersen_array _ _ = Done _ _ |- _ => apply pedersen_array_Done in H as [-> ->] end.
  rewrite !elements_chain_iter. unfold event_leaf, event_felts. cbn. set_solver.
Qed.

Lemma pedersen_root_Done {E} leaves log log' r :
  pedersen_root (E := E) leaves log = Done log' r -> log' = Query_PedersenRoot leaves :: log /\ r = calculate_root leaves.
Proof. by intros [= <- <-]. Qed.

(** The leaves behind a commitment to transactions, and to events. *)
Definition commits_transactions (v : BlockHashVersion) (body : BlockBody) (r : Z) (log : list HashQuery) : Prop :=
  exists leaves, r = calculate_root leaves /\ Query_PedersenRoot leaves ∈ log /\
    Forall2 (fun th leaf => transaction_leaf v th leaf log) (zip (BlockBody_transactions body) (BlockBody_transaction_hashes body)) leaves.

Definition commits_events (v : BlockHashVersion) (body : BlockBody) (r : Z) (log : list HashQuery) : Prop :=
  v = BlockHashVersion_V0 /\ r = ZERO \/
  v <> BlockHashVersion_V0 /\ exists leaves, r = calculate_root leaves /\ Query_PedersenRoot leaves ∈ log /\
    Forall2 (fun e leaf => event_leaf e leaf log) (body_events body) leaves.

Lemma commits_transactions_root v body r log : commits_transactions v body r log -> transactions_root v body = r.
Proof.
  intros (leaves & -> & _ & Hl). unfold transactions_root. f_equal.
  induction Hl as [|th leaf l leaves (-> & _) _ IH]; cbn; [done|by rewrite IH].
Qed.

Lemma commits_events_root v body r log : commits_events v body r log -> events_root v body = r.
Proof.
  intros [[-> ->]|(Hv & leaves & -> & _ & Hl)]; [done|].
  assert (calculate_root (pedersen_hash_array ∘ event_felts <$> body_events body) = calculate_root leaves) as <-; [|by destruct v].
  f_equal. induction Hl as [|e leaf l leaves (-> & _) _ IH]; cbn; [done|by rewrite IH].
Qed.

Lemma transaction_leaf_monotone v th : monotone (transaction_leaf v th).
Proof. intros leaf log log' (? & ? & ?) Hs. unfold transaction_leaf. set_solver. Qed.

Lemma event_leaf_monotone e : monotone (event_leaf e).
Proof. intros leaf log log' (? & ? & ? & ?) Hs. unfold event_leaf. set_solver. Qed.

Lemma transaction_commitment_grows body v : grows (commits_transactions v body) (calculate_transaction_commitment_by_version body v).
Proof.
  intros log log' r H. unfold calculate_transaction_commitment_by_version in H. inv_run.
  apply pedersen_root_Done in H as [-> ->]. unfold map_err in *.
  destruct (map_hashing _ _ log) as [log1 leaves|log1 e|] eqn:Em; try done. simplify_eq.
  apply (map_hashing_grows _ (transaction_leaf v)) in Em as [Hs Hl]; [|apply transaction_leaf_monotone|apply transaction_leaf_grows].
  split; [set_solver|]. eexists. split; [done|]. split; [left|].
  eapply Forall2_impl; [exact Hl|]. intros th leaf Hleaf. eapply transaction_leaf_monotone; [exact Hleaf|set_solver].
Qed.

Lemma event_commitment_grows {E} body v :
  grows (commits_events v body) (calculate_event_commitment_by_version (E := E) (BlockBody_transaction_outputs body) v).
Proof.
  intros log log' r H. unfold calculate_event_commitment_by_version in H.
  destruct (block_hash_version_ge v BlockHashVersion_V1) eqn:Hv; cbn [negb] in H; inv_run.
  - apply pedersen_root_Done in H as [-> ->].
    match goal with H : map_hashing _ _ _ = Done _ _ |- _ =>
      apply (map_hashing_grows _ event_leaf) in H as [Hs Hl]; [|apply event_leaf_monotone|apply event_leaf_grows] end.
    split; [set_solver|]. right. split; [by destruct v|]. eexists. split; [done|]. split; [left|].
    eapply Forall2_impl; [exact Hl|]. intros e leaf Hleaf. eapply event_leaf_monotone; [exact Hleaf|set_solver].
  - split; [done|]. left. by destruct v.
Qed.

(** The loop accepts a body by the first version tried in which it has both
    commitments, having hashed its leaves in that version. *)
Lemma validate_body_loop_true body tc ec vs log log' :
  validate_body_loop body tc ec vs log = Done log' true ->
  log ⊆ log' /\ exists v, head (filter (commits_in body tc ec) vs) = Some v /\ commits_transactions v body tc log' /\ commits_events v body ec log'.
Proof.
  revert log. induction vs as [|v vs IH]; intros log H; [done|]. cbn [validate_body_loop] in H. inv_run.
  match goal with H : calculate_transaction_commitment_by_version _ _ _ = Done _ _ |- _ => apply transaction_commitment_grows in H as [Hs Ht] end.
  pose proof (commits_transactions_root _ _ _ _ Ht) as Er.
  destruct (Z.eqb_spec a tc) as [-> |Hne]; cbn [negb] in H;
    [|rewrite filter_cons_False by (unfold commits_in; naive_solver); apply IH in H as [? ?]; split; [set_solver|done]].
  inv_run. match goal with H : calculate_event_commitment_by_version _ _ _ = Done _ _ |- _ => apply event_commitment_grows in H as [Hs' He] end.
  pose proof (commits_events_root _ _ _ _ He) as Ee.
  destruct (Z.eqb_spec a ec) as [-> |Hne]; cbn [negb] in H;
    [|rewrite filter_cons_False by (unfold commits_in; naive_solver); apply IH in H as [? ?]; split; [set_solver|done]].
  inv_run. split; [set_solver|]. exists v. rewrite filter_cons_True by done. split; [done|]. split; [|done].
  destruct Ht as (leaves & -> & Hq & Hl). exists leaves. split; [done|]. split; [set_solver|].
  eapply Forall2_impl; [exact Hl|]. intros th leaf Hleaf. eapply transaction_leaf_monotone; [exact Hleaf|set_solver].
Qed.

(** Equal leaves have equal contents. *)
Lemma transaction_leaves_inj log v1 v2 l1 l2 leaves :
  collision_free log ->
  Forall2 (fun th leaf => transaction_leaf v1 th leaf log) l1 leaves ->
  Forall2 (fun th leaf => transaction_leaf v2 th leaf log) l2 leaves ->
  l1.*2 = l2.*2 /\ covered_signature v1 <$> l1.*1 = covered_signature v2 <$> l2.*1.
Proof.
  intros Hc H1. revert l2. induction H1 as [|[t1 h1] leaf l1 leaves (E1 & P1 & S1) H1 IH]; intros l2 H2; inversion H2 as [|[t2 h2] ? l2' ? (E2 & P2 & S2) H2' Ea Eb];
    subst; [done|]. cbn in *. apply IH in H2' as [Eh Es]. specialize (Hc _ _ P1 P2 E2) as Epair. injection Epair as -> Esig.
  apply (Hc _ _ S1 S2) in Esig. injection Esig as Esig. cbn. split; congruence.
Qed.

Lemma event_leaves_inj log l1 l2 leaves :
  collision_free log -> Forall2 (fun e leaf => event_leaf e leaf log) l1 leaves -> Forall2 (fun e leaf => event_leaf e leaf log) l2 leaves ->
  l1 = l2.
Proof.
  intros Hc H1. revert l2. induction H1 as [|e1 leaf l1 leaves (E1 & P1 & K1 & D1) H1 IH]; intros l2 H2;
    inversion H2 as [|e2 ? l2' ? (E2 & P2 & K2 & D2) H2' Ea Eb]; subst; [done|]. apply IH in H2' as ->. f_equal.
  specialize (Hc _ _ P1 P2 E2) as El. injection El as Ea Ek Ed. apply (Hc _ _ K1 K2) in Ek. apply (Hc _ _ D1 D2) in Ed.
  injection Ek as Ek. injection Ed as Ed. destruct e1 as [? []], e2 as [? []]. cbn in *. congruence.
Qed.

(** C34: Two bodies accepted for the same commitments are accepted by the newest
    versions in which they have these commitments (the roots over the leaves of the
    transactions, a transaction hash and a signature each, and of the events), have
    the same transaction hashes in the same order, agree on the signatures that
    these versions cover (all of them by version 3, of invoke transactions only
    before), and have the same events in the same order unless the commitment to
    the events is the constant of version 0; if no two of the inputs hashed
    collide. *)
Theorem validated_bodies_agree b1 b2 tc ec log1 log2 :
  length (BlockBody_transactions b1) = length (BlockBody_transaction_hashes b1) ->
  length (BlockBody_transactions b2) = length (BlockBody_transaction_hashes b2) ->
  validate_body b1 tc ec [] = Done log1 true -> validate_body b2 tc ec [] = Done log2 true -> collision_free (log1 ++ log2) ->
  exists v1 v2, accepting_version b1 tc ec = Some v1 /\ accepting_version b2 tc ec = Some v2 /\
    BlockBody_transaction_hashes b1 = BlockBody_transaction_hashes b2 /\
    covered_signature v1 <$> BlockBody_transactions b1 = covered_signature v2 <$> BlockBody_transactions b2 /\
    (ec <> ZERO -> body_events b1 = body_events b2).
Proof.
  intros L1 L2 H1 H2 Hc. apply validate_body_loop_true in H1 as (_ & v1 & A1 & (leaves1 & Er1 & Q1 & T1) & E1).
  apply validate_body_loop_true in H2 as (_ & v2 & A2 & (leaves2 & Er & Q2 & T2) & E2).
  rewrite Er1 in Er.
  assert (S1 : log1 ⊆ log1 ++ log2) by set_solver. assert (S2 : log2 ⊆ log1 ++ log2) by set_solver.
  specialize (Hc _ _ (S1 _ Q1) (S2 _ Q2) Er) as El. injection El as <-.
  eapply (Forall2_impl _ (fun th leaf => transaction_leaf v1 th leaf (log1 ++ log2))) in T1;
    [|intros; by eapply transaction_leaf_monotone].
  eapply (Forall2_impl _ (fun th leaf => transaction_leaf v2 th leaf (log1 ++ log2))) in T2;
    [|intros; by eapply transaction_leaf_monotone].
  destruct (transaction_leaves_inj _ v1 v2 _ _ leaves1 Hc T1 T2) as [Eh Es].
  rewrite !snd_zip, !fst_zip in * by lia. exists v1, v2. do 4 (split; [done|]). intros Hec.
  destruct E1 as [[_ ?]|(_ & evs1 & Ee1 & Q3 & V1)], E2 as [[_ ?]|(_ & evs2 & Ee2 & Q4 & V2)]; try done.
  rewrite Ee1 in Ee2. specialize (Hc _ _ (S1 _ Q3) (S2 _ Q4) Ee2) as El. injection El as <-.
  eapply (event_leaves_inj _ _ _ evs1 Hc).
  - eapply Forall2_impl; [exact V1|]. intros e leaf Hleaf. by eapply event_leaf_monotone; [exact Hleaf|].
  - eapply Forall2_impl; [exact V2|]. intros e leaf Hleaf. by eapply event_leaf_monotone; [exact Hleaf|].
Qed.
End BodyCommitment.

(** ** Classes *)

Section ClassHash.
Context {F : FeltApi} {FS : FeltSpec} {HC : HashCrates}.

(** The entry points of a type: none when the type has no list. *)
Definition entry_points (class : ContractClass) (t : EntryPointType) : list EntryPoint :=
  default [] (ContractClass_entry_points_by_type class !! t).

Definition indices_typed (class : ContractClass) : Prop :=
  forall t, Forall (fun ep => in_range 64 (EntryPoint_function_idx ep)) (entry_points class t).

Definition entry_felts (eps : list EntryPoint) : list Z :=
  push_pairs ((fun ep => (EntryPoint_selector ep, felt_from_uint (EntryPoint_function_idx ep))) <$> eps).

Lemma entry_points_hash_run {E} class t log : indices_typed class ->
  entry_points_hash (E := E) class t log =
  Done (Query_Poseidon (entry_felts (entry_points class t)) :: log) (poseidon_hash_array (entry_felts (entry_points class t))).
Proof.
  intros Ht. specialize (Ht t). unfold entry_points_hash. fold (entry_points class t).
  assert (Hm : map_hashing (E := E) (fun ep => let! idx := usize_into_felt (EntryPoint_function_idx ep) in ret [EntryPoint_selector ep; idx])
      (entry_points class t) log =
    Done log ((fun ep => [EntryPoint_selector ep; felt_from_uint (EntryPoint_function_idx ep)]) <$> entry_points class t)).
  { induction Ht as [|ep eps Hep Heps IH]; [done|]. cbn [map_hashing fmap list_fmap]. rewrite bind_assoc.
    rewrite (bind_step _ _ _ _ _ (usize_into_felt_run _ log Hep)). rewrite bind_ret. by rewrite (bind_step _ _ _ _ _ IH). }
  rewrite (bind_step _ _ _ _ _ Hm). cbn.
  assert (Hf : concat ((fun ep => [EntryPoint_selector ep; felt_from_uint (EntryPoint_function_idx ep)]) <$> entry_points class t) =
    entry_felts (entry_points class t)) by (unfold entry_felts; clear; induction (entry_points class t) as [|ep eps IH]; cbn; [done|by do 2 f_equal]).
  unfold poseidon_array, bind, modify, ret. by rewrite Hf.
Qed.

Lemma entry_felts_inj eps1 eps2 :
  Forall (fun ep => in_range 64 (EntryPoint_function_idx ep)) eps1 -> Forall (fun ep => in_range 64 (EntryPoint_function_idx ep)) eps2 ->
  entry_felts eps1 = entry_felts eps2 -> eps1 = eps2.
Proof.
  intros H1 H2 E. apply push_pairs_inj in E. revert eps2 H2 E.
  induction H1 as [|[i1 s1] eps1 Hi H1 IH]; intros [|[i2 s2] eps2] H2 E; try done. apply Forall_cons in H2 as [Hi2 H2]. cbn in *.
  injection E as -> Ei E. apply felt_uint_inj in Ei as ->; [|unfold in_range in *; lia..]. f_equal. by apply IH.
Qed.

(** Two classes with one hash have the same program, the same ABI and the same entry
    points of every type; unless the inputs hashed collide, where the hash of the ABI
    is the 250 bits of its Keccak hash that are kept. *)
Theorem class_hash_binds (E : Type) c1 c2 log1 log2 h :
  indices_typed c1 -> indices_typed c2 ->
  calculate_class_hash (E := E) c1 [] = Done log1 h -> calculate_class_hash (E := E) c2 [] = Done log2 h ->
  collision_free (log1 ++ log2) ->
  ContractClass_sierra_program c1 = ContractClass_sierra_program c2 /\ ContractClass_abi c1 = ContractClass_abi c2 /\
  forall t, entry_points c1 t = entry_points c2 t.
Proof.
  intros T1 T2 H1 H2 Hc. unfold calculate_class_hash in H1, H2.
  rewrite !(bind_step _ _ _ _ _ (entry_points_hash_run _ _ _ T1)) in H1. rewrite !(bind_step _ _ _ _ _ (entry_points_hash_run _ _ _ T2)) in H2.
  injection H1 as <- E1. injection H2 as <- E2. rewrite <-E1 in E2. clear E1.
  pose proof (fun l1 l2 => collision_free_poseidon _ l1 l2 Hc) as Hinj.
  assert (Hk : forall d1 d2, Query_Keccak d1 ∈ _ -> Query_Keccak d2 ∈ _ -> truncated_keccak (sha3_keccak256 d1) = truncated_keccak (sha3_keccak256 d2) -> d1 = d2)
    by (intros d1 d2 Hd1 Hd2 E12; by injection (Hc _ _ Hd1 Hd2 E12)).
  apply Hinj in E2; [|rewrite ?elem_of_app, ?elem_of_cons; tauto..]. injection E2 as Ex El Ec Ea Ep.
  apply Hinj in Ex, El, Ec, Ep; try (rewrite ?elem_of_app, ?elem_of_cons; tauto).
  apply Hk in Ea; [|rewrite ?elem_of_app, ?elem_of_cons; tauto..].
  split; [done|]. split; [done|]. intros t. apply entry_felts_inj; [apply T1|apply T2|]. by destruct t.
Qed.
End ClassHash.
