(* ===== verification/PeerManager.v ===== *)
(** * Network: identifiers and events

    [crates/papyrus_network/src/sqmr/mod.rs] and the event types of the
    behaviours ([sqmr/behaviour.rs], [sqmr/handler.rs],
    [peer_manager/behaviour_impl.rs], [discovery/mod.rs], [mixed_behaviour.rs]),
    with the types of libp2p they mention. Peers, addresses, connections and
    topics are identifiers; instants and durations are integers. *)

From stdpp Require Import base gmap list strings fin_maps.
From Stdlib Require Import ZArith Lia.
From S2P Require Import Prelude.

Abbreviation PeerId := Z (only parsing).
Abbreviation Multiaddr := Z (only parsing).
Abbreviation ConnectionId := Z (only parsing).
Abbreviation StreamProtocol := Z (only parsing).
Abbreviation TopicHash := Z (only parsing).
Abbreviation Bytes := (list Z).

(** ** Sessions *)

Record OutboundSessionId : Type := mkOutboundSessionId { OutboundSessionId_value : Z }.
Record InboundSessionId : Type := mkInboundSessionId { InboundSessionId_value : Z }.

Inductive SessionId : Type :=
| SessionId_OutboundSessionId (id : OutboundSessionId)
| SessionId_InboundSessionId (id : InboundSessionId).

#[global] Instance OutboundSessionId_eq_dec : EqDecision OutboundSessionId.
Proof. solve_decision. Defined.
#[global] Instance InboundSessionId_eq_dec : EqDecision InboundSessionId.
Proof. solve_decision. Defined.
#[global] Instance SessionId_eq_dec : EqDecision SessionId.
Proof. solve_decision. Defined.

#[global] Program Instance OutboundSessionId_countable : Countable OutboundSessionId :=
  inj_countable OutboundSessionId_value (fun n => Some (mkOutboundSessionId n)) _.
Next Obligation. by intros []. Qed.
#[global] Program Instance InboundSessionId_countable : Countable InboundSessionId :=
  inj_countable InboundSessionId_value (fun n => Some (mkInboundSessionId n)) _.
Next Obligation. by intros []. Qed.
#[global] Program Instance SessionId_countable : Countable SessionId :=
  inj_countable
    (fun s => match s with SessionId_OutboundSessionId i => inl i | SessionId_InboundSessionId i => inr i end)
    (fun s => Some (match s with inl i => SessionId_OutboundSessionId i | inr i => SessionId_InboundSessionId i end)) _.
Next Obligation. by intros []. Qed.

Coercion SessionId_OutboundSessionId : OutboundSessionId >-> SessionId.
Coercion SessionId_InboundSessionId : InboundSessionId >-> SessionId.

Inductive GenericEvent (SessionError : Type) : Type :=
| NewInboundSession (query : Bytes) (inbound_session_id : InboundSessionId) (peer_id : PeerId) (protocol_name : StreamProtocol)
| ReceivedResponse (outbound_session_id : OutboundSessionId) (response : Bytes) (peer_id : PeerId)
| SessionFailed (session_id : SessionId) (error : SessionError)
| SessionFinishedSuccessfully (session_id : SessionId).

Arguments NewInboundSession {SessionError}.
Arguments ReceivedResponse {SessionError}.
Arguments SessionFailed {SessionError}.
Arguments SessionFinishedSuccessfully {SessionError}.

Record SqmrConfig : Type := mkSqmrConfig { session_timeout : Z }.

(** The errors of reading and writing a stream. *)
Inductive io_Error : Type :=
| io_Error_InvalidData
| io_Error_UnexpectedEof
| io_Error_Other (code : Z).

(** ** libp2p *)

Inductive PeerCondition : Type := PeerCondition_Disconnected | PeerCondition_DisconnectedAndNotDialing | PeerCondition_Always.

Record DialOpts : Type := mkDialOpts {
  DialOpts_peer_id : PeerId;
  DialOpts_addresses : list Multiaddr;
  DialOpts_condition : PeerCondition
}.

(** What a behaviour asks of the swarm: an event for the outside, a dial, or a
    message to the handler of a connection ([NotifyHandler::One]). *)
Inductive ToSwarm (Event HandlerIn : Type) : Type :=
| GenerateEvent (event : Event)
| Dial (opts : DialOpts)
| NotifyHandler (peer_id : PeerId) (connection_id : ConnectionId) (event : HandlerIn).

Arguments GenerateEvent {Event HandlerIn}.
Arguments Dial {Event HandlerIn}.
Arguments NotifyHandler {Event HandlerIn}.

Inductive DialError : Type :=
| DialError_DialPeerConditionFalse (condition : PeerCondition)
| DialError_Other (code : Z).

(** What the swarm tells a behaviour. *)
Inductive FromSwarm : Type :=
| DialFailure (peer_id : option PeerId) (error : DialError) (connection_id : ConnectionId)
| ConnectionEstablished (peer_id : PeerId) (connection_id : ConnectionId)
| ConnectionClosed (peer_id : PeerId) (connection_id : ConnectionId) (remaining_established : Z)
| AddressChange (peer_id : PeerId) (connection_id : ConnectionId)
| FromSwarm_Other.

(** The result of polling. *)
Inductive Poll (A : Type) : Type :=
| Ready (a : A)
| Pending.

Arguments Ready {A}.
Arguments Pending {A}.

(** ** The events of the behaviours *)

(** [peer_manager::ToOtherBehaviourEvent]. *)
Inductive PeerManagerEvent : Type :=
| SessionAssigned (outbound_session_id : OutboundSessionId) (peer_id : PeerId) (connection_id : ConnectionId)
| PauseDiscovery
| ResumeDiscovery.

(** [sqmr::ToOtherBehaviourEvent]. *)
Inductive SqmrInternalEvent : Type :=
| RequestPeerAssignment (outbound_session_id : OutboundSessionId).

(** [discovery::ToOtherBehaviourEvent]. *)
Inductive DiscoveryEvent : Type :=
| RequestKadQuery (peer_id : PeerId)
| DiscoveryFoundListenAddresses (peer_id : PeerId) (listen_addresses : list Multiaddr).

Inductive IdentifyToOtherBehaviourEvent : Type :=
| IdentifyFoundListenAddresses (peer_id : PeerId) (listen_addresses : list Multiaddr).

Inductive KadToOtherBehaviourEvent : Type := KadQueryFinished.

(** [mixed_behaviour::ToOtherBehaviourEvent]. *)
Inductive ToOtherBehaviourEvent : Type :=
| NoOp
| FromIdentify (event : IdentifyToOtherBehaviourEvent)
| FromKad (event : KadToOtherBehaviourEvent)
| FromDiscovery (event : DiscoveryEvent)
| FromPeerManager (event : PeerManagerEvent)
| FromSqmr (event : SqmrInternalEvent).

(** [trait BridgedBehaviour]: what a behaviour does with the events of the others. *)
Class BridgedBehaviour (B Err : Type) : Type := {
  on_other_behaviour_event : ToOtherBehaviourEvent -> M B Err unit
}.

(** * Network: the peer manager

    [crates/papyrus_network/src/peer_manager/]: the peers the node knows, the
    assignment of a peer to each query, and the blocking of peers that
    misbehave. [Instant::now()] is the parameter [clock]: the n-th reading is
    [clock n], and the state counts the readings. A future that sleeps until a
    deadline is the deadline; whether it has fired when it is polled is an
    argument of [poll]. *)

Inductive ReputationModifier : Type := ReputationModifier_Bad.

(** ** Peers *)

(** [trait PeerTrait]. A method that reads the clock has the instant it reads as
    an argument. *)
Class PeerTrait (P : Type) : Type := {
  peer_new : PeerId -> Multiaddr -> P;
  update_reputation : P -> ReputationModifier -> Z -> P;
  peer_id : P -> PeerId;
  multiaddr : P -> Multiaddr;
  set_timeout_duration : P -> Z -> P;
  is_blocked : P -> Z -> bool;
  blocked_until : P -> Z -> Z;
  connection_ids : P -> list ConnectionId;
  add_connection_id : P -> ConnectionId -> P;
  remove_connection_id : P -> ConnectionId -> P
}.

Record Peer : Type := mkPeer {
  Peer_peer_id : PeerId;
  Peer_multiaddr : Multiaddr;
  Peer_timed_out_until : option Z;
  Peer_timeout_duration : option Z;
  Peer_connection_ids : list ConnectionId
}.

Definition Peer_new (peer_id : PeerId) (multiaddr : Multiaddr) : Peer := mkPeer peer_id multiaddr None None [].

Definition Peer_update_reputation (self : Peer) (_reason : ReputationModifier) (now : Z) : Peer :=
  match Peer_timeout_duration self with
  | Some timeout_duration =>
      mkPeer (Peer_peer_id self) (Peer_multiaddr self) (Some (now + timeout_duration)) (Peer_timeout_duration self) (Peer_connection_ids self)
  | None => self
  end.

Definition Peer_set_timeout_duration (self : Peer) (duration : Z) : Peer :=
  mkPeer (Peer_peer_id self) (Peer_multiaddr self) (Peer_timed_out_until self) (Some duration) (Peer_connection_ids self).

Definition Peer_is_blocked (self : Peer) (now : Z) : bool :=
  match Peer_timed_out_until self with
  | Some timed_out_until => now <? timed_out_until
  | None => false
  end.

Definition Peer_blocked_until (self : Peer) (now : Z) : Z :=
  match Peer_timed_out_until self with Some timed_out_until => timed_out_until | None => now end.

Definition Peer_add_connection_id (self : Peer) (connection_id : ConnectionId) : Peer :=
  mkPeer (Peer_peer_id self) (Peer_multiaddr self) (Peer_timed_out_until self) (Peer_timeout_duration self)
    (Peer_connection_ids self ++ [connection_id]).

Definition Peer_remove_connection_id (self : Peer) (connection_id : ConnectionId) : Peer :=
  mkPeer (Peer_peer_id self) (Peer_multiaddr self) (Peer_timed_out_until self) (Peer_timeout_duration self)
    (filter (fun id => id <> connection_id) (Peer_connection_ids self)).

#[global] Instance Peer_trait : PeerTrait Peer := {|
  peer_new := Peer_new;
  update_reputation := Peer_update_reputation;
  peer_id := Peer_peer_id;
  multiaddr := Peer_multiaddr;
  set_timeout_duration := Peer_set_timeout_duration;
  is_blocked := Peer_is_blocked;
  blocked_until := Peer_blocked_until;
  connection_ids := Peer_connection_ids;
  add_connection_id := Peer_add_connection_id;
  remove_connection_id := Peer_remove_connection_id
|}.

(** ** The state *)

Record PeerManagerConfig : Type := mkPeerManagerConfig {
  target_num_for_peers : Z;
  blacklist_timeout : Z
}.

(** A duration is a number of seconds here; the default blocks for a year. *)
Definition default_PeerManagerConfig : PeerManagerConfig := mkPeerManagerConfig 100 (3600 * 24 * 365).

Inductive PeerManagerError : Type :=
| NoSuchPeer (peer_id : PeerId)
| NoSuchSession (outbound_session_id : OutboundSessionId)
| PeerIsBlocked (peer_id : PeerId).

(** The handler of the peer manager takes no message. *)
Abbreviation PeerManagerToSwarm := (ToSwarm PeerManagerEvent Empty_set).

Record PeerManager (P : Type) : Type := mkPeerManager {
  peers : gmap PeerId P;
  session_to_peer_map : gmap OutboundSessionId PeerId;
  config : PeerManagerConfig;
  last_peer_index : nat;
  pending_events : list PeerManagerToSwarm;
  peers_pending_dial_with_sessions : gmap PeerId (list OutboundSessionId);
  sessions_received_when_no_peers : list OutboundSessionId;
  sleep_waiting_for_unblocked_peer : option Z;
  clock_readings : nat
}.

Arguments mkPeerManager {P}.
Arguments peers {P}.
Arguments session_to_peer_map {P}.
Arguments config {P}.
Arguments last_peer_index {P}.
Arguments pending_events {P}.
Arguments peers_pending_dial_with_sessions {P}.
Arguments sessions_received_when_no_peers {P}.
Arguments sleep_waiting_for_unblocked_peer {P}.
Arguments clock_readings {P}.

Section Setters.
Context {P : Type}.
Implicit Types s : PeerManager P.

Definition set_peers x s : PeerManager P := mkPeerManager x (session_to_peer_map s) (config s) (last_peer_index s) (pending_events s)
  (peers_pending_dial_with_sessions s) (sessions_received_when_no_peers s) (sleep_waiting_for_unblocked_peer s) (clock_readings s).
Definition set_session_to_peer_map x s : PeerManager P := mkPeerManager (peers s) x (config s) (last_peer_index s) (pending_events s)
  (peers_pending_dial_with_sessions s) (sessions_received_when_no_peers s) (sleep_waiting_for_unblocked_peer s) (clock_readings s).
Definition set_last_peer_index x s : PeerManager P := mkPeerManager (peers s) (session_to_peer_map s) (config s) x (pending_events s)
  (peers_pending_dial_with_sessions s) (sessions_received_when_no_peers s) (sleep_waiting_for_unblocked_peer s) (clock_readings s).
Definition set_pending_events x s : PeerManager P := mkPeerManager (peers s) (session_to_peer_map s) (config s) (last_peer_index s) x
  (peers_pending_dial_with_sessions s) (sessions_received_when_no_peers s) (sleep_waiting_for_unblocked_peer s) (clock_readings s).
Definition set_pending_dials x s : PeerManager P := mkPeerManager (peers s) (session_to_peer_map s) (config s) (last_peer_index s) (pending_events s)
  x (sessions_received_when_no_peers s) (sleep_waiting_for_unblocked_peer s) (clock_readings s).
Definition set_waiting x s : PeerManager P := mkPeerManager (peers s) (session_to_peer_map s) (config s) (last_peer_index s) (pending_events s)
  (peers_pending_dial_with_sessions s) x (sleep_waiting_for_unblocked_peer s) (clock_readings s).
Definition set_sleep x s : PeerManager P := mkPeerManager (peers s) (session_to_peer_map s) (config s) (last_peer_index s) (pending_events s)
  (peers_pending_dial_with_sessions s) (sessions_received_when_no_peers s) x (clock_readings s).
Definition set_clock_readings x s : PeerManager P := mkPeerManager (peers s) (session_to_peer_map s) (config s) (last_peer_index s) (pending_events s)
  (peers_pending_dial_with_sessions s) (sessions_received_when_no_peers s) (sleep_waiting_for_unblocked_peer s) x.

End Setters.

(** ** The operations *)

Section PeerManager.
Context {P : Type} {PT : PeerTrait P} {HM : HashMapIter} (clock : nat -> Z).

Abbreviation PM := (M (PeerManager P) PeerManagerError).

Definition PeerManager_new (config : PeerManagerConfig) : PeerManager P :=
  mkPeerManager ∅ ∅ config 0 [] ∅ [] None 0.

(** [Instant::now()]. *)
Definition instant_now : PM Z :=
  let! self := get in
  modify (set_clock_readings (S (clock_readings self))) ;!
  ret (clock (clock_readings self)).

Definition push_event (event : PeerManagerToSwarm) : PM unit :=
  modify (fun self => set_pending_events (pending_events self ++ [event]) self).

(** [iter().find(|(_, peer)| !peer.is_blocked())]. *)
Fixpoint find_unblocked (l : list (PeerId * P)) : PM (option (PeerId * P)) :=
  match l with
  | [] => ret None
  | (id, peer) :: l' =>
      let! now := instant_now in
      if is_blocked peer now then find_unblocked l' else ret (Some (id, peer))
  end.

(** [values().map(|peer| peer.blocked_until()).min()]. *)
Fixpoint min_blocked_until (l : list (PeerId * P)) : PM (option Z) :=
  match l with
  | [] => ret None
  | (_, peer) :: l' =>
      let! now := instant_now in
      let! rest := min_blocked_until l' in
      ret (Some (match rest with Some t => Z.min (blocked_until peer now) t | None => blocked_until peer now end))
  end.

Definition assign_peer_to_session (outbound_session_id : OutboundSessionId) : PM (option PeerId) :=
  let! self := get in
  if decide (peers self = ∅) then
    modify (set_waiting (sessions_received_when_no_peers self ++ [outbound_session_id])) ;!
    ret None
  else
    let iter := hm_iter (peers self) in
    let! found := find_unblocked (drop (last_peer_index self) iter) in
    let! peer := match found with
                 | Some entry => ret (Some entry)
                 | None => find_unblocked (take (last_peer_index self) iter)
                 end in
    modify (set_last_peer_index ((last_peer_index self + 1) mod size (peers self))%nat) ;!
    match peer with
    | None =>
        modify (set_waiting (sessions_received_when_no_peers self ++ [outbound_session_id])) ;!
        let! deadlines := min_blocked_until iter in
        let! sleep_deadline := expect deadlines in
        modify (set_sleep (Some sleep_deadline)) ;!
        ret None
    | Some (id, peer) =>
        modify (set_session_to_peer_map (<[outbound_session_id := id]> (session_to_peer_map self))) ;!
        match connection_ids peer with
        | connection_id :: _ =>
            push_event (GenerateEvent (SessionAssigned outbound_session_id id connection_id)) ;!
            ret (Some id)
        | [] =>
            modify (set_pending_dials
              (match peers_pending_dial_with_sessions self !! id with
               | Some sessions => <[id := sessions ++ [outbound_session_id]]> (peers_pending_dial_with_sessions self)
               | None => <[id := [outbound_session_id]]> (peers_pending_dial_with_sessions self)
               end)) ;!
            push_event (Dial (mkDialOpts id [multiaddr peer] PeerCondition_Always)) ;!
            ret (Some id)
        end
    end.

(** [for outbound_session_id in take(&mut self.sessions_received_when_no_peers)]. *)
Definition assign_waiting_sessions : PM unit :=
  let! self := get in
  modify (set_waiting []) ;!
  for_each (sessions_received_when_no_peers self) (fun outbound_session_id =>
    assign_peer_to_session outbound_session_id ;! ret tt).

Definition add_peer (peer : P) : PM unit :=
  let! self := get in
  let peer := set_timeout_duration peer (blacklist_timeout (config self)) in
  modify (set_peers (<[peer_id peer := peer]> (peers self))) ;!
  modify (set_sleep None) ;!
  assign_waiting_sessions.

Definition report_peer (id : PeerId) (reason : ReputationModifier) : PM unit :=
  let! self := get in
  match peers self !! id with
  | Some peer =>
      let! now := instant_now in
      modify (set_peers (<[id := update_reputation peer reason now]> (peers self)))
  | None => raise (NoSuchPeer id)
  end.

Definition report_session (outbound_session_id : OutboundSessionId) (reason : ReputationModifier) : PM unit :=
  let! self := get in
  match session_to_peer_map self !! outbound_session_id with
  | Some id =>
      match peers self !! id with
      | Some peer =>
          let! now := instant_now in
          modify (set_peers (<[id := update_reputation peer reason now]> (peers self)))
      | None => raise (NoSuchPeer id)
      end
  | None => raise (NoSuchSession outbound_session_id)
  end.

Definition more_peers_needed (self : PeerManager P) : bool :=
  Z.of_nat (size (peers self)) <? target_num_for_peers (config self).

(** The arm of [FoundListenAddresses]. *)
Definition found_listen_addresses (id : PeerId) (listen_addresses : list Multiaddr) : PM unit :=
  let! self := get in
  match peers self !! id, listen_addresses with
  | Some _, _ => ret tt
  | None, [] => ret tt
  | None, address :: _ =>
      add_peer (peer_new id address) ;!
      let! self := get in
      if negb (more_peers_needed self) then push_event (GenerateEvent PauseDiscovery) else ret tt
  end.

#[export] Instance PeerManager_bridged : BridgedBehaviour (PeerManager P) PeerManagerError := {|
  on_other_behaviour_event := fun event =>
    match event with
    | FromSqmr (RequestPeerAssignment outbound_session_id) =>
        assign_peer_to_session outbound_session_id ;! ret tt
    | FromIdentify (IdentifyFoundListenAddresses id listen_addresses)
    | FromDiscovery (DiscoveryFoundListenAddresses id listen_addresses) =>
        found_listen_addresses id listen_addresses
    | _ => ret tt
    end
|}.

(** *** [NetworkBehaviour] *)

(** [peers.iter().find(|(peer_id, peer)| *peer_id == &inbound_peer_id && peer.is_blocked())]. *)
Fixpoint find_blocked (inbound_peer_id : PeerId) (l : list (PeerId * P)) : PM bool :=
  match l with
  | [] => ret false
  | (id, peer) :: l' =>
      if id =? inbound_peer_id then
        let! now := instant_now in
        if is_blocked peer now then ret true else find_blocked inbound_peer_id l'
      else find_blocked inbound_peer_id l'
  end.

Definition pm_handle_established_inbound_connection (inbound_peer_id : PeerId) : PM unit :=
  let! self := get in
  let! blocked := find_blocked inbound_peer_id (hm_iter (peers self)) in
  if blocked then raise (PeerIsBlocked inbound_peer_id) else ret tt.

(** A [Result] that is only logged. *)
Definition ignore_err {A} (m : PM A) : PM unit :=
  fun s => match m s with Done s' _ => Done s' tt | Fail s' _ => Done s' tt | Panic => Panic end.

(** The arm of [DialFailure]. *)
Definition on_dial_failure (id : PeerId) (error : DialError) : PM unit :=
  match error with
  | DialError_DialPeerConditionFalse _ => ret tt
  | _ =>
      ignore_err (report_peer id ReputationModifier_Bad) ;!
      let! self := get in
      let queries_to_assign := (filter (fun e => e.2 = id) (hm_iter (session_to_peer_map self))).*1 in
      for_each queries_to_assign (fun outbound_session_id => assign_peer_to_session outbound_session_id ;! ret tt)
  end.

(** The arm of [ConnectionEstablished]. *)
Definition on_connection_established (id : PeerId) (connection_id : ConnectionId) : PM unit :=
  let! self := get in
  match peers_pending_dial_with_sessions self !! id with
  | Some sessions =>
      modify (set_pending_dials (delete id (peers_pending_dial_with_sessions self))) ;!
      modify (set_pending_events (pending_events self ++
        ((fun outbound_session_id => GenerateEvent (SessionAssigned outbound_session_id id connection_id)) <$> sessions))) ;!
      let! peer := expect (peers self !! id) in
      modify (set_peers (<[id := add_connection_id peer connection_id]> (peers self)))
  | None =>
      match peers self !! id with
      | None => ret tt
      | Some peer => modify (set_peers (<[id := add_connection_id peer connection_id]> (peers self)))
      end
  end.

(** The arm of [ConnectionClosed]. *)
Definition on_connection_closed (id : PeerId) (connection_id : ConnectionId) : PM unit :=
  let! self := get in
  match peers self !! id with
  | Some peer =>
      if decide (connection_id ∈ connection_ids peer) then
        modify (set_peers (<[id := remove_connection_id peer connection_id]> (peers self)))
      else ret tt
  | None => ret tt
  end.

Definition pm_on_swarm_event (event : FromSwarm) : PM unit :=
  match event with
  | DialFailure (Some id) error _ => on_dial_failure id error
  | ConnectionEstablished id connection_id => on_connection_established id connection_id
  | ConnectionClosed id connection_id _ => on_connection_closed id connection_id
  | _ => ret tt
  end.

(** [Vec::pop]: the last event. *)
Definition pop_event : PM (Poll PeerManagerToSwarm) :=
  let! self := get in
  match last (pending_events self) with
  | Some event =>
      modify (set_pending_events (take (length (pending_events self) - 1) (pending_events self))) ;! ret (Ready event)
  | None => ret Pending
  end.

(** [elapsed] says whether a sleep until a deadline has completed when it is polled. *)
Definition pm_poll (elapsed : Z -> bool) : PM (Poll PeerManagerToSwarm) :=
  let! event := pop_event in
  match event with
  | Ready event => ret (Ready event)
  | Pending =>
      let! self := get in
      match sleep_waiting_for_unblocked_peer self with
      | Some deadline =>
          if elapsed deadline then
            assign_waiting_sessions ;!
            modify (set_sleep None) ;!
            pop_event
          else ret Pending
      | None => modify (set_sleep None) ;! pop_event
      end
  end.

End PeerManager.
