(* ===== verification/PeerManagerProps.v ===== *)
(** * Properties of the peer manager

    The interface of a peer ([PeerSpec]), what one assignment does, and the
    invariants of a run: no panic, no session lost, blocked peers left alone. *)

From stdpp Require Import base gmap list strings fin_maps.
From Stdlib Require Import ZArith Lia.
From S2P Require Import Prelude PeerManager.

(** ** The promises of a peer *)

(** What the peer manager relies on of the trait [PeerTrait]: [timeout_of] is the
    duration that was set. *)
Class PeerSpec (P : Type) {PT : PeerTrait P} : Type := {
  timeout_of : P -> option Z;
  peer_id_new : forall i a, peer_id (peer_new i a) = i;
  peer_id_set_timeout : forall p d, peer_id (set_timeout_duration p d) = peer_id p;
  timeout_of_set : forall p d, timeout_of (set_timeout_duration p d) = Some d;
  timeout_of_update : forall p r t, timeout_of (update_reputation p r t) = timeout_of p;
  timeout_of_add : forall p c, timeout_of (add_connection_id p c) = timeout_of p;
  timeout_of_remove : forall p c, timeout_of (remove_connection_id p c) = timeout_of p;
  new_not_blocked : forall i a d t, is_blocked (set_timeout_duration (peer_new i a) d) t = false;
  update_blocks : forall p r t d t', timeout_of p = Some d -> is_blocked (update_reputation p r t) t' = (t' <? t + d);
  is_blocked_add : forall p c t, is_blocked (add_connection_id p c) t = is_blocked p t;
  is_blocked_remove : forall p c t, is_blocked (remove_connection_id p c) t = is_blocked p t;
  connection_ids_new : forall i a d, connection_ids (set_timeout_duration (peer_new i a) d) = [];
  connection_ids_update : forall p r t, connection_ids (update_reputation p r t) = connection_ids p;
  connection_ids_add : forall p c, connection_ids (add_connection_id p c) = connection_ids p ++ [c];
  connection_ids_remove : forall p c, connection_ids (remove_connection_id p c) = filter (fun i => i <> c) (connection_ids p)
}.

#[global] Instance Peer_spec : PeerSpec Peer.
Proof.
  refine {| timeout_of := Peer_timeout_duration |}; try done.
  - intros [] ? ?; cbn. unfold Peer_update_reputation; cbn. by case_match.
  - intros [? ? ? tmo ?] ? ? d ? Hd; cbn in *. subst. done.
  - intros [? ? ? [] ?]; done.
Defined.

Section Props.
Context {P : Type} {PT : PeerTrait P} {PS : PeerSpec P} {HM : HashMapIter} (clock : nat -> Z).
Implicit Types (s : PeerManager P) (x : OutboundSessionId).

Abbreviation PM := (M (PeerManager P) PeerManagerError).

(** ** Finding a peer *)

Lemma find_unblocked_app l1 l2 s :
  find_unblocked clock (l1 ++ l2) s =
  bind (find_unblocked clock l1) (fun found => match found with Some e => ret (Some e) | None => find_unblocked clock l2 end) s.
Proof.
  revert s. induction l1 as [|[i p] l1 IH]; intros s; [done|]. cbn [find_unblocked app]. rewrite bind_assoc.
  apply bind_ext; [done|]. intros now s'. destruct (is_blocked p now); [apply IH|done].
Qed.

(** The first peer of the list that is not blocked when it is looked at. *)
Inductive first_unblocked (n : nat) : list (PeerId * P) -> option (PeerId * P) -> nat -> Prop :=
| first_unblocked_none l :
    (forall i e, l !! i = Some e -> is_blocked e.2 (clock (n + i)) = true) -> first_unblocked n l None (n + length l)
| first_unblocked_some l1 e l2 :
    (forall i e', l1 !! i = Some e' -> is_blocked e'.2 (clock (n + i)) = true) ->
    is_blocked e.2 (clock (n + length l1)) = false ->
    first_unblocked n (l1 ++ e :: l2) (Some e) (n + S (length l1)).

Lemma set_clock_readings_id s : set_clock_readings (clock_readings s) s = s.
Proof. by destruct s. Qed.

Lemma find_unblocked_spec l s :
  exists r n, find_unblocked clock l s = Done (set_clock_readings n s) r /\ first_unblocked (clock_readings s) l r n.
Proof.
  revert s. induction l as [|[i p] l IH]; intros s.
  - exists None, (clock_readings s + length (@nil (PeerId * P)))%nat. split; [|by constructor].
    cbn. by rewrite Nat.add_0_r, set_clock_readings_id.
  - cbn [find_unblocked]. unfold instant_now. run_steps. destruct (is_blocked p (clock (clock_readings s))) eqn:Hb.
    + destruct (IH (set_clock_readings (S (clock_readings s)) s)) as (r & n & -> & Hf). exists r, n. split; [done|].
      cbn in Hf. inversion Hf as [l' Hall | l1 e l2 Hall Hu]; subst.
      * replace (S (clock_readings s) + length l)%nat with (clock_readings s + length ((i, p) :: l))%nat by (cbn; lia).
        constructor. intros [|j] e; cbn; intros He; [simplify_eq; by rewrite Nat.add_0_r|].
        rewrite Nat.add_succ_r. by apply Hall.
      * replace (S (clock_readings s) + S (length l1))%nat with (clock_readings s + S (length ((i, p) :: l1)))%nat by (cbn; lia).
        apply (first_unblocked_some _ ((i, p) :: l1)); [|cbn; by rewrite Nat.add_succ_r].
        intros [|j] e'; cbn; intros He; [simplify_eq; by rewrite Nat.add_0_r|]. rewrite Nat.add_succ_r. by apply Hall.
    + exists (Some (i, p)), (clock_readings s + S (length (@nil (PeerId * P))))%nat. split; [|apply (first_unblocked_some _ []); [done|by rewrite Nat.add_0_r]].
      cbn. by rewrite Nat.add_1_r.
Qed.

Lemma min_blocked_until_spec l s :
  exists r n, min_blocked_until clock l s = Done (set_clock_readings n s) r /\ (clock_readings s <= n)%nat /\ (is_Some r <-> l <> []) /\
    (forall t, r = Some t -> exists id p k, (id, p) ∈ l /\ t = blocked_until p (clock k)).
Proof.
  revert s. induction l as [|[i p] l IH]; intros s.
  - exists None, (clock_readings s). cbn. rewrite set_clock_readings_id. split; [done|]. split; [done|]. split; [|done]. split; [by intros [? [=]]|done].
  - cbn [min_blocked_until]. unfold instant_now. run_steps.
    destruct (IH (set_clock_readings (S (clock_readings s)) s)) as (r & n & Hr & Hn & Hs & Ht). rewrite (bind_step _ _ _ _ _ Hr). unfold ret.
    eexists _, n. split; [reflexivity|]. split; [cbn in Hn; lia|]. split; [split; [done|by eexists]|]. intros t [= <-].
    destruct r as [t'|]; [|by exists i, p, (clock_readings s); split; [left|]].
    destruct (Ht t' eq_refl) as (id & p' & k & Hin & ->).
    destruct (Z.min_spec (blocked_until p (clock (clock_readings s))) (blocked_until p' (clock k))) as [[_ ->]|[_ ->]].
    + exists i, p, (clock_readings s). split; [left|done].
    + exists id, p', k. split; [by right|done].
Qed.

(** The order in which an assignment looks at the peers. *)
Definition rotation s : list (PeerId * P) :=
  drop (last_peer_index s) (hm_iter (peers s)) ++ take (last_peer_index s) (hm_iter (peers s)).

Lemma elem_of_rotation s id p : (id, p) ∈ rotation s <-> peers s !! id = Some p.
Proof.
  unfold rotation. rewrite <-elem_of_hm_iter. rewrite <-(take_drop (last_peer_index s) (hm_iter (peers s))) at 3.
  rewrite !elem_of_app. tauto.
Qed.

(** ** One assignment *)

Definition next_index s : nat := ((last_peer_index s + 1) mod size (peers s))%nat.

Definition add_pending_dial (m : gmap PeerId (list OutboundSessionId)) id x :=
  <[id := default [] (m !! id) ++ [x]]> m.

(** The four outcomes of an assignment. *)
Inductive assign_spec s x : PeerManager P -> option PeerId -> Prop :=
| assign_no_peers :
    peers s = ∅ -> assign_spec s x (set_waiting (sessions_received_when_no_peers s ++ [x]) s) None
| assign_all_blocked n n' deadline :
    peers s <> ∅ -> (n <= n')%nat -> first_unblocked (clock_readings s) (rotation s) None n ->
    (exists id p k, peers s !! id = Some p /\ deadline = blocked_until p (clock k)) ->
    assign_spec s x (set_clock_readings n' (set_last_peer_index (next_index s) (set_sleep (Some deadline)
      (set_waiting (sessions_received_when_no_peers s ++ [x]) s)))) None
| assign_connected n id p c cs :
    peers s <> ∅ -> first_unblocked (clock_readings s) (rotation s) (Some (id, p)) n -> connection_ids p = c :: cs ->
    assign_spec s x (set_clock_readings n (set_last_peer_index (next_index s)
      (set_session_to_peer_map (<[x := id]> (session_to_peer_map s))
        (set_pending_events (pending_events s ++ [GenerateEvent (SessionAssigned x id c)]) s)))) (Some id)
| assign_dial n id p :
    peers s <> ∅ -> first_unblocked (clock_readings s) (rotation s) (Some (id, p)) n -> connection_ids p = [] ->
    assign_spec s x (set_clock_readings n (set_last_peer_index (next_index s)
      (set_session_to_peer_map (<[x := id]> (session_to_peer_map s))
        (set_pending_dials (add_pending_dial (peers_pending_dial_with_sessions s) id x)
          (set_pending_events (pending_events s ++ [Dial (mkDialOpts id [multiaddr p] PeerCondition_Always)]) s))))) (Some id).

Lemma assign_ok x s : exists s' r, assign_peer_to_session clock x s = Done s' r /\ assign_spec s x s' r.
Proof.
  unfold assign_peer_to_session. run_steps. destruct (decide (peers s = ∅)) as [He|Hne].
  { eexists _, _. split; [reflexivity|]. by apply assign_no_peers. }
  destruct (find_unblocked_spec (rotation s) s) as (r & n & Hr & Hf). unfold rotation in Hr. rewrite find_unblocked_app in Hr.
  rewrite <-bind_assoc. rewrite (bind_step _ _ _ _ _ Hr). run_steps. destruct r as [[id p]|].
  - run_steps. destruct (connection_ids p) as [|c cs] eqn:Hc.
    + unfold push_event. run_steps. eexists _, _. split; [reflexivity|].
      replace (match peers_pending_dial_with_sessions s !! id with Some _ => _ | None => _ end)
        with (add_pending_dial (peers_pending_dial_with_sessions s) id x)
        by (unfold add_pending_dial; by destruct (peers_pending_dial_with_sessions s !! id)).
      exact (assign_dial s x n id p Hne Hf Hc).
    + unfold push_event. run_steps. eexists _, _. split; [reflexivity|]. exact (assign_connected s x n id p c cs Hne Hf Hc).
  - run_steps. edestruct (min_blocked_until_spec (hm_iter (peers s))) as (d & n' & Hd & Hn & [_ Hs] & Hk).
    rewrite (bind_step _ _ _ _ _ Hd). destruct Hs as [t ->].
    { intros Hnil. apply Hne. apply map_size_empty_inv. by rewrite <-length_hm_iter, Hnil. }
    run_steps. eexists _, _. split; [reflexivity|]. destruct (Hk t eq_refl) as (id & p & k & Hin & ->).
    refine (assign_all_blocked s x n n' _ Hne Hn Hf _). exists id, p, k. by rewrite <-elem_of_hm_iter.
Qed.

(** ** Runs *)

(** What happens to a peer manager: an event of another behaviour or of the
    swarm, an inbound connection, a report, a poll. *)
Inductive pm_op : Type :=
| Op_other (event : ToOtherBehaviourEvent)
| Op_swarm (event : FromSwarm)
| Op_inbound (id : PeerId)
| Op_report_peer (id : PeerId)
| Op_report_session (x : OutboundSessionId)
| Op_poll (elapsed : Z -> bool).

Definition poll_events (r : Poll PeerManagerToSwarm) : list PeerManagerToSwarm :=
  match r with Ready event => [event] | Pending => [] end.

(** The operation, with the events it hands to the swarm. *)
Definition pm_apply (op : pm_op) : PM (list PeerManagerToSwarm) :=
  match op with
  | Op_other event => @on_other_behaviour_event _ _ (PeerManager_bridged clock) event ;! ret []
  | Op_swarm event => pm_on_swarm_event clock event ;! ret []
  | Op_inbound id => pm_handle_established_inbound_connection clock id ;! ret []
  | Op_report_peer id => report_peer clock id ReputationModifier_Bad ;! ret []
  | Op_report_session x => report_session clock x ReputationModifier_Bad ;! ret []
  | Op_poll elapsed => let! r := pm_poll clock elapsed in ret (poll_events r)
  end.

(** A sequence of operations; the callers log the errors. [None] is a panic. *)
Fixpoint pm_run (ops : list pm_op) s : option (PeerManager P * list PeerManagerToSwarm) :=
  match ops with
  | [] => Some (s, [])
  | op :: ops' =>
      match pm_apply op s with
      | Done s1 events => prod_map id (app events) <$> pm_run ops' s1
      | Fail s1 _ => pm_run ops' s1
      | Panic => None
      end
  end.

(** The sessions for which a peer is requested. *)
Definition requested (op : pm_op) : list OutboundSessionId :=
  match op with Op_other (FromSqmr (RequestPeerAssignment x)) => [x] | _ => [] end.

(** ** The invariant *)

Record pm_ok s : Prop := {
  pk_index : (last_peer_index s < size (peers s))%nat \/ last_peer_index s = 0%nat;
  pk_dials : forall id l, peers_pending_dial_with_sessions s !! id = Some l -> is_Some (peers s !! id);
  pk_sessions : forall x id, session_to_peer_map s !! x = Some id -> is_Some (peers s !! id);
  pk_timeout : forall id p, peers s !! id = Some p -> timeout_of p = Some (blacklist_timeout (config s))
}.

(** Where a session is: waiting for a peer, waiting for the connection to its
    peer, or assigned (to be polled, or emitted already). *)
Definition placed (emitted : list PeerManagerToSwarm) s x : Prop :=
  x ∈ sessions_received_when_no_peers s \/
  (exists id l, peers_pending_dial_with_sessions s !! id = Some l /\ x ∈ l) \/
  (exists id c, GenerateEvent (SessionAssigned x id c) ∈ pending_events s ++ emitted).

(** The step keeps the invariant and loses no session. *)
Record pm_keeps s s' : Prop := {
  kp_ok : pm_ok s';
  kp_placed : forall emitted x, placed emitted s x -> placed emitted s' x;
  kp_config : config s' = config s;
  kp_clock : (clock_readings s <= clock_readings s')%nat;
  kp_peers : forall id, is_Some (peers s !! id) -> is_Some (peers s' !! id)
}.

Lemma pm_keeps_refl s : pm_ok s -> pm_keeps s s.
Proof. intros Hs. by constructor. Qed.

Lemma pm_keeps_trans s1 s2 s3 : pm_keeps s1 s2 -> pm_keeps s2 s3 -> pm_keeps s1 s3.
Proof.
  intros [? ? ? ? ?] [? ? ? ? ?]. constructor; eauto; [congruence|lia].
Qed.

Lemma first_unblocked_peer n l e n' : first_unblocked n l (Some e) n' -> e ∈ l /\ (n < n')%nat.
Proof. intros Hf. inversion Hf; subst. split; [set_solver|lia]. Qed.

Lemma first_unblocked_clock n l r n' : first_unblocked n l r n' -> (n <= n')%nat.
Proof. intros Hf. inversion Hf; subst; lia. Qed.

Lemma index_bound s : peers s <> ∅ -> (next_index s < size (peers s))%nat \/ next_index s = 0%nat.
Proof.
  intros Hne. left. unfold next_index. apply Nat.mod_upper_bound. intros Hz. by apply Hne, map_size_empty_inv.
Qed.

(** ** What one assignment keeps *)

Lemma placed_mono s s' emitted x :
  sessions_received_when_no_peers s ⊆ sessions_received_when_no_peers s' ->
  (forall id l, peers_pending_dial_with_sessions s !! id = Some l -> exists l', peers_pending_dial_with_sessions s' !! id = Some l' /\ l ⊆ l') ->
  pending_events s ⊆ pending_events s' -> placed emitted s x -> placed emitted s' x.
Proof.
  intros Hw Hd He [Hx|[(id & l & Hl & Hx)|(id & c & Hx)]]; [left; by apply Hw|right; left|right; right].
  - destruct (Hd id l Hl) as (l' & Hl' & Hsub). exists id, l'. split; [done|by apply Hsub].
  - exists id, c. rewrite elem_of_app in *. destruct Hx; [left; by apply He|by right].
Qed.

Lemma add_pending_dial_mono (m : gmap PeerId (list OutboundSessionId)) id x id' l :
  m !! id' = Some l -> exists l', add_pending_dial m id x !! id' = Some l' /\ l ⊆ l'.
Proof.
  intros Hl. unfold add_pending_dial. destruct (decide (id' = id)) as [->|Hne].
  - rewrite Hl, lookup_insert_eq. eexists. split; [done|]. cbn. set_solver.
  - rewrite lookup_insert_ne by done. eauto.
Qed.

Lemma assign_keeps s x s' r :
  pm_ok s -> assign_spec s x s' r -> pm_keeps s s' /\ peers s' = peers s /\ (forall emitted, placed emitted s' x).
Proof.
  intros [Hi Hd Hse Ht] Ha. destruct Ha as [He|n n' t Hne Hn Hf _|n id p c cs Hne Hf Hc|n id p Hne Hf Hc].
  - split; [|split; [done|intros em; left; cbn; set_solver]]. constructor; [constructor; assumption| |done..].
    intros em y. apply placed_mono; cbn; [set_solver|by eauto|done].
  - apply first_unblocked_clock in Hf. split; [|split; [done|intros em; left; cbn; set_solver]].
    constructor; [constructor; cbn; [by apply index_bound|assumption..]| |done|cbn; lia|done].
    intros em y. apply placed_mono; cbn; [set_solver|by eauto|done].
  - apply first_unblocked_peer in Hf as [Hin Hn]. apply elem_of_rotation in Hin.
    split; [|split; [done|intros em; right; right; exists id, c; cbn; set_solver]].
    constructor; [constructor; cbn; [by apply index_bound|assumption| |assumption]| |done|cbn; lia|done].
    + intros y i Hy. apply lookup_insert_Some in Hy as [[_ <-]|[_ Hy]]; [by eexists|eauto].
    + intros em y. apply placed_mono; cbn; [done|by eauto|set_solver].
  - apply first_unblocked_peer in Hf as [Hin Hn]. apply elem_of_rotation in Hin.
    split; [|split; [done|intros em; right; left; exists id; cbn; unfold add_pending_dial; rewrite lookup_insert_eq; eexists; split; [done|set_solver]]].
    constructor; [constructor; cbn; [by apply index_bound| | |assumption]| |done|cbn; lia|done].
    + intros i l Hl. unfold add_pending_dial in Hl. apply lookup_insert_Some in Hl as [[<- _]|[_ Hl]]; [by eexists|eauto].
    + intros y i Hy. apply lookup_insert_Some in Hy as [[_ <-]|[_ Hy]]; [by eexists|eauto].
    + intros em y. apply placed_mono; cbn; [done|by intros; apply add_pending_dial_mono|set_solver].
Qed.

(** Some peer is not blocked from now on. *)
Definition free_peer s : Prop :=
  exists id p, peers s !! id = Some p /\ forall k, (clock_readings s <= k)%nat -> is_blocked p (clock k) = false.

Lemma assign_free s x s' r :
  free_peer s -> assign_spec s x s' r ->
  free_peer s' /\ sessions_received_when_no_peers s' = sessions_received_when_no_peers s /\ is_Some r.
Proof.
  intros (id & p & Hp & Hfree) Ha. destruct Ha as [He|n n' t Hne Hn Hf _|n id' p' c cs Hne Hf Hc|n id' p' Hne Hf Hc].
  - by rewrite He, lookup_empty in Hp.
  - exfalso. inversion Hf as [l Hall|]; subst. apply elem_of_rotation in Hp. apply list_elem_of_lookup in Hp as [i Hi].
    specialize (Hall i _ Hi). cbn in Hall. rewrite Hfree in Hall by lia. done.
  - apply first_unblocked_peer in Hf as [_ Hn]. split; [|by split]. exists id, p. split; [done|]. cbn. intros k Hk. apply Hfree. lia.
  - apply first_unblocked_peer in Hf as [_ Hn]. split; [|by split]. exists id, p. split; [done|]. cbn. intros k Hk. apply Hfree. lia.
Qed.

(** ** Assigning several sessions *)

Abbreviation assign_each l := (for_each l (fun x => assign_peer_to_session clock x ;! ret tt)).

Lemma assign_each_ok l s :
  pm_ok s -> exists s', assign_each l s = Done s' tt /\ pm_keeps s s' /\ peers s' = peers s /\
    (forall emitted x, x ∈ l -> placed emitted s' x) /\
    (free_peer s -> sessions_received_when_no_peers s' = sessions_received_when_no_peers s).
Proof.
  revert s. induction l as [|x l IH]; intros s Hs.
  - exists s. split; [done|]. split; [by apply pm_keeps_refl|]. split; [done|]. split; [by intros ? ? ?%elem_of_nil|done].
  - cbn [for_each]. run_steps. destruct (assign_ok x s) as (s1 & r & Hr & Ha). rewrite (bind_step _ _ _ _ _ Hr). run_steps.
    destruct (assign_keeps s x s1 r Hs Ha) as (Hk1 & Hp1 & Hx). destruct (IH s1 (kp_ok _ _ Hk1)) as (s2 & -> & Hk2 & Hp2 & Hl & Hw).
    exists s2. split; [done|]. split; [by eapply pm_keeps_trans|]. split; [congruence|]. split.
    + intros em y [->|Hy]%elem_of_cons; [by apply (kp_placed _ _ Hk2)|by apply Hl].
    + intros Hfree. destruct (assign_free s x s1 r Hfree Ha) as (Hf1 & Hw1 & _). by rewrite Hw, Hw1.
Qed.

Lemma assign_each_run l s s' : pm_ok s -> assign_each l s = Done s' tt -> pm_keeps s s'.
Proof. intros Hs Hl. destruct (assign_each_ok l s Hs) as (s2 & Hl2 & Hk & _). rewrite Hl in Hl2. by simplify_eq. Qed.

Lemma assign_waiting_ok s :
  pm_ok s -> exists s', assign_waiting_sessions clock s = Done s' tt /\ pm_keeps s s' /\ peers s' = peers s /\
    (free_peer s -> sessions_received_when_no_peers s' = []).
Proof.
  intros Hs. unfold assign_waiting_sessions. run_steps.
  assert (Hs0 : pm_ok (set_waiting [] s)) by (destruct Hs; by constructor).
  destruct (assign_each_ok (sessions_received_when_no_peers s) _ Hs0) as (s' & -> & Hk & Hp & Hl & Hw).
  exists s'. split; [done|]. split; [|split; [done|by apply Hw]].
  destruct Hk as [Hok Hpl Hc Hcl Hpe]. constructor; try done. intros em x [Hx|Hx]; [by apply Hl|]. apply Hpl. by right.
Qed.

(** ** The operations *)

Lemma set_peer_keeps s id p p' :
  pm_ok s -> peers s !! id = Some p -> timeout_of p' = timeout_of p -> pm_keeps s (set_peers (<[id := p']> (peers s)) s).
Proof.
  intros [Hi Hd Hse Ht] Hp Hto.
  assert (Hsome : forall i, is_Some (peers s !! i) -> is_Some (<[id := p']> (peers s) !! i)).
  { intros i Hi'. destruct (decide (i = id)) as [->|Hne]; [rewrite lookup_insert_eq; by eexists|by rewrite lookup_insert_ne]. }
  constructor; [constructor; cbn; try by eauto| |done|done|done].
  - rewrite map_size_insert_Some by (by eexists). done.
  - intros i q Hq. apply lookup_insert_Some in Hq as [[_ <-]|[_ Hq]]; [rewrite Hto; by eapply Ht|by eapply Ht].
  - intros em x. apply placed_mono; cbn; eauto.
Qed.

Lemma set_clock_keeps s n : pm_ok s -> (clock_readings s <= n)%nat -> pm_keeps s (set_clock_readings n s).
Proof. intros [? ? ? ?] Hn. constructor; [by constructor|by eauto using placed_mono|done|done|done]. Qed.

(** A result that is not a panic, and the state it leaves. *)
Definition returns {A} (m : PM A) s s' : Prop := (exists a, m s = Done s' a) \/ (exists e, m s = Fail s' e).

Lemma report_peer_ok s id : pm_ok s -> exists s', returns (report_peer clock id ReputationModifier_Bad) s s' /\ pm_keeps s s'.
Proof.
  intros Hs. unfold returns, report_peer, instant_now. run_steps. destruct (peers s !! id) as [p|] eqn:Hp.
  - run_steps. eexists. split; [left; eexists; reflexivity|].
    eapply pm_keeps_trans; [apply (set_clock_keeps s (S (clock_readings s))); [done|lia]|].
    eapply (set_peer_keeps (set_clock_readings (S (clock_readings s)) s)); [|exact Hp|apply timeout_of_update].
    destruct Hs; by constructor.
  - exists s. split; [right; by eexists|by apply pm_keeps_refl].
Qed.

Lemma report_session_ok s x : pm_ok s -> exists s', returns (report_session clock x ReputationModifier_Bad) s s' /\ pm_keeps s s'.
Proof.
  intros Hs. unfold returns, report_session. run_steps. destruct (session_to_peer_map s !! x) as [id|].
  - exact (report_peer_ok s id Hs).
  - exists s. split; [right; by eexists|by apply pm_keeps_refl].
Qed.

Lemma insert_new_keeps s id p :
  pm_ok s -> peers s !! id = None -> timeout_of p = Some (blacklist_timeout (config s)) ->
  pm_keeps s (set_sleep None (set_peers (<[id := p]> (peers s)) s)).
Proof.
  intros [Hi Hd Hse Ht] Hnew Hp.
  assert (Hsome : forall i, is_Some (peers s !! i) -> is_Some (<[id := p]> (peers s) !! i)).
  { intros i Hi'. destruct (decide (i = id)) as [->|Hne]; [rewrite lookup_insert_eq; by eexists|by rewrite lookup_insert_ne]. }
  constructor; [constructor; cbn; try by eauto| |done|done|done].
  - rewrite map_size_insert_None by done. lia.
  - intros i q Hq. apply lookup_insert_Some in Hq as [[_ <-]|[_ Hq]]; [done|by eapply Ht].
  - intros em x. apply placed_mono; cbn; eauto.
Qed.

Lemma add_peer_ok s id address :
  pm_ok s -> peers s !! id = None ->
  exists s', add_peer clock (peer_new id address) s = Done s' tt /\ pm_keeps s s' /\
    sessions_received_when_no_peers s' = [] /\
    peers s' = <[id := set_timeout_duration (peer_new id address) (blacklist_timeout (config s))]> (peers s).
Proof.
  intros Hs Hnew. unfold add_peer. run_steps. rewrite peer_id_set_timeout, peer_id_new.
  set (p := set_timeout_duration (peer_new id address) (blacklist_timeout (config s))).
  set (s0 := set_sleep None (set_peers (<[id := p]> (peers s)) s)).
  assert (Hk : pm_keeps s s0) by (apply insert_new_keeps; [done|done|apply timeout_of_set]).
  destruct (assign_waiting_ok s0 (kp_ok _ _ Hk)) as (s' & Hr & Hk' & Hp & Hw). exists s'. split; [exact Hr|].
  split; [by eapply pm_keeps_trans|]. split; [|exact Hp]. apply Hw. exists id, p. cbn. rewrite lookup_insert_eq.
  split; [done|]. intros k _. apply new_not_blocked.
Qed.

Lemma push_event_keeps s e : pm_ok s -> exists s', push_event e s = Done s' tt /\ pm_keeps s s' /\ peers s' = peers s /\
  sessions_received_when_no_peers s' = sessions_received_when_no_peers s.
Proof.
  intros [? ? ? ?]. eexists. split; [reflexivity|]. split; [|done]. constructor; [by constructor| |done|done|done].
  intros em x. apply placed_mono; cbn; [done|by eauto|set_solver].
Qed.

Lemma found_listen_addresses_ok s id l :
  pm_ok s -> exists s', found_listen_addresses clock id l s = Done s' tt /\ pm_keeps s s' /\
    (peers s !! id = None -> l <> [] -> sessions_received_when_no_peers s' = [] /\ is_Some (peers s' !! id)).
Proof.
  intros Hs. unfold found_listen_addresses. run_steps. destruct (peers s !! id) as [p|] eqn:Hp.
  { exists s. split; [done|]. split; [by apply pm_keeps_refl|done]. }
  destruct l as [|a l].
  { exists s. split; [done|]. split; [by apply pm_keeps_refl|done]. }
  destruct (add_peer_ok s id a Hs Hp) as (s1 & Hr & Hk & Hw & Hps). rewrite (bind_step _ _ _ _ _ Hr). run_steps.
  assert (Hid : is_Some (peers s1 !! id)) by (rewrite Hps, lookup_insert_eq; by eexists).
  destruct (negb (more_peers_needed s1)).
  - destruct (push_event_keeps s1 (GenerateEvent PauseDiscovery) (kp_ok _ _ Hk)) as (s2 & Hr2 & Hk2 & Hp2 & Hw2).
    exists s2. split; [done|]. split; [by eapply pm_keeps_trans|]. intros _ _. by rewrite Hw2, Hp2.
  - exists s1. split; [done|]. split; [exact Hk|]. by intros _ _.
Qed.

Lemma on_other_event_ok s event :
  pm_ok s -> exists s', @on_other_behaviour_event _ _ (PeerManager_bridged clock) event s = Done s' tt /\ pm_keeps s s' /\
    (forall x, x ∈ requested (Op_other event) -> forall em, placed em s' x).
Proof.
  intros Hs. assert (Hnone : forall s' : PeerManager P, (forall x, x ∈ @nil OutboundSessionId -> forall em, placed em s' x)) by (by intros ? ? ?%elem_of_nil).
  destruct event as [|[id l]| |[q|id l]| |[x]]; cbn [on_other_behaviour_event PeerManager_bridged requested];
    try (exists s; split; [done|split; [by apply pm_keeps_refl|apply Hnone]]).
  - destruct (found_listen_addresses_ok s id l Hs) as (s' & Hr & Hk & _). exists s'. split; [done|]. split; [done|apply Hnone].
  - destruct (found_listen_addresses_ok s id l Hs) as (s' & Hr & Hk & _). exists s'. split; [done|]. split; [done|apply Hnone].
  - destruct (assign_ok x s) as (s' & r & Hr & Ha). destruct (assign_keeps s x s' r Hs Ha) as (Hk & _ & Hx).
    exists s'. rewrite (bind_step _ _ _ _ _ Hr). split; [done|]. split; [done|]. intros y ->%list_elem_of_singleton. apply Hx.
Qed.

Lemma find_blocked_ok id l s :
  exists b n, find_blocked clock id l s = Done (set_clock_readings n s) b /\ (clock_readings s <= n)%nat /\
    (b = true -> exists p k, (id, p) ∈ l /\ (clock_readings s <= k < n)%nat /\ is_blocked p (clock k) = true) /\
    (b = false -> forall p, (id, p) ∈ l -> exists k, (clock_readings s <= k < n)%nat /\ is_blocked p (clock k) = false).
Proof.
  revert s. induction l as [|[i p] l IH]; intros s.
  - exists false, (clock_readings s). rewrite set_clock_readings_id. split; [done|]. split; [done|]. split; [done|].
    by intros _ ? ?%elem_of_nil.
  - cbn [find_blocked]. destruct (Z.eqb_spec i id) as [->|Hne].
    + unfold instant_now. run_steps. destruct (is_blocked p (clock (clock_readings s))) eqn:Hb.
      * eexists true, _. split; [reflexivity|]. split; [lia|]. split; [|done]. intros _. exists p, (clock_readings s).
        split; [left|]. split; [lia|done].
      * destruct (IH (set_clock_readings (S (clock_readings s)) s)) as (b & n & -> & Hn & Ht & Hf). cbn in Hn, Ht, Hf.
        exists b, n. split; [done|]. split; [lia|]. split.
        -- intros Hb'. destruct (Ht Hb') as (q & k & ? & ? & ?). exists q, k. split; [by right|]. split; [lia|done].
        -- intros Hb' q [Hq|Hq]%elem_of_cons; [simplify_eq; exists (clock_readings s); split; [lia|done]|].
           destruct (Hf Hb' q Hq) as (k & ? & ?). exists k. split; [lia|done].
    + destruct (IH s) as (b & n & -> & Hn & Ht & Hf). exists b, n. split; [done|]. split; [done|]. split.
      * intros Hb'. destruct (Ht Hb') as (q & k & ? & ? & ?). exists q, k. split; [by right|done].
      * intros Hb' q [Hq|Hq]%elem_of_cons; [simplify_eq|by apply Hf].
Qed.

(** A known peer that is blocked now is refused. *)
Lemma blocked_refused s id p :
  peers s !! id = Some p -> is_blocked p (clock (clock_readings s)) = true ->
  pm_handle_established_inbound_connection clock id s = Fail (set_clock_readings (S (clock_readings s)) s) (PeerIsBlocked id).
Proof.
  intros Hp Hb. unfold pm_handle_established_inbound_connection. run_steps.
  assert (Hf : find_blocked clock id (hm_iter (peers s)) s = Done (set_clock_readings (S (clock_readings s)) s) true); [|by rewrite (bind_step _ _ _ _ _ Hf)].
  assert (Hin : (id, p) ∈ hm_iter (peers s)) by (by apply elem_of_hm_iter).
  assert (Hu : forall q, (id, q) ∈ hm_iter (peers s) -> q = p) by (intros q Hq; apply elem_of_hm_iter in Hq; congruence).
  induction (hm_iter (peers s)) as [|[i q] l IH]; [by apply elem_of_nil in Hin|]. cbn [find_blocked]. destruct (Z.eqb_spec i id) as [->|Hne].
  - rewrite (Hu q) by left. unfold instant_now. run_steps. by rewrite Hb.
  - apply IH; [|intros q' Hq'; apply Hu; by right]. apply elem_of_cons in Hin as [[= -> _]|Hin]; done.
Qed.

Lemma inbound_ok s id : pm_ok s -> exists s', returns (pm_handle_established_inbound_connection clock id) s s' /\ pm_keeps s s'.
Proof.
  intros Hs. unfold returns, pm_handle_established_inbound_connection. run_steps.
  destruct (find_blocked_ok id (hm_iter (peers s)) s) as (b & n & Hr & Hn & _). rewrite (bind_step _ _ _ _ _ Hr).
  exists (set_clock_readings n s). split; [|by apply set_clock_keeps]. destruct b; [right|left]; by eexists.
Qed.

Lemma dial_failure_ok s id error : pm_ok s -> exists s', on_dial_failure clock id error s = Done s' tt /\ pm_keeps s s'.
Proof.
  intros Hs. unfold on_dial_failure. destruct error as [c|c]; [exists s; split; [done|by apply pm_keeps_refl]|].
  destruct (report_peer_ok s id Hs) as (s1 & Hr & Hk).
  assert (Hi : ignore_err (report_peer clock id ReputationModifier_Bad) s = Done s1 tt)
    by (unfold ignore_err; destruct Hr as [[a ->]|[e ->]]; done).
  rewrite (bind_step _ _ _ _ _ Hi). run_steps.
  edestruct (assign_each_ok (filter (fun e => e.2 = id) (hm_iter (session_to_peer_map s1))).*1 s1 (kp_ok _ _ Hk)) as (s2 & Hr2 & Hk2 & _).
  exists s2. split; [exact Hr2|by eapply pm_keeps_trans].
Qed.

Lemma connection_established_ok s id c : pm_ok s -> exists s', on_connection_established id c s = Done s' tt /\ pm_keeps s s'.
Proof.
  intros Hs. unfold on_connection_established. run_steps. destruct (peers_pending_dial_with_sessions s !! id) as [l|] eqn:Hl.
  - run_steps. destruct (pk_dials s Hs id l Hl) as [p Hp]. rewrite Hp. run_steps. eexists. split; [reflexivity|].
    set (events := (fun x => GenerateEvent (SessionAssigned x id c)) <$> l).
    assert (Hk : pm_keeps s (set_pending_events (pending_events s ++ events) (set_pending_dials (delete id (peers_pending_dial_with_sessions s)) s))).
    { destruct Hs as [Hi Hd Hse Ht]. constructor; [constructor; cbn; try done| |done|done|done].
      - intros i l' Hl'. apply lookup_delete_Some in Hl' as [_ Hl']. by eapply Hd.
      - intros em x [Hx|[(i & l' & Hl' & Hx)|(i & c' & Hx)]]; [by left| |right; right; exists i, c'; cbn; set_solver].
        right. destruct (decide (i = id)) as [->|Hne]; [right|left; exists i, l'; cbn; by rewrite lookup_delete_ne].
        exists id, c. cbn. rewrite !elem_of_app. left. right. apply list_elem_of_fmap. exists x. by simplify_eq. }
    eapply pm_keeps_trans; [exact Hk|].
    refine (set_peer_keeps (set_pending_events (pending_events s ++ events) (set_pending_dials (delete id (peers_pending_dial_with_sessions s)) s)) id p _ (kp_ok _ _ Hk) Hp _).
    apply timeout_of_add.
  - destruct (peers s !! id) as [p|] eqn:Hp; [|exists s; split; [done|by apply pm_keeps_refl]].
    eexists. split; [reflexivity|]. eapply set_peer_keeps; [done|done|apply timeout_of_add].
Qed.

Lemma connection_closed_ok s id c : pm_ok s -> exists s', on_connection_closed id c s = Done s' tt /\ pm_keeps s s'.
Proof.
  intros Hs. unfold on_connection_closed. run_steps.
  destruct (peers s !! id) as [p|] eqn:Hp; [|exists s; split; [done|by apply pm_keeps_refl]].
  case_decide; [|exists s; split; [done|by apply pm_keeps_refl]].
  eexists. split; [reflexivity|]. eapply set_peer_keeps; [done|done|apply timeout_of_remove].
Qed.

Lemma on_swarm_event_ok s event : pm_ok s -> exists s', pm_on_swarm_event clock event s = Done s' tt /\ pm_keeps s s'.
Proof.
  intros Hs. destruct event as [[id|] e c|id c|id c n|id c|]; cbn [pm_on_swarm_event];
    eauto using dial_failure_ok, connection_established_ok, connection_closed_ok, pm_keeps_refl.
Qed.

(** Popping moves the last event from the queue to the swarm. *)
Lemma pop_event_ok s :
  pm_ok s -> exists s' r, pop_event s = Done s' r /\ pm_ok s' /\
    pending_events s = pending_events s' ++ poll_events r /\ s' = set_pending_events (pending_events s') s.
Proof.
  intros [? ? ? ?]. unfold pop_event. run_steps. destruct (pending_events s) as [|e l] eqn:He using rev_ind; [|clear IHl].
  - exists s, Pending. cbn. split; [done|]. split; [done|]. rewrite He. split; [done|]. destruct s; cbn in *. by subst.
  - rewrite last_snoc. run_steps. eexists _, _. split; [reflexivity|]. cbn. rewrite length_app, Nat.add_sub, take_app_length.
    split; [by constructor|]. done.
Qed.

Lemma pop_placed s s' r em x :
  pending_events s = pending_events s' ++ poll_events r -> s' = set_pending_events (pending_events s') s ->
  placed em s x -> placed (poll_events r ++ em) s' x.
Proof.
  intros He Hs' [Hx|[Hx|(i & c & Hx)]]; [left; by rewrite Hs'|right; left; by rewrite Hs'|].
  right. right. exists i, c. rewrite He in Hx. by rewrite app_assoc.
Qed.

(** A poll is a step that keeps everything, followed by a pop. *)
Lemma poll_ok s elapsed :
  pm_ok s -> exists s1 s' r, pm_poll clock elapsed s = Done s' r /\ pm_keeps s s1 /\ pm_ok s' /\
    pending_events s1 = pending_events s' ++ poll_events r /\ s' = set_pending_events (pending_events s') s1.
Proof.
  intros Hs. unfold pm_poll. destruct (pop_event_ok s Hs) as (s1 & r1 & Hr1 & Hs1 & He1 & Heq1). rewrite (bind_step _ _ _ _ _ Hr1).
  destruct r1 as [e|].
  { exists s, s1, (Ready e). split; [done|]. split; [by apply pm_keeps_refl|done]. }
  assert (s1 = s) as -> by (rewrite Heq1; cbn in He1; rewrite app_nil_r in He1; rewrite <-He1; by destruct s).
  run_steps. assert (Hfinal : forall s2, pm_keeps s s2 ->
    exists s1 s' r, bind (modify (set_sleep None)) (fun _ => pop_event) s2 = Done s' r /\ pm_keeps s s1 /\ pm_ok s' /\
      pending_events s1 = pending_events s' ++ poll_events r /\ s' = set_pending_events (pending_events s') s1).
  { intros s2 Hk2. run_steps. assert (Hk3 : pm_keeps s (set_sleep None s2))
      by (destruct Hk2 as [[? ? ? ?] Hpl ? ? ?]; constructor; [by constructor|exact Hpl|done..]).
    destruct (pop_event_ok _ (kp_ok _ _ Hk3)) as (s4 & r & Hr & Hs4 & He4 & Heq4). exists (set_sleep None s2), s4, r. done. }
  destruct (sleep_waiting_for_unblocked_peer s) as [d|]; [|by apply Hfinal, pm_keeps_refl].
  destruct (elapsed d); [|exists s, s, Pending; split; [done|]; split; [by apply pm_keeps_refl|done]].
  destruct (assign_waiting_ok s Hs) as (s2 & Hr2 & Hk2 & _). rewrite (bind_step _ _ _ _ _ Hr2). by apply Hfinal.
Qed.

(** The operation does not panic; it loses no session and places the requested one. *)
Record pm_moves (op : pm_op) s s' (ev : list PeerManagerToSwarm) : Prop := {
  mv_ok : pm_ok s';
  mv_placed : forall em x, placed em s x -> placed (ev ++ em) s' x;
  mv_requested : forall em x, x ∈ requested op -> placed (ev ++ em) s' x;
  mv_clock : (clock_readings s <= clock_readings s')%nat;
  mv_config : config s' = config s
}.

Lemma keeps_moves op s s' : pm_keeps s s' -> (forall em x, x ∈ requested op -> placed em s' x) -> pm_moves op s s' [].
Proof. intros [Hok Hpl Hc Hcl _] Hreq. by constructor. Qed.

Lemma apply_ok s op :
  pm_ok s -> exists s' ev, (pm_apply op s = Done s' ev \/ ev = [] /\ exists e, pm_apply op s = Fail s' e) /\ pm_moves op s s' ev.
Proof.
  intros Hs. assert (Hkeep : forall (m : PM unit) s', returns m s s' -> pm_keeps s s' -> requested op = [] ->
    pm_apply op = bind m (fun _ => ret []) ->
    exists s' ev, (pm_apply op s = Done s' ev \/ ev = [] /\ exists e, pm_apply op s = Fail s' e) /\ pm_moves op s s' ev).
  { intros m s' Hm Hk Hreq Heq. exists s', []. split; [|apply keeps_moves; [done|rewrite Hreq; by intros ? ? ?%elem_of_nil]].
    rewrite Heq. unfold bind. destruct Hm as [[a ->]|[e ->]]; [left|right; split; [done|exists e]]; done. }
  destruct op as [event|event|id|id|x|elapsed].
  - destruct (on_other_event_ok s event Hs) as (s' & Hr & Hk & Hreq). exists s', []. cbn [pm_apply]. rewrite (bind_step _ _ _ _ _ Hr).
    split; [by left|]. apply keeps_moves; auto.
  - destruct (on_swarm_event_ok s event Hs) as (s' & Hr & Hk). apply (Hkeep (pm_on_swarm_event clock event) s'); [left; by eexists|done..].
  - destruct (inbound_ok s id Hs) as (s' & Hr & Hk). by eapply Hkeep.
  - destruct (report_peer_ok s id Hs) as (s' & Hr & Hk). by eapply Hkeep.
  - destruct (report_session_ok s x Hs) as (s' & Hr & Hk). by eapply Hkeep.
  - destruct (poll_ok s elapsed Hs) as (s1 & s' & r & Hr & Hk & Hok & He & Heq). exists s', (poll_events r). cbn [pm_apply].
    rewrite (bind_step _ _ _ _ _ Hr). split; [by left|]. destruct Hk as [_ Hpl Hc Hcl _]. constructor; [done| | |by rewrite Heq|by rewrite Heq].
    + intros em x Hx. eapply pop_placed; [exact He|exact Heq|by apply Hpl].
    + by intros ? ? ?%elem_of_nil.
Qed.

(** ** Blocked peers *)

Section Blocked.
(** The peer [bad] was reported when the clock was read for the time [k0]; it is
    blocked up to the instant [t]. The run reads the clock less than [N] times,
    and always before [t]. *)
Context (bad : PeerId) (k0 N : nat) (t d : Z).
Context (Hmono : forall i j, (i <= j)%nat -> clock i <= clock j) (Ht : t = clock k0 + d) (Hlate : forall k, (k < N)%nat -> clock k < t).

Record watched s : Prop := {
  wt_clock : (k0 <= clock_readings s)%nat;
  wt_timeout : blacklist_timeout (config s) = d;
  wt_blocked : exists p, peers s !! bad = Some p /\ forall t', t' < t -> is_blocked p t' = true
}.

(** The peer stays blocked and gets no session. *)
Definition quiet s s' : Prop :=
  watched s -> (clock_readings s' <= N)%nat ->
  watched s' /\ forall x, session_to_peer_map s' !! x = Some bad -> session_to_peer_map s !! x = Some bad.

Lemma quiet_refl s : quiet s s.
Proof. done. Qed.

Lemma quiet_trans s1 s2 s3 : (clock_readings s2 <= clock_readings s3)%nat -> quiet s1 s2 -> quiet s2 s3 -> quiet s1 s3.
Proof.
  intros Hc H12 H23 Hw HN. destruct (H12 Hw) as [Hw2 Hm2]; [lia|]. destruct (H23 Hw2 HN) as [Hw3 Hm3]. split; [done|]. auto.
Qed.

(** A step that changes the map of the sessions not at all and the peer only so
    that it stays blocked. *)
Lemma quiet_same s s' :
  session_to_peer_map s' = session_to_peer_map s -> config s' = config s -> (clock_readings s <= clock_readings s')%nat ->
  (watched s -> forall p, peers s !! bad = Some p -> (forall t', t' < t -> is_blocked p t' = true) ->
    exists p', peers s' !! bad = Some p' /\ forall t', t' < t -> is_blocked p' t' = true) -> quiet s s'.
Proof.
  intros Hm Hc Hcl Hp Hw HN. split; [|by rewrite Hm]. pose proof Hw as [Hk Hto (p & Hb & Hbl)]. split; [lia|by rewrite Hc|by eapply Hp].
Qed.

Lemma assign_quiet s x s' r : assign_spec s x s' r -> quiet s s'.
Proof.
  intros Ha. assert (Hnot : forall n id p, first_unblocked (clock_readings s) (rotation s) (Some (id, p)) n ->
    watched s -> (n <= N)%nat -> id <> bad).
  { intros n id p Hf [_ _ (q & Hq & Hbl)] HN ->. pose proof (first_unblocked_peer _ _ _ _ Hf) as [Hin _].
    apply elem_of_rotation in Hin. simplify_eq. inversion Hf; subst. cbn in *. rewrite Hbl in *; [done|]. apply Hlate. lia. }
  destruct Ha as [He|n n' t' Hne Hn Hf _|n id p c cs Hne Hf Hc|n id p Hne Hf Hc].
  - apply quiet_same; [done..|]. by eauto.
  - apply first_unblocked_clock in Hf. apply quiet_same; [done..|cbn; lia|]. by eauto.
  - intros Hw HN. cbn in HN. pose proof (Hnot _ _ _ Hf Hw HN) as Hid. apply first_unblocked_clock in Hf.
    split; [destruct Hw; split; cbn; [lia|done..]|]. cbn. intros y. rewrite lookup_insert_Some. naive_solver.
  - intros Hw HN. cbn in HN. pose proof (Hnot _ _ _ Hf Hw HN) as Hid. apply first_unblocked_clock in Hf.
    split; [destruct Hw; split; cbn; [lia|done..]|]. cbn. intros y. rewrite lookup_insert_Some. naive_solver.
Qed.

Lemma assign_each_quiet l s s' : pm_ok s -> assign_each l s = Done s' tt -> quiet s s'.
Proof.
  revert s. induction l as [|x l IH]; intros s Hs; cbn [for_each]; [intros [= ->]; apply quiet_refl|].
  run_steps. destruct (assign_ok x s) as (s1 & r & Hr & Ha). rewrite (bind_step _ _ _ _ _ Hr). run_steps. intros Hl.
  destruct (assign_keeps s x s1 r Hs Ha) as (Hk1 & _). pose proof (assign_each_run l s1 s' (kp_ok _ _ Hk1) Hl) as Hk2.
  eapply quiet_trans; [apply Hk2|by eapply assign_quiet|]. by apply IH; [apply Hk1|].
Qed.

Lemma assign_waiting_quiet s s' : pm_ok s -> assign_waiting_sessions clock s = Done s' tt -> quiet s s'.
Proof.
  intros Hs. unfold assign_waiting_sessions. run_steps. intros Hl. assert (Hs0 : pm_ok (set_waiting [] s)) by (destruct Hs; by constructor).
  apply assign_each_quiet in Hl; [|done]. intros [Hk Hto Hb]. apply Hl. by split.
Qed.

Lemma report_quiet s id s' : pm_ok s -> returns (report_peer clock id ReputationModifier_Bad) s s' -> quiet s s'.
Proof.
  unfold returns, report_peer, instant_now. run_steps. intros Hs Hr. destruct (peers s !! id) as [p|] eqn:Hp.
  - revert Hr. run_steps. unfold modify. intros [[? [= <- _]]|[? [=]]]. apply quiet_same; [done|done|cbn; lia|]. cbn.
    intros [Hk Hto _] q Hq Hbl. destruct (decide (id = bad)) as [->|Hne]; [|rewrite lookup_insert_ne by done; eauto].
    rewrite lookup_insert_eq. eexists. split; [done|]. intros t' Ht'.
    rewrite (update_blocks _ _ _ d) by (rewrite <-Hto; by eapply pk_timeout). apply Z.ltb_lt.
    specialize (Hmono k0 (clock_readings s) Hk). lia.
  - destruct Hr as [[? [=]]|[? [= <- _]]]. apply quiet_refl.
Qed.

Lemma found_quiet s id l s' : pm_ok s -> found_listen_addresses clock id l s = Done s' tt -> quiet s s'.
Proof.
  intros Hs. unfold found_listen_addresses. run_steps. destruct (peers s !! id) as [p|] eqn:Hp; [intros [= ->]; apply quiet_refl|].
  destruct l as [|a l]; [intros [= ->]; apply quiet_refl|]. destruct (add_peer_ok s id a Hs Hp) as (s1 & Hr & Hk & _ & Hps).
  rewrite (bind_step _ _ _ _ _ Hr). run_steps. intros Hlast. apply (quiet_trans s s1 s').
  { destruct (negb (more_peers_needed s1)); inversion Hlast; by subst. }
  - revert Hr. unfold add_peer. run_steps. rewrite peer_id_set_timeout, peer_id_new. intros Hr.
    match type of Hr with assign_waiting_sessions _ ?s0 = _ => assert (Hk0 : pm_ok s0) end.
    { refine (kp_ok _ _ (insert_new_keeps s id _ Hs Hp _)). apply timeout_of_set. }
    pose proof (assign_waiting_ok _ Hk0) as (s2 & Hr2 & Hk2 & _). rewrite Hr in Hr2. simplify_eq.
    eapply quiet_trans; [apply Hk2| |by apply assign_waiting_quiet]. apply quiet_same; [done..|]. cbn. intros _ q Hq Hbl.
    rewrite lookup_insert_ne by (intros ->; simplify_eq). eauto.
  - apply quiet_same; destruct (negb (more_peers_needed s1)); inversion Hlast; subst; cbn; eauto.
Qed.

Lemma on_other_quiet s event s' :
  pm_ok s -> @on_other_behaviour_event _ _ (PeerManager_bridged clock) event s = Done s' tt -> quiet s s'.
Proof.
  intros Hs. destruct event as [|[id l]| |[q|id l]| |[x]]; cbn [on_other_behaviour_event PeerManager_bridged];
    try (intros [= ->]; apply quiet_refl); try by apply found_quiet.
  destruct (assign_ok x s) as (s1 & r & Hr & Ha). rewrite (bind_step _ _ _ _ _ Hr). intros [= ->]. by eapply assign_quiet.
Qed.

Lemma on_swarm_quiet s event s' : pm_ok s -> pm_on_swarm_event clock event s = Done s' tt -> quiet s s'.
Proof.
  intros Hs. destruct event as [[id|] e c|id c|id c n|id c|]; cbn [pm_on_swarm_event]; try (intros [= ->]; apply quiet_refl).
  - unfold on_dial_failure. destruct e as [?|?]; [intros [= ->]; apply quiet_refl|].
    destruct (report_peer_ok s id Hs) as (s1 & Hr & Hk).
    assert (Hi : ignore_err (report_peer clock id ReputationModifier_Bad) s = Done s1 tt)
      by (unfold ignore_err; destruct Hr as [[a ->]|[e ->]]; done).
    rewrite (bind_step _ _ _ _ _ Hi). run_steps. intros Hl. pose proof (assign_each_run _ s1 s' (kp_ok _ _ Hk) Hl) as Hk2.
    eapply quiet_trans; [apply Hk2|by eapply report_quiet|by eapply assign_each_quiet; [apply Hk|]].
  - unfold on_connection_established. run_steps. intros Hr. destruct (peers_pending_dial_with_sessions s !! id), (peers s !! id) as [p|] eqn:Hp;
      revert Hr; run_steps; try (intros [= ->]; apply quiet_refl); try done; unfold modify; intros [= <-];
      (apply quiet_same; [done..|]; cbn; intros _ q Hq Hbl; destruct (decide (id = bad)) as [->|Hne];
        [rewrite lookup_insert_eq; eexists; split; [done|]; intros; rewrite is_blocked_add; simplify_eq; by apply Hbl|rewrite lookup_insert_ne by done; eauto]).
  - unfold on_connection_closed. run_steps. destruct (peers s !! id) as [p|] eqn:Hp; [|intros [= ->]; apply quiet_refl].
    case_decide; [|intros [= ->]; apply quiet_refl]. unfold modify. intros [= <-]. apply quiet_same; [done..|]. cbn. intros _ q Hq Hbl.
    destruct (decide (id = bad)) as [->|Hne]; [|rewrite lookup_insert_ne by done; eauto].
    rewrite lookup_insert_eq. eexists. split; [done|]. intros. rewrite is_blocked_remove. simplify_eq. by apply Hbl.
Qed.

Lemma poll_quiet s elapsed s' r : pm_ok s -> pm_poll clock elapsed s = Done s' r -> quiet s s'.
Proof.
  intros Hs. unfold pm_poll. destruct (pop_event_ok s Hs) as (s1 & r1 & Hr1 & Hs1 & He1 & Heq1). rewrite (bind_step _ _ _ _ _ Hr1).
  assert (Hpop : forall sa sb ra, pop_event sa = Done sb ra -> pm_ok sa -> quiet sa sb).
  { intros sa sb ra Hsb Hsa. destruct (pop_event_ok sa Hsa) as (sc & rc & Hrc & _ & _ & Heq). rewrite Hsb in Hrc. simplify_eq.
    rewrite Heq. apply quiet_same; [done..|]. by eauto. }
  pose proof (Hpop _ _ _ Hr1 Hs) as Hq1. assert (Hcl1 : clock_readings s1 = clock_readings s) by (by rewrite Heq1).
  destruct r1 as [e|]; [by intros [= -> _]|]. run_steps.
  assert (Hfinal : forall sa sb ra, pm_ok sa -> bind (modify (set_sleep None)) (fun _ => pop_event) sa = Done sb ra ->
    quiet sa sb /\ clock_readings sb = clock_readings sa).
  { intros sa sb ra Hsa. run_steps. intros Hsb. assert (Hsa' : pm_ok (set_sleep None sa)) by (destruct Hsa; by constructor).
    split; [|destruct (pop_event_ok _ Hsa') as (sc & rc & Hrc & _ & _ & Heq); rewrite Hsb in Hrc; simplify_eq; by rewrite Heq].
    apply Hpop in Hsb; [|done]. intros [Hk Hto Hb]. apply Hsb. by split. }
  destruct (sleep_waiting_for_unblocked_peer s1) as [dl|].
  - destruct (elapsed dl); [|by intros [= -> _]]. destruct (assign_waiting_ok s1 Hs1) as (s2 & Hr2 & Hk2 & _).
    rewrite (bind_step _ _ _ _ _ Hr2). intros Hf. apply Hfinal in Hf as [Hf Hcl]; [|apply Hk2].
    apply (quiet_trans s s2 s'); [by rewrite Hcl| |exact Hf]. eapply quiet_trans; [apply Hk2|exact Hq1|by apply assign_waiting_quiet].
  - intros Hf. apply Hfinal in Hf as [Hf Hcl]; [|done]. apply (quiet_trans s s1 s'); [by rewrite Hcl|exact Hq1|exact Hf].
Qed.

Lemma apply_quiet s op s' : pm_ok s -> returns (pm_apply op) s s' -> quiet s s'.
Proof.
  intros Hs Hr. assert (Hu : forall (m : PM unit), pm_apply op = bind m (fun _ => ret []) -> returns m s s').
  { intros m Heq. unfold returns in *. rewrite Heq in Hr. unfold bind in Hr. destruct (m s) as [sa []|sa e|]; destruct Hr as [[? [=]]|[? [=]]]; subst; eauto. }
  destruct op as [event|event|id|id|x|elapsed].
  - destruct (Hu _ eq_refl) as [[[] Hd]|[e Hd]]; [by eapply on_other_quiet|].
    destruct (on_other_event_ok s event Hs) as (? & Hd' & _). by rewrite Hd in Hd'.
  - destruct (Hu _ eq_refl) as [[[] Hd]|[e Hd]]; [by eapply on_swarm_quiet|].
    destruct (on_swarm_event_ok s event Hs) as (? & Hd' & _). by rewrite Hd in Hd'.
  - specialize (Hu _ eq_refl). revert Hu. unfold returns, pm_handle_established_inbound_connection. run_steps.
    destruct (find_blocked_ok id (hm_iter (peers s)) s) as (b & n & Hf & Hn & _). rewrite (bind_step _ _ _ _ _ Hf).
    intros Hu. assert (s' = set_clock_readings n s) as -> by (destruct b, Hu as [[? [=]]|[? [=]]]; done).
    apply quiet_same; [done..|]. by eauto.
  - apply (report_quiet s id); [done|by apply Hu].
  - specialize (Hu _ eq_refl). revert Hu. unfold returns, report_session. run_steps. destruct (session_to_peer_map s !! x) as [id|].
    + by apply (report_quiet s id).
    + intros [[? [=]]|[? [= <- _]]]. apply quiet_refl.
  - cbn [pm_apply] in Hr. destruct (poll_ok s elapsed Hs) as (s1 & s2 & r & Hp & _). unfold returns in Hr. rewrite (bind_step _ _ _ _ _ Hp) in Hr.
    destruct Hr as [[? [= <- _]]|[? [=]]]. by eapply poll_quiet.
Qed.

End Blocked.

End Props.
