(* ===== verification/Sqmr.v ===== *)
(** * Network: messages and sessions of the query protocol

    [crates/papyrus_network/src/sqmr/messages.rs], [protocol.rs] and
    [handler/inbound_session.rs]: messages with a length prefix on a stream, and
    the session that writes the responses of a server.

    A stream that is written is the list of the bytes it took and whether it is
    closed. A stream that is read is the list of the bytes that arrived and were
    not read, with what follows them: more bytes later, the end, or an error.
    The crate [unsigned_varint] is a parameter. *)

From stdpp Require Import base gmap list strings fin_maps.
From Stdlib Require Import ZArith Lia.
From S2P Require Import Prelude PeerManager.

Inductive VarintError : Type := Varint_Insufficient | Varint_Other.

(** [unsigned_varint::encode::usize] and [decode::usize]. *)
Class VarintApi : Type := {
  varint_encode : Z -> Bytes;
  varint_decode : Bytes -> VarintError + Z * Bytes
}.

(** The documented behaviour: a number decodes from its own bytes, a part of them
    is insufficient, and a [usize] needs ten bytes at most. *)
Class VarintSpec {VA : VarintApi} : Prop := {
  varint_nonempty : forall n, varint_encode n <> [];
  varint_roundtrip : forall n, in_range 64 n -> varint_decode (varint_encode n) = inr (n, []);
  varint_prefix : forall n bs1 bs2, in_range 64 n -> varint_encode n = bs1 ++ bs2 -> bs2 <> [] -> varint_decode bs1 = inl Varint_Insufficient;
  varint_length : forall bs, (10 <= length bs)%nat -> varint_decode bs <> inl Varint_Insufficient
}.

Definition MAX_MESSAGE_SIZE : Z := Z.shiftl 1 20.

(** ** Writing *)

Record WriteHalf : Type := mkWriteHalf {
  written : Bytes;
  write_closed : bool
}.

(** [AsyncWriteExt::write_all] and [close], when they complete without error. *)
Definition write_all (bs : Bytes) (io : WriteHalf) : WriteHalf := mkWriteHalf (written io ++ bs) (write_closed io).
Definition close_stream (io : WriteHalf) : WriteHalf := mkWriteHalf (written io) true.

Section Messages.
Context {VA : VarintApi}.

Definition write_usize (io : WriteHalf) (num : Z) : WriteHalf := write_all (varint_encode num) io.

Definition write_message (message : Bytes) (io : WriteHalf) : WriteHalf :=
  write_all message (write_usize io (zlength message)).

Definition write_message_without_length_prefix (message : Bytes) (io : WriteHalf) : WriteHalf :=
  close_stream (write_all message io).

(** ** Reading *)

(** What follows the bytes that arrived. *)
Inductive StreamEnd : Type :=
| Stream_Open
| Stream_Eof
| Stream_Error (e : io_Error).

Record ReadHalf : Type := mkReadHalf {
  unread : Bytes;
  read_end : StreamEnd
}.

(** The bytes ran out: wait, or the result of the end of the stream. *)
Definition at_end {A} (io : ReadHalf) (eof : io_Error + A) : Poll (io_Error + A) :=
  match read_end io with
  | Stream_Open => Pending
  | Stream_Eof => Ready eof
  | Stream_Error e => Ready (inl e)
  end.

(** [read_usize]: [buffer] is the part of the length that was read. A
    [usize_buffer] has ten bytes: a slice beyond them panics ([None]). *)
Fixpoint read_usize_loop (fin : StreamEnd) (buffer bs : Bytes) : option (Poll (io_Error + option (Z * Bytes))) :=
  if decide (10 <= length buffer)%nat then None
  else
    match bs with
    | [] =>
        Some (at_end (mkReadHalf [] fin) (match buffer with [] => inr None | _ => inl io_Error_UnexpectedEof end))
    | b :: bs' =>
        let buffer := buffer ++ [b] in
        match varint_decode buffer with
        | inr (len, _) => Some (Ready (inr (Some (len, bs'))))
        | inl Varint_Insufficient => read_usize_loop fin buffer bs'
        | inl _ => Some (Ready (inl io_Error_InvalidData))
        end
    end.

Definition read_usize (io : ReadHalf) : option (Poll (io_Error + option (Z * Bytes))) :=
  read_usize_loop (read_end io) [] (unread io).

(** [read_message]: the message and the stream after it. A future that is pending
    keeps what it read; it starts again from the same bytes here. *)
Definition read_message (io : ReadHalf) : option (Poll (io_Error + option (Bytes * ReadHalf))) :=
  match read_usize io with
  | None => None
  | Some Pending => Some Pending
  | Some (Ready (inl e)) => Some (Ready (inl e))
  | Some (Ready (inr None)) => Some (Ready (inr None))
  | Some (Ready (inr (Some (message_len, rest)))) =>
      Some (if MAX_MESSAGE_SIZE <? message_len then Ready (inl io_Error_InvalidData)
            else if message_len <=? zlength rest
            then Ready (inr (Some (take (Z.to_nat message_len) rest, mkReadHalf (drop (Z.to_nat message_len) rest) (read_end io))))
            else at_end io (inl io_Error_UnexpectedEof))
  end.

(** [read_to_end]. *)
Definition read_message_without_length_prefix (io : ReadHalf) : Poll (io_Error + Bytes) :=
  at_end io (inr (unread io)).

(** ** The upgrades of a substream ([protocol.rs]) *)

Record InboundProtocol : Type := mkInboundProtocol { supported_protocols : list StreamProtocol }.
Record OutboundProtocol : Type := mkOutboundProtocol { OutboundProtocol_query : Bytes; OutboundProtocol_protocol_name : StreamProtocol }.

Definition inbound_protocol_info (self : InboundProtocol) : list StreamProtocol := supported_protocols self.
Definition outbound_protocol_info (self : OutboundProtocol) : list StreamProtocol := [OutboundProtocol_protocol_name self].

(** The server reads the query to its end and keeps the half it writes to. *)
Definition upgrade_inbound (self : InboundProtocol) (read_half : ReadHalf) (write_half : WriteHalf) (protocol_name : StreamProtocol) :
    Poll (io_Error + Bytes * WriteHalf * StreamProtocol) :=
  match read_message_without_length_prefix read_half with
  | Pending => Pending
  | Ready (inl e) => Ready (inl e)
  | Ready (inr request) => Ready (inr (request, write_half, protocol_name))
  end.

(** The client writes its query, closes its half and keeps the half it reads from. *)
Definition upgrade_outbound (self : OutboundProtocol) (read_half : ReadHalf) (write_half : WriteHalf) : WriteHalf * ReadHalf :=
  (write_message_without_length_prefix (OutboundProtocol_query self) write_half, read_half).

(** ** The session of a server ([inbound_session.rs]) *)

Inductive FinishReason : Type :=
| FinishReason_Error (e : io_Error)
| FinishReason_Closed.

(** A future that writes a message is the part of its bytes that the stream has not
    taken yet. *)
Inductive WriteMessageTask : Type :=
| Task_Waiting (write_stream : WriteHalf)
| Task_Running (unwritten : Bytes) (write_stream : WriteHalf)
| Task_Closing (write_stream : WriteHalf).

Record InboundSession : Type := mkInboundSession {
  pending_messages : list Bytes;
  current_task : WriteMessageTask
}.

Definition InboundSession_new (write_stream : WriteHalf) : InboundSession := mkInboundSession [] (Task_Waiting write_stream).

Definition add_message_to_queue (data : Bytes) (self : InboundSession) : InboundSession :=
  mkInboundSession (pending_messages self ++ [data]) (current_task self).

Definition is_waiting (self : InboundSession) : bool :=
  match current_task self, pending_messages self with Task_Waiting _, [] => true | _, _ => false end.

(** The operations of a session do not fail; they panic in a wrong state. *)
Abbreviation SessionM := (M InboundSession Empty_set).

Definition start_closing : SessionM unit :=
  let! self := get in
  match current_task self with
  | Task_Waiting write_stream => put (mkInboundSession (pending_messages self) (Task_Closing write_stream))
  | _ => panic
  end.

(** What polling a write gives: not yet, done, or an error of the stream; before it is
    pending or fails the stream may take some of the bytes. *)
Inductive io_outcome : Type :=
| io_pending (taken : nat)
| io_ok
| io_err (taken : nat) (e : io_Error).

(** The bytes of [write_message], the length and the message. *)
Definition message_on_wire (data : Bytes) : Bytes := written (write_message data (mkWriteHalf [] false)).

(** The stream takes the first bytes of what is to be written. *)
Definition take_bytes (taken : nat) (unwritten : Bytes) (write_stream : WriteHalf) : WriteMessageTask :=
  Task_Running (drop taken unwritten) (write_all (take taken unwritten) write_stream).

Definition handle_waiting : SessionM (Poll unit) :=
  let! self := get in
  match pending_messages self with
  | data :: rest =>
      match current_task self with
      | Task_Waiting write_stream => put (mkInboundSession rest (Task_Running (message_on_wire data) write_stream)) ;! ret (Ready tt)
      | _ => panic
      end
  | [] => ret Pending
  end.

Definition handle_running (outcome : io_outcome) : SessionM (Poll (option FinishReason)) :=
  let! self := get in
  match current_task self with
  | Task_Running unwritten write_stream =>
      match outcome with
      | io_pending taken => put (mkInboundSession (pending_messages self) (take_bytes taken unwritten write_stream)) ;! ret Pending
      | io_ok => put (mkInboundSession (pending_messages self) (Task_Waiting (write_all unwritten write_stream))) ;! ret (Ready None)
      | io_err taken e =>
          put (mkInboundSession (pending_messages self) (take_bytes taken unwritten write_stream)) ;! ret (Ready (Some (FinishReason_Error e)))
      end
  | _ => panic
  end.

Definition handle_closing (outcome : io_outcome) : SessionM (Poll FinishReason) :=
  let! self := get in
  match current_task self with
  | Task_Closing write_stream =>
      match outcome with
      | io_pending _ => ret Pending
      | io_ok => put (mkInboundSession (pending_messages self) (Task_Closing (close_stream write_stream))) ;! ret (Ready FinishReason_Closed)
      | io_err _ e => ret (Ready (FinishReason_Error e))
      end
  | _ => panic
  end.

(** The loop of [poll]. [outcomes] are the results of the writes it polls, in
    order; a poll beyond them is pending. *)
Fixpoint poll_loop (outcomes : list io_outcome) : SessionM (Poll FinishReason) :=
  let running :=
    match outcomes with
    | [] => ret Pending
    | outcome :: outcomes' =>
        let! r := handle_running outcome in
        match r with
        | Pending => ret Pending
        | Ready (Some finish_reason) => ret (Ready finish_reason)
        | Ready None => poll_loop outcomes'
        end
    end in
  let! self := get in
  match current_task self with
  | Task_Running _ _ => running
  | Task_Waiting _ =>
      let! r := handle_waiting in
      match r with Pending => ret Pending | Ready _ => running end
  | Task_Closing _ =>
      handle_closing (default (io_pending 0) (head outcomes))
  end.

Definition inbound_session_poll (outcomes : list io_outcome) : SessionM (Poll (io_Error + unit)) :=
  let! finish_reason := poll_loop outcomes in
  ret (match finish_reason with
       | Pending => Pending
       | Ready (FinishReason_Error e) => Ready (inl e)
       | Ready FinishReason_Closed => Ready (inr tt)
       end).

End Messages.

(** * Network: the query protocol

    [crates/papyrus_network/src/sqmr/handler.rs] and [behaviour.rs]: single
    query, multiple responses. A [Handler] runs the sessions of one connection,
    the [Behaviour] numbers the sessions, waits for the peer of each query and
    passes events between the handlers and the network manager. Wakers are left
    out: a poll may come at any time. *)

(** ** The handler of a connection *)

Inductive RequestFromBehaviourEvent : Type :=
| CreateOutboundSession (query : Bytes) (outbound_session_id : OutboundSessionId) (protocol_name : StreamProtocol)
| SendResponse (response : Bytes) (inbound_session_id : InboundSessionId)
| CloseInboundSession (inbound_session_id : InboundSessionId)
| DropSession (session_id : SessionId).

(** The error of a session in the handler. *)
Inductive HandlerSessionError : Type :=
| HandlerSessionError_Timeout (session_timeout : Z)
| HandlerSessionError_IOError (e : io_Error)
| HandlerSessionError_RemoteDoesntSupportProtocol.

Inductive RequestToBehaviourEvent : Type :=
| HandlerGenerateEvent (event : GenericEvent HandlerSessionError)
| NotifySessionDropped (session_id : SessionId).

(** [ConnectionHandlerEvent] at the types of the handler. *)
Inductive HandlerEvent : Type :=
| OutboundSubstreamRequest (protocol : OutboundProtocol) (info : OutboundSessionId) (timeout : Z)
| NotifyBehaviour (event : RequestToBehaviourEvent).

(** The stream of the responses of an outbound session. *)
Inductive ResponseStream : Type :=
| Responses_Reading (read_stream : ReadHalf)
| Responses_Ended.

(** The last field has no counterpart in the source: it keeps the sessions that
    [poll] removed, with the streams they wrote to. *)
Record Handler : Type := mkHandler {
  Handler_config : SqmrConfig;
  Handler_peer_id : PeerId;
  id_to_inbound_session : gmap InboundSessionId InboundSession;
  id_to_outbound_session : gmap OutboundSessionId ResponseStream;
  Handler_pending_events : list HandlerEvent;
  inbound_sessions_marked_to_end : gset InboundSessionId;
  dropped_outbound_sessions_non_negotiated : gset OutboundSessionId;
  Handler_supported_inbound_protocols : gset StreamProtocol;
  ended_inbound_sessions : list (InboundSessionId * InboundSession)
}.

Definition set_inbound x self := mkHandler (Handler_config self) (Handler_peer_id self) x (id_to_outbound_session self)
  (Handler_pending_events self) (inbound_sessions_marked_to_end self) (dropped_outbound_sessions_non_negotiated self) (Handler_supported_inbound_protocols self)
  (ended_inbound_sessions self).
Definition set_outbound x self := mkHandler (Handler_config self) (Handler_peer_id self) (id_to_inbound_session self) x
  (Handler_pending_events self) (inbound_sessions_marked_to_end self) (dropped_outbound_sessions_non_negotiated self) (Handler_supported_inbound_protocols self)
  (ended_inbound_sessions self).
Definition set_events x self := mkHandler (Handler_config self) (Handler_peer_id self) (id_to_inbound_session self) (id_to_outbound_session self)
  x (inbound_sessions_marked_to_end self) (dropped_outbound_sessions_non_negotiated self) (Handler_supported_inbound_protocols self)
  (ended_inbound_sessions self).
Definition set_marked x self := mkHandler (Handler_config self) (Handler_peer_id self) (id_to_inbound_session self) (id_to_outbound_session self)
  (Handler_pending_events self) x (dropped_outbound_sessions_non_negotiated self) (Handler_supported_inbound_protocols self)
  (ended_inbound_sessions self).
Definition set_dropped x self := mkHandler (Handler_config self) (Handler_peer_id self) (id_to_inbound_session self) (id_to_outbound_session self)
  (Handler_pending_events self) (inbound_sessions_marked_to_end self) x (Handler_supported_inbound_protocols self)
  (ended_inbound_sessions self).

Definition set_ended x self := mkHandler (Handler_config self) (Handler_peer_id self) (id_to_inbound_session self) (id_to_outbound_session self)
  (Handler_pending_events self) (inbound_sessions_marked_to_end self) (dropped_outbound_sessions_non_negotiated self) (Handler_supported_inbound_protocols self)
  x.

(** The handler does not return errors. *)
Abbreviation HandlerM := (M Handler Empty_set).

Section Handler.
Context {VA : VarintApi} {HM : HashMapIter} {HS : HashSetIter}.

Definition Handler_new (config : SqmrConfig) (peer_id : PeerId) (supported_inbound_protocols : gset StreamProtocol) : Handler :=
  mkHandler config peer_id ∅ ∅ [] ∅ ∅ supported_inbound_protocols [].

(** [SubstreamProtocol] with its protocols, the id of the session and the timeout.
    The counter of the ids is shared by all handlers. *)
Definition listen_protocol (self : Handler) (next_inbound_session_id : Z) : (InboundProtocol * InboundSessionId * Z) * Z :=
  ((mkInboundProtocol (hs_iter (Handler_supported_inbound_protocols self)), mkInboundSessionId next_inbound_session_id,
    session_timeout (Handler_config self)), wrap 64 (next_inbound_session_id + 1)).

Definition push_handler_event (event : HandlerEvent) : HandlerM unit :=
  modify (fun self => set_events (Handler_pending_events self ++ [event]) self).

(** [poll_inbound_session]: the session after the poll, the events it adds and
    whether the session has finished. *)
Definition poll_inbound_session (inbound_session : InboundSession) (inbound_session_id : InboundSessionId) (outcomes : list io_outcome) :
    option (InboundSession * list HandlerEvent * bool) :=
  match inbound_session_poll outcomes inbound_session with
  | Done inbound_session (Ready (inl io_error)) =>
      Some (inbound_session, [NotifyBehaviour (HandlerGenerateEvent (SessionFailed inbound_session_id (HandlerSessionError_IOError io_error)))], true)
  | Done inbound_session (Ready (inr tt)) =>
      Some (inbound_session, [NotifyBehaviour (HandlerGenerateEvent (SessionFinishedSuccessfully inbound_session_id))], true)
  | Done inbound_session Pending => Some (inbound_session, [], false)
  | _ => None
  end.

(** The closure of the first [retain]: the session, whether it stays, and the events. *)
Definition retain_inbound (marked : gset InboundSessionId) (io : InboundSessionId -> list io_outcome * list io_outcome)
    (inbound_session_id : InboundSessionId) (inbound_session : InboundSession) : option (InboundSession * bool * list HandlerEvent) :=
  match poll_inbound_session inbound_session inbound_session_id (io inbound_session_id).1 with
  | None => None
  | Some (inbound_session, events, true) => Some (inbound_session, false, events)
  | Some (inbound_session, events, false) =>
      if bool_decide (inbound_session_id ∈ marked) && is_waiting inbound_session then
        match start_closing inbound_session with
        | Done inbound_session _ =>
            match poll_inbound_session inbound_session inbound_session_id (io inbound_session_id).2 with
            | None => None
            | Some (inbound_session, events', true) => Some (inbound_session, false, events ++ events')
            | Some (inbound_session, events', false) => Some (inbound_session, true, events ++ events')
            end
        | _ => None
        end
      else Some (inbound_session, true, events)
  end.

(** [poll_next] of the stream of responses: the loop of [stream!]. *)
Definition poll_responses (self : ResponseStream) : option (ResponseStream * Poll (option (io_Error + Bytes))) :=
  match self with
  | Responses_Ended => Some (Responses_Ended, Ready None)
  | Responses_Reading read_stream =>
      match read_message read_stream with
      | None => None
      | Some Pending => Some (self, Pending)
      | Some (Ready (inr (Some (response, read_stream)))) => Some (Responses_Reading read_stream, Ready (Some (inr response)))
      | Some (Ready (inr None)) => Some (Responses_Ended, Ready None)
      | Some (Ready (inl error)) => Some (Responses_Ended, Ready (Some (inl error)))
      end
  end.

(** The closure of the second [retain]. *)
Definition retain_outbound (peer_id : PeerId) (outbound_session_id : OutboundSessionId) (outbound_session : ResponseStream) :
    option (ResponseStream * bool * list HandlerEvent) :=
  match poll_responses outbound_session with
  | None => None
  | Some (outbound_session, Ready (Some (inr response))) =>
      Some (outbound_session, true, [NotifyBehaviour (HandlerGenerateEvent (ReceivedResponse outbound_session_id response peer_id))])
  | Some (outbound_session, Ready (Some (inl io_error))) =>
      Some (outbound_session, false, [NotifyBehaviour (HandlerGenerateEvent (SessionFailed outbound_session_id (HandlerSessionError_IOError io_error)))])
  | Some (outbound_session, Ready None) =>
      Some (outbound_session, false, [NotifyBehaviour (HandlerGenerateEvent (SessionFinishedSuccessfully outbound_session_id))])
  | Some (outbound_session, Pending) => Some (outbound_session, true, [])
  end.

(** [HashMap::retain] with a closure that also changes the value and adds events:
    the entries that stay, those that are removed, and the events. *)
Fixpoint retain {K V : Type} `{Countable K} (f : K -> V -> option (V * bool * list HandlerEvent)) (entries : list (K * V)) :
    option (gmap K V * list (K * V) * list HandlerEvent) :=
  match entries with
  | [] => Some (∅, [], [])
  | (k, v) :: entries' =>
      match f k v with
      | None => None
      | Some (v', stays, events) =>
          match retain f entries' with
          | None => None
          | Some (m, removed, events') =>
              Some (if stays : bool then <[k := v']> m else m, if stays then removed else (k, v') :: removed, events ++ events')
          end
      end
  end.

(** [io] gives the outcomes of the writes of each inbound session. *)
Definition handler_poll (io : InboundSessionId -> list io_outcome * list io_outcome) : HandlerM (Poll HandlerEvent) :=
  let! self := get in
  let! (inbound, ended, events) := expect (retain (retain_inbound (inbound_sessions_marked_to_end self) io) (hm_iter (id_to_inbound_session self))) in
  modify (fun self => set_events (Handler_pending_events self ++ events) (set_inbound inbound (set_ended (ended_inbound_sessions self ++ ended) self))) ;!
  let! (outbound, _, events) := expect (retain (retain_outbound (Handler_peer_id self)) (hm_iter (id_to_outbound_session self))) in
  modify (fun self => set_events (Handler_pending_events self ++ events) (set_outbound outbound self)) ;!
  let! self := get in
  match Handler_pending_events self with
  | event :: events => modify (set_events events) ;! ret (Ready event)
  | [] => ret Pending
  end.

Definition on_behaviour_event (event : RequestFromBehaviourEvent) : HandlerM unit :=
  let! self := get in
  match event with
  | CreateOutboundSession query outbound_session_id protocol_name =>
      push_handler_event (OutboundSubstreamRequest (mkOutboundProtocol query protocol_name) outbound_session_id
        (session_timeout (Handler_config self)))
  | SendResponse response inbound_session_id =>
      match id_to_inbound_session self !! inbound_session_id with
      | Some inbound_session =>
          if decide (inbound_session_id ∈ inbound_sessions_marked_to_end self) then ret tt
          else modify (set_inbound (<[inbound_session_id := add_message_to_queue response inbound_session]> (id_to_inbound_session self)))
      | None => ret tt
      end
  | CloseInboundSession inbound_session_id =>
      modify (set_marked ({[inbound_session_id]} ∪ inbound_sessions_marked_to_end self))
  | DropSession (SessionId_OutboundSessionId outbound_session_id) =>
      modify (set_outbound (delete outbound_session_id (id_to_outbound_session self))) ;!
      match id_to_outbound_session self !! outbound_session_id with
      | None => modify (set_dropped ({[outbound_session_id]} ∪ dropped_outbound_sessions_non_negotiated self))
      | Some _ => ret tt
      end ;!
      push_handler_event (NotifyBehaviour (NotifySessionDropped outbound_session_id))
  | DropSession (SessionId_InboundSessionId inbound_session_id) =>
      modify (set_inbound (delete inbound_session_id (id_to_inbound_session self))) ;!
      push_handler_event (NotifyBehaviour (NotifySessionDropped inbound_session_id))
  end.

(** [StreamUpgradeError] and the [ConnectionEvent]s the handler acts on. *)
Inductive StreamUpgradeError : Type :=
| StreamUpgradeError_Timeout
| StreamUpgradeError_Apply (e : io_Error)
| StreamUpgradeError_NegotiationFailed
| StreamUpgradeError_Io (e : io_Error).

Inductive ConnectionEvent : Type :=
| FullyNegotiatedOutbound (read_stream : ReadHalf) (outbound_session_id : OutboundSessionId)
| FullyNegotiatedInbound (query : Bytes) (write_stream : WriteHalf) (protocol_name : StreamProtocol) (inbound_session_id : InboundSessionId)
| DialUpgradeError (outbound_session_id : OutboundSessionId) (upgrade_error : StreamUpgradeError)
| ConnectionEvent_Other.

Definition upgrade_session_error (config : SqmrConfig) (upgrade_error : StreamUpgradeError) : HandlerSessionError :=
  match upgrade_error with
  | StreamUpgradeError_Timeout => HandlerSessionError_Timeout (session_timeout config)
  | StreamUpgradeError_Apply outbound_protocol_error => HandlerSessionError_IOError outbound_protocol_error
  | StreamUpgradeError_NegotiationFailed => HandlerSessionError_RemoteDoesntSupportProtocol
  | StreamUpgradeError_Io error => HandlerSessionError_IOError error
  end.

Definition on_connection_event (event : ConnectionEvent) : HandlerM unit :=
  let! self := get in
  match event with
  | FullyNegotiatedOutbound read_stream outbound_session_id =>
      if decide (outbound_session_id ∈ dropped_outbound_sessions_non_negotiated self) then
        modify (set_dropped (dropped_outbound_sessions_non_negotiated self ∖ {[outbound_session_id]}))
      else modify (set_outbound (<[outbound_session_id := Responses_Reading read_stream]> (id_to_outbound_session self)))
  | FullyNegotiatedInbound query write_stream protocol_name inbound_session_id =>
      push_handler_event (NotifyBehaviour (HandlerGenerateEvent
        (NewInboundSession query inbound_session_id (Handler_peer_id self) protocol_name))) ;!
      modify (set_inbound (<[inbound_session_id := InboundSession_new write_stream]> (id_to_inbound_session self)))
  | DialUpgradeError outbound_session_id upgrade_error =>
      push_handler_event (NotifyBehaviour (HandlerGenerateEvent
        (SessionFailed outbound_session_id (upgrade_session_error (Handler_config self) upgrade_error))))
  | ConnectionEvent_Other => ret tt
  end.

End Handler.

(** ** The behaviour *)

Inductive SessionError : Type :=
| SessionError_Timeout (session_timeout : Z)
| SessionError_IOError (e : io_Error)
| SessionError_RemoteDoesntSupportProtocol
| SessionError_ConnectionClosed.

Abbreviation SqmrExternalEvent := (GenericEvent SessionError).

(** [impl From<GenericEvent<HandlerSessionError>> for GenericEvent<SessionError>]. *)
Definition GenericEvent_from (event : GenericEvent HandlerSessionError) : SqmrExternalEvent :=
  match event with
  | NewInboundSession query inbound_session_id peer_id protocol_name => NewInboundSession query inbound_session_id peer_id protocol_name
  | ReceivedResponse outbound_session_id response peer_id => ReceivedResponse outbound_session_id response peer_id
  | SessionFailed session_id (HandlerSessionError_Timeout t) => SessionFailed session_id (SessionError_Timeout t)
  | SessionFailed session_id (HandlerSessionError_IOError e) => SessionFailed session_id (SessionError_IOError e)
  | SessionFailed session_id HandlerSessionError_RemoteDoesntSupportProtocol =>
      SessionFailed session_id SessionError_RemoteDoesntSupportProtocol
  | SessionFinishedSuccessfully session_id => SessionFinishedSuccessfully session_id
  end.

Inductive SqmrEvent : Type :=
| SqmrEvent_External (event : SqmrExternalEvent)
| SqmrEvent_ToOtherBehaviourEvent (event : SqmrInternalEvent).

Inductive SqmrError : Type := SessionIdNotFoundError | PeerNotConnected.

Abbreviation SqmrToSwarm := (ToSwarm SqmrEvent RequestFromBehaviourEvent).

Record Behaviour : Type := mkBehaviour {
  Behaviour_config : SqmrConfig;
  Behaviour_pending_events : list SqmrToSwarm;
  connection_ids_map : gmap PeerId (gset ConnectionId);
  session_id_to_peer_id_and_connection_id : gmap SessionId (PeerId * ConnectionId);
  next_outbound_session_id : OutboundSessionId;
  next_inbound_session_id : Z;
  dropped_sessions : gset SessionId;
  outbound_sessions_pending_peer_assignment : gmap OutboundSessionId (Bytes * StreamProtocol);
  supported_inbound_protocols : gset StreamProtocol
}.

Definition set_bevents x self := mkBehaviour (Behaviour_config self) x (connection_ids_map self) (session_id_to_peer_id_and_connection_id self)
  (next_outbound_session_id self) (next_inbound_session_id self) (dropped_sessions self) (outbound_sessions_pending_peer_assignment self) (supported_inbound_protocols self).
Definition set_connections x self := mkBehaviour (Behaviour_config self) (Behaviour_pending_events self) x (session_id_to_peer_id_and_connection_id self)
  (next_outbound_session_id self) (next_inbound_session_id self) (dropped_sessions self) (outbound_sessions_pending_peer_assignment self) (supported_inbound_protocols self).
Definition set_sessions x self := mkBehaviour (Behaviour_config self) (Behaviour_pending_events self) (connection_ids_map self) x
  (next_outbound_session_id self) (next_inbound_session_id self) (dropped_sessions self) (outbound_sessions_pending_peer_assignment self) (supported_inbound_protocols self).
Definition set_next_outbound x self := mkBehaviour (Behaviour_config self) (Behaviour_pending_events self) (connection_ids_map self)
  (session_id_to_peer_id_and_connection_id self) x (next_inbound_session_id self) (dropped_sessions self) (outbound_sessions_pending_peer_assignment self) (supported_inbound_protocols self).
Definition set_dropped_sessions x self := mkBehaviour (Behaviour_config self) (Behaviour_pending_events self) (connection_ids_map self)
  (session_id_to_peer_id_and_connection_id self) (next_outbound_session_id self) (next_inbound_session_id self) x (outbound_sessions_pending_peer_assignment self) (supported_inbound_protocols self).
Definition set_pending_assignment x self := mkBehaviour (Behaviour_config self) (Behaviour_pending_events self) (connection_ids_map self)
  (session_id_to_peer_id_and_connection_id self) (next_outbound_session_id self) (next_inbound_session_id self) (dropped_sessions self) x (supported_inbound_protocols self).
Definition set_protocols x self := mkBehaviour (Behaviour_config self) (Behaviour_pending_events self) (connection_ids_map self)
  (session_id_to_peer_id_and_connection_id self) (next_outbound_session_id self) (next_inbound_session_id self) (dropped_sessions self) (outbound_sessions_pending_peer_assignment self) x.

Abbreviation BehaviourM := (M Behaviour SqmrError).

Section Behaviour.
Context {HM : HashMapIter} {HS : HashSetIter}.

Definition Behaviour_new (config : SqmrConfig) : Behaviour :=
  mkBehaviour config [] ∅ ∅ (mkOutboundSessionId 0) 0 ∅ ∅ ∅.

Definition add_event_to_queue (event : SqmrToSwarm) : BehaviourM unit :=
  modify (fun self => set_bevents (Behaviour_pending_events self ++ [event]) self).

(** The next id; the counter wraps around in the release build. *)
Definition take_outbound_session_id : BehaviourM OutboundSessionId :=
  let! self := get in
  modify (set_next_outbound (mkOutboundSessionId (wrap 64 (OutboundSessionId_value (next_outbound_session_id self) + 1)))) ;!
  ret (next_outbound_session_id self).

Definition Behaviour_send_query (query : Bytes) (peer_id : PeerId) (protocol_name : StreamProtocol) : BehaviourM OutboundSessionId :=
  let! self := get in
  let! connection_id := ok_or_raise PeerNotConnected (head (hs_iter (default ∅ (connection_ids_map self !! peer_id)))) in
  let! outbound_session_id := take_outbound_session_id in
  modify (fun self => set_sessions
    (<[SessionId_OutboundSessionId outbound_session_id := (peer_id, connection_id)]> (session_id_to_peer_id_and_connection_id self)) self) ;!
  add_event_to_queue (NotifyHandler peer_id connection_id (CreateOutboundSession query outbound_session_id protocol_name)) ;!
  ret outbound_session_id.

Definition start_query (query : Bytes) (protocol_name : StreamProtocol) : BehaviourM OutboundSessionId :=
  let! outbound_session_id := take_outbound_session_id in
  modify (fun self => set_pending_assignment
    (<[outbound_session_id := (query, protocol_name)]> (outbound_sessions_pending_peer_assignment self)) self) ;!
  add_event_to_queue (GenerateEvent (SqmrEvent_ToOtherBehaviourEvent (RequestPeerAssignment outbound_session_id))) ;!
  ret outbound_session_id.

Definition get_peer_id_and_connection_id_from_session_id (session_id : SessionId) : BehaviourM (PeerId * ConnectionId) :=
  let! self := get in
  ok_or_raise SessionIdNotFoundError (session_id_to_peer_id_and_connection_id self !! session_id).

Definition send_response (response : Bytes) (inbound_session_id : InboundSessionId) : BehaviourM unit :=
  let! (peer_id, connection_id) := get_peer_id_and_connection_id_from_session_id inbound_session_id in
  add_event_to_queue (NotifyHandler peer_id connection_id (SendResponse response inbound_session_id)).

Definition close_inbound_session (inbound_session_id : InboundSessionId) : BehaviourM unit :=
  let! (peer_id, connection_id) := get_peer_id_and_connection_id_from_session_id inbound_session_id in
  add_event_to_queue (NotifyHandler peer_id connection_id (CloseInboundSession inbound_session_id)).

Definition drop_session (session_id : SessionId) : BehaviourM unit :=
  let! (peer_id, connection_id) := get_peer_id_and_connection_id_from_session_id session_id in
  let! self := get in
  if decide (session_id ∈ dropped_sessions self) then ret tt
  else
    modify (set_dropped_sessions ({[session_id]} ∪ dropped_sessions self)) ;!
    add_event_to_queue (NotifyHandler peer_id connection_id (DropSession session_id)).

Definition add_new_supported_inbound_protocol (protocol : StreamProtocol) : BehaviourM unit :=
  let! self := get in
  if decide (protocol ∈ supported_inbound_protocols self) then ret tt
  else modify (set_protocols ({[protocol]} ∪ supported_inbound_protocols self)).

(** The handler of a new connection, inbound or outbound. *)
Definition handle_established_connection (self : Behaviour) (peer_id : PeerId) : Handler :=
  Handler_new (Behaviour_config self) peer_id (supported_inbound_protocols self).

Definition sqmr_on_swarm_event (event : FromSwarm) : BehaviourM unit :=
  let! self := get in
  match event with
  | ConnectionEstablished peer_id connection_id =>
      modify (set_connections (<[peer_id := {[connection_id]} ∪ default ∅ (connection_ids_map self !! peer_id)]> (connection_ids_map self)))
  | ConnectionClosed peer_id connection_id _ =>
      let session_ids := (filter (fun e => e.2 = (peer_id, connection_id)) (hm_iter (session_id_to_peer_id_and_connection_id self))).*1 in
      modify (set_sessions (filter (fun e => e.2 <> (peer_id, connection_id)) (session_id_to_peer_id_and_connection_id self))) ;!
      for_each session_ids (fun session_id =>
        add_event_to_queue (GenerateEvent (SqmrEvent_External (SessionFailed session_id SessionError_ConnectionClosed))))
  | _ => ret tt
  end.

(** The match that records an event of a handler and says whether it is muted. *)
Definition record_event (peer_id : PeerId) (connection_id : ConnectionId) (converted_event : SqmrExternalEvent) : BehaviourM bool :=
  let! self := get in
  match converted_event with
  | NewInboundSession _ inbound_session_id _ _ =>
      modify (set_sessions (<[SessionId_InboundSessionId inbound_session_id := (peer_id, connection_id)]> (session_id_to_peer_id_and_connection_id self))) ;!
      ret false
  | SessionFailed session_id _ | SessionFinishedSuccessfully session_id =>
      modify (set_sessions (delete session_id (session_id_to_peer_id_and_connection_id self))) ;!
      modify (set_dropped_sessions (dropped_sessions self ∖ {[session_id]})) ;!
      ret (bool_decide (session_id ∈ dropped_sessions self))
  | ReceivedResponse outbound_session_id _ _ =>
      ret (bool_decide (SessionId_OutboundSessionId outbound_session_id ∈ dropped_sessions self))
  end.

Definition on_connection_handler_event (peer_id : PeerId) (connection_id : ConnectionId) (event : RequestToBehaviourEvent) : BehaviourM unit :=
  match event with
  | HandlerGenerateEvent event =>
      let converted_event := GenericEvent_from event in
      let! is_event_muted := record_event peer_id connection_id converted_event in
      if negb is_event_muted then add_event_to_queue (GenerateEvent (SqmrEvent_External converted_event)) else ret tt
  | NotifySessionDropped session_id =>
      modify (fun self => set_dropped_sessions (dropped_sessions self ∖ {[session_id]}) self)
  end.

(** [VecDeque::pop_front]. *)
Definition sqmr_poll : BehaviourM (Poll SqmrToSwarm) :=
  let! self := get in
  match Behaviour_pending_events self with
  | event :: events => modify (set_bevents events) ;! ret (Ready event)
  | [] => ret Pending
  end.

#[export] Instance Behaviour_bridged : BridgedBehaviour Behaviour SqmrError := {|
  on_other_behaviour_event := fun event =>
    match event with
    | FromPeerManager (SessionAssigned outbound_session_id peer_id connection_id) =>
        let! self := get in
        modify (set_sessions (<[SessionId_OutboundSessionId outbound_session_id := (peer_id, connection_id)]>
          (session_id_to_peer_id_and_connection_id self))) ;!
        match outbound_sessions_pending_peer_assignment self !! outbound_session_id with
        | Some (query, protocol_name) =>
            modify (set_pending_assignment (delete outbound_session_id (outbound_sessions_pending_peer_assignment self))) ;!
            add_event_to_queue (NotifyHandler peer_id connection_id (CreateOutboundSession query outbound_session_id protocol_name))
        | None => ret tt
        end
    | _ => ret tt
    end
|}.

End Behaviour.
