(* ===== verification/SqmrProps.v ===== *)
(** * Properties of the sessions

    Messages are read back from the bytes they were written as; a session of a
    server writes its responses in order and finishes when all are written; a
    session of a client receives them in order. *)

From stdpp Require Import base gmap list strings fin_maps.
From Stdlib Require Import ZArith Lia.
From S2P Require Import Prelude PeerManager Sqmr.

Section Messages.
Context {VA : VarintApi} {VS : VarintSpec}.

(** The bytes of a message, and of a sequence of messages. *)
Definition message_bytes (m : Bytes) : Bytes := varint_encode (zlength m) ++ m.
Definition wire (ms : list Bytes) : Bytes := mjoin (message_bytes <$> ms).

(** A message that a reader accepts. *)
Definition fits_message (m : Bytes) : Prop := zlength m <= MAX_MESSAGE_SIZE.

Lemma wire_app ms1 ms2 : wire (ms1 ++ ms2) = wire ms1 ++ wire ms2.
Proof. unfold wire. by rewrite fmap_app, join_app. Qed.

Lemma wire_snoc ms m : wire (ms ++ [m]) = wire ms ++ message_bytes m.
Proof. rewrite wire_app. unfold wire at 2. cbn. by rewrite app_nil_r. Qed.

Lemma written_message m io : written (write_message m io) = written io ++ message_bytes m.
Proof. unfold write_message, write_usize, write_all, message_bytes. cbn. by rewrite app_assoc. Qed.

Lemma message_on_wire_bytes m : message_on_wire m = message_bytes m.
Proof. unfold message_on_wire. by rewrite written_message. Qed.

Lemma write_closed_message m io : write_closed (write_message m io) = write_closed io.
Proof. done. Qed.

Lemma message_len_range m : fits_message m -> in_range 64 (zlength m).
Proof. unfold fits_message, in_range, MAX_MESSAGE_SIZE. pose proof (zlength_nonneg m). change (Z.shiftl 1 20) with 1048576. lia. Qed.

(** ** Reading *)

Lemma insufficient_short bs : varint_decode bs = inl Varint_Insufficient -> (length bs < 10)%nat.
Proof. intros Hd. destruct (decide (10 <= length bs)%nat) as [Hl|]; [|lia]. by apply varint_length in Hl. Qed.

Lemma read_usize_encoded fin n buffer rest tail :
  in_range 64 n -> varint_encode n = buffer ++ rest -> rest <> [] ->
  read_usize_loop fin buffer (rest ++ tail) = Some (Ready (inr (Some (n, tail)))).
Proof.
  intros Hn. revert buffer. induction rest as [|b rest IH]; intros buffer He Hne; [done|]. cbn [read_usize_loop app].
  rewrite decide_False by (apply Nat.lt_nge, insufficient_short; by eapply varint_prefix).
  destruct rest as [|b' rest].
  - rewrite <-He, varint_roundtrip by done. done.
  - rewrite (varint_prefix n (buffer ++ [b]) (b' :: rest)) by (try done; by rewrite He, <-app_assoc).
    apply IH; [by rewrite He, <-app_assoc|done].
Qed.

(** Part of a length, and nothing more. *)
Lemma read_usize_part fin n buffer rest more :
  in_range 64 n -> varint_encode n = buffer ++ rest ++ more -> more <> [] ->
  read_usize_loop fin buffer rest =
  Some (at_end (mkReadHalf [] fin) (match buffer ++ rest with [] => inr None | _ => inl io_Error_UnexpectedEof end)).
Proof.
  intros Hn. revert buffer. induction rest as [|b rest IH]; intros buffer He Hne; cbn [read_usize_loop].
  - rewrite decide_False by (apply Nat.lt_nge, insufficient_short; by eapply varint_prefix). by rewrite app_nil_r.
  - rewrite decide_False by (apply Nat.lt_nge, insufficient_short; by eapply varint_prefix).
    rewrite (varint_prefix n (buffer ++ [b]) (rest ++ more)); [|done|by rewrite He, <-app_assoc|by destruct rest].
    rewrite IH by (by rewrite ?He, <-?app_assoc). by rewrite <-app_assoc.
Qed.

Lemma read_message_encoded m rest fin :
  fits_message m -> read_message (mkReadHalf (message_bytes m ++ rest) fin) = Some (Ready (inr (Some (m, mkReadHalf rest fin)))).
Proof.
  intros Hm. unfold read_message, read_usize, message_bytes. cbn [read_end unread]. rewrite <-app_assoc.
  rewrite (read_usize_encoded fin (zlength m) [] (varint_encode (zlength m)) (m ++ rest)); [|by apply message_len_range|done|apply varint_nonempty].
  unfold fits_message in Hm. destruct (Z.ltb_spec MAX_MESSAGE_SIZE (zlength m)); [lia|].
  rewrite zlength_app. pose proof (zlength_nonneg rest). destruct (Z.leb_spec (zlength m) (zlength m + zlength rest)); [|lia].
  unfold zlength. rewrite Nat2Z.id, take_app_length, drop_app_length. done.
Qed.

(** Part of a message: the reader waits for the rest; the end of the stream is
    an error unless nothing was read. *)
Lemma read_message_part m bs more fin :
  fits_message m -> message_bytes m = bs ++ more -> more <> [] ->
  read_message (mkReadHalf bs fin) =
  Some (at_end (mkReadHalf bs fin) (match bs with [] => inr None | _ => inl io_Error_UnexpectedEof end)).
Proof.
  intros Hm He Hne. unfold read_message, read_usize. cbn [read_end unread]. unfold message_bytes in He.
  destruct (decide (length bs < length (varint_encode (zlength m)))%nat) as [Hlt|Hge].
  - assert (exists more', varint_encode (zlength m) = bs ++ more' /\ more' <> []) as (more' & He' & Hne').
    { exists (drop (length bs) (varint_encode (zlength m))). split.
      - rewrite <-(take_drop (length bs) (varint_encode (zlength m))) at 1. f_equal.
        apply (f_equal (take (length bs))) in He. rewrite take_app_le in He by lia. by rewrite take_app_length in He.
      - intros Hd. apply (f_equal length) in Hd. rewrite length_drop in Hd. cbn in Hd. lia. }
    rewrite (read_usize_part fin (zlength m) [] bs more') by (try done; by apply message_len_range). cbn [app].
    unfold at_end. cbn [read_end]. destruct fin; [done| |done]. by destruct bs.
  - assert (exists bs', bs = varint_encode (zlength m) ++ bs' /\ m = bs' ++ more) as (bs' & -> & Hm').
    { exists (drop (length (varint_encode (zlength m))) bs). split.
      - rewrite <-(take_drop (length (varint_encode (zlength m))) bs) at 1. f_equal.
        apply (f_equal (take (length (varint_encode (zlength m))))) in He. rewrite take_app_length, take_app_le in He by lia. done.
      - apply (f_equal (drop (length (varint_encode (zlength m))))) in He. by rewrite drop_app_length, drop_app_le in He by lia. }
    rewrite (read_usize_encoded fin (zlength m) [] (varint_encode (zlength m)) bs'); [|by apply message_len_range|done|apply varint_nonempty].
    unfold fits_message in Hm. destruct (Z.ltb_spec MAX_MESSAGE_SIZE (zlength m)); [lia|].
    destruct (Z.leb_spec (zlength m) (zlength bs')) as [Hle|_].
    + rewrite Hm', zlength_app in Hle. destruct more; [done|]. unfold zlength in Hle. cbn in Hle. lia.
    + unfold at_end. cbn [read_end]. destruct fin; [done| |done]. pose proof (varint_nonempty (zlength m)). by destruct (varint_encode (zlength m)).
Qed.

(** Whatever arrives, reading does not panic. *)
Lemma read_usize_safe fin buffer bs : (length buffer < 10)%nat -> is_Some (read_usize_loop fin buffer bs).
Proof.
  revert buffer. induction bs as [|b bs IH]; intros buffer Hb; cbn [read_usize_loop]; rewrite decide_False by lia; [by eexists|].
  destruct (varint_decode (buffer ++ [b])) as [[|]|[]] eqn:Hd; [|by eexists..]. by apply IH, insufficient_short.
Qed.

Lemma read_message_safe io : is_Some (read_message io).
Proof.
  unfold read_message, read_usize. destruct (read_usize_safe (read_end io) [] (unread io)) as [r ->]; [cbn; lia|].
  destruct r as [[e|[[]|]]|]; by eexists.
Qed.

(** ** A session of a server *)

(** Everything the session has written or will write. *)
Definition session_bytes (s : InboundSession) : Bytes :=
  match current_task s with
  | Task_Waiting w | Task_Closing w => written w
  | Task_Running unwritten w => written w ++ unwritten
  end ++ wire (pending_messages s).

Definition task_stream (t : WriteMessageTask) : WriteHalf :=
  match t with Task_Waiting w | Task_Running _ w | Task_Closing w => w end.

Definition is_closing (s : InboundSession) : Prop := exists w, current_task s = Task_Closing w.

(** A session that closes has nothing to write. *)
Definition session_ok (s : InboundSession) : Prop := (is_closing s -> pending_messages s = []) /\ (write_closed (task_stream (current_task s)) = true -> is_closing s).

Lemma session_bytes_start d pend w :
  session_bytes (mkInboundSession pend (Task_Running (message_on_wire d) w)) = session_bytes (mkInboundSession (d :: pend) (Task_Waiting w)).
Proof. unfold session_bytes. cbn [current_task pending_messages]. rewrite message_on_wire_bytes, <-app_assoc. done. Qed.

Lemma poll_loop_ok outcomes s :
  session_ok s -> exists s' r, poll_loop outcomes s = Done s' r /\ session_bytes s' = session_bytes s /\ session_ok s' /\
    (is_closing s' <-> is_closing s) /\
    (r = Ready FinishReason_Closed -> is_closing s /\ write_closed (task_stream (current_task s')) = true).
Proof.
  revert s. induction outcomes as [|o outcomes IH]; intros [pend task] [Hc Hw]; cbn [poll_loop]; run_steps; cbn [current_task] in *.
  - destruct task as [w|d w|w].
    + unfold handle_waiting. run_steps. cbn. destruct pend as [|d pend]; cbn.
      * eexists _, _. by repeat split.
      * eexists _, _. split; [reflexivity|]. cbn. split; [apply session_bytes_start|].
        split; [split; [by intros [? [=]]|intros Hwc; destruct (Hw Hwc) as [? [=]]]|]. split; [split; by intros [? [=]]|done].
    + eexists _, _. by repeat split.
    + unfold handle_closing. run_steps. cbn. eexists _, _. by repeat split.
  - assert (Hrun : forall d w pend', write_closed w = false ->
      exists s' r, (let! r := handle_running o in match r with Pending => ret Pending | Ready (Some f) => ret (Ready f) | Ready None => poll_loop outcomes end)
        (mkInboundSession pend' (Task_Running d w)) = Done s' r /\
      session_bytes s' = session_bytes (mkInboundSession pend' (Task_Running d w)) /\ session_ok s' /\
      (is_closing s' <-> False) /\ (r = Ready FinishReason_Closed -> False)).
    { intros d w pend' Hwc. unfold handle_running. run_steps. cbn [current_task]. assert (Hnc : ~ is_closing (mkInboundSession pend' (Task_Running d w))) by (by intros [? [=]]).
      assert (Htake : forall taken, session_bytes (mkInboundSession pend' (take_bytes taken d w)) = session_bytes (mkInboundSession pend' (Task_Running d w)) /\
        session_ok (mkInboundSession pend' (take_bytes taken d w)) /\ ~ is_closing (mkInboundSession pend' (take_bytes taken d w))).
      { intros taken. split; [unfold session_bytes; cbn; by rewrite <-!app_assoc, (app_assoc (take taken d)), take_drop|].
        split; [split; [by intros [? [=]]|cbn; by rewrite Hwc]|by intros [? [=]]]. }
      destruct o as [taken| |taken e]; run_steps.
      - unfold put, bind. cbn. destruct (Htake taken) as (H1 & H2 & H3). eexists _, _. split; [reflexivity|]. by split_and!.
      - unfold put, bind. cbn. destruct (IH (mkInboundSession pend' (Task_Waiting (write_all d w)))) as (s' & r & -> & Hb & Hok & Hcl & Hr).
        { split; [by intros [? [=]]|]. cbn. by rewrite Hwc. }
        eexists _, _. split; [reflexivity|]. split; [by rewrite Hb|].
        split; [done|]. split; [rewrite Hcl; split; [by intros [? [=]]|done]|]. intros Hrc. destruct (Hr Hrc) as [[? [=]] _].
      - unfold put, bind. cbn. destruct (Htake taken) as (H1 & H2 & H3). eexists _, _. split; [reflexivity|]. by split_and!. }
    destruct task as [w|d w|w].
    + unfold handle_waiting at 1. run_steps. cbn [pending_messages]. destruct pend as [|d pend].
      * eexists _, _. by repeat split.
      * cbn [current_task]. unfold put. rewrite bind_assoc. unfold bind at 1. run_steps.
        destruct (Hrun (message_on_wire d) w pend) as (s' & r & -> & Hb & Hok & Hcl & Hr).
        { cbn in Hw. destruct (write_closed w); [|done]. by destruct Hw as [? [=]]. }
        eexists _, _. split; [reflexivity|]. split; [rewrite Hb; apply session_bytes_start|]. split; [done|].
        split; [rewrite Hcl; split; [done|by intros [? [=]]]|]. intros Hrc. by destruct (Hr Hrc).
    + destruct (Hrun d w pend) as (s' & r & -> & Hb & Hok & Hcl & Hr).
      { cbn in Hw. destruct (write_closed w); [|done]. by destruct Hw as [? [=]]. }
      eexists _, _. split; [reflexivity|]. split; [done|]. split; [done|].
      split; [rewrite Hcl; split; [done|by intros [? [=]]]|]. intros Hrc. by destruct (Hr Hrc).
    + unfold handle_closing. run_steps. cbn. destruct o as [taken| |taken e]; cbn.
      * eexists _, _. by repeat split.
      * eexists _, _. split; [reflexivity|]. split; [done|]. split; [split; [intros _; apply Hc; by eexists|by eexists]|]. split; [split; by eexists|]. intros _. split; [by eexists|done].
      * eexists _, _. by repeat split.
Qed.

End Messages.

(** ** Runs of a handler *)

(** Bytes, or the end of the stream, arrive on the stream of an outbound session. *)
Definition receive_bytes (id : OutboundSessionId) (bs : Bytes) (fin : StreamEnd) : HandlerM unit :=
  let! self := get in
  match id_to_outbound_session self !! id with
  | Some (Responses_Reading io) =>
      match read_end io with
      | Stream_Open =>
          modify (set_outbound (<[id := Responses_Reading (mkReadHalf (unread io ++ bs) fin)]> (id_to_outbound_session self)))
      | _ => ret tt
      end
  | _ => ret tt
  end.

Inductive handler_op : Type :=
| Hop_behaviour (event : RequestFromBehaviourEvent)
| Hop_connection (event : ConnectionEvent)
| Hop_arrive (id : OutboundSessionId) (bs : Bytes) (fin : StreamEnd)
| Hop_poll (io : InboundSessionId -> list io_outcome * list io_outcome).

(** The session an event of a handler is about. *)
Definition event_session (e : HandlerEvent) : option SessionId :=
  match e with
  | NotifyBehaviour (HandlerGenerateEvent event) =>
      Some (match event with
            | NewInboundSession _ id _ _ => SessionId_InboundSessionId id
            | ReceivedResponse id _ _ => SessionId_OutboundSessionId id
            | SessionFailed id _ | SessionFinishedSuccessfully id => id
            end)
  | _ => None
  end.

Definition about (id : SessionId) (log : list HandlerEvent) : list HandlerEvent :=
  filter (fun e => event_session e = Some id) log.

Lemma about_app id l1 l2 : about id (l1 ++ l2) = about id l1 ++ about id l2.
Proof. apply filter_app. Qed.

Lemma about_all id l : Forall (fun e => event_session e = Some id) l -> about id l = l.
Proof. unfold about. induction 1; [done|]. rewrite filter_cons_True by done. by f_equal. Qed.

Lemma about_none id l : Forall (fun e => event_session e <> Some id) l -> about id l = [].
Proof. unfold about. induction 1; [done|]. by rewrite filter_cons_False by done. Qed.

(** ** Polling the sessions of a map *)

Section Retain.
Context {K V : Type} `{Countable K} (sid : K -> SessionId) `{!Inj (=) (=) sid}.
Context (f : K -> V -> option (V * bool * list HandlerEvent)).

(** The closure returns, and its events are about its own session. *)
Definition own_events : Prop :=
  forall k v v' stays ev, f k v = Some (v', stays, ev) -> Forall (fun e => event_session e = Some (sid k)) ev.

Lemma retain_other entries m removed ev k :
  own_events -> retain f entries = Some (m, removed, ev) -> k ∉ entries.*1 ->
  m !! k = None /\ about (sid k) ev = [] /\ forall v, (k, v) ∉ removed.
Proof.
  intros Hown. revert m removed ev. induction entries as [|[k1 v1] entries IH]; intros m removed ev; cbn [retain].
  - intros [= <- <- <-] _. split; [apply lookup_empty|]. split; [done|]. intros v. apply not_elem_of_nil.
  - destruct (f k1 v1) as [[[v1' st] ev1]|] eqn:Hf; [|done]. destruct (retain f entries) as [[[m' removed'] ev']|]; [|done].
    intros [= <- <- <-] Hk. cbn in Hk. apply not_elem_of_cons in Hk as [Hne Hk]. destruct (IH _ _ _ eq_refl Hk) as (Hm & Ha & Hr).
    split; [destruct st; [by rewrite lookup_insert_ne|done]|]. split.
    + rewrite about_app, Ha, app_nil_r. apply about_none. eapply Forall_impl; [by eapply Hown|]. intros e He Hk'. rewrite He in Hk'.
      injection Hk' as Hk'. apply (inj sid) in Hk'. congruence.
    + intros v. destruct st; [apply Hr|]. rewrite not_elem_of_cons. split; [congruence|apply Hr].
Qed.

Lemma retain_lookup entries m removed ev k v v' stays ev' :
  own_events -> NoDup entries.*1 -> retain f entries = Some (m, removed, ev) -> (k, v) ∈ entries -> f k v = Some (v', stays, ev') ->
  m !! k = (if stays then Some v' else None) /\ about (sid k) ev = ev' /\ (stays = false -> (k, v') ∈ removed).
Proof.
  intros Hown. revert m removed ev. induction entries as [|[k1 v1] entries IH]; intros m removed ev Hnd; cbn [retain]; [by intros _ ?%elem_of_nil|].
  cbn in Hnd. apply NoDup_cons in Hnd as [Hk1 Hnd]. destruct (f k1 v1) as [[[v1' st] ev1]|] eqn:Hf; [|done].
  destruct (retain f entries) as [[[m' removed'] ev2]|] eqn:Hr; [|done]. intros [= <- <- <-] Hin Hfk. rewrite about_app.
  apply elem_of_cons in Hin as [Heq|Hin].
  - injection Heq as -> ->. rewrite Hf in Hfk. injection Hfk as -> -> ->. destruct (retain_other _ _ _ _ _ Hown Hr Hk1) as (Hm & Ha & _). rewrite Ha, app_nil_r.
    split; [destruct stays; [apply lookup_insert_eq|done]|]. split; [apply about_all; by eapply Hown|]. intros ->. left.
  - assert (Hne : k <> k1). { intros ->. apply Hk1. apply list_elem_of_fmap. by exists (k1, v). }
    destruct (IH _ _ _ Hnd eq_refl Hin Hfk) as (Hm & Ha & Hrem).
    split; [destruct st; [by rewrite lookup_insert_ne|done]|]. split; [|intros Hst; specialize (Hrem Hst); destruct st; [done|by right]].
    rewrite Ha. rewrite about_none; [done|]. eapply Forall_impl; [by eapply Hown|]. intros e He Hk'. rewrite He in Hk'.
    injection Hk' as Hk'. apply (inj sid) in Hk'. congruence.
Qed.

Lemma retain_total entries :
  (forall k v, (k, v) ∈ entries -> is_Some (f k v)) -> exists m removed ev, retain f entries = Some (m, removed, ev).
Proof.
  induction entries as [|[k v] entries IH]; intros Hf; cbn [retain]; [by eexists _, _, _|].
  destruct (Hf k v) as [[[v' st] ev] ->]; [left|]. destruct IH as (m & removed & ev' & ->); [intros k2 v2 Hin; apply Hf; by right|].
  by eexists _, _, _.
Qed.

(** Events of sessions of another kind. *)
Lemma retain_unrelated entries m removed ev id :
  own_events -> retain f entries = Some (m, removed, ev) -> (forall k, sid k <> id) -> about id ev = [].
Proof.
  intros Hown. revert m removed ev. induction entries as [|[k1 v1] entries IH]; intros m removed ev; cbn [retain]; [by intros [= <- <- <-]|].
  destruct (f k1 v1) as [[[v1' st] ev1]|] eqn:Hf; [|done]. destruct (retain f entries) as [[[m' removed'] ev']|]; [|done].
  intros [= <- <- <-] Hid. rewrite about_app, (IH _ _ _ eq_refl Hid), app_nil_r. apply about_none.
  eapply Forall_impl; [by eapply Hown|]. intros e He. rewrite He. intros [=]. by eapply Hid.
Qed.

End Retain.

#[global] Instance inbound_id_inj : Inj (=) (=) SessionId_InboundSessionId.
Proof. by intros ? ? [=]. Qed.
#[global] Instance outbound_id_inj : Inj (=) (=) SessionId_OutboundSessionId.
Proof. by intros ? ? [=]. Qed.

Section Sessions.
Context {VA : VarintApi} {VS : VarintSpec} {HM : HashMapIter}.

Definition finished (id : SessionId) : HandlerEvent := NotifyBehaviour (HandlerGenerateEvent (SessionFinishedSuccessfully id)).
Definition failed (id : SessionId) (e : HandlerSessionError) : HandlerEvent := NotifyBehaviour (HandlerGenerateEvent (SessionFailed id e)).
Definition received (peer_id : PeerId) (id : OutboundSessionId) (m : Bytes) : HandlerEvent :=
  NotifyBehaviour (HandlerGenerateEvent (ReceivedResponse id m peer_id)).

(** ** One session of a server under a poll *)

Definition ready_closed (s : InboundSession) : Prop :=
  write_closed (task_stream (current_task s)) = true /\ written (task_stream (current_task s)) = session_bytes s.

Lemma poll_inbound_session_ok s id outcomes :
  session_ok s -> exists s' ev fin, poll_inbound_session s id outcomes = Some (s', ev, fin) /\
    session_bytes s' = session_bytes s /\ session_ok s' /\ (is_closing s' <-> is_closing s) /\
    (if fin then (exists e, ev = [failed id (HandlerSessionError_IOError e)]) \/ (ev = [finished id] /\ is_closing s /\ ready_closed s') else ev = []).
Proof.
  intros Hs. unfold poll_inbound_session, inbound_session_poll. destruct (poll_loop_ok outcomes s Hs) as (s' & r & Hr & Hb & Hok & Hcl & Hend).
  rewrite (bind_step _ _ _ _ _ Hr). destruct r as [[e|]|]; cbn.
  - eexists _, _, true. split; [reflexivity|]. split; [done|]. split; [done|]. split; [done|]. left. by eexists.
  - eexists _, _, true. split; [reflexivity|]. split; [done|]. split; [done|]. split; [done|]. right. destruct (Hend eq_refl) as [Hc Hw].
    split; [done|]. split; [done|]. split; [done|]. apply Hcl in Hc. destruct Hok as [Hp _]. specialize (Hp Hc). destruct Hc as [w Hc].
    unfold session_bytes. rewrite Hc, Hp. cbn. by rewrite app_nil_r.
  - by eexists _, _, false.
Qed.

Lemma retain_inbound_ok marked io id s :
  session_ok s -> (is_closing s -> id ∈ marked) ->
  exists s' stays ev, retain_inbound marked io id s = Some (s', stays, ev) /\
    session_bytes s' = session_bytes s /\ session_ok s' /\ (is_closing s' -> id ∈ marked) /\
    (if stays : bool then ev = [] else (exists e, ev = [failed id (HandlerSessionError_IOError e)]) \/ (ev = [finished id] /\ id ∈ marked /\ ready_closed s')).
Proof.
  intros Hs Hm. unfold retain_inbound. destruct (poll_inbound_session_ok s id (io id).1 Hs) as (s1 & ev1 & fin1 & -> & Hb1 & Hok1 & Hcl1 & He1).
  destruct fin1.
  - eexists _, _, _. split; [reflexivity|]. split; [done|]. split; [done|]. split; [rewrite Hcl1; done|]. naive_solver.
  - subst ev1. destruct (bool_decide (id ∈ marked) && is_waiting s1) eqn:Hc.
    + apply andb_true_iff in Hc as [Hin%bool_decide_eq_true Hw]. destruct s1 as [[|] [w| |]]; try done.
      assert (Hok2 : session_ok (mkInboundSession [] (Task_Closing w))) by (split; [done|by eexists]). cbn [start_closing bind get current_task pending_messages put].
      destruct (poll_inbound_session_ok (mkInboundSession [] (Task_Closing w)) id (io id).2 Hok2) as (s2 & ev2 & fin2 & -> & Hb2 & Hok3 & Hcl2 & He2).
      assert (Hb : session_bytes s2 = session_bytes s) by (rewrite Hb2, <-Hb1; done).
      destruct fin2; eexists _, _, _; (split; [reflexivity|]); (split; [exact Hb|]); (split; [done|]); (split; [done|]); [naive_solver|done].
    + eexists _, _, _. split; [reflexivity|]. split; [done|]. split; [done|]. split; [rewrite Hcl1; done|done].
Qed.

Lemma retain_inbound_own marked io : own_events SessionId_InboundSessionId (retain_inbound marked io).
Proof.
  intros id s s' stays ev. unfold retain_inbound.
  assert (Hown : forall s o s1 ev1 fin, poll_inbound_session s id o = Some (s1, ev1, fin) -> Forall (fun e => event_session e = Some (SessionId_InboundSessionId id)) ev1).
  { intros s0 o s1 ev1 fin. unfold poll_inbound_session. destruct (inbound_session_poll o s0) as [? [[|[]]|]| |]; intros [= <- <- <-]; by repeat constructor. }
  destruct (poll_inbound_session s id (io id).1) as [[[s1 ev1] []]|] eqn:H1; [| |done].
  - intros [= <- <- <-]. by eapply Hown.
  - destruct (_ && _); [|intros [= <- <- <-]; by eapply Hown]. destruct (start_closing s1) as [s2 []| |]; [|done..].
    destruct (poll_inbound_session s2 id (io id).2) as [[[s3 ev3] []]|] eqn:H3; [| |done]; intros [= <- <- <-];
      apply Forall_app; split; by eapply Hown.
Qed.

(** ** One session of a client under a poll *)

Lemma retain_outbound_own peer_id : own_events SessionId_OutboundSessionId (retain_outbound peer_id).
Proof.
  intros id s s' stays ev. unfold retain_outbound. destruct (poll_responses s) as [[s1 [[[|]|]|]]|]; [..|done]; intros [= <- <- <-]; by repeat constructor.
Qed.

Lemma retain_outbound_total peer_id id s : is_Some (retain_outbound peer_id id s).
Proof.
  unfold retain_outbound, poll_responses. destruct s as [io|]; [|by eexists].
  destruct (read_message_safe io) as [r ->]. destruct r as [[e|[[m io']|]]|]; by eexists.
Qed.

(** The bytes that arrived are the next messages [rest], so far as they go. *)
Lemma retain_outbound_ok peer_id id rest io more :
  Forall fits_message rest -> wire rest = unread io ++ more -> (read_end io = Stream_Open \/ read_end io = Stream_Eof /\ more = []) ->
  (exists m rest' io', rest = m :: rest' /\ wire rest' = unread io' ++ more /\ read_end io' = read_end io /\
    retain_outbound peer_id id (Responses_Reading io) = Some (Responses_Reading io', true, [received peer_id id m])) \/
  (read_end io = Stream_Open /\ retain_outbound peer_id id (Responses_Reading io) = Some (Responses_Reading io, true, [])) \/
  (rest = [] /\ read_end io = Stream_Eof /\ retain_outbound peer_id id (Responses_Reading io) = Some (Responses_Ended, false, [finished id])).
Proof.
  intros Hfit Hw Hend. destruct io as [bs fin]. cbn [unread read_end] in *. unfold retain_outbound, poll_responses.
  destruct rest as [|m rest].
  - cbn in Hw. symmetry in Hw. apply app_nil in Hw as [-> ->]. unfold read_message, read_usize. cbn. rewrite decide_False by lia. unfold at_end. cbn.
    destruct Hend as [->|[-> _]]; [right; left|right; right]; done.
  - apply Forall_cons in Hfit as [Hm Hfit]. unfold wire in Hw. cbn [fmap list_fmap mjoin list_join] in Hw.
    change (mjoin (message_bytes <$> rest)) with (wire rest) in Hw.
    destruct (decide (length (message_bytes m) <= length bs)%nat) as [Hle|Hgt].
    + left. assert (exists bs', bs = message_bytes m ++ bs' /\ wire rest = bs' ++ more) as (bs' & -> & Hrest).
      { exists (drop (length (message_bytes m)) bs). split.
        - rewrite <-(take_drop (length (message_bytes m)) bs) at 1. f_equal.
          apply (f_equal (take (length (message_bytes m)))) in Hw. by rewrite take_app_length, take_app_le in Hw by lia.
        - apply (f_equal (drop (length (message_bytes m)))) in Hw. by rewrite drop_app_length, drop_app_le in Hw by lia. }
      exists m, rest, (mkReadHalf bs' fin). rewrite read_message_encoded by done. done.
    + assert (exists more', message_bytes m = bs ++ more' /\ more' <> []) as (more' & He & Hne).
      { exists (drop (length bs) (message_bytes m)). split.
        - rewrite <-(take_drop (length bs) (message_bytes m)) at 1. f_equal.
          apply (f_equal (take (length bs))) in Hw. by rewrite take_app_le, take_app_length in Hw by lia.
        - intros Hd. apply (f_equal length) in Hd. rewrite length_drop in Hd. cbn in Hd. lia. }
      rewrite (read_message_part m bs more' fin Hm He Hne). unfold at_end. cbn [read_end]. destruct Hend as [->|[-> ->]]; [right; left; done|].
      apply (f_equal length) in Hw. rewrite app_nil_r, length_app in Hw. lia.
Qed.

End Sessions.
