(* ===== verification/SqmrRuns.v ===== *)
(** * Runs of the query protocol

    A handler under any sequence of requests of the behaviour, events of the
    connection, arriving bytes and polls: what becomes of one inbound and of one
    outbound session. A behaviour under any sequence of its operations: every
    query is sent once. *)

From stdpp Require Import base gmap list strings fin_maps.
From Stdlib Require Import ZArith Lia.
From S2P Require Import Prelude PeerManager Sqmr SqmrProps.

Section Handlers.
Context {VA : VarintApi} {VS : VarintSpec} {HM : HashMapIter}.

Definition polled {A} (r : Poll A) : list A := match r with Ready a => [a] | Pending => [] end.

(** An operation, with the events it hands to the swarm. *)
Definition handler_apply (op : handler_op) : HandlerM (list HandlerEvent) :=
  match op with
  | Hop_behaviour event => on_behaviour_event event ;! ret []
  | Hop_connection event => on_connection_event event ;! ret []
  | Hop_arrive id bs fin => receive_bytes id bs fin ;! ret []
  | Hop_poll io => let! r := handler_poll io in ret (polled r)
  end.

Fixpoint handler_run (ops : list handler_op) (h : Handler) : option (Handler * list HandlerEvent) :=
  match ops with
  | [] => Some (h, [])
  | op :: ops' =>
      match handler_apply op h with
      | Done h1 events => prod_map id (app events) <$> handler_run ops' h1
      | _ => None
      end
  end.

(** The events of a run: those handed to the swarm, then those in the queue. *)
Definition event_log (h : Handler) (emitted : list HandlerEvent) : list HandlerEvent := emitted ++ Handler_pending_events h.

(** ** The invariant of the sessions *)

Definition handler_ok (h : Handler) : Prop :=
  forall id s, id_to_inbound_session h !! id = Some s -> session_ok s /\ (is_closing s -> id ∈ inbound_sessions_marked_to_end h).

(** A stream that was just negotiated is open. *)
Definition open_op (op : handler_op) : Prop :=
  match op with Hop_connection (FullyNegotiatedInbound _ w _ _) => write_closed w = false | _ => True end.

Lemma handler_poll_ok h io :
  handler_ok h -> exists inb gone ev1 outb gone2 ev2 h' r,
    retain (retain_inbound (inbound_sessions_marked_to_end h) io) (hm_iter (id_to_inbound_session h)) = Some (inb, gone, ev1) /\
    retain (retain_outbound (Handler_peer_id h)) (hm_iter (id_to_outbound_session h)) = Some (outb, gone2, ev2) /\
    handler_poll io h = Done h' r /\ polled r ++ Handler_pending_events h' = Handler_pending_events h ++ ev1 ++ ev2 /\
    h' = set_events (Handler_pending_events h') (set_outbound outb (set_inbound inb (set_ended (ended_inbound_sessions h ++ gone) h))).
Proof.
  intros Hok. destruct (retain_total (retain_inbound (inbound_sessions_marked_to_end h) io) (hm_iter (id_to_inbound_session h))) as (inb & gone & ev1 & Hr1).
  { intros id s Hin. apply elem_of_hm_iter in Hin. destruct (Hok id s Hin) as [Hs Hm].
    destruct (retain_inbound_ok (inbound_sessions_marked_to_end h) io id s Hs Hm) as (s' & st & ev & -> & _). by eexists. }
  destruct (retain_total (retain_outbound (Handler_peer_id h)) (hm_iter (id_to_outbound_session h))) as (outb & gone2 & ev2 & Hr2).
  { intros id s _. apply retain_outbound_total. }
  exists inb, gone, ev1, outb, gone2, ev2. unfold handler_poll. run_steps. rewrite Hr1. run_steps. cbn [id_to_outbound_session set_events set_inbound set_ended].
  rewrite Hr2. run_steps. cbn [Handler_pending_events set_events set_outbound set_inbound set_ended]. rewrite <-app_assoc.
  destruct (Handler_pending_events h ++ ev1 ++ ev2) as [|e l]; run_steps; eexists _, _; (split; [done|]); (split; [done|]); (split; [reflexivity|]); done.
Qed.

(** The new events are about a session only as its own poll says. *)
Lemma poll_inbound_view h io inb gone ev1 outb gone2 ev2 id :
  retain (retain_inbound (inbound_sessions_marked_to_end h) io) (hm_iter (id_to_inbound_session h)) = Some (inb, gone, ev1) ->
  retain (retain_outbound (Handler_peer_id h)) (hm_iter (id_to_outbound_session h)) = Some (outb, gone2, ev2) ->
  match id_to_inbound_session h !! id with
  | None => inb !! id = None /\ about (SessionId_InboundSessionId id) (ev1 ++ ev2) = []
  | Some s => forall s' stays ev, retain_inbound (inbound_sessions_marked_to_end h) io id s = Some (s', stays, ev) ->
      inb !! id = (if stays then Some s' else None) /\ about (SessionId_InboundSessionId id) (ev1 ++ ev2) = ev /\ (stays = false -> (id, s') ∈ gone)
  end.
Proof.
  intros H1 H2. rewrite about_app. rewrite (retain_unrelated SessionId_OutboundSessionId _ _ _ _ _ _ (retain_outbound_own _) H2) by done.
  rewrite app_nil_r. destruct (id_to_inbound_session h !! id) as [s|] eqn:Hs.
  - intros s' stays ev Hf. eapply (retain_lookup SessionId_InboundSessionId _ _ _ _ _ _ _ _ _ _ (retain_inbound_own _ _)); [apply hm_iter_NoDup|exact H1| |exact Hf].
    by apply elem_of_hm_iter.
  - destruct (retain_other SessionId_InboundSessionId _ _ _ _ _ id (retain_inbound_own _ _) H1) as (Hm & Ha & _); [|done].
    intros Hin. apply list_elem_of_fmap in Hin as ([k v] & Hk & Hin). cbn in Hk. subst k. apply elem_of_hm_iter in Hin. by rewrite Hs in Hin.
Qed.

Lemma poll_outbound_view h io inb gone ev1 outb gone2 ev2 id :
  retain (retain_inbound (inbound_sessions_marked_to_end h) io) (hm_iter (id_to_inbound_session h)) = Some (inb, gone, ev1) ->
  retain (retain_outbound (Handler_peer_id h)) (hm_iter (id_to_outbound_session h)) = Some (outb, gone2, ev2) ->
  match id_to_outbound_session h !! id with
  | None => outb !! id = None /\ about (SessionId_OutboundSessionId id) (ev1 ++ ev2) = []
  | Some s => forall s' stays ev, retain_outbound (Handler_peer_id h) id s = Some (s', stays, ev) ->
      outb !! id = (if stays then Some s' else None) /\ about (SessionId_OutboundSessionId id) (ev1 ++ ev2) = ev
  end.
Proof.
  intros H1 H2. rewrite about_app. rewrite (retain_unrelated SessionId_InboundSessionId _ _ _ _ _ _ (retain_inbound_own _ _) H1) by done.
  cbn [app]. destruct (id_to_outbound_session h !! id) as [s|] eqn:Hs.
  - intros s' stays ev Hf. destruct (retain_lookup SessionId_OutboundSessionId _ _ _ _ _ id s s' stays ev (retain_outbound_own _) (hm_iter_NoDup _) H2) as (Hm & Ha & _);
      [by apply elem_of_hm_iter|exact Hf|done].
  - destruct (retain_other SessionId_OutboundSessionId _ _ _ _ _ id (retain_outbound_own _) H2) as (Hm & Ha & _); [|done].
    intros Hin. apply list_elem_of_fmap in Hin as ([k v] & Hk & Hin). cbn in Hk. subst k. apply elem_of_hm_iter in Hin. by rewrite Hs in Hin.
Qed.

(** No operation panics, and the log grows at its end. *)
Lemma apply_handler_ok h op :
  handler_ok h -> open_op op -> exists h' ev new, handler_apply op h = Done h' ev /\ handler_ok h' /\ ev ++ Handler_pending_events h' = Handler_pending_events h ++ new.
Proof.
  intros Hok Hop. destruct op as [event|event|id bs fin|io]; cbn [handler_apply open_op] in *.
  - destruct event as [q id p|r id|id|[id|id]]; unfold on_behaviour_event, push_handler_event; run_steps.
    + eexists _, _, _. split; [reflexivity|]. by split.
    + destruct (id_to_inbound_session h !! id) as [s|] eqn:Hs; run_steps; [|eexists _, _, []; split; [reflexivity|]; by rewrite app_nil_r].
      case_decide as Hm; run_steps; [eexists _, _, []; split; [reflexivity|]; by rewrite app_nil_r|].
      eexists _, _, []. split; [reflexivity|]. split; [|by rewrite app_nil_r]. intros id' s'. cbn. intros [[<- <-]|[_ Hs']]%lookup_insert_Some; [|by apply Hok].
      destruct (Hok id s Hs) as [[Hp Hw] Hc]. split; [split; [intros Hcl; destruct Hm; by apply Hc|exact Hw]|exact Hc].
    + eexists _, _, []. split; [reflexivity|]. split; [|by rewrite app_nil_r]. intros id' s' Hs'. destruct (Hok id' s' Hs') as [? Hc]. cbn. set_solver.
    + destruct (id_to_outbound_session h !! id); run_steps; eexists _, _, _; (split; [reflexivity|]); by split.
    + eexists _, _, _. split; [reflexivity|]. split; [|done]. intros id' s'. cbn. intros [_ Hs']%lookup_delete_Some. by apply Hok.
  - destruct event as [r id|q w p id|id e|]; unfold on_connection_event, push_handler_event; run_steps.
    + case_decide; run_steps; eexists _, _, []; (split; [reflexivity|]); (split; [exact Hok|by rewrite app_nil_r]).
    + eexists _, _, _. split; [reflexivity|]. split; [|done]. intros id' s'. cbn. intros [[<- <-]|[_ Hs']]%lookup_insert_Some; [|by apply Hok].
      split; [split; [by intros [? [=]]|cbn; by rewrite Hop]|by intros [? [=]]].
    + eexists _, _, _. split; [reflexivity|]. by split.
    + eexists _, _, []. split; [reflexivity|]. by rewrite app_nil_r.
  - unfold receive_bytes. run_steps. destruct (id_to_outbound_session h !! id) as [[r|]|]; [destruct (read_end r)| |]; run_steps;
      eexists _, _, []; (split; [reflexivity|]); (split; [exact Hok|by rewrite app_nil_r]).
  - destruct (handler_poll_ok h io Hok) as (inb & gone & ev1 & outb & gone2 & ev2 & h' & r & H1 & H2 & Hp & Hlog & Hh).
    rewrite (bind_step _ _ _ _ _ Hp). eexists _, _, _. split; [reflexivity|]. split; [|exact Hlog].
    rewrite Hh. intros id s'. cbn. pose proof (poll_inbound_view h io _ _ _ _ _ _ id H1 H2) as Hv. intros Hs'.
    destruct (id_to_inbound_session h !! id) as [s|] eqn:Hs; [|destruct Hv as [Hv _]; by rewrite Hv in Hs'].
    destruct (Hok id s Hs) as [Hso Hm]. destruct (retain_inbound_ok _ io id s Hso Hm) as (s2 & st & ev & Hf & _ & Hok2 & Hm2 & _).
    destruct (Hv _ _ _ Hf) as (Hi & _). rewrite Hi in Hs'. destruct st; [|done]. simplify_eq. done.
Qed.

(** ** A session of a server in a run *)

(** The session is not negotiated again and not dropped. *)
Definition keeps_inbound (id : InboundSessionId) (op : handler_op) : Prop :=
  match op with
  | Hop_connection (FullyNegotiatedInbound _ _ _ id') => id' <> id
  | Hop_behaviour (DropSession (SessionId_InboundSessionId id')) => id' <> id
  | _ => True
  end.

(** The responses the behaviour asked to send before it asked to close the
    session, and whether it did. *)
Definition server_ghost (id : InboundSessionId) (g : list Bytes * bool) (op : handler_op) : list Bytes * bool :=
  match op with
  | Hop_behaviour (SendResponse r id') => if decide (id' = id) then (if g.2 then g else (g.1 ++ [r], g.2)) else g
  | Hop_behaviour (CloseInboundSession id') => if decide (id' = id) then (g.1, true) else g
  | _ => g
  end.

(** The session [id], whose events so far were [L0]. It will write exactly the
    responses; when it has ended, either a write failed, or the session was
    closed and all responses are on the stream. *)
Record server_inv (id : InboundSessionId) (L0 : list HandlerEvent) (g : list Bytes * bool) (h : Handler) (emitted : list HandlerEvent) : Prop := {
  si_ok : handler_ok h;
  si_marked : id ∈ inbound_sessions_marked_to_end h <-> g.2 = true;
  si_session :
    match id_to_inbound_session h !! id with
    | Some s => session_bytes s = wire g.1 /\ about id (event_log h emitted) = L0
    | None =>
        exists s, (id, s) ∈ ended_inbound_sessions h /\
          ((exists e, about id (event_log h emitted) = L0 ++ [failed id (HandlerSessionError_IOError e)]) \/
           (about id (event_log h emitted) = L0 ++ [finished id] /\ g.2 = true /\
            write_closed (task_stream (current_task s)) = true /\ written (task_stream (current_task s)) = wire g.1))
    end
}.

Lemma log_step (h h' : Handler) (emitted ev new : list HandlerEvent) :
  ev ++ Handler_pending_events h' = Handler_pending_events h ++ new -> event_log h' (emitted ++ ev) = event_log h emitted ++ new.
Proof. unfold event_log. intros He. by rewrite <-app_assoc, He, app_assoc. Qed.

(** A step that leaves the session, its mark and its events alone. *)
Lemma server_inv_frame id L0 g h h' emitted ev new :
  server_inv id L0 g h emitted -> handler_ok h' -> ev ++ Handler_pending_events h' = Handler_pending_events h ++ new ->
  about id new = [] -> id_to_inbound_session h' !! id = id_to_inbound_session h !! id ->
  (id ∈ inbound_sessions_marked_to_end h' <-> id ∈ inbound_sessions_marked_to_end h) ->
  ended_inbound_sessions h' = ended_inbound_sessions h -> server_inv id L0 g h' (emitted ++ ev).
Proof.
  intros [Hok Hm Hs] Hok' Hlog Hab Hi Hmk Hend. constructor; [done|by rewrite Hmk|].
  rewrite Hi, (log_step _ _ _ _ _ Hlog), about_app, Hab, app_nil_r, Hend. exact Hs.
Qed.

Lemma about_singleton_ne id e : event_session e <> Some id -> about id [e] = [].
Proof. intros He. apply about_none. by constructor. Qed.

Lemma log_same {A} (l new : list A) : [] ++ l = l ++ new -> new = [].
Proof. cbn. intros Hl. symmetry. apply (app_inv_head l). by rewrite app_nil_r. Qed.

Lemma log_one {A} (l new : list A) x : [] ++ (l ++ [x]) = l ++ new -> new = [x].
Proof. cbn. intros Hl. by apply app_inv_head in Hl. Qed.

(** What is known of an operation that was applied. *)
Definition applied (op : handler_op) (h h' : Handler) (ev new : list HandlerEvent) : Prop :=
  handler_apply op h = Done h' ev /\ handler_ok h' /\ ev ++ Handler_pending_events h' = Handler_pending_events h ++ new.

(** A step that adds no event, or one event about no session of this name. *)
Ltac inbound_frame Hlog Hinv Hok' :=
  let Hnew := fresh "Hnew" in
  first [apply log_same in Hlog as Hnew | apply log_one in Hlog as Hnew];
  apply (server_inv_frame _ _ _ _ _ _ _ _ Hinv Hok' Hlog); [rewrite Hnew; first [done | apply about_singleton_ne; cbn; congruence] | | |].

Lemma server_send id L0 g h emitted r id' h' ev new :
  server_inv id L0 g h emitted -> applied (Hop_behaviour (SendResponse r id')) h h' ev new ->
  server_inv id L0 (server_ghost id g (Hop_behaviour (SendResponse r id'))) h' (emitted ++ ev).
Proof.
  intros Hinv (Happ & Hok' & Hlog). pose proof Hinv as [Hok Hm Hs]. revert Happ. unfold handler_apply, on_behaviour_event, server_ghost. run_steps.
  destruct (id_to_inbound_session h !! id') as [s|] eqn:Hs'; run_steps.
  - case_decide as Hmk; run_steps; intros [= <- <-].
    + assert (Hg : (if decide (id' = id) then if g.2 then g else (g.1 ++ [r], g.2) else g) = g).
      { case_decide; [subst id'; apply Hm in Hmk; by rewrite Hmk|done]. } rewrite Hg. by rewrite app_nil_r.
    + case_decide as Hid; [|inbound_frame Hlog Hinv Hok'; [cbn; by rewrite lookup_insert_ne by congruence|done|done]].
      subst id'. assert (Hg : g.2 = false) by (destruct (g.2); [by destruct Hmk; apply Hm|done]). rewrite Hg. cbn [fst snd].
      constructor; [exact Hok'|cbn; rewrite <-Hg; exact Hm|]. cbn [id_to_inbound_session set_inbound fst snd]. rewrite lookup_insert_eq. rewrite Hs' in Hs. destruct Hs as [Hb Hl].
      unfold event_log in *. cbn [Handler_pending_events set_inbound]. rewrite app_nil_r. split; [|done]. rewrite wire_snoc, <-Hb. unfold session_bytes.
      cbn [current_task pending_messages add_message_to_queue]. rewrite wire_snoc. by rewrite app_assoc.
  - intros [= <- <-]. rewrite app_nil_r. case_decide as Hid; [|done].
    subst id'. destruct (g.2) eqn:Hg; [done|]. rewrite Hs' in Hs. constructor; [done|cbn; exact Hm|].
    rewrite Hs'. destruct Hs as (s & Hin & [He|(_ & Hf & _)]); [|congruence]. exists s. split; [done|]. by left.
Qed.

Lemma server_behaviour id L0 g h emitted event h' ev new :
  server_inv id L0 g h emitted -> keeps_inbound id (Hop_behaviour event) -> applied (Hop_behaviour event) h h' ev new ->
  server_inv id L0 (server_ghost id g (Hop_behaviour event)) h' (emitted ++ ev).
Proof.
  intros Hinv Hk Ha. destruct event as [q id' p|r id'|id'|[id'|id']]; [|by eapply server_send|..];
    destruct Ha as (Happ & Hok' & Hlog); pose proof Hinv as [Hok Hm Hs]; revert Happ; unfold handler_apply, on_behaviour_event, push_handler_event; run_steps.
  - intros [= <- <-]. by inbound_frame Hlog Hinv Hok'.
  - intros [= <- <-]. unfold server_ghost. case_decide as Hid; [|inbound_frame Hlog Hinv Hok'; cbn; set_solver].
    subst id'. constructor; [done|cbn; set_solver|]. cbn. unfold event_log in *. cbn. rewrite app_nil_r.
    destruct (id_to_inbound_session h !! id); [done|]. destruct Hs as (s & Hin & Hc). exists s. split; [done|]. naive_solver.
  - destruct (id_to_outbound_session h !! id'); run_steps; intros [= <- <-]; by inbound_frame Hlog Hinv Hok'.
  - intros [= <- <-]. inbound_frame Hlog Hinv Hok'; [|done|done]. cbn in *. by rewrite lookup_delete_ne by congruence.
Qed.

Lemma server_connection id L0 g h emitted event h' ev new :
  server_inv id L0 g h emitted -> keeps_inbound id (Hop_connection event) -> applied (Hop_connection event) h h' ev new ->
  server_inv id L0 g h' (emitted ++ ev).
Proof.
  intros Hinv Hk (Happ & Hok' & Hlog). pose proof Hinv as [Hok Hm Hs].
  destruct event as [r id'|q w p id'|id' e|]; revert Happ; unfold handler_apply, on_connection_event, push_handler_event; run_steps.
  - case_decide; run_steps; intros [= <- <-]; by inbound_frame Hlog Hinv Hok'.
  - intros [= <- <-]. cbn in Hk. inbound_frame Hlog Hinv Hok'; [|done|done]. cbn. by rewrite lookup_insert_ne by congruence.
  - intros [= <- <-]. by inbound_frame Hlog Hinv Hok'.
  - intros [= <- <-]. by rewrite app_nil_r.
Qed.

Lemma server_arrive id L0 g h emitted id' bs fin h' ev new :
  server_inv id L0 g h emitted -> applied (Hop_arrive id' bs fin) h h' ev new -> server_inv id L0 g h' (emitted ++ ev).
Proof.
  intros Hinv (Happ & Hok' & Hlog). revert Happ. unfold handler_apply, receive_bytes. run_steps.
  destruct (id_to_outbound_session h !! id') as [[r|]|]; [destruct (read_end r)| |]; run_steps; intros [= <- <-]; by inbound_frame Hlog Hinv Hok'.
Qed.

Lemma server_poll id L0 g h emitted io h' ev new :
  server_inv id L0 g h emitted -> applied (Hop_poll io) h h' ev new -> server_inv id L0 g h' (emitted ++ ev).
Proof.
  intros Hinv (Happ & Hok' & Hlog). pose proof Hinv as [Hok Hm Hs].
  destruct (handler_poll_ok h io Hok) as (inb & gone & ev1 & outb & gone2 & ev2 & h2 & r & H1 & H2 & Hp & Hlog2 & Hh).
  unfold handler_apply in Happ. rewrite (bind_step _ _ _ _ _ Hp) in Happ. injection Happ as -> <-. rewrite Hlog in Hlog2. apply app_inv_head in Hlog2. subst new.
  pose proof (poll_inbound_view h io _ _ _ _ _ _ id H1 H2) as Hv. constructor; [done|rewrite Hh; exact Hm|].
  rewrite (log_step _ _ _ _ _ Hlog), about_app. assert (Hinb : id_to_inbound_session h' = inb) by (by rewrite Hh). rewrite Hinb.
  assert (Hended : ended_inbound_sessions h' = ended_inbound_sessions h ++ gone) by (by rewrite Hh).
  destruct (id_to_inbound_session h !! id) as [s|] eqn:Hsid.
  - destruct (Hok id s Hsid) as [Hso Hmk]. destruct (retain_inbound_ok _ io id s Hso Hmk) as (s' & st & evs & Hf & Hb & _ & _ & Hev).
    destruct (Hv _ _ _ Hf) as (-> & -> & Hgone). destruct Hs as [Hbytes Hl]. rewrite Hl. destruct st; [subst evs; rewrite app_nil_r; split; [congruence|done]|].
    exists s'. split; [rewrite Hended; apply elem_of_app; right; by apply Hgone|].
    destruct Hev as [[e ->]|(-> & Hin & Hc & Hw)]; [left; by exists e|right]. split; [done|]. split; [by apply Hm|]. split; [done|]. cbn. congruence.
  - destruct Hv as [-> ->]. rewrite app_nil_r. destruct Hs as (s & Hin & Hc). exists s. split; [rewrite Hended; set_solver|exact Hc].
Qed.

Lemma server_step id L0 g h emitted op :
  server_inv id L0 g h emitted -> open_op op -> keeps_inbound id op ->
  exists h' ev, handler_apply op h = Done h' ev /\ server_inv id L0 (server_ghost id g op) h' (emitted ++ ev).
Proof.
  intros Hinv Hop Hk. destruct (apply_handler_ok h op (si_ok _ _ _ _ _ Hinv) Hop) as (h' & ev & new & Ha). exists h', ev. split; [apply Ha|].
  destruct op as [event|event|id' bs fin|io];
    [by eapply server_behaviour|by eapply server_connection|by eapply server_arrive|by eapply server_poll].
Qed.

Lemma server_run id L0 ops g h emitted :
  server_inv id L0 g h emitted -> Forall open_op ops -> Forall (keeps_inbound id) ops ->
  exists h' ev, handler_run ops h = Some (h', ev) /\ server_inv id L0 (foldl (server_ghost id) g ops) h' (emitted ++ ev).
Proof.
  revert g h emitted. induction ops as [|op ops IH]; intros g h emitted Hinv Hop Hk.
  - exists h, []. split; [done|]. by rewrite app_nil_r.
  - apply Forall_cons in Hop as [Hop Hops], Hk as [Hk Hks]. destruct (server_step id L0 g h emitted op Hinv Hop Hk) as (h1 & ev1 & Happ & Hinv1).
    destruct (IH _ _ _ Hinv1 Hops Hks) as (h2 & ev2 & Hrun & Hinv2). exists h2, (ev1 ++ ev2). cbn [handler_run]. rewrite Happ, Hrun.
    split; [done|]. by rewrite app_assoc.
Qed.

(** ** A session of a client in a run *)

(** The session is not negotiated again, not dropped, and its upgrade does not fail. *)
Definition keeps_outbound (id : OutboundSessionId) (op : handler_op) : Prop :=
  match op with
  | Hop_connection (FullyNegotiatedOutbound _ id') | Hop_connection (DialUpgradeError id' _) => id' <> id
  | Hop_behaviour (DropSession (SessionId_OutboundSessionId id')) => id' <> id
  | _ => True
  end.

(** The bytes that arrived for the session, and the end of its stream. *)
Definition client_ghost (id : OutboundSessionId) (g : Bytes * StreamEnd) (op : handler_op) : Bytes * StreamEnd :=
  match op with
  | Hop_arrive id' bs fin =>
      if decide (id' = id) then match g.2 with Stream_Open => (g.1 ++ bs, fin) | _ => g end else g
  | _ => g
  end.

(** The bytes are a part of [ms] on the wire; the stream ends after all of them. *)
Definition arriving (ms : list Bytes) (g : Bytes * StreamEnd) : Prop :=
  exists more, wire ms = g.1 ++ more /\ (g.2 = Stream_Open \/ g.2 = Stream_Eof /\ more = []).

Lemma arriving_before id ms g op : arriving ms (client_ghost id g op) -> arriving ms g.
Proof.
  unfold client_ghost. destruct op as [|?|id' bs fin|]; try done. case_decide; [|done]. destruct g as [arr [| |e]]; cbn; try done.
  intros (more & Hw & _). exists (bs ++ more). cbn in *. rewrite Hw, <-app_assoc. split; [done|by left].
Qed.

Lemma arriving_run id ms ops g : arriving ms (foldl (client_ghost id) g ops) -> arriving ms g.
Proof. revert g. induction ops as [|op ops IH]; intros g; [done|]. cbn [foldl]. intros Ha. by eapply arriving_before, IH. Qed.

(** The session has received the messages [got] of [ms], in order; once it has
    ended, all of them. *)
Record client_inv (id : OutboundSessionId) (peer : PeerId) (L0 : list HandlerEvent) (ms got rest : list Bytes) (g : Bytes * StreamEnd)
    (h : Handler) (emitted : list HandlerEvent) : Prop := {
  ci_ok : handler_ok h;
  ci_peer : Handler_peer_id h = peer;
  ci_split : ms = got ++ rest;
  ci_session :
    match id_to_outbound_session h !! id with
    | Some (Responses_Reading io) =>
        g.1 = wire got ++ unread io /\ read_end io = g.2 /\ about id (event_log h emitted) = L0 ++ (received peer id <$> got)
    | Some Responses_Ended => False
    | None => rest = [] /\ g.2 = Stream_Eof /\ about id (event_log h emitted) = L0 ++ (received peer id <$> got) ++ [finished id]
    end
}.

Lemma client_inv_frame id peer L0 ms got rest g h h' emitted ev new :
  client_inv id peer L0 ms got rest g h emitted -> handler_ok h' -> ev ++ Handler_pending_events h' = Handler_pending_events h ++ new ->
  about id new = [] -> id_to_outbound_session h' !! id = id_to_outbound_session h !! id -> Handler_peer_id h' = Handler_peer_id h ->
  client_inv id peer L0 ms got rest g h' (emitted ++ ev).
Proof.
  intros [Hok Hp Hsp Hs] Hok' Hlog Hab Ho Hpe. constructor; [done|congruence|done|].
  rewrite Ho, (log_step _ _ _ _ _ Hlog), about_app, Hab, app_nil_r. exact Hs.
Qed.

Ltac outbound_frame Hlog Hinv Hok' :=
  let Hnew := fresh "Hnew" in
  first [apply log_same in Hlog as Hnew | apply log_one in Hlog as Hnew];
  apply (client_inv_frame _ _ _ _ _ _ _ _ _ _ _ _ Hinv Hok' Hlog); [rewrite Hnew; first [done | apply about_singleton_ne; cbn; congruence] | |].

Lemma client_other id peer L0 ms got rest g h emitted op h' ev new :
  client_inv id peer L0 ms got rest g h emitted -> keeps_outbound id op -> applied op h h' ev new ->
  match op with Hop_behaviour _ | Hop_connection _ => True | _ => False end ->
  client_inv id peer L0 ms got rest g h' (emitted ++ ev).
Proof.
  intros Hinv Hk (Happ & Hok' & Hlog) Hop. destruct op as [event|event| |]; try done.
  - destruct event as [q id' p|r id'|id'|[id'|id']]; revert Happ; unfold handler_apply, on_behaviour_event, push_handler_event; run_steps.
    + intros [= <- <-]. by outbound_frame Hlog Hinv Hok'.
    + destruct (id_to_inbound_session h !! id') as [s|]; run_steps; [case_decide; run_steps|]; intros [= <- <-]; by outbound_frame Hlog Hinv Hok'.
    + intros [= <- <-]. by outbound_frame Hlog Hinv Hok'.
    + cbn in Hk. destruct (id_to_outbound_session h !! id'); run_steps; intros [= <- <-]; outbound_frame Hlog Hinv Hok'; try done; cbn;
        by rewrite lookup_delete_ne by congruence.
    + intros [= <- <-]. by outbound_frame Hlog Hinv Hok'.
  - destruct event as [r id'|q w p id'|id' e|]; revert Happ; unfold handler_apply, on_connection_event, push_handler_event; run_steps; cbn in Hk.
    + case_decide; run_steps; intros [= <- <-]; outbound_frame Hlog Hinv Hok'; try done. cbn. by rewrite lookup_insert_ne by congruence.
    + intros [= <- <-]. by outbound_frame Hlog Hinv Hok'.
    + intros [= <- <-]. by outbound_frame Hlog Hinv Hok'.
    + intros [= <- <-]. by rewrite app_nil_r.
Qed.

Lemma client_arrive id peer L0 ms got rest g h emitted id' bs fin h' ev new :
  client_inv id peer L0 ms got rest g h emitted -> applied (Hop_arrive id' bs fin) h h' ev new ->
  client_inv id peer L0 ms got rest (client_ghost id g (Hop_arrive id' bs fin)) h' (emitted ++ ev).
Proof.
  intros Hinv (Happ & Hok' & Hlog). pose proof Hinv as [Hok Hp Hsp Hs]. revert Happ. unfold handler_apply, receive_bytes, client_ghost. run_steps.
  destruct (decide (id' = id)) as [->|Hne].
  - destruct (id_to_outbound_session h !! id) as [[io|]|] eqn:Ho; [|done|].
    + destruct Hs as (Hb & Hend & Hl). destruct g as [arr fin0]. cbn [fst snd] in *. rewrite Hend.
      destruct fin0 as [| |e]; run_steps; intros [= <- <-]; rewrite app_nil_r; [|by constructor; try done; rewrite Ho..].
      constructor; [done..|]. cbn [id_to_outbound_session set_outbound]. rewrite lookup_insert_eq. cbn. rewrite Hb, app_assoc. done.
    + intros [= <- <-]. rewrite app_nil_r. destruct Hs as (Hr & Hf & Hl). rewrite Hf. done.
  - destruct (id_to_outbound_session h !! id') as [[io|]|] eqn:Ho; [destruct (read_end io)| |]; run_steps; intros [= <- <-];
      outbound_frame Hlog Hinv Hok'; try done. cbn. by rewrite lookup_insert_ne by congruence.
Qed.

(** A poll hands over the next message if it has arrived, and ends the session
    after the last; at the end of the stream it always does one of these. *)
Lemma client_poll id peer L0 ms got rest g h emitted io h' ev new :
  Forall fits_message ms -> arriving ms g -> client_inv id peer L0 ms got rest g h emitted -> applied (Hop_poll io) h h' ev new ->
  client_inv id peer L0 ms got rest g h' (emitted ++ ev) /\ (g.2 = Stream_Open \/ id_to_outbound_session h' !! id = None) \/
  exists m rest', rest = m :: rest' /\ client_inv id peer L0 ms (got ++ [m]) rest' g h' (emitted ++ ev).
Proof.
  intros Hfit (more & Hw & Hfin) Hinv (Happ & Hok' & Hlog). pose proof Hinv as [Hok Hp Hsp Hs].
  destruct (handler_poll_ok h io Hok) as (inb & gone & ev1 & outb & gone2 & ev2 & h2 & r & H1 & H2 & Hpo & Hlog2 & Hh).
  unfold handler_apply in Happ. rewrite (bind_step _ _ _ _ _ Hpo) in Happ. injection Happ as -> <-. rewrite Hlog in Hlog2. apply app_inv_head in Hlog2. subst new.
  pose proof (poll_outbound_view h io _ _ _ _ _ _ id H1 H2) as Hv. rewrite Hp in Hv.
  assert (Houtb : id_to_outbound_session h' = outb) by (by rewrite Hh). assert (Hpeer : Handler_peer_id h' = peer) by (by rewrite Hh).
  destruct (id_to_outbound_session h !! id) as [[rd|]|] eqn:Ho; [|done|].
  - destruct Hs as (Hb & Hend & Hl). assert (Hwr : wire rest = unread rd ++ more).
    { rewrite Hsp, wire_app in Hw. rewrite Hb, <-app_assoc in Hw. by apply app_inv_head in Hw. }
    rewrite <-Hend in Hfin. rewrite Hsp in Hfit. apply Forall_app in Hfit as [_ Hfit].
    destruct (retain_outbound_ok peer id rest rd more Hfit Hwr Hfin) as [(m & rest' & rd' & -> & Hw' & He' & Hret)|[(Hopen & Hret)|(-> & Heof & Hret)]];
      destruct (Hv _ _ _ Hret) as (Hlk & Hab).
    + right. exists m, rest'. split; [done|]. constructor; [done|done|by rewrite <-app_assoc|]. rewrite Houtb, Hlk, (log_step _ _ _ _ _ Hlog), about_app, Hab, Hl.
      split; [|split; [congruence|rewrite fmap_app, <-app_assoc; done]]. rewrite Hb, wire_snoc, <-app_assoc. f_equal.
      rewrite (wire_app [m] rest') in Hwr. rewrite Hw' in Hwr. unfold wire in Hwr. cbn in Hwr. rewrite app_nil_r in Hwr. rewrite app_assoc in Hwr.
      by apply app_inv_tail in Hwr.
    + left. split; [|left; congruence]. constructor; [done..|]. rewrite Houtb, Hlk, (log_step _ _ _ _ _ Hlog), about_app, Hab, Hl, app_nil_r. done.
    + left. split; [|right; by rewrite Houtb]. constructor; [done..|]. rewrite Houtb, Hlk, (log_step _ _ _ _ _ Hlog), about_app, Hab, Hl, <-app_assoc.
      split; [done|]. split; [congruence|done].
  - destruct Hv as [Hlk Hab]. left. split; [|right; by rewrite Houtb]. constructor; [done..|].
    rewrite Houtb, Hlk, (log_step _ _ _ _ _ Hlog), about_app, Hab, app_nil_r. done.
Qed.

Lemma client_session_step id peer L0 ms got rest g h emitted op :
  Forall fits_message ms -> arriving ms (client_ghost id g op) -> client_inv id peer L0 ms got rest g h emitted -> open_op op -> keeps_outbound id op ->
  exists h' ev got' rest', handler_apply op h = Done h' ev /\ client_inv id peer L0 ms got' rest' (client_ghost id g op) h' (emitted ++ ev).
Proof.
  intros Hfit Harr Hinv Hop Hk. destruct (apply_handler_ok h op (ci_ok _ _ _ _ _ _ _ _ _ Hinv) Hop) as (h' & ev & new & Ha). exists h', ev.
  pose proof Ha as (Happ & _). destruct op as [event|event|id' bs fin|io].
  - exists got, rest. split; [done|]. by eapply client_other.
  - exists got, rest. split; [done|]. by eapply client_other.
  - exists got, rest. split; [done|]. by eapply client_arrive.
  - destruct (client_poll id peer L0 ms got rest g h emitted io h' ev new Hfit Harr Hinv Ha) as [[Hi _]|(m & rest' & -> & Hi)]; eauto.
Qed.

Lemma client_run id peer L0 ms ops got rest g h emitted :
  Forall fits_message ms -> arriving ms (foldl (client_ghost id) g ops) -> client_inv id peer L0 ms got rest g h emitted ->
  Forall open_op ops -> Forall (keeps_outbound id) ops ->
  exists h' ev got' rest', handler_run ops h = Some (h', ev) /\ client_inv id peer L0 ms got' rest' (foldl (client_ghost id) g ops) h' (emitted ++ ev).
Proof.
  revert got rest g h emitted. induction ops as [|op ops IH]; intros got rest g h emitted Hfit Harr Hinv Hop Hk.
  - exists h, [], got, rest. split; [done|]. by rewrite app_nil_r.
  - apply Forall_cons in Hop as [Hop Hops], Hk as [Hk Hks].
    destruct (client_session_step id peer L0 ms got rest g h emitted op Hfit) as (h1 & ev1 & got1 & rest1 & Happ & Hinv1); [by eapply arriving_run|done..|].
    destruct (IH _ _ _ _ _ Hfit Harr Hinv1 Hops Hks) as (h2 & ev2 & got2 & rest2 & Hrun & Hinv2). exists h2, (ev1 ++ ev2), got2, rest2.
    cbn [handler_run]. rewrite Happ, Hrun. split; [done|]. by rewrite app_assoc.
Qed.

(** Once everything has arrived, as many polls as there are messages left, and
    one more, end the session. *)
Lemma client_finishes id peer L0 ms ios got rest g h emitted :
  Forall fits_message ms -> g = (wire ms, Stream_Eof) -> client_inv id peer L0 ms got rest g h emitted ->
  (length rest < length ios)%nat \/ id_to_outbound_session h !! id = None ->
  exists h' ev, handler_run (Hop_poll <$> ios) h = Some (h', ev) /\
    about id (event_log h' (emitted ++ ev)) = L0 ++ (received peer id <$> ms) ++ [finished id].
Proof.
  intros Hfit Hg. assert (Harr : arriving ms g) by (subst g; exists []; rewrite app_nil_r; auto).
  revert got rest h emitted. induction ios as [|io ios IH]; intros got rest h emitted Hinv Hlen.
  - exists h, []. split; [done|]. destruct Hlen as [Hlen|Hnone]; [cbn in Hlen; lia|]. destruct Hinv as [_ _ Hsp Hs].
    rewrite Hnone in Hs. destruct Hs as (-> & _ & Hab). by rewrite app_nil_r, Hab, Hsp, app_nil_r.
  - destruct (apply_handler_ok h (Hop_poll io) (ci_ok _ _ _ _ _ _ _ _ _ Hinv) I) as (h1 & ev1 & new & Ha). pose proof Ha as (Happ & _).
    cbn [fmap list_fmap handler_run]. rewrite Happ.
    assert (exists got1 rest1, client_inv id peer L0 ms got1 rest1 g h1 (emitted ++ ev1) /\
      ((length rest1 < length ios)%nat \/ id_to_outbound_session h1 !! id = None)) as (got1 & rest1 & Hi & Hl).
    { destruct (client_poll id peer L0 ms got rest g h emitted io h1 ev1 new Hfit Harr Hinv Ha) as [[Hi [Hf|Hf]]|(m & rest' & -> & Hi)]; [by subst g|by eauto|].
      exists (got ++ [m]), rest'. split; [done|]. left. destruct Hlen as [Hlen|Hnone]; [cbn in Hlen; lia|].
      destruct Hinv as [_ _ _ Hs]. rewrite Hnone in Hs. by destruct Hs. }
    destruct (IH _ _ _ _ Hi Hl) as (h2 & ev2 & -> & Hab). eexists _, _. split; [reflexivity|]. by rewrite <-app_assoc in Hab.
Qed.

End Handlers.

(** ** Runs of the behaviour *)

(** A query with the number of its session. *)
Abbreviation SqmrQuery := (OutboundSessionId * (Bytes * StreamProtocol))%type.

Section Behaviours.
Context {HM : HashMapIter} {HS : HashSetIter}.

Inductive sqmr_op : Type :=
| Sop_start_query (query : Bytes) (protocol_name : StreamProtocol)
| Sop_send_query (query : Bytes) (peer_id : PeerId) (protocol_name : StreamProtocol)
| Sop_send_response (response : Bytes) (id : InboundSessionId)
| Sop_close (id : InboundSessionId)
| Sop_drop (id : SessionId)
| Sop_protocol (protocol : StreamProtocol)
| Sop_swarm (event : FromSwarm)
| Sop_handler (peer_id : PeerId) (connection_id : ConnectionId) (event : RequestToBehaviourEvent)
| Sop_other (event : ToOtherBehaviourEvent)
| Sop_poll.

(** An operation, with the events it hands to the swarm. *)
Definition sqmr_apply (op : sqmr_op) : BehaviourM (list SqmrToSwarm) :=
  match op with
  | Sop_start_query query protocol_name => start_query query protocol_name ;! ret []
  | Sop_send_query query peer_id protocol_name => Behaviour_send_query query peer_id protocol_name ;! ret []
  | Sop_send_response response id => send_response response id ;! ret []
  | Sop_close id => close_inbound_session id ;! ret []
  | Sop_drop id => drop_session id ;! ret []
  | Sop_protocol protocol => add_new_supported_inbound_protocol protocol ;! ret []
  | Sop_swarm event => sqmr_on_swarm_event event ;! ret []
  | Sop_handler peer_id connection_id event => on_connection_handler_event peer_id connection_id event ;! ret []
  | Sop_other event => on_other_behaviour_event event ;! ret []
  | Sop_poll => let! r := sqmr_poll in ret (polled r)
  end.

(** The queries that an operation accepts, in the state in which it runs. *)
Definition started (b : Behaviour) (op : sqmr_op) : list SqmrQuery :=
  match op with
  | Sop_start_query query protocol_name => [(next_outbound_session_id b, (query, protocol_name))]
  | Sop_send_query query peer_id protocol_name =>
      match hs_iter (default ∅ (connection_ids_map b !! peer_id)) with [] => [] | _ => [(next_outbound_session_id b, (query, protocol_name))] end
  | _ => []
  end.

(** A run: the behaviour, the queries it accepted and the events it emitted. *)
Fixpoint sqmr_run (ops : list sqmr_op) (b : Behaviour) : option (Behaviour * list SqmrQuery * list SqmrToSwarm) :=
  match ops with
  | [] => Some (b, [], [])
  | op :: ops' =>
      match sqmr_apply op b with
      | Done b1 events => (fun '(b2, qs, ev) => (b2, started b op ++ qs, events ++ ev)) <$> sqmr_run ops' b1
      | Fail b1 _ => (fun '(b2, qs, ev) => (b2, started b op ++ qs, ev)) <$> sqmr_run ops' b1
      | Panic => None
      end
  end.

(** The queries that are handed to a handler. *)
Definition sent_query (e : SqmrToSwarm) : option SqmrQuery :=
  match e with NotifyHandler _ _ (CreateOutboundSession query id protocol_name) => Some (id, (query, protocol_name)) | _ => None end.
Definition sent_queries (log : list SqmrToSwarm) : list SqmrQuery := omap sent_query log.

Lemma sent_queries_app l1 l2 : sent_queries (l1 ++ l2) = sent_queries l1 ++ sent_queries l2.
Proof. apply omap_app. Qed.

(** Every query of [qs] was sent once or waits for a peer; the sessions are
    numbered from zero. *)
Record queries_inv (qs : list SqmrQuery) (b : Behaviour) (emitted : list SqmrToSwarm) : Prop := {
  qi_ids : qs.*1 = mkOutboundSessionId <$> seqZ 0 (zlength qs);
  qi_next : next_outbound_session_id b = mkOutboundSessionId (wrap 64 (zlength qs));
  qi_split : sent_queries (emitted ++ Behaviour_pending_events b) ++ map_to_list (outbound_sessions_pending_peer_assignment b) ≡ₚ qs
}.

(** A step that accepts no query and sends none. *)
Lemma queries_frame qs b b' emitted ev new :
  queries_inv qs b emitted -> next_outbound_session_id b' = next_outbound_session_id b ->
  outbound_sessions_pending_peer_assignment b' = outbound_sessions_pending_peer_assignment b ->
  ev ++ Behaviour_pending_events b' = Behaviour_pending_events b ++ new -> sent_queries new = [] -> queries_inv qs b' (emitted ++ ev).
Proof.
  intros [Hids Hn Hsp] Hn' Hp Hlog Hnew. constructor; [done|congruence|]. rewrite Hp, <-app_assoc, Hlog, app_assoc, sent_queries_app, Hnew, app_nil_r. done.
Qed.

(** The next number is not in use. *)
Lemma next_fresh qs b emitted :
  queries_inv qs b emitted -> zlength qs < 2 ^ 64 -> next_outbound_session_id b ∉ qs.*1.
Proof.
  intros [Hids Hn _] Hlt. rewrite Hids, Hn, wrap_id by (unfold in_range; pose proof (zlength_nonneg qs); lia).
  intros Hin. apply list_elem_of_fmap in Hin as (n & [= ->] & Hin). apply elem_of_seqZ in Hin. lia.
Qed.

Lemma ids_snoc (qs : list SqmrQuery) (q : SqmrQuery) :
  qs.*1 = mkOutboundSessionId <$> seqZ 0 (zlength qs) -> q.1 = mkOutboundSessionId (zlength qs) ->
  (qs ++ [q]).*1 = mkOutboundSessionId <$> seqZ 0 (zlength (qs ++ [q])).
Proof.
  intros Hids Hq. rewrite zlength_snoc, fmap_app, Hids. pose proof (zlength_nonneg qs). rewrite seqZ_app by lia. rewrite fmap_app. f_equal. cbn. by rewrite Hq.
Qed.

Lemma wrap_succ n : wrap 64 (wrap 64 n + 1) = wrap 64 (n + 1).
Proof. unfold wrap. by rewrite Zplus_mod_idemp_l. Qed.

Lemma pending_fresh qs b emitted id :
  queries_inv qs b emitted -> id ∉ qs.*1 -> outbound_sessions_pending_peer_assignment b !! id = None.
Proof.
  intros [_ _ Hsp] Hid. destruct (outbound_sessions_pending_peer_assignment b !! id) as [q|] eqn:Hq; [|done]. destruct Hid.
  apply list_elem_of_fmap. exists (id, q). split; [done|]. rewrite <-Hsp. apply elem_of_app. right. by apply elem_of_map_to_list.
Qed.

Lemma start_query_inv qs b emitted query protocol_name :
  queries_inv qs b emitted -> zlength qs < 2 ^ 64 ->
  exists b', start_query query protocol_name b = Done b' (next_outbound_session_id b) /\
    queries_inv (qs ++ [(next_outbound_session_id b, (query, protocol_name))]) b' emitted.
Proof.
  intros Hinv Hlt. pose proof (next_fresh _ _ _ Hinv Hlt) as Hfresh. pose proof (pending_fresh _ _ _ _ Hinv Hfresh) as Hnone.
  destruct Hinv as [Hids Hn Hsp]. unfold start_query, take_outbound_session_id, add_event_to_queue. run_steps. eexists. split; [reflexivity|].
  rewrite Hn in *. rewrite wrap_id in * by (unfold in_range; pose proof (zlength_nonneg qs); lia). constructor.
  - by apply ids_snoc.
  - cbn. by rewrite zlength_snoc.
  - cbn. rewrite map_to_list_insert by done. rewrite app_assoc, sent_queries_app. cbn. rewrite app_nil_r.
    etransitivity; [|apply Permutation_app_tail, Hsp]. rewrite <-app_assoc. apply Permutation_app_head, Permutation_cons_append.
Qed.

Lemma send_query_inv qs b emitted query peer_id protocol_name :
  queries_inv qs b emitted -> zlength qs < 2 ^ 64 ->
  exists b', (Behaviour_send_query query peer_id protocol_name b = Done b' (next_outbound_session_id b) \/
      b' = b /\ Behaviour_send_query query peer_id protocol_name b = Fail b PeerNotConnected) /\
    queries_inv (qs ++ started b (Sop_send_query query peer_id protocol_name)) b' emitted.
Proof.
  intros Hinv Hlt. destruct Hinv as [Hids Hn Hsp]. unfold Behaviour_send_query, take_outbound_session_id, add_event_to_queue, started. run_steps.
  destruct (hs_iter (default ∅ (connection_ids_map b !! peer_id))) as [|c cs].
  - exists b. split; [right; done|]. rewrite app_nil_r. done.
  - cbn [head ok_or_raise]. run_steps. eexists. split; [left; reflexivity|].
    rewrite Hn in *. rewrite wrap_id in * by (unfold in_range; pose proof (zlength_nonneg qs); lia). constructor.
    + by apply ids_snoc.
    + cbn. by rewrite zlength_snoc.
    + cbn. rewrite app_assoc, sent_queries_app. cbn. etransitivity; [|apply Permutation_app_tail, Hsp]. rewrite <-!app_assoc.
      apply Permutation_app_head, Permutation_cons_append.
Qed.

Lemma assigned_inv qs b emitted id peer_id connection_id :
  queries_inv qs b emitted ->
  exists b', @on_other_behaviour_event _ _ Behaviour_bridged (FromPeerManager (SessionAssigned id peer_id connection_id)) b = Done b' tt /\
    queries_inv qs b' emitted.
Proof.
  intros [Hids Hn Hsp]. cbn [on_other_behaviour_event Behaviour_bridged]. run_steps.
  destruct (outbound_sessions_pending_peer_assignment b !! id) as [[query protocol_name]|] eqn:Hq; [|eexists; split; [reflexivity|]; by constructor].
  unfold add_event_to_queue. run_steps. eexists. split; [reflexivity|]. constructor; [done|done|]. cbn.
  rewrite app_assoc, sent_queries_app. cbn. rewrite <-Hsp, <-app_assoc. apply Permutation_app_head. cbn. by apply map_to_list_delete.
Qed.

Lemma for_each_add_event {A} (f : A -> SqmrToSwarm) (l : list A) b :
  for_each l (fun x => add_event_to_queue (f x)) b = Done (set_bevents (Behaviour_pending_events b ++ (f <$> l)) b) tt.
Proof.
  revert b. induction l as [|x l IH]; intros b; cbn [for_each fmap list_fmap].
  - rewrite app_nil_r. by destruct b.
  - unfold add_event_to_queue at 1. run_steps. rewrite IH. cbn. by rewrite <-app_assoc.
Qed.

(** What an operation other than a query, an assignment or a poll does: it adds
    events that hand no query to a handler. *)
Definition adds_events {A} (m : BehaviourM A) (b : Behaviour) : Prop :=
  exists b' new, ((exists a, m b = Done b' a) \/ (exists e, m b = Fail b' e)) /\ next_outbound_session_id b' = next_outbound_session_id b /\
    outbound_sessions_pending_peer_assignment b' = outbound_sessions_pending_peer_assignment b /\
    Behaviour_pending_events b' = Behaviour_pending_events b ++ new /\ sent_queries new = [].

Lemma lookup_session_adds {A} (id : SessionId) (k : PeerId * ConnectionId -> BehaviourM A) b :
  (forall pc, adds_events (k pc) b) -> adds_events (bind (get_peer_id_and_connection_id_from_session_id id) k) b.
Proof.
  intros Hk. unfold get_peer_id_and_connection_id_from_session_id, adds_events. run_steps.
  destruct (session_id_to_peer_id_and_connection_id b !! id) as [pc|]; cbn [ok_or_raise]; run_steps; [apply Hk|].
  exists b, []. split; [right; by eexists|]. by rewrite app_nil_r.
Qed.

Ltac adds_with b' new := exists b', new; split; [left; eexists; reflexivity | repeat split; cbn; by rewrite ?app_nil_r].

Lemma handler_event_adds p c event b : adds_events (on_connection_handler_event p c event) b.
Proof.
  unfold adds_events. destruct event as [event|id]; cbn [on_connection_handler_event].
  - unfold record_event, add_event_to_queue.
    destruct event as [q id p' pr|id r p'|id [t|e|]|id]; cbn [GenericEvent_from]; run_steps; cbn [negb]; run_steps;
      try (destruct (bool_decide _); cbn [negb]; run_steps);
      first [eexists _, []; split; [left; eexists; reflexivity|]; repeat split; cbn; by rewrite ?app_nil_r
            |eexists _, [_]; split; [left; eexists; reflexivity|]; repeat split; reflexivity].
  - eexists _, []. split; [left; eexists; reflexivity|]. repeat split; cbn; by rewrite ?app_nil_r.
Qed.

Lemma swarm_event_adds event b : adds_events (sqmr_on_swarm_event event) b.
Proof.
  unfold adds_events. destruct event as [| |p c n| |]; unfold sqmr_on_swarm_event; run_steps;
    try (eexists _, []; split; [left; eexists; reflexivity|]; repeat split; cbn; by rewrite ?app_nil_r).
  rewrite for_each_add_event. eexists _, _. split; [left; eexists; reflexivity|]. split; [done|]. split; [done|]. split; [done|].
  induction (filter _ _) as [|[] l IH]; [done|exact IH].
Qed.

Lemma queries_step qs b emitted op :
  queries_inv qs b emitted -> zlength qs < 2 ^ 64 ->
  exists b' ev, (sqmr_apply op b = Done b' ev \/ ev = [] /\ exists e, sqmr_apply op b = Fail b' e) /\
    queries_inv (qs ++ started b op) b' (emitted ++ ev).
Proof.
  intros Hinv Hlt.
  assert (Hframe : forall {A} (m : BehaviourM A), started b op = [] -> sqmr_apply op = bind m (fun _ => ret []) -> adds_events m b ->
    exists b' ev, (sqmr_apply op b = Done b' ev \/ ev = [] /\ exists e, sqmr_apply op b = Fail b' e) /\ queries_inv (qs ++ started b op) b' (emitted ++ ev)).
  { intros A m Hst Heq (b' & new & Hm & Hn & Hp & Hlog & Hnew). exists b', []. split.
    - rewrite Heq. unfold bind. destruct Hm as [[a ->]|[e ->]]; [by left|right; split; [done|by exists e]].
    - rewrite Hst, app_nil_r. eapply queries_frame; [done|done|done|exact Hlog|done]. }
  destruct op as [q p|q peer p|r id|id|id|p|event|peer c event|event|].
  - destruct (start_query_inv qs b emitted q p Hinv Hlt) as (b' & Hr & Hi). exists b', []. cbn [sqmr_apply]. rewrite (bind_step _ _ _ _ _ Hr), app_nil_r. by split; [left|].
  - destruct (send_query_inv qs b emitted q peer p Hinv Hlt) as (b' & Hr & Hi). exists b', []. rewrite app_nil_r. split; [|done].
    cbn [sqmr_apply]. unfold bind. destruct Hr as [->|[-> ->]]; [by left|right; split; [done|by eexists]].
  - apply (Hframe _ (send_response r id)); [done|done|]. apply lookup_session_adds. intros [p c]. adds_with (set_bevents (Behaviour_pending_events b ++ [NotifyHandler p c (SendResponse r id)]) b) [NotifyHandler (Event:=SqmrEvent) p c (SendResponse r id)].
  - apply (Hframe _ (close_inbound_session id)); [done|done|]. apply lookup_session_adds. intros [p c]. adds_with (set_bevents (Behaviour_pending_events b ++ [NotifyHandler p c (CloseInboundSession id)]) b) [NotifyHandler (Event:=SqmrEvent) p c (CloseInboundSession id)].
  - apply (Hframe _ (drop_session id)); [done|done|]. apply lookup_session_adds. intros [p c]. unfold adds_events. run_steps. case_decide; run_steps.
    + adds_with b (@nil SqmrToSwarm).
    + eexists _, [NotifyHandler p c (DropSession id)]. split; [left; eexists; reflexivity|]. done.
  - apply (Hframe _ (add_new_supported_inbound_protocol p)); [done|done|]. unfold adds_events, add_new_supported_inbound_protocol. run_steps. case_decide.
    + adds_with b (@nil SqmrToSwarm).
    + eexists _, []. split; [left; eexists; reflexivity|]. repeat split; cbn; by rewrite ?app_nil_r.
  - apply (Hframe _ (sqmr_on_swarm_event event)); [done|done|]. apply swarm_event_adds.
  - apply (Hframe _ (on_connection_handler_event peer c event)); [done|done|]. apply handler_event_adds.
  - assert (Hcase : (exists id p c, event = FromPeerManager (SessionAssigned id p c)) \/ on_other_behaviour_event event b = Done b tt).
    { destruct event as [| | | |[id p c| |]|]; try (by right). left. eauto. }
    destruct Hcase as [(id & p & c & ->)|Hb].
    + destruct (assigned_inv qs b emitted id p c Hinv) as (b' & Hr & Hi). exists b', []. cbn [sqmr_apply started]. rewrite (bind_step _ _ _ _ _ Hr), !app_nil_r. by split; [left|].
    + apply (Hframe _ (on_other_behaviour_event event)); [done|done|]. exists b, []. split; [left; by exists tt|by rewrite app_nil_r].
  - cbn [sqmr_apply started]. rewrite app_nil_r. unfold sqmr_poll. run_steps. destruct (Behaviour_pending_events b) as [|e l] eqn:He; run_steps.
    + eexists _, _. split; [by left|]. by rewrite app_nil_r.
    + eexists _, _. split; [by left|]. eapply (queries_frame _ b _ _ _ []); [done|done|done|by rewrite app_nil_r, He|done].
Qed.

End Behaviours.
