(* ===== verification/NetworkManager.v ===== *)
(** * Network: discovery and the network manager

    [crates/papyrus_network/src/discovery/], [mixed_behaviour.rs],
    [gossipsub_impl.rs], [utils.rs] and [network_manager/]: the search for peers,
    the behaviours of the node side by side, and the manager that connects them
    to the channels of the node.

    libp2p's own behaviours (Kademlia, identify, gossipsub) are not in the
    repository: the calls the code makes to them are recorded in order. A channel
    is known by the session, protocol or topic it belongs to; what is put into it
    is recorded, and whether it takes an item is an argument of the step. *)

From stdpp Require Import base gmap list strings fin_maps.
From Stdlib Require Import ZArith Lia.
From S2P Require Import Prelude PeerManager Sqmr.

(** ** Discovery *)

Definition DIAL_SLEEP : Z := 5.

Record Discovery : Type := mkDiscovery {
  is_paused : bool;
  is_query_running : bool;
  bootstrap_peer_address : Multiaddr;
  bootstrap_peer_id : PeerId;
  is_dialing_to_bootstrap_peer : bool;
  sleep_future_for_dialing_bootstrap_peer : option Z;
  is_connected_to_bootstrap_peer : bool;
  is_bootstrap_in_kad_routing_table : bool
}.

Definition set_paused x d := mkDiscovery x (is_query_running d) (bootstrap_peer_address d) (bootstrap_peer_id d) (is_dialing_to_bootstrap_peer d)
  (sleep_future_for_dialing_bootstrap_peer d) (is_connected_to_bootstrap_peer d) (is_bootstrap_in_kad_routing_table d).
Definition set_query_running x d := mkDiscovery (is_paused d) x (bootstrap_peer_address d) (bootstrap_peer_id d) (is_dialing_to_bootstrap_peer d)
  (sleep_future_for_dialing_bootstrap_peer d) (is_connected_to_bootstrap_peer d) (is_bootstrap_in_kad_routing_table d).
Definition set_dialing x sleep d := mkDiscovery (is_paused d) (is_query_running d) (bootstrap_peer_address d) (bootstrap_peer_id d) x
  sleep (is_connected_to_bootstrap_peer d) (is_bootstrap_in_kad_routing_table d).
Definition set_connected x d := mkDiscovery (is_paused d) (is_query_running d) (bootstrap_peer_address d) (bootstrap_peer_id d) (is_dialing_to_bootstrap_peer d)
  (sleep_future_for_dialing_bootstrap_peer d) x (is_bootstrap_in_kad_routing_table d).
Definition set_in_routing_table x d := mkDiscovery (is_paused d) (is_query_running d) (bootstrap_peer_address d) (bootstrap_peer_id d) (is_dialing_to_bootstrap_peer d)
  (sleep_future_for_dialing_bootstrap_peer d) (is_connected_to_bootstrap_peer d) x.

Abbreviation DiscoveryM := (M Discovery Empty_set).

Definition Discovery_new (bootstrap_peer_id : PeerId) (bootstrap_peer_address : Multiaddr) : Discovery :=
  mkDiscovery false false bootstrap_peer_address bootstrap_peer_id false None false false.

Definition discovery_on_swarm_event (event : FromSwarm) : DiscoveryM unit :=
  let! self := get in
  match event with
  | DialFailure (Some peer_id) _ _ =>
      if peer_id =? bootstrap_peer_id self then modify (set_dialing false (Some DIAL_SLEEP)) else ret tt
  | ConnectionEstablished peer_id _ =>
      if peer_id =? bootstrap_peer_id self
      then modify (fun self => set_dialing false (sleep_future_for_dialing_bootstrap_peer self) (set_connected true self)) else ret tt
  | ConnectionClosed peer_id _ remaining_established =>
      if (peer_id =? bootstrap_peer_id self) && (remaining_established =? 0)
      then modify (fun self => set_dialing false (sleep_future_for_dialing_bootstrap_peer self) (set_connected false self)) else ret tt
  | AddressChange peer_id _ =>
      if peer_id =? bootstrap_peer_id self then panic else ret tt
  | _ => ret tt
  end.

(** [elapsed]: the sleep has completed; [random_peer] is [PeerId::random()]. *)
Definition discovery_poll (elapsed : bool) (random_peer : PeerId) : DiscoveryM (Poll (ToSwarm DiscoveryEvent Empty_set)) :=
  let! self := get in
  if negb (is_dialing_to_bootstrap_peer self) && negb (is_connected_to_bootstrap_peer self) then
    if match sleep_future_for_dialing_bootstrap_peer self with Some _ => negb elapsed | None => false end then ret Pending
    else
      modify (set_dialing true None) ;!
      ret (Ready (Dial (mkDialOpts (bootstrap_peer_id self) [bootstrap_peer_address self] PeerCondition_DisconnectedAndNotDialing)))
  else if negb (is_connected_to_bootstrap_peer self) then ret Pending
  else if negb (is_bootstrap_in_kad_routing_table self) then
    modify (set_in_routing_table true) ;!
    ret (Ready (GenerateEvent (DiscoveryFoundListenAddresses (bootstrap_peer_id self) [bootstrap_peer_address self])))
  else if negb (is_paused self) && negb (is_query_running self) then
    modify (set_query_running true) ;!
    ret (Ready (GenerateEvent (RequestKadQuery random_peer)))
  else ret Pending.

#[export] Instance Discovery_bridged : BridgedBehaviour Discovery Empty_set := {|
  on_other_behaviour_event := fun event =>
    match event with
    | FromPeerManager PauseDiscovery => modify (set_paused true)
    | FromPeerManager ResumeDiscovery => modify (set_paused false)
    | FromKad KadQueryFinished => modify (set_query_running false)
    | _ => ret tt
    end
|}.

(** ** The other behaviours *)

(** The calls to Kademlia: [get_closest_peers] and [add_address]. *)
Inductive KadCall : Type :=
| Kad_get_closest_peers (peer_id : PeerId)
| Kad_add_address (peer_id : PeerId) (address : Multiaddr).

(** [impl BridgedBehaviour for kad::Behaviour]: the calls an event causes. *)
Definition kad_on_other_behaviour_event (event : ToOtherBehaviourEvent) : list KadCall :=
  match event with
  | FromDiscovery (RequestKadQuery peer_id) => [Kad_get_closest_peers peer_id]
  | FromIdentify (IdentifyFoundListenAddresses peer_id listen_addresses)
  | FromDiscovery (DiscoveryFoundListenAddresses peer_id listen_addresses) => Kad_add_address peer_id <$> listen_addresses
  | _ => []
  end.

(** The events of libp2p's behaviours, so far as they are told apart. *)
Inductive KadEvent : Type := KadEvent_GetClosestPeers (is_err : bool) | KadEvent_Other.
Inductive IdentifyEvent : Type := IdentifyEvent_Received (peer_id : PeerId) (listen_addrs : list Multiaddr) | IdentifyEvent_Other.
Inductive GossipsubEvent : Type := GossipsubEvent_Message (data : Bytes) (topic : TopicHash) (source : option PeerId) | GossipsubEvent_Other.

(** [gossipsub_impl::ExternalEvent]. *)
Inductive GossipExternalEvent : Type := GossipReceived (originated_peer_id : PeerId) (message : Bytes) (topic_hash : TopicHash).

(** [mixed_behaviour::ExternalEvent] and [mixed_behaviour::Event]. *)
Inductive ExternalEvent : Type :=
| External_Sqmr (event : SqmrExternalEvent)
| External_GossipSub (event : GossipExternalEvent).

Inductive MixedEvent : Type :=
| Mixed_ExternalEvent (event : ExternalEvent)
| Mixed_ToOtherBehaviourEvent (event : ToOtherBehaviourEvent).

Definition kad_event_from (event : KadEvent) : MixedEvent :=
  match event with
  | KadEvent_GetClosestPeers _ => Mixed_ToOtherBehaviourEvent (FromKad KadQueryFinished)
  | KadEvent_Other => Mixed_ToOtherBehaviourEvent NoOp
  end.

Definition identify_event_from (event : IdentifyEvent) : MixedEvent :=
  match event with
  | IdentifyEvent_Received peer_id listen_addrs =>
      Mixed_ToOtherBehaviourEvent (FromIdentify (IdentifyFoundListenAddresses peer_id listen_addrs))
  | IdentifyEvent_Other => Mixed_ToOtherBehaviourEvent NoOp
  end.

Definition gossipsub_event_from (event : GossipsubEvent) : MixedEvent :=
  match event with
  | GossipsubEvent_Message data topic (Some originated_peer_id) =>
      Mixed_ExternalEvent (External_GossipSub (GossipReceived originated_peer_id data topic))
  | GossipsubEvent_Message _ _ None => Mixed_ToOtherBehaviourEvent NoOp
  | GossipsubEvent_Other => Mixed_ToOtherBehaviourEvent NoOp
  end.

Definition peer_manager_event_from (event : PeerManagerEvent) : MixedEvent := Mixed_ToOtherBehaviourEvent (FromPeerManager event).
Definition discovery_event_from (event : DiscoveryEvent) : MixedEvent := Mixed_ToOtherBehaviourEvent (FromDiscovery event).
Definition sqmr_event_from (event : SqmrEvent) : MixedEvent :=
  match event with
  | SqmrEvent_External external_event => Mixed_ExternalEvent (External_Sqmr external_event)
  | SqmrEvent_ToOtherBehaviourEvent event => Mixed_ToOtherBehaviourEvent (FromSqmr event)
  end.

(** ** The behaviours together *)

Record MixedBehaviour : Type := mkMixedBehaviour {
  mixed_peer_manager : PeerManager Peer;
  mixed_discovery : option Discovery;
  mixed_sqmr : Behaviour;
  kad_calls : list KadCall
}.

(** [bootstrap] is the peer of the configured address with the address; a
    configured address without a peer panics ([None]). *)
Definition MixedBehaviour_new (bootstrap_peer_multiaddr : option (option PeerId * Multiaddr)) (config : SqmrConfig) : option MixedBehaviour :=
  match bootstrap_peer_multiaddr with
  | None => Some (mkMixedBehaviour (PeerManager_new default_PeerManagerConfig) None (Behaviour_new config) [])
  | Some (Some peer_id, address) =>
      Some (mkMixedBehaviour (PeerManager_new default_PeerManagerConfig) (Some (Discovery_new peer_id address)) (Behaviour_new config) [])
  | Some (None, _) => None
  end.

(** ** Channels *)

(** The receiver of the responses to an inbound query,
    [response_receiver.map(Some).chain(stream::once(ready(None)))]. *)
Record ResponseReceiver : Type := mkResponseReceiver {
  queued : list Bytes;
  sender_dropped : bool;
  end_sent : bool
}.

Definition receiver_poll_next (self : ResponseReceiver) : ResponseReceiver * Poll (option (option Bytes)) :=
  match queued self with
  | response :: rest => (mkResponseReceiver rest (sender_dropped self) (end_sent self), Ready (Some (Some response)))
  | [] =>
      if negb (sender_dropped self) then (self, Pending)
      else if negb (end_sent self) then (mkResponseReceiver [] true true, Ready (Some None))
      else (self, Ready None)
  end.

(** [StreamHashMap]: [finished_streams] is written and never read. *)
Record StreamHashMap (K V : Type) `{Countable K} : Type := mkStreamHashMap {
  stream_map : gmap K V;
  finished_streams : gset K
}.

Arguments mkStreamHashMap {K V _ _}.
Arguments stream_map {K V _ _}.
Arguments finished_streams {K V _ _}.

Definition StreamHashMap_insert {K V} `{Countable K} (key : K) (value : V) (self : StreamHashMap K V) : StreamHashMap K V * option V :=
  (mkStreamHashMap (<[key := value]> (stream_map self)) (finished_streams self), stream_map self !! key).

(** The loop of [poll_next] over the entries; [finished] says that every stream
    so far has ended. *)
Fixpoint poll_streams {K V A} `{Countable K} (poll : V -> V * Poll (option A)) (entries : list (K * V)) (finished : bool)
    (self : StreamHashMap K V) : StreamHashMap K V * Poll (option (K * A)) :=
  match entries with
  | [] => (self, if finished then Ready None else Pending)
  | (key, stream) :: entries' =>
      let '(stream, r) := poll stream in
      let self := mkStreamHashMap (<[key := stream]> (stream_map self)) (finished_streams self) in
      match r with
      | Ready (Some value) => (self, Ready (Some (key, value)))
      | Ready None => poll_streams poll entries' finished (mkStreamHashMap (stream_map self) ({[key]} ∪ finished_streams self))
      | Pending => poll_streams poll entries' false self
      end
  end.

Definition StreamHashMap_poll_next {HM : HashMapIter} {K V A} `{Countable K} (poll : V -> V * Poll (option A)) (self : StreamHashMap K V) :
    StreamHashMap K V * Poll (option (K * A)) :=
  poll_streams poll (hm_iter (stream_map self)) true self.

(** What sending into a channel gives. *)
Inductive SendResult : Type := Send_Ok | Send_Full | Send_Disconnected.

(** What the channels of the node received. *)
Inductive Delivery : Type :=
| Delivered_query (protocol : StreamProtocol) (query : Bytes) (id : InboundSessionId)
| Delivered_response (id : OutboundSessionId) (response : Bytes)
| Delivered_broadcast (topic_hash : TopicHash) (message : Bytes).

(** ** The network manager *)

(** What the manager asked of libp2p, besides its own behaviours. *)
Inductive SwarmCall : Type :=
| Call_add_external_address (address : Multiaddr)
| Call_subscribe (topic : TopicHash)
| Call_publish (topic_hash : TopicHash) (message : Bytes).

Record NetworkManager : Type := mkNetworkManager {
  swarm : MixedBehaviour;
  swarm_calls : list SwarmCall;
  inbound_protocol_to_buffer_size : gmap StreamProtocol Z;
  sqmr_inbound_response_receivers : StreamHashMap InboundSessionId ResponseReceiver;
  sqmr_inbound_query_senders : gset StreamProtocol;
  sqmr_outbound_payload_receivers : gset StreamProtocol;
  sqmr_outbound_response_senders : gset OutboundSessionId;
  sqmr_outbound_report_receivers : gset OutboundSessionId;
  messages_to_broadcast_receivers : gset TopicHash;
  broadcasted_messages_senders : gset TopicHash;
  reported_peer_receivers : list PeerId;
  num_active_inbound_sessions : Z;
  num_active_outbound_sessions : Z;
  delivered : list Delivery
}.

Definition nm_set_swarm x s := mkNetworkManager x (swarm_calls s) (inbound_protocol_to_buffer_size s) (sqmr_inbound_response_receivers s) (sqmr_inbound_query_senders s) (sqmr_outbound_payload_receivers s) (sqmr_outbound_response_senders s) (sqmr_outbound_report_receivers s) (messages_to_broadcast_receivers s) (broadcasted_messages_senders s) (reported_peer_receivers s) (num_active_inbound_sessions s) (num_active_outbound_sessions s) (delivered s).
Definition nm_set_swarm_calls x s := mkNetworkManager (swarm s) x (inbound_protocol_to_buffer_size s) (sqmr_inbound_response_receivers s) (sqmr_inbound_query_senders s) (sqmr_outbound_payload_receivers s) (sqmr_outbound_response_senders s) (sqmr_outbound_report_receivers s) (messages_to_broadcast_receivers s) (broadcasted_messages_senders s) (reported_peer_receivers s) (num_active_inbound_sessions s) (num_active_outbound_sessions s) (delivered s).
Definition nm_set_inbound_protocol_to_buffer_size x s := mkNetworkManager (swarm s) (swarm_calls s) x (sqmr_inbound_response_receivers s) (sqmr_inbound_query_senders s) (sqmr_outbound_payload_receivers s) (sqmr_outbound_response_senders s) (sqmr_outbound_report_receivers s) (messages_to_broadcast_receivers s) (broadcasted_messages_senders s) (reported_peer_receivers s) (num_active_inbound_sessions s) (num_active_outbound_sessions s) (delivered s).
Definition nm_set_sqmr_inbound_response_receivers x s := mkNetworkManager (swarm s) (swarm_calls s) (inbound_protocol_to_buffer_size s) x (sqmr_inbound_query_senders s) (sqmr_outbound_payload_receivers s) (sqmr_outbound_response_senders s) (sqmr_outbound_report_receivers s) (messages_to_broadcast_receivers s) (broadcasted_messages_senders s) (reported_peer_receivers s) (num_active_inbound_sessions s) (num_active_outbound_sessions s) (delivered s).
Definition nm_set_sqmr_inbound_query_senders x s := mkNetworkManager (swarm s) (swarm_calls s) (inbound_protocol_to_buffer_size s) (sqmr_inbound_response_receivers s) x (sqmr_outbound_payload_receivers s) (sqmr_outbound_response_senders s) (sqmr_outbound_report_receivers s) (messages_to_broadcast_receivers s) (broadcasted_messages_senders s) (reported_peer_receivers s) (num_active_inbound_sessions s) (num_active_outbound_sessions s) (delivered s).
Definition nm_set_sqmr_outbound_payload_receivers x s := mkNetworkManager (swarm s) (swarm_calls s) (inbound_protocol_to_buffer_size s) (sqmr_inbound_response_receivers s) (sqmr_inbound_query_senders s) x (sqmr_outbound_response_senders s) (sqmr_outbound_report_receivers s) (messages_to_broadcast_receivers s) (broadcasted_messages_senders s) (reported_peer_receivers s) (num_active_inbound_sessions s) (num_active_outbound_sessions s) (delivered s).
Definition nm_set_sqmr_outbound_response_senders x s := mkNetworkManager (swarm s) (swarm_calls s) (inbound_protocol_to_buffer_size s) (sqmr_inbound_response_receivers s) (sqmr_inbound_query_senders s) (sqmr_outbound_payload_receivers s) x (sqmr_outbound_report_receivers s) (messages_to_broadcast_receivers s) (broadcasted_messages_senders s) (reported_peer_receivers s) (num_active_inbound_sessions s) (num_active_outbound_sessions s) (delivered s).
Definition nm_set_sqmr_outbound_report_receivers x s := mkNetworkManager (swarm s) (swarm_calls s) (inbound_protocol_to_buffer_size s) (sqmr_inbound_response_receivers s) (sqmr_inbound_query_senders s) (sqmr_outbound_payload_receivers s) (sqmr_outbound_response_senders s) x (messages_to_broadcast_receivers s) (broadcasted_messages_senders s) (reported_peer_receivers s) (num_active_inbound_sessions s) (num_active_outbound_sessions s) (delivered s).
Definition nm_set_messages_to_broadcast_receivers x s := mkNetworkManager (swarm s) (swarm_calls s) (inbound_protocol_to_buffer_size s) (sqmr_inbound_response_receivers s) (sqmr_inbound_query_senders s) (sqmr_outbound_payload_receivers s) (sqmr_outbound_response_senders s) (sqmr_outbound_report_receivers s) x (broadcasted_messages_senders s) (reported_peer_receivers s) (num_active_inbound_sessions s) (num_active_outbound_sessions s) (delivered s).
Definition nm_set_broadcasted_messages_senders x s := mkNetworkManager (swarm s) (swarm_calls s) (inbound_protocol_to_buffer_size s) (sqmr_inbound_response_receivers s) (sqmr_inbound_query_senders s) (sqmr_outbound_payload_receivers s) (sqmr_outbound_response_senders s) (sqmr_outbound_report_receivers s) (messages_to_broadcast_receivers s) x (reported_peer_receivers s) (num_active_inbound_sessions s) (num_active_outbound_sessions s) (delivered s).
Definition nm_set_reported_peer_receivers x s := mkNetworkManager (swarm s) (swarm_calls s) (inbound_protocol_to_buffer_size s) (sqmr_inbound_response_receivers s) (sqmr_inbound_query_senders s) (sqmr_outbound_payload_receivers s) (sqmr_outbound_response_senders s) (sqmr_outbound_report_receivers s) (messages_to_broadcast_receivers s) (broadcasted_messages_senders s) x (num_active_inbound_sessions s) (num_active_outbound_sessions s) (delivered s).
Definition nm_set_num_active_inbound_sessions x s := mkNetworkManager (swarm s) (swarm_calls s) (inbound_protocol_to_buffer_size s) (sqmr_inbound_response_receivers s) (sqmr_inbound_query_senders s) (sqmr_outbound_payload_receivers s) (sqmr_outbound_response_senders s) (sqmr_outbound_report_receivers s) (messages_to_broadcast_receivers s) (broadcasted_messages_senders s) (reported_peer_receivers s) x (num_active_outbound_sessions s) (delivered s).
Definition nm_set_num_active_outbound_sessions x s := mkNetworkManager (swarm s) (swarm_calls s) (inbound_protocol_to_buffer_size s) (sqmr_inbound_response_receivers s) (sqmr_inbound_query_senders s) (sqmr_outbound_payload_receivers s) (sqmr_outbound_response_senders s) (sqmr_outbound_report_receivers s) (messages_to_broadcast_receivers s) (broadcasted_messages_senders s) (reported_peer_receivers s) (num_active_inbound_sessions s) x (delivered s).
Definition nm_set_delivered x s := mkNetworkManager (swarm s) (swarm_calls s) (inbound_protocol_to_buffer_size s) (sqmr_inbound_response_receivers s) (sqmr_inbound_query_senders s) (sqmr_outbound_payload_receivers s) (sqmr_outbound_response_senders s) (sqmr_outbound_report_receivers s) (messages_to_broadcast_receivers s) (broadcasted_messages_senders s) (reported_peer_receivers s) (num_active_inbound_sessions s) (num_active_outbound_sessions s) x.

Inductive NetworkManagerError : Type := SubscriptionError.

Abbreviation NM := (M NetworkManager NetworkManagerError).

Section NetworkManager.
Context {HM : HashMapIter} {HS : HashSetIter} (clock : nat -> Z).

Definition generic_new (swarm : MixedBehaviour) : NetworkManager :=
  mkNetworkManager swarm [] ∅ (mkStreamHashMap ∅ ∅) ∅ ∅ ∅ ∅ ∅ ∅ [] 0 0 [].

Definition log_delivery (d : Delivery) : NM unit := modify (fun s => nm_set_delivered (delivered s ++ [d]) s).

(** Running an operation of one of the behaviours. *)
Definition on_sqmr {A} (m : BehaviourM A) : NM (SqmrError + A) :=
  fun s => match m (mixed_sqmr (swarm s)) with
           | Done b a => Done (nm_set_swarm (mkMixedBehaviour (mixed_peer_manager (swarm s)) (mixed_discovery (swarm s)) b (kad_calls (swarm s))) s) (inr a)
           | Fail b e => Done (nm_set_swarm (mkMixedBehaviour (mixed_peer_manager (swarm s)) (mixed_discovery (swarm s)) b (kad_calls (swarm s))) s) (inl e)
           | Panic => Panic
           end.

Definition on_peer_manager {A} (m : M (PeerManager Peer) PeerManagerError A) : NM (PeerManagerError + A) :=
  fun s => match m (mixed_peer_manager (swarm s)) with
           | Done b a => Done (nm_set_swarm (mkMixedBehaviour b (mixed_discovery (swarm s)) (mixed_sqmr (swarm s)) (kad_calls (swarm s))) s) (inr a)
           | Fail b e => Done (nm_set_swarm (mkMixedBehaviour b (mixed_discovery (swarm s)) (mixed_sqmr (swarm s)) (kad_calls (swarm s))) s) (inl e)
           | Panic => Panic
           end.

Definition on_discovery (m : DiscoveryM unit) : NM unit :=
  fun s => match mixed_discovery (swarm s) with
           | None => Done s tt
           | Some d =>
               match m d with
               | Done d _ => Done (nm_set_swarm (mkMixedBehaviour (mixed_peer_manager (swarm s)) (Some d) (mixed_sqmr (swarm s)) (kad_calls (swarm s))) s) tt
               | _ => Panic
               end
           end.

Definition call_swarm (c : SwarmCall) : NM unit := modify (fun s => nm_set_swarm_calls (swarm_calls s ++ [c]) s).

Definition call_kad (cs : list KadCall) : NM unit :=
  modify (fun s => nm_set_swarm (mkMixedBehaviour (mixed_peer_manager (swarm s)) (mixed_discovery (swarm s)) (mixed_sqmr (swarm s)) (kad_calls (swarm s) ++ cs)) s).

(** *** Registration *)

(** [protocol] is [None] where [StreamProtocol::try_from_owned] fails. *)
Definition register_sqmr_protocol_server (protocol : option StreamProtocol) (buffer_size : Z) : NM unit :=
  let! protocol := expect protocol in
  on_sqmr (add_new_supported_inbound_protocol protocol) ;!
  let! self := get in
  match inbound_protocol_to_buffer_size self !! protocol with
  | Some _ => panic
  | None =>
      modify (nm_set_inbound_protocol_to_buffer_size (<[protocol := buffer_size]> (inbound_protocol_to_buffer_size self))) ;!
      if decide (protocol ∈ sqmr_inbound_query_senders self) then panic
      else modify (nm_set_sqmr_inbound_query_senders ({[protocol]} ∪ sqmr_inbound_query_senders self))
  end.

Definition register_sqmr_protocol_client (protocol : option StreamProtocol) : NM unit :=
  let! protocol := expect protocol in
  on_sqmr (add_new_supported_inbound_protocol protocol) ;!
  let! self := get in
  if decide (protocol ∈ sqmr_outbound_payload_receivers self) then panic
  else modify (nm_set_sqmr_outbound_payload_receivers ({[protocol]} ∪ sqmr_outbound_payload_receivers self)).

(** [subscribed] is the result of gossipsub's [subscribe]. *)
Definition register_broadcast_topic (topic_hash : TopicHash) (subscribed : bool) : NM unit :=
  call_swarm (Call_subscribe topic_hash) ;!
  if negb subscribed then raise SubscriptionError
  else
    let! self := get in
    if decide (topic_hash ∈ messages_to_broadcast_receivers self) then panic
    else
      modify (nm_set_messages_to_broadcast_receivers ({[topic_hash]} ∪ messages_to_broadcast_receivers self)) ;!
      if decide (topic_hash ∈ broadcasted_messages_senders self) then panic
      else modify (nm_set_broadcasted_messages_senders ({[topic_hash]} ∪ broadcasted_messages_senders self)).

(** *** Sending into a channel *)

Definition server_send_now (item : Delivery) (result : SendResult) : NM unit :=
  match result with
  | Send_Ok => log_delivery item
  | Send_Disconnected => panic
  | Send_Full => ret tt
  end.

Definition network_send_now (item : Delivery) (result : SendResult) : NM unit :=
  match result with
  | Send_Ok => log_delivery item
  | Send_Disconnected | Send_Full => ret tt
  end.

(** *** Events of the behaviours *)

Definition report_session_removed_to_metrics (session_id : SessionId) : NM unit :=
  let! self := get in
  match session_id with
  | SessionId_InboundSessionId _ => modify (nm_set_num_active_inbound_sessions (wrap 64 (num_active_inbound_sessions self - 1)))
  | SessionId_OutboundSessionId _ => modify (nm_set_num_active_outbound_sessions (wrap 64 (num_active_outbound_sessions self + 1)))
  end.

Definition handle_new_inbound_session (query : Bytes) (inbound_session_id : InboundSessionId) (protocol_name : StreamProtocol) (result : SendResult) : NM unit :=
  modify (fun self => nm_set_num_active_inbound_sessions (wrap 64 (num_active_inbound_sessions self + 1)) self) ;!
  let! self := get in
  if decide (protocol_name ∈ sqmr_inbound_query_senders self) then
    let! _ := expect (inbound_protocol_to_buffer_size self !! protocol_name) in
    server_send_now (Delivered_query protocol_name query inbound_session_id) result ;!
    let receiver := mkResponseReceiver [] (match result with Send_Ok => false | _ => true end) false in
    modify (fun self => nm_set_sqmr_inbound_response_receivers
      (StreamHashMap_insert inbound_session_id receiver (sqmr_inbound_response_receivers self)).1 self)
  else ret tt.

(** The arms of [SessionFailed] and [SessionFinishedSuccessfully]. *)
Definition handle_session_removed (session_id : SessionId) : NM unit :=
  report_session_removed_to_metrics session_id ;!
  match session_id with
  | SessionId_OutboundSessionId outbound_session_id =>
      modify (fun self => nm_set_sqmr_outbound_response_senders (sqmr_outbound_response_senders self ∖ {[outbound_session_id]}) self) ;!
      modify (fun self => nm_set_sqmr_outbound_report_receivers (sqmr_outbound_report_receivers self ∖ {[outbound_session_id]}) self)
  | SessionId_InboundSessionId _ => ret tt
  end.

Definition handle_sqmr_behaviour_event (event : SqmrExternalEvent) (result : SendResult) : NM unit :=
  match event with
  | NewInboundSession query inbound_session_id _ protocol_name => handle_new_inbound_session query inbound_session_id protocol_name result
  | ReceivedResponse outbound_session_id response _ =>
      let! self := get in
      if decide (outbound_session_id ∈ sqmr_outbound_response_senders self)
      then network_send_now (Delivered_response outbound_session_id response) result else ret tt
  | SessionFailed session_id _ => handle_session_removed session_id
  | SessionFinishedSuccessfully session_id => handle_session_removed session_id
  end.

Definition handle_new_report_receiver (peer_id : PeerId) : NM unit :=
  modify (fun self => nm_set_reported_peer_receivers (reported_peer_receivers self ++ [peer_id]) self).

Definition handle_gossipsub_behaviour_event (event : GossipExternalEvent) (result : SendResult) : NM unit :=
  match event with
  | GossipReceived originated_peer_id message topic_hash =>
      handle_new_report_receiver originated_peer_id ;!
      let! self := get in
      if decide (topic_hash ∈ broadcasted_messages_senders self)
      then server_send_now (Delivered_broadcast topic_hash message) result else ret tt
  end.

Definition handle_behaviour_external_event (event : ExternalEvent) (result : SendResult) : NM unit :=
  match event with
  | External_Sqmr event => handle_sqmr_behaviour_event event result
  | External_GossipSub event => handle_gossipsub_behaviour_event event result
  end.

(** Each behaviour sees the event; identify and gossipsub ignore it. *)
Definition handle_to_other_behaviour_event (event : ToOtherBehaviourEvent) : NM unit :=
  match event with
  | NoOp => ret tt
  | _ =>
      call_kad (kad_on_other_behaviour_event event) ;!
      on_discovery (on_other_behaviour_event event) ;!
      on_sqmr (on_other_behaviour_event event) ;!
      on_peer_manager (@on_other_behaviour_event _ _ (PeerManager_bridged clock) event) ;!
      ret tt
  end.

Definition handle_behaviour_event (event : MixedEvent) (result : SendResult) : NM unit :=
  match event with
  | Mixed_ExternalEvent external_event => handle_behaviour_external_event external_event result
  | Mixed_ToOtherBehaviourEvent internal_event => handle_to_other_behaviour_event internal_event
  end.

(** [SwarmEvent]: those that are only logged, or counted in a metric, are one. *)
Inductive SwarmEvent : Type :=
| SwarmEvent_Behaviour (event : MixedEvent)
| SwarmEvent_NewListenAddr (address : Multiaddr)
| SwarmEvent_Logged.

Definition handle_swarm_event (event : SwarmEvent) (result : SendResult) : NM unit :=
  match event with
  | SwarmEvent_Behaviour event => handle_behaviour_event event result
  | SwarmEvent_NewListenAddr address => call_swarm (Call_add_external_address address)
  | SwarmEvent_Logged => ret tt
  end.

(** *** Requests of the node *)

Definition handle_response_for_inbound_query (inbound_session_id : InboundSessionId) (maybe_response : option Bytes) : NM unit :=
  match maybe_response with
  | Some response => on_sqmr (send_response response inbound_session_id) ;! ret tt
  | None => on_sqmr (close_inbound_session inbound_session_id) ;! ret tt
  end.

(** The swarm's [send_query] starts the query: a peer is found for it later. *)
Definition handle_local_sqmr_payload (protocol : StreamProtocol) (query : Bytes) : NM unit :=
  let! r := on_sqmr (start_query query protocol) in
  match r with
  | inr outbound_session_id =>
      modify (fun self => nm_set_num_active_outbound_sessions (wrap 64 (num_active_outbound_sessions self + 1)) self) ;!
      modify (fun self => nm_set_sqmr_outbound_response_senders ({[outbound_session_id]} ∪ sqmr_outbound_response_senders self) self) ;!
      modify (fun self => nm_set_sqmr_outbound_report_receivers ({[outbound_session_id]} ∪ sqmr_outbound_report_receivers self) self)
  | inl _ => ret tt
  end.

Definition broadcast_message (message : Bytes) (topic_hash : TopicHash) : NM unit := call_swarm (Call_publish topic_hash message).

Definition swarm_report_peer (peer_id : PeerId) : NM unit :=
  on_peer_manager (report_peer clock peer_id ReputationModifier_Bad) ;! ret tt.

(** [get_peer_id_from_session_id] of the swarm. *)
Definition get_peer_id_from_session_id (session_id : SessionId) : NM (SqmrError + PeerId) :=
  let! r := on_sqmr (get_peer_id_and_connection_id_from_session_id session_id) in
  ret (match r with inr (peer_id, _) => inr peer_id | inl e => inl e end).

(** *** The loop *)

(** The future of a report that has completed leaves [FuturesUnordered]. *)
Fixpoint remove_first (peer_id : PeerId) (l : list PeerId) : list PeerId :=
  match l with
  | [] => []
  | p :: l' => if p =? peer_id then l' else p :: remove_first peer_id l'
  end.

(** One turn of the [select!] in [run]: the branch that is ready. The branch of the
    responses polls the receivers itself. *)
Inductive Branch : Type :=
| Branch_swarm (event : SwarmEvent) (result : SendResult)
| Branch_responses
| Branch_payload (protocol : StreamProtocol) (query : Bytes)
| Branch_broadcast (topic_hash : TopicHash) (message : Bytes)
| Branch_reported (peer_id : PeerId).

Definition run_branch (branch : Branch) : NM unit :=
  match branch with
  | Branch_swarm event result => handle_swarm_event event result
  | Branch_responses =>
      let! self := get in
      let '(receivers, r) := StreamHashMap_poll_next receiver_poll_next (sqmr_inbound_response_receivers self) in
      modify (nm_set_sqmr_inbound_response_receivers receivers) ;!
      match r with
      | Ready (Some (inbound_session_id, maybe_response)) => handle_response_for_inbound_query inbound_session_id maybe_response
      | _ => ret tt
      end
  | Branch_payload protocol query => handle_local_sqmr_payload protocol query
  | Branch_broadcast topic_hash message => broadcast_message message topic_hash
  | Branch_reported peer_id =>
      modify (fun self => nm_set_reported_peer_receivers (remove_first peer_id (reported_peer_receivers self)) self) ;!
      swarm_report_peer peer_id
  end.

End NetworkManager.
