(* ===== verification/NetworkProps.v ===== *)
(** * Properties of the network manager

    The peer manager and the query protocol behind the manager: no query is
    lost between them. The receivers of the responses: every response of a server
    reaches the query protocol, in order. *)

From stdpp Require Import base gmap list strings fin_maps.
From Stdlib Require Import ZArith Lia.
From S2P Require Import Prelude PeerManager PeerManagerProps Sqmr SqmrProps SqmrRuns NetworkManager.

Section Network.
Context {HM : HashMapIter} {HS : HashSetIter} (clock : nat -> Z).

(** ** The node's network as a whole *)

(** The manager with the events of its behaviours that the swarm has polled and
    not yet delivered, and what the swarm sent to the handlers. *)
Record NetState : Type := mkNetState {
  manager : NetworkManager;
  in_flight : list MixedEvent;
  to_handlers : list SqmrToSwarm
}.

Inductive net_op : Type :=
| Net_payload (protocol : StreamProtocol) (query : Bytes)
| Net_poll_sqmr
| Net_poll_peer_manager (elapsed : Z -> bool)
| Net_poll_discovery (elapsed : bool) (random_peer : PeerId)
| Net_deliver (result : SendResult)
| Net_libp2p (event : MixedEvent)
| Net_swarm (event : FromSwarm)
| Net_handler (peer_id : PeerId) (connection_id : ConnectionId) (event : RequestToBehaviourEvent)
| Net_responses
| Net_reported (peer_id : PeerId).

(** An operation of the manager, in the whole state. *)
Definition on_manager {A} (m : NM A) (k : A -> NetState -> NetState) (s : NetState) : option NetState :=
  match m (manager s) with
  | Done n a => Some (k a (mkNetState n (in_flight s) (to_handlers s)))
  | Fail n _ => Some (mkNetState n (in_flight s) (to_handlers s))
  | Panic => None
  end.

Definition fly (events : list MixedEvent) (s : NetState) : NetState := mkNetState (manager s) (in_flight s ++ events) (to_handlers s).

Definition net_step (op : net_op) (s : NetState) : option NetState :=
  match op with
  | Net_payload protocol query => on_manager (handle_local_sqmr_payload protocol query) (fun _ s => s) s
  | Net_poll_sqmr =>
      on_manager (on_sqmr sqmr_poll) (fun r s =>
        match r with
        | inr (Ready (GenerateEvent e)) => fly [sqmr_event_from e] s
        | inr (Ready e) => mkNetState (manager s) (in_flight s) (to_handlers s ++ [e])
        | _ => s
        end) s
  | Net_poll_peer_manager elapsed =>
      on_manager (on_peer_manager (pm_poll clock elapsed)) (fun r s =>
        match r with inr (Ready (GenerateEvent e)) => fly [peer_manager_event_from e] s | _ => s end) s
  | Net_poll_discovery elapsed random_peer =>
      match mixed_discovery (swarm (manager s)) with
      | None => Some s
      | Some d =>
          match discovery_poll elapsed random_peer d with
          | Done d (Ready (GenerateEvent e)) => on_manager (on_discovery (put d)) (fun _ => fly [discovery_event_from e]) s
          | Done d _ => on_manager (on_discovery (put d)) (fun _ s => s) s
          | _ => None
          end
      end
  | Net_deliver result =>
      match in_flight s with
      | [] => Some s
      | event :: events => on_manager (handle_behaviour_event clock event result) (fun _ s => s) (mkNetState (manager s) events (to_handlers s))
      end
  | Net_libp2p event => Some (fly [event] s)
  | Net_swarm event =>
      on_manager (on_discovery (discovery_on_swarm_event event) ;! on_sqmr (sqmr_on_swarm_event event) ;!
        on_peer_manager (pm_on_swarm_event clock event)) (fun _ s => s) s
  | Net_handler peer_id connection_id event =>
      on_manager (on_sqmr (on_connection_handler_event peer_id connection_id event)) (fun _ s => s) s
  | Net_responses => on_manager (run_branch clock Branch_responses) (fun _ s => s) s
  | Net_reported peer_id => on_manager (run_branch clock (Branch_reported peer_id)) (fun _ s => s) s
  end.

(** What libp2p's own behaviours report, and what does not stop the node: the
    receiver of a channel is alive and the bootstrap peer keeps its address. *)
Definition net_op_ok (op : net_op) : Prop :=
  match op with
  | Net_libp2p event => (exists e, event = kad_event_from e) \/ (exists e, event = identify_event_from e) \/ (exists e, event = gossipsub_event_from e)
  | Net_deliver result => result <> Send_Disconnected
  | Net_swarm (AddressChange _ _) => False
  | _ => True
  end.

(** The query that an operation accepts. *)
Definition accepted_query (s : NetState) (op : net_op) : list SqmrQuery :=
  match op with
  | Net_payload protocol query => [(next_outbound_session_id (mixed_sqmr (swarm (manager s))), (query, protocol))]
  | _ => []
  end.

Fixpoint net_run (ops : list net_op) (s : NetState) : option (NetState * list SqmrQuery) :=
  match ops with
  | [] => Some (s, [])
  | op :: ops' =>
      match net_step op s with
      | Some s1 => prod_map id (app (accepted_query s op)) <$> net_run ops' s1
      | None => None
      end
  end.

(** ** No query is lost *)

Abbreviation sqmr_of s := (mixed_sqmr (swarm (manager s))).
Abbreviation pm_of s := (mixed_peer_manager (swarm (manager s))).

Definition request_event (id : OutboundSessionId) : SqmrToSwarm := GenerateEvent (SqmrEvent_ToOtherBehaviourEvent (RequestPeerAssignment id)).

(** Where the session of a query that was not sent yet is: on its way to the peer
    manager, in it, or on its way back. *)
Definition located (b : Behaviour) (pm : PeerManager Peer) (flying : list MixedEvent) (id : OutboundSessionId) : Prop :=
  request_event id ∈ Behaviour_pending_events b \/
  Mixed_ToOtherBehaviourEvent (FromSqmr (RequestPeerAssignment id)) ∈ flying \/
  placed [] pm id \/
  (exists p c, Mixed_ToOtherBehaviourEvent (FromPeerManager (SessionAssigned id p c)) ∈ flying).

Record parts_inv (qs : list SqmrQuery) (b : Behaviour) (pm : PeerManager Peer) (flying : list MixedEvent) (sent : list SqmrToSwarm) : Prop := {
  ni_queries : queries_inv qs b sent;
  ni_pm : pm_ok pm;
  ni_located : forall id q, outbound_sessions_pending_peer_assignment b !! id = Some q -> located b pm flying id
}.

(** A protocol with a server has a buffer size. *)
Definition registered_ok (n : NetworkManager) : Prop :=
  forall p, p ∈ sqmr_inbound_query_senders n -> is_Some (inbound_protocol_to_buffer_size n !! p).

Definition net_inv (qs : list SqmrQuery) (s : NetState) : Prop :=
  parts_inv qs (sqmr_of s) (pm_of s) (in_flight s) (to_handlers s) /\ registered_ok (manager s).

Lemma located_mono b b' (pm pm' : PeerManager Peer) flying flying' id :
  (request_event id ∈ Behaviour_pending_events b -> request_event id ∈ Behaviour_pending_events b' \/
     Mixed_ToOtherBehaviourEvent (FromSqmr (RequestPeerAssignment id)) ∈ flying') ->
  flying ⊆ flying' -> (placed [] pm id -> placed [] pm' id \/ exists p c, Mixed_ToOtherBehaviourEvent (FromPeerManager (SessionAssigned id p c)) ∈ flying') ->
  located b pm flying id -> located b' pm' flying' id.
Proof.
  intros Hb Hf Hp [H|[H|[H|(p & c & H)]]].
  - destruct (Hb H); [by left|right; by left].
  - right. left. by apply Hf.
  - destruct (Hp H) as [?|?]; [right; right; by left|by right; right; right].
  - right. right. right. exists p, c. by apply Hf.
Qed.

(** The query protocol: an operation that only adds events. *)
Lemma parts_sqmr_adds qs b b' pm flying sent new :
  parts_inv qs b pm flying sent -> next_outbound_session_id b' = next_outbound_session_id b ->
  outbound_sessions_pending_peer_assignment b' = outbound_sessions_pending_peer_assignment b ->
  Behaviour_pending_events b' = Behaviour_pending_events b ++ new -> sent_queries new = [] -> parts_inv qs b' pm flying sent.
Proof.
  intros [Hq Hpm Hl] Hn Hp Hev Hnew. constructor; [|done|].
  - rewrite <-(app_nil_r sent). by eapply queries_frame.
  - intros id q Hid. rewrite Hp in Hid. eapply located_mono; [|done| |by eapply Hl]; [|by left]. rewrite Hev. intros Hin. left. set_solver.
Qed.

Lemma parts_adds {A} (m : BehaviourM A) qs b pm flying sent :
  parts_inv qs b pm flying sent -> adds_events m b ->
  exists b', ((exists a, m b = Done b' a) \/ (exists e, m b = Fail b' e)) /\ parts_inv qs b' pm flying sent.
Proof. intros Hi (b' & new & Hm & Hn & Hp & Hev & Hnew). exists b'. split; [done|]. by eapply parts_sqmr_adds. Qed.

(** A new query. *)
Lemma parts_start qs b pm flying sent query protocol :
  parts_inv qs b pm flying sent -> zlength qs < 2 ^ 64 ->
  exists b', start_query query protocol b = Done b' (next_outbound_session_id b) /\
    parts_inv (qs ++ [(next_outbound_session_id b, (query, protocol))]) b' pm flying sent.
Proof.
  intros [Hq Hpm Hl] Hlt. destruct (start_query_inv qs b sent query protocol Hq Hlt) as (b' & Hr & Hq'). exists b'. split; [done|].
  constructor; [done|done|]. revert Hr. unfold start_query, take_outbound_session_id, add_event_to_queue. run_steps. intros [= <-]. cbn.
  intros id q [[<- _]|[_ Hid]]%lookup_insert_Some; [left; cbn; set_solver|].
  eapply located_mono; [|done| |by eapply Hl]; [|by left]. cbn. intros Hin. left. set_solver.
Qed.

(** The event of the query protocol that is polled. *)
Lemma parts_poll_sqmr qs b pm flying sent :
  parts_inv qs b pm flying sent ->
  exists b' r, sqmr_poll b = Done b' r /\
    match r with
    | Ready (GenerateEvent e) => parts_inv qs b' pm (flying ++ [sqmr_event_from e]) sent
    | Ready e => parts_inv qs b' pm flying (sent ++ [e])
    | Pending => parts_inv qs b' pm flying sent
    end.
Proof.
  intros Hi. pose proof Hi as [Hq Hpm Hl]. unfold sqmr_poll. run_steps. destruct (Behaviour_pending_events b) as [|e l] eqn:He; run_steps; [by eexists _, _|].
  eexists _, _. split; [reflexivity|].
  assert (Hq' : queries_inv qs (set_bevents l b) (sent ++ [e])) by (apply (queries_frame _ b _ _ _ []); [done|done|done|by rewrite app_nil_r, He|done]).
  assert (Hreq : forall id, request_event id ∈ Behaviour_pending_events b -> request_event id ∈ l \/ e = request_event id) by (intros id; rewrite He; set_solver).
  assert (Hnot : (forall id, e <> request_event id) -> parts_inv qs (set_bevents l b) pm flying (sent ++ [e])).
  { intros Hne. constructor; [done|done|]. intros id q Hid. eapply located_mono; [|done| |by eapply Hl]; [|by left]. intros Hin.
    destruct (Hreq id Hin) as [? | ->]; [by left|by destruct (Hne id)]. }
  destruct e as [e|opts|p c e]; [|by apply Hnot..]. constructor; [|done|].
  - destruct Hq' as [Hids Hn Hsp]. constructor; [done|done|]. rewrite sent_queries_app in *. rewrite sent_queries_app in Hsp. cbn in Hsp. by rewrite app_nil_r in Hsp.
  - intros id q Hid. apply (located_mono b _ pm _ flying); [|set_solver| |by eapply Hl]; [|by left]. intros Hin.
    destruct (Hreq id Hin) as [?|Heq]; [by left|right]. injection Heq as ->. cbn. set_solver.
Qed.

(** The peer manager moves. *)
Lemma parts_pm_moves qs b pm pm' op ev flying sent :
  parts_inv qs b pm flying sent -> pm_moves (P:=Peer) op pm pm' ev ->
  parts_inv qs b pm' (flying ++ omap (fun e => match e with GenerateEvent e => Some (peer_manager_event_from e) | _ => None end) ev) sent.
Proof.
  intros [Hq Hpm Hl] [Hok Hpl _ _ _]. constructor; [done|done|]. intros id q Hid. apply (located_mono b _ pm _ flying); [|set_solver| |by eapply Hl]; [by left|].
  intros Hp. specialize (Hpl [] id Hp). rewrite app_nil_r in Hpl. destruct Hpl as [H|[H|(p & c & H)]]; [left; by left|left; right; by left|].
  apply elem_of_app in H as [H|H]; [left; right; right; exists p, c; by rewrite app_nil_r|]. right. exists p, c. apply elem_of_app. right.
  apply list_elem_of_omap. eexists. split; [exact H|done].
Qed.

Lemma parts_pm_keeps qs b (pm pm' : PeerManager Peer) flying sent :
  parts_inv qs b pm flying sent -> pm_keeps pm pm' -> parts_inv qs b pm' flying sent.
Proof.
  intros [Hq Hpm Hl] [Hok Hpl _ _ _]. constructor; [done|done|]. intros id q Hid. eapply located_mono; [|done| |by eapply Hl]; [by left|].
  intros Hp. left. by apply Hpl.
Qed.

(** ** Delivering an event *)

Lemma located_tail b (pm : PeerManager Peer) e flying id :
  located b pm (Mixed_ToOtherBehaviourEvent e :: flying) id ->
  (e <> FromSqmr (RequestPeerAssignment id)) -> (forall p c, e <> FromPeerManager (SessionAssigned id p c)) -> located b pm flying id.
Proof.
  intros [H|[H|[H|(p & c & H)]]] H1 H2; [by left| |by right; right; left|]; apply elem_of_cons in H as [H|H]; try congruence.
  - right. by left.
  - right. right. right. by exists p, c.
Qed.

Lemma sqmr_on_other b event :
  exists b', @on_other_behaviour_event _ _ Behaviour_bridged event b = Done b' tt /\
    (b' = b \/ exists id p c, event = FromPeerManager (SessionAssigned id p c)).
Proof.
  destruct event as [| | | |[id p c| |]|]; try (exists b; split; [done|by left]).
  cbn [on_other_behaviour_event Behaviour_bridged]. run_steps.
  destruct (outbound_sessions_pending_peer_assignment b !! id) as [[q pr]|]; eexists; (split; [reflexivity|]); right; eauto.
Qed.

Lemma parts_deliver qs b pm event flying sent :
  parts_inv qs b pm (Mixed_ToOtherBehaviourEvent event :: flying) sent ->
  exists b' pm', @on_other_behaviour_event _ _ Behaviour_bridged event b = Done b' tt /\
    @on_other_behaviour_event _ _ (PeerManager_bridged clock) event pm = Done pm' tt /\ parts_inv qs b' pm' flying sent.
Proof.
  intros [Hq Hpm Hl]. destruct (on_other_event_ok clock pm event Hpm) as (pm' & Hr & [Hok Hpl _ _ _] & Hreq).
  destruct (sqmr_on_other b event) as (b' & Hb & [->|(id & p & c & ->)]).
  - exists b, pm'. split; [done|]. split; [done|]. constructor; [done|done|]. intros id q Hid. specialize (Hl id q Hid).
    destruct (decide (id ∈ requested (Op_other event))) as [Hin|Hnin]; [right; right; left; by apply Hreq|].
    assert (Hns : forall p c, event <> FromPeerManager (SessionAssigned id p c)).
    { intros p c ->. revert Hb. cbn [on_other_behaviour_event Behaviour_bridged]. run_steps. rewrite Hid. destruct q as [q pr].
      unfold add_event_to_queue. run_steps. unfold modify. intros [= Hb]. apply (f_equal Behaviour_pending_events) in Hb. cbn in Hb.
      apply (f_equal length) in Hb. rewrite length_app in Hb. cbn in Hb. lia. }
    apply located_tail in Hl; [|intros ->; cbn in Hnin; set_solver|done].
    eapply located_mono; [by left|done| |exact Hl]. intros Hp. left. by apply Hpl.
  - exists b', pm'. split; [done|]. split; [done|]. destruct (assigned_inv qs b sent id p c Hq) as (b2 & Hb2 & Hq2). rewrite Hb in Hb2. simplify_eq.
    constructor; [done|done|]. intros id' q Hid.
    assert (Hid' : id' <> id /\ outbound_sessions_pending_peer_assignment b !! id' = Some q /\ Behaviour_pending_events b ⊆ Behaviour_pending_events b2).
    { revert Hb. cbn [on_other_behaviour_event Behaviour_bridged]. run_steps.
      destruct (outbound_sessions_pending_peer_assignment b !! id) as [[q0 pr]|] eqn:Hp0; unfold add_event_to_queue; run_steps; intros [= <-]; cbn in *.
      - apply lookup_delete_Some in Hid as [? ?]. split; [done|]. split; [done|]. set_solver.
      - split; [by intros ->; rewrite Hid in Hp0|]. done. }
    destruct Hid' as (Hne & Hid2 & Hsub). specialize (Hl id' q Hid2). apply located_tail in Hl; [|done|intros p' c' [= ]; congruence].
    eapply located_mono; [|done| |exact Hl]; [intros Hin; left; by apply Hsub|]. intros Hp. left. by apply Hpl.
Qed.

(** An event for the channels of the node leaves the behaviours alone. *)
Lemma external_event_ok n event result :
  registered_ok n -> result <> Send_Disconnected ->
  exists n', handle_behaviour_external_event event result n = Done n' tt /\ swarm n' = swarm n /\ registered_ok n'.
Proof.
  intros Hreg Hres. destruct event as [[q id p pr|id r p|id e|id]|[p m t]]; cbn [handle_behaviour_external_event handle_sqmr_behaviour_event handle_gossipsub_behaviour_event].
  - unfold handle_new_inbound_session. run_steps. cbn [sqmr_inbound_query_senders inbound_protocol_to_buffer_size nm_set_num_active_inbound_sessions].
    case_decide as Hpr; [|(eexists; split; [reflexivity|by split])]. destruct (Hreg _ Hpr) as [size ->]. run_steps. destruct result; [| |done]; unfold server_send_now, log_delivery; run_steps; (eexists; split; [reflexivity|by split]).
  - run_steps. case_decide; [|(eexists; split; [reflexivity|by split])]. destruct result; (eexists; split; [reflexivity|by split]).
  - unfold handle_session_removed, report_session_removed_to_metrics. run_steps. destruct id; run_steps; (eexists; split; [reflexivity|by split]).
  - unfold handle_session_removed, report_session_removed_to_metrics. run_steps. destruct id; run_steps; (eexists; split; [reflexivity|by split]).
  - unfold handle_new_report_receiver. run_steps. case_decide; [|(eexists; split; [reflexivity|by split])]. destruct result; [| |done]; (eexists; split; [reflexivity|by split]).
Qed.

Lemma discovery_on_other (d : Discovery) event : exists d', on_other_behaviour_event event d = Done d' tt.
Proof. destruct event as [| |[]| |[]|]; by eexists. Qed.

(** A step of the query protocol alone. *)
Lemma on_sqmr_step {A} (m : BehaviourM A) n b' (r : SqmrError + A) :
  match r with inr a => m (mixed_sqmr (swarm n)) = Done b' a | inl e => m (mixed_sqmr (swarm n)) = Fail b' e end ->
  on_sqmr m n = Done (nm_set_swarm (mkMixedBehaviour (mixed_peer_manager (swarm n)) (mixed_discovery (swarm n)) b' (kad_calls (swarm n))) n) r.
Proof. unfold on_sqmr. by destruct r as [e|a]; intros ->. Qed.

Lemma on_peer_manager_step {A} (m : M (PeerManager Peer) PeerManagerError A) n pm' (r : PeerManagerError + A) :
  match r with inr a => m (mixed_peer_manager (swarm n)) = Done pm' a | inl e => m (mixed_peer_manager (swarm n)) = Fail pm' e end ->
  on_peer_manager m n = Done (nm_set_swarm (mkMixedBehaviour pm' (mixed_discovery (swarm n)) (mixed_sqmr (swarm n)) (kad_calls (swarm n))) n) r.
Proof. unfold on_peer_manager. by destruct r as [e|a]; intros ->. Qed.

Lemma on_discovery_step (m : DiscoveryM unit) n :
  (forall d, mixed_discovery (swarm n) = Some d -> exists d', m d = Done d' tt) ->
  exists d', on_discovery m n = Done (nm_set_swarm (mkMixedBehaviour (mixed_peer_manager (swarm n)) d' (mixed_sqmr (swarm n)) (kad_calls (swarm n))) n) tt.
Proof.
  intros Hm. unfold on_discovery. destruct (mixed_discovery (swarm n)) as [d|] eqn:Hd.
  - destruct (Hm d eq_refl) as [d' ->]. by exists (Some d').
  - exists None. by destruct n as [[]]; cbn in *; subst.
Qed.

Lemma deliver_ok qs n event result flying sent :
  parts_inv qs (mixed_sqmr (swarm n)) (mixed_peer_manager (swarm n)) (event :: flying) sent -> registered_ok n -> result <> Send_Disconnected ->
  exists n', handle_behaviour_event clock event result n = Done n' tt /\
    parts_inv qs (mixed_sqmr (swarm n')) (mixed_peer_manager (swarm n')) flying sent /\ registered_ok n'.
Proof.
  intros Hi Hreg Hres. destruct event as [event|event]; cbn [handle_behaviour_event].
  - destruct (external_event_ok n event result Hreg Hres) as (n' & Hr & Hs & Hreg'). exists n'. split; [done|]. split; [|done]. rewrite Hs.
    destruct Hi as [Hq Hpm Hl]. constructor; [done|done|]. intros id q Hid. destruct (Hl id q Hid) as [H|[H|[H|(p & c & H)]]];
      [by left| |by right; right; left|]; apply elem_of_cons in H as [H|H]; try congruence; [right; by left|right; right; right; by exists p, c].
  - assert (Hcase : event = NoOp \/ event <> NoOp) by (destruct event; by auto). destruct Hcase as [->|Hne].
    { exists n. split; [done|]. split; [|done]. destruct Hi as [Hq Hpm Hl]. constructor; [done|done|]. intros id q Hid. specialize (Hl id q Hid). by apply located_tail in Hl. }
    destruct (parts_deliver _ _ _ _ _ _ Hi) as (b' & pm' & Hb & Hp & Hi').
    assert (Hrun : exists n', handle_to_other_behaviour_event clock event n = Done n' tt /\ mixed_sqmr (swarm n') = b' /\ mixed_peer_manager (swarm n') = pm' /\
      sqmr_inbound_query_senders n' = sqmr_inbound_query_senders n /\ inbound_protocol_to_buffer_size n' = inbound_protocol_to_buffer_size n).
    { replace (handle_to_other_behaviour_event clock event) with (call_kad (kad_on_other_behaviour_event event) ;! on_discovery (on_other_behaviour_event event) ;!
        on_sqmr (on_other_behaviour_event event) ;! on_peer_manager (@on_other_behaviour_event _ _ (PeerManager_bridged clock) event) ;! ret tt) by (by destruct event).
      unfold call_kad. run_steps. set (n1 := nm_set_swarm _ n).
      destruct (on_discovery_step (on_other_behaviour_event event) n1) as [d' Hd]; [intros d _; apply discovery_on_other|]. rewrite (bind_step _ _ _ _ _ Hd).
      set (n2 := nm_set_swarm _ n1). rewrite (bind_step _ _ _ _ _ (on_sqmr_step _ n2 b' (inr tt) Hb)).
      set (n3 := nm_set_swarm _ n2). rewrite (bind_step _ _ _ _ _ (on_peer_manager_step _ n3 pm' (inr tt) Hp)). eexists. split; [reflexivity|]. done. }
    destruct Hrun as (n' & Hr & <- & <- & Hse & Hbu). exists n'. split; [done|]. split; [done|]. intros p. rewrite Hse, Hbu. apply Hreg.
Qed.

(** ** Every step *)

(** An operation of the query protocol that only adds events. *)
Lemma step_sqmr_adds {A} (m : BehaviourM A) qs n flying sent :
  parts_inv qs (mixed_sqmr (swarm n)) (mixed_peer_manager (swarm n)) flying sent -> registered_ok n -> adds_events m (mixed_sqmr (swarm n)) ->
  exists n' r, on_sqmr m n = Done n' r /\ parts_inv qs (mixed_sqmr (swarm n')) (mixed_peer_manager (swarm n')) flying sent /\ registered_ok n'.
Proof.
  intros Hi Hreg Ha. destruct (parts_adds m qs _ _ _ _ Hi Ha) as (b' & Hm & Hi').
  destruct Hm as [[a Hm]|[e Hm]]; eexists _, _; (split; [eapply (on_sqmr_step _ _ _ (inr a)) || eapply (on_sqmr_step _ _ _ (inl e)); exact Hm|]); by split.
Qed.

Lemma swarm_event_step qs n event flying sent :
  parts_inv qs (mixed_sqmr (swarm n)) (mixed_peer_manager (swarm n)) flying sent -> registered_ok n -> net_op_ok (Net_swarm event) ->
  exists n' r, (on_discovery (discovery_on_swarm_event event) ;! on_sqmr (sqmr_on_swarm_event event) ;! on_peer_manager (pm_on_swarm_event clock event)) n = Done n' r /\
    parts_inv qs (mixed_sqmr (swarm n')) (mixed_peer_manager (swarm n')) flying sent /\ registered_ok n'.
Proof.
  intros Hi Hreg Hop. destruct (on_discovery_step (discovery_on_swarm_event event) n) as [d' Hd].
  { intros d _. unfold discovery_on_swarm_event. run_steps. destruct event as [[p|] ? ?|p ?|p ? k|p ?|]; try done; try by eexists.
    - destruct (p =? bootstrap_peer_id d); by eexists.
    - destruct (p =? bootstrap_peer_id d); by eexists.
    - destruct ((p =? bootstrap_peer_id d) && (k =? 0)); by eexists. }
  rewrite (bind_step _ _ _ _ _ Hd). set (n1 := nm_set_swarm _ n).
  destruct (step_sqmr_adds (sqmr_on_swarm_event event) qs n1 flying sent Hi Hreg (swarm_event_adds event _)) as (n2 & r2 & Hr2 & Hi2 & Hreg2).
  rewrite (bind_step _ _ _ _ _ Hr2). destruct (on_swarm_event_ok clock (mixed_peer_manager (swarm n2)) event (ni_pm _ _ _ _ _ Hi2)) as (pm' & Hp & Hk).
  eexists _, _. split; [exact (on_peer_manager_step _ n2 pm' (inr tt) Hp)|]. split; [|exact Hreg2]. by eapply parts_pm_keeps.
Qed.

Lemma responses_step qs n flying sent :
  parts_inv qs (mixed_sqmr (swarm n)) (mixed_peer_manager (swarm n)) flying sent -> registered_ok n ->
  exists n', run_branch clock Branch_responses n = Done n' tt /\
    parts_inv qs (mixed_sqmr (swarm n')) (mixed_peer_manager (swarm n')) flying sent /\ registered_ok n'.
Proof.
  intros Hi Hreg. cbn [run_branch]. run_steps. destruct (StreamHashMap_poll_next receiver_poll_next (sqmr_inbound_response_receivers n)) as [rs r]. run_steps.
  set (n1 := nm_set_sqmr_inbound_response_receivers rs n). destruct r as [[[id mr]|]|]; [|by exists n1..].
  assert (Hadds : adds_events (match mr with Some x => send_response x id | None => close_inbound_session id end) (mixed_sqmr (swarm n1))).
  { destruct mr; apply lookup_session_adds; intros [p c]; eexists _, [_]; (split; [left; eexists; reflexivity|]); done. }
  unfold handle_response_for_inbound_query.
  destruct (step_sqmr_adds _ qs n1 flying sent Hi Hreg Hadds) as (n2 & r2 & Hr2 & Hi2 & Hreg2). exists n2.
  destruct mr; by rewrite (bind_step _ _ _ _ _ Hr2).
Qed.

Lemma discovery_poll_ok elapsed random_peer d : exists d' r, discovery_poll elapsed random_peer d = Done d' r.
Proof.
  unfold discovery_poll. run_steps. repeat match goal with |- context [if ?b then _ else _] => destruct b end; by eexists _, _.
Qed.

Lemma net_step_ok qs s op :
  net_inv qs s -> net_op_ok op -> zlength qs < 2 ^ 64 ->
  exists s', net_step op s = Some s' /\ net_inv (qs ++ accepted_query s op) s'.
Proof.
  intros [Hi Hreg] Hop Hlt. destruct op as [protocol query| |elapsed|elapsed rp|result|event|event|p c event| |p]; cbn [net_step accepted_query net_op_ok] in *;
    try rewrite app_nil_r.
  - destruct (parts_start _ _ _ _ _ query protocol Hi Hlt) as (b' & Hb & Hi'). unfold on_manager, handle_local_sqmr_payload.
    rewrite (bind_step _ _ _ _ _ (on_sqmr_step _ _ b' (inr _) Hb)). run_steps. eexists. split; [reflexivity|]. by split.
  - destruct (parts_poll_sqmr _ _ _ _ _ Hi) as (b' & r & Hr & Hi'). unfold on_manager. rewrite (on_sqmr_step _ _ b' (inr r) Hr).
    eexists. split; [reflexivity|]. destruct r as [[e|o|p c e]|]; by split.
  - destruct (poll_ok clock (pm_of s) elapsed (ni_pm _ _ _ _ _ Hi)) as (pm1 & pm2 & r & Hr & Hk & Hok & He & Heq).
    unfold on_manager. rewrite (on_peer_manager_step _ _ pm2 (inr r) Hr). eexists. split; [reflexivity|].
    destruct (apply_ok clock (pm_of s) (Op_poll elapsed) (ni_pm _ _ _ _ _ Hi)) as (pm3 & ev & Happ & Hmv).
    cbn [pm_apply] in Happ. rewrite (bind_step _ _ _ _ _ Hr) in Happ. destruct Happ as [[= <- <-]|[_ [e [=]]]].
    pose proof (parts_pm_moves _ _ _ _ _ _ _ _ Hi Hmv) as Hi'. destruct r as [[e|o|p c []]|]; cbn in Hi'; [by split|rewrite app_nil_r in Hi'; by split..].
  - destruct (mixed_discovery (swarm (manager s))) as [d|] eqn:Hd; [|by exists s].
    destruct (discovery_poll_ok elapsed rp d) as (d' & r & ->).
    assert (Hput : forall d' evs, Forall (fun e => exists de, e = discovery_event_from de) evs ->
      exists s', on_manager (on_discovery (put d')) (fun _ => fly evs) s = Some s' /\ net_inv qs s').
    { intros d2 evs Hev. unfold on_manager, on_discovery. rewrite Hd. cbn. eexists. split; [reflexivity|]. split; [|exact Hreg]. cbn.
      destruct Hi as [Hq Hpm Hl]. constructor; [done|done|]. intros id q Hid. apply (located_mono (sqmr_of s) _ (pm_of s) _ (in_flight s)); [by left|set_solver|by left|by eapply Hl]. }
    assert (Hput0 : forall d', exists s', on_manager (on_discovery (put d')) (fun _ s => s) s = Some s' /\ net_inv qs s').
    { intros d2. unfold on_manager, on_discovery. rewrite Hd. cbn. eexists. split; [reflexivity|]. by split. }
    destruct r as [[e|o|p c []]|]; [|apply Hput0..]. apply Hput. repeat constructor. by eexists.
  - destruct (in_flight s) as [|event events] eqn:Hf; [exists s; split; [done|]; split; [by rewrite Hf|done]|].
    destruct (deliver_ok _ _ _ result _ _ Hi Hreg Hop) as (n' & Hr & Hi' & Hreg'). unfold on_manager. cbn [manager]. rewrite Hr.
    eexists. split; [reflexivity|]. by split.
  - eexists. split; [reflexivity|]. split; [|exact Hreg]. cbn. destruct Hi as [Hq Hpm Hl]. constructor; [done|done|]. intros id q Hid.
    apply (located_mono (sqmr_of s) _ (pm_of s) _ (in_flight s)); [by left|set_solver|by left|by eapply Hl].
  - destruct (swarm_event_step _ _ event _ _ Hi Hreg Hop) as (n' & r & Hr & Hi' & Hreg'). unfold on_manager. rewrite Hr. eexists. split; [reflexivity|]. by split.
  - destruct (step_sqmr_adds _ _ _ _ _ Hi Hreg (handler_event_adds p c event _)) as (n' & r & Hr & Hi' & Hreg'). unfold on_manager. rewrite Hr.
    eexists. split; [reflexivity|]. by split.
  - destruct (responses_step _ _ _ _ Hi Hreg) as (n' & Hr & Hi' & Hreg'). unfold on_manager. rewrite Hr. eexists. split; [reflexivity|]. by split.
  - unfold on_manager. cbn [run_branch]. run_steps. unfold swarm_report_peer.
    destruct (report_peer_ok clock (pm_of s) p (ni_pm _ _ _ _ _ Hi)) as (pm' & Hr & Hk). set (n1 := nm_set_reported_peer_receivers _ _).
    assert (exists r, on_peer_manager (report_peer clock p ReputationModifier_Bad) n1 =
      Done (nm_set_swarm (mkMixedBehaviour pm' (mixed_discovery (swarm n1)) (mixed_sqmr (swarm n1)) (kad_calls (swarm n1))) n1) r) as [r Hr'].
    { destruct Hr as [[a Hr]|[e Hr]]; [exists (inr a)|exists (inl e)]; by apply on_peer_manager_step. }
    rewrite (bind_step _ _ _ _ _ Hr'). eexists. split; [reflexivity|]. split; [|exact Hreg]. cbn. by eapply parts_pm_keeps.
Qed.

Lemma net_run_ok qs s ops :
  net_inv qs s -> Forall net_op_ok ops -> zlength qs + zlength ops < 2 ^ 64 ->
  exists s' qs', net_run ops s = Some (s', qs') /\ net_inv (qs ++ qs') s'.
Proof.
  revert qs s. induction ops as [|op ops IH]; intros qs s Hi Hops Hlt; [exists s, []; split; [done|by rewrite app_nil_r]|].
  apply Forall_cons in Hops as [Hop Hops]. assert (Hlen : zlength (op :: ops) = 1 + zlength ops) by (unfold zlength; cbn; lia). pose proof (zlength_nonneg ops).
  destruct (net_step_ok qs s op Hi Hop) as (s1 & Hs1 & Hi1); [lia|].
  destruct (IH _ _ Hi1 Hops) as (s2 & qs2 & Hr & Hi2).
  { rewrite zlength_app. assert (zlength (accepted_query s op) <= 1) by (destruct op; unfold zlength; cbn; lia). lia. }
  exists s2, (accepted_query s op ++ qs2). cbn [net_run]. rewrite Hs1, Hr. split; [done|]. by rewrite app_assoc.
Qed.

(** ** The responses of the servers *)

(** What a receiver will still yield: the queued responses, then the end. *)
Definition receiver_items (r : ResponseReceiver) : list (option Bytes) :=
  (Some <$> queued r) ++ (if sender_dropped r && negb (end_sent r) then [None] else []).

Lemma receiver_poll_spec r :
  match receiver_items r with
  | [] => exists p, receiver_poll_next r = (r, p) /\ (p = Pending \/ p = Ready None)
  | x :: rest => exists r', receiver_poll_next r = (r', Ready (Some x)) /\ receiver_items r' = rest
  end.
Proof.
  destruct r as [[|b q] [] []]; unfold receiver_items, receiver_poll_next; cbn; eexists; (split; [reflexivity|]); cbn; auto.
Qed.

Definition same_streams (m : gmap InboundSessionId ResponseReceiver) (entries : list (InboundSessionId * ResponseReceiver)) : Prop :=
  forall k v, (k, v) ∈ entries -> m !! k = Some v.

(** A poll of the streams yields the next item of one stream that has one. *)
Lemma poll_streams_spec entries finished self :
  same_streams (stream_map self) entries ->
  match poll_streams receiver_poll_next entries finished self with
  | (self', Ready (Some (k, x))) => exists v v' rest, (k, v) ∈ entries /\ receiver_items v = x :: rest /\ receiver_items v' = rest /\
      stream_map self' = <[k := v']> (stream_map self)
  | (self', _) => stream_map self' = stream_map self /\ forall k v, (k, v) ∈ entries -> receiver_items v = []
  end.
Proof.
  revert finished self. induction entries as [|[k v] entries IH]; intros finished self Hs; cbn [poll_streams].
  - destruct finished; (split; [done|]); by intros ? ? ?%elem_of_nil.
  - assert (Hk : stream_map self !! k = Some v) by (apply Hs; left). assert (Hs' : same_streams (stream_map self) entries) by (intros k' v' Hin; apply Hs; by right).
    pose proof (receiver_poll_spec v) as Hp. destruct (receiver_items v) as [|x rest] eqn:Hi.
    + destruct Hp as (p & -> & Hp).
      assert (Hid : <[k := v]> (stream_map self) = stream_map self) by (by apply insert_id).
      assert (Hrec : forall fin self2, stream_map self2 = stream_map self ->
        match poll_streams receiver_poll_next entries fin self2 with
        | (self', Ready (Some (k', x))) => exists v0 v' rest, (k', v0) ∈ (k, v) :: entries /\ receiver_items v0 = x :: rest /\ receiver_items v' = rest /\
            stream_map self' = <[k' := v']> (stream_map self)
        | (self', _) => stream_map self' = stream_map self /\ forall k' v0, (k', v0) ∈ (k, v) :: entries -> receiver_items v0 = []
        end).
      { intros fin self2 Heq. specialize (IH fin self2). rewrite Heq in IH. specialize (IH Hs').
        destruct (poll_streams receiver_poll_next entries fin self2) as [self' [[[k' x]|]|]].
        - destruct IH as (v0 & v' & rest & Hin & H1 & H2 & H3). exists v0, v', rest. split; [by right|done].
        - destruct IH as [H1 H2]. split; [done|]. intros k' v0 [[= -> ->]|Hin]%elem_of_cons; [done|by eapply H2].
        - destruct IH as [H1 H2]. split; [done|]. intros k' v0 [[= -> ->]|Hin]%elem_of_cons; [done|by eapply H2]. }
      destruct Hp as [->| ->]; apply Hrec; cbn; by rewrite Hid.
    + destruct Hp as (v' & -> & Hv'). exists v, v', rest. split; [left|done].
Qed.

(** Items left in all streams. *)
Definition items_left (m : gmap InboundSessionId ResponseReceiver) : nat := sum_list_with (fun e => length (receiver_items e.2)) (map_to_list m).

Lemma items_left_insert m k v v' :
  m !! k = Some v -> (items_left (<[k := v']> m) + length (receiver_items v) = items_left m + length (receiver_items v'))%nat.
Proof.
  intros Hk. unfold items_left. rewrite <-(insert_delete_id m k v Hk) at 2. rewrite <-(insert_delete_eq m k v').
  assert (Hp : forall w, sum_list_with (fun e => length (receiver_items e.2)) (map_to_list (<[k := w]> (delete k m))) =
    (length (receiver_items w) + sum_list_with (fun e => length (receiver_items e.2)) (map_to_list (delete k m)))%nat).
  { intros w. assert (Hd : delete k m !! k = None) by apply lookup_delete_eq. pose proof (map_to_list_insert (delete k m) k w Hd) as Hperm.
    assert (Hgen : forall l1 l2 : list (InboundSessionId * ResponseReceiver), l1 ≡ₚ l2 ->
      sum_list_with (fun e => length (receiver_items e.2)) l1 = sum_list_with (fun e => length (receiver_items e.2)) l2) by (induction 1; cbn; lia).
    by rewrite (Hgen _ _ Hperm). }
  rewrite !Hp. lia.
Qed.

(** What the query protocol was told about a session. *)
Definition forwarded_item (id : InboundSessionId) (e : SqmrToSwarm) : option (option Bytes) :=
  match e with
  | NotifyHandler _ _ (SendResponse r id') => if decide (id' = id) then Some (Some r) else None
  | NotifyHandler _ _ (CloseInboundSession id') => if decide (id' = id) then Some None else None
  | _ => None
  end.
Definition forwarded (id : InboundSessionId) (log : list SqmrToSwarm) : list (option Bytes) := omap (forwarded_item id) log.

Abbreviation receivers_of n := (stream_map (sqmr_inbound_response_receivers n)).
Abbreviation queue_of n := (Behaviour_pending_events (mixed_sqmr (swarm n))).

(** Every session with a receiver is known to the query protocol. *)
Definition receivers_known (n : NetworkManager) : Prop :=
  forall id, is_Some (receivers_of n !! id) -> is_Some (session_id_to_peer_id_and_connection_id (mixed_sqmr (swarm n)) !! SessionId_InboundSessionId id).

Definition items_of (n : NetworkManager) (id : InboundSessionId) : list (option Bytes) :=
  match receivers_of n !! id with Some r => receiver_items r | None => [] end.

Lemma forward_ok n id x :
  is_Some (session_id_to_peer_id_and_connection_id (mixed_sqmr (swarm n)) !! SessionId_InboundSessionId id) ->
  exists n', handle_response_for_inbound_query id x n = Done n' tt /\
    sqmr_inbound_response_receivers n' = sqmr_inbound_response_receivers n /\
    session_id_to_peer_id_and_connection_id (mixed_sqmr (swarm n')) = session_id_to_peer_id_and_connection_id (mixed_sqmr (swarm n)) /\
    forall id', forwarded id' (queue_of n') = forwarded id' (queue_of n) ++ (if decide (id' = id) then [x] else []).
Proof.
  intros [[p c] Hk]. unfold handle_response_for_inbound_query.
  assert (Hend : forall e, match e with Some r => send_response r id | None => close_inbound_session id end (mixed_sqmr (swarm n)) =
    Done (set_bevents (queue_of n ++ [NotifyHandler p c (match e with Some r => SendResponse r id | None => CloseInboundSession id end)]) (mixed_sqmr (swarm n))) tt).
  { intros [r|]; unfold send_response, close_inbound_session, get_peer_id_and_connection_id_from_session_id; run_steps; by rewrite Hk. }
  specialize (Hend x). destruct x as [r|]; rewrite (bind_step _ _ _ _ _ (on_sqmr_step _ n _ (inr tt) Hend));
    (eexists; split; [reflexivity|]; split; [done|]; split; [done|]; intros id'; cbn; unfold forwarded; rewrite omap_app; f_equal; cbn; repeat case_decide; congruence).
Qed.

Lemma responses_turn n :
  receivers_known n ->
  exists n', run_branch clock Branch_responses n = Done n' tt /\ receivers_known n' /\
    items_left (receivers_of n') = pred (items_left (receivers_of n)) /\
    forall id, forwarded id (queue_of n') ++ items_of n' id = forwarded id (queue_of n) ++ items_of n id.
Proof.
  intros Hkn. cbn [run_branch]. run_steps.
  assert (Hss : same_streams (receivers_of n) (hm_iter (receivers_of n))) by (intros k v; by rewrite elem_of_hm_iter).
  pose proof (poll_streams_spec (hm_iter (receivers_of n)) true (sqmr_inbound_response_receivers n) Hss) as Hp.
  unfold StreamHashMap_poll_next. destruct (poll_streams receiver_poll_next (hm_iter (receivers_of n)) true (sqmr_inbound_response_receivers n)) as [rs r]. run_steps.
  set (n1 := nm_set_sqmr_inbound_response_receivers rs n).
  assert (Hidle : stream_map rs = receivers_of n -> (forall k v, (k, v) ∈ hm_iter (receivers_of n) -> receiver_items v = []) ->
    receivers_known n1 /\ items_left (receivers_of n1) = pred (items_left (receivers_of n)) /\
    forall id, forwarded id (queue_of n1) ++ items_of n1 id = forwarded id (queue_of n) ++ items_of n id).
  { intros Heq Hnone. unfold receivers_known, items_of. cbn. rewrite Heq. split; [exact Hkn|]. split; [|done]. unfold items_left.
    assert (Hz : sum_list_with (fun e : InboundSessionId * ResponseReceiver => length (receiver_items e.2)) (map_to_list (receivers_of n)) = 0%nat); [|lia].
    assert (Hall : forall e, e ∈ map_to_list (receivers_of n) -> receiver_items e.2 = []).
    { intros [k v] Hin. apply (Hnone k v). by apply elem_of_hm_iter, elem_of_map_to_list. }
    induction (map_to_list (receivers_of n)) as [|e l IH]; [done|]. cbn. rewrite Hall by left. apply IH. intros e' He'. apply Hall. by right. }
  destruct r as [[[id x]|]|]; [|exists n1; split; [done|by apply Hidle; apply Hp]..].
  destruct Hp as (v & v' & rest & Hin & Hv & Hv' & Hm). apply elem_of_hm_iter in Hin.
  destruct (forward_ok n1 id x) as (n2 & Hr & Hrec & Hses & Hfw); [apply Hkn; by eexists|]. exists n2. split; [done|].
  split; [|split].
  - intros id'. rewrite Hrec, Hses. cbn. rewrite Hm. intros [w [[<- _]|[_ Hw]]%lookup_insert_Some]; apply Hkn; by eexists.
  - rewrite Hrec. cbn. rewrite Hm. pose proof (items_left_insert (receivers_of n) id v v' Hin) as Hl. rewrite Hv, Hv' in Hl. cbn in Hl. lia.
  - intros id'. rewrite Hfw. unfold items_of. rewrite Hrec. cbn. rewrite Hm. rewrite <-app_assoc. f_equal.
    case_decide as Hid; [subst; rewrite lookup_insert_eq, Hin, Hv; done|by rewrite lookup_insert_ne by congruence].
Qed.

(** [k] turns of the branch of the responses. *)
Fixpoint response_turns (k : nat) : NM unit :=
  match k with O => ret tt | S k => run_branch clock Branch_responses ;! response_turns k end.

Lemma response_turns_ok k n :
  receivers_known n -> (items_left (receivers_of n) <= k)%nat ->
  exists n', response_turns k n = Done n' tt /\ items_left (receivers_of n') = 0%nat /\
    forall id, forwarded id (queue_of n') = forwarded id (queue_of n) ++ items_of n id.
Proof.
  revert n. induction k as [|k IH]; intros n Hkn Hle; cbn [response_turns].
  - exists n. split; [done|]. split; [lia|]. intros id. assert (Hz : items_of n id = []); [|by rewrite Hz, app_nil_r].
    unfold items_of. destruct (receivers_of n !! id) as [r|] eqn:Hr; [|done]. pose proof (items_left_insert _ id r (mkResponseReceiver [] false false) Hr) as Hl.
    cbn in Hl. destruct (receiver_items r); [done|]. cbn in Hl. lia.
  - destruct (responses_turn n Hkn) as (n1 & Hr & Hkn1 & Hl1 & Hf1). rewrite (bind_step _ _ _ _ _ Hr).
    destruct (IH n1 Hkn1) as (n2 & Hr2 & Hz2 & Hf2); [lia|]. exists n2. split; [done|]. split; [done|]. intros id. by rewrite Hf2, Hf1.
Qed.

End Network.
