(* ===== verification/NetworkTheorems.v ===== *)
(** * What the network layer guarantees

    The theorems on the peer manager, the sessions of the query protocol and the
    network manager, from the lemmas of [PeerManagerProps.v], [SqmrRuns.v] and
    [NetworkProps.v]. *)

From stdpp Require Import base gmap list strings fin_maps.
From Stdlib Require Import ZArith Lia.
From S2P Require Import Prelude PeerManager PeerManagerProps Sqmr SqmrProps SqmrRuns NetworkManager NetworkProps.

Section PeerManager.
Context {P : Type} {PT : PeerTrait P} {PS : PeerSpec P} {HM : HashMapIter} (clock : nat -> Z).

Lemma new_pm_ok config : pm_ok (PeerManager_new (P:=P) config).
Proof. constructor; cbn; [by right|by intros ? ? ?%lookup_empty_Some..]. Qed.

Lemma pm_run_ok ops s em :
  pm_ok s -> exists s' ev, pm_run clock ops s = Some (s', ev) /\ pm_ok s' /\ (clock_readings s <= clock_readings s')%nat /\
    (forall x, placed em s x -> placed (ev ++ em) s' x) /\ (forall op x, op ∈ ops -> x ∈ requested op -> placed (ev ++ em) s' x).
Proof.
  revert s em. induction ops as [|op ops IH]; intros s em Hs.
  - exists s, []. split; [done|]. split; [done|]. split; [done|]. split; [done|]. by intros ? ? ?%elem_of_nil.
  - destruct (apply_ok clock s op Hs) as (s1 & ev1 & Happ & [Hs1 Hpl Hreq Hcl _]). destruct (IH s1 (ev1 ++ em) Hs1) as (s2 & ev2 & Hr & Hs2 & Hcl2 & Hpl2 & Hreq2).
    assert (Hsw : forall x, placed (ev2 ++ ev1 ++ em) s2 x -> placed ((ev1 ++ ev2) ++ em) s2 x).
    { intros x [H|[H|(i & c & H)]]; [by left|right; by left|right; right; exists i, c; set_solver]. }
    exists s2, (ev1 ++ ev2). split.
    { cbn [pm_run]. destruct Happ as [->|[-> [e ->]]]; by rewrite Hr. }
    split; [done|]. split; [lia|]. split; [intros x Hx; by apply Hsw, Hpl2, Hpl|].
    intros op' x [->|Hin]%elem_of_cons Hx; apply Hsw; [by apply Hpl2, Hreq|by eapply Hreq2].
Qed.

(** C30: Whatever the swarm, the other behaviours and the reports do, the peer
    manager never panics and loses no session: a session for which a peer was
    requested waits for a peer, or for the connection to its peer, or is
    assigned in an event that is queued or was emitted. *)
Theorem peer_manager_loses_no_session config ops :
  exists s emitted, pm_run clock ops (PeerManager_new (P:=P) config) = Some (s, emitted) /\ pm_ok s /\
    forall op x, op ∈ ops -> x ∈ requested op -> placed emitted s x.
Proof.
  destruct (pm_run_ok ops (PeerManager_new config) [] (new_pm_ok config)) as (s & ev & Hr & Hok & _ & _ & Hreq).
  exists s, ev. split; [done|]. split; [done|]. intros op x Hop Hx. rewrite <-(app_nil_r ev). by eapply Hreq.
Qed.

(** An assignment looks at the peers in turn, from the one after the last
    start, and takes the first that is not blocked when it is looked at: it is
    assigned at once if it is connected, and dialed otherwise. Without peers, or
    with all of them blocked, the session waits; in the second case until the
    instant at which some peer is unblocked. *)
Theorem assignment_round_robin x (s : PeerManager P) :
  exists s' r, assign_peer_to_session clock x s = Done s' r /\ assign_spec clock s x s' r.
Proof. apply assign_ok. Qed.

(** Once a peer was reported, it gets no new session and stays blocked for the
    blacklist time after the report, in every run in which the clock does not
    reach that instant; at its end its inbound connection is refused. *)
Theorem reported_peer_left_alone (s0 s1 s2 : PeerManager P) bad ops emitted :
  pm_ok s0 -> (forall i j, (i <= j)%nat -> clock i <= clock j) ->
  report_peer clock bad ReputationModifier_Bad s0 = Done s1 tt -> pm_run clock ops s1 = Some (s2, emitted) ->
  (forall k, (k <= clock_readings s2)%nat -> clock k < clock (clock_readings s0) + blacklist_timeout (config s0)) ->
  (forall x, session_to_peer_map s2 !! x = Some bad -> session_to_peer_map s0 !! x = Some bad) /\
  pm_handle_established_inbound_connection clock bad s2 = Fail (set_clock_readings (S (clock_readings s2)) s2) (PeerIsBlocked bad).
Proof.
  intros Hok Hmono Hrep Hrun Hlate. set (k0 := clock_readings s0) in *. set (d := blacklist_timeout (config s0)) in *. set (t := clock k0 + d) in *.
  assert (Hs1 : pm_ok s1 /\ watched bad k0 t d s1 /\ session_to_peer_map s1 = session_to_peer_map s0).
  { destruct (report_peer_ok clock s0 bad Hok) as (s1' & Hr & Hk). unfold returns in Hr. rewrite Hrep in Hr. destruct Hr as [[? [= <- _]]|[? [=]]].
    split; [apply Hk|]. revert Hrep. unfold report_peer, instant_now. run_steps. destruct (peers s0 !! bad) as [p|] eqn:Hp; [|done]. run_steps.
    unfold modify. intros [= <-]. split; [|done]. split; cbn; [lia|done|]. rewrite lookup_insert_eq. eexists. split; [done|]. intros t' Ht'.
    rewrite (update_blocks _ _ _ d) by (by eapply pk_timeout). by apply Z.ltb_lt. }
  destruct Hs1 as (Hok1 & Hw1 & Hm1). rewrite <-Hm1. clear Hrep Hm1 Hok.
  assert (Hall : pm_ok s2 /\ watched bad k0 t d s2 /\ forall x, session_to_peer_map s2 !! x = Some bad -> session_to_peer_map s1 !! x = Some bad).
  { revert s1 emitted Hok1 Hw1 Hrun. induction ops as [|op ops IH]; intros s1 emitted Hok1 Hw1; cbn [pm_run]; [intros [= <- <-]; done|].
    destruct (apply_ok clock s1 op Hok1) as (sm & ev & Happ & Hmv). intros Hrun.
    assert (Hr : exists em, pm_run clock ops sm = Some (s2, em)).
    { destruct Happ as [Happ|[_ [e Happ]]]; rewrite Happ in Hrun; [|by eexists]. destruct (pm_run clock ops sm) as [[? ?]|]; [|done]. cbn in Hrun. simplify_eq. by eexists. }
    destruct Hr as [em Hr]. destruct (pm_run_ok ops sm [] (mv_ok _ _ _ _ Hmv)) as (s2' & ev' & Hr' & _ & Hcl & _). rewrite Hr in Hr'. simplify_eq.
    destruct (apply_quiet clock bad k0 (clock_readings s2') t d Hmono eq_refl (fun k Hk => Hlate k (Nat.lt_le_incl _ _ Hk)) s1 op sm Hok1) as [Hwm Hmm]; [|done|done|].
    { destruct Happ as [Happ|[_ [e Happ]]]; [left|right]; by eexists. }
    destruct (IH sm _ (mv_ok _ _ _ _ Hmv) Hwm Hr) as (H1 & H2 & H3). split; [done|]. split; [done|]. auto. }
  destruct Hall as (Hok2 & [_ _ (p & Hp & Hbl)] & Hmap). split; [done|].
  apply (blocked_refused clock s2 bad p Hp). by apply Hbl, Hlate.
Qed.

(** Waiting sessions are served. When an address of an unknown peer is found,
    every waiting session is placed with a peer and none waits any longer; when
    the sleep of the manager has completed and some peer is not blocked from
    then on, a poll with an empty queue does the same. *)
Theorem waiting_sessions_served (s : PeerManager P) :
  pm_ok s ->
  (forall id address addresses, peers s !! id = None ->
    exists s', found_listen_addresses clock id (address :: addresses) s = Done s' tt /\ sessions_received_when_no_peers s' = [] /\
      is_Some (peers s' !! id) /\ forall x, x ∈ sessions_received_when_no_peers s -> placed [] s' x) /\
  (forall deadline elapsed, pending_events s = [] -> sleep_waiting_for_unblocked_peer s = Some deadline -> elapsed deadline = true -> free_peer clock s ->
    exists s' r, pm_poll clock elapsed s = Done s' r /\ sessions_received_when_no_peers s' = [] /\
      forall x, x ∈ sessions_received_when_no_peers s -> placed (poll_events r) s' x).
Proof.
  intros Hs. split.
  - intros id a l Hnew. destruct (found_listen_addresses_ok clock s id (a :: l) Hs) as (s' & Hr & Hk & Hw). destruct (Hw Hnew) as [Hw1 Hw2]; [done|].
    exists s'. split; [done|]. split; [done|]. split; [done|]. intros x Hx. apply (kp_placed _ _ Hk). by left.
  - intros deadline elapsed Hev Hsl Hel Hfree. destruct (poll_ok clock s elapsed Hs) as (s1 & s' & r & Hr & Hk & _ & He & Heq).
    exists s', r. split; [done|]. split; [|intros x Hx; rewrite <-(app_nil_r (poll_events r)); eapply pop_placed; [exact He|exact Heq|]; apply (kp_placed _ _ Hk); by left].
    revert Hr. unfold pm_poll, pop_event at 1. run_steps. rewrite Hev. cbn [last]. run_steps. rewrite Hsl, Hel.
    destruct (assign_waiting_ok clock s Hs) as (s2 & Hr2 & Hk2 & _ & Hw2). rewrite (bind_step _ _ _ _ _ Hr2). run_steps.
    assert (Hok3 : pm_ok (set_sleep None s2)) by (destruct (kp_ok _ _ Hk2); by constructor).
    destruct (pop_event_ok _ Hok3) as (s4 & r4 & Hr4 & _ & _ & Heq4). rewrite Hr4. intros [= <- <-]. rewrite Heq4. cbn. by apply Hw2.
Qed.

End PeerManager.

Section Sessions.
Context {VA : VarintApi} {VS : VarintSpec} {HM : HashMapIter}.

(** The stream of an inbound session, while it lives or after it ended. *)
Definition session_stream (h : Handler) (id : InboundSessionId) (w : WriteHalf) : Prop :=
  exists s, (id_to_inbound_session h !! id = Some s \/ (id, s) ∈ ended_inbound_sessions h) /\ w = task_stream (current_task s).

Lemma session_written s : session_ok s -> exists rest, session_bytes s = written (task_stream (current_task s)) ++ rest /\
  (write_closed (task_stream (current_task s)) = true -> rest = []).
Proof.
  intros [Hp Hc]. unfold session_bytes. destruct s as [pend [w|d w|w]]; cbn [current_task task_stream pending_messages] in *.
  - eexists. split; [done|]. intros Hw. destruct (Hc Hw) as [? [=]].
  - eexists. rewrite <-app_assoc. split; [done|]. intros Hw. destruct (Hc Hw) as [? [=]].
  - rewrite Hp by (by eexists). eexists. split; [done|]. done.
Qed.

(** A new session of a server, and of a client. *)
Definition new_inbound (id : InboundSessionId) (h : Handler) : Prop :=
  handler_ok h /\ id_to_inbound_session h !! id = Some (InboundSession_new (mkWriteHalf [] false)) /\ id ∉ inbound_sessions_marked_to_end h.
Definition new_outbound (id : OutboundSessionId) (h : Handler) : Prop :=
  handler_ok h /\ id_to_outbound_session h !! id = Some (Responses_Reading (mkReadHalf [] Stream_Open)).

(** The bytes [g] that reach the client come from the stream: a part of what was
    written, and the end only after a closed stream was read whole. *)
Definition carried (w : WriteHalf) (g : Bytes * StreamEnd) : Prop :=
  exists more, written w = g.1 ++ more /\ (g.2 = Stream_Open \/ g.2 = Stream_Eof /\ more = [] /\ write_closed w = true).

(** A client reads from a stream on which a part of the responses, or all of
    them, was written. *)
Lemma client_reads_stream (cid : OutboundSessionId) (hc0 : Handler) (cops : list handler_op) w responses :
  Forall fits_message responses -> (exists rest, wire responses = written w ++ rest /\ (write_closed w = true -> rest = [])) ->
  new_outbound cid hc0 -> Forall open_op cops -> Forall (keeps_outbound cid) cops -> carried w (foldl (client_ghost cid) ([], Stream_Open) cops) ->
  exists hc cemitted got rest, handler_run cops hc0 = Some (hc, cemitted) /\ responses = got ++ rest /\
    (about cid (event_log hc cemitted) = about cid (event_log hc0 []) ++ (received (Handler_peer_id hc0) cid <$> got) \/
     rest = [] /\ about cid (event_log hc cemitted) = about cid (event_log hc0 []) ++ (received (Handler_peer_id hc0) cid <$> got) ++ [finished cid]).
Proof.
  intros Hfit (wrest & Hw & Hwc) (Hcok & Hcs) Hcop Hck (more & Hmore & Hend).
  assert (Hcinv : client_inv cid (Handler_peer_id hc0) (about cid (event_log hc0 [])) responses [] responses ([], Stream_Open) hc0 []).
  { constructor; [done|done|done|]. rewrite Hcs. cbn. rewrite app_nil_r. done. }
  destruct (client_run cid (Handler_peer_id hc0) (about cid (event_log hc0 [])) responses cops [] responses ([], Stream_Open) hc0 [] Hfit)
    as (hc & cev & got & rest & Hcrun & [_ _ Hsp Hsess]); [|exact Hcinv|done|done|].
  { exists (more ++ wrest). rewrite Hw, Hmore, <-app_assoc. split; [done|]. destruct Hend as [Hf|(Hf & -> & Hc)]; [by left|right; by rewrite (Hwc Hc)]. }
  exists hc, cev, got, rest. split; [done|]. split; [done|]. cbn [app] in Hsess.
  destruct (id_to_outbound_session hc !! cid) as [[io|]|]; [left; apply Hsess|done|right; split; apply Hsess].
Qed.

(** C29: A server's responses reach the client in order. Whatever the handler of the
    server does beside the session, it does not panic, and the session either
    fails on a write, or writes exactly the responses asked for before the close,
    and reports success only when it was closed and all are written. A handler
    of a client that reads such a stream, in any pieces and beside any other
    work, reports the responses in order and nothing else, and success only
    after the last. A response has at most 1 MiB. *)
Theorem session_delivers_responses (id : InboundSessionId) (hs0 : Handler) (ops : list handler_op) :
  new_inbound id hs0 -> Forall open_op ops -> Forall (keeps_inbound id) ops ->
  let responses := (foldl (server_ghost id) ([], false) ops).1 in
  let closed := (foldl (server_ghost id) ([], false) ops).2 in
  Forall fits_message responses ->
  exists hs emitted, handler_run ops hs0 = Some (hs, emitted) /\
    ((exists e, about id (event_log hs emitted) = about id (event_log hs0 []) ++ [failed id (HandlerSessionError_IOError e)]) \/
     exists w, session_stream hs id w /\
       (about id (event_log hs emitted) = about id (event_log hs0 []) \/
        about id (event_log hs emitted) = about id (event_log hs0 []) ++ [finished id] /\ closed = true /\
        write_closed w = true /\ written w = wire responses) /\
       forall (cid : OutboundSessionId) (hc0 : Handler) (cops : list handler_op),
         new_outbound cid hc0 -> Forall open_op cops -> Forall (keeps_outbound cid) cops ->
         carried w (foldl (client_ghost cid) ([], Stream_Open) cops) ->
         exists hc cemitted got rest, handler_run cops hc0 = Some (hc, cemitted) /\ responses = got ++ rest /\
           (about cid (event_log hc cemitted) = about cid (event_log hc0 []) ++ (received (Handler_peer_id hc0) cid <$> got) \/
            rest = [] /\ about cid (event_log hc cemitted) = about cid (event_log hc0 []) ++ (received (Handler_peer_id hc0) cid <$> got) ++ [finished cid])).
Proof.
  intros (Hok & Hs & Hm) Hop Hk responses closed Hfit.
  assert (Hinv : server_inv id (about id (event_log hs0 [])) ([], false) hs0 []).
  { constructor; [done|cbn; split; [done|by intros [=]]|]. rewrite Hs. done. }
  destruct (server_run id _ ops _ _ _ Hinv Hop Hk) as (hs & ev & Hrun & [Hok' Hm' Hs']). exists hs, ev. split; [done|]. cbn [app] in *.
  assert (Hclient := fun w Hw cid hc0 cops => client_reads_stream cid hc0 cops w responses Hfit Hw).
  destruct (id_to_inbound_session hs !! id) as [s|] eqn:Hsid.
  - right. destruct (Hok' id s Hsid) as [Hso _]. destruct Hs' as [Hb Hl]. exists (task_stream (current_task s)). split; [exists s; by split; [left|]|].
    split; [by left|]. apply Hclient. destruct (session_written s Hso) as (rest & Hr & Hc). exists rest. split; [|done]. rewrite <-Hr. by symmetry.
  - destruct Hs' as (s & Hin & [[e He]|(He & Hc & Hw & Hwr)]); [left; by exists e|right].
    exists (task_stream (current_task s)). split; [exists s; by split; [right|]|]. split; [by right|]. apply Hclient. exists []. by rewrite app_nil_r, Hwr.
Qed.

(** C31: A client that has the whole of a closed stream finishes: after one poll per
    response and one more, all responses, of at most 1 MiB each, were reported in
    order and then the success of the session. *)
Theorem client_session_finishes (cid : OutboundSessionId) (hc0 : Handler) (responses : list Bytes) ios :
  handler_ok hc0 -> Forall fits_message responses ->
  id_to_outbound_session hc0 !! cid = Some (Responses_Reading (mkReadHalf (wire responses) Stream_Eof)) -> (length responses < length ios)%nat ->
  exists hc emitted, handler_run (Hop_poll <$> ios) hc0 = Some (hc, emitted) /\
    about cid (event_log hc emitted) = about cid (event_log hc0 []) ++ (received (Handler_peer_id hc0) cid <$> responses) ++ [finished cid].
Proof.
  intros Hok Hfit Hs Hlen.
  assert (Hinv : client_inv cid (Handler_peer_id hc0) (about cid (event_log hc0 [])) responses [] responses (wire responses, Stream_Eof) hc0 []).
  { constructor; [done|done|done|]. rewrite Hs. cbn. rewrite app_nil_r. done. }
  exact (client_finishes cid _ _ responses ios [] responses _ hc0 [] Hfit eq_refl Hinv (or_introl Hlen)).
Qed.

End Sessions.

Section Network.
Context {HM : HashMapIter} {HS : HashSetIter} (clock : nat -> Z).

(** The node loses no query and sends none twice. However the polls, the events
    of the peers, the swarm and libp2p interleave, the network does not panic;
    every accepted query got a number of its own, and each was handed to a
    handler once or waits, with its session on the way to a peer: requested from
    the peer manager, kept there, or assigned in an event that is under way. *)
Theorem every_query_sent_once bootstrap config mixed ops :
  MixedBehaviour_new bootstrap config = Some mixed -> Forall net_op_ok ops -> zlength ops < 2 ^ 64 ->
  exists s queries, net_run clock ops (mkNetState (generic_new mixed) [] []) = Some (s, queries) /\ NoDup queries.*1 /\
    sent_queries (to_handlers s ++ Behaviour_pending_events (mixed_sqmr (swarm (manager s)))) ++
      map_to_list (outbound_sessions_pending_peer_assignment (mixed_sqmr (swarm (manager s)))) ≡ₚ queries /\
    forall id q, outbound_sessions_pending_peer_assignment (mixed_sqmr (swarm (manager s))) !! id = Some q ->
      located (mixed_sqmr (swarm (manager s))) (mixed_peer_manager (swarm (manager s))) (in_flight s) id.
Proof.
  intros Hnew Hops Hlt.
  assert (Hinv : net_inv [] (mkNetState (generic_new mixed) [] [])).
  { assert (Hp : mixed_peer_manager mixed = PeerManager_new default_PeerManagerConfig /\ mixed_sqmr mixed = Behaviour_new config)
      by (destruct bootstrap as [[[p|] a]|]; cbn in Hnew; by simplify_eq).
    destruct Hp as [Hpm Hsq]. split; [|intros p Hp; cbn in Hp; set_solver]. cbn. rewrite Hpm, Hsq.
    constructor; [constructor; [done|done|cbn; by rewrite map_to_list_empty]|apply new_pm_ok|]. intros id q Hid. cbn in Hid. by apply lookup_empty_Some in Hid. }
  destruct (net_run_ok clock [] _ ops Hinv Hops) as (s & qs & Hr & [[[Hids _ Hsp] _ Hl] _]); [change (0 + zlength ops < 2 ^ 64); lia|].
  exists s, qs. split; [done|]. cbn [app] in *. split; [|by split].
  rewrite Hids. apply NoDup_fmap_2; [by intros ? ? [=]|apply NoDup_seqZ].
Qed.

(** The manager forwards the responses of the servers. If every session with a
    receiver is known to the query protocol, then after as many turns of the
    branch of the responses as there are items, every receiver is drained: the
    query protocol was asked, for each session, to send its responses in their
    order, and to close the session after them where the server is done. *)
Theorem responses_forwarded n k :
  receivers_known n -> (items_left (stream_map (sqmr_inbound_response_receivers n)) <= k)%nat ->
  exists n', response_turns clock k n = Done n' tt /\ items_left (stream_map (sqmr_inbound_response_receivers n')) = 0%nat /\
    forall id, forwarded id (Behaviour_pending_events (mixed_sqmr (swarm n'))) =
      forwarded id (Behaviour_pending_events (mixed_sqmr (swarm n))) ++ items_of n id.
Proof. apply response_turns_ok. Qed.

End Network.
