(* ===== verification/MmapFile.v ===== *)
(** * Memory-mapped append-only files

    Models [crates/papyrus_storage/src/mmap_file/mod.rs]: a file that is mapped
    into memory, whose objects are appended at an offset kept in the storage and
    read back at the location the append returned. The mapping is the bytes of
    the file; touching a byte past the end of the file is an access violation
    and slicing past the end of the mapping a panic, both [None] here. Flushing
    has no effect on what is read through the mapping. *)

From stdpp Require Import base gmap list strings fin_maps.
From Stdlib Require Import ZArith Lia.
From S2P Require Import Prelude StarknetTypes StorageTxn Serde.

(** ** Configuration *)

Record MmapFileConfig : Type := mkMmapFileConfig {
  max_size : Z;
  growth_step : Z;
  max_object_size : Z
}.

Definition default_config : MmapFileConfig := mkMmapFileConfig (2 ^ 40) (2 ^ 30) (2 ^ 28).

Definition validate_config (config : MmapFileConfig) : bool :=
  if max_size config <? growth_step config then false
  else if growth_step config <? max_object_size config then false
  else true.

(** ** The mapped bytes *)

Abbreviation memory := (gmap Z Z).

Fixpoint copy_from_slice (m : memory) (offset : Z) (data : bytes) : memory :=
  match data with
  | [] => m
  | b :: data' => copy_from_slice (<[offset := b]> m) (offset + 1) data'
  end.

(** [slice::from_raw_parts]; a byte never written is zero. *)
Definition from_raw_parts (m : memory) (offset len : Z) : bytes :=
  (fun i => default 0 (m !! i)) <$> seqZ offset len.

Record MMapFile : Type := mkMMapFile {
  mf_config : MmapFileConfig;
  mf_size : Z;
  mf_mmap : memory;
  mf_offset : Z;
  mf_should_flush : bool
}.

(** ** Operations *)

Definition flush (f : MMapFile) : MMapFile :=
  mkMMapFile (mf_config f) (mf_size f) (mf_mmap f) (mf_offset f) false.

(** [Writer::flush]. *)
Definition flush_if_needed (f : MMapFile) : MMapFile := if mf_should_flush f then flush f else f.

Definition grow (f : MMapFile) : MMapFile :=
  let f := flush f in
  mkMMapFile (mf_config f) (u64_add (mf_size f) (growth_step (mf_config f))) (mf_mmap f) (mf_offset f)
    (mf_should_flush f).

Definition grow_file_if_needed (f : MMapFile) (offset : Z) : MMapFile :=
  if mf_size f <? u64_add offset (max_object_size (mf_config f)) then grow f else f.

(** [open_file] on a file of [size] bytes with the given content. *)
Definition open_file (config : MmapFileConfig) (content : memory) (size offset : Z) : MMapFile :=
  grow_file_if_needed (mkMMapFile config size content offset false) 0.

Section Value.
Context {V : Type} (VS : ValueSerde V).

Definition mmap_append (f : MMapFile) (val : V) : option (MMapFile * LocationInFile) :=
  match value_serialize VS val with
  | None => None
  | Some serialized =>
      let len := zlength serialized in
      let offset := mf_offset f in
      if (max_size (mf_config f) <? offset + len) || (mf_size f <? offset + len) then None
      else
        let f := mkMMapFile (mf_config f) (mf_size f) (copy_from_slice (mf_mmap f) offset serialized)
                   (u64_add offset len) true in
        let location := mkLocationInFile offset len in
        Some (grow_file_if_needed f (next_offset location), location)
  end.

Definition mmap_get (f : MMapFile) (location : LocationInFile) : option V :=
  value_deserialize VS (from_raw_parts (mf_mmap f) (LocationInFile_offset location) (LocationInFile_len location)).
End Value.

(** ** Reading what was written *)

Lemma copy_lookup_other data m off i : i < off \/ off + zlength data <= i -> copy_from_slice m off data !! i = m !! i.
Proof.
  unfold zlength. revert m off; induction data as [|b data IH]; intros m off Hi; cbn [copy_from_slice length] in *; [done|].
  rewrite IH by lia. apply lookup_insert_ne. lia.
Qed.

Lemma copy_read data m off : from_raw_parts (copy_from_slice m off data) off (zlength data) = data.
Proof.
  unfold from_raw_parts, zlength. revert m off; induction data as [|b data IH]; intros m off; [done|].
  cbn [copy_from_slice length]. rewrite Nat2Z.inj_succ, seqZ_cons, Z.pred_succ by lia. cbn [fmap list_fmap].
  f_equal; [|apply IH]. rewrite copy_lookup_other by lia. by rewrite lookup_insert_eq.
Qed.

Lemma copy_read_other data m off off' len :
  off' + len <= off \/ off + zlength data <= off' ->
  from_raw_parts (copy_from_slice m off data) off' len = from_raw_parts m off' len.
Proof.
  intros Hd. unfold from_raw_parts. apply list_fmap_ext. intros i j Hj.
  apply lookup_seqZ in Hj as [-> Hi]. rewrite copy_lookup_other; [done|]. lia.
Qed.

Lemma grow_memory f off : mf_mmap (grow_file_if_needed f off) = mf_mmap f.
Proof. unfold grow_file_if_needed. by destruct (_ <? _). Qed.
Lemma grow_offset f off : mf_offset (grow_file_if_needed f off) = mf_offset f.
Proof. unfold grow_file_if_needed. by destruct (_ <? _). Qed.
Lemma grow_config f off : mf_config (grow_file_if_needed f off) = mf_config f.
Proof. unfold grow_file_if_needed. by destruct (_ <? _). Qed.

(** ** The mapped files keep the promise of [FileHandler] *)

(** The mapping is smaller than the address space, and the offset is in it. *)
Definition wf_file (f : MMapFile) : Prop :=
  0 <= mf_offset f <= max_size (mf_config f) /\ max_size (mf_config f) < 2 ^ 60.

#[global] Instance wf_file_dec f : Decision (wf_file f).
Proof. unfold wf_file. apply _. Defined.

Definition WfFile : Type := { f : MMapFile | wf_file f }.

Section Handler.
Context {V : Type} (VS : ValueSerde V).

(** What a successful [append] did. *)
Lemma append_Some f v f' loc :
  mmap_append VS f v = Some (f', loc) ->
  exists b, value_serialize VS v = Some b /\ loc = mkLocationInFile (mf_offset f) (zlength b) /\
    mf_offset f + zlength b <= max_size (mf_config f) /\ mf_offset f + zlength b <= mf_size f /\
    mf_offset f' = u64_add (mf_offset f) (zlength b) /\ mf_config f' = mf_config f /\
    mf_mmap f' = copy_from_slice (mf_mmap f) (mf_offset f) b /\
    mf_size f' = mf_size (grow_file_if_needed
      (mkMMapFile (mf_config f) (mf_size f) (copy_from_slice (mf_mmap f) (mf_offset f) b)
         (u64_add (mf_offset f) (zlength b)) true) (mf_offset f + zlength b)).
Proof.
  unfold mmap_append. destruct (value_serialize VS v) as [b|]; [|done].
  destruct (Z.ltb_spec (max_size (mf_config f)) (mf_offset f + zlength b)); [done|].
  destruct (Z.ltb_spec (mf_size f) (mf_offset f + zlength b)); [done|]. cbn [orb]. intros [= <- <-].
  exists b. rewrite grow_memory, grow_offset, grow_config. done.
Qed.

Lemma append_wf f v f' loc : wf_file f -> mmap_append VS f v = Some (f', loc) -> wf_file f'.
Proof.
  intros [Ho Hm] (b & _ & _ & Hmax & _ & Ho' & Hc & _)%append_Some. unfold wf_file. rewrite Hc, Ho'.
  pose proof (zlength_nonneg b). rewrite u64_add_small by lia. lia.
Qed.

Definition wf_append (f : WfFile) (v : V) : option (WfFile * LocationInFile) :=
  match mmap_append VS (`f) v with
  | Some (f', loc) => match decide (wf_file f') with left H => Some (f' ↾ H, loc) | right _ => None end
  | None => None
  end.

Lemma wf_append_Some f v f' loc : wf_append f v = Some (f', loc) -> mmap_append VS (`f) v = Some (`f', loc).
Proof.
  unfold wf_append. destruct (mmap_append VS (`f) v) as [[f1 loc1]|]; [|done]. case_decide; [|done]. by intros [= <- <-].
Qed.

Lemma wf_append_is_Some f v : is_Some (mmap_append VS (`f) v) -> is_Some (wf_append f v).
Proof.
  intros [[f1 loc1] Happ]. unfold wf_append. rewrite Happ. destruct f as [f Hf].
  case_decide as Hd; [by eexists|]. destruct Hd. by eapply append_wf.
Qed.

Definition wf_get (f : WfFile) (loc : LocationInFile) : option V := mmap_get VS (`f) loc.

(** A value that its serializer reads back. *)
Definition roundtrips (v : V) : Prop := value_serialize VS v ≫= value_deserialize VS = Some v.

Lemma mmap_append_location f v f' loc :
  wf_append f v = Some (f', loc) ->
  LocationInFile_offset loc = mf_offset (`f) /\ next_offset loc = mf_offset (`f') /\ 0 <= LocationInFile_len loc.
Proof.
  intros (b & _ & -> & Hmax & _ & Ho & _)%wf_append_Some%append_Some. destruct f as [f [Hf Hm]]. cbn in *.
  pose proof (zlength_nonneg b). rewrite Ho, u64_add_small by lia. unfold next_offset. cbn. lia.
Qed.

Lemma mmap_append_get f v f' loc : roundtrips v -> wf_append f v = Some (f', loc) -> wf_get f' loc = Some v.
Proof.
  intros Hv (b & Hs & -> & _ & _ & _ & _ & Hm & _)%wf_append_Some%append_Some. unfold wf_get, mmap_get. rewrite Hm. cbn.
  rewrite copy_read. unfold roundtrips in Hv. by rewrite Hs in Hv.
Qed.

Lemma mmap_append_other f v f' loc loc' :
  wf_append f v = Some (f', loc) -> 0 <= LocationInFile_offset loc' -> next_offset loc' <= mf_offset (`f) ->
  wf_get f' loc' = wf_get f loc'.
Proof.
  intros (b & _ & -> & _ & _ & _ & _ & Hm & _)%wf_append_Some%append_Some H0 Hn. unfold wf_get, mmap_get. rewrite Hm.
  rewrite copy_read_other; [done|]. left. exact Hn.
Qed.

#[global] Instance mmap_file_handler : FileHandler WfFile V := {|
  file_offset := fun f => mf_offset (`f);
  file_append := wf_append;
  file_get := wf_get;
  storable := roundtrips;
  file_append_location := mmap_append_location;
  file_append_get := mmap_append_get;
  file_append_other := mmap_append_other
|}.

(** ** The file is always large enough *)

(** There is room for one more object. *)
Definition mmap_has_room (f : MMapFile) : Prop := mf_offset f + max_object_size (mf_config f) <= mf_size f.

(** The values are appended one after another; the locations are collected. *)
Fixpoint append_seq (f : MMapFile) (vs : list V) : option (MMapFile * list LocationInFile) :=
  match vs with
  | [] => Some (f, [])
  | v :: vs' =>
      match mmap_append VS f v with
      | None => None
      | Some (f', loc) =>
          match append_seq f' vs' with
          | None => None
          | Some (f'', locs) => Some (f'', loc :: locs)
          end
      end
  end.

Definition serialized_len (v : V) : Z := default 0 (zlength <$> value_serialize VS v).

(** Objects the file is made for. *)
Definition appendable_objects (config : MmapFileConfig) (vs : list V) : Prop :=
  Forall (fun v => roundtrips v /\ serialized_len v <= max_object_size config) vs.

Definition total_len (vs : list V) : Z := foldr (fun v acc => serialized_len v + acc) 0 vs.

Record good_file (f : MMapFile) : Prop := {
  gf_wf : wf_file f;
  gf_config : validate_config (mf_config f) = true;
  gf_object : 0 < max_object_size (mf_config f);
  gf_room : mmap_has_room f;
  gf_size : mf_size f <= mf_offset f + max_object_size (mf_config f) + growth_step (mf_config f)
}.

(** The file has become larger by whole steps of its growth, or kept its size. *)
Definition grown (f f' : MMapFile) : Prop := exists steps, 0 <= steps /\ mf_size f' = mf_size f + steps * growth_step (mf_config f).

Lemma validate_config_spec c : validate_config c = true <-> max_object_size c <= growth_step c <= max_size c.
Proof. unfold validate_config. repeat case_cmp; split; try done; lia. Qed.

Lemma serialized_roundtrips v : roundtrips v -> exists b, value_serialize VS v = Some b /\ serialized_len v = zlength b.
Proof. unfold roundtrips, serialized_len. destruct (value_serialize VS v) as [b|]; [|done]. by exists b. Qed.

(** One append: it succeeds, and there is room again. *)
Lemma append_good f v :
  good_file f -> roundtrips v -> serialized_len v <= max_object_size (mf_config f) ->
  mf_offset f + serialized_len v <= max_size (mf_config f) ->
  exists f' loc, mmap_append VS f v = Some (f', loc) /\ good_file f' /\ mf_config f' = mf_config f /\
    mf_offset f' = mf_offset f + serialized_len v /\ LocationInFile_offset loc = mf_offset f /\
    next_offset loc = mf_offset f' /\ grown f f'.
Proof.
  intros [[Ho Hm] Hcfg Hobj Hroom Hsz] Hv Hlen Hmax. destruct (serialized_roundtrips v Hv) as (b & Hb & Hl). rewrite Hl in *.
  unfold mmap_has_room in Hroom. apply validate_config_spec in Hcfg as Hcf. pose proof (zlength_nonneg b) as Hnn.
  unfold mmap_append. rewrite Hb.
  destruct (Z.ltb_spec (max_size (mf_config f)) (mf_offset f + zlength b)); [lia|].
  destruct (Z.ltb_spec (mf_size f) (mf_offset f + zlength b)); [lia|]. cbn [orb].
  do 2 eexists. split; [done|]. rewrite grow_offset, grow_config. unfold next_offset.
  cbn [LocationInFile_offset LocationInFile_len mf_config mf_offset]. rewrite u64_add_small by lia.
  unfold grown, grow_file_if_needed, grow, flush.
  cbn [mf_config mf_size mf_offset mf_mmap]. rewrite !u64_add_small by lia.
  case_cmp; (split; [split; unfold mmap_has_room, wf_file; cbn [mf_config mf_size mf_offset mf_mmap]; [lia|done|done|lia|lia]|]).
  - split_and!; try done. exists 1. cbn [mf_size]. lia.
  - split_and!; try done. exists 0. cbn [mf_size]. lia.
Qed.

Lemma total_len_nonneg vs : Forall (fun v => roundtrips v) vs -> 0 <= total_len vs.
Proof.
  induction 1 as [|v vs Hv Hvs IH]; cbn; [lia|]. fold (total_len vs).
  destruct (serialized_roundtrips v Hv) as (b & _ & ->). pose proof (zlength_nonneg b). lia.
Qed.

Lemma get_append_other f v f' loc loc' :
  mmap_append VS f v = Some (f', loc) -> next_offset loc' <= mf_offset f -> mmap_get VS f' loc' = mmap_get VS f loc'.
Proof.
  intros (b & _ & -> & _ & _ & _ & _ & Hm & _)%append_Some Hn. unfold mmap_get. rewrite Hm.
  rewrite copy_read_other; [done|]. left. exact Hn.
Qed.

Lemma get_append_new f v f' loc : roundtrips v -> mmap_append VS f v = Some (f', loc) -> mmap_get VS f' loc = Some v.
Proof.
  intros Hv (b & Hs & -> & _ & _ & _ & _ & Hm & _)%append_Some. unfold mmap_get. rewrite Hm. cbn.
  rewrite copy_read. unfold roundtrips in Hv. by rewrite Hs in Hv.
Qed.

(** C24: a sequence of appends of objects that are not larger than the maximum
    never panics nor touches memory past the file, as long as the mapping is not
    full: the file grows in time, by whole growth steps. Every object is read back at
    the location its append returned, and the objects written before are untouched. *)
Theorem mmap_appends_read_back (f : MMapFile) (vs : list V) :
  good_file f -> appendable_objects (mf_config f) vs -> mf_offset f + total_len vs <= max_size (mf_config f) ->
  exists f' locs, append_seq f vs = Some (f', locs) /\ good_file f' /\
    mf_offset f' = mf_offset f + total_len vs /\ grown f f' /\
    Forall2 (fun v loc => mmap_get VS f' loc = Some v) vs locs /\
    (forall loc, next_offset loc <= mf_offset f -> mmap_get VS f' loc = mmap_get VS f loc).
Proof.
  intros Hf Hvs. revert f Hf Hvs; induction vs as [|v vs IH]; intros f Hf Hvs Hmax; cbn [append_seq total_len foldr].
  - exists f, []. split_and!; [done|done|lia|exists 0; lia|done|done].
  - inversion Hvs as [|? ? [Hv Hlen] Hvs']; subst. fold (total_len vs) in *. cbn in Hmax. fold (total_len vs) in Hmax.
    assert (Hnn : 0 <= total_len vs) by (apply total_len_nonneg; eapply Forall_impl; [exact Hvs'|by intros ? []]).
    destruct (append_good f v) as (f1 & loc & Happ & Hf1 & Hc & Ho & Hlo & Hln & k1 & Hk1 & Hg1); [done|done|done|lia|].
    rewrite Happ. destruct (IH f1) as (f' & locs & Hrun & Hf' & Ho' & (k2 & Hk2 & Hg2) & Hall & Hold); [done|by rewrite Hc|rewrite Hc; lia|].
    rewrite Hrun. exists f', (loc :: locs). rewrite Hc in Hg2. split; [done|]. split; [done|]. split; [lia|]. split; [exists (k1 + k2); lia|]. split.
    + constructor; [|done]. rewrite Hold by lia. by apply (get_append_new f).
    + intros loc' Hl'. destruct (serialized_roundtrips v Hv) as (b & _ & Hlb). pose proof (zlength_nonneg b).
      rewrite Hold by lia. by apply (get_append_other f v _ loc).
Qed.
End Handler.

(** A new file is good, and so is a good file that is opened again with the
    offset the storage kept. *)
Lemma open_new_good config :
  validate_config config = true -> 0 < max_object_size config -> max_size config < 2 ^ 60 ->
  good_file (open_file config ∅ 0 0).
Proof.
  intros Hv Ho Hm. apply validate_config_spec in Hv as Hc. unfold open_file, grow_file_if_needed, grow, flush.
  cbn [mf_config mf_size mf_offset mf_mmap]. rewrite !u64_add_small by lia. case_cmp; [|lia].
  split; unfold wf_file, mmap_has_room; cbn [mf_config mf_size mf_offset mf_mmap]; [lia|done|done|lia|lia].
Qed.

Lemma reopen_good f :
  good_file f -> open_file (mf_config f) (mf_mmap f) (mf_size f) (mf_offset f) = flush f.
Proof.
  intros [[Ho Hm] Hv Hobj Hroom Hsz]. apply validate_config_spec in Hv as Hc. unfold mmap_has_room in Hroom.
  unfold open_file, grow_file_if_needed. cbn [mf_config mf_size]. rewrite u64_add_small by lia.
  case_cmp; [lia|done].
Qed.

(** [open_file] looks whether the file is large enough for an object at its
    start, not at the offset: with a larger maximum object size than before,
    the first append can touch memory past the end of the file. *)
Example reopened_file_too_small :
  let config := mkMmapFileConfig 100 10 8 in
  let f := open_file config ∅ 10 8 in
  mf_size f = 10 /\ mmap_append (mkValueSerde (fun b : bytes => Some b) Some) f (replicate 8 1) = None.
Proof. split; reflexivity. Qed.
