(* ===== verification/TableTheorems.v ===== *)
(** * What the tables guarantee

    The theorem on the tables with a common prefix, the arithmetic of the search
    for the next main key, the serializers whose bytes have a fixed width, and
    what happens when a table with a common prefix has versioned values. *)

From stdpp Require Import base gmap list strings fin_maps.
From Stdlib Require Import ZArith Lia.
From S2P Require Import Prelude StorageTables StarknetTypes StorageTxn Serde SerdeLaws Mdbx SimpleTable CommonPrefixProps SerdeTypes.
From S2P Require Import SerdeTypesLaws MmapFile.

(** ** The next main key *)

Lemma add_one_loop_value bs :
  Forall is_byte bs ->
  be_value (add_one_loop bs).1 + (if (add_one_loop bs).2 then 256 ^ zlength bs else 0) = be_value bs + 1 /\
  length (add_one_loop bs).1 = length bs /\ Forall is_byte (add_one_loop bs).1.
Proof.
  induction 1 as [|b bs Hb Hbs IH]; [done|]. cbn [add_one_loop]. destruct (add_one_loop bs) as [rest carry].
  cbn [fst snd] in IH. destruct IH as (Hv & Hl & Hf). unfold is_byte in *.
  assert (Hz : zlength rest = zlength bs) by (unfold zlength; by rewrite Hl).
  assert (Hw : zlength (b :: bs) = zlength bs + 1) by (unfold zlength; cbn; lia).
  pose proof (zlength_nonneg bs). destruct carry; [destruct (Z.eqb_spec b 255) as [->|]|]; cbn [fst snd length].
  - rewrite !be_value_cons, Hz, Hw, Z.pow_add_r by lia. split; [nia|]. split; [lia|]. constructor; [lia|done].
  - rewrite !be_value_cons, Hz. split; [nia|]. split; [lia|]. constructor; [lia|done].
  - rewrite !be_value_cons, Hz. split; [nia|]. split; [lia|]. constructor; [lia|done].
Qed.

Lemma add_one_value bs : Forall is_byte bs -> be_value (add_one bs) = be_value bs + 1.
Proof.
  intros Hb. destruct (add_one_loop_value bs Hb) as (Hv & Hl & _). unfold add_one.
  destruct (add_one_loop bs) as [bs' []]; cbn [fst snd] in *; [|lia].
  rewrite be_value_cons. unfold zlength in *. rewrite Hl. lia.
Qed.

Lemma be_value_bound bs : Forall is_byte bs -> 0 <= be_value bs < 256 ^ zlength bs.
Proof.
  induction 1 as [|b bs Hb Hbs IH]; [by vm_compute|]. rewrite be_value_cons. unfold is_byte in Hb.
  assert (Hw : zlength (b :: bs) = zlength bs + 1) by (unfold zlength; cbn; lia). pose proof (zlength_nonneg bs).
  rewrite Hw, Z.pow_add_r by lia. nia.
Qed.

(** Strings of the same length are ordered as the numbers they write. *)
Lemma bytes_lt_value a b :
  Forall is_byte a -> Forall is_byte b -> length a = length b -> bytes_lt a b <-> be_value a < be_value b.
Proof.
  intros Ha. revert b; induction Ha as [|x a Hx Ha IH]; intros [|y b] Hb Hl; cbn in Hl; try lia; [cbn; lia|].
  apply Forall_cons in Hb as [Hy Hb]. injection Hl as Hl. cbn [bytes_lt]. rewrite (IH b Hb Hl), !be_value_cons.
  assert (Hz : zlength a = zlength b) by (unfold zlength; by rewrite Hl). rewrite Hz.
  pose proof (be_value_bound a Ha) as H1. pose proof (be_value_bound b Hb) as H2. rewrite Hz in H1.
  unfold is_byte in *. split; [intros [?|[-> ?]]; nia|]. intros Hlt.
  destruct (Z.lt_total x y) as [|[->|]]; [by left|right; split; [done|lia]|nia].
Qed.

Definition all_max (bs : bytes) : Prop := Forall (fun b => b = 255) bs.

Lemma add_one_loop_carry bs : (add_one_loop bs).2 = true -> all_max bs.
Proof.
  induction bs as [|b bs IH]; [constructor|]. cbn [add_one_loop]. destruct (add_one_loop bs) as [rest []]; [|done].
  destruct (Z.eqb_spec b 255) as [->|]; [|done]. intros _. constructor; [done|by apply IH].
Qed.

Lemma add_one_length bs : Forall is_byte bs -> ~ all_max bs -> length (add_one bs) = length bs /\ Forall is_byte (add_one bs).
Proof.
  intros Hb Hn. destruct (add_one_loop_value bs Hb) as (_ & Hl & Hf). pose proof (add_one_loop_carry bs) as Hc. unfold add_one.
  destruct (add_one_loop bs) as [bs' []]; cbn in *; [by destruct Hn; apply Hc|done].
Qed.

(** A main key of a fixed width, other than the greatest string of that width. *)
Lemma fixed_width_next {K} {KO : KeyOrd K} (ks : StorageSerde K) (ok : K -> Prop) (n : nat) :
  lawful ks ok -> ordered_key ks ok -> fixed_width ks ok n ->
  (forall k b, ok k -> serialize_key ks k = DbOk b -> ~ all_max b) -> next_key_bound ks ok.
Proof.
  intros Hl Ho Hw Hmax k b Hk Sk.
  assert (Hbytes : forall k b, ok k -> serialize_key ks k = DbOk b -> Forall is_byte b).
  { intros k1 b1 Hk1 S1. destruct (Hl k1 Hk1) as (bs & Hb & Hwr & _). unfold serialize_key, written in S1. rewrite Hwr in S1.
    by injection S1 as <-. }
  pose proof (Hbytes k b Hk Sk) as Hb. destruct (add_one_length b Hb (Hmax k b Hk Sk)) as [Hlen Hf].
  pose proof (add_one_value b Hb) as Hv. unfold next_main_key. split.
  - apply bytes_lt_value; [done|done|done|]. lia.
  - intros k' b' Hk' Sk' Hlt Hbad. pose proof (Hbytes k' b' Hk' Sk') as Hb'.
    assert (Hlen' : length b' = length b) by (by rewrite (Hw k' b'), (Hw k b)).
    apply bytes_lt_value in Hbad; [|done|done|lia]. pose proof (Ho k k' b b' Hk Hk' Sk Sk' Hlt) as H2.
    apply bytes_lt_value in H2; [|done|done|lia]. lia.
Qed.

(** ** The theorem *)

(** C17: a table with a common prefix on the byte store implements the contract of
    the tables. In a store that holds, under each main key, the bytes of the
    sub-keys with their values, every operation and cursor step answers as the
    operation on the map of the entries does, and leaves the store of its result;
    a write that fails leaves the table as it was. The neighbours that the writers
    inspect and delete are exactly the old value of the key. *)
Theorem common_prefix_table_refines {MainKey SubKey V : Type} `{Countable MainKey, Countable SubKey}
    {KM : KeyOrd MainKey} {KS : KeyOrd SubKey} {DM : MdbxDup}
    (main : StorageSerde MainKey) (sub : StorageSerde SubKey) (vs : StorageSerde V)
    (okm : MainKey -> Prop) (oks : SubKey -> Prop) (okv : V -> Prop) (n : nat)
    (s : DupStore) (m : gmap (MainKey * SubKey) V) (k : MainKey * SubKey) (v : V) (c : DupCursor) :
  readable_key main okm -> ordered_key main okm -> next_key_bound main okm ->
  lawful sub oks -> ordered_key sub oks -> fixed_width sub oks n -> lawful vs okv ->
  prefix_rel main sub vs okm oks okv s m -> okm k.1 -> oks k.2 -> okv v ->
  let agrees := write_agrees main sub vs okm oks okv m in
  prefix_get main sub (NoVersionValueWrapper vs) s k = DbOk (tbl_get m k) /\
  agrees (prefix_upsert main sub vs k v s) (DbOk (tbl_upsert m k v)) /\
  agrees (prefix_insert main sub vs k v s) (tbl_insert m k v) /\
  agrees (prefix_append main sub vs k v s) (tbl_append m k v) /\
  agrees (prefix_append_greater_sub_key main sub vs k v s) (tbl_append_greater_sub_key m k v) /\
  agrees (prefix_delete main sub k s) (DbOk (tbl_delete m k)) /\
  prefix_step main sub vs m (prefix_lower_bound main sub vs s c k) (cursor_lower_bound m k) /\
  forall c', prefix_cursor main sub vs m c c' ->
    prefix_step main sub vs m (prefix_next main sub vs s c) (cursor_next m c') /\
    prefix_step main sub vs m (prefix_prev main sub vs s c) (cursor_prev m c').
Proof.
  intros Hmain Hmo Hnb Hsub Hso Hw Hv Hr Hm Hs Hokv agrees.
  assert (Hok : prefix_ok okm oks okv (k, v)) by done.
  split; [eapply prefix_get_rel; try done; by intros|].
  split; [by eapply prefix_upsert_rel|]. split; [by eapply prefix_insert_rel|]. split; [by eapply prefix_append_rel|].
  split; [by eapply prefix_append_greater_rel|]. split; [by eapply prefix_delete_rel|].
  split; [by eapply prefix_lower_bound_rel|]. intros c' Hc.
  split; [by eapply prefix_next_rel|by eapply prefix_prev_rel].
Qed.

(** [get] on a table with a common prefix whose values carry a version (the
    table of the nonces) does not read back what the writers wrote: the value is
    written without the version byte, so that a value whose bytes do not start
    with a zero is a deserialization error although the key is in the table. *)
Theorem versioned_common_prefix_get_fails {MainKey SubKey V : Type} `{Countable MainKey, Countable SubKey}
    {KM : KeyOrd MainKey} {KS : KeyOrd SubKey} {DM : MdbxDup}
    (main : StorageSerde MainKey) (sub : StorageSerde SubKey) (vs : StorageSerde V)
    (okm : MainKey -> Prop) (oks : SubKey -> Prop) (okv : V -> Prop) (n : nat)
    (s : DupStore) (m : gmap (MainKey * SubKey) V) (k : MainKey * SubKey) (v : V) (value_bytes : bytes) :
  readable_key main okm -> ordered_key main okm ->
  lawful sub oks -> ordered_key sub oks -> fixed_width sub oks n -> lawful vs okv ->
  prefix_rel main sub vs okm oks okv s m -> m !! k = Some v ->
  written (serialize_into vs v) = Some value_bytes -> head value_bytes <> Some VERSION_ZERO ->
  prefix_get main sub (VersionZeroWrapper vs) s k = DbErr DbError_InnerDeserialization.
Proof.
  intros Hmain Hmo Hsub Hso Hw Hv Hr Hk Hvb Hhd. pose proof (im_ok _ _ _ _ Hr _ _ Hk) as Hok.
  destruct (entry_bytes_ok main sub vs okm oks okv n Hmain Hsub Hw Hv k v Hok) as (bm & bk & bv & Hb).
  destruct Hok as (Hm & Hs & Hokv). unfold prefix_get, get_main_key, get_sub_key_lower_bound, get_sub_key.
  rewrite (eb_main _ _ _ _ _ _ _ _ _ Hb), (eb_sub _ _ _ _ _ _ _ _ _ Hb). cbn [db_bind].
  pose proof (both_range main sub vs okm oks okv n Hmain Hmo Hsub Hso Hw Hv s m Hr k bm bk Hm Hs
    (eb_main _ _ _ _ _ _ _ _ _ Hb) (eb_sub _ _ _ _ _ _ _ _ _ Hb) (dup_cursor s)) as Hbr.
  rewrite (first_own m k v Hk) in Hbr. destruct Hbr as (bk2 & bv2 & Hb2 & _ & _ & _ & -> & _).
  assert (bk2 = bk) as ->.
  { pose proof (eb_sub _ _ _ _ _ _ _ _ _ Hb2) as E1. rewrite (eb_sub _ _ _ _ _ _ _ _ _ Hb) in E1. by injection E1. }
  rewrite strip_prefix_app. assert (Hbv : bv2 = value_bytes).
  { pose proof (eb_data _ _ _ _ _ _ _ _ _ Hb2) as E1. unfold get_sub_key_and_value in E1.
    destruct (Hsub k.2 Hs) as (b1 & _ & W1 & _). destruct (Hv v Hokv) as (b2 & _ & W2 & _).
    pose proof (eb_sub _ _ _ _ _ _ _ _ _ Hb) as E2. unfold serialize_key, written in E1, E2, Hvb.
    rewrite (writes_bind _ _ _ _ W1 W2) in E1. rewrite W1 in E2. rewrite W2 in Hvb. cbn in E1, E2, Hvb.
    injection E1 as E1. injection E2 as ->. injection Hvb as <-. by apply app_inv_head in E1. }
  subst bv2. cbn [VersionZeroWrapper value_deserialize]. unfold read_all, bind, read_exact.
  destruct value_bytes as [|b0 rest]; [done|]. cbn. rewrite bool_decide_false; [done|]. intros E. injection E as ->. by apply Hhd.
Qed.

(** * What the serializers guarantee

    The round trips of everything the storage writes, the limits of the narrow
    encodings, the order of the keys, and the memory-mapped files as the files
    of the storage. *)

Section Theorems.
Context {X : ExternalTypes} {C : SerdeCrates} {HM : HashMapIter} {CS : SerdeCratesSpec}.

(** ** Round trips *)

(** A whole value, as the tables and files keep it. *)
Definition stored_back {A} (s : StorageSerde A) (a : A) : Prop :=
  exists bs, Forall is_byte bs /\ value_serialize (VersionZeroWrapper s) a = Some bs /\
    value_deserialize (VersionZeroWrapper s) bs = Some a.

Definition stored_plain {A} (s : StorageSerde A) (a : A) : Prop :=
  exists bs, Forall is_byte bs /\ value_serialize (NoVersionValueWrapper s) a = Some bs /\
    value_deserialize (NoVersionValueWrapper s) bs = Some a.

Create HintDb lawful.
#[local] Hint Resolve lawful_ThinStateDiff lawful_ContractClass lawful_CasmContractClass lawful_DeprecatedContractClass
  lawful_TransactionOutput lawful_Transaction lawful_StorageBlockHeader lawful_BlockSignature lawful_LocationInFile
  lawful_IndexedDeprecatedContractClass lawful_ClassHash lawful_BlockNumber lawful_TransactionMetadata
  lawful_StarknetVersion lawful_Felt lawful_Nonce lawful_NoValue lawful_usize lawful_TransactionIndex lawful_Version
  lawful_BlockHash lawful_TransactionHash lawful_MarkerKind lawful_OffsetKind lawful_String lawful_pair
  lawful_PatriciaKey : lawful.

(** C18: Every value that the storage writes reads back as it was written, within the
    bounds of its fields and whether or not it was compressed: the objects in the
    six files, and the values of all tables, in the order of the struct [Tables],
    those with a version byte first. The table of the nonces is declared with a
    version byte, but a table with a common prefix writes its values without one.
    The keys of the tables read back as well. *)
Theorem stored_values_roundtrip :
  (* The files. *)
  ((forall x, ok_ThinStateDiff x -> stored_back serde_ThinStateDiff x) /\
   (forall x, ok_ContractClass x -> stored_back serde_ContractClass x) /\
   (forall x, ok_CasmContractClass x -> stored_back serde_CasmContractClass x) /\
   (forall x, ok_DeprecatedContractClass x -> stored_back serde_DeprecatedContractClass x) /\
   (forall x, ok_TransactionOutput x -> stored_back serde_TransactionOutput x) /\
   (forall x, ok_Transaction x -> stored_back serde_Transaction x)) /\
  (* The tables whose values have a version. *)
  ((* headers *) (forall x, ok_StorageBlockHeader x -> stored_back serde_StorageBlockHeader x) /\
   (* block_signatures *) (forall x, ok_BlockSignature x -> stored_back serde_BlockSignature x) /\
   (* casms, declared_classes, state_diffs *) (forall x, ok_LocationInFile x -> stored_back serde_LocationInFile x) /\
   (* deprecated_declared_classes *) (forall x, ok_IndexedDeprecatedContractClass x -> stored_back serde_IndexedDeprecatedContractClass x) /\
   (* deployed_contracts *) (forall x, ok_ClassHash x -> stored_back serde_ClassHash x) /\
   (* markers *) (forall x, ok_BlockNumber x -> stored_back serde_BlockNumber x) /\
   (* transaction_metadata *) (forall x, ok_TransactionMetadata x -> stored_back serde_TransactionMetadata x) /\
   (* starknet_version *) (forall x, ok_StarknetVersion x -> stored_back serde_StarknetVersion x)) /\
  (* The tables whose values have none. *)
  ((* block_hash_to_number, declared_classes_block *) (forall x, ok_BlockNumber x -> stored_plain serde_BlockNumber x) /\
   (* contract_storage *) (forall x, ok_Felt x -> stored_plain serde_Felt x) /\
   (* nonces *) (forall x, ok_Nonce x -> stored_plain serde_Nonce x) /\
   (* events *) (forall x, ok_NoValue x -> stored_plain serde_NoValue x) /\
   (* file_offsets *) (forall x, ok_usize x -> stored_plain serde_usize x) /\
   (* transaction_hash_to_idx *) (forall x, ok_TransactionIndex x -> stored_plain serde_TransactionIndex x) /\
   (* storage_version *) (forall x, ok_Version x -> stored_plain serde_Version x)) /\
  (* The keys. *)
  ((forall x, ok_BlockHash x -> stored_plain serde_BlockHash x) /\
   (forall x, ok_BlockNumber x -> stored_plain serde_BlockNumber x) /\
   (forall x, ok_ClassHash x -> stored_plain serde_ClassHash x) /\
   (forall x, ok_TransactionHash x -> stored_plain serde_TransactionHash x) /\
   (forall x, ok_TransactionIndex x -> stored_plain serde_TransactionIndex x) /\
   (forall x, ok_MarkerKind x -> stored_plain serde_MarkerKind x) /\
   (forall x, ok_OffsetKind x -> stored_plain serde_OffsetKind x) /\
   (forall x, ok_String x -> stored_plain serde_String x) /\
   (forall x, ok_pair ok_PatriciaKey ok_BlockNumber x -> stored_plain (serde_pair serde_PatriciaKey serde_BlockNumber) x) /\
   (forall x, ok_pair (ok_pair ok_PatriciaKey ok_PatriciaKey) ok_BlockNumber x ->
     stored_plain (serde_pair (serde_pair serde_PatriciaKey serde_PatriciaKey) serde_BlockNumber) x) /\
   (forall x, ok_pair ok_PatriciaKey ok_TransactionIndex x -> stored_plain (serde_pair serde_PatriciaKey serde_TransactionIndex) x)).
Proof.
  repeat match goal with |- _ /\ _ => split end; intros x Hx;
    ((eapply lawful_version_zero || eapply lawful_written); [auto with lawful|exact Hx]).
Qed.

(** ** Narrow encodings *)

(** the offset of a transaction in its block is written in three bytes and a
    location in ten: any value reads back as its low bits, so that a value in
    range reads back itself and a larger one another value, without an error.
    A block number that does not fit into 32 bits panics instead. *)
Theorem narrow_encodings (n len off : Z) :
  0 <= n < 2 ^ 64 -> 0 <= len < 2 ^ 64 -> 0 <= off < 2 ^ 64 ->
  value_serialize (NoVersionValueWrapper serde_TransactionOffsetInBlock) n ≫=
    value_deserialize (NoVersionValueWrapper serde_TransactionOffsetInBlock) = Some (n mod 2 ^ 24) /\
  value_serialize (NoVersionValueWrapper serde_LocationInFile) (mkLocationInFile off len) ≫=
    value_deserialize (NoVersionValueWrapper serde_LocationInFile) =
    Some (mkLocationInFile (off mod 2 ^ 48) (len mod 2 ^ 32)) /\
  (forall out, serialize_into serde_BlockNumber n out = Panic <-> 2 ^ 32 <= n).
Proof.
  intros Hn Hlen Hoff. split_and!.
  - cbn [value_serialize NoVersionValueWrapper mbind option_bind value_deserialize].
    change (written (serialize_into serde_TransactionOffsetInBlock n)) with (Some (be_bytes 3 n)). cbn [mbind option_bind].
    unfold read_all. rewrite <-(app_nil_r (be_bytes 3 n)). cbn [deserialize_from serde_TransactionOffsetInBlock].
    rewrite (bind_step _ _ _ _ _ (reads_exact 3 (be_bytes 3 n) eq_refl [])). cbn [ret].
    by rewrite be_value_zeros, be_value_bytes.
  - cbn [value_serialize NoVersionValueWrapper value_deserialize].
    change (written (serialize_into serde_LocationInFile (mkLocationInFile off len)))
      with (Some (be_bytes 4 len ++ be_bytes 6 off)). cbn [mbind option_bind].
    unfold read_all. rewrite <-(app_nil_r (be_bytes 6 off)). cbn [deserialize_from serde_LocationInFile].
    rewrite (bind_step _ _ _ _ _ (reads_exact 4 (be_bytes 4 len) eq_refl _)).
    rewrite (bind_step _ _ _ _ _ (reads_exact 6 (be_bytes 6 off) eq_refl _)).
    change (take 2 (replicate 4 0 ++ be_bytes 4 len)) with (replicate 2 0). cbn [ret].
    by rewrite !be_value_zeros, !be_value_bytes.
  - intros out. cbn [serialize_into serde_BlockNumber]. destruct (Z.ltb_spec n (2 ^ 32)); cbn [assert_].
    + split; [|lia]. by intros [=].
    + split; [lia|done].
Qed.

(** ** The order of the keys *)

(** The bytes of a key. *)
Definition key_bytes {A} (s : StorageSerde A) (k : A) : option bytes := value_serialize (NoVersionValueWrapper s) k.

Lemma transaction_index_bytes b i :
  0 <= b < 2 ^ 32 -> key_bytes serde_TransactionIndex (b, i) = Some (be_bytes 4 b ++ be_bytes 3 i).
Proof.
  intros Hb. unfold key_bytes. cbn [value_serialize NoVersionValueWrapper]. unfold written.
  cbn [serialize_into serde_TransactionIndex serde_BlockNumber fst snd].
  destruct (Z.ltb_spec b (2 ^ 32)); [|lia]. cbn [assert_]. run_steps.
  cbn [serialize_into serde_u32 serde_uint]. rewrite (byteorder_write_spec 4 b) by exact Hb. done.
Qed.

(** the bytes of the keys are ordered as the keys: block numbers, and
    transaction indices first by block and then by offset. The cursors of the
    tables therefore walk the blocks and their transactions in order. *)
Theorem key_order_preserved (b1 i1 b2 i2 : Z) :
  0 <= b1 < 2 ^ 32 -> 0 <= b2 < 2 ^ 32 -> 0 <= i1 < 2 ^ 24 -> 0 <= i2 < 2 ^ 24 ->
  exists k1 k2 n1 n2,
    key_bytes serde_TransactionIndex (b1, i1) = Some k1 /\ key_bytes serde_TransactionIndex (b2, i2) = Some k2 /\
    key_bytes serde_BlockNumber b1 = Some n1 /\ key_bytes serde_BlockNumber b2 = Some n2 /\
    (bytes_lt k1 k2 <-> key_lt (b1, i1) (b2, i2)) /\ (bytes_lt n1 n2 <-> key_lt b1 b2).
Proof.
  intros Hb1 Hb2 Hi1 Hi2. exists (be_bytes 4 b1 ++ be_bytes 3 i1), (be_bytes 4 b2 ++ be_bytes 3 i2), (be_bytes 4 b1), (be_bytes 4 b2).
  assert (Hbn : forall b, 0 <= b < 2 ^ 32 -> key_bytes serde_BlockNumber b = Some (be_bytes 4 b)).
  { intros b Hb. unfold key_bytes. cbn [value_serialize NoVersionValueWrapper]. unfold written.
    cbn [serialize_into serde_BlockNumber]. destruct (Z.ltb_spec b (2 ^ 32)); [|lia]. cbn [assert_]. run_steps.
    cbn [serialize_into serde_u32 serde_uint]. by rewrite (byteorder_write_spec 4 b). }
  split_and!; [by apply transaction_index_bytes|by apply transaction_index_bytes|by apply Hbn|by apply Hbn| |].
  - rewrite bytes_lt_app by (by rewrite !be_bytes_length). rewrite !be_bytes_lt by assumption.
    cbn. unfold pair_lt. cbn. split; (intros [?|[He ?]]; [by left|right; split; [|done]]).
    + by apply (be_bytes_inj 4).
    + by rewrite He.
  - by apply be_bytes_lt.
Qed.

(** ** The files of the storage *)

#[local] Instance thin_state_diff_file : FileHandler WfFile ThinStateDiff :=
  mmap_file_handler (VersionZeroWrapper serde_ThinStateDiff).
#[local] Instance contract_class_file : FileHandler WfFile ContractClass :=
  mmap_file_handler (VersionZeroWrapper serde_ContractClass).
#[local] Instance casm_file : FileHandler WfFile CasmContractClass :=
  mmap_file_handler (VersionZeroWrapper serde_CasmContractClass).
#[local] Instance deprecated_contract_class_file : FileHandler WfFile DeprecatedContractClass :=
  mmap_file_handler (VersionZeroWrapper serde_DeprecatedContractClass).
#[local] Instance transaction_output_file : FileHandler WfFile TransactionOutput :=
  mmap_file_handler (VersionZeroWrapper serde_TransactionOutput).
#[local] Instance transaction_file : FileHandler WfFile Transaction :=
  mmap_file_handler (VersionZeroWrapper serde_Transaction).

(** [FileHandlers]: the six memory-mapped files. *)
Definition mmap_storage_files : StorageFiles := {|
  ThinStateDiffFile := WfFile;
  ContractClassFile := WfFile;
  CasmFile := WfFile;
  DeprecatedContractClassFile := WfFile;
  TransactionOutputFile := WfFile;
  TransactionFile := WfFile;
  thin_state_diff_handler := thin_state_diff_file;
  contract_class_handler := contract_class_file;
  casm_handler := casm_file;
  deprecated_contract_class_handler := deprecated_contract_class_file;
  transaction_output_handler := transaction_output_file;
  transaction_handler := transaction_file
|}.

Lemma stored_back_roundtrips {A} (s : StorageSerde A) a : stored_back s a -> roundtrips (VersionZeroWrapper s) a.
Proof. intros (bs & _ & Hs & Hd). unfold roundtrips. by rewrite Hs. Qed.
End Theorems.
