(* ===== verification/StorageWitnesses.v ===== *)
(** * A concrete storage

    Instances of the interfaces on which the storage theorems are stated, used
    by their witnesses: files that are lists of values, hash sets iterated in
    the order of their elements, and an empty storage. *)

From stdpp Require Import base gmap list strings fin_maps.
From Stdlib Require Import ZArith Lia.
From S2P Require Import Prelude StorageTables StarknetTypes StorageTxn Header Body BodyProps EventsProps State StateProps.
From S2P Require Import StateTheorems StorageVersion.

#[global] Instance demo_types : ExternalTypes := {| Json := unit; Hint := unit |}.

#[global] Instance demo_block_numbers : BlockNumberApi := block_number_u64.

#[global] Instance demo_set_order : HashSetIter := {|
  hs_iter := elements;
  hs_iter_perm := fun s => reflexivity (elements s)
|}.

(** The state before the block of that number. *)
#[global] Instance demo_state_numbers : StateNumberApi := {|
  StateNumber := Z;
  block_after := fun n => n;
  is_before := fun n b => n <=? b;
  is_after := fun n b => b <? n;
  is_before_spec := fun _ _ => eq_refl;
  is_after_spec := fun _ _ => eq_refl
|}.

Definition before_block (n : Z) : @StateNumber demo_state_numbers := n.

(** A file as the list of its values, each of length one. *)
Section ListFile.
Context {V : Type}.

Definition list_append (f : list V) (v : V) : option (list V * LocationInFile) :=
  Some (f ++ [v], mkLocationInFile (zlength f) 1).

Definition list_get (f : list V) (loc : LocationInFile) : option V :=
  if LocationInFile_len loc =? 1 then lookup_z f (LocationInFile_offset loc) else None.

Lemma list_append_location f v f' loc :
  list_append f v = Some (f', loc) ->
  LocationInFile_offset loc = zlength f /\ next_offset loc = zlength f' /\ 0 <= LocationInFile_len loc.
Proof. unfold list_append. intros [= <- <-]. unfold next_offset; cbn. rewrite zlength_snoc. lia. Qed.

Lemma list_append_get f v f' loc : True -> list_append f v = Some (f', loc) -> list_get f' loc = Some v.
Proof.
  unfold list_append, list_get. intros _ [= <- <-]. cbn. by rewrite lookup_z_snoc, Z.eqb_refl.
Qed.

Lemma list_append_other f v f' loc loc' :
  list_append f v = Some (f', loc) -> 0 <= LocationInFile_offset loc' -> next_offset loc' <= zlength f ->
  list_get f' loc' = list_get f loc'.
Proof.
  unfold list_append, list_get, next_offset. intros [= <- <-] H0 Hn. case_cmp; [|done].
  rewrite lookup_z_snoc. case_cmp; [lia|done].
Qed.

#[global] Instance list_file : FileHandler (list V) V := {|
  file_offset := zlength;
  file_append := list_append;
  file_get := list_get;
  storable := fun _ => True;
  file_append_location := list_append_location;
  file_append_get := list_append_get;
  file_append_other := list_append_other
|}.
End ListFile.

#[global] Instance demo_files : StorageFiles := {|
  ThinStateDiffFile := list ThinStateDiff;
  ContractClassFile := list ContractClass;
  CasmFile := list CasmContractClass;
  DeprecatedContractClassFile := list DeprecatedContractClass;
  TransactionOutputFile := list TransactionOutput;
  TransactionFile := list Transaction
|}.

Definition empty_storage (scope : StorageScope) : StorageTxn :=
  mkStorageTxn scope ∅ ∅ ∅ ∅ ∅ ∅ ∅ ∅ ∅ ∅ ∅ ∅ ∅ ∅ ∅ ∅ ∅ ∅ [] [] [] [] [] [].

(** * The storage theorems on a concrete storage

    Each theorem on the headers, bodies, state diffs and classes applied to a
    storage that starts empty; and concrete runs of behaviour that a reader of
    the code may not expect. *)

Definition demo0 : StorageTxn := empty_storage StorageScope_FullArchive.

(** The transaction an operation returned. *)
Definition after {A} (m : Txn A) (t : StorageTxn) : StorageTxn :=
  match m t with Done t' _ => t' | _ => t end.

(** ** Headers *)

Definition demo_header (n hash : Z) : BlockHeader :=
  mkBlockHeader hash (hash - 1) n (mkGasPricePerToken 1 2) (mkGasPricePerToken 3 4) 5 6 7
    L1DataAvailabilityMode_Blob None None None None (Some 1) 0 0 [48; 46; 49; 51].

Definition demo_headers : StorageTxn := after (append_header 0 (demo_header 0 100)) demo0.

Lemma demo_headers_rel : header_rel demo_headers [(demo_header 0 100, None)].
Proof.
  destruct (append_refines demo0 [] 0 (demo_header 0 100)) as (t' & Hrun & Hr & _).
  - by apply header_rel_empty.
  - constructor.
  - done.
  - unfold demo_headers, after. unfold run_header_op in Hrun.
    apply bind_Done in Hrun as (t1 & u & Hrun & Hret). rewrite Hrun. unfold ret in Hret. simplify_eq. done.
Qed.

Lemma header_writers_refine_witness :
  refines_header (HeaderOp_Append 1 (demo_header 1 101)) demo_headers [(demo_header 0 100, None)] /\
  refines_header (HeaderOp_Revert 0) demo_headers [(demo_header 0 100, None)].
Proof.
  split; apply header_writers_refine; try exact demo_headers_rel; try (vm_compute; done);
    refine (bool_decide_unpack _ _); vm_compute; exact I.
Defined.

Lemma header_readers_refine_witness :
  get_header_marker demo_headers = Done demo_headers 1 /\
  get_block_header 0 demo_headers = Done demo_headers (Some (demo_header 0 100)) /\
  get_starknet_version 0 demo_headers = Done demo_headers (Some [48; 46; 49; 51]) /\
  get_block_signature 0 demo_headers = Done demo_headers None /\
  forall h n, get_block_number_by_hash h demo_headers = Done demo_headers (Some n) <->
    (hash_of <$> lookup_z [(demo_header 0 100, None)] n) = Some h.
Proof.
  apply (header_readers_refine demo_headers [(demo_header 0 100, None)] 0).
  - exact demo_headers_rel.
  - refine (bool_decide_unpack _ _). vm_compute. exact I.
  - lia.
Defined.

(** ** Bodies *)

Definition demo_output : TransactionOutput :=
  TransactionOutput_L1Handler (mkL1HandlerTransactionOutput 0 [] [mkEvent 7 (mkEventContent [1] [2])]
    TransactionExecutionStatus_Succeeded (mkExecutionResources 1 ∅ 0 (mkGasVector 0 0) (mkGasVector 0 0))).

Definition demo_transaction : Transaction := Transaction_L1Handler (mkL1HandlerTransaction 0 1 7 3 [4]).

Definition demo_body (hash : Z) : BlockBody := mkBlockBody [demo_transaction] [demo_output] [hash].

Definition demo_bodies : StorageTxn := after (append_body 0 (demo_body 20)) demo0.

Lemma demo_body_well_formed hash : well_formed_body (demo_body hash).
Proof. done. Qed.

Lemma demo_body_has_room t hash : has_room t (demo_body hash).
Proof. split; [by repeat constructor|]. split; by eexists. Qed.

Lemma demo_body_storable : body_rel demo0 [].
Proof. by apply body_rel_empty. Qed.

Lemma demo_bodies_rel : body_rel demo_bodies [body_items (demo_body 20)].
Proof.
  pose proof (append_body_rel demo0 [] 0 (demo_body 20) demo_body_storable (NoDup_nil_2) eq_refl
    (demo_body_well_formed 20) (demo_body_has_room _ 20)) as Hrun.
  unfold append_body_spec in Hrun. cbn [negb Z.eqb] in Hrun. rewrite decide_True in Hrun.
  - destruct Hrun as (t' & Hrun & Hr & _). unfold demo_bodies, after. by rewrite Hrun.
  - refine (bool_decide_unpack _ _). vm_compute. exact I.
Qed.

Lemma demo_bodies_NoDup : NoDup (chain_hashes [body_items (demo_body 20)]).
Proof. refine (bool_decide_unpack _ _). vm_compute. exact I. Qed.

Lemma append_body_refines_witness :
  exists t', append_body 1 (demo_body 21) demo_bodies = Done t' tt /\
    body_rel t' [body_items (demo_body 20); body_items (demo_body 21)].
Proof.
  pose proof (append_body_refines demo_bodies [body_items (demo_body 20)] 1 (demo_body 21) demo_bodies_rel
    demo_bodies_NoDup eq_refl (demo_body_well_formed 21) (demo_body_has_room _ 21)) as Hrun.
  unfold append_body_spec in Hrun. cbn [negb] in Hrun. rewrite decide_True in Hrun.
  - destruct Hrun as (t' & Hrun & Hr & _). exists t'. split; [exact Hrun|exact Hr].
  - refine (bool_decide_unpack _ _). vm_compute. exact I.
Defined.

Lemma revert_body_refines_witness :
  exists t', revert_body 0 demo_bodies = Done t' (Some ([demo_transaction], [demo_output], [20])) /\ body_rel t' [].
Proof.
  destruct (revert_body_refines demo_bodies [body_items (demo_body 20)] 0 demo_bodies_rel demo_bodies_NoDup
    eq_refl ltac:(lia)) as (t' & Hrun & Hr & _).
  exists t'. split; [exact Hrun|exact Hr].
Defined.

Lemma body_readers_refine_witness :
  get_block_transactions 0 demo_bodies = Done demo_bodies (Some [demo_transaction]) /\
  get_transaction_idx_by_hash 20 demo_bodies = Done demo_bodies (Some (0, 0)).
Proof.
  destruct (body_readers_refine demo_bodies [body_items (demo_body 20)] 0 0 20 demo_bodies_rel ltac:(lia))
    as (H1 & _ & _ & _ & _ & _ & _ & H2).
  - intros body ->%list_elem_of_singleton. reflexivity.
  - split; [exact H1|by apply H2].
Defined.

(** ** State diffs *)

(** A contract is deployed with a class, and a cell and a nonce are written. *)
Definition demo_diff0 : ThinStateDiff := mkThinStateDiff [(1, 50)] [(1, [(10, 11)])] [] [] [(1, 1)] [].
(** The cell changes and a class is declared. *)
Definition demo_diff1 : ThinStateDiff := mkThinStateDiff [] [(1, [(10, 12)])] [(60, 61)] [] [] [].

Lemma state_rel_demo0 : state_rel demo0 [].
Proof.
  assert (Hl : forall b, lookup_z ([] : list ThinStateDiff) b = None) by (intros b; unfold lookup_z; by case_cmp).
  split; [done|split; vm_compute; discriminate|vm_compute; discriminate| |by intros; rewrite Hl..|].
  - intros b. by rewrite Hl.
  - intros b d h Hb. by rewrite Hl in Hb.
Qed.

Lemma class_rel_demo0 : class_rel demo0.
Proof. split; [split_and!; vm_compute; discriminate|done..]. Qed.

Ltac solve_NoDup := refine (bool_decide_unpack _ _); vm_compute; exact I.

Lemma demo_diff0_ok : diff_ok demo_diff0.
Proof. split; [solve_NoDup..| |]; [|solve_NoDup]. set_solver. Qed.

Lemma demo_diff1_ok : diff_ok demo_diff1.
Proof. split; [solve_NoDup..| |]; [|solve_NoDup]. set_solver. Qed.

Definition demo_state : StorageTxn := with_diff 0 [demo_diff0] (mkLocationInFile 0 1) (with_changes 0 demo_diff0 demo0).

Lemma demo_state_rel : state_rel demo_state [demo_diff0].
Proof.
  apply (state_rel_appended demo0 [] demo_diff0 [demo_diff0] (mkLocationInFile 0 1)).
  - exact state_rel_demo0.
  - exact demo_diff0_ok.
  - exact I.
  - intros h Hh. by apply not_elem_of_nil in Hh.
  - reflexivity.
Qed.

Lemma demo_appendable : appendable demo_state demo_diff1.
Proof. split; [exact demo_diff1_ok|exact I|by eexists|]. intros h _. reflexivity. Qed.

Lemma append_state_diff_refines_witness :
  exists t', append_state_diff 1 demo_diff1 demo_state = Done t' tt /\ state_rel t' [demo_diff0; demo_diff1].
Proof.
  destruct (append_state_diff_refines demo_state [demo_diff0] 1 demo_diff1 demo_state_rel ltac:(vm_compute; done)
    demo_appendable) as (t' & Hrun & Hr & _).
  exists t'. split; [exact Hrun|exact Hr].
Defined.

Lemma revert_state_diff_refines_witness :
  exists t', revert_state_diff 0 demo_state = Done t' (Some (demo_diff0, [], [], [])) /\ state_rel t' [].
Proof.
  destruct (revert_state_diff_refines demo_state [] demo_diff0 0 demo_state_rel) as (t' & cs & dcs & casms & Hrun & Hr & _).
  - destruct class_rel_demo0. by split.
  - exact demo_diff0_ok.
  - reflexivity.
  - lia.
  - exists t'. split; [|exact Hr]. vm_compute in Hrun. injection Hrun as <- <- <- <-. reflexivity.
Defined.

Lemma state_readers_refine_witness :
  get_storage_at (before_block 1) 1 10 demo_state = Done demo_state 11 /\
  get_nonce_at (before_block 0) 1 demo_state = Done demo_state None /\
  get_class_hash_at (before_block 1) 1 demo_state = Done demo_state (Some 50).
Proof.
  destruct (state_readers_refine demo_state [demo_diff0] (before_block 1) 1 10 0 demo_state_rel) as (H1 & _ & H3 & _).
  destruct (state_readers_refine demo_state [demo_diff0] (before_block 0) 1 10 0 demo_state_rel) as (_ & H2 & _).
  split; [exact H1|]. split; [exact H2|exact H3].
Defined.

Lemma append_keeps_history_witness :
  exists t' before v, append_state_diff 1 demo_diff1 demo_state = Done t' tt /\
    get_storage_at (before_block 1) 1 10 demo_state = Done demo_state before /\
    get_storage_at (before_block 2) 1 10 t' = Done t' v /\ v = 12.
Proof.
  set (t' := after (append_state_diff 1 demo_diff1) demo_state).
  destruct (append_keeps_history demo_state t' [demo_diff0] demo_diff1 1 10 (before_block 2) (before_block 1)
    demo_state_rel ltac:(vm_compute; done) demo_appendable eq_refl) as (before & v & H1 & H2 & H3).
  - vm_compute. reflexivity.
  - exists t', before, v. split; [vm_compute; reflexivity|]. split; [exact H1|]. split; [exact H2|exact H3].
Defined.

Definition demo_casm : CasmContractClass := mkCasmContractClass 1 [] [] None [] None (mkCasmContractEntryPoints [] [] []).

Lemma append_casm_marker_witness :
  exists t', append_casm 60 demo_casm demo_state = Done t' tt /\ state_rel t' [demo_diff0] /\
    get_casm 60 t' = Done t' (Some demo_casm).
Proof.
  destruct (append_casm_marker demo_state [demo_diff0] 60 demo_casm demo_state_rel) as (t' & Hrun & Hr & _ & Hget & _).
  - destruct class_rel_demo0. by split.
  - reflexivity.
  - reflexivity.
  - exact I.
  - by eexists.
  - exists t'. split; [exact Hrun|]. split; [exact Hr|]. exact (Hget 60).
Defined.

Definition demo_class : ContractClass := mkContractClass [1; 2] ∅ [].

Lemma append_classes_reads_witness :
  exists t', append_classes 0 [(60, demo_class)] [] demo0 = Done t' tt /\
    get_class 60 t' = Done t' (Some demo_class).
Proof.
  destruct (append_classes_reads demo0 0 [(60, demo_class)] [] class_rel_demo0 ltac:(lia))
    as (t' & Hrun & _ & _ & Hget).
  - solve_NoDup.
  - solve_NoDup.
  - intros h _. reflexivity.
  - split; [exact I|]. do 2 eexists. by split.
  - exact I.
  - exists t'. split; [exact Hrun|]. apply (Hget 60).
Defined.

(** ** Behaviour a reader may not expect *)

(** [delete_declared_classes] skips a class whose definition was not stored yet,
    and with it the table of the declaring blocks: the reverted block, or
    another block that declares the class, cannot be appended again. *)
Example revert_keeps_declaring_block :
  exists t1 t2 t3,
    append_state_diff 0 demo_diff1 demo0 = Done t1 tt /\
    revert_state_diff 0 t1 = Done t2 (Some (demo_diff1, [], [], [])) /\
    t_declared_classes_block t2 !! 60 = Some 0 /\
    append_state_diff 0 demo_diff1 t2 = Fail t3 (StorageError_InnerError DbError_KeyAlreadyExists).
Proof. do 3 eexists. split; [vm_compute; reflexivity|]. split; [vm_compute; reflexivity|]. split; vm_compute; reflexivity. Qed.

(** The body marker can pass the header marker: [append_body] does not look at it. *)
Example body_marker_passes_header_marker :
  exists t1, append_body 0 (demo_body 20) demo0 = Done t1 tt /\
    marker MarkerKind_Body t1 = 1 /\ marker MarkerKind_Header t1 = 0.
Proof. eexists. split; [vm_compute; reflexivity|]. split; vm_compute; reflexivity. Qed.

(** * The theorems on events and versions on a concrete storage

    The iterators of the events on a storage with two blocks, and the versions
    of storages that were opened before; then concrete runs of behaviour that
    a reader of the code may not expect. *)

(** ** Events *)

Definition demo_events : StorageTxn := after (append_body 1 (demo_body 21)) demo_bodies.

Definition demo_chain : BodyChain := [body_items (demo_body 20); body_items (demo_body 21)].

Lemma demo_events_rel : body_rel demo_events demo_chain.
Proof.
  pose proof (append_body_rel demo_bodies [body_items (demo_body 20)] 1 (demo_body 21) demo_bodies_rel
    demo_bodies_NoDup eq_refl (demo_body_well_formed 21) (demo_body_has_room _ 21)) as Hrun.
  unfold append_body_spec in Hrun. cbn [negb] in Hrun. rewrite decide_True in Hrun.
  - destruct Hrun as (t' & Hrun & Hr & _). unfold demo_events, after. by rewrite Hrun.
  - refine (bool_decide_unpack _ _). vm_compute. exact I.
Qed.

Definition demo_event (b : Z) : EventItem := ((7, ((b, 0), 0)), mkEventContent [1] [2]).

Lemma iter_events_by_index_complete_witness :
  exists it, iter_events None ((0, 0), 0) 5 demo_events = Done demo_events it /\
    take_events 10 it demo_events = Done demo_events [demo_event 0; demo_event 1].
Proof.
  destruct (iter_events_by_index_complete demo_events demo_chain (0, 0) 0 5 10 demo_events_rel ltac:(lia) ltac:(by right))
    as (it & Hrun & Htake).
  exists it. split; [exact Hrun|]. rewrite Htake. reflexivity.
Defined.

Lemma iter_events_by_address_complete_witness :
  exists it others, iter_events (Some 7) ((1, 0), 0) 5 demo_events = Done demo_events it /\
    take_events 1 it demo_events = Done demo_events (take 1 ([demo_event 1] ++ others)).
Proof.
  destruct (iter_events_by_address_complete demo_events demo_chain 7 (1, 0) 0 5 demo_events_rel)
    as (it & others & Hrun & _ & Htake).
  exists it, others. split; [exact Hrun|]. exact (Htake 1%nat).
Defined.

(** The events of an iteration, from its start. *)
Definition collect_all_events (address : option Z) (start : (Z * Z) * Z) (to : Z) (n : nat) (t : StorageTxn) :
    option (list EventItem) :=
  match (let! it := iter_events address start to in take_events n it) t with Done _ l => Some l | _ => None end.

(** The event offset is kept when the first transaction found is a later one
    than asked for, so that its first events are skipped. *)
Example index_offset_skips_later_event :
  item demo_chain (0, 5) = None /\ ~ key_lt (event_key (demo_event 1)) ((0, 5), 1) /\
  demo_event 1 ∈ events_between ((0, 5), 1) 5 demo_chain /\
  collect_all_events None ((0, 5), 1) 5 10 demo_events = Some [].
Proof.
  assert (Hlt : ~ key_lt (event_key (demo_event 1)) ((0, 5), 1)) by (apply key_lt_asym; left; left; cbn; lia).
  split; [reflexivity|]. split; [exact Hlt|]. split; [|vm_compute; reflexivity].
  apply list_elem_of_filter. split; [split; [exact Hlt|done]|]. apply list_elem_of_lookup. by exists 1%nat.
Qed.

(** The start offset applies to another contract's entry of the same
    transaction too: the event of contract 7 comes after the start key
    (contract 6) and is skipped. *)
Example address_offset_skips_other_contract :
  collect_all_events (Some 6) ((0, 0), 0) 5 1 demo_events = Some [demo_event 0] /\
  collect_all_events (Some 6) ((0, 0), 1) 5 1 demo_events = Some [demo_event 1].
Proof. split; vm_compute; reflexivity. Qed.

(** ** Versions *)

Definition with_versions (scope : StorageScope) (state blocks : option Version) : StorageTxn :=
  let table : gmap (list Z) Version := match state with Some v => <[VERSION_STATE_KEY := v]> ∅ | None => ∅ end in
  set_storage_version (match blocks with Some v => <[VERSION_BLOCKS_KEY := v]> table | None => table end)
    (empty_storage scope).

Definition old_archive : StorageTxn := with_versions StorageScope_FullArchive (Some (mkVersion 1 0)) (Some (mkVersion 2 0)).

Lemma open_storage_version_correct_witness :
  exists t', open_storage_version old_archive = Done t' tt /\ versions_current t'.
Proof.
  pose proof (open_storage_version_correct old_archive) as Hopen.
  change (opens old_archive) with true in Hopen. destruct Hopen as (t' & Hrun & Hc & _).
  - split; [discriminate|]. intros v [Hv|Hv]; vm_compute in Hv; injection Hv as <-; cbn; lia.
  - exists t'. split; [exact Hrun|exact Hc].
Defined.

(** The error of an operation. *)
Definition error_of {A} (r : res StorageTxn StorageError A) : option StorageError :=
  match r with Fail _ e => Some e | _ => None end.

(** The two versions of a new full archive are committed one after the other:
    a storage that has only the first one never opens as a full archive. *)
Example half_initialised_archive_fails :
  error_of (open_storage_version (with_versions StorageScope_FullArchive (Some STORAGE_VERSION_STATE) None)) =
  Some (StorageError_StorageVersionInconsistency InconsistentStorageScope).
Proof. vm_compute. reflexivity. Qed.

(** Opening a newer full archive as state-only fails, after the blocks version
    was deleted for good: the storage does not open as a full archive again. *)
Example failed_open_deletes_blocks_version :
  match open_storage_version (with_versions StorageScope_StateOnly (Some (mkVersion 1 2)) (Some (mkVersion 2 0))) with
  | Fail t' (StorageError_StorageVersionInconsistency (InconsistentStorageVersion _ _)) => blocks_version_of t' = None
  | _ => False
  end.
Proof. vm_compute. reflexivity. Qed.

(** With a higher minor blocks version in the crate, opening a full archive as
    state-only deletes the blocks version and writes it again. *)
Example state_only_open_recreates_blocks_version :
  match open_storage_version_at (mkVersion 1 1) (mkVersion 2 1)
    (with_versions StorageScope_StateOnly (Some (mkVersion 1 1)) (Some (mkVersion 2 0))) with
  | Done t' _ => t_scope t' = StorageScope_StateOnly /\ blocks_version_of t' = Some (mkVersion 2 1)
  | _ => False
  end.
Proof. vm_compute. split; reflexivity. Qed.
