(* ===== verification/TableWitnesses.v ===== *)
(** * The serializers with concrete crates

    An instance of the interfaces of the other crates that keeps what they
    promise (fixed-width varints and field elements, no compression), and the
    theorems on serialization and files applied to concrete values. *)

From stdpp Require Import base gmap list strings fin_maps.
From Stdlib Require Import ZArith Lia.
From S2P Require Import Prelude StorageTables StarknetTypes StorageTxn Serde SerdeLaws Mdbx SimpleTable CommonPrefixProps SerdeTypes.
From S2P Require Import SerdeTypesLaws MmapFile TableTheorems StorageWitnesses.

Definition read_fixed (n : nat) (bs : bytes) : option (Z * bytes) :=
  if (length bs <? n)%nat then None else Some (be_value (take n bs), drop n bs).

Definition biguint_bytes_demo (n : Z) : bytes := be_bytes (S (Z.to_nat (Z.log2 n))) n.

#[global] Instance demo_crates : SerdeCrates := {|
  byteorder_write := be_bytes;
  byteorder_read := read_fixed;
  write_varint := be_bytes 8;
  read_varint := read_fixed 8;
  felt_serialize := be_bytes 32;
  felt_deserialize := read_fixed 32;
  patricia_try_from := fun z => if z <? 2 ^ 251 then Some z else None;
  zstd_compress := Some;
  zstd_decompress := fun size data => if zlength data <=? size then Some data else None;
  json_to_vec := fun _ => Some [];
  json_from_slice := fun _ => Some tt;
  hint_encode := fun _ => [];
  hint_decode := fun _ => Some tt;
  biguint_to_bytes_be := biguint_bytes_demo;
  biguint_from_bytes_be := be_value
|}.

Lemma read_fixed_spec n bs rest : length bs = n -> read_fixed n (bs ++ rest) = Some (be_value bs, rest).
Proof.
  intros <-. unfold read_fixed. rewrite length_app. destruct (Nat.ltb_spec (length bs + length rest) (length bs)); [lia|].
  by rewrite take_app_length, drop_app_length.
Qed.

Lemma read_fixed_roundtrip n z rest : 0 <= z < 256 ^ Z.of_nat n -> read_fixed n (be_bytes n z ++ rest) = Some (z, rest).
Proof. intros Hz. rewrite read_fixed_spec by apply be_bytes_length. by rewrite be_value_bytes, Z.mod_small. Qed.

Lemma biguint_demo_bytes n : 0 <= n < 2 ^ 512 ->
  Forall is_byte (biguint_bytes_demo n) /\ zlength (biguint_bytes_demo n) < 2 ^ 64.
Proof.
  intros Hn. split; [apply be_bytes_byte|]. unfold biguint_bytes_demo, zlength. rewrite be_bytes_length.
  assert (Z.log2 n <= Z.log2 (2 ^ 512)) by (apply Z.log2_le_mono; lia). rewrite Z.log2_pow2 in * by lia. lia.
Qed.

Lemma biguint_demo_roundtrip n : 0 <= n -> be_value (biguint_bytes_demo n) = n.
Proof.
  intros Hn. unfold biguint_bytes_demo. rewrite be_value_bytes. apply Z.mod_small. split; [done|].
  destruct (Z.eq_dec n 0) as [->|Hz]; [done|]. pose proof (Z.log2_spec n ltac:(lia)) as [_ Hlt].
  eapply Z.lt_le_trans; [exact Hlt|]. rewrite Nat2Z.inj_succ, Z2Nat.id by apply Z.log2_nonneg.
  change 256 with (2 ^ 8). rewrite <-Z.pow_mul_r by (pose proof (Z.log2_nonneg n); lia).
  apply Z.pow_le_mono_r; [lia|]. pose proof (Z.log2_nonneg n). lia.
Qed.

Lemma zstd_demo_roundtrip (data c : bytes) (size : Z) :
  Some data = Some c -> zlength data <= size -> (if zlength c <=? size then Some c else None) = Some data.
Proof. intros [= ->] Hs. by rewrite (proj2 (Z.leb_le _ _)). Qed.

Lemma patricia_demo_roundtrip z : 0 <= z < 2 ^ 251 -> (if z <? 2 ^ 251 then Some z else None) = Some z.
Proof. intros Hz. by rewrite (proj2 (Z.ltb_lt _ _)) by apply Hz. Qed.

#[global] Instance demo_crates_spec : SerdeCratesSpec.
Proof.
  refine {| is_felt := fun z => 0 <= z < 2 ^ 252; is_patricia_key := fun z => 0 <= z < 2 ^ 251; is_json := fun _ => True |}.
  - done.
  - intros n bs rest Hl _. by apply read_fixed_spec.
  - intros n _. apply be_bytes_byte.
  - intros n rest Hn. by apply read_fixed_roundtrip.
  - intros z _. apply be_bytes_byte.
  - intros z rest Hz. apply read_fixed_roundtrip. cbn. lia.
  - intros z Hz. lia.
  - intros z Hz. by apply patricia_demo_roundtrip.
  - intros data Hb Hl. exists data. split; [done|]. split; [done|]. lia.
  - intros data c size. apply zstd_demo_roundtrip.
  - intros [] _. exists []. done.
  - intros h. done.
  - intros []. done.
  - apply biguint_demo_bytes.
  - apply biguint_demo_roundtrip.
Defined.

#[global] Instance demo_hash_map_order : HashMapIter := {|
  hm_iter := fun K V _ _ m => map_to_list m;
  hm_iter_perm := fun K V _ _ m => reflexivity (map_to_list m)
|}.

(** ** Witnesses *)

Lemma demo_location_stored : stored_back serde_LocationInFile (mkLocationInFile 7 9).
Proof. eapply lawful_version_zero; [apply lawful_LocationInFile|]. by split. Qed.

Lemma stored_values_roundtrip_witness :
  stored_back serde_LocationInFile (mkLocationInFile 7 9) /\ stored_back serde_BlockSignature (mkSignature 3 4) /\
  stored_plain serde_TransactionIndex (5, 6).
Proof.
  destruct stored_values_roundtrip as (_ & (_ & H1 & H2 & _) & (_ & _ & _ & _ & _ & H3 & _) & _).
  split; [apply H2; by split|]. split; [apply H1; by split|apply H3; by split].
Defined.

(** A transaction past the sixteen millionth would be read at another offset. *)
Lemma narrow_encodings_witness :
  value_serialize (NoVersionValueWrapper serde_TransactionOffsetInBlock) (2 ^ 24 + 5) ≫=
    value_deserialize (NoVersionValueWrapper serde_TransactionOffsetInBlock) = Some 5 /\
  (forall out, serialize_into serde_BlockNumber (2 ^ 32) out = Panic).
Proof.
  split.
  - apply (narrow_encodings (2 ^ 24 + 5) 0 0); lia.
  - intros out. apply (narrow_encodings (2 ^ 32) 0 0); lia.
Defined.

Lemma key_order_preserved_witness :
  exists k1 k2, key_bytes serde_TransactionIndex (1, 300) = Some k1 /\
    key_bytes serde_TransactionIndex (2, 0) = Some k2 /\ bytes_lt k1 k2.
Proof.
  destruct (key_order_preserved 1 300 2 0) as (k1 & k2 & _ & _ & H1 & H2 & _ & _ & H3 & _); [lia..|].
  exists k1, k2. split; [exact H1|]. split; [exact H2|]. apply H3. left. cbn. lia.
Defined.

Definition demo_file : MMapFile := open_file (mkMmapFileConfig 1000 100 50) ∅ 0 0.

Lemma mmap_appends_read_back_witness :
  exists f' locs, append_seq (VersionZeroWrapper serde_LocationInFile) demo_file
      [mkLocationInFile 1 2; mkLocationInFile 3 4] = Some (f', locs) /\
    mf_offset f' = 22 /\ grown demo_file f' /\
    Forall2 (fun v loc => mmap_get (VersionZeroWrapper serde_LocationInFile) f' loc = Some v)
      [mkLocationInFile 1 2; mkLocationInFile 3 4] locs.
Proof.
  destruct (mmap_appends_read_back (VersionZeroWrapper serde_LocationInFile) demo_file
    [mkLocationInFile 1 2; mkLocationInFile 3 4]) as (f' & locs & Hrun & _ & Ho & Hg & Hall & _).
  - apply open_new_good; [reflexivity|reflexivity|cbn; lia].
  - repeat constructor; vm_compute; congruence || reflexivity.
  - vm_compute. discriminate.
  - exists f', locs. split; [exact Hrun|]. split; [exact Ho|]. split; [exact Hg|exact Hall].
Defined.

(** * The tables on a concrete store

    A store in memory that keeps the promises of [MdbxSimple] and [MdbxDup], and
    the theorems on the tables applied to it. *)

(** ** The store in memory *)

Definition mem_put (s : gmap bytes bytes) (k v : bytes) (flags : WriteFlags) : MdbxResult (gmap bytes bytes) :=
  match flags with
  | WriteFlags_NO_OVERWRITE => match s !! k with Some _ => MdbxErr MdbxError_KeyExist | None => MdbxOk (<[k := v]> s) end
  | WriteFlags_APPEND => if below_last k s then MdbxErr MdbxError_KeyMismatch else MdbxOk (<[k := v]> s)
  | _ => MdbxOk (<[k := v]> s)
  end.

#[global] Instance mem_simple : MdbxSimple.
Proof.
  refine {| Store := gmap bytes bytes; StoreCursor := Cursor bytes; entries := id; position := id;
    store_get := fun s k => s !! k; store_put := mem_put; store_del := fun s k => delete k s;
    store_prev := cursor_prev; store_next := cursor_next; store_set_range := fun s _ k => cursor_lower_bound s k |}.
  - done.
  - intros s k v. by exists (<[k := v]> s).
  - intros s k v. cbn. destruct (s !! k); [done|by exists (<[k := v]> s)].
  - intros s k v. unfold id, mem_put. destruct (below_last k s); [done|by exists (<[k := v]> s)].
  - done.
  - intros s c. by destruct (cursor_prev s c) eqn:He; cbn; rewrite He.
  - intros s c. by destruct (cursor_next s c) eqn:He; cbn; rewrite He.
  - intros s c k. by destruct (cursor_lower_bound s k) eqn:He; cbn; rewrite He.
Defined.

Abbreviation Pairs := (gmap (bytes * bytes) unit).

Definition mem_dup_put (s : Pairs) (c : Cursor (bytes * bytes)) (k d : bytes) (flags : WriteFlags) :
    MdbxResult Pairs * Cursor (bytes * bytes) :=
  let put := (MdbxOk (<[(k, d) := tt]> s), Cursor_At (k, d)) in
  match flags with
  | WriteFlags_NO_DUP_DATA => match s !! (k, d) with Some _ => (MdbxErr MdbxError_KeyExist, c) | None => put end
  | WriteFlags_APPEND_DUP =>
      match last_entry (fun e => bool_decide (e.1 = k)) s with
      | Some ((_, last_value), _) => if decide (bytes_lt last_value d) then put else (MdbxErr MdbxError_KeyMismatch, c)
      | None => put
      end
  | WriteFlags_APPEND_DUP_APPEND =>
      match last_entry (fun _ => true) s with
      | Some (last_pair, _) => if decide (key_lt last_pair (k, d)) then put else (MdbxErr MdbxError_KeyMismatch, c)
      | None => put
      end
  | _ => put
  end.

Definition mem_dup_del (s : Pairs) (c : Cursor (bytes * bytes)) : Pairs * Cursor (bytes * bytes) :=
  match c with Cursor_At e => (delete e s, c) | Cursor_End => (s, c) end.

(** A step without the unit value of the pairs. *)
Definition unpaired (r : Cursor (bytes * bytes) * option ((bytes * bytes) * unit)) :
    Cursor (bytes * bytes) * option (bytes * bytes) := (r.1, fst <$> r.2).

Definition dup_near (s : Pairs) (c : Cursor (bytes * bytes))
    (f : bytes -> bytes -> option ((bytes * bytes) * unit)) : Cursor (bytes * bytes) * option (bytes * bytes) :=
  match c with Cursor_At (k, d) => unpaired (cursor_result (f k d) c) | Cursor_End => (c, None) end.

Definition mem_both_range (s : Pairs) (c : Cursor (bytes * bytes)) (k d : bytes) :
    Cursor (bytes * bytes) * option bytes :=
  match first_entry (fun e => bool_decide (e.1 = k /\ ~ bytes_lt e.2 d)) s with
  | Some (e, _) => (Cursor_At e, Some e.2)
  | None => (c, None)
  end.

Lemma unpaired_pair r : ((unpaired r).1, pair_of (unpaired r).2) = r.
Proof. by destruct r as [c [[e []]|]]. Qed.

#[global] Instance mem_dup : MdbxDup.
Proof.
  refine {| DupStore := Pairs; DupCursor := Cursor (bytes * bytes); pairs := id; dup_position := id;
    dup_cursor := fun _ => Cursor_End; dup_put := mem_dup_put; dup_del := mem_dup_del;
    dup_prev := fun s c => unpaired (cursor_prev s c); dup_next := fun s c => unpaired (cursor_next s c);
    dup_last := fun s c => unpaired (cursor_result (last_entry (fun _ => true) s) c);
    dup_prev_dup := fun s c => dup_near s c (fun k d => last_entry (fun e => bool_decide (e.1 = k /\ bytes_lt e.2 d)) s);
    dup_next_dup := fun s c => dup_near s c (fun k d => first_entry (fun e => bool_decide (e.1 = k /\ bytes_lt d e.2)) s);
    dup_set_range := fun s c k => unpaired (cursor_result (first_entry (fun e => negb (bool_decide (bytes_lt e.1 k))) s) Cursor_End);
    dup_get_both_range := mem_both_range |}.
  all: unfold id.
  - intros s c k d. by exists (<[(k, d) := tt]> s), (Cursor_At (k, d)).
  - intros s c k d. unfold mem_dup_put. destruct (s !! (k, d)); [done|by exists (<[(k, d) := tt]> s), (Cursor_At (k, d))].
  - intros s c k d. unfold mem_dup_put. destruct (last_entry _ s) as [[[k1 d1] []]|]; [destruct (decide _); [|done]|];
      by exists (<[(k, d) := tt]> s), (Cursor_At (k, d)).
  - intros s c k d. unfold mem_dup_put. destruct (last_entry _ s) as [[e []]|]; [destruct (decide _); [|done]|];
      by exists (<[(k, d) := tt]> s), (Cursor_At (k, d)).
  - by intros s c e ->.
  - intros s c. apply unpaired_pair.
  - intros s c. apply unpaired_pair.
  - intros s c. destruct (last_entry _ s) as [[e []]|]; cbn; [|done]. split; [done|]. by intros e' [= ->].
  - intros s c k d ->. apply unpaired_pair.
  - intros s c k d ->. apply unpaired_pair.
  - intros s c k. apply unpaired_pair.
  - intros s c k d. unfold mem_both_range. by destruct (first_entry _ s) as [[e []]|].
Defined.

(** ** Keys in big-endian bytes *)

(** A key is written in [n] bytes, the most significant first. *)
Definition big_endian (ks : StorageSerde Z) (ok : Z -> Prop) (n : nat) : Prop :=
  forall k, ok k -> 0 <= k < 256 ^ Z.of_nat n /\ serialize_key ks k = DbOk (be_bytes n k).

Lemma big_endian_ordered ks ok n : big_endian ks ok n -> ordered_key ks ok.
Proof.
  intros Hb k1 k2 b1 b2 H1 H2 S1 S2 Hlt. destruct (Hb k1 H1) as [R1 E1]. destruct (Hb k2 H2) as [R2 E2].
  rewrite S1 in E1. rewrite S2 in E2. injection E1 as ->. injection E2 as ->. by apply be_bytes_lt.
Qed.

Lemma big_endian_width ks ok n : big_endian ks ok n -> fixed_width ks ok n.
Proof.
  intros Hb k b Hk Sk. destruct (Hb k Hk) as [_ E]. rewrite Sk in E. injection E as ->. apply be_bytes_length.
Qed.

Lemma lawful_readable {K} (ks : StorageSerde K) ok : lawful ks ok -> readable_key ks ok.
Proof.
  intros Hl k Hk. destruct (lawful_written _ _ _ Hl Hk) as (b & _ & Hw & Hr). exists b. cbn [value_serialize value_deserialize NoVersionValueWrapper] in Hw, Hr.
  unfold serialize_key. by rewrite Hw.
Qed.

Lemma BlockNumber_big_endian : big_endian serde_BlockNumber ok_BlockNumber 4.
Proof.
  intros k Hk. split; [exact Hk|]. unfold serialize_key. cbn [serialize_into serde_BlockNumber].
  destruct (Z.ltb_spec k (2 ^ 32)); [done|unfold ok_BlockNumber in Hk; lia].
Qed.

Definition ok_ContractAddress (k : Z) : Prop := 0 <= k < 2 ^ 251.

Lemma ContractAddress_big_endian : big_endian serde_PatriciaKey ok_ContractAddress 32.
Proof. intros k Hk. unfold ok_ContractAddress in Hk. split; [cbn; lia|done]. Qed.

Lemma ContractAddress_next : next_key_bound serde_PatriciaKey ok_ContractAddress.
Proof.
  apply (fixed_width_next _ _ 32); [exact lawful_PatriciaKey|by apply (big_endian_ordered _ _ 32), ContractAddress_big_endian|
    apply big_endian_width, ContractAddress_big_endian|].
  intros k b Hk Sk Hmax. destruct (ContractAddress_big_endian k Hk) as [_ E]. rewrite Sk in E. injection E as ->.
  clear Sk. apply Forall_inv in Hmax. unfold ok_ContractAddress in Hk. change (256 ^ Z.of_nat 31) with (2 ^ 248) in Hmax.
  change (2 ^ 251) with (2 ^ 248 * 8) in Hk. set (w := 2 ^ 248) in *. assert (Hw : 0 < w) by done. clearbody w.
  pose proof (Z.div_lt_upper_bound k w 8 Hw ltac:(lia)). pose proof (Z.div_pos k w ltac:(lia) Hw).
  rewrite Z.mod_small in Hmax; lia.
Qed.

(** ** The theorems on the store in memory *)

(** The table of the block numbers and, in it, two blocks. *)
Definition two_blocks : gmap Z Z := {[1 := 10; 2 := 20]}.

Definition two_blocks_store : @Store mem_simple :=
  {[ [0; 0; 0; 1] := [0; 0; 0; 10]; [0; 0; 0; 2] := [0; 0; 0; 20] ]} : gmap bytes bytes.

Lemma empty_simple_rel {K V} `{Countable K} (ks : StorageSerde K) (VS : ValueSerde V) okk okv :
  simple_rel (SM := mem_simple) ks VS okk okv ∅ ∅.
Proof.
  split; [by intros k v ?%lookup_empty_Some|]. intros k v. cbn. split; [by intros ?%lookup_empty_Some|].
  by intros (k1 & v1 & ?%lookup_empty_Some & _).
Qed.

Lemma BlockNumber_readable_value : readable_value (NoVersionValueWrapper serde_BlockNumber) ok_BlockNumber.
Proof. intros v Hv. destruct (lawful_written _ _ _ lawful_BlockNumber Hv) as (b & _ & Hw & Hr). by exists b. Qed.

Lemma two_blocks_rel :
  simple_rel serde_BlockNumber (NoVersionValueWrapper serde_BlockNumber) ok_BlockNumber ok_BlockNumber two_blocks_store two_blocks.
Proof.
  pose proof (lawful_readable _ _ lawful_BlockNumber) as Hk. pose proof BlockNumber_readable_value as Hv.
  destruct (simple_upsert_rel _ _ _ _ Hk Hv ∅ ∅ 2 20) as (s1 & E1 & R1); [apply empty_simple_rel|unfold ok_BlockNumber; lia..|].
  destruct (simple_upsert_rel _ _ _ _ Hk Hv s1 _ 1 10 R1) as (s2 & E2 & R2); [unfold ok_BlockNumber; lia..|].
  vm_compute in E1. injection E1 as <-. vm_compute in E2. injection E2 as <-. exact R2.
Qed.

Lemma simple_table_refines_witness :
  simple_get serde_BlockNumber (NoVersionValueWrapper serde_BlockNumber) two_blocks_store 2 = DbOk (Some 20) /\
  exists s, simple_append serde_BlockNumber (NoVersionValueWrapper serde_BlockNumber) two_blocks_store 2 30 = DbOk s /\
    simple_rel serde_BlockNumber (NoVersionValueWrapper serde_BlockNumber) ok_BlockNumber ok_BlockNumber s {[1 := 10; 2 := 30]}.
Proof.
  destruct (simple_table_refines serde_BlockNumber (NoVersionValueWrapper serde_BlockNumber) ok_BlockNumber ok_BlockNumber
    two_blocks_store two_blocks 2 30) as (Hget & _ & _ & _ & Hord).
  - exact (lawful_readable _ _ lawful_BlockNumber).
  - exact BlockNumber_readable_value.
  - exact two_blocks_rel.
  - unfold ok_BlockNumber; lia.
  - unfold ok_BlockNumber; lia.
  - split; [exact Hget|].
    destruct (Hord (big_endian_ordered _ _ 4 BlockNumber_big_endian)) as [(s & Hs & Hr) _].
    exists s. split; [exact Hs|exact Hr].
Defined.

(** The nonces of a contract after blocks 1 and 3. *)
Definition nonces_table : gmap (Z * Z) Z := {[(5, 1) := 7; (5, 3) := 8]}.

Definition stored_nonce (block nonce : Z) : bytes * bytes := (be_bytes 32 5, be_bytes 4 block ++ be_bytes 32 nonce).

Definition store_of (r : res (@DupStore mem_dup) DbError unit) : @DupStore mem_dup :=
  match r with Done s _ | Fail s _ => s | Panic => (∅ : gmap (bytes * bytes) unit) end.

Definition write_nonce (s : @DupStore mem_dup) (block nonce : Z) : @DupStore mem_dup :=
  store_of (prefix_upsert serde_PatriciaKey serde_BlockNumber serde_Nonce (5, block) nonce s).

Definition empty_dup_store : @DupStore mem_dup := (∅ : gmap (bytes * bytes) unit).

Definition nonces_store : @DupStore mem_dup := write_nonce (write_nonce empty_dup_store 3 8) 1 7.

Example nonces_store_pairs : pairs nonces_store = {[stored_nonce 1 7 := tt; stored_nonce 3 8 := tt]}.
Proof. apply (bool_decide_eq_true_1 _). vm_cast_no_check (eq_refl true). Qed.

Abbreviation nonces_rel :=
  (prefix_rel serde_PatriciaKey serde_BlockNumber serde_Nonce ok_ContractAddress ok_BlockNumber ok_Nonce).

Lemma empty_prefix_rel {A B V} `{Countable A, Countable B} (main : StorageSerde A) (sub : StorageSerde B) (vs : StorageSerde V)
    okm oks okv : prefix_rel (DM := mem_dup) main sub vs okm oks okv empty_dup_store ∅.
Proof.
  split; [by intros k v ?%lookup_empty_Some|]. intros k v. cbn. unfold empty_dup_store. split; [by intros ?%lookup_empty_Some|].
  by intros (k1 & v1 & ?%lookup_empty_Some & _).
Qed.

Lemma ContractAddress_readable : readable_key serde_PatriciaKey ok_ContractAddress.
Proof. exact (lawful_readable _ _ lawful_PatriciaKey). Qed.

Lemma ContractAddress_ordered : ordered_key serde_PatriciaKey ok_ContractAddress.
Proof. exact (big_endian_ordered _ _ _ ContractAddress_big_endian). Qed.

Lemma BlockNumber_ordered : ordered_key serde_BlockNumber ok_BlockNumber.
Proof. exact (big_endian_ordered _ _ _ BlockNumber_big_endian). Qed.

Lemma BlockNumber_width : fixed_width serde_BlockNumber ok_BlockNumber 4.
Proof. exact (big_endian_width _ _ _ BlockNumber_big_endian). Qed.

Lemma nonce_entry_ok a b v :
  0 <= a < 2 ^ 251 -> 0 <= b < 2 ^ 32 -> 0 <= v < 2 ^ 252 -> prefix_ok ok_ContractAddress ok_BlockNumber ok_Nonce ((a, b), v).
Proof. by intros Ha Hb Hv. Qed.

Lemma write_nonce_rel s m block nonce :
  nonces_rel s m -> 0 <= block < 2 ^ 32 -> 0 <= nonce < 2 ^ 252 ->
  nonces_rel (write_nonce s block nonce) (tbl_upsert m (5, block) nonce).
Proof.
  intros Hr Hb Hn. destruct (prefix_upsert_rel serde_PatriciaKey serde_BlockNumber serde_Nonce ok_ContractAddress ok_BlockNumber
    ok_Nonce 4 ContractAddress_readable ContractAddress_ordered lawful_BlockNumber BlockNumber_ordered BlockNumber_width lawful_Nonce
    s m Hr (5, block) nonce) as (s1 & E1 & R1); [by apply nonce_entry_ok|]. unfold write_nonce. by rewrite E1.
Qed.

Lemma nonces_store_rel : nonces_rel nonces_store nonces_table.
Proof. apply (write_nonce_rel _ {[(5, 3) := 8]}); [|lia..]. apply (write_nonce_rel _ ∅); [apply empty_prefix_rel|lia..]. Qed.

Lemma common_prefix_table_refines_witness :
  prefix_get serde_PatriciaKey serde_BlockNumber (NoVersionValueWrapper serde_Nonce) nonces_store (5, 3) = DbOk (Some 8) /\
  exists s, prefix_upsert serde_PatriciaKey serde_BlockNumber serde_Nonce (5, 3) 9 nonces_store = Done s tt /\
    nonces_rel s {[(5, 1) := 7; (5, 3) := 9]}.
Proof.
  destruct (common_prefix_table_refines serde_PatriciaKey serde_BlockNumber serde_Nonce ok_ContractAddress ok_BlockNumber
    ok_Nonce 4 nonces_store nonces_table (5, 3) 9 Cursor_End) as (Hget & (s & Hs & Hr) & _).
  - exact ContractAddress_readable.
  - exact ContractAddress_ordered.
  - exact ContractAddress_next.
  - exact lawful_BlockNumber.
  - exact BlockNumber_ordered.
  - exact BlockNumber_width.
  - exact lawful_Nonce.
  - exact nonces_store_rel.
  - cbn; unfold ok_ContractAddress; lia.
  - cbn; unfold ok_BlockNumber; lia.
  - cbn; lia.
  - split; [exact Hget|]. exists s. split; [exact Hs|exact Hr].
Defined.

(** A nonce whose first byte is not a zero. *)
Definition large_nonce : Z := 2 ^ 250.

Definition large_nonce_table : gmap (Z * Z) Z := {[(5, 1) := large_nonce]}.

Definition large_nonce_store : @DupStore mem_dup := write_nonce empty_dup_store 1 large_nonce.

Lemma large_nonce_rel : nonces_rel large_nonce_store large_nonce_table.
Proof. apply (write_nonce_rel _ ∅); [apply empty_prefix_rel|by vm_compute..]. Qed.

Lemma versioned_common_prefix_get_fails_witness :
  prefix_get serde_PatriciaKey serde_BlockNumber (VersionZeroWrapper serde_Nonce) large_nonce_store (5, 1) =
    DbErr DbError_InnerDeserialization.
Proof.
  apply (versioned_common_prefix_get_fails serde_PatriciaKey serde_BlockNumber serde_Nonce ok_ContractAddress ok_BlockNumber
    ok_Nonce 4 large_nonce_store large_nonce_table (5, 1) large_nonce (be_bytes 32 large_nonce)).
  - exact ContractAddress_readable.
  - exact ContractAddress_ordered.
  - exact lawful_BlockNumber.
  - exact BlockNumber_ordered.
  - exact BlockNumber_width.
  - exact lawful_Nonce.
  - exact large_nonce_rel.
  - by vm_compute.
  - by vm_compute.
  - by vm_compute.
Defined.

(** The search for the next main key: after a main key of bytes 255 it asks for a
    key with one byte more, which is below the main key itself. *)
Example next_main_key_of_max : bytes_lt (next_main_key [255; 255]) [255; 255].
Proof. by vm_compute; left. Qed.
