(* ===== verification/P2pWitnesses.v ===== *)
(** * The peer-to-peer synchronisation on concrete storages

    A node with two blocks and a client that starts empty: the theorems applied to
    them, and runs that show behaviour a reader of the code may not expect. *)

From stdpp Require Import base gmap list strings fin_maps relations.
From Stdlib Require Import ZArith Lia.
From S2P Require Import Prelude StorageTables StarknetTypes StorageTxn Header State StateProps P2pServer P2pClient P2pDiffProps.
From S2P Require Import P2pProps P2pHonest P2pTheorems StorageWitnesses.

#[global] Instance demo_diff_len : ThinStateDiffApi := {|
  thin_state_diff_len := change_count;
  thin_state_diff_len_spec := fun _ => eq_refl
|}.

Lemma demo_diff_fits t d : diff_fits t d.
Proof. split; [exact I|by eexists]. Qed.

Lemma demo_file_takes f ds : file_takes f ds.
Proof. revert f; induction ds as [|d ds IH]; intros f; [exact I|]. split; [exact I|]. do 2 eexists. split; [reflexivity|apply IH]. Qed.

(** ** The peer *)

Definition header_with_length (n hash : Z) (len : option Z) : BlockHeader :=
  mkBlockHeader hash (hash - 1) n (mkGasPricePerToken 1 2) (mkGasPricePerToken 3 4) 5 6 7
    L1DataAvailabilityMode_Blob None None None None len 0 0 [48; 46; 49; 51].

Definition demo_signature : Signature := mkSignature 1 2.

(** The first block deploys contract 1 and writes its nonce, the second replaces its
    class. *)
Definition block0 : BlockHeader := header_with_length 0 100 None.
Definition block1 : BlockHeader := header_with_length 1 101 (Some 1).
Definition replace_diff : ThinStateDiff := mkThinStateDiff [] [] [] [] [] [(1, 70)].

Definition store_header (h : BlockHeader) (t : StorageTxn) : StorageTxn :=
  after (append_header (BlockHeader_block_number h) h ;! append_block_signature (BlockHeader_block_number h) demo_signature) t.

Definition store_diff (n : Z) (d : ThinStateDiff) (t : StorageTxn) : StorageTxn := after (append_state_diff n d) t.

Definition peer_storage : StorageTxn :=
  store_diff 1 replace_diff (store_diff 0 demo_diff0 (store_header block1 (store_header block0 demo0))).

Definition peer_headers : SignedChain := [(block0, demo_signature); (block1, demo_signature)].
Definition peer_diffs : list ThinStateDiff := [demo_diff0; replace_diff].

Lemma store_header_ok t l ds h :
  header_rel t l -> NoDup (hash_of <$> l) -> state_rel t ds -> zlength l < 2 ^ 32 -> BlockHeader_block_number h = zlength l ->
  BlockHeader_block_hash h ∉ (hash_of <$> l) ->
  header_rel (store_header h t) (l ++ [(h, Some demo_signature)]) /\ NoDup (hash_of <$> (l ++ [(h, Some demo_signature)])) /\
  state_rel (store_header h t) ds.
Proof.
  intros Hr Hnd Hs Hlt Hb Hh. unfold store_header, after.
  destruct (append_signed_header_outcome t l h demo_signature Hr Hnd Hlt Hb) as [(_ & t' & Hw & Hr' & Hnd' & Hf)|(Hin & _)]; [|done].
  rewrite Hw. split_and!; [done|done|by eapply state_rel_header_frame].
Qed.

Lemma store_diff_ok t l ds d :
  header_rel t l -> state_rel t ds -> diff_ok d -> zlength ds < 2 ^ 32 - 1 -> ThinStateDiff_declared_classes d = [] ->
  header_rel (store_diff (zlength ds) d t) l /\ state_rel (store_diff (zlength ds) d t) (ds ++ [d]).
Proof.
  intros Hr Hs Hok Hlt Hdec. unfold store_diff, after.
  destruct (append_state_diff_outcome t l ds d Hs Hr Hok I ltac:(by eexists) Hlt) as [(t' & Hw & Hs' & Hr' & _)|(Hno & _)].
  - by rewrite Hw.
  - destruct Hno. rewrite Hdec. by intros h ?%elem_of_nil.
Qed.

Lemma replace_diff_ok : diff_ok replace_diff.
Proof. split; [solve_NoDup..| |]; [|solve_NoDup]. set_solver. Qed.

Lemma header_rel_demo0 : header_rel demo0 [].
Proof. by apply header_rel_empty. Qed.

Lemma peer_chain_demo : peer_chain peer_storage peer_headers peer_diffs.
Proof.
  destruct (store_header_ok demo0 [] [] block0) as (H1 & N1 & S1); [exact header_rel_demo0|constructor|exact state_rel_demo0|done|done|set_solver|].
  destruct (store_header_ok _ _ _ block1 H1 N1 S1) as (H2 & N2 & S2); [done|done|solve_NoDup|].
  destruct (store_diff_ok _ _ _ demo_diff0 H2 S2 demo_diff0_ok) as (H3 & S3); [done|done|].
  destruct (store_diff_ok _ _ _ replace_diff H3 S3 replace_diff_ok) as (H4 & S4); [done|done|].
  split.
  - exact H4.
  - exact N2.
  - exact S4.
  - done.
  - done.
  - intros b x Hl. pose proof (lookup_z_Some _ _ _ Hl) as Hb. change (zlength peer_headers) with 2 in Hb.
    assert (b = 0 \/ b = 1) as [-> | ->] by lia; injection Hl as <-; done.
  - constructor; [|constructor; [|constructor]]; (split; [exact demo_diff0_ok || exact replace_diff_ok|]); (split; [|constructor]).
    + constructor; [done|constructor].
    + constructor.
  - intros b x d Hl Hd. pose proof (lookup_z_Some _ _ _ Hl) as Hb. change (zlength peer_headers) with 2 in Hb.
    assert (b = 0 \/ b = 1) as [-> | ->] by lia; injection Hl as <-; injection Hd as <-; [by left|by right].
Qed.

(** ** The client *)

Definition demo_config (stop : option Z) : P2PSyncClientConfig := mkP2PSyncClientConfig 10 10 5 100 stop.

(** One step of a stream of a running client. *)
Definition do_headers (stop : option Z) (s : ClientState) : ClientState :=
  match s with Client_Running c => headers_step (demo_config stop) (peer peer_storage) c | _ => s end.
Definition do_diffs (stop : option Z) (s : ClientState) : ClientState :=
  match s with Client_Running c => state_diffs_step (demo_config stop) (peer peer_storage) c | _ => s end.

Definition running (s : ClientState) : bool := match s with Client_Running _ => true | _ => false end.

Lemma do_headers_peer stop s : running s = true -> peer_step (demo_config stop) peer_storage s (do_headers stop s).
Proof. destruct s; [|done..]. intros _. constructor. Qed.

Definition headers_of (s : ClientState) : Z :=
  match s with Client_Running c => marker MarkerKind_Header (client_storage c) | _ => -1 end.

Lemma do_headers_with_room stop s :
  running s = true -> bool_decide (headers_of s < 100) = true -> step_with_room (demo_config stop) s (do_headers stop s).
Proof.
  destruct s as [c| |]; [|done..]. intros _ Hn%bool_decide_eq_true. split; [constructor|]. split; [cbn in Hn; lia|].
  intros n end_ rs rest d _ _. apply demo_diff_fits.
Qed.

(** After the start, the query and the first header. *)
Definition one_header : ClientState := Nat.iter 3 (do_headers None) (new_client demo0).

Example one_header_stored : headers_of one_header = 1.
Proof. vm_cast_no_check (eq_refl 1). Qed.

Lemma demo_empty_synced : synced demo0 [] [].
Proof. split; [exact header_rel_demo0|constructor|exact state_rel_demo0|done]. Qed.

Lemma client_keeps_storage_witness :
  match one_header with
  | Client_Running c => exists l ds,
      synced (client_storage c) l ds /\ [] `prefix_of` l /\ [] `prefix_of` ds /\ lengths_match 0 l ds
  | Client_Failed _ => True
  | Client_Panicked => is_Some (None : option Z)
  end.
Proof.
  apply (client_keeps_storage (demo_config None) demo0 [] [] one_header).
  - vm_compute. discriminate.
  - exact demo_empty_synced.
  - eapply rtc_l; [apply (do_headers_with_room None (new_client demo0)); vm_compute; reflexivity|].
    eapply rtc_l; [apply (do_headers_with_room None (do_headers None (new_client demo0))); vm_compute; reflexivity|].
    eapply rtc_l; [apply (do_headers_with_room None (do_headers None (do_headers None (new_client demo0)))); vm_compute; reflexivity|].
    apply rtc_refl.
Defined.


Definition length_storage : StorageTxn := store_header (header_with_length 0 100 (Some (change_count demo_diff0))) demo0.

Lemma length_storage_rel : header_rel length_storage [(header_with_length 0 100 (Some (change_count demo_diff0)), Some demo_signature)].
Proof.
  destruct (store_header_ok demo0 [] [] (header_with_length 0 100 (Some (change_count demo_diff0)))) as (H1 & _);
    [exact header_rel_demo0|constructor|exact state_rel_demo0|done|done|set_solver|exact H1].
Qed.


(** The state diffs of the blocks 1 and 0, asked for by the hash of block 1. *)
Definition backward_query : Query := mkQuery (BlockHashOrNumber_Hash 101) Direction_Backward 5 1.

Lemma server_answers_query_witness :
  exists datas : list (list StateDiffChunk), zlength datas <= 5 /\
    (forall i data, lookup_z datas i = Some data ->
      is_u64 (query_block backward_query 1 i) /\ exists txn', fetch_block_data_from_db (query_block backward_query 1 i) peer_storage = Done txn' data) /\
    sent_by (send_data_for_query peer_storage backward_query (mkSender [] None)) = (Some <$> concat datas) ++ [None].
Proof.
  destruct (proj1 (server_answers_query (FD := fetch_StateDiffChunk) peer_storage _ backward_query (pc_headers _ _ _ peer_chain_demo)
    ltac:(cbn; lia) ltac:(cbn; lia) ltac:(cbn; lia)
    (fun b => fetch_diffs_no_panic peer_storage peer_diffs b (sr_diffs _ _ (pc_state _ _ _ peer_chain_demo)))) 1 eq_refl)
    as (datas & Hl & Hr & Hs & _).
  exists datas. split; [exact Hl|]. split; [exact Hr|exact Hs].
Defined.

(** ** Runs *)

(** A client that synchronises both blocks. *)
Definition synced_client : ClientState :=
  Nat.iter 5 (do_diffs None) (Nat.iter 4 (do_headers None) (new_client demo0)).

Definition nonce_of (t : StorageTxn) : option (option Z) :=
  match get_nonce_at (before_block 2) 1 t with Done _ nonce => Some nonce | _ => None end.

(** The nonce of a contract whose class was replaced is zero in the storage of the
    client, because the replaced class arrives as a deployed contract. *)
Example replaced_class_resets_nonce :
  nonce_of peer_storage = Some (Some 1) /\
  match synced_client with Client_Running c => nonce_of (client_storage c) | _ => None end = Some (Some 0).
Proof. split; vm_compute; reflexivity. Qed.

(** At the configured block both streams end, and the loop panics. *)
Example stop_block_panics :
  exists c, Nat.iter 4 (do_diffs (Some 1)) (Nat.iter 3 (do_headers (Some 1)) (new_client demo0)) = Client_Running c /\
    client_step (demo_config (Some 1)) (Client_Running c) Client_Panicked.
Proof.
  eexists (mkP2PSyncClient _ Stream_Ended Stream_Ended). split; [vm_compute; reflexivity|]. constructor.
Qed.

(** A part for a contract without changed cells is refused. *)
Example empty_storage_diff_refused :
  receive_state_diff 0 [] default_ThinStateDiff 0 0 = Done [] (Some default_ThinStateDiff) /\
  receive_state_diff 1 ((fun c => Response_Message (Some c)) <$> split_thin_state_diff (mkThinStateDiff [] [(1, [])] [] [7] [] []))
    default_ThinStateDiff 0 0 = Fail [Response_Message (Some (StateDiffChunk_DeprecatedDeclaredClass (mkDeprecatedDeclaredClass 7)))]
      P2PSyncError_EmptyStateDiffPart.
Proof. split; vm_compute; reflexivity. Qed.

(** The product of the step and the counter wraps: the third block of this query is
    its first one again. *)
Example step_product_wraps :
  calculate_block_number (mkQuery (BlockHashOrNumber_Number 7) Direction_Forward 3 (2 ^ 63)) 7 2 = inl 7.
Proof. reflexivity. Qed.
