(* ===== verification/SyncWitnesses.v ===== *)
(** * The feeder synchronisation on concrete inputs

    A node that starts empty and a gateway with a few blocks: the theorems of
    [SyncTheorems.v], [PendingProps.v] and [CentralTheorems.v] applied to them, and
    runs that show behaviour a reader of the code may not expect. *)

From stdpp Require Import base gmap list strings fin_maps relations.
From Stdlib Require Import ZArith Lia.
From S2P Require Import Prelude StorageTables StarknetTypes StorageTxn Header Body BodyProps State StateProps StateTheorems.
From S2P Require Import ClientObjects PendingSync Sync SyncProps SyncTheorems CentralSource CentralTheorems StorageWitnesses.

(** ** Instances *)

#[global] Instance demo_state_diffs : StateDiffApi.
Proof.
  refine {| from_state_diff d :=
    (mkThinStateDiff (StateDiff_deployed_contracts d) (StateDiff_storage_diffs d) (prod_map id fst <$> StateDiff_declared_classes d)
       (StateDiff_deprecated_declared_classes d).*1 (StateDiff_nonces d) (StateDiff_replaced_classes d),
     prod_map id snd <$> StateDiff_declared_classes d, StateDiff_deprecated_declared_classes d) |}.
  done.
Defined.

(** The range of the times of [chrono]. *)
#[global] Instance demo_times : ChronoApi := {|
  timestamp_opt_single secs := (-8334601228800 <=? secs) && (secs <=? 8210266876799)
|}.

#[global] Instance demo_ranges : BlockRangeApi (SN := demo_state_numbers) := {|
  iter_up_to from up_to := seqZ from (up_to - from);
  unchecked_right_after_block b := b + 1;
  iter_up_to_spec _ _ _ := eq_refl;
  unchecked_right_after_block_spec _ _ := eq_refl
|}.

(** A cache of the two most recent entries. *)
Section Lru.
Context {V : Type}.

Definition demo_lru_put (k : Z) (v : V) (c : list (Z * V)) : list (Z * V) := take 2 ((k, v) :: filter (fun e => e.1 <> k) c).

Definition demo_lru_get (k : Z) (c : list (Z * V)) : option V * list (Z * V) :=
  match list_find (fun e => e.1 = k) c with
  | Some (_, (_, v)) => (Some v, demo_lru_put k v c)
  | None => (None, c)
  end.

Lemma demo_lru_put_holds k v c k' v' : (k', v') ∈ demo_lru_put k v c -> k' = k /\ v' = v \/ (k', v') ∈ c.
Proof.
  intros Hin%subseteq_take. apply elem_of_cons in Hin as [[= -> ->]|Hin]; [by left|]. right. apply list_elem_of_filter in Hin. tauto.
Qed.

Lemma demo_lru_find k c i (e : Z * V) : list_find (fun e => e.1 = k) c = Some (i, e) -> e = (k, e.2) /\ (k, e.2) ∈ c.
Proof.
  intros (Hl & He & _)%list_find_Some. destruct e as [k' v']. cbn in *. subst k'. split; [done|]. by eapply list_elem_of_lookup_2.
Qed.

Lemma demo_lru_get_holds k c v c' : demo_lru_get k c = (Some v, c') -> (k, v) ∈ c.
Proof.
  unfold demo_lru_get. destruct (list_find _ c) as [[i [k' v']]|] eqn:Hf; [|done]. intros [= <- _].
  by apply demo_lru_find in Hf as [_ Hin].
Qed.

Lemma demo_lru_get_keeps k c r c' k' v : demo_lru_get k c = (r, c') -> (k', v) ∈ c' -> (k', v) ∈ c.
Proof.
  unfold demo_lru_get. destruct (list_find _ c) as [[i [k1 v1]]|] eqn:Hf; [|by intros [= _ <-]]. intros [= _ <-] Hin.
  apply demo_lru_find in Hf as [_ Hin1]. by destruct (demo_lru_put_holds _ _ _ _ _ Hin) as [[-> ->]|?].
Qed.

#[global] Instance demo_lru : LruApi V := {|
  LruCache := list (Z * V);
  lru_get := demo_lru_get;
  lru_put := demo_lru_put;
  lru_holds c k v := (k, v) ∈ c;
  lru_get_holds := demo_lru_get_holds;
  lru_get_keeps := demo_lru_get_keeps;
  lru_put_holds := demo_lru_put_holds
|}.
End Lru.

(** ** Blocks *)

Definition chain_header (n hash parent : Z) : BlockHeader :=
  mkBlockHeader hash parent n (mkGasPricePerToken 1 2) (mkGasPricePerToken 3 4) 5 6 7
    L1DataAvailabilityMode_Blob None None None None None 1 0 [48; 46; 49; 51].

Definition demo_block (n hash parent : Z) : Block := mkBlock (chain_header n hash parent) (demo_body (1000 + hash)).
Definition demo_sig : Signature := mkSignature 1 2.

Lemma sync_rel_demo0 : sync_rel demo0 [] [] [].
Proof.
  split; [by apply header_rel_empty|constructor| |constructor|exact demo_body_storable|constructor|done|exact state_rel_demo0|
    constructor|done|exact class_rel_demo0|done|done].
  intros b x y Hx. apply lookup_z_Some in Hx. unfold zlength in Hx. cbn in Hx. lia.
Qed.

Definition after_store {A} (m : Store A) (t : StorageTxn) : StorageTxn :=
  match m t with Done t' _ => t' | Fail t' _ => t' | Panic => t end.

(** A node with the blocks 100 and 101, whose source has 102 in the place of 101. *)
Definition two_blocks : StorageTxn :=
  after_store (store_block 1 (demo_block 1 101 100) demo_sig) (after_store (store_block 0 (demo_block 0 100 0) demo_sig) demo0).

Definition two_headers : HeaderChain := [(chain_header 0 100 0, Some demo_sig); (chain_header 1 101 100, Some demo_sig)].
Definition two_bodies : BodyChain := [body_items (demo_body 1100); body_items (demo_body 1101)].
Definition central_chain : HeaderChain :=
  [(chain_header 0 100 0, Some demo_sig); (chain_header 1 102 100, Some demo_sig); (chain_header 2 103 102, None)].

Lemma store_demo_block t l bs ds n hash parent :
  sync_rel t l bs ds -> zlength l = n -> n < 10 ->
  (forall t' e, store_block n (demo_block n hash parent) demo_sig t <> Fail t' e) ->
  sync_rel (after_store (store_block n (demo_block n hash parent) demo_sig) t)
    (l ++ [(chain_header n hash parent, Some demo_sig)]) (bs ++ [body_items (demo_body (1000 + hash))]) ds.
Proof.
  intros Hs <- Hlt Hno. unfold after_store.
  pose proof (store_block_stores t l bs ds (demo_block (zlength l) hash parent) demo_sig Hs ltac:(lia) (demo_body_well_formed _)
    (demo_body_has_room _ _) eq_refl) as Hst.
  destruct (store_block _ _ _ _) as [t' []|t' e|]; [exact Hst|by destruct (Hno t' e)|done].
Qed.

Lemma two_blocks_stored : sync_rel two_blocks two_headers two_bodies [].
Proof.
  unfold two_blocks. apply (store_demo_block _ [(chain_header 0 100 0, Some demo_sig)] [body_items (demo_body 1100)]); [|done|lia|by vm_compute].
  apply (store_demo_block _ [] []); [exact sync_rel_demo0|done|lia|by vm_compute].
Qed.

Lemma central_chain_linked : linked central_chain.
Proof.
  intros b x y Hx Hy. apply lookup_z_Some in Hx as Hb. unfold zlength in Hb. cbn in Hb.
  assert (b = 0 \/ b = 1 \/ b = 2) as [-> | [-> | ->]] by lia; vm_compute in Hx, Hy; (discriminate || (injection Hx as <-; injection Hy as <-; reflexivity)).
Qed.

Lemma reverts_to_common_chain_witness :
  exists t' n, handle_block_reverts (fun b => inl (hash_of <$> lookup_z central_chain b)) two_blocks = Done t' tt /\
    sync_rel t' (take n two_headers) (take n two_bodies) (take n []) /\
    (hash_of <$> take n two_headers) `prefix_of` (hash_of <$> central_chain) /\
    (forall k, k `prefix_of` (hash_of <$> two_headers) -> k `prefix_of` (hash_of <$> central_chain) ->
       k `prefix_of` (hash_of <$> take n two_headers)).
Proof.
  apply (reverts_to_common_chain two_blocks two_headers two_bodies [] central_chain).
  - exact two_blocks_stored.
  - vm_compute. reflexivity.
  - exact central_chain_linked.
  - intros x y Hx Hy. unfold two_headers, central_chain in *. repeat (rewrite elem_of_cons in Hx || rewrite elem_of_cons in Hy); rewrite elem_of_nil in Hx; rewrite elem_of_nil in Hy.
    destruct Hx as [-> | [-> | []]], Hy as [-> | [-> | [-> | []]]]; vm_compute; (discriminate || reflexivity || done).
Defined.

(** The revert removes block 101 with its body. *)
Example revert_removes_block :
  match handle_block_reverts (fun b => inl (hash_of <$> lookup_z central_chain b)) two_blocks with
  | Done t _ => (marker MarkerKind_Header t, marker MarkerKind_Body t)
  | _ => (-1, -1)
  end = (1, 1).
Proof. vm_compute. reflexivity. Qed.

(** ** A run of the node *)

#[local] Existing Instance sound_central.

Definition no_pending_block (parent : Z) : PendingBlockOrDeprecated := PendingBlockOrDeprecated_Deprecated
  (mkDeprecatedPendingBlock None parent ClientBlockStatus_Pending 1 2 [] 7 6 [] [48]).

Definition demo_pending (parent : Z) (diff : ClientStateDiff) : PendingData :=
  mkPendingData (no_pending_block parent) (mkPendingStateUpdate 0 diff).

Definition empty_client_diff : ClientStateDiff := mkClientStateDiff [] [] [] [] [] [].

Definition demo_shared : PendingShared := mkPendingShared (demo_pending 0 empty_client_diff) default_PendingClasses.
Definition demo_node : GenericStateSync := mkGenericStateSync demo0 None demo_shared None.

Definition node_of (s : SyncState) : GenericStateSync :=
  match s with Sync_Starting n | Sync_Running n _ | Sync_Ended n _ => n | Sync_Panicked => demo_node end.
Definition streams_of (s : SyncState) : SyncStreams := match s with Sync_Running _ st => st | _ => new_streams end.
Definition is_running (s : SyncState) : bool := match s with Sync_Running _ _ => true | _ => false end.

Lemma running_eq s : is_running s = true -> s = Sync_Running (node_of s) (streams_of s).
Proof. by destruct s. Qed.

Lemma running_consistent (P : Prop) s :
  is_running s = true ->
  match s with
  | Sync_Starting n' | Sync_Running n' _ => consistent n'
  | Sync_Ended n' e => consistent n' /\ exists old new, e = StateSyncError_SequencerPubKeyChanged old new
  | Sync_Panicked => P
  end -> consistent (node_of s).
Proof. by destruct s. Qed.

(** The gateway has the blocks 100 and 101. *)
Definition demo_items : list (CentralBlock + CentralError) :=
  [inl (0, demo_block 0 100 0, demo_sig); inl (1, demo_block 1 101 100, demo_sig)].

Definition demo_download (from up_to : Z) : list (CentralBlock + CentralError) :=
  if (from =? 0) && (2 <=? up_to) then demo_items else [].

Lemma demo_download_in_order from up_to : 0 <= from -> blocks_in_order from up_to (demo_download from up_to).
Proof.
  intros H0. unfold demo_download. destruct (Z.eqb_spec from 0) as [->|], (Z.leb_spec 2 up_to); cbn [andb]; try exact I.
  unfold demo_items. cbn [blocks_in_order]. split_and!; try lia; try done; split; try (exact (demo_body_well_formed _)); reflexivity.
Qed.

(** The state after the start, after the request for the blocks, after each block. *)
Definition run1 : SyncState :=
  continue_with (start_sync default_SyncConfig (inl 5) (fun _ => inl None) demo_node) (fun n _ => Sync_Running n new_streams).
Definition run2 : SyncState :=
  continue_with (blocks_iteration default_SyncConfig (inl (Some (mkBlockHashAndNumber 101 1))) demo_download (node_of run1))
    (fun n st => Sync_Running n (set_block_stream st (streams_of run1))).
Definition run3 : SyncState :=
  continue_with (process (next_block demo_items) (node_of run2)) (fun n st => Sync_Running n (set_block_stream st (streams_of run2))).
Definition run4 : SyncState :=
  continue_with (process (next_block (drop 1 demo_items)) (node_of run3)) (fun n st => Sync_Running n (set_block_stream st (streams_of run3))).

Lemma demo_capacity s items :
  is_running s = true -> marker MarkerKind_Header (sync_storage (node_of s)) < 100 ->
  (streams_of s) = set_block_stream items new_streams ->
  (forall b block signature rest, items = Blocks_Download (inl (b, block, signature) :: rest) -> exists h, Block_body block = demo_body h) ->
  room_for_next s.
Proof.
  intros Hr Hm Hs Hi. rewrite (running_eq s Hr). cbn. rewrite Hs. split; [lia| |by intros * [=]|by intros * [=]].
  intros b block signature rest Hb. cbn in Hb. destruct (Hi _ _ _ _ Hb) as [h ->]. apply demo_body_has_room.
Qed.

Lemma demo_run : rtc (sync_step_with_room default_SyncConfig) (Sync_Starting demo_node) run4.
Proof.
  assert (R1 : is_running run1 = true) by (by vm_compute). assert (R2 : is_running run2 = true) by (by vm_compute).
  assert (R3 : is_running run3 = true) by (by vm_compute).
  eapply rtc_l; [split; [by vm_compute|apply (sync_step_start default_SyncConfig demo_node (inl 5) (fun _ => inl None))]|]. fold run1.
  eapply rtc_l; [split; [apply (demo_capacity run1 Blocks_Loop); [done|by vm_compute|by vm_compute|done]|]|].
  { rewrite (running_eq run1 R1). apply (sync_step_blocks _ _ _ (inl (Some (mkBlockHashAndNumber 101 1))) demo_download);
      [by vm_compute|intros; by apply demo_download_in_order]. }
  fold run2. eapply rtc_l; [split; [apply (demo_capacity run2 (Blocks_Download demo_items)); [done|by vm_compute|by vm_compute|]|]|].
  { intros b block signature rest [= <- <- <- <-]. by eexists. }
  { rewrite (running_eq run2 R2). apply (sync_step_block _ _ _ demo_items). by vm_compute. }
  fold run3. eapply rtc_l; [split; [apply (demo_capacity run3 (Blocks_Download (drop 1 demo_items))); [done|by vm_compute|by vm_compute|]|]|].
  { intros b block signature rest [= <- <- <- <-]. by eexists. }
  { rewrite (running_eq run3 R3). apply (sync_step_block _ _ _ (drop 1 demo_items)). by vm_compute. }
  fold run4. apply rtc_refl.
Qed.


(** ** The pending data *)

(** The pending block declares the classes 7, compiled to 8, and the deprecated 9. *)
Definition declaring_diff : ClientStateDiff := mkClientStateDiff [] [] [mkDeclaredClassHashEntry 7 8] [9] [] [].

Definition demo_compiled_of (h c : Z) : Prop := c = h + 1.

Definition pending1 : PendingState :=
  handle_task_result (without_task (start_pending_loop 100) [] [])
    (get_pending_data 100 (inl (demo_pending 100 declaring_diff)) demo_shared).

Lemma pending_data_complete_witness :
  match pending1 with
  | Pending_Running shared l =>
      Task_PendingData ∈ loop_tasks l /\
      (shared_pending_data shared = shared_pending_data demo_shared \/
       pending_parent_hash (shared_pending_data shared) = 100 /\
       (pending_parent_hash (shared_pending_data demo_shared) = 100 ->
        num_pending_transactions (shared_pending_data demo_shared) < num_pending_transactions (shared_pending_data shared)) /\
       (forall h, h ∈ declared_hashes (diff_of (shared_pending_data shared)) -> class_coming shared (loop_tasks l) h) /\
       (forall e, e ∈ ClientStateDiff_declared_classes (diff_of (shared_pending_data shared)) ->
          compiled_class_coming shared (loop_tasks l) (DeclaredClassHashEntry_class_hash e)))
  | _ => False
  end.
Proof.
  apply (pending_data_complete demo_compiled_of 100 demo_shared pending1).
  - unfold demo_compiled_of. lia.
  - apply rtc_once. unfold pending1. apply (pending_step_data _ demo_shared (start_pending_loop 100) [] []); [reflexivity|].
    intros data [= <-]. apply Forall_singleton. reflexivity.
Defined.

(** ** The streams of the central source *)

Definition client_block (n hash parent : Z) : ClientBlock :=
  mkClientBlock hash n parent 6 5 ClientBlockStatus_AcceptedOnL2 7 [] [] [48] L1DataAvailabilityMode_Blob
    (mkGasPricePerToken 1 2) (mkGasPricePerToken 3 4) 0 0 None None None.

(** The gateway has the blocks 0 and 1. *)
Definition demo_client (bn : Z) : ClientResult (option ClientBlock * option BlockSignatureData) :=
  if (0 <=? bn) && (bn <=? 1) then inl (Some (client_block bn (100 + bn) (99 + bn)), Some (BlockSignatureData_V0_13_2 100 (1, 2)))
  else inl (None, None).

Lemma new_blocks_in_order_witness :
  exists items, stream_new_blocks demo_client 0 2 = Some items /\
    blocks_in_order 0 2 items /\
    (forall x, inl x ∈ items -> block_item demo_client x) /\
    ((forall e, inr e ∉ items) -> zlength items = Z.max 0 (2 - 0)).
Proof.
  apply (new_blocks_in_order demo_client 0 2). lia.
Defined.

(** Block 0 declares the class 7, block 1 deploys a contract of the deprecated class 9. *)
Definition demo_update (b : Z) : StateUpdate :=
  mkStateUpdate (100 + b) 0 0
    (if b =? 0 then mkClientStateDiff [(1, [mkStorageEntry 10 11])] [] [mkDeclaredClassHashEntry 7 8] [] [] []
     else mkClientStateDiff [] [mkDeployedContract 2 9] [] [] [] []).

Definition demo_deprecated : DeprecatedContractClass := mkDeprecatedContractClass None (mkProgram tt tt tt tt tt tt tt tt tt tt) ∅.

Definition demo_class_at (h : Z) : ApiContractClass :=
  if h =? 7 then ApiContractClass_ContractClass demo_class else ApiContractClass_DeprecatedContractClass demo_deprecated.

Definition small_queues : StateUpdateStreamConfig := mkStateUpdateStreamConfig 1 1 1.

(** Every front task is ready at every poll. *)
Definition poll_ready (st : UpdateStreamState) : UpdateStreamState :=
  match st with
  | Su_Running s yielded =>
      after_poll yielded (poll_iteration small_queues
        ((fun h => inl (Some (demo_class_at h))) <$> head (class_tasks_polled small_queues s))
        ((fun b => inl (Some (demo_update b))) <$> head (update_tasks_polled small_queues s)) s)
  | _ => st
  end.

Lemma poll_ready_step st :
  (exists s y, st = Su_Running s y) -> update_stream_step small_queues demo_update demo_class_at st (poll_ready st).
Proof.
  intros (s & y & ->). apply update_stream_poll.
  - intros c Hc h Hh. rewrite Hh in Hc. by injection Hc as <-.
  - intros u Hu b Hb. rewrite Hb in Hu. by injection Hu as <-.
Qed.

Lemma poll_ready_run n st : rtc (update_stream_step small_queues demo_update demo_class_at) st (Nat.iter n poll_ready st).
Proof.
  induction n as [|n IH]; [apply rtc_refl|]. change (Nat.iter (S n) poll_ready st) with (poll_ready (Nat.iter n poll_ready st)).
  destruct (Nat.iter n poll_ready st) as [s y|y|y e|]; try exact IH.
  eapply rtc_r; [exact IH|]. apply poll_ready_step. eauto.
Qed.

Definition polled_out : UpdateStreamState := Nat.iter 12 poll_ready (Su_Running (new_state_update_stream 0 2) []).

Lemma demo_update_ok b : 0 <= b < 2 -> update_ok demo_class_at (StateUpdate_state_diff (demo_update b)).
Proof.
  intros Hb. assert (b = 0 \/ b = 1) as [-> | ->] by lia; split; cbn; try solve_NoDup; try (repeat constructor; by eexists); set_solver.
Qed.

Definition polled_items : list CentralStateUpdate := match polled_out with Su_Exhausted yielded => yielded | _ => [] end.

Lemma polled_all : polled_out = Su_Exhausted polled_items.
Proof. vm_compute. reflexivity. Qed.

Lemma state_updates_in_order_witness :
  Forall2 (delivered demo_update demo_class_at) (seqZ 0 (Z.max 0 (2 - 0))) polled_items /\
  (forall items, Some (inl <$> polled_items) = Some items -> diffs_in_order 0 2 items).
Proof.
  apply (state_updates_in_order small_queues demo_update demo_class_at 0 2 (Su_Exhausted polled_items)); [lia|lia|reflexivity|reflexivity| |].
  - exact demo_update_ok.
  - rewrite <-polled_all. exact (poll_ready_run 12 _).
Defined.

(** ** Behaviour worth knowing *)

(** The watchdog compares the markers with [||]: a node whose headers advance but whose
    other markers stand still is restarted as one without progress. *)
Example no_progress_while_headers_advance :
  match check_sync_progress (Progress_Watch 0 0 0) (set_sync_storage two_blocks demo_node) with
  | Done _ (Some SyncEvent_NoProgress, Progress_Watch h s c) => (h, s, c) = (2, 0, 0)
  | _ => False
  end.
Proof. vm_compute. reflexivity. Qed.

(** When the gateway has fewer blocks than the node, the block stream asks for an empty
    range and starts over: it neither waits nor reverts. *)
Example behind_gateway_spins :
  match blocks_iteration default_SyncConfig (inl (Some (mkBlockHashAndNumber 100 0)))
          (fun from up_to => default [] (stream_new_blocks demo_client from up_to)) (set_sync_storage two_blocks demo_node) with
  | Done n (Blocks_Download items) => match process (next_block items) n with Done _ Blocks_Loop => true | _ => false end
  | _ => false
  end = true.
Proof. vm_compute. reflexivity. Qed.

(** The number in the header is not compared with the number of the block. *)
Example header_number_not_checked :
  match store_block 0 (demo_block 7 100 0) demo_sig demo0 with
  | Done t _ => match get_block_header 0 t with Done _ (Some h) => BlockHeader_block_number h | _ => -1 end
  | _ => -1
  end = 7.
Proof. vm_compute. reflexivity. Qed.

(** A timestamp that is not a time panics after the block was committed. *)
Definition late_block : Block :=
  mkBlock (mkBlockHeader 100 0 0 (mkGasPricePerToken 1 2) (mkGasPricePerToken 3 4) 5 6 (2 ^ 62) L1DataAvailabilityMode_Blob
    None None None None None 1 0 [48]) (demo_body 1).

Example late_timestamp_panics : store_block 0 late_block demo_sig demo0 = Panic.
Proof. vm_compute. reflexivity. Qed.

(** Two classes with one compiled class hash: the second is never compiled for the
    pending block. *)
Example shared_compiled_class_skipped :
  loop_tasks (push_tasks_of (mkClientStateDiff [] [] [mkDeclaredClassHashEntry 7 8; mkDeclaredClassHashEntry 6 8] [] [] [])
    (mkPendingLoop 100 [] ∅ ∅)) =
  [Task_PendingClass 7; Task_PendingCompiledClass 7; Task_PendingClass 6; Task_PendingData].
Proof. vm_compute. reflexivity. Qed.

(** After a failed download of a class and a restart, the same pending data counts as
    old: its classes are not asked for again. *)
Example failed_class_not_retried :
  match get_pending_data 100 (inl (demo_pending 100 declaring_diff)) demo_shared with
  | Done shared DownloadedNewPendingData =>
      match handle_task_result (without_task (start_pending_loop 100) [] [])
              (get_pending_data 100 (inl (demo_pending 100 declaring_diff)) shared) with
      | Pending_Running shared' l => (loop_tasks l, pending_get_class (shared_pending_classes shared') 7)
      | _ => ([], None)
      end
  | _ => ([], None)
  end = ([Task_PendingData], None).
Proof. vm_compute. reflexivity. Qed.

(** A state update that the gateway does not have is reported as a missing class. *)
Example missing_update_is_class_not_found :
  match poll_iteration small_queues None (Some (inl None)) (new_state_update_stream 0 1) with
  | Fail _ e => e
  | _ => CentralError_StateUpdateNotFound
  end = CentralError_ClassNotFound.
Proof. vm_compute. reflexivity. Qed.

(** A deprecated class that a state update lists twice: the index map of its classes is
    shorter than the lists it is split by, and splitting it panics. *)
Example repeated_deprecated_class_panics :
  client_to_central_state_update (S := unit) (E := CentralError) 0
    (mkStateUpdate 100 0 0 (mkClientStateDiff [] [] [] [9; 9] [] []))
    (indexmap_of (zip (class_hashes (mkClientStateDiff [] [] [] [9; 9] [] []))
      [ApiContractClass_DeprecatedContractClass demo_deprecated; ApiContractClass_DeprecatedContractClass demo_deprecated])) tt = Panic.
Proof. vm_compute. reflexivity. Qed.
