(* ===== verification/ProtoWitnesses.v ===== *)
(** * The conversions at concrete values

    An instance of the field elements, values of every kind that are exchanged, and
    the runs of the conversions on messages that are malformed. *)

From stdpp Require Import base gmap list strings fin_maps.
From Stdlib Require Import ZArith Lia.
From S2P Require Import Prelude StateMachine SingleHeightConsensus StorageTables StarknetTypes StorageTxn Header Serde SerdeLaws ClientObjects.
From S2P Require Import P2pServer ProtoCommon ProtoSync ProtoTransaction ProtoLaws ProtoProps ProtoTxnProps ProtoClassProps ProtoTheorems.

#[local] Open Scope string_scope.
#[local] Open Scope Z_scope.

(** ** The field of Starknet *)

Definition PRIME : Z := 2 ^ 251 + 17 * 2 ^ 192 + 1.

Fixpoint digits (fuel : nat) (z : Z) (acc : list Z) : list Z :=
  match fuel with
  | O => acc
  | S fuel => let acc := 48 + z mod 10 :: acc in if z <? 10 then acc else digits fuel (z / 10) acc
  end.

#[local] Instance stark_felt : FeltApi := {|
  felt_from_bytes_be := fun bs => be_value bs mod PRIME;
  felt_to_bytes_be := be_bytes 32;
  felt_from_uint := fun z => z;
  felt_display := fun z => digits 80 z [];
  patricia_key_try_from := fun z => if (0 <=? z) && (z <? 2 ^ 251) then Some z else None;
  contract_address_try_from := fun z => if (0 <=? z) && (z <? 2 ^ 251) then Some z else None
|}.

Lemma digits_ascii fuel z acc :
  Forall (fun b => between 0 127 b = true) acc -> Forall (fun b => between 0 127 b = true) (digits fuel z acc).
Proof.
  revert z acc. induction fuel as [|fuel IH]; intros z acc Hacc; [done|]. cbn [digits].
  assert (Forall (fun b => between 0 127 b = true) (48 + z mod 10 :: acc)).
  { constructor; [|done]. unfold between. pose proof (Z.mod_pos_bound z 10). apply andb_true_intro. split; apply Z.leb_le; lia. }
  destruct (z <? 10); [done|]. by apply IH.
Qed.

Lemma bounded_key z k : (if (0 <=? z) && (z <? 2 ^ 251) then Some z else None) = Some k <-> k = z /\ 0 <= z < 2 ^ 251.
Proof. destruct (Z.leb_spec 0 z), (Z.ltb_spec z (2 ^ 251)); cbn; split; try naive_solver lia. Qed.

#[local] Instance stark_spec : FeltSpec.
Proof.
  refine {| is_felt := fun z => 0 <= z < PRIME; is_patricia_key := fun z => 0 <= z < 2 ^ 251 |}.
  - unfold PRIME. lia.
  - intros bs _ _. apply Z.mod_pos_bound. done.
  - intros z Hz. change (be_value (be_bytes 32 z) mod PRIME = z). rewrite be_value_bytes. rewrite (Z.mod_small z) by (change (256 ^ Z.of_nat 32) with (2 ^ 256); unfold PRIME in Hz; lia).
    by apply Z.mod_small.
  - done.
  - intros z Hz. split; [done|]. unfold in_range, PRIME in *. lia.
  - intros z. by apply digits_ascii.
  - unfold PRIME. lia.
  - intros z k. apply bounded_key.
  - intros z k. apply bounded_key.
Defined.

#[local] Instance zero_bounds : TransactionApi := {|
  default_ResourceBounds := mkResourceBounds 0 0;
  default_ResourceBoundsMapping := ∅
|}.

#[local] Instance no_json : ExternalTypes := {| Json := unit; Hint := unit |}.

#[local] Instance empty_program : ProgramApi := {| default_Program := mkProgram tt tt tt tt tt tt tt tt tt tt |}.

(** An encoder that is used for one message. *)
Definition one_message {A} (m : A) : ProstMessage A := {| encode_to_vec := fun _ => []; prost_decode := fun _ => Some m |}.

(** The message a value is sent as. *)
Definition message_of {T A} (from : T -> Conv A) (x : T) (d : A) : A := match from x tt with Done _ m => m | _ => d end.

Lemma one_message_carries {T A} (from : T -> Conv A) (fits : A -> Prop) (x : T) (d : A) :
  @prost_carries T A (one_message (message_of from x d)) from fits x.
Proof. intros m Hm _. cbn. unfold message_of. by rewrite Hm. Qed.

Lemma zero_bounds_typed : typed_ResourceBounds default_ResourceBounds.
Proof. by repeat split. Qed.

(** ** Headers *)

Definition demo_header : BlockHeader := {|
  BlockHeader_block_hash := 11; BlockHeader_parent_hash := 10; BlockHeader_block_number := 1;
  BlockHeader_l1_gas_price := mkGasPricePerToken (2 ^ 70) 5; BlockHeader_l1_data_gas_price := mkGasPricePerToken 6 7;
  BlockHeader_state_root := 12; BlockHeader_sequencer := 13; BlockHeader_timestamp := 14;
  BlockHeader_l1_da_mode := L1DataAvailabilityMode_Blob; BlockHeader_state_diff_commitment := Some 15;
  BlockHeader_transaction_commitment := Some 16; BlockHeader_event_commitment := Some 17;
  BlockHeader_receipt_commitment := None; BlockHeader_state_diff_length := Some 3; BlockHeader_n_transactions := 2;
  BlockHeader_n_events := 4; BlockHeader_starknet_version := [48; 46; 49] |}.

Definition demo_signed : SignedBlockHeader := mkSignedBlockHeader demo_header [mkSignature 20 21].

Lemma demo_signed_typed : typed_SignedBlockHeader demo_signed.
Proof. split; [constructor; by repeat split|]. by repeat constructor. Qed.

Lemma headers_delivered_witness :
  let PM := one_message (message_of PbBlockHeadersResponse_from (Some demo_signed) (mkPbBlockHeadersResponse None)) in
  delivered PbBlockHeadersResponse_from MaybeSignedBlockHeader_try_from (Some demo_signed) (Done tt (Some demo_signed)).
Proof.
  intros PM. destruct (headers_delivered demo_signed demo_signed_typed (one_message_carries _ _ _ (mkPbBlockHeadersResponse None))) as [Hd Hr].
  assert (E : header_result demo_signed = Done tt (Some (received_signed demo_signed))) by reflexivity.
  rewrite E, Hr in Hd; [exact Hd|]. constructor; [by eexists|by eexists|]. by split; intros _; eexists.
Defined.

(** ** Transactions *)

Definition demo_tx : Transaction :=
  Transaction_Invoke (InvokeTransaction_V1 (mkInvokeTransactionV1 100 [1; 2] 3 4 [5; 6])).

Definition demo_resources : ExecutionResources :=
  mkExecutionResources 1000 {[Builtin_Pedersen := 7; Builtin_AddMod := 9]} 5 (mkGasVector 1 2) (mkGasVector 3 4).

Definition demo_output : TransactionOutput :=
  TransactionOutput_Invoke (mkInvokeTransactionOutput 90 [mkMessageToL1 (replicate 20 8) [1] 4] [mkEvent 4 (mkEventContent [1] [2])]
    TransactionExecutionStatus_Succeeded demo_resources).

Lemma demo_pair_sendable : sendable_pair (demo_tx, demo_output).
Proof.
  split; cbn; [unfold typed_InvokeV1; cbn; by repeat split; repeat constructor|].
  unfold sendable_common, sendable_resources, typed_GasVector. cbn. repeat match goal with |- _ /\ _ => split end; try done.
  - constructor; [|constructor]. unfold typed_MessageToL1. cbn. repeat match goal with |- _ /\ _ => split end; try done; by repeat constructor.
  - unfold sent_builtins. by rewrite !Forall_cons.
Qed.

Lemma transactions_delivered_witness :
  let PM := one_message (message_of PbTransactionsResponse_from (Some (demo_tx, demo_output)) (mkPbTransactionsResponse None)) in
  delivered PbTransactionsResponse_from MaybeTransaction_try_from (Some (demo_tx, demo_output))
    (Done tt (Some (demo_tx, received_TransactionOutput demo_output))).
Proof.
  intros PM.
  exact (proj1 (transactions_delivered zero_bounds_typed (demo_tx, demo_output) demo_pair_sendable (one_message_carries _ _ _ (mkPbTransactionsResponse None)))).
Defined.

(** The events and the counter of [AddMod] are not sent. *)
Example demo_output_received :
  received_TransactionOutput demo_output <> demo_output /\
  counter_of (ExecutionResources_builtin_instance_counter (output_resources (received_TransactionOutput demo_output))) Builtin_AddMod = 0 /\
  counter_of (ExecutionResources_builtin_instance_counter demo_resources) Builtin_AddMod = 9.
Proof. split; [discriminate|]. by vm_compute. Qed.

(** ** State diffs, events and queries *)

Definition demo_chunk : StateDiffChunk := StateDiffChunk_ContractDiff (mkContractDiff 5 (Some 6) None [(1, 2); (3, 4)]).

Definition demo_event : Event * Z := (mkEvent 4 (mkEventContent [1] [2; 3]), 9).

Definition demo_query : Query := mkQuery (BlockHashOrNumber_Number 7) Direction_Forward 10 1.

Lemma diffs_events_and_queries_delivered_witness :
  let P1 := one_message (message_of (fun c => ret (PbStateDiffsResponse_from c)) (Some demo_chunk) (mkPbStateDiffsResponse None)) in
  let P2 := one_message (message_of (fun e => ret (PbEventsResponse_from e)) (Some demo_event) (mkPbEventsResponse None)) in
  let P3 := one_message (message_of (fun q => ret (PbStateDiffsRequest_from q)) demo_query (mkPbStateDiffsRequest None)) in
  delivered (fun c => ret (PbStateDiffsResponse_from c)) StateDiffChunk_try_from (Some demo_chunk) (Done tt (Some demo_chunk)) /\
  delivered (fun e => ret (PbEventsResponse_from e)) MaybeEvent_try_from (Some demo_event) (Done tt (Some demo_event)) /\
  delivered (fun q => ret (PbStateDiffsRequest_from q)) StateDiffQuery_try_from demo_query (Done tt demo_query).
Proof.
  intros P1 P2 P3.
  assert (Hc : typed_DataOrFin typed_StateDiffChunk (Some demo_chunk)).
  { cbn. unfold typed_ContractDiff. cbn. repeat match goal with |- _ /\ _ => split end; try done; [by repeat constructor|].
    by apply (bool_decide_unpack _). }
  assert (He : typed_DataOrFin typed_Event (Some demo_event)) by (cbn; unfold typed_Event; cbn; by repeat split; repeat constructor).
  assert (Hq : typed_Query demo_query) by by repeat split.
  pose (Q1 := one_message (message_of (fun q => ret (PbBlockHeadersRequest_from q)) demo_query (mkPbBlockHeadersRequest None))).
  pose (Q2 := one_message (message_of (fun q => ret (PbTransactionsRequest_from q)) demo_query (mkPbTransactionsRequest None))).
  pose (Q3 := one_message (message_of (fun q => ret (PbClassesRequest_from q)) demo_query (mkPbClassesRequest None))).
  pose (Q4 := one_message (message_of (fun q => ret (PbEventsRequest_from q)) demo_query (mkPbEventsRequest None))).
  destruct (diffs_events_and_queries_delivered (Some demo_chunk) (Some demo_event) demo_query Hc He Hq
    (one_message_carries _ _ _ (mkPbStateDiffsResponse None)) (one_message_carries _ _ _ (mkPbEventsResponse None))
    (one_message_carries _ _ _ (mkPbBlockHeadersRequest None)) (one_message_carries _ _ _ (mkPbTransactionsRequest None))
    (one_message_carries _ _ _ (mkPbStateDiffsRequest None)) (one_message_carries _ _ _ (mkPbClassesRequest None))
    (one_message_carries _ _ _ (mkPbEventsRequest None))) as (H1 & H2 & _ & _ & H3 & _).
  done.
Defined.

(** ** Classes and consensus *)

Definition demo_class : ApiContractClass :=
  ApiContractClass_ContractClass (mkContractClass [1; 3; 0; 2; 1; 0; 99] {[EntryPointType_External := [mkEntryPoint 0 42]]} [123; 125]).

Lemma classes_delivered_witness :
  let PM := one_message (message_of PbClassesResponse_from (Some demo_class) (mkPbClassesResponse None)) in
  delivered PbClassesResponse_from MaybeClass_try_from (Some demo_class) (Done tt (Some demo_class)).
Proof.
  intros PM. assert (Hs : sendable_class demo_class).
  { cbn. repeat match goal with |- _ /\ _ => split end; [by repeat constructor|cbn; lia| |done]. by apply (bool_decide_unpack _). }
  assert (E : received_class demo_class = demo_class) by by vm_compute. rewrite <-E at 2.
  exact (classes_delivered demo_class Hs (one_message_carries _ _ _ (mkPbClassesResponse None))).
Defined.

Definition demo_message : ConsensusMessage Transaction := ConsensusMessage_Proposal (mkProposal 5 3 [demo_tx] 77).

Lemma consensus_messages_delivered_witness :
  let PM := one_message (message_of (fun m => ret (PbConsensusMessage_from m)) demo_message (mkPbConsensusMessage None)) in
  delivered (fun m => ret (PbConsensusMessage_from m)) ConsensusMessage_try_from demo_message (Done tt demo_message).
Proof.
  intros PM. assert (Hm : typed_ConsensusMessage demo_message).
  { cbn. unfold typed_Proposal. cbn. repeat match goal with |- _ /\ _ => split end; try done. constructor; [|constructor].
    exact (proj1 demo_pair_sendable). }
  exact (proj1 (consensus_messages_delivered zero_bounds_typed demo_message Hm (one_message_carries _ _ _ (mkPbConsensusMessage None)))).
Defined.

(** ** Malformed messages *)

(** A field element of one byte: the conversion panics. *)
Example short_felt_panics :
  Event_try_from (mkPbEvent (Some (PbHash_from 1)) (Some (mkPbFelt252 [1])) [] []) tt = Panic.
Proof. reflexivity. Qed.

(** The sender of a message to L1 is beyond the addresses: the conversion panics. *)
Example bad_sender_panics :
  MessageToL1_try_from (mkPbMessageToL1 (Some (PbFelt252_from (2 ^ 251))) [] (Some (mkPbEthereumAddress (replicate 20 0)))) tt = Panic.
Proof. vm_compute. reflexivity. Qed.

(** A vote for no block, which the protocol allows, is refused. *)
Example nil_vote_refused :
  Vote_try_from (mkPbVote 0 5 None (Some (PbAddress_from 3))) tt = Fail tt (ProtobufConversionError_MissingField "block_hash").
Proof. reflexivity. Qed.

(** A class of five felts is received, and sending it on panics. *)
Example short_program_received :
  let m := mkPbCairo1Class [] (Some (mkPbCairo1EntryPoints [] [] [])) (PbFelt252_from <$> [1; 2; 3; 4; 5]) [] in
  match ContractClass_try_from m tt with Done _ c => PbCairo1Class_from c tt = Panic | _ => False end.
Proof. vm_compute. reflexivity. Qed.

(** Bytes that are not the canonical ones of a field element are accepted. *)
Example unreduced_felt_accepted : Felt_try_from (mkPbFelt252 (be_bytes 32 PRIME)) tt = Done tt 0.
Proof. vm_compute. reflexivity. Qed.
