(* ===== verification/NetworkWitnesses.v ===== *)
(** * The network on concrete inputs

    An implementation of the variable-length integers, the theorems of
    [NetworkTheorems.v] on small networks, and runs that show unexpected
    behaviour. *)

From stdpp Require Import base gmap list strings fin_maps.
From Stdlib Require Import ZArith Lia.
From S2P Require Import Prelude PeerManager PeerManagerProps Sqmr SqmrProps SqmrRuns NetworkManager NetworkProps NetworkTheorems.

(** ** Variable-length integers *)

Fixpoint leb_encode (k : nat) (n : Z) : Bytes :=
  match k with
  | O => [n]
  | S k' => if n <? 128 then [n] else (n mod 128 + 128) :: leb_encode k' (n / 128)
  end.

Fixpoint leb_decode (k : nat) (scale acc : Z) (first : bool) (bs : Bytes) : VarintError + Z * Bytes :=
  match bs with
  | [] => inl Varint_Insufficient
  | b :: bs' =>
      let n := acc + b mod 128 * scale in
      if b <? 128 then
        if (b =? 0) && negb first then inl Varint_Other
        else if 2 ^ 64 <=? n then inl Varint_Other else inr (n, bs')
      else match k with O => inl Varint_Other | S k' => leb_decode k' (scale * 128) n false bs' end
  end.

#[global] Instance leb_api : VarintApi := {|
  varint_encode := leb_encode 9;
  varint_decode := leb_decode 9 1 0 true
|}.

Lemma leb_roundtrip k n scale acc first rest :
  0 <= n < 128 ^ Z.of_nat (S k) -> 0 < scale -> 0 <= acc -> acc + n * scale < 2 ^ 64 -> 0 < n \/ first = true ->
  leb_decode k scale acc first (leb_encode k n ++ rest) = inr (acc + n * scale, rest).
Proof.
  assert (Hlast : forall k n scale acc first rest, 0 <= n < 128 -> acc + n * scale < 2 ^ 64 -> 0 < n \/ first = true ->
    leb_decode k scale acc first (n :: rest) = inr (acc + n * scale, rest)).
  { intros k' n' sc ac f r Hn Hlt Hf. assert (Hu : forall k, leb_decode k sc ac f (n' :: r) = let n := ac + n' mod 128 * sc in
      if n' <? 128 then if (n' =? 0) && negb f then inl Varint_Other else if 2 ^ 64 <=? n then inl Varint_Other else inr (n, r)
      else match k with O => inl Varint_Other | S k' => leb_decode k' (sc * 128) n false r end) by (intros []; done).
    rewrite Hu. cbv zeta. rewrite Z.mod_small by lia. destruct (Z.ltb_spec n' 128); [|lia].
    destruct (Z.eqb_spec n' 0), f; cbn [negb andb]; try lia; destruct (Z.leb_spec (2 ^ 64) (ac + n' * sc)); try lia; try done. }
  revert n scale acc first. induction k as [|k IH]; intros n scale acc first Hn Hsc Hacc Hlt Hf.
  - apply Hlast; [|done|done]. change (128 ^ Z.of_nat 1) with 128 in Hn. lia.
  - cbn [leb_encode]. destruct (Z.ltb_spec n 128); [apply Hlast; [lia|done|done]|]. cbn [app leb_decode].
    assert (Hm : (n mod 128 + 128) mod 128 = n mod 128) by (rewrite <-Zplus_mod_idemp_r; rewrite Z.mod_same, Z.add_0_r by lia; apply Zmod_mod).
    pose proof (Z.mod_pos_bound n 128 ltac:(lia)). destruct (Z.ltb_spec (n mod 128 + 128) 128); [lia|]. rewrite Hm.
    pose proof (Z.div_mod n 128 ltac:(lia)) as Hd. rewrite Nat2Z.inj_succ, Z.pow_succ_r in Hn by lia.
    assert (Hq : acc + n mod 128 * scale + n / 128 * (scale * 128) = acc + n * scale) by nia.
    rewrite IH; [by rewrite Hq| |lia|nia|lia|left; apply Z.div_str_pos; lia].
    split; [apply Z.div_pos; lia|]. apply Z.div_lt_upper_bound; lia.
Qed.

Lemma leb_prefix k n scale acc first bs1 bs2 :
  leb_encode k n = bs1 ++ bs2 -> bs2 <> [] -> leb_decode k scale acc first bs1 = inl Varint_Insufficient.
Proof.
  assert (Hone : forall k b scale acc first bs1 bs2, [b] = bs1 ++ bs2 -> bs2 <> [] -> leb_decode k scale acc first bs1 = inl Varint_Insufficient).
  { intros k' b sc ac f [|b1 bs1'] bs2' He Hne; [by destruct k'|]. cbn in He. injection He as _ He. symmetry in He. apply app_nil in He as [_ ->]. done. }
  revert n scale acc first bs1. induction k as [|k IH]; intros n scale acc first bs1 He Hne; cbn [leb_encode] in He; [by eapply Hone|].
  destruct (n <? 128); [by eapply Hone|]. destruct bs1 as [|b bs1]; [done|]. cbn in He. injection He as <- He. cbn [leb_decode].
  pose proof (Z.mod_pos_bound n 128 ltac:(lia)). destruct (Z.ltb_spec (n mod 128 + 128) 128); [lia|]. by eapply IH.
Qed.

Lemma leb_length k scale acc first bs : (k < length bs)%nat -> leb_decode k scale acc first bs <> inl Varint_Insufficient.
Proof.
  revert scale acc first bs. induction k as [|k IH]; intros scale acc first [|b bs] Hl; cbn in Hl; try lia; cbn [leb_decode];
    (destruct (b <? 128); [destruct ((b =? 0) && negb first); [done|destruct (_ <=? _); done]|]); [done|]. apply IH. lia.
Qed.

#[global] Instance leb_spec : VarintSpec.
Proof.
  constructor.
  - intros n. change (varint_encode n) with (leb_encode 9 n). cbn [leb_encode]. by destruct (n <? 128).
  - intros n Hn. change (leb_decode 9 1 0 true (leb_encode 9 n) = inr (n, [])). rewrite <-(app_nil_r (leb_encode 9 n)).
    unfold in_range in Hn. rewrite leb_roundtrip; [f_equal; f_equal; lia|change (128 ^ Z.of_nat 10) with (2 ^ 70); lia|lia|lia|lia|by right].
  - intros n bs1 bs2 _ He Hne. exact (leb_prefix 9 n 1 0 true bs1 bs2 He Hne).
  - intros bs Hl. apply leb_length. lia.
Qed.

(** ** Orders of iteration *)

#[global] Instance net_map_order : HashMapIter := {|
  hm_iter := fun K V _ _ m => map_to_list m;
  hm_iter_perm := fun K V _ _ m => reflexivity (map_to_list m)
|}.

#[global] Instance net_set_order : HashSetIter := {|
  hs_iter := elements;
  hs_iter_perm := fun s => reflexivity (elements s)
|}.

(** ** The peer manager *)

Definition ticking (n : nat) : Z := Z.of_nat n.
Definition small_config : PeerManagerConfig := mkPeerManagerConfig 100 50.
Definition sess (n : Z) : OutboundSessionId := mkOutboundSessionId n.

(** The manager after some operations. *)
Definition pm_after (ops : list pm_op) : PeerManager Peer :=
  match pm_run ticking ops (PeerManager_new small_config) with Some (s, _) => s | None => PeerManager_new small_config end.

Definition found_peer (id : PeerId) : pm_op := Op_other (FromIdentify (IdentifyFoundListenAddresses id [id + 1000])).
Definition ask (n : Z) : pm_op := Op_other (FromSqmr (RequestPeerAssignment (sess n))).

Lemma pm_after_ok ops : pm_ok (pm_after ops).
Proof.
  unfold pm_after. destruct (pm_run_ok ticking ops (PeerManager_new small_config) [] (new_pm_ok _)) as (s & ev & -> & Hok & _). done.
Qed.

(** Two peers; the first one is reported and the next sessions go to the second. *)
Lemma reported_peer_left_alone_witness :
  exists s1 s2 em, report_peer ticking 1 ReputationModifier_Bad (pm_after [found_peer 1; found_peer 2]) = Done s1 tt /\
    pm_run ticking [ask 1; ask 2; Op_poll (fun _ => false)] s1 = Some (s2, em) /\ em <> [] /\
    (forall x, session_to_peer_map s2 !! x = Some 1 -> session_to_peer_map (pm_after [found_peer 1; found_peer 2]) !! x = Some 1).
Proof.
  eexists _, _, _. split; [vm_compute; reflexivity|]. split; [vm_compute; reflexivity|]. split; [done|].
  refine (proj1 (reported_peer_left_alone ticking (pm_after [found_peer 1; found_peer 2]) _ _ 1 [ask 1; ask 2; Op_poll (fun _ => false)] _
    (pm_after_ok _) _ _ _ _)); [unfold ticking; lia|vm_compute; reflexivity|vm_compute; reflexivity|].
  vm_compute (clock_readings _). vm_compute (blacklist_timeout _). intros k Hk. unfold ticking. lia.
Defined.

(** A session that waits is served by the first peer that is found. *)
Lemma waiting_sessions_served_witness :
  exists s', found_listen_addresses ticking 1 [1001] (pm_after [ask 7]) = Done s' tt /\ sessions_received_when_no_peers (pm_after [ask 7]) = [sess 7] /\
    sessions_received_when_no_peers s' = [].
Proof.
  destruct (proj1 (waiting_sessions_served ticking (pm_after [ask 7]) (pm_after_ok _)) 1 1001 []) as (s' & Hr & Hw & _); [vm_compute; reflexivity|].
  exists s'. split; [exact Hr|]. split; [vm_compute; reflexivity|exact Hw].
Defined.

(** The sleep that ends while every peer is blocked again is not replaced: [poll]
    sets it to [None] after the assignment set a new one. The session waits, and
    no later poll serves it, even once the peer is unblocked. *)
Definition always_elapsed (_ : Z) : bool := true.

Example sleep_forgotten :
  let s := pm_after [found_peer 1; Op_report_peer 1; ask 7; Op_report_peer 1; Op_poll always_elapsed] in
  sessions_received_when_no_peers s = [sess 7] /\ sleep_waiting_for_unblocked_peer s = None /\
  (exists p, peers s !! 1 = Some p /\ Peer_is_blocked p 1000 = false) /\
  forall k, pm_run (fun _ => 1000) (repeat (Op_poll always_elapsed) k) s = Some (s, []).
Proof.
  vm_compute (pm_after _). cbv zeta. split; [reflexivity|]. split; [reflexivity|]. split; [eexists; split; reflexivity|].
  intros k. induction k as [|k IH]; [reflexivity|]. cbn [repeat pm_run].
  match goal with |- context [pm_apply ?c ?o ?s] => assert (Hs : pm_apply c o s = Done s []) by (vm_compute; reflexivity) end.
  rewrite Hs, IH. reflexivity.
Qed.

(** The address of the first peer does not answer: its session is assigned to the
    second peer, and stays in the list of the first. When the first peer connects
    after all, the session is assigned a second time. *)
Definition failed_dial_ops : list pm_op :=
  [found_peer 1; ask 7; found_peer 2; Op_swarm (ConnectionEstablished 2 20); Op_swarm (DialFailure (Some 1) (DialError_Other 0) 10);
   Op_swarm (ConnectionEstablished 1 11)].

Example assigned_twice :
  exists s, pm_run ticking failed_dial_ops (PeerManager_new small_config) = Some (s, []) /\
    GenerateEvent (SessionAssigned (sess 7) 2 20) ∈ pending_events s /\ GenerateEvent (SessionAssigned (sess 7) 1 11) ∈ pending_events s.
Proof. eexists. split; [vm_compute; reflexivity|]. split; vm_compute; set_solver. Qed.

(** ** The query protocol *)

Definition sqmr_config : SqmrConfig := mkSqmrConfig 120.
Definition inb (n : Z) : InboundSessionId := mkInboundSessionId n.

Definition behaviour_after (ops : list sqmr_op) : Behaviour :=
  match sqmr_run ops (Behaviour_new sqmr_config) with Some (b, _, _) => b | None => Behaviour_new sqmr_config end.

(** After the second assignment, the session is recorded for the peer that does
    not run it; when that connection closes, the query is reported as failed. *)
Example second_assignment_misroutes :
  let b := behaviour_after [Sop_start_query [1] 5; Sop_other (FromPeerManager (SessionAssigned (sess 0) 2 20));
    Sop_other (FromPeerManager (SessionAssigned (sess 0) 1 11)); Sop_swarm (ConnectionClosed 1 11 0)] in
  NotifyHandler 2 20 (CreateOutboundSession [1] (sess 0) 5) ∈ Behaviour_pending_events b /\
  GenerateEvent (SqmrEvent_External (SessionFailed (sess 0) SessionError_ConnectionClosed)) ∈ Behaviour_pending_events b.
Proof. vm_compute (behaviour_after _). cbv zeta. split; vm_compute; set_solver. Qed.

(** A session that was dropped still reports a failure: when its connection
    closes, and when the upgrade of its substream fails after the drop. *)
Example dropped_session_reports_close :
  let b := behaviour_after [Sop_start_query [1] 5; Sop_other (FromPeerManager (SessionAssigned (sess 0) 2 20)); Sop_drop (sess 0);
    Sop_handler 2 20 (NotifySessionDropped (sess 0)); Sop_swarm (ConnectionClosed 2 20 0)] in
  last (Behaviour_pending_events b) = Some (GenerateEvent (SqmrEvent_External (SessionFailed (sess 0) SessionError_ConnectionClosed))).
Proof. vm_compute (behaviour_after _). reflexivity. Qed.

Definition handler_after (ops : list handler_op) : Handler * list HandlerEvent :=
  default (Handler_new sqmr_config 2 ∅, []) (handler_run ops (Handler_new sqmr_config 2 ∅)).

Definition idle_io (_ : InboundSessionId) : list io_outcome * list io_outcome := ([], []).
Definition good_io (_ : InboundSessionId) : list io_outcome * list io_outcome := ([io_ok; io_ok], [io_ok]).

Example dropped_session_reports_upgrade_error :
  Handler_pending_events (handler_after [Hop_behaviour (CreateOutboundSession [1] (sess 0) 5); Hop_poll idle_io; Hop_behaviour (DropSession (sess 0));
    Hop_connection (DialUpgradeError (sess 0) StreamUpgradeError_NegotiationFailed)]).1 =
  [NotifyBehaviour (NotifySessionDropped (sess 0)); failed (sess 0) HandlerSessionError_RemoteDoesntSupportProtocol].
Proof. vm_compute. reflexivity. Qed.

(** The writer of a message does not check its length; the reader refuses it. *)
Example oversized_message_refused m :
  MAX_MESSAGE_SIZE < zlength m < 2 ^ 64 ->
  written (write_message m (mkWriteHalf [] false)) = message_bytes m /\
  read_message (mkReadHalf (message_bytes m) Stream_Open) = Some (Ready (inl io_Error_InvalidData)).
Proof.
  intros [Hlo Hhi]. split; [by rewrite written_message|]. unfold read_message, read_usize. cbn [read_end unread]. unfold message_bytes.
  rewrite (read_usize_encoded Stream_Open (zlength m) [] (varint_encode (zlength m)) m);
    [by destruct (Z.ltb_spec MAX_MESSAGE_SIZE (zlength m)); [|lia]|split; [apply zlength_nonneg|done]|done|apply varint_nonempty].
Qed.

(** ** A session from end to end *)

Definition server_start : Handler := (handler_after [Hop_connection (FullyNegotiatedInbound [9] (mkWriteHalf [] false) 5 (inb 3)); Hop_poll idle_io]).1.
Definition server_ops : list handler_op :=
  [Hop_behaviour (SendResponse [1; 2] (inb 3)); Hop_poll good_io; Hop_behaviour (SendResponse [] (inb 3)); Hop_behaviour (CloseInboundSession (inb 3)); Hop_poll good_io].

Lemma one_session_ok h id : id_to_inbound_session h = {[id := InboundSession_new (mkWriteHalf [] false)]} -> handler_ok h.
Proof. intros Heq i s Hs. rewrite Heq in Hs. apply lookup_singleton_Some in Hs as [_ <-]. split; [split; [by intros [? [=]]|done]|by intros [? [=]]]. Qed.

Lemma session_delivers_responses_witness :
  exists hs emitted, handler_run server_ops server_start = Some (hs, emitted) /\ finished (inb 3) ∈ emitted /\
    exists w, session_stream hs (inb 3) w /\ written w = wire [[1; 2]; []].
Proof.
  destruct (session_delivers_responses (inb 3) server_start server_ops) as (hs & emitted & Hrun & Hres).
  { split; [apply (one_session_ok _ (inb 3)); vm_compute; reflexivity|]. split; [vm_compute; reflexivity|]. refine (bool_decide_unpack _ _). vm_compute. exact I. }
  { repeat constructor. }
  { repeat constructor. }
  { repeat constructor; vm_compute; discriminate. }
  assert (Hc : exists hs' em', handler_run server_ops server_start = Some (hs', em') /\ finished (inb 3) ∈ em' /\
    about (inb 3) (event_log hs' em') = [finished (inb 3)] /\ about (inb 3) (event_log server_start []) = []).
  { eexists _, _. split; [vm_compute; reflexivity|]. split; [vm_compute; set_solver|]. split; vm_compute; reflexivity. }
  destruct Hc as (hs' & em' & Hrun' & Hin & Hab & Hab0). rewrite Hrun in Hrun'. injection Hrun' as <- <-. exists hs, emitted. split; [exact Hrun|]. split; [exact Hin|].
  rewrite Hab, Hab0 in Hres. destruct Hres as [[e [=]]|(w & Hw & [[=]|(_ & _ & _ & Hwr)] & _)]. exists w. split; [exact Hw|exact Hwr].
Defined.

Definition client_start : Handler :=
  (handler_after [Hop_connection (FullyNegotiatedOutbound (mkReadHalf [] Stream_Open) (sess 0)); Hop_arrive (sess 0) (wire [[1; 2]; []]) Stream_Eof]).1.

Lemma client_session_finishes_witness :
  exists hc emitted, handler_run (Hop_poll <$> [idle_io; idle_io; idle_io]) client_start = Some (hc, emitted) /\
    about (sess 0) (event_log hc emitted) = [received 2 (sess 0) [1; 2]; received 2 (sess 0) []; finished (sess 0)].
Proof.
  destruct (client_session_finishes (sess 0) client_start [[1; 2]; []] [idle_io; idle_io; idle_io]) as (hc & emitted & Hrun & Hab).
  { intros i s Hs. vm_compute in Hs. discriminate. }
  { repeat constructor; vm_compute; discriminate. }
  { vm_compute. reflexivity. }
  { cbn. lia. }
  exists hc, emitted. split; [exact Hrun|exact Hab].
Defined.

(** ** The network manager *)

Definition demo_mixed : MixedBehaviour := mkMixedBehaviour (PeerManager_new default_PeerManagerConfig) None (Behaviour_new sqmr_config) [].

Definition query_ops : list net_op :=
  [Net_payload 5 [1]; Net_poll_sqmr; Net_deliver Send_Ok; Net_payload 5 [2]; Net_libp2p (identify_event_from (IdentifyEvent_Received 1 [1001]));
   Net_deliver Send_Ok; Net_swarm (ConnectionEstablished 1 10); Net_poll_peer_manager always_elapsed; Net_deliver Send_Ok].

Lemma every_query_sent_once_witness :
  exists s, net_run ticking query_ops (mkNetState (generic_new demo_mixed) [] []) = Some (s, [(sess 0, ([1], 5)); (sess 1, ([2], 5))]) /\
    NoDup [sess 0; sess 1] /\ outbound_sessions_pending_peer_assignment (mixed_sqmr (swarm (manager s))) !! sess 1 = Some ([2], 5) /\
    located (mixed_sqmr (swarm (manager s))) (mixed_peer_manager (swarm (manager s))) (in_flight s) (sess 1).
Proof.
  destruct (every_query_sent_once ticking None sqmr_config demo_mixed query_ops) as (s & queries & Hrun & Hnd & _ & Hl).
  { reflexivity. } { repeat apply Forall_cons_2; try apply Forall_nil_2; try done. right. left. by eexists. } { vm_compute. reflexivity. }
  assert (Hc : exists s', net_run ticking query_ops (mkNetState (generic_new demo_mixed) [] []) = Some (s', [(sess 0, ([1], 5)); (sess 1, ([2], 5))]) /\
    outbound_sessions_pending_peer_assignment (mixed_sqmr (swarm (manager s'))) !! sess 1 = Some ([2], 5)).
  { eexists. split; [vm_compute; reflexivity|]. vm_compute. reflexivity. }
  destruct Hc as (s' & Hrun' & Hp). rewrite Hrun in Hrun'. injection Hrun' as <- ->. exists s. split; [exact Hrun|]. split; [exact Hnd|].
  split; [exact Hp|]. exact (Hl _ _ Hp).
Defined.

(** A server that answered twice and is done. *)
Definition demo_manager : NetworkManager :=
  nm_set_sqmr_inbound_response_receivers (mkStreamHashMap {[inb 3 := mkResponseReceiver [[1; 2]; []] true false]} ∅)
    (generic_new (mkMixedBehaviour (PeerManager_new default_PeerManagerConfig) None
      (set_sessions {[SessionId_InboundSessionId (inb 3) := (2, 20)]} (Behaviour_new sqmr_config)) [])).

Lemma responses_forwarded_witness :
  exists n', response_turns ticking 3 demo_manager = Done n' tt /\
    forwarded (inb 3) (Behaviour_pending_events (mixed_sqmr (swarm n'))) = [Some [1; 2]; Some []; None].
Proof.
  destruct (responses_forwarded ticking demo_manager 3) as (n' & Hr & _ & Hf).
  { intros id [r Hr]. cbn in Hr. apply lookup_singleton_Some in Hr as [<- _]. by eexists. }
  { vm_compute. lia. }
  exists n'. split; [exact Hr|]. rewrite Hf. reflexivity.
Defined.

(** The metric of the outbound sessions counts a finished session again. *)
Example outbound_sessions_never_decrease :
  exists n1 n2, handle_local_sqmr_payload 5 [1] (generic_new demo_mixed) = Done n1 tt /\
    handle_session_removed (sess 0) n1 = Done n2 tt /\ num_active_outbound_sessions n1 = 1 /\ num_active_outbound_sessions n2 = 2.
Proof. eexists _, _. split; [vm_compute; reflexivity|]. split; [vm_compute; reflexivity|]. split; reflexivity. Qed.

(** A change of the address of the bootstrap peer stops the node. *)
Example address_change_panics : discovery_on_swarm_event (AddressChange 1 10) (Discovery_new 1 1001) = Panic.
Proof. reflexivity. Qed.
