(* ===== verification/RpcWitnesses.v ===== *)
(** * The JSON-RPC server on a concrete chain

    A node with two blocks, their state diffs and a pending block: the theorems of
    [RpcTheorems.v] applied to it, and answers a reader of the code may not expect. *)

From stdpp Require Import base gmap list strings fin_maps sorting.
From Stdlib Require Import ZArith Lia.
From S2P Require Import Prelude StorageTables StarknetTypes StorageTxn Header Body BodyProps EventsProps State StateProps.
From S2P Require Import StateTheorems ClientObjects PendingSync Sync SyncProps ProtoCommon ProtoTransaction RpcConvert Rpc RpcProps.
From S2P Require Import RpcEvents RpcTheorems StorageWitnesses SyncWitnesses ProtoWitnesses.

#[local] Open Scope Z_scope.
#[local] Existing Instance stark_felt.
#[local] Existing Instance zero_bounds.

(** ** The crates the server calls *)

(** An index is printed as its three numbers. *)
#[local] Instance demo_crates : RpcCrates (X := demo_types) := {|
  declare_transaction_version tx :=
    match tx with DeclareTransaction_V0 _ => 0 | DeclareTransaction_V1 _ => 1 | DeclareTransaction_V2 _ => 2 | DeclareTransaction_V3 _ => 3 end;
  deploy_account_transaction_version tx := match tx with DeployAccountTransaction_V1 _ => 1 | DeployAccountTransaction_V3 _ => 3 end;
  invoke_transaction_version tx := match tx with InvokeTransaction_V0 _ => 0 | InvokeTransaction_V1 _ => 1 | InvokeTransaction_V3 _ => 3 end;
  transaction_output_actual_fee _ := 0;
  encode_packed l := Some (concat l);
  keccak256 bytes := bytes;
  program_to_value _ := Some tt;
  felts_to_value _ := Some tt;
  json_is_null _ := false;
  json_remove _ v := Some v;
  json_to_bytes _ := Some [];
  event_index_to_string i := Some [i.1.1; i.1.2; i.2];
  event_index_from_str s := match s with [b; i; j] => Some ((b, i), j) | _ => None end;
  gzip := Some;
  base64_encode bytes := bytes
|}.

#[local] Instance demo_crates_spec : RpcCratesSpec (X := demo_types).
Proof. split; try done. intros [[b i] j]. by exists [b; i; j]. Qed.

#[local] Instance demo_block_api : StarknetBlockApi (SN := demo_state_numbers) := {|
  unchecked_right_after_block b := bn_unchecked_next b;
  right_after_block b := bn_next b;
  default_BlockHeader := chain_header 0 0 0;
  unchecked_right_after_spec b := eq_refl;
  right_after_spec b := option_fmap_id (bn_next b)
|}.

(** ** The node *)

Definition deploying : StateDiff := mkStateDiff [(7, 50)] [(7, [(10, 11)])] [] [] [(7, 1)] [].
Definition writing : StateDiff := mkStateDiff [] [(7, [(10, 12)]); (8, [])] [] [] [] [].

Definition synced : StorageTxn :=
  after_store (store_state_diff 1 writing []) (after_store (store_state_diff 0 deploying []) two_blocks).

Definition two_diffs : list ThinStateDiff := [thin_of deploying; thin_of writing].

Lemma store_demo_diff t l bs ds b sd :
  sync_rel t l bs ds -> zlength ds = b -> zlength ds < zlength l -> zlength l < 10 -> state_diff_ok sd [] -> classes_of sd = [] ->
  deprecated_classes_of sd = [] -> (forall t' e, store_state_diff b sd [] t <> Fail t' e) ->
  sync_rel (after_store (store_state_diff b sd []) t) l bs (ds ++ [thin_of sd]).
Proof.
  intros Hs <- Hlt Hlen Hok Hc Hdc Hno. unfold after_store.
  assert (Hf : state_diff_fits t sd []) by (unfold state_diff_fits; rewrite Hc, Hdc; repeat split; done || by eexists).
  pose proof (store_state_diff_stores t l bs ds sd [] Hs Hlt ltac:(lia) Hok Hf) as Hst.
  destruct (store_state_diff _ _ _ _) as [t' u|t' e|]; [exact Hst|by destruct (Hno t' e)|done].
Qed.

Lemma demo_diff_ok sd : sd = deploying \/ sd = writing -> state_diff_ok sd [].
Proof. intros [-> | ->]; split; cbn; repeat constructor; set_solver. Qed.

Definition one_diff : StorageTxn := after_store (store_state_diff 0 deploying []) two_blocks.

Lemma one_diff_rel : sync_rel one_diff two_headers two_bodies [thin_of deploying].
Proof.
  apply (store_demo_diff two_blocks two_headers two_bodies []);
    [exact two_blocks_stored|reflexivity|reflexivity|reflexivity|apply demo_diff_ok; by left|reflexivity|reflexivity|by vm_compute].
Qed.

Lemma synced_rel : sync_rel synced two_headers two_bodies two_diffs.
Proof.
  apply (store_demo_diff one_diff two_headers two_bodies [thin_of deploying]);
    [exact one_diff_rel|reflexivity|reflexivity|reflexivity|apply demo_diff_ok; by right|reflexivity|reflexivity|by vm_compute].
Qed.

Definition pending_receipt : TransactionReceipt :=
  mkTransactionReceipt 0 2000 (mkL1ToL2Message [] 0 0 [] 0) [] [mkEvent 7 (mkEventContent [1] [3]); mkEvent 8 (mkEventContent [1] [4])]
    (mkClientExecutionResources 1 ∅ 0 None None) 0 ClientTransactionExecutionStatus_Succeeded None.

(** The pending block deploys contract 9 and changes the storage of contract 7. *)
Definition pending_changes : ClientStateDiff :=
  mkClientStateDiff [(7, [mkStorageEntry 10 13])] [mkDeployedContract 9 60] [] [] [] [].

Definition pending_on (parent : Z) : PendingData :=
  mkPendingData (PendingBlockOrDeprecated_Deprecated
      (mkDeprecatedPendingBlock None parent ClientBlockStatus_Pending 1 2 [] 7 6 [pending_receipt] [48]))
    (mkPendingStateUpdate 5 pending_changes).

Definition demo_server : JsonRpcServerImpl :=
  mkJsonRpcServerImpl 100 10 (mkBlockHashAndNumber 0 0) None (pending_on 101) default_PendingClasses.

(** The events of contract 7 with first key 1, one by one. *)
Definition demo_filter : EventFilter := mkEventFilter None None None 1 (Some 7) [{[ 1 ]}].

Lemma demo_filter_ok : filter_ok demo_filter demo_server.
Proof. split; done || (cbn; lia). Qed.

Lemma events_paged_witness :
  sync_rel synced two_headers two_bodies two_diffs /\
  all_pages 4 10 demo_server demo_filter synced =
    Done synced (from_index ((0, 0), 0) (stream demo_filter two_headers two_bodies two_diffs demo_server 2)).*2 /\
  length (from_index ((0, 0), 0) (stream demo_filter two_headers two_bodies two_diffs demo_server 2)) = 3%nat.
Proof.
  assert (Hn : length (from_index ((0, 0), 0) (stream demo_filter two_headers two_bodies two_diffs demo_server 2)) = 3%nat)
    by (vm_compute; reflexivity).
  split; [exact synced_rel|]. split; [|exact Hn].
  apply (events_paged synced two_headers two_bodies two_diffs demo_server demo_filter 0 2 4 10 synced_rel);
    [reflexivity|reflexivity|exact demo_filter_ok|reflexivity|reflexivity|reflexivity|reflexivity|vm_compute; lia|rewrite Hn; lia].
Defined.

Lemma state_methods_answer_witness :
  rpc_get_storage_at demo_server 7 10 (BlockId_HashOrNumber (RpcBlockHashOrNumber_Hash 100)) synced = Done synced 11 /\
  rpc_get_storage_at demo_server 7 10 (BlockId_Tag Tag_Pending) synced = Done synced 13 /\
  get_class_hash_at_block demo_server (BlockId_Tag Tag_Pending) 9 synced = Done synced 60 /\
  get_nonce demo_server (BlockId_Tag Tag_Latest) 7 synced = Done synced 1.
Proof.
  assert (Hd : forall id d, pending_diff two_headers two_diffs demo_server id = Some d -> pending_disjoint d).
  { intros id d. unfold pending_diff. destruct (is_pending id); [|done]. intros [= <-] c r _ Hr. by apply not_elem_of_nil in Hr. }
  assert (Hw : forall id a k, block_id_ok id -> _) by
    exact (fun id a k Hok => state_methods_answer synced two_headers two_bodies two_diffs demo_server id a k synced_rel eq_refl Hok (Hd id)).
  split; [exact (proj1 (Hw (BlockId_HashOrNumber (RpcBlockHashOrNumber_Hash 100)) 7 10 I))|].
  split; [exact (proj1 (Hw (BlockId_Tag Tag_Pending) 7 10 I))|].
  split; [exact (proj1 (proj2 (Hw (BlockId_Tag Tag_Pending) 9 0 I)))|exact (proj2 (proj2 (Hw (BlockId_Tag Tag_Latest) 7 0 I)))].
Defined.

Lemma state_updates_answer_witness :
  exists update d', get_state_update demo_server (BlockId_Tag Tag_Latest) synced = Done synced (RpcStateUpdate_AcceptedStateUpdate update) /\
    AcceptedStateUpdate_block_hash update = 101 /\ AcceptedStateUpdate_new_root update = 5 /\ AcceptedStateUpdate_old_root update = 5 /\
    AcceptedStateUpdate_state_diff update = RpcThinStateDiff_from d' /\ diff_storage d' (7, 10) = Some 12.
Proof.
  destruct (state_updates_answer synced two_headers two_bodies two_diffs demo_server (BlockId_Tag Tag_Latest) 1 (thin_of writing))
    as (update & d' & Hrun & Hh & Hnew & Hold & Hd & _ & Hsame);
    [exact synced_rel|reflexivity| |exact I|reflexivity|reflexivity|reflexivity|].
  { intros x [= <-]. cbn. set_solver. }
  exists update, d'. split; [exact Hrun|]. split; [exact Hh|]. split; [exact Hnew|]. split; [exact Hold|]. split; [exact Hd|].
  exact (proj1 (Hsame 7 10)).
Defined.

Lemma blocks_answer_witness :
  exists shown, Forall2 (shows synced) (body_items (demo_body 1101)) shown /\
    get_block_w_full_transactions demo_server (BlockId_HashOrNumber (RpcBlockHashOrNumber_Number 1)) synced =
      Done synced (shown_block synced two_headers 1 (Transactions_Full shown)) /\
    get_block_w_full_transactions demo_server (BlockId_HashOrNumber (RpcBlockHashOrNumber_Number 2)) synced = Fail synced BLOCK_NOT_FOUND.
Proof.
  assert (Hsize : forall body, body ∈ two_bodies -> zlength body < 2 ^ 64).
  { unfold two_bodies. intros body Hin. apply elem_of_cons in Hin as [->|Hin]; [done|]. apply list_elem_of_singleton in Hin as ->. done. }
  pose proof (blocks_answer synced two_headers two_bodies two_diffs demo_server (BlockId_HashOrNumber (RpcBlockHashOrNumber_Number 1))
    synced_rel eq_refl Hsize ltac:(cbn; lia) eq_refl) as (body & shown & Hbody & Hshown & _ & Hfull & _).
  change (resolve _ _ _) with (Some 1) in *. injection Hbody as <-. exists shown. split; [exact Hshown|]. split; [exact Hfull|].
  pose proof (blocks_answer synced two_headers two_bodies two_diffs demo_server (BlockId_HashOrNumber (RpcBlockHashOrNumber_Number 2))
    synced_rel eq_refl Hsize ltac:(cbn; lia) eq_refl) as (_ & Hno & _). exact Hno.
Defined.

Lemma receipts_answer_witness :
  exists output shown, shows_output synced (StorageWitnesses.demo_transaction, StorageWitnesses.demo_output, 1101) output /\
    get_transaction_receipt demo_server 1101 synced = Done synced
      (GeneralTransactionReceipt_TransactionReceipt (shown_receipt synced two_headers (1, 0) 1101 output)) /\
    get_block_w_full_transactions_and_receipts demo_server (BlockId_Tag Tag_Latest) synced =
      Done synced (shown_block synced two_headers 1 (Transactions_FullWithReceipts shown)).
Proof.
  destruct (receipts_answer synced two_headers two_bodies two_diffs demo_server (BlockId_Tag Tag_Latest) 1 (body_items (demo_body 1101)))
    as [Hreceipts Hblock]; [exact synced_rel|reflexivity|exact I|reflexivity|reflexivity|reflexivity|by repeat constructor|].
  destruct (Hreceipts 0 (StorageWitnesses.demo_transaction, StorageWitnesses.demo_output, 1101) eq_refl) as [Hr _].
  destruct (Hr ltac:(discriminate)) as (output & Ho & Hrun).
  destruct Hblock as (shown & Hshown & _); [by repeat constructor|].
  exists output, shown. split; [exact Ho|]. split; [exact Hrun|exact Hshown].
Defined.

Definition demo_invoke : RpcInvokeTransaction := RpcInvokeTransaction_Version3
  (mkRpcInvokeTransactionV3 7 [1] TransactionVersion3_Version3OnlyQuery [] 0 (mkRpcResourceBoundsMapping (mkResourceBounds 1 2) (mkResourceBounds 3 4))
    5 [] [] DataAvailabilityMode_L2 DataAvailabilityMode_L1).

Definition demo_deploy : RpcDeployAccountTransaction :=
  RpcDeployAccountTransaction_Version1 (mkRpcDeployAccountTransactionV1 1 [] 0 50 3 [] TransactionVersion1_Version1).

Definition demo_stored : InvokeTransaction := InvokeTransaction_from_rpc demo_invoke.

Lemma rpc_transactions_roundtrip_witness :
  exists tx, RpcInvokeTransaction_try_from demo_stored synced = Done synced tx /\ InvokeTransaction_from_rpc tx = demo_stored.
Proof.
  destruct (rpc_transactions_roundtrip synced demo_invoke demo_deploy demo_stored (DeployAccountTransaction_from_rpc demo_deploy))
    as (_ & _ & Hstored & _). apply Hstored. split; by eexists.
Defined.

(** ** Answers that may surprise *)

(** A contract deployed in the pending block has a class there, but neither a nonce nor
    a storage that is zero. *)
Example pending_contract_not_found :
  get_class_hash_at_block demo_server (BlockId_Tag Tag_Pending) 9 synced = Done synced 60 /\
  get_nonce demo_server (BlockId_Tag Tag_Pending) 9 synced = Fail synced CONTRACT_NOT_FOUND /\
  rpc_get_storage_at demo_server 9 0 (BlockId_Tag Tag_Pending) synced = Fail synced CONTRACT_NOT_FOUND.
Proof. repeat split; vm_compute; reflexivity. Qed.

Definition with_chunk (n : Z) (from : option BlockId) (token : option rstring) : EventFilter := mkEventFilter from None token n (Some 7) [].

(** A page of size zero is empty and has a token for the event it started at, again and
    again. *)
Example zero_chunk_no_progress :
  let first := mkEventsChunk [] (Some [0; 0; 0]) in
  get_events 10 demo_server (with_chunk 0 None None) synced = Done synced first /\
  get_events 10 demo_server (with_chunk 0 None (EventsChunk_continuation_token first)) synced = Done synced first.
Proof. split; vm_compute; reflexivity. Qed.

(** The index in a token is not compared with the range of the filter. *)
Example token_before_range :
  exists chunk, get_events 10 demo_server (with_chunk 10 (Some (BlockId_Tag Tag_Latest)) (Some [0; 0; 0])) synced = Done synced chunk /\
    (RpcEvent_block_number <$> EventsChunk_events chunk) = [Some 0; Some 1; None].
Proof. eexists. split; [vm_compute; reflexivity|]. reflexivity. Qed.

(** A transaction of a block whose state diff is not stored is found by its hash, though
    the block is not. *)
Example transaction_before_its_block :
  (exists shown, get_transaction_by_hash demo_server 1101 one_diff = Done one_diff shown) /\
  get_block_transaction_count demo_server (BlockId_HashOrNumber (RpcBlockHashOrNumber_Number 1)) one_diff = Fail one_diff BLOCK_NOT_FOUND.
Proof. split; [eexists|]; vm_compute; reflexivity. Qed.

(** A transaction that is marked as a query is sent to the gateway as one to execute,
    and its data availability modes are not sent. *)
Example query_sent_to_gateway :
  match WriterInvokeTransaction_from demo_invoke with
  | WriterInvokeTransaction_InvokeV3 tx =>
      InvokeV3Transaction_version tx = 3 /\ InvokeV3Transaction_nonce_data_availability_mode tx = WriterReservedDataAvailabilityMode_Reserved
  | _ => False
  end.
Proof. done. Qed.

(** In the pending block a full page has a token even when no event that passes the
    filter is left: the next page is empty. *)
Example token_without_more_events :
  exists chunk token, get_events 10 demo_server (with_chunk 3 None None) synced = Done synced chunk /\
    zlength (EventsChunk_events chunk) = 3 /\ EventsChunk_continuation_token chunk = Some token /\
    get_events 10 demo_server (with_chunk 3 None (Some token)) synced = Done synced no_events.
Proof. eexists _, [2; 0; 1]. repeat split; vm_compute; reflexivity. Qed.
