(* ===== verification/HashWitnesses.v ===== *)
(** * The hashes at concrete values

    An instance of the crates the hashes are computed with, the theorems of
    [HashProps.v] and [BlockHashProps.v] at concrete transactions, headers, bodies,
    state diffs and classes, and examples of what the hashes leave out. *)

From stdpp Require Import base gmap list strings fin_maps.
From Stdlib Require Import ZArith Lia.
From S2P Require Import Prelude StarknetTypes StorageTxn Header Body Serde SerdeLaws ProtoCommon ProtoLaws ProtoTxnProps ProtoWitnesses.
From S2P Require Import RpcConvert Hashes HashProps BlockHashProps.

#[local] Open Scope string_scope.
#[local] Open Scope Z_scope.
#[local] Open Scope list_scope.
#[local] Existing Instance stark_felt.
#[local] Existing Instance stark_spec.
#[local] Existing Instance no_json.

(** ** Hexadecimal *)

Definition hex_digit (d : Z) : Z := if d <? 10 then 48 + d else 87 + d.

Definition digit_value (ch : Z) : option Z :=
  if between 48 57 ch then Some (ch - 48) else if between 97 102 ch then Some (ch - 87) else None.

Fixpoint hex_value (acc : Z) (s : list Z) : option Z :=
  match s with
  | [] => Some acc
  | ch :: s => d ← digit_value ch; hex_value (acc * 16 + d) s
  end.

Definition strip_prefix (s : list Z) : list Z :=
  match s with
  | a :: b :: s' => if (a =? 48) && (b =? 120) then s' else s
  | _ => s
  end.

Definition parse_hex (s : list Z) : option Z :=
  v ← hex_value 0 (strip_prefix s); if v <? PRIME then Some v else None.

Definition encode_hex (bs : list Z) : list Z := bs ≫= fun b => [hex_digit (b / 16); hex_digit (b mod 16)].

Lemma digit_value_hex d : 0 <= d < 16 -> digit_value (hex_digit d) = Some d.
Proof.
  intros Hd. unfold digit_value, hex_digit, between. destruct (Z.ltb_spec d 10).
  - rewrite (proj2 (Z.leb_le 48 _)), (proj2 (Z.leb_le _ 57)) by lia. cbn. f_equal. lia.
  - rewrite (proj2 (Z.leb_gt (87 + d) 57)), andb_false_r by lia. rewrite (proj2 (Z.leb_le 97 _)), (proj2 (Z.leb_le _ 102)) by lia. cbn. f_equal. lia.
Qed.

Lemma hex_value_encode bs acc : Forall is_byte bs -> hex_value acc (encode_hex bs) = Some (acc * 256 ^ zlength bs + be_value bs).
Proof.
  intros H. revert acc. induction H as [|b bs Hb Hbs IH]; intros acc.
  - cbn [encode_hex mbind list_bind hex_value]. f_equal. unfold be_value, zlength. cbn [length foldl Z.of_nat]. lia.
  - unfold is_byte in Hb. change (encode_hex (b :: bs)) with (hex_digit (b / 16) :: hex_digit (b mod 16) :: encode_hex bs). cbn [hex_value].
    rewrite !digit_value_hex by (pose proof (Z.div_mod b 16); pose proof (Z.mod_pos_bound b 16); lia). cbn [mbind option_bind]. rewrite IH. f_equal.
    rewrite be_value_cons. unfold zlength. cbn [length]. rewrite Nat2Z.inj_succ, Z.pow_succ_r by lia. replace ((acc * 16 + b / 16) * 16 + b mod 16) with (acc * 256 + b) by (pose proof (Z.div_mod b 16); lia). ring.
Qed.

Lemma strip_encoded bs : Forall is_byte bs -> strip_prefix (encode_hex bs) = encode_hex bs.
Proof.
  intros [|b bs' Hb _]; [done|]. unfold is_byte in Hb. change (encode_hex (b :: bs')) with (hex_digit (b / 16) :: hex_digit (b mod 16) :: encode_hex bs').
  cbn [strip_prefix]. assert (Hx : hex_digit (b mod 16) =? 120 = false).
  { apply Z.eqb_neq. unfold hex_digit. pose proof (Z.mod_pos_bound b 16). case_cmp; lia. }
  by rewrite Hx, andb_false_r.
Qed.

(** ** The crates *)

#[local] Instance plain_crates : RpcCrates := {|
  declare_transaction_version tx :=
    match tx with DeclareTransaction_V0 _ => 0 | DeclareTransaction_V1 _ => 1 | DeclareTransaction_V2 _ => 2 | DeclareTransaction_V3 _ => 3 end;
  deploy_account_transaction_version tx := match tx with DeployAccountTransaction_V1 _ => 1 | DeployAccountTransaction_V3 _ => 3 end;
  invoke_transaction_version tx := match tx with InvokeTransaction_V0 _ => 0 | InvokeTransaction_V1 _ => 1 | InvokeTransaction_V3 _ => 3 end;
  transaction_output_actual_fee _ := 0;
  encode_packed l := Some (concat l);
  keccak256 bytes := bytes;
  program_to_value _ := Some tt;
  felts_to_value _ := Some tt;
  json_is_null _ := false;
  json_remove _ v := Some v;
  json_to_bytes _ := Some [];
  event_index_to_string i := Some [i.1.1; i.1.2; i.2];
  event_index_from_str s := match s with [b; i; j] => Some ((b, i), j) | _ => None end;
  gzip := Some;
  base64_encode bytes := bytes
|}.

#[local] Instance plain_crates_spec : RpcCratesSpec.
Proof. split; try done. intros [[b i] j]. by exists [b; i; j]. Qed.

(** A polynomial in the field, and its variants. *)
Definition poly (seed : Z) (l : list Z) : Z := foldl (fun acc x => (acc * 1000003 + x + 1) mod PRIME) seed l.

(** [true] is mainnet. *)
#[local] Instance poly_crates : HashCrates := {|
  StarknetApiError := rstring;
  StarknetApiError_OutOfRange s := s;
  ChainId := bool;
  ChainId_eq_dec := _;
  ChainId_Mainnet := true;
  chain_id_to_string id := str_bytes (if id then "SN_MAIN" else "SN_SEPOLIA");
  pedersen_hash_array := poly 3;
  pedersen_hash x y := poly 5 [x; y];
  poseidon_hash_array := poly 7;
  calculate_root := poly 11;
  sha3_keccak256 data := be_bytes 32 (poly 13 data);
  calculate_contract_address salt class calldata deployer := inl (poly 17 (salt :: class :: deployer :: calldata) mod 2 ^ 251);
  contract_address_from_u8 z := z;
  default_SequencerContractAddress := 0;
  hex_encode := encode_hex;
  felt_from_hex := parse_hex;
  felt_from_hex_unchecked s := default 0 (parse_hex s);
  felt_from_bytes_be_slice bs := be_value bs mod PRIME;
  felt_add a b := (a + b) mod PRIME;
  felt_from_da_mode m := match m with DataAvailabilityMode_L1 => 0 | DataAvailabilityMode_L2 => 1 end;
  declare_signature tx :=
    match tx with
    | DeclareTransaction_V0 t | DeclareTransaction_V1 t => DeclareTransactionV0V1_signature t
    | DeclareTransaction_V2 t => DeclareTransactionV2_signature t
    | DeclareTransaction_V3 t => DeclareTransactionV3_signature t
    end;
  invoke_signature tx :=
    match tx with
    | InvokeTransaction_V0 t => InvokeTransactionV0_signature t
    | InvokeTransaction_V1 t => InvokeTransactionV1_signature t
    | InvokeTransaction_V3 t => InvokeTransactionV3_signature t
    end
|}.

#[local] Instance poly_spec : HashCratesSpec.
Proof.
  split.
  - intros z Hz. cbn. unfold PRIME. lia.
  - intros bs Hne Hbs Hl. cbn. unfold parse_hex. rewrite strip_encoded, hex_value_encode by done. cbn [mbind option_bind].
    rewrite Z.mul_0_l, Z.add_0_l. pose proof (be_value_range bs Hbs) as Hr.
    assert (256 ^ zlength bs <= 256 ^ 31) by (apply Z.pow_le_mono_r; lia).
    rewrite (proj2 (Z.ltb_lt _ _)); [done|]. unfold PRIME. lia.
  - intros a b Ha Hb Hab. cbn. apply Z.mod_small. unfold PRIME. lia.
  - by vm_compute.
Qed.

Definition mainnet : ChainId (HashCrates := poly_crates) := true.
Definition sepolia : ChainId (HashCrates := poly_crates) := false.

(** ** Transactions *)

Definition demo_bounds : gmap Resource ResourceBounds :=
  {[Resource_L1Gas := mkResourceBounds 100 7; Resource_L2Gas := mkResourceBounds 0 0]}.

(** A transaction with its signature left open. *)
Definition invoke_signed (signature : list Z) : Transaction :=
  Transaction_Invoke (InvokeTransaction_V3 (mkInvokeTransactionV3 demo_bounds 2 signature 5 1234 [1; 2; 3]
    DataAvailabilityMode_L1 DataAvailabilityMode_L2 [] [])).

Definition no_options : TransactionOptions := mkTransactionOptions false.

Lemma invoke_signed_typed s : Forall ProtoCommon.is_felt s -> typed_Transaction (invoke_signed s).
Proof.
  intros Hs. cbn. unfold typed_InvokeV3. cbn. split; [|by repeat split; repeat constructor].
  unfold typed_bounds, demo_bounds. intros [] b; cbn; intros [= <-]; done.
Qed.

Definition runs {E A} (m : Hashing E A) : list HashQuery := match m [] with Done log _ => log | _ => [] end.
Definition result {E A} (m : Hashing E A) (d : A) : A := match m [] with Done _ a => a | _ => d end.

Lemma accepted_run {E} (m : Hashing E bool) : result m false = true -> m [] = Done (runs m) true.
Proof. unfold result, runs. destruct (m []) as [log b|log e|]; [|done..]. by intros ->. Qed.

Lemma panicking_run {E A} (m : Hashing E A) : match m [] with Panic => true | _ => false end = true -> m [] = Panic.
Proof. by destruct (m []). Qed.

(** Check that a log has no collision. *)
Ltac by_collision_check := apply (bool_decide_unpack _); vm_compute; exact I.

Lemma transaction_hash_binds_witness :
  signed_part (invoke_signed [8; 9]) = signed_part (invoke_signed [10]).
Proof.
  eapply (transaction_hash_binds (invoke_signed [8; 9]) (invoke_signed [10]) mainnet no_options no_options
    (runs (get_transaction_hash (invoke_signed [8; 9]) mainnet no_options))
    (runs (get_transaction_hash (invoke_signed [10]) mainnet no_options))
    (result (get_transaction_hash (invoke_signed [10]) mainnet no_options) 0)).
  - apply invoke_signed_typed. by repeat constructor.
  - apply invoke_signed_typed. by repeat constructor.
  - vm_compute. reflexivity.
  - vm_compute. reflexivity.
  - by_collision_check.
Defined.

(** A handler of a message from L1 had, as an invocation, the hash of that
    invocation: the two are told apart only by the forms used later. *)
Example l1_handler_as_invoke :
  let handler := mkL1HandlerTransaction 0 3 77 88 [1; 2] in
  let invoke := mkInvokeTransactionV0 10 [] 77 88 [1; 2] in
  result (get_deprecated_l1_handler_transaction_hashes handler mainnet 0) [] !! 0%nat =
    Some (result (get_deprecated_invoke_transaction_v0_hash invoke mainnet 0) 0) /\
  result (get_l1_handler_transaction_hash handler mainnet 0) 0 <> result (get_invoke_transaction_v0_hash invoke mainnet 0) 0.
Proof. split; [reflexivity|]. vm_compute. discriminate. Qed.

(** Block 1470 of mainnet still accepts the old forms, although the constant is
    documented as the first block without them. *)
Example old_form_in_block_1470 :
  let invoke := Transaction_Invoke (InvokeTransaction_V0 (mkInvokeTransactionV0 10 [] 77 88 [1; 2])) in
  let old := result (get_deprecated_invoke_transaction_v0_hash (mkInvokeTransactionV0 10 [] 77 88 [1; 2]) mainnet 0) 0 in
  result (validate_transaction_hash invoke MAINNET_TRANSACTION_HASH_WITH_VERSION mainnet old no_options) false = true /\
  result (validate_transaction_hash invoke (MAINNET_TRANSACTION_HASH_WITH_VERSION + 1) mainnet old no_options) true = false.
Proof. split; vm_compute; reflexivity. Qed.

Definition mainnet_felt : Z := default 0 (parse_hex (encode_hex (str_bytes "SN_MAIN"))).
Definition sepolia_felt : Z := default 0 (parse_hex (encode_hex (str_bytes "SN_SEPOLIA"))).

Lemma transaction_hash_validated_witness :
  exists current log log' b,
    get_transaction_hash (invoke_signed [8]) sepolia no_options [] = Done log current /\
    validate_transaction_hash (invoke_signed [8]) 9 sepolia 5 no_options [] = Done log' b /\
    (b = true <-> 5 = current \/ ~ recent_on_mainnet sepolia 9 /\ 5 ∈ pedersen_hash_array <$> old_forms (invoke_signed [8]) sepolia_felt).
Proof.
  apply (transaction_hash_validated (invoke_signed [8]) sepolia sepolia_felt no_options).
  - vm_compute. reflexivity.
  - exact I.
  - split; by eexists.
Defined.

(** ** Headers *)

Definition header_with (hash timestamp sequencer : Z) : BlockHeader := {|
  BlockHeader_block_hash := hash; BlockHeader_parent_hash := 40; BlockHeader_block_number := 41;
  BlockHeader_l1_gas_price := mkGasPricePerToken 1 2; BlockHeader_l1_data_gas_price := mkGasPricePerToken 1 2;
  BlockHeader_state_root := 42; BlockHeader_sequencer := sequencer; BlockHeader_timestamp := timestamp;
  BlockHeader_l1_da_mode := L1DataAvailabilityMode_Blob; BlockHeader_state_diff_commitment := None;
  BlockHeader_transaction_commitment := Some 43; BlockHeader_event_commitment := Some 44;
  BlockHeader_receipt_commitment := None; BlockHeader_state_diff_length := None; BlockHeader_n_transactions := 2;
  BlockHeader_n_events := 3; BlockHeader_starknet_version := [] |}.

(** A header with the hash of a version. *)
Definition header_of (v : BlockHashVersion) (timestamp sequencer : Z) : BlockHeader :=
  header_with (pedersen_hash_array (version_preimage (header_with 0 timestamp sequencer) 43 44 mainnet_felt v)) timestamp sequencer.

Lemma header_validation_exact_witness :
  exists log, validate_header (header_of BlockHashVersion_V3 100 45) mainnet [] = Done log true.
Proof.
  apply (header_validation_exact mainnet mainnet_felt eq_refl (header_of BlockHashVersion_V3 100 45)); [by repeat split|].
  vm_compute. reflexivity.
Defined.

Lemma validated_headers_agree_witness :
  BlockHeader_state_root (header_of BlockHashVersion_V0 100 45) = BlockHeader_state_root (header_of BlockHashVersion_V0 200 45).
Proof.
  apply (validated_headers_agree mainnet mainnet_felt eq_refl (header_of BlockHashVersion_V0 100 45) (header_of BlockHashVersion_V0 200 45)
    (runs (validate_header (header_of BlockHashVersion_V0 100 45) mainnet))
    (runs (validate_header (header_of BlockHashVersion_V0 200 45) mainnet))).
  - by repeat split.
  - by repeat split.
  - vm_compute. reflexivity.
  - apply accepted_run. vm_compute. reflexivity.
  - apply accepted_run. vm_compute. reflexivity.
  - by_collision_check.
Defined.

(** A header of version 0 without sequencer: accepted on mainnet, a panic on another
    chain, whose version 0 is never tried. *)
Example old_header_off_mainnet :
  let h c := header_with (pedersen_hash_array (version_preimage (header_with 0 100 0) 43 44 c BlockHashVersion_V0)) 100 0 in
  result (validate_header (h mainnet_felt) mainnet) false = true /\ validate_header (h sepolia_felt) sepolia [] = Panic.
Proof. split; [vm_compute; reflexivity|apply panicking_run; vm_compute; reflexivity]. Qed.

(** ** Bodies *)

(** The second transaction with its data left open: the leaf has its hash only. *)
Definition body_with (calldata : list Z) : BlockBody :=
  mkBlockBody [invoke_signed [8; 9]; Transaction_L1Handler (mkL1HandlerTransaction 0 3 77 88 calldata)] [demo_output] [500; 501].

Definition demo_tc : Z := result (calculate_transaction_commitment_by_version (body_with [1]) BlockHashVersion_V3) 0.
Definition demo_ec : Z :=
  result (E := unit) (calculate_event_commitment_by_version (BlockBody_transaction_outputs (body_with [1])) BlockHashVersion_V3) 0.

Lemma validated_bodies_agree_witness :
  exists v1 v2, accepting_version (body_with [1]) demo_tc demo_ec = Some v1 /\ accepting_version (body_with [2]) demo_tc demo_ec = Some v2 /\
    BlockBody_transaction_hashes (body_with [1]) = BlockBody_transaction_hashes (body_with [2]) /\
    covered_signature v1 <$> BlockBody_transactions (body_with [1]) = covered_signature v2 <$> BlockBody_transactions (body_with [2]) /\
    (demo_ec <> ZERO -> body_events (body_with [1]) = body_events (body_with [2])).
Proof.
  apply (validated_bodies_agree (body_with [1]) (body_with [2]) demo_tc demo_ec
    (runs (validate_body (body_with [1]) demo_tc demo_ec)) (runs (validate_body (body_with [2]) demo_tc demo_ec))).
  - reflexivity.
  - reflexivity.
  - apply accepted_run. vm_compute. reflexivity.
  - apply accepted_run. vm_compute. reflexivity.
  - by_collision_check.
Defined.

(** ** State diffs and classes *)

(** A contract deployed and another replaced, in two orders. *)
Definition diff_a : ThinStateDiff := mkThinStateDiff [(9, 50); (7, 51)] [(7, [(1, 2); (3, 4)]); (9, [])] [(60, 61)] [62] [(7, 1)] [(8, 52)].
Definition diff_b : ThinStateDiff := mkThinStateDiff [(8, 52); (9, 50); (7, 51)] [(7, [(1, 2); (3, 4)]); (9, [])] [(60, 61)] [62] [(7, 1)] [].

Lemma state_diff_commitment_exact_witness :
  result (E := unit) (calculate_state_diff_commitment diff_a StateDiffVersion_V0) 0 =
    result (E := unit) (calculate_state_diff_commitment diff_b StateDiffVersion_V0) 0 <-> same_diff diff_a diff_b.
Proof.
  apply (state_diff_commitment_exact unit diff_a diff_b (runs (E := unit) (calculate_state_diff_commitment diff_a StateDiffVersion_V0))
    (runs (E := unit) (calculate_state_diff_commitment diff_b StateDiffVersion_V0))).
  - by repeat split; repeat constructor.
  - by repeat split; repeat constructor.
  - apply (bool_decide_unpack _). vm_compute. exact I.
  - vm_compute. reflexivity.
  - vm_compute. reflexivity.
  - by_collision_check.
Defined.

Definition class_without_list : ContractClass := mkContractClass [1; 2; 3] {[EntryPointType_External := [mkEntryPoint 4 5]]} [91; 93].
Definition class_with_list : ContractClass :=
  mkContractClass [1; 2; 3] {[EntryPointType_External := [mkEntryPoint 4 5]; EntryPointType_Constructor := []]} [91; 93].

Lemma class_hash_binds_witness : ContractClass_abi class_without_list = ContractClass_abi class_with_list.
Proof.
  apply (class_hash_binds unit class_without_list class_with_list (runs (E := unit) (calculate_class_hash class_without_list))
    (runs (E := unit) (calculate_class_hash class_with_list)) (result (E := unit) (calculate_class_hash class_with_list) 0)).
  - intros []; by repeat constructor.
  - intros []; by repeat constructor.
  - vm_compute. reflexivity.
  - vm_compute. reflexivity.
  - by_collision_check.
Defined.
