(* ===== verification/Config.v ===== *)
(** * The configuration of the node

    Models [crates/papyrus_config/src/]: [dumping.rs] writes a configuration as a
    flat map from the path of a parameter to its default value, its type or the
    parameter it points to; [loading.rs] and [command.rs] read such a file, apply
    custom files, environment and command line, resolve pointers and optional
    parameters and build the nested object; [presentation.rs] hides what is private;
    [converters.rs] and [validators.rs] are the helpers for single fields.

    A path is a [string]; a [BTreeMap] is the list of its entries in the order of
    the keys. The crates [serde_json] and [clap] are parameters. *)

From stdpp Require Import base gmap list fin_maps strings pretty.
From Stdlib Require Import ZArith Lia String Ascii.
From S2P Require Import Prelude.

#[local] Open Scope string_scope.
#[local] Open Scope Z_scope.

(** ** Maps ordered by their keys *)

Abbreviation BTreeMap V := (list (string * V)) (only parsing).

Fixpoint bt_insert {V} (k : string) (v : V) (m : BTreeMap V) : BTreeMap V :=
  match m with
  | [] => [(k, v)]
  | (k', v') :: m' =>
      match String.compare k k' with
      | Lt => (k, v) :: m
      | Eq => (k, v) :: m'
      | Gt => (k', v') :: bt_insert k v m'
      end
  end.

Fixpoint bt_get {V} (m : BTreeMap V) (k : string) : option V :=
  match m with
  | [] => None
  | (k', v) :: m' => if String.eqb k' k then Some v else bt_get m' k
  end.

(** [BTreeMap::remove]: the map without the key. *)
Definition bt_remove {V} (k : string) (m : BTreeMap V) : BTreeMap V := base.filter (fun e => e.1 <> k) m.

(** [collect()] into a map, and [chain!] of maps collected. *)
Definition bt_from_iter {V} (entries : list (string * V)) : BTreeMap V := foldl (fun m e => bt_insert e.1 e.2 m) [] entries.

(** ** Strings *)

(** [str::split(c)]. *)
Fixpoint split_char (c : ascii) (s : string) : list string :=
  match s with
  | EmptyString => [""]
  | String a s' =>
      if Ascii.eqb a c then "" :: split_char c s'
      else match split_char c s' with
           | w :: ws => String a w :: ws
           | [] => [String a ""]
           end
  end.

(** [str::starts_with]. *)
Definition starts_with (s prefix : string) : bool := String.prefix prefix s.

(** [str::strip_suffix]. *)
Definition strip_suffix (s suffix : string) : option string :=
  let n := (String.length s - String.length suffix)%nat in
  if (String.length suffix <=? String.length s)%nat && String.eqb (String.substring n (String.length suffix) s) suffix
  then Some (String.substring 0 n s) else None.

(** [str::replace] of a pattern that is not empty; [fuel] is the length of the text. *)
Fixpoint replace_loop (fuel : nat) (from to s : string) : string :=
  match fuel, s with
  | O, _ | _, EmptyString => s
  | S fuel, String a s' =>
      if String.prefix from s
      then to ++ replace_loop fuel from to (String.substring (String.length from) (String.length s - String.length from) s)
      else String a (replace_loop fuel from to s')
  end.

Definition str_replace (s from to : string) : string := replace_loop (String.length s) from to s.

(** [char::to_uppercase] on the letters of a parameter path. *)
Definition ascii_uppercase (a : ascii) : ascii :=
  let n := nat_of_ascii a in if ((97 <=? n) && (n <=? 122))%nat then ascii_of_nat (n - 32) else a.

Fixpoint to_uppercase (s : string) : string :=
  match s with
  | EmptyString => EmptyString
  | String a s' => String (ascii_uppercase a) (to_uppercase s')
  end.

(** [join(sep)]. *)
Fixpoint join (sep : string) (l : list string) : string :=
  match l with
  | [] => ""
  | [s] => s
  | s :: l' => s ++ sep ++ join sep l'
  end.

(** ** [serde_json] *)

Class JsonNumberApi : Type := {
  JsonNumber : Type;
  (** The number of an unsigned integer. *)
  number_from_usize : Z -> JsonNumber
}.

(** [serde_json::Value]; an object is a [Map], ordered by its keys. *)
Inductive Value {JN : JsonNumberApi} : Type :=
| Value_Null
| Value_Bool (b : bool)
| Value_Number (n : JsonNumber)
| Value_String (s : string)
| Value_Array (l : list Value)
| Value_Object (m : list (string * Value)).

Section Config.
Context {JN : JsonNumberApi}.

(** ** [lib.rs] *)

Definition IS_NONE_MARK : string := "#is_none".

Inductive ParamPrivacyInput : Type :=
| ParamPrivacyInput_Private
| ParamPrivacyInput_Public.

Inductive ParamPrivacy : Type :=
| ParamPrivacy_Private
| ParamPrivacy_Public
| ParamPrivacy_TemporaryValue.

Definition ParamPrivacy_from (user_param_privacy : ParamPrivacyInput) : ParamPrivacy :=
  match user_param_privacy with
  | ParamPrivacyInput_Private => ParamPrivacy_Private
  | ParamPrivacyInput_Public => ParamPrivacy_Public
  end.

Inductive SerializationType : Type :=
| SerializationType_Number
| SerializationType_Boolean
| SerializationType_String.

Inductive SerializedContent : Type :=
| SerializedContent_DefaultValue (value : Value)
| SerializedContent_PointerTarget (target : string)
| SerializedContent_ParamType (ser_type : SerializationType).

Definition get_serialization_type (self : SerializedContent) : option SerializationType :=
  match self with
  | SerializedContent_DefaultValue (Value_Number _) => Some SerializationType_Number
  | SerializedContent_DefaultValue (Value_Bool _) => Some SerializationType_Boolean
  | SerializedContent_DefaultValue (Value_String _) => Some SerializationType_String
  | SerializedContent_DefaultValue _ => None
  | SerializedContent_PointerTarget _ => None
  | SerializedContent_ParamType ser_type => Some ser_type
  end.

Record SerializedParam : Type := mkSerializedParam {
  SerializedParam_description : string;
  SerializedParam_content : SerializedContent;
  SerializedParam_privacy : ParamPrivacy
}.

(** An error of [validator::ValidationError::new(code)] with its message. *)
Record ValidationError : Type := mkValidationError {
  ValidationError_code : string;
  ValidationError_message : option string;
  (** The text of its parameters. *)
  ValidationError_params : string
}.

Record ParsedValidationError : Type := mkParsedValidationError {
  ParsedValidationError_param_path : string;
  ParsedValidationError_code : string;
  ParsedValidationError_message : option string;
  ParsedValidationError_params : string
}.

(** The errors of other crates without their content. *)
Inductive ConfigError : Type :=
| ConfigError_CommandInput
| ConfigError_MissingParam
| ConfigError_CommandMatches
| ConfigError_IOError
| ConfigError_ParamNotFound (param_path : string)
| ConfigError_PointerTargetNotFound (target_param : string)
| ConfigError_PointerSourceNotFound (pointing_param : string)
| ConfigError_ChangeRequiredParamType (param_path : string) (required : SerializationType) (given : Value)
| ConfigError_ValidationError (e : ValidationError)
| ConfigError_ConfigValidationError (errors : list ParsedValidationError).

(** ** [dumping.rs] *)

(** [json!(value)] of a value that can be serialized. *)
Class ToJson (T : Type) : Type := { json : T -> Value }.

#[global] Instance bool_json : ToJson bool := {| json := Value_Bool |}.
#[global] Instance string_json : ToJson string := {| json := Value_String |}.

(** [trait SerializeConfig]. *)
Class SerializeConfig (T : Type) : Type := { dump : T -> BTreeMap SerializedParam }.

Definition append_sub_config_name (sub_config_dump : BTreeMap SerializedParam) (sub_config_name : string) :
    BTreeMap SerializedParam :=
  bt_from_iter ((fun '(field_name, val) => (sub_config_name ++ "." ++ field_name, val)) <$> sub_config_dump).

Definition common_ser_param (name : string) (content : SerializedContent) (description : string) (privacy : ParamPrivacy) :
    string * SerializedParam :=
  (name, mkSerializedParam description content privacy).

Definition ser_param {T} `{ToJson T} (name : string) (value : T) (description : string) (privacy : ParamPrivacyInput) :
    string * SerializedParam :=
  common_ser_param name (SerializedContent_DefaultValue (json value)) description (ParamPrivacy_from privacy).

Definition ser_required_param (name : string) (serialization_type : SerializationType) (description : string)
    (privacy : ParamPrivacyInput) : string * SerializedParam :=
  common_ser_param name (SerializedContent_ParamType serialization_type) ("A required param! " ++ description)
    (ParamPrivacy_from privacy).

Definition ser_generated_param (name : string) (serialization_type : SerializationType) (description : string)
    (privacy : ParamPrivacyInput) : string * SerializedParam :=
  common_ser_param name (SerializedContent_ParamType serialization_type)
    (description ++ " If no value is provided, the system will generate one.") (ParamPrivacy_from privacy).

Definition ser_is_param_none (name : string) (is_none : bool) : string * SerializedParam :=
  common_ser_param (name ++ "." ++ IS_NONE_MARK) (SerializedContent_DefaultValue (json is_none)) "Flag for an optional field."
    ParamPrivacy_TemporaryValue.

Definition is_none {A} (o : option A) : bool := match o with None => true | Some _ => false end.

Definition ser_optional_sub_config {T} `{SerializeConfig T} (default : T) (optional_config : option T) (name : string) :
    BTreeMap SerializedParam :=
  bt_from_iter
    (bt_from_iter [ser_is_param_none name (is_none optional_config)] ++
     append_sub_config_name (match optional_config with None => dump default | Some config => dump config end) name)%list.

Definition ser_optional_param {T} `{ToJson T} (optional_param : option T) (default_value : T) (name description : string)
    (privacy : ParamPrivacyInput) : BTreeMap SerializedParam :=
  bt_from_iter
    [ser_is_param_none name (is_none optional_param);
     ser_param name (match optional_param with Some param => param | None => default_value end) description privacy].

Definition ser_pointer_target_param {T} `{ToJson T} (name : string) (value : T) (description : string) :
    string * SerializedParam :=
  common_ser_param name (SerializedContent_DefaultValue (json value)) description ParamPrivacy_TemporaryValue.

(** The loops of [combine_config_map_and_pointers], on the map of the parameters. *)
Definition Combining (A : Type) : Type := M (BTreeMap SerializedParam) ConfigError A.

Definition point_to (target_param pointing_param : string) : Combining unit :=
  let! config_map := get in
  let! pointing_serialized_param := ok_or_raise (ConfigError_PointerSourceNotFound pointing_param) (bt_get config_map pointing_param) in
  modify (bt_insert pointing_param
    (mkSerializedParam (SerializedParam_description pointing_serialized_param) (SerializedContent_PointerTarget target_param)
       (SerializedParam_privacy pointing_serialized_param))).

Definition combine_pointers (pointers : list ((string * SerializedParam) * list string)) : Combining unit :=
  for_each pointers (fun '((target_param, serialized_pointer), pointing_params_vec) =>
    modify (bt_insert target_param serialized_pointer) ;!
    for_each pointing_params_vec (point_to target_param)).

(** The derived serialization of a parameter. *)
Class ParamJson : Type := {
  param_to_value : SerializedParam -> Value;
  (** [None]: the value is not a parameter. *)
  param_from_value : Value -> option SerializedParam
}.

Context {PJ : ParamJson}.

(** [json!(config_map)]. *)
Definition map_to_value (config_map : BTreeMap SerializedParam) : Value :=
  Value_Object ((fun '(path, param) => (path, param_to_value param)) <$> config_map).

Definition combine_config_map_and_pointers {S} (config_map : BTreeMap SerializedParam)
    (pointers : list ((string * SerializedParam) * list string)) : M S ConfigError Value :=
  fun s =>
    match combine_pointers pointers config_map with
    | Done config_map _ => Done s (map_to_value config_map)
    | Fail _ e => Fail s e
    | Panic => Panic
    end.

(** The file system: which paths exist, reading a JSON object from a file, and
    writing a value to one. *)
Class ConfigIo : Type := {
  Files : Type;
  path_exists : Files -> string -> bool;
  read_json_map : Files -> string -> BTreeMap Value + ConfigError;
  write_json : Files -> string -> Value -> Files + ConfigError
}.

Context {IO : ConfigIo}.

(** [dump_to_file]: the file is written only when the pointers are resolved. *)
Definition dump_to_file {T} `{SerializeConfig T} (self : T) (config_pointers : list ((string * SerializedParam) * list string))
    (file_path : string) : M Files ConfigError unit :=
  let! combined_map := combine_config_map_and_pointers (dump self) config_pointers in
  let! files := get in
  match write_json files file_path combined_map with
  | inl files => put files
  | inr e => raise e
  end.

(** ** [validators.rs] *)

Definition is_ascii (s : string) : bool := forallb (fun a => (nat_of_ascii a <? 128)%nat) (list_ascii_of_string s).

(** [Ok] is [None]. *)
Definition validate_ascii (name : string) : option ValidationError :=
  if negb (is_ascii name) then Some (mkValidationError "The value is not ASCII" None "") else None.

Definition validate_path_exists (files : Files) (file_path : string) : option ValidationError :=
  if negb (path_exists files file_path)
  then Some (mkValidationError "file or directory not found"
         (Some "Please create the file/directory or change the path in the configuration.") "")
  else None.

Definition validate_vec_u256 (vec : list Z) : option ValidationError :=
  if negb (zlength vec =? 32) then Some (mkValidationError "The value is not a 32 byte vector" None "") else None.

(** The errors of the crate [validator]: per field, those of a nested structure, of
    the elements of a list by their index, or of the field itself. *)
Inductive ValidationErrors : Type :=
| mkValidationErrors (errors : list (string * ValidationErrorsKind))
with ValidationErrorsKind : Type :=
| ValidationErrorsKind_Struct (errors : ValidationErrors)
| ValidationErrorsKind_List (errors : list (Z * ValidationErrors))
| ValidationErrorsKind_Field (errors : list ValidationError).

(** The text of an index, [format!("{index}")]. *)
Definition index_text (n : nat) : string := pretty.pretty n.

Definition parsed_error (path : string) (error : ValidationError) : ParsedValidationError :=
  mkParsedValidationError path (ValidationError_code error) (ValidationError_message error) (ValidationError_params error).

(** [enumerate().map(f)] and the results one after the other. *)
Fixpoint concat_enumerate {A B} (f : nat -> A -> list B) (i : nat) (l : list A) : list B :=
  match l with
  | [] => []
  | a :: l' => (f i a ++ concat_enumerate f (S i) l')%list
  end.

(** The errors it pushes, in order. *)
Fixpoint parse_validation_error (errors : ValidationErrors) (current_path : string) : list ParsedValidationError :=
  match errors with
  | mkValidationErrors fields =>
      (fix go fields :=
         match fields with
         | [] => []
         | (field, error) :: fields' =>
             let new_path := if String.eqb current_path "" then field else current_path ++ "." ++ field in
             (match error with
              | ValidationErrorsKind_Struct errors => parse_validation_error errors new_path
              | ValidationErrorsKind_List errors =>
                  concat_enumerate (fun index error =>
                    parse_validation_error error.2 (new_path ++ "[" ++ index_text index ++ "]")) 0 errors
              | ValidationErrorsKind_Field errors => parsed_error new_path <$> errors
              end ++ go fields')%list
         end) fields
  end.

Definition ParsedValidationErrors_from (errors : ValidationErrors) : list ParsedValidationError := parse_validation_error errors "".

(** [Display] of the errors; the quotes are removed. *)
Definition ParsedValidationErrors_fmt (errors : list ParsedValidationError) : string :=
  let error_string := foldl (fun error_string error =>
    error_string ++ "Configuration error: The field: " ++ ParsedValidationError_param_path error ++ " has an error: " ++
    ParsedValidationError_code error ++ " with value: " ++ ParsedValidationError_params error ++ ", " ++
    default "" (ParsedValidationError_message error) ++ " " ++ String "010" "") "" errors in
  str_replace error_string (String "034" "") "".

(** [config.validate()] has no errors when it is [None]. *)
Definition config_validate {T} (validate : T -> option ValidationErrors) (config : T) : option ConfigError :=
  (fun errors => ConfigError_ConfigValidationError (ParsedValidationErrors_from errors)) <$> validate config.

(** ** [loading.rs] *)

(** [Value::index_mut(key)]: the entry, created if it is missing, and how the value
    is rebuilt when the entry is assigned; [None]: the call panics. *)
Class SerdeJsonApi : Type := { value_index_mut : Value -> string -> option (Value * (Value -> Value)) }.

Context {SJ : SerdeJsonApi}.

(** [*entry = value] at the end of a path of [index_mut]. *)
Fixpoint assign_path (nested : Value) (path : list string) (value : Value) : option Value :=
  match path with
  | [] => Some value
  | config_name :: rest =>
      '(entry, rebuild) ← value_index_mut nested config_name;
      entry ← assign_path entry rest value;
      Some (rebuild entry)
  end.

(** The loop of [load]. *)
Fixpoint nest_entries (nested_map : Value) (config_map : list (string * Value)) : option Value :=
  match config_map with
  | [] => Some nested_map
  | (param_path, value) :: rest =>
      nested_map ← assign_path nested_map (split_char "." param_path) value; nest_entries nested_map rest
  end.

(** What a deserializer returns: [Fail] is its error, and the deserializers of
    [converters.rs] can panic. *)
Definition Deserialized (T : Type) : Type := M unit unit T.

(** [serde_json::from_value(value)?]; [from_value] is the derived [Deserialize] of the
    configuration. *)
Definition deserialize {S T} (from_value : Value -> Deserialized T) (value : Value) : M S ConfigError T := fun s =>
  match from_value value tt with
  | Done _ config => Done s config
  | Fail _ _ => Fail s ConfigError_MissingParam
  | Panic => Panic
  end.

Definition load {S T} (from_value : Value -> Deserialized T) (config_map : BTreeMap Value) : M S ConfigError T :=
  let! nested_map := expect (nest_entries (Value_Object []) config_map) in
  deserialize from_value nested_map.

(** The loop of [split_pointers_map]; [unreachable!] when an entry is not a parameter. *)
Fixpoint split_pointers_loop {S} (json_map : list (string * Value)) (config_map : BTreeMap SerializedParam)
    (pointers_map : BTreeMap string) : M S ConfigError (BTreeMap SerializedParam * BTreeMap string) :=
  match json_map with
  | [] => ret (config_map, pointers_map)
  | (param_path, stored_param) :: rest =>
      let! ser_param := expect (param_from_value stored_param) in
      match SerializedParam_content ser_param with
      | SerializedContent_PointerTarget pointer_target =>
          split_pointers_loop rest config_map (bt_insert param_path pointer_target pointers_map)
      | _ => split_pointers_loop rest (bt_insert param_path ser_param config_map) pointers_map
      end
  end.

Definition split_pointers_map {S} (json_map : list (string * Value)) :
    M S ConfigError (BTreeMap SerializedParam * BTreeMap string) :=
  split_pointers_loop json_map [] [].

Definition split_values_and_types (config_map : BTreeMap SerializedParam) : BTreeMap Value * BTreeMap SerializationType :=
  foldl (fun '(values_map, types_map) '(param_path, serialized_param) =>
    match get_serialization_type (SerializedParam_content serialized_param) with
    | None => (values_map, types_map)
    | Some serialization_type =>
        let types_map := bt_insert param_path serialization_type types_map in
        match SerializedParam_content serialized_param with
        | SerializedContent_DefaultValue value => (bt_insert param_path value values_map, types_map)
        | _ => (values_map, types_map)
        end
    end) ([], []) config_map.

(** Computations that update the values. *)
Definition Loading (A : Type) : Type := M (BTreeMap Value) ConfigError A.

Definition type_matched (serialization_type : SerializationType) (new_value : Value) : bool :=
  match serialization_type, new_value with
  | SerializationType_Number, Value_Number _ => true
  | SerializationType_Boolean, Value_Bool _ => true
  | SerializationType_String, Value_String _ => true
  | _, _ => false
  end.

Definition update_config_map (types_map : BTreeMap SerializationType) (param_path : string) (new_value : Value) : Loading unit :=
  let! serialization_type := ok_or_raise (ConfigError_ParamNotFound param_path) (bt_get types_map param_path) in
  if negb (type_matched serialization_type new_value)
  then raise (ConfigError_ChangeRequiredParamType param_path serialization_type new_value)
  else modify (bt_insert param_path new_value).

Definition update_config_map_by_custom_configs (files : Files) (types_map : BTreeMap SerializationType)
    (custom_config_paths : list string) : Loading unit :=
  for_each custom_config_paths (fun config_path =>
    match validate_path_exists files config_path with
    | Some e => raise (ConfigError_ValidationError e)
    | None => ret tt
    end ;!
    match read_json_map files config_path with
    | inl custom_config => for_each custom_config (fun '(param_path, json_value) => update_config_map types_map param_path json_value)
    | inr e => raise e
    end).

Definition update_config_map_by_pointers (pointers_map : BTreeMap string) : Loading unit :=
  for_each pointers_map (fun '(param_path, target_param_path) =>
    let! config_map := get in
    let! target_value := ok_or_raise (ConfigError_PointerTargetNotFound target_param_path) (bt_get config_map target_param_path) in
    modify (bt_insert param_path target_value)).

(** The loop that removes the marks and collects the parameters that are none. *)
Fixpoint remove_marks (optional_params : list string) : Loading (list string) :=
  match optional_params with
  | [] => ret []
  | optional_param :: rest =>
      let mark := optional_param ++ "." ++ IS_NONE_MARK in
      let! config_map := get in
      let! value := expect (bt_get config_map mark) in
      modify (bt_remove mark) ;!
      let! none_params := remove_marks rest in
      match value with
      | Value_Bool true => ret (optional_param :: none_params)
      | _ => ret none_params
      end
  end.

Definition nested_in_outer (none_params : list string) (none_param : string) : bool :=
  existsb (fun other_none_param => starts_with none_param other_none_param && negb (String.eqb none_param other_none_param)) none_params.

Definition update_optional_values : Loading unit :=
  let! config_map := get in
  let optional_params := omap (fun e => strip_suffix e.1 ("." ++ IS_NONE_MARK)) config_map in
  let! none_params := remove_marks optional_params in
  modify (base.filter (fun e => existsb (fun none_param => starts_with e.1 none_param) none_params = false)) ;!
  for_each none_params (fun none_param =>
    if nested_in_outer none_params none_param then ret tt else modify (bt_insert none_param Value_Null)).

(** ** [command.rs] *)

Definition to_env_var_name (param_path : string) : string :=
  str_replace (to_uppercase (str_replace param_path "#is_none" "__is_none__")) "." "__".

(** [clap::value_parser!]. *)
Inductive ArgParser : Type :=
| ArgParser_PathBuf
| ArgParser_usize
| ArgParser_bool
| ArgParser_String.

(** [clap::Arg] as it is built here. *)
Record Arg : Type := mkArg {
  Arg_id : string;
  Arg_long : string;
  Arg_short : option string;
  Arg_value_delimiter : option string;
  Arg_env : option string;
  Arg_help : string;
  Arg_value_parser : ArgParser
}.

Definition config_file_arg : Arg :=
  mkArg "config_file" "config_file" (Some "f") (Some ",") None "Optionally sets a config file to use" ArgParser_PathBuf.

Definition build_args_parser (config_map : BTreeMap SerializedParam) : list Arg :=
  config_file_arg ::
  omap (fun '(param_path, serialized_param) =>
    match get_serialization_type (SerializedParam_content serialized_param) with
    | None => None
    | Some serialization_type =>
        let clap_parser :=
          match serialization_type with
          | SerializationType_Number => ArgParser_usize
          | SerializationType_Boolean => ArgParser_bool
          | SerializationType_String => ArgParser_String
          end in
        Some (mkArg param_path param_path None None (Some (to_env_var_name param_path))
                (SerializedParam_description serialized_param) clap_parser)
    end) config_map.

(** The matches of a command line and of the environment. The getters return [None]
    for a mismatched type ([MatchesError]), [Some None] for no value. *)
Class ClapApi : Type := {
  Command : Type;
  ArgMatches : Type;
  (** [command.args(args).try_get_matches_from(input)], [None]: an error. *)
  try_get_matches_from : Command -> list Arg -> list string -> option ArgMatches;
  (** [remove_many::<PathBuf>(id)]. *)
  remove_many : ArgMatches -> string -> option (list string) * ArgMatches;
  matched_ids : ArgMatches -> list string;
  try_get_one_usize : ArgMatches -> string -> option (option Z);
  try_get_one_bool : ArgMatches -> string -> option (option bool);
  try_get_one_string : ArgMatches -> string -> option (option string)
}.

Context {CL : ClapApi}.

Definition get_command_matches {S} (config_map : BTreeMap SerializedParam) (command : Command) (command_input : list string) :
    M S ConfigError ArgMatches :=
  ok_or_raise ConfigError_CommandInput (try_get_matches_from command (build_args_parser config_map) command_input).

(** [json!] of an option. *)
Definition option_json {A} (f : A -> Value) (o : option A) : Value := match o with Some a => f a | None => Value_Null end.

Definition get_arg_by_type {S} (types_map : BTreeMap SerializationType) (arg_match : ArgMatches) (param_path : string) :
    M S ConfigError Value :=
  let! serialization_type := expect (bt_get types_map param_path) in
  match serialization_type with
  | SerializationType_Number =>
      let! value := ok_or_raise ConfigError_CommandMatches (try_get_one_usize arg_match param_path) in
      ret (option_json (fun n => Value_Number (number_from_usize n)) value)
  | SerializationType_Boolean =>
      let! value := ok_or_raise ConfigError_CommandMatches (try_get_one_bool arg_match param_path) in
      ret (option_json Value_Bool value)
  | SerializationType_String =>
      let! value := ok_or_raise ConfigError_CommandMatches (try_get_one_string arg_match param_path) in
      ret (option_json Value_String value)
  end.

Definition update_config_map_by_command_args (types_map : BTreeMap SerializationType) (arg_match : ArgMatches) : Loading unit :=
  for_each (matched_ids arg_match) (fun param_path =>
    let! new_value := get_arg_by_type types_map arg_match param_path in
    update_config_map types_map param_path new_value).

(** ** [loading.rs]: the whole process

    [default_config] is the object of the default file ([None]: it is not JSON). *)
Definition load_and_process_config {T} (from_value : Value -> Deserialized T) (files : Files)
    (default_config : option (BTreeMap Value)) (command : Command) (args : list string) : Loading T :=
  let! deserialized_default_config := ok_or_raise ConfigError_MissingParam default_config in
  let! maps := split_pointers_map deserialized_default_config in
  let '(default_config_map, pointers_map) := maps in
  let! arg_matches := get_command_matches default_config_map command args in
  let '(values_map, types_map) := split_values_and_types default_config_map in
  put values_map ;!
  let '(custom_config_paths, arg_matches) := remove_many arg_matches "config_file" in
  match custom_config_paths with
  | Some custom_config_paths => update_config_map_by_custom_configs files types_map custom_config_paths
  | None => ret tt
  end ;!
  update_config_map_by_command_args types_map arg_matches ;!
  update_config_map_by_pointers pointers_map ;!
  update_optional_values ;!
  let! values_map := get in
  load from_value values_map.

(** ** [presentation.rs] *)

(** [as_object_mut()] and [obj.remove(key)]. *)
Definition remove_entry (v : Value) (key : string) : Value :=
  match v with
  | Value_Object m => Value_Object (bt_remove key m)
  | _ => v
  end.

Definition is_object (v : Value) : bool := match v with Value_Object _ => true | _ => false end.

(** The walk to the entry, and its removal; [index_mut] creates an entry that is missing. *)
Fixpoint remove_at (inner_json : Value) (path_to_entry : list string) (entry_to_remove : string) : option Value :=
  match path_to_entry with
  | [] => Some (remove_entry inner_json entry_to_remove)
  | path :: rest =>
      if negb (is_object inner_json) then Some inner_json
      else
        '(entry, rebuild) ← value_index_mut inner_json path;
        entry ← remove_at entry rest entry_to_remove;
        Some (rebuild entry)
  end.

Definition remove_path_from_json {S} (param_path : string) (json : Value) : M S ConfigError Value :=
  let path := split_char "." param_path in
  match last path with
  | None => ret json
  | Some entry_to_remove => expect (remove_at json (removelast path) entry_to_remove)
  end.

(** [to_value] is the derived [Serialize] of the configuration. *)
Fixpoint hide_private {S} (params : list (string * SerializedParam)) (config_presentation : Value) : M S ConfigError Value :=
  match params with
  | [] => ret config_presentation
  | (param_path, serialized_param) :: rest =>
      match SerializedParam_privacy serialized_param with
      | ParamPrivacy_Public => hide_private rest config_presentation
      | ParamPrivacy_TemporaryValue => hide_private rest config_presentation
      | ParamPrivacy_Private =>
          let! config_presentation := remove_path_from_json param_path config_presentation in
          hide_private rest config_presentation
      end
  end.

Definition get_config_presentation {S T} `{SerializeConfig T} (to_value : T -> option Value) (config : T)
    (include_private_parameters : bool) : M S ConfigError Value :=
  let! config_presentation := ok_or_raise ConfigError_MissingParam (to_value config) in
  if include_private_parameters then ret config_presentation else hide_private (dump config) config_presentation.
End Config.

(** ** [converters.rs] *)

Section Converters.
Context {HM : HashMapIter}.

(** A [Duration] in milliseconds. *)
Definition deserialize_milliseconds_to_duration (millis : Z) : Z := millis.
Definition deserialize_seconds_to_duration (secs : Z) : Z := secs * 1000.

Definition serialize_optional_map (optional_map : option (gmap string string)) : string :=
  match optional_map with
  | None => ""
  | Some map => join " " ((fun '(k, v) => k ++ ":" ++ v) <$> hm_iter map)
  end.

(** The pairs of [raw_str.split(' ')]; [None]: a pair is not valid. *)
Fixpoint insert_pairs (raw_pairs : list string) (map : gmap string string) : option (gmap string string) :=
  match raw_pairs with
  | [] => Some map
  | raw_pair :: rest =>
      match split_char ":" raw_pair with
      | [k; v] => insert_pairs rest (<[k := v]> map)
      | _ => None
      end
  end.

(** [None]: an error of the deserializer. *)
Definition deserialize_optional_map (raw_str : string) : option (option (gmap string string)) :=
  if String.eqb raw_str "" then Some None
  else Some <$> insert_pairs (split_char " " raw_str) ∅.

(** The two digits of [format!("{:02x}", num)]. *)
Definition hex_char (d : Z) : ascii := ascii_of_nat (Z.to_nat (if d <? 10 then 48 + d else 87 + d)).

Definition byte_hex (num : Z) : string := String (hex_char (num / 16)) (String (hex_char (num mod 16)) "").

Definition serialize_optional_vec_u8 (optional_vector : option (list Z)) : string :=
  match optional_vector with
  | None => ""
  | Some vector => "0x" ++ join "" (byte_hex <$> vector)
  end.

Definition hex_digit_value (a : ascii) : option Z :=
  let n := Z.of_nat (nat_of_ascii a) in
  if (48 <=? n) && (n <=? 57) then Some (n - 48)
  else if (97 <=? n) && (n <=? 102) then Some (n - 87)
  else if (65 <=? n) && (n <=? 70) then Some (n - 55)
  else None.

(** [u8::from_str_radix(s, 16)] of two characters: the first may be a plus sign. *)
Definition u8_from_hex (a b : ascii) : option Z :=
  if Ascii.eqb a "+" then hex_digit_value b
  else high ← hex_digit_value a; low ← hex_digit_value b; Some (high * 16 + low).

(** A byte of a character of several bytes that is not its first. *)
Definition is_continuation (a : ascii) : bool := let n := nat_of_ascii a in ((128 <=? n) && (n <? 192))%nat.

(** The loop over [hex_str]: the slice [hex_str[i..i + 2]] panics when the text ends
    within it, or when it cuts a character. *)
Fixpoint parse_bytes (hex_str : string) : M unit unit (list Z) :=
  match hex_str with
  | EmptyString => ret []
  | String a EmptyString => panic
  | String a (String b rest) =>
      if is_continuation a || match rest with String c _ => is_continuation c | EmptyString => false end then panic
      else
        let! byte := ok_or_raise tt (u8_from_hex a b) in
        let! vector := parse_bytes rest in
        ret (byte :: vector)
  end.

(** [Fail]: an error of the deserializer. *)
Definition deserialize_optional_vec_u8 (raw_str : string) : M unit unit (option (list Z)) :=
  if String.eqb raw_str "" then ret None
  else
    match raw_str with
    | String "0" (String "x" hex_str) => let! vector := parse_bytes hex_str in ret (Some vector)
    | _ => raise tt
    end.
End Converters.
