(* ===== verification/ConfigProps.v ===== *)
(** * What the configuration guarantees

    Theorems on [Config.v]: where the values of a loaded configuration come from, how
    the flat map becomes a nested object, what a presentation hides, and the round
    trips of a dumped configuration and of the converters. *)

From stdpp Require Import base gmap list fin_maps strings sorting.
From Stdlib Require Import ZArith Lia Ascii.
From S2P Require Import Prelude Config.

#[local] Open Scope string_scope.
#[local] Open Scope Z_scope.
#[local] Open Scope list_scope.

(** ** The order of strings *)

Definition str_lt (a b : string) : Prop := String.compare a b = Lt.

Lemma str_compare_refl a : String.compare a a = Eq.
Proof. induction a as [|x a IH]; cbn; [done|]. unfold Ascii.compare. by rewrite N.compare_refl. Qed.

Lemma ascii_compare_spec a b : CompareSpec (a = b) (N_of_ascii a < N_of_ascii b)%N (N_of_ascii b < N_of_ascii a)%N (Ascii.compare a b).
Proof.
  unfold Ascii.compare. destruct (N.compare_spec (N_of_ascii a) (N_of_ascii b)) as [E|E|E]; constructor; try done.
  by rewrite <-(ascii_N_embedding a), <-(ascii_N_embedding b), E.
Qed.

Lemma str_lt_trans a b c : str_lt a b -> str_lt b c -> str_lt a c.
Proof.
  unfold str_lt. revert b c. induction a as [|x a IH]; intros [|y b] [|z c]; cbn; try done.
  destruct (ascii_compare_spec x y), (ascii_compare_spec y z), (ascii_compare_spec x z); subst; try done; try lia. apply IH.
Qed.

Lemma str_lt_irrefl a : ~ str_lt a a.
Proof. unfold str_lt. by rewrite str_compare_refl. Qed.

Lemma str_compare_gt a b : String.compare a b = Gt -> str_lt b a.
Proof. unfold str_lt. rewrite (String.compare_antisym b a). by destruct (String.compare a b). Qed.

(** ** Ordered maps *)

Section BTree.
Context {V : Type}.
Implicit Types (m : BTreeMap V).

Definition key_lt (a b : string * V) : Prop := str_lt a.1 b.1.
Definition bt_sorted m : Prop := StronglySorted key_lt m.

Lemma bt_get_insert k v m k' : bt_get (bt_insert k v m) k' = if String.eqb k k' then Some v else bt_get m k'.
Proof.
  induction m as [|[k1 v1] m IH]; cbn; [done|]. destruct (String.compare k k1) eqn:E; cbn.
  - apply String.compare_eq_iff in E as ->. by destruct (String.eqb_spec k1 k').
  - done.
  - rewrite IH. destruct (String.eqb_spec k1 k') as [-> |]; [|done]. destruct (String.eqb_spec k k') as [-> |]; [|done].
    by rewrite str_compare_refl in E.
Qed.

Lemma bt_get_insert_eq k v m : bt_get (bt_insert k v m) k = Some v.
Proof. by rewrite bt_get_insert, String.eqb_refl. Qed.

Lemma bt_get_insert_ne k v m k' : k <> k' -> bt_get (bt_insert k v m) k' = bt_get m k'.
Proof. intros Hne. rewrite bt_get_insert. by destruct (String.eqb_spec k k'). Qed.

Lemma bt_get_filter (P : string * V -> Prop) `{forall e, Decision (P e)} m k :
  (forall v, bt_get m k = Some v -> P (k, v)) -> bt_get (base.filter P m) k = bt_get m k.
Proof.
  induction m as [|[k1 v1] m IH]; [done|]. intros Hk. rewrite filter_cons. cbn in *. destruct (String.eqb_spec k1 k) as [-> |Hne].
  - rewrite decide_True by (by apply Hk). cbn. by rewrite String.eqb_refl.
  - case_decide; cbn; [|by apply IH]. destruct (String.eqb_spec k1 k); [done|by apply IH].
Qed.

Lemma bt_get_filter_None (P : string * V -> Prop) `{forall e, Decision (P e)} m k :
  (forall v, ~ P (k, v)) -> bt_get (base.filter P m) k = None.
Proof.
  intros Hk. induction m as [|[k1 v1] m IH]; [done|]. rewrite filter_cons. case_decide as Hp; [|done]. cbn.
  destruct (String.eqb_spec k1 k) as [-> |]; [|done]. by destruct (Hk v1).
Qed.

Lemma bt_get_remove k m k' : bt_get (bt_remove k m) k' = if String.eqb k k' then None else bt_get m k'.
Proof.
  unfold bt_remove. destruct (String.eqb_spec k k') as [-> |Hne].
  - apply bt_get_filter_None. by intros v [].
  - apply bt_get_filter. intros v _. cbn. congruence.
Qed.

Lemma bt_insert_sorted k v m : bt_sorted m -> bt_sorted (bt_insert k v m).
Proof.
  intros Hs. unfold bt_sorted in *. induction Hs as [|[k1 v1] m Hs IH Hall]; cbn; [by repeat constructor|].
  destruct (String.compare k k1) eqn:E.
  - apply String.compare_eq_iff in E as ->. by constructor.
  - constructor; [by constructor|]. constructor; [done|]. eapply Forall_impl; [exact Hall|]. intros e He. by eapply str_lt_trans.
  - apply str_compare_gt in E. constructor; [done|]. clear Hs IH. induction Hall as [|[k2 v2] m H2 Hall IH]; cbn.
    + by repeat constructor.
    + destruct (String.compare k k2); repeat constructor; try done.
Qed.

Lemma bt_from_iter_sorted (l : list (string * V)) : bt_sorted (bt_from_iter l).
Proof.
  unfold bt_from_iter. assert (H : bt_sorted []) by constructor. revert H. generalize ([] : BTreeMap V) as m.
  induction l as [|[k v] l IH]; intros m Hm; [done|]. cbn. apply IH. by apply bt_insert_sorted.
Qed.

Lemma bt_filter_sorted (P : string * V -> Prop) `{forall e, Decision (P e)} m : bt_sorted m -> bt_sorted (base.filter P m).
Proof.
  intros Hs. unfold bt_sorted in *. induction Hs as [|e m Hs IH Hall]; [constructor|]. rewrite filter_cons. case_decide; [|done].
  constructor; [done|]. rewrite Forall_forall in *. intros x Hx. apply Hall. by apply list_elem_of_filter in Hx as [_ Hx].
Qed.

Lemma bt_sorted_NoDup m : bt_sorted m -> NoDup m.*1.
Proof.
  induction 1 as [|[k v] m Hs IH Hall]; cbn; [constructor|]. constructor; [|done].
  intros ([k' v'] & -> & Hin)%list_elem_of_fmap. rewrite Forall_forall in Hall. by eapply str_lt_irrefl, (Hall _ Hin).
Qed.

Lemma bt_get_elem m k v : NoDup m.*1 -> bt_get m k = Some v <-> (k, v) ∈ m.
Proof.
  induction m as [|[k1 v1] m IH]; cbn; intros Hnd; [by rewrite elem_of_nil|]. apply NoDup_cons in Hnd as [Hk Hnd].
  rewrite elem_of_cons. destruct (String.eqb_spec k1 k) as [-> |Hne].
  - split; [intros [= ->]; by left|]. intros [[= ->]|Hin]; [done|]. destruct Hk. apply list_elem_of_fmap. by exists (k, v).
  - rewrite IH by done. split; [by right|]. intros [[= -> ->]|]; done.
Qed.

Lemma bt_get_Some_elem m k v : bt_get m k = Some v -> (k, v) ∈ m.
Proof.
  induction m as [|[k1 v1] m IH]; cbn; [done|]. destruct (String.eqb_spec k1 k) as [-> |]; [intros [= ->]; left|]. right. auto.
Qed.

Lemma bt_get_is_Some m k : is_Some (bt_get m k) <-> k ∈ m.*1.
Proof.
  induction m as [|[k1 v1] m IH]; cbn; [rewrite elem_of_nil; split; [by intros []|done]|]. rewrite elem_of_cons.
  destruct (String.eqb_spec k1 k) as [-> |]; [|rewrite IH; split; [by right|by intros [->|]]]. split; [by left|by eexists].
Qed.
End BTree.

(** The value the last entry of a key gives. *)
Definition last_value {V} (entries : list (string * V)) (p : string) : option V :=
  foldl (fun acc e => if String.eqb e.1 p then Some e.2 else acc) None entries.

Lemma last_value_acc {V} (entries : list (string * V)) p acc :
  foldl (fun acc e => if String.eqb e.1 p then Some e.2 else acc) acc entries =
  match last_value entries p with Some v => Some v | None => acc end.
Proof.
  unfold last_value. revert acc. induction entries as [|[k v] entries IH]; intros acc; [done|]. cbn [foldl].
  rewrite IH, (IH (if String.eqb _ _ then _ else _)). cbn. destruct (foldl _ _ entries); [done|]. by destruct (String.eqb k p).
Qed.

Lemma last_value_cons {V} k (v : V) entries p :
  last_value ((k, v) :: entries) p = match last_value entries p with Some w => Some w | None => if String.eqb k p then Some v else None end.
Proof. unfold last_value at 1. cbn. by rewrite last_value_acc. Qed.

Section ConfigProps.
Context {JN : JsonNumberApi}.

(** ** Updating the values *)

(** A value of the declared type. *)
Definition allowed (types_map : BTreeMap SerializationType) (e : string * Value) : Prop :=
  exists t, bt_get types_map e.1 = Some t /\ type_matched t e.2 = true.

Lemma update_config_map_Done types p v m m' a :
  update_config_map types p v m = Done m' a -> m' = bt_insert p v m /\ allowed types (p, v).
Proof.
  unfold update_config_map. intros H. inv_run. destruct (bt_get types p) as [t|] eqn:E; [|done]. cbn in *. inv_run. unfold ret in *. simplify_eq.
  destruct (type_matched _ v) eqn:Ht; cbn in H; [|done]. injection H as <- _. split; [done|]. by eexists.
Qed.

Lemma update_config_map_run types p v m : allowed types (p, v) -> update_config_map types p v m = Done (bt_insert p v m) tt.
Proof. intros (t & Et & Ht). unfold update_config_map. cbn in *. rewrite Et. cbn. unfold bind, ret. by rewrite Ht. Qed.

(** Several updates: the last one of a parameter counts. *)
Definition set_all (entries : BTreeMap Value) (m : BTreeMap Value) : BTreeMap Value :=
  foldl (fun m e => bt_insert e.1 e.2 m) m entries.

Lemma set_all_get entries m p : bt_get (set_all entries m) p = match last_value entries p with Some v => Some v | None => bt_get m p end.
Proof.
  unfold set_all. revert m. induction entries as [|[k v] entries IH]; intros m; [done|]. cbn [foldl fst snd]. rewrite IH, last_value_cons.
  destruct (last_value entries p); [done|]. rewrite bt_get_insert. by destruct (String.eqb k p).
Qed.

Lemma set_all_app l1 l2 m : set_all (l1 ++ l2) m = set_all l2 (set_all l1 m).
Proof. apply foldl_app. Qed.

Lemma set_all_sorted entries m : bt_sorted m -> bt_sorted (set_all entries m).
Proof. unfold set_all. revert m. induction entries as [|[k v] entries IH]; intros m Hm; [done|]. cbn. by apply IH, bt_insert_sorted. Qed.

Lemma updates_Done types (entries : BTreeMap Value) m m' a :
  for_each entries (fun '(p, v) => update_config_map types p v) m = Done m' a ->
  m' = set_all entries m /\ Forall (allowed types) entries.
Proof.
  revert m. induction entries as [|[k v] entries IH]; intros m H; cbn [for_each] in H; inv_run; [done|].
  match goal with H : update_config_map _ _ _ _ = Done _ _ |- _ => apply update_config_map_Done in H as [-> Hk] end.
  apply IH in H as [-> Hall]. split; [done|]. by constructor.
Qed.

Context {IO : ConfigIo}.

(** The custom files, in the order they are given. *)
Lemma custom_configs_Done files types paths m m' a :
  update_config_map_by_custom_configs files types paths m = Done m' a ->
  exists maps, Forall2 (fun path map => path_exists files path = true /\ read_json_map files path = inl map) paths maps /\
    m' = set_all (concat maps) m /\ Forall (allowed types) (concat maps).
Proof.
  unfold update_config_map_by_custom_configs. revert m. induction paths as [|path paths IH]; intros m H; cbn [for_each] in H; inv_run.
  - exists []. split; [constructor|]. split; [done|constructor].
  - unfold validate_path_exists in *. destruct (path_exists files path) eqn:Ep; cbn in *; [|done].
    destruct (read_json_map files path) as [map|e] eqn:Er; [|done]. unfold ret in *. simplify_eq.
    match goal with H : for_each map _ _ = Done _ _ |- _ => apply updates_Done in H as [-> Hmap] end.
    apply IH in H as (maps & Hmaps & -> & Hall). exists (map :: maps). split; [by constructor|].
    cbn [concat]. rewrite set_all_app. split; [done|]. by apply Forall_app.
Qed.

Context {CL : ClapApi}.

(** What the matches say of a parameter. *)
Definition matched_value (arg_match : ArgMatches) (t : SerializationType) (p : string) : option Value :=
  match t with
  | SerializationType_Number => option_json (fun n => Value_Number (number_from_usize n)) <$> try_get_one_usize arg_match p
  | SerializationType_Boolean => option_json Value_Bool <$> try_get_one_bool arg_match p
  | SerializationType_String => option_json Value_String <$> try_get_one_string arg_match p
  end.

Lemma get_arg_by_type_Done {S} types arg_match p (s s' : S) v :
  get_arg_by_type types arg_match p s = Done s' v ->
  s' = s /\ exists t, bt_get types p = Some t /\ matched_value arg_match t p = Some v.
Proof.
  unfold get_arg_by_type. intros H. destruct (bt_get types p) as [t|] eqn:Et; [|done]. rewrite bind_expect in H.
  destruct t; inv_run; unfold matched_value;
    match goal with H : ok_or_raise _ ?o _ = Done _ _ |- _ => destruct o eqn:Eo; [|done]; unfold ok_or_raise, ret in H; simplify_eq end;
    (split; [done|]); eexists; (split; [done|]); cbn; by rewrite ?Eo.
Qed.

Lemma command_args_Done types arg_match m m' a :
  update_config_map_by_command_args types arg_match m = Done m' a ->
  exists values, length values = length (matched_ids arg_match) /\
    let entries := zip (matched_ids arg_match) values in
    Forall (fun e => exists t, bt_get types e.1 = Some t /\ matched_value arg_match t e.1 = Some e.2) entries /\
    m' = set_all entries m /\ Forall (allowed types) entries.
Proof.
  unfold update_config_map_by_command_args. generalize (matched_ids arg_match) as ids. intros ids. revert m.
  induction ids as [|p ids IH]; intros m H; cbn [for_each] in H; inv_run.
  - exists []. split_and!; try done; constructor.
  - match goal with H : get_arg_by_type _ _ _ _ = Done _ _ |- _ => apply get_arg_by_type_Done in H as (-> & Hv) end.
    match goal with H : update_config_map _ _ _ _ = Done _ _ |- _ => apply update_config_map_Done in H as [-> Hp] end.
    apply IH in H as (values & Hl & Hall & -> & Ht). match goal with H : exists t, _ /\ matched_value _ t _ = Some ?v |- _ => exists (v :: values) end.
    cbn. split; [by rewrite Hl|]. split; [by constructor|]. split; [done|by constructor].
Qed.

(** ** Pointers *)

Lemma pointers_Done (pointers : BTreeMap string) m m' a :
  update_config_map_by_pointers pointers m = Done m' a -> NoDup pointers.*1 ->
  (forall t, t ∈ pointers.*2 -> t ∉ pointers.*1) ->
  (forall p t, bt_get pointers p = Some t -> bt_get m' p = bt_get m t /\ is_Some (bt_get m t)) /\
  (forall p, p ∉ pointers.*1 -> bt_get m' p = bt_get m p) /\ (bt_sorted m -> bt_sorted m').
Proof.
  unfold update_config_map_by_pointers. revert m. induction pointers as [|[p1 t1] pointers IH]; intros m H Hnd Ht.
  { injection H as <- _. by split; [|split]. }
  cbn in Hnd, Ht. apply NoDup_cons in Hnd as [Hp1 Hnd]. cbn [for_each] in H. unfold bind at 1 2 3, get in H.
  destruct (bt_get m t1) as [v|] eqn:Ev; [|done]. cbn [ok_or_raise ret modify] in H.
  apply IH in H as (H1 & H2 & H3); [|done|intros t Hin Hin'; eapply Ht; right; [exact Hin|exact Hin']].
  assert (Hother : forall t, t ∈ t1 :: pointers.*2 -> t <> p1) by (intros t Hin ->; eapply Ht; [exact Hin|left]).
  split; [|split].
  - intros p t. cbn. destruct (String.eqb_spec p1 p) as [<- |Hne].
    + intros [= <-]. rewrite H2 by done. rewrite bt_get_insert_eq. rewrite Ev. by split; [|eexists].
    + intros Hp. destruct (H1 p t Hp) as [E1 E2]. assert (p1 <> t).
      { intros ->. eapply Hother; [|done]. right. apply list_elem_of_fmap. exists (p, t). split; [done|]. by apply bt_get_Some_elem. }
      by rewrite bt_get_insert_ne in E1, E2 by done.
  - intros p Hp. apply not_elem_of_cons in Hp as [Hne Hp]. rewrite H2 by done. by rewrite bt_get_insert_ne by done.
  - intros Hs. by apply H3, bt_insert_sorted.
Qed.

Lemma pointers_total (pointers : BTreeMap string) m :
  (forall p t, (p, t) ∈ pointers -> is_Some (bt_get m t)) -> exists m', update_config_map_by_pointers pointers m = Done m' tt.
Proof.
  unfold update_config_map_by_pointers. revert m. induction pointers as [|[p1 t1] pointers IH]; intros m Hm; [by eexists|].
  destruct (Hm p1 t1) as [v Ev]; [left|]. cbn [for_each]. unfold bind at 1 2 3, get. rewrite Ev. cbn.
  apply IH. intros p t Hin. rewrite bt_get_insert. destruct (String.eqb p1 t); [by eexists|]. eapply Hm. by right.
Qed.
End ConfigProps.

Section Optional.
Context {JN : JsonNumberApi}.

(** ** Optional parameters *)

Lemma append_nil b : "" +:+ b = b.
Proof. reflexivity. Qed.
Lemma append_cons x a b : String x a +:+ b = String x (a +:+ b).
Proof. reflexivity. Qed.

Lemma prefix_app a b : String.prefix a (a +:+ b) = true.
Proof. induction a as [|x a IH]; [by destruct b|]. rewrite append_cons. cbn. by destruct (ascii_dec x x). Qed.

Lemma substring_app_l a b : String.substring 0 (String.length a) (a +:+ b) = a.
Proof. induction a as [|x a IH]; [by destruct b|]. rewrite append_cons. cbn. by rewrite IH. Qed.

Lemma substring_full s : String.substring 0 (String.length s) s = s.
Proof. induction s as [|x s IH]; cbn; [done|]. by rewrite IH. Qed.

Lemma substring_app_r a b : String.substring (String.length a) (String.length b) (a +:+ b) = b.
Proof. induction a as [|x a IH]; [apply substring_full|]. rewrite append_cons. exact IH. Qed.

Lemma length_append a b : String.length (a +:+ b) = (String.length a + String.length b)%nat.
Proof. induction a as [|x a IH]; [done|]. rewrite append_cons. cbn. by rewrite IH. Qed.

Lemma substring_split n k s :
  (n + k = String.length s)%nat -> String.substring 0 n s +:+ String.substring n k s = s.
Proof.
  revert s. induction n as [|n IH]; intros s Hs; cbn [Nat.add] in Hs.
  - subst k. rewrite substring_full. by destruct s.
  - destruct s as [|x s]; [done|]. cbn in *. rewrite append_cons, IH; [done|lia].
Qed.

Lemma strip_suffix_Some s suffix o : strip_suffix s suffix = Some o <-> s = o +:+ suffix.
Proof.
  unfold strip_suffix. split.
  - destruct (Nat.leb_spec (String.length suffix) (String.length s)) as [Hl|Hl]; cbn [andb]; [|done].
    destruct (String.eqb_spec (String.substring (String.length s - String.length suffix) (String.length suffix) s) suffix) as [E|E]; [|done].
    intros [= <-]. rewrite <-E at 2. symmetry. apply substring_split. lia.
  - intros ->. rewrite length_append. replace (String.length o + String.length suffix - String.length suffix)%nat with (String.length o) by lia.
    rewrite (proj2 (Nat.leb_le _ _)) by lia. rewrite substring_app_r, String.eqb_refl, substring_app_l. done.
Qed.

Lemma append_inj_l a b c : a +:+ b = a +:+ c -> b = c.
Proof. induction a as [|x a IH]; [done|]. rewrite !append_cons. intros [= E]. by apply IH. Qed.

Lemma append_inj_r a b c : a +:+ c = b +:+ c -> a = b.
Proof.
  intros E. assert (Hl : String.length a = String.length b) by (apply (f_equal String.length) in E; rewrite !length_append in E; lia).
  apply (f_equal (String.substring 0 (String.length a))) in E. rewrite substring_app_l in E. rewrite Hl, substring_app_l in E. done.
Qed.

(** The mark of a parameter. *)
Definition mark (p : string) : string := p +:+ ("." +:+ IS_NONE_MARK).

(** The parameters that have a mark, and those whose mark is set. *)
Definition marked (m : BTreeMap Value) : list string := omap (fun e => strip_suffix e.1 ("." +:+ IS_NONE_MARK)) m.
Definition none_in (g : string -> option Value) (p : string) : Prop := g (mark p) = Some (Value_Bool true).

#[global] Instance none_in_dec g p : Decision (none_in g p).
Proof.
  unfold none_in. destruct (g (mark p)) as [[|[]| | | |]|]; by first [left; reflexivity|right; discriminate].
Defined.

Lemma elem_of_marked m p : p ∈ marked m <-> is_Some (bt_get m (mark p)).
Proof.
  unfold marked. rewrite bt_get_is_Some, list_elem_of_omap, list_elem_of_fmap. split.
  - intros ([k v] & Hin & Hs). apply strip_suffix_Some in Hs. exists (k, v). by split.
  - intros ([k v] & E & Hin). cbn in E. subst k. exists (mark p, v). split; [done|]. by apply strip_suffix_Some.
Qed.

Lemma marked_NoDup m : NoDup m.*1 -> NoDup (marked m).
Proof.
  unfold marked. induction m as [|[k v] m IH]; cbn; [constructor|]. intros [Hk Hnd]%NoDup_cons.
  destruct (strip_suffix k _) as [o|] eqn:E; [|by apply IH]. constructor; [|by apply IH].
  apply strip_suffix_Some in E as ->. change (o ∉ marked m). rewrite elem_of_marked, bt_get_is_Some. exact Hk.
Qed.

Lemma mark_inj a b : mark a = mark b -> a = b.
Proof. apply append_inj_r. Qed.

(** Removing the marks: all of them go, and those that were set are returned. *)
Lemma remove_marks_run opts m :
  NoDup opts -> Forall (fun o => is_Some (bt_get m (mark o))) opts ->
  exists m', remove_marks opts m = Done m' (base.filter (none_in (bt_get m)) opts) /\ (bt_sorted m -> bt_sorted m') /\
    (forall p, bt_get m' p = if decide (p ∈ mark <$> opts) then None else bt_get m p).
Proof.
  revert m. induction opts as [|o opts IH]; intros m Hnd Hopts.
  - exists m. split_and!; done.
  - apply NoDup_cons in Hnd as [Ho Hnd]. apply Forall_cons in Hopts as [[v Ev] Hopts].
    assert (Hne : forall q, q ∈ opts -> mark o <> mark q) by (intros q Hq E; apply mark_inj in E as ->; done).
    destruct (IH (bt_remove (mark o) m) Hnd) as (m' & Hrun & Hs & Hget).
    { rewrite Forall_forall in *. intros q Hq. rewrite bt_get_remove. destruct (String.eqb_spec (mark o) (mark q)) as [E|E]; [by destruct (Hne q Hq)|auto]. }
    exists m'. split; [|split].
    + cbn [remove_marks]. rewrite bind_get. change (o +:+ ("." +:+ IS_NONE_MARK)) with (mark o) in *. fold (mark o). rewrite Ev. rewrite bind_expect, bind_modify.
      rewrite (bind_step _ _ _ _ _ Hrun). rewrite filter_cons.
      assert (Hf : base.filter (none_in (bt_get (bt_remove (mark o) m))) opts = base.filter (none_in (bt_get m)) opts).
      { apply filter_ext_in. intros q Hq. unfold none_in. rewrite bt_get_remove.
        destruct (String.eqb_spec (mark o) (mark q)) as [E|E]; [by destruct (Hne q Hq)|done]. }
      rewrite Hf. unfold none_in at 2. destruct (decide (none_in (bt_get m) o)) as [Hn|Hn].
      * unfold none_in in Hn. rewrite Ev in Hn. injection Hn as ->. done.
      * unfold none_in in Hn. rewrite Ev in Hn. destruct v as [|[]| | | |]; done.
    + intros Hm. by apply Hs, bt_filter_sorted.
    + intros p. rewrite Hget, bt_get_remove. cbn [fmap list_fmap]. destruct (String.eqb_spec (mark o) p) as [<- |Hp].
      * rewrite (decide_True (P := mark o ∈ mark o :: _)) by left. by case_decide.
      * destruct (decide (p ∈ mark <$> opts)); [by rewrite decide_True by (by right)|].
        rewrite decide_False; [done|]. rewrite elem_of_cons. naive_solver.
Qed.

(** [param_path.starts_with(none_param)] for some parameter that is none. *)
Definition under_none (g : string -> option Value) (p : string) : Prop := exists o, none_in g o /\ starts_with p o = true.

(** A parameter that is none and not below another one. *)
Definition outer_none (g : string -> option Value) (p : string) : Prop :=
  none_in g p /\ ~ exists o, none_in g o /\ starts_with p o = true /\ p <> o.

Definition is_mark (p : string) : Prop := exists o, p = mark o.

(** The value of a parameter after the marks among the values [g] are applied. *)
Definition optional_value (g : string -> option Value) (p : string) (r : option Value) : Prop :=
  (outer_none g p -> r = Some Value_Null) /\
  (~ outer_none g p -> is_mark p \/ under_none g p -> r = None) /\
  (~ outer_none g p -> ~ is_mark p -> ~ under_none g p -> r = g p) /\
  (is_Some r -> outer_none g p \/ ~ is_mark p /\ ~ under_none g p /\ r = g p).

Lemma none_marked m p : none_in (bt_get m) p -> p ∈ marked m.
Proof. intros Hn. apply elem_of_marked. by eexists. Qed.

Lemma nested_in_outer_spec nones p :
  nested_in_outer nones p = true <-> exists o, o ∈ nones /\ starts_with p o = true /\ p <> o.
Proof.
  unfold nested_in_outer. rewrite existsb_exists. split.
  - intros (o & Hin & [H1 H2]%andb_true_iff). exists o. apply list_elem_of_In in Hin. destruct (String.eqb_spec p o); [done|]. by split_and!.
  - intros (o & Hin & H1 & H2). exists o. split; [by apply list_elem_of_In|]. rewrite H1. by destruct (String.eqb_spec p o).
Qed.

Lemma set_nulls_run all nones m :
  exists m', for_each nones (fun p => if nested_in_outer all p then ret tt else modify (bt_insert p Value_Null)) m =
      Done (E := ConfigError) m' tt /\ (bt_sorted m -> bt_sorted m') /\
    forall p, bt_get m' p = if decide (p ∈ nones /\ nested_in_outer all p = false) then Some Value_Null else bt_get m p.
Proof.
  revert m. induction nones as [|q nones IH]; intros m.
  - exists m. split_and!; done.
  - cbn [for_each]. destruct (nested_in_outer all q) eqn:Eq.
    + destruct (IH m) as (m' & Hrun & Hs & Hget). exists m'. rewrite bind_ret. split_and!; try done. intros p. rewrite Hget.
      apply decide_ext. rewrite elem_of_cons. naive_solver congruence.
    + destruct (IH (bt_insert q Value_Null m)) as (m' & Hrun & Hs & Hget). exists m'. rewrite bind_modify. split_and!; [done|intros; by apply Hs, bt_insert_sorted|].
      intros p. rewrite Hget, bt_get_insert. destruct (String.eqb_spec q p) as [-> |Hne].
      * rewrite (decide_True (P := p ∈ p :: _ /\ _)) by (split; [left|done]). by case_decide.
      * apply decide_ext. rewrite elem_of_cons. naive_solver.
Qed.

(** The marks of the optional parameters are removed; a parameter that is none
    becomes null and what starts with its name is removed; the rest is kept. *)
Lemma update_optional_values_run m :
  bt_sorted m -> exists m', update_optional_values m = Done m' tt /\ bt_sorted m' /\ forall p, optional_value (bt_get m) p (bt_get m' p).
Proof.
  intros Hs. pose proof (bt_sorted_NoDup _ Hs) as Hnd. unfold update_optional_values. rewrite bind_get.
  change (omap _ m) with (marked m).
  destruct (remove_marks_run (marked m) m) as (m1 & Hrun & Hs1 & Hget1).
  { by apply marked_NoDup. } { apply Forall_forall. intros o. apply elem_of_marked. }
  rewrite (bind_step _ _ _ _ _ Hrun). set (nones := base.filter (none_in (bt_get m)) (marked m)). rewrite bind_modify.
  assert (Hnones : forall p, p ∈ nones <-> none_in (bt_get m) p).
  { intros p. unfold nones. rewrite list_elem_of_filter. split; [by intros [? _]|]. intros Hn. split; [done|by apply none_marked]. }
  set (m2 := base.filter _ m1). destruct (set_nulls_run nones nones m2) as (m' & Hrun' & Hs' & Hget'). exists m'. split; [exact Hrun'|].
  split; [by apply Hs', bt_filter_sorted, Hs1|]. intros p.
  assert (Houter : p ∈ nones /\ nested_in_outer nones p = false <-> outer_none (bt_get m) p).
  { rewrite Hnones. unfold outer_none. rewrite <-not_true_iff_false, nested_in_outer_spec. by setoid_rewrite Hnones. }
  assert (Hm2 : forall v, bt_get m2 p = Some v -> ~ is_mark p /\ ~ under_none (bt_get m) p).
  { intros v Hv. apply bt_get_Some_elem, list_elem_of_filter in Hv as [Hex Hv]. cbn in Hex. apply not_true_iff_false in Hex. split.
    - intros [o ->]. assert (Hk : is_Some (bt_get m1 (mark o))) by (apply bt_get_is_Some, list_elem_of_fmap; by exists (mark o, v)).
      rewrite Hget1 in Hk. case_decide as Hm; [by destruct Hk|]. destruct Hm. apply list_elem_of_fmap. exists o. split; [done|]. by apply elem_of_marked.
    - intros (o & Hn & Hpre). apply Hex, existsb_exists. exists o. split; [by apply list_elem_of_In, Hnones|done]. }
  assert (Hkeep : ~ is_mark p -> ~ under_none (bt_get m) p -> bt_get m2 p = bt_get m p).
  { intros Hm Hu. unfold m2. rewrite bt_get_filter.
    - rewrite Hget1, decide_False; [done|]. intros (o & -> & _)%list_elem_of_fmap. apply Hm. by exists o.
    - intros v _. cbn. apply not_true_iff_false. intros (o & Hin & Hpre)%existsb_exists. apply Hu. exists o.
      by apply list_elem_of_In, Hnones in Hin. }
  rewrite Hget'. split_and!.
  - intros Ho. by rewrite decide_True by (by apply Houter).
  - intros Ho Hp. rewrite decide_False by (by rewrite Houter). destruct (bt_get m2 p) as [v|] eqn:E; [|done]. destruct (Hm2 v eq_refl). tauto.
  - intros Ho Hm Hu. rewrite decide_False by (by rewrite Houter). by apply Hkeep.
  - case_decide as Ho; [left; by apply Houter|]. intros [v Hv]. right. destruct (Hm2 v Hv). split_and!; [done..|]. by apply Hkeep.
Qed.
End Optional.

(** ** The nested object *)

(** Documented behaviour of [index_mut]: the entry of an object, null if it is
    missing; null becomes an object; any other value panics. *)
Class SerdeJsonSpec {JN : JsonNumberApi} {SJ : SerdeJsonApi} : Type := {
  index_mut_object : forall m k, exists rebuild,
    value_index_mut (Value_Object m) k = Some (default Value_Null (bt_get m k), rebuild) /\
    forall v, rebuild v = Value_Object (bt_insert k v m);
  index_mut_null : forall k, exists rebuild,
    value_index_mut Value_Null k = Some (Value_Null, rebuild) /\ forall v, rebuild v = Value_Object [(k, v)];
  index_mut_other : forall v k, v <> Value_Null -> is_object v = false -> value_index_mut v k = None
}.

Section Nested.
Context {JN : JsonNumberApi} {SJ : SerdeJsonApi} {SS : SerdeJsonSpec}.

(** The value at a path of keys. *)
Fixpoint json_get (v : Value) (path : list string) : option Value :=
  match path with
  | [] => Some v
  | k :: rest => match v with Value_Object m => entry ← bt_get m k; json_get entry rest | _ => None end
  end.

(** Values at which a longer path may continue. *)
Definition may_nest (v : Value) : Prop := is_object v = true \/ v = Value_Null.

(** Two paths of which none extends the other. *)
Definition apart (p q : list string) : Prop := ~ p `prefix_of` q /\ ~ q `prefix_of` p.

Lemma json_get_null path : path <> [] -> json_get Value_Null path = None.
Proof. by destruct path. Qed.

Lemma assign_object v k rest x :
  may_nest v ->
  assign_path v (k :: rest) x =
    (entry ← assign_path (default Value_Null (json_get v [k])) rest x;
     Some (Value_Object (bt_insert k entry (match v with Value_Object m => m | _ => [] end)))).
Proof.
  intros [Hv| ->]; cbn [assign_path].
  - destruct v as [| | | | |m]; try done. destruct (index_mut_object m k) as (rebuild & -> & Hr). cbn [mbind option_bind].
    assert (Ek : default Value_Null (json_get (Value_Object m) [k]) = default Value_Null (bt_get m k)) by (cbn; by destruct (bt_get m k)).
    rewrite Ek. destruct (assign_path _ rest x); cbn; [|done]. by rewrite Hr.
  - destruct (index_mut_null k) as (rebuild & -> & Hr). cbn. destruct (assign_path _ rest x); cbn; [|done]. by rewrite Hr.
Qed.

(** The entry of a key, when the path goes on. *)
Lemma json_get_cons v k e q : json_get v [k] = Some e -> json_get v (k :: q) = json_get e q.
Proof. cbn. destruct v as [| | | | |m]; try done. destruct (bt_get m k); [|done]. by intros [= ->]. Qed.

Lemma json_get_missing v k q : json_get v [k] = None -> json_get v (k :: q) = None.
Proof. cbn. destruct v as [| | | | |m]; try done. by destruct (bt_get m k). Qed.

Lemma json_get_insert v k e k' q :
  may_nest v ->
  json_get (Value_Object (bt_insert k e (match v with Value_Object m => m | _ => [] end))) (k' :: q) =
  if String.eqb k k' then json_get e q else json_get v (k' :: q).
Proof.
  intros [Hv| ->]; cbn [json_get]; rewrite bt_get_insert; destruct (String.eqb k k'); try done. by destruct v.
Qed.

(** An assignment does not panic when the values on its way can nest. *)
Lemma assign_path_run v path x :
  (forall pre w, pre `prefix_of` path -> pre <> path -> json_get v pre = Some w -> may_nest w) ->
  exists v', assign_path v path x = Some v' /\ (path <> [] -> is_object v' = true) /\ json_get v' path = Some x /\
    (forall q, apart path q -> json_get v' q = json_get v q) /\
    (forall q w, json_get v' q = Some w -> is_object w = true /\ q `prefix_of` path \/ path `prefix_of` q \/ json_get v q = Some w).
Proof.
  revert v. induction path as [|k rest IH]; intros v Hv.
  - exists x. split_and!; try done; [intros q [Hq _]; by destruct Hq; apply prefix_nil|]. intros q w Hw. right. left. apply prefix_nil.
  - assert (Hnest : may_nest v) by (apply (Hv [] v); [apply prefix_nil|done|done]). rewrite assign_object by done.
    destruct (IH (default Value_Null (json_get v [k]))) as (e' & -> & Hobj & Hsame & Hother & Hleaf).
    { intros pre w Hpre Hne Hw. destruct (json_get v [k]) as [e|] eqn:Ek; cbn in Hw.
      - apply (Hv (k :: pre)); [by apply prefix_cons|congruence|]. by rewrite (json_get_cons _ _ _ _ Ek).
      - destruct pre as [|? ?]; [|done]. cbn in Hw. simplify_eq. by right. }
    eexists. split; [done|]. split; [done|]. split_and!.
    + by rewrite json_get_insert, String.eqb_refl by done.
    + intros [|k' q] Hap; [by destruct Hap as [_ []]; apply prefix_nil|]. rewrite json_get_insert by done.
      destruct (String.eqb_spec k k') as [<- |Hne]; [|done].
      rewrite Hother by (destruct Hap as [H1 H2]; split; [intros Hp; apply H1|intros Hp; apply H2]; by apply prefix_cons).
      destruct (json_get v [k]) as [e|] eqn:Ek; [by rewrite (json_get_cons _ _ _ _ Ek)|]. rewrite json_get_missing by done. cbn.
      apply json_get_null. intros ->. destruct Hap as [_ []]. apply prefix_cons, prefix_nil.
    + intros [|k' q] w; [intros [= <-]; left; split; [done|apply prefix_nil]|]. rewrite json_get_insert by done. destruct (String.eqb_spec k k') as [<- |Hne]; [|by right; right].
      intros Hw. destruct (Hleaf q w Hw) as [[? ?]|[?|Hold]]; [left; split; [done|by apply prefix_cons]|right; left; by apply prefix_cons|].
      destruct (json_get v [k]) as [e|] eqn:Ek; [right; right; by rewrite (json_get_cons _ _ _ _ Ek)|]. cbn in Hold.
      destruct q; [|done]. destruct rest as [|k2 rest]; [right; by left|]. left. cbn in Hw. injection Hw as <-.
      split; [by apply Hobj|apply prefix_cons, prefix_nil].
Qed.

(** The paths of the parameters. *)
Definition keys_of (p : string) : list string := split_char "." p.

(** No parameter lies below another one. *)
Definition prefix_free (paths : list string) : Prop :=
  forall p q, p ∈ paths -> q ∈ paths -> keys_of p `prefix_of` keys_of q -> p = q.

(** Nothing lies beside the paths of the entries: what is not at or below the path of
    one is an object on the way to one, or the whole. *)
Definition leaves_of (nested : Value) (entries : BTreeMap Value) : Prop :=
  forall q w, json_get nested q = Some w ->
    is_object w = true /\ (q = [] \/ exists p, p ∈ entries.*1 /\ q `prefix_of` keys_of p) \/ exists p, p ∈ entries.*1 /\ keys_of p `prefix_of` q.

Lemma nest_entries_run entries done_ nested :
  NoDup (done_ ++ entries).*1 -> prefix_free (done_ ++ entries).*1 ->
  leaves_of nested done_ -> (forall p v, (p, v) ∈ done_ -> json_get nested (keys_of p) = Some v) ->
  exists nested', nest_entries nested entries = Some nested' /\ leaves_of nested' (done_ ++ entries) /\
    (forall p v, (p, v) ∈ done_ ++ entries -> json_get nested' (keys_of p) = Some v).
Proof.
  revert done_ nested. induction entries as [|[p v] entries IH]; intros done_ nested Hnd Hpf Hleaf Hget.
  { rewrite app_nil_r. by eexists. }
  assert (Hp : forall q, q ∈ done_.*1 -> apart (keys_of p) (keys_of q)).
  { intros q Hq. assert (p <> q). { intros ->. rewrite fmap_app in Hnd. apply NoDup_app in Hnd as (_ & Hnd & _). eapply Hnd; [done|left]. }
    assert (q ∈ (done_ ++ (p, v) :: entries).*1) by (rewrite fmap_app, elem_of_app; by left).
    assert (p ∈ (done_ ++ (p, v) :: entries).*1) by (rewrite fmap_app, elem_of_app; right; left).
    split; intros Hpre; apply Hpf in Hpre; try done; congruence. }
  destruct (assign_path_run nested (keys_of p) v) as (nested1 & E1 & _ & Hsame & Hother & Hleaf1).
  { intros pre w Hpre Hne Hw. destruct (Hleaf _ _ Hw) as [[? _]|(q & Hq & Hqp)]; [by left|]. destruct (Hp q Hq) as [_ []]. by transitivity pre. }
  cbn [nest_entries]. fold (keys_of p). rewrite E1. cbn [mbind option_bind].
  replace (done_ ++ (p, v) :: entries) with ((done_ ++ [(p, v)]) ++ entries) in * by (by rewrite <-app_assoc).
  apply IH; try done.
  - intros q w Hw. rewrite fmap_app. assert (Hin : p ∈ (done_.*1 ++ [(p, v)].*1)) by (apply elem_of_app; right; left).
    destruct (Hleaf1 q w Hw) as [[? ?]|[?|Hold]]; [left; split; [done|right; by exists p]|right; by exists p|].
    destruct (Hleaf q w Hold) as [[? [?|(q' & ? & ?)]]|(q' & ? & ?)]; [left; split; [done|by left]|left; split; [done|right]|right];
      exists q'; (split; [by apply elem_of_app; left|done]).
  - intros q w [Hin|Hin%list_elem_of_singleton]%elem_of_app; [|by injection Hin as -> ->].
    rewrite Hother; [by apply Hget|]. apply Hp, list_elem_of_fmap. by exists (q, w).
Qed.

(** Building the nested object from flat parameters none of which lies below
    another: it never panics, every parameter is found at its path, and nothing else
    is in the object. *)
Lemma nested_object (entries : BTreeMap Value) :
  NoDup entries.*1 -> prefix_free entries.*1 ->
  exists nested, nest_entries (Value_Object []) entries = Some nested /\ leaves_of nested entries /\
    forall p v, (p, v) ∈ entries -> json_get nested (keys_of p) = Some v.
Proof.
  intros Hnd Hpf. apply (nest_entries_run entries [] (Value_Object [])); try done; [|by intros p v ?%elem_of_nil].
  intros [|k q] w Hw; [injection Hw as <-; left; split; [done|by left]|done].
Qed.
End Nested.

(** ** The whole process *)

Section Process.
Context {JN : JsonNumberApi} {PJ : ParamJson} {IO : ConfigIo} {SJ : SerdeJsonApi} {SS : SerdeJsonSpec} {CL : ClapApi}.

(** The parameters of a default file. *)
Definition param_of (default_config : BTreeMap Value) (p : string) : option SerializedParam :=
  v ← bt_get default_config p; param_from_value v.

Definition pointer_of (default_config : BTreeMap Value) (p : string) : option string :=
  param ← param_of default_config p;
  match SerializedParam_content param with SerializedContent_PointerTarget t => Some t | _ => None end.

Definition type_of (default_config : BTreeMap Value) (p : string) : option SerializationType :=
  param ← param_of default_config p; get_serialization_type (SerializedParam_content param).

(** A default of a type that can be set. *)
Definition default_of (default_config : BTreeMap Value) (p : string) : option Value :=
  param ← param_of default_config p;
  match SerializedParam_content param with
  | SerializedContent_DefaultValue v => _ ← get_serialization_type (SerializedParam_content param); Some v
  | _ => None
  end.

(** The parameters that are not pointers. *)
Definition config_params (default_config : BTreeMap Value) : BTreeMap SerializedParam :=
  foldl (fun m e =>
    match param_from_value e.2 with
    | Some param => match SerializedParam_content param with SerializedContent_PointerTarget _ => m | _ => bt_insert e.1 param m end
    | None => m
    end) [] default_config.

Definition config_pointers (default_config : BTreeMap Value) : BTreeMap string :=
  foldl (fun m e =>
    match param_from_value e.2 with
    | Some param => match SerializedParam_content param with SerializedContent_PointerTarget t => bt_insert e.1 t m | _ => m end
    | None => m
    end) [] default_config.

Lemma split_pointers_run {S} (default_config : BTreeMap Value) (s : S) :
  Forall (fun e => is_Some (param_from_value e.2)) default_config ->
  split_pointers_map default_config s = Done s (config_params default_config, config_pointers default_config).
Proof.
  unfold split_pointers_map, config_params, config_pointers. generalize ([] : BTreeMap SerializedParam) as cm.
  generalize ([] : BTreeMap string) as pm. induction default_config as [|[p v] l IH]; intros pm cm Hall; [done|].
  apply Forall_cons in Hall as [[param Ep] Hall]. cbn [split_pointers_loop foldl fst snd] in *. rewrite Ep. rewrite bind_expect.
  destruct (SerializedParam_content param); by apply IH.
Qed.

(** Collecting into a map some of the entries of a map. *)
Lemma foldl_collect {V W} (f : V -> option W) (l : BTreeMap V) (m : BTreeMap W) p :
  NoDup l.*1 -> (bt_sorted m -> bt_sorted (foldl (fun m e => match f e.2 with Some w => bt_insert e.1 w m | None => m end) m l)) /\
  bt_get (foldl (fun m e => match f e.2 with Some w => bt_insert e.1 w m | None => m end) m l) p =
    match bt_get l p ≫= f with Some w => Some w | None => bt_get m p end.
Proof.
  revert m. induction l as [|[k v] l IH]; intros m Hnd; [done|]. cbn in Hnd. apply NoDup_cons in Hnd as [Hk Hnd]. cbn [foldl bt_get fst snd].
  destruct (IH (match f v with Some w => bt_insert k w m | None => m end) Hnd) as [Hs ->]. split.
  - intros Hm. apply Hs. destruct (f v); [by apply bt_insert_sorted|done].
  - destruct (String.eqb_spec k p) as [<- |Hne].
    + assert (bt_get l k = None) as -> by (apply eq_None_not_Some; by rewrite bt_get_is_Some). cbn.
      destruct (f v); cbn; [by rewrite bt_get_insert_eq|done].
    + destruct (bt_get l p ≫= f); [done|]. destruct (f v); [by rewrite bt_get_insert_ne|done].
Qed.

Lemma config_params_spec default_config p : NoDup default_config.*1 ->
  bt_sorted (config_params default_config) /\
  bt_get (config_params default_config) p =
    (param ← param_of default_config p;
     match SerializedParam_content param with SerializedContent_PointerTarget _ => None | _ => Some param end).
Proof.
  intros Hnd. set (f := fun v => param ← param_from_value v;
    match SerializedParam_content param with SerializedContent_PointerTarget _ => None | _ => Some param end).
  assert (E : config_params default_config = foldl (fun m e => match f e.2 with Some w => bt_insert e.1 w m | None => m end) [] default_config).
  { unfold config_params. generalize ([] : BTreeMap SerializedParam) as m. clear Hnd. induction default_config as [|[k v] l IH]; intros m; [done|].
    cbn [foldl fst snd]. rewrite IH. f_equal. unfold f. destruct (param_from_value v) as [param|]; [|done]. cbn. by destruct (SerializedParam_content param). }
  rewrite E. destruct (foldl_collect f default_config [] p Hnd) as [Hs ->]. split; [apply Hs; constructor|].
  unfold param_of, f. cbn. destruct (bt_get default_config p) as [v|]; [|done]. cbn. by destruct (param_from_value v ≫= _).
Qed.

Lemma config_pointers_spec default_config p : NoDup default_config.*1 ->
  bt_sorted (config_pointers default_config) /\ bt_get (config_pointers default_config) p = pointer_of default_config p.
Proof.
  intros Hnd. set (f := fun v => param ← param_from_value v;
    match SerializedParam_content param with SerializedContent_PointerTarget t => Some t | _ => None end).
  assert (E : config_pointers default_config = foldl (fun m e => match f e.2 with Some w => bt_insert e.1 w m | None => m end) [] default_config).
  { unfold config_pointers. generalize ([] : BTreeMap string) as m. clear Hnd. induction default_config as [|[k v] l IH]; intros m; [done|].
    cbn [foldl fst snd]. rewrite IH. f_equal. unfold f. destruct (param_from_value v) as [param|]; [|done]. cbn. by destruct (SerializedParam_content param). }
  rewrite E. destruct (foldl_collect f default_config [] p Hnd) as [Hs ->]. split; [apply Hs; constructor|].
  unfold pointer_of, param_of, f. cbn. destruct (bt_get default_config p) as [v|]; [|done]. cbn. by destruct (param_from_value v ≫= _).
Qed.

Definition param_value (param : SerializedParam) : option Value :=
  match SerializedParam_content param with
  | SerializedContent_DefaultValue v => _ ← get_serialization_type (SerializedParam_content param); Some v
  | _ => None
  end.

Lemma split_values_and_types_eq (cm : BTreeMap SerializedParam) :
  split_values_and_types cm =
  (foldl (fun m e => match param_value e.2 with Some w => bt_insert e.1 w m | None => m end) [] cm,
   foldl (fun m e => match get_serialization_type (SerializedParam_content e.2) with Some w => bt_insert e.1 w m | None => m end) [] cm).
Proof.
  unfold split_values_and_types. generalize ([] : BTreeMap Value) as vm. generalize ([] : BTreeMap SerializationType) as tm.
  induction cm as [|[k param] cm IH]; intros tm vm; [done|]. cbn [foldl fst snd]. unfold param_value at 2.
  destruct (SerializedParam_content param) as [v|t|t] eqn:Ec; cbn [get_serialization_type]; try (destruct v); apply IH.
Qed.

Lemma default_values_spec default_config : NoDup default_config.*1 ->
  exists vm tm, split_values_and_types (config_params default_config) = (vm, tm) /\ bt_sorted vm /\
    (forall p, bt_get vm p = default_of default_config p) /\ (forall p, bt_get tm p = type_of default_config p).
Proof.
  intros Hnd. rewrite split_values_and_types_eq. eexists _, _. split; [done|].
  assert (Hcm : NoDup (config_params default_config).*1) by (apply bt_sorted_NoDup, (config_params_spec _ ""), Hnd).
  split_and!.
  - apply (foldl_collect param_value _ [] "" Hcm). constructor.
  - intros p. destruct (foldl_collect param_value _ [] p Hcm) as [_ ->]. destruct (config_params_spec default_config p Hnd) as [_ ->].
    unfold default_of. destruct (param_of default_config p) as [param|]; [|done]. cbn. unfold param_value.
    destruct (SerializedParam_content param) as [v|t|t] eqn:Ec; cbn; rewrite ?Ec; try done. by destruct v.
  - intros p. destruct (foldl_collect (fun param => get_serialization_type (SerializedParam_content param)) _ [] p Hcm) as [_ ->].
    destruct (config_params_spec default_config p Hnd) as [_ ->]. unfold type_of. destruct (param_of default_config p) as [param|]; [|done]. cbn.
    destruct (SerializedParam_content param) as [v|t|t] eqn:Ec; cbn; rewrite ?Ec; try done. by destruct v.
Qed.

(** ** Runs of the updates that are allowed *)

Lemma updates_run types (entries : BTreeMap Value) m :
  Forall (allowed types) entries -> for_each entries (fun '(p, v) => update_config_map types p v) m = Done (set_all entries m) tt.
Proof.
  intros Hall. revert m. induction Hall as [|[k v] entries Hk Hall IH]; intros m; [done|]. cbn [for_each].
  rewrite (bind_step _ _ _ _ _ (update_config_map_run _ _ _ _ Hk)). apply IH.
Qed.

Lemma custom_configs_run files types paths (maps : list (BTreeMap Value)) m :
  Forall2 (fun path map => path_exists files path = true /\ read_json_map files path = inl map) paths maps ->
  Forall (allowed types) (concat maps) ->
  update_config_map_by_custom_configs files types paths m = Done (set_all (concat maps) m) tt.
Proof.
  intros Hmaps. unfold update_config_map_by_custom_configs. revert m. induction Hmaps as [|path map paths maps [He Hr] Hmaps IH]; intros m Hall; [done|].
  cbn [concat] in *. apply Forall_app in Hall as [H1 H2]. cbn [for_each]. rewrite bind_assoc. unfold validate_path_exists at 1. rewrite He. cbn [negb].
  rewrite bind_ret, Hr. rewrite (bind_step _ _ _ _ _ (updates_run _ _ _ H1)). rewrite set_all_app. by apply IH.
Qed.

Lemma get_arg_run {S} types arg_match p t v (s : S) :
  bt_get types p = Some t -> matched_value arg_match t p = Some v -> get_arg_by_type types arg_match p s = Done s v.
Proof.
  intros Et Hv. unfold get_arg_by_type. rewrite Et, bind_expect. unfold matched_value in Hv.
  destruct t; match goal with |- bind (ok_or_raise _ ?o) _ _ = _ => destruct o; [|done] end; cbn in Hv; by simplify_eq.
Qed.

(** The argument of a parameter has a value of its type. *)
Definition argument (types : BTreeMap SerializationType) (arg_match : ArgMatches) (e : string * Value) : Prop :=
  exists t, bt_get types e.1 = Some t /\ matched_value arg_match t e.1 = Some e.2 /\ type_matched t e.2 = true.

Lemma command_args_run types arg_match (entries : BTreeMap Value) m :
  entries.*1 = matched_ids arg_match -> Forall (argument types arg_match) entries ->
  update_config_map_by_command_args types arg_match m = Done (set_all entries m) tt.
Proof.
  intros Hids Hall. unfold update_config_map_by_command_args. rewrite <-Hids. clear Hids. revert m. induction Hall as [|[k v] entries (t & Et & Hv & Ht) Hall IH]; intros m; [done|].
  cbn [for_each fmap list_fmap fst] in *. rewrite bind_assoc. rewrite (bind_step _ _ _ _ _ (get_arg_run _ _ _ _ _ m Et Hv)).
  rewrite (bind_step _ _ _ _ _ (update_config_map_run types k v m ltac:(by exists t))). apply IH.
Qed.
End Process.

(** ** Paths and their texts *)

Lemma split_char_cons c s : exists w ws, split_char c s = w :: ws.
Proof.
  induction s as [|a s IH]; cbn; [by eexists _, _|]. destruct (Ascii.eqb a c); [by eexists _, _|]. destruct IH as (w & ws & ->). by eexists _, _.
Qed.

Lemma join_cons sep w ws : ws <> [] -> join sep (w :: ws) = w +:+ sep +:+ join sep ws.
Proof. by destruct ws. Qed.

Lemma join_split c s : join (String c "") (split_char c s) = s.
Proof.
  induction s as [|a s IH]; [done|]. cbn [split_char]. destruct (split_char_cons c s) as (w & ws & E). rewrite E in *.
  destruct (Ascii.eqb_spec a c) as [-> |Hne].
  - rewrite join_cons by done. rewrite IH. reflexivity.
  - destruct ws as [|w' ws]; [by cbn in *; rewrite IH|]. rewrite join_cons in * by done. rewrite append_cons. by rewrite IH.
Qed.

Lemma append_assoc a b c : (a +:+ b) +:+ c = a +:+ (b +:+ c).
Proof. induction a as [|x a IH]; [done|]. rewrite !append_cons. by rewrite IH. Qed.

Lemma join_app sep l1 l2 : l1 <> [] -> l2 <> [] -> join sep (l1 ++ l2) = join sep l1 +:+ (sep +:+ join sep l2).
Proof.
  intros H1 H2. induction l1 as [|w l1 IH]; [done|]. destruct l1 as [|w' l1].
  - cbn [app]. by rewrite join_cons.
  - rewrite <-app_comm_cons, !join_cons by done. rewrite IH by done. by rewrite !append_assoc.
Qed.

Lemma prefix_refl p : String.prefix p p = true.
Proof. induction p as [|x p IH]; [done|]. cbn. by destruct (ascii_dec x x). Qed.

(** A path below another one starts with its text. *)
Lemma below_starts_with p q : keys_of p `prefix_of` keys_of q -> starts_with q p = true.
Proof.
  intros [ks E]. unfold keys_of in E. rewrite <-(join_split "." q), E. unfold starts_with. destruct ks as [|k ks].
  - rewrite app_nil_r, join_split. apply prefix_refl.
  - destruct (split_char_cons "." p) as (w & ws & Ep). rewrite join_app by (rewrite ?Ep; done). rewrite join_split. apply prefix_app.
Qed.

(** ** Checking the paths of a file *)

Definition is_markb (p : string) : bool := match strip_suffix p ("." +:+ IS_NONE_MARK) with Some _ => true | None => false end.

Lemma is_markb_spec p : is_markb p = true <-> is_mark p.
Proof.
  unfold is_markb, is_mark, mark. destruct (strip_suffix p _) as [o|] eqn:E.
  - apply strip_suffix_Some in E. split; [by exists o|done].
  - split; [done|]. intros [o Ho]. apply strip_suffix_Some in Ho. by rewrite Ho in E.
Qed.

(** The parameters that can be none, and those that are no marks. *)
Definition options_of (ks : list string) : list string := omap (fun p => strip_suffix p ("." +:+ IS_NONE_MARK)) ks.
Definition plain_of (ks : list string) : list string := base.filter (fun p => is_markb p = false) ks.

(** No path of [ps] lies above one of [qs]. *)
Definition paths_apart (ps qs : list string) : bool :=
  forallb (fun p => forallb (fun q => negb (bool_decide (keys_of p `prefix_of` keys_of q)) || String.eqb p q) qs) ps.

Lemma paths_apart_spec ps qs p q : paths_apart ps qs = true -> p ∈ ps -> q ∈ qs -> keys_of p `prefix_of` keys_of q -> p = q.
Proof.
  unfold paths_apart. rewrite forallb_forall. intros Hall Hp%list_elem_of_In Hq%list_elem_of_In Hpre.
  specialize (Hall p Hp). rewrite forallb_forall in Hall. specialize (Hall q Hq).
  rewrite bool_decide_eq_true_2 in Hall by done. by apply String.eqb_eq.
Qed.

(** A path of [ps] whose text starts with the text of one of [os] lies below it. *)
Definition texts_apart (ps os : list string) : bool :=
  forallb (fun p => forallb (fun o => negb (starts_with p o) || bool_decide (keys_of o `prefix_of` keys_of p)) os) ps.

Lemma texts_apart_spec ps os p o :
  texts_apart ps os = true -> p ∈ ps -> o ∈ os -> starts_with p o = true -> keys_of o `prefix_of` keys_of p.
Proof.
  unfold texts_apart. rewrite forallb_forall. intros Hall Hp%list_elem_of_In Ho%list_elem_of_In Hpre.
  specialize (Hall p Hp). rewrite forallb_forall in Hall. specialize (Hall o Ho). rewrite Hpre in Hall. by apply bool_decide_eq_true in Hall.
Qed.

(** ** What the nested object has to show *)

Section Shown.
Context {JN : JsonNumberApi}.

(** The parameter at the path [p], among values [g] that may mark parameters as none,
    by the components of the paths: nothing is shown below a parameter that is none;
    that one is null; marks are not shown; any other parameter has its value. *)
Definition shown (g : string -> option Value) (p : string) (v : Value) : Prop :=
  (none_in g p /\ v = Value_Null \/ ~ none_in g p /\ ~ is_mark p /\ g p = Some v) /\
  ~ exists o, none_in g o /\ o <> p /\ keys_of o `prefix_of` keys_of p.

(** No text of a parameter starts with the text of one that is none, unless it lies
    below it. *)
Definition texts_clear (g : string -> option Value) : Prop :=
  forall p o, is_Some (g p) \/ none_in g p -> none_in g o -> starts_with p o = true -> keys_of o `prefix_of` keys_of p.

(** The comparison of texts in the code then finds what lies below. *)
Lemma optional_shown g p r v : texts_clear g -> optional_value g p r -> r = Some v <-> shown g p v.
Proof.
  intros Hclear (H1 & _ & H3 & H4). split.
  - intros ->. destruct (H4 ltac:(by eexists)) as [Ho|(Hm & Hu & Hg)].
    + specialize (H1 Ho). destruct Ho as [Hn Ho]. split; [left; split; [done|congruence]|]. intros (o & ? & Hne & ?). apply Ho. exists o.
      split; [done|]. split; [by apply below_starts_with|done].
    + split; [right; split; [|done]|].
      * intros Hn. apply Hu. exists p. split; [done|apply prefix_refl].
      * intros (o & ? & _ & ?). apply Hu. exists o. split; [done|by apply below_starts_with].
  - intros [[[Hn ->]|(Hn & Hm & Hg)] Hno].
    + apply H1. split; [done|]. intros (o & Ho & Hpre & Hne). apply Hno. exists o. split; [done|]. split; [done|]. apply Hclear; [by right|done..].
    + rewrite <-Hg. apply H3; [by intros [? _]|done|]. intros (o & Ho & Hpre). destruct (decide (o = p)) as [-> |Hne]; [done|].
      apply Hno. exists o. split; [done|]. split; [done|]. apply Hclear; [left; by eexists|done..].
Qed.
End Shown.

Lemma last_value_app {V} (l1 l2 : list (string * V)) p :
  last_value (l1 ++ l2) p = match last_value l2 p with Some v => Some v | None => last_value l1 p end.
Proof. unfold last_value at 1. rewrite foldl_app. apply last_value_acc. Qed.

Lemma last_value_elem {V} (entries : list (string * V)) p : is_Some (last_value entries p) -> exists v, (p, v) ∈ entries.
Proof.
  induction entries as [|[k v] entries IH]; [by intros []|]. rewrite last_value_cons.
  destruct (last_value entries p) as [w|] eqn:E.
  - intros _. destruct IH as [v' Hv']; [by eexists|]. exists v'. by right.
  - destruct (String.eqb_spec k p) as [-> |]; [exists v; left|by intros []].
Qed.

Section Load.
Context {JN : JsonNumberApi} {PJ : ParamJson} {IO : ConfigIo} {SJ : SerdeJsonApi} {SS : SerdeJsonSpec} {CL : ClapApi}.
Context (files : Files) (default_config : BTreeMap Value) (command : Command) (args : list string).
Context (matches matches' : ArgMatches) (paths : option (list string)) (maps : list (BTreeMap Value)) (arg_entries : BTreeMap Value).

(** The value of a parameter: from the command line or the environment, else from
    the last custom file that has it, else the default. *)
Definition layered (p : string) : option Value :=
  match last_value arg_entries p with
  | Some v => Some v
  | None => match last_value (concat maps) p with Some v => Some v | None => default_of default_config p end
  end.

(** A pointer takes the value of its target. *)
Definition resolved (p : string) : option Value :=
  match pointer_of default_config p with Some t => layered t | None => layered p end.

(** What the custom files and the arguments have to satisfy: they can be read and
    only set parameters of the default file, to values of their types. *)
Record given : Prop := {
  ld_matches : try_get_matches_from command (build_args_parser (config_params default_config)) args = Some matches;
  ld_remove : remove_many matches "config_file" = (paths, matches');
  ld_files : Forall2 (fun path map => path_exists files path = true /\ read_json_map files path = inl map) (default [] paths) maps;
  ld_entries : Forall (fun e => exists t, type_of default_config e.1 = Some t /\ type_matched t e.2 = true) (concat maps);
  ld_ids : arg_entries.*1 = matched_ids matches';
  ld_args : Forall (fun e => exists t, type_of default_config e.1 = Some t /\ matched_value matches' t e.1 = Some e.2 /\
    type_matched t e.2 = true) arg_entries
}.

(** What the default file has to satisfy beside that: a pointer points to a parameter
    with a value, no parameter lies below another one, and no text of a path starts
    with the text of a parameter that is none unless it lies below it. *)
Record loadable : Prop := {
  ld_given : given;
  ld_keys : NoDup default_config.*1;
  ld_params : Forall (fun e => is_Some (param_from_value e.2)) default_config;
  ld_pointers : forall p t, pointer_of default_config p = Some t -> pointer_of default_config t = None /\ is_Some (layered t);
  ld_paths : forall p q, is_Some (resolved p) -> is_Some (resolved q) -> ~ is_mark p -> ~ is_mark q ->
    keys_of p `prefix_of` keys_of q -> p = q;
  ld_nones : forall p o, is_Some (resolved p) -> ~ is_mark p -> none_in resolved o -> keys_of p `prefix_of` keys_of o -> p = o;
  ld_texts : texts_clear resolved
}.

(** Only parameters of the file have values. *)
Lemma layered_param p : given -> is_Some (layered p) -> is_Some (param_of default_config p).
Proof.
  intros G. assert (Hty : is_Some (type_of default_config p) -> is_Some (param_of default_config p)).
  { unfold type_of. by destruct (param_of default_config p); [|intros []]. }
  unfold layered. destruct (last_value arg_entries p) as [va|] eqn:Ea.
  - intros _. destruct (last_value_elem arg_entries p) as [v Hv]; [by rewrite Ea|]. pose proof (ld_args G) as Hall.
    rewrite Forall_forall in Hall. destruct (Hall _ Hv) as (t & Ht & _). apply Hty. by exists t.
  - destruct (last_value (concat maps) p) as [vm|] eqn:Em.
    + intros _. destruct (last_value_elem (concat maps) p) as [v Hv]; [by rewrite Em|]. pose proof (ld_entries G) as Hall.
      rewrite Forall_forall in Hall. destruct (Hall _ Hv) as (t & Ht & _). apply Hty. by exists t.
    + unfold default_of. by destruct (param_of default_config p); [|intros []].
Qed.

Lemma resolved_param p : given -> is_Some (resolved p) -> is_Some (param_of default_config p).
Proof.
  intros G. unfold resolved. destruct (pointer_of default_config p) as [t|] eqn:Et; [|by apply layered_param].
  intros _. unfold pointer_of in Et. by destruct (param_of default_config p).
Qed.

(** A parameter that is none is an optional one of the file. *)
Lemma none_option ks o : given -> (forall p, is_Some (param_of default_config p) -> p ∈ ks) -> none_in resolved o -> o ∈ options_of ks.
Proof.
  intros G Hks Ho. apply list_elem_of_omap. exists (mark o). split; [|by apply strip_suffix_Some].
  apply Hks, resolved_param; [done|]. by eexists.
Qed.

(** The conditions on the default file can be checked on the paths of its parameters. *)
Lemma checked_loadable ks :
  given -> NoDup default_config.*1 -> Forall (fun e => is_Some (param_from_value e.2)) default_config ->
  (forall p t, pointer_of default_config p = Some t -> pointer_of default_config t = None /\ is_Some (layered t)) ->
  (forall p, is_Some (param_of default_config p) -> p ∈ ks) -> paths_apart (plain_of ks) (plain_of ks ++ options_of ks) = true ->
  texts_apart (ks ++ options_of ks) (options_of ks) = true -> loadable.
Proof.
  intros G Hnd Hparams Hptr Hks Hapart Htexts.
  assert (Hplain : forall p, is_Some (resolved p) -> ~ is_mark p -> p ∈ plain_of ks).
  { intros p Hp Hm. apply list_elem_of_filter. split; [|by apply Hks, resolved_param]. apply not_true_is_false. by rewrite is_markb_spec. }
  split; try done.
  - intros p q Hp Hq Hmp Hmq. apply (paths_apart_spec _ _ _ _ Hapart); [by apply Hplain|apply elem_of_app; left; by apply Hplain].
  - intros p o Hp Hmp Ho. apply (paths_apart_spec _ _ _ _ Hapart); [by apply Hplain|]. apply elem_of_app. right. by apply none_option.
  - intros p o Hp Ho. apply (texts_apart_spec _ _ _ _ Htexts); [apply elem_of_app|by apply none_option].
    destruct Hp as [Hp|Hp]; [left; by apply Hks, resolved_param|right; by apply none_option].
Qed.

Lemma optional_value_ext g g' p r : (forall q, g q = g' q) -> optional_value g p r -> optional_value g' p r.
Proof.
  intros Hg. unfold optional_value, outer_none, under_none, none_in.
  intros (H1 & H2 & H3 & H4). setoid_rewrite Hg in H1. setoid_rewrite Hg in H2. setoid_rewrite Hg in H3. setoid_rewrite Hg in H4. done.
Qed.

(** The parameters that remain do not lie below each other. *)
Lemma values_prefix_free (values : BTreeMap Value) :
  (forall p q, is_Some (resolved p) -> is_Some (resolved q) -> ~ is_mark p -> ~ is_mark q -> keys_of p `prefix_of` keys_of q -> p = q) ->
  (forall p o, is_Some (resolved p) -> ~ is_mark p -> none_in resolved o -> keys_of p `prefix_of` keys_of o -> p = o) ->
  (forall p, optional_value resolved p (bt_get values p)) -> prefix_free values.*1.
Proof.
  intros Hpaths Hnones Hopt.
  assert (Hkind : forall p, p ∈ values.*1 -> outer_none resolved p \/ ~ is_mark p /\ ~ under_none resolved p /\ is_Some (resolved p)).
  { intros p Hp. apply bt_get_is_Some in Hp. destruct (Hopt p) as (_ & _ & _ & Hk).
    destruct (Hk Hp) as [|(? & ? & E)]; [by left|right]. by rewrite E in Hp. }
  intros p q Hp%Hkind Hq%Hkind Hpre. destruct Hp as [Hp|(Hp1 & Hp2 & Hp3)], Hq as [Hq|(Hq1 & Hq2 & Hq3)].
  - destruct (decide (p = q)) as [|Hne]; [done|]. destruct Hq as [_ []]. exists p. split; [apply Hp|]. split; [by apply below_starts_with|done].
  - destruct Hq2. exists p. split; [apply Hp|by apply below_starts_with].
  - apply Hnones; try done. apply Hq.
  - by apply Hpaths.
Qed.

Lemma allowed_ext (types : BTreeMap SerializationType) (entries : BTreeMap Value) :
  (forall p, bt_get types p = type_of default_config p) ->
  Forall (fun e => exists t, type_of default_config e.1 = Some t /\ type_matched t e.2 = true) entries -> Forall (allowed types) entries.
Proof. intros Ht Hall. eapply Forall_impl; [exact Hall|]. intros e (t & Et & Hm). exists t. by rewrite Ht. Qed.

Lemma argument_ext (types : BTreeMap SerializationType) :
  (forall p, bt_get types p = type_of default_config p) ->
  Forall (fun e => exists t, type_of default_config e.1 = Some t /\ matched_value matches' t e.1 = Some e.2 /\ type_matched t e.2 = true) arg_entries ->
  Forall (argument types matches') arg_entries.
Proof. intros Ht Hall. eapply Forall_impl; [exact Hall|]. intros e (t & Et & Hv & Hm). exists t. by rewrite Ht. Qed.

(** Up to the pointers: the values are those of the layers, resolved. *)
Lemma layers_run (vm : BTreeMap Value) :
  loadable -> (forall p, bt_get vm p = default_of default_config p) -> bt_sorted vm ->
  exists m, update_config_map_by_pointers (config_pointers default_config) (set_all arg_entries (set_all (concat maps) vm)) = Done m tt /\
    bt_sorted m /\ forall p, bt_get m p = resolved p.
Proof.
  intros L Hvm Hs. set (m0 := set_all arg_entries (set_all (concat maps) vm)).
  assert (Hm0 : forall p, bt_get m0 p = layered p) by (intros p; unfold m0, layered; by rewrite !set_all_get, Hvm).
  pose proof (fun p => proj2 (config_pointers_spec default_config p (ld_keys L))) as Hptr.
  assert (Hnd : NoDup (config_pointers default_config).*1) by (apply bt_sorted_NoDup, (config_pointers_spec _ ""), L).
  assert (Hin : forall p t, (p, t) ∈ config_pointers default_config -> pointer_of default_config p = Some t)
    by (intros p t Hpt; rewrite <-Hptr; by apply bt_get_elem).
  destruct (pointers_total (config_pointers default_config) m0) as [m Hm].
  { intros p t Hpt. rewrite Hm0. by apply (ld_pointers L p), Hin. }
  exists m. split; [done|]. destruct (pointers_Done _ _ _ _ Hm Hnd) as (H1 & H2 & H3).
  { intros t ([p t'] & -> & Hpt)%list_elem_of_fmap. cbn. rewrite <-bt_get_is_Some, Hptr. destruct (ld_pointers L p t' (Hin _ _ Hpt)) as [-> _]. by intros []. }
  split; [by apply H3, set_all_sorted, set_all_sorted|]. intros p. unfold resolved. rewrite <-Hptr.
  destruct (bt_get (config_pointers default_config) p) as [t|] eqn:Ep; [destruct (H1 p t Ep) as [-> _]; apply Hm0|].
  rewrite H2; [apply Hm0|]. rewrite <-bt_get_is_Some, Ep. by intros [].
Qed.

(** The run of the whole process. *)
Lemma load_and_process_config_run {T} (from_value : Value -> Deserialized T) (s : BTreeMap Value) :
  loadable ->
  exists values nested,
    load_and_process_config from_value files (Some default_config) command args s = deserialize from_value nested values /\
    (forall p v, bt_get values p = Some v <-> shown resolved p v) /\
    (forall p v, shown resolved p v -> json_get nested (keys_of p) = Some v) /\
    (forall q w, json_get nested q = Some w ->
       is_object w = true /\ (q = [] \/ exists p v, shown resolved p v /\ q `prefix_of` keys_of p) \/
       exists p v, shown resolved p v /\ keys_of p `prefix_of` q).
Proof.
  intros L. destruct (default_values_spec default_config (ld_keys L)) as (vm & tm & Esplit & Hs & Hvm & Htm).
  destruct (layers_run vm L Hvm Hs) as (m & Hptr & Hms & Hm).
  destruct (update_optional_values_run m Hms) as (values & Hopt & Hvs & Hval).
  assert (Hval' : forall p, optional_value resolved p (bt_get values p)) by (intros p; by eapply optional_value_ext; [exact Hm|]).
  pose proof (bt_sorted_NoDup _ Hvs) as Hnd.
  destruct (nested_object values Hnd) as (nested & Hnest & Hleaf & Hget); [by eapply values_prefix_free; [apply L|apply L|]|].
  pose proof (fun p v => optional_shown resolved p _ v (ld_texts L) (Hval' p)) as Hshown.
  exists values, nested. split_and!; [|exact Hshown|intros p v Hp; apply Hget, bt_get_elem; [done|by apply Hshown]|].
  2: { intros q w Hw. destruct (Hleaf q w Hw) as [[? [?|(p & [v Hp]%bt_get_is_Some & Hpre)]]|(p & [v Hp]%bt_get_is_Some & Hpre)];
       [left; split; [done|by left]|left; split; [done|right]|right]; exists p, v; by rewrite <-Hshown. }
  unfold load_and_process_config. cbn [ok_or_raise]. rewrite bind_ret. rewrite (bind_step _ _ _ _ _ (split_pointers_run default_config s (ld_params L))).
  unfold get_command_matches. rewrite (ld_matches (ld_given L)). cbn [ok_or_raise]. rewrite bind_ret, Esplit.
  rewrite (bind_step _ _ s vm tt eq_refl). rewrite (ld_remove (ld_given L)).
  assert (Hcustom : match paths with
      | Some custom_config_paths => update_config_map_by_custom_configs files tm custom_config_paths
      | None => ret tt end vm = Done (set_all (concat maps) vm) tt).
  { pose proof (ld_files (ld_given L)) as Hf. destruct paths as [ps|]; cbn in Hf; [apply custom_configs_run; [done|]; by apply allowed_ext, (ld_entries (ld_given L))|].
    inversion Hf. reflexivity. }
  rewrite (bind_step _ _ _ _ _ Hcustom).
  rewrite (bind_step _ _ _ _ _ (command_args_run tm matches' arg_entries _ (ld_ids (ld_given L)) (argument_ext tm Htm (ld_args (ld_given L))))).
  rewrite (bind_step _ _ _ _ _ Hptr), (bind_step _ _ _ _ _ Hopt), bind_get. unfold load. by rewrite Hnest, bind_expect.
Qed.

(** C35: Loading a configuration whose default file and arguments are such that the files
    can be read, only parameters of the default file are set, to values of their
    types, pointers point to parameters with values, no parameter lies below another
    one, and no path starts with the text of a parameter that is none without lying
    below it: nothing panics before the nested object is deserialized, and the result
    is what that returns, its error for one that does not fit. In that object every
    parameter has the value of the command line or the environment, else of the last
    custom file that sets it, else its default; a pointer has the value of its target;
    a parameter marked as none is null unless a parameter above it is none, and nothing
    is below it; no mark is left, and beside the paths of these parameters there is
    nothing in the object. *)
Theorem config_loaded {T} (from_value : Value -> Deserialized T) (s : BTreeMap Value) :
  loadable ->
  exists values nested,
    load_and_process_config from_value files (Some default_config) command args s = deserialize from_value nested values /\
    (forall p v, bt_get values p = Some v <-> shown resolved p v) /\
    (forall p v, shown resolved p v -> json_get nested (keys_of p) = Some v) /\
    (forall q w, json_get nested q = Some w ->
       is_object w = true /\ (q = [] \/ exists p v, shown resolved p v /\ q `prefix_of` keys_of p) \/
       exists p v, shown resolved p v /\ keys_of p `prefix_of` q).
Proof. apply load_and_process_config_run. Qed.
End Load.

(** ** Dumping *)

Section Dump.
Context {JN : JsonNumberApi} {PJ : ParamJson}.

(** A parameter that points to a target keeps its description and its privacy. *)
Definition pointing (target : string) (param : SerializedParam) : SerializedParam :=
  mkSerializedParam (SerializedParam_description param) (SerializedContent_PointerTarget target) (SerializedParam_privacy param).

(** The target a parameter points to. *)
Fixpoint target_of (pointers : list ((string * SerializedParam) * list string)) (p : string) : option string :=
  match pointers with
  | [] => None
  | ((target, _), qs) :: rest => if decide (p ∈ qs) then Some target else target_of rest p
  end.

Definition pointing_params (pointers : list ((string * SerializedParam) * list string)) : list string := concat pointers.*2.
Definition targets (pointers : list ((string * SerializedParam) * list string)) : BTreeMap SerializedParam := pointers.*1.

Lemma point_to_run target (qs : list string) cm :
  Forall (fun q => is_Some (bt_get cm q)) qs -> NoDup qs ->
  exists cm', for_each qs (point_to target) cm = Done cm' tt /\ (bt_sorted cm -> bt_sorted cm') /\
    forall p, bt_get cm' p = if decide (p ∈ qs) then pointing target <$> bt_get cm p else bt_get cm p.
Proof.
  revert cm. induction qs as [|q qs IH]; intros cm Hqs Hnd; [by exists cm|].
  apply Forall_cons in Hqs as [[param Eq] Hqs]. apply NoDup_cons in Hnd as [Hq Hnd].
  set (cm1 := bt_insert q (pointing target param) cm). destruct (IH cm1) as (cm' & Hrun & Hs & Hget); [|done|].
  { eapply Forall_impl; [exact Hqs|]. intros p Hp. unfold cm1. rewrite bt_get_insert. by destruct (String.eqb q p); [eexists|]. }
  exists cm'. split; [|split].
  - cbn [for_each]. unfold point_to at 1. rewrite bind_assoc, bind_get, Eq. cbn [ok_or_raise]. by rewrite bind_assoc, bind_ret, bind_modify.
  - intros Hcm. by apply Hs, bt_insert_sorted.
  - intros p. rewrite Hget. unfold cm1. rewrite bt_get_insert. destruct (String.eqb_spec q p) as [<- |Hne].
    + rewrite decide_False by done. rewrite decide_True by left. by rewrite Eq.
    + apply decide_ext. rewrite elem_of_cons. naive_solver.
Qed.

Lemma combine_pointers_run pointers cm :
  NoDup (pointing_params pointers) -> NoDup (targets pointers).*1 ->
  (forall p, p ∈ pointing_params pointers -> is_Some (bt_get cm p) /\ p ∉ (targets pointers).*1) ->
  exists cm', combine_pointers pointers cm = Done cm' tt /\ (bt_sorted cm -> bt_sorted cm') /\
    forall p, bt_get cm' p =
      match target_of pointers p with
      | Some target => pointing target <$> bt_get cm p
      | None => match bt_get (targets pointers) p with Some param => Some param | None => bt_get cm p end
      end.
Proof.
  unfold combine_pointers, pointing_params, targets. revert cm.
  induction pointers as [|[[target tp] qs] pointers IH]; intros cm Hnd Hnt Hq; [by exists cm|].
  cbn in Hnd, Hnt. apply NoDup_app in Hnd as (Hnd1 & Hdis & Hnd2). apply NoDup_cons in Hnt as [Htarget Hnt].
  assert (Hne : forall p, p ∈ qs \/ p ∈ concat pointers.*2 -> p <> target).
  { intros p Hp ->. destruct (Hq target) as [_ []]; [cbn; apply elem_of_app; tauto|left]. }
  destruct (point_to_run target qs (bt_insert target tp cm)) as (cm1 & Hrun1 & Hs1 & Hget1).
  { apply Forall_forall. intros p Hp. rewrite bt_get_insert_ne by (intros <-; by eapply Hne; [left|]). apply Hq. cbn. apply elem_of_app. by left. }
  { done. }
  assert (Hcm1 : forall p, p ∈ concat pointers.*2 -> bt_get cm1 p = bt_get cm p).
  { intros p Hp. rewrite Hget1, decide_False by (intros Hp'; by eapply Hdis). apply bt_get_insert_ne. intros <-. eapply Hne; [by right|done]. }
  destruct (IH cm1) as (cm' & Hrun & Hs & Hget); [done|done| |].
  { intros p Hp. rewrite Hcm1 by done. destruct (Hq p) as [? Hp']; [cbn; apply elem_of_app; by right|]. split; [done|]. intros Hin. apply Hp'. by right. }
  exists cm'. split; [|split].
  - cbn [for_each]. rewrite bind_assoc, bind_modify. by rewrite (bind_step _ _ _ _ _ Hrun1).
  - intros Hcm. by apply Hs, Hs1, bt_insert_sorted.
  - intros p. rewrite Hget. cbn [target_of fmap list_fmap fst bt_get]. destruct (decide (p ∈ qs)) as [Hp|Hp].
    + assert (Hnp : p ∉ concat pointers.*2) by (intros Hp'; by eapply Hdis).
      assert (target_of pointers p = None) as ->.
      { clear -Hnp. induction pointers as [|[[t param] qs'] pointers IH]; [done|]. cbn in *. rewrite not_elem_of_app in Hnp.
        rewrite decide_False by tauto. apply IH. tauto. }
      assert (bt_get pointers.*1 p = None) as ->.
      { apply eq_None_not_Some. rewrite bt_get_is_Some. intros Hin. destruct (Hq p) as [_ []]; [cbn; apply elem_of_app; by left|by right]. }
      rewrite Hget1, decide_True by done. rewrite bt_get_insert_ne; [done|]. intros <-. by eapply Hne; [left|].
    + destruct (target_of pointers p) as [t|] eqn:Et.
      * rewrite Hcm1; [done|]. clear -Et. induction pointers as [|[[t' param] qs'] pointers IH]; [done|]. cbn in *. rewrite elem_of_app.
        case_decide; [by left|right; by apply IH].
      * rewrite Hget1, decide_False by done. rewrite bt_get_insert. destruct (String.eqb_spec target p) as [-> |]; [|done].
        assert (bt_get pointers.*1 p = None) as ->; [|done]. apply eq_None_not_Some. by rewrite bt_get_is_Some.
Qed.

(** A parameter is read back from what it is written to. *)
Context (Hjson : forall param, param_from_value (param_to_value param) = Some param).
Context {IO : ConfigIo}.

(** The default file of a configuration: dumping it succeeds when the parameters that
    point exist and are no targets, and a reader of the file finds every parameter of
    the configuration with its default, its type, its description and its privacy, the
    targets beside them, and in place of the value of a pointer its target. *)
Lemma dump_to_file_run {T} {SC : SerializeConfig T} (config : T) pointers path :
  NoDup (pointing_params pointers) -> NoDup (targets pointers).*1 -> bt_sorted (dump config) ->
  (forall p, p ∈ pointing_params pointers -> is_Some (bt_get (dump config) p) /\ p ∉ (targets pointers).*1) ->
  exists combined, NoDup combined.*1 /\ Forall (fun e => is_Some (param_from_value e.2)) combined /\
    (forall files : Files, dump_to_file config pointers path files =
      match write_json files path (Value_Object combined) with inl files' => Done files' tt | inr e => Fail files e end) /\
    (forall p, param_of combined p =
      match target_of pointers p with
      | Some target => pointing target <$> bt_get (dump config) p
      | None => match bt_get (targets pointers) p with Some param => Some param | None => bt_get (dump config) p end
      end) /\
    (forall p target, target_of pointers p = Some target -> pointer_of combined p = Some target).
Proof.
  intros Hnd Hnt Hsorted Hq. destruct (combine_pointers_run pointers (dump config) Hnd Hnt Hq) as (cm' & Hrun & Hs & Hget).
  set (combined := (fun '(path0, param) => (path0, param_to_value param)) <$> cm'). exists combined.
  assert (Hparam : forall p, param_of combined p = bt_get cm' p).
  { intros p. unfold param_of, combined. clear Hs Hget Hrun combined. induction cm' as [|[k param] cm' IH]; [done|]. cbn.
    destruct (String.eqb k p); [apply Hjson|apply IH]. }
  split_and!.
  - assert (combined.*1 = cm'.*1) as -> by (unfold combined; clear; induction cm' as [|[k param] cm' IH]; cbn; [done|by f_equal]).
    by apply bt_sorted_NoDup, Hs.
  - unfold combined. apply Forall_fmap, Forall_forall. intros [k param] _. cbn. rewrite Hjson. by eexists.
  - intros files. unfold dump_to_file, combine_config_map_and_pointers. unfold bind at 1. rewrite Hrun. rewrite bind_get. unfold map_to_value. fold combined.
    by destruct (write_json files path (Value_Object combined)).
  - intros p. by rewrite Hparam.
  - intros p t Et. unfold pointer_of. rewrite Hparam, Hget, Et.
    assert (Hp : is_Some (bt_get (dump config) p)).
    { apply Hq. clear -Et. unfold pointing_params. induction pointers as [|[[t' param] qs'] pointers IH]; [done|]. cbn in *. rewrite elem_of_app.
      case_decide; [by left|right; by apply IH]. }
    by destruct Hp as [param ->].
Qed.
End Dump.

(** ** Presentation *)

Section Presentation.
Context {JN : JsonNumberApi} {SJ : SerdeJsonApi} {SS : SerdeJsonSpec}.

(** Removing an entry: it is gone, the other values stay, and what was missing stays
    missing except on the way. *)
Lemma remove_at_run v path e :
  exists v', remove_at v path e = Some v' /\ json_get v' (path ++ [e]) = None /\
    (forall q w, json_get v q = Some w -> is_object w = false -> ~ (path ++ [e]) `prefix_of` q -> json_get v' q = Some w) /\
    (forall q, json_get v q = None -> ~ q `prefix_of` path -> json_get v' q = None).
Proof.
  revert v. induction path as [|p rest IH]; intros v.
  - exists (remove_entry v e). split; [done|]. destruct v as [| | | | |m]; cbn [remove_entry app]; try (by split_and!).
    split_and!.
    + cbn. by rewrite bt_get_remove, String.eqb_refl.
    + intros [|k q] w; [by intros [= <-]|]. intros Hw Hl Hq. cbn in *. rewrite bt_get_remove.
      destruct (String.eqb_spec e k) as [-> |]; [|done]. destruct Hq. apply prefix_cons, prefix_nil.
    + intros [|k q] Hq Hp; [done|]. cbn in *. rewrite bt_get_remove. by destruct (String.eqb e k).
  - cbn [remove_at]. destruct (is_object v) eqn:Hv; cbn [negb]; [|exists v; split_and!; try done; by destruct v].
    destruct v as [| | | | |m]; try done. destruct (index_mut_object m p) as (rebuild & -> & Hr). cbn [mbind option_bind].
    destruct (IH (default Value_Null (bt_get m p))) as (e' & -> & Hgone & Hkeep & Hmiss). cbn. rewrite Hr. eexists. split; [done|]. split_and!.
    + cbn. by rewrite bt_get_insert_eq.
    + intros [|k q] w; [by intros [= <-]|]. intros Hw Hl Hq. cbn in *. rewrite bt_get_insert.
      destruct (String.eqb_spec p k) as [<- |]; [|done]. cbn. destruct (bt_get m p) as [en|]; [|done]. cbn in *.
      apply Hkeep; try done. intros Hp. apply Hq. by apply prefix_cons.
    + intros [|k q] Hq Hp; [done|]. cbn in *. rewrite bt_get_insert. destruct (String.eqb_spec p k) as [<- |]; [|done]. cbn.
      assert (Hp' : ~ q `prefix_of` rest) by (intros Hpre; apply Hp; by apply prefix_cons).
      apply Hmiss; [|done]. destruct (bt_get m p) as [en|]; [done|]. cbn. apply json_get_null. intros ->. apply Hp', prefix_nil.
Qed.

Lemma keys_of_last p : exists path e, keys_of p = path ++ [e] /\ last (keys_of p) = Some e /\ removelast (keys_of p) = path.
Proof.
  unfold keys_of. destruct (split_char_cons "." p) as (w & ws & ->). destruct (exists_last (l := w :: ws)) as (path & e & ->); [done|].
  exists path, e. split_and!; [done|by apply last_snoc|apply removelast_last].
Qed.

Lemma remove_path_run {S} p v (s : S) :
  exists v', remove_path_from_json p v s = Done s v' /\ json_get v' (keys_of p) = None /\
    (forall q w, json_get v q = Some w -> is_object w = false -> ~ keys_of p `prefix_of` q -> json_get v' q = Some w) /\
    (forall q, json_get v q = None -> ~ (exists e, q ++ e = keys_of p /\ e <> []) -> json_get v' q = None).
Proof.
  destruct (keys_of_last p) as (path & e & Ek & El & Er). destruct (remove_at_run v path e) as (v' & Hrun & Hgone & Hkeep & Hmiss).
  exists v'. unfold remove_path_from_json. fold (keys_of p). rewrite El, Er, Hrun. rewrite Ek. split_and!; try done.
  intros q Hq Hne. apply Hmiss; [done|]. intros [ext ->]. apply Hne. exists (ext ++ [e]). by rewrite app_assoc; split; [|destruct ext].
Qed.

Definition private_paths (params : BTreeMap SerializedParam) : list string :=
  (base.filter (fun e => match SerializedParam_privacy e.2 with ParamPrivacy_Private => true | _ => false end = true) params).*1.

Lemma hide_private_run {S} (params : BTreeMap SerializedParam) v (s : S) :
  prefix_free (private_paths params) ->
  exists v', hide_private params v s = Done s v' /\
    (forall p, p ∈ private_paths params -> json_get v' (keys_of p) = None) /\
    (forall q w, json_get v q = Some w -> is_object w = false ->
      (forall p, p ∈ private_paths params -> ~ keys_of p `prefix_of` q) -> json_get v' q = Some w) /\
    (forall q, json_get v q = None -> (forall p, p ∈ private_paths params -> ~ (exists e, q ++ e = keys_of p /\ e <> [])) -> json_get v' q = None).
Proof.
  unfold private_paths. revert v. induction params as [|[k param] params IH]; intros v Hpf.
  { exists v. split; [done|]. split; [by intros p ?%elem_of_nil|done]. }
  rewrite filter_cons in *. cbn [hide_private snd] in *. destruct (SerializedParam_privacy param); cbn in *.
  - set (rest := (base.filter _ params).*1) in *. destruct (remove_path_run k v s) as (v1 & Hrun1 & Hgone1 & Hkeep1 & Hmiss1).
    destruct (IH v1) as (v' & Hrun & Hgone & Hkeep & Hmiss); [intros p q Hp Hq; apply Hpf; by right|].
    exists v'. rewrite (bind_step _ _ _ _ _ Hrun1). split; [done|]. split_and!.
    + intros p [-> |Hp]%elem_of_cons; [|by apply Hgone]. apply Hmiss; [done|]. intros p' Hp' (e & Ee & Hne).
      cbn [fst] in Ee. assert (Hk : k = p') by (apply Hpf; [left|by right|by exists e]).
      apply (f_equal length) in Ee. rewrite length_app, Hk in Ee. destruct e; [done|]. cbn [length] in Ee. lia.
    + intros q w Hw Hl Hq. apply Hkeep; [|done|intros p Hp; apply Hq; by right]. apply Hkeep1; [done..|]. apply Hq. left.
    + intros q Hq Hp. apply Hmiss; [|intros p Hp'; apply Hp; by right]. apply Hmiss1; [done|]. apply Hp. left.
  - by apply IH.
  - by apply IH.
Qed.

(** C36: The presentation without private parameters: it is always produced, no private
    parameter of the configuration can be found in it, and every other value is the
    one of the configuration. *)
Theorem presentation_hides_private {S T} {SC : SerializeConfig T} (to_value : T -> option Value) (config : T) original (s : S) :
  to_value config = Some original -> prefix_free (private_paths (dump config)) ->
  get_config_presentation to_value config true s = Done s original /\
  exists shown, get_config_presentation to_value config false s = Done s shown /\
    (forall p, p ∈ private_paths (dump config) -> json_get shown (keys_of p) = None) /\
    (forall q w, json_get original q = Some w -> is_object w = false ->
      (forall p, p ∈ private_paths (dump config) -> ~ keys_of p `prefix_of` q) -> json_get shown q = Some w).
Proof.
  intros Hv Hpf. unfold get_config_presentation. rewrite Hv. cbn [ok_or_raise]. rewrite !bind_ret. split; [done|].
  destruct (hide_private_run (dump config) original s Hpf) as (shown & Hrun & Hgone & Hkeep & _). by exists shown.
Qed.
End Presentation.

(** ** Converters *)

Section ConverterProps.
Context {HM : HashMapIter}.

Lemma append_nil_r s : s +:+ "" = s.
Proof. induction s as [|x s IH]; [done|]. by rewrite append_cons, IH. Qed.

Lemma hex_char_spec d : 0 <= d < 16 ->
  hex_digit_value (hex_char d) = Some d /\ is_continuation (hex_char d) = false /\ Ascii.eqb (hex_char d) "+" = false.
Proof.
  intros Hd. assert (Hin : d ∈ seqZ 0 16) by (apply elem_of_seqZ; lia). revert d Hin Hd. rewrite <-Forall_forall.
  apply (bool_decide_unpack _). vm_compute. exact I.
Qed.

Lemma join_empty w ws : join "" (w :: ws) = w +:+ join "" ws.
Proof. destruct ws; [by rewrite append_nil_r|]. by rewrite join_cons. Qed.

Lemma parse_bytes_hex v : Forall (fun b => 0 <= b < 256) v -> parse_bytes (join "" (byte_hex <$> v)) tt = Done tt v.
Proof.
  induction 1 as [|b v Hb Hv IH]; [done|]. cbn [fmap list_fmap]. rewrite join_empty. unfold byte_hex at 1. rewrite !append_cons, append_nil.
  pose proof (Z.div_mod b 16). pose proof (Z.mod_pos_bound b 16).
  destruct (hex_char_spec (b / 16)) as (H1 & C1 & P1); [lia|]. destruct (hex_char_spec (b mod 16)) as (H2 & _ & _); [lia|].
  assert (Hc : match join "" (byte_hex <$> v) with String c _ => is_continuation c | EmptyString => false end = false).
  { destruct Hv as [|b' v' Hb' _]; [done|]. cbn [fmap list_fmap]. rewrite join_empty. unfold byte_hex at 1. rewrite append_cons.
    pose proof (Z.div_mod b' 16). pose proof (Z.mod_pos_bound b' 16). apply hex_char_spec. lia. }
  cbn [parse_bytes]. rewrite C1, Hc. cbn [orb]. unfold u8_from_hex. rewrite P1, H1, H2. cbn [mbind option_bind ok_or_raise].
  rewrite bind_ret, (bind_step _ _ _ _ _ IH). unfold ret. do 2 f_equal. lia.
Qed.

(** A text without a character. *)
Fixpoint clean (c : ascii) (s : string) : Prop :=
  match s with
  | EmptyString => True
  | String a s' => a <> c /\ clean c s'
  end.

Lemma split_clean c s : clean c s -> split_char c s = [s].
Proof.
  induction s as [|a s IH]; [done|]. intros [Ha Hs]. cbn. rewrite IH by done. by destruct (Ascii.eqb_spec a c).
Qed.

Lemma split_clean_app c s t : clean c s -> split_char c (s +:+ String c t) = s :: split_char c t.
Proof.
  induction s as [|a s IH]; [by intros _; rewrite append_nil; cbn; rewrite Ascii.eqb_refl|]. intros [Ha Hs]. rewrite append_cons. cbn [split_char].
  rewrite IH by done. by destruct (Ascii.eqb_spec a c).
Qed.

Lemma clean_app c s t : clean c s -> clean c t -> clean c (s +:+ t).
Proof. induction s as [|a s IH]; [done|]. intros [Ha Hs] Ht. rewrite append_cons. split; [done|]. by apply IH. Qed.

Lemma split_join c (l : list string) : l <> [] -> Forall (clean c) l -> split_char c (join (String c "") l) = l.
Proof.
  intros Hne Hl. induction Hl as [|w l Hw Hl IH]; [done|]. destruct l as [|w' l]; [by apply split_clean|].
  rewrite join_cons by done. rewrite append_cons, append_nil. rewrite split_clean_app by done. by rewrite IH.
Qed.

(** Keys and values that the text format can hold. *)
Definition map_text_ok (m : gmap string string) : Prop :=
  m <> ∅ /\ forall k v, m !! k = Some v -> clean " " k /\ clean ":" k /\ clean " " v /\ clean ":" v.

Lemma insert_pairs_run (l : list (string * string)) acc :
  Forall (fun e => clean ":" e.1 /\ clean ":" e.2) l ->
  insert_pairs ((fun '(k, v) => k +:+ (":" +:+ v)) <$> l) acc = Some (foldl (fun m e => <[e.1 := e.2]> m) acc l).
Proof.
  intros Hl. revert acc. induction Hl as [|[k v] l [Hk Hv] Hl IH]; intros acc; [done|]. cbn [fmap list_fmap insert_pairs]. cbn in Hk, Hv.
  rewrite append_cons, append_nil. rewrite split_clean_app, split_clean by done. apply IH.
Qed.

Lemma foldl_insert (l : list (string * string)) (acc : gmap string string) :
  NoDup l.*1 -> foldl (fun m e => <[e.1 := e.2]> m) acc l = list_to_map l ∪ acc.
Proof.
  revert acc. induction l as [|[k v] l IH]; intros acc Hnd; cbn; [by rewrite map_empty_union|]. cbn in Hnd. apply NoDup_cons in Hnd as [Hk Hnd].
  rewrite IH by done. rewrite <-insert_union_r, insert_union_l; [done|]. by apply not_elem_of_list_to_map_1.
Qed.

(** The text forms of an optional list of bytes and of an optional map are read back:
    the first always, the second when the map is not empty and no key or value holds
    a space or a colon. *)
Theorem converters_roundtrip :
  (forall v, Forall (fun b => 0 <= b < 256) (default [] v) -> deserialize_optional_vec_u8 (serialize_optional_vec_u8 v) tt = Done tt v) /\
  deserialize_optional_map (serialize_optional_map None) = Some None /\
  (forall m, map_text_ok m -> deserialize_optional_map (serialize_optional_map (Some m)) = Some (Some m)).
Proof.
  split_and!; [|done|].
  - intros [v|] Hv; [|done]. cbn in Hv. unfold serialize_optional_vec_u8, deserialize_optional_vec_u8. rewrite !append_cons, append_nil.
    cbn [String.eqb]. by rewrite (bind_step _ _ _ _ _ (parse_bytes_hex v Hv)).
  - intros m [Hne Hm]. unfold deserialize_optional_map. cbn [serialize_optional_map].
    set (texts := (fun '(k, v) => k +:+ (":" +:+ v)) <$> hm_iter m).
    assert (Htexts : texts <> []).
    { intros E. apply fmap_nil_inv in E. apply Hne, map_empty. intros k. apply eq_None_not_Some. intros [v Hv].
      apply elem_of_hm_iter in Hv. rewrite E in Hv. by apply elem_of_nil in Hv. }
    assert (Hclean : Forall (clean " ") texts).
    { apply Forall_fmap, Forall_forall. intros [k v] Hin. apply elem_of_hm_iter in Hin. destruct (Hm k v Hin) as (H1 & _ & H2 & _).
      cbn. apply clean_app; [done|]. by apply clean_app. }
    assert (Hjoin : String.eqb (join " " texts) "" = false).
    { apply String.eqb_neq. intros E. apply (f_equal (split_char " ")) in E. rewrite split_join in E by done. cbn in E.
      unfold texts in E. destruct (hm_iter m) as [|[k v] l]; [done|]. cbn in E. injection E as E _. destruct k; [|done]. done. }
    rewrite Hjoin, split_join by done. unfold texts. rewrite insert_pairs_run.
    + cbn. rewrite foldl_insert by apply hm_iter_NoDup. rewrite map_union_empty. do 2 f_equal.
      rewrite (list_to_map_proper _ (map_to_list m)); [apply list_to_map_to_list|apply hm_iter_NoDup|apply hm_iter_perm].
    + apply Forall_forall. intros [k v] Hin. apply elem_of_hm_iter in Hin. by destruct (Hm k v Hin) as (_ & ? & _ & ?).
Qed.
End ConverterProps.
