(* ===== verification/NodeConfig.v ===== *)
(** * The configuration of the whole node and its start

    Models the configuration structures of the crates with their defaults and what
    they dump ([retry.rs] of [crates/starknet_client], [ethereum_base_layer_contract.rs],
    and the [lib.rs], [db/mod.rs], [mmap_file/mod.rs], [client/mod.rs], [central.rs] and
    [config.rs] that declare one), [crates/papyrus_node/src/config/] with its pointers,
    [version.rs], how the structures are deserialized, and the start of the node in
    [main.rs] with the construction of its network ([bin_utils/mod.rs] and
    [NetworkManager::new]). Then the configuration of the node is loaded back from its
    file, and the instances that show the hypotheses of the theorems on configurations
    can hold.

    Durations are in milliseconds, except in the configurations of the two
    synchronisations, whose records keep whole seconds. *)

From stdpp Require Import base gmap list fin_maps strings pretty.
From Stdlib Require Import ZArith Lia String Ascii.
From S2P Require Import Prelude StarknetTypes StorageTxn PeerManager Sqmr NetworkManager MmapFile P2pClient PendingSync Config ConfigProps.

#[local] Open Scope string_scope.
#[local] Open Scope Z_scope.

(** The types of [starknet_api] and [libp2p] that a configuration holds. *)
Class NodeTypes {JN : JsonNumberApi} : Type := {
  NodeChainId : Type;
  NodeChainId_json : ToJson NodeChainId;
  NodeChainId_Mainnet : NodeChainId;
  chain_id_text : NodeChainId -> string;
  NodeAddress : Type;
  NodeAddress_json : ToJson NodeAddress;
  (** [contract_address!(text)]. *)
  contract_address : string -> NodeAddress;
  NodeAddress_default : NodeAddress;
  Multiaddr : Type;
  Multiaddr_json : ToJson Multiaddr;
  Multiaddr_empty : Multiaddr
}.

(** How these types and numbers are read ([None]: an error), and the secret of ten
    random letters that [random_secret] makes. *)
Class NodeTypesRead {JN : JsonNumberApi} {NT : NodeTypes} : Type := {
  (** The integer that a number is; [None]: it is none of 64 bits. *)
  number_integer : JsonNumber -> option Z;
  NodeChainId_read : Value -> option NodeChainId;
  NodeAddress_read : Value -> option NodeAddress;
  Multiaddr_read : Value -> option Multiaddr;
  random_secret : string
}.

#[global] Existing Instance NodeChainId_json.
#[global] Existing Instance NodeAddress_json.
#[global] Existing Instance Multiaddr_json.

Section NodeConfig.
Context {JN : JsonNumberApi} {HM : HashMapIter} {NT : NodeTypes}.

(** [json!] of an integer, and of a scope (a unit variant is its name). *)
#[local] Instance Z_json : ToJson Z := {| json n := Value_Number (number_from_usize n) |}.
#[local] Instance scope_json : ToJson StorageScope := {|
  json scope := Value_String match scope with StorageScope_FullArchive => "FullArchive" | StorageScope_StateOnly => "StateOnly" end
|}.

(** [Duration::from_secs] and [as_secs]. *)
Definition from_secs (secs : Z) : Z := secs * 1000.
Definition as_secs (duration : Z) : Z := duration / 1000.

(** [BTreeMap::extend] and [append]. *)
Definition bt_extend {V} (m entries : BTreeMap V) : BTreeMap V := foldl (fun m e => bt_insert e.1 e.2 m) m entries.

(** ** [RetryConfig] *)

Record RetryConfig : Type := mkRetryConfig {
  RetryConfig_retry_base_millis : Z;
  RetryConfig_retry_max_delay_millis : Z;
  RetryConfig_max_retries : Z
}.

Definition dump_RetryConfig (self : RetryConfig) : BTreeMap SerializedParam :=
  bt_from_iter
    [ser_param "retry_base_millis" (RetryConfig_retry_base_millis self)
       "Base waiting time after a failed request. After that, the time increases exponentially." ParamPrivacyInput_Public;
     ser_param "retry_max_delay_millis" (RetryConfig_retry_max_delay_millis self)
       "Max waiting time after a failed request." ParamPrivacyInput_Public;
     ser_param "max_retries" (RetryConfig_max_retries self)
       "Maximum number of retries before the node stops retrying." ParamPrivacyInput_Public].
#[global] Instance RetryConfig_serialize : SerializeConfig RetryConfig := {| dump := dump_RetryConfig |}.

(** ** [EthereumBaseLayerConfig] *)

Record EthereumBaseLayerConfig : Type := mkEthereumBaseLayerConfig {
  EthereumBaseLayerConfig_node_url : string;
  EthereumBaseLayerConfig_starknet_contract_address : string
}.

Definition dump_EthereumBaseLayerConfig (self : EthereumBaseLayerConfig) : BTreeMap SerializedParam :=
  bt_from_iter
    [ser_required_param "node_url" SerializationType_String
       "Ethereum node URL. A schema to match to Infura node: https://mainnet.infura.io/v3/<your_api_key>, but any other node can be used." ParamPrivacyInput_Private;
     ser_param "starknet_contract_address" (EthereumBaseLayerConfig_starknet_contract_address self)
       "Starknet contract address in ethereum." ParamPrivacyInput_Public].
#[global] Instance EthereumBaseLayerConfig_serialize : SerializeConfig EthereumBaseLayerConfig := {| dump := dump_EthereumBaseLayerConfig |}.

Definition default_EthereumBaseLayerConfig : EthereumBaseLayerConfig :=
  mkEthereumBaseLayerConfig "https://mainnet.infura.io/v3/<your_api_key>" "0xc662c410C0ECf747543f5bA90660f6ABeBD9C8c4".

(** ** [ExecutionConfig] *)

Definition STRK_FEE_CONTRACT_ADDRESS : string := "0x04718f5a0fc34cc1af16a1cdee98ffb20c31f5cd61d6ab07201858f4287c938d".
Definition ETH_FEE_CONTRACT_ADDRESS : string := "0x49d36570d4e46f48e99674bd3fcc84644ddd6b96f7c741b1562b82f9e004dc7".
Definition INITIAL_GAS_COST : Z := 10000000000.

Record ExecutionConfig : Type := mkExecutionConfig {
  ExecutionConfig_strk_fee_contract_address : NodeAddress;
  ExecutionConfig_eth_fee_contract_address : NodeAddress;
  ExecutionConfig_initial_gas_cost : Z
}.

Definition dump_ExecutionConfig (self : ExecutionConfig) : BTreeMap SerializedParam :=
  bt_from_iter
    [ser_param "strk_fee_contract_address" (ExecutionConfig_strk_fee_contract_address self)
       "The strk fee token address to receive fees" ParamPrivacyInput_Public;
     ser_param "eth_fee_contract_address" (ExecutionConfig_eth_fee_contract_address self)
       "The eth fee token address to receive fees" ParamPrivacyInput_Public;
     ser_param "initial_gas_cost" (ExecutionConfig_initial_gas_cost self)
       "The initial gas cost for a transaction" ParamPrivacyInput_Public].
#[global] Instance ExecutionConfig_serialize : SerializeConfig ExecutionConfig := {| dump := dump_ExecutionConfig |}.

Definition default_ExecutionConfig : ExecutionConfig :=
  mkExecutionConfig (contract_address STRK_FEE_CONTRACT_ADDRESS) (contract_address ETH_FEE_CONTRACT_ADDRESS) INITIAL_GAS_COST.

(** ** [RpcConfig] *)

Record RpcConfig : Type := mkRpcConfig {
  RpcConfig_chain_id : NodeChainId;
  RpcConfig_server_address : string;
  RpcConfig_max_events_chunk_size : Z;
  RpcConfig_max_events_keys : Z;
  RpcConfig_collect_metrics : bool;
  RpcConfig_starknet_url : string;
  RpcConfig_starknet_gateway_retry_config : RetryConfig;
  RpcConfig_execution_config : ExecutionConfig
}.

(** The loop over the descriptions of the retries. A description is not empty, so
    that its first character can be taken. *)
Definition ascii_lowercase (a : ascii) : ascii :=
  let n := nat_of_ascii a in if ((65 <=? n) && (n <=? 90))%nat then ascii_of_nat (n + 32) else a.

Definition describe_gateway_retry (param : SerializedParam) : SerializedParam :=
  let description :=
    match SerializedParam_description param with
    | String first rest => "For communicating with Starknet gateway, " ++ String (ascii_lowercase first) rest
    | EmptyString => EmptyString
    end in
  mkSerializedParam description (SerializedParam_content param) (SerializedParam_privacy param).

Definition dump_RpcConfig (self : RpcConfig) : BTreeMap SerializedParam :=
  let self_params_dump := bt_from_iter
    [ser_param "chain_id" (RpcConfig_chain_id self)
       "The chain to follow. For more details see https://docs.starknet.io/documentation/architecture_and_concepts/Blocks/transactions/#chain-id." ParamPrivacyInput_Public;
     ser_param "server_address" (RpcConfig_server_address self)
       "IP:PORT of the node`s JSON-RPC server." ParamPrivacyInput_Public;
     ser_param "max_events_chunk_size" (RpcConfig_max_events_chunk_size self)
       "Maximum chunk size supported by the node in get_events requests." ParamPrivacyInput_Public;
     ser_param "max_events_keys" (RpcConfig_max_events_keys self)
       "Maximum number of keys supported by the node in get_events requests." ParamPrivacyInput_Public;
     ser_param "collect_metrics" (RpcConfig_collect_metrics self)
       "If true, collect metrics for the rpc." ParamPrivacyInput_Public;
     ser_param "starknet_url" (RpcConfig_starknet_url self)
       "URL for communicating with Starknet in write_api methods." ParamPrivacyInput_Public] in
  let self_params_dump :=
    bt_extend self_params_dump (append_sub_config_name (dump (RpcConfig_execution_config self)) "execution_config") in
  let retry_config_dump :=
    append_sub_config_name (dump (RpcConfig_starknet_gateway_retry_config self)) "starknet_gateway_retry_config" in
  let retry_config_dump := (fun '(path, param) => (path, describe_gateway_retry param)) <$> retry_config_dump in
  bt_extend self_params_dump retry_config_dump.
#[global] Instance RpcConfig_serialize : SerializeConfig RpcConfig := {| dump := dump_RpcConfig |}.

Definition default_RpcConfig : RpcConfig := {|
  RpcConfig_chain_id := NodeChainId_Mainnet;
  RpcConfig_server_address := "0.0.0.0:8080";
  RpcConfig_max_events_chunk_size := 1000;
  RpcConfig_max_events_keys := 100;
  RpcConfig_collect_metrics := false;
  RpcConfig_starknet_url := "https://alpha-mainnet.starknet.io/";
  RpcConfig_starknet_gateway_retry_config := mkRetryConfig 50 1000 5;
  RpcConfig_execution_config := default_ExecutionConfig
|}.

(** ** [CentralSourceConfig] *)

Record CentralSourceConfig : Type := mkCentralSourceConfig {
  CentralSourceConfig_concurrent_requests : Z;
  CentralSourceConfig_url : string;
  CentralSourceConfig_http_headers : option (gmap string string);
  CentralSourceConfig_max_state_updates_to_download : Z;
  CentralSourceConfig_max_state_updates_to_store_in_memory : Z;
  CentralSourceConfig_max_classes_to_download : Z;
  CentralSourceConfig_class_cache_size : Z;
  CentralSourceConfig_retry_config : RetryConfig
}.

Definition dump_CentralSourceConfig (self : CentralSourceConfig) : BTreeMap SerializedParam :=
  let self_params_dump := bt_from_iter
    [ser_param "concurrent_requests" (CentralSourceConfig_concurrent_requests self)
       "Maximum number of concurrent requests to Starknet feeder-gateway for getting a type of data (for example, blocks)." ParamPrivacyInput_Public;
     ser_param "url" (CentralSourceConfig_url self)
       "Starknet feeder-gateway URL. It should match chain_id." ParamPrivacyInput_Public;
     ser_param "http_headers" (serialize_optional_map (CentralSourceConfig_http_headers self))
       "'k1:v1 k2:v2 ...' headers for SN-client." ParamPrivacyInput_Private;
     ser_param "max_state_updates_to_download" (CentralSourceConfig_max_state_updates_to_download self)
       "Maximum number of state updates to download at a given time." ParamPrivacyInput_Public;
     ser_param "max_state_updates_to_store_in_memory" (CentralSourceConfig_max_state_updates_to_store_in_memory self)
       "Maximum number of state updates to store in memory at a given time." ParamPrivacyInput_Public;
     ser_param "max_classes_to_download" (CentralSourceConfig_max_classes_to_download self)
       "Maximum number of classes to download at a given time." ParamPrivacyInput_Public;
     ser_param "class_cache_size" (CentralSourceConfig_class_cache_size self)
       "Size of class cache, must be a positive integer." ParamPrivacyInput_Public] in
  bt_from_iter (self_params_dump ++ append_sub_config_name (dump (CentralSourceConfig_retry_config self)) "retry_config")%list.
#[global] Instance CentralSourceConfig_serialize : SerializeConfig CentralSourceConfig := {| dump := dump_CentralSourceConfig |}.

Definition default_CentralSourceConfig : CentralSourceConfig := {|
  CentralSourceConfig_concurrent_requests := 10;
  CentralSourceConfig_url := "https://alpha-mainnet.starknet.io/";
  CentralSourceConfig_http_headers := None;
  CentralSourceConfig_max_state_updates_to_download := 20;
  CentralSourceConfig_max_state_updates_to_store_in_memory := 20;
  CentralSourceConfig_max_classes_to_download := 20;
  CentralSourceConfig_class_cache_size := 100;
  CentralSourceConfig_retry_config := mkRetryConfig 30 30000 10
|}.

(** ** [SyncConfig] and [P2PSyncClientConfig] *)

Definition dump_SyncConfig (self : SyncConfig) : BTreeMap SerializedParam :=
  bt_from_iter
    [ser_param "block_propagation_sleep_duration" (block_propagation_sleep_duration self)
       "Time in seconds before checking for a new block after the node is synchronized." ParamPrivacyInput_Public;
     ser_param "base_layer_propagation_sleep_duration" (base_layer_propagation_sleep_duration self)
       "Time in seconds to poll the base layer to get the latest proved block." ParamPrivacyInput_Public;
     ser_param "recoverable_error_sleep_duration" (recoverable_error_sleep_duration self)
       "Waiting time in seconds before restarting synchronization after a recoverable error." ParamPrivacyInput_Public;
     ser_param "blocks_max_stream_size" (blocks_max_stream_size self)
       "Max amount of blocks to download in a stream." ParamPrivacyInput_Public;
     ser_param "state_updates_max_stream_size" (state_updates_max_stream_size self)
       "Max amount of state updates to download in a stream." ParamPrivacyInput_Public;
     ser_param "verify_blocks" (verify_blocks self)
       "Whether to verify incoming blocks." ParamPrivacyInput_Public].
#[global] Instance SyncConfig_serialize : SerializeConfig SyncConfig := {| dump := dump_SyncConfig |}.

Definition dump_P2PSyncClientConfig (self : P2PSyncClientConfig) : BTreeMap SerializedParam :=
  let config := bt_from_iter
    [ser_param "num_headers_per_query" (num_headers_per_query self)
       "The maximum amount of headers to ask from peers in each iteration." ParamPrivacyInput_Public;
     ser_param "num_block_state_diffs_per_query" (num_block_state_diffs_per_query self)
       "The maximum amount of block's state diffs to ask from peers in each iteration." ParamPrivacyInput_Public;
     ser_param "wait_period_for_new_data" (wait_period_for_new_data self)
       "Time in seconds to wait when a query returned with partial data before sending a new query" ParamPrivacyInput_Public;
     ser_param "buffer_size" (buffer_size self)
       "Size of the buffer for read from the storage and for incoming responses." ParamPrivacyInput_Public] in
  bt_extend config
    (ser_optional_param (stop_sync_at_block_number self) 1000 "stop_sync_at_block_number"
       "Stops the sync at given block number and closes the node cleanly. Used to run profiling on the node." ParamPrivacyInput_Public).
#[global] Instance P2PSyncClientConfig_serialize : SerializeConfig P2PSyncClientConfig := {| dump := dump_P2PSyncClientConfig |}.

(** ** [ConsensusConfig] *)

Record ConsensusConfig : Type := mkConsensusConfig {
  ConsensusConfig_validator_id : NodeAddress;
  ConsensusConfig_topic : string;
  ConsensusConfig_start_height : Z;
  ConsensusConfig_num_validators : Z
}.

Definition dump_ConsensusConfig (self : ConsensusConfig) : BTreeMap SerializedParam :=
  bt_from_iter
    [ser_required_param "validator_id" SerializationType_String
       "The validator id of the node." ParamPrivacyInput_Public;
     ser_param "topic" (ConsensusConfig_topic self)
       "The topic of the consensus." ParamPrivacyInput_Public;
     ser_param "start_height" (ConsensusConfig_start_height self)
       "The height to start the consensus from." ParamPrivacyInput_Public;
     ser_param "num_validators" (ConsensusConfig_num_validators self)
       "The number of validators in the consensus." ParamPrivacyInput_Public].
#[global] Instance ConsensusConfig_serialize : SerializeConfig ConsensusConfig := {| dump := dump_ConsensusConfig |}.

Definition default_ConsensusConfig : ConsensusConfig := mkConsensusConfig NodeAddress_default "consensus" 0 4.

(** ** [NetworkConfig] *)

Record NetworkConfig : Type := mkNetworkConfig {
  NetworkConfig_tcp_port : Z;
  NetworkConfig_quic_port : Z;
  NetworkConfig_session_timeout : Z;
  NetworkConfig_idle_connection_timeout : Z;
  NetworkConfig_bootstrap_peer_multiaddr : option Multiaddr;
  NetworkConfig_secret_key : option (list Z)
}.

Definition dump_NetworkConfig (self : NetworkConfig) : BTreeMap SerializedParam :=
  let config := bt_from_iter
    [ser_param "tcp_port" (NetworkConfig_tcp_port self)
       "The port that the node listens on for incoming tcp connections." ParamPrivacyInput_Public;
     ser_param "quic_port" (NetworkConfig_quic_port self)
       "The port that the node listens on for incoming quic connections." ParamPrivacyInput_Public;
     ser_param "session_timeout" (as_secs (NetworkConfig_session_timeout self))
       "Maximal time in seconds that each session can take before failing on timeout." ParamPrivacyInput_Public;
     ser_param "idle_connection_timeout" (as_secs (NetworkConfig_idle_connection_timeout self))
       "Amount of time in seconds that a connection with no active sessions will stay alive." ParamPrivacyInput_Public] in
  let config := bt_extend config
    (ser_optional_param (NetworkConfig_bootstrap_peer_multiaddr self) Multiaddr_empty "bootstrap_peer_multiaddr"
       "The multiaddress of the peer node. It should include the peer's id. For more info: https://docs.libp2p.io/concepts/fundamentals/peers/" ParamPrivacyInput_Public) in
  bt_extend config
    [ser_param "secret_key" (serialize_optional_vec_u8 (NetworkConfig_secret_key self))
       "The secret key used for building the peer id. If it's an empty string a random one will be used." ParamPrivacyInput_Private].
#[global] Instance NetworkConfig_serialize : SerializeConfig NetworkConfig := {| dump := dump_NetworkConfig |}.

Definition default_NetworkConfig : NetworkConfig := {|
  NetworkConfig_tcp_port := 10000;
  NetworkConfig_quic_port := 10001;
  NetworkConfig_session_timeout := from_secs 120;
  NetworkConfig_idle_connection_timeout := from_secs 120;
  NetworkConfig_bootstrap_peer_multiaddr := None;
  NetworkConfig_secret_key := None
|}.

(** ** [MonitoringGatewayConfig] *)

Record MonitoringGatewayConfig : Type := mkMonitoringGatewayConfig {
  MonitoringGatewayConfig_server_address : string;
  MonitoringGatewayConfig_collect_metrics : bool;
  MonitoringGatewayConfig_metric_labels : option (gmap string string);
  MonitoringGatewayConfig_present_full_config_secret : string;
  MonitoringGatewayConfig_starknet_url : string
}.

Definition dump_MonitoringGatewayConfig (self : MonitoringGatewayConfig) : BTreeMap SerializedParam :=
  bt_from_iter
    [ser_param "server_address" (MonitoringGatewayConfig_server_address self)
       "node's monitoring server." ParamPrivacyInput_Public;
     ser_param "collect_metrics" (MonitoringGatewayConfig_collect_metrics self)
       "If true, collect and return metrics in the monitoring gateway." ParamPrivacyInput_Public;
     ser_param "metric_labels" (serialize_optional_map (MonitoringGatewayConfig_metric_labels self))
       "'label1:value1 label2:value2 ...' additional labels for metrics." ParamPrivacyInput_Public;
     ser_generated_param "present_full_config_secret" SerializationType_String
       "A secret for presenting the full general config." ParamPrivacyInput_Private;
     ser_param "starknet_url" (MonitoringGatewayConfig_starknet_url self)
       "The URL of a centralized Starknet gateway." ParamPrivacyInput_Public].
#[global] Instance MonitoringGatewayConfig_serialize : SerializeConfig MonitoringGatewayConfig := {| dump := dump_MonitoringGatewayConfig |}.

Definition default_MonitoringGatewayConfig : MonitoringGatewayConfig := {|
  MonitoringGatewayConfig_server_address := "0.0.0.0:8081";
  MonitoringGatewayConfig_collect_metrics := false;
  MonitoringGatewayConfig_metric_labels := None;
  MonitoringGatewayConfig_present_full_config_secret := "qwerty";
  MonitoringGatewayConfig_starknet_url := "https://alpha-mainnet.starknet.io/"
|}.

(** ** [StorageConfig] *)

Definition dump_MmapFileConfig (self : MmapFileConfig) : BTreeMap SerializedParam :=
  bt_from_iter
    [ser_param "max_size" (max_size self)
       "The maximum size of a memory mapped file in bytes. Must be greater than growth_step." ParamPrivacyInput_Public;
     ser_param "growth_step" (growth_step self)
       "The growth step in bytes, must be greater than max_object_size." ParamPrivacyInput_Public;
     ser_param "max_object_size" (max_object_size self)
       "The maximum size of a single object in the file in bytes" ParamPrivacyInput_Public].
#[global] Instance MmapFileConfig_serialize : SerializeConfig MmapFileConfig := {| dump := dump_MmapFileConfig |}.

Record DbConfig : Type := mkDbConfig {
  DbConfig_path_prefix : string;
  DbConfig_chain_id : NodeChainId;
  DbConfig_enforce_file_exists : bool;
  DbConfig_min_size : Z;
  DbConfig_max_size : Z;
  DbConfig_growth_step : Z
}.

Definition dump_DbConfig (self : DbConfig) : BTreeMap SerializedParam :=
  bt_from_iter
    [ser_param "path_prefix" (DbConfig_path_prefix self)
       "Prefix of the path of the node's storage directory, the storage file path will be <path_prefix>/<chain_id>. The path is not created automatically." ParamPrivacyInput_Public;
     ser_param "chain_id" (DbConfig_chain_id self)
       "The chain to follow. For more details see https://docs.starknet.io/documentation/architecture_and_concepts/Blocks/transactions/#chain-id." ParamPrivacyInput_Public;
     ser_param "enforce_file_exists" (DbConfig_enforce_file_exists self)
       "Whether to enforce that the path exists. If true, `open_env` fails when the mdbx.dat file does not exist." ParamPrivacyInput_Public;
     ser_param "min_size" (DbConfig_min_size self)
       "The minimum size of the node's storage in bytes." ParamPrivacyInput_Public;
     ser_param "max_size" (DbConfig_max_size self)
       "The maximum size of the node's storage in bytes." ParamPrivacyInput_Public;
     ser_param "growth_step" (DbConfig_growth_step self)
       "The growth step in bytes, must be greater than zero to allow the database to grow." ParamPrivacyInput_Public].
#[global] Instance DbConfig_serialize : SerializeConfig DbConfig := {| dump := dump_DbConfig |}.

Definition default_DbConfig : DbConfig := {|
  DbConfig_path_prefix := "./data";
  DbConfig_chain_id := NodeChainId_Mainnet;
  DbConfig_enforce_file_exists := false;
  DbConfig_min_size := Z.shiftl 1 20;
  DbConfig_max_size := Z.shiftl 1 40;
  DbConfig_growth_step := Z.shiftl 1 32
|}.

Record StorageConfig : Type := mkStorageConfig {
  StorageConfig_db_config : DbConfig;
  StorageConfig_mmap_file_config : MmapFileConfig;
  StorageConfig_scope : StorageScope
}.

Definition dump_StorageConfig (self : StorageConfig) : BTreeMap SerializedParam :=
  let dumped_config := bt_from_iter
    [ser_param "scope" (StorageConfig_scope self)
       "The categories of data saved in storage." ParamPrivacyInput_Public] in
  let dumped_config :=
    bt_extend dumped_config (append_sub_config_name (dump (StorageConfig_mmap_file_config self)) "mmap_file_config") in
  bt_extend dumped_config (append_sub_config_name (dump (StorageConfig_db_config self)) "db_config").
#[global] Instance StorageConfig_serialize : SerializeConfig StorageConfig := {| dump := dump_StorageConfig |}.

Definition default_StorageConfig : StorageConfig := mkStorageConfig default_DbConfig MmapFile.default_config StorageScope_FullArchive.

(** ** [NodeConfig] *)

Record NodeConfig : Type := mkNodeConfig {
  NodeConfig_rpc : RpcConfig;
  NodeConfig_central : CentralSourceConfig;
  NodeConfig_base_layer : EthereumBaseLayerConfig;
  NodeConfig_monitoring_gateway : MonitoringGatewayConfig;
  NodeConfig_storage : StorageConfig;
  NodeConfig_sync : option SyncConfig;
  NodeConfig_p2p_sync : option P2PSyncClientConfig;
  NodeConfig_consensus : option ConsensusConfig;
  NodeConfig_network : option NetworkConfig;
  NodeConfig_collect_profiling_metrics : bool
}.

Definition dump_NodeConfig (self : NodeConfig) : BTreeMap SerializedParam :=
  let sub_configs :=
    [append_sub_config_name (dump (NodeConfig_central self)) "central";
     append_sub_config_name (dump (NodeConfig_base_layer self)) "base_layer";
     append_sub_config_name (dump (NodeConfig_monitoring_gateway self)) "monitoring_gateway";
     append_sub_config_name (dump (NodeConfig_storage self)) "storage";
     ser_optional_sub_config default_SyncConfig (NodeConfig_sync self) "sync";
     ser_optional_sub_config default_P2PSyncClientConfig (NodeConfig_p2p_sync self) "p2p_sync";
     ser_optional_sub_config default_ConsensusConfig (NodeConfig_consensus self) "consensus";
     ser_optional_sub_config default_NetworkConfig (NodeConfig_network self) "network";
     bt_from_iter
       [ser_param "collect_profiling_metrics" (NodeConfig_collect_profiling_metrics self)
          "If true, collect profiling metrics for the node." ParamPrivacyInput_Public]] in
  let sub_configs := (sub_configs ++ [append_sub_config_name (dump (NodeConfig_rpc self)) "rpc"])%list in
  bt_from_iter (List.concat sub_configs).
#[global] Instance NodeConfig_serialize : SerializeConfig NodeConfig := {| dump := dump_NodeConfig |}.

Definition default_NodeConfig : NodeConfig := {|
  NodeConfig_central := default_CentralSourceConfig;
  NodeConfig_base_layer := default_EthereumBaseLayerConfig;
  NodeConfig_rpc := default_RpcConfig;
  NodeConfig_monitoring_gateway := default_MonitoringGatewayConfig;
  NodeConfig_storage := default_StorageConfig;
  NodeConfig_sync := Some default_SyncConfig;
  NodeConfig_p2p_sync := None;
  NodeConfig_consensus := None;
  NodeConfig_network := None;
  NodeConfig_collect_profiling_metrics := false
|}.

(** [config/pointers.rs]. *)
Definition CONFIG_POINTERS : list ((string * SerializedParam) * list string) :=
  [(ser_pointer_target_param "chain_id" NodeChainId_Mainnet
      "The chain to follow. For more details see https://docs.starknet.io/documentation/architecture_and_concepts/Blocks/transactions/#chain-id.",
    ["storage.db_config.chain_id"; "rpc.chain_id"]);
   (ser_pointer_target_param "starknet_url" "https://alpha-mainnet.starknet.io/"
      "The URL of a centralized Starknet gateway.",
    ["rpc.starknet_url"; "central.url"; "monitoring_gateway.starknet_url"]);
   (ser_pointer_target_param "collect_metrics" false
      "If true, collect metrics for the node.",
    ["rpc.collect_metrics"; "monitoring_gateway.collect_metrics"])].

(** [version.rs]. *)
Definition VERSION_MAJOR : nat := 0.
Definition VERSION_MINOR : nat := 5.
Definition VERSION_PATCH : nat := 0.
Inductive Metadata : Type := Metadata_Dev | Metadata_Stable.
Definition VERSION_META : Metadata := Metadata_Dev.
Definition DEV_VERSION_META : string := "dev".
Definition STABLE_VERSION_META : string := "stable".
Definition version_str : string :=
  index_text VERSION_MAJOR ++ "." ++ index_text VERSION_MINOR ++ "." ++ index_text VERSION_PATCH.
Definition VERSION : string := version_str.
Definition full_version_str : string :=
  match VERSION_META with
  | Metadata_Dev => VERSION ++ "-" ++ DEV_VERSION_META
  | Metadata_Stable => VERSION
  end.
Definition VERSION_FULL : string := full_version_str.
Definition metadata_str (metadata : Metadata) : string :=
  match metadata with
  | Metadata_Dev => DEV_VERSION_META
  | Metadata_Stable => STABLE_VERSION_META
  end.

(** ** [Deserialize] of the configurations

    The derived deserializers, as [serde] documents them: a structure is read from an
    object, field by field; a missing field is an error unless it is an [Option]
    without [deserialize_with] or has a default; entries that are no fields are
    ignored. A structure could also be read from an array, which the object built by
    [load] does not hold. *)

Context {NR : NodeTypesRead}.

Definition struct_fields (v : Value) : Deserialized (BTreeMap Value) :=
  match v with Value_Object m => ret m | _ => raise tt end.

Definition field {T} (m : BTreeMap Value) (name : string) (of_value : Value -> Deserialized T) : Deserialized T :=
  match bt_get m name with Some v => of_value v | None => raise tt end.

Definition field_or {T} (default : T) (m : BTreeMap Value) (name : string) (of_value : Value -> Deserialized T) : Deserialized T :=
  match bt_get m name with Some v => of_value v | None => ret default end.

Definition optional_field {T} (m : BTreeMap Value) (name : string) (of_value : Value -> Deserialized T) : Deserialized (option T) :=
  match bt_get m name with
  | None | Some Value_Null => ret None
  | Some v => let! a := of_value v in ret (Some a)
  end.

(** Integers of a width, texts, flags. *)
Definition integer_of (lo hi : Z) (v : Value) : Deserialized Z :=
  match v with
  | Value_Number n => let! z := ok_or_raise tt (number_integer n) in if (lo <=? z) && (z <? hi) then ret z else raise tt
  | _ => raise tt
  end.
Definition uint_of (w : Z) : Value -> Deserialized Z := integer_of 0 (2 ^ w).
Definition isize_of : Value -> Deserialized Z := integer_of (- 2 ^ 63) (2 ^ 63).
Definition string_of (v : Value) : Deserialized string := match v with Value_String s => ret s | _ => raise tt end.
Definition bool_of (v : Value) : Deserialized bool := match v with Value_Bool b => ret b | _ => raise tt end.
Definition scope_of (v : Value) : Deserialized StorageScope :=
  let! s := string_of v in
  if String.eqb s "FullArchive" then ret StorageScope_FullArchive
  else if String.eqb s "StateOnly" then ret StorageScope_StateOnly else raise tt.
Definition chain_id_of (v : Value) : Deserialized NodeChainId := ok_or_raise tt (NodeChainId_read v).
Definition address_of (v : Value) : Deserialized NodeAddress := ok_or_raise tt (NodeAddress_read v).
Definition multiaddr_of (v : Value) : Deserialized Multiaddr := ok_or_raise tt (Multiaddr_read v).

(** The attributes [deserialize_with]; the records of the two synchronisations keep
    the seconds. *)
Definition duration_of (v : Value) : Deserialized Z := let! secs := uint_of 64 v in ret (deserialize_seconds_to_duration secs).
Definition seconds_of (v : Value) : Deserialized Z := let! duration := duration_of v in ret (as_secs duration).
Definition optional_map_of (v : Value) : Deserialized (option (gmap string string)) :=
  let! raw_str := string_of v in ok_or_raise tt (deserialize_optional_map raw_str).
Definition optional_vec_u8_of (v : Value) : Deserialized (option (list Z)) :=
  let! raw_str := string_of v in deserialize_optional_vec_u8 raw_str.

Definition RetryConfig_from_value (v : Value) : Deserialized RetryConfig :=
  let! m := struct_fields v in
  let! retry_base_millis := field m "retry_base_millis" (uint_of 64) in
  let! retry_max_delay_millis := field m "retry_max_delay_millis" (uint_of 64) in
  let! max_retries := field m "max_retries" (uint_of 64) in
  ret (mkRetryConfig retry_base_millis retry_max_delay_millis max_retries).

Definition EthereumBaseLayerConfig_from_value (v : Value) : Deserialized EthereumBaseLayerConfig :=
  let! m := struct_fields v in
  let! node_url := field m "node_url" string_of in
  let! starknet_contract_address := field m "starknet_contract_address" string_of in
  ret (mkEthereumBaseLayerConfig node_url starknet_contract_address).

Definition ExecutionConfig_from_value (v : Value) : Deserialized ExecutionConfig :=
  let! m := struct_fields v in
  let! strk_fee_contract_address := field m "strk_fee_contract_address" address_of in
  let! eth_fee_contract_address := field m "eth_fee_contract_address" address_of in
  let! initial_gas_cost := field m "initial_gas_cost" (uint_of 64) in
  ret (mkExecutionConfig strk_fee_contract_address eth_fee_contract_address initial_gas_cost).

Definition RpcConfig_from_value (v : Value) : Deserialized RpcConfig :=
  let! m := struct_fields v in
  let! chain_id := field m "chain_id" chain_id_of in
  let! server_address := field m "server_address" string_of in
  let! max_events_chunk_size := field m "max_events_chunk_size" (uint_of 64) in
  let! max_events_keys := field m "max_events_keys" (uint_of 64) in
  let! collect_metrics := field m "collect_metrics" bool_of in
  let! starknet_url := field m "starknet_url" string_of in
  let! starknet_gateway_retry_config := field m "starknet_gateway_retry_config" RetryConfig_from_value in
  let! execution_config := field m "execution_config" ExecutionConfig_from_value in
  ret (mkRpcConfig chain_id server_address max_events_chunk_size max_events_keys collect_metrics starknet_url starknet_gateway_retry_config execution_config).

Definition CentralSourceConfig_from_value (v : Value) : Deserialized CentralSourceConfig :=
  let! m := struct_fields v in
  let! concurrent_requests := field m "concurrent_requests" (uint_of 64) in
  let! url := field m "url" string_of in
  let! http_headers := field m "http_headers" optional_map_of in
  let! max_state_updates_to_download := field m "max_state_updates_to_download" (uint_of 64) in
  let! max_state_updates_to_store_in_memory := field m "max_state_updates_to_store_in_memory" (uint_of 64) in
  let! max_classes_to_download := field m "max_classes_to_download" (uint_of 64) in
  let! class_cache_size := field m "class_cache_size" (uint_of 64) in
  let! retry_config := field m "retry_config" RetryConfig_from_value in
  ret (mkCentralSourceConfig concurrent_requests url http_headers max_state_updates_to_download max_state_updates_to_store_in_memory max_classes_to_download class_cache_size retry_config).

Definition SyncConfig_from_value (v : Value) : Deserialized SyncConfig :=
  let! m := struct_fields v in
  let! block_propagation_sleep_duration := field m "block_propagation_sleep_duration" seconds_of in
  let! base_layer_propagation_sleep_duration := field m "base_layer_propagation_sleep_duration" seconds_of in
  let! recoverable_error_sleep_duration := field m "recoverable_error_sleep_duration" seconds_of in
  let! blocks_max_stream_size := field m "blocks_max_stream_size" (uint_of 32) in
  let! state_updates_max_stream_size := field m "state_updates_max_stream_size" (uint_of 32) in
  let! verify_blocks := field m "verify_blocks" bool_of in
  ret (mkSyncConfig block_propagation_sleep_duration base_layer_propagation_sleep_duration recoverable_error_sleep_duration blocks_max_stream_size state_updates_max_stream_size verify_blocks).

Definition P2PSyncClientConfig_from_value (v : Value) : Deserialized P2PSyncClientConfig :=
  let! m := struct_fields v in
  let! num_headers_per_query := field m "num_headers_per_query" (uint_of 64) in
  let! num_block_state_diffs_per_query := field m "num_block_state_diffs_per_query" (uint_of 64) in
  let! wait_period_for_new_data := field m "wait_period_for_new_data" seconds_of in
  let! buffer_size := field m "buffer_size" (uint_of 64) in
  let! stop_sync_at_block_number := optional_field m "stop_sync_at_block_number" (uint_of 64) in
  ret (mkP2PSyncClientConfig num_headers_per_query num_block_state_diffs_per_query wait_period_for_new_data buffer_size stop_sync_at_block_number).

Definition ConsensusConfig_from_value (v : Value) : Deserialized ConsensusConfig :=
  let! m := struct_fields v in
  let! validator_id := field m "validator_id" address_of in
  let! topic := field m "topic" string_of in
  let! start_height := field m "start_height" (uint_of 64) in
  let! num_validators := field m "num_validators" (uint_of 64) in
  ret (mkConsensusConfig validator_id topic start_height num_validators).

Definition NetworkConfig_from_value (v : Value) : Deserialized NetworkConfig :=
  let! m := struct_fields v in
  let! tcp_port := field m "tcp_port" (uint_of 16) in
  let! quic_port := field m "quic_port" (uint_of 16) in
  let! session_timeout := field m "session_timeout" duration_of in
  let! idle_connection_timeout := field m "idle_connection_timeout" duration_of in
  let! bootstrap_peer_multiaddr := optional_field m "bootstrap_peer_multiaddr" multiaddr_of in
  let! secret_key := field m "secret_key" optional_vec_u8_of in
  ret (mkNetworkConfig tcp_port quic_port session_timeout idle_connection_timeout bootstrap_peer_multiaddr secret_key).

Definition MonitoringGatewayConfig_from_value (v : Value) : Deserialized MonitoringGatewayConfig :=
  let! m := struct_fields v in
  let! server_address := field m "server_address" string_of in
  let! collect_metrics := field m "collect_metrics" bool_of in
  let! metric_labels := field m "metric_labels" optional_map_of in
  let! present_full_config_secret := field_or random_secret m "present_full_config_secret" string_of in
  let! starknet_url := field m "starknet_url" string_of in
  ret (mkMonitoringGatewayConfig server_address collect_metrics metric_labels present_full_config_secret starknet_url).

Definition MmapFileConfig_from_value (v : Value) : Deserialized MmapFileConfig :=
  let! m := struct_fields v in
  let! max_size := field m "max_size" (uint_of 64) in
  let! growth_step := field m "growth_step" (uint_of 64) in
  let! max_object_size := field m "max_object_size" (uint_of 64) in
  ret (mkMmapFileConfig max_size growth_step max_object_size).

Definition DbConfig_from_value (v : Value) : Deserialized DbConfig :=
  let! m := struct_fields v in
  let! path_prefix := field m "path_prefix" string_of in
  let! chain_id := field m "chain_id" chain_id_of in
  let! enforce_file_exists := field m "enforce_file_exists" bool_of in
  let! min_size := field m "min_size" (uint_of 64) in
  let! max_size := field m "max_size" (uint_of 64) in
  let! growth_step := field m "growth_step" isize_of in
  ret (mkDbConfig path_prefix chain_id enforce_file_exists min_size max_size growth_step).

Definition StorageConfig_from_value (v : Value) : Deserialized StorageConfig :=
  let! m := struct_fields v in
  let! db_config := field m "db_config" DbConfig_from_value in
  let! mmap_file_config := field m "mmap_file_config" MmapFileConfig_from_value in
  let! scope := field m "scope" scope_of in
  ret (mkStorageConfig db_config mmap_file_config scope).

Definition NodeConfig_from_value (v : Value) : Deserialized NodeConfig :=
  let! m := struct_fields v in
  let! rpc := field m "rpc" RpcConfig_from_value in
  let! central := field m "central" CentralSourceConfig_from_value in
  let! base_layer := field m "base_layer" EthereumBaseLayerConfig_from_value in
  let! monitoring_gateway := field m "monitoring_gateway" MonitoringGatewayConfig_from_value in
  let! storage := field m "storage" StorageConfig_from_value in
  let! sync := optional_field m "sync" SyncConfig_from_value in
  let! p2p_sync := optional_field m "p2p_sync" P2PSyncClientConfig_from_value in
  let! consensus := optional_field m "consensus" ConsensusConfig_from_value in
  let! network := optional_field m "network" NetworkConfig_from_value in
  let! collect_profiling_metrics := field m "collect_profiling_metrics" bool_of in
  ret (mkNodeConfig rpc central base_layer monitoring_gateway storage sync p2p_sync consensus network collect_profiling_metrics).

(** [NodeConfig::load_and_process]: the default file is opened, then processed. *)
Definition DEFAULT_CONFIG_PATH : string := "config/default_config.json".

Context {PJ : ParamJson} {IO : ConfigIo} {SJ : SerdeJsonApi} {CL : ClapApi}.

Definition load_and_process (read_default : Files -> string -> option (BTreeMap Value))
    (node_command : Command) (files : Files) (args : list string) : M (BTreeMap Value) ConfigError NodeConfig :=
  if negb (path_exists files DEFAULT_CONFIG_PATH) then raise ConfigError_IOError
  else load_and_process_config NodeConfig_from_value files (read_default files DEFAULT_CONFIG_PATH) node_command args.

(** ** The start of the node ([main.rs]) *)

(** The tasks that are spawned, each with its configuration; the network with its
    manager, the monitoring server with the id of the node. *)
Inductive Task : Type :=
| Task_storage_metrics
| Task_network (config : NetworkConfig) (manager : NetworkManager)
| Task_monitoring_server (config : MonitoringGatewayConfig) (own_peer_id : string)
| Task_rpc_server (config : RpcConfig)
| Task_p2p_sync_server
| Task_sync (config : SyncConfig) (central : CentralSourceConfig) (base_layer : EthereumBaseLayerConfig)
| Task_p2p_sync_client (config : P2PSyncClientConfig)
| Task_consensus (config : ConsensusConfig).

(** What the start calls beside the network: the storage, the recorder of the
    monitoring server, the JSON-RPC server; each can fail or panic. *)
Class StartApi : Type := {
  StartError : Type;
  open_storage_result : StorageConfig -> M unit StartError unit;
  presentation_fails : ConfigError -> StartError;
  subscription_fails : NetworkManagerError -> StartError;
  to_value : NodeConfig -> option Value;
  MonitoringServer_new : MonitoringGatewayConfig -> M unit StartError unit;
  run_server : RpcConfig -> M unit StartError unit
}.

(** [libp2p]: keys, addresses, protocols and topics (by the numbers that the model of
    the network has for them), and the results of what it builds and binds. *)
Class Libp2pApi : Type := {
  Keypair : Type;
  ed25519_from_bytes : list Z -> option Keypair;
  generate_ed25519 : Keypair;
  local_peer_id : Keypair -> string;
  multiaddr_from_str : string -> option Multiaddr;
  multiaddr_number : Multiaddr -> Z;
  (** [DialOpts::from(address).get_peer_id()]. *)
  dial_peer_id : Multiaddr -> option Z;
  tcp_transport_built : Keypair -> bool;
  gossipsub_built : Keypair -> bool;
  listen_on : Multiaddr -> bool;
  (** [StreamProtocol::try_from_owned]. *)
  stream_protocol : string -> option Z;
  topic_hash : string -> Z;
  subscribe : string -> bool
}.

Context {SA : StartApi} {LP : Libp2pApi}.

(** The state is the tasks spawned so far. *)
Definition Start (A : Type) : Type := M (list Task) StartError A.

Definition calling (m : M unit StartError unit) : Start unit := fun tasks =>
  match m tt with
  | Done _ _ => Done tasks tt
  | Fail _ e => Fail tasks e
  | Panic => Panic
  end.
Definition spawn (task : Task) : Start unit := modify (fun tasks => (tasks ++ [task])%list).

(** [bin_utils::build_swarm]: the swarm is its behaviour, with the key of the node.
    The addresses are parsed when they are used. *)
Definition build_swarm (listen_addresses : list string) (idle_connection_timeout : Z) (secret_key : option (list Z))
    (behaviour : Keypair -> Start MixedBehaviour) : Start (Keypair * MixedBehaviour) :=
  let! key_pair := match secret_key with
                   | Some secret_key => expect (ed25519_from_bytes secret_key)
                   | None => ret generate_ed25519
                   end in
  assert_ (tcp_transport_built key_pair) ;!
  let! swarm := behaviour key_pair in
  for_each listen_addresses (fun listen_address =>
    let! listen_address := expect (multiaddr_from_str listen_address) in
    assert_ (listen_on listen_address)) ;!
  ret (key_pair, swarm).

Definition tcp_address (tcp_port : Z) : string := "/ip4/0.0.0.0/tcp/" ++ pretty.pretty tcp_port.

(** [NetworkManager::new]. *)
Definition NetworkManager_new (config : NetworkConfig) : Start (Keypair * NetworkManager) :=
  let! swarm := build_swarm [tcp_address (NetworkConfig_tcp_port config)] (NetworkConfig_idle_connection_timeout config)
    (NetworkConfig_secret_key config)
    (fun key =>
       let! behaviour := expect (MixedBehaviour_new
         ((fun address => (dial_peer_id address, multiaddr_number address)) <$> NetworkConfig_bootstrap_peer_multiaddr config)
         (mkSqmrConfig (NetworkConfig_session_timeout config))) in
       assert_ (gossipsub_built key) ;!
       ret behaviour) in
  let '(key_pair, behaviour) := swarm in
  ret (key_pair, generic_new behaviour).

Definition in_manager (m : NM unit) (network_manager : NetworkManager) : Start NetworkManager := fun tasks =>
  match m network_manager with
  | Done network_manager _ => Done tasks network_manager
  | Fail _ e => Fail tasks (subscription_fails e)
  | Panic => Panic
  end.

(** The protocols of [papyrus_p2p_sync]. *)
Inductive Protocol : Type :=
| Protocol_SignedBlockHeader
| Protocol_StateDiff
| Protocol_Transaction
| Protocol_Class
| Protocol_Event.

Definition Protocol_as_str (self : Protocol) : string :=
  match self with
  | Protocol_SignedBlockHeader => "/starknet/headers/0.1.0-rc.0"
  | Protocol_StateDiff => "/starknet/state_diffs/0.1.0-rc.0"
  | Protocol_Transaction => "/starknet/transactions/0.1.0-rc.0"
  | Protocol_Class => "/starknet/classes/0.1.0-rc.0"
  | Protocol_Event => "/starknet/events/0.1.0-rc.0"
  end.

Definition BUFFER_SIZE : Z := 100000.

(** The channels of [run_network]: of the client, of the server, of consensus. *)
Record NetworkChannels : Type := mkNetworkChannels {
  maybe_sync_client_channels : bool;
  maybe_sync_server_channels : bool;
  maybe_consensus_channels : bool
}.

(** The registrations, in their order. *)
Definition register_protocols (consensus_config : option ConsensusConfig) : NM unit :=
  for_each [Protocol_SignedBlockHeader; Protocol_StateDiff; Protocol_Transaction] (fun protocol =>
    register_sqmr_protocol_client (stream_protocol (Protocol_as_str protocol))) ;!
  for_each [Protocol_SignedBlockHeader; Protocol_StateDiff; Protocol_Transaction; Protocol_Class; Protocol_Event] (fun protocol =>
    register_sqmr_protocol_server (stream_protocol (Protocol_as_str protocol)) BUFFER_SIZE) ;!
  match consensus_config with
  | Some consensus_config =>
      register_broadcast_topic (topic_hash (ConsensusConfig_topic consensus_config)) (subscribe (ConsensusConfig_topic consensus_config))
  | None => ret tt
  end.

Definition run_network (network_config : option NetworkConfig) (consensus_config : option ConsensusConfig) :
    Start (option Task * NetworkChannels * string) :=
  match network_config with
  | None => ret (None, mkNetworkChannels false false false, "")
  | Some network_config =>
      let! network := NetworkManager_new network_config in
      let '(key_pair, network_manager) := network in
      let! network_manager := in_manager (register_protocols consensus_config) network_manager in
      ret (Some (Task_network network_config network_manager),
           mkNetworkChannels true true (match consensus_config with Some _ => true | None => false end),
           local_peer_id key_pair)
  end.

Definition present (config : NodeConfig) (include_private_parameters : bool) : Start unit := fun tasks =>
  match get_config_presentation to_value config include_private_parameters tt with
  | Done _ _ => Done tasks tt
  | Fail _ e => Fail tasks (presentation_fails e)
  | Panic => Panic
  end.

(** Up to the [select!] that waits for the first task to end. *)
Definition run_threads (config : NodeConfig) : Start unit :=
  calling (open_storage_result (NodeConfig_storage config)) ;!
  (if MonitoringGatewayConfig_collect_metrics (NodeConfig_monitoring_gateway config) then spawn Task_storage_metrics else ret tt) ;!
  let! network := run_network (NodeConfig_network config) (NodeConfig_consensus config) in
  let '(network_future, channels, local_peer_id) := network in
  match network_future with Some task => spawn task | None => ret tt end ;!
  present config true ;!
  present config false ;!
  calling (MonitoringServer_new (NodeConfig_monitoring_gateway config)) ;!
  spawn (Task_monitoring_server (NodeConfig_monitoring_gateway config) local_peer_id) ;!
  calling (run_server (NodeConfig_rpc config)) ;!
  spawn (Task_rpc_server (NodeConfig_rpc config)) ;!
  (if maybe_sync_server_channels channels then spawn Task_p2p_sync_server else ret tt) ;!
  match NodeConfig_sync config, NodeConfig_p2p_sync config with
  | Some _, Some _ => panic
  | Some sync_config, None => spawn (Task_sync sync_config (NodeConfig_central config) (NodeConfig_base_layer config))
  | None, Some p2p_sync_client_config =>
      if maybe_sync_client_channels channels then spawn (Task_p2p_sync_client p2p_sync_client_config) else panic
  | None, None => ret tt
  end ;!
  if maybe_consensus_channels channels
  then let! config := expect (NodeConfig_consensus config) in spawn (Task_consensus config)
  else ret tt.
End NodeConfig.

(** ** The configuration of the node is loaded back *)

(** Documented formats: chain ids, addresses and multiaddresses are serialized as
    texts, and they and the integers of 64 bits are read back. *)
Class NodeTypesSpec {JN : JsonNumberApi} {NT : NodeTypes} {NR : NodeTypesRead} : Type := {
  chain_id_is_text : forall chain_id : NodeChainId, exists s, json chain_id = Value_String s;
  address_is_text : forall address : NodeAddress, exists s, json address = Value_String s;
  multiaddr_is_text : forall address : Multiaddr, exists s, json address = Value_String s;
  chain_id_read_back : forall chain_id, NodeChainId_read (json chain_id) = Some chain_id;
  address_read_back : forall address, NodeAddress_read (json address) = Some address;
  multiaddr_read_back : forall address, Multiaddr_read (json address) = Some address;
  number_read_back : forall n, - 2 ^ 63 <= n < 2 ^ 64 -> number_integer (number_from_usize n) = Some n
}.

#[local] Existing Instance Z_json.
#[local] Existing Instance scope_json.

Section Paths.
Context {JN : JsonNumberApi} {HM : HashMapIter} {NT : NodeTypes}.

(** The parameters of a configuration with their default values; those without one
    have to be supplied. A component that is switched off has its defaults. *)
Definition contents (config : NodeConfig) : list (string * option Value) :=
  let sync := default default_SyncConfig (NodeConfig_sync config) in
  let p2p_sync := default default_P2PSyncClientConfig (NodeConfig_p2p_sync config) in
  let consensus := default default_ConsensusConfig (NodeConfig_consensus config) in
  let network := default default_NetworkConfig (NodeConfig_network config) in
  [("base_layer.node_url", None);
   ("base_layer.starknet_contract_address", Some (json (EthereumBaseLayerConfig_starknet_contract_address (NodeConfig_base_layer config))));
   ("central.class_cache_size", Some (json (CentralSourceConfig_class_cache_size (NodeConfig_central config))));
   ("central.concurrent_requests", Some (json (CentralSourceConfig_concurrent_requests (NodeConfig_central config))));
   ("central.http_headers", Some (json (serialize_optional_map (CentralSourceConfig_http_headers (NodeConfig_central config)))));
   ("central.max_classes_to_download", Some (json (CentralSourceConfig_max_classes_to_download (NodeConfig_central config))));
   ("central.max_state_updates_to_download", Some (json (CentralSourceConfig_max_state_updates_to_download (NodeConfig_central config))));
   ("central.max_state_updates_to_store_in_memory", Some (json (CentralSourceConfig_max_state_updates_to_store_in_memory (NodeConfig_central config))));
   ("central.retry_config.max_retries", Some (json (RetryConfig_max_retries (CentralSourceConfig_retry_config (NodeConfig_central config)))));
   ("central.retry_config.retry_base_millis", Some (json (RetryConfig_retry_base_millis (CentralSourceConfig_retry_config (NodeConfig_central config)))));
   ("central.retry_config.retry_max_delay_millis", Some (json (RetryConfig_retry_max_delay_millis (CentralSourceConfig_retry_config (NodeConfig_central config)))));
   ("central.url", Some (json (CentralSourceConfig_url (NodeConfig_central config))));
   ("collect_profiling_metrics", Some (json (NodeConfig_collect_profiling_metrics config)));
   ("consensus.#is_none", Some (json (is_none (NodeConfig_consensus config))));
   ("consensus.num_validators", Some (json (ConsensusConfig_num_validators consensus)));
   ("consensus.start_height", Some (json (ConsensusConfig_start_height consensus)));
   ("consensus.topic", Some (json (ConsensusConfig_topic consensus)));
   ("consensus.validator_id", None);
   ("monitoring_gateway.collect_metrics", Some (json (MonitoringGatewayConfig_collect_metrics (NodeConfig_monitoring_gateway config))));
   ("monitoring_gateway.metric_labels", Some (json (serialize_optional_map (MonitoringGatewayConfig_metric_labels (NodeConfig_monitoring_gateway config)))));
   ("monitoring_gateway.present_full_config_secret", None);
   ("monitoring_gateway.server_address", Some (json (MonitoringGatewayConfig_server_address (NodeConfig_monitoring_gateway config))));
   ("monitoring_gateway.starknet_url", Some (json (MonitoringGatewayConfig_starknet_url (NodeConfig_monitoring_gateway config))));
   ("network.#is_none", Some (json (is_none (NodeConfig_network config))));
   ("network.bootstrap_peer_multiaddr", Some (json (default Multiaddr_empty (NetworkConfig_bootstrap_peer_multiaddr network))));
   ("network.bootstrap_peer_multiaddr.#is_none", Some (json (is_none (NetworkConfig_bootstrap_peer_multiaddr network))));
   ("network.idle_connection_timeout", Some (json (as_secs (NetworkConfig_idle_connection_timeout network))));
   ("network.quic_port", Some (json (NetworkConfig_quic_port network)));
   ("network.secret_key", Some (json (serialize_optional_vec_u8 (NetworkConfig_secret_key network))));
   ("network.session_timeout", Some (json (as_secs (NetworkConfig_session_timeout network))));
   ("network.tcp_port", Some (json (NetworkConfig_tcp_port network)));
   ("p2p_sync.#is_none", Some (json (is_none (NodeConfig_p2p_sync config))));
   ("p2p_sync.buffer_size", Some (json (buffer_size p2p_sync)));
   ("p2p_sync.num_block_state_diffs_per_query", Some (json (num_block_state_diffs_per_query p2p_sync)));
   ("p2p_sync.num_headers_per_query", Some (json (num_headers_per_query p2p_sync)));
   ("p2p_sync.stop_sync_at_block_number", Some (json (default 1000 (stop_sync_at_block_number p2p_sync))));
   ("p2p_sync.stop_sync_at_block_number.#is_none", Some (json (is_none (stop_sync_at_block_number p2p_sync))));
   ("p2p_sync.wait_period_for_new_data", Some (json (wait_period_for_new_data p2p_sync)));
   ("rpc.chain_id", Some (json (RpcConfig_chain_id (NodeConfig_rpc config))));
   ("rpc.collect_metrics", Some (json (RpcConfig_collect_metrics (NodeConfig_rpc config))));
   ("rpc.execution_config.eth_fee_contract_address", Some (json (ExecutionConfig_eth_fee_contract_address (RpcConfig_execution_config (NodeConfig_rpc config)))));
   ("rpc.execution_config.initial_gas_cost", Some (json (ExecutionConfig_initial_gas_cost (RpcConfig_execution_config (NodeConfig_rpc config)))));
   ("rpc.execution_config.strk_fee_contract_address", Some (json (ExecutionConfig_strk_fee_contract_address (RpcConfig_execution_config (NodeConfig_rpc config)))));
   ("rpc.max_events_chunk_size", Some (json (RpcConfig_max_events_chunk_size (NodeConfig_rpc config))));
   ("rpc.max_events_keys", Some (json (RpcConfig_max_events_keys (NodeConfig_rpc config))));
   ("rpc.server_address", Some (json (RpcConfig_server_address (NodeConfig_rpc config))));
   ("rpc.starknet_gateway_retry_config.max_retries", Some (json (RetryConfig_max_retries (RpcConfig_starknet_gateway_retry_config (NodeConfig_rpc config)))));
   ("rpc.starknet_gateway_retry_config.retry_base_millis", Some (json (RetryConfig_retry_base_millis (RpcConfig_starknet_gateway_retry_config (NodeConfig_rpc config)))));
   ("rpc.starknet_gateway_retry_config.retry_max_delay_millis", Some (json (RetryConfig_retry_max_delay_millis (RpcConfig_starknet_gateway_retry_config (NodeConfig_rpc config)))));
   ("rpc.starknet_url", Some (json (RpcConfig_starknet_url (NodeConfig_rpc config))));
   ("storage.db_config.chain_id", Some (json (DbConfig_chain_id (StorageConfig_db_config (NodeConfig_storage config)))));
   ("storage.db_config.enforce_file_exists", Some (json (DbConfig_enforce_file_exists (StorageConfig_db_config (NodeConfig_storage config)))));
   ("storage.db_config.growth_step", Some (json (DbConfig_growth_step (StorageConfig_db_config (NodeConfig_storage config)))));
   ("storage.db_config.max_size", Some (json (DbConfig_max_size (StorageConfig_db_config (NodeConfig_storage config)))));
   ("storage.db_config.min_size", Some (json (DbConfig_min_size (StorageConfig_db_config (NodeConfig_storage config)))));
   ("storage.db_config.path_prefix", Some (json (DbConfig_path_prefix (StorageConfig_db_config (NodeConfig_storage config)))));
   ("storage.mmap_file_config.growth_step", Some (json (growth_step (StorageConfig_mmap_file_config (NodeConfig_storage config)))));
   ("storage.mmap_file_config.max_object_size", Some (json (max_object_size (StorageConfig_mmap_file_config (NodeConfig_storage config)))));
   ("storage.mmap_file_config.max_size", Some (json (max_size (StorageConfig_mmap_file_config (NodeConfig_storage config)))));
   ("storage.scope", Some (json (StorageConfig_scope (NodeConfig_storage config))));
   ("sync.#is_none", Some (json (is_none (NodeConfig_sync config))));
   ("sync.base_layer_propagation_sleep_duration", Some (json (base_layer_propagation_sleep_duration sync)));
   ("sync.block_propagation_sleep_duration", Some (json (block_propagation_sleep_duration sync)));
   ("sync.blocks_max_stream_size", Some (json (blocks_max_stream_size sync)));
   ("sync.recoverable_error_sleep_duration", Some (json (recoverable_error_sleep_duration sync)));
   ("sync.state_updates_max_stream_size", Some (json (state_updates_max_stream_size sync)));
   ("sync.verify_blocks", Some (json (verify_blocks sync)))].

Definition param_content (param : SerializedParam) : option Value :=
  match SerializedParam_content param with SerializedContent_DefaultValue v => Some v | _ => None end.

Lemma node_contents config : prod_map id param_content <$> dump config = contents config.
Proof. destruct config as [r c b m st [sy|] [p|] [co|] [ne|] pr]; vm_compute; reflexivity. Qed.

(** The paths of the parameters, which do not depend on the values. *)
Definition NODE_PATHS : list string := Eval vm_compute in (contents default_NodeConfig).*1.

Lemma node_paths (config : NodeConfig) : (dump config).*1 = NODE_PATHS.
Proof. assert ((dump config).*1 = (prod_map id param_content <$> dump config).*1) as -> by (by rewrite <-list_fmap_compose). by rewrite node_contents. Qed.

Lemma node_sorted (config : NodeConfig) : bt_sorted (dump config).
Proof. change (dump config) with (dump_NodeConfig config). unfold dump_NodeConfig. apply bt_from_iter_sorted. Qed.

(** With the targets of the pointers: the paths of the file. *)
Definition FILE_PATHS : list string := (targets CONFIG_POINTERS).*1 ++ NODE_PATHS.

(** The parameters that can be none. *)
Definition NODE_OPTIONS : list string :=
  ["consensus"; "network"; "network.bootstrap_peer_multiaddr"; "p2p_sync"; "p2p_sync.stop_sync_at_block_number"; "sync"].

Lemma node_options : options_of FILE_PATHS = NODE_OPTIONS.
Proof. vm_compute. reflexivity. Qed.

(** No parameter lies below another one, nor an optional one below a parameter. *)
Lemma node_paths_apart : paths_apart (plain_of FILE_PATHS) (plain_of FILE_PATHS ++ options_of FILE_PATHS) = true.
Proof. vm_compute. reflexivity. Qed.

(** A path starts with the text of an optional parameter only below it. *)
Lemma node_texts_apart : texts_apart (FILE_PATHS ++ options_of FILE_PATHS) (options_of FILE_PATHS) = true.
Proof. vm_compute. reflexivity. Qed.

Lemma node_pointers_ok (config : NodeConfig) :
  NoDup (pointing_params CONFIG_POINTERS) /\ NoDup (targets CONFIG_POINTERS).*1 /\
  forall p, p ∈ pointing_params CONFIG_POINTERS -> is_Some (bt_get (dump config) p) /\ p ∉ (targets CONFIG_POINTERS).*1.
Proof.
  assert (Hall : Forall (fun p => p ∈ NODE_PATHS /\ p ∉ (targets CONFIG_POINTERS).*1) (pointing_params CONFIG_POINTERS))
    by (apply (bool_decide_unpack _); vm_compute; exact I).
  split_and!; [apply (bool_decide_unpack _); vm_compute; exact I..|].
  intros p Hp. rewrite bt_get_is_Some, node_paths. revert p Hp. by apply Forall_forall.
Qed.

(** What a configuration in memory satisfies to be loaded back: its integers have the
    widths of their types, the timeouts of the network are whole seconds, and the maps
    are not empty and their texts can be split again. *)
Definition config_integers (config : NodeConfig) : list (Z * Z) :=
  let retry (c : RetryConfig) := [(64, RetryConfig_retry_base_millis c); (64, RetryConfig_retry_max_delay_millis c); (64, RetryConfig_max_retries c)] in
  let rpc := NodeConfig_rpc config in
  let central := NodeConfig_central config in
  let mmap := StorageConfig_mmap_file_config (NodeConfig_storage config) in
  let db := StorageConfig_db_config (NodeConfig_storage config) in
  [(64, RpcConfig_max_events_chunk_size rpc); (64, RpcConfig_max_events_keys rpc);
   (64, ExecutionConfig_initial_gas_cost (RpcConfig_execution_config rpc));
   (64, CentralSourceConfig_concurrent_requests central); (64, CentralSourceConfig_max_state_updates_to_download central);
   (64, CentralSourceConfig_max_state_updates_to_store_in_memory central); (64, CentralSourceConfig_max_classes_to_download central);
   (64, CentralSourceConfig_class_cache_size central);
   (64, max_size mmap); (64, growth_step mmap); (64, max_object_size mmap); (64, DbConfig_min_size db); (64, DbConfig_max_size db)] ++
  retry (RpcConfig_starknet_gateway_retry_config rpc) ++ retry (CentralSourceConfig_retry_config central) ++
  match NodeConfig_sync config with
  | Some c => [(64, block_propagation_sleep_duration c); (64, base_layer_propagation_sleep_duration c);
               (64, recoverable_error_sleep_duration c); (32, blocks_max_stream_size c); (32, state_updates_max_stream_size c)]
  | None => []
  end ++
  match NodeConfig_p2p_sync config with
  | Some c => [(64, num_headers_per_query c); (64, num_block_state_diffs_per_query c); (64, wait_period_for_new_data c); (64, buffer_size c)] ++
              match stop_sync_at_block_number c with Some n => [(64, n)] | None => [] end
  | None => []
  end ++
  match NodeConfig_consensus config with
  | Some c => [(64, ConsensusConfig_start_height c); (64, ConsensusConfig_num_validators c)]
  | None => []
  end ++
  match NodeConfig_network config with
  | Some c => [(16, NetworkConfig_tcp_port c); (16, NetworkConfig_quic_port c)]
  | None => []
  end.

Definition whole_seconds (duration : Z) : Prop := exists secs, in_range 64 secs /\ duration = from_secs secs.

Definition map_storable (m : option (gmap string string)) : Prop := match m with Some m => map_text_ok m | None => True end.

Record storable (config : NodeConfig) : Prop := {
  sb_integers : Forall (fun e => in_range e.1 e.2) (config_integers config);
  sb_growth_step : - 2 ^ 63 <= DbConfig_growth_step (StorageConfig_db_config (NodeConfig_storage config)) < 2 ^ 63;
  sb_headers : map_storable (CentralSourceConfig_http_headers (NodeConfig_central config));
  sb_labels : map_storable (MonitoringGatewayConfig_metric_labels (NodeConfig_monitoring_gateway config));
  sb_network : forall n, NodeConfig_network config = Some n ->
    whole_seconds (NetworkConfig_session_timeout n) /\ whole_seconds (NetworkConfig_idle_connection_timeout n) /\
    Forall (fun b => 0 <= b < 256) (default [] (NetworkConfig_secret_key n))
}.

(** What the file does not hold: the shared parameters, and those that have to be
    supplied. *)
Record Supplied : Type := mkSupplied {
  sup_chain_id : NodeChainId;
  sup_starknet_url : string;
  sup_collect_metrics : bool;
  sup_node_url : string;
  sup_secret : string;
  sup_validator_id : NodeAddress
}.

(** The configuration with them in all the components that use them. *)
Definition supplied_config (x : Supplied) (config : NodeConfig) : NodeConfig :=
  let '(mkNodeConfig rpc central base_layer monitoring storage sync p2p_sync consensus network profiling) := config in
  let '(mkRpcConfig _ server_address chunk_size keys _ _ retry execution) := rpc in
  let '(mkCentralSourceConfig requests _ headers updates updates_stored classes cache central_retry) := central in
  let '(mkMonitoringGatewayConfig monitoring_address _ labels _ _) := monitoring in
  let '(mkStorageConfig (mkDbConfig path_prefix _ enforce min_size max_size growth) mmap scope) := storage in
  mkNodeConfig
    (mkRpcConfig (sup_chain_id x) server_address chunk_size keys (sup_collect_metrics x) (sup_starknet_url x) retry execution)
    (mkCentralSourceConfig requests (sup_starknet_url x) headers updates updates_stored classes cache central_retry)
    (mkEthereumBaseLayerConfig (sup_node_url x) (EthereumBaseLayerConfig_starknet_contract_address base_layer))
    (mkMonitoringGatewayConfig monitoring_address (sup_collect_metrics x) labels (sup_secret x) (sup_starknet_url x))
    (mkStorageConfig (mkDbConfig path_prefix (sup_chain_id x) enforce min_size max_size growth) mmap scope)
    sync p2p_sync
    ((fun c => mkConsensusConfig (sup_validator_id x) (ConsensusConfig_topic c) (ConsensusConfig_start_height c) (ConsensusConfig_num_validators c)) <$> consensus)
    network profiling.

Definition SUPPLIED_PATHS : list string :=
  ["chain_id"; "starknet_url"; "collect_metrics"; "base_layer.node_url"; "monitoring_gateway.present_full_config_secret"; "consensus.validator_id"].
End Paths.

(** ** Reading the fields of an object *)

Section Fields.
Context {JN : JsonNumberApi} {HM : HashMapIter} {NT : NodeTypes} {NR : NodeTypesRead} {NS : NodeTypesSpec}.

(** An object that has something below one of its entries. *)
Lemma object_at nested path k w : json_get nested (path ++ [k]) = Some w ->
  exists m, json_get nested path = Some (Value_Object m) /\ forall k', bt_get m k' = json_get nested (path ++ [k']).
Proof.
  revert nested. induction path as [|k0 path IH]; intros nested.
  - cbn. destruct nested as [| | | | |m]; try done. intros _. exists m. split; [done|]. intros k'. by destruct (bt_get m k').
  - cbn. destruct nested as [| | | | |m]; try done. destruct (bt_get m k0) as [e|]; [|done]. apply IH.
Qed.

Lemma struct_fields_run m : struct_fields (Value_Object m) tt = Done tt m.
Proof. done. Qed.

Lemma field_run {T} m name (of_value : Value -> Deserialized T) v a :
  bt_get m name = Some v -> of_value v tt = Done tt a -> field m name of_value tt = Done tt a.
Proof. unfold field. by intros ->. Qed.

Lemma field_or_run {T} d m name (of_value : Value -> Deserialized T) v a :
  bt_get m name = Some v -> of_value v tt = Done tt a -> field_or d m name of_value tt = Done tt a.
Proof. unfold field_or. by intros ->. Qed.

Lemma optional_field_run {T} m name (of_value : Value -> Deserialized T) v (a : T) :
  bt_get m name = Some v -> v <> Value_Null -> of_value v tt = Done tt a -> optional_field m name of_value tt = Done tt (Some a).
Proof. unfold optional_field. intros ->. destruct v; try done; intros _ H; by rewrite (bind_step _ _ _ _ _ H). Qed.

Lemma optional_field_null {T} m name (of_value : Value -> Deserialized T) :
  bt_get m name = Some Value_Null -> optional_field m name of_value tt = Done tt None.
Proof. unfold optional_field. by intros ->. Qed.

Lemma integer_of_json lo hi n : - 2 ^ 63 <= lo -> hi <= 2 ^ 64 -> lo <= n < hi -> integer_of lo hi (json n) tt = Done tt n.
Proof.
  intros Hlo Hhi Hn. cbn [json Z_json integer_of]. rewrite number_read_back by lia. cbn [ok_or_raise]. rewrite bind_ret.
  by rewrite (proj2 (Z.leb_le lo n)), (proj2 (Z.ltb_lt n hi)) by lia.
Qed.

Lemma uint_of_json w n : 0 <= w <= 64 -> in_range w n -> uint_of w (json n) tt = Done tt n.
Proof. intros Hw Hn. apply integer_of_json; [done|apply Z.pow_le_mono_r; lia|exact Hn]. Qed.

Lemma isize_of_json n : - 2 ^ 63 <= n < 2 ^ 63 -> isize_of (json n) tt = Done tt n.
Proof. intros Hn. by apply integer_of_json. Qed.

Lemma as_secs_from_secs secs : as_secs (from_secs secs) = secs.
Proof. unfold as_secs, from_secs. by rewrite Z.div_mul by lia. Qed.

Lemma seconds_of_json n : in_range 64 n -> seconds_of (json n) tt = Done tt n.
Proof.
  intros Hn. unfold seconds_of, duration_of. rewrite bind_assoc, (bind_step _ _ _ _ _ (uint_of_json 64 n ltac:(lia) Hn)). rewrite bind_ret.
  change (deserialize_seconds_to_duration n) with (from_secs n). by rewrite as_secs_from_secs.
Qed.

Lemma duration_of_json d : whole_seconds d -> duration_of (json (as_secs d)) tt = Done tt d.
Proof.
  intros (secs & Hs & ->). rewrite as_secs_from_secs. unfold duration_of. by rewrite (bind_step _ _ _ _ _ (uint_of_json 64 secs ltac:(lia) Hs)).
Qed.

Lemma optional_map_of_json m : map_storable m -> optional_map_of (json (serialize_optional_map m)) tt = Done tt m.
Proof.
  intros Hm. unfold optional_map_of. cbn [json string_json string_of]. rewrite bind_ret. destruct converters_roundtrip as (_ & Hnone & Hsome).
  destruct m as [m|]; [by rewrite Hsome|by rewrite Hnone].
Qed.

Lemma optional_vec_u8_of_json v : Forall (fun b => 0 <= b < 256) (default [] v) ->
  optional_vec_u8_of (json (serialize_optional_vec_u8 v)) tt = Done tt v.
Proof. intros Hv. unfold optional_vec_u8_of. cbn [json string_json string_of]. rewrite bind_ret. by apply converters_roundtrip. Qed.

Lemma scope_of_json scope : scope_of (json scope) tt = Done tt scope.
Proof. by destruct scope. Qed.

Lemma chain_id_of_json c : chain_id_of (json c) tt = Done tt c.
Proof. unfold chain_id_of. by rewrite chain_id_read_back. Qed.

Lemma address_of_json a : address_of (json a) tt = Done tt a.
Proof. unfold address_of. by rewrite address_read_back. Qed.

Lemma multiaddr_of_json a : multiaddr_of (json a) tt = Done tt a.
Proof. unfold multiaddr_of. by rewrite multiaddr_read_back. Qed.

Lemma bt_get_map {V W} (f : V -> W) (m : BTreeMap V) p : bt_get (prod_map id f <$> m) p = f <$> bt_get m p.
Proof. induction m as [|[k v] m IH]; [done|]. cbn. by destruct (String.eqb k p). Qed.

(** A value that has a type of its own as a parameter. *)
Definition scalar (v : Value) : Prop := is_Some (get_serialization_type (SerializedContent_DefaultValue v)).

Lemma scalar_address (a : NodeAddress) : scalar (json a).
Proof. destruct (address_is_text a) as [s ->]. by eexists. Qed.

Lemma scalar_multiaddr (a : Multiaddr) : scalar (json a).
Proof. destruct (multiaddr_is_text a) as [s ->]. by eexists. Qed.

Lemma multiaddr_not_null (a : Multiaddr) : json a <> Value_Null.
Proof. by destruct (multiaddr_is_text a) as [s ->]. Qed.

Lemma param_value_content param v : param_content param = Some v -> scalar v -> param_value param = Some v.
Proof. unfold param_content, param_value, scalar. destruct (SerializedParam_content param) as [w| |]; try done. intros [= ->] [t Ht]. by rewrite Ht. Qed.
End Fields.

Section NodeLoad.
Context {JN : JsonNumberApi} {HM : HashMapIter} {NT : NodeTypes} {NR : NodeTypesRead} {NS : NodeTypesSpec} {PJ : ParamJson}.
Context {IO : ConfigIo} {SJ : SerdeJsonApi} {SS : SerdeJsonSpec} {CL : ClapApi}.
Context (Hjson : forall param, param_from_value (param_to_value param) = Some param).
Context (config : NodeConfig).

(** The default of a parameter: of a target, or of the configuration. *)
Definition node_default (p : string) : option Value :=
  match target_of CONFIG_POINTERS p with
  | Some _ => None
  | None => match bt_get (targets CONFIG_POINTERS) p with Some param => param_value param | None => bt_get (dump config) p ≫= param_value end
  end.

(** The default file is the one of the configuration and its pointers. *)
Definition node_file (combined : BTreeMap Value) : Prop :=
  NoDup combined.*1 /\ Forall (fun e => is_Some (param_from_value e.2)) combined /\
  forall p, param_of combined p =
    match target_of CONFIG_POINTERS p with
    | Some target => pointing target <$> bt_get (dump config) p
    | None => match bt_get (targets CONFIG_POINTERS) p with Some param => Some param | None => bt_get (dump config) p end
    end.

Lemma target_of_elem (pointers : list ((string * SerializedParam) * list string)) p t :
  target_of pointers p = Some t -> p ∈ pointing_params pointers /\ t ∈ (targets pointers).*1.
Proof.
  unfold pointing_params, targets. induction pointers as [|[[t' param] qs] pointers IH]; [done|]. cbn. rewrite elem_of_app, elem_of_cons.
  case_decide as Hp; [intros [= <-]; by split; left|]. intros [? ?]%IH. by split; right.
Qed.

Lemma target_param t : t ∈ (targets CONFIG_POINTERS).*1 ->
  target_of CONFIG_POINTERS t = None /\ exists param, bt_get (targets CONFIG_POINTERS) t = Some param /\ is_Some (param_value param).
Proof.
  cbn. rewrite !elem_of_cons, elem_of_nil. intros [-> |[-> |[-> |[]]]].
  - destruct (chain_id_is_text NodeChainId_Mainnet) as [s Hs]. split; [done|]. eexists. split; [done|]. unfold param_value. cbn. rewrite Hs. by eexists.
  - split; [done|]. eexists. split; [done|]. by eexists.
  - split; [done|]. eexists. split; [done|]. by eexists.
Qed.

(** Nothing but the pointers of the file points. *)
Definition plain_content (e : string * SerializedParam) : bool :=
  match SerializedParam_content e.2 with SerializedContent_PointerTarget _ => false | _ => true end.

Lemma node_plain : forallb plain_content (dump config) = true.
Proof. destruct config as [r c b m st [sy|] [ps|] [co|] [ne|] pr]; vm_compute; reflexivity. Qed.

(** A parameter of the file that a pointer replaces is one of the configuration. *)
Lemma bt_get_node_param p : is_Some (bt_get (dump config) p) <-> p ∈ NODE_PATHS.
Proof. by rewrite bt_get_is_Some, node_paths. Qed.

Section File.
Context (combined : BTreeMap Value) (Hfile : node_file combined).

Lemma node_param_file p : is_Some (param_of combined p) -> p ∈ FILE_PATHS.
Proof.
  destruct Hfile as (_ & _ & ->). unfold FILE_PATHS. rewrite elem_of_app, <-bt_get_node_param, <-bt_get_is_Some.
  destruct (target_of CONFIG_POINTERS p); [rewrite fmap_is_Some; by right|].
  destruct (bt_get (targets CONFIG_POINTERS) p) eqn:E; [left|right]; [by eexists|done].
Qed.

Lemma node_pointer_of p : pointer_of combined p = target_of CONFIG_POINTERS p.
Proof.
  unfold pointer_of. destruct Hfile as (_ & _ & ->). destruct (target_of CONFIG_POINTERS p) as [t|] eqn:Et.
  - apply target_of_elem in Et as [Hp _]. destruct (node_pointers_ok config) as (_ & _ & Hq). by destruct (Hq p Hp) as [[param ->] _].
  - assert (Hno : forall m : BTreeMap SerializedParam, forallb plain_content m = true ->
      (param ← bt_get m p; match SerializedParam_content param with SerializedContent_PointerTarget t => Some t | _ => None end) = None).
    { intros m Hm. destruct (bt_get m p) as [param|] eqn:E; [|done]. cbn. apply bt_get_Some_elem, list_elem_of_In in E.
      rewrite forallb_forall in Hm. specialize (Hm _ E). unfold plain_content in Hm. cbn in Hm. by destruct (SerializedParam_content param). }
    destruct (bt_get (targets CONFIG_POINTERS) p) as [param|] eqn:E.
    + pose proof (Hno (targets CONFIG_POINTERS) eq_refl) as Ht. by rewrite E in Ht.
    + apply Hno, node_plain.
Qed.

Lemma node_default_of p : default_of combined p = node_default p.
Proof.
  unfold default_of, node_default. destruct Hfile as (_ & _ & ->). destruct (target_of CONFIG_POINTERS p) as [t|].
  - by destruct (bt_get (dump config) p).
  - destruct (bt_get (targets CONFIG_POINTERS) p); [done|]. by destruct (bt_get (dump config) p).
Qed.
End File.

Section Inputs.
Context (combined : BTreeMap Value) (Hfile : node_file combined).
Context (files : Files) (command : Command) (args : list string) (matches matches' : ArgMatches).
Context (paths : option (list string)) (maps : list (BTreeMap Value)) (arg_entries : BTreeMap Value).
Context (Hgiven : given files combined command args matches matches' paths maps arg_entries).

Lemma node_target_layered t : t ∈ (targets CONFIG_POINTERS).*1 -> is_Some (layered combined maps arg_entries t).
Proof.
  intros Ht. unfold layered. destruct (last_value arg_entries t); [by eexists|]. destruct (last_value (List.concat maps) t); [by eexists|].
  rewrite (node_default_of combined Hfile). unfold node_default. destruct (target_param t Ht) as (-> & param & -> & ?). done.
Qed.

Lemma node_loadable : loadable files combined command args matches matches' paths maps arg_entries.
Proof.
  apply (checked_loadable _ _ _ _ _ _ _ _ _ FILE_PATHS); [done|apply Hfile|apply Hfile| |by apply node_param_file|apply node_paths_apart|apply node_texts_apart].
  intros p t. rewrite !(node_pointer_of combined Hfile). intros [_ Ht]%target_of_elem. split; [by apply target_param|by apply node_target_layered].
Qed.

(** The values of the shared parameters, from the settings or the defaults of the
    file, and of those that have to be supplied; without a secret a random one is
    drawn, and without consensus there is no validator. *)
Record supplies (entries : BTreeMap Value) (x : Supplied) : Prop := {
  sp_chain_id : default (json NodeChainId_Mainnet) (last_value entries "chain_id") = json (sup_chain_id x);
  sp_starknet_url : default (Value_String "https://alpha-mainnet.starknet.io/") (last_value entries "starknet_url") = Value_String (sup_starknet_url x);
  sp_collect_metrics : default (Value_Bool false) (last_value entries "collect_metrics") = Value_Bool (sup_collect_metrics x);
  sp_node_url : last_value entries "base_layer.node_url" = Some (Value_String (sup_node_url x));
  sp_secret : default (Value_String random_secret) (last_value entries "monitoring_gateway.present_full_config_secret") = Value_String (sup_secret x);
  sp_validator_id : is_Some (NodeConfig_consensus config) -> last_value entries "consensus.validator_id" = Some (json (sup_validator_id x));
  sp_only : forall p, is_Some (last_value entries p) -> p ∈ SUPPLIED_PATHS
}.

Section Loaded.
Context (x : Supplied) (Hsup : supplies (List.concat maps ++ arg_entries) x) (Hstore : storable config).
Context (nested : Value).
Let value := resolved combined maps arg_entries.
Context (Hget : forall p v, shown value p v -> json_get nested (keys_of p) = Some v).
Context (Hrest : forall q w, json_get nested q = Some w ->
  is_object w = true /\ (q = [] \/ exists p v, shown value p v /\ q `prefix_of` keys_of p) \/ exists p v, shown value p v /\ keys_of p `prefix_of` q).

Lemma layered_entries p :
  layered combined maps arg_entries p =
  match last_value (List.concat maps ++ arg_entries) p with Some v => Some v | None => node_default p end.
Proof.
  unfold layered. rewrite last_value_app. rewrite (node_default_of combined Hfile).
  by destruct (last_value arg_entries p), (last_value (List.concat maps) p).
Qed.

Lemma value_layered p : target_of CONFIG_POINTERS p = None -> value p = layered combined maps arg_entries p.
Proof. intros Hp. unfold value, resolved. by rewrite (node_pointer_of combined Hfile), Hp. Qed.

(** A parameter that is not set has the value of the configuration. *)
Lemma content_value p v :
  bt_get (contents config) p = Some (Some v) -> scalar v ->
  bool_decide ((p ∉ SUPPLIED_PATHS) /\ (p ∉ pointing_params CONFIG_POINTERS) /\ (p ∉ (targets CONFIG_POINTERS).*1)) = true ->
  value p = Some v.
Proof.
  intros Hc Hv (H1 & H2 & H3)%bool_decide_eq_true.
  assert (Ht : target_of CONFIG_POINTERS p = None).
  { apply eq_None_not_Some. intros [t Ht]. by apply target_of_elem in Ht as [? _]. }
  rewrite value_layered, layered_entries by done.
  destruct (last_value _ p) as [w|] eqn:E; [destruct H1; by apply (sp_only _ _ Hsup p); rewrite E|].
  unfold node_default. rewrite Ht. rewrite <-bt_get_is_Some in H3. destruct (bt_get (targets CONFIG_POINTERS) p); [destruct H3; by eexists|].
  rewrite <-node_contents, bt_get_map in Hc. destruct (bt_get (dump config) p) as [param|]; [|done]. injection Hc as Hc. by apply param_value_content.
Qed.

(** The targets, and the parameters that point to them. *)
Lemma target_value p v : bt_get (targets CONFIG_POINTERS) p = Some v -> forall d w, param_value v = Some d ->
  default d (last_value (List.concat maps ++ arg_entries) p) = w -> layered combined maps arg_entries p = Some w.
Proof.
  intros Hp d w Hd <-. rewrite layered_entries. destruct (last_value _ p); [done|]. unfold node_default.
  assert (Hin : p ∈ (targets CONFIG_POINTERS).*1) by (apply bt_get_is_Some; by eexists). destruct (target_param p Hin) as [-> _]. by rewrite Hp.
Qed.

Lemma pointer_value p t v : target_of CONFIG_POINTERS p = Some t -> layered combined maps arg_entries t = Some v -> value p = Some v.
Proof. intros Hp Ht. unfold value, resolved. by rewrite (node_pointer_of combined Hfile), Hp. Qed.

Lemma chain_id_value : layered combined maps arg_entries "chain_id" = Some (json (sup_chain_id x)).
Proof.
  eapply target_value; [done| |apply Hsup]. destruct (chain_id_is_text NodeChainId_Mainnet) as [s Hs]. unfold param_value. cbn. by rewrite Hs.
Qed.

Lemma starknet_url_value : layered combined maps arg_entries "starknet_url" = Some (json (sup_starknet_url x)).
Proof. eapply target_value; [done|done|apply Hsup]. Qed.

Lemma collect_metrics_value : layered combined maps arg_entries "collect_metrics" = Some (json (sup_collect_metrics x)).
Proof. eapply target_value; [done|done|apply Hsup]. Qed.

Lemma required_value p v : target_of CONFIG_POINTERS p = None -> last_value (List.concat maps ++ arg_entries) p = Some v -> value p = Some v.
Proof. intros Hp Hv. rewrite value_layered, layered_entries by done. by rewrite Hv. Qed.

(** The optional parameters above a path. *)
Definition options_above (p : string) : list string := base.filter (fun o => keys_of o `prefix_of` keys_of p) NODE_OPTIONS.

Lemma none_is_option o : none_in value o -> o ∈ NODE_OPTIONS.
Proof.
  intros Ho. rewrite <-node_options. eapply (none_option _ _ _ _ _ _ _ _ _ FILE_PATHS); [exact Hgiven|by apply node_param_file|exact Ho].
Qed.

Lemma leaf p v : value p = Some v -> is_markb p = false -> Forall (fun o => ~ none_in value o) (options_above p) ->
  json_get nested (keys_of p) = Some v.
Proof.
  intros Hv Hm Hall. rewrite Forall_forall in Hall.
  assert (Hno : forall o, none_in value o -> ~ keys_of o `prefix_of` keys_of p).
  { intros o Ho Hpre. apply (Hall o); [|done]. apply list_elem_of_filter. split; [done|by apply none_is_option]. }
  apply Hget. split; [right|].
  - split; [|split; [rewrite <-is_markb_spec; by rewrite Hm|done]]. intros Hp. by apply (Hno p).
  - intros (o & Ho & _ & Hpre). by apply (Hno o).
Qed.

Lemma null_at p : none_in value p -> Forall (fun o => o <> p -> ~ none_in value o) (options_above p) ->
  json_get nested (keys_of p) = Some Value_Null.
Proof.
  intros Hp Hall. rewrite Forall_forall in Hall. apply Hget. split; [by left|]. intros (o & Ho & Hne & Hpre).
  apply (Hall o); try done. apply list_elem_of_filter. split; [done|by apply none_is_option].
Qed.

Lemma mark_value o b : value (mark o) = Some (Value_Bool b) -> none_in value o <-> b = true.
Proof. unfold none_in. intros ->. by destruct b; split; [| |intros [=]|]. Qed.

Lemma absent_at p : is_markb p = false -> value p = None -> p ∉ NODE_OPTIONS ->
  bool_decide (Forall (fun q => ~ keys_of p `prefix_of` keys_of q \/ q = p) FILE_PATHS /\ Forall (fun q => ~ keys_of q `prefix_of` keys_of p \/ q = p) (plain_of FILE_PATHS) /\
    options_above p = [] /\ Forall (fun q => ~ keys_of p `prefix_of` keys_of q) NODE_OPTIONS) = true ->
  json_get nested (keys_of p) = None.
Proof.
  intros Hm Hv Hopt (H1 & H2 & H3 & H4)%bool_decide_eq_true.
  rewrite Forall_forall in H1. rewrite Forall_forall in H2. rewrite Forall_forall in H4.
  assert (Hself : forall v, ~ shown value p v).
  { intros v [[[Hn _]|(_ & _ & E)] _]; [by apply Hopt, none_is_option|congruence]. }
  assert (Hpath : forall q v, shown value q v -> q ∈ NODE_OPTIONS \/ q ∈ plain_of FILE_PATHS).
  { intros q v [[[Hn _]|(_ & Hq & E)] _]; [left; by apply none_is_option|right]. apply list_elem_of_filter. split.
    - apply not_true_is_false. by rewrite is_markb_spec.
    - apply (node_param_file combined Hfile), (resolved_param _ _ _ _ _ _ _ _ _ q Hgiven). by eexists. }
  destruct (json_get nested (keys_of p)) as [w|] eqn:E; [exfalso|done].
  destruct (Hrest _ _ E) as [[_ [Hnil|(q & v & Hq & Hpre)]]|(q & v & Hq & Hpre)].
  - destruct (split_char_cons "." p) as (? & ? & Hc). unfold keys_of in Hnil. congruence.
  - destruct (Hpath _ _ Hq) as [Ho|Hp]; [by apply (H4 q)|]. apply list_elem_of_filter in Hp as [_ Hp].
    destruct (H1 q Hp) as [?| ->]; [done|by apply (Hself v)].
  - destruct (Hpath _ _ Hq) as [Ho|Hp].
    + assert (q ∈ options_above p) by (by apply list_elem_of_filter). rewrite H3 in *. by eapply not_elem_of_nil.
    + destruct (H2 q Hp) as [?| ->]; [done|by apply (Hself v)].
Qed.

(** Each structure, at its path in the object. *)

Lemma bind_done {S E A B} (m : M S E A) (k : A -> M S E B) s s1 a r : m s = Done s1 a -> k a s1 = r -> bind m k s = r.
Proof. intros H <-. apply (bind_step _ _ _ _ _ H). Qed.

Lemma integers_fit w n : (w, n) ∈ config_integers config -> in_range w n.
Proof. intros Hin. pose proof (sb_integers _ Hstore) as Hall. rewrite Forall_forall in Hall. exact (Hall _ Hin). Qed.

Ltac at_position :=
  first [apply list_elem_of_here | apply list_elem_of_further; at_position | apply elem_of_app; first [left; at_position | right; at_position]].

Ltac integer_fits :=
  apply integers_fit; unfold config_integers;
  repeat match goal with H : _ config = Some _ |- _ => rewrite H end;
  repeat match goal with H : stop_sync_at_block_number _ = Some _ |- _ => rewrite H end; cbn [app]; at_position.

Ltac scalar_value := first [by eexists | apply scalar_address | apply scalar_multiaddr].

Ltac node_value :=
  first
    [ eapply pointer_value; [reflexivity|]; first [exact chain_id_value | exact starknet_url_value | exact collect_metrics_value]
    | eapply required_value; [reflexivity|]; first [apply (sp_node_url _ _ Hsup) | apply (sp_validator_id _ _ Hsup); by eexists]
    | eapply content_value; [reflexivity|scalar_value|vm_compute; reflexivity] ].

(** The value at a path of [nested]. *)
Ltac node_leaf :=
  match goal with
  | |- json_get nested ?q = Some _ =>
      let p := eval vm_compute in (join "." q) in
      change q with (keys_of p);
      let l := eval vm_compute in (options_above p) in
      eapply leaf; [node_value|reflexivity|replace (options_above p) with l by (vm_compute; reflexivity); by repeat constructor]
  end.

Ltac open_struct path k :=
  let m := fresh "m" in let Em := fresh "Em" in let Hm := fresh "Hm" in
  edestruct (object_at nested path k) as (m & Em & Hm); [node_leaf|];
  eexists; split; [exact Em|]; (eapply bind_done; [apply struct_fields_run|]).

Ltac convert :=
  first
    [ reflexivity | apply uint_of_json; [lia|integer_fits] | apply seconds_of_json; integer_fits
    | apply isize_of_json, Hstore | apply optional_map_of_json, Hstore
    | apply scope_of_json | apply chain_id_of_json | apply address_of_json | apply multiaddr_of_json ].

Ltac get_field Hm := rewrite Hm; first [eassumption | node_leaf].

Ltac read_field :=
  match goal with
  | Hm : forall k, bt_get ?m k = json_get nested _ |- bind (field ?m _ _) _ _ = _ =>
      eapply bind_done; [eapply field_run; [get_field Hm|first [eassumption|convert]]|]; cbv beta
  end.

Definition read_at {T} (path : list string) (of_value : Value -> Deserialized T) (c : T) : Prop :=
  exists v, json_get nested path = Some v /\ of_value v tt = Done tt c.

Lemma rpc_retry_read : read_at ["rpc"; "starknet_gateway_retry_config"] RetryConfig_from_value (RpcConfig_starknet_gateway_retry_config (NodeConfig_rpc config)).
Proof. open_struct ["rpc"; "starknet_gateway_retry_config"] "max_retries". do 3 read_field. by destruct (RpcConfig_starknet_gateway_retry_config _). Qed.

Lemma central_retry_read : read_at ["central"; "retry_config"] RetryConfig_from_value (CentralSourceConfig_retry_config (NodeConfig_central config)).
Proof. open_struct ["central"; "retry_config"] "max_retries". do 3 read_field. by destruct (CentralSourceConfig_retry_config _). Qed.

Lemma execution_read : read_at ["rpc"; "execution_config"] ExecutionConfig_from_value (RpcConfig_execution_config (NodeConfig_rpc config)).
Proof. open_struct ["rpc"; "execution_config"] "initial_gas_cost". do 3 read_field. by destruct (RpcConfig_execution_config _). Qed.

Lemma rpc_read : read_at ["rpc"] RpcConfig_from_value (NodeConfig_rpc (supplied_config x config)).
Proof.
  destruct rpc_retry_read as (v1 & E1 & R1). destruct execution_read as (v2 & E2 & R2).
  open_struct ["rpc"] "server_address". do 8 read_field.
  by destruct config as [[] [] ? [] [[] ? ?] ? ? ? ? ?].
Qed.

Lemma central_read : read_at ["central"] CentralSourceConfig_from_value (NodeConfig_central (supplied_config x config)).
Proof.
  destruct central_retry_read as (v1 & E1 & R1). open_struct ["central"] "class_cache_size". do 8 read_field.
  by destruct config as [[] [] ? [] [[] ? ?] ? ? ? ? ?].
Qed.

Lemma base_layer_read : read_at ["base_layer"] EthereumBaseLayerConfig_from_value (NodeConfig_base_layer (supplied_config x config)).
Proof.
  open_struct ["base_layer"] "starknet_contract_address". do 2 read_field. by destruct config as [[] [] ? [] [[] ? ?] ? ? ? ? ?].
Qed.

Lemma mmap_read : read_at ["storage"; "mmap_file_config"] MmapFileConfig_from_value (StorageConfig_mmap_file_config (NodeConfig_storage config)).
Proof. open_struct ["storage"; "mmap_file_config"] "max_size". do 3 read_field. by destruct (StorageConfig_mmap_file_config _). Qed.

Lemma db_read : read_at ["storage"; "db_config"] DbConfig_from_value (StorageConfig_db_config (NodeConfig_storage (supplied_config x config))).
Proof. open_struct ["storage"; "db_config"] "max_size". do 6 read_field. by destruct config as [[] [] ? [] [[] ? ?] ? ? ? ? ?]. Qed.

Lemma storage_read : read_at ["storage"] StorageConfig_from_value (NodeConfig_storage (supplied_config x config)).
Proof.
  destruct mmap_read as (v1 & E1 & R1). destruct db_read as (v2 & E2 & R2). open_struct ["storage"] "scope". do 3 read_field.
  by destruct config as [[] [] ? [] [[] ? ?] ? ? ? ? ?].
Qed.

(** Without a secret a random one is taken. *)
Lemma secret_read m : (forall k, bt_get m k = json_get nested (["monitoring_gateway"] ++ [k])) ->
  field_or random_secret m "present_full_config_secret" string_of tt = Done tt (sup_secret x).
Proof.
  intros Hm. pose proof (sp_secret _ _ Hsup) as Hs.
  destruct (last_value _ "monitoring_gateway.present_full_config_secret") as [w|] eqn:E; cbn in Hs; subst.
  - apply (field_or_run _ _ _ _ (Value_String (sup_secret x))); [rewrite Hm|reflexivity].
    change (["monitoring_gateway"] ++ ["present_full_config_secret"])%list with (keys_of "monitoring_gateway.present_full_config_secret").
    eapply leaf; [by eapply required_value|reflexivity|]. replace (options_above _) with (@nil string) by (vm_compute; reflexivity). constructor.
  - unfold field_or. rewrite Hm.
    change (["monitoring_gateway"] ++ ["present_full_config_secret"])%list with (keys_of "monitoring_gateway.present_full_config_secret").
    rewrite absent_at; [by injection Hs as ->|reflexivity| | |vm_compute; reflexivity].
    + rewrite value_layered by reflexivity. rewrite layered_entries, E. unfold node_default. cbn [target_of].
      destruct (bt_get (dump config) "monitoring_gateway.present_full_config_secret") as [param|] eqn:Ep; [|reflexivity].
      apply (f_equal (fmap param_content)) in Ep. rewrite <-bt_get_map, node_contents in Ep. injection Ep as Ep.
      cbn. unfold param_value, param_content in *. by destruct (SerializedParam_content param).
    + apply (bool_decide_unpack _). vm_compute. exact I.
Qed.

Lemma monitoring_read : read_at ["monitoring_gateway"] MonitoringGatewayConfig_from_value (NodeConfig_monitoring_gateway (supplied_config x config)).
Proof.
  open_struct ["monitoring_gateway"] "server_address". do 3 read_field. (eapply bind_done; [by apply secret_read|]). cbv beta. read_field.
  by destruct config as [[] [] ? [] [[] ? ?] ? ? ? ? ?].
Qed.

(** A component, when it is switched on. *)
Lemma option_value o b : value (mark o) = Some (Value_Bool b) -> b = false -> ~ none_in value o.
Proof. intros Hv ->. by rewrite (mark_value _ _ Hv). Qed.

Ltac mark_of_content := eapply content_value; [reflexivity|by eexists|vm_compute; reflexivity].

Lemma component_value name o : (name, o) ∈ [("consensus", is_none (NodeConfig_consensus config)); ("network", is_none (NodeConfig_network config));
    ("p2p_sync", is_none (NodeConfig_p2p_sync config)); ("sync", is_none (NodeConfig_sync config))] ->
  value (mark name) = Some (Value_Bool o).
Proof. rewrite !elem_of_cons, elem_of_nil. intros [[= -> ->]|[[= -> ->]|[[= -> ->]|[[= -> ->]|[]]]]]; mark_of_content. Qed.

Ltac switched_on name c E Hon :=
  assert (Hon : ~ none_in value name) by (eapply option_value; [eapply (component_value name); rewrite E; at_position|reflexivity]).

Ltac switched_off name E :=
  change [name] with (keys_of name); apply null_at; [eapply mark_value; [eapply (component_value name); rewrite E; at_position|reflexivity]|];
  let l := eval vm_compute in (options_above name) in replace (options_above name) with l by (vm_compute; reflexivity); by repeat constructor.

Definition read_option {T} (path : list string) (of_value : Value -> Deserialized T) (c : option T) : Prop :=
  match c with
  | Some c => exists v, json_get nested path = Some v /\ v <> Value_Null /\ of_value v tt = Done tt c
  | None => json_get nested path = Some Value_Null
  end.

Ltac open_option path k :=
  let m := fresh "m" in let Em := fresh "Em" in let Hm := fresh "Hm" in
  edestruct (object_at nested path k) as (m & Em & Hm); [node_leaf|];
  exists (Value_Object m); split; [exact Em|]; split; [done|]; (eapply bind_done; [apply struct_fields_run|]).

Lemma sync_read : read_option ["sync"] SyncConfig_from_value (NodeConfig_sync config).
Proof.
  destruct (NodeConfig_sync config) as [c|] eqn:E; cbn [read_option].
  - switched_on "sync" c E Hon. open_option ["sync"] "verify_blocks". do 6 read_field. rewrite E. by destruct c.
  - switched_off "sync" E.
Qed.

Lemma consensus_read : read_option ["consensus"] ConsensusConfig_from_value (NodeConfig_consensus (supplied_config x config)).
Proof.
  assert (Hc : NodeConfig_consensus (supplied_config x config) =
    (fun c => mkConsensusConfig (sup_validator_id x) (ConsensusConfig_topic c) (ConsensusConfig_start_height c) (ConsensusConfig_num_validators c)) <$>
      NodeConfig_consensus config) by (by destruct config as [[] [] ? [] [[] ? ?] ? ? ? ? ?]). rewrite Hc.
  destruct (NodeConfig_consensus config) as [c|] eqn:E; cbn [read_option fmap option_fmap option_map].
  - switched_on "consensus" c E Hon. open_option ["consensus"] "topic".
    (eapply bind_done; [eapply field_run; [rewrite Hm; node_leaf|apply address_of_json]|]). cbv beta. do 3 read_field. by rewrite E.
  - switched_off "consensus" E.
Qed.

(** The optional parameter in a component that is switched on. *)
Lemma optional_param_read {T} {TJ : ToJson T} (name key : string) (on : ~ none_in value name) (o : option T) (d : T)
    (of_value : Value -> Deserialized T) m :
  let p := name ++ "." ++ key in
  (forall k, bt_get m k = json_get nested ([name] ++ [k])) -> keys_of p = [name; key] -> is_markb p = false -> options_above p = [name; p] ->
  value (mark p) = Some (Value_Bool (is_none o)) -> value p = Some (json (default d o)) ->
  (forall a, o = Some a -> json a <> Value_Null /\ of_value (json a) tt = Done tt a) ->
  optional_field m key of_value tt = Done tt o.
Proof.
  intros p Hm Hk Hb Habove Hmark Hv Hof. destruct o as [a|].
  - destruct (Hof a eq_refl) as [Hn Ha]. apply (optional_field_run _ _ _ (json a)); [|done|done]. rewrite Hm. change ([name] ++ [key])%list with [name; key].
    rewrite <-Hk. apply leaf; [done|done|]. rewrite Habove. repeat constructor; [done|]. by eapply option_value.
  - apply optional_field_null. rewrite Hm. change ([name] ++ [key])%list with [name; key]. rewrite <-Hk. apply null_at.
    + by rewrite (mark_value _ _ Hmark).
    + rewrite Habove. repeat constructor; done.
Qed.

Lemma p2p_sync_read : read_option ["p2p_sync"] P2PSyncClientConfig_from_value (NodeConfig_p2p_sync config).
Proof.
  destruct (NodeConfig_p2p_sync config) as [c|] eqn:E; cbn [read_option].
  - switched_on "p2p_sync" c E Hon. open_option ["p2p_sync"] "buffer_size". do 4 read_field.
    assert (Ed : default default_P2PSyncClientConfig (NodeConfig_p2p_sync config) = c) by (by rewrite E).
    (eapply bind_done; [eapply (optional_param_read "p2p_sync" "stop_sync_at_block_number" Hon (stop_sync_at_block_number c) 1000);
       [exact Hm|reflexivity|reflexivity|vm_compute; reflexivity| | |]|]).
    + rewrite <-Ed. mark_of_content.
    + rewrite <-Ed. mark_of_content.
    + intros n Hn. split; [done|]. apply uint_of_json; [lia|integer_fits].
    + rewrite !Ed. by destruct c.
  - switched_off "p2p_sync" E.
Qed.

Lemma network_read : read_option ["network"] NetworkConfig_from_value (NodeConfig_network config).
Proof.
  destruct (NodeConfig_network config) as [c|] eqn:E; cbn [read_option].
  - switched_on "network" c E Hon. destruct (sb_network _ Hstore c E) as (H1 & H2 & H3).
    assert (Ed : default default_NetworkConfig (NodeConfig_network config) = c) by (by rewrite E).
    open_option ["network"] "tcp_port". do 2 read_field.
    do 2 (eapply bind_done; [eapply field_run; [rewrite Hm; node_leaf|apply duration_of_json; by rewrite Ed]|]; cbv beta).
    (eapply bind_done; [eapply (optional_param_read "network" "bootstrap_peer_multiaddr" Hon (NetworkConfig_bootstrap_peer_multiaddr c) Multiaddr_empty);
       [exact Hm|reflexivity|reflexivity|vm_compute; reflexivity| | |]|]).
    + rewrite <-Ed. mark_of_content.
    + rewrite <-Ed. eapply content_value; [reflexivity|apply scalar_multiaddr|vm_compute; reflexivity].
    + intros a _. split; [apply multiaddr_not_null|apply multiaddr_of_json].
    + cbv beta. (eapply bind_done; [eapply field_run; [rewrite Hm; node_leaf|apply optional_vec_u8_of_json; by rewrite Ed]|]). cbv beta.
      rewrite !Ed. by destruct c.
  - switched_off "network" E.
Qed.

(** The whole object. *)
Lemma optional_field_read {T} m name (of_value : Value -> Deserialized T) (c : option T) :
  (forall k, bt_get m k = json_get nested ([] ++ [k])) -> read_option [name] of_value c -> optional_field m name of_value tt = Done tt c.
Proof.
  intros Hm Hr. destruct c as [c|]; cbn in Hr; [|by apply optional_field_null; rewrite Hm].
  destruct Hr as (v & Ev & Hv & Hof). apply (optional_field_run _ _ _ v); [by rewrite Hm|done|done].
Qed.

Lemma node_read : NodeConfig_from_value nested tt = Done tt (supplied_config x config).
Proof.
  destruct rpc_read as (v1 & E1 & R1), central_read as (v2 & E2 & R2), base_layer_read as (v3 & E3 & R3),
    monitoring_read as (v4 & E4 & R4), storage_read as (v5 & E5 & R5).
  edestruct (object_at nested [] "collect_profiling_metrics") as (m & Em & Hm); [node_leaf|]. injection Em as Em. rewrite Em.
  eapply bind_done; [apply struct_fields_run|]. do 5 read_field.
  eapply bind_done; [apply (optional_field_read _ _ _ _ Hm sync_read)|]. eapply bind_done; [apply (optional_field_read _ _ _ _ Hm p2p_sync_read)|].
  eapply bind_done; [apply (optional_field_read _ _ _ _ Hm consensus_read)|]. eapply bind_done; [apply (optional_field_read _ _ _ _ Hm network_read)|].
  cbv beta. read_field. by destruct config as [[] [] ? [] [[] ? ?] ? ? ? ? ?].
Qed.
End Loaded.
End Inputs.

End NodeLoad.

(** ** What the node starts *)

(** Documented behaviour: a protocol is a text that begins with a slash, and different
    texts are different protocols. *)
Class Libp2pSpec {JN : JsonNumberApi} {NT : NodeTypes} {LP : Libp2pApi} : Type := {
  stream_protocol_parsed : forall s, String.prefix "/" s = true -> is_Some (stream_protocol s);
  stream_protocol_inj : forall s1 s2 p, stream_protocol s1 = Some p -> stream_protocol s2 = Some p -> s1 = s2
}.

Section NodeStart.
Context {JN : JsonNumberApi} {HM : HashMapIter} {NT : NodeTypes} {SJ : SerdeJsonApi} {SS : SerdeJsonSpec} {SA : StartApi}.
Context {LP : Libp2pApi} {LS : Libp2pSpec}.

Lemma node_private_paths (config : NodeConfig) : private_paths (dump config) =
  ["base_layer.node_url"; "central.http_headers"; "monitoring_gateway.present_full_config_secret"; "network.secret_key"].
Proof. destruct config as [r c b m st [sy|] [ps|] [co|] [ne|] pr]; vm_compute; reflexivity. Qed.

(** The configuration can be presented, with its private parameters or without. *)
Lemma present_run (config : NodeConfig) include_private tasks :
  is_Some (to_value config) -> present config include_private tasks = Done tasks tt.
Proof.
  intros [v Hv]. unfold present, get_config_presentation. rewrite Hv. cbn [ok_or_raise]. rewrite bind_ret. destruct include_private; [done|].
  destruct (hide_private_run (dump config) v tt) as (v' & -> & _); [|done].
  rewrite node_private_paths. intros p q. apply paths_apart_spec. reflexivity.
Qed.

(** The registrations of a manager: clients, servers, topics. *)
Record registered (clients servers : gset Z) (topics : gset Z) (m : NetworkManager) : Prop := {
  rg_clients : sqmr_outbound_payload_receivers m = clients;
  rg_servers : sqmr_inbound_query_senders m = servers;
  rg_buffers : dom (inbound_protocol_to_buffer_size m) = servers;
  rg_topics : broadcasted_messages_senders m = topics;
  rg_receivers : messages_to_broadcast_receivers m = topics
}.

Lemma register_client_run cs ss ts p m : registered cs ss ts m -> p ∉ cs ->
  exists m', register_sqmr_protocol_client (Some p) m = Done m' tt /\ registered ({[p]} ∪ cs) ss ts m' /\
    mixed_discovery (swarm m') = mixed_discovery (swarm m).
Proof.
  intros [H1 H2 H3 H4 H5] Hp. unfold register_sqmr_protocol_client. rewrite bind_expect. unfold on_sqmr, add_new_supported_inbound_protocol.
  unfold bind, get, ret, modify. cbn. destruct (decide (p ∈ supported_inbound_protocols _)); cbn; rewrite H1, decide_False by done;
    (eexists; split; [reflexivity|]; split; [split; cbn; congruence|done]).
Qed.

Lemma register_server_run cs ss ts p m : registered cs ss ts m -> p ∉ ss ->
  exists m', register_sqmr_protocol_server (Some p) BUFFER_SIZE m = Done m' tt /\ registered cs ({[p]} ∪ ss) ts m' /\
    mixed_discovery (swarm m') = mixed_discovery (swarm m).
Proof.
  intros [H1 H2 H3 H4 H5] Hp. assert (Hb : inbound_protocol_to_buffer_size m !! p = None) by (apply not_elem_of_dom; by rewrite H3).
  unfold register_sqmr_protocol_server. rewrite bind_expect. unfold on_sqmr, add_new_supported_inbound_protocol.
  unfold bind, get, ret, modify. cbn. destruct (decide (p ∈ supported_inbound_protocols _)); cbn; rewrite Hb; cbn; rewrite H2, decide_False by done;
    (eexists; split; [reflexivity|]; split; [split; cbn; [congruence|congruence|rewrite dom_insert_L; congruence|congruence|congruence]|done]).
Qed.

Lemma register_topic_run cs ss h m : registered cs ss ∅ m ->
  exists m', register_broadcast_topic h true m = Done m' tt /\ registered cs ss {[h]} m' /\ mixed_discovery (swarm m') = mixed_discovery (swarm m).
Proof.
  intros [H1 H2 H3 H4 H5]. unfold register_broadcast_topic, call_swarm, bind, get, modify. cbn.
  rewrite H5, decide_False by set_solver. cbn. rewrite H4, decide_False by set_solver.
  eexists. split; [reflexivity|]. split; [split; cbn; try done; set_solver|done].
Qed.

(** Registering protocols that are all different. *)
Lemma register_all_run (register : option Z -> NM unit) (reg : gset Z -> NetworkManager -> Prop) protocols numbers m s0 :
  (forall s p m, reg s m -> p ∉ s ->
    exists m', register (Some p) m = Done m' tt /\ reg ({[p]} ∪ s) m' /\ mixed_discovery (swarm m') = mixed_discovery (swarm m)) ->
  stream_protocol ∘ Protocol_as_str <$> protocols = Some <$> numbers -> NoDup numbers -> (forall p, p ∈ numbers -> p ∉ s0) -> reg s0 m ->
  exists m', for_each protocols (fun protocol => register (stream_protocol (Protocol_as_str protocol))) m = Done m' tt /\
    reg (list_to_set numbers ∪ s0) m' /\ mixed_discovery (swarm m') = mixed_discovery (swarm m).
Proof.
  intros Hreg. revert numbers s0 m. induction protocols as [|q protocols IH]; intros [|p numbers] s0 m E Hnd Hs0 Hm; try done.
  - exists m. split; [done|]. split; [|done]. by replace (list_to_set [] ∪ s0) with s0 by set_solver.
  - cbn in E. injection E as Ep E. apply NoDup_cons in Hnd as [Hp Hnd].
    destruct (Hreg s0 p m Hm) as (m1 & H1 & Hm1 & Hd1); [apply Hs0; left|].
    destruct (IH numbers ({[p]} ∪ s0) m1) as (m2 & H2 & Hm2 & Hd2); [done|done| |done|].
    { intros p' Hp'. rewrite not_elem_of_union, not_elem_of_singleton. split; [by intros ->|apply Hs0; by right]. }
    exists m2. cbn [for_each]. unfold bind. rewrite Ep, H1, H2. split; [done|]. split; [|congruence].
    cbn. assert ({[p]} ∪ list_to_set numbers ∪ s0 = list_to_set numbers ∪ ({[p]} ∪ s0)) as -> by set_solver. done.
Qed.

Definition client_protocols : list Protocol := [Protocol_SignedBlockHeader; Protocol_StateDiff; Protocol_Transaction].
Definition server_protocols : list Protocol := client_protocols ++ [Protocol_Class; Protocol_Event].

(** What the registrations leave. *)
Record network_up (config : NetworkConfig) (consensus_config : option ConsensusConfig) (m : NetworkManager) : Prop := {
  nu_clients : forall p, p ∈ sqmr_outbound_payload_receivers m <-> exists q, q ∈ client_protocols /\ stream_protocol (Protocol_as_str q) = Some p;
  nu_servers : forall p, p ∈ sqmr_inbound_query_senders m <-> exists q, q ∈ server_protocols /\ stream_protocol (Protocol_as_str q) = Some p;
  nu_topics : broadcasted_messages_senders m =
    match consensus_config with Some c => {[topic_hash (ConsensusConfig_topic c)]} | None => ∅ end;
  nu_discovery : mixed_discovery (swarm m) =
    (address ← NetworkConfig_bootstrap_peer_multiaddr config; peer ← dial_peer_id address; Some (Discovery_new peer (multiaddr_number address)))
}.

(** The protocols that a list of them has. *)
Lemma protocol_numbers protocols : NoDup protocols ->
  exists numbers, stream_protocol ∘ Protocol_as_str <$> protocols = Some <$> numbers /\ NoDup numbers /\
    forall p, p ∈ numbers <-> exists q, q ∈ protocols /\ stream_protocol (Protocol_as_str q) = Some p.
Proof.
  assert (Hinj : forall q1 q2, Protocol_as_str q1 = Protocol_as_str q2 -> q1 = q2) by (intros [] []; done).
  assert (Hsome : forall q, is_Some (stream_protocol (Protocol_as_str q))) by (intros []; by apply stream_protocol_parsed).
  induction protocols as [|q protocols IH]; intros Hnd; [exists []; split; [done|]; split; [constructor|]; set_solver|].
  apply NoDup_cons in Hnd as [Hq Hnd]. destruct (IH Hnd) as (numbers & E & Hn & Hin). destruct (Hsome q) as [p Hp].
  exists (p :: numbers). split; [cbn; by rewrite Hp, E|]. split.
  - apply NoDup_cons. split; [|done]. intros (q' & Hq' & Hp')%Hin. assert (q = q') as -> by (eapply Hinj, stream_protocol_inj; done). done.
  - intros p'. rewrite elem_of_cons, Hin. split.
    + intros [-> |(q' & ? & ?)]; [exists q; split; [left|done]|exists q'; split; [by right|done]].
    + intros (q' & [-> |?]%elem_of_cons & ?); [left; congruence|right; by exists q'].
Qed.

Lemma register_protocols_run consensus_config b :
  (forall c, consensus_config = Some c -> subscribe (ConsensusConfig_topic c) = true) ->
  exists m, register_protocols consensus_config (generic_new b) = Done m tt /\
    mixed_discovery (swarm m) = mixed_discovery b /\
    (forall p, p ∈ sqmr_outbound_payload_receivers m <-> exists q, q ∈ client_protocols /\ stream_protocol (Protocol_as_str q) = Some p) /\
    (forall p, p ∈ sqmr_inbound_query_senders m <-> exists q, q ∈ server_protocols /\ stream_protocol (Protocol_as_str q) = Some p) /\
    broadcasted_messages_senders m = match consensus_config with Some c => {[topic_hash (ConsensusConfig_topic c)]} | None => ∅ end.
Proof.
  intros Hsub. destruct (protocol_numbers client_protocols) as (cs & Ec & Hcn & Hc); [repeat constructor; set_solver|].
  destruct (protocol_numbers server_protocols) as (ss & Es & Hsn & Hs); [repeat constructor; set_solver|].
  destruct (register_all_run register_sqmr_protocol_client (fun s => registered s ∅ ∅) client_protocols cs (generic_new b) ∅)
    as (m1 & H1 & Hr1 & Hd1); [intros; by apply register_client_run|done|done|set_solver|done|].
  destruct (register_all_run (fun p => register_sqmr_protocol_server p BUFFER_SIZE) (fun s => registered (list_to_set cs ∪ ∅) s ∅) server_protocols ss m1 ∅)
    as (m2 & H2 & Hr2 & Hd2); [intros; by apply register_server_run|done|done|set_solver|done|].
  assert (Hsets : forall m ts, registered (list_to_set cs ∪ ∅) (list_to_set ss ∪ ∅) ts m ->
    (forall p, p ∈ sqmr_outbound_payload_receivers m <-> exists q, q ∈ client_protocols /\ stream_protocol (Protocol_as_str q) = Some p) /\
    (forall p, p ∈ sqmr_inbound_query_senders m <-> exists q, q ∈ server_protocols /\ stream_protocol (Protocol_as_str q) = Some p) /\
    broadcasted_messages_senders m = ts).
  { intros m ts [R1 R2 _ R4 _]. rewrite R1, R2. split; [|split; [|done]]; intros p; rewrite elem_of_union, elem_of_list_to_set;
      [rewrite Hc|rewrite Hs]; rewrite elem_of_empty; tauto. }
  unfold register_protocols. rewrite (bind_step _ _ _ _ _ H1), (bind_step _ _ _ _ _ H2). destruct consensus_config as [c|].
  - rewrite (Hsub c eq_refl). destruct (register_topic_run _ _ (topic_hash (ConsensusConfig_topic c)) m2 Hr2) as (m3 & H3 & Hr3 & Hd3).
    exists m3. split; [done|]. split; [by rewrite Hd3, Hd2, Hd1|]. by apply Hsets.
  - exists m2. split; [done|]. split; [by rewrite Hd2, Hd1|]. by apply Hsets.
Qed.

(** Why the network cannot come up: the secret key is no key, the address of the
    bootstrap peer names no peer, or the port cannot be bound. *)
Definition network_panics (config : NetworkConfig) : Prop :=
  (exists key, NetworkConfig_secret_key config = Some key /\ ed25519_from_bytes key = None) \/
  (exists address, NetworkConfig_bootstrap_peer_multiaddr config = Some address /\ dial_peer_id address = None) \/
  (exists address, multiaddr_from_str (tcp_address (NetworkConfig_tcp_port config)) = Some address /\ listen_on address = false).

(** The key of the node. *)
Definition node_key (config : NetworkConfig) : option Keypair :=
  match NetworkConfig_secret_key config with Some key => ed25519_from_bytes key | None => Some generate_ed25519 end.

(** [libp2p] builds its transport and gossipsub, and knows the address of the port. *)
Record libp2p_ok (config : NetworkConfig) : Prop := {
  lo_transport : forall key, node_key config = Some key -> tcp_transport_built key = true /\ gossipsub_built key = true;
  lo_address : is_Some (multiaddr_from_str (tcp_address (NetworkConfig_tcp_port config)))
}.

Lemma NetworkManager_new_run config tasks : libp2p_ok config ->
  (network_panics config /\ NetworkManager_new config tasks = Panic) \/
  (~ network_panics config /\ exists key b, node_key config = Some key /\ NetworkManager_new config tasks = Done tasks (key, generic_new b) /\
     mixed_discovery b = (address ← NetworkConfig_bootstrap_peer_multiaddr config; peer ← dial_peer_id address;
       Some (Discovery_new peer (multiaddr_number address)))).
Proof.
  intros [Hlib [address Ha]]. unfold network_panics, NetworkManager_new, build_swarm, node_key in *. rewrite Ha.
  destruct (NetworkConfig_secret_key config) as [k|].
  2: set (key := generate_ed25519) in *. 1: destruct (ed25519_from_bytes k) as [key|] eqn:Ek; [|left; split; [left; eauto|done]].
  all: destruct (Hlib key eq_refl) as [Ht Hg]; unfold bind, ret, expect, assert_, for_each, MixedBehaviour_new; cbn; rewrite Ht; cbn.
  all: destruct (NetworkConfig_bootstrap_peer_multiaddr config) as [boot|]; cbn;
    [destruct (dial_peer_id boot) as [peer|] eqn:Ep; cbn; [|left; split; [right; left; eauto|done]]|]; rewrite Hg; cbn; rewrite Ha; cbn;
    (destruct (listen_on address) eqn:El; cbn; [right|left; split; [right; right; eauto|done]]);
    (split; [naive_solver congruence|]); (eexists _, _; split; [done|]; split; [reflexivity|done]).
Qed.

(** The two synchronisations exclude each other, and that by peers needs the network. *)
Definition conflicting (config : NodeConfig) : Prop :=
  is_Some (NodeConfig_p2p_sync config) /\ (is_Some (NodeConfig_sync config) \/ NodeConfig_network config = None).

(** What makes the start panic. *)
Definition start_panics (config : NodeConfig) : Prop :=
  conflicting config \/ exists n, NodeConfig_network config = Some n /\ network_panics n.

Definition writes_storage (task : Task) : bool :=
  match task with Task_sync _ _ _ | Task_p2p_sync_client _ => true | _ => false end.

(** The storage opens, the configuration can be serialized, the topic of consensus is
    accepted and the servers come up. *)
Record start_ok (config : NodeConfig) : Prop := {
  so_storage : open_storage_result (NodeConfig_storage config) tt = Done tt tt;
  so_libp2p : forall n, NodeConfig_network config = Some n -> libp2p_ok n;
  so_topic : forall c, NodeConfig_consensus config = Some c -> subscribe (ConsensusConfig_topic c) = true;
  so_value : is_Some (to_value config);
  so_monitoring : MonitoringServer_new (NodeConfig_monitoring_gateway config) tt = Done tt tt;
  so_rpc : run_server (NodeConfig_rpc config) tt = Done tt tt
}.

(** The tasks in the order in which they are spawned. *)
Definition node_tasks (config : NodeConfig) (network : option (NetworkConfig * NetworkManager)) (id : string) : list Task :=
  (if MonitoringGatewayConfig_collect_metrics (NodeConfig_monitoring_gateway config) then [Task_storage_metrics] else []) ++
  (match network with Some (n, manager) => [Task_network n manager] | None => [] end) ++
  [Task_monitoring_server (NodeConfig_monitoring_gateway config) id; Task_rpc_server (NodeConfig_rpc config)] ++
  (match network with Some _ => [Task_p2p_sync_server] | None => [] end) ++
  (match NodeConfig_sync config with Some c => [Task_sync c (NodeConfig_central config) (NodeConfig_base_layer config)] | None => [] end) ++
  (match NodeConfig_p2p_sync config with Some c => [Task_p2p_sync_client c] | None => [] end) ++
  (match network, NodeConfig_consensus config with Some _, Some c => [Task_consensus c] | _, _ => [] end).

(** The network of the node: absent, or up with the key and the id of the node. *)
Definition node_network (config : NodeConfig) (network : option (NetworkConfig * NetworkManager)) (id : string) : Prop :=
  match NodeConfig_network config, network with
  | None, None => id = ""
  | Some n, Some (n', manager) => n' = n /\ network_up n (NodeConfig_consensus config) manager /\ (local_peer_id <$> node_key n) = Some id
  | _, _ => False
  end.

Lemma run_network_run config tasks : start_ok config ->
  ((exists n, NodeConfig_network config = Some n /\ network_panics n) /\
     run_network (NodeConfig_network config) (NodeConfig_consensus config) tasks = Panic) \/
  (~ (exists n, NodeConfig_network config = Some n /\ network_panics n) /\ exists network id, node_network config network id /\
     run_network (NodeConfig_network config) (NodeConfig_consensus config) tasks =
       Done tasks (uncurry Task_network <$> network,
         match network with Some _ => mkNetworkChannels true true (negb (is_none (NodeConfig_consensus config))) | None => mkNetworkChannels false false false end, id)).
Proof.
  intros Hok. unfold run_network, node_network. destruct (NodeConfig_network config) as [n|] eqn:En.
  2: { right. split; [naive_solver|]. by exists None, "". }
  destruct (NetworkManager_new_run n tasks (so_libp2p _ Hok n En)) as [[Hp Hrun]|(Hp & key & b & Hk & Hrun & Hdisc)].
  - left. split; [eauto|]. unfold bind. by rewrite Hrun.
  - right. split; [naive_solver|]. destruct (register_protocols_run (NodeConfig_consensus config) b (so_topic _ Hok)) as (m & Hm & Hd & Hc & Hs & Ht).
    exists (Some (n, m)), (local_peer_id key). split; [split; [done|]; split; [split; try done; congruence|by rewrite Hk]|].
    rewrite (bind_step _ _ _ _ _ Hrun). unfold in_manager, bind. rewrite Hm. by destruct (NodeConfig_consensus config).
Qed.

Lemma calling_run m tasks : m tt = Done tt tt -> calling m tasks = Done tasks tt.
Proof. unfold calling. by intros ->. Qed.

Lemma run_threads_run config : start_ok config ->
  (start_panics config /\ run_threads config [] = Panic) \/
  (~ start_panics config /\ exists network id, node_network config network id /\ run_threads config [] = Done (node_tasks config network id) tt).
Proof.
  intros Hok. unfold run_threads. rewrite (bind_step _ _ _ _ _ (calling_run _ _ (so_storage _ Hok))).
  set (metrics := if MonitoringGatewayConfig_collect_metrics (NodeConfig_monitoring_gateway config) then [Task_storage_metrics] else []).
  assert (Hmetrics : (if MonitoringGatewayConfig_collect_metrics (NodeConfig_monitoring_gateway config) then spawn Task_storage_metrics else ret tt) [] =
    Done metrics tt) by (unfold metrics; by destruct (MonitoringGatewayConfig_collect_metrics _)).
  rewrite (bind_step _ _ _ _ _ Hmetrics). unfold start_panics.
  destruct (run_network_run config metrics Hok) as [[Hp Hrun]|(Hp & network & id & Hnet & Hrun)].
  - left. split; [by right|]. unfold bind at 1. by rewrite Hrun.
  - rewrite (bind_step _ _ _ _ _ Hrun).
    assert (Hnone : NodeConfig_network config = None <-> network = None).
    { unfold node_network in Hnet. destruct (NodeConfig_network config), network as [[]|]; try done. }
    unfold conflicting. rewrite Hnone. unfold node_tasks. fold metrics. destruct Hok as [_ _ _ Hv Hm Hr].
    destruct config as [r c b m st sy ps co ne pr]. cbn in *.
    destruct network as [[n manager]|], co as [cc|], sy as [sc|], ps as [pc|];
      unfold bind, spawn, modify; cbn; rewrite !present_run by done; cbn; rewrite ?calling_run by done; cbn; rewrite ?calling_run by done; cbn;
      rewrite <-?app_assoc; cbn;
      first [left; split; [left; split; [by eexists|first [left; by eexists|by right]]|reflexivity]
            |right; split; [intros [[[? ?] [[? ?]|?]]|?]; done|eexists _, id; split; [exact Hnet|reflexivity]]].
Qed.

(** C37: Starting the node when the storage opens, the servers come up, libp2p can build its
    transport and the topic of consensus is accepted. It panics exactly when the
    configuration enables both synchronisations, or that by peers without the network,
    or when the network cannot come up: a secret key that is no key, the address of a
    bootstrap peer without its id, a port that cannot be bound. Otherwise it runs the
    storage metrics, the network with its server for synchronising peers, either
    synchronisation and consensus exactly when they are configured, each with its own
    configuration, consensus only together with the network; the monitoring server and
    the JSON-RPC server always; and never two tasks that write to the storage. The
    manager of the network serves the five protocols, asks for three of them, knows the
    topic of consensus and searches from the bootstrap peer. *)
Theorem node_starts config : start_ok config ->
  (run_threads config [] = Panic <-> start_panics config) /\
  (~ start_panics config -> exists tasks id, run_threads config [] = Done tasks tt /\
    (Task_storage_metrics ∈ tasks <-> MonitoringGatewayConfig_collect_metrics (NodeConfig_monitoring_gateway config) = true) /\
    (forall n, NodeConfig_network config = Some n <-> exists manager, Task_network n manager ∈ tasks) /\
    (forall n manager, Task_network n manager ∈ tasks -> network_up n (NodeConfig_consensus config) manager) /\
    (Task_p2p_sync_server ∈ tasks <-> is_Some (NodeConfig_network config)) /\
    (forall c central base_layer, Task_sync c central base_layer ∈ tasks <->
      NodeConfig_sync config = Some c /\ central = NodeConfig_central config /\ base_layer = NodeConfig_base_layer config) /\
    (forall c, Task_p2p_sync_client c ∈ tasks <-> NodeConfig_p2p_sync config = Some c) /\
    (forall c, Task_consensus c ∈ tasks <-> NodeConfig_consensus config = Some c /\ is_Some (NodeConfig_network config)) /\
    (forall m i, Task_monitoring_server m i ∈ tasks <-> m = NodeConfig_monitoring_gateway config /\ i = id) /\
    (forall n, NodeConfig_network config = Some n -> (local_peer_id <$> node_key n) = Some id) /\
    (forall r, Task_rpc_server r ∈ tasks <-> r = NodeConfig_rpc config) /\
    (List.length (base.filter (fun task => writes_storage task = true) tasks) <= 1)%nat).
Proof.
  intros Hok. destruct (run_threads_run config Hok) as [[Hp Hrun]|(Hp & network & id & Hnet & Hrun)]; [split; [done|by intros []]|].
  split; [split; [by rewrite Hrun|done]|]. intros _. exists (node_tasks config network id), id. split; [exact Hrun|]. clear Hok Hrun.
  unfold start_panics, conflicting in Hp. unfold node_tasks, node_network in *.
  destruct config as [r c b m st sy ps co ne pr]. cbn in *.
  destruct ne as [n|], network as [[n' manager]|]; try done; [destruct Hnet as (-> & Hup & Hid)|];
    destruct (MonitoringGatewayConfig_collect_metrics m), co as [cc|], sy as [sc|], ps as [pc|];
    try (exfalso; apply Hp; left; split; [by eexists|first [left; by eexists|by right]]; fail); cbn;
    setoid_rewrite elem_of_cons; setoid_rewrite elem_of_cons; unfold is_Some;
    split_and!; try (rewrite !filter_cons; cbn; lia); rewrite ?elem_of_cons, ?elem_of_nil; set_solver.
Qed.
End NodeStart.

(** ** Instances, and the theorems at concrete inputs *)

#[local] Instance demo_numbers : JsonNumberApi := {| JsonNumber := Z; number_from_usize n := n |}.

#[local] Instance demo_map_order : HashMapIter := {|
  hm_iter _ _ _ _ m := map_to_list m;
  hm_iter_perm _ _ _ _ m := reflexivity _
|}.

#[local] Instance demo_json : SerdeJsonApi := {|
  value_index_mut v k :=
    match v with
    | Value_Object m => Some (default Value_Null (bt_get m k), fun w => Value_Object (bt_insert k w m))
    | Value_Null => Some (Value_Null, fun w => Value_Object [(k, w)])
    | _ => None
    end
|}.

#[local] Instance demo_json_spec : SerdeJsonSpec.
Proof. split; [by eexists|by eexists|]. intros [] k; done. Qed.

(** The derived format: the content is flattened into the object of the parameter. *)
Definition privacy_text (privacy : ParamPrivacy) : string :=
  match privacy with
  | ParamPrivacy_Private => "Private"
  | ParamPrivacy_Public => "Public"
  | ParamPrivacy_TemporaryValue => "TemporaryValue"
  end.

Definition type_text (t : SerializationType) : string :=
  match t with SerializationType_Number => "Number" | SerializationType_Boolean => "Boolean" | SerializationType_String => "String" end.

Definition demo_to_value (param : SerializedParam) : Value :=
  let content :=
    match SerializedParam_content param with
    | SerializedContent_DefaultValue v => ("value", v)
    | SerializedContent_PointerTarget target => ("pointer_target", Value_String target)
    | SerializedContent_ParamType t => ("param_type", Value_String (type_text t))
    end in
  Value_Object (bt_from_iter [("description", Value_String (SerializedParam_description param)); content;
    ("privacy", Value_String (privacy_text (SerializedParam_privacy param)))]).

Definition demo_content (m : BTreeMap Value) : option SerializedContent :=
  match bt_get m "value", bt_get m "pointer_target", bt_get m "param_type" with
  | Some v, _, _ => Some (SerializedContent_DefaultValue v)
  | _, Some (Value_String target), _ => Some (SerializedContent_PointerTarget target)
  | _, _, Some (Value_String t) =>
      SerializedContent_ParamType <$>
        (if String.eqb t "Number" then Some SerializationType_Number
         else if String.eqb t "Boolean" then Some SerializationType_Boolean
         else if String.eqb t "String" then Some SerializationType_String else None)
  | _, _, _ => None
  end.

Definition demo_from_value (v : Value) : option SerializedParam :=
  match v with
  | Value_Object m =>
      match bt_get m "description", bt_get m "privacy" with
      | Some (Value_String description), Some (Value_String p) =>
          content ← demo_content m;
          privacy ← (if String.eqb p "Private" then Some ParamPrivacy_Private
                     else if String.eqb p "Public" then Some ParamPrivacy_Public
                     else if String.eqb p "TemporaryValue" then Some ParamPrivacy_TemporaryValue else None);
          Some (mkSerializedParam description content privacy)
      | _, _ => None
      end
  | _ => None
  end.

#[local] Instance demo_param_json : ParamJson := {| param_to_value := demo_to_value; param_from_value := demo_from_value |}.

Lemma demo_param_read_back param : param_from_value (param_to_value param) = Some param.
Proof. destruct param as [d [v|t|[]] []]; reflexivity. Qed.

(** The files are their contents. *)
#[local] Instance demo_io : ConfigIo := {|
  Files := list (string * list (string * Value));
  path_exists files path := match bt_get files path with Some _ => true | None => false end;
  read_json_map files path := match bt_get files path with Some m => inl m | None => inr ConfigError_IOError end;
  write_json files path v := match v with Value_Object m => inl (bt_insert path m files) | _ => inr ConfigError_IOError end
|}.

(** A command line of [--name value] pairs. *)
Definition parse_arg (parser : ArgParser) (text : string) : option Value :=
  match parser with
  | ArgParser_PathBuf | ArgParser_String => Some (Value_String text)
  | ArgParser_bool => if String.eqb text "true" then Some (Value_Bool true) else if String.eqb text "false" then Some (Value_Bool false) else None
  | ArgParser_usize =>
      Value_Number <$> foldl (fun acc a =>
        n ← acc; let d := Z.of_nat (nat_of_ascii a) - 48 in if (0 <=? d) && (d <=? 9) then Some (10 * n + d) else None)
        (Some 0) (list_ascii_of_string text)
  end.

Fixpoint parse_args (parsers : list Arg) (input : list string) : option (list string * list (string * Value)) :=
  match input with
  | [] => Some ([], [])
  | name :: text :: rest =>
      arg ← List.find (fun arg => String.eqb ("--" ++ Arg_long arg) name) parsers;
      '(paths, entries) ← parse_args parsers rest;
      if String.eqb (Arg_id arg) "config_file" then Some ((split_char "," text ++ paths)%list, entries)
      else v ← parse_arg (Arg_value_parser arg) text; Some (paths, bt_insert (Arg_id arg) v entries)
  | _ => None
  end.

#[local] Instance demo_clap : ClapApi := {|
  Command := unit;
  ArgMatches := list string * list (string * Value);
  try_get_matches_from _ parsers input := parse_args parsers (tail input);
  remove_many m id := if String.eqb id "config_file" then (match m.1 with [] => None | paths => Some paths end, ([], m.2)) else (None, m);
  matched_ids m := m.2.*1;
  try_get_one_usize m p := match bt_get m.2 p with None => Some None | Some (Value_Number n) => Some (Some n) | _ => None end;
  try_get_one_bool m p := match bt_get m.2 p with None => Some None | Some (Value_Bool b) => Some (Some b) | _ => None end;
  try_get_one_string m p := match bt_get m.2 p with None => Some None | Some (Value_String s) => Some (Some s) | _ => None end
|}.

#[local] Instance demo_types : NodeTypes := {|
  NodeChainId := string; NodeChainId_json := string_json; NodeChainId_Mainnet := "SN_MAIN"; chain_id_text s := s;
  NodeAddress := string; NodeAddress_json := string_json; contract_address s := s; NodeAddress_default := "0x0";
  Multiaddr := string; Multiaddr_json := string_json; Multiaddr_empty := ""
|}.

#[local] Instance demo_types_read : NodeTypesRead := {|
  number_integer n := Some n;
  NodeChainId_read v := match v with Value_String s => Some s | _ => None end;
  NodeAddress_read v := match v with Value_String s => Some s | _ => None end;
  Multiaddr_read v := match v with Value_String s => Some s | _ => None end;
  random_secret := "abcdefghij"
|}.

#[local] Instance demo_types_spec : NodeTypesSpec.
Proof. split; try done; intros s; by exists s. Qed.

(** The file of a small configuration: a number, a string that points to a shared one
    and an optional component. *)
Definition demo_param (content : SerializedContent) : Value := param_to_value (mkSerializedParam "" content ParamPrivacy_Public).

Definition demo_file : BTreeMap Value := bt_from_iter
  [("db.size", demo_param (SerializedContent_DefaultValue (Value_Number 3)));
   ("db.chain", demo_param (SerializedContent_PointerTarget "chain"));
   ("chain", demo_param (SerializedContent_DefaultValue (Value_String "main")));
   ("sync.#is_none", demo_param (SerializedContent_DefaultValue (Value_Bool false)));
   ("sync.rate", demo_param (SerializedContent_ParamType SerializationType_Number));
   ("peer.#is_none", demo_param (SerializedContent_DefaultValue (Value_Bool true)));
   ("peer.address", demo_param (SerializedContent_DefaultValue (Value_String "here")))].

Definition demo_files : Files :=
  [("one", [("db.size", Value_Number 4)]); ("two", [("chain", Value_String "test"); ("db.size", Value_Number 5)])].

Definition demo_args : list string := ["node"; "--config_file"; "one,two"; "--db.size"; "6"; "--sync.rate"; "9"].

Lemma demo_given :
  given demo_files demo_file tt demo_args (["one"; "two"], [("db.size", Value_Number 6); ("sync.rate", Value_Number 9)])
    ([], [("db.size", Value_Number 6); ("sync.rate", Value_Number 9)]) (Some ["one"; "two"]) (map snd demo_files)
    [("db.size", Value_Number 6); ("sync.rate", Value_Number 9)].
Proof. split; [reflexivity|reflexivity|by repeat constructor| |reflexivity|]; repeat constructor; by eexists. Qed.

Lemma demo_loadable :
  loadable demo_files demo_file tt demo_args (["one"; "two"], [("db.size", Value_Number 6); ("sync.rate", Value_Number 9)])
    ([], [("db.size", Value_Number 6); ("sync.rate", Value_Number 9)]) (Some ["one"; "two"]) (map snd demo_files)
    [("db.size", Value_Number 6); ("sync.rate", Value_Number 9)].
Proof.
  assert (Hin : forall p, is_Some (param_of demo_file p) -> p ∈ demo_file.*1).
  { intros p [param Hp]. apply bt_get_is_Some. unfold param_of in Hp. by destruct (bt_get demo_file p). }
  apply (checked_loadable _ _ _ _ _ _ _ _ _ demo_file.*1); [apply demo_given| | | |done|reflexivity|reflexivity].
  - apply (bool_decide_unpack _). vm_compute. exact I.
  - repeat constructor; by eexists.
  - intros p t Hp. assert (Hk : p ∈ demo_file.*1) by (apply Hin; unfold pointer_of in Hp; by destruct (param_of demo_file p)).
    revert p Hk t Hp. apply (Forall_forall (fun p => forall t, pointer_of demo_file p = Some t -> pointer_of demo_file t = None /\ _)).
    replace (demo_file.*1) with ["chain"; "db.chain"; "db.size"; "peer.#is_none"; "peer.address"; "sync.#is_none"; "sync.rate"] by reflexivity.
    repeat (apply Forall_cons_2; [intros t Ht; vm_compute in Ht; try discriminate Ht|]); [|apply Forall_nil_2].
    injection Ht as <-. split; [reflexivity|]. vm_compute. by eexists.
Qed.

(** The value of the command line, the pointer, the required parameter and the
    component that is switched off. *)
Lemma config_loaded_witness :
  loadable demo_files demo_file tt demo_args (["one"; "two"], [("db.size", Value_Number 6); ("sync.rate", Value_Number 9)])
    ([], [("db.size", Value_Number 6); ("sync.rate", Value_Number 9)]) (Some ["one"; "two"]) (map snd demo_files)
    [("db.size", Value_Number 6); ("sync.rate", Value_Number 9)] /\
  exists values nested,
    load_and_process_config ret demo_files (Some demo_file) tt demo_args [] = Done values nested /\
    json_get nested ["db"; "size"] = Some (Value_Number 6) /\ json_get nested ["db"; "chain"] = Some (Value_String "test") /\
    json_get nested ["sync"; "rate"] = Some (Value_Number 9) /\ json_get nested ["peer"] = Some Value_Null.
Proof.
  split; [apply demo_loadable|].
  destruct (config_loaded demo_files demo_file (tt : Command (ClapApi := demo_clap)) demo_args _ _ _ _ _ ret [] demo_loadable)
    as (values & nested & Hrun & Hval & Hget & _).
  exists values, nested. split; [exact Hrun|].
  assert (Hv : forall p v, bt_get (match load_and_process_config ret demo_files (Some demo_file) tt demo_args [] with
    | Done m _ => m | _ => [] end) p = Some v -> json_get nested (keys_of p) = Some v) by (intros p v; rewrite Hrun; intros Hp; by apply Hget, Hval).
  split_and!; [apply (Hv "db.size")|apply (Hv "db.chain")|apply (Hv "sync.rate")|apply (Hv "peer")]; vm_compute; reflexivity.
Defined.

(** The default configuration of the node: the file has the shared parameter and a
    pointer to it. *)
Example default_file_dumped :
  exists files combined, dump_to_file default_NodeConfig CONFIG_POINTERS DEFAULT_CONFIG_PATH [] = Done files tt /\
    bt_get files DEFAULT_CONFIG_PATH = Some combined /\ pointer_of combined "rpc.chain_id" = Some "chain_id" /\
    (SerializedParam_privacy <$> param_of combined "base_layer.node_url") = Some ParamPrivacy_Private.
Proof.
  destruct (node_pointers_ok default_NodeConfig) as (H1 & H2 & H3).
  destruct (dump_to_file_run demo_param_read_back default_NodeConfig CONFIG_POINTERS DEFAULT_CONFIG_PATH H1 H2 (node_sorted _) H3)
    as (combined & _ & _ & Hdump & Hparam & Hptr).
  eexists _, combined. split; [apply Hdump|]. split; [reflexivity|]. split; [by apply Hptr|]. rewrite Hparam. vm_compute. reflexivity.
Qed.

(** A configuration as it is serialized, with a secret in it. *)
Definition demo_nested : Value :=
  Value_Object [("base_layer", Value_Object [("node_url", Value_String "secret"); ("starknet_contract_address", Value_String "0xc6")])].

Lemma presentation_hides_private_witness :
  exists shown, get_config_presentation (fun _ : NodeConfig => Some demo_nested) default_NodeConfig false tt = Done tt shown /\
    json_get shown ["base_layer"; "node_url"] = None /\
    json_get shown ["base_layer"; "starknet_contract_address"] = Some (Value_String "0xc6").
Proof.
  destruct (presentation_hides_private (fun _ : NodeConfig => Some demo_nested) default_NodeConfig demo_nested tt eq_refl)
    as (_ & shown & Hrun & Hgone & Hkeep).
  { rewrite node_private_paths. intros p q. apply paths_apart_spec. reflexivity. }
  exists shown. rewrite node_private_paths in Hgone, Hkeep. split; [exact Hrun|]. split; [apply (Hgone "base_layer.node_url"); left|].
  apply Hkeep; [reflexivity|reflexivity|]. apply Forall_forall, (bool_decide_unpack _). vm_compute. exact I.
Defined.

Lemma converters_roundtrip_witness :
  deserialize_optional_vec_u8 (serialize_optional_vec_u8 (Some [0; 171; 255])) tt = Done tt (Some [0; 171; 255]) /\
  serialize_optional_vec_u8 (Some [0; 171; 255]) = "0x00abff" /\
  deserialize_optional_map (serialize_optional_map (Some {["k" := "v"]})) = Some (Some {["k" := "v"]}).
Proof.
  destruct converters_roundtrip as (Hbytes & _ & Hmap). split; [apply (Hbytes (Some [0; 171; 255])); repeat constructor; lia|].
  split; [reflexivity|]. apply Hmap. split; [done|]. intros k v [<- <-]%lookup_singleton_Some. by repeat split.
Defined.

(** A node that takes part in consensus and synchronises by peers, with a key, a
    bootstrap peer and labels; the command line gives the chain, the URL of the
    Ethereum node and the id of the validator. *)
Definition demo_network : NetworkConfig := mkNetworkConfig 10000 10001 (from_secs 120) (from_secs 30) (Some "/ip4/1.2.3.4") (Some [0; 171; 255]).

Definition demo_config : NodeConfig := {|
  NodeConfig_central := default_CentralSourceConfig;
  NodeConfig_base_layer := default_EthereumBaseLayerConfig;
  NodeConfig_rpc := default_RpcConfig;
  NodeConfig_monitoring_gateway := mkMonitoringGatewayConfig "0.0.0.0:8081" false (Some {["k" := "v"]}) "qwerty" "https://alpha-mainnet.starknet.io/";
  NodeConfig_storage := default_StorageConfig;
  NodeConfig_sync := None;
  NodeConfig_p2p_sync := Some default_P2PSyncClientConfig;
  NodeConfig_consensus := Some default_ConsensusConfig;
  NodeConfig_network := Some demo_network;
  NodeConfig_collect_profiling_metrics := true
|}.

Definition demo_node_args : list string :=
  ["node"; "--chain_id"; "SN_SEPOLIA"; "--base_layer.node_url"; "http://node"; "--consensus.validator_id"; "0x64"].

Definition demo_supplied : Supplied :=
  mkSupplied "SN_SEPOLIA" "https://alpha-mainnet.starknet.io/" false "http://node" "abcdefghij" "0x64".

Definition demo_node_file : BTreeMap Value :=
  match dump_to_file demo_config CONFIG_POINTERS DEFAULT_CONFIG_PATH [] with
  | Done files _ => default [] (bt_get files DEFAULT_CONFIG_PATH)
  | _ => []
  end.

Lemma demo_storable : storable demo_config.
Proof.
  split; try done.
  - repeat constructor; done.
  - split; [done|]. intros k v [<- <-]%lookup_singleton_Some. by repeat split.
  - intros n [= <-]. split; [by exists 120|]. split; [by exists 30|]. repeat constructor; done.
Qed.


#[local] Instance demo_start : StartApi := {|
  StartError := unit;
  open_storage_result _ := ret tt; presentation_fails _ := tt; subscription_fails _ := tt;
  to_value _ := Some demo_nested; MonitoringServer_new _ := ret tt; run_server _ := ret tt
|}.

(** Keys of 32 bytes; the number of a protocol is the number of its text. *)
#[local] Instance demo_libp2p : Libp2pApi := {|
  Keypair := list Z;
  ed25519_from_bytes key := if zlength key =? 32 then Some key else None;
  generate_ed25519 := replicate 32 7;
  local_peer_id _ := "12D3";
  multiaddr_from_str s := Some s;
  multiaddr_number _ := 1;
  dial_peer_id address := if String.eqb address "/ip4/1.2.3.4/p2p/5" then Some 5 else None;
  tcp_transport_built _ := true; gossipsub_built _ := true; listen_on _ := true;
  stream_protocol s := if String.prefix "/" s then Some (Z.pos (encode s)) else None;
  topic_hash _ := 3; subscribe _ := true
|}.

#[local] Instance demo_libp2p_spec : Libp2pSpec.
Proof.
  split; cbn; [intros s ->; by eexists|]. intros s1 s2 p. destruct (String.prefix "/" s1), (String.prefix "/" s2); try done.
  intros [= <-] [= E]. by apply (inj encode).
Qed.

(** The default configuration with a network starts the synchronisation with the
    feeder and the server for peers. *)
Definition demo_started : NodeConfig :=
  mkNodeConfig default_RpcConfig default_CentralSourceConfig default_EthereumBaseLayerConfig default_MonitoringGatewayConfig default_StorageConfig
    (Some default_SyncConfig) None None
    (Some (mkNetworkConfig 10000 10001 (from_secs 120) (from_secs 120) (Some "/ip4/1.2.3.4/p2p/5") None)) false.

Lemma node_starts_witness :
  start_ok demo_started /\ exists tasks, run_threads demo_started [] = Done tasks tt /\
    Task_sync default_SyncConfig default_CentralSourceConfig default_EthereumBaseLayerConfig ∈ tasks /\ Task_p2p_sync_server ∈ tasks.
Proof.
  assert (Hok : start_ok demo_started) by by split. split; [exact Hok|].
  destruct (node_starts demo_started Hok) as [_ Hrun]. destruct Hrun as (tasks & id & Hrun & _ & _ & _ & Hserver & Hsync & _).
  { intros [[[? ?] _]|(n & [= <-] & [(k & ? & _)|[(a & [= <-] & ?)|(a & ? & ?)]])]; discriminate. }
  exists tasks. split; [exact Hrun|]. split; [apply Hsync; split; [reflexivity|split; reflexivity]|]. apply Hserver. by eexists.
Defined.

(** The key and the bootstrap peer of the first example panic. *)
Example bad_network_panics : run_threads demo_config [] = Panic.
Proof. vm_compute. reflexivity. Qed.

(** ** Corner cases *)

(** A parameter that is none takes a neighbour whose name it begins with it. *)
Example none_takes_neighbour :
  update_optional_values [("sync.#is_none", Value_Bool true); ("sync.rate", Value_Number 1); ("synced", Value_Number 2)] =
    Done [("sync", Value_Null)] tt.
Proof. reflexivity. Qed.

(** Two optional parameters, one of which is a prefix of the other's name: that is
    taken as nested and never set. *)
Example prefix_taken_as_nested :
  update_optional_values [("peer.#is_none", Value_Bool true); ("peers.#is_none", Value_Bool true)] = Done [("peer", Value_Null)] tt.
Proof. reflexivity. Qed.

(** An odd number of digits panics, a plus sign is read as a digit. *)
Example odd_digits_panic : deserialize_optional_vec_u8 "0xabc" tt = Panic.
Proof. reflexivity. Qed.

Example plus_sign_read : deserialize_optional_vec_u8 "0x+f" tt = Done tt (Some [15]).
Proof. reflexivity. Qed.

(** A value with a colon is written and cannot be read. *)
Example url_not_read_back : deserialize_optional_map (serialize_optional_map (Some {["k" := "http://v"]})) = None.
Proof. reflexivity. Qed.

(** Errors of a list are reported by their position among the errors. *)
Example list_error_position :
  ParsedValidationErrors_from (mkValidationErrors [("l", ValidationErrorsKind_List
    [(7, mkValidationErrors [("f", ValidationErrorsKind_Field [mkValidationError "bad" None ""])])])]) =
  [mkParsedValidationError "l[0].f" "bad" None ""].
Proof. reflexivity. Qed.

(** Removing a path that is missing creates its entries. *)
Example missing_path_created :
  remove_path_from_json "a.b" (Value_Object []) tt = Done tt (Value_Object [("a", Value_Null)]).
Proof. reflexivity. Qed.

(** A pointer to a pointer that comes later in the file is not resolved. *)
Example pointer_to_later_pointer :
  update_config_map_by_pointers [("a", "b"); ("b", "c")] [("c", Value_Number 1)] =
    Fail [("c", Value_Number 1)] (ConfigError_PointerTargetNotFound "b").
Proof. reflexivity. Qed.

(** The same variable of the environment for two parameters. *)
Example environment_names_coincide : to_env_var_name "a.b" = to_env_var_name "a__b".
Proof. reflexivity. Qed.

Example full_version : VERSION_FULL = "0.5.0-dev".
Proof. reflexivity. Qed.
