(* ===== verification/GatewayClient.v ===== *)
(** * The clients of the gateways

    Models [crates/starknet_client/src/lib.rs] with [retry.rs] and the part of
    [starknet_error.rs] that reads error codes, the feeder gateway client of
    [reader/mod.rs], the gateway client of [writer/mod.rs], and the contract of
    [crates/papyrus_base_layer/src/ethereum_base_layer_contract.rs].

    The network is a parameter of the state: the outcome of the request that is sent
    as the [k]-th, while the requests that were sent and the times slept are recorded.
    The crates reqwest, url, serde_json and tokio_retry are parameters. *)

From stdpp Require Import base gmap list strings fin_maps.
From Stdlib Require Import ZArith Lia.
From S2P Require Import Prelude StarknetTypes ClientObjects RpcConvert Rpc Hashes NodeConfig.

#[local] Open Scope Z_scope.

(** ** Errors *)

#[global] Instance KnownStarknetErrorCode_eq_dec : EqDecision KnownStarknetErrorCode.
Proof. solve_decision. Defined.

#[global] Instance StarknetErrorCode_eq_dec : EqDecision StarknetErrorCode.
Proof. solve_decision. Defined.

(** [reqwest::Error]. *)
Record RequestError : Type := mkRequestError {
  is_timeout : bool;
  is_request : bool;
  is_connect : bool;
  is_redirect : bool;
  error_status : option Z;
  error_text : rstring
}.

Inductive RetryErrorCode : Type :=
| RetryErrorCode_Redirect
| RetryErrorCode_Timeout
| RetryErrorCode_TooManyRequests
| RetryErrorCode_ServiceUnavailable
| RetryErrorCode_Disconnect.

Inductive ClientError : Type :=
| ClientError_BadResponseStatus (code : Z) (message : rstring)
| ClientError_RequestError (e : RequestError)
| ClientError_RetryError (code : RetryErrorCode) (message : rstring)
| ClientError_SerdeError
| ClientError_StarknetError (e : StarknetError).

Inductive RequestWithRetryError : Type :=
| RequestWithRetryError_CloneError
| RequestWithRetryError_ClientError (e : ClientError).

Inductive ClientCreationError : Type :=
| ClientCreationError_BadUrl
| ClientCreationError_BuildError
| ClientCreationError_HttpHeaderError.

(** [StatusCode]. *)
Definition OK : Z := 200.
Definition TEMPORARY_REDIRECT : Z := 307.
Definition BAD_REQUEST : Z := 400.
Definition REQUEST_TIMEOUT : Z := 408.
Definition TOO_MANY_REQUESTS : Z := 429.
Definition INTERNAL_SERVER_ERROR : Z := 500.
Definition SERVICE_UNAVAILABLE : Z := 503.
Definition GATEWAY_TIMEOUT : Z := 504.

(** ** Requests and the network *)

Class UrlApi : Type := {
  Url : Type;
  (** [None]: an error. *)
  Url_parse : string -> option Url;
  Url_join : Url -> string -> option Url;
  (** [query_pairs_mut().append_pair(name, value)]. *)
  append_pair : Url -> rstring -> rstring -> Url
}.

Section Client.
Context {U : UrlApi}.

Inductive Method : Type := Method_Get | Method_Post.

(** [RequestBuilder], with the headers it is sent with. *)
Record RequestBuilder : Type := mkRequestBuilder {
  req_method : Method;
  req_url : Url;
  req_body : option rstring;
  req_headers : list (rstring * rstring)
}.

(** The outcome of [send()]: the status and the text of the response, either of
    which can fail. *)
Definition SendOutcome : Type := (Z * (rstring + RequestError)) + RequestError.

Record Network : Type := mkNetwork {
  outcome_at : nat -> SendOutcome;
  requests_sent : list RequestBuilder;
  delays_slept : list Z
}.

Definition Requesting (E A : Type) : Type := M Network E A.

(** [request_builder.headers(headers).send().await]. *)
Definition send {E} (request : RequestBuilder) (headers : list (rstring * rstring)) : Requesting E SendOutcome := fun w =>
  Done (mkNetwork (outcome_at w) (requests_sent w ++ [mkRequestBuilder (req_method request) (req_url request) (req_body request) headers])
          (delays_slept w))
    (outcome_at w (length (requests_sent w))).

Definition sleep (delay : Z) (w : Network) : Network := mkNetwork (outcome_at w) (requests_sent w) (delays_slept w ++ [delay]).

(** The crates the client calls. *)
Class ClientCrates : Type := {
  (** [RequestBuilder::try_clone] returns [Some]. *)
  can_clone : RequestBuilder -> bool;
  (** [serde_json::from_str] of an error of the gateway. *)
  parse_StarknetError : rstring -> option StarknetError;
  (** [to_string()] of an error. *)
  ClientError_to_string : ClientError -> rstring;
  (** The delays of [ExponentialBackoff::from_millis(base).max_delay(max).take(n)]. *)
  exponential_backoff : Z -> Z -> nat -> list Z;
  (** [RetryIf::spawn(strategy, action, condition)]. *)
  RetryIf_spawn : forall E A, list Z -> Requesting E A -> (E -> bool) -> Requesting E A;
  (** The headers of a map of names and values; [None]: one is not valid. *)
  headers_of_map : gmap string string -> option (list (rstring * rstring));
  (** [Client::builder().user_agent(agent).build()], [false]: an error. *)
  build_client : rstring -> bool;
  (** The user agent of the product, its version and the system. *)
  app_user_agent : string -> rstring
}.

Context {CC : ClientCrates}.

(** ** [StarknetClient] *)

Record StarknetClient : Type := mkStarknetClient {
  http_headers : list (rstring * rstring);
  internal_client : rstring;
  client_retry_config : RetryConfig
}.

Definition StarknetClient_new (headers : option (gmap string string)) (node_version : string) (retry_config : RetryConfig) :
    StarknetClient + ClientCreationError :=
  match (match headers with Some inner => headers_of_map inner | None => Some [] end) with
  | None => inr ClientCreationError_HttpHeaderError
  | Some header_map =>
      let agent := app_user_agent node_version in
      if build_client agent then inl (mkStarknetClient header_map agent retry_config) else inr ClientCreationError_BuildError
  end.

Definition get_retry_error_code (err : ClientError) : option RetryErrorCode :=
  match err with
  | ClientError_BadResponseStatus code _ =>
      if code =? TEMPORARY_REDIRECT then Some RetryErrorCode_Redirect
      else if (code =? REQUEST_TIMEOUT) || (code =? GATEWAY_TIMEOUT) then Some RetryErrorCode_Timeout
      else if code =? TOO_MANY_REQUESTS then Some RetryErrorCode_TooManyRequests
      else if code =? SERVICE_UNAVAILABLE then Some RetryErrorCode_ServiceUnavailable
      else None
  | ClientError_RequestError internal_err =>
      if is_timeout internal_err then Some RetryErrorCode_Timeout
      else if is_request internal_err then None
      else if is_connect internal_err then Some RetryErrorCode_Disconnect
      else if is_redirect internal_err then Some RetryErrorCode_Redirect
      else None
  | ClientError_StarknetError (mkStarknetError (StarknetErrorCode_KnownErrorCode KnownStarknetErrorCode_TransactionLimitExceeded) _) =>
      Some RetryErrorCode_TooManyRequests
  | _ => None
  end.

Definition should_retry (err : RequestWithRetryError) : bool :=
  match err with
  | RequestWithRetryError_ClientError err => match get_retry_error_code err with Some _ => true | None => false end
  | RequestWithRetryError_CloneError => false
  end.

(** What [request] makes of an outcome. *)
Definition status_and_message (res : SendOutcome) : (Z * rstring) + ClientError :=
  match res with
  | inl (status, inl text) => inl (status, text)
  | inl (_, inr err) => inr (ClientError_RequestError err)
  | inr err =>
      match error_status err with
      | Some status => inl (status, error_text err)
      | None => inr (ClientError_RequestError err)
      end
  end.

Definition request (self : StarknetClient) (request_builder : RequestBuilder) : Requesting ClientError rstring :=
  let! res := send request_builder (http_headers self) in
  match status_and_message res with
  | inr err => raise err
  | inl (code, message) =>
      if code =? OK then ret message
      else if (code =? INTERNAL_SERVER_ERROR) || (code =? BAD_REQUEST) then
        match parse_StarknetError message with
        | Some starknet_error => raise (ClientError_StarknetError starknet_error)
        | None => raise ClientError_SerdeError
        end
      else raise (ClientError_BadResponseStatus code message)
  end.

(** [Retry::new] and [start_with_condition]. *)
Definition Retry_new (config : RetryConfig) : list Z :=
  exponential_backoff (RetryConfig_retry_base_millis config) (RetryConfig_retry_max_delay_millis config)
    (Z.to_nat (RetryConfig_max_retries config)).

Definition start_with_condition {E A} (strategy : list Z) (action : Requesting E A) (condition : E -> bool) : Requesting E A :=
  RetryIf_spawn E A strategy action condition.

(** The action that is retried. *)
Definition request_clone (self : StarknetClient) (request_builder : RequestBuilder) : Requesting RequestWithRetryError rstring := fun w =>
  if can_clone request_builder then
    map_err RequestWithRetryError_ClientError (request self request_builder) w
  else Fail w RequestWithRetryError_CloneError.

Definition request_with_retry (self : StarknetClient) (request_builder : RequestBuilder) : Requesting ClientError rstring := fun w =>
  match start_with_condition (Retry_new (client_retry_config self)) (request_clone self request_builder) should_retry w with
  | Done w message => Done w message
  | Fail w (RequestWithRetryError_ClientError err) =>
      Fail w (match get_retry_error_code err with
              | Some code => ClientError_RetryError code (ClientError_to_string err)
              | None => err
              end)
  | Fail w RequestWithRetryError_CloneError => request self request_builder w
  | Panic => Panic
  end.

(** [internal_client.get(url)] and [post(url).body(body)]. *)
Definition client_get (url : Url) : RequestBuilder := mkRequestBuilder Method_Get url None [].
Definition client_post (url : Url) (body : rstring) : RequestBuilder := mkRequestBuilder Method_Post url (Some body) [].

(** ** The codes of errors ([starknet_error.rs]) *)

Definition known_codes : list (string * KnownStarknetErrorCode) :=
  [("StarknetErrorCode.UNDECLARED_CLASS", KnownStarknetErrorCode_UndeclaredClass);
   ("StarknetErrorCode.BLOCK_NOT_FOUND", KnownStarknetErrorCode_BlockNotFound);
   ("StarkErrorCode.MALFORMED_REQUEST", KnownStarknetErrorCode_MalformedRequest);
   ("StarknetErrorCode.OUT_OF_RANGE_CLASS_HASH", KnownStarknetErrorCode_OutOfRangeClassHash);
   ("StarknetErrorCode.CLASS_ALREADY_DECLARED", KnownStarknetErrorCode_ClassAlreadyDeclared);
   ("StarknetErrorCode.COMPILATION_FAILED", KnownStarknetErrorCode_CompilationFailed);
   ("StarknetErrorCode.CONTRACT_BYTECODE_SIZE_TOO_LARGE", KnownStarknetErrorCode_ContractBytecodeSizeTooLarge);
   ("StarknetErrorCode.CONTRACT_CLASS_OBJECT_SIZE_TOO_LARGE", KnownStarknetErrorCode_ContractClassObjectSizeTooLarge);
   ("StarknetErrorCode.DUPLICATED_TRANSACTION", KnownStarknetErrorCode_DuplicatedTransaction);
   ("StarknetErrorCode.ENTRY_POINT_NOT_FOUND_IN_CONTRACT", KnownStarknetErrorCode_EntryPointNotFoundInContract);
   ("StarknetErrorCode.INSUFFICIENT_ACCOUNT_BALANCE", KnownStarknetErrorCode_InsufficientAccountBalance);
   ("StarknetErrorCode.INSUFFICIENT_MAX_FEE", KnownStarknetErrorCode_InsufficientMaxFee);
   ("StarknetErrorCode.INVALID_COMPILED_CLASS_HASH", KnownStarknetErrorCode_InvalidCompiledClassHash);
   ("StarknetErrorCode.INVALID_CONTRACT_CLASS_VERSION", KnownStarknetErrorCode_InvalidContractClassVersion);
   ("StarknetErrorCode.INVALID_TRANSACTION_NONCE", KnownStarknetErrorCode_InvalidTransactionNonce);
   ("StarknetErrorCode.INVALID_TRANSACTION_VERSION", KnownStarknetErrorCode_InvalidTransactionVersion);
   ("StarknetErrorCode.VALIDATE_FAILURE", KnownStarknetErrorCode_ValidateFailure);
   ("StarknetErrorCode.TRANSACTION_LIMIT_EXCEEDED", KnownStarknetErrorCode_TransactionLimitExceeded)]%string.

(** The derived deserialization of a known code, from its name. *)
Definition known_of_name (name : rstring) : option KnownStarknetErrorCode :=
  snd <$> List.find (fun e => bool_decide (str_bytes e.1 = name)) known_codes.

(** [json_str body]: the string that a JSON literal with this body denotes, [None] when it is
    malformed. The first alternative of the untagged enumeration, then the second. *)
Definition deserialize_unknown_error_code (json_str : rstring -> option rstring) (string : rstring) : option rstring :=
  match json_str string with
  | None => None
  | Some name => match known_of_name name with Some _ => None | None => Some string end
  end.

Definition deserialize_StarknetErrorCode (json_str : rstring -> option rstring) (string : rstring) : option StarknetErrorCode :=
  match deserialize_unknown_error_code json_str string with
  | Some code => Some (StarknetErrorCode_UnknownErrorCode code)
  | None => StarknetErrorCode_KnownErrorCode <$> known_of_name string
  end.

(** ** The feeder gateway client ([reader/mod.rs]) *)

(** [ReaderClientError] as the requests produce it. *)
Inductive ReaderRequestError : Type :=
| ReaderRequestError_ClientError (e : ClientError)
| ReaderRequestError_SerdeError.

Definition GET_BLOCK_URL : string := "feeder_gateway/get_block".
Definition GET_CONTRACT_BY_HASH_URL : string := "feeder_gateway/get_class_by_hash".
Definition GET_COMPILED_CLASS_BY_CLASS_HASH_URL : string := "feeder_gateway/get_compiled_class_by_class_hash".
Definition GET_STATE_UPDATE_URL : string := "feeder_gateway/get_state_update".
Definition BLOCK_NUMBER_QUERY : rstring := str_bytes "blockNumber".
Definition LATEST_BLOCK_NUMBER : rstring := str_bytes "latest".
Definition CLASS_HASH_QUERY : rstring := str_bytes "classHash".
Definition PENDING_BLOCK_ID : rstring := str_bytes "pending".
Definition INCLUDE_BLOCK : rstring := str_bytes "includeBlock".
Definition FEEDER_GATEWAY_IS_ALIVE : string := "feeder_gateway/is_alive".
Definition FEEDER_GATEWAY_ALIVE_RESPONSE : rstring := str_bytes "FeederGateway is alive!".
Definition GET_BLOCK_SIGNATURE_URL : string := "feeder_gateway/get_signature".
Definition GET_SEQUENCER_PUB_KEY_URL : string := "feeder_gateway/get_public_key".

Record StarknetUrls : Type := mkStarknetUrls {
  url_get_block : Url;
  url_get_contract_by_hash : Url;
  url_get_compiled_class_by_class_hash : Url;
  url_get_state_update : Url;
  url_get_pending_data : Url;
  url_feeder_gateway_is_alive : Url;
  url_get_block_signature : Url;
  url_get_sequencer_pub_key : Url
}.

(** [None]: a URL is not valid. *)
Definition StarknetUrls_new (url_str : string) : option StarknetUrls :=
  base_url ← Url_parse url_str;
  get_block ← Url_join base_url GET_BLOCK_URL;
  get_contract_by_hash ← Url_join base_url GET_CONTRACT_BY_HASH_URL;
  get_compiled_class_by_class_hash ← Url_join base_url GET_COMPILED_CLASS_BY_CLASS_HASH_URL;
  get_state_update ← Url_join base_url GET_STATE_UPDATE_URL;
  feeder_gateway_is_alive ← Url_join base_url FEEDER_GATEWAY_IS_ALIVE;
  get_block_signature ← Url_join base_url GET_BLOCK_SIGNATURE_URL;
  get_sequencer_pub_key ← Url_join base_url GET_SEQUENCER_PUB_KEY_URL;
  Some {|
    url_get_block := get_block;
    url_get_contract_by_hash := append_pair get_contract_by_hash BLOCK_NUMBER_QUERY PENDING_BLOCK_ID;
    url_get_compiled_class_by_class_hash := append_pair get_compiled_class_by_class_hash BLOCK_NUMBER_QUERY PENDING_BLOCK_ID;
    url_get_state_update := get_state_update;
    url_get_pending_data :=
      append_pair (append_pair get_state_update BLOCK_NUMBER_QUERY PENDING_BLOCK_ID) INCLUDE_BLOCK (str_bytes "true");
    url_feeder_gateway_is_alive := feeder_gateway_is_alive;
    url_get_block_signature := get_block_signature;
    url_get_sequencer_pub_key := get_sequencer_pub_key
  |}.

Record StarknetFeederGatewayClient : Type := mkStarknetFeederGatewayClient {
  feeder_urls : StarknetUrls;
  feeder_client : StarknetClient
}.

Definition StarknetFeederGatewayClient_new (url_str : string) (http_headers : option (gmap string string)) (node_version : string)
    (retry_config : RetryConfig) : StarknetFeederGatewayClient + ClientCreationError :=
  match StarknetUrls_new url_str with
  | None => inr ClientCreationError_BadUrl
  | Some urls =>
      match StarknetClient_new http_headers node_version retry_config with
      | inl client => inl (mkStarknetFeederGatewayClient urls client)
      | inr e => inr e
      end
  end.

(** A computation whose failure is the response the caller inspects. *)
Definition attempt_request {E A} (m : Requesting E A) : Requesting ReaderRequestError (A + E) := fun w =>
  match m w with
  | Done w a => Done w (inl a)
  | Fail w e => Done w (inr e)
  | Panic => Panic
  end.

Definition request_with_retry_url (self : StarknetFeederGatewayClient) (url : Url) : Requesting ReaderRequestError (rstring + ClientError) :=
  attempt_request (request_with_retry (feeder_client self) (client_get url)).

Definition is_none_error (err : ClientError) (none_error_code : option KnownStarknetErrorCode) : bool :=
  match err, none_error_code with
  | ClientError_StarknetError (mkStarknetError (StarknetErrorCode_KnownErrorCode error_code) _), Some none_error_code =>
      bool_decide (error_code = none_error_code)
  | _, _ => false
  end.

(** [from_str] is the derived deserialization of the object. *)
Definition load_object_from_response {Object} (from_str : rstring -> option Object) (response : rstring + ClientError)
    (none_error_code : option KnownStarknetErrorCode) : Requesting ReaderRequestError (option Object) :=
  match response with
  | inl raw_object =>
      match from_str raw_object with
      | Some object => ret (Some object)
      | None => raise ReaderRequestError_SerdeError
      end
  | inr err => if is_none_error err none_error_code then ret None else raise (ReaderRequestError_ClientError err)
  end.

Context {X : ExternalTypes}.

(** The derived deserializations, [BlockNumber::to_string] and
    [serde_json::to_string(&class_hash)] ([None]: an error). *)
Class ReaderJson : Type := {
  parse_Block : rstring -> option ClientBlock;
  parse_GenericContractClass : rstring -> option GenericContractClass;
  parse_StateUpdate : rstring -> option StateUpdate;
  parse_CasmContractClass : rstring -> option CasmContractClass;
  default_CasmContractClass : CasmContractClass;
  parse_PendingData : rstring -> option PendingData;
  parse_BlockSignatureData : rstring -> option BlockSignatureData;
  parse_SequencerPublicKey : rstring -> option Z;
  block_number_to_string : Z -> rstring;
  class_hash_to_json : Z -> option rstring;
  class_hash_from_hex_unchecked : string -> Z
}.

Context {RJ : ReaderJson}.

Definition request_block (self : StarknetFeederGatewayClient) (block_number : option Z) :
    Requesting ReaderRequestError (option ClientBlock) :=
  let url := url_get_block (feeder_urls self) in
  let block_number := match block_number with Some bn => block_number_to_string bn | None => LATEST_BLOCK_NUMBER end in
  let url := append_pair url BLOCK_NUMBER_QUERY block_number in
  let! response := request_with_retry_url self url in
  load_object_from_response parse_Block response (Some KnownStarknetErrorCode_BlockNotFound).

Definition latest_block (self : StarknetFeederGatewayClient) : Requesting ReaderRequestError (option ClientBlock) :=
  request_block self None.

Definition reader_block (self : StarknetFeederGatewayClient) (block_number : Z) : Requesting ReaderRequestError (option ClientBlock) :=
  request_block self (Some block_number).

(** [&class_hash.as_str()[1..class_hash.len() - 1]]: the text without its quotes; the
    slice panics on a shorter text. *)
Definition unquoted {E} (text : rstring) : Requesting E rstring :=
  if (length text <? 2)%nat then panic else ret (take (length text - 2) (drop 1 text)).

Definition class_hash_text (class_hash : Z) : Requesting ReaderRequestError rstring :=
  let! class_hash := ok_or_raise ReaderRequestError_SerdeError (class_hash_to_json class_hash) in
  unquoted class_hash.

Definition class_by_hash (self : StarknetFeederGatewayClient) (class_hash : Z) : Requesting ReaderRequestError (option GenericContractClass) :=
  let! class_hash := class_hash_text class_hash in
  let url := append_pair (url_get_contract_by_hash (feeder_urls self)) CLASS_HASH_QUERY class_hash in
  let! response := request_with_retry_url self url in
  load_object_from_response parse_GenericContractClass response (Some KnownStarknetErrorCode_UndeclaredClass).

Definition reader_state_update (self : StarknetFeederGatewayClient) (block_number : Z) : Requesting ReaderRequestError (option StateUpdate) :=
  let url := append_pair (url_get_state_update (feeder_urls self)) BLOCK_NUMBER_QUERY (block_number_to_string block_number) in
  let! response := request_with_retry_url self url in
  load_object_from_response parse_StateUpdate response (Some KnownStarknetErrorCode_BlockNotFound).

(** The classes that are malformed in the integration environment. *)
Definition MALFORMED_CASM : list string :=
  ["0x4e70b19333ae94bd958625f7b61ce9eec631653597e68645e13780061b2136c";
   "0x6208b3f9f94e6220f3d6a3562fe06a35a66181a202d946c3522fd28eda9ea1b";
   "0xd6916ff38c93f834e7223a95b41d4542152d8288ff388b5d3dcdf8126a784a";
   "0x161354521d46ca89a5b64aa41fa4e77ffeadc0f9796272d9b94227dbbb3840e";
   "0x6a9eb910b3f83989900c8d65f9d67d67016f2528cc1b834019cf489f4f7d716"]%string.

Definition compiled_class_by_hash (self : StarknetFeederGatewayClient) (class_hash : Z) :
    Requesting ReaderRequestError (option CasmContractClass) :=
  if bool_decide (class_hash ∈ class_hash_from_hex_unchecked <$> MALFORMED_CASM) then ret (Some default_CasmContractClass)
  else
    let! class_hash := class_hash_text class_hash in
    let url := append_pair (url_get_compiled_class_by_class_hash (feeder_urls self)) CLASS_HASH_QUERY class_hash in
    let! response := request_with_retry_url self url in
    load_object_from_response parse_CasmContractClass response (Some KnownStarknetErrorCode_UndeclaredClass).

Definition reader_pending_data (self : StarknetFeederGatewayClient) : Requesting ReaderRequestError (option PendingData) :=
  let! response := request_with_retry_url self (url_get_pending_data (feeder_urls self)) in
  load_object_from_response parse_PendingData response (Some KnownStarknetErrorCode_BlockNotFound).

Definition reader_is_alive (self : StarknetFeederGatewayClient) : Requesting ReaderRequestError bool :=
  let! response := request_with_retry_url self (url_feeder_gateway_is_alive (feeder_urls self)) in
  ret (match response with inl response => bool_decide (response = FEEDER_GATEWAY_ALIVE_RESPONSE) | inr _ => false end).

Definition reader_block_signature (self : StarknetFeederGatewayClient) (block_number : Z) :
    Requesting ReaderRequestError (option BlockSignatureData) :=
  let url := append_pair (url_get_block_signature (feeder_urls self)) BLOCK_NUMBER_QUERY (block_number_to_string block_number) in
  let! response := request_with_retry_url self url in
  load_object_from_response parse_BlockSignatureData response (Some KnownStarknetErrorCode_BlockNotFound).

Definition reader_sequencer_pub_key (self : StarknetFeederGatewayClient) : Requesting ReaderRequestError Z :=
  let! response := request_with_retry_url self (url_get_sequencer_pub_key (feeder_urls self)) in
  let! option := load_object_from_response parse_SequencerPublicKey response None in
  expect option.

(** ** The gateway client ([writer/mod.rs]) *)

Definition ADD_TRANSACTION_URL_SUFFIX : string := "gateway/add_transaction".
Definition GATEWAY_IS_ALIVE : string := "gateway/is_alive".
Definition GATEWAY_ALIVE_RESPONSE : rstring := str_bytes "Gateway is alive!".

Record StarknetGatewayClient : Type := mkStarknetGatewayClient {
  add_transaction_url : Url;
  is_alive_url : Url;
  gateway_client : StarknetClient
}.

Definition StarknetGatewayClient_new (starknet_url node_version : string) (retry_config : RetryConfig) :
    StarknetGatewayClient + ClientCreationError :=
  match (url ← Url_parse starknet_url; a ← Url_join url ADD_TRANSACTION_URL_SUFFIX; b ← Url_join url GATEWAY_IS_ALIVE; Some (a, b)) with
  | None => inr ClientCreationError_BadUrl
  | Some (add_transaction_url, is_alive_url) =>
      match StarknetClient_new None node_version retry_config with
      | inl client => inl (mkStarknetGatewayClient add_transaction_url is_alive_url client)
      | inr e => inr e
      end
  end.

(** The error of the client as the server of the API distinguishes it. *)
Definition writer_error (e : ClientError) : WriterClientError :=
  match e with
  | ClientError_StarknetError starknet_error => WriterClientError_StarknetError starknet_error
  | _ => WriterClientError_Other
  end.

(** [to_string] and [from_str] are those of the transaction and of the response. *)
Definition add_transaction {Transaction Response} (to_string : Transaction -> option rstring) (from_str : rstring -> option Response)
    (self : StarknetGatewayClient) (tx : Transaction) : Requesting WriterClientError Response :=
  let! body := ok_or_raise WriterClientError_Other (to_string tx) in
  let! response := map_err writer_error (request_with_retry (gateway_client self) (client_post (add_transaction_url self) body)) in
  ok_or_raise WriterClientError_Other (from_str response).

(** The serializations of the transactions and of the responses. *)
Class WriterJson : Type := {
  invoke_to_json : WriterInvokeTransaction -> option rstring;
  declare_to_json : WriterDeclareTransaction -> option rstring;
  deploy_account_to_json : WriterDeployAccountTransaction -> option rstring;
  parse_InvokeResponse : rstring -> option InvokeResponse;
  parse_DeclareResponse : rstring -> option DeclareResponse;
  parse_DeployAccountResponse : rstring -> option DeployAccountResponse
}.

Context {WJ : WriterJson}.

Definition writer_add_invoke_transaction (self : StarknetGatewayClient) (tx : WriterInvokeTransaction) :
    Requesting WriterClientError InvokeResponse :=
  add_transaction invoke_to_json parse_InvokeResponse self tx.

Definition writer_add_declare_transaction (self : StarknetGatewayClient) (tx : WriterDeclareTransaction) :
    Requesting WriterClientError DeclareResponse :=
  add_transaction declare_to_json parse_DeclareResponse self tx.

Definition writer_add_deploy_account_transaction (self : StarknetGatewayClient) (tx : WriterDeployAccountTransaction) :
    Requesting WriterClientError DeployAccountResponse :=
  add_transaction deploy_account_to_json parse_DeployAccountResponse self tx.

Definition writer_is_alive (self : StarknetGatewayClient) : Requesting ReaderRequestError bool :=
  let! response := attempt_request (request_with_retry (gateway_client self) (client_get (is_alive_url self))) in
  ret (match response with inl response => bool_decide (response = GATEWAY_ALIVE_RESPONSE) | inr _ => false end).
End Client.

(** ** The base layer contract *)

Section BaseLayer.

(** The node of the base layer: its height, and the two calls of the contract at a
    block; [None]: the request fails. *)
Class EthereumApi : Type := {
  eth_block_number : option Z;
  state_block_number_at : Z -> option Z;
  state_block_hash_at : Z -> option Z;
  (** [I256::as_u64], and the hash of a word by its hexadecimal text. *)
  i256_as_u64 : Z -> Z;
  hash_of_u256 : Z -> Z
}.

Context {EA : EthereumApi}.

(** [checked_sub]. *)
Definition u64_checked_sub (a b : Z) : option Z := if a <? b then None else Some (a - b).

(** [inr tt]: an error of the provider. *)
Definition latest_proved_block (min_confirmations : option Z) : option (Z * Z) + unit :=
  match eth_block_number with
  | None => inr tt
  | Some ethereum_block_number =>
      match u64_checked_sub ethereum_block_number (default 0 min_confirmations) with
      | None => inl None
      | Some ethereum_block_number =>
          match state_block_number_at ethereum_block_number, state_block_hash_at ethereum_block_number with
          | Some state_block_number, Some state_block_hash => inl (Some (i256_as_u64 state_block_number, hash_of_u256 state_block_hash))
          | _, _ => inr tt
          end
      end
  end.
End BaseLayer.

(** ** What the requests do *)

(** Documented behaviour of tokio_retry and reqwest: the action is run again after the
    next delay as long as it fails with an error that the condition accepts and a delay
    is left; the strategy has as many delays as it is told to take, none longer than
    its bound; a request whose body is not a stream can be cloned. *)
Class ClientCratesSpec {U : UrlApi} {CC : ClientCrates} : Type := {
  RetryIf_nil : forall E A (action : Requesting E A) condition w, RetryIf_spawn E A [] action condition w = action w;
  RetryIf_cons : forall E A delay delays (action : Requesting E A) condition w,
    RetryIf_spawn E A (delay :: delays) action condition w =
      match action w with
      | Fail w' e => if condition e then RetryIf_spawn E A delays action condition (sleep delay w') else Fail w' e
      | r => r
      end;
  backoff_length : forall base max n, length (exponential_backoff base max n) = n;
  backoff_bounded : forall base max n, Forall (fun delay => delay <= max) (exponential_backoff base max n);
  get_clones : forall url, can_clone (client_get url) = true;
  post_clones : forall url body, can_clone (client_post url body) = true
}.

Section Requests.
Context {U : UrlApi} {CC : ClientCrates} {CS : ClientCratesSpec}.

(** The answer a single request makes of an outcome. *)
Definition answer_of (res : SendOutcome) : rstring + ClientError :=
  match status_and_message res with
  | inr err => inr err
  | inl (code, message) =>
      if code =? OK then inl message
      else if (code =? INTERNAL_SERVER_ERROR) || (code =? BAD_REQUEST) then
        match parse_StarknetError message with
        | Some starknet_error => inr (ClientError_StarknetError starknet_error)
        | None => inr ClientError_SerdeError
        end
      else inr (ClientError_BadResponseStatus code message)
  end.

Definition retryable (answer : rstring + ClientError) : Prop :=
  match answer with inl _ => False | inr err => is_Some (get_retry_error_code err) end.

(** What is left of an error once the retries are over. *)
Definition final_error (err : ClientError) : ClientError :=
  match get_retry_error_code err with
  | Some code => ClientError_RetryError code (ClientError_to_string err)
  | None => err
  end.

Definition with_headers (self : StarknetClient) (r : RequestBuilder) : RequestBuilder :=
  mkRequestBuilder (req_method r) (req_url r) (req_body r) (http_headers self).

(** The network after [n] retries of a request with the delays of the client. *)
Definition after_retries (self : StarknetClient) (r : RequestBuilder) (delays : list Z) (n : nat) (w : Network) : Network :=
  mkNetwork (outcome_at w) (requests_sent w ++ replicate (S n) (with_headers self r)) (delays_slept w ++ take n delays).

(** The answer to the [i]-th request from now on. *)
Definition next_answer (w : Network) (i : nat) : rstring + ClientError := answer_of (outcome_at w (length (requests_sent w) + i)).

Lemma request_run self r w :
  request self r w =
    match next_answer w 0 with
    | inl message => Done (after_retries self r [] 0 w) message
    | inr err => Fail (after_retries self r [] 0 w) err
    end.
Proof.
  unfold request, next_answer, after_retries, send, bind, answer_of. cbn [replicate take]. rewrite Nat.add_0_r, app_nil_r.
  destruct (status_and_message _) as [[code message]|err]; [|done]. destruct (code =? OK); [done|].
  destruct (_ || _); [|done]. by destruct (parse_StarknetError message).
Qed.

Lemma after_retries_step self r delay delays n w :
  after_retries self r delays n (sleep delay (after_retries self r [] 0 w)) = after_retries self r (delay :: delays) (S n) w.
Proof. unfold after_retries, sleep. cbn. f_equal; [by rewrite <-app_assoc|by rewrite app_nil_r, <-app_assoc]. Qed.

Lemma retried_run self r delays w : can_clone r = true ->
  exists n, (n <= length delays)%nat /\ (forall i, (i < n)%nat -> retryable (next_answer w i)) /\
    (~ retryable (next_answer w n) \/ n = length delays) /\
    RetryIf_spawn _ _ delays (request_clone self r) should_retry w =
      match next_answer w n with
      | inl message => Done (after_retries self r delays n w) message
      | inr err => Fail (after_retries self r delays n w) (RequestWithRetryError_ClientError err)
      end.
Proof.
  intros Hc. assert (Hone : forall w, request_clone self r w = match next_answer w 0 with
    | inl message => Done (after_retries self r [] 0 w) message
    | inr err => Fail (after_retries self r [] 0 w) (RequestWithRetryError_ClientError err) end).
  { intros w0. unfold request_clone. rewrite Hc. unfold map_err. rewrite request_run. by destruct (next_answer w0 0). }
  revert w. induction delays as [|delay delays IH]; intros w.
  { exists 0%nat. split; [done|]. split; [lia|]. split; [by right|]. rewrite RetryIf_nil. apply Hone. }
  rewrite RetryIf_cons, Hone. destruct (next_answer w 0) as [message|err] eqn:E0.
  { exists 0%nat. rewrite E0. split; [lia|]. split; [lia|]. split; [left; tauto|done]. }
  cbn [should_retry]. destruct (get_retry_error_code err) as [code|] eqn:Ec.
  - set (w1 := sleep delay (after_retries self r [] 0 w)). destruct (IH w1) as (n & Hn & Hbefore & Hend & Hrun).
    assert (Hnext : forall i, next_answer w1 i = next_answer w (S i)).
    { intros i. unfold next_answer, w1. cbn. rewrite length_app. cbn. do 2 f_equal. lia. }
    exists (S n). cbn [length]. split; [lia|]. split.
    { intros [|i] Hi; [rewrite E0; cbn; by rewrite Ec|]. rewrite <-Hnext. apply Hbefore. lia. }
    rewrite <-Hnext. split; [destruct Hend; [by left|right; lia]|]. rewrite Hrun. unfold w1 at 2 3. by rewrite !after_retries_step.
  - exists 0%nat. rewrite E0. cbn [length retryable]. rewrite Ec. split; [lia|]. split; [lia|]. split; [left; by intros []|done].
Qed.

Lemma request_with_retry_run self r w : can_clone r = true ->
  exists n, (n <= Z.to_nat (RetryConfig_max_retries (client_retry_config self)))%nat /\
    (forall i, (i < n)%nat -> retryable (next_answer w i)) /\
    (~ retryable (next_answer w n) \/ n = Z.to_nat (RetryConfig_max_retries (client_retry_config self))) /\
    let w' := after_retries self r (Retry_new (client_retry_config self)) n w in
    request_with_retry self r w = match next_answer w n with inl message => Done w' message | inr err => Fail w' (final_error err) end.
Proof.
  intros Hc. destruct (retried_run self r (Retry_new (client_retry_config self)) w Hc) as (n & Hn & Hb & He & Hrun).
  assert (Hl : length (Retry_new (client_retry_config self)) = Z.to_nat (RetryConfig_max_retries (client_retry_config self))) by apply backoff_length.
  rewrite Hl in Hn, He. exists n. split_and!; try done. cbn zeta. unfold request_with_retry, start_with_condition. rewrite Hrun.
  by destruct (next_answer w n).
Qed.
End Requests.

Section Theorems.
Context {U : UrlApi} {CC : ClientCrates} {CS : ClientCratesSpec}.

(** C38: A request of a client: it is sent again, the same, after an answer that may change
    and not after another one, at most as often as the configuration allows and after
    delays within its bound; the last answer is returned, its error replaced by one
    that says that retrying did not help if another attempt might. A request that
    cannot be cloned is sent once and its answer is returned as it is. *)
Theorem request_retried self r w :
  let config := client_retry_config self in
  (can_clone r = true -> exists n,
    (n <= Z.to_nat (RetryConfig_max_retries config))%nat /\
    (forall i, (i < n)%nat -> retryable (next_answer w i)) /\
    (~ retryable (next_answer w n) \/ n = Z.to_nat (RetryConfig_max_retries config)) /\
    exists w', requests_sent w' = requests_sent w ++ replicate (S n) (with_headers self r) /\
      (exists delays, delays_slept w' = delays_slept w ++ delays /\ length delays = n /\
        Forall (fun delay => delay <= RetryConfig_retry_max_delay_millis config) delays) /\
      request_with_retry self r w = match next_answer w n with inl message => Done w' message | inr err => Fail w' (final_error err) end) /\
  (can_clone r = false -> exists w', requests_sent w' = requests_sent w ++ [with_headers self r] /\
    request_with_retry self r w = match next_answer w 0 with inl message => Done w' message | inr err => Fail w' err end).
Proof.
  cbn zeta. split.
  - intros Hc. destruct (request_with_retry_run self r w Hc) as (n & Hn & Hb & He & Hrun). exists n. split_and!; try done.
    exists (after_retries self r (Retry_new (client_retry_config self)) n w). split; [reflexivity|]. split; [|exact Hrun]. eexists. split; [reflexivity|]. split.
    + rewrite length_take. unfold Retry_new. rewrite backoff_length. lia.
    + apply Forall_take, backoff_bounded.
  - intros Hc. exists (after_retries self r [] 0 w). split; [reflexivity|].
    assert (Hno : forall delays, RetryIf_spawn _ _ delays (request_clone self r) should_retry w = Fail w RequestWithRetryError_CloneError).
    { intros [|delay delays]; [rewrite RetryIf_nil|rewrite RetryIf_cons]; unfold request_clone; by rewrite Hc. }
    unfold request_with_retry, start_with_condition. rewrite Hno. apply (request_run self r w).
Qed.

(** Reading an object of the feeder gateway: the request is retried as above, and from
    the last answer the reader returns the object it parses to, nothing when the
    gateway reports exactly the code of a missing object, and an error otherwise. *)
Definition reads {T} (m : Requesting ReaderRequestError (option T)) (self : StarknetFeederGatewayClient) (url : Url)
    (parse : rstring -> option T) (missing : KnownStarknetErrorCode) : Prop :=
  forall w, exists n w',
    (n <= Z.to_nat (RetryConfig_max_retries (client_retry_config (feeder_client self))))%nat /\
    (forall i, (i < n)%nat -> retryable (next_answer w i)) /\
    requests_sent w' = requests_sent w ++ replicate (S n) (with_headers (feeder_client self) (client_get url)) /\
    m w = match next_answer w n with
          | inl text => match parse text with Some object => Done w' (Some object) | None => Fail w' ReaderRequestError_SerdeError end
          | inr (ClientError_StarknetError e) =>
              if decide (StarknetError_code e = StarknetErrorCode_KnownErrorCode missing) then Done w' None
              else Fail w' (ReaderRequestError_ClientError (final_error (ClientError_StarknetError e)))
          | inr err => Fail w' (ReaderRequestError_ClientError (final_error err))
          end.

Lemma request_with_retry_url_run self url w :
  exists n, (n <= Z.to_nat (RetryConfig_max_retries (client_retry_config (feeder_client self))))%nat /\
    (forall i, (i < n)%nat -> retryable (next_answer w i)) /\
    request_with_retry_url self url w =
      Done (after_retries (feeder_client self) (client_get url) (Retry_new (client_retry_config (feeder_client self))) n w)
        (match next_answer w n with inl message => inl message | inr err => inr (final_error err) end).
Proof.
  destruct (request_with_retry_run (feeder_client self) (client_get url) w (get_clones url)) as (n & Hn & Hb & _ & Hrun).
  exists n. split_and!; try done. unfold request_with_retry_url, attempt_request. rewrite Hrun. by destruct (next_answer w n).
Qed.

Lemma is_none_error_final err missing : get_retry_error_code (ClientError_StarknetError (mkStarknetError (StarknetErrorCode_KnownErrorCode missing) [])) = None ->
  is_none_error (final_error err) (Some missing) = true <->
  exists e, err = ClientError_StarknetError e /\ StarknetError_code e = StarknetErrorCode_KnownErrorCode missing.
Proof.
  intros Hm. split.
  - unfold final_error. destruct (get_retry_error_code err) eqn:Er; [done|].
    destruct err as [| | | |[[?|known] msg]]; try done. cbn. intros H%bool_decide_eq_true. subst known. by eexists.
  - intros ([code msg] & -> & Hcode). cbn in Hcode. subst code. unfold final_error.
    replace (get_retry_error_code _) with (None : option RetryErrorCode) by (rewrite <-Hm; by destruct missing). cbn. by rewrite bool_decide_eq_true_2.
Qed.

(** A reader that asks for a URL and loads the object of the response. *)
Lemma reads_object {T} self url (parse : rstring -> option T) missing :
  get_retry_error_code (ClientError_StarknetError (mkStarknetError (StarknetErrorCode_KnownErrorCode missing) [])) = None ->
  reads (let! response := request_with_retry_url self url in load_object_from_response parse response (Some missing)) self url parse missing.
Proof.
  intros Hm w. destruct (request_with_retry_url_run self url w) as (n & Hn & Hb & Hrun). exists n, (after_retries (feeder_client self) (client_get url) (Retry_new (client_retry_config (feeder_client self))) n w).
  split_and!; [done|done|done|].
  { rewrite (bind_step _ _ _ _ _ Hrun). destruct (next_answer w n) as [text|err]; cbn [load_object_from_response]; [by destruct (parse text)|].
    pose proof (is_none_error_final err missing Hm) as Hnone. destruct (is_none_error (final_error err) (Some missing)).
    - destruct (proj1 Hnone eq_refl) as (e & -> & Hcode). by rewrite decide_True.
    - destruct err; try done. rewrite decide_False; [done|]. intros Hcode. assert (false = true) by (apply Hnone; by eexists). done. }
Qed.

Context {X : ExternalTypes} {RJ : ReaderJson}.

(** C39: The readers of the feeder gateway, for the blocks, state updates, signatures,
    pending data and classes: each asks for the URL of its object and behaves as
    [reads] says; a class whose hash has no text of at least two characters apart. *)
Theorem gateway_reads self :
  let urls := feeder_urls self in
  (forall n, reads (reader_block self n) self (append_pair (url_get_block urls) BLOCK_NUMBER_QUERY (block_number_to_string n)) parse_Block
    KnownStarknetErrorCode_BlockNotFound) /\
  reads (latest_block self) self (append_pair (url_get_block urls) BLOCK_NUMBER_QUERY LATEST_BLOCK_NUMBER) parse_Block
    KnownStarknetErrorCode_BlockNotFound /\
  (forall n, reads (reader_state_update self n) self (append_pair (url_get_state_update urls) BLOCK_NUMBER_QUERY (block_number_to_string n))
    parse_StateUpdate KnownStarknetErrorCode_BlockNotFound) /\
  (forall n, reads (reader_block_signature self n) self
    (append_pair (url_get_block_signature urls) BLOCK_NUMBER_QUERY (block_number_to_string n)) parse_BlockSignatureData
    KnownStarknetErrorCode_BlockNotFound) /\
  reads (reader_pending_data self) self (url_get_pending_data urls) parse_PendingData KnownStarknetErrorCode_BlockNotFound /\
  (forall h text, class_hash_to_json h = Some text -> (2 <= length text)%nat ->
    let hash := take (length text - 2) (drop 1 text) in
    reads (class_by_hash self h) self (append_pair (url_get_contract_by_hash urls) CLASS_HASH_QUERY hash) parse_GenericContractClass
      KnownStarknetErrorCode_UndeclaredClass /\
    (h ∉ class_hash_from_hex_unchecked <$> MALFORMED_CASM ->
      reads (compiled_class_by_hash self h) self (append_pair (url_get_compiled_class_by_class_hash urls) CLASS_HASH_QUERY hash)
        parse_CasmContractClass KnownStarknetErrorCode_UndeclaredClass)).
Proof.
  cbn zeta. split_and!; intros; try by apply reads_object.
  assert (Hraw : forall w, class_hash_text h w = Done w (take (length text - 2) (drop 1 text))).
  { intros w. unfold class_hash_text, unquoted. rewrite H. cbn [ok_or_raise]. rewrite bind_ret.
    rewrite (proj2 (Nat.ltb_ge _ _)) by done. done. }
  split.
  - intros w. unfold class_by_hash. rewrite (bind_step _ _ _ _ _ (Hraw w)). by apply reads_object.
  - intros Hno w. unfold compiled_class_by_hash. rewrite bool_decide_eq_false_2 by done. rewrite (bind_step _ _ _ _ _ (Hraw w)). by apply reads_object.
Qed.

(** Forwarding a transaction: an error of the gateway reaches the server of the API
    with its code, except that of too many transactions, which is retried and then
    hidden. *)
Lemma writer_error_not_limit {Tx Response} (to_json : Tx -> option rstring) (parse : rstring -> option Response) self tx w w' e :
  add_transaction to_json parse self tx w = Fail w' (WriterClientError_StarknetError e) ->
  StarknetError_code e <> StarknetErrorCode_KnownErrorCode KnownStarknetErrorCode_TransactionLimitExceeded.
Proof.
  unfold add_transaction. destruct (to_json tx) as [body|]; [|done]. cbn [ok_or_raise]. rewrite bind_ret.
  destruct (request_with_retry_run (gateway_client self) (client_post (add_transaction_url self) body) w (post_clones _ _)) as (n & _ & _ & _ & Hrun).
  unfold bind, map_err. rewrite Hrun. destruct (next_answer w n) as [text|err]; [by destruct (parse text)|].
  intros [= _ He]. unfold final_error in He. destruct (get_retry_error_code err) eqn:Er; [done|].
  destruct err as [| | | |[code msg]]; try done. injection He as <-. cbn. intros ->. done.
Qed.
End Theorems.

(** ** Instances, and the theorems at concrete inputs *)

#[local] Instance demo_url : UrlApi := {|
  Url := string * list (rstring * rstring);
  Url_parse s := Some (s, []);
  Url_join u s := Some ((u.1 +:+ s)%string, u.2);
  append_pair u name value := (u.1, u.2 ++ [(name, value)])
|}.

(** The powers of the base, up to the bound. *)
Definition demo_backoff (base max : Z) (n : nat) : list Z := (fun i => Z.min max (base ^ Z.of_nat (S i))) <$> seq 0 n.

Fixpoint demo_retry {E A} (delays : list Z) (action : Requesting E A) (condition : E -> bool) (w : Network) : res Network E A :=
  match delays with
  | [] => action w
  | delay :: delays =>
      match action w with
      | Fail w' e => if condition e then demo_retry delays action condition (sleep delay w') else Fail w' e
      | r => r
      end
  end.

(** The text of an error of the gateway is the name of its code here. *)
#[local] Instance demo_client_crates : ClientCrates := {|
  can_clone _ := true;
  parse_StarknetError text := (fun code => mkStarknetError code []) <$> deserialize_StarknetErrorCode Some text;
  ClientError_to_string _ := [];
  exponential_backoff := demo_backoff;
  RetryIf_spawn := @demo_retry;
  headers_of_map _ := Some [];
  build_client _ := true;
  app_user_agent v := str_bytes v
|}.

#[local] Instance demo_client_crates_spec : ClientCratesSpec.
Proof.
  split; try done.
  - intros base max n. cbn. unfold demo_backoff. by rewrite length_fmap, length_seq.
  - intros base max n. cbn. unfold demo_backoff. apply Forall_fmap, Forall_forall. intros i _. cbn. lia.
Qed.

Definition demo_target (s : string) : Url := (s, []).

Definition demo_client : StarknetClient := mkStarknetClient [] [] (mkRetryConfig 30 100 3).

(** The gateway is overloaded twice and then answers. *)
Definition demo_outcomes (i : nat) : SendOutcome :=
  match i with
  | 0%nat => inl (SERVICE_UNAVAILABLE, inl [])
  | 1%nat => inl (INTERNAL_SERVER_ERROR, inl (str_bytes "StarknetErrorCode.TRANSACTION_LIMIT_EXCEEDED"))
  | 2%nat => inl (OK, inl (str_bytes "yes"))
  | _ => inl (BAD_REQUEST, inl (str_bytes "StarknetErrorCode.BLOCK_NOT_FOUND"))
  end.

Definition demo_network : Network := mkNetwork demo_outcomes [] [].

Lemma request_retried_witness :
  can_clone (client_get (demo_target "u")) = true /\
  exists w', request_with_retry demo_client (client_get (demo_target "u")) demo_network = Done w' (str_bytes "yes") /\
    length (requests_sent w') = 3%nat /\ delays_slept w' = [30; 100].
Proof.
  split; [reflexivity|]. destruct (request_retried demo_client (client_get (demo_target "u")) demo_network) as [Hclone _].
  destruct (Hclone eq_refl) as (n & Hn & Hb & He & w' & Hsent & _ & Hrun). exists w'.
  assert (n = 2%nat) as ->.
  { destruct n as [|[|[|n]]]; [|by destruct He as [He|He]; [destruct He; vm_compute; by eexists|]| |].
    - destruct He as [He|He]; [destruct He; vm_compute; by eexists|done].
    - done.
    - specialize (Hb 2%nat ltac:(lia)). by vm_compute in Hb. }
  split; [exact Hrun|]. split; [rewrite Hsent; reflexivity|].
  assert (Hw : match request_with_retry demo_client (client_get (demo_target "u")) demo_network with Done w _ => delays_slept w | _ => [] end = delays_slept w')
    by (by rewrite Hrun).
  rewrite <-Hw. vm_compute. reflexivity.
Defined.

#[local] Instance demo_external : ExternalTypes := {| Json := unit; Hint := unit |}.

#[local] Instance demo_reader_json : ReaderJson := {|
  parse_Block _ := None; parse_GenericContractClass _ := None; parse_StateUpdate _ := None; parse_CasmContractClass _ := None;
  default_CasmContractClass := mkCasmContractClass 0 [] [] None [] None (mkCasmContractEntryPoints [] [] []);
  parse_PendingData _ := None; parse_BlockSignatureData _ := None; parse_SequencerPublicKey _ := None;
  block_number_to_string _ := str_bytes "7"; class_hash_to_json _ := Some (str_bytes "'0x1'"); class_hash_from_hex_unchecked _ := 0
|}.

Definition demo_feeder : StarknetFeederGatewayClient :=
  mkStarknetFeederGatewayClient (mkStarknetUrls (demo_target "b") (demo_target "c") (demo_target "d") (demo_target "e") (demo_target "f") (demo_target "g") (demo_target "h") (demo_target "i")) demo_client.

(** The block after the last one. *)
Lemma gateway_reads_witness :
  exists w', reader_block demo_feeder 7 (mkNetwork (fun i => demo_outcomes (i + 3)) [] []) = Done w' None /\ length (requests_sent w') = 1%nat.
Proof.
  destruct (gateway_reads demo_feeder) as [Hblock _].
  destruct (Hblock 7 (mkNetwork (fun i => demo_outcomes (i + 3)) [] [])) as (n & w' & _ & Hb & Hsent & Hrun). exists w'.
  assert (n = 0%nat) as -> by (destruct n as [|n]; [done|]; specialize (Hb 0%nat ltac:(lia)); by destruct Hb).
  split; [exact Hrun|]. rewrite Hsent. reflexivity.
Defined.

(** A code with a quote in it is neither known nor unknown. *)
Example quoted_code_refused :
  deserialize_StarknetErrorCode (fun s => if bool_decide (34 ∈ s) then None else Some s) (str_bytes "a" ++ [34] ++ str_bytes "b") = None.
Proof. reflexivity. Qed.

Example known_codes_read :
  forallb (fun e => bool_decide (deserialize_StarknetErrorCode Some (str_bytes e.1) = Some (StarknetErrorCode_KnownErrorCode e.2))) known_codes = true.
Proof. reflexivity. Qed.
