(* ===== verification/Execution.v ===== *)
(** * Execution

    Models [crates/papyrus_execution/src/] ([state_reader.rs], [execution_utils.rs],
    [objects.rs], [lib.rs]) and the methods of
    [crates/papyrus_rpc/src/v0_7/api/api_impl.rs] that execute, with
    [v0_7/execution.rs], [pending.rs] and the conversions of [v0_7/api/mod.rs].

    The blockifier, which runs the transactions, is a parameter: an operation of it is
    a program of state reads ([StateProg]), and what the node contributes, the answers
    to the reads, is modelled. Every read opens a read transaction of its own, so that
    the synchronisation can write between two reads: the storage the [k]-th
    transaction sees is a function of [k]. *)

From stdpp Require Import base gmap list strings fin_maps.
From Stdlib Require Import ZArith Lia.
From S2P Require Import Prelude StorageTables StarknetTypes StorageTxn Header Body State ClientObjects PendingSync ProtoCommon.
From S2P Require Import ProtoTransaction RpcConvert Rpc Hashes Config NodeConfig.

#[local] Open Scope Z_scope.

(** [StateNumber::right_before_block]. *)
Class StateBeforeApi {SN : StateNumberApi} : Type := {
  right_before_block : Z -> StateNumber;
  right_before_spec : forall b, block_after (right_before_block b) = b
}.

(** ** The types of the blockifier and the VM *)

Class BlockifierTypes {X : ExternalTypes} : Type := {
  ProgramError : Type;
  ContractClassV0 : Type;
  ContractClassV1 : Type;
  ContractClassV0_try_from : DeprecatedContractClass -> ContractClassV0 + ProgramError;
  ContractClassV1_try_from : CasmContractClass -> ContractClassV1 + ProgramError;
  program_error_to_string : ProgramError -> rstring;
  VersionedConstants : Type;
  latest_constants : VersionedConstants;
  (** [VersionedConstants::try_from(path)]; [None]: an error. *)
  versioned_constants_of_file : string -> option VersionedConstants;
  (** The [anyhow::Error] of an error. *)
  BlockifierError : Type;
  BlockifierError_of_program_error : ProgramError -> BlockifierError;
  blockifier_error_to_string : BlockifierError -> rstring;
  (** [ContractClassError]. *)
  ContractClassError : Type
}.

Inductive BlockifierCallType : Type := BlockifierCallType_Call | BlockifierCallType_Delegate.

Record CallEntryPoint : Type := mkCallEntryPoint {
  CallEntryPoint_class_hash : option Z;
  CallEntryPoint_code_address : option Z;
  CallEntryPoint_entry_point_type : DeprecatedEntryPointType;
  CallEntryPoint_entry_point_selector : Z;
  CallEntryPoint_calldata : list Z;
  CallEntryPoint_storage_address : Z;
  CallEntryPoint_caller_address : Z;
  CallEntryPoint_call_type : BlockifierCallType;
  CallEntryPoint_initial_gas : Z
}.

Inductive BuiltinName : Type :=
| BuiltinName_output
| BuiltinName_range_check
| BuiltinName_pedersen
| BuiltinName_ecdsa
| BuiltinName_keccak
| BuiltinName_bitwise
| BuiltinName_ec_op
| BuiltinName_poseidon
| BuiltinName_segment_arena
| BuiltinName_range_check96
| BuiltinName_add_mod
| BuiltinName_mul_mod.

(** The counter is a map: the list of its entries, in the order it is iterated in. *)
Record VmExecutionResources : Type := mkVmExecutionResources {
  VmExecutionResources_n_steps : Z;
  VmExecutionResources_builtin_instance_counter : list (BuiltinName * Z);
  VmExecutionResources_n_memory_holes : Z
}.

Record BlockifierOrderedEvent : Type := mkBlockifierOrderedEvent {
  BlockifierOrderedEvent_order : Z;
  BlockifierOrderedEvent_event : EventContent
}.

(** A message with its address and its payload. *)
Record BlockifierOrderedL2ToL1Message : Type := mkBlockifierOrderedL2ToL1Message {
  BlockifierOrderedL2ToL1Message_order : Z;
  BlockifierOrderedL2ToL1Message_to_address : EthAddress;
  BlockifierOrderedL2ToL1Message_payload : list Z
}.

Record CallExecution : Type := mkCallExecution {
  CallExecution_retdata : list Z;
  CallExecution_events : list BlockifierOrderedEvent;
  CallExecution_l2_to_l1_messages : list BlockifierOrderedL2ToL1Message
}.

Inductive CallInfo : Type := mkCallInfo {
  CallInfo_call : CallEntryPoint;
  CallInfo_execution : CallExecution;
  CallInfo_resources : VmExecutionResources;
  CallInfo_inner_calls : list CallInfo
}.

(** [TransactionReceipt] of the blockifier; the gas is in [u128]. *)
Record BlockifierReceipt : Type := mkBlockifierReceipt {
  BlockifierReceipt_fee : Z;
  BlockifierReceipt_gas : GasVector;
  BlockifierReceipt_da_gas : GasVector
}.

Record TransactionExecutionInfo : Type := mkTransactionExecutionInfo {
  TransactionExecutionInfo_validate_call_info : option CallInfo;
  TransactionExecutionInfo_execute_call_info : option CallInfo;
  TransactionExecutionInfo_fee_transfer_call_info : option CallInfo;
  TransactionExecutionInfo_revert_error : option rstring;
  TransactionExecutionInfo_transaction_receipt : BlockifierReceipt
}.

Record CommitmentStateDiff : Type := mkCommitmentStateDiff {
  CommitmentStateDiff_address_to_class_hash : list (Z * Z);
  CommitmentStateDiff_address_to_nonce : list (Z * Z);
  CommitmentStateDiff_storage_updates : list (Z * list (Z * Z));
  CommitmentStateDiff_class_hash_to_compiled_class_hash : list (Z * Z)
}.

Record GasPrices : Type := mkGasPrices {
  eth_l1_gas_price : Z;
  strk_l1_gas_price : Z;
  eth_l1_data_gas_price : Z;
  strk_l1_data_gas_price : Z
}.

Record BlockInfo : Type := mkBlockInfo {
  BlockInfo_block_number : Z;
  BlockInfo_block_timestamp : Z;
  BlockInfo_sequencer_address : Z;
  BlockInfo_gas_prices : GasPrices;
  BlockInfo_use_kzg_da : bool
}.

Section Types.
Context {X : ExternalTypes} {BT : BlockifierTypes}.

Inductive BlockifierContractClass : Type :=
| BlockifierContractClass_V0 (class : ContractClassV0)
| BlockifierContractClass_V1 (class : ContractClassV1).

Inductive StateError : Type :=
| StateError_UndeclaredClassHash (class_hash : Z)
| StateError_ProgramError (e : ProgramError)
| StateError_StateReadError
| StateError_Other.

(** ** What the blockifier asks of the state ([BlockifierStateReader]) *)

Inductive StateQuery : Type :=
| Query_storage_at (contract_address key : Z)
| Query_nonce_at (contract_address : Z)
| Query_class_hash_at (contract_address : Z)
| Query_compiled_contract_class (class_hash : Z)
| Query_compiled_class_hash (class_hash : Z).

Definition Answer (query : StateQuery) : Type :=
  match query with Query_compiled_contract_class _ => BlockifierContractClass | _ => Z end.

Inductive StateProg (A : Type) : Type :=
| Prog_ret (a : A)
| Prog_read (query : StateQuery) (k : Answer query + StateError -> StateProg A)
| Prog_panic.
End Types.

Arguments Prog_ret {X BT A} a.
Arguments Prog_read {X BT A} query k.
Arguments Prog_panic {X BT A}.

(** ** Data of the execution ([lib.rs], [objects.rs]) *)

Section Data.
Context {X : ExternalTypes} {SN : StateNumberApi} {BT : BlockifierTypes} {HC : HashCrates}.

Inductive ExecutionError : Type :=
| ExecutionError_BadDeclareTransaction (tx : DeclareTransaction) (err : ContractClassError)
| ExecutionError_ConfigContentError
| ExecutionError_ConfigFileError
| ExecutionError_ConfigSerdeError
| ExecutionError_ContractError (e : BlockifierError)
| ExecutionError_ContractNotFound (contract_address : Z) (state_number : StateNumber)
| ExecutionError_GasConsumedOutOfRange
| ExecutionError_MissingClassHash
| ExecutionError_MissingCompiledClass (class_hash : Z)
| ExecutionError_StateError (e : StateError)
| ExecutionError_StorageError (e : StorageError)
| ExecutionError_TransactionFeeError
| ExecutionError_TransactionExecutionError (transaction_index : Z) (execution_error : rstring)
| ExecutionError_TransactionHashCalculationFailed (e : StarknetApiError)
| ExecutionError_UnknownBuiltin (builtin_name : BuiltinName).

Inductive ExecutionUtilsError : Type :=
| ExecutionUtilsError_ProgramError (e : ProgramError)
| ExecutionUtilsError_StorageError (e : StorageError)
| ExecutionUtilsError_CasmTableNotSynced.

(** The last component is the only-query bit. *)
Inductive ExecutableTransactionInput : Type :=
| ExecutableTransactionInput_Invoke (tx : InvokeTransaction) (only_query : bool)
| ExecutableTransactionInput_DeclareV0 (tx : DeclareTransactionV0V1) (class : DeprecatedContractClass) (abi_size : Z) (only_query : bool)
| ExecutableTransactionInput_DeclareV1 (tx : DeclareTransactionV0V1) (class : DeprecatedContractClass) (abi_size : Z) (only_query : bool)
| ExecutableTransactionInput_DeclareV2 (tx : DeclareTransactionV2) (class : CasmContractClass) (sierra_size abi_size : Z) (only_query : bool)
| ExecutableTransactionInput_DeclareV3 (tx : DeclareTransactionV3) (class : CasmContractClass) (sierra_size abi_size : Z) (only_query : bool)
| ExecutableTransactionInput_DeployAccount (tx : DeployAccountTransaction) (only_query : bool)
| ExecutableTransactionInput_L1Handler (tx : L1HandlerTransaction) (fee : Z) (only_query : bool).
End Data.

Record RevertedTransaction : Type := mkRevertedTransaction {
  RevertedTransaction_index : Z;
  RevertedTransaction_revert_reason : rstring
}.

Record FeeEstimation : Type := mkFeeEstimation {
  FeeEstimation_gas_consumed : Z;
  FeeEstimation_gas_price : Z;
  FeeEstimation_data_gas_consumed : Z;
  FeeEstimation_data_gas_price : Z;
  FeeEstimation_overall_fee : Z;
  FeeEstimation_unit : PriceUnit
}.

Inductive CallType : Type := CallType_Call | CallType_LibraryCall.

Record OrderedEvent : Type := mkOrderedEvent { OrderedEvent_order : Z; OrderedEvent_event : EventContent }.

Record OrderedL2ToL1Message : Type := mkOrderedL2ToL1Message {
  OrderedL2ToL1Message_order : Z;
  OrderedL2ToL1Message_message : MessageToL1
}.

Record FunctionCall : Type := mkFunctionCall {
  FunctionCall_contract_address : Z;
  FunctionCall_entry_point_selector : Z;
  FunctionCall_calldata : list Z
}.

(** The trace of a call. The resources are those of [starknet_api] in the execution
    and [ComputationResources] in the answers of the server ([v0_7/execution.rs]),
    the only difference between the two types. *)
Inductive FunctionInvocation (R : Type) : Type := mkFunctionInvocation {
  FunctionInvocation_function_call : FunctionCall;
  FunctionInvocation_caller_address : Z;
  FunctionInvocation_class_hash : Z;
  FunctionInvocation_entry_point_type : DeprecatedEntryPointType;
  FunctionInvocation_call_type : CallType;
  FunctionInvocation_result : list Z;
  FunctionInvocation_calls : list (FunctionInvocation R);
  FunctionInvocation_events : list OrderedEvent;
  FunctionInvocation_messages : list OrderedL2ToL1Message;
  FunctionInvocation_execution_resources : R
}.

Arguments mkFunctionInvocation {R}.
Arguments FunctionInvocation_function_call {R}.
Arguments FunctionInvocation_caller_address {R}.
Arguments FunctionInvocation_class_hash {R}.
Arguments FunctionInvocation_entry_point_type {R}.
Arguments FunctionInvocation_call_type {R}.
Arguments FunctionInvocation_result {R}.
Arguments FunctionInvocation_calls {R}.
Arguments FunctionInvocation_events {R}.
Arguments FunctionInvocation_messages {R}.
Arguments FunctionInvocation_execution_resources {R}.

Abbreviation ExecInvocation := (FunctionInvocation ExecutionResources).
Abbreviation RpcInvocation := (FunctionInvocation ComputationResources).

Inductive FunctionInvocationResult (R : Type) : Type :=
| FunctionInvocationResult_Ok (invocation : FunctionInvocation R)
| FunctionInvocationResult_Err (revert_reason : rstring).

Arguments FunctionInvocationResult_Ok {R}.
Arguments FunctionInvocationResult_Err {R}.

Record InvokeTransactionTrace : Type := mkInvokeTransactionTrace {
  InvokeTransactionTrace_validate_invocation : option ExecInvocation;
  InvokeTransactionTrace_execute_invocation : FunctionInvocationResult ExecutionResources;
  InvokeTransactionTrace_fee_transfer_invocation : option ExecInvocation
}.

Record DeclareTransactionTrace : Type := mkDeclareTransactionTrace {
  DeclareTransactionTrace_validate_invocation : option ExecInvocation;
  DeclareTransactionTrace_fee_transfer_invocation : option ExecInvocation
}.

Record DeployAccountTransactionTrace : Type := mkDeployAccountTransactionTrace {
  DeployAccountTransactionTrace_validate_invocation : option ExecInvocation;
  DeployAccountTransactionTrace_constructor_invocation : ExecInvocation;
  DeployAccountTransactionTrace_fee_transfer_invocation : option ExecInvocation
}.

Record L1HandlerTransactionTrace : Type := mkL1HandlerTransactionTrace {
  L1HandlerTransactionTrace_function_invocation : ExecInvocation
}.

Inductive TransactionTrace : Type :=
| TransactionTrace_L1Handler (trace : L1HandlerTransactionTrace)
| TransactionTrace_Invoke (trace : InvokeTransactionTrace)
| TransactionTrace_Declare (trace : DeclareTransactionTrace)
| TransactionTrace_DeployAccount (trace : DeployAccountTransactionTrace).

Record TransactionSimulationOutput : Type := mkTransactionSimulationOutput {
  TransactionSimulationOutput_transaction_trace : TransactionTrace;
  TransactionSimulationOutput_induced_state_diff : ThinStateDiff;
  TransactionSimulationOutput_fee_estimation : FeeEstimation
}.

Record TransactionExecutionOutput : Type := mkTransactionExecutionOutput {
  TransactionExecutionOutput_execution_info : TransactionExecutionInfo;
  TransactionExecutionOutput_induced_state_diff : ThinStateDiff;
  TransactionExecutionOutput_price_unit : PriceUnit
}.

(** [papyrus_execution::objects::PendingData]. *)
Record ExecutionPendingData {X : ExternalTypes} : Type := mkExecutionPendingData {
  ExecutionPendingData_storage_diffs : list (Z * list StorageEntry);
  ExecutionPendingData_deployed_contracts : list DeployedContract;
  ExecutionPendingData_declared_classes : list DeclaredClassHashEntry;
  ExecutionPendingData_old_declared_contracts : list Z;
  ExecutionPendingData_nonces : list (Z * Z);
  ExecutionPendingData_replaced_classes : list ReplacedClass;
  ExecutionPendingData_timestamp : Z;
  ExecutionPendingData_l1_gas_price : GasPricePerToken;
  ExecutionPendingData_l1_data_gas_price : GasPricePerToken;
  ExecutionPendingData_l1_da_mode : L1DataAvailabilityMode;
  ExecutionPendingData_sequencer : Z;
  ExecutionPendingData_classes : PendingClasses
}.

(** [sorted_by_key]: stable. *)
Fixpoint insert_by_key {A} (key : A -> Z) (x : A) (l : list A) : list A :=
  match l with
  | [] => [x]
  | y :: l' => if key x <=? key y then x :: l else y :: insert_by_key key x l'
  end.

Definition sort_by_key {A} (key : A -> Z) (l : list A) : list A := foldr (insert_by_key key) [] l.

(** ** Traces ([objects.rs]) *)

Section Traces.
Context {X : ExternalTypes} {SN : StateNumberApi} {BT : BlockifierTypes} {HC : HashCrates} {S : Type}.

Abbreviation ExecutionResult := (M S ExecutionError).

Definition CallType_from (call_type : BlockifierCallType) : CallType :=
  match call_type with
  | BlockifierCallType_Call => CallType_Call
  | BlockifierCallType_Delegate => CallType_LibraryCall
  end.

Definition OrderedEvent_from (ordered_event : BlockifierOrderedEvent) : OrderedEvent :=
  mkOrderedEvent (BlockifierOrderedEvent_order ordered_event) (BlockifierOrderedEvent_event ordered_event).

Definition OrderedL2ToL1Message_from (blockifier_message : BlockifierOrderedL2ToL1Message) (from_address : Z) : OrderedL2ToL1Message := {|
  OrderedL2ToL1Message_order := BlockifierOrderedL2ToL1Message_order blockifier_message;
  OrderedL2ToL1Message_message := {|
    MessageToL1_to_address := BlockifierOrderedL2ToL1Message_to_address blockifier_message;
    MessageToL1_payload := BlockifierOrderedL2ToL1Message_payload blockifier_message;
    MessageToL1_from_address := from_address |}
|}.

(** The builtin that is counted; [None]: it is passed over. *)
Definition counted_builtin (builtin_name : BuiltinName) : ExecutionResult (option Builtin) :=
  match builtin_name with
  | BuiltinName_output => ret None
  | BuiltinName_pedersen => ret (Some Builtin_Pedersen)
  | BuiltinName_range_check => ret (Some Builtin_RangeCheck)
  | BuiltinName_ecdsa => ret (Some Builtin_Ecdsa)
  | BuiltinName_bitwise => ret (Some Builtin_Bitwise)
  | BuiltinName_ec_op => ret (Some Builtin_EcOp)
  | BuiltinName_keccak => ret (Some Builtin_Keccak)
  | BuiltinName_poseidon => ret (Some Builtin_Poseidon)
  | BuiltinName_segment_arena => ret (Some Builtin_SegmentArena)
  | BuiltinName_range_check96 | BuiltinName_add_mod | BuiltinName_mul_mod => raise (ExecutionError_UnknownBuiltin builtin_name)
  end.

Fixpoint count_builtins (counter : list (BuiltinName * Z)) (builtin_instance_counter : gmap Builtin Z) : ExecutionResult (gmap Builtin Z) :=
  match counter with
  | [] => ret builtin_instance_counter
  | (builtin_name, count) :: counter =>
      if count =? 0 then count_builtins counter builtin_instance_counter
      else
        let! builtin := counted_builtin builtin_name in
        count_builtins counter
          (match builtin with Some builtin => <[builtin := count]> builtin_instance_counter | None => builtin_instance_counter end)
  end.

(** [u128] to [u64]. *)
Definition gas_try_into (gas : Z) : ExecutionResult Z :=
  if gas <? 2 ^ 64 then ret gas else raise ExecutionError_GasConsumedOutOfRange.

Definition vm_resources_to_execution_resources (vm_resources : VmExecutionResources) (gas : GasVector) : ExecutionResult ExecutionResources :=
  let! builtin_instance_counter := count_builtins (VmExecutionResources_builtin_instance_counter vm_resources) ∅ in
  let! l1_gas := gas_try_into (GasVector_l1_gas gas) in
  let! l1_data_gas := gas_try_into (GasVector_l1_data_gas gas) in
  ret {|
    ExecutionResources_steps := VmExecutionResources_n_steps vm_resources;
    ExecutionResources_builtin_instance_counter := builtin_instance_counter;
    ExecutionResources_memory_holes := VmExecutionResources_n_memory_holes vm_resources;
    ExecutionResources_da_gas_consumed := mkGasVector l1_gas l1_data_gas;
    ExecutionResources_gas_consumed := mkGasVector 0 0
  |}.

Fixpoint FunctionInvocation_try_from (call_info : CallInfo) (gas_vector : GasVector) : ExecutionResult ExecInvocation :=
  match call_info with
  | mkCallInfo call execution resources inner_calls =>
      let! class_hash := ok_or_raise ExecutionError_MissingClassHash (CallEntryPoint_class_hash call) in
      let! calls :=
        (fix try_calls (l : list CallInfo) : ExecutionResult (list ExecInvocation) :=
           match l with
           | [] => ret []
           | inner :: l =>
               let! invocation := FunctionInvocation_try_from inner gas_vector in
               let! invocations := try_calls l in
               ret (invocation :: invocations)
           end) inner_calls in
      let! execution_resources := vm_resources_to_execution_resources resources gas_vector in
      ret {|
        FunctionInvocation_function_call := {|
          FunctionCall_contract_address := CallEntryPoint_storage_address call;
          FunctionCall_entry_point_selector := CallEntryPoint_entry_point_selector call;
          FunctionCall_calldata := CallEntryPoint_calldata call |};
        FunctionInvocation_caller_address := CallEntryPoint_caller_address call;
        FunctionInvocation_class_hash := class_hash;
        FunctionInvocation_entry_point_type := CallEntryPoint_entry_point_type call;
        FunctionInvocation_call_type := CallType_from (CallEntryPoint_call_type call);
        FunctionInvocation_result := CallExecution_retdata execution;
        FunctionInvocation_calls := calls;
        FunctionInvocation_events := OrderedEvent_from <$> sort_by_key BlockifierOrderedEvent_order (CallExecution_events execution);
        FunctionInvocation_messages :=
          (fun ordered_message => OrderedL2ToL1Message_from ordered_message (CallEntryPoint_storage_address call))
            <$> sort_by_key BlockifierOrderedL2ToL1Message_order (CallExecution_l2_to_l1_messages execution);
        FunctionInvocation_execution_resources := execution_resources
      |}
  end.

(** [match call_info { None => None, Some(call_info) => Some((call_info, gas).try_into()?) }]. *)
Definition optional_invocation (call_info : option CallInfo) (gas : GasVector) : ExecutionResult (option ExecInvocation) :=
  match call_info with
  | None => ret None
  | Some call_info =>
      let! invocation := FunctionInvocation_try_from call_info gas in
      ret (Some invocation)
  end.

Definition da_gas_of (info : TransactionExecutionInfo) : GasVector :=
  BlockifierReceipt_da_gas (TransactionExecutionInfo_transaction_receipt info).

Definition InvokeTransactionTrace_try_from (info : TransactionExecutionInfo) : ExecutionResult InvokeTransactionTrace :=
  let! execute_invocation :=
    match TransactionExecutionInfo_revert_error info with
    | Some revert_error => ret (FunctionInvocationResult_Err revert_error)
    | None =>
        let! call_info := expect (TransactionExecutionInfo_execute_call_info info) in
        let! invocation := FunctionInvocation_try_from call_info (da_gas_of info) in
        ret (FunctionInvocationResult_Ok invocation)
    end in
  let! validate_invocation := optional_invocation (TransactionExecutionInfo_validate_call_info info) (da_gas_of info) in
  let! fee_transfer_invocation := optional_invocation (TransactionExecutionInfo_fee_transfer_call_info info) (da_gas_of info) in
  ret (mkInvokeTransactionTrace validate_invocation execute_invocation fee_transfer_invocation).

Definition DeclareTransactionTrace_try_from (info : TransactionExecutionInfo) : ExecutionResult DeclareTransactionTrace :=
  let! validate_invocation := optional_invocation (TransactionExecutionInfo_validate_call_info info) (da_gas_of info) in
  let! fee_transfer_invocation := optional_invocation (TransactionExecutionInfo_fee_transfer_call_info info) (da_gas_of info) in
  ret (mkDeclareTransactionTrace validate_invocation fee_transfer_invocation).

Definition DeployAccountTransactionTrace_try_from (info : TransactionExecutionInfo) : ExecutionResult DeployAccountTransactionTrace :=
  let! validate_invocation := optional_invocation (TransactionExecutionInfo_validate_call_info info) (da_gas_of info) in
  let! call_info := expect (TransactionExecutionInfo_execute_call_info info) in
  let! constructor_invocation := FunctionInvocation_try_from call_info (da_gas_of info) in
  let! fee_transfer_invocation := optional_invocation (TransactionExecutionInfo_fee_transfer_call_info info) (da_gas_of info) in
  ret (mkDeployAccountTransactionTrace validate_invocation constructor_invocation fee_transfer_invocation).

Definition L1HandlerTransactionTrace_try_from (info : TransactionExecutionInfo) : ExecutionResult L1HandlerTransactionTrace :=
  let! call_info := expect (TransactionExecutionInfo_execute_call_info info) in
  let! function_invocation := FunctionInvocation_try_from call_info (da_gas_of info) in
  ret (mkL1HandlerTransactionTrace function_invocation).

Definition get_trace_constructor (tx : ExecutableTransactionInput) (execution_info : TransactionExecutionInfo) : ExecutionResult TransactionTrace :=
  match tx with
  | ExecutableTransactionInput_Invoke _ _ =>
      let! trace := InvokeTransactionTrace_try_from execution_info in ret (TransactionTrace_Invoke trace)
  | ExecutableTransactionInput_DeclareV0 _ _ _ _
  | ExecutableTransactionInput_DeclareV1 _ _ _ _
  | ExecutableTransactionInput_DeclareV2 _ _ _ _ _
  | ExecutableTransactionInput_DeclareV3 _ _ _ _ _ =>
      let! trace := DeclareTransactionTrace_try_from execution_info in ret (TransactionTrace_Declare trace)
  | ExecutableTransactionInput_DeployAccount _ _ =>
      let! trace := DeployAccountTransactionTrace_try_from execution_info in ret (TransactionTrace_DeployAccount trace)
  | ExecutableTransactionInput_L1Handler _ _ _ =>
      let! trace := L1HandlerTransactionTrace_try_from execution_info in ret (TransactionTrace_L1Handler trace)
  end.
End Traces.

(** ** The operations of the blockifier *)

(** [ChainInfo] and [BlockContext]; the bouncer configuration of a context is always
    [BouncerConfig::max()]. *)
Record ChainInfo {HC : HashCrates} {JN : JsonNumberApi} {NT : NodeTypes} : Type := mkChainInfo {
  ChainInfo_chain_id : ChainId;
  ChainInfo_strk_fee_token_address : NodeAddress;
  ChainInfo_eth_fee_token_address : NodeAddress
}.

Record BlockContext {X : ExternalTypes} {BT : BlockifierTypes} {HC : HashCrates} {JN : JsonNumberApi} {NT : NodeTypes} : Type :=
  mkBlockContext {
    BlockContext_block_info : BlockInfo;
    BlockContext_chain_info : ChainInfo;
    BlockContext_versioned_constants : VersionedConstants
  }.

Arguments mkBlockContext {X BT HC JN NT}.

Class Blockifier {X : ExternalTypes} {BT : BlockifierTypes} {HC : HashCrates} {JN : JsonNumberApi} {NT : NodeTypes} : Type := {
  (** The writes of a [CachedState] over its reader, and those of a transaction over
      them. *)
  CachedState : Type;
  TransactionalState : Type;
  CachedState_new : CachedState;
  create_transactional : CachedState -> TransactionalState;
  commit : TransactionalState -> CachedState;
  (** [get_class_hash_at] of the state below the transaction. *)
  parent_class_hash_at : Z -> TransactionalState -> StateProg (TransactionalState * (Z + StateError));
  (** [CommitmentStateDiff::from(to_state_diff()?)]. *)
  to_state_diff : TransactionalState -> StateProg (TransactionalState * (CommitmentStateDiff + StateError));
  (** Blocks, transactions and calls. *)
  pre_process_block : option (Z * Z) -> Z -> CachedState -> StateProg (CachedState * option StateError);
  BlockifierTransaction : Type;
  BlockifierTransactionExecutionError : Type;
  transaction_error_to_string : BlockifierTransactionExecutionError -> rstring;
  ClassInfo : Type;
  ClassInfo_new : BlockifierContractClass -> Z -> Z -> ClassInfo + ContractClassError;
  from_api : Transaction -> Z -> option ClassInfo -> option Z -> option Z -> bool ->
    BlockifierTransaction + BlockifierTransactionExecutionError;
  transaction_execute : BlockifierTransaction -> BlockContext -> bool -> bool -> TransactionalState ->
    StateProg (TransactionalState * (TransactionExecutionInfo + BlockifierTransactionExecutionError));
  EntryPointExecutionContext : Type;
  (** [new_invoke] of the context with the default deprecated transaction info. *)
  new_invoke : BlockContext -> bool -> EntryPointExecutionContext + BlockifierError;
  entry_point_execute : CallEntryPoint -> EntryPointExecutionContext -> CachedState ->
    StateProg (CachedState * (CallInfo + BlockifierError));
  BlockifierError_of_state_error : StateError -> BlockifierError
}.

Section Execution.
Context {BN : BlockNumberApi} {SN : StateNumberApi} {X : ExternalTypes} {SF : StorageFiles} {HS : HashSetIter}.
Context {SB : StarknetBlockApi} {SA : StateBeforeApi} {F : FeltApi} {TA : TransactionApi} {RC : RpcCrates} {HC : HashCrates}.
Context {JN : JsonNumberApi} {NT : NodeTypes} {BT : BlockifierTypes} {BF : Blockifier}.

(** ** The storage during an execution *)

(** [snapshot_at k]: what the [k]-th read transaction sees. The cell belongs to the
    state reader of the execution. *)
Record World : Type := mkWorld {
  snapshot_at : nat -> StorageTxn;
  transactions_begun : nat;
  missing_compiled_class : option Z
}.

(** [storage_reader.begin_ro_txn()?]. *)
Definition begin_ro_txn {E} : M World E StorageTxn := fun w =>
  Done (mkWorld (snapshot_at w) (S (transactions_begun w)) (missing_compiled_class w)) (snapshot_at w (transactions_begun w)).

(** A computation on a read transaction that is open. *)
Definition on_txn {E A} (txn : StorageTxn) (m : M StorageTxn E A) : M World E A := fun w =>
  match m txn with
  | Done _ a => Done w a
  | Fail _ e => Fail w e
  | Panic => Panic
  end.

Definition set_missing {E} (missing : option Z) : M World E unit := fun w =>
  Done (mkWorld (snapshot_at w) (transactions_begun w) missing) tt.

(** ** The state reader ([state_reader.rs]) *)

Record ExecutionStateReader : Type := mkExecutionStateReader {
  reader_state_number : StateNumber;
  reader_maybe_pending_data : option ExecutionPendingData
}.

Definition storage_err_to_state_err (err : StorageError) : StateError := StateError_StateReadError.

(** [begin_ro_txn()?] and a read on it. *)
Definition read_storage {A} (m : Txn A) : M World StateError A :=
  let! txn := begin_ro_txn in
  map_err storage_err_to_state_err (on_txn txn m).

Definition state_get_storage_at (self : ExecutionStateReader) (contract_address key : Z) : M World StateError Z :=
  read_storage (exec_get_storage_at (reader_state_number self)
    (ExecutionPendingData_storage_diffs <$> reader_maybe_pending_data self) contract_address key).

Definition state_get_nonce_at (self : ExecutionStateReader) (contract_address : Z) : M World StateError Z :=
  let! nonce := read_storage (exec_get_nonce_at (reader_state_number self)
    (ExecutionPendingData_nonces <$> reader_maybe_pending_data self) contract_address) in
  ret (default 0 nonce).

(** What the readers of the class hash look at. *)
Definition pending_contracts (maybe_pending_data : option ExecutionPendingData) : option (list DeployedContract * list ReplacedClass) :=
  (fun pending_data => (ExecutionPendingData_deployed_contracts pending_data, ExecutionPendingData_replaced_classes pending_data))
    <$> maybe_pending_data.

Definition state_get_class_hash_at (self : ExecutionStateReader) (contract_address : Z) : M World StateError Z :=
  let! class_hash := read_storage (exec_get_class_hash_at (reader_state_number self)
    (pending_contracts (reader_maybe_pending_data self)) contract_address) in
  ret (default 0 class_hash).

(** [get_contract_class] of [execution_utils.rs]. *)
Definition class_v1 (casm : CasmContractClass) : BlockifierContractClass + ProgramError :=
  match ContractClassV1_try_from casm with inl class => inl (BlockifierContractClass_V1 class) | inr e => inr e end.

Definition class_v0 (class : DeprecatedContractClass) : BlockifierContractClass + ProgramError :=
  match ContractClassV0_try_from class with inl class => inl (BlockifierContractClass_V0 class) | inr e => inr e end.

Definition try_from_result {S E E' A} (f : E -> E') (r : A + E) : M S E' A :=
  match r with inl a => ret a | inr e => raise (f e) end.

Definition get_contract_class (class_hash : Z) (state_number : StateNumber) : M StorageTxn ExecutionUtilsError (option BlockifierContractClass) :=
  let! declared := map_err ExecutionUtilsError_StorageError (get_class_definition_block_number class_hash) in
  match declared with
  | Some block_number =>
      if is_before state_number block_number then ret None
      else
        let! casm := map_err ExecutionUtilsError_StorageError (get_casm class_hash) in
        match casm with
        | None => raise ExecutionUtilsError_CasmTableNotSynced
        | Some casm =>
            let! class := try_from_result ExecutionUtilsError_ProgramError (class_v1 casm) in
            ret (Some class)
        end
  | None =>
      let! deprecated_class := map_err ExecutionUtilsError_StorageError (get_deprecated_class_definition_at state_number class_hash) in
      match deprecated_class with
      | None => ret None
      | Some deprecated_class =>
          let! class := try_from_result ExecutionUtilsError_ProgramError (class_v0 deprecated_class) in
          ret (Some class)
      end
  end.

Definition state_get_compiled_contract_class (self : ExecutionStateReader) (class_hash : Z) : M World StateError BlockifierContractClass :=
  let pending_casm := pending_data ← reader_maybe_pending_data self;
                      pending_get_compiled_class (ExecutionPendingData_classes pending_data) class_hash in
  let pending_class := pending_data ← reader_maybe_pending_data self;
                       pending_get_class (ExecutionPendingData_classes pending_data) class_hash in
  match pending_casm, pending_class with
  | Some pending_casm, _ => try_from_result StateError_ProgramError (class_v1 pending_casm)
  | None, Some (ApiContractClass_DeprecatedContractClass pending_deprecated_class) =>
      try_from_result StateError_ProgramError (class_v0 pending_deprecated_class)
  | None, _ =>
      let! txn := begin_ro_txn in
      fun w =>
      match on_txn txn (get_contract_class class_hash (reader_state_number self)) w with
      | Done w (Some contract_class) => Done w contract_class
      | Done w None => Fail w (StateError_UndeclaredClassHash class_hash)
      | Fail w ExecutionUtilsError_CasmTableNotSynced =>
          (set_missing (Some class_hash) ;! raise StateError_StateReadError) w
      | Fail w (ExecutionUtilsError_ProgramError err) => Fail w (StateError_ProgramError err)
      | Fail w (ExecutionUtilsError_StorageError err) => Fail w (storage_err_to_state_err err)
      | Panic => Panic
      end
  end.

Definition find_declared (class_hash : Z) (declared_classes : list DeclaredClassHashEntry) : option Z :=
  (fun e => DeclaredClassHashEntry_compiled_class_hash e.2)
    <$> list_find (fun e => class_hash = DeclaredClassHashEntry_class_hash e) declared_classes.

Definition state_get_compiled_class_hash (self : ExecutionStateReader) (class_hash : Z) : M World StateError Z :=
  match (pending_data ← reader_maybe_pending_data self;
         find_declared class_hash (ExecutionPendingData_declared_classes pending_data)) with
  | Some compiled_class_hash => ret compiled_class_hash
  | None =>
      let! declared := read_storage (get_class_definition_block_number class_hash) in
      let! block_number := ok_or_raise (StateError_UndeclaredClassHash class_hash) declared in
      let! found := read_storage (get_state_diff block_number) in
      let! state_diff := ok_or_raise StateError_StateReadError found in
      ok_or_raise StateError_StateReadError
        (snd <$> (snd <$> list_find (fun e => e.1 = class_hash) (ThinStateDiff_declared_classes state_diff)))
  end.

(** Answering a read of the blockifier, and running one of its programs. *)
Definition answer (self : ExecutionStateReader) (query : StateQuery) : M World StateError (Answer query) :=
  match query with
  | Query_storage_at contract_address key => state_get_storage_at self contract_address key
  | Query_nonce_at contract_address => state_get_nonce_at self contract_address
  | Query_class_hash_at contract_address => state_get_class_hash_at self contract_address
  | Query_compiled_contract_class class_hash => state_get_compiled_contract_class self class_hash
  | Query_compiled_class_hash class_hash => state_get_compiled_class_hash self class_hash
  end.

Fixpoint run_prog {E A} (self : ExecutionStateReader) (p : StateProg A) : M World E A := fun w =>
  match p with
  | Prog_ret a => Done w a
  | Prog_read query k =>
      match answer self query w with
      | Done w a => run_prog self (k (inl a)) w
      | Fail w e => run_prog self (k (inr e)) w
      | Panic => Panic
      end
  | Prog_panic => Panic
  end.

(** ** Blocks and transactions ([lib.rs]) *)

Abbreviation ExecutionResult := (M World ExecutionError).

(** [begin_ro_txn()?] and a read on it. *)
Definition exec_read {A} (m : Txn A) : ExecutionResult A :=
  let! txn := begin_ro_txn in
  map_err ExecutionError_StorageError (on_txn txn m).

Definition verify_contract_exists (contract_address : Z) (state_number : StateNumber) (maybe_pending_data : option ExecutionPendingData) :
    ExecutionResult unit :=
  let! class_hash := exec_read (exec_get_class_hash_at state_number (pending_contracts maybe_pending_data) contract_address) in
  let! _ := ok_or_raise (ExecutionError_ContractNotFound contract_address state_number) class_hash in
  ret tt.

Definition get_10_blocks_ago (block_number : Z) : ExecutionResult (option (Z * Z)) :=
  if block_number <? 10 then ret None
  else
    let block_min_10 := block_number - 10 in
    let! header := exec_read (get_block_header block_min_10) in
    match header with
    | None => ret None
    | Some header_10_blocks_ago =>
        ret (Some (BlockHeader_block_number header_10_blocks_ago, BlockHeader_block_hash header_10_blocks_ago))
    end.

Definition STARKNET_VERSION_O_13_0 : rstring := str_bytes "0.13.0".
Definition STARKNET_VERSION_O_13_1 : rstring := str_bytes "0.13.1".

(** The two files are read when they are first used; a malformed one panics. *)
Definition VERSIONED_CONSTANTS_13_0 : ExecutionResult VersionedConstants :=
  expect (versioned_constants_of_file "./resources/versioned_constants_13_0.json").
Definition VERSIONED_CONSTANTS_13_1 : ExecutionResult VersionedConstants :=
  expect (versioned_constants_of_file "./resources/versioned_constants_13_1.json").

Definition get_versioned_constants (starknet_version : option rstring) : ExecutionResult VersionedConstants :=
  match starknet_version with
  | Some version =>
      if bool_decide (version = STARKNET_VERSION_O_13_0) then VERSIONED_CONSTANTS_13_0
      else if bool_decide (version = STARKNET_VERSION_O_13_1) then VERSIONED_CONSTANTS_13_1
      else ret latest_constants
  | None => ret latest_constants
  end.

(** [NonZeroU128::new(price).unwrap_or(NonZeroU128::MIN)]. *)
Definition non_zero_price (price : Z) : Z := if price =? 0 then 1 else price.

(** The block information that the pending block or the header gives. *)
Definition block_fields (block_context_number : Z) (maybe_pending_data : option ExecutionPendingData) :
    ExecutionResult (Z * Z * GasPricePerToken * GasPricePerToken * Z * L1DataAvailabilityMode) :=
  match maybe_pending_data with
  | Some pending_data =>
      ret (bn_unchecked_next block_context_number,
           ExecutionPendingData_timestamp pending_data,
           ExecutionPendingData_l1_gas_price pending_data,
           ExecutionPendingData_l1_data_gas_price pending_data,
           ExecutionPendingData_sequencer pending_data,
           ExecutionPendingData_l1_da_mode pending_data)
  | None =>
      let! found := exec_read (get_block_header block_context_number) in
      let! header := expect found in
      ret (BlockHeader_block_number header,
           BlockHeader_timestamp header,
           BlockHeader_l1_gas_price header,
           BlockHeader_l1_data_gas_price header,
           BlockHeader_sequencer header,
           BlockHeader_l1_da_mode header)
  end.

(** Returns the state after [pre_process_block] as well. *)
Definition create_block_context (self : ExecutionStateReader) (cached_state : CachedState) (block_context_number : Z) (chain_id : ChainId)
    (maybe_pending_data : option ExecutionPendingData) (execution_config : ExecutionConfig) (override_kzg_da_to_false : bool) :
    ExecutionResult (CachedState * BlockContext) :=
  let! fields := block_fields block_context_number maybe_pending_data in
  let '(block_number, block_timestamp, l1_gas_price, l1_data_gas_price, sequencer_address, l1_da_mode) := fields in
  let! ten_blocks_ago := get_10_blocks_ago block_context_number in
  let use_kzg_da :=
    if override_kzg_da_to_false then false
    else match l1_da_mode with L1DataAvailabilityMode_Calldata => false | L1DataAvailabilityMode_Blob => true end in
  let block_info := {|
    BlockInfo_block_number := block_number;
    BlockInfo_block_timestamp := block_timestamp;
    BlockInfo_sequencer_address := sequencer_address;
    BlockInfo_gas_prices := {|
      eth_l1_gas_price := non_zero_price (GasPricePerToken_price_in_wei l1_gas_price);
      strk_l1_gas_price := non_zero_price (GasPricePerToken_price_in_fri l1_gas_price);
      eth_l1_data_gas_price := non_zero_price (GasPricePerToken_price_in_wei l1_data_gas_price);
      strk_l1_data_gas_price := non_zero_price (GasPricePerToken_price_in_fri l1_data_gas_price) |};
    BlockInfo_use_kzg_da := use_kzg_da |} in
  let chain_info := {|
    ChainInfo_chain_id := chain_id;
    ChainInfo_strk_fee_token_address := ExecutionConfig_strk_fee_contract_address execution_config;
    ChainInfo_eth_fee_token_address := ExecutionConfig_eth_fee_contract_address execution_config |} in
  let! starknet_version := exec_read (get_starknet_version block_number) in
  let! versioned_constants := get_versioned_constants starknet_version in
  let block_context := mkBlockContext block_info chain_info versioned_constants in
  let next_block_number := BlockInfo_block_number (BlockContext_block_info block_context) in
  let! processed := run_prog self (pre_process_block ten_blocks_ago next_block_number cached_state) in
  match processed.2 with
  | Some err => raise (ExecutionError_StateError err)
  | None => ret (processed.1, block_context)
  end.

(** The error of an execution: that of the class that is missing, if one is. *)
Definition execution_failed {A} (error : ExecutionError) : ExecutionResult A := fun w =>
  match missing_compiled_class w with
  | Some class_hash => Fail w (ExecutionError_MissingCompiledClass class_hash)
  | None => Fail w error
  end.

Definition execute_call (maybe_pending_data : option ExecutionPendingData) (chain_id : ChainId) (state_number : StateNumber)
    (block_context_number contract_address entry_point_selector : Z) (calldata : list Z) (execution_config : ExecutionConfig)
    (override_kzg_da_to_false : bool) : ExecutionResult CallExecution :=
  verify_contract_exists contract_address state_number maybe_pending_data ;!
  let call_entry_point := {|
    CallEntryPoint_class_hash := None;
    CallEntryPoint_code_address := Some contract_address;
    CallEntryPoint_entry_point_type := DeprecatedEntryPointType_External;
    CallEntryPoint_entry_point_selector := entry_point_selector;
    CallEntryPoint_calldata := calldata;
    CallEntryPoint_storage_address := contract_address;
    CallEntryPoint_caller_address := 0;
    CallEntryPoint_call_type := BlockifierCallType_Call;
    CallEntryPoint_initial_gas := ExecutionConfig_initial_gas_cost execution_config |} in
  let reader := mkExecutionStateReader state_number maybe_pending_data in
  set_missing None ;!
  let! created :=
    create_block_context reader CachedState_new block_context_number chain_id maybe_pending_data execution_config override_kzg_da_to_false in
  let '(cached_state, block_context) := created in
  let! context := try_from_result ExecutionError_ContractError (new_invoke block_context true) in
  let! res := run_prog reader (entry_point_execute call_entry_point context cached_state) in
  match res.2 with
  | inl call_info => ret (CallInfo_execution call_info)
  | inr error => execution_failed (ExecutionError_ContractError error)
  end.

(** The transaction as one of [starknet_api], with its only-query bit. *)
Definition as_transaction (self : ExecutableTransactionInput) : Transaction * bool :=
  match self with
  | ExecutableTransactionInput_Invoke tx only_query => (Transaction_Invoke tx, only_query)
  | ExecutableTransactionInput_DeclareV0 tx _ _ only_query => (Transaction_Declare (DeclareTransaction_V0 tx), only_query)
  | ExecutableTransactionInput_DeclareV1 tx _ _ only_query => (Transaction_Declare (DeclareTransaction_V1 tx), only_query)
  | ExecutableTransactionInput_DeclareV2 tx _ _ _ only_query => (Transaction_Declare (DeclareTransaction_V2 tx), only_query)
  | ExecutableTransactionInput_DeclareV3 tx _ _ _ only_query => (Transaction_Declare (DeclareTransaction_V3 tx), only_query)
  | ExecutableTransactionInput_DeployAccount tx only_query => (Transaction_DeployAccount tx, only_query)
  | ExecutableTransactionInput_L1Handler tx _ only_query => (Transaction_L1Handler tx, only_query)
  end.

Definition apply_on_transaction {T} (self : ExecutableTransactionInput) (func : Transaction -> bool -> T) : ExecutableTransactionInput * T :=
  let '(tx, only_query) := as_transaction self in (self, func tx only_query).

Definition calc_tx_hash (self : ExecutableTransactionInput) (chain_id : ChainId) : ExecutionResult (ExecutableTransactionInput * Z) :=
  let '(original_tx, result) :=
    apply_on_transaction self (fun tx only_query => get_transaction_hash tx chain_id (mkTransactionOptions only_query) []) in
  match result with
  | Done _ tx_hash => ret (original_tx, tx_hash)
  | Fail _ err => raise (ExecutionError_TransactionHashCalculationFailed err)
  | Panic => panic
  end.

Definition transaction_version (self : ExecutableTransactionInput) : Z :=
  match self with
  | ExecutableTransactionInput_Invoke tx _ => invoke_transaction_version tx
  | ExecutableTransactionInput_DeclareV0 _ _ _ _ => 0
  | ExecutableTransactionInput_DeclareV1 _ _ _ _ => 1
  | ExecutableTransactionInput_DeclareV2 _ _ _ _ _ => 2
  | ExecutableTransactionInput_DeclareV3 _ _ _ _ _ => 3
  | ExecutableTransactionInput_DeployAccount tx _ => deploy_account_transaction_version tx
  | ExecutableTransactionInput_L1Handler tx _ _ => L1HandlerTransaction_version tx
  end.

(** [collect::<Result<Vec<_>, _>>()]. *)
Fixpoint collect_results {S E A B} (f : A -> M S E B) (l : list A) : M S E (list B) :=
  match l with
  | [] => ret []
  | x :: l' =>
      let! y := f x in
      let! rest := collect_results f l' in
      ret (y :: rest)
  end.

Definition calc_tx_hashes (txs : list ExecutableTransactionInput) (chain_id : ChainId) :
    ExecutionResult (list ExecutableTransactionInput * list Z) :=
  let! pairs := collect_results (fun tx => calc_tx_hash tx chain_id) txs in
  ret (pairs.*1, pairs.*2).

(** [ExecutionError::from((transaction_index, error))]. *)
Definition ExecutionError_from (transaction_index : Z) (error : BlockifierTransactionExecutionError) : ExecutionError :=
  ExecutionError_TransactionExecutionError transaction_index (transaction_error_to_string error).

Definition DEPRECATED_CONTRACT_SIERRA_SIZE : Z := 0.

(** [BlockifierTransaction::from_api(..)] with the index of the transaction in its error. *)
Definition api_transaction (tx : Transaction) (tx_hash transaction_index : Z) (class_info : option ClassInfo) (paid_fee : option Z)
    (only_query : bool) : ExecutionResult BlockifierTransaction :=
  try_from_result (ExecutionError_from transaction_index) (from_api tx tx_hash class_info paid_fee None only_query).

(** [ClassInfo::new(..)] with the declaration in its error. *)
Definition class_info_of (class : BlockifierContractClass) (sierra_size abi_size : Z) (tx : DeclareTransaction) : ExecutionResult ClassInfo :=
  try_from_result (ExecutionError_BadDeclareTransaction tx) (ClassInfo_new class sierra_size abi_size).

Definition to_blockifier_tx (tx : ExecutableTransactionInput) (tx_hash transaction_index : Z) : ExecutionResult BlockifierTransaction :=
  match tx with
  | ExecutableTransactionInput_Invoke invoke_tx only_query =>
      api_transaction (Transaction_Invoke invoke_tx) tx_hash transaction_index None None only_query
  | ExecutableTransactionInput_DeployAccount deploy_acc_tx only_query =>
      api_transaction (Transaction_DeployAccount deploy_acc_tx) tx_hash transaction_index None None only_query
  | ExecutableTransactionInput_DeclareV0 declare_tx deprecated_class abi_length only_query =>
      let! class := try_from_result
        (fun e => ExecutionError_TransactionExecutionError transaction_index (program_error_to_string e)) (class_v0 deprecated_class) in
      let! class_info := class_info_of class DEPRECATED_CONTRACT_SIERRA_SIZE abi_length (DeclareTransaction_V0 declare_tx) in
      api_transaction (Transaction_Declare (DeclareTransaction_V0 declare_tx)) tx_hash transaction_index (Some class_info) None only_query
  | ExecutableTransactionInput_DeclareV1 declare_tx deprecated_class abi_length only_query =>
      let! class := try_from_result (fun e => ExecutionError_ContractError (BlockifierError_of_program_error e)) (class_v0 deprecated_class) in
      let! class_info := class_info_of class DEPRECATED_CONTRACT_SIERRA_SIZE abi_length (DeclareTransaction_V1 declare_tx) in
      api_transaction (Transaction_Declare (DeclareTransaction_V1 declare_tx)) tx_hash transaction_index (Some class_info) None only_query
  | ExecutableTransactionInput_DeclareV2 declare_tx compiled_class sierra_program_length abi_length only_query =>
      let! class := try_from_result (fun e => ExecutionError_ContractError (BlockifierError_of_program_error e)) (class_v1 compiled_class) in
      let! class_info := class_info_of class sierra_program_length abi_length (DeclareTransaction_V2 declare_tx) in
      api_transaction (Transaction_Declare (DeclareTransaction_V2 declare_tx)) tx_hash transaction_index (Some class_info) None only_query
  | ExecutableTransactionInput_DeclareV3 declare_tx compiled_class sierra_program_length abi_length only_query =>
      let! class := try_from_result (fun e => ExecutionError_ContractError (BlockifierError_of_program_error e)) (class_v1 compiled_class) in
      let! class_info := class_info_of class sierra_program_length abi_length (DeclareTransaction_V3 declare_tx) in
      api_transaction (Transaction_Declare (DeclareTransaction_V3 declare_tx)) tx_hash transaction_index (Some class_info) None only_query
  | ExecutableTransactionInput_L1Handler l1_handler_tx paid_fee only_query =>
      api_transaction (Transaction_L1Handler l1_handler_tx) tx_hash transaction_index None (Some paid_fee) only_query
  end.

(** [induced_state_diff] of [execution_utils.rs]: the loop that separates the contracts
    that are deployed from those whose class is replaced, and the diff. The keys of the
    diff are distinct, so that [insert] appends. *)
Fixpoint split_contracts (self : ExecutionStateReader) (address_to_class_hash deployed_contracts replaced_classes : list (Z * Z))
    (transactional_state : TransactionalState) : ExecutionResult (TransactionalState * (list (Z * Z) * list (Z * Z))) :=
  match address_to_class_hash with
  | [] => ret (transactional_state, (deployed_contracts, replaced_classes))
  | (address, class_hash) :: rest =>
      let! read := run_prog self (parent_class_hash_at address transactional_state) in
      let! prev_class_hash := try_from_result (fun e => ExecutionError_ContractError (BlockifierError_of_state_error e)) read.2 in
      if prev_class_hash =? 0
      then split_contracts self rest (deployed_contracts ++ [(address, class_hash)]) replaced_classes read.1
      else split_contracts self rest deployed_contracts (replaced_classes ++ [(address, class_hash)]) read.1
  end.

Definition induced_state_diff (self : ExecutionStateReader) (transactional_state : TransactionalState)
    (deprecated_declared_class_hash : option Z) : ExecutionResult (TransactionalState * ThinStateDiff) :=
  let! read := run_prog self (to_state_diff transactional_state) in
  let! blockifier_state_diff := try_from_result ExecutionError_StateError read.2 in
  let! split := split_contracts self (CommitmentStateDiff_address_to_class_hash blockifier_state_diff) [] [] read.1 in
  let '(transactional_state, (deployed_contracts, replaced_classes)) := split in
  ret (transactional_state, {|
    ThinStateDiff_deployed_contracts := deployed_contracts;
    ThinStateDiff_storage_diffs := CommitmentStateDiff_storage_updates blockifier_state_diff;
    ThinStateDiff_declared_classes := CommitmentStateDiff_class_hash_to_compiled_class_hash blockifier_state_diff;
    ThinStateDiff_deprecated_declared_classes := match deprecated_declared_class_hash with Some class_hash => [class_hash] | None => [] end;
    ThinStateDiff_nonces := CommitmentStateDiff_address_to_nonce blockifier_state_diff;
    ThinStateDiff_replaced_classes := replaced_classes
  |}).

Definition price_unit_of (transaction_version : Z) : PriceUnit :=
  if (transaction_version =? 0) || (transaction_version =? 1) || (transaction_version =? 2) then PriceUnit_Wei else PriceUnit_Fri.

Definition deprecated_declared_class_hash_of (tx : ExecutableTransactionInput) : option Z :=
  match tx with
  | ExecutableTransactionInput_DeclareV0 tx _ _ _ => Some (DeclareTransactionV0V1_class_hash tx)
  | ExecutableTransactionInput_DeclareV1 tx _ _ _ => Some (DeclareTransactionV0V1_class_hash tx)
  | _ => None
  end.

(** One turn of the loop of [execute_transactions]. *)
Definition execute_transaction (self : ExecutionStateReader) (block_context : BlockContext) (charge_fee validate : bool)
    (transaction_index : Z) (tx : ExecutableTransactionInput) (tx_hash : Z) (cached_state : CachedState) :
    ExecutionResult (CachedState * TransactionExecutionOutput) :=
  let price_unit := price_unit_of (transaction_version tx) in
  let transactional_state := create_transactional cached_state in
  let deprecated_declared_class_hash := deprecated_declared_class_hash_of tx in
  let! blockifier_tx := to_blockifier_tx tx tx_hash transaction_index in
  let! executed := run_prog self (transaction_execute blockifier_tx block_context charge_fee validate transactional_state) in
  let! induced := induced_state_diff self executed.1 deprecated_declared_class_hash in
  let cached_state := commit induced.1 in
  let! execution_info :=
    match executed.2 with
    | inl execution_info => ret execution_info
    | inr error => execution_failed (ExecutionError_from transaction_index error)
    end in
  ret (cached_state, mkTransactionExecutionOutput execution_info induced.2 price_unit).

Fixpoint execute_loop (self : ExecutionStateReader) (block_context : BlockContext) (charge_fee validate : bool) (transaction_index : Z)
    (txs : list (ExecutableTransactionInput * Z)) (cached_state : CachedState) : ExecutionResult (list TransactionExecutionOutput) :=
  match txs with
  | [] => ret []
  | (tx, tx_hash) :: txs =>
      let! executed := execute_transaction self block_context charge_fee validate transaction_index tx tx_hash cached_state in
      let! res := execute_loop self block_context charge_fee validate (transaction_index + 1) txs executed.1 in
      ret (executed.2 :: res)
  end.

Definition execute_transactions (txs : list ExecutableTransactionInput) (tx_hashes : option (list Z)) (chain_id : ChainId)
    (maybe_pending_data : option ExecutionPendingData) (state_number : StateNumber) (block_context_block_number : Z)
    (execution_config : ExecutionConfig) (charge_fee validate override_kzg_da_to_false : bool) :
    ExecutionResult (list TransactionExecutionOutput * BlockContext) :=
  let reader := mkExecutionStateReader state_number maybe_pending_data in
  set_missing None ;!
  let! created := create_block_context reader CachedState_new block_context_block_number chain_id maybe_pending_data execution_config
    override_kzg_da_to_false in
  let '(cached_state, block_context) := created in
  let! hashed := match tx_hashes with Some tx_hashes => ret (txs, tx_hashes) | None => calc_tx_hashes txs chain_id end in
  let! res := execute_loop reader block_context charge_fee validate 0 (zip hashed.1 hashed.2) cached_state in
  ret (res, block_context).

Definition tx_execution_output_to_fee_estimation (tx_execution_output : TransactionExecutionOutput) (block_context : BlockContext) :
    FeeEstimation :=
  let gas_prices := BlockInfo_gas_prices (BlockContext_block_info block_context) in
  let '(gas_price, data_gas_price) :=
    match TransactionExecutionOutput_price_unit tx_execution_output with
    | PriceUnit_Wei => (eth_l1_gas_price gas_prices, eth_l1_data_gas_price gas_prices)
    | PriceUnit_Fri => (strk_l1_gas_price gas_prices, strk_l1_data_gas_price gas_prices)
    end in
  let receipt := TransactionExecutionInfo_transaction_receipt (TransactionExecutionOutput_execution_info tx_execution_output) in
  let gas_vector := BlockifierReceipt_gas receipt in
  {|
    FeeEstimation_gas_consumed := felt_from_uint (GasVector_l1_gas gas_vector);
    FeeEstimation_gas_price := gas_price;
    FeeEstimation_data_gas_consumed := felt_from_uint (GasVector_l1_data_gas gas_vector);
    FeeEstimation_data_gas_price := data_gas_price;
    FeeEstimation_overall_fee := BlockifierReceipt_fee receipt;
    FeeEstimation_unit := TransactionExecutionOutput_price_unit tx_execution_output
  |}.

(** The loop of [estimate_fee] over the outputs. *)
Fixpoint estimate_loop (index : Z) (outputs : list TransactionExecutionOutput) (block_context : BlockContext) (result : list FeeEstimation) :
    list FeeEstimation + RevertedTransaction :=
  match outputs with
  | [] => inl result
  | tx_execution_output :: outputs =>
      match TransactionExecutionInfo_revert_error (TransactionExecutionOutput_execution_info tx_execution_output) with
      | Some revert_reason => inr (mkRevertedTransaction index revert_reason)
      | None =>
          estimate_loop (index + 1) outputs block_context
            (result ++ [tx_execution_output_to_fee_estimation tx_execution_output block_context])
      end
  end.

Definition exec_estimate_fee (txs : list ExecutableTransactionInput) (chain_id : ChainId) (maybe_pending_data : option ExecutionPendingData)
    (state_number : StateNumber) (block_context_block_number : Z) (execution_config : ExecutionConfig)
    (validate override_kzg_da_to_false : bool) : ExecutionResult (list FeeEstimation + RevertedTransaction) :=
  let! executed := execute_transactions txs None chain_id maybe_pending_data state_number block_context_block_number execution_config false
    validate override_kzg_da_to_false in
  ret (estimate_loop 0 executed.1 executed.2 []).

(** One output of [simulate_transactions]. *)
Definition simulation_output (block_context : BlockContext) (output_and_tx : TransactionExecutionOutput * ExecutableTransactionInput) :
    ExecutionResult TransactionSimulationOutput :=
  let '(tx_execution_output, tx) := output_and_tx in
  let fee_estimation := tx_execution_output_to_fee_estimation tx_execution_output block_context in
  let! transaction_trace := get_trace_constructor tx (TransactionExecutionOutput_execution_info tx_execution_output) in
  ret (mkTransactionSimulationOutput transaction_trace (TransactionExecutionOutput_induced_state_diff tx_execution_output) fee_estimation).

Definition exec_simulate_transactions (txs : list ExecutableTransactionInput) (tx_hashes : option (list Z)) (chain_id : ChainId)
    (maybe_pending_data : option ExecutionPendingData) (state_number : StateNumber) (block_context_block_number : Z)
    (execution_config : ExecutionConfig) (charge_fee validate override_kzg_da_to_false : bool) :
    ExecutionResult (list TransactionSimulationOutput) :=
  let! executed := execute_transactions txs tx_hashes chain_id maybe_pending_data state_number block_context_block_number execution_config
    charge_fee validate override_kzg_da_to_false in
  collect_results (simulation_output executed.2) (zip executed.1 txs).

(** ** The traces of the server ([v0_7/execution.rs]) *)

(** [RpcInvocation]: the resources of each call are converted. *)
Fixpoint RpcInvocation_from (invocation : ExecInvocation) : RpcInvocation :=
  match invocation with
  | mkFunctionInvocation function_call caller_address class_hash entry_point_type call_type result calls events messages execution_resources => {|
      FunctionInvocation_function_call := function_call;
      FunctionInvocation_caller_address := caller_address;
      FunctionInvocation_class_hash := class_hash;
      FunctionInvocation_entry_point_type := entry_point_type;
      FunctionInvocation_call_type := call_type;
      FunctionInvocation_result := result;
      FunctionInvocation_calls := RpcInvocation_from <$> calls;
      FunctionInvocation_events := events;
      FunctionInvocation_messages := messages;
      FunctionInvocation_execution_resources := ComputationResources_from execution_resources |}
  end.

Record RpcL1HandlerTransactionTrace : Type := mkRpcL1HandlerTransactionTrace {
  RpcL1HandlerTransactionTrace_function_invocation : RpcInvocation;
  RpcL1HandlerTransactionTrace_state_diff : RpcThinStateDiff;
  RpcL1HandlerTransactionTrace_execution_resources : RpcExecutionResources
}.

Record RpcInvokeTransactionTrace : Type := mkRpcInvokeTransactionTrace {
  RpcInvokeTransactionTrace_validate_invocation : option RpcInvocation;
  RpcInvokeTransactionTrace_execute_invocation : FunctionInvocationResult ComputationResources;
  RpcInvokeTransactionTrace_fee_transfer_invocation : option RpcInvocation;
  RpcInvokeTransactionTrace_state_diff : RpcThinStateDiff;
  RpcInvokeTransactionTrace_execution_resources : RpcExecutionResources
}.

Record RpcDeclareTransactionTrace : Type := mkRpcDeclareTransactionTrace {
  RpcDeclareTransactionTrace_validate_invocation : option RpcInvocation;
  RpcDeclareTransactionTrace_fee_transfer_invocation : option RpcInvocation;
  RpcDeclareTransactionTrace_state_diff : RpcThinStateDiff;
  RpcDeclareTransactionTrace_execution_resources : RpcExecutionResources
}.

Record RpcDeployAccountTransactionTrace : Type := mkRpcDeployAccountTransactionTrace {
  RpcDeployAccountTransactionTrace_validate_invocation : option RpcInvocation;
  RpcDeployAccountTransactionTrace_constructor_invocation : RpcInvocation;
  RpcDeployAccountTransactionTrace_fee_transfer_invocation : option RpcInvocation;
  RpcDeployAccountTransactionTrace_state_diff : RpcThinStateDiff;
  RpcDeployAccountTransactionTrace_execution_resources : RpcExecutionResources
}.

Inductive RpcTransactionTrace : Type :=
| RpcTransactionTrace_L1Handler (trace : RpcL1HandlerTransactionTrace)
| RpcTransactionTrace_Invoke (trace : RpcInvokeTransactionTrace)
| RpcTransactionTrace_Declare (trace : RpcDeclareTransactionTrace)
| RpcTransactionTrace_DeployAccount (trace : RpcDeployAccountTransactionTrace).

(** [Option::xor]. *)
Definition option_xor (a b : option Z) : option Z :=
  match a, b with
  | Some x, None => Some x
  | None, Some y => Some y
  | _, _ => None
  end.

Definition u64_saturating_add (a b : Z) : Z := Z.min (a + b) (2 ^ 64 - 1).

Definition default_RpcExecutionResources : RpcExecutionResources :=
  mkRpcExecutionResources (mkComputationResources 0 ∅ None) (mkDataAvailabilityResources 0 0).

(** [Add for ExecutionResources]. *)
Definition RpcExecutionResources_add (self other : RpcExecutionResources) : RpcExecutionResources :=
  let a := RpcExecutionResources_computation_resources self in
  let b := RpcExecutionResources_computation_resources other in
  let da := RpcExecutionResources_data_availability self in
  let db := RpcExecutionResources_data_availability other in
  let memory_holes :=
    match ComputationResources_memory_holes a, ComputationResources_memory_holes b with
    | Some x, Some y => Some (u64_saturating_add x y)
    | x, y => option_xor x y
    end in
  {|
    RpcExecutionResources_computation_resources := {|
      ComputationResources_steps := u64_saturating_add (ComputationResources_steps a) (ComputationResources_steps b);
      ComputationResources_builtin_instance_counter :=
        union_with (fun x y => Some (u64_saturating_add x y))
          (ComputationResources_builtin_instance_counter a) (ComputationResources_builtin_instance_counter b);
      ComputationResources_memory_holes := memory_holes |};
    RpcExecutionResources_data_availability := {|
      DataAvailabilityResources_l1_gas := u64_add (DataAvailabilityResources_l1_gas da) (DataAvailabilityResources_l1_gas db);
      DataAvailabilityResources_l1_data_gas := u64_add (DataAvailabilityResources_l1_data_gas da) (DataAvailabilityResources_l1_data_gas db) |}
  |}.

(** [ThinStateDiff::sort]: the keys are distinct, so that the order of equal ones does
    not matter. *)
Definition RpcThinStateDiff_sort (d : RpcThinStateDiff) : RpcThinStateDiff := {|
  RpcThinStateDiff_deployed_contracts := sort_by_key RpcDeployedContract_address (RpcThinStateDiff_deployed_contracts d);
  RpcThinStateDiff_storage_diffs :=
    (fun diff => mkStorageDiff (StorageDiff_address diff) (sort_by_key RpcStorageEntry_key (StorageDiff_storage_entries diff)))
      <$> sort_by_key StorageDiff_address (RpcThinStateDiff_storage_diffs d);
  RpcThinStateDiff_declared_classes := sort_by_key ClassHashes_class_hash (RpcThinStateDiff_declared_classes d);
  RpcThinStateDiff_deprecated_declared_classes := sort_by_key id (RpcThinStateDiff_deprecated_declared_classes d);
  RpcThinStateDiff_nonces := sort_by_key ContractNonce_contract_address (RpcThinStateDiff_nonces d);
  RpcThinStateDiff_replaced_classes := sort_by_key ReplacedClasses_contract_address (RpcThinStateDiff_replaced_classes d)
|}.

(** [ExecutionResources::from] of an invocation, and the default of none. *)
Definition invocation_resources (invocation : ExecInvocation) : RpcExecutionResources :=
  RpcExecutionResources_from (FunctionInvocation_execution_resources invocation).

Definition optional_resources (invocation : option ExecInvocation) : RpcExecutionResources :=
  match invocation with Some invocation => invocation_resources invocation | None => default_RpcExecutionResources end.

Definition RpcTransactionTrace_from (trace : TransactionTrace) (state_diff : ThinStateDiff) : RpcTransactionTrace :=
  let state_diff := RpcThinStateDiff_sort (RpcThinStateDiff_from state_diff) in
  match trace with
  | TransactionTrace_L1Handler trace =>
      let invocation := L1HandlerTransactionTrace_function_invocation trace in
      RpcTransactionTrace_L1Handler (mkRpcL1HandlerTransactionTrace (RpcInvocation_from invocation) state_diff (invocation_resources invocation))
  | TransactionTrace_Invoke trace =>
      let '(execute_invocation, execute_execution_resources) :=
        match InvokeTransactionTrace_execute_invocation trace with
        | FunctionInvocationResult_Ok invocation =>
            (FunctionInvocationResult_Ok (RpcInvocation_from invocation), invocation_resources invocation)
        | FunctionInvocationResult_Err revert_reason => (FunctionInvocationResult_Err revert_reason, default_RpcExecutionResources)
        end in
      let validate := InvokeTransactionTrace_validate_invocation trace in
      let fee_transfer := InvokeTransactionTrace_fee_transfer_invocation trace in
      RpcTransactionTrace_Invoke (mkRpcInvokeTransactionTrace
        (RpcInvocation_from <$> validate) execute_invocation (RpcInvocation_from <$> fee_transfer) state_diff
        (RpcExecutionResources_add (RpcExecutionResources_add (optional_resources validate) execute_execution_resources)
           (optional_resources fee_transfer)))
  | TransactionTrace_Declare trace =>
      let validate := DeclareTransactionTrace_validate_invocation trace in
      let fee_transfer := DeclareTransactionTrace_fee_transfer_invocation trace in
      RpcTransactionTrace_Declare (mkRpcDeclareTransactionTrace (RpcInvocation_from <$> validate) (RpcInvocation_from <$> fee_transfer) state_diff
        (RpcExecutionResources_add (optional_resources validate) (optional_resources fee_transfer)))
  | TransactionTrace_DeployAccount trace =>
      let validate := DeployAccountTransactionTrace_validate_invocation trace in
      let constructor := DeployAccountTransactionTrace_constructor_invocation trace in
      let fee_transfer := DeployAccountTransactionTrace_fee_transfer_invocation trace in
      RpcTransactionTrace_DeployAccount (mkRpcDeployAccountTransactionTrace
        (RpcInvocation_from <$> validate) (RpcInvocation_from constructor) (RpcInvocation_from <$> fee_transfer) state_diff
        (RpcExecutionResources_add (RpcExecutionResources_add (optional_resources validate) (invocation_resources constructor))
           (optional_resources fee_transfer)))
  end.

(** ** What the server executes ([v0_7/api/mod.rs]) *)

Abbreviation Rpc := (M StorageTxn ErrorObjectOwned).
Abbreviation RpcExec := (M World ErrorObjectOwned).

Record SimulatedTransaction : Type := mkSimulatedTransaction {
  SimulatedTransaction_transaction_trace : RpcTransactionTrace;
  SimulatedTransaction_fee_estimation : FeeEstimation
}.

Inductive SimulationFlag : Type := SimulationFlag_SkipValidate | SimulationFlag_SkipFeeCharge.

#[global] Instance SimulationFlag_eq_dec : EqDecision SimulationFlag.
Proof. solve_decision. Defined.

Record TransactionTraceWithHash : Type := mkTransactionTraceWithHash {
  TransactionTraceWithHash_transaction_hash : Z;
  TransactionTraceWithHash_trace_root : RpcTransactionTrace
}.

(** The crates and derived serializations these methods use: the length of the text of
    an ABI, the program of decompressed text, base64 and gzip. *)
Class ExecCrates : Type := {
  abi_to_python_json : list ContractClassAbiEntry -> option (list Z);
  base64_decode : rstring -> option (list Z);
  gunzip : list Z -> option (list Z);
  program_from_reader : list Z -> option Program
}.

Context {EC : ExecCrates}.

(** [papyrus_common::deprecated_class_abi]. *)
Definition calculate_deprecated_class_abi_length (deprecated_class : DeprecatedContractClass) : option Z :=
  match DeprecatedContractClass_abi deprecated_class with
  | None => Some 0
  | Some abi => Z.of_nat ∘ length <$> abi_to_python_json abi
  end.

Definition decompress_program {S} (base64_compressed_program : rstring) : M S ErrorObjectOwned Program :=
  let! _ := ok_or_raise internal_server_error (base64_decode base64_compressed_program) in
  let! compressed_data := ok_or_raise internal_server_error (base64_decode base64_compressed_program) in
  let! decompressed := ok_or_raise internal_server_error (gunzip compressed_data) in
  ok_or_raise internal_server_error (program_from_reader decompressed).

Definition user_deprecated_contract_class_to_sn_api {S} (value : WriterDeprecatedContractClass) : M S ErrorObjectOwned DeprecatedContractClass :=
  let! program := decompress_program (WriterDeprecatedContractClass_compressed_program value) in
  ret (mkDeprecatedContractClass (WriterDeprecatedContractClass_abi value) program (WriterDeprecatedContractClass_entry_points_by_type value)).

Definition declare_to_executable {S} (value : BroadcastedDeclareTransaction) : M S ErrorObjectOwned ExecutableTransactionInput :=
  match value with
  | BroadcastedDeclareTransaction_V1 tx =>
      let! sn_api_contract_class := user_deprecated_contract_class_to_sn_api (BroadcastedDeclareV1Transaction_contract_class tx) in
      let! abi_length := ok_or_raise internal_server_error (calculate_deprecated_class_abi_length sn_api_contract_class) in
      ret (ExecutableTransactionInput_DeclareV1 {|
             DeclareTransactionV0V1_max_fee := BroadcastedDeclareV1Transaction_max_fee tx;
             DeclareTransactionV0V1_signature := BroadcastedDeclareV1Transaction_signature tx;
             DeclareTransactionV0V1_nonce := BroadcastedDeclareV1Transaction_nonce tx;
             DeclareTransactionV0V1_class_hash := 0;
             DeclareTransactionV0V1_sender_address := BroadcastedDeclareV1Transaction_sender_address tx |}
             sn_api_contract_class abi_length false)
  | BroadcastedDeclareTransaction_V2 _ => raise internal_server_error
  | BroadcastedDeclareTransaction_V3 _ => raise internal_server_error
  end.

Definition broadcasted_to_executable {S} (value : BroadcastedTransaction) : M S ErrorObjectOwned ExecutableTransactionInput :=
  match value with
  | BroadcastedTransaction_Declare tx => declare_to_executable tx
  | BroadcastedTransaction_DeployAccount tx => ret (ExecutableTransactionInput_DeployAccount (DeployAccountTransaction_from_rpc tx) false)
  | BroadcastedTransaction_Invoke tx => ret (ExecutableTransactionInput_Invoke (InvokeTransaction_from_rpc tx) false)
  end.

Definition get_deprecated_class_for_re_execution (state_number : StateNumber) (class_hash : Z) : Rpc DeprecatedContractClass :=
  let state_number_after_block := unchecked_right_after_block (block_after state_number) in
  let! class := internal (get_deprecated_class_definition_at state_number_after_block class_hash) in
  ok_or_raise internal_server_error class.

Definition get_class_lengths (state_number : StateNumber) (class_hash : Z) : Rpc (Z * Z) :=
  let state_number_after_block := unchecked_right_after_block (block_after state_number) in
  let! found := internal (get_class_definition_at state_number_after_block class_hash) in
  let! contract_class := ok_or_raise internal_server_error found in
  ret (zlength (ContractClass_sierra_program contract_class), zlength (ContractClass_abi contract_class)).

Definition stored_txn_to_executable_txn (stored_txn : Transaction) (state_number : StateNumber) : Rpc ExecutableTransactionInput :=
  match stored_txn with
  | Transaction_Declare (DeclareTransaction_V0 value) =>
      let! deprecated_class := get_deprecated_class_for_re_execution state_number (DeclareTransactionV0V1_class_hash value) in
      let! abi_length := ok_or_raise internal_server_error (calculate_deprecated_class_abi_length deprecated_class) in
      ret (ExecutableTransactionInput_DeclareV0 value deprecated_class abi_length false)
  | Transaction_Declare (DeclareTransaction_V1 value) =>
      let! deprecated_class := get_deprecated_class_for_re_execution state_number (DeclareTransactionV0V1_class_hash value) in
      let! abi_length := ok_or_raise internal_server_error (calculate_deprecated_class_abi_length deprecated_class) in
      ret (ExecutableTransactionInput_DeclareV1 value deprecated_class abi_length false)
  | Transaction_Declare (DeclareTransaction_V2 value) =>
      let! found := internal (get_casm (DeclareTransactionV2_class_hash value)) in
      let! casm := ok_or_raise internal_server_error found in
      let! lengths := get_class_lengths state_number (DeclareTransactionV2_class_hash value) in
      ret (ExecutableTransactionInput_DeclareV2 value casm lengths.1 lengths.2 false)
  | Transaction_Declare (DeclareTransaction_V3 value) =>
      let! found := internal (get_casm (DeclareTransactionV3_class_hash value)) in
      let! casm := ok_or_raise internal_server_error found in
      let! lengths := get_class_lengths state_number (DeclareTransactionV3_class_hash value) in
      ret (ExecutableTransactionInput_DeclareV3 value casm lengths.1 lengths.2 false)
  | Transaction_Deploy _ => raise internal_server_error
  | Transaction_DeployAccount deploy_account_tx => ret (ExecutableTransactionInput_DeployAccount deploy_account_tx false)
  | Transaction_Invoke value => ret (ExecutableTransactionInput_Invoke value false)
  | Transaction_L1Handler value => ret (ExecutableTransactionInput_L1Handler value 1 false)
  end.

Definition execution_error_to_error_object_owned (err : ExecutionError) : ErrorObjectOwned :=
  match err with
  | ExecutionError_MissingCompiledClass _ => BLOCK_NOT_FOUND
  | ExecutionError_ContractError blockifier_err => ContractError_into (blockifier_error_to_string blockifier_err)
  | ExecutionError_ContractNotFound _ _ => CONTRACT_NOT_FOUND
  | _ => internal_server_error
  end.

(** ** The methods ([v0_7/api/api_impl.rs]) *)

(** The fields of the server these methods use. *)
Record ExecutingServer : Type := mkExecutingServer {
  server : JsonRpcServerImpl;
  server_chain_id : ChainId;
  server_execution_config : ExecutionConfig
}.

Implicit Types self : ExecutingServer.

(** [pending.rs]. *)
Definition client_pending_data_to_execution_pending_data (client_pending_data : PendingData) (pending_classes : PendingClasses) :
    ExecutionPendingData :=
  let state_diff := PendingStateUpdate_state_diff (PendingData_state_update client_pending_data) in
  let block := PendingData_block client_pending_data in
  {|
    ExecutionPendingData_storage_diffs := ClientStateDiff_storage_diffs state_diff;
    ExecutionPendingData_deployed_contracts := ClientStateDiff_deployed_contracts state_diff;
    ExecutionPendingData_declared_classes := ClientStateDiff_declared_classes state_diff;
    ExecutionPendingData_old_declared_contracts := ClientStateDiff_old_declared_contracts state_diff;
    ExecutionPendingData_nonces := ClientStateDiff_nonces state_diff;
    ExecutionPendingData_replaced_classes := ClientStateDiff_replaced_classes state_diff;
    ExecutionPendingData_timestamp := pending_timestamp block;
    ExecutionPendingData_l1_gas_price := pending_l1_gas_price block;
    ExecutionPendingData_l1_data_gas_price := pending_l1_data_gas_price block;
    ExecutionPendingData_l1_da_mode := pending_l1_da_mode block;
    ExecutionPendingData_sequencer := pending_sequencer_address block;
    ExecutionPendingData_classes := pending_classes
  |}.

(** The pending data of a trace: the fields of the block, and no changes, since the
    transactions run on the state at the start of the pending block. *)
Definition start_of_pending_block (block : PendingBlockOrDeprecated) : ExecutionPendingData := {|
  ExecutionPendingData_storage_diffs := [];
  ExecutionPendingData_deployed_contracts := [];
  ExecutionPendingData_declared_classes := [];
  ExecutionPendingData_old_declared_contracts := [];
  ExecutionPendingData_nonces := [];
  ExecutionPendingData_replaced_classes := [];
  ExecutionPendingData_timestamp := pending_timestamp block;
  ExecutionPendingData_l1_gas_price := pending_l1_gas_price block;
  ExecutionPendingData_l1_data_gas_price := pending_l1_data_gas_price block;
  ExecutionPendingData_l1_da_mode := pending_l1_da_mode block;
  ExecutionPendingData_sequencer := pending_sequencer_address block;
  ExecutionPendingData_classes := default_PendingClasses
|}.

(** [v0_7/block.rs]: the validator is the number of the block and its hash. *)
Record BlockNotRevertedValidator : Type := mkBlockNotRevertedValidator {
  validator_block_number : Z;
  validator_old_block_hash : Z
}.

Definition BlockNotRevertedValidator_new (block_number : Z) : Rpc BlockNotRevertedValidator :=
  let! found := internal (get_block_header block_number) in
  let! header := ok_or_raise internal_server_error found in
  ret (mkBlockNotRevertedValidator block_number (BlockHeader_block_hash header)).

Definition validate_not_reverted (validator : BlockNotRevertedValidator) : RpcExec unit :=
  let! txn := begin_ro_txn in
  let! found := on_txn txn (internal (get_block_header (validator_block_number validator))) in
  let! header := ok_or_raise internal_server_error found in
  if BlockHeader_block_hash header =? validator_old_block_hash validator then ret tt else raise internal_server_error.

(** [spawn_blocking(..).await.map_err(internal_server_error)?]: a panic of the task is
    an error of the method. What the task returns is returned. *)
Definition spawn_blocking {A} (m : ExecutionResult A) : RpcExec (A + ExecutionError) := fun w =>
  match m w with
  | Done w' a => Done w' (inl a)
  | Fail w' e => Done w' (inr e)
  | Panic => Fail w internal_server_error
  end.

Definition DONT_IGNORE_L1_DA_MODE : bool := false.

(** The pending data of a request about the pending block. *)
Definition requested_pending_data self (block_id : BlockId) (txn : StorageTxn) : RpcExec (option ExecutionPendingData) :=
  if is_pending block_id then
    let! pending_data := on_txn txn (read_pending_data (rpc_pending_data (server self))) in
    ret (Some (client_pending_data_to_execution_pending_data pending_data (rpc_pending_classes (server self))))
  else ret None.

Record CallRequest : Type := mkCallRequest {
  CallRequest_contract_address : Z;
  CallRequest_entry_point_selector : Z;
  CallRequest_calldata : list Z
}.

Definition call self (request : CallRequest) (block_id : BlockId) : RpcExec (list Z) :=
  let! txn := begin_ro_txn in
  let! maybe_pending_data := requested_pending_data self block_id txn in
  let! block_number := on_txn txn (get_accepted_block_number block_id) in
  let! block_not_reverted_validator := on_txn txn (BlockNotRevertedValidator_new block_number) in
  let state_number := unchecked_right_after_block block_number in
  let! executed := spawn_blocking (execute_call maybe_pending_data (server_chain_id self) state_number block_number
    (CallRequest_contract_address request) (CallRequest_entry_point_selector request) (CallRequest_calldata request)
    (server_execution_config self) DONT_IGNORE_L1_DA_MODE) in
  let! res := try_from_result execution_error_to_error_object_owned executed in
  validate_not_reverted block_not_reverted_validator ;!
  ret (CallExecution_retdata res).

Definition estimate_fee self (transactions : list BroadcastedTransaction) (simulation_flags : list SimulationFlag) (block_id : BlockId) :
    RpcExec (list FeeEstimation) :=
  let validate := negb (bool_decide (SimulationFlag_SkipValidate ∈ simulation_flags)) in
  let! storage_txn := begin_ro_txn in
  let! maybe_pending_data := requested_pending_data self block_id storage_txn in
  let! executable_txns := collect_results broadcasted_to_executable transactions in
  let! block_number := on_txn storage_txn (get_accepted_block_number block_id) in
  let! block_not_reverted_validator := on_txn storage_txn (BlockNotRevertedValidator_new block_number) in
  let state_number := unchecked_right_after_block block_number in
  let! estimate_fee_result := spawn_blocking (exec_estimate_fee executable_txns (server_chain_id self) maybe_pending_data state_number
    block_number (server_execution_config self) validate DONT_IGNORE_L1_DA_MODE) in
  validate_not_reverted block_not_reverted_validator ;!
  match estimate_fee_result with
  | inl (inl fees) => ret fees
  | inl (inr reverted_tx) =>
      raise (TransactionExecutionError_into (RevertedTransaction_index reverted_tx) (RevertedTransaction_revert_reason reverted_tx))
  | inr _ => raise internal_server_error
  end.

Definition simulate_transactions self (block_id : BlockId) (transactions : list BroadcastedTransaction)
    (simulation_flags : list SimulationFlag) : RpcExec (list SimulatedTransaction) :=
  let! executable_txns := collect_results broadcasted_to_executable transactions in
  let! storage_txn := begin_ro_txn in
  let! maybe_pending_data := requested_pending_data self block_id storage_txn in
  let! block_number := on_txn storage_txn (get_accepted_block_number block_id) in
  let! block_not_reverted_validator := on_txn storage_txn (BlockNotRevertedValidator_new block_number) in
  let state_number := unchecked_right_after_block block_number in
  let charge_fee := negb (bool_decide (SimulationFlag_SkipFeeCharge ∈ simulation_flags)) in
  let validate := negb (bool_decide (SimulationFlag_SkipValidate ∈ simulation_flags)) in
  let! simulated := spawn_blocking (exec_simulate_transactions executable_txns None (server_chain_id self) maybe_pending_data state_number
    block_number (server_execution_config self) charge_fee validate DONT_IGNORE_L1_DA_MODE) in
  let! simulation_results := try_from_result execution_error_to_error_object_owned simulated in
  validate_not_reverted block_not_reverted_validator ;!
  ret ((fun simulation_output =>
    mkSimulatedTransaction
      (RpcTransactionTrace_from (TransactionSimulationOutput_transaction_trace simulation_output)
         (TransactionSimulationOutput_induced_state_diff simulation_output))
      (TransactionSimulationOutput_fee_estimation simulation_output)) <$> simulation_results).

(** A transaction of the pending block. *)
Definition pending_to_executable (state_number : StateNumber) (client_transaction : ClientTransaction) : Rpc ExecutableTransactionInput :=
  let! starknet_api_transaction := internal_convert (convert_transaction client_transaction) in
  stored_txn_to_executable_txn starknet_api_transaction state_number.

(** What [trace_transaction] executes: the pending data, the transactions up to the one
    asked for, the hashes of the block, and the block with its state. *)
Definition traced_transactions self (transaction_hash : Z) :
    Rpc (option ExecutionPendingData * list ExecutableTransactionInput * list Z * Z * StateNumber) :=
  let! pending_data := read_pending_data (rpc_pending_data (server self)) in
  let pending_block := PendingData_block pending_data in
  match list_find (fun receipt => TransactionReceipt_transaction_hash receipt = transaction_hash) (pending_transaction_receipts pending_block) with
  | Some (pending_transaction_offset, _) =>
      let! latest := get_latest_block_number in
      let! block_number := ok_or_raise INVALID_TRANSACTION_HASH latest in
      let state_number := unchecked_right_after_block block_number in
      let! executable_transactions :=
        collect_results (pending_to_executable state_number)
          (take (pending_transaction_offset + 1) (pending_transactions pending_block)) in
      let transaction_hashes := TransactionReceipt_transaction_hash <$> pending_transaction_receipts pending_block in
      ret (Some (start_of_pending_block pending_block), executable_transactions, transaction_hashes, block_number, state_number)
  | None =>
      let! found := internal (get_transaction_idx_by_hash transaction_hash) in
      let! index := ok_or_raise TRANSACTION_HASH_NOT_FOUND found in
      let '(block_number, tx_offset) := index in
      let! found := internal (get_block_transactions block_number) in
      let! block_transactions := ok_or_raise internal_server_error found in
      let! found := internal (get_block_transaction_hashes block_number) in
      let! transaction_hashes := ok_or_raise internal_server_error found in
      let state_number := right_before_block block_number in
      let! executable_transactions :=
        collect_results (fun tx => stored_txn_to_executable_txn tx state_number) (take (Z.to_nat tx_offset + 1) block_transactions) in
      ret (None, executable_transactions, transaction_hashes, block_number, state_number)
  end.

Definition trace_transaction self (transaction_hash : Z) : RpcExec RpcTransactionTrace :=
  let! storage_txn := begin_ro_txn in
  let! traced := on_txn storage_txn (traced_transactions self transaction_hash) in
  let '(maybe_pending_data, executable_transactions, transaction_hashes, block_number, state_number) := traced in
  let! block_not_reverted_validator := on_txn storage_txn (BlockNotRevertedValidator_new block_number) in
  let! simulated := spawn_blocking (exec_simulate_transactions executable_transactions (Some transaction_hashes) (server_chain_id self)
    maybe_pending_data state_number block_number (server_execution_config self) true true DONT_IGNORE_L1_DA_MODE) in
  let! simulation_results := try_from_result execution_error_to_error_object_owned simulated in
  validate_not_reverted block_not_reverted_validator ;!
  let! simulation_result := expect (last simulation_results) in
  ret (RpcTransactionTrace_from (TransactionSimulationOutput_transaction_trace simulation_result)
         (TransactionSimulationOutput_induced_state_diff simulation_result)).

(** What [trace_block_transactions] executes. *)
Definition traced_block (maybe_client_pending_data : option PendingData) (block_number : Z) :
    Rpc (option ExecutionPendingData * list Transaction * list Z * StateNumber) :=
  match maybe_client_pending_data with
  | Some client_pending_data =>
      let block := PendingData_block client_pending_data in
      let! block_transactions := collect_results (fun tx => internal_convert (convert_transaction tx)) (pending_transactions block) in
      ret (Some (start_of_pending_block block), block_transactions,
           TransactionReceipt_transaction_hash <$> pending_transaction_receipts block, unchecked_right_after_block block_number)
  | None =>
      let! found := internal (get_block_transactions block_number) in
      let! block_transactions := ok_or_raise internal_server_error found in
      let! found := internal (get_block_transaction_hashes block_number) in
      let! transaction_hashes := ok_or_raise internal_server_error found in
      ret (None, block_transactions, transaction_hashes, right_before_block block_number)
  end.

Definition trace_block_transactions self (block_id : BlockId) : RpcExec (list TransactionTraceWithHash) :=
  let! storage_txn := begin_ro_txn in
  let! maybe_client_pending_data :=
    (if is_pending block_id then
       let! pending_data := on_txn storage_txn (read_pending_data (rpc_pending_data (server self))) in ret (Some pending_data)
     else ret None) in
  let! block_number := on_txn storage_txn (get_accepted_block_number block_id) in
  let! block_not_reverted_validator := on_txn storage_txn (BlockNotRevertedValidator_new block_number) in
  let! traced := on_txn storage_txn (traced_block maybe_client_pending_data block_number) in
  let '(maybe_pending_data, block_transactions, transaction_hashes, state_number) := traced in
  let! executable_txns := on_txn storage_txn (collect_results (fun tx => stored_txn_to_executable_txn tx state_number) block_transactions) in
  let! simulated := spawn_blocking (exec_simulate_transactions executable_txns (Some transaction_hashes) (server_chain_id self)
    maybe_pending_data state_number block_number (server_execution_config self) true true DONT_IGNORE_L1_DA_MODE) in
  let! simulation_results := try_from_result execution_error_to_error_object_owned simulated in
  validate_not_reverted block_not_reverted_validator ;!
  ret ((fun '(simulation_output, transaction_hash) =>
    mkTransactionTraceWithHash transaction_hash
      (RpcTransactionTrace_from (TransactionSimulationOutput_transaction_trace simulation_output)
         (TransactionSimulationOutput_induced_state_diff simulation_output))) <$> zip simulation_results transaction_hashes).

(** [v0_7/transaction.rs]. *)
Record MessageFromL1 : Type := mkMessageFromL1 {
  MessageFromL1_from_address : EthAddress;
  MessageFromL1_to_address : Z;
  MessageFromL1_entry_point_selector : Z;
  MessageFromL1_payload : list Z
}.

Definition eth_address_to_felt (eth_address : EthAddress) : Z := felt_from_bytes_be (replicate 12 0 ++ eth_address).

Definition L1HandlerTransaction_from_message (message : MessageFromL1) : L1HandlerTransaction := {|
  L1HandlerTransaction_version := 1;
  L1HandlerTransaction_nonce := 0;
  L1HandlerTransaction_contract_address := MessageFromL1_to_address message;
  L1HandlerTransaction_entry_point_selector := MessageFromL1_entry_point_selector message;
  L1HandlerTransaction_calldata := eth_address_to_felt (MessageFromL1_from_address message) :: MessageFromL1_payload message
|}.

Definition estimate_message_fee self (message : MessageFromL1) (block_id : BlockId) : RpcExec FeeEstimation :=
  let! storage_txn := begin_ro_txn in
  let! maybe_pending_data := requested_pending_data self block_id storage_txn in
  let executable_txns := [ExecutableTransactionInput_L1Handler (L1HandlerTransaction_from_message message) (2 ^ 128 - 1) false] in
  let! block_number := on_txn storage_txn (get_accepted_block_number block_id) in
  let! block_not_reverted_validator := on_txn storage_txn (BlockNotRevertedValidator_new block_number) in
  let state_number := unchecked_right_after_block block_number in
  let! estimate_fee_result := spawn_blocking (exec_estimate_fee executable_txns (server_chain_id self) maybe_pending_data state_number
    block_number (server_execution_config self) false DONT_IGNORE_L1_DA_MODE) in
  validate_not_reverted block_not_reverted_validator ;!
  match estimate_fee_result with
  | inl (inl fee_as_vec) =>
      if negb (zlength fee_as_vec =? 1) then raise internal_server_error
      else ok_or_raise internal_server_error (last fee_as_vec)
  | inl (inr reverted_tx) => raise (ContractError_into (RevertedTransaction_revert_reason reverted_tx))
  | inr _ => raise internal_server_error
  end.
End Execution.
