(* ===== verification/ExecutionProps.v ===== *)
(** * What execution guarantees

    Theorems on [Execution.v]: the executing methods work on one state of the chain
    while blocks are appended, and the trace of a transaction is the one in the trace
    of its block. Runs of the methods with a small blockifier show the hypotheses to
    be satisfiable. *)

From stdpp Require Import base gmap list strings fin_maps.
From Stdlib Require Import ZArith Lia.
From S2P Require Import Prelude StorageTables StarknetTypes StorageTxn Header Body BodyProps State StateProps ClientObjects ProtoCommon.
From S2P Require Import ProtoTransaction RpcConvert Rpc Sync SyncProps RpcProps Hashes Config NodeConfig Execution.
From S2P Require Import StorageWitnesses SyncWitnesses ProtoWitnesses RpcWitnesses HashWitnesses.

#[local] Open Scope Z_scope.

(** ** Computations that do not depend on the state *)

(** What a computation returns. *)
Definition value {S E A} (r : res S E A) : option (A + E) :=
  match r with
  | Done _ a => Some (inl a)
  | Fail _ e => Some (inr e)
  | Panic => None
  end.

(** The state is left alone and not looked at. *)
Definition stateless {S E A} (m : M S E A) : Prop :=
  (exists a, forall s, m s = Done s a) \/ (exists e, forall s, m s = Fail s e) \/ (forall s, m s = Panic).

Lemma stateless_ret {S E A} (a : A) : stateless (ret a : M S E A).
Proof. left. by exists a. Qed.

Lemma stateless_raise {S E A} (e : E) : stateless (raise e : M S E A).
Proof. right. left. by exists e. Qed.

Lemma stateless_panic {S E A} : stateless (panic : M S E A).
Proof. by right; right. Qed.

Lemma stateless_bind {S E A B} (m : M S E A) (k : A -> M S E B) : stateless m -> (forall a, stateless (k a)) -> stateless (bind m k).
Proof.
  intros [[a Ha]|[[e He]|Hp]] Hk.
  - destruct (Hk a) as [[b Hb]|[[e He]|Hp]]; [left; exists b|right; left; exists e|right; right]; intros s; unfold bind; rewrite Ha; auto.
  - right. left. exists e. intros s. unfold bind. by rewrite He.
  - right. right. intros s. unfold bind. by rewrite Hp.
Qed.

Lemma stateless_expect {S E A} (o : option A) : stateless (expect o : M S E A).
Proof. destruct o; [apply stateless_ret|apply stateless_panic]. Qed.

Lemma stateless_ok_or {S E A} (e : E) (o : option A) : stateless (ok_or_raise e o : M S E A).
Proof. destruct o; [apply stateless_ret|apply stateless_raise]. Qed.

#[local] Create HintDb stateless.
#[local] Hint Resolve stateless_ret stateless_raise stateless_panic stateless_expect stateless_ok_or : stateless.

Ltac stateless := repeat first [apply stateless_bind; [|intros] | solve [auto with stateless] | case_match].

Section Traces.
Context {X : ExternalTypes} {SN : StateNumberApi} {BT : BlockifierTypes} {HC : HashCrates} {S : Type}.

Lemma stateless_vm_resources r gas : stateless (vm_resources_to_execution_resources r gas : M S ExecutionError _).
Proof.
  unfold vm_resources_to_execution_resources, gas_try_into. apply stateless_bind; [|intros; stateless].
  generalize (∅ : gmap Builtin Z). induction (VmExecutionResources_builtin_instance_counter r) as [|[name count] l IH]; intros m; cbn [count_builtins]; [stateless|].
  case_match; [apply IH|]. apply stateless_bind; [unfold counted_builtin; stateless|]. intros o. apply IH.
Qed.

Lemma stateless_invocation : forall call_info gas, stateless (FunctionInvocation_try_from call_info gas : M S ExecutionError _).
Proof.
  fix IH 1. intros [call execution resources inner_calls] gas. cbn [FunctionInvocation_try_from].
  apply stateless_bind; [apply stateless_ok_or|]. intros class_hash. apply stateless_bind.
  - induction inner_calls as [|inner l IHl]; [apply stateless_ret|].
    apply stateless_bind; [apply IH|]. intros invocation. apply stateless_bind; [apply IHl|]. intros. apply stateless_ret.
  - intros calls. apply stateless_bind; [apply stateless_vm_resources|]. intros. apply stateless_ret.
Qed.

Hint Resolve stateless_invocation : stateless.

Lemma stateless_trace tx info : stateless (get_trace_constructor tx info : M S ExecutionError _).
Proof.
  destruct tx; cbn [get_trace_constructor];
    unfold InvokeTransactionTrace_try_from, DeclareTransactionTrace_try_from, DeployAccountTransactionTrace_try_from,
      L1HandlerTransactionTrace_try_from, optional_invocation; stateless.
Qed.
End Traces.

#[local] Hint Resolve stateless_trace : stateless.

(** ** Two storages that answer alike *)

Section Steady.
Context {BN : BlockNumberApi} {SN : StateNumberApi} {X : ExternalTypes} {SF : StorageFiles} {HS : HashSetIter}.
Context {SB : StarknetBlockApi} {SA : StateBeforeApi} {F : FeltApi} {TA : TransactionApi} {RC : RpcCrates} {HC : HashCrates}.
Context {JN : JsonNumberApi} {NT : NodeTypes} {BT : BlockifierTypes} {BF : Blockifier}.
Context (state_number : StateNumber) (n : Z) (Hn : 0 <= n).

(** What an execution at a state of the chain reads of the storage, alike in two
    sequences of snapshots. *)
Record views (σ σ' : nat -> StorageTxn) : Prop := {
  v_storage : forall k a key, value (get_storage_at state_number a key (σ k)) = value (get_storage_at state_number a key (σ' k));
  v_nonce : forall k a, value (get_nonce_at state_number a (σ k)) = value (get_nonce_at state_number a (σ' k));
  v_class_hash : forall k a, value (get_class_hash_at state_number a (σ k)) = value (get_class_hash_at state_number a (σ' k));
  v_class : forall k h, value (get_contract_class h state_number (σ k)) = value (get_contract_class h state_number (σ' k));
  v_declared : forall k h, value (get_class_definition_block_number h (σ k)) = value (get_class_definition_block_number h (σ' k));
  v_diff : forall k j h b, value (get_class_definition_block_number h (σ k)) = Some (inl (Some b)) ->
    value (get_state_diff b (σ j)) = value (get_state_diff b (σ' j));
  v_header : forall k b, 0 <= b <= n -> value (get_block_header b (σ k)) = value (get_block_header b (σ' k));
  v_version : forall k j header, value (get_block_header n (σ k)) = Some (inl (Some header)) ->
    value (get_starknet_version (BlockHeader_block_number header) (σ j)) = value (get_starknet_version (BlockHeader_block_number header) (σ' j))
}.

Lemma views_refl σ : views σ σ.
Proof. by split. Qed.

Context (σ σ' : nat -> StorageTxn) (Hv : views σ σ').

Definition aligned (w w' : World) : Prop :=
  snapshot_at w = σ /\ snapshot_at w' = σ' /\ transactions_begun w = transactions_begun w' /\ missing_compiled_class w = missing_compiled_class w'.

(** The same outcome on both, with a property of the value. *)
Definition steady {E A} (P : A -> Prop) (m : M World E A) : Prop :=
  forall w w', aligned w w' ->
    match m w, m w' with
    | Done v a, Done v' a' => aligned v v' /\ a = a' /\ P a
    | Fail v e, Fail v' e' => aligned v v' /\ e = e'
    | Panic, Panic => True
    | _, _ => False
    end.

Abbreviation steady_any := (steady (fun _ => True)).

Lemma steady_bind {E A B} (P : A -> Prop) (Q : B -> Prop) (m : M World E A) (k : A -> M World E B) :
  steady P m -> (forall a, P a -> steady Q (k a)) -> steady Q (bind m k).
Proof.
  intros Hm Hk w w' Hw. specialize (Hm w w' Hw). unfold bind. destruct (m w) as [v a|v e|], (m w') as [v' a'|v' e'|]; try done.
  destruct Hm as (Hv' & <- & HP). by apply Hk.
Qed.

Lemma steady_weaken {E A} (P Q : A -> Prop) (m : M World E A) : steady P m -> (forall a, P a -> Q a) -> steady Q m.
Proof. intros Hm Hpq w w' Hw. specialize (Hm w w' Hw). destruct (m w), (m w'); try done. naive_solver. Qed.

Lemma steady_stateless {E A} (m : M World E A) : stateless m -> steady_any m.
Proof. intros [[a Ha]|[[e He]|Hp]] w w' Hw; [rewrite !Ha|rewrite !He|rewrite !Hp]; done. Qed.

Lemma steady_ret {E A} (P : A -> Prop) (a : A) : P a -> steady (E := E) P (ret a).
Proof. by intros HP w w' Hw. Qed.

Lemma steady_set_missing {E} o : steady_any (set_missing o : M World E unit).
Proof. intros w w' (H1 & H2 & H3 & H4). by repeat split. Qed.

Lemma steady_read {E E' A} (f : E -> E') (m : M StorageTxn E A) :
  (forall k, value (m (σ k)) = value (m (σ' k))) ->
  steady (fun a => exists k, value (m (σ k)) = Some (inl a)) (let! txn := begin_ro_txn in map_err f (on_txn txn m)).
Proof.
  intros Hm w w' (H1 & H2 & H3 & H4). unfold bind, begin_ro_txn, map_err, on_txn. rewrite H1, H2, <-H3.
  specialize (Hm (transactions_begun w)). unfold value in *.
  destruct (m (σ _)) as [t a|t e|] eqn:Hs; destruct (m (σ' _)) as [t' a'|t' e'|]; cbn [on_txn]; try discriminate Hm; [| |exact I].
  - injection Hm as <-. split; [repeat split; cbn; congruence|]. split; [done|]. exists (transactions_begun w). by rewrite Hs.
  - injection Hm as <-. split; [repeat split; cbn; congruence|done].
Qed.

Lemma steady_exec_read {A} (m : Txn A) :
  (forall k, value (m (σ k)) = value (m (σ' k))) -> steady (fun a => exists k, value (m (σ k)) = Some (inl a)) (exec_read m).
Proof. apply steady_read. Qed.

Lemma steady_read_any {A} (m : Txn A) : (forall k, value (m (σ k)) = value (m (σ' k))) -> steady_any (read_storage m).
Proof. intros Hm. eapply steady_weaken; [by apply steady_read|done]. Qed.

(** *** The state reader *)

Lemma value_ret {S E A} (a : A) (s : S) : value ((ret a : M S E A) s) = Some (inl a).
Proof. done. Qed.

Lemma steady_contract_class self class_hash : reader_state_number self = state_number ->
  steady_any (state_get_compiled_contract_class self class_hash).
Proof.
  intros Hself. unfold state_get_compiled_contract_class.
  destruct (_ ≫= _) as [casm|]; [unfold try_from_result; apply steady_stateless; stateless|].
  assert (Hread : steady_any (let! txn := begin_ro_txn in
    fun w => match on_txn txn (get_contract_class class_hash (reader_state_number self)) w with
      | Done w (Some contract_class) => Done w contract_class
      | Done w None => Fail w (StateError_UndeclaredClassHash class_hash)
      | Fail w ExecutionUtilsError_CasmTableNotSynced => (set_missing (Some class_hash) ;! raise StateError_StateReadError) w
      | Fail w (ExecutionUtilsError_ProgramError err) => Fail w (StateError_ProgramError err)
      | Fail w (ExecutionUtilsError_StorageError err) => Fail w (storage_err_to_state_err err)
      | Panic => Panic
      end)).
  { intros w w' (H1 & H2 & H3 & H4). unfold bind, begin_ro_txn, on_txn. rewrite H1, H2, <-H3, Hself.
    pose proof (v_class _ _ Hv (transactions_begun w) class_hash) as Hc. unfold value in Hc.
    destruct (get_contract_class _ _ (σ _)) as [? [?|]|? [?|?|]|], (get_contract_class _ _ (σ' _)) as [? [?|]|? [?|?|]|]; simplify_eq; try done;
      (split; [repeat split; cbn; congruence|done]). }
  destruct (_ ≫= _) as [[?|?]|]; try exact Hread. unfold try_from_result. apply steady_stateless. stateless.
Qed.

Lemma steady_compiled_class_hash self class_hash : steady_any (state_get_compiled_class_hash self class_hash).
Proof.
  unfold state_get_compiled_class_hash. destruct (_ ≫= _); [by apply steady_ret|].
  apply (steady_bind (fun a => exists k, value (get_class_definition_block_number class_hash (σ k)) = Some (inl a))).
  { apply steady_read. intros k. apply (v_declared _ _ Hv). }
  intros [b|] [k Hk]; cbn [ok_or_raise]; [|by intros w w' Hw].
  apply (steady_bind (fun b' => b' = b)); [by apply steady_ret|]. intros ? ->.
  apply (steady_bind (fun _ => True)); [apply steady_read_any; intros j; by apply (v_diff _ _ Hv k j class_hash)|].
  intros found _. apply steady_stateless. stateless.
Qed.

Lemma steady_answer self query : reader_state_number self = state_number -> steady_any (answer self query).
Proof.
  intros Hself. destruct query; cbn [answer].
  - unfold state_get_storage_at, exec_get_storage_at. rewrite Hself. apply steady_read_any. intros k. case_match; [done|]. apply (v_storage _ _ Hv).
  - unfold state_get_nonce_at. eapply steady_bind; [|intros; by apply steady_ret]. unfold exec_get_nonce_at. rewrite Hself. apply steady_read_any. intros k.
    case_match; [by case_match|]. apply (v_nonce _ _ Hv).
  - unfold state_get_class_hash_at. eapply steady_bind; [|intros; by apply steady_ret]. unfold exec_get_class_hash_at. rewrite Hself. apply steady_read_any.
    intros k. repeat case_match; try done; apply (v_class_hash _ _ Hv).
  - by apply steady_contract_class.
  - apply steady_compiled_class_hash.
Qed.

Lemma steady_run_prog {E A} self (p : StateProg A) : reader_state_number self = state_number -> steady_any (run_prog self p : M World E A).
Proof.
  intros Hself. induction p as [a|query k IH|]; intros w w' Hw; cbn [run_prog]; [done| |done].
  pose proof (steady_answer self query Hself w w' Hw) as Ha.
  destruct (answer self query w) as [v a|v e|], (answer self query w') as [v' a'|v' e'|]; try done.
  - destruct Ha as (Hv' & <- & _). by apply IH.
  - destruct Ha as (Hv' & <-). by apply IH.
Qed.

(** *** The execution of blocks and transactions *)

Context (self : ExecutionStateReader) (Hself : reader_state_number self = state_number).

Lemma steady_execution_failed {A} error : steady_any (execution_failed error : M World ExecutionError A).
Proof. intros w w' Hw. unfold execution_failed. pose proof Hw as (_ & _ & _ & ->). destruct (missing_compiled_class w') eqn:?; done. Qed.

Lemma steady_10_blocks_ago : steady_any (get_10_blocks_ago n).
Proof.
  unfold get_10_blocks_ago. destruct (n <? 10) eqn:Hten; [by apply steady_ret|]. apply Z.ltb_ge in Hten.
  eapply steady_bind; [apply steady_exec_read; intros k; apply (v_header _ _ Hv); lia|].
  intros [header|] _; by apply steady_ret.
Qed.

(** With pending data, the version of the next block is read as well. *)
Definition next_version_same (maybe_pending_data : option ExecutionPendingData) : Prop :=
  is_Some maybe_pending_data -> forall k,
    value (get_starknet_version (bn_unchecked_next n) (σ k)) = value (get_starknet_version (bn_unchecked_next n) (σ' k)).

Lemma steady_create_block_context cached_state chain_id maybe_pending_data execution_config override : next_version_same maybe_pending_data ->
  steady_any (create_block_context self cached_state n chain_id maybe_pending_data execution_config override).
Proof.
  intros Hnext. unfold create_block_context.
  apply (steady_bind (fun fields => forall j, value (get_starknet_version fields.1.1.1.1.1 (σ j)) = value (get_starknet_version fields.1.1.1.1.1 (σ' j)))).
  { destruct maybe_pending_data as [pending|]; cbn [block_fields]; [apply steady_ret; by apply Hnext|].
    eapply steady_bind; [apply steady_exec_read; intros k; apply (v_header _ _ Hv); lia|].
    intros [header|] [k Hk]; cbn [expect]; [|by intros w w' Hw].
    apply (steady_bind (fun a => a = header)); [by apply steady_ret|]. intros ? ->. apply steady_ret. intros j. by apply (v_version _ _ Hv k). }
  intros [[[[[block_number timestamp] gas] data_gas] sequencer] mode] Hversion. cbn [fst] in Hversion.
  eapply steady_bind; [apply steady_10_blocks_ago|]. intros ten _.
  eapply steady_bind; [by apply steady_exec_read|]. intros version _.
  eapply (steady_bind (fun _ => True)).
  { unfold get_versioned_constants, VERSIONED_CONSTANTS_13_0, VERSIONED_CONSTANTS_13_1. apply steady_stateless. stateless. }
  intros constants _. eapply steady_bind; [by apply steady_run_prog|]. intros [state' error] _. cbn [fst snd].
  apply steady_stateless. stateless.
Qed.

Lemma steady_split_contracts l deployed replaced st : steady_any (split_contracts self l deployed replaced st).
Proof.
  revert deployed replaced st. induction l as [|[address class_hash] l IH]; intros deployed replaced st; cbn [split_contracts]; [by apply steady_ret|].
  eapply steady_bind; [by apply steady_run_prog|]. intros [st' r] _. cbn [fst snd].
  eapply (steady_bind (fun _ => True)); [unfold try_from_result; apply steady_stateless; stateless|]. intros prev _. case_match; apply IH.
Qed.

Lemma steady_induced st h : steady_any (induced_state_diff self st h).
Proof.
  unfold induced_state_diff. eapply steady_bind; [by apply steady_run_prog|]. intros [st' r] _. cbn [fst snd].
  eapply (steady_bind (fun _ => True)); [unfold try_from_result; apply steady_stateless; stateless|]. intros diff _.
  eapply steady_bind; [apply steady_split_contracts|]. intros [st2 [deployed replaced]] _. by apply steady_ret.
Qed.

Lemma stateless_to_blockifier_tx tx tx_hash i : stateless (to_blockifier_tx tx tx_hash i).
Proof. destruct tx; cbn [to_blockifier_tx]; unfold api_transaction, class_info_of, try_from_result; stateless. Qed.

Lemma steady_execute_transaction ctx charge_fee validate i tx tx_hash st :
  steady_any (execute_transaction self ctx charge_fee validate i tx tx_hash st).
Proof.
  unfold execute_transaction. eapply steady_bind; [apply steady_stateless, stateless_to_blockifier_tx|]. intros btx _.
  eapply steady_bind; [by apply steady_run_prog|]. intros [st' r] _. cbn [fst snd].
  eapply steady_bind; [apply steady_induced|]. intros [st2 diff] _. cbn [fst snd].
  eapply (steady_bind (fun _ => True)); [destruct r; [by apply steady_ret|apply steady_execution_failed]|]. intros info _. by apply steady_ret.
Qed.

Lemma steady_execute_loop ctx charge_fee validate i txs st : steady_any (execute_loop self ctx charge_fee validate i txs st).
Proof.
  revert i st. induction txs as [|[tx tx_hash] txs IH]; intros i st; cbn [execute_loop]; [by apply steady_ret|].
  eapply steady_bind; [apply steady_execute_transaction|]. intros [st' output] _. cbn [fst snd].
  eapply steady_bind; [apply IH|]. intros outputs _. by apply steady_ret.
Qed.

Lemma stateless_calc_tx_hashes txs chain_id : stateless (calc_tx_hashes txs chain_id).
Proof.
  unfold calc_tx_hashes. apply stateless_bind; [|intros; stateless]. induction txs as [|tx txs IH]; cbn [collect_results]; [stateless|].
  apply stateless_bind; [|intros; apply stateless_bind; [apply IH|intros; stateless]].
  unfold calc_tx_hash, apply_on_transaction. destruct (as_transaction tx). stateless.
Qed.
End Steady.

Section OneState.
Context {BN : BlockNumberApi} {SN : StateNumberApi} {X : ExternalTypes} {SF : StorageFiles} {HS : HashSetIter}.
Context {SB : StarknetBlockApi} {SA : StateBeforeApi} {F : FeltApi} {TA : TransactionApi} {RC : RpcCrates} {HC : HashCrates}.
Context {JN : JsonNumberApi} {NT : NodeTypes} {BT : BlockifierTypes} {BF : Blockifier}.
Context (state_number : StateNumber) (n : Z) (Hn : 0 <= n) (σ σ' : nat -> StorageTxn) (Hv : views state_number n σ σ').

Context (maybe_pending_data : option ExecutionPendingData) (Hnext : next_version_same n σ σ' maybe_pending_data).

Abbreviation steady_any := (steady σ σ' (fun _ => True)).

Lemma steady_execute_transactions txs tx_hashes chain_id config charge_fee validate override :
  steady_any (execute_transactions txs tx_hashes chain_id maybe_pending_data state_number n config charge_fee validate override).
Proof.
  unfold execute_transactions. eapply steady_bind; [apply steady_set_missing|]. intros _ _.
  eapply steady_bind; [by eapply steady_create_block_context|]. intros [st ctx] _.
  eapply (steady_bind _ _ (fun _ => True)); [destruct tx_hashes; [by apply steady_ret|apply steady_stateless, stateless_calc_tx_hashes]|]. intros hashed _.
  eapply steady_bind; [by eapply steady_execute_loop|]. intros outputs _. by apply steady_ret.
Qed.

Lemma stateless_collect {S E A B} (f : A -> M S E B) l : (forall a, stateless (f a)) -> stateless (collect_results f l).
Proof. intros Hf. induction l; cbn [collect_results]; [apply stateless_ret|]. apply stateless_bind; [apply Hf|]. intros. apply stateless_bind; [done|]. intros. apply stateless_ret. Qed.

Lemma stateless_simulation_output ctx p : stateless (simulation_output ctx p).
Proof. destruct p. unfold simulation_output. apply stateless_bind; [apply stateless_trace|]. intros. apply stateless_ret. Qed.

Lemma steady_simulate txs tx_hashes chain_id config charge_fee validate override :
  steady_any (exec_simulate_transactions txs tx_hashes chain_id maybe_pending_data state_number n config charge_fee validate override).
Proof.
  unfold exec_simulate_transactions. eapply steady_bind; [apply steady_execute_transactions|]. intros executed _.
  apply steady_stateless, stateless_collect, stateless_simulation_output.
Qed.

Lemma steady_estimate txs chain_id config validate override :
  steady_any (exec_estimate_fee txs chain_id maybe_pending_data state_number n config validate override).
Proof. unfold exec_estimate_fee. eapply steady_bind; [apply steady_execute_transactions|]. intros executed _. by apply steady_ret. Qed.

Lemma steady_call chain_id address selector calldata config override :
  steady_any (execute_call maybe_pending_data chain_id state_number n address selector calldata config override).
Proof.
  unfold execute_call. eapply (steady_bind _ _ (fun _ => True)).
  { unfold verify_contract_exists. eapply steady_bind; [apply steady_exec_read; intros k; unfold exec_get_class_hash_at; repeat case_match; try done; apply (v_class_hash _ _ _ _ Hv)|].
    intros o _. apply steady_stateless. stateless. }
  intros _ _. eapply steady_bind; [apply steady_set_missing|]. intros _ _.
  eapply steady_bind; [by eapply steady_create_block_context|]. intros [st ctx] _.
  eapply (steady_bind _ _ (fun _ => True)); [unfold try_from_result; apply steady_stateless; stateless|]. intros context _.
  eapply steady_bind; [by eapply steady_run_prog|]. intros [st' [info|error]] _; [by apply steady_ret|]. apply steady_execution_failed.
Qed.
End OneState.

(** ** One state during an execution *)

Lemma lookup_z_app_l {A} (l1 l2 : list A) i : i < zlength l1 -> lookup_z (l1 ++ l2) i = lookup_z l1 i.
Proof. unfold lookup_z, zlength. intros Hi. case_cmp; [|done]. apply lookup_app_l. lia. Qed.

Lemma last_change_app {V} (f : ThinStateDiff -> option V) ds later m : m <= zlength ds -> last_change f (ds ++ later) m = last_change f ds m.
Proof. unfold last_change, zlength. intros Hm. by rewrite take_app_le by lia. Qed.

Section Concurrent.
Context {BN : BlockNumberApi} {SN : StateNumberApi} {X : ExternalTypes} {SF : StorageFiles} {HS : HashSetIter}.
Context {SB : StarknetBlockApi} {SA : StateBeforeApi} {F : FeltApi} {TA : TransactionApi} {RC : RpcCrates} {HC : HashCrates}.
Context {JN : JsonNumberApi} {NT : NodeTypes} {BT : BlockifierTypes} {BF : Blockifier}.

(** The storage stays what it is when the next transaction is opened. *)
Definition frozen (w : World) : World :=
  mkWorld (fun _ => snapshot_at w (transactions_begun w)) (transactions_begun w) (missing_compiled_class w).

(** Blocks may be appended behind the given ones, none of these is reverted. *)
Definition only_appended (ds : list ThinStateDiff) (hs : HeaderChain) (w : World) : Prop :=
  forall k, exists later headers, state_rel (snapshot_at w k) (ds ++ later) /\ header_rel (snapshot_at w k) (hs ++ headers).

(** The classes an execution can ask for do not change. *)
Record classes_settled (state_number : StateNumber) (bound : Z) (w : World) : Prop := {
  cs_declared : forall k j, t_declared_classes_block (snapshot_at w k) = t_declared_classes_block (snapshot_at w j);
  cs_bound : forall k h b, t_declared_classes_block (snapshot_at w k) !! h = Some b -> b < bound;
  cs_casm : forall k j h, value (get_casm h (snapshot_at w k)) = value (get_casm h (snapshot_at w j));
  cs_deprecated : forall k j h, value (get_deprecated_class_definition_at state_number h (snapshot_at w k)) =
    value (get_deprecated_class_definition_at state_number h (snapshot_at w j))
}.

Lemma value_bind_map_err {S E E' A B} (f : E -> E') (m : M S E A) (k : A -> M S E' B) s :
  (forall s' a, m s = Done s' a -> s' = s) ->
  value (bind (map_err f m) k s) = match value (m s) with
                                   | Some (inl a) => value (k a s)
                                   | Some (inr e) => Some (inr (f e))
                                   | None => None
                                   end.
Proof. intros Hm. unfold bind, map_err. destruct (m s) as [s' a|s' e|] eqn:Hs; [|done|done]. cbn. by rewrite (Hm s' a eq_refl). Qed.

(** The readers leave the transaction alone. *)
Lemma get_casm_same h t t' a : get_casm h t = Done t' a -> t' = t.
Proof. unfold get_casm, get_unchecked, bind, get, ret, raise. intros H. repeat case_match; by simplify_eq. Qed.

Lemma get_deprecated_same sn h t t' a : get_deprecated_class_definition_at sn h t = Done t' a -> t' = t.
Proof. unfold get_deprecated_class_definition_at, get_unchecked, bind, get, ret, raise. intros H. repeat case_match; by simplify_eq. Qed.

Lemma value_declared h t : value (get_class_definition_block_number h t) = Some (inl (t_declared_classes_block t !! h)).
Proof. done. Qed.

Lemma value_try {S E E' A} (f : E -> E') (r : A + E) (s : S) :
  value (bind (try_from_result f r) (fun a => ret (Some a)) s) = Some (match r with inl a => inl (Some a) | inr e => inr (f e) end).
Proof. by destruct r. Qed.

Lemma contract_class_settled sn bound w k j h : classes_settled sn bound w ->
  value (get_contract_class h sn (snapshot_at w k)) = value (get_contract_class h sn (snapshot_at w j)).
Proof.
  intros Hc. unfold get_contract_class. rewrite !value_bind_map_err by (intros ? ? [=]; done). rewrite !value_declared, (cs_declared _ _ _ Hc k j).
  destruct (t_declared_classes_block _ !! h) as [b|].
  - case_match; [done|]. rewrite !value_bind_map_err by (intros; by eapply get_casm_same). rewrite (cs_casm _ _ _ Hc k j).
    destruct (value _) as [[[c|]|e]|]; [by rewrite !value_try|done|done|done].
  - rewrite !value_bind_map_err by (intros; by eapply get_deprecated_same). rewrite (cs_deprecated _ _ _ Hc k j).
    destruct (value _) as [[[c|]|e]|]; [by rewrite !value_try|done|done|done].
Qed.

Lemma appended_views state_number ds hs n w x :
  0 <= n < 2 ^ 32 -> block_after state_number <= zlength ds ->
  lookup_z hs n = Some x -> BlockHeader_block_number x.1 = n ->
  only_appended ds hs w -> classes_settled state_number (zlength ds) w ->
  views state_number n (snapshot_at w) (snapshot_at (frozen w)).
Proof.
  intros Hn Hstate Hx Hnumber Happ Hc. pose proof (lookup_z_Some _ _ _ Hx) as Hbound. cbn [frozen snapshot_at].
  assert (Hheader : forall k b, 0 <= b <= n -> value (get_block_header b (snapshot_at w k)) = Some (inl (fst <$> lookup_z hs b))).
  { intros k b Hb. destruct (Happ k) as (later & headers & _ & Hh). rewrite (get_block_header_rel _ _ _ Hh) by lia.
    by rewrite lookup_z_app_l by lia. }
  split.
  - intros k a key. destruct (Happ k) as (later & headers & Hs & _), (Happ (transactions_begun w)) as (later' & headers' & Hs' & _).
    by rewrite (get_storage_at_rel _ _ _ _ _ Hs), (get_storage_at_rel _ _ _ _ _ Hs'), !last_change_app.
  - intros k a. destruct (Happ k) as (later & headers & Hs & _), (Happ (transactions_begun w)) as (later' & headers' & Hs' & _).
    by rewrite (get_nonce_at_rel _ _ _ _ Hs), (get_nonce_at_rel _ _ _ _ Hs'), !last_change_app.
  - intros k a. destruct (Happ k) as (later & headers & Hs & _), (Happ (transactions_begun w)) as (later' & headers' & Hs' & _).
    by rewrite (get_class_hash_at_rel _ _ _ _ Hs), (get_class_hash_at_rel _ _ _ _ Hs'), !last_change_app.
  - intros k h. by apply (contract_class_settled _ (zlength ds)).
  - intros k h. by rewrite !value_declared, (cs_declared _ _ _ Hc k (transactions_begun w)).
  - intros k j h b. rewrite value_declared. intros [= Hb]. apply (cs_bound _ _ _ Hc) in Hb.
    destruct (Happ j) as (later & headers & Hs & _), (Happ (transactions_begun w)) as (later' & headers' & Hs' & _).
    by rewrite (get_state_diff_rel _ _ _ Hs), (get_state_diff_rel _ _ _ Hs'), !lookup_z_app_l.
  - intros k b Hb. by rewrite !Hheader by lia.
  - intros k j header. rewrite Hheader by lia. rewrite Hx. intros [= <-]. rewrite Hnumber.
    destruct (Happ j) as (later & headers & _ & Hh), (Happ (transactions_begun w)) as (later' & headers' & _ & Hh').
    by rewrite (get_starknet_version_rel _ _ _ Hh), (get_starknet_version_rel _ _ _ Hh'), !lookup_z_app_l by lia.
Qed.

Lemma steady_value {E A} (m : M World E A) w : steady (snapshot_at w) (snapshot_at (frozen w)) (fun _ => True) m -> value (m w) = value (m (frozen w)).
Proof.
  intros Hm. specialize (Hm w (frozen w)). unfold value. destruct (m w), (m (frozen w)); destruct Hm; try done; naive_solver.
Qed.

(** C13: An execution at a state of the chain, of transactions or of a call: while it runs,
    the synchronisation may append blocks between any two of its reads, as long as no
    block up to the one it is about is reverted and no class arrives (and, with pending
    data, the Starknet version of the next block stays what it is); it ends as if the
    storage had not changed, for every blockifier. *)
Theorem execution_sees_one_state state_number ds hs n w x pending :
  0 <= n < 2 ^ 32 -> block_after state_number <= zlength ds ->
  lookup_z hs n = Some x -> BlockHeader_block_number x.1 = n ->
  only_appended ds hs w -> classes_settled state_number (zlength ds) w ->
  next_version_same n (snapshot_at w) (snapshot_at (frozen w)) pending ->
  (forall txs tx_hashes chain_id config charge_fee validate override,
    value (exec_simulate_transactions txs tx_hashes chain_id pending state_number n config charge_fee validate override w) =
    value (exec_simulate_transactions txs tx_hashes chain_id pending state_number n config charge_fee validate override (frozen w))) /\
  (forall txs chain_id config validate override,
    value (exec_estimate_fee txs chain_id pending state_number n config validate override w) =
    value (exec_estimate_fee txs chain_id pending state_number n config validate override (frozen w))) /\
  (forall chain_id address selector calldata config override,
    value (execute_call pending chain_id state_number n address selector calldata config override w) =
    value (execute_call pending chain_id state_number n address selector calldata config override (frozen w))).
Proof.
  intros Hn Hstate Hx Hnumber Happ Hc Hnext. assert (Hv : views state_number n (snapshot_at w) (snapshot_at (frozen w))) by by eapply appended_views.
  split_and!; intros; apply steady_value; [eapply steady_simulate|eapply steady_estimate|eapply steady_call]; try done; lia.
Qed.
End Concurrent.

(** ** A run of the first transactions is the start of a run of all *)

Section Prefix.
Context {BN : BlockNumberApi} {SN : StateNumberApi} {X : ExternalTypes} {SF : StorageFiles} {HS : HashSetIter}.
Context {SB : StarknetBlockApi} {SA : StateBeforeApi} {F : FeltApi} {TA : TransactionApi} {RC : RpcCrates} {HC : HashCrates}.
Context {JN : JsonNumberApi} {NT : NodeTypes} {BT : BlockifierTypes} {BF : Blockifier}.

Lemma collect_app {S E A B} (f : A -> M S E B) l1 l2 s s' ys : collect_results f (l1 ++ l2) s = Done s' ys ->
  exists s1 ys1 ys2, collect_results f l1 s = Done s1 ys1 /\ collect_results f l2 s1 = Done s' ys2 /\ ys = ys1 ++ ys2 /\ length ys1 = length l1.
Proof.
  revert s ys. induction l1 as [|x l1 IH]; intros s ys Hrun; cbn [app collect_results] in *; [by exists s, [], ys|].
  inv_run. destruct (IH _ _ H0) as (s1 & ys1 & ys2 & H1 & H2 & -> & Hlen).
  exists s1, (a :: ys1), ys2. rewrite (bind_step _ _ _ _ _ H), (bind_step _ _ _ _ _ H1). cbn. by rewrite Hlen.
Qed.

Lemma collect_length {S E A B} (f : A -> M S E B) l s s' ys : collect_results f l s = Done s' ys -> length ys = length l.
Proof. intros H. rewrite <-(app_nil_r l) in H. apply collect_app in H as (s1 & ys1 & ys2 & H1 & H2 & -> & Hlen). cbn in H2. unfold ret in H2. simplify_eq. by rewrite app_nil_r. Qed.

Lemma execute_loop_app self ctx charge_fee validate i txs1 txs2 st w w' outputs :
  execute_loop self ctx charge_fee validate i (txs1 ++ txs2) st w = Done w' outputs ->
  exists w1 outputs1 outputs2, execute_loop self ctx charge_fee validate i txs1 st w = Done w1 outputs1 /\
    outputs = outputs1 ++ outputs2 /\ length outputs1 = length txs1.
Proof.
  revert i st w outputs. induction txs1 as [|[tx tx_hash] txs1 IH]; intros i st w outputs Hrun; cbn [app execute_loop] in *; [by exists w, [], outputs|].
  inv_run. destruct (IH _ _ _ _ H0) as (w1 & outputs1 & outputs2 & H1 & -> & Hlen).
  exists w1, (a.2 :: outputs1), outputs2. rewrite (bind_step _ _ _ _ _ H), (bind_step _ _ _ _ _ H1). cbn. by rewrite Hlen.
Qed.

Lemma execute_loop_length self ctx charge_fee validate i txs st w w' outputs :
  execute_loop self ctx charge_fee validate i txs st w = Done w' outputs -> length outputs = length txs.
Proof.
  revert i st w outputs. induction txs as [|[tx tx_hash] txs IH]; intros i st w outputs Hrun; cbn [execute_loop] in Hrun; inv_run; [done|].
  cbn. f_equal. by eapply IH.
Qed.

Lemma zip_app_le {A B} (l1 l2 : list A) (k : list B) : (length l1 <= length k)%nat -> zip (l1 ++ l2) k = zip l1 k ++ zip l2 (drop (length l1) k).
Proof. revert k. induction l1 as [|x l1 IH]; intros [|y k] Hk; cbn in *; [done|done|lia|]. f_equal. apply IH. lia. Qed.

Lemma stateless_done {S E A} (m : M S E A) s s' a s1 : stateless m -> m s = Done s' a -> m s1 = Done s1 a.
Proof. intros [[b Hb]|[[e He]|Hp]]; [rewrite !Hb|rewrite He|rewrite Hp]; naive_solver. Qed.

Lemma simulate_prefix txs1 txs2 hashes chain_id pending state_number n config charge_fee validate override w w' sims :
  (length (txs1 ++ txs2) <= length hashes)%nat ->
  exec_simulate_transactions (txs1 ++ txs2) (Some hashes) chain_id pending state_number n config charge_fee validate override w = Done w' sims ->
  length sims = length (txs1 ++ txs2) /\
  exists w1, exec_simulate_transactions txs1 (Some hashes) chain_id pending state_number n config charge_fee validate override w =
    Done w1 (take (length txs1) sims).
Proof.
  intros Hlen Hrun. unfold exec_simulate_transactions, execute_transactions in *. inv_run.
  destruct a1 as [st ctx]. inv_run. cbn [fst snd] in *. rewrite length_app in Hlen.
  pose proof (execute_loop_length _ _ _ _ _ _ _ _ _ _ H3) as Hout. rewrite length_zip_with, length_app in Hout.
  rewrite zip_app_le in H3 by lia. apply execute_loop_app in H3 as (w1 & outputs1 & outputs2 & Hloop & -> & Hlen1).
  rewrite length_zip_with in Hlen1.
  rewrite length_app in Hout.
  split; [apply collect_length in Hrun; rewrite Hrun, length_zip_with, !length_app; lia|].
  rewrite (zip_with_app pair outputs1 outputs2 txs1 txs2) in Hrun by lia. apply collect_app in Hrun as (s3 & sims1 & sims2 & Hc1 & _ & -> & Hlen2).
  rewrite length_zip_with in Hlen2.
  exists w1. erewrite bind_step; [|erewrite bind_step by exact H0; erewrite bind_step by exact H1; cbn [fst snd]; rewrite bind_ret; cbn [fst snd]; erewrite bind_step by exact Hloop; reflexivity].
  cbn [fst snd]. rewrite take_app_length' by lia. eapply stateless_done; [apply stateless_collect, stateless_simulation_output|exact Hc1].
Qed.

(** *** The worlds of the methods *)

Lemma next_version_refl n σ pending : next_version_same n σ σ pending.
Proof. done. Qed.

Lemma simulate_keeps txs hashes chain_id pending state_number n config charge_fee validate override w w' sims : 0 <= n ->
  exec_simulate_transactions txs hashes chain_id pending state_number n config charge_fee validate override w = Done w' sims ->
  snapshot_at w' = snapshot_at w.
Proof.
  intros Hn Hrun. pose proof (steady_simulate state_number n Hn (snapshot_at w) (snapshot_at w) (views_refl _ _ _) pending
    (next_version_refl _ _ _) txs hashes chain_id config charge_fee
    validate override w w) as Hs. rewrite Hrun in Hs. by destruct Hs as [(Hs & _) _].
Qed.

Lemma on_txn_done {E A} txn (m : M StorageTxn E A) txn' a w : m txn = Done txn' a -> on_txn txn m w = Done w a.
Proof. unfold on_txn. by intros ->. Qed.

Lemma on_txn_inv {E A} txn (m : M StorageTxn E A) a w w' : on_txn txn m w = Done w' a -> w' = w /\ exists txn', m txn = Done txn' a.
Proof. unfold on_txn. destruct (m txn); [|done|done]. intros [= <- <-]. eauto. Qed.

Lemma spawn_inv {A} (m : M World ExecutionError A) (a : A) w w' : spawn_blocking m w = Done w' (inl a) -> m w = Done w' a.
Proof. unfold spawn_blocking. by destruct (m w); intros [= <- <-]. Qed.

Lemma spawn_done {A} (m : M World ExecutionError A) (a : A) w w' : m w = Done w' a -> spawn_blocking m w = Done w' (inl a).
Proof. unfold spawn_blocking. by intros ->. Qed.

Context {EC : ExecCrates} (storage : StorageTxn) (l : HeaderChain) (bs : BodyChain) (ds : list ThinStateDiff).
Context (Hs : sync_rel storage l bs ds) (Hlen : zlength l < 2 ^ 32).

(** The storage does not change. *)
Definition at_rest (w : World) : Prop := forall k, snapshot_at w k = storage.

Lemma validate_at_rest validator w w' v : at_rest w -> snapshot_at v = snapshot_at w -> validate_not_reverted validator w = Done w' tt ->
  exists v', validate_not_reverted validator v = Done v' tt.
Proof.
  intros Hw Hsv. unfold validate_not_reverted, begin_ro_txn, bind. rewrite Hsv, !Hw. unfold on_txn.
  destruct (internal _ storage) as [t [header|]| |]; cbn; try done. case_match; [|done]. by eexists.
Qed.

(** What the trace of a block that ended well went through. *)
Lemma trace_block_inv self block_id b body w w' traces :
  at_rest w -> block_id_ok block_id -> is_pending block_id = false -> resolve l ds block_id = Some b -> lookup_z bs b = Some body ->
  trace_block_transactions self block_id w = Done w' traces ->
  exists txn1 validator txn2 txs w1 w2 sims,
    begin_ro_txn (E := JsonRpcError) w = Done w1 storage /\
    BlockNotRevertedValidator_new b storage = Done txn1 validator /\
    collect_results (fun tx => stored_txn_to_executable_txn tx (right_before_block b)) (map (fun x => x.1.1) body) storage = Done txn2 txs /\
    exec_simulate_transactions txs (Some (map snd body)) (server_chain_id self) None (right_before_block b) b (server_execution_config self)
      true true DONT_IGNORE_L1_DA_MODE w1 = Done w2 sims /\
    validate_not_reverted validator w2 = Done w' tt /\
    traces = (fun '(output, hash) => mkTransactionTraceWithHash hash
      (RpcTransactionTrace_from (TransactionSimulationOutput_transaction_trace output) (TransactionSimulationOutput_induced_state_diff output)))
        <$> zip sims (map snd body).
Proof.
  intros Hw Hok Hnp Hres Hbody Hrun. pose proof (resolve_range _ _ _ _ Hs _ _ Hok Hres) as Hb.
  unfold trace_block_transactions in Hrun. rewrite Hnp in Hrun.
  assert (Hbegin : begin_ro_txn (E := JsonRpcError) w = Done (mkWorld (snapshot_at w) (S (transactions_begun w)) (missing_compiled_class w)) storage).
  { unfold begin_ro_txn. by rewrite Hw. }
  rewrite (bind_step _ _ _ _ _ Hbegin), bind_ret in Hrun.
  assert (Haccepted : get_accepted_block_number block_id storage = Done storage b) by (by rewrite (get_accepted_rel _ _ _ _ Hs Hlen _ Hok), Hres).
  rewrite (bind_step _ _ _ _ _ (on_txn_done _ _ _ _ _ Haccepted)) in Hrun.
  apply bind_Done in Hrun as (? & validator & [-> [txn1 Hval]]%on_txn_inv & Hrun).
  assert (Htraced : traced_block None b storage = Done storage (None, map (fun x => x.1.1) body, map snd body, right_before_block b)).
  { unfold traced_block.
    rewrite (bind_step _ _ _ _ _ (internal_done _ _ _ (get_block_transactions_rel _ _ b (ss_bodies _ _ _ _ Hs) (proj1 Hb)))), Hbody.
    cbn [fmap option_fmap option_map ok_or_raise]. rewrite bind_ret.
    rewrite (bind_step _ _ _ _ _ (internal_done _ _ _ (get_block_transaction_hashes_rel _ _ b (ss_bodies _ _ _ _ Hs) (proj1 Hb)))), Hbody. done. }
  rewrite (bind_step _ _ _ _ _ (on_txn_done _ _ _ _ _ Htraced)) in Hrun. cbn beta iota in Hrun.
  apply bind_Done in Hrun as (? & txs & [-> [txn2 Htxs]]%on_txn_inv & Hrun).
  apply bind_Done in Hrun as (w2 & [sims|e] & Hspawn & Hrun); [|by inv_run].
  cbn [try_from_result] in Hrun. rewrite bind_ret in Hrun. apply bind_Done in Hrun as (w3 & [] & Hvalid & Hrun). unfold ret in Hrun. injection Hrun as <- <-.
  do 7 eexists. split_and!; [exact Hbegin|exact Hval|exact Htxs|by apply spawn_inv|exact Hvalid|reflexivity].
Qed.

(** What the trace of a transaction executes. *)
Lemma traced_transactions_rel self b i body x txn txs1 :
  0 <= b -> lookup_z bs b = Some body -> lookup_z body i = Some x ->
  x.2 ∉ TransactionReceipt_transaction_hash <$> pending_transaction_receipts (PendingData_block (shown_pending l ds (rpc_pending_data (server self)))) ->
  collect_results (fun tx => stored_txn_to_executable_txn tx (right_before_block b)) (take (Z.to_nat i + 1) (map (fun x => x.1.1) body)) storage = Done txn txs1 ->
  traced_transactions self x.2 storage = Done txn (None, txs1, map snd body, b, right_before_block b).
Proof.
  intros Hb Hbody Hx Hpending Htxs. unfold traced_transactions. rewrite (bind_step _ _ _ _ _ (read_pending_rel _ _ _ _ Hs Hlen _)).
  destruct (list_find _ _) as [[j r]|] eqn:Hfind.
  { apply list_find_Some in Hfind as (Hj & Hr & _). destruct Hpending. apply list_elem_of_fmap. exists r. split; [done|]. by eapply list_elem_of_lookup_2. }
  assert (Hitem : item bs (b, i) = Some x) by (unfold item; cbn; by rewrite Hbody).
  rewrite (bind_step _ _ _ _ _ (internal_done _ _ _ (get_index_rel _ _ _ _ Hs _ _ Hitem))). cbn [ok_or_raise]. rewrite bind_ret.
  rewrite (bind_step _ _ _ _ _ (internal_done _ _ _ (get_block_transactions_rel _ _ b (ss_bodies _ _ _ _ Hs) Hb))), Hbody.
  cbn [fmap option_fmap option_map ok_or_raise]. rewrite bind_ret.
  rewrite (bind_step _ _ _ _ _ (internal_done _ _ _ (get_block_transaction_hashes_rel _ _ b (ss_bodies _ _ _ _ Hs) Hb))), Hbody.
  cbn [fmap option_fmap option_map ok_or_raise]. rewrite bind_ret. by rewrite (bind_step _ _ _ _ _ Htxs).
Qed.

Lemma last_take {A} (xs : list A) k x : xs !! k = Some x -> last (take (k + 1) xs) = Some x.
Proof.
  intros Hk. rewrite last_lookup, length_take. pose proof (lookup_lt_Some _ _ _ Hk). replace (pred _) with k by lia. by rewrite lookup_take_lt by lia.
Qed.

(** C14: While the storage is at rest, the trace of a transaction of a stored block is the
    one that the trace of the block has for it; and the trace of a block has the
    transactions of the block, in their order. *)
Theorem transaction_trace_in_block self block_id b i body x w w' traces :
  at_rest w -> block_id_ok block_id -> is_pending block_id = false -> resolve l ds block_id = Some b ->
  lookup_z bs b = Some body -> lookup_z body i = Some x ->
  x.2 ∉ TransactionReceipt_transaction_hash <$> pending_transaction_receipts (PendingData_block (shown_pending l ds (rpc_pending_data (server self)))) ->
  trace_block_transactions self block_id w = Done w' traces ->
  TransactionTraceWithHash_transaction_hash <$> traces = body.*2 /\
  exists w'' trace, trace_transaction self x.2 w = Done w'' trace /\ lookup_z traces i = Some (mkTransactionTraceWithHash x.2 trace).
Proof.
  intros Hw Hok Hnp Hres Hbody Hx Hpending Hrun.
  destruct (trace_block_inv self block_id b body w w' traces) as (txn1 & validator & txn2 & txs & w1 & w2 & sims & Hbegin & Hval & Htxs & Hsim & Hvalid & ->); try done.
  pose proof (resolve_range _ _ _ _ Hs _ _ Hok Hres) as Hb. pose proof (lookup_z_Some _ _ _ Hx) as Hi. unfold zlength in Hi.
  pose proof (collect_length _ _ _ _ _ Htxs) as Hlt. rewrite length_map in Hlt.
  rewrite <-(take_drop (Z.to_nat i + 1) (map _ body)) in Htxs.
  apply collect_app in Htxs as (txn3 & txs1 & txs2 & Htxs & _ & -> & Hlen1). rewrite length_take, length_map in Hlen1.
  assert (Hle : (length (txs1 ++ txs2) <= length (map snd body))%nat) by (rewrite length_map; lia).
  destruct (simulate_prefix _ _ _ _ _ _ _ _ _ _ _ _ _ _ Hle Hsim)
    as (Hsims & w3 & Hsim1). rewrite Hlt in Hsims. replace (length txs1) with (Z.to_nat i + 1)%nat in Hsim1 by lia.
  assert (Hk1 : snapshot_at w1 = snapshot_at w) by (unfold begin_ro_txn in Hbegin; by simplify_eq).
  apply simulate_keeps in Hsim as Hk2; [|lia]. apply simulate_keeps in Hsim1 as Hk3; [|lia].
  destruct (validate_at_rest validator w2 w' w3) as [w4 Hvalid']; [intros k; by rewrite Hk2, Hk1|congruence|done|].
  destruct (lookup_lt_is_Some_2 sims (Z.to_nat i)) as [sim Hsim_i]; [lia|].
  split.
  - rewrite <-list_fmap_compose. transitivity (snd <$> zip sims (map snd body)); [apply list_fmap_ext; by intros ? []|]. apply snd_zip. rewrite length_map. lia.
  - exists w4, (RpcTransactionTrace_from (TransactionSimulationOutput_transaction_trace sim) (TransactionSimulationOutput_induced_state_diff sim)). split.
    + unfold trace_transaction. rewrite (bind_step _ _ _ _ _ Hbegin).
      rewrite (bind_step _ _ _ _ _ (on_txn_done _ _ _ _ _ (traced_transactions_rel self b i body x _ _ (proj1 Hb) Hbody Hx Hpending Htxs))). cbn beta iota.
      rewrite (bind_step _ _ _ _ _ (on_txn_done _ _ _ _ _ Hval)), (bind_step _ _ _ _ _ (spawn_done _ _ _ _ Hsim1)).
      cbn [try_from_result]. rewrite bind_ret, (bind_step _ _ _ _ _ Hvalid'), (last_take _ _ _ Hsim_i). done.
    + rewrite lookup_z_fmap. unfold lookup_z in *. rewrite (proj2 (Z.leb_le 0 i)) in * by lia. rewrite lookup_zip_with, Hsim_i.
      cbn. change (map snd body) with (snd <$> body). rewrite list_lookup_fmap, Hx. done.
Qed.

(** ** Fee estimates *)

Definition revert_reason_of (output : TransactionExecutionOutput) : option rstring :=
  TransactionExecutionInfo_revert_error (TransactionExecutionOutput_execution_info output).

Lemma estimate_loop_spec i outputs ctx acc : estimate_loop i outputs ctx acc =
  match list_find (fun output => is_Some (revert_reason_of output)) outputs with
  | Some (j, output) => inr (mkRevertedTransaction (i + Z.of_nat j) (default [] (revert_reason_of output)))
  | None => inl (acc ++ ((fun output => tx_execution_output_to_fee_estimation output ctx) <$> outputs))
  end.
Proof.
  revert i acc. induction outputs as [|output outputs IH]; intros i acc; cbn [estimate_loop list_find]; [by rewrite app_nil_r|].
  fold (revert_reason_of output). destruct (revert_reason_of output) as [reason|] eqn:Hr.
  - rewrite decide_True by done. cbn. by rewrite Hr, Z.add_0_r.
  - rewrite decide_False by apply is_Some_None. rewrite IH. destruct (list_find _ outputs) as [[j o]|]; cbn.
    + do 2 f_equal. lia.
    + by rewrite <-app_assoc.
Qed.

Lemma steady_keeps {E A} (m : M World E A) w : steady (snapshot_at w) (snapshot_at w) (fun _ => True) m ->
  match m w with Done v _ | Fail v _ => snapshot_at v = snapshot_at w | Panic => True end.
Proof. intros Hm. specialize (Hm w w). destruct (m w); [|by destruct Hm as [(? & _) _]|done]. by destruct Hm as [(? & _) _]. Qed.

Lemma validator_done b w : 0 <= b < zlength ds -> at_rest w ->
  exists validator, BlockNotRevertedValidator_new b storage = Done storage validator /\
    (forall v, snapshot_at v = snapshot_at w -> exists v', validate_not_reverted validator v = Done v' tt).
Proof.
  intros Hb Hw. pose proof (diffs_small _ _ _ _ Hs). destruct (proj2 (lookup_z_is_Some l b) ltac:(lia)) as [x Hx].
  assert (Hh : internal (get_block_header b) storage = Done storage (Some x.1)).
  { apply internal_done. rewrite (get_block_header_rel _ _ _ (ss_headers _ _ _ _ Hs)) by lia. by rewrite Hx. }
  exists (mkBlockNotRevertedValidator b (BlockHeader_block_hash x.1)). split.
  - unfold BlockNotRevertedValidator_new. by rewrite (bind_step _ _ _ _ _ Hh).
  - intros v Hsv. unfold validate_not_reverted, begin_ro_txn, bind. rewrite Hsv, Hw. cbn [validator_block_number]. rewrite (on_txn_done _ _ _ _ _ Hh).
    cbn. rewrite Z.eqb_refl. by eexists.
Qed.

Lemma execute_transactions_length txs chain_id pending state_number n config charge_fee validate override w w' outputs ctx :
  execute_transactions txs None chain_id pending state_number n config charge_fee validate override w = Done w' (outputs, ctx) ->
  length outputs = length txs.
Proof.
  unfold execute_transactions. intros (v0 & u & _ & (v1 & [st ctx1] & _ & (v2 & hashed & Hhashed & (v3 & outs & Hloop & Hret)%bind_Done)%bind_Done)%bind_Done)%bind_Done.
  unfold ret in Hret. injection Hret as _ -> _. apply execute_loop_length in Hloop. rewrite Hloop, length_zip_with.
  unfold calc_tx_hashes in Hhashed. apply bind_Done in Hhashed as (v4 & pairs & Hpairs & Hret2). unfold ret in Hret2. injection Hret2 as _ <-.
  apply collect_length in Hpairs. cbn [fst snd]. rewrite !length_fmap. lia.
Qed.

(** The pending data of a request. *)
Definition request_pending (self : ExecutingServer) (block_id : BlockId) : option ExecutionPendingData :=
  if is_pending block_id
  then Some (client_pending_data_to_execution_pending_data (shown_pending l ds (rpc_pending_data (server self))) (rpc_pending_classes (server self)))
  else None.

Lemma requested_pending_done self block_id w : requested_pending_data self block_id storage w = Done w (request_pending self block_id).
Proof.
  unfold requested_pending_data, request_pending. destruct (is_pending block_id); [|done].
  by rewrite (bind_step _ _ _ _ _ (on_txn_done _ _ _ _ _ (read_pending_rel _ _ _ _ Hs Hlen _))).
Qed.

(** The world in which the execution starts. *)
Definition after_begin (w : World) : World := mkWorld (snapshot_at w) (S (transactions_begun w)) (missing_compiled_class w).

(** What an estimate of fees answers, given what the execution of all transactions
    without fees returns. *)
Definition fee_answer (executed : option (list TransactionExecutionOutput * BlockContext + ExecutionError)) :
    list FeeEstimation + JsonRpcError :=
  match executed with
  | Some (inl (outputs, ctx)) =>
      match list_find (fun output => is_Some (revert_reason_of output)) outputs with
      | Some (j, output) => inr (TransactionExecutionError_into (Z.of_nat j) (default [] (revert_reason_of output)))
      | None => inl ((fun output => tx_execution_output_to_fee_estimation output ctx) <$> outputs)
      end
  | Some (inr _) | None => inr internal_server_error
  end.

(** C40: An estimate of fees never panics while the storage is at rest: it has one fee per
    transaction, in their order, unless one reverts, whose first index and reason are
    the error; every error and panic of the execution is an internal error, and a
    block that is not there is not found. *)
Theorem fee_estimates_answer self transactions txs flags block_id w :
  at_rest w -> block_id_ok block_id ->
  (forall v : World, collect_results broadcasted_to_executable transactions v = Done v txs) ->
  let executed b := value (execute_transactions txs None (server_chain_id self) (request_pending self block_id) (unchecked_right_after_block b) b
    (server_execution_config self) false (negb (bool_decide (SimulationFlag_SkipValidate ∈ flags))) false (after_begin w)) in
  value (estimate_fee self transactions flags block_id w) =
    match resolve l ds block_id with
    | None => Some (inr BLOCK_NOT_FOUND)
    | Some b => Some (fee_answer (executed b))
    end /\
  (forall b outputs ctx, executed b = Some (inl (outputs, ctx)) -> length outputs = length transactions).
Proof.
  intros Hw Hok Htxs executed. split.
  - unfold estimate_fee. assert (Hbegin : begin_ro_txn (E := JsonRpcError) w = Done (after_begin w) storage) by (unfold begin_ro_txn; by rewrite Hw).
    rewrite (bind_step _ _ _ _ _ Hbegin), (bind_step _ _ _ _ _ (requested_pending_done self block_id _)), (bind_step _ _ _ _ _ (Htxs _)).
    pose proof (get_accepted_rel _ _ _ _ Hs Hlen _ Hok) as Haccepted. destruct (resolve l ds block_id) as [b|] eqn:Hres; cbn [found_or] in Haccepted.
    2: { unfold bind at 1, on_txn at 1. by rewrite Haccepted. }
    pose proof (resolve_range _ _ _ _ Hs _ _ Hok Hres) as Hb. rewrite (bind_step _ _ _ _ _ (on_txn_done _ _ _ _ _ Haccepted)).
    destruct (validator_done b (after_begin w) Hb Hw) as (validator & Hval & Hvalid). rewrite (bind_step _ _ _ _ _ (on_txn_done _ _ _ _ _ Hval)).
    unfold executed. unfold DONT_IGNORE_L1_DA_MODE. unfold bind at 1, spawn_blocking, exec_estimate_fee, bind at 1.
    pose proof (steady_keeps _ _ (steady_execute_transactions (unchecked_right_after_block b) b (proj1 Hb) _ _ (views_refl _ _ (snapshot_at (after_begin w)))
      (request_pending self block_id) (next_version_refl _ _ _) txs None (server_chain_id self) (server_execution_config self) false
      (negb (bool_decide (SimulationFlag_SkipValidate ∈ flags))) false)) as Hkeeps.
    destruct (execute_transactions _ _ _ _ _ _ _ _ _ _ _) as [v [outputs ctx]|v e|]; [| |done].
    + destruct (Hvalid v Hkeeps) as [v' Hv']. cbn [ret fst snd]. rewrite (bind_step _ _ _ _ _ Hv'). rewrite estimate_loop_spec. cbn [value fee_answer].
      by destruct (list_find _ outputs) as [[j o]|].
    + destruct (Hvalid v Hkeeps) as [v' Hv']. by rewrite (bind_step _ _ _ _ _ Hv').
  - intros b outputs ctx. unfold executed, value. specialize (Htxs w). apply collect_length in Htxs. rewrite <-Htxs.
    destruct (execute_transactions _ _ _ _ _ _ _ _ _ _ _) as [v [outputs' ctx']|v e|] eqn:Hrun; [|done|done].
    intros [= -> ->]. by eapply execute_transactions_length.
Qed.
End Prefix.

(** ** A small blockifier *)

#[local] Existing Instance stark_felt.
#[local] Existing Instance zero_bounds.
#[local] Existing Instance demo_crates.
#[local] Existing Instance demo_block_api.
#[local] Existing Instance poly_crates.
#[local] Existing Instance demo_numbers.
#[local] Existing Instance NodeConfig.demo_types.

#[local] Instance demo_before : StateBeforeApi (SN := demo_state_numbers) := {| right_before_block b := b; right_before_spec b := eq_refl |}.

#[local] Instance demo_exec_types : BlockifierTypes := {|
  ProgramError := unit; ContractClassV0 := unit; ContractClassV1 := unit; ContractClassV0_try_from _ := inl tt; ContractClassV1_try_from _ := inl tt;
  program_error_to_string _ := []; VersionedConstants := unit; latest_constants := tt; versioned_constants_of_file _ := Some tt; BlockifierError := unit;
  BlockifierError_of_program_error e := e; blockifier_error_to_string _ := []; ContractClassError := unit
|}.

(** A call that returns a value, in a transaction that pays a fee of 9 and has 5 units
    of data availability gas. *)
Definition demo_call_info (v : Z) : CallInfo :=
  mkCallInfo (mkCallEntryPoint (Some 50) (Some 7) DeprecatedEntryPointType_External 3 [4] 7 0 BlockifierCallType_Call 0) (mkCallExecution [v] [] [])
    (mkVmExecutionResources 100 [(BuiltinName_output, 2); (BuiltinName_pedersen, 3)] 0) [].

Definition demo_info (v : Z) (revert : option rstring) : TransactionExecutionInfo :=
  mkTransactionExecutionInfo (Some (demo_call_info v)) (Some (demo_call_info v)) (Some (demo_call_info v)) revert
    (mkBlockifierReceipt 9 (mkGasVector 8 7) (mkGasVector 5 6)).

(** A transaction reads the cell 10 of contract 7, returns its value plus the number of
    transactions before it, and reverts when that is 2. *)
#[local] Instance demo_blockifier : Blockifier := {|
  CachedState := Z; TransactionalState := Z; CachedState_new := 0; create_transactional st := st; commit st := st;
  parent_class_hash_at a st := Prog_read (Query_class_hash_at a) (fun r => Prog_ret (st, r));
  to_state_diff st := Prog_ret (st, inl (mkCommitmentStateDiff [(7, 51); (8, 52)] [] [(7, [(10, st)])] []));
  pre_process_block _ _ st := Prog_ret (st, None);
  BlockifierTransaction := Transaction; BlockifierTransactionExecutionError := unit; transaction_error_to_string _ := []; ClassInfo := unit;
  ClassInfo_new _ _ _ := inl tt; from_api tx _ _ _ _ _ := inl tx;
  transaction_execute _ _ _ _ st :=
    Prog_read (Query_storage_at 7 10) (fun r => Prog_ret (st + 1,
      match r with inl v => inl (demo_info (v + st) (if st =? 2 then Some [1] else None)) | inr _ => inr tt end));
  EntryPointExecutionContext := unit; new_invoke _ _ := inl tt;
  entry_point_execute _ _ st := Prog_read (Query_storage_at 7 10) (fun r => Prog_ret (st, match r with inl v => inl (demo_call_info v) | inr _ => inr tt end));
  BlockifierError_of_state_error _ := tt
|}.

#[local] Instance demo_exec_crates : ExecCrates := {|
  abi_to_python_json _ := Some []; base64_decode := Some; gunzip := Some; program_from_reader _ := Some (mkProgram tt tt tt tt tt tt tt tt tt tt)
|}.

Definition demo_exec_config : ExecutionConfig := mkExecutionConfig ("0x1" : NodeAddress (NodeTypes := NodeConfig.demo_types)) "0x2" 10.
Definition demo_executing : ExecutingServer := mkExecutingServer demo_server false demo_exec_config.

(** A block is appended after the first read. *)
Definition demo_growing : World := mkWorld (fun k => if Nat.eqb k 0 then one_diff else synced) 0 None.

Definition demo_input : ExecutableTransactionInput := ExecutableTransactionInput_L1Handler (mkL1HandlerTransaction 0 1 7 3 [4]) 1 false.

Lemma no_classes t state_number h : t_casms t = ∅ -> t_deprecated_declared_classes t = ∅ ->
  value (get_casm h t) = Some (inl None) /\ value (get_deprecated_class_definition_at state_number h t) = Some (inl None).
Proof.
  intros Hc Hd. split; [unfold get_casm|unfold get_deprecated_class_definition_at]; unfold bind at 1, get, tbl_get; [rewrite Hc|rewrite Hd]; by rewrite lookup_empty.
Qed.

Lemma demo_growing_cases (P : StorageTxn -> Prop) : P one_diff -> P synced -> forall k, P (snapshot_at demo_growing k).
Proof. intros H1 H2 [|k]; [exact H1|exact H2]. Qed.

Lemma demo_growing_appended : only_appended [thin_of deploying] two_headers demo_growing.
Proof.
  intros k. pattern (snapshot_at demo_growing k). apply demo_growing_cases.
  - exists [], []. rewrite !app_nil_r. split; [exact (ss_state _ _ _ _ one_diff_rel)|exact (ss_headers _ _ _ _ one_diff_rel)].
  - exists [thin_of writing], []. rewrite !app_nil_r. split; [exact (ss_state _ _ _ _ synced_rel)|exact (ss_headers _ _ _ _ synced_rel)].
Qed.

Lemma demo_growing_classes state_number : classes_settled state_number (zlength [thin_of deploying]) demo_growing.
Proof.
  assert (Hd : forall k, t_declared_classes_block (snapshot_at demo_growing k) = ∅) by (apply (demo_growing_cases (fun t => t_declared_classes_block t = ∅)); vm_compute; reflexivity).
  assert (Hc : forall k h, value (get_casm h (snapshot_at demo_growing k)) = Some (inl None) /\
    value (get_deprecated_class_definition_at state_number h (snapshot_at demo_growing k)) = Some (inl None)).
  { intros k h. apply no_classes; revert k;
      [apply (demo_growing_cases (fun t => t_casms t = ∅))|apply (demo_growing_cases (fun t => t_deprecated_declared_classes t = ∅))]; vm_compute; reflexivity. }
  split.
  - intros k j. by rewrite !Hd.
  - intros k h b. by rewrite Hd, lookup_empty.
  - intros k j h. by rewrite (proj1 (Hc k h)), (proj1 (Hc j h)).
  - intros k j h. by rewrite (proj2 (Hc k h)), (proj2 (Hc j h)).
Qed.

(** What a call returned. *)
Definition returned {E} (result : option (CallExecution + E)) : option (list Z) :=
  match result with Some (inl execution) => Some (CallExecution_retdata execution) | _ => None end.

(** The call sees the value 11 of block 0 and the later block does not matter. *)
Lemma execution_sees_one_state_witness :
  only_appended [thin_of deploying] two_headers demo_growing /\
  returned (value (execute_call None false (1 : StateNumber (StateNumberApi := demo_state_numbers)) 0 7 3 [] demo_exec_config false demo_growing)) =
    Some [11].
Proof.
  split; [exact demo_growing_appended|].
  destruct (execution_sees_one_state (1 : StateNumber (StateNumberApi := demo_state_numbers)) [thin_of deploying] two_headers 0 demo_growing
    (chain_header 0 100 0, Some demo_sig) None) as (_ & _ & Hcall);
    [done|done|reflexivity|reflexivity|exact demo_growing_appended|apply demo_growing_classes|by intros []|].
  rewrite Hcall. vm_compute. reflexivity.
Defined.

Definition demo_resting : World := mkWorld (fun _ => synced) 0 None.

Definition demo_traces : list TransactionTraceWithHash :=
  match trace_block_transactions demo_executing (BlockId_HashOrNumber (RpcBlockHashOrNumber_Number 1)) demo_resting with Done _ traces => traces | _ => [] end.

Lemma transaction_trace_in_block_witness :
  exists w' trace, trace_transaction demo_executing 1101 demo_resting = Done w' trace /\ lookup_z demo_traces 0 = Some (mkTransactionTraceWithHash 1101 trace).
Proof.
  assert (Hrun : exists w', trace_block_transactions demo_executing (BlockId_HashOrNumber (RpcBlockHashOrNumber_Number 1)) demo_resting = Done w' demo_traces).
  { unfold demo_traces. destruct (trace_block_transactions _ _ _) as [w' traces| |] eqn:Hrun; [by eexists| |]; vm_compute in Hrun; discriminate Hrun. }
  destruct Hrun as [w' Hrun].
  assert (Hrest : at_rest synced demo_resting) by (intros k; reflexivity).
  assert (Hlen : zlength two_headers < 2 ^ 32) by reflexivity.
  assert (Hpending : 1101 ∉ TransactionReceipt_transaction_hash <$>
    pending_transaction_receipts (PendingData_block (shown_pending two_headers two_diffs (rpc_pending_data (server demo_executing))))).
  { apply (bool_decide_unpack _). vm_compute. exact I. }
  pose proof (transaction_trace_in_block synced two_headers two_bodies two_diffs synced_rel Hlen demo_executing
    (BlockId_HashOrNumber (RpcBlockHashOrNumber_Number 1)) 1 0 (body_items (demo_body 1101)) (StorageWitnesses.demo_transaction, StorageWitnesses.demo_output, 1101)
    demo_resting w' demo_traces Hrest ltac:(cbn; lia) eq_refl eq_refl eq_refl eq_refl Hpending Hrun) as (Hhashes & w'' & trace & Htrace & Hfound).
  exists w'', trace. split; [exact Htrace|exact Hfound].
Defined.

Definition demo_invokes (count : nat) : list BroadcastedTransaction := replicate count (BroadcastedTransaction_Invoke demo_invoke).

Definition demo_executables (count : nat) : list ExecutableTransactionInput :=
  replicate count (ExecutableTransactionInput_Invoke (InvokeTransaction_from_rpc demo_invoke) false).

Lemma demo_invokes_executable count (v : World) : collect_results broadcasted_to_executable (demo_invokes count) v = Done v (demo_executables count).
Proof.
  induction count as [|count IH]; [reflexivity|]. unfold demo_invokes, demo_executables in *. cbn [replicate collect_results broadcasted_to_executable].
  rewrite bind_ret, (bind_step _ _ _ _ _ IH). reflexivity.
Qed.

(** The third transaction reverts; two are fine. *)
Lemma fee_estimates_answer_witness :
  value (estimate_fee demo_executing (demo_invokes 3) [] (BlockId_Tag Tag_Latest) demo_resting) = Some (inr (TransactionExecutionError_into 2 [1])) /\
  match value (estimate_fee demo_executing (demo_invokes 2) [] (BlockId_Tag Tag_Latest) demo_resting) with
  | Some (inl fees) => FeeEstimation_overall_fee <$> fees
  | _ => []
  end = [9; 9].
Proof.
  assert (Hrest : at_rest synced demo_resting) by (intros k; reflexivity).
  assert (Hlen : zlength two_headers < 2 ^ 32) by reflexivity.
  split.
  - pose proof (proj1 (fee_estimates_answer synced two_headers two_bodies two_diffs synced_rel Hlen demo_executing (demo_invokes 3) (demo_executables 3) []
      (BlockId_Tag Tag_Latest) demo_resting Hrest I (demo_invokes_executable 3))) as ->. vm_compute. reflexivity.
  - pose proof (proj1 (fee_estimates_answer synced two_headers two_bodies two_diffs synced_rel Hlen demo_executing (demo_invokes 2) (demo_executables 2) []
      (BlockId_Tag Tag_Latest) demo_resting Hrest I (demo_invokes_executable 2))) as ->. vm_compute. reflexivity.
Defined.

(** ** Answers that may surprise *)

(** The data availability gas of a transaction is reported in each of its invocations
    and summed up: three times in all. *)
Example da_gas_counted_thrice :
  match InvokeTransactionTrace_try_from (demo_info 11 None) tt with
  | Done _ trace =>
      match RpcTransactionTrace_from (TransactionTrace_Invoke trace) (mkThinStateDiff [] [] [] [] [] []) with
      | RpcTransactionTrace_Invoke trace =>
          DataAvailabilityResources_l1_gas (RpcExecutionResources_data_availability (RpcInvokeTransactionTrace_execution_resources trace))
      | _ => 0
      end
  | _ => 0
  end = 3 * GasVector_l1_gas (BlockifierReceipt_da_gas (TransactionExecutionInfo_transaction_receipt (demo_info 11 None))).
Proof. vm_compute. reflexivity. Qed.

(** On top of block 9, the pending block is block 10, which needs the hash of block 0,
    but none is passed on. *)
Example pending_block_without_old_hash pending w :
  (exists fields, block_fields 9 (Some pending) w = Done w (10, fields.1.1.1.1, fields.1.1.1.2, fields.1.1.2, fields.1.2, fields.2)) /\
  get_10_blocks_ago 9 w = Done w None.
Proof.
  split; [|reflexivity].
  exists (ExecutionPendingData_timestamp pending, ExecutionPendingData_l1_gas_price pending, ExecutionPendingData_l1_data_gas_price pending,
    ExecutionPendingData_sequencer pending, ExecutionPendingData_l1_da_mode pending). reflexivity.
Qed.

(** A declaration that is simulated declares the class 0. *)
Example simulated_declaration_of_zero (class : WriterDeprecatedContractClass) program (s : World) :
  decompress_program (S := World) (WriterDeprecatedContractClass_compressed_program class) s = Done s program ->
  exists tx, declare_to_executable (BroadcastedDeclareTransaction_V1 (mkBroadcastedDeclareV1Transaction BroadcastedDeclareType_Declare class 7 0 1 [])) s =
    Done s tx /\ deprecated_declared_class_hash_of tx = Some 0.
Proof.
  intros Hp. cbn [declare_to_executable]. unfold user_deprecated_contract_class_to_sn_api. cbn [BroadcastedDeclareV1Transaction_contract_class].
  rewrite bind_assoc, (bind_step _ _ _ _ _ Hp), bind_ret. unfold calculate_deprecated_class_abi_length. cbn [DeprecatedContractClass_abi].
  destruct (WriterDeprecatedContractClass_abi class); cbn; by eexists.
Qed.
